(* ===== verification/_CoqProject ===== *)
-Q . S2P
Prelude.v
Bytes.v
RustStr.v
MqttTypes.v
MqttCommon.v
MqttV4.v
V5Props.v
V5PropDefs.v
V5PropSets.v
V5Packets.v
V5Wire.v
V5Safety.v
MqttCodec.v
CodecSafety.v
CodecTheorems.v
CodecDeviations.v
Storage.v
MemoryStorage.v
RocksEngine.v
RocksStorage.v
RocksRefine.v
Topics.v
Subscriptions.v
MessageStorage.v
DelayMessages.v
Acl.v
BrokerCache.v
Security.v
Responses.v
ResponseEncoding.v
SchemaRegister.v
Broker.v
Service.v
ServiceFrame.v
Server.v
Samples.v
ServerCore.v
Answers.v
LoginTheorems.v
PublishTheorems.v
QosTheorems.v
ServerDeviations.v
ExclusivePush.v
PushTheorems.v
PlacementStore.v
PlacementCache.v
PlacementRoute.v
RaftLog.v
RaftMachine.v
KvService.v
PlacementAdapter.v
PlacementRefine.v
KvFacts.v
Replication.v
Snapshots.v
InnerCalls.v
JournalService.v
JournalTables.v
JournalFacts.v
JournalInv.v
PlacementSamples.v
PlacementTheorems.v
KvTheorems.v
JournalCodec.v
SegmentFile.v
SegmentFacts.v
JournalIndex.v
JournalNode.v
JournalServer.v
JournalIndexFacts.v
JournalNodeFacts.v
JournalLog.v
JournalRestart.v
JournalSamples.v
JournalServerTheorems.v
