(* ===== verification/Prelude.v ===== *)
(** * RobustMQ in Rocq

    RobustMQ is a message broker in Rust: clients speak MQTT 3.1, 3.1.1 or 5 to
    a broker, which keeps its messages in a store behind a storage interface
    and its metadata in a placement center; a journal server keeps logs in
    segment files.  This library is a shallow embedding of the MQTT side of it,
    from the octets of a connection to the records of the store and back to a
    subscriber, of the metadata side, from a command of the placement center to
    its replicas, and of the journal, from the octets of a request to the files
    of a segment, with the theorems about them.

    ** The program and its model

    A connection delivers octets.  The codec ([src/protocol/src/mqtt]) cuts
    them into frames and frames into packets.  A request task of the server
    ([mqtt-broker/src/server/tcp]) hands each packet to [Command::apply]
    ([handler/command.rs]), which calls a method of [MqttService]
    ([handler/mqtt.rs]).  The method validates the packet, consults the
    metadata cache, the access rules and the schemas, writes to the store or to
    the subscription index, and answers with a packet, which a response task
    encodes and sends.  For every subscription a push task reads the log of a
    topic and sends its messages.

    The placement center ([placement-center/src]) keeps the metadata of the
    cluster: a service makes a command of a request and hands it to Raft, every
    node applies the commands of the log with its routes to the storages and
    the caches, and reads are answered from the node that is asked.

    A journal node ([journal-server/src]) learns of shards and segments from
    the placement center, which sends it notices.  The leader of a segment
    takes requests of clients: a write goes to the thread of the segment, which
    numbers the records and appends them to its file, a read goes to the file,
    by way of the indexes that another thread builds in RocksDB.  The node
    reports to the placement center when segments fill up, and reads its
    metadata from there and from its own index when it starts.

    Codec.
    - [Bytes.v], [RustStr.v]: octets, machine integers, the [bytes] crate,
      UTF-8, the functions of [str].
    - [MqttTypes.v], [MqttCommon.v]: the types of [mqtt/common.rs], the fixed
      header, the remaining length, the fields.
    - [MqttV4.v]: [mqttv4/*.rs], every [len], [read] and [write].
    - [V5Props.v], [V5PropDefs.v], [V5PropSets.v]: the [properties] modules of
      [mqttv5/*.rs]; the class [PropertySet] is what a packet relies on.
    - [V5Packets.v], [V5Wire.v], [V5Safety.v]: the packets of [mqttv5/*.rs].
    - [MqttCodec.v]: [mqtt/codec.rs], [mqttv4/codec.rs], [mqttv5/codec.rs],
      each of the codecs and the size computation with the tables of its own.
      The state of [MqttCodec] is its protocol version.

    Storage.
    - [Storage.v]: the trait of [storage-adapter/src/storage.rs] as a class of
      operations, the abstract store [LogSpec] of logs and committed offsets,
      and [LogStore], the promise that the operations implement it.
    - [MemoryStorage.v]: [storage-adapter/src/memory/mod.rs].
    - [RocksEngine.v]: [common/rocksdb-engine/src].
    - [RocksStorage.v], [RocksRefine.v]: [storage-adapter/src/rocksdb/mod.rs].
    - [PlacementAdapter.v], [PlacementRefine.v]:
      [storage-adapter/src/placement/mod.rs] over the class [KvClient] of the
      calls of the key-value service.
    - [MessageStorage.v]: [mqtt-broker/src/storage/message.rs] over any store,
      and messages as records.
    - [DelayMessages.v]: the crate [delay-message].

    Broker.
    - [Topics.v]: topic names and paths, [subscribe/sub_common.rs],
      [handler/topic.rs].
    - [Subscriptions.v]: [subscribe/subscribe_manager.rs] and the handlers of
      subscriptions.
    - [Acl.v], [Security.v]: [security/], the rules, the black list, the login.
    - [BrokerCache.v]: [handler/cache.rs].
    - [Responses.v]: [handler/response.rs].
    - [SchemaRegister.v]: the crate [schema-register].
    - [Broker.v]: the record [Broker] of all that the handlers share, and the
      helpers of [handler/] and [storage/].
    - [Service.v]: [handler/validator.rs], [handler/mqtt.rs],
      [handler/command.rs].
    - [Server.v]: the tasks of [server/tcp] and the check of the heartbeats of
      [handler/keep_alive.rs], as steps on the record [Server]: one TCP
      listener with its queue of answers, and a configuration of the cluster
      that stays as it is.
    - [ExclusivePush.v]: [subscribe/exclusive_push.rs] and the sending
      functions of [subscribe/sub_common.rs].
    - [Samples.v]: a small server with concrete parameters.

    Placement center.
    - [PlacementStore.v]: the layout of the keys and the storages of
      [storage/].
    - [PlacementCache.v]: [core/cache.rs], [journal/cache.rs],
      [mqtt/cache.rs].
    - [PlacementRoute.v]: [route/], every command on the record
      [PlacementNode] of database, caches and clock.
    - [RaftLog.v]: [raft/store/log_store.rs] and the abstract log.
    - [RaftMachine.v]: [raft/store/state_machine_store.rs] and
      [route/apply.rs]; [openraft] is the class [OpenRaft].
    - [Replication.v], [Snapshots.v]: two nodes side by side, and a node that
      starts from a snapshot.
    - [InnerCalls.v]: the channels to the nodes of
      [journal/controller/call_node.rs].
    - [JournalService.v]: [journal/services/], [journal/controller/] and
      [server/grpc/service_journal.rs]; [JournalTables.v], [JournalFacts.v],
      [JournalInv.v]: the caches of the journal against the database.
    - [KvService.v], [KvFacts.v]: [server/grpc/service_kv.rs] and, at the
      clients, [grpc-clients/src/utils.rs].  A member that is not the leader
      refuses with the text of [openraft]; how the client reads the address
      out of it is proved.
    - [PlacementSamples.v]: small clusters with concrete parameters.

    Journal.
    - [JournalCodec.v]: [protocol/src/journal_server/codec.rs] and the messages
      of [engine.proto].
    - [SegmentFile.v], [SegmentFacts.v]: [segment/file.rs] over the class
      [Files] of the file system; the errors of [core/error.rs].
    - [JournalIndex.v], [JournalIndexFacts.v]: [index/], the keys, the scans and
      what indexing a record stores.
    - [JournalNode.v]: the record [JournalNode] of files, index, placement
      center, cache and clock; [core/cache.rs], [segment/manager.rs],
      [segment/write.rs], the rounds of the thread of [index/build.rs],
      [core/segment_status.rs], [core/segment_meta.rs].
    - [JournalServer.v]: [core/notification.rs], [core/segment.rs],
      [core/shard.rs], [segment/read.rs], [segment/scroll.rs], [handler/],
      [server/grpc/], [core/cluster.rs], [init_node] and [stop_server] of
      [lib.rs].
    - [JournalNodeFacts.v]: the invariant [serving] of the leader of a segment;
      [JournalLog.v]: the abstract log; [JournalRestart.v]: the start of a node.
    - [JournalSamples.v]: a node with concrete parameters.

    ** Conventions

    Code that has state or fails is a function of the monad [M] below:
    explicit state, and an [outcome], which is [Ok], [Err], [Panic] where Rust
    unwinds, or [OutOfFuel].  Integers are [Z] with the wrap-around of their
    width written out where the code can reach it.  A [DashMap] or [HashMap] is
    a finite map; where the order of an iteration matters it is a parameter.
    Clocks and random identifiers are arguments (the record [Env] of
    [Broker.v]).  A task is a function; tasks that run at the same time are
    lists of events in any order ([Server.v]), lists of accesses to a shared
    map ([MemoryStorage.v]), or functions that act while a task waits
    ([BrokerCache.v], [ExclusivePush.v]).

    Libraries and services that are not part of the sources are classes whose
    laws state their documented behaviour: [BytesCrate], [RegexCrate],
    [RegexCaptures], [RocksDB], [RocksRange], [Json], [Prost], [Bincode],
    [IpNet], [SchemaCrates], [AuthStorageAdapter], [PlacementCenter],
    [OpenRaft], [JournalInner], [Rand], [Broadcast], [Network], [ErrorText],
    [Files], [ReadBuf], [JournalPlacement], [EngineProst].
    Each has an instance with which the definitions are evaluated.

    Fuel.  The loops of the readers get the length of their buffer, and each
    turn takes an octet; the writer of the remaining length gets four turns for
    its four octets; a decimal number gets the twenty digits of 64 bits; the
    loops on strings get the length of the string; those
    on a log get its length.  The lemmas beside them show that this is enough,
    so the theorems about them are about results and not about fuel.  The loop
    of [build_delay_queue] runs out of any fuel, which is a theorem.  The loops
    of [ExclusivePush.v] wait for others: there one turn of fuel is enough for
    a client that answers, and the theorem gives the result.  The retries of a
    client of the placement center get three turns; the second ends them at the
    latest ([KvFacts.v]).  A read of a segment file gets the length of the
    file, of which each turn takes twelve octets at least; the walk over the
    data directories gets their depth, which is three.

    ** What is proved

    - The codec ([CodecTheorems.v], [CodecSafety.v]).  Packets and sequences of
      packets survive encoding and decoding in both versions, but for the
      packets that [v4_wire] and [v5_wire] leave out, where the readers and
      writers differ (AUTH, topic aliases and a few more).  On any octets
      the decoder neither unwinds nor loops, takes one frame or nothing, waits
      for a partial frame, and refuses one that is too long.  The size
      computation is exact on the same packets other than CONNECT.
      [CodecDeviations.v] compares the codecs of one version with [MqttCodec]
      and has the packets on which readers and writers differ.
    - The stores ([MemoryStorage.v], [RocksRefine.v]).  Every sequence of
      operations on the memory and RocksDB stores has the results of the
      abstract store, for names that the keys of the store can tell apart.
      Deleting a shard is part of it for the memory store; the RocksDB and the
      placement adapters only close the shard for writers, and the theorems
      say so.  On a disk that fails, what was acknowledged stays.
      Concurrent writers keep each other's records, but for the first writes
      to a new shard.  The placement adapter follows the RocksDB adapter step
      by step, up to the size limit of its reads ([KvTheorems.v]).
    - The server ([ServerCore.v], [LoginTheorems.v], [Answers.v],
      [QosTheorems.v]).  A step of the server moves the core of the broker in
      one of a few ways; [ServiceFrame.v] shows what the handlers leave alone.
      By induction over runs: only an accepted CONNECT logs a connection in,
      cached connections stay within the limits of the cluster, and a repeated
      QoS 2 PUBLISH stores nothing.  Every answer to a CONNECT or to a
      logged-in client has an encoding ([ResponseEncoding.v]).
    - From publisher to subscriber ([PublishTheorems.v], [PushTheorems.v]).  A
      PUBLISH that passes the checks is stored as it was sent, at the offset
      that an MQTT 5 client is told; and a subscriber that acknowledges what
      it gets receives the records of the log from the committed offset on,
      each once and in order.  Both hold for
      every [LogStore], and the two stores are instances of it.
    - The placement center ([PlacementTheorems.v], [KvTheorems.v]).  The log
      store of Raft implements the abstract log.  Nodes that apply the same
      commands agree on their caches, answers and values.  After any requests
      to the journal metadata the caches are those that a restart would load.
      A client that knows one member finds the leader and reads what it wrote.
    - The journal ([JournalServerTheorems.v]).  Packets of its protocol survive
      encoding and decoding.  A segment that was created by the notices of the
      placement center is the abstract log, whatever writes, reads, rounds of
      the index thread and ticks of the clock follow, until 10000 records; it
      goes on as that log after the node has stopped and started again; and
      reads by tag find every record once the index has caught up.
    - The parts: packet identifiers ([BrokerCache.v]), subscriptions
      ([Subscriptions.v]), topic paths ([Topics.v]).
    - Deviations.  Where the code does not do what it means to, a theorem says
      what it does: [ServerDeviations.v], and theorems in [Security.v],
      [BrokerCache.v], [QosTheorems.v], [DelayMessages.v], [Subscriptions.v],
      [MemoryStorage.v], [Topics.v], [PlacementTheorems.v] and
      [JournalServerTheorems.v].

    ** Not modelled

    Sockets, TLS, WebSocket and QUIC are environment: a step is told whether
    the socket takes a frame.  Starting and stopping push tasks, the push of
    shared subscriptions ([share_leader_push.rs], but for the removal of empty
    groups, and [share_follower_resub.rs]) and sending retained messages to a
    new subscriber are left out; the last is recorded as a task.  Of the placement center, the services of the MQTT
    metadata and of the cluster, the expiry of sessions, the heartbeats and the
    scheduling of connectors are left out; the broker sees it as the class
    [PlacementCenter].  The TCP server of the journal, the journal client and
    the storage adapters that forward to MySQL, MinIO or the journal are left
    out.  How many octets one [read_buf] yields and what a directory lists are
    parameters of the file system.
    The log of slow subscribers, metrics, logging, bridges, the admin service of
    the broker, the command line and configuration files have no effect on what
    is modelled. *)

From stdpp Require Export base list numbers option sets.
From Stdlib Require Export ZArith Lia.

#[global] Open Scope Z_scope.

(** ** Outcomes of Rust code

    A call returns [Ok], returns [Err], or unwinds ([Panic]: [unwrap] on
    [None], an out-of-range index, [unreachable!]).
    [OutOfFuel] is an artefact of the model: a loop that was given too little
    fuel.  No theorem that speaks of a result allows it. *)
Inductive outcome (E A : Type) : Type :=
| Ok (a : A)
| Err (e : E)
| Panic
| OutOfFuel.
Arguments Ok {E A} a.
Arguments Err {E A} e.
Arguments Panic {E A}.
Arguments OutOfFuel {E A}.

Definition is_ok {E A : Type} (o : outcome E A) : bool := match o with Ok _ => true | _ => false end.

(** ** The state and error monad

    [M S E A] runs on a state that survives an error, as a [&mut] argument
    does in Rust. *)
Definition M (S E A : Type) : Type := S -> outcome E A * S.

Definition ret {S E A : Type} (a : A) : M S E A := fun s => (Ok a, s).
Definition fail {S E A : Type} (e : E) : M S E A := fun s => (Err e, s).
Definition panic {S E A : Type} : M S E A := fun s => (Panic, s).
Definition out_of_fuel {S E A : Type} : M S E A := fun s => (OutOfFuel, s).
Definition get {S E : Type} : M S E S := fun s => (Ok s, s).
Definition lift {S E A : Type} (o : outcome E A) : M S E A := fun s => (o, s).

Definition bind {S E A B : Type} (m : M S E A) (k : A -> M S E B) : M S E B :=
  fun s =>
    match m s with
    | (Ok a, s') => k a s'
    | (Err e, s') => (Err e, s')
    | (Panic, s') => (Panic, s')
    | (OutOfFuel, s') => (OutOfFuel, s')
    end.

Declare Scope rust_scope.
Delimit Scope rust_scope with rust.
Notation "'let!' x ':=' m 'in' k" := (bind m (fun x => k))
  (at level 10, x pattern, m at level 100, k at level 200,
   format "'[v' 'let!'  x  ':='  m  'in' '/' k ']'") : rust_scope.
Notation "m ;; k" := (bind m (fun _ => k))
  (at level 100, k at level 200, right associativity) : rust_scope.
#[global] Open Scope rust_scope.

(** [if let Some(x) = o { f(x) }] and [for x in l { f(x) }]. *)
Definition if_some {S E A : Type} (o : option A) (f : A -> M S E unit) : M S E unit :=
  match o with Some a => f a | None => ret tt end.

Fixpoint for_each {S E A : Type} (l : list A) (f : A -> M S E unit) : M S E unit :=
  match l with [] => ret tt | a :: l' => f a ;; for_each l' f end.

(** [Option::unwrap] and [Option::ok_or]. *)
Definition unwrap {S E A : Type} (o : option A) : M S E A :=
  match o with Some a => ret a | None => panic end.
Definition ok_or {S E A : Type} (o : option A) (e : E) : M S E A :=
  match o with Some a => ret a | None => fail e end.

Definition is_some {A : Type} (o : option A) : bool :=
  match o with Some _ => true | None => false end.
Definition is_none {A : Type} (o : option A) : bool := negb (is_some o).

(** [u64] and [usize] arithmetic wraps around: both profiles of the workspace
    set [overflow-checks = false]. *)
Definition wrap64 (n : Z) : Z := n mod 2 ^ 64.
(** [as i64] of a number that a [u64] or the difference of two [i64] holds, and
    [i32] arithmetic. *)
Definition as_i64 (n : Z) : Z := (n + 2 ^ 63) mod 2 ^ 64 - 2 ^ 63.
Definition as_i32 (n : Z) : Z := (n + 2 ^ 31) mod 2 ^ 32 - 2 ^ 31.

Lemma wrap64_small n : 0 <= n < 2 ^ 64 -> wrap64 n = n.
Proof. apply Z.mod_small. Qed.

(** ** Exact evaluation *)

Lemma bind_eval {S E A B : Type} (m : M S E A) (k : A -> M S E B) s o s' :
  m s = (o, s') ->
  bind m k s = match o with
               | Ok a => k a s'
               | Err e => (Err e, s')
               | Panic => (Panic, s')
               | OutOfFuel => (OutOfFuel, s')
               end.
Proof. unfold bind. intros ->. by destruct o. Qed.

Lemma bind_inv {S E A B : Type} (m : M S E A) (k : A -> M S E B) s b s' :
  bind m k s = (Ok b, s') -> exists a s1, m s = (Ok a, s1) /\ k a s1 = (Ok b, s').
Proof. unfold bind. destruct (m s) as [[a|e| |] s1]; [|done..]. by exists a, s1. Qed.
Lemma bind_ok {S E A B : Type} (m : M S E A) (k : A -> M S E B) s a s' :
  m s = (Ok a, s') -> bind m k s = k a s'.
Proof. intros H. by rewrite (bind_eval _ _ _ _ _ H). Qed.

Lemma bind_err {S E A B : Type} (m : M S E A) (k : A -> M S E B) s e s' :
  m s = (Err e, s') -> bind m k s = (Err e, s').
Proof. intros H. by rewrite (bind_eval _ _ _ _ _ H). Qed.

Lemma bind_assoc {S E A B C : Type} (m : M S E A) (f : A -> M S E B) (g : B -> M S E C) s :
  bind (bind m f) g s = bind m (fun a => bind (f a) g) s.
Proof. unfold bind. by destruct (m s) as [[a|e| |] s']. Qed.

Lemma for_each_cons {S E A : Type} (a : A) l (f : A -> M S E unit) s :
  for_each (a :: l) f s = bind (f a) (fun _ => for_each l f) s.
Proof. done. Qed.

(** [for_each] whose body always succeeds is a fold. *)
Lemma for_each_fold {S E A : Type} (l : list A) (f : A -> M S E unit) (g : S -> A -> S)
    (I : S -> Prop) s :
  I s -> (forall a s, a ∈ l -> I s -> f a s = (Ok tt, g s a) /\ I (g s a)) ->
  for_each l f s = (Ok tt, foldl g s l) /\ I (foldl g s l).
Proof.
  revert s. induction l as [|a l IH]; intros s Hs Hf; [done|]. cbn [for_each foldl].
  destruct (Hf a s) as [Ha Hi]; [by left|done|]. rewrite (bind_ok _ _ _ _ _ Ha).
  apply IH; [done|]. intros b s' Hb. apply Hf. by right.
Qed.

(** A component of the state that is folded over on its own. *)
Lemma foldl_proj {S T A : Type} (pi : S -> T) (F : S -> A -> S) (f : T -> A -> T) l s :
  (forall s a, a ∈ l -> pi (F s a) = f (pi s) a) -> pi (foldl F s l) = foldl f (pi s) l.
Proof.
  revert s. induction l as [|a l IH]; intros s H; [done|]. cbn.
  rewrite IH, H; [done|by left|]. intros s' b Hb. apply H. by right.
Qed.

Lemma foldl_id {T A : Type} (l : list A) (t : T) : foldl (fun t _ => t) t l = t.
Proof. induction l; [done|]. by cbn. Qed.

(** ** What an action does to the state, whatever its outcome *)

Definition preserves {S E A : Type} (R : S -> S -> Prop) (m : M S E A) : Prop :=
  forall s, R s (m s).2.

Section preserves.
Context {S E : Type} (R : S -> S -> Prop) `{!PreOrder R}.

Lemma preserves_ret {A} (a : A) : preserves R (ret (E := E) a).
Proof. by intros s. Qed.
Lemma preserves_fail {A} (e : E) : preserves R (fail (A := A) e).
Proof. by intros s. Qed.
Lemma preserves_panic {A} : preserves R (panic (E := E) (A := A)).
Proof. by intros s. Qed.
Lemma preserves_lift {A} (o : outcome E A) : preserves R (lift o).
Proof. by intros s. Qed.
Lemma preserves_bind {A B} (m : M S E A) (k : A -> M S E B) :
  preserves R m -> (forall a, preserves R (k a)) -> preserves R (bind m k).
Proof.
  intros Hm Hk s. specialize (Hm s). unfold bind. destruct (m s) as [[a|e| |] s']; cbn in *; try done.
  etrans; [done|apply Hk].
Qed.
Lemma preserves_for_each {A} (l : list A) (f : A -> M S E unit) :
  (forall a, a ∈ l -> preserves R (f a)) -> preserves R (for_each l f).
Proof.
  induction l as [|a l IH]; intros Hf; [apply preserves_ret|].
  apply preserves_bind; [apply Hf; by left|]. intros _. apply IH. intros b Hb. apply Hf. by right.
Qed.
End preserves.

(** What one round of a loop establishes and every round keeps holds at the
    end. *)
Lemma for_each_establish {S E A : Type} (l : list A) (f : A -> M S E unit) (P : S -> Prop) a s s' :
  (forall b, preserves (fun s s' => P s -> P s') (f b)) ->
  (forall s s', f a s = (Ok tt, s') -> P s') ->
  a ∈ l -> for_each l f s = (Ok tt, s') -> P s'.
Proof.
  intros Hkeep Ha. revert s. induction l as [|b l IH]; intros s Hin; [by apply elem_of_nil in Hin|].
  rewrite for_each_cons. unfold bind. destruct (f b s) as [[[]|e| |] s1] eqn:E1; try done. intros E2.
  apply elem_of_cons in Hin as [<-|Hin]; [|by eapply IH].
  apply Ha in E1. clear Ha IH.
  assert (preserves (fun s s' => P s -> P s') (for_each l f)) as Hl.
  { apply preserves_for_each; [split; [by intros ?|by intros ? ? ?; auto]|]. intros; apply Hkeep. }
  specialize (Hl s1). rewrite E2 in Hl. by apply Hl.
Qed.

Create HintDb preservesdb.
#[export] Hint Resolve preserves_ret preserves_fail preserves_panic preserves_lift : preservesdb.

(** ** Total correctness up to errors

    [wp m Q s]: from [s], [m] neither panics nor runs out of fuel, and when it
    returns [Ok a] in [s'] then [Q a s'].  Returning [Err] is allowed: it is
    how the code rejects an input. *)
Definition wp {S E A : Type} (m : M S E A) (Q : A -> S -> Prop) (s : S) : Prop :=
  match m s with
  | (Ok a, s') => Q a s'
  | (Err _, _) => True
  | (Panic, _) | (OutOfFuel, _) => False
  end.

(** An outcome that is neither a panic nor an exhausted loop. *)
Definition returns {E A : Type} (o : outcome E A) : Prop :=
  match o with Ok _ | Err _ => True | Panic | OutOfFuel => False end.

Section wp_rules.
Context {S E : Type}.

Lemma wp_returns {A} (m : M S E A) Q s : wp m Q s -> returns (m s).1.
Proof. unfold wp. by destruct (m s) as [[] ?]. Qed.

Lemma wp_mono {A} (m : M S E A) (Q Q' : A -> S -> Prop) s :
  wp m Q s -> (forall a s', Q a s' -> Q' a s') -> wp m Q' s.
Proof. unfold wp. destruct (m s) as [[] ?]; auto. Qed.

Lemma wp_ok {A} (m : M S E A) Q s a s' : m s = (Ok a, s') -> Q a s' -> wp m Q s.
Proof. unfold wp. by intros ->. Qed.

Lemma wp_ret {A} (a : A) (Q : A -> S -> Prop) s : Q a s -> wp (ret (E := E) a) Q s.
Proof. done. Qed.

Lemma wp_fail {A} (e : E) (Q : A -> S -> Prop) s : wp (fail e) Q s.
Proof. done. Qed.

Lemma wp_get (Q : S -> S -> Prop) s : Q s s -> wp (get (E := E)) Q s.
Proof. done. Qed.

Lemma wp_bind {A B} (m : M S E A) (k : A -> M S E B) Q s :
  wp m (fun a s' => wp (k a) Q s') s -> wp (bind m k) Q s.
Proof. unfold wp, bind. by destruct (m s) as [[] ?]. Qed.

Lemma wp_lift {A} (o : outcome E A) (Q : A -> S -> Prop) s :
  returns o -> (forall a, o = Ok a -> Q a s) -> wp (lift o) Q s.
Proof. unfold wp, lift. destruct o; naive_solver. Qed.

Lemma wp_ok_or {A} (o : option A) (e : E) (Q : A -> S -> Prop) s :
  (forall a, o = Some a -> Q a s) -> wp (ok_or o e) Q s.
Proof. destruct o; cbn; auto using wp_ret, wp_fail. Qed.

Lemma wp_if {A} (b : bool) (m1 m2 : M S E A) Q s :
  (b = true -> wp m1 Q s) -> (b = false -> wp m2 Q s) ->
  wp (if b then m1 else m2) Q s.
Proof. destruct b; auto. Qed.

(** A loop that keeps an invariant. *)
Lemma wp_for_each {A} (I : S -> Prop) (l : list A) (f : A -> M S E unit) s :
  (forall a s, a ∈ l -> I s -> wp (f a) (fun _ => I) s) -> I s -> wp (for_each l f) (fun _ => I) s.
Proof.
  intros Hf. revert s. induction l as [|a l IH]; intros s Hs; [done|]. cbn [for_each]. apply wp_bind.
  eapply wp_mono; [by apply Hf; [left|]|]. cbn. intros u s' Hs'. apply IH; [|done].
  intros b s0 Hb. apply Hf. by right.
Qed.
End wp_rules.

Create HintDb wpdb.
#[export] Hint Resolve wp_fail : wpdb.

(** [wp_step] runs one instruction of a [wp] goal; [rule] solves the
    primitives of the component at hand. *)
Ltac wp_step_with rule :=
  lazymatch goal with
  | |- wp (bind _ _) _ _ => apply wp_bind
  | |- wp (ret _) _ _ => apply wp_ret
  | |- wp (fail _) _ _ => apply wp_fail
  | |- wp get _ _ => apply wp_get
  | |- wp (ok_or _ _) _ _ => apply wp_ok_or; intros
  | |- wp (if _ then _ else _) _ _ => apply wp_if; intros
  | |- wp (match ?x with _ => _ end) _ _ => destruct x eqn:?
  | |- wp _ _ _ => rule
  end.

(** ** Appending writers and prefix readers

    A writer that only appends to its buffer is described by the bytes it
    appends; a reader that consumes a prefix is described by that prefix.
    Both compose along [bind], so a packet's round trip is the composition of
    the round trips of its fields. *)
Section streams.
Context {B E : Type}.

Definition appends {A} (m : M (list B) E A) (out : list B) (a : A) : Prop :=
  forall buf, m buf = (Ok a, buf ++ out).

Definition parses {A} (m : M (list B) E A) (w : list B) (a : A) : Prop :=
  forall rest, m (w ++ rest) = (Ok a, rest).

Lemma appends_ret {A} (a : A) : appends (ret a) [] a.
Proof. intros buf. by rewrite app_nil_r. Qed.

Lemma appends_bind {A C} (m : M (list B) E A) (k : A -> M (list B) E C) o1 o2 a c :
  appends m o1 a -> appends (k a) o2 c -> appends (bind m k) (o1 ++ o2) c.
Proof. intros H1 H2 buf. by rewrite (bind_ok _ _ _ _ _ (H1 buf)), H2, app_assoc. Qed.

Lemma appends_if_some {A} (o : option A) f (out : A -> list B) :
  (forall a, o = Some a -> appends (f a) (out a) tt) ->
  appends (if_some o f) (match o with Some a => out a | None => [] end) tt.
Proof. destruct o; cbn; auto using appends_ret. Qed.

Lemma appends_for_each {A} (l : list A) f (out : A -> list B) :
  (forall a, a ∈ l -> appends (f a) (out a) tt) ->
  appends (for_each l f) (concat (map out l)) tt.
Proof.
  induction l as [|a l IH]; cbn; intros H; [apply appends_ret|].
  apply appends_bind with (a := tt); [|apply IH]; intros; apply H; set_solver.
Qed.

Lemma parses_ret {A} (a : A) : parses (ret a) [] a.
Proof. done. Qed.

Lemma parses_bind {A C} (m : M (list B) E A) (k : A -> M (list B) E C) w1 w2 a c :
  parses m w1 a -> parses (k a) w2 c -> parses (bind m k) (w1 ++ w2) c.
Proof. intros H1 H2 rest. by rewrite <- app_assoc, (bind_ok _ _ _ _ _ (H1 _)), H2. Qed.

Lemma parses_bind_nil {A C} (m : M (list B) E A) (k : A -> M (list B) E C) w a c :
  parses m w a -> parses (k a) [] c -> parses (bind m k) w c.
Proof. intros H1 H2 rest. rewrite (bind_ok _ _ _ _ _ (H1 _)). exact (H2 rest). Qed.

Lemma parses_eval {A C} (m : M (list B) E A) (k : A -> M (list B) E C) w a rest :
  parses m w a -> bind m k (w ++ rest) = k a rest.
Proof. intros H. by rewrite (bind_ok _ _ _ _ _ (H rest)). Qed.
End streams.

(** ** Lists measured in [Z] *)

Definition blen {A : Type} (l : list A) : Z := Z.of_nat (length l).

Section blen.
Context {A : Type}.
Implicit Types l : list A.

Lemma blen_nil : blen (A := A) [] = 0. Proof. done. Qed.
Lemma blen_cons a l : blen (a :: l) = 1 + blen l.
Proof. unfold blen. cbn. lia. Qed.
Lemma blen_app l1 l2 : blen (l1 ++ l2) = blen l1 + blen l2.
Proof. unfold blen. rewrite length_app. lia. Qed.
Lemma blen_nonneg l : 0 <= blen l.
Proof. unfold blen. lia. Qed.
Lemma blen_drop n l : 0 <= n <= blen l -> blen (drop (Z.to_nat n) l) = blen l - n.
Proof. unfold blen. rewrite length_drop. lia. Qed.
Lemma blen_take n l : 0 <= n <= blen l -> blen (take (Z.to_nat n) l) = n.
Proof. unfold blen. rewrite length_take. lia. Qed.
Lemma blen_0_inv l : blen l = 0 -> l = [].
Proof. destruct l; [done|]. rewrite blen_cons. pose proof (blen_nonneg l). lia. Qed.
Lemma blen_pos_inv l : 0 < blen l -> exists a l', l = a :: l'.
Proof. destruct l; [done|eauto]. Qed.
Lemma blen_map {C} (f : A -> C) l : blen (map f l) = blen l.
Proof. unfold blen. by rewrite length_map. Qed.

Lemma drop_blen_app l1 l2 : drop (Z.to_nat (blen l1)) (l1 ++ l2) = l2.
Proof. unfold blen. rewrite Nat2Z.id. by rewrite drop_app_length. Qed.
Lemma take_blen_app l1 l2 : take (Z.to_nat (blen l1)) (l1 ++ l2) = l1.
Proof. unfold blen. rewrite Nat2Z.id. by rewrite take_app_length. Qed.
End blen.

Create Rewrite HintDb blen.
#[global] Hint Rewrite @blen_nil @blen_cons @blen_app @blen_map : blen.

(** [blia]: linear arithmetic over lengths. *)
Ltac blen_pose :=
  repeat match goal with
  | |- context [blen ?l] =>
      lazymatch goal with H : 0 <= blen l |- _ => fail | _ => pose proof (blen_nonneg l) end
  | _ : context [blen ?l] |- _ =>
      lazymatch goal with H : 0 <= blen l |- _ => fail | _ => pose proof (blen_nonneg l) end
  end.
Ltac blia := autorewrite with blen in *; blen_pose; lia.

(** Boolean tests of the code, as propositions. *)
Ltac bool_prop :=
  repeat match goal with
  | H : (_ =? _) = true |- _ => apply Z.eqb_eq in H
  | H : (_ =? _) = false |- _ => apply Z.eqb_neq in H
  | H : (_ <? _) = true |- _ => apply Z.ltb_lt in H
  | H : (_ <? _) = false |- _ => apply Z.ltb_ge in H
  | H : (_ <=? _) = true |- _ => apply Z.leb_le in H
  | H : (_ <=? _) = false |- _ => apply Z.leb_gt in H
  | H : negb _ = true |- _ => apply negb_true_iff in H
  | H : negb _ = false |- _ => apply negb_false_iff in H
  | H : _ && _ = true |- _ => apply andb_true_iff in H as [? ?]
  | H : _ || _ = false |- _ => apply orb_false_iff in H as [? ?]
  end.

(** Decide the conditional at the head of the goal by arithmetic. *)
Ltac zif_true := rewrite (proj2 (Z.ltb_lt _ _)) by blia.
Ltac zif_false := rewrite (proj2 (Z.ltb_ge _ _)) by blia.
