(* ===== verification/Bytes.v ===== *)
(** * Byte strings, machine integers and the [bytes] crate

    Machine integers of width [w] are [Z] with their range as a predicate.
    [Bytes] and [BytesMut] of the third-party crate [bytes] hold a sequence of
    octets; the operations the codec calls on them are the parameters of the
    class [BytesCrate], and [BytesSpec] states what their documentation
    promises.  [list_bytes] is an implementation on lists, which shows that
    the promises can be kept and lets every definition be evaluated.
    The last part models [str::from_utf8] of the Rust standard library. *)

From Stdlib Require Import Ascii String.
From S2P Require Import Prelude.

(** ** Machine integers *)

Definition u8 (n : Z) : Prop := 0 <= n < 256.
Definition u16 (n : Z) : Prop := 0 <= n < 65536.
Definition u32 (n : Z) : Prop := 0 <= n < 4294967296.

(** [x as u8], [x as u16]. *)
Definition as_u8 (n : Z) : Z := n mod 256.
Definition as_u16 (n : Z) : Z := n mod 65536.

(** [b as u8] for a boolean. *)
Definition bool_as_u8 (b : bool) : Z := if b then 1 else 0.

Abbreviation bytes := (list Z).
Definition bytes_ok (b : bytes) : Prop := Forall u8 b.

Lemma bytes_ok_nil : bytes_ok [].
Proof. constructor. Qed.
Lemma bytes_ok_cons a b : bytes_ok (a :: b) <-> u8 a /\ bytes_ok b.
Proof. apply Forall_cons. Qed.
Lemma bytes_ok_app a b : bytes_ok (a ++ b) <-> bytes_ok a /\ bytes_ok b.
Proof. apply Forall_app. Qed.
Lemma bytes_ok_drop n b : bytes_ok b -> bytes_ok (drop n b).
Proof. apply Forall_drop. Qed.
Lemma bytes_ok_take n b : bytes_ok b -> bytes_ok (take n b).
Proof. apply Forall_take. Qed.

Create HintDb bytesdb.
#[export] Hint Resolve bytes_ok_nil bytes_ok_drop bytes_ok_take : bytesdb.

(** A boolean property of an octet is checked on the 256 of them. *)
Lemma u8_forall (P : Z -> bool) :
  forallb P (map Z.of_nat (seq 0 256)) = true -> forall b, u8 b -> P b = true.
Proof.
  intros H b [Hb1 Hb2]. rewrite forallb_forall in H. apply H, in_map_iff.
  exists (Z.to_nat b). split; [lia|]. apply in_seq. lia.
Qed.

(** Network byte order. *)
Definition be16 (v : Z) : bytes := [v / 256; v mod 256].
Definition be32 (v : Z) : bytes :=
  [v / 16777216; (v / 65536) mod 256; (v / 256) mod 256; v mod 256].

Lemma blen_be16 v : blen (be16 v) = 2. Proof. done. Qed.
Lemma blen_be32 v : blen (be32 v) = 4. Proof. done. Qed.
#[global] Hint Rewrite blen_be16 blen_be32 : blen.

Lemma be16_ok v : u16 v -> bytes_ok (be16 v).
Proof. unfold u16, bytes_ok, be16, u8. intros. repeat constructor; Z.to_euclidean_division_equations; lia. Qed.
Lemma be32_ok v : u32 v -> bytes_ok (be32 v).
Proof. unfold u32, bytes_ok, be32, u8. intros. repeat constructor; Z.to_euclidean_division_equations; lia. Qed.
#[export] Hint Resolve be16_ok be32_ok : bytesdb.

(** Any two (four) octets are the big-endian form of a 16-bit (32-bit) word. *)
Lemma be16_of_octets a b : u8 a -> u8 b -> [a; b] = be16 (a * 256 + b) /\ u16 (a * 256 + b).
Proof.
  unfold u8, u16, be16. intros Ha Hb. split; [|lia].
  repeat f_equal; Z.to_euclidean_division_equations; lia.
Qed.

Lemma be32_of_octets a b c d :
  u8 a -> u8 b -> u8 c -> u8 d ->
  exists v, u32 v /\ [a; b; c; d] = be32 v.
Proof.
  unfold u8, u32, be32. intros.
  exists (((a * 256 + b) * 256 + c) * 256 + d). split; [lia|].
  repeat f_equal; Z.to_euclidean_division_equations; lia.
Qed.

(** ** What the code calls of the [bytes] crate *)

(** [None] stands for a panic. *)
Class BytesCrate : Type := {
  buf_advance : Z -> bytes -> option bytes;
  buf_split_to : Z -> bytes -> option (bytes * bytes);
  buf_get_u8 : bytes -> option (Z * bytes);
  buf_get_u16 : bytes -> option (Z * bytes);
  buf_get_u32 : bytes -> option (Z * bytes);
  buf_put_u8 : Z -> bytes -> bytes;
  buf_put_u16 : Z -> bytes -> bytes;
  buf_put_u32 : Z -> bytes -> bytes;
  buf_put_slice : bytes -> bytes -> bytes
}.

(** The documented behaviour the code relies on: [advance] and [split_to] need
    [n <= remaining], the [get]s need the octets to be there, the [put]s append
    in network byte order. *)
Class BytesSpec (BC : BytesCrate) : Prop := {
  advance_spec n b : 0 <= n <= blen b -> buf_advance n b = Some (drop (Z.to_nat n) b);
  split_to_spec n b : 0 <= n <= blen b ->
    buf_split_to n b = Some (take (Z.to_nat n) b, drop (Z.to_nat n) b);
  get_u8_spec v r : u8 v -> buf_get_u8 (v :: r) = Some (v, r);
  get_u16_spec v r : u16 v -> buf_get_u16 (be16 v ++ r) = Some (v, r);
  get_u32_spec v r : u32 v -> buf_get_u32 (be32 v ++ r) = Some (v, r);
  put_u8_spec v b : u8 v -> buf_put_u8 v b = b ++ [v];
  put_u16_spec v b : u16 v -> buf_put_u16 v b = b ++ be16 v;
  put_u32_spec v b : u32 v -> buf_put_u32 v b = b ++ be32 v;
  put_slice_spec s b : buf_put_slice s b = b ++ s
}.

Definition list_bytes : BytesCrate := {|
  buf_advance n b := if (0 <=? n) && (n <=? blen b) then Some (drop (Z.to_nat n) b) else None;
  buf_split_to n b :=
    if (0 <=? n) && (n <=? blen b)
    then Some (take (Z.to_nat n) b, drop (Z.to_nat n) b) else None;
  buf_get_u8 b := match b with x :: r => Some (x, r) | _ => None end;
  buf_get_u16 b := match b with x :: y :: r => Some (x * 256 + y, r) | _ => None end;
  buf_get_u32 b :=
    match b with
    | x :: y :: z :: t :: r => Some (((x * 256 + y) * 256 + z) * 256 + t, r)
    | _ => None
    end;
  buf_put_u8 v b := b ++ [v];
  buf_put_u16 v b := b ++ be16 v;
  buf_put_u32 v b := b ++ be32 v;
  buf_put_slice s b := b ++ s
|}.

Lemma list_bytes_spec : BytesSpec list_bytes.
Proof.
  split; cbn; try done.
  - intros n b Hn. rewrite (proj2 (Z.leb_le 0 n)), (proj2 (Z.leb_le n (blen b))) by lia. done.
  - intros n b Hn. rewrite (proj2 (Z.leb_le 0 n)), (proj2 (Z.leb_le n (blen b))) by lia. done.
  - unfold u16. intros v r Hv. do 2 f_equal. Z.to_euclidean_division_equations; lia.
  - unfold u32. intros v r Hv. do 2 f_equal. Z.to_euclidean_division_equations; lia.
Qed.

(** ** The calls as actions on a buffer *)
Section calls.
Context {BC : BytesCrate} {E : Type}.

Definition of_call {A : Type} (f : bytes -> option (A * bytes)) : M bytes E A :=
  fun b => match f b with Some (a, b') => (Ok a, b') | None => (Panic, b) end.

Definition advance (n : Z) : M bytes E unit :=
  fun b => match buf_advance n b with Some b' => (Ok tt, b') | None => (Panic, b) end.
Definition split_to (n : Z) : M bytes E bytes := of_call (buf_split_to n).
Definition get_u8 : M bytes E Z := of_call buf_get_u8.
Definition get_u16 : M bytes E Z := of_call buf_get_u16.
Definition get_u32 : M bytes E Z := of_call buf_get_u32.
Definition put_u8 (v : Z) : M bytes E unit := fun b => (Ok tt, buf_put_u8 v b).
Definition put_u16 (v : Z) : M bytes E unit := fun b => (Ok tt, buf_put_u16 v b).
Definition put_u32 (v : Z) : M bytes E unit := fun b => (Ok tt, buf_put_u32 v b).
Definition put_slice (s : bytes) : M bytes E unit := fun b => (Ok tt, buf_put_slice s b).

(** [buffer[i] = v]: a slice index, which panics out of range. *)
Definition set_index (i v : Z) : M bytes E unit :=
  fun b => if (0 <=? i) && (i <? blen b)
           then (Ok tt, <[Z.to_nat i := v]> b) else (Panic, b).

Context {BS : BytesSpec BC}.

Lemma advance_eval n b :
  0 <= n <= blen b -> advance n b = (Ok tt, drop (Z.to_nat n) b).
Proof. intros. unfold advance. by rewrite advance_spec. Qed.

Lemma advance_app w b : advance (blen w) (w ++ b) = (Ok tt, b).
Proof. rewrite advance_eval by blia. by rewrite drop_blen_app. Qed.

Lemma split_to_app w b : split_to (blen w) (w ++ b) = (Ok w, b).
Proof.
  unfold split_to, of_call. rewrite split_to_spec by blia.
  by rewrite drop_blen_app, take_blen_app.
Qed.

Lemma get_u8_parses v : u8 v -> parses get_u8 [v] v.
Proof. intros Hv rest. unfold get_u8, of_call. cbn. by rewrite get_u8_spec. Qed.
Lemma get_u16_parses v : u16 v -> parses get_u16 (be16 v) v.
Proof. intros Hv rest. unfold get_u16, of_call. by rewrite get_u16_spec. Qed.
Lemma get_u32_parses v : u32 v -> parses get_u32 (be32 v) v.
Proof. intros Hv rest. unfold get_u32, of_call. by rewrite get_u32_spec. Qed.

Lemma put_u8_appends v : u8 v -> appends (put_u8 v) [v] tt.
Proof. intros Hv b. unfold put_u8. by rewrite put_u8_spec. Qed.
Lemma put_u16_appends v : u16 v -> appends (put_u16 v) (be16 v) tt.
Proof. intros Hv b. unfold put_u16. by rewrite put_u16_spec. Qed.
Lemma put_u32_appends v : u32 v -> appends (put_u32 v) (be32 v) tt.
Proof. intros Hv b. unfold put_u32. by rewrite put_u32_spec. Qed.
Lemma put_slice_appends s : appends (put_slice s) s tt.
Proof. intros b. unfold put_slice. by rewrite put_slice_spec. Qed.

Lemma set_index_app w x v r :
  set_index (blen w) v (w ++ x :: r) = (Ok tt, w ++ v :: r).
Proof.
  unfold set_index. rewrite (proj2 (Z.leb_le _ _)), (proj2 (Z.ltb_lt _ _)) by blia. cbn.
  unfold blen. rewrite Nat2Z.id. rewrite insert_app_r_alt by done. by rewrite Nat.sub_diag.
Qed.

Lemma wp_advance n (Q : unit -> bytes -> Prop) s :
  0 <= n <= blen s -> Q tt (drop (Z.to_nat n) s) -> wp (advance n) Q s.
Proof. intros Hn HQ. eapply wp_ok; [by apply advance_eval|done]. Qed.

Lemma wp_split_to n (Q : bytes -> bytes -> Prop) s :
  0 <= n <= blen s -> Q (take (Z.to_nat n) s) (drop (Z.to_nat n) s) -> wp (split_to n) Q s.
Proof.
  intros Hn HQ. eapply wp_ok; [|exact HQ].
  unfold split_to, of_call. by rewrite split_to_spec.
Qed.

Lemma wp_get_u8 (Q : Z -> bytes -> Prop) s :
  bytes_ok s -> 1 <= blen s ->
  (forall v s', u8 v -> s = v :: s' -> Q v s') -> wp get_u8 Q s.
Proof.
  intros Hs Hl HQ. destruct s as [|v s]; [blia|].
  apply bytes_ok_cons in Hs as [Hv Hs].
  eapply wp_ok; [apply (get_u8_parses v Hv s)|auto].
Qed.

Lemma wp_get_u16 (Q : Z -> bytes -> Prop) s :
  bytes_ok s -> 2 <= blen s ->
  (forall v s', u16 v -> s = be16 v ++ s' -> Q v s') -> wp get_u16 Q s.
Proof.
  intros Hs Hl HQ. destruct s as [|x [|y s]]; [blia..|].
  apply bytes_ok_cons in Hs as [Hx Hs]. apply bytes_ok_cons in Hs as [Hy Hs].
  destruct (be16_of_octets x y Hx Hy) as [Hxy Hv].
  assert (x :: y :: s = be16 (x * 256 + y) ++ s) as E1 by (rewrite <- Hxy; done).
  rewrite E1. eapply wp_ok; [by apply get_u16_parses|auto].
Qed.

Lemma wp_get_u32 (Q : Z -> bytes -> Prop) s :
  bytes_ok s -> 4 <= blen s ->
  (forall v s', u32 v -> s = be32 v ++ s' -> Q v s') -> wp get_u32 Q s.
Proof.
  intros Hs Hl HQ. destruct s as [|x [|y [|z [|t s]]]]; [blia..|].
  repeat match goal with H : bytes_ok (_ :: _) |- _ => apply bytes_ok_cons in H as [? ?] end.
  destruct (be32_of_octets x y z t) as (v & Hv & Hx); [done..|].
  assert (x :: y :: z :: t :: s = be32 v ++ s) as E1 by (rewrite <- Hx; done).
  rewrite E1. eapply wp_ok; [by apply get_u32_parses|auto].
Qed.
End calls.

(** ** Strings

    A Rust [String] is its UTF-8 octets.  [utf8_valid] is the acceptance
    condition of [str::from_utf8]: the well-formed byte sequences of the
    Unicode standard (no overlong form, no surrogate, nothing above
    U+10FFFF). *)

Definition cont (b : Z) : bool := (128 <=? b) && (b <=? 191).
Definition within (lo hi b : Z) : bool := (lo <=? b) && (b <=? hi).

Fixpoint utf8_valid (s : bytes) : bool :=
  match s with
  | [] => true
  | b0 :: s1 =>
    if within 0 127 b0 then utf8_valid s1 else
    if within 194 223 b0 then
      match s1 with
      | b1 :: s2 => cont b1 && utf8_valid s2
      | _ => false
      end
    else if within 224 239 b0 then
      match s1 with
      | b1 :: b2 :: s3 =>
        (if b0 =? 224 then within 160 191 b1
         else if b0 =? 237 then within 128 159 b1 else cont b1)
        && cont b2 && utf8_valid s3
      | _ => false
      end
    else if within 240 244 b0 then
      match s1 with
      | b1 :: b2 :: b3 :: s4 =>
        (if b0 =? 240 then within 144 191 b1
         else if b0 =? 244 then within 128 143 b1 else cont b1)
        && cont b2 && cont b3 && utf8_valid s4
      | _ => false
      end
    else false
  end.

Definition from_utf8 (b : bytes) : option bytes :=
  if utf8_valid b then Some b else None.

Lemma from_utf8_valid b : utf8_valid b = true -> from_utf8 b = Some b.
Proof. unfold from_utf8. by intros ->. Qed.

Lemma from_utf8_Some b s : from_utf8 b = Some s -> s = b.
Proof. unfold from_utf8. destruct (utf8_valid b); naive_solver. Qed.

(** A string literal of the source. *)
Definition lit (s : string) : bytes :=
  map (fun c => Z.of_N (N_of_ascii c)) (list_ascii_of_string s).
