(* ===== verification/RustStr.v ===== *)
(** * Strings of the Rust standard library

    The operations of [str] that the sources use, on the octets of a string:
    splitting, joining, prefixes, the formatting of numbers in keys, and the
    order of keys. *)

From S2P Require Import Prelude Bytes.

(** ** Operations *)

(** [s.split(sep)] for a separator of one octet: the pieces, one more than
    there are separators. *)
Fixpoint split_on (sep : Z) (s : bytes) : list bytes :=
  match s with
  | [] => [[]]
  | c :: s =>
      if c =? sep then [] :: split_on sep s
      else match split_on sep s with
           | [] => [[c]]
           | piece :: pieces => (c :: piece) :: pieces
           end
  end.

(** [pieces.join(sep)]. *)
Fixpoint join_with (sep : bytes) (pieces : list bytes) : bytes :=
  match pieces with
  | [] => []
  | [piece] => piece
  | piece :: pieces => piece ++ sep ++ join_with sep pieces
  end.

Fixpoint starts_with (prefix s : bytes) : bool :=
  match prefix, s with
  | [], _ => true
  | p :: prefix, c :: s => (p =? c) && starts_with prefix s
  | _ :: _, [] => false
  end.

(** [s.contains(c)] and [s.replace(c, by)] for one octet [c]. *)
Definition contains_octet (c : Z) (s : bytes) : bool := bool_decide (c ∈ s).
Definition replace_octet (c : Z) (by_ : bytes) (s : bytes) : bytes :=
  concat (map (fun x => if x =? c then by_ else [x]) s).

(** [s.trim_start_matches(prefix)]: the prefix is removed as often as it is
    there. *)
Fixpoint trim_start_matches (fuel : nat) (prefix s : bytes) : bytes :=
  match fuel with
  | O => s
  | S fuel =>
      if starts_with prefix s then trim_start_matches fuel prefix (drop (length prefix) s) else s
  end.

(** ['/'], ['+'] and ['#']. *)
(** [s.replace(pattern, by)] for a pattern that is not empty. *)
Fixpoint replace_loop (fuel : nat) (pattern by_ s : bytes) : bytes :=
  match fuel, s with
  | O, _ | _, [] => s
  | S fuel, c :: s' =>
      if starts_with pattern s then by_ ++ replace_loop fuel pattern by_ (drop (length pattern) s)
      else c :: replace_loop fuel pattern by_ s'
  end.
Definition replace_str (pattern by_ s : bytes) : bytes := replace_loop (length s) pattern by_ s.

(** [s.parse::<u64>()]: digits with an optional sign in front, below [2 ^ 64]. *)
Fixpoint parse_digits (s : bytes) (acc : Z) : option Z :=
  match s with
  | [] => Some acc
  | d :: s =>
      if (48 <=? d) && (d <=? 57) then
        let acc := acc * 10 + (d - 48) in
        if acc <? 2 ^ 64 then parse_digits s acc else None
      else None
  end.
Definition parse_u64 (s : bytes) : option Z :=
  match s with
  | [] => None
  | c :: s' => if (c =? 43) && negb (bool_decide (s' = [])) then parse_digits s' 0 else parse_digits s 0
  end.

Definition slash : Z := 47.
Definition plus_sign : Z := 43.
Definition hash_sign : Z := 35.

(** [format!("{:0n}", z)] for a number of at most [n] digits. *)
Fixpoint padded (n : nat) (z : Z) : bytes :=
  match n with
  | O => []
  | S n => padded n (z / 10) ++ [48 + z mod 10]
  end.

(** [n.to_string()] of a number of at most 20 digits, as [u64] has. *)
Fixpoint decimal_loop (fuel : nat) (n : Z) (acc : bytes) : bytes :=
  match fuel with
  | O => acc
  | S fuel =>
      let acc := (48 + n mod 10) :: acc in
      if n / 10 =? 0 then acc else decimal_loop fuel (n / 10) acc
  end.
Definition decimal (n : Z) : bytes := decimal_loop 20 n [].

(** The order of octet strings, [a < b]. *)
Fixpoint octets_lt (a b : bytes) : bool :=
  match a, b with
  | _, [] => false
  | [], _ :: _ => true
  | x :: a, y :: b => (x <? y) || ((x =? y) && octets_lt a b)
  end.

(** ** Facts about the string functions *)

Lemma split_on_nonempty sep s : split_on sep s <> [].
Proof. destruct s as [|c s]; cbn; [done|]. repeat case_match; done. Qed.

(** Splitting at the first separator. *)
Lemma split_on_app sep a b : sep ∉ a -> split_on sep (a ++ sep :: b) = a :: split_on sep b.
Proof.
  induction a as [|c a IH]; cbn; intros Ha.
  - by rewrite Z.eqb_refl.
  - apply not_elem_of_cons in Ha as [Hc Ha]. rewrite (proj2 (Z.eqb_neq c sep)) by done.
    by rewrite IH.
Qed.

Lemma split_on_single sep s : sep ∉ s -> split_on sep s = [s].
Proof.
  induction s as [|c s IH]; cbn; intros Hs; [done|].
  apply not_elem_of_cons in Hs as [Hc Hs]. by rewrite (proj2 (Z.eqb_neq c sep)), IH by done.
Qed.

(** No piece holds the separator, and joining the pieces gives the string. *)
Lemma split_on_pieces sep s : Forall (fun piece => sep ∉ piece) (split_on sep s).
Proof.
  induction s as [|c s IH]; cbn; [constructor; [apply not_elem_of_nil|constructor]|].
  destruct (Z.eqb_spec c sep) as [->|Hc]; [constructor; [apply not_elem_of_nil|done]|].
  destruct (split_on sep s) as [|p ps].
  - constructor; [|constructor]. apply not_elem_of_cons. by split; [|apply not_elem_of_nil].
  - apply Forall_cons in IH as [Hp IH]. constructor; [|done]. by apply not_elem_of_cons.
Qed.

Lemma join_split sep s : join_with [sep] (split_on sep s) = s.
Proof.
  induction s as [|c s IH]; [done|]. cbn [split_on].
  pose proof (split_on_nonempty sep s) as Hne. destruct (split_on sep s) as [|p ps]; [done|].
  destruct (Z.eqb_spec c sep) as [->|Hc]; [by cbn; rewrite <- IH|].
  destruct ps as [|p' ps]; cbn in *; by rewrite <- IH.
Qed.

Lemma split_on_has sep (s : bytes) : sep ∈ s -> exists a b, s = a ++ sep :: b /\ sep ∉ a.
Proof.
  induction s as [|c s IH]; [by intros ?%elem_of_nil|]. intros Hin.
  destruct (decide (c = sep)) as [->|Hc]; [exists [], s; split; [done|apply not_elem_of_nil]|].
  apply elem_of_cons in Hin as [->|Hin]; [done|]. destruct (IH Hin) as (a & b & -> & Ha).
  exists (c :: a), b. split; [done|]. by apply not_elem_of_cons.
Qed.

Lemma starts_with_app prefix s : starts_with prefix (prefix ++ s) = true.
Proof. induction prefix as [|p prefix IH]; [done|]. cbn. by rewrite Z.eqb_refl. Qed.

Lemma starts_with_inv prefix s : starts_with prefix s = true -> exists t, s = prefix ++ t.
Proof.
  revert s. induction prefix as [|p prefix IH]; intros s; [by exists s|].
  destruct s as [|c s]; [done|]. cbn. intros [->%Z.eqb_eq Hs]%andb_true_iff.
  destruct (IH s Hs) as [t ->]. by exists t.
Qed.

(** The fuel is enough: what is left does not start with the prefix. *)
Lemma trim_start_matches_done fuel prefix s :
  prefix <> [] -> (length s <= fuel)%nat ->
  starts_with prefix (trim_start_matches fuel prefix s) = false.
Proof.
  intros Hp. revert s. induction fuel as [|fuel IH]; intros s Hs; cbn.
  - destruct s; [|cbn in Hs; lia]. by destruct prefix.
  - destruct (starts_with prefix s) eqn:E; [|done]. apply IH. rewrite length_drop.
    destruct (starts_with_inv _ _ E) as [t ->]. rewrite length_app in *.
    destruct prefix; [done|]. cbn in *. lia.
Qed.

(** ** Facts about padded numbers *)

Lemma length_padded n z : length (padded n z) = n.
Proof. revert z. induction n as [|n IH]; intros z; [done|]. cbn. rewrite length_app, IH. cbn. lia. Qed.

Lemma padded_inj n z1 z2 :
  0 <= z1 < 10 ^ Z.of_nat n -> 0 <= z2 < 10 ^ Z.of_nat n -> padded n z1 = padded n z2 -> z1 = z2.
Proof.
  revert z1 z2. induction n as [|n IH]; intros z1 z2 H1 H2; [cbn in *; lia|].
  rewrite Nat2Z.inj_succ, Z.pow_succ_r in * by lia. cbn [padded].
  intros [E Hm]%app_inj_2; [|done]. injection Hm as Hm. apply IH in E.
  - rewrite (Z.div_mod z1 10), (Z.div_mod z2 10) by done. rewrite E. lia.
  - split; [apply Z.div_pos; lia|apply Z.div_lt_upper_bound; lia].
  - split; [apply Z.div_pos; lia|apply Z.div_lt_upper_bound; lia].
Qed.

Lemma octets_lt_app p a b : octets_lt (p ++ a) (p ++ b) = octets_lt a b.
Proof. induction p as [|x p IH]; [done|]. cbn. by rewrite Z.ltb_irrefl, Z.eqb_refl, IH. Qed.

Lemma octets_lt_same_length a b x y :
  length a = length b -> octets_lt a b = true -> octets_lt (a ++ x) (b ++ y) = true.
Proof.
  revert b. induction a as [|c a IH]; intros [|d b] Hl; cbn in *; try done.
  intros [->|[-> H]%andb_true_iff]%orb_true_iff; [done|]. rewrite IH by (done || lia). by rewrite orb_true_r.
Qed.

(** Padded numbers are ordered as the numbers are. *)
Lemma padded_lt n z1 z2 :
  0 <= z1 < z2 -> z2 < 10 ^ Z.of_nat n -> octets_lt (padded n z1) (padded n z2) = true.
Proof.
  revert z1 z2. induction n as [|n IH]; intros z1 z2 H1 H2; [cbn in *; lia|].
  rewrite Nat2Z.inj_succ, Z.pow_succ_r in * by lia. cbn [padded].
  pose proof (Z.div_mod z1 10). pose proof (Z.div_mod z2 10).
  pose proof (Z.mod_pos_bound z1 10). pose proof (Z.mod_pos_bound z2 10).
  destruct (Z.lt_ge_cases (z1 / 10) (z2 / 10)) as [Hlt|Hge].
  - apply octets_lt_same_length; [by rewrite !length_padded|]. apply IH; [|lia].
    split; [apply Z.div_pos; lia|done].
  - replace (z2 / 10) with (z1 / 10) by lia. rewrite octets_lt_app. cbn.
    apply orb_true_iff. left. apply Z.ltb_lt. lia.
Qed.

Lemma octets_lt_irrefl a : octets_lt a a = false.
Proof. induction a as [|x a IH]; [done|]. cbn. by rewrite Z.ltb_irrefl, Z.eqb_refl, IH. Qed.

Lemma octets_lt_trans a b c : octets_lt a b = true -> octets_lt b c = true -> octets_lt a c = true.
Proof.
  revert b c. induction a as [|x a IH]; intros [|y b] [|z c]; cbn; try done.
  intros [Hxy%Z.ltb_lt|[->%Z.eqb_eq H1]%andb_true_iff]%orb_true_iff
         [Hyz%Z.ltb_lt|[->%Z.eqb_eq H2]%andb_true_iff]%orb_true_iff; apply orb_true_iff.
  - left. apply Z.ltb_lt. lia.
  - left. by apply Z.ltb_lt.
  - left. by apply Z.ltb_lt.
  - right. rewrite Z.eqb_refl. by apply (IH b).
Qed.

Lemma octets_lt_total a b : octets_lt a b = true \/ a = b \/ octets_lt b a = true.
Proof.
  revert b. induction a as [|x a IH]; intros [|y b]; cbn; auto.
  destruct (Z.lt_trichotomy x y) as [?%Z.ltb_lt|[->|?%Z.ltb_lt]].
  - left. by apply orb_true_iff; left.
  - rewrite Z.ltb_irrefl, Z.eqb_refl. destruct (IH b) as [?|[->|?]]; auto.
  - right. right. by apply orb_true_iff; left.
Qed.

(** The strings that start with a prefix follow each other. *)
Lemma starts_with_convex p a b :
  starts_with p a = false -> octets_lt p a = true -> octets_lt a b = true -> starts_with p b = false.
Proof.
  revert a b. induction p as [|x p IH]; intros [|y a] [|z b]; cbn; try done.
  intros Hs [Hxy%Z.ltb_lt|[->%Z.eqb_eq H1]%andb_true_iff]%orb_true_iff
         [Hyz%Z.ltb_lt|[->%Z.eqb_eq H2]%andb_true_iff]%orb_true_iff; apply andb_false_iff.
  - left. apply Z.eqb_neq. lia.
  - left. apply Z.eqb_neq. lia.
  - left. apply Z.eqb_neq. lia.
  - rewrite Z.eqb_refl in Hs. right. by apply (IH a).
Qed.

(** Names without the separator in front of it. *)
Lemma sep_inj (sep : Z) (a b x y : bytes) : sep ∉ a -> sep ∉ b -> a ++ sep :: x = b ++ sep :: y -> a = b /\ x = y.
Proof.
  intros Ha Hb E. pose proof (split_on_app sep a x Ha) as H1. pose proof (split_on_app sep b y Hb) as H2.
  rewrite E, H2 in H1. injection H1 as ->. by apply app_inv_head in E as [= ->].
Qed.

(** ** Decimal numbers *)

Lemma decimal_loop_app fuel n acc : decimal_loop fuel n acc = decimal_loop fuel n [] ++ acc.
Proof.
  revert n acc. induction fuel as [|fuel IH]; intros n acc; [done|]. cbn [decimal_loop].
  destruct (n / 10 =? 0); [done|]. rewrite IH, (IH _ [_]), <- app_assoc. done.
Qed.
Lemma decimal_loop_digits fuel n : Forall (fun d => 48 <= d <= 57) (decimal_loop fuel n []).
Proof.
  revert n. induction fuel as [|fuel IH]; intros n; [done|]. cbn [decimal_loop].
  pose proof (Z.mod_pos_bound n 10). destruct (n / 10 =? 0); [repeat constructor; lia|].
  rewrite decimal_loop_app. apply Forall_app. split; [done|]. repeat constructor; lia.
Qed.
Definition digits_value (l : bytes) : Z := foldl (fun v d => 10 * v + (d - 48)) 0 l.
Lemma decimal_loop_value fuel n :
  0 <= n < 10 ^ Z.of_nat fuel -> digits_value (decimal_loop fuel n []) = n.
Proof.
  revert n. induction fuel as [|fuel IH]; intros n Hn; [cbn in *; lia|]. cbn [decimal_loop].
  rewrite Nat2Z.inj_succ, Z.pow_succ_r in Hn by lia.
  pose proof (Z.div_mod n 10). destruct (Z.eqb_spec (n / 10) 0) as [E|E]; [cbn; lia|].
  assert (0 <= n / 10 < 10 ^ Z.of_nat fuel) by (split; [apply Z.div_pos|apply Z.div_lt_upper_bound]; lia).
  rewrite decimal_loop_app. unfold digits_value in *. rewrite foldl_app, IH by done. cbn. lia.
Qed.
Lemma decimal_inj n m : 0 <= n < 2 ^ 64 -> 0 <= m < 2 ^ 64 -> decimal n = decimal m -> n = m.
Proof.
  intros Hn Hm E. apply (f_equal digits_value) in E. unfold decimal in E.
  rewrite !decimal_loop_value in E; [done|lia..].
Qed.

(** What stands behind the last separator. *)
Lemma app_sep_inj (sep : Z) l l' d d' :
  sep ∉ d -> sep ∉ d' -> l ++ [sep] ++ d = l' ++ [sep] ++ d' -> l = l' /\ d = d'.
Proof.
  revert l'. induction l as [|x l IH]; intros [|x' l'] Hd Hd'; cbn.
  - by intros [= ->].
  - intros [= -> ->]. destruct Hd. apply elem_of_app. right. apply elem_of_cons. by left.
  - intros [= -> <-]. destruct Hd'. apply elem_of_app. right. apply elem_of_cons. by left.
  - intros [= -> E]. by destruct (IH l' Hd Hd' E) as [-> ->].
Qed.

(** A number is parsed back from its digits. *)
Lemma parse_digits_decimal fuel n acc :
  0 <= n < 10 ^ Z.of_nat fuel -> n < 2 ^ 64 -> (0 < fuel)%nat ->
  parse_digits (decimal_loop fuel n acc) 0 = parse_digits acc n.
Proof.
  revert n acc. induction fuel as [|fuel IH]; intros n acc Hn Hb Hf; [lia|]. cbn [decimal_loop].
  assert (forall a, a = n / 10 -> parse_digits ((48 + n mod 10) :: acc) a = parse_digits acc n) as Hd.
  { intros a ->. cbn [parse_digits]. pose proof (Z.mod_pos_bound n 10). pose proof (Z.div_mod n 10).
    rewrite (proj2 (Z.leb_le 48 _)), (proj2 (Z.leb_le _ 57)) by lia. cbn [andb].
    replace (n / 10 * 10 + (48 + n mod 10 - 48)) with n by lia. by rewrite (proj2 (Z.ltb_lt n _)) by lia. }
  destruct (Z.eqb_spec (n / 10) 0) as [E|E]; [by apply Hd|].
  pose proof (Z.div_pos n 10). rewrite IH; [by apply Hd| | |].
  - rewrite Nat2Z.inj_succ, Z.pow_succ_r in Hn by lia. split; [lia|]. apply Z.div_lt_upper_bound; lia.
  - pose proof (Z.div_le_upper_bound n 10 n). lia.
  - destruct fuel; [|lia]. cbn in Hn. pose proof (Z.div_small n 10). lia.
Qed.

Lemma parse_u64_decimal n : 0 <= n < 2 ^ 64 -> parse_u64 (decimal n) = Some n.
Proof.
  intros Hn. pose proof (decimal_loop_digits 20 n) as Hd.
  pose proof (parse_digits_decimal 20 n [] ltac:(change (Z.of_nat 20) with 20; lia) ltac:(lia) ltac:(lia)) as H.
  unfold decimal, parse_u64. destruct (decimal_loop 20 n []) as [|c s] eqn:E.
  - injection H as <-. discriminate E.
  - apply Forall_cons in Hd as [Hc _]. rewrite (proj2 (Z.eqb_neq c 43)) by lia. exact H.
Qed.
