(* ===== verification/MqttTypes.v ===== *)
(** * The data types of [protocol/src/mqtt/common.rs]

    One record per [struct], one inductive type per [enum], with the source's
    fields and constructors; a record field carries a short prefix of its
    [struct], a constructor of an enum whose variants would clash carries one
    too.  [u8], [u16], [u32] and [usize] fields are [Z], [Bytes] and [String]
    are octet lists (see [Bytes.v]); their ranges are stated by the
    well-formedness predicates of the codec files. *)

From S2P Require Import Prelude Bytes.

(** ** Protocol levels and packet types *)

Inductive MqttProtocol : Type :=
| Mqtt3
| Mqtt4
| Mqtt5.
#[export] Instance MqttProtocol_eq_dec : EqDecision MqttProtocol.
Proof. solve_decision. Defined.

Definition is_mqtt3 (protocol : Z) : bool := protocol =? 3.
Definition is_mqtt4 (protocol : Z) : bool := protocol =? 4.
Definition is_mqtt5 (protocol : Z) : bool := protocol =? 5.

Definition u8_of_MqttProtocol (p : MqttProtocol) : Z :=
  match p with Mqtt3 => 3 | Mqtt4 => 4 | Mqtt5 => 5 end.

Inductive PacketType : Type :=
| PT_Connect
| PT_ConnAck
| PT_Publish
| PT_PubAck
| PT_PubRec
| PT_PubRel
| PT_PubComp
| PT_Subscribe
| PT_SubAck
| PT_Unsubscribe
| PT_UnsubAck
| PT_PingReq
| PT_PingResp
| PT_Disconnect
| PT_Auth.
#[export] Instance PacketType_eq_dec : EqDecision PacketType.
Proof. solve_decision. Defined.

(** [packet_type as u8] ([#[repr(u8)]], [Connect = 1], the others follow). *)
Definition u8_of_PacketType (t : PacketType) : Z :=
  match t with
  | PT_Connect => 1 | PT_ConnAck => 2 | PT_Publish => 3 | PT_PubAck => 4
  | PT_PubRec => 5 | PT_PubRel => 6 | PT_PubComp => 7 | PT_Subscribe => 8
  | PT_SubAck => 9 | PT_Unsubscribe => 10 | PT_UnsubAck => 11 | PT_PingReq => 12
  | PT_PingResp => 13 | PT_Disconnect => 14 | PT_Auth => 15
  end.

Record FixedHeader : Type := mkFixedHeader {
  byte1 : Z;
  fixed_header_len : Z;
  remaining_len : Z
}.

(** ** Errors *)

Inductive Error : Type :=
| InvalidConnectReturnCode (n : Z)
| InvalidReason (n : Z)
| InvalidRemainingLength (n : Z)
| InvalidProtocol
| InvalidProtocolLevel (n : Z)
| IncorrectPacketFormat
| InvalidPacketType (n : Z)
| InvalidRetainForwardRule (n : Z)
| InvalidQoS (n : Z)
| PayloadTooLong
| PayloadNotUtf8
| BoundaryCrossed (n : Z)
| MalformedPacket
| MalformedRemainingLength
| InsufficientBytes (n : Z)
| PacketIdZero
| PayloadSizeLimitExceeded (n : Z)
| EmptySubscription
| InvalidSubscribeReasonCode (n : Z)
| TopicNotUtf8
| PayloadSizeIncorrect
| InvalidPropertyType (n : Z)
| IoError.
#[export] Instance Error_eq_dec : EqDecision Error.
Proof. solve_decision. Defined.

(** ** CONNECT *)

Record Connect : Type := mkConnect {
  keep_alive : Z;
  client_id : bytes;
  clean_session : bool
}.

Record ConnectProperties : Type := mkConnectProperties {
  cp_session_expiry_interval : option Z;
  cp_receive_maximum : option Z;
  cp_max_packet_size : option Z;
  cp_topic_alias_max : option Z;
  cp_request_response_info : option Z;
  cp_request_problem_info : option Z;
  cp_user_properties : list (bytes * bytes);
  cp_authentication_method : option bytes;
  cp_authentication_data : option bytes
}.

Inductive QoS : Type :=
| AtMostOnce
| AtLeastOnce
| ExactlyOnce.
#[export] Instance QoS_eq_dec : EqDecision QoS.
Proof. solve_decision. Defined.

(** Maps a number to QoS *)
Definition qos (num : Z) : option QoS :=
  match num with
  | 0 => Some AtMostOnce
  | 1 => Some AtLeastOnce
  | 2 => Some ExactlyOnce
  | _ => None
  end.

Definition u8_of_QoS (value : QoS) : Z :=
  match value with AtMostOnce => 0 | AtLeastOnce => 1 | ExactlyOnce => 2 end.

Record LastWill : Type := mkLastWill {
  lw_topic : bytes;
  lw_message : bytes;
  lw_qos : QoS;
  lw_retain : bool
}.

Record LastWillProperties : Type := mkLastWillProperties {
  wp_delay_interval : option Z;
  wp_payload_format_indicator : option Z;
  wp_message_expiry_interval : option Z;
  wp_content_type : option bytes;
  wp_response_topic : option bytes;
  wp_correlation_data : option bytes;
  wp_user_properties : list (bytes * bytes)
}.

Record Login : Type := mkLogin { username : bytes; password : bytes }.

(** ** CONNACK *)

Inductive ConnectReturnCode : Type :=
| CR_Success
| CR_NotAuthorized
| CR_UnspecifiedError
| CR_MalformedPacket
| CR_ProtocolError
| CR_ImplementationSpecificError
| CR_UnsupportedProtocolVersion
| CR_ClientIdentifierNotValid
| CR_BadUserNamePassword
| CR_ServerUnavailable
| CR_ServerBusy
| CR_Banned
| CR_BadAuthenticationMethod
| CR_TopicNameInvalid
| CR_PacketTooLarge
| CR_QuotaExceeded
| CR_PayloadFormatInvalid
| CR_RetainNotSupported
| CR_QoSNotSupported
| CR_UseAnotherServer
| CR_ServerMoved
| CR_ConnectionRateExceeded
| CR_RefusedProtocolVersion
| CR_BadClientId
| CR_ServiceUnavailable.
#[export] Instance ConnectReturnCode_eq_dec : EqDecision ConnectReturnCode.
Proof. solve_decision. Defined.

Record ConnAck : Type := mkConnAck { session_present : bool; ca_code : ConnectReturnCode }.

Record ConnAckProperties : Type := mkConnAckProperties {
  cap_session_expiry_interval : option Z;
  cap_receive_max : option Z;
  cap_max_qos : option Z;
  cap_retain_available : option Z;
  cap_max_packet_size : option Z;
  cap_assigned_client_identifier : option bytes;
  cap_topic_alias_max : option Z;
  cap_reason_string : option bytes;
  cap_user_properties : list (bytes * bytes);
  cap_wildcard_subscription_available : option Z;
  cap_subscription_identifiers_available : option Z;
  cap_shared_subscription_available : option Z;
  cap_server_keep_alive : option Z;
  cap_response_information : option bytes;
  cap_server_reference : option bytes;
  cap_authentication_method : option bytes;
  cap_authentication_data : option bytes
}.

(** ** PUBLISH and its acknowledgements *)

Record Publish : Type := mkPublish {
  dup : bool;
  pub_qos : QoS;
  pub_pkid : Z;
  retain : bool;
  topic : bytes;
  payload : bytes
}.

Record PublishProperties : Type := mkPublishProperties {
  pp_payload_format_indicator : option Z;
  pp_message_expiry_interval : option Z;
  pp_topic_alias : option Z;
  pp_response_topic : option bytes;
  pp_correlation_data : option bytes;
  pp_user_properties : list (bytes * bytes);
  pp_subscription_identifiers : list Z;
  pp_content_type : option bytes
}.

Inductive PubAckReason : Type :=
| PA_Success
| PA_NoMatchingSubscribers
| PA_UnspecifiedError
| PA_ImplementationSpecificError
| PA_NotAuthorized
| PA_TopicNameInvalid
| PA_PacketIdentifierInUse
| PA_QuotaExceeded
| PA_PayloadFormatInvalid.
#[export] Instance PubAckReason_eq_dec : EqDecision PubAckReason.
Proof. solve_decision. Defined.

Record PubAck : Type := mkPubAck { pa_pkid : Z; pa_reason : option PubAckReason }.

Record PubAckProperties : Type := mkPubAckProperties {
  pap_reason_string : option bytes;
  pap_user_properties : list (bytes * bytes)
}.

Inductive PubRecReason : Type :=
| PR_Success
| PR_NoMatchingSubscribers
| PR_UnspecifiedError
| PR_ImplementationSpecificError
| PR_NotAuthorized
| PR_TopicNameInvalid
| PR_PacketIdentifierInUse
| PR_QuotaExceeded
| PR_PayloadFormatInvalid.
#[export] Instance PubRecReason_eq_dec : EqDecision PubRecReason.
Proof. solve_decision. Defined.

Record PubRec : Type := mkPubRec { pr_pkid : Z; pr_reason : option PubRecReason }.

Record PubRecProperties : Type := mkPubRecProperties {
  prp_reason_string : option bytes;
  prp_user_properties : list (bytes * bytes)
}.

Inductive PubRelReason : Type :=
| PL_Success
| PL_PacketIdentifierNotFound.
#[export] Instance PubRelReason_eq_dec : EqDecision PubRelReason.
Proof. solve_decision. Defined.

Record PubRel : Type := mkPubRel { pl_pkid : Z; pl_reason : option PubRelReason }.

Record PubRelProperties : Type := mkPubRelProperties {
  plp_reason_string : option bytes;
  plp_user_properties : list (bytes * bytes)
}.

Inductive PubCompReason : Type :=
| PC_Success
| PC_PacketIdentifierNotFound.
#[export] Instance PubCompReason_eq_dec : EqDecision PubCompReason.
Proof. solve_decision. Defined.

Record PubComp : Type := mkPubComp { pc_pkid : Z; pc_reason : option PubCompReason }.

Record PubCompProperties : Type := mkPubCompProperties {
  pcp_reason_string : option bytes;
  pcp_user_properties : list (bytes * bytes)
}.

(** ** SUBSCRIBE, UNSUBSCRIBE and their acknowledgements *)

Inductive RetainForwardRule : Type :=
| OnEverySubscribe
| OnNewSubscribe
| Never.
#[export] Instance RetainForwardRule_eq_dec : EqDecision RetainForwardRule.
Proof. solve_decision. Defined.

Definition u8_of_RetainForwardRule (value : RetainForwardRule) : Z :=
  match value with OnEverySubscribe => 0 | OnNewSubscribe => 1 | Never => 2 end.

Record Filter : Type := mkFilter {
  path : bytes;
  f_qos : QoS;
  nolocal : bool;
  preserve_retain : bool;
  retain_forward_rule : RetainForwardRule
}.

Record Subscribe : Type := mkSubscribe {
  packet_identifier : Z;
  filters : list Filter
}.

Record SubscribeProperties : Type := mkSubscribeProperties {
  sp_subscription_identifier : option Z;
  sp_user_properties : list (bytes * bytes)
}.

Inductive SubscribeReasonCode : Type :=
| SR_QoS0
| SR_QoS1
| SR_QoS2
| SR_Success (q : QoS)
| SR_Failure
| SR_Unspecified
| SR_ImplementationSpecific
| SR_NotAuthorized
| SR_TopicFilterInvalid
| SR_PkidInUse
| SR_QuotaExceeded
| SR_SharedSubscriptionsNotSupported
| SR_SubscriptionIdNotSupported
| SR_WildcardSubscriptionsNotSupported
| SR_ExclusiveSubscriptionDisabled
| SR_TopicSubscribed.
#[export] Instance SubscribeReasonCode_eq_dec : EqDecision SubscribeReasonCode.
Proof. solve_decision. Defined.

Record SubAck : Type := mkSubAck { sa_pkid : Z; return_codes : list SubscribeReasonCode }.

Record SubAckProperties : Type := mkSubAckProperties {
  sap_reason_string : option bytes;
  sap_user_properties : list (bytes * bytes)
}.

Record Unsubscribe : Type := mkUnsubscribe { un_pkid : Z; un_filters : list bytes }.

Record UnsubscribeProperties : Type := mkUnsubscribeProperties {
  up_user_properties : list (bytes * bytes)
}.

Inductive UnsubAckReason : Type :=
| UR_Success
| UR_NoSubscriptionExisted
| UR_UnspecifiedError
| UR_ImplementationSpecificError
| UR_NotAuthorized
| UR_TopicFilterInvalid
| UR_PacketIdentifierInUse.
#[export] Instance UnsubAckReason_eq_dec : EqDecision UnsubAckReason.
Proof. solve_decision. Defined.

Record UnsubAck : Type := mkUnsubAck { ua_pkid : Z; reasons : list UnsubAckReason }.

Record UnsubAckProperties : Type := mkUnsubAckProperties {
  uap_reason_string : option bytes;
  uap_user_properties : list (bytes * bytes)
}.

(** ** DISCONNECT and AUTH *)

Inductive DisconnectReasonCode : Type :=
| DR_NormalDisconnection
| DR_DisconnectWithWillMessage
| DR_UnspecifiedError
| DR_MalformedPacket
| DR_ProtocolError
| DR_ImplementationSpecificError
| DR_NotAuthorized
| DR_ServerBusy
| DR_ServerShuttingDown
| DR_KeepAliveTimeout
| DR_SessionTakenOver
| DR_TopicFilterInvalid
| DR_TopicNameInvalid
| DR_ReceiveMaximumExceeded
| DR_TopicAliasInvalid
| DR_PacketTooLarge
| DR_MessageRateTooHigh
| DR_QuotaExceeded
| DR_AdministrativeAction
| DR_PayloadFormatInvalid
| DR_RetainNotSupported
| DR_QoSNotSupported
| DR_UseAnotherServer
| DR_ServerMoved
| DR_SharedSubscriptionNotSupported
| DR_ConnectionRateExceeded
| DR_MaximumConnectTime
| DR_SubscriptionIdentifiersNotSupported
| DR_WildcardSubscriptionsNotSupported.
#[export] Instance DisconnectReasonCode_eq_dec : EqDecision DisconnectReasonCode.
Proof. solve_decision. Defined.

Record Disconnect : Type := mkDisconnect { reason_code : option DisconnectReasonCode }.

Record DisconnectProperties : Type := mkDisconnectProperties {
  dp_session_expiry_interval : option Z;
  dp_reason_string : option bytes;
  dp_user_properties : list (bytes * bytes);
  dp_server_reference : option bytes
}.

Inductive AuthReason : Type :=
| AU_Success
| AU_ContinueAuthentication
| AU_ReAuthenticate.
#[export] Instance AuthReason_eq_dec : EqDecision AuthReason.
Proof. solve_decision. Defined.

Record Auth : Type := mkAuth { au_reason : option AuthReason }.

Record AuthProperties : Type := mkAuthProperties {
  ap_authentication_method : option bytes;
  ap_authentication_data : option bytes;
  ap_reason_string : option bytes;
  ap_user_properties : list (bytes * bytes)
}.

(** ** The packet sum *)

Inductive MqttPacket : Type :=
| P_Connect (level : Z) (c : Connect) (p : option ConnectProperties)
            (w : option LastWill) (wp : option LastWillProperties) (l : option Login)
| P_ConnAck (a : ConnAck) (p : option ConnAckProperties)
| P_Publish (m : Publish) (p : option PublishProperties)
| P_PubAck (a : PubAck) (p : option PubAckProperties)
| P_PubRec (a : PubRec) (p : option PubRecProperties)
| P_PubRel (a : PubRel) (p : option PubRelProperties)
| P_PubComp (a : PubComp) (p : option PubCompProperties)
| P_PingReq
| P_PingResp
| P_Subscribe (s : Subscribe) (p : option SubscribeProperties)
| P_SubAck (a : SubAck) (p : option SubAckProperties)
| P_Unsubscribe (u : Unsubscribe) (p : option UnsubscribeProperties)
| P_UnsubAck (a : UnsubAck) (p : option UnsubAckProperties)
| P_Disconnect (d : Disconnect) (p : option DisconnectProperties)
| P_Auth (a : Auth) (p : option AuthProperties).

(** The outcome of [connect_read]. *)
Record ConnectReadOutcome : Type := mkConnectReadOutcome {
  cro_protocol_version : Z;
  cro_connect : Connect;
  cro_properties : option ConnectProperties;
  cro_last_will : option LastWill;
  cro_last_will_properties : option LastWillProperties;
  cro_login : option Login
}.
