(* ===== verification/MqttCommon.v ===== *)
(** * Framing and field primitives of [protocol/src/mqtt/common.rs]

    The fixed header, the variable byte integer of the remaining length, and
    the readers and writers of integers, byte strings and UTF-8 strings that
    every packet is built from, with their round trips, their bounds and the
    fact that no reader panics on any octets. *)

From S2P Require Import Prelude Bytes MqttTypes.

(** ** Definitions *)

Section definitions.
Context {BC : BytesCrate}.

(** The readers work on a [&mut Bytes], the writers on a [&mut BytesMut]. *)
Definition R (A : Type) : Type := M bytes Error A.

Definition FixedHeader_new (byte1 remaining_len_len remaining_len : Z) : FixedHeader :=
  mkFixedHeader byte1 (remaining_len_len + 1) remaining_len.

Definition packet_type (h : FixedHeader) : outcome Error PacketType :=
  let num := Z.shiftr (byte1 h) 4 in
  match num with
  | 1 => Ok PT_Connect
  | 2 => Ok PT_ConnAck
  | 3 => Ok PT_Publish
  | 4 => Ok PT_PubAck
  | 5 => Ok PT_PubRec
  | 6 => Ok PT_PubRel
  | 7 => Ok PT_PubComp
  | 8 => Ok PT_Subscribe
  | 9 => Ok PT_SubAck
  | 10 => Ok PT_Unsubscribe
  | 11 => Ok PT_UnsubAck
  | 12 => Ok PT_PingReq
  | 13 => Ok PT_PingResp
  | 14 => Ok PT_Disconnect
  | _ => Err (InvalidPacketType num)
  end.

Definition frame_length (h : FixedHeader) : Z := fixed_header_len h + remaining_len h.

(** The body of the [for] loop of [length], from the accumulators on. *)
Fixpoint length_loop (stream : bytes) (len len_len shift : Z) (done : bool)
  : outcome Error (Z * Z) :=
  match stream with
  | [] => if negb done then Err (InsufficientBytes 1) else Ok (len_len, len)
  | byte :: stream' =>
      let len_len := len_len + 1 in
      let len := len + Z.shiftl (Z.land byte 127) shift in
      let done := Z.land byte 128 =? 0 in
      if done then Ok (len_len, len)
      else
        let shift := shift + 7 in
        if 21 <? shift then Err MalformedRemainingLength
        else length_loop stream' len len_len shift done
  end.

(** [length]: (number of octets of the integer, its value). *)
Definition mqtt_length (stream : bytes) : outcome Error (Z * Z) :=
  length_loop stream 0 0 0 false.

Definition parse_fixed_header (stream : bytes) : outcome Error FixedHeader :=
  let stream_len := blen stream in
  if stream_len <? 2 then Err (InsufficientBytes (2 - stream_len))
  else
    match stream with
    | [] => Panic (* [stream.next().unwrap()] *)
    | byte1 :: stream' =>
        match mqtt_length stream' with
        | Ok (len_len, len) => Ok (FixedHeader_new byte1 len_len len)
        | Err e => Err e
        | Panic => Panic
        | OutOfFuel => OutOfFuel
        end
    end.

Definition check (stream : bytes) (max_packet_size : Z) : outcome Error FixedHeader :=
  let stream_len := blen stream in
  match parse_fixed_header stream with
  | Ok fixed_header =>
      if max_packet_size <? remaining_len fixed_header
      then Err (PayloadSizeLimitExceeded (remaining_len fixed_header))
      else
        let frame_length := frame_length fixed_header in
        if stream_len <? frame_length
        then Err (InsufficientBytes (frame_length - stream_len))
        else Ok fixed_header
  | Err e => Err e
  | Panic => Panic
  | OutOfFuel => OutOfFuel
  end.

Definition read_u16 : R Z :=
  let! stream := get in
  if blen stream <? 2 then fail MalformedPacket else get_u16.

Definition read_u8 : R Z :=
  let! stream := get in
  if blen stream =? 0 then fail MalformedPacket else get_u8.

Definition read_u32 : R Z :=
  let! stream := get in
  if blen stream <? 4 then fail MalformedPacket else get_u32.

Definition read_mqtt_bytes : R bytes :=
  let! len := read_u16 in
  let! stream := get in
  if blen stream <? len then fail (BoundaryCrossed len) else split_to len.

Definition read_mqtt_string : R bytes :=
  let! s := read_mqtt_bytes in
  ok_or (from_utf8 s) TopicNotUtf8.

(** [std::str::from_utf8(&b)?] after [read_mqtt_bytes], as the MQTT 3/4
    readers write it: the error is converted by [From<Utf8Error>]. *)
Definition read_mqtt_utf8 : R bytes :=
  let! s := read_mqtt_bytes in
  ok_or (from_utf8 s) PayloadNotUtf8.

Definition write_mqtt_bytes (b : bytes) : R unit :=
  put_u16 (as_u16 (blen b)) ;; put_slice b.

Definition write_mqtt_string (s : bytes) : R unit := write_mqtt_bytes s.

(** The [while !done] loop: [x < 128^4], so four rounds end it. *)
Fixpoint write_remaining_length_loop (fuel : nat) (x count : Z) : R Z :=
  match fuel with
  | O => out_of_fuel
  | S fuel =>
      let byte := as_u8 (x mod 128) in
      let x := x / 128 in
      let byte := if 0 <? x then Z.lor byte 128 else byte in
      put_u8 byte ;;
      let count := count + 1 in
      if x =? 0 then ret count else write_remaining_length_loop fuel x count
  end.

Definition write_remaining_length (len : Z) : R Z :=
  if 268435455 <? len then fail PayloadTooLong
  else write_remaining_length_loop 4 len 0.

Definition len_len (len : Z) : Z :=
  if 2097152 <=? len then 4
  else if 16384 <=? len then 3
  else if 128 <=? len then 2
  else 1.

(** Readers of a packet receive the whole frame and skip the fixed header:
    [bytes.advance(fixed_header.fixed_header_len)]. *)
Definition skip_header (h : FixedHeader) : R unit := advance (fixed_header_len h).

(** [a - b] on [usize]. *)
Definition usize_sub (a b : Z) : Z := wrap64 (a - b).

(** [while bytes.has_remaining() { body }] pushing onto a vector. *)
Fixpoint while_remaining {A : Type} (fuel : nat) (body : R A) (acc : list A) : R (list A) :=
  let! stream := get in
  if blen stream =? 0 then ret acc
  else
    match fuel with
    | O => out_of_fuel
    | S fuel => let! a := body in while_remaining fuel body (acc ++ [a])
    end.
End definitions.

(** ** The wire form of the primitives *)

Fixpoint varint_fuel (fuel : nat) (x : Z) : bytes :=
  match fuel with
  | O => []
  | S fuel => if x <? 128 then [x] else (x mod 128 + 128) :: varint_fuel fuel (x / 128)
  end.

(** The variable byte integer of the MQTT standard, seven bits per octet. *)
Definition varint (x : Z) : bytes := varint_fuel 4 x.
Arguments varint : simpl never.

(** A length-prefixed byte string of at most 65535 octets. *)
Definition wire_bytes (b : bytes) : bytes := be16 (blen b) ++ b.

(** A value that fits the 16-bit length prefix; a string that does is one
    whose octets are UTF-8. *)
Definition bytes_wf (b : bytes) : Prop := bytes_ok b /\ blen b < 65536.
Definition string_wf (s : bytes) : Prop := bytes_wf s /\ utf8_valid s = true.

Definition max_remaining : Z := 268435455.

(** A frame: the first octet, the remaining length, the rest of the packet. *)
Definition frame (b : Z) (body : bytes) : bytes := b :: varint (blen body) ++ body.
Definition hdr_of (b : Z) (body : bytes) : FixedHeader :=
  mkFixedHeader b (1 + blen (varint (blen body))) (blen body).

(** The number of octets of a frame. *)
Definition frame_size (body : bytes) : Z := 1 + len_len (blen body) + blen body.

(** [s] is exactly the frame that [h] is the fixed header of. *)
Definition frame_for (h : FixedHeader) (s : bytes) : Prop :=
  bytes_ok s /\ u8 (byte1 h) /\ 0 <= remaining_len h /\ 0 <= fixed_header_len h /\
  frame_length h = blen s.

(** The encoding of an optional field. *)
Definition opt_wire {A : Type} (enc : A -> bytes) (o : option A) : bytes :=
  match o with Some a => enc a | None => [] end.
Definition opt_all {A : Type} (P : A -> Prop) (o : option A) : Prop :=
  match o with Some a => P a | None => True end.

(** ** Variable byte integers *)

Lemma land127 b : u8 b -> Z.land b 127 = b mod 128.
Proof.
  intros Hb. apply Z.eqb_eq.
  by apply (u8_forall (fun b => Z.land b 127 =? b mod 128)); [vm_compute|].
Qed.

Lemma land128 b : u8 b -> (Z.land b 128 =? 0) = (b <? 128).
Proof.
  intros Hb. apply eqb_prop.
  by apply (u8_forall (fun b => eqb (Z.land b 128 =? 0) (b <? 128))); [vm_compute|].
Qed.

Lemma lor128 b : 0 <= b < 128 -> Z.lor b 128 = b + 128.
Proof.
  intros Hb. assert (u8 b) as Hu by (unfold u8; lia).
  pose proof (u8_forall (fun b => (128 <=? b) || (Z.lor b 128 =? b + 128)) eq_refl b Hu) as H.
  cbn in H. destruct (Z.leb_spec 128 b); [lia|]. by apply Z.eqb_eq in H.
Qed.

Lemma varint_fuel_ok f x : 0 <= x -> bytes_ok (varint_fuel f x).
Proof.
  revert x. induction f as [|f IH]; cbn; intros x Hx; [apply bytes_ok_nil|].
  destruct (Z.ltb_spec x 128); apply bytes_ok_cons; unfold u8.
  - split; [lia|apply bytes_ok_nil].
  - pose proof (Z.mod_pos_bound x 128). split; [lia|]. apply IH. apply Z.div_pos; lia.
Qed.

Lemma varint_ok x : 0 <= x -> bytes_ok (varint x).
Proof. apply varint_fuel_ok. Qed.

Lemma length_loop_varint f x rest len ll shift d :
  (0 < f)%nat -> 0 <= x < 128 ^ Z.of_nat f -> 0 <= shift -> shift + 7 * Z.of_nat f <= 28 ->
  length_loop (varint_fuel f x ++ rest) len ll shift d
  = Ok (ll + blen (varint_fuel f x), len + x * 2 ^ shift).
Proof.
  revert x len ll shift d. induction f as [|f IH]; intros x len ll shift d Hpos Hx Hs Hf; [lia|].
  rewrite Nat2Z.inj_succ, Z.pow_succ_r in Hx by lia.
  cbn [varint_fuel]. destruct (Z.ltb_spec x 128) as [Hlt|Hge]; cbn [length_loop app].
  - assert (u8 x) by (unfold u8; lia).
    rewrite land128, land127 by done. rewrite (proj2 (Z.ltb_lt x 128)) by lia.
    rewrite Z.mod_small, Z.shiftl_mul_pow2 by lia. done.
  - pose proof (Z.mod_pos_bound x 128 ltac:(lia)).
    assert (u8 (x mod 128 + 128)) by (unfold u8; lia).
    rewrite land128, land127 by done.
    rewrite (proj2 (Z.ltb_ge (x mod 128 + 128) 128)) by lia.
    destruct f as [|f'].
    { change (128 ^ Z.of_nat 0) with 1 in Hx. lia. }
    rewrite (proj2 (Z.ltb_ge 21 (shift + 7))) by lia.
    rewrite IH; [|lia|split; [apply Z.div_pos; lia|apply Z.div_lt_upper_bound; lia]|lia|lia].
    f_equal. f_equal; [blia|].
    rewrite Z.shiftl_mul_pow2, Z.pow_add_r by lia.
    replace ((x mod 128 + 128) mod 128) with (x mod 128)
      by (Z.to_euclidean_division_equations; lia).
    pose proof (Z.div_mod x 128 ltac:(lia)). nia.
Qed.

Lemma mqtt_length_varint x rest :
  0 <= x <= max_remaining -> mqtt_length (varint x ++ rest) = Ok (blen (varint x), x).
Proof.
  intros Hx. unfold mqtt_length, varint, max_remaining in *.
  rewrite length_loop_varint; [|cbn; lia..]. by rewrite Z.mul_1_r.
Qed.

Lemma blen_varint x : 0 <= x <= max_remaining -> blen (varint x) = len_len x.
Proof.
  unfold varint, max_remaining, len_len. intros Hx. cbn [varint_fuel].
  repeat match goal with
  | |- context [?a <? ?b] => destruct (Z.ltb_spec a b)
  | |- context [?a <=? ?b] => destruct (Z.leb_spec a b)
  end; try reflexivity; exfalso; Z.to_euclidean_division_equations; lia.
Qed.

Lemma len_len_bounds x : 1 <= len_len x <= 4.
Proof. unfold len_len. repeat case_match; lia. Qed.

(** What [length] accepts: at most four octets, all of them in the stream, and
    a value of at most 28 bits. *)
Lemma length_loop_sound stream len ll shift d n x :
  bytes_ok stream -> 0 <= len < 2 ^ shift -> 0 <= shift <= 21 -> d = false ->
  length_loop stream len ll shift d = Ok (n, x) ->
  ll + 1 <= n <= ll + blen stream /\ 7 * (n - ll) <= 28 - shift /\ 0 <= x < 2 ^ 28.
Proof.
  revert len ll shift d. induction stream as [|b s IH]; cbn; intros len ll shift d Hok Hl Hs Hd H.
  { by subst d. }
  apply bytes_ok_cons in Hok as [Hb Hok].
  rewrite land128, land127 in H by done. rewrite Z.shiftl_mul_pow2 in H by lia.
  pose proof (Z.mod_pos_bound b 128 ltac:(lia)).
  assert (0 <= len + b mod 128 * 2 ^ shift < 2 ^ (shift + 7)) as Hl'.
  { rewrite Z.pow_add_r by lia. change (2 ^ 7) with 128. nia. }
  pose proof (blen_nonneg s). rewrite blen_cons.
  destruct (b <? 128).
  - injection H as <- <-. split; [lia|]. split; [lia|].
    pose proof (Z.pow_le_mono_r 2 (shift + 7) 28). lia.
  - destruct (Z.ltb_spec 21 (shift + 7)); [done|].
    apply IH in H; [|done|done|lia|done]. lia.
Qed.

Lemma mqtt_length_sound stream n x :
  bytes_ok stream -> mqtt_length stream = Ok (n, x) ->
  1 <= n <= 4 /\ n <= blen stream /\ 0 <= x <= max_remaining.
Proof.
  intros Hok H. apply length_loop_sound in H; [|done|cbn; lia|lia|done].
  unfold max_remaining. lia.
Qed.

Lemma length_loop_returns stream len ll shift d : returns (length_loop stream len ll shift d).
Proof.
  revert len ll shift d.
  induction stream as [|b s IH]; cbn; intros; repeat case_match; try done; apply IH.
Qed.

Lemma mqtt_length_returns stream : returns (mqtt_length stream).
Proof. apply length_loop_returns. Qed.

(** A variable byte integer that has not arrived in full. *)
Lemma length_loop_varint_prefix f x pre suf len ll shift :
  (0 < f)%nat -> 0 <= x < 128 ^ Z.of_nat f -> shift + 7 * Z.of_nat f <= 28 ->
  varint_fuel f x = pre ++ suf -> suf <> [] ->
  length_loop pre len ll shift false = Err (InsufficientBytes 1).
Proof.
  revert x pre len ll shift. induction f as [|f IH]; intros x pre len ll shift Hpos Hx Hf E Hs; [lia|].
  rewrite Nat2Z.inj_succ, Z.pow_succ_r in Hx by lia.
  destruct pre as [|b pre]; [done|]. cbn [varint_fuel] in E. destruct (Z.ltb_spec x 128) as [Hlt|Hge].
  { injection E as <- E. symmetry in E. apply app_eq_nil in E as [-> ->]. done. }
  injection E as <- E. pose proof (Z.mod_pos_bound x 128 ltac:(lia)).
  assert (u8 (x mod 128 + 128)) by (unfold u8; lia).
  cbn [length_loop]. rewrite land128 by done. zif_false.
  destruct f as [|f']; [change (128 ^ Z.of_nat 0) with 1 in Hx; lia|].
  rewrite (proj2 (Z.ltb_ge 21 (shift + 7))) by lia.
  eapply IH; [lia| |lia|exact E|done].
  split; [apply Z.div_pos; lia|apply Z.div_lt_upper_bound; lia].
Qed.

(** ** Frames *)

Lemma parse_fixed_header_returns s : returns (parse_fixed_header s).
Proof.
  unfold parse_fixed_header. destruct (Z.ltb_spec (blen s) 2); [done|].
  destruct s as [|b s]; [blia|].
  pose proof (mqtt_length_returns s). by destruct (mqtt_length s) as [[]| | |].
Qed.

Lemma check_returns s max : returns (check s max).
Proof.
  unfold check. pose proof (parse_fixed_header_returns s).
  destruct (parse_fixed_header s); try done. repeat case_match; done.
Qed.

Lemma check_frame b n body rest max :
  0 <= n <= max_remaining -> n <= max -> blen body = n ->
  check (b :: varint n ++ body ++ rest) max = Ok (mkFixedHeader b (1 + blen (varint n)) n).
Proof.
  intros Hn Hm Hb. pose proof (blen_varint n Hn). pose proof (len_len_bounds n).
  unfold check, parse_fixed_header. rewrite (proj2 (Z.ltb_ge _ _)) by blia.
  rewrite mqtt_length_varint by done. unfold FixedHeader_new, frame_length. cbn.
  rewrite (proj2 (Z.ltb_ge max n)) by lia. rewrite (proj2 (Z.ltb_ge _ _)) by blia.
  by rewrite Z.add_comm.
Qed.

Lemma check_frame_of b body rest max :
  blen body <= max_remaining -> blen body <= max ->
  check (frame b body ++ rest) max = Ok (hdr_of b body).
Proof.
  intros. unfold frame. cbn [app]. rewrite <- app_assoc.
  apply check_frame; blia.
Qed.

Lemma frame_length_of b body :
  blen body <= max_remaining -> frame_length (hdr_of b body) = blen (frame b body).
Proof. intros. unfold frame_length, frame. cbn. blia. Qed.

Lemma blen_frame b body : blen body <= max_remaining -> blen (frame b body) = frame_size body.
Proof.
  intros. unfold frame, frame_size. pose proof (blen_varint (blen body)). blia.
Qed.

(** A frame of which only a part has arrived. *)
Lemma check_partial b body pre suf max :
  blen body <= max_remaining -> blen body <= max -> frame b body = pre ++ suf -> suf <> [] ->
  exists n, check pre max = Err (InsufficientBytes n) /\ 1 <= n <= blen suf.
Proof.
  intros Hsz Hmax E Hs. pose proof (f_equal blen E) as El. rewrite blen_frame, blen_app in El by done.
  unfold frame_size in El. pose proof (len_len_bounds (blen body)).
  assert (0 < blen suf) by (destruct suf; [done|blia]).
  unfold check, parse_fixed_header. destruct (Z.ltb_spec (blen pre) 2).
  { eexists. split; [done|]. blia. }
  destruct pre as [|b' pre]; [blia|]. injection E as <- E.
  destruct (decide (blen pre < blen (varint (blen body)))) as [Hlt|Hge].
  - exists 1. split; [|lia].
    assert (varint (blen body) = pre ++ take (length (varint (blen body)) - length pre) suf) as E'.
    { apply (f_equal (take (length (varint (blen body))))) in E.
      rewrite take_app_length in E. etrans; [exact E|]. rewrite take_app. f_equal.
      apply take_ge. unfold blen in *. lia. }
    unfold mqtt_length. erewrite (length_loop_varint_prefix 4 (blen body)); [done|lia| |done|exact E'|].
    + unfold max_remaining in Hsz. cbn. blia.
    + intros E0. apply (f_equal length) in E0. rewrite length_take in E0. unfold blen in *. cbn in E0. lia.
  - assert (exists rest, pre = varint (blen body) ++ rest) as [rest ->].
    { exists (drop (length (varint (blen body))) pre).
      rewrite <- (take_drop (length (varint (blen body))) pre) at 1. f_equal.
      apply (f_equal (take (length (varint (blen body))))) in E.
      rewrite take_app_length, take_app_le in E by (unfold blen in *; lia). done. }
    rewrite mqtt_length_varint by blia. unfold FixedHeader_new. cbn [remaining_len].
    rewrite (proj2 (Z.ltb_ge max _)) by lia. unfold frame_length. cbn [fixed_header_len remaining_len].
    rewrite blen_cons, blen_app in *. rewrite (blen_varint (blen body)) in * by blia.
    rewrite (proj2 (Z.ltb_lt _ _)) by lia. eexists. split; [done|]. lia.
Qed.

(** What [check] accepts is a frame that is there in full. *)
Lemma check_sound s max h :
  bytes_ok s -> check s max = Ok h ->
  0 <= remaining_len h <= Z.min max max_remaining /\
  2 <= fixed_header_len h <= 5 /\
  frame_length h <= blen s /\
  u8 (byte1 h).
Proof.
  unfold check, parse_fixed_header, frame_length. intros Hok H.
  destruct (Z.ltb_spec (blen s) 2); [done|].
  destruct s as [|b s]; [done|]. apply bytes_ok_cons in Hok as [Hb Hok].
  destruct (mqtt_length s) as [[n x]| | |] eqn:Hl; try done.
  apply mqtt_length_sound in Hl; [|done]. cbn in H.
  destruct (Z.ltb_spec max x); [done|].
  destruct (Z.ltb_spec (blen (b :: s)) (n + 1 + x)); [done|].
  injection H as <-. cbn. split_and!; first [done | lia].
Qed.

Lemma usize_sub_le a b : 0 <= b <= a -> a < 2 ^ 64 -> usize_sub a b = a - b.
Proof. intros. apply wrap64_small. lia. Qed.

(** ** Field readers and writers *)

Lemma blen_wire_bytes b : blen (wire_bytes b) = 2 + blen b.
Proof. unfold wire_bytes. blia. Qed.
#[global] Hint Rewrite blen_wire_bytes : blen.

Lemma bytes_wf_u16 b : bytes_wf b -> u16 (blen b).
Proof. unfold bytes_wf, u16. intros [_ ?]. blia. Qed.

Section primitives.
Context {BC : BytesCrate} {BS : BytesSpec BC}.

Lemma read_u8_parses v : u8 v -> parses read_u8 [v] v.
Proof.
  intros Hv rest. unfold read_u8, bind, get.
  rewrite (proj2 (Z.eqb_neq _ _)) by blia. by apply get_u8_parses.
Qed.

Lemma read_u16_parses v : u16 v -> parses read_u16 (be16 v) v.
Proof.
  intros Hv rest. unfold read_u16, bind, get.
  rewrite (proj2 (Z.ltb_ge _ _)) by blia. by apply get_u16_parses.
Qed.

Lemma read_u32_parses v : u32 v -> parses read_u32 (be32 v) v.
Proof.
  intros Hv rest. unfold read_u32, bind, get.
  rewrite (proj2 (Z.ltb_ge _ _)) by blia. by apply get_u32_parses.
Qed.

Lemma read_mqtt_bytes_parses b : bytes_wf b -> parses read_mqtt_bytes (wire_bytes b) b.
Proof.
  intros Hb rest. unfold read_mqtt_bytes, wire_bytes.
  rewrite <- app_assoc. rewrite (parses_eval _ _ _ (blen b)) by (apply read_u16_parses, bytes_wf_u16, Hb).
  unfold bind, get. rewrite (proj2 (Z.ltb_ge _ _)) by blia. apply split_to_app.
Qed.

Lemma read_mqtt_string_parses s : string_wf s -> parses read_mqtt_string (wire_bytes s) s.
Proof.
  intros [Hs Hu]. unfold read_mqtt_string.
  eapply parses_bind_nil; [by apply read_mqtt_bytes_parses|].
  rewrite from_utf8_valid by done. apply parses_ret.
Qed.

Lemma read_mqtt_utf8_parses s : string_wf s -> parses read_mqtt_utf8 (wire_bytes s) s.
Proof.
  intros [Hs Hu]. unfold read_mqtt_utf8.
  eapply parses_bind_nil; [by apply read_mqtt_bytes_parses|].
  rewrite from_utf8_valid by done. apply parses_ret.
Qed.

Lemma write_mqtt_bytes_appends b : bytes_wf b -> appends (write_mqtt_bytes b) (wire_bytes b) tt.
Proof.
  intros Hb. pose proof (bytes_wf_u16 _ Hb) as Hl. unfold write_mqtt_bytes, wire_bytes.
  eapply appends_bind; [|apply put_slice_appends].
  unfold as_u16. rewrite Z.mod_small by done. by apply put_u16_appends.
Qed.

Lemma write_mqtt_string_appends s : bytes_wf s -> appends (write_mqtt_string s) (wire_bytes s) tt.
Proof. apply write_mqtt_bytes_appends. Qed.

Lemma write_remaining_length_loop_appends f x count :
  (0 < f)%nat -> 0 <= x < 128 ^ Z.of_nat f ->
  appends (write_remaining_length_loop f x count) (varint_fuel f x)
          (count + blen (varint_fuel f x)).
Proof.
  revert x count. induction f as [|f IH]; intros x count Hpos Hx; [lia|].
  rewrite Nat2Z.inj_succ, Z.pow_succ_r in Hx by lia.
  pose proof (Z.mod_pos_bound x 128 ltac:(lia)). pose proof (Z.div_mod x 128 ltac:(lia)).
  cbn [write_remaining_length_loop varint_fuel]. unfold as_u8. rewrite (Z.mod_small _ 256) by lia.
  destruct (Z.ltb_spec x 128) as [Hlt|Hge].
  - rewrite Z.div_small, Z.mod_small by lia. cbn [Z.ltb Z.compare].
    change [x] with ([x] ++ []). eapply appends_bind; [apply put_u8_appends; unfold u8; lia|].
    cbn [Z.eqb]. rewrite app_nil_r. replace (count + blen [x]) with (count + 1) by blia.
    apply appends_ret.
  - assert (1 <= x / 128) by (apply Z.div_le_lower_bound; lia).
    rewrite (proj2 (Z.ltb_lt 0 _)), (proj2 (Z.eqb_neq _ 0)), lor128 by lia.
    change (x mod 128 + 128 :: varint_fuel f (x / 128))
      with ([x mod 128 + 128] ++ varint_fuel f (x / 128)).
    eapply appends_bind; [apply put_u8_appends; unfold u8; lia|].
    rewrite blen_app, Z.add_assoc. change (blen [x mod 128 + 128]) with 1.
    destruct f as [|f']; [change (128 ^ Z.of_nat 0) with 1 in Hx; lia|].
    apply IH; [lia|]. split; [lia|]. apply Z.div_lt_upper_bound; lia.
Qed.

Lemma write_remaining_length_appends x :
  0 <= x <= max_remaining -> appends (write_remaining_length x) (varint x) (len_len x).
Proof.
  intros Hx. unfold write_remaining_length. pose proof Hx as [_ Hm]. unfold max_remaining in Hm.
  rewrite (proj2 (Z.ltb_ge 268435455 x)) by lia. rewrite <- (blen_varint x) by done.
  apply (write_remaining_length_loop_appends 4 x 0); unfold max_remaining in Hx; cbn; lia.
Qed.

Lemma skip_header_of b body : skip_header (hdr_of b body) (frame b body) = (Ok tt, body).
Proof.
  unfold skip_header, frame. cbn [fixed_header_len hdr_of].
  change (b :: varint (blen body) ++ body) with (([b] ++ varint (blen body)) ++ body).
  replace (1 + blen (varint (blen body))) with (blen ([b] ++ varint (blen body))) by blia.
  apply advance_app.
Qed.

(** A packet writer starts with the first octet and the remaining length; a
    packet reader skips them. *)
Lemma write_frame {A} b n body (k : Z -> R A) r :
  u8 b -> n = blen body -> n <= max_remaining -> appends (k (len_len n)) body r ->
  appends (put_u8 b ;; bind (write_remaining_length n) k) (frame b body) r.
Proof.
  intros Hb -> Hn Hk. change (frame b body) with ([b] ++ varint (blen body) ++ body).
  eapply appends_bind; [by apply put_u8_appends|].
  eapply appends_bind; [apply write_remaining_length_appends|exact Hk]. blia.
Qed.

Lemma read_frame {A} b body (k : unit -> R A) :
  bind (skip_header (hdr_of b body)) k (frame b body) = k tt body.
Proof. apply bind_ok, skip_header_of. Qed.

(** Reading never panics. *)
Lemma wp_read_u8 (Q : Z -> bytes -> Prop) s :
  bytes_ok s -> (forall v s', u8 v -> bytes_ok s' -> blen s = 1 + blen s' -> Q v s') ->
  wp read_u8 Q s.
Proof.
  intros Hs HQ. unfold read_u8. apply wp_bind, wp_get, wp_if; intros; bool_prop; [done|].
  apply wp_get_u8; [done|blia|]. intros v s' Hv ->. apply bytes_ok_cons in Hs as [_ Hs].
  apply HQ; [done..|blia].
Qed.

Lemma wp_read_u16 (Q : Z -> bytes -> Prop) s :
  bytes_ok s -> (forall v s', u16 v -> bytes_ok s' -> blen s = 2 + blen s' -> Q v s') ->
  wp read_u16 Q s.
Proof.
  intros Hs HQ. unfold read_u16. apply wp_bind, wp_get, wp_if; intros; bool_prop; [done|].
  apply wp_get_u16; [done|blia|]. intros v s' Hv ->. apply bytes_ok_app in Hs as [_ Hs].
  apply HQ; [done..|blia].
Qed.

Lemma wp_read_u32 (Q : Z -> bytes -> Prop) s :
  bytes_ok s -> (forall v s', u32 v -> bytes_ok s' -> blen s = 4 + blen s' -> Q v s') ->
  wp read_u32 Q s.
Proof.
  intros Hs HQ. unfold read_u32. apply wp_bind, wp_get, wp_if; intros; bool_prop; [done|].
  apply wp_get_u32; [done|blia|]. intros v s' Hv ->. apply bytes_ok_app in Hs as [_ Hs].
  apply HQ; [done..|blia].
Qed.

Lemma wp_read_mqtt_bytes (Q : bytes -> bytes -> Prop) s :
  bytes_ok s ->
  (forall v s', bytes_wf v -> bytes_ok s' -> blen s = 2 + blen v + blen s' -> Q v s') ->
  wp read_mqtt_bytes Q s.
Proof.
  intros Hs HQ. unfold read_mqtt_bytes.
  apply wp_bind, wp_read_u16; [done|]. intros n s' Hn Hs' Hl.
  apply wp_bind, wp_get, wp_if; intros; bool_prop; [done|]. unfold u16 in Hn.
  apply wp_split_to; [lia|].
  pose proof (blen_take n s' ltac:(lia)). pose proof (blen_drop n s' ltac:(lia)).
  apply HQ; [split; auto with bytesdb; lia|auto with bytesdb|lia].
Qed.

Lemma wp_from_utf8 s e (Q : bytes -> bytes -> Prop) st :
  (utf8_valid s = true -> Q s st) -> wp (ok_or (E := Error) (from_utf8 s) e) Q st.
Proof. intros HQ. apply wp_ok_or. unfold from_utf8. case_match; naive_solver. Qed.

Lemma wp_read_mqtt_string (Q : bytes -> bytes -> Prop) s :
  bytes_ok s ->
  (forall v s', string_wf v -> bytes_ok s' -> blen s = 2 + blen v + blen s' -> Q v s') ->
  wp read_mqtt_string Q s.
Proof.
  intros Hs HQ. unfold read_mqtt_string. apply wp_bind, wp_read_mqtt_bytes; [done|].
  intros v s' Hv Hs' Hl. apply wp_from_utf8. intros. by apply HQ.
Qed.

Lemma wp_read_mqtt_utf8 (Q : bytes -> bytes -> Prop) s :
  bytes_ok s ->
  (forall v s', string_wf v -> bytes_ok s' -> blen s = 2 + blen v + blen s' -> Q v s') ->
  wp read_mqtt_utf8 Q s.
Proof.
  intros Hs HQ. unfold read_mqtt_utf8. apply wp_bind, wp_read_mqtt_bytes; [done|].
  intros v s' Hv Hs' Hl. apply wp_from_utf8. intros. by apply HQ.
Qed.

Lemma wp_skip_header h (Q : unit -> bytes -> Prop) s :
  frame_for h s ->
  (forall s', bytes_ok s' -> blen s' = remaining_len h -> Q tt s') ->
  wp (skip_header h) Q s.
Proof.
  unfold frame_for, frame_length. intros (Hs & _ & Hr & Hh & Hl) HQ.
  apply wp_advance; [lia|]. apply HQ; [auto with bytesdb|].
  rewrite blen_drop; lia.
Qed.

Lemma wp_mqtt_length (Q : Z * Z -> bytes -> Prop) s :
  bytes_ok s ->
  (forall n x, 1 <= n <= blen s -> 0 <= x <= max_remaining -> Q (n, x) s) ->
  wp (lift (mqtt_length s)) Q s.
Proof.
  intros Hs HQ. apply wp_lift; [apply mqtt_length_returns|]. intros [n x] H.
  apply mqtt_length_sound in H; [|done]. apply HQ; lia.
Qed.

(** A loop whose body consumes at least one octet ends within as many rounds
    as there are octets. *)
Lemma wp_while_remaining {A} fuel (body : R A) (I : list A -> bytes -> Prop) acc s :
  (forall s, bytes_ok s -> forall acc, I acc s ->
     wp body (fun a s' => I (acc ++ [a]) s' /\ bytes_ok s' /\ blen s' < blen s) s) ->
  bytes_ok s -> blen s <= Z.of_nat fuel -> I acc s ->
  wp (while_remaining fuel body acc) (fun l s' => I l s' /\ s' = []) s.
Proof.
  intros Hbody. revert acc s. induction fuel as [|fuel IH]; intros acc s Hs Hf HI;
    cbn [while_remaining]; apply wp_bind, wp_get, wp_if; intros; bool_prop.
  - apply wp_ret. auto using blen_0_inv.
  - blia.
  - apply wp_ret. auto using blen_0_inv.
  - apply wp_bind. eapply wp_mono; [by apply Hbody|]. cbn. intros a s' (HI' & Hs' & Hlt).
    apply IH; [done|lia|done].
Qed.

(** Reading a concatenation of encodings gives the elements in order. *)
Lemma while_remaining_eval {A} fuel (body : R A) (enc : A -> bytes) l acc :
  (forall a, a ∈ l -> parses body (enc a) a /\ 0 < blen (enc a)) ->
  (length l <= fuel)%nat ->
  while_remaining fuel body acc (concat (map enc l)) = (Ok (acc ++ l), []).
Proof.
  revert acc fuel. induction l as [|a l IH]; intros acc fuel Hl Hf.
  { destruct fuel; cbn; unfold bind, get; cbn; by rewrite app_nil_r. }
  destruct fuel as [|fuel]; [cbn in Hf; lia|].
  destruct (Hl a ltac:(set_solver)) as [Ha Hpos].
  cbn [while_remaining map concat]. unfold bind at 1, get.
  rewrite (proj2 (Z.eqb_neq _ _)) by (pose proof (blen_nonneg (concat (map enc l))); blia).
  rewrite (parses_eval _ _ _ _ _ Ha).
  rewrite IH; [by rewrite <- app_assoc|set_solver|cbn in Hf; lia].
Qed.
End primitives.

(** [wp_read]: one primitive of a reader, discharging the octet-range side
    conditions. *)
Ltac wp_prim :=
  first [ apply wp_skip_header; [done|] | apply wp_read_u8; [done|] | apply wp_read_u16; [done|]
        | apply wp_read_u32; [done|] | apply wp_read_mqtt_bytes; [done|]
        | apply wp_read_mqtt_string; [done|] | apply wp_read_mqtt_utf8; [done|]
        | apply wp_mqtt_length; [done|] ]; intros.
Ltac wp_go := repeat (wp_step_with wp_prim; cbn beta in * ).

(** ** Automation of the two directions

    [appends_go] runs a writer and computes the octets it appends;
    [parse_step] lets a reader consume the next field of its input. *)
Create HintDb appendsdb.
#[export] Hint Resolve put_u8_appends put_u16_appends put_u32_appends put_slice_appends
  write_mqtt_bytes_appends write_mqtt_string_appends write_remaining_length_appends
  appends_ret : appendsdb.
Create HintDb parsesdb.
#[export] Hint Resolve read_u8_parses read_u16_parses read_u32_parses
  read_mqtt_bytes_parses read_mqtt_string_parses read_mqtt_utf8_parses : parsesdb.

Lemma appends_cast {A} (m : R A) o o' a a' :
  appends m o a -> o = o' -> a = a' -> appends m o' a'.
Proof. by intros ? -> ->. Qed.

Ltac appends_go :=
  repeat lazymatch goal with
  | |- appends (bind _ _) _ _ => eapply appends_bind
  | |- appends (if_some _ _) _ _ => eapply appends_if_some; intros
  | |- appends (for_each _ _) _ _ => eapply appends_for_each; intros
  | |- appends (let _ := _ in _) _ _ => cbv zeta
  | |- appends _ _ _ => solve [eauto with appendsdb]
  end.

(** Two lists that differ in the bracketing of [++] and in empty tails. *)
Ltac app_eq := repeat (rewrite <- app_assoc || rewrite app_nil_r); reflexivity.

Lemma appends_eval {A B} (m : R A) (k : A -> R B) o a buf :
  appends m o a -> bind m k buf = k a (buf ++ o).
Proof. intros H. by rewrite (bind_ok _ _ _ _ _ (H buf)). Qed.

Ltac write_step := erewrite appends_eval by eauto with appendsdb.
Ltac parse_step := erewrite parses_eval by eauto with parsesdb.
