(* ===== verification/MqttV4.v ===== *)
(** * The MQTT 3/4 packets of [protocol/src/mqtt/mqttv4]

    Every [read] and [write] of the directory, in the order of its files, then
    for each packet the octets its [write] appends, the packet its [read]
    recovers from them, and the fact that [read] never panics on a complete
    frame. *)

From Stdlib Require Import String.
From S2P Require Import Prelude Bytes MqttTypes MqttCommon.

(** ** Definitions *)

Section definitions.
Context {BC : BytesCrate}.

(** *** connect.rs *)

Definition v4_will_len (will : LastWill) : Z :=
  2 + blen (lw_topic will) + 2 + blen (lw_message will).

(** The retain mask of the source is [0b0010_00000], nine digits: [64]. *)
Definition v4_will_read (connect_flags : Z) : R (option LastWill) :=
  if Z.land connect_flags 4 =? 0 then
    if negb (Z.land connect_flags 56 =? 0) then fail IncorrectPacketFormat
    else ret None
  else
    let! will_topic := read_mqtt_bytes in
    let! will_message := read_mqtt_bytes in
    let qos_num := Z.shiftr (Z.land connect_flags 24) 3 in
    let! will_qos := ok_or (qos qos_num) (InvalidQoS qos_num) in
    ret (Some (mkLastWill will_topic will_message will_qos
                          (negb (Z.land connect_flags 64 =? 0)))).

Definition v4_will_write (will : LastWill) : R Z :=
  let connect_flags := Z.lor 0 (Z.lor 4 (Z.shiftl (u8_of_QoS (lw_qos will)) 3)) in
  let connect_flags := if lw_retain will then Z.lor connect_flags 32 else connect_flags in
  write_mqtt_bytes (lw_topic will) ;;
  write_mqtt_bytes (lw_message will) ;;
  ret connect_flags.

Definition v4_login_read (connect_flags : Z) : R (option Login) :=
  let! username :=
    if Z.land connect_flags 128 =? 0 then ret [] else read_mqtt_utf8 in
  let! password :=
    if Z.land connect_flags 64 =? 0 then ret [] else read_mqtt_utf8 in
  if (blen username =? 0) && (blen password =? 0) then ret None
  else ret (Some (mkLogin username password)).

Definition v4_login_len (login : Login) : Z :=
  let len := 0 in
  let len := if negb (blen (username login) =? 0)
             then len + (2 + blen (username login)) else len in
  if negb (blen (password login) =? 0)
  then len + (2 + blen (password login)) else len.

Definition v4_login_write (login : Login) : R Z :=
  let connect_flags := 0 in
  let! connect_flags :=
    if negb (blen (username login) =? 0)
    then write_mqtt_string (username login) ;; ret (Z.lor connect_flags 128)
    else ret connect_flags in
  if negb (blen (password login) =? 0)
  then write_mqtt_string (password login) ;; ret (Z.lor connect_flags 64)
  else ret connect_flags.

Definition v4_connect_len (connect : Connect) (login : option Login)
                          (will : option LastWill) : Z :=
  let len := 2 + blen (lit "MQTT") + 1 + 1 + 2 in
  let len := len + (2 + blen (client_id connect)) in
  let len := match will with Some w => len + v4_will_len w | None => len end in
  match login with Some l => len + v4_login_len l | None => len end.

Definition v4_connect_read (h : FixedHeader)
  : R (Z * Connect * option Login * option LastWill) :=
  skip_header h ;;
  let! protocol_name := read_mqtt_utf8 in
  let! protocol_level := read_u8 in
  if negb (bool_decide (protocol_name = lit "MQTT")) then fail InvalidProtocol
  else if negb (protocol_level =? 4) && negb (protocol_level =? 3)
  then fail (InvalidProtocolLevel protocol_level)
  else
    let! connect_flags := read_u8 in
    let clean_session := negb (Z.land connect_flags 2 =? 0) in
    let! keep_alive := read_u16 in
    let! client_id := read_mqtt_utf8 in
    let! last_will := v4_will_read connect_flags in
    let! login := v4_login_read connect_flags in
    ret (protocol_level, mkConnect keep_alive client_id clean_session, login, last_will).

Definition v4_connect_write (connect : Connect) (login : option Login)
                            (will : option LastWill) : R Z :=
  let len := v4_connect_len connect login will in
  put_u8 16 ;;
  let! count := write_remaining_length len in
  write_mqtt_string (lit "MQTT") ;;
  put_u8 4 ;;
  let flags_index := 1 + count + 2 + 4 + 1 in
  let connect_flags := if clean_session connect then Z.lor 0 2 else 0 in
  put_u8 connect_flags ;;
  put_u16 (keep_alive connect) ;;
  write_mqtt_string (client_id connect) ;;
  let! connect_flags :=
    match will with
    | Some w => let! f := v4_will_write w in ret (Z.lor connect_flags f)
    | None => ret connect_flags
    end in
  let! connect_flags :=
    match login with
    | Some l => let! f := v4_login_write l in ret (Z.lor connect_flags f)
    | None => ret connect_flags
    end in
  set_index flags_index connect_flags ;;
  ret len.

(** *** connack.rs *)

Definition v4_connack_len : Z := 1 + 1.

Definition v4_connect_return (num : Z) : outcome Error ConnectReturnCode :=
  match num with
  | 0 => Ok CR_Success
  | 1 => Ok CR_RefusedProtocolVersion
  | 2 => Ok CR_BadClientId
  | 3 => Ok CR_ServiceUnavailable
  | 4 => Ok CR_BadUserNamePassword
  | 5 => Ok CR_NotAuthorized
  | num => Err (InvalidConnectReturnCode num)
  end.

(** [unreachable!()] for the MQTT 5 codes. *)
Definition v4_connect_code (return_code : ConnectReturnCode) : R Z :=
  match return_code with
  | CR_Success => ret 0
  | CR_RefusedProtocolVersion => ret 1
  | CR_BadClientId => ret 2
  | CR_ServiceUnavailable => ret 3
  | CR_BadUserNamePassword => ret 4
  | CR_NotAuthorized => ret 5
  | _ => panic
  end.

Definition v4_connack_read (h : FixedHeader) : R ConnAck :=
  skip_header h ;;
  let! flags := read_u8 in
  let! return_code := read_u8 in
  let session_present := Z.land flags 1 =? 1 in
  let! code := lift (v4_connect_return return_code) in
  ret (mkConnAck session_present code).

Definition v4_connack_write (connack : ConnAck) : R Z :=
  let len := v4_connack_len in
  put_u8 32 ;;
  let! count := write_remaining_length len in
  put_u8 (bool_as_u8 (session_present connack)) ;;
  let! code := v4_connect_code (ca_code connack) in
  put_u8 code ;;
  ret (1 + count + len).

(** *** publish.rs *)

(** [Publish::len] of common.rs. *)
Definition Publish_len (p : Publish) : Z :=
  let len := 2 + blen (topic p) + blen (payload p) in
  if bool_decide (pub_qos p = AtMostOnce) then len else len + 2.

Definition v4_publish_read (h : FixedHeader) : R Publish :=
  let qos_num := Z.shiftr (Z.land (byte1 h) 6) 1 in
  let! qos := ok_or (qos qos_num) (InvalidQoS qos_num) in
  let dup := negb (Z.land (byte1 h) 8 =? 0) in
  let retain := negb (Z.land (byte1 h) 1 =? 0) in
  skip_header h ;;
  let! topic := read_mqtt_bytes in
  let! pkid :=
    match qos with
    | AtMostOnce => ret 0
    | AtLeastOnce | ExactlyOnce => read_u16
    end in
  if negb (bool_decide (qos = AtMostOnce)) && (pkid =? 0) then fail PacketIdZero
  else
    let! bytes := get in
    ret (mkPublish dup qos pkid retain topic bytes).

Definition v4_publish_write (publish : Publish) : R Z :=
  let len := Publish_len publish in
  let dup := bool_as_u8 (dup publish) in
  let qos := u8_of_QoS (pub_qos publish) in
  let retain := bool_as_u8 (retain publish) in
  put_u8 (Z.lor (Z.lor (Z.lor 48 retain) (Z.shiftl qos 1)) (Z.shiftl dup 3)) ;;
  let! count := write_remaining_length len in
  write_mqtt_bytes (topic publish) ;;
  (if negb (bool_decide (pub_qos publish = AtMostOnce)) then
     let pkid := pub_pkid publish in
     if pkid =? 0 then fail PacketIdZero else put_u16 pkid
   else ret tt) ;;
  put_slice (payload publish) ;;
  ret (1 + count + len).

(** *** puback.rs, pubrec.rs, pubrel.rs, pubcomp.rs *)

Definition v4_puback_len : Z := 2.

Definition v4_puback_read (h : FixedHeader) : R PubAck :=
  skip_header h ;;
  if negb (remaining_len h =? 2) then fail (InvalidRemainingLength (remaining_len h))
  else
    let! pkid := read_u16 in
    ret (mkPubAck pkid (Some PA_Success)).

Definition v4_puback_write (puback : PubAck) : R Z :=
  let len := v4_puback_len in
  put_u8 64 ;;
  let! count := write_remaining_length len in
  put_u16 (pa_pkid puback) ;;
  ret (1 + count + len).

Definition v4_pubrec_len : Z := 2.

Definition v4_pubrec_read (h : FixedHeader) : R PubRec :=
  skip_header h ;;
  let! pkid := read_u16 in
  if remaining_len h =? 2 then ret (mkPubRec pkid (Some PR_Success))
  else fail (InvalidRemainingLength (remaining_len h)).

Definition v4_pubrec_write (pubrec : PubRec) : R Z :=
  let len := v4_pubrec_len in
  put_u8 80 ;;
  let! count := write_remaining_length len in
  put_u16 (pr_pkid pubrec) ;;
  ret (1 + count + len).

Definition v4_pubrel_len : Z := 2.

Definition v4_pubrel_read (h : FixedHeader) : R PubRel :=
  skip_header h ;;
  let! pkid := read_u16 in
  if remaining_len h =? 2 then ret (mkPubRel pkid (Some PL_Success))
  else fail (InvalidRemainingLength (remaining_len h)).

Definition v4_pubrel_write (pubrel : PubRel) : R Z :=
  let len := v4_pubrel_len in
  put_u8 98 ;;
  let! count := write_remaining_length len in
  put_u16 (pl_pkid pubrel) ;;
  ret (1 + count + len).

Definition v4_pubcomp_len : Z := 2.

Definition v4_pubcomp_read (h : FixedHeader) : R PubComp :=
  skip_header h ;;
  let! pkid := read_u16 in
  if remaining_len h =? 2 then ret (mkPubComp pkid (Some PC_Success))
  else fail (InvalidRemainingLength (remaining_len h)).

Definition v4_pubcomp_write (pubcomp : PubComp) : R Z :=
  let len := v4_pubcomp_len in
  put_u8 112 ;;
  let! count := write_remaining_length len in
  put_u16 (pc_pkid pubcomp) ;;
  ret (1 + count + len).

(** *** subscribe.rs *)

Definition v4_filter_len (filter : Filter) : Z := 2 + blen (path filter) + 1.

Definition v4_filter_read_one : R Filter :=
  let! path := read_mqtt_utf8 in
  let! options := read_u8 in
  let requested_qos := Z.land options 3 in
  let! qos := ok_or (qos requested_qos) (InvalidQoS requested_qos) in
  ret (mkFilter path qos false false OnEverySubscribe).

Definition v4_filter_read : R (list Filter) :=
  let! stream := get in
  while_remaining (length stream) v4_filter_read_one [].

Definition v4_filter_write (filter : Filter) : R unit :=
  let options := Z.lor 0 (u8_of_QoS (f_qos filter)) in
  write_mqtt_string (path filter) ;;
  put_u8 options.

Definition v4_subscribe_len (subscribe : Subscribe) : Z :=
  2 + foldl (fun s t => s + v4_filter_len t) 0 (filters subscribe).

Definition v4_subscribe_write (subscribe : Subscribe) : R Z :=
  put_u8 130 ;;
  let remaining_length := v4_subscribe_len subscribe in
  let! remaining_length_bytes := write_remaining_length remaining_length in
  put_u16 (packet_identifier subscribe) ;;
  for_each (filters subscribe) v4_filter_write ;;
  ret (1 + remaining_length_bytes + remaining_length).

Definition v4_subscribe_read (h : FixedHeader) : R Subscribe :=
  skip_header h ;;
  let! pkid := read_u16 in
  let! filters := v4_filter_read in
  match filters with
  | [] => fail EmptySubscription
  | _ => ret (mkSubscribe pkid filters)
  end.

(** *** suback.rs *)

(** [SubAck::len] of common.rs. *)
Definition SubAck_len (suback : SubAck) : Z := 2 + blen (return_codes suback).

Definition v4_suback_reason (code : Z) : outcome Error SubscribeReasonCode :=
  match code with
  | 0 => Ok (SR_Success AtMostOnce)
  | 1 => Ok (SR_Success AtLeastOnce)
  | 2 => Ok (SR_Success ExactlyOnce)
  | 128 => Ok SR_Failure
  | v => Err (InvalidSubscribeReasonCode v)
  end.

Definition v4_suback_code (reason : SubscribeReasonCode) : Z :=
  match reason with
  | SR_Success qos => u8_of_QoS qos
  | SR_Failure => 128
  | SR_QoS0 => 0
  | SR_QoS1 => 1
  | SR_QoS2 => 2
  | SR_Unspecified => 128
  | SR_ImplementationSpecific => 131
  | SR_NotAuthorized => 135
  | SR_TopicFilterInvalid => 143
  | SR_PkidInUse => 145
  | SR_QuotaExceeded => 151
  | SR_SharedSubscriptionsNotSupported => 158
  | SR_SubscriptionIdNotSupported => 161
  | SR_WildcardSubscriptionsNotSupported => 162
  | SR_ExclusiveSubscriptionDisabled => 143
  | SR_TopicSubscribed => 151
  end.

Definition v4_suback_write (suback : SubAck) : R Z :=
  put_u8 144 ;;
  let remaining_len := SubAck_len suback in
  let! remaining_len_bytes := write_remaining_length remaining_len in
  put_u16 (sa_pkid suback) ;;
  let p := map v4_suback_code (return_codes suback) in
  put_slice p ;;
  ret (1 + remaining_len_bytes + remaining_len).

Definition v4_suback_read_one : R SubscribeReasonCode :=
  let! return_code := read_u8 in lift (v4_suback_reason return_code).

Definition v4_suback_read (h : FixedHeader) : R SubAck :=
  skip_header h ;;
  let! pkid := read_u16 in
  let! stream := get in
  if blen stream =? 0 then fail MalformedPacket
  else
    let! return_codes := while_remaining (length stream) v4_suback_read_one [] in
    ret (mkSubAck pkid return_codes).

(** *** unsubscribe.rs *)

Definition v4_unsubscribe_write (unsubscribe : Unsubscribe) : R Z :=
  let remaining_len :=
    2 + foldl (fun s topic => s + blen topic + 2) 0 (un_filters unsubscribe) in
  put_u8 162 ;;
  let! remaining_len_bytes := write_remaining_length remaining_len in
  put_u16 (un_pkid unsubscribe) ;;
  for_each (un_filters unsubscribe) write_mqtt_string ;;
  ret (1 + remaining_len_bytes + remaining_len).

Fixpoint v4_unsubscribe_loop (fuel : nat) (payload_bytes : Z) (filters : list bytes)
  : R (list bytes) :=
  if 0 <? payload_bytes then
    match fuel with
    | O => out_of_fuel
    | S fuel =>
        let! topic_filter := read_mqtt_string in
        let payload_bytes := usize_sub payload_bytes (blen topic_filter + 2) in
        v4_unsubscribe_loop fuel payload_bytes (filters ++ [topic_filter])
    end
  else ret filters.

Definition v4_unsubscribe_read (h : FixedHeader) : R Unsubscribe :=
  skip_header h ;;
  let! pkid := read_u16 in
  let payload_bytes := usize_sub (remaining_len h) 2 in
  let! bytes := get in
  let! filters := v4_unsubscribe_loop (S (length bytes)) payload_bytes [] in
  ret (mkUnsubscribe pkid filters).

(** *** unsuback.rs, disconnect.rs, ping.rs *)

Definition v4_unsuback_write (unsuback : UnsubAck) : R Z :=
  put_slice [176; 2] ;;
  put_u16 (ua_pkid unsuback) ;;
  ret 4.

Definition v4_unsuback_read (h : FixedHeader) : R UnsubAck :=
  if negb (remaining_len h =? 2) then fail PayloadSizeIncorrect
  else
    skip_header h ;;
    let! pkid := read_u16 in
    ret (mkUnsubAck pkid []).

Definition v4_disconnect_write (disconnect : Disconnect) : R Z :=
  put_slice [224; 0] ;; ret 2.

Definition v4_pingreq_write : R Z := put_slice [192; 0] ;; ret 2.
Definition v4_pingresp_write : R Z := put_slice [208; 0] ;; ret 2.
End definitions.

(** ** The wire form *)

(** A field that is present when it is not empty. *)
Definition nonempty (s : bytes) : bool := negb (blen s =? 0).
Definition wire_nonempty (s : bytes) : bytes := if nonempty s then wire_bytes s else [].

(** The flags octet of CONNECT. *)
Definition flags_of (clean : bool) (will : option (QoS * bool)) (user pass : bool) : Z :=
  bool_as_u8 clean * 2
  + (match will with Some (q, r) => 4 + u8_of_QoS q * 8 + bool_as_u8 r * 32 | None => 0 end)
  + bool_as_u8 pass * 64 + bool_as_u8 user * 128.

Definition will_bits (w : LastWill) : QoS * bool := (lw_qos w, lw_retain w).
Definition has_user (l : option Login) : bool :=
  match l with Some l => nonempty (username l) | None => false end.
Definition has_pass (l : option Login) : bool :=
  match l with Some l => nonempty (password l) | None => false end.

(** The bits the will and the login contribute to the flags. *)
Definition will_flags (w : LastWill) : Z :=
  Z.lor (4 + u8_of_QoS (lw_qos w) * 8) (bool_as_u8 (lw_retain w) * 32).
Definition login_flags (l : Login) : Z :=
  Z.lor (bool_as_u8 (nonempty (username l)) * 128) (bool_as_u8 (nonempty (password l)) * 64).

Definition connect_flags_of (c : Connect) (l : option Login) (w : option LastWill) : Z :=
  flags_of (clean_session c) (will_bits <$> w) (has_user l) (has_pass l).

Definition will_wire (w : LastWill) : bytes :=
  wire_bytes (lw_topic w) ++ wire_bytes (lw_message w).
Definition login_wire (l : Login) : bytes :=
  wire_nonempty (username l) ++ wire_nonempty (password l).

Definition v4_connect_body (c : Connect) (l : option Login) (w : option LastWill) : bytes :=
  wire_bytes (lit "MQTT") ++ [4] ++ [connect_flags_of c l w] ++ be16 (keep_alive c)
  ++ wire_bytes (client_id c) ++ opt_wire will_wire w ++ opt_wire login_wire l.

Definition v4_connack_body (a : ConnAck) (code : Z) : bytes :=
  [bool_as_u8 (session_present a)] ++ [code].

Definition publish_byte1 (p : Publish) : Z :=
  48 + bool_as_u8 (retain p) + u8_of_QoS (pub_qos p) * 2 + bool_as_u8 (dup p) * 8.
Definition pkid_wire (p : Publish) : bytes :=
  if bool_decide (pub_qos p = AtMostOnce) then [] else be16 (pub_pkid p).
Definition v4_publish_body (p : Publish) : bytes :=
  wire_bytes (topic p) ++ pkid_wire p ++ payload p.

Definition v4_filter_wire (f : Filter) : bytes :=
  wire_bytes (path f) ++ [u8_of_QoS (f_qos f)].
Definition v4_subscribe_body (s : Subscribe) : bytes :=
  be16 (packet_identifier s) ++ concat (map v4_filter_wire (filters s)).
Definition v4_suback_body (a : SubAck) : bytes :=
  be16 (sa_pkid a) ++ map v4_suback_code (return_codes a).
Definition v4_unsubscribe_body (u : Unsubscribe) : bytes :=
  be16 (un_pkid u) ++ concat (map wire_bytes (un_filters u)).

(** ** Well-formed packets: those the wire form can carry *)

Definition will_wf (w : LastWill) : Prop := bytes_wf (lw_topic w) /\ bytes_wf (lw_message w).
Definition login_wf (l : Login) : Prop :=
  string_wf (username l) /\ string_wf (password l) /\
  nonempty (username l) || nonempty (password l) = true.
Definition connect_wf (c : Connect) : Prop := u16 (keep_alive c) /\ string_wf (client_id c).

Definition publish_wf (p : Publish) : Prop :=
  bytes_wf (topic p) /\ bytes_ok (payload p) /\ u16 (pub_pkid p) /\
  (pub_qos p = AtMostOnce <-> pub_pkid p = 0).

Definition v4_filter_wf (f : Filter) : Prop :=
  string_wf (path f) /\ nolocal f = false /\ preserve_retain f = false /\
  retain_forward_rule f = OnEverySubscribe.
Definition v4_subscribe_wf (s : Subscribe) : Prop :=
  u16 (packet_identifier s) /\ filters s <> [] /\ Forall v4_filter_wf (filters s).

Definition v4_suback_code_wf (c : SubscribeReasonCode) : Prop :=
  match c with SR_Success _ | SR_Failure => True | _ => False end.
Definition v4_suback_wf (a : SubAck) : Prop :=
  u16 (sa_pkid a) /\ return_codes a <> [] /\ Forall v4_suback_code_wf (return_codes a).
Definition v4_unsubscribe_wf (u : Unsubscribe) : Prop :=
  u16 (un_pkid u) /\ Forall string_wf (un_filters u).

(** ** The flags octet *)

Lemma flags_of_u8 c w u p : u8 (flags_of c w u p).
Proof. destruct c, w as [[[] []]|], u, p; split; by vm_compute. Qed.

(** What the readers extract from the flags; the last line is the retain bit
    as [will::read] takes it, which is the password bit. *)
Lemma flags_of_read c w u p :
  let f := flags_of c w u p in
  negb (Z.land f 2 =? 0) = c /\
  (Z.land f 4 =? 0) = bool_decide (w = None) /\
  (Z.land f 128 =? 0) = negb u /\
  (Z.land f 64 =? 0) = negb p /\
  (w = None -> Z.land f 56 = 0) /\
  (forall q r, w = Some (q, r) ->
     qos (Z.shiftr (Z.land f 24) 3) = Some q /\ negb (Z.land f 32 =? 0) = r).
Proof.
  cbv zeta. destruct w as [[q r]|].
  - split_and!; [destruct c, q, r, u, p; reflexivity..|done|].
    intros ? ? [= <- <-]. destruct c, q, r, u, p; split; reflexivity.
  - split_and!; [destruct c, u, p; reflexivity..|done].
Qed.

Section writers.
Context {BC : BytesCrate} {BS : BytesSpec BC}.

Lemma will_wf_size w : opt_all will_wf w -> blen (opt_wire will_wire w) <= 131074.
Proof.
  destruct w as [w|]; cbn; [|blia]. intros [[_ ?] [_ ?]]. unfold will_wire. blia.
Qed.

Lemma blen_wire_nonempty s : blen (wire_nonempty s) = if nonempty s then 2 + blen s else 0.
Proof. unfold wire_nonempty. case_match; blia. Qed.

Lemma login_wf_size l : opt_all login_wf l -> blen (opt_wire login_wire l) <= 131074.
Proof.
  destruct l as [l|]; cbn; [|blia]. intros ([[_ ?] _] & [[_ ?] _] & _). unfold login_wire.
  rewrite blen_app, !blen_wire_nonempty. repeat case_match; blia.
Qed.

(** [len] is the number of octets of the body. *)
Lemma v4_will_len_wire w : v4_will_len w = blen (will_wire w).
Proof. unfold v4_will_len, will_wire. blia. Qed.

Lemma v4_login_len_wire l : v4_login_len l = blen (login_wire l).
Proof.
  unfold v4_login_len, login_wire. rewrite blen_app, !blen_wire_nonempty.
  unfold nonempty. repeat case_match; lia.
Qed.

Lemma v4_connect_len_body c l w : v4_connect_len c l w = blen (v4_connect_body c l w).
Proof.
  unfold v4_connect_len, v4_connect_body. autorewrite with blen.
  change (blen (lit "MQTT")) with 4.
  destruct w as [w|], l as [l|]; cbn [opt_wire];
    rewrite ?v4_will_len_wire, ?v4_login_len_wire; blia.
Qed.

Lemma v4_connect_body_size c l w :
  connect_wf c -> opt_all will_wf w -> opt_all login_wf l ->
  blen (v4_connect_body c l w) <= 400000.
Proof.
  intros [_ [[_ ?] _]] Hw%will_wf_size Hl%login_wf_size. unfold v4_connect_body.
  autorewrite with blen. change (blen (lit "MQTT")) with 4. lia.
Qed.

Lemma v4_will_write_appends w :
  will_wf w ->
  appends (v4_will_write w) (will_wire w) (will_flags w).
Proof.
  intros [? ?]. unfold v4_will_write, will_wire, will_flags.
  eapply appends_cast; [appends_go|by rewrite app_nil_r|].
  destruct (lw_qos w), (lw_retain w); reflexivity.
Qed.

Lemma v4_login_write_appends l :
  login_wf l -> appends (v4_login_write l) (login_wire l) (login_flags l).
Proof.
  intros ([? _] & [? _] & _).
  unfold v4_login_write, login_wire, login_flags, wire_nonempty, nonempty.
  destruct (blen (username l) =? 0), (blen (password l) =? 0); cbn [negb];
    (eapply appends_cast; [appends_go|by rewrite ?app_nil_r|reflexivity]).
Qed.

(** Or-ing a part's bits into the flags. *)
Definition add_flags {A : Type} (fl : A -> Z) (o : option A) (f : Z) : Z :=
  match o with Some a => Z.lor f (fl a) | None => f end.

Lemma connect_flags_eq c l w :
  add_flags login_flags l
    (add_flags will_flags w (if clean_session c then Z.lor 0 2 else 0)) = connect_flags_of c l w.
Proof.
  unfold connect_flags_of, will_bits, has_user, has_pass, add_flags, will_flags, login_flags.
  destruct (clean_session c), w as [w|], l as [l|]; cbn [fmap option_fmap option_map];
    try destruct (nonempty (username l)), (nonempty (password l));
    try destruct (lw_qos w), (lw_retain w); reflexivity.
Qed.

(** The optional parts, with the flags they contribute. *)
Lemma appends_opt_flags {A} (o : option A) (wr : A -> R Z) (enc : A -> bytes) (fl : A -> Z) f :
  (forall a, o = Some a -> appends (wr a) (enc a) (fl a)) ->
  appends (match o with Some a => let! x := wr a in ret (Z.lor f x) | None => ret f end)
          (opt_wire enc o) (add_flags fl o f).
Proof.
  destruct o as [a|]; cbn; intros H; [|apply appends_ret].
  eapply appends_cast; [eapply appends_bind; [by apply H|apply appends_ret]|app_eq|done].
Qed.

(** [connect::write] into an empty buffer.  The flags are patched in at an
    index counted from the start of the buffer. *)
Lemma v4_connect_write_eval c l w :
  connect_wf c -> opt_all will_wf w -> opt_all login_wf l ->
  v4_connect_write c l w [] = (Ok (v4_connect_len c l w), frame 16 (v4_connect_body c l w)).
Proof.
  intros Hc Hw Hl. pose proof (v4_connect_body_size _ _ _ Hc Hw Hl) as Hsz.
  destruct Hc as [Hk [Hid _]]. pose proof (v4_connect_len_body c l w) as Hlen.
  assert (bytes_wf (lit "MQTT")) by (split; [repeat constructor; done|done]).
  assert (0 <= v4_connect_len c l w <= max_remaining) as Hlm
    by (unfold max_remaining; blia).
  pose proof (blen_varint _ Hlm) as Hvar.
  assert (u8 (if clean_session c then Z.lor 0 2 else 0)) by (destruct (clean_session c); done).
  assert (u8 16) by done. assert (u8 4) by done.
  unfold v4_connect_write. cbv zeta. do 7 write_step.
  erewrite (appends_eval _ _ (opt_wire will_wire w) (add_flags will_flags w _))
    by (apply appends_opt_flags; intros ? ->; by apply v4_will_write_appends).
  erewrite (appends_eval _ _ (opt_wire login_wire l) (add_flags login_flags l _))
    by (apply appends_opt_flags; intros ? ->; by apply v4_login_write_appends).
  rewrite connect_flags_eq, app_nil_l.
  rewrite <- Hvar.
  set (pre := ((([16] ++ varint (v4_connect_len c l w)) ++ wire_bytes (lit "MQTT")) ++ [4])).
  replace (1 + blen (varint (v4_connect_len c l w)) + 2 + 4 + 1) with (blen pre)
    by (unfold pre; autorewrite with blen; change (blen (lit "MQTT")) with 4; lia).
  rewrite <- !(app_assoc pre). cbn [app].
  erewrite bind_ok by apply set_index_app.
  unfold frame, v4_connect_body, pre, ret. rewrite Hlen. do 2 f_equal.
  unfold v4_connect_body. cbn [app]. app_eq.
Qed.

Lemma v4_connect_code_return code n rest :
  v4_connect_return n = Ok code -> v4_connect_code code rest = (Ok n, rest).
Proof.
  unfold v4_connect_return. intros H. repeat case_match; simplify_eq; reflexivity.
Qed.

Lemma v4_connect_return_bound code n : v4_connect_return n = Ok code -> u8 n.
Proof. unfold v4_connect_return. intros H. repeat case_match; done. Qed.

Lemma v4_connack_write_appends a n :
  v4_connect_return n = Ok (ca_code a) ->
  appends (v4_connack_write a) (frame 32 (v4_connack_body a n)) (frame_size (v4_connack_body a n)).
Proof.
  intros Hn. pose proof (v4_connect_return_bound _ _ Hn).
  assert (u8 (bool_as_u8 (session_present a))) by (destruct (session_present a); done).
  apply write_frame; [done..|].
  eapply appends_bind; [by apply put_u8_appends|]. change [n] with ([] ++ [n] ++ []).
  eapply appends_bind.
  - intros buf. rewrite app_nil_r. by apply v4_connect_code_return.
  - appends_go.
Qed.

Lemma publish_byte1_eq p :
  Z.lor (Z.lor (Z.lor 48 (bool_as_u8 (retain p))) (Z.shiftl (u8_of_QoS (pub_qos p)) 1))
        (Z.shiftl (bool_as_u8 (dup p)) 3) = publish_byte1 p.
Proof. unfold publish_byte1. by destruct (retain p), (pub_qos p), (dup p). Qed.

Lemma publish_byte1_u8 p : u8 (publish_byte1 p).
Proof.
  unfold publish_byte1. destruct (retain p), (pub_qos p), (dup p); split; by vm_compute.
Qed.

Lemma Publish_len_body p : Publish_len p = blen (v4_publish_body p).
Proof.
  unfold Publish_len, v4_publish_body, pkid_wire. autorewrite with blen. case_match; blia.
Qed.

(** The packet identifier, written when the quality of service asks for one. *)
Lemma pkid_write_appends p :
  publish_wf p ->
  appends (if negb (bool_decide (pub_qos p = AtMostOnce))
           then if pub_pkid p =? 0 then fail PacketIdZero else put_u16 (pub_pkid p)
           else ret tt) (pkid_wire p) tt.
Proof.
  intros (_ & _ & Hk & H0). unfold pkid_wire. destruct (bool_decide_reflect (pub_qos p = AtMostOnce)); cbn; [apply appends_ret|].
  rewrite (proj2 (Z.eqb_neq _ _)) by tauto. by apply put_u16_appends.
Qed.

Lemma v4_publish_write_appends p :
  publish_wf p -> blen (v4_publish_body p) <= max_remaining ->
  appends (v4_publish_write p) (frame (publish_byte1 p) (v4_publish_body p))
          (frame_size (v4_publish_body p)).
Proof.
  intros Hp Hsz. unfold v4_publish_write. cbv zeta. rewrite publish_byte1_eq.
  apply write_frame; [apply publish_byte1_u8|apply Publish_len_body|by rewrite Publish_len_body|].
  unfold v4_publish_body. eapply appends_bind; [apply write_mqtt_bytes_appends, Hp|].
  eapply appends_bind; [by apply pkid_write_appends|].
  eapply appends_cast; [appends_go|app_eq|].
  unfold frame_size. by rewrite Publish_len_body.
Qed.

(** The four acknowledgements carry the packet identifier alone. *)
Lemma ack_write_appends b pkid :
  u8 b -> u16 pkid ->
  appends (put_u8 b ;; let! count := write_remaining_length 2 in put_u16 pkid ;; ret (1 + count + 2))
          (frame b (be16 pkid)) 4.
Proof.
  intros Hb Hp. apply write_frame; [done..|]. eapply appends_cast; [appends_go|app_eq|done].
Qed.

(** A [fold] of the element lengths is the length of the concatenation. *)
Lemma fold_len_concat {A} (g : Z -> A -> Z) (enc : A -> bytes) l s :
  (forall s a, g s a = s + blen (enc a)) -> foldl g s l = s + blen (concat (map enc l)).
Proof.
  intros H. revert s. induction l as [|a l IH]; intros s; cbn; [blia|]. rewrite IH, H. blia.
Qed.

Lemma v4_subscribe_len_body s : v4_subscribe_len s = blen (v4_subscribe_body s).
Proof.
  unfold v4_subscribe_len, v4_subscribe_body. rewrite (fold_len_concat _ v4_filter_wire); [blia|].
  intros s' f. unfold v4_filter_len, v4_filter_wire. blia.
Qed.

Lemma qos_u8 q : u8 (u8_of_QoS q). Proof. by destruct q. Qed.

Lemma v4_subscribe_write_appends s :
  v4_subscribe_wf s -> blen (v4_subscribe_body s) <= max_remaining ->
  appends (v4_subscribe_write s) (frame 130 (v4_subscribe_body s))
          (frame_size (v4_subscribe_body s)).
Proof.
  intros (Hk & _ & Hf) Hsz. unfold v4_subscribe_write. cbv zeta.
  apply write_frame; [done|apply v4_subscribe_len_body|by rewrite v4_subscribe_len_body|].
  eapply appends_cast.
  - eapply appends_bind; [by apply put_u16_appends|].
    eapply appends_bind; [apply (appends_for_each _ _ v4_filter_wire)|apply appends_ret].
    intros f Hin. rewrite Forall_forall in Hf. destruct (Hf _ Hin) as [[? _] _].
    pose proof (qos_u8 (f_qos f)). unfold v4_filter_write, v4_filter_wire. cbv zeta. appends_go.
  - unfold v4_subscribe_body. app_eq.
  - unfold frame_size. by rewrite v4_subscribe_len_body.
Qed.

Lemma v4_suback_write_appends a :
  u16 (sa_pkid a) -> blen (v4_suback_body a) <= max_remaining ->
  appends (v4_suback_write a) (frame 144 (v4_suback_body a)) (frame_size (v4_suback_body a)).
Proof.
  intros Hk Hsz. assert (SubAck_len a = blen (v4_suback_body a)) as Hl
    by (unfold SubAck_len, v4_suback_body; blia).
  unfold v4_suback_write. cbv zeta. apply write_frame; [done|done|by rewrite Hl|].
  eapply appends_cast; [appends_go|unfold v4_suback_body; app_eq|].
  unfold frame_size. by rewrite Hl.
Qed.

Lemma v4_unsubscribe_write_appends u :
  v4_unsubscribe_wf u -> blen (v4_unsubscribe_body u) <= max_remaining ->
  appends (v4_unsubscribe_write u) (frame 162 (v4_unsubscribe_body u))
          (frame_size (v4_unsubscribe_body u)).
Proof.
  intros [Hk Hf] Hsz.
  assert (2 + foldl (fun s topic => s + blen topic + 2) 0 (un_filters u)
          = blen (v4_unsubscribe_body u)) as Hl.
  { unfold v4_unsubscribe_body. rewrite (fold_len_concat _ wire_bytes); [blia|]. intros. blia. }
  unfold v4_unsubscribe_write. cbv zeta. apply write_frame; [done|done|by rewrite Hl|].
  rewrite Hl. eapply appends_cast.
  - eapply appends_bind; [by apply put_u16_appends|].
    eapply appends_bind; [apply (appends_for_each _ _ wire_bytes)|apply appends_ret].
    intros f Hin. rewrite Forall_forall in Hf. apply write_mqtt_string_appends, Hf, Hin.
  - unfold v4_unsubscribe_body. app_eq.
  - done.
Qed.

Lemma v4_unsuback_write_appends a :
  u16 (ua_pkid a) -> appends (v4_unsuback_write a) (frame 176 (be16 (ua_pkid a))) 4.
Proof.
  intros. unfold v4_unsuback_write.
  change (frame 176 (be16 (ua_pkid a))) with ([176; 2] ++ be16 (ua_pkid a) ++ []). appends_go.
Qed.
End writers.

(** The will as [will::read] returns it: its retain flag is the password bit. *)
Definition v4_will_seen (l : option Login) (w : LastWill) : LastWill :=
  mkLastWill (lw_topic w) (lw_message w) (lw_qos w) (has_pass l).

Section readers.
Context {BC : BytesCrate} {BS : BytesSpec BC}.

Lemma v4_will_read_parses c l w :
  opt_all will_wf w ->
  parses (v4_will_read (connect_flags_of c l w)) (opt_wire will_wire w) (v4_will_seen l <$> w).
Proof.
  intros Hw rest. unfold v4_will_read, connect_flags_of.
  destruct (flags_of_read (clean_session c) (will_bits <$> w) (has_user l) (has_pass l))
    as (_ & E4 & _ & E64 & E56 & Eq).
  rewrite E4. destruct w as [w|]; cbn [fmap option_fmap option_map] in *.
  - rewrite bool_decide_eq_false_2 by done. destruct Hw as [Ht Hm].
    destruct (Eq (lw_qos w) (lw_retain w) eq_refl) as [-> _].
    cbn [opt_wire]. unfold will_wire. rewrite <- app_assoc. do 2 parse_step.
    by rewrite E64, negb_involutive.
  - rewrite bool_decide_eq_true_2, E56 by done. reflexivity.
Qed.

Lemma read_nonempty_parses (s : bytes) f m :
  string_wf s -> (Z.land f m =? 0) = negb (nonempty s) ->
  parses (if Z.land f m =? 0 then ret [] else read_mqtt_utf8) (wire_nonempty s) s.
Proof.
  intros Hs ->. unfold wire_nonempty. destruct (nonempty s) eqn:E; cbn.
  - by apply read_mqtt_utf8_parses.
  - unfold nonempty in E. bool_prop. rewrite (blen_0_inv _ E). apply parses_ret.
Qed.

Lemma v4_login_read_parses c l w :
  opt_all login_wf l -> parses (v4_login_read (connect_flags_of c l w)) (opt_wire login_wire l) l.
Proof.
  intros Hl. unfold v4_login_read, connect_flags_of.
  destruct (flags_of_read (clean_session c) (will_bits <$> w) (has_user l) (has_pass l))
    as (_ & _ & E128 & E64 & _ & _).
  destruct l as [[u p]|]; cbn [has_user has_pass username password opt_all opt_wire] in *.
  - destruct Hl as (Hu & Hp & Hne). cbn in *. unfold login_wire. cbn [username password].
    eapply parses_bind; [by apply read_nonempty_parses|].
    eapply parses_bind_nil; [by apply read_nonempty_parses|].
    unfold nonempty in Hne. rewrite <- negb_andb, negb_true_iff in Hne. rewrite Hne. apply parses_ret.
  - rewrite E128, E64. cbn. done.
Qed.

Lemma v4_connect_read_eval c l w :
  connect_wf c -> opt_all will_wf w -> opt_all login_wf l ->
  v4_connect_read (hdr_of 16 (v4_connect_body c l w)) (frame 16 (v4_connect_body c l w))
  = (Ok (4, c, l, v4_will_seen l <$> w), []).
Proof.
  intros [Hk Hid] Hw Hl. unfold v4_connect_read. rewrite read_frame.
  assert (string_wf (lit "MQTT")) by (repeat split; [repeat constructor; done]).
  pose proof (flags_of_u8 (clean_session c) (will_bits <$> w) (has_user l) (has_pass l)) as Hf.
  fold (connect_flags_of c l w) in Hf. assert (u8 4) by done.
  destruct (flags_of_read (clean_session c) (will_bits <$> w) (has_user l) (has_pass l))
    as (E2 & _). fold (connect_flags_of c l w) in E2.
  unfold v4_connect_body. do 2 parse_step. rewrite bool_decide_eq_true_2 by done. cbn [negb andb Z.eqb Pos.eqb].
  do 3 parse_step. rewrite (parses_eval _ _ _ _ _ (v4_will_read_parses c l w Hw)).
  rewrite <- (app_nil_r (opt_wire login_wire l)).
  rewrite (parses_eval _ _ _ _ _ (v4_login_read_parses c l w Hl)).
  rewrite E2. by destruct c.
Qed.

Lemma v4_connack_read_eval a n :
  v4_connect_return n = Ok (ca_code a) ->
  v4_connack_read (hdr_of 32 (v4_connack_body a n)) (frame 32 (v4_connack_body a n)) = (Ok a, []).
Proof.
  intros Hn. pose proof (v4_connect_return_bound _ _ Hn).
  assert (u8 (bool_as_u8 (session_present a))) by (destruct (session_present a); done).
  unfold v4_connack_read. rewrite read_frame. unfold v4_connack_body.
  parse_step. change [n] with ([n] ++ []). parse_step.
  unfold bind, lift. rewrite Hn. by destruct a as [[] ?].
Qed.

Lemma publish_byte1_read p :
  qos (Z.shiftr (Z.land (publish_byte1 p) 6) 1) = Some (pub_qos p) /\
  negb (Z.land (publish_byte1 p) 8 =? 0) = dup p /\
  negb (Z.land (publish_byte1 p) 1 =? 0) = retain p.
Proof. unfold publish_byte1. by destruct (dup p), (pub_qos p), (retain p). Qed.

(** The packet identifier, read when the quality of service carries one. *)
Lemma pkid_read_parses p :
  publish_wf p ->
  parses (match pub_qos p with
          | AtMostOnce => ret 0
          | AtLeastOnce | ExactlyOnce => read_u16
          end) (pkid_wire p) (pub_pkid p) /\
  negb (bool_decide (pub_qos p = AtMostOnce)) && (pub_pkid p =? 0) = false.
Proof.
  intros (_ & _ & Hk & H0). unfold pkid_wire.
  destruct (pub_qos p); cbn;
    first [ rewrite (proj1 H0 eq_refl); by split; [apply parses_ret|]
          | split; [by apply read_u16_parses|apply Z.eqb_neq; intros H; by apply H0 in H] ].
Qed.

Lemma v4_publish_read_eval p :
  publish_wf p ->
  v4_publish_read (hdr_of (publish_byte1 p) (v4_publish_body p))
                  (frame (publish_byte1 p) (v4_publish_body p)) = (Ok p, payload p).
Proof.
  intros Hp. destruct (publish_byte1_read p) as (Eq & Ed & Er).
  destruct (pkid_read_parses p Hp) as [Hpk Hnz].
  unfold v4_publish_read. cbn [byte1 hdr_of]. rewrite Eq, Ed, Er. cbn [ok_or].
  unfold bind at 1, ret at 1. rewrite read_frame. unfold v4_publish_body.
  rewrite (parses_eval _ _ _ _ _ (read_mqtt_bytes_parses _ (proj1 Hp))).
  rewrite (parses_eval _ _ _ _ _ Hpk), Hnz. unfold bind, get, ret. by destruct p.
Qed.

Ltac ack_read :=
  intros Hk; unfold v4_puback_read, v4_pubrec_read, v4_pubrel_read, v4_pubcomp_read;
  rewrite read_frame; cbn [remaining_len hdr_of]; rewrite blen_be16; cbn [Z.eqb Pos.eqb negb];
  rewrite <- (app_nil_r (be16 _)); by parse_step.

Lemma v4_puback_read_eval b pkid :
  u16 pkid ->
  v4_puback_read (hdr_of b (be16 pkid)) (frame b (be16 pkid)) = (Ok (mkPubAck pkid (Some PA_Success)), []).
Proof. ack_read. Qed.

Lemma v4_pubrec_read_eval b pkid :
  u16 pkid ->
  v4_pubrec_read (hdr_of b (be16 pkid)) (frame b (be16 pkid)) = (Ok (mkPubRec pkid (Some PR_Success)), []).
Proof. ack_read. Qed.

Lemma v4_pubrel_read_eval b pkid :
  u16 pkid ->
  v4_pubrel_read (hdr_of b (be16 pkid)) (frame b (be16 pkid)) = (Ok (mkPubRel pkid (Some PL_Success)), []).
Proof. ack_read. Qed.

Lemma v4_pubcomp_read_eval b pkid :
  u16 pkid ->
  v4_pubcomp_read (hdr_of b (be16 pkid)) (frame b (be16 pkid)) = (Ok (mkPubComp pkid (Some PC_Success)), []).
Proof. ack_read. Qed.

Lemma v4_unsuback_read_eval pkid :
  u16 pkid ->
  v4_unsuback_read (hdr_of 176 (be16 pkid)) (frame 176 (be16 pkid)) = (Ok (mkUnsubAck pkid []), []).
Proof.
  intros Hk. unfold v4_unsuback_read. cbn [remaining_len hdr_of]. rewrite blen_be16. cbn [Z.eqb Pos.eqb negb].
  rewrite read_frame, <- (app_nil_r (be16 pkid)). by parse_step.
Qed.

(** A loop over the elements has enough fuel when each takes an octet. *)
Lemma length_concat_ge {A} (enc : A -> bytes) l :
  (forall a, a ∈ l -> 0 < blen (enc a)) -> (length l <= length (concat (map enc l)))%nat.
Proof.
  induction l as [|a l IH]; cbn; intros H; [lia|]. rewrite length_app.
  pose proof (H a ltac:(set_solver)). unfold blen in *. specialize (IH ltac:(set_solver)). lia.
Qed.

Lemma qos_of_QoS q : qos (Z.land (u8_of_QoS q) 3) = Some q. Proof. by destruct q. Qed.

Lemma v4_filter_parses f : v4_filter_wf f -> parses v4_filter_read_one (v4_filter_wire f) f.
Proof.
  intros (Hp & Hn & Hr & Hf). pose proof (qos_u8 (f_qos f)).
  unfold v4_filter_read_one, v4_filter_wire. eapply parses_bind; [by apply read_mqtt_utf8_parses|].
  eapply parses_bind_nil; [by apply read_u8_parses|]. cbv zeta. rewrite qos_of_QoS. cbn [ok_or].
  eapply parses_bind_nil; [apply parses_ret|]. destruct f; cbn in *; subst. apply parses_ret.
Qed.

Lemma v4_subscribe_read_eval s :
  v4_subscribe_wf s ->
  v4_subscribe_read (hdr_of 130 (v4_subscribe_body s)) (frame 130 (v4_subscribe_body s))
  = (Ok s, []).
Proof.
  intros (Hk & Hne & Hf). rewrite Forall_forall in Hf.
  assert (forall f, f ∈ filters s -> 0 < blen (v4_filter_wire f))
    by (intros; unfold v4_filter_wire; blia).
  unfold v4_subscribe_read. rewrite read_frame. unfold v4_subscribe_body, v4_filter_read. parse_step.
  unfold bind at 2, get. unfold bind. rewrite (while_remaining_eval _ _ v4_filter_wire).
  - cbn [app]. destruct s as [k [|f fs]]; done.
  - intros f Hin. split; [by apply v4_filter_parses, Hf|auto].
  - by apply length_concat_ge.
Qed.

Lemma v4_suback_code_reason c :
  v4_suback_code_wf c -> v4_suback_reason (v4_suback_code c) = Ok c /\ u8 (v4_suback_code c).
Proof. by destruct c as [| | |[]| | | | | | | | | | | |]. Qed.

Lemma v4_suback_read_eval a :
  v4_suback_wf a ->
  v4_suback_read (hdr_of 144 (v4_suback_body a)) (frame 144 (v4_suback_body a)) = (Ok a, []).
Proof.
  intros (Hk & Hne & Hc). rewrite Forall_forall in Hc.
  unfold v4_suback_read. rewrite read_frame. unfold v4_suback_body. parse_step.
  assert (map v4_suback_code (return_codes a)
          = concat (map (fun c => [v4_suback_code c]) (return_codes a))) as E
    by (clear; induction (return_codes a) as [|c l IH]; cbn; congruence).
  unfold bind at 1, get. rewrite (proj2 (Z.eqb_neq _ _))
    by (rewrite blen_map; intros ?%blen_0_inv; done).
  unfold bind. rewrite E, (while_remaining_eval _ _ (fun c => [v4_suback_code c])).
  - by destruct a.
  - intros c Hin. destruct (v4_suback_code_reason c (Hc c Hin)) as [Hr Hu]. split; [|done].
    intros rest. unfold v4_suback_read_one.
    rewrite (parses_eval _ _ _ _ _ (read_u8_parses _ Hu)). unfold lift. by rewrite Hr.
  - by apply length_concat_ge.
Qed.

Lemma v4_unsubscribe_loop_eval fuel l acc n :
  Forall string_wf l -> (length l <= fuel)%nat -> n = blen (concat (map wire_bytes l)) -> n < 2 ^ 64 ->
  v4_unsubscribe_loop fuel n acc (concat (map wire_bytes l)) = (Ok (acc ++ l), []).
Proof.
  revert fuel acc n. induction l as [|t l IH]; intros fuel acc n Hl Hf -> Hn.
  { destruct fuel; cbn; by rewrite app_nil_r. }
  apply Forall_cons in Hl as [Ht Hl]. destruct fuel as [|fuel]; [cbn in Hf; lia|].
  cbn [v4_unsubscribe_loop map concat] in *. zif_true. parse_step. cbv zeta.
  rewrite usize_sub_le by blia.
  rewrite IH; [by rewrite <- app_assoc|done|cbn in Hf; lia|blia|blia].
Qed.

Lemma v4_unsubscribe_read_eval u :
  v4_unsubscribe_wf u -> blen (v4_unsubscribe_body u) <= max_remaining ->
  v4_unsubscribe_read (hdr_of 162 (v4_unsubscribe_body u)) (frame 162 (v4_unsubscribe_body u))
  = (Ok u, []).
Proof.
  intros [Hk Hf] Hsz. unfold v4_unsubscribe_read. rewrite read_frame. cbn [remaining_len hdr_of].
  unfold v4_unsubscribe_body, max_remaining in *. parse_step. cbv zeta.
  rewrite usize_sub_le by blia. unfold bind, get.
  rewrite v4_unsubscribe_loop_eval; [by destruct u|done| |blia|blia].
  apply Nat.le_le_succ_r, length_concat_ge. intros. blia.
Qed.
End readers.

(** ** Safety of the readers

    On any frame a reader neither panics nor loops, and what it returns is
    well formed. *)
Section safety.
Context {BC : BytesCrate} {BS : BytesSpec BC}.

Lemma wp_v4_will_read f s (Q : option LastWill -> bytes -> Prop) :
  bytes_ok s -> (forall w s', opt_all will_wf w -> bytes_ok s' -> Q w s') ->
  wp (v4_will_read f) Q s.
Proof.
  intros Hs HQ. unfold v4_will_read. cbv zeta. wp_go; by apply HQ.
Qed.

Lemma wp_v4_login_field f m s (Q : bytes -> bytes -> Prop) :
  bytes_ok s -> (forall u s', string_wf u -> bytes_ok s' -> Q u s') ->
  wp (if Z.land f m =? 0 then ret [] else read_mqtt_utf8) Q s.
Proof.
  intros Hs HQ. wp_go; apply HQ; try done. by repeat constructor.
Qed.

Lemma wp_v4_login_read f s (Q : option Login -> bytes -> Prop) :
  bytes_ok s -> (forall l s', opt_all login_wf l -> bytes_ok s' -> Q l s') ->
  wp (v4_login_read f) Q s.
Proof.
  intros Hs HQ. unfold v4_login_read.
  apply wp_bind, wp_v4_login_field; [done|]. intros u s1 Hu Hs1.
  apply wp_bind, wp_v4_login_field; [done|]. intros p s2 Hp Hs2.
  wp_go; apply HQ; try done. split_and!; [done..|]. unfold nonempty. cbn.
  by rewrite <- negb_andb, negb_true_iff.
Qed.

Definition v4_connect_ok (r : Z * Connect * option Login * option LastWill) : Prop :=
  let '(level, c, l, w) := r in
  (level = 3 \/ level = 4) /\ connect_wf c /\ opt_all login_wf l /\ opt_all will_wf w.

Lemma wp_v4_connect_read h s :
  frame_for h s -> wp (v4_connect_read h) (fun r _ => v4_connect_ok r) s.
Proof.
  intros Hf. unfold v4_connect_read. wp_go.
  apply wp_v4_will_read; [done|]. intros w s1 Hw Hs1. wp_go.
  apply wp_v4_login_read; [done|]. intros l s2 Hl Hs2. wp_go.
  unfold v4_connect_ok. split_and!; try done.
  match goal with H : negb (?x =? 4) && _ = false |- _ =>
    destruct (Z.eqb_spec x 4), (Z.eqb_spec x 3); auto; done end.
Qed.

Lemma v4_connect_return_returns n : returns (v4_connect_return n).
Proof. unfold v4_connect_return. by repeat case_match. Qed.

Lemma wp_v4_connack_read h s :
  frame_for h s ->
  wp (v4_connack_read h) (fun a _ => exists n, v4_connect_return n = Ok (ca_code a)) s.
Proof.
  intros Hf. unfold v4_connack_read. wp_go.
  apply wp_lift; [apply v4_connect_return_returns|]. intros code Hcode. wp_go. eauto.
Qed.

Lemma wp_v4_publish_read h s :
  frame_for h s ->
  wp (v4_publish_read h)
     (fun p _ => publish_wf p /\ blen (v4_publish_body p) <= remaining_len h) s.
Proof.
  intros Hf. unfold v4_publish_read, v4_publish_body, pkid_wire. wp_go;
    (split; [unfold publish_wf; cbn; split_and!; try done; (split; [done|]); intros ->; done|]);
    cbn [topic pub_qos pub_pkid payload]; case_bool_decide; first [done | blia].
Qed.

Lemma wp_v4_puback_read h s :
  frame_for h s ->
  wp (v4_puback_read h) (fun p _ => exists k, u16 k /\ p = mkPubAck k (Some PA_Success)) s.
Proof. intros Hf. unfold v4_puback_read. wp_go. eauto. Qed.

Lemma wp_v4_pubrec_read h s :
  frame_for h s ->
  wp (v4_pubrec_read h) (fun p _ => exists k, u16 k /\ p = mkPubRec k (Some PR_Success)) s.
Proof. intros Hf. unfold v4_pubrec_read. wp_go. eauto. Qed.

Lemma wp_v4_pubrel_read h s :
  frame_for h s ->
  wp (v4_pubrel_read h) (fun p _ => exists k, u16 k /\ p = mkPubRel k (Some PL_Success)) s.
Proof. intros Hf. unfold v4_pubrel_read. wp_go. eauto. Qed.

Lemma wp_v4_pubcomp_read h s :
  frame_for h s ->
  wp (v4_pubcomp_read h) (fun p _ => exists k, u16 k /\ p = mkPubComp k (Some PC_Success)) s.
Proof. intros Hf. unfold v4_pubcomp_read. wp_go. eauto. Qed.

Lemma wp_v4_unsuback_read h s :
  frame_for h s -> wp (v4_unsuback_read h) (fun p _ => exists k, u16 k /\ p = mkUnsubAck k []) s.
Proof. intros Hf. unfold v4_unsuback_read. wp_go. eauto. Qed.

(** The elements read so far and the octets left never exceed the total. *)
Lemma blen_concat_snoc {A} (enc : A -> bytes) l a :
  blen (concat (map enc (l ++ [a]))) = blen (concat (map enc l)) + blen (enc a).
Proof. rewrite map_app, concat_app. cbn. rewrite app_nil_r. blia. Qed.

Lemma wp_v4_subscribe_read h s :
  frame_for h s ->
  wp (v4_subscribe_read h)
     (fun p _ => v4_subscribe_wf p /\ blen (v4_subscribe_body p) <= remaining_len h) s.
Proof.
  intros Hf. unfold v4_subscribe_read, v4_filter_read. wp_go.
  eapply wp_mono; [apply (wp_while_remaining _ _ (fun l s => Forall v4_filter_wf l /\
    2 + blen (concat (map v4_filter_wire l)) + blen s <= remaining_len h));
    [|done|done|split; [constructor|cbn; blia]]|].
  - intros s1 Hs1 acc [Hacc Hsz]. unfold v4_filter_read_one. cbv zeta. wp_go.
    split_and!; [| |done|blia].
    + apply Forall_app. split; [done|].
      apply Forall_singleton. unfold v4_filter_wf. cbn. by split_and!.
    + rewrite blen_concat_snoc. unfold v4_filter_wire at 2. cbn [path]. blia.
  - intros l s2 [[Hl Hsz] ->]. destruct l; wp_go. split; [by split_and!|].
    unfold v4_subscribe_body. cbn [packet_identifier filters]. rewrite blen_nil in Hsz.
    rewrite blen_app, blen_be16. lia.
Qed.

Lemma v4_suback_reason_wf n :
  returns (v4_suback_reason n) /\ forall c, v4_suback_reason n = Ok c -> v4_suback_code_wf c.
Proof. unfold v4_suback_reason. repeat case_match; split; intros; simplify_eq; done. Qed.

Lemma wp_v4_suback_read h s :
  frame_for h s ->
  wp (v4_suback_read h)
     (fun p _ => v4_suback_wf p /\ blen (v4_suback_body p) <= remaining_len h) s.
Proof.
  intros Hf. unfold v4_suback_read. wp_go. bool_prop.
  eapply wp_mono; [apply (wp_while_remaining _ _ (fun l s =>
    Forall v4_suback_code_wf l /\ (l = [] -> blen s <> 0) /\
    2 + blen l + blen s <= remaining_len h)); [|done|done|by split_and!; [constructor| |blia]]|].
  - intros s1 Hs1 acc (Hacc & _ & Hsz). unfold v4_suback_read_one. wp_go.
    match goal with |- wp (lift (v4_suback_reason ?n)) _ _ => destruct (v4_suback_reason_wf n) end.
    apply wp_lift; [done|]. intros c Hc.
    split_and!; [apply Forall_app; auto|intros; by destruct acc|blia|done|blia].
  - cbn. intros l s2 ((Hl & Hne & Hsz) & ->). split; [split_and!; [done| |done]; cbn; intros ->; by apply Hne|].
    unfold v4_suback_body. cbn [sa_pkid return_codes]. blia.
Qed.

(** The loop of [unsubscribe::read] counts down the octets left, so its
    subtraction never underflows. *)
Lemma wp_v4_unsubscribe_loop fuel n acc s :
  bytes_ok s -> blen s = n -> n < 2 ^ 64 -> n <= Z.of_nat fuel -> Forall string_wf acc ->
  wp (v4_unsubscribe_loop fuel n acc)
     (fun l s' => Forall string_wf l /\
                  blen (concat (map wire_bytes l)) = blen (concat (map wire_bytes acc)) + blen s) s.
Proof.
  revert n acc s. induction fuel as [|fuel IH]; intros n acc s Hs Hn Hu Hf Hacc;
    cbn [v4_unsubscribe_loop]; apply wp_if; intros; bool_prop.
  - lia.
  - apply wp_ret. split; [done|]. blia.
  - wp_go. rewrite usize_sub_le by blia.
    eapply wp_mono; [apply IH; [done|blia|blia|blia|]; apply Forall_app; auto|].
    cbn. intros l s2 [Hl Hsz]. split; [done|]. rewrite Hsz, blen_concat_snoc. blia.
  - apply wp_ret. split; [done|]. blia.
Qed.

Lemma wp_v4_unsubscribe_read h s :
  frame_for h s -> remaining_len h <= max_remaining ->
  wp (v4_unsubscribe_read h)
     (fun p _ => v4_unsubscribe_wf p /\ blen (v4_unsubscribe_body p) <= remaining_len h) s.
Proof.
  intros Hf Hm. unfold max_remaining in Hm. unfold v4_unsubscribe_read. wp_go. rewrite usize_sub_le by blia.
  eapply wp_mono; [apply wp_v4_unsubscribe_loop; [done|blia|blia|unfold blen in *; lia|constructor]|].
  intros l s2 [Hl Hsz]. apply wp_ret. split; [done|].
  unfold v4_unsubscribe_body. cbn [un_pkid un_filters].
  rewrite blen_app, blen_be16, Hsz. cbn [map concat]. blia.
Qed.
End safety.
