(* ===== verification/V5Props.v ===== *)
(** * MQTT 5 properties: the framework of [protocol/src/mqtt/mqttv5]

    [mod.rs] names the property types.  Every packet has a module
    [properties] with [len], [write] and [read], all of the same shape: [write]
    emits the optional fields one after the other behind their total length,
    [read] loops over a cursor until that length is reached.  This file models
    the shape once: the loop is [properties_read], to which each packet gives
    the body of its [match] as a step function.  The class [PropertySet] is
    the contract between a [properties] module and the packet that uses it. *)

From S2P Require Import Prelude Bytes MqttTypes MqttCommon.

(** ** Definitions *)

Inductive PropertyType : Type :=
| PayloadFormatIndicator
| MessageExpiryInterval
| ContentType
| ResponseTopic
| CorrelationData
| SubscriptionIdentifier
| SessionExpiryInterval
| AssignedClientIdentifier
| ServerKeepAlive
| AuthenticationMethod
| AuthenticationData
| RequestProblemInformation
| WillDelayInterval
| RequestResponseInformation
| ResponseInformation
| ServerReference
| ReasonString
| ReceiveMaximum
| TopicAliasMaximum
| TopicAlias
| MaximumQos
| RetainAvailable
| UserProperty
| MaximumPacketSize
| WildcardSubscriptionAvailable
| SubscriptionIdentifierAvailable
| SharedSubscriptionAvailable.

(** [PropertyType::X as u8]: the discriminants of the enumeration. *)
Definition u8_of_PropertyType (t : PropertyType) : Z :=
  match t with
  | PayloadFormatIndicator => 1
  | MessageExpiryInterval => 2
  | ContentType => 3
  | ResponseTopic => 8
  | CorrelationData => 9
  | SubscriptionIdentifier => 11
  | SessionExpiryInterval => 17
  | AssignedClientIdentifier => 18
  | ServerKeepAlive => 19
  | AuthenticationMethod => 21
  | AuthenticationData => 22
  | RequestProblemInformation => 23
  | WillDelayInterval => 24
  | RequestResponseInformation => 25
  | ResponseInformation => 26
  | ServerReference => 28
  | ReasonString => 31
  | ReceiveMaximum => 33
  | TopicAliasMaximum => 34
  | TopicAlias => 35
  | MaximumQos => 36
  | RetainAvailable => 37
  | UserProperty => 38
  | MaximumPacketSize => 39
  | WildcardSubscriptionAvailable => 40
  | SubscriptionIdentifierAvailable => 41
  | SharedSubscriptionAvailable => 42
  end.

Definition property (num : Z) : outcome Error PropertyType :=
  match num with
  | 1 => Ok PayloadFormatIndicator
  | 2 => Ok MessageExpiryInterval
  | 3 => Ok ContentType
  | 8 => Ok ResponseTopic
  | 9 => Ok CorrelationData
  | 11 => Ok SubscriptionIdentifier
  | 17 => Ok SessionExpiryInterval
  | 18 => Ok AssignedClientIdentifier
  | 19 => Ok ServerKeepAlive
  | 21 => Ok AuthenticationMethod
  | 22 => Ok AuthenticationData
  | 23 => Ok RequestProblemInformation
  | 24 => Ok WillDelayInterval
  | 25 => Ok RequestResponseInformation
  | 26 => Ok ResponseInformation
  | 28 => Ok ServerReference
  | 31 => Ok ReasonString
  | 33 => Ok ReceiveMaximum
  | 34 => Ok TopicAliasMaximum
  | 35 => Ok TopicAlias
  | 36 => Ok MaximumQos
  | 37 => Ok RetainAvailable
  | 38 => Ok UserProperty
  | 39 => Ok MaximumPacketSize
  | 40 => Ok WildcardSubscriptionAvailable
  | 41 => Ok SubscriptionIdentifierAvailable
  | 42 => Ok SharedSubscriptionAvailable
  | num => Err (InvalidPropertyType num)
  end.

Section definitions.
Context {BC : BytesCrate} {P : Type}.

(** The body of a [match property(prop)?]: from the identifier, its type and
    the fields read so far, the fields after it and what it adds to the
    cursor. *)
Definition prop_step : Type := Z -> PropertyType -> P -> R (P * Z).

(** [while cursor < properties_len].  Every round reads an octet or fails, so
    one more round than there are octets ends it. *)
Fixpoint properties_loop (fuel : nat) (step : prop_step) (properties_len cursor : Z) (acc : P)
  : R P :=
  if cursor <? properties_len then
    match fuel with
    | O => out_of_fuel
    | S fuel =>
        let! prop := read_u8 in
        let cursor := cursor + 1 in
        let! t := lift (property prop) in
        let! (acc, n) := step prop t acc in
        properties_loop fuel step properties_len (cursor + n) acc
    end
  else ret acc.

Definition properties_read (step : prop_step) (empty : P) : R (option P) :=
  let! stream := get in
  let! (properties_len_len, properties_len) := lift (mqtt_length stream) in
  advance properties_len_len ;;
  if properties_len =? 0 then ret None
  else
    let! stream := get in
    let! acc := properties_loop (S (length stream)) step properties_len 0 empty in
    ret (Some acc).

(** How a packet counts and writes its optional properties. *)
Definition opt_properties_len (len : P -> Z) (properties : option P) : Z :=
  match properties with
  | Some p =>
      let properties_len := len p in
      let properties_len_len := len_len properties_len in
      properties_len_len + properties_len
  | None => 1
  end.

Definition opt_properties_write (write : P -> R unit) (properties : option P) : R unit :=
  match properties with
  | Some p => write p
  | None => let! _ := write_remaining_length 0 in ret tt
  end.
End definitions.
Arguments prop_step : clear implicits.

(** ** The wire form of properties *)

Inductive pval : Type :=
| VU8 (n : Z)
| VU16 (n : Z)
| VU32 (n : Z)
| VVar (n : Z)
| VStr (s : bytes)
| VBin (s : bytes)
| VPair (kv : bytes * bytes).

Definition item : Type := PropertyType * pval.

Definition pval_wire (v : pval) : bytes :=
  match v with
  | VU8 n => [n]
  | VU16 n => be16 n
  | VU32 n => be32 n
  | VVar n => varint n
  | VStr s | VBin s => wire_bytes s
  | VPair (k, v) => wire_bytes k ++ wire_bytes v
  end.

Definition item_wire (i : item) : bytes := [u8_of_PropertyType i.1] ++ pval_wire i.2.
Definition items_wire (l : list item) : bytes := concat (map item_wire l).
Definition properties_wire (l : list item) : bytes :=
  varint (blen (items_wire l)) ++ items_wire l.

Definition opt_item {A : Type} (t : PropertyType) (mk : A -> pval) (o : option A) : list item :=
  match o with Some a => [(t, mk a)] | None => [] end.
Definition list_items {A : Type} (t : PropertyType) (mk : A -> pval) (l : list A) : list item :=
  map (fun a => (t, mk a)) l.

Definition opt_items {P : Type} (items : P -> list item) (o : option P) : list item :=
  match o with Some p => items p | None => [] end.

(** A subscription identifier, and a pair of strings, that can be written. *)
Definition varint_wf (n : Z) : Prop := 0 <= n <= max_remaining.
Definition pair_wf (kv : bytes * bytes) : Prop := string_wf kv.1 /\ string_wf kv.2.

(** ** The contract of a [properties] module

    [items] is what the module puts on the wire, [ok] that every field is in
    its range, [fit] that in addition [len], [write] and [read] agree. *)
Class PropertySet {BC : BytesCrate} {P : Type} (items : P -> list item) (ok fit : P -> Prop)
  (len : P -> Z) (write : P -> R unit) (read : R (option P)) : Prop := {
  ps_fit_ok p : fit p -> ok p;
  ps_len p : fit p -> len p = blen (items_wire (items p));
  ps_write p : fit p -> blen (items_wire (items p)) <= max_remaining ->
    appends (write p) (properties_wire (items p)) tt;
  ps_read p : fit p -> items p <> [] -> blen (items_wire (items p)) <= max_remaining ->
    parses read (properties_wire (items p)) (Some p);
  ps_read_none : parses read (properties_wire []) None;
  ps_safe s : bytes_ok s ->
    wp read (fun o s' => opt_all ok o /\ bytes_ok s' /\ blen s' <= blen s) s
}.

(** Properties that survive a round trip: absent, or present with a field. *)
Definition props_wf {P : Type} (items : P -> list item) (fit : P -> Prop) (o : option P) : Prop :=
  match o with Some p => fit p /\ items p <> [] | None => True end.

(** ** Property types and wire lengths *)

Lemma u8_of_PropertyType_u8 t : u8 (u8_of_PropertyType t).
Proof. by destruct t. Qed.

Lemma property_of_type t : property (u8_of_PropertyType t) = Ok t.
Proof. by destruct t. Qed.

Lemma property_returns n : returns (property n).
Proof. unfold property. by repeat case_match. Qed.

Lemma items_wire_app l1 l2 : items_wire (l1 ++ l2) = items_wire l1 ++ items_wire l2.
Proof. unfold items_wire. by rewrite map_app, concat_app. Qed.

Lemma items_wire_cons i l : items_wire (i :: l) = item_wire i ++ items_wire l.
Proof. done. Qed.

Lemma blen_item_wire i : blen (item_wire i) = 1 + blen (pval_wire i.2).
Proof. unfold item_wire. blia. Qed.

Lemma blen_opt_item {A} t (mk : A -> pval) o :
  blen (items_wire (opt_item t mk o))
  = match o with Some a => 1 + blen (pval_wire (mk a)) | None => 0 end.
Proof. destruct o; [|done]. cbn [opt_item]. rewrite items_wire_cons, app_nil_r. apply blen_item_wire. Qed.

Lemma items_wire_nil_inv l : blen (items_wire l) = 0 -> l = [].
Proof.
  destruct l as [|i l]; [done|]. rewrite items_wire_cons, blen_app, blen_item_wire. blia.
Qed.

Lemma length_items_wire l : (length l <= length (items_wire l))%nat.
Proof.
  induction l as [|i l IH]; [done|]. rewrite items_wire_cons, length_app. cbn. lia.
Qed.

(** The lengths of the fields by kind, as the [len] functions count them. *)
Lemma blen_opt_u8 t o : blen (items_wire (opt_item t VU8 o)) = if is_some o then 1 + 1 else 0.
Proof. rewrite blen_opt_item. by destruct o. Qed.
Lemma blen_opt_u16 t o : blen (items_wire (opt_item t VU16 o)) = if is_some o then 1 + 2 else 0.
Proof. rewrite blen_opt_item. by destruct o. Qed.
Lemma blen_opt_u32 t o : blen (items_wire (opt_item t VU32 o)) = if is_some o then 1 + 4 else 0.
Proof. rewrite blen_opt_item. by destruct o. Qed.
Lemma blen_opt_str t o :
  blen (items_wire (opt_item t VStr o)) = match o with Some x => 1 + 2 + blen x | None => 0 end.
Proof. rewrite blen_opt_item. destruct o; [|done]. cbn [pval_wire]. blia. Qed.
Lemma blen_opt_bin t o :
  blen (items_wire (opt_item t VBin o)) = match o with Some x => 1 + 2 + blen x | None => 0 end.
Proof. rewrite blen_opt_item. destruct o; [|done]. cbn [pval_wire]. blia. Qed.
Lemma blen_opt_var t o :
  opt_all varint_wf o ->
  blen (items_wire (opt_item t VVar o)) = match o with Some n => 1 + len_len n | None => 0 end.
Proof. rewrite blen_opt_item. destruct o; [|done]. intros. cbn [pval_wire]. by rewrite blen_varint. Qed.
Create Rewrite HintDb field_len.
#[global] Hint Rewrite blen_opt_u8 blen_opt_u16 blen_opt_u32 blen_opt_str blen_opt_bin : field_len.

(** A [for] loop that adds up the elements. *)
Lemma foldl_len {A} (g : Z -> A -> Z) t (mk : A -> pval) l s :
  (forall s a, a ∈ l -> g s a = s + (1 + blen (pval_wire (mk a)))) ->
  foldl g s l = s + blen (items_wire (list_items t mk l)).
Proof.
  revert s. induction l as [|a l IH]; intros s H; [cbn; blia|].
  cbn [foldl list_items map]. rewrite IH, H, items_wire_cons, blen_app, blen_item_wire.
  - unfold list_items. cbn [snd]. lia.
  - constructor.
  - intros. apply H. by constructor.
Qed.

Lemma foldl_pairs l s :
  foldl (fun len kv => len + (1 + 2 + blen kv.1 + 2 + blen kv.2)) s l
  = s + blen (items_wire (list_items UserProperty VPair l)).
Proof. apply foldl_len. intros ? [k v] _. cbn [pval_wire fst snd]. blia. Qed.

Section field_writers.
Context {BC : BytesCrate} {BS : BytesSpec BC}.

(** [if let Some(x) = field { put_u8(type); put(x) }]. *)
Lemma appends_opt_item {A} t (mk : A -> pval) (wf : A -> Prop) (wr : A -> R unit) o :
  opt_all wf o -> (forall a, wf a -> appends (wr a) (pval_wire (mk a)) tt) ->
  appends (if_some o (fun a => put_u8 (u8_of_PropertyType t) ;; wr a))
          (items_wire (opt_item t mk o)) tt.
Proof.
  intros Ho Hwr. destruct o as [a|]; [|apply appends_ret].
  cbn [if_some opt_item]. rewrite items_wire_cons, app_nil_r. unfold item_wire.
  eapply appends_bind; [apply put_u8_appends, u8_of_PropertyType_u8|by apply Hwr].
Qed.

(** [for x in field.iter() { put_u8(type); put(x) }]. *)
Lemma appends_list_items {A} t (mk : A -> pval) (wf : A -> Prop) (wr : A -> R unit) l :
  Forall wf l -> (forall a, wf a -> appends (wr a) (pval_wire (mk a)) tt) ->
  appends (for_each l (fun a => put_u8 (u8_of_PropertyType t) ;; wr a))
          (items_wire (list_items t mk l)) tt.
Proof.
  intros Hl Hwr. induction Hl as [|a l Ha Hl IH]; [apply appends_ret|].
  cbn [for_each list_items map]. rewrite items_wire_cons.
  eapply appends_bind; [|exact IH]. unfold item_wire.
  eapply appends_bind; [apply put_u8_appends, u8_of_PropertyType_u8|by apply Hwr].
Qed.

Lemma write_pair_appends kv :
  pair_wf kv ->
  appends (write_mqtt_string kv.1 ;; write_mqtt_string kv.2) (pval_wire (VPair kv)) tt.
Proof.
  destruct kv as [k v]. intros [[? _] [? _]]. cbn [fst snd pval_wire].
  eapply appends_bind; by apply write_mqtt_string_appends.
Qed.

Lemma write_varint_appends n :
  varint_wf n ->
  appends (let! _ := write_remaining_length n in ret tt) (pval_wire (VVar n)) tt.
Proof.
  intros. eapply appends_cast;
    [eapply appends_bind; [by apply write_remaining_length_appends|apply appends_ret]
    |app_eq|done].
Qed.
End field_writers.

(** ** The reading loop *)

Section reading.
Context {BC : BytesCrate} {BS : BytesSpec BC} {P : Type}.
Implicit Types (step : prop_step P) (acc : P).

(** [runs step acc l acc']: the step function turns the items [l] one by one
    into the fields of [acc'], adding to the cursor what it reads. *)
Inductive runs step : P -> list item -> P -> Prop :=
| runs_nil acc : runs step acc [] acc
| runs_cons acc acc1 acc' t v l :
    parses (step (u8_of_PropertyType t) t acc) (pval_wire v) (acc1, blen (pval_wire v)) ->
    runs step acc1 l acc' ->
    runs step acc ((t, v) :: l) acc'.

Lemma runs_app step acc acc1 acc2 l1 l2 :
  runs step acc l1 acc1 -> runs step acc1 l2 acc2 -> runs step acc (l1 ++ l2) acc2.
Proof. induction 1; cbn; [done|]. econstructor; eauto. Qed.

Lemma runs_opt {A} step acc t (mk : A -> pval) (wf : A -> Prop) (set : option A -> P -> P) o :
  opt_all wf o ->
  (forall a, wf a ->
     parses (step (u8_of_PropertyType t) t acc) (pval_wire (mk a))
            (set (Some a) acc, blen (pval_wire (mk a)))) ->
  set None acc = acc ->
  runs step acc (opt_item t mk o) (set o acc).
Proof.
  intros Ho Hst Hnone. destruct o as [a|]; cbn.
  - econstructor; [by apply Hst|constructor].
  - rewrite Hnone. constructor.
Qed.

Lemma runs_list {A} step acc t (mk : A -> pval) (wf : A -> Prop)
    (get : P -> list A) (set : list A -> P -> P) l :
  Forall wf l ->
  (forall l p, get (set l p) = l) -> (forall l l' p, set l (set l' p) = set l p) ->
  (forall a acc, wf a ->
     parses (step (u8_of_PropertyType t) t acc) (pval_wire (mk a))
            (set (get acc ++ [a]) acc, blen (pval_wire (mk a)))) ->
  set (get acc) acc = acc ->
  runs step acc (list_items t mk l) (set (get acc ++ l) acc).
Proof.
  intros Hl Hgs Hss Hst. revert acc. induction Hl as [|a l Ha Hl IH]; intros acc Hid; cbn.
  - rewrite app_nil_r, Hid. constructor.
  - econstructor; [by apply Hst|].
    specialize (IH (set (get acc ++ [a]) acc)). rewrite !Hgs, !Hss, <- app_assoc in IH.
    by apply IH.
Qed.

(** One round of the loop. *)
Lemma properties_loop_item step acc acc1 t v n fuel plen cursor rest :
  parses (step (u8_of_PropertyType t) t acc) (pval_wire v) (acc1, n) -> cursor < plen ->
  properties_loop (S fuel) step plen cursor acc (item_wire (t, v) ++ rest)
  = properties_loop fuel step plen (cursor + 1 + n) acc1 rest.
Proof.
  intros Hst Hc. cbn [properties_loop]. rewrite (proj2 (Z.ltb_lt _ _)) by done.
  unfold item_wire. cbn [fst snd]. rewrite <- app_assoc.
  rewrite (parses_eval _ _ _ _ _ (read_u8_parses _ (u8_of_PropertyType_u8 t))).
  rewrite property_of_type. unfold bind at 1, lift at 1. by rewrite (parses_eval _ _ _ _ _ Hst).
Qed.

(** The loop runs over items that it understands, and goes on from there.  A
    cursor that is ahead by less than the octets of an item does no harm. *)
Lemma properties_loop_runs step acc l acc' fuel plen cursor d rest :
  runs step acc l acc' -> cursor + blen (items_wire l) <= plen + d ->
  0 <= d -> Forall (fun i => d < blen (item_wire i)) l ->
  properties_loop (length l + fuel) step plen cursor acc (items_wire l ++ rest)
  = properties_loop fuel step plen (cursor + blen (items_wire l)) acc' rest.
Proof.
  intros Hr. revert cursor. induction Hr as [acc|acc acc1 acc' t v l Hst Hr IH]; intros cursor Hp Hd Hl.
  { cbn. by rewrite Z.add_0_r. }
  apply Forall_cons in Hl as [Hi Hl]. rewrite items_wire_cons, blen_app, blen_item_wire in *.
  cbn [snd] in *. cbn [length Nat.add]. rewrite <- app_assoc.
  rewrite (properties_loop_item _ _ _ _ _ _ _ _ _ _ Hst) by blia.
  rewrite IH by (try done; lia). f_equal. lia.
Qed.

Lemma properties_loop_end fuel step plen cursor acc rest :
  plen <= cursor -> properties_loop fuel step plen cursor acc rest = (Ok acc, rest).
Proof. intros. destruct fuel; cbn [properties_loop]; by rewrite (proj2 (Z.ltb_ge _ _)) by lia. Qed.

(** [read] on the length and what follows it. *)
Lemma properties_read_eval step empty n rest :
  0 <= n <= max_remaining ->
  properties_read step empty (varint n ++ rest)
  = if n =? 0 then (Ok None, rest)
    else bind (properties_loop (S (length rest)) step n 0 empty) (fun p => ret (Some p)) rest.
Proof.
  intros Hn. unfold properties_read. unfold bind at 1, get at 1.
  rewrite mqtt_length_varint by done. unfold bind at 1, lift at 1.
  rewrite (bind_ok _ _ _ _ _ (advance_app _ _)). by destruct (n =? 0).
Qed.

(** [read] on the wire form of some items, when the loop ends on them. *)
Lemma properties_read_items step empty l p :
  l <> [] -> blen (items_wire l) <= max_remaining ->
  (forall fuel rest, properties_loop (length l + fuel) step (blen (items_wire l)) 0 empty
                       (items_wire l ++ rest) = (Ok p, rest)) ->
  parses (properties_read step empty) (properties_wire l) (Some p).
Proof.
  intros Hl Hsz Hloop rest. unfold properties_wire. rewrite <- app_assoc.
  rewrite properties_read_eval by blia.
  rewrite (proj2 (Z.eqb_neq _ _)) by (intros ?%items_wire_nil_inv; done).
  assert (exists f, S (length (items_wire l ++ rest)) = (length l + f)%nat) as [f ->].
  { pose proof (length_items_wire l).
    exists (S (length (items_wire l ++ rest)) - length l)%nat. rewrite length_app. lia. }
  by rewrite (bind_ok _ _ _ _ _ (Hloop f rest)).
Qed.

Lemma item_wire_pos d l : d <= 0 -> Forall (fun i => d < blen (item_wire i)) l.
Proof. intros. apply Forall_forall. intros i _. rewrite blen_item_wire. blia. Qed.

Lemma properties_read_runs step empty l p :
  runs step empty l p -> l <> [] -> blen (items_wire l) <= max_remaining ->
  parses (properties_read step empty) (properties_wire l) (Some p).
Proof.
  intros Hr Hl Hsz. apply properties_read_items; [done|done|]. intros fuel rest.
  rewrite (properties_loop_runs _ _ _ _ _ _ _ 0 _ Hr) by (try apply item_wire_pos; lia).
  apply properties_loop_end. lia.
Qed.

Lemma properties_read_none step empty : parses (properties_read step empty) (properties_wire []) None.
Proof. intros rest. exact (properties_read_eval step empty 0 rest ltac:(unfold max_remaining; lia)). Qed.

(** A step that never panics, keeps the fields in range and does not move the
    cursor back makes a reader that never panics. *)
Definition step_safe (ok : P -> Prop) step : Prop :=
  forall prop t acc s, bytes_ok s -> ok acc ->
    wp (step prop t acc) (fun r s' => ok r.1 /\ bytes_ok s' /\ blen s' <= blen s) s.

Lemma wp_properties_loop ok step fuel plen cursor acc s :
  step_safe ok step -> bytes_ok s -> ok acc -> blen s < Z.of_nat fuel ->
  wp (properties_loop fuel step plen cursor acc)
     (fun acc s' => ok acc /\ bytes_ok s' /\ blen s' <= blen s) s.
Proof.
  intros Hst. revert cursor acc s. induction fuel as [|fuel IH]; intros cursor acc s Hs Hacc Hf;
    cbn [properties_loop]; apply wp_if; intros _; [blia|by apply wp_ret| |by apply wp_ret].
  apply wp_bind, wp_read_u8; [done|]. intros n s1 Hn Hs1 Hl1.
  apply wp_bind, wp_lift; [apply property_returns|]. intros t _.
  apply wp_bind. eapply wp_mono; [by apply Hst|]. cbn. intros [acc1 d] s2 (Hok & Hs2 & Hl2).
  eapply wp_mono; [apply IH; [done|done|lia]|]. cbn. intros ? ? (? & ? & ?). split_and!; [done..|lia].
Qed.

Lemma wp_properties_read ok step empty s :
  step_safe ok step -> ok empty -> bytes_ok s ->
  wp (properties_read step empty)
     (fun o s' => opt_all ok o /\ bytes_ok s' /\ blen s' <= blen s) s.
Proof.
  intros Hst He Hs. unfold properties_read. apply wp_bind, wp_get, wp_bind.
  apply wp_mqtt_length; [done|]. intros n x Hn Hx. apply wp_bind, wp_advance; [lia|].
  pose proof (blen_drop n s ltac:(lia)). pose proof (bytes_ok_drop (Z.to_nat n) s Hs).
  apply wp_if; intros _; [apply wp_ret; split_and!; [done..|lia]|].
  apply wp_bind, wp_get, wp_bind.
  eapply wp_mono; [by apply wp_properties_loop; [..|unfold blen; lia]|].
  cbn. intros acc s' (? & ? & ?). split_and!; [done..|lia].
Qed.
End reading.
