(* ===== verification/V5PropDefs.v ===== *)
(** * MQTT 5 properties: the [properties] modules

    One group per module [properties] of [protocol/src/mqtt/mqttv5]: the record
    with no field set (the [let mut x = None] of [read]), the assignments to
    its fields, [len], [write], the body of [read]'s [match] ([step]) and
    [read]. *)

From S2P Require Import Prelude Bytes MqttTypes MqttCommon V5Props.

Section definitions.
Context {BC : BytesCrate}.

(** *** ConnectProperties *)

Definition empty_ConnectProperties : ConnectProperties :=
  mkConnectProperties None None None None None None [] None None.

Definition set_cp_session_expiry_interval (v : option Z) (p : ConnectProperties) : ConnectProperties :=
  mkConnectProperties v (cp_receive_maximum p) (cp_max_packet_size p) (cp_topic_alias_max p)
    (cp_request_response_info p) (cp_request_problem_info p) (cp_user_properties p)
    (cp_authentication_method p) (cp_authentication_data p).
Definition set_cp_receive_maximum (v : option Z) (p : ConnectProperties) : ConnectProperties :=
  mkConnectProperties (cp_session_expiry_interval p) v (cp_max_packet_size p)
    (cp_topic_alias_max p) (cp_request_response_info p) (cp_request_problem_info p)
    (cp_user_properties p) (cp_authentication_method p) (cp_authentication_data p).
Definition set_cp_max_packet_size (v : option Z) (p : ConnectProperties) : ConnectProperties :=
  mkConnectProperties (cp_session_expiry_interval p) (cp_receive_maximum p) v
    (cp_topic_alias_max p) (cp_request_response_info p) (cp_request_problem_info p)
    (cp_user_properties p) (cp_authentication_method p) (cp_authentication_data p).
Definition set_cp_topic_alias_max (v : option Z) (p : ConnectProperties) : ConnectProperties :=
  mkConnectProperties (cp_session_expiry_interval p) (cp_receive_maximum p)
    (cp_max_packet_size p) v (cp_request_response_info p) (cp_request_problem_info p)
    (cp_user_properties p) (cp_authentication_method p) (cp_authentication_data p).
Definition set_cp_request_response_info (v : option Z) (p : ConnectProperties) : ConnectProperties :=
  mkConnectProperties (cp_session_expiry_interval p) (cp_receive_maximum p)
    (cp_max_packet_size p) (cp_topic_alias_max p) v (cp_request_problem_info p)
    (cp_user_properties p) (cp_authentication_method p) (cp_authentication_data p).
Definition set_cp_request_problem_info (v : option Z) (p : ConnectProperties) : ConnectProperties :=
  mkConnectProperties (cp_session_expiry_interval p) (cp_receive_maximum p)
    (cp_max_packet_size p) (cp_topic_alias_max p) (cp_request_response_info p) v
    (cp_user_properties p) (cp_authentication_method p) (cp_authentication_data p).
Definition set_cp_user_properties (v : list (bytes * bytes)) (p : ConnectProperties) : ConnectProperties :=
  mkConnectProperties (cp_session_expiry_interval p) (cp_receive_maximum p)
    (cp_max_packet_size p) (cp_topic_alias_max p) (cp_request_response_info p)
    (cp_request_problem_info p) v (cp_authentication_method p) (cp_authentication_data p).
Definition set_cp_authentication_method (v : option bytes) (p : ConnectProperties) : ConnectProperties :=
  mkConnectProperties (cp_session_expiry_interval p) (cp_receive_maximum p)
    (cp_max_packet_size p) (cp_topic_alias_max p) (cp_request_response_info p)
    (cp_request_problem_info p) (cp_user_properties p) v (cp_authentication_data p).
Definition set_cp_authentication_data (v : option bytes) (p : ConnectProperties) : ConnectProperties :=
  mkConnectProperties (cp_session_expiry_interval p) (cp_receive_maximum p)
    (cp_max_packet_size p) (cp_topic_alias_max p) (cp_request_response_info p)
    (cp_request_problem_info p) (cp_user_properties p) (cp_authentication_method p) v.

Definition v5_connect_properties_len (properties : ConnectProperties) : Z :=
  let len := 0 in
  let len := len + (if is_some (cp_session_expiry_interval properties) then 1 + 4 else 0) in
  let len := len + (if is_some (cp_receive_maximum properties) then 1 + 2 else 0) in
  let len := len + (if is_some (cp_max_packet_size properties) then 1 + 4 else 0) in
  let len := len + (if is_some (cp_topic_alias_max properties) then 1 + 2 else 0) in
  let len := len + (if is_some (cp_request_response_info properties) then 1 + 1 else 0) in
  let len := len + (if is_some (cp_request_problem_info properties) then 1 + 1 else 0) in
  let len := foldl (fun len kv => len + (1 + 2 + blen kv.1 + 2 + blen kv.2)) len (cp_user_properties properties) in
  let len := len + (match cp_authentication_method properties with Some x => 1 + 2 + blen x | None => 0 end) in
  let len := len + (match cp_authentication_data properties with Some x => 1 + 2 + blen x | None => 0 end) in
  len.

Definition v5_connect_properties_write (properties : ConnectProperties) : R unit :=
  let len := v5_connect_properties_len properties in
  let! _ := write_remaining_length len in
  if_some (cp_session_expiry_interval properties) (fun x =>
    put_u8 (u8_of_PropertyType SessionExpiryInterval) ;; put_u32 x) ;;
  if_some (cp_receive_maximum properties) (fun x =>
    put_u8 (u8_of_PropertyType ReceiveMaximum) ;; put_u16 x) ;;
  if_some (cp_max_packet_size properties) (fun x =>
    put_u8 (u8_of_PropertyType MaximumPacketSize) ;; put_u32 x) ;;
  if_some (cp_topic_alias_max properties) (fun x =>
    put_u8 (u8_of_PropertyType TopicAliasMaximum) ;; put_u16 x) ;;
  if_some (cp_request_response_info properties) (fun x =>
    put_u8 (u8_of_PropertyType RequestResponseInformation) ;; put_u8 x) ;;
  if_some (cp_request_problem_info properties) (fun x =>
    put_u8 (u8_of_PropertyType RequestProblemInformation) ;; put_u8 x) ;;
  for_each (cp_user_properties properties) (fun kv =>
    put_u8 (u8_of_PropertyType UserProperty) ;; write_mqtt_string kv.1 ;; write_mqtt_string kv.2) ;;
  if_some (cp_authentication_method properties) (fun x =>
    put_u8 (u8_of_PropertyType AuthenticationMethod) ;; write_mqtt_string x) ;;
  if_some (cp_authentication_data properties) (fun x =>
    put_u8 (u8_of_PropertyType AuthenticationData) ;; write_mqtt_bytes x) ;;
  ret tt.

Definition v5_connect_properties_step : prop_step ConnectProperties := fun prop t acc =>
  match t with
  | SessionExpiryInterval => let! v := read_u32 in ret (set_cp_session_expiry_interval (Some v) acc, 4)
  | ReceiveMaximum => let! v := read_u16 in ret (set_cp_receive_maximum (Some v) acc, 2)
  | MaximumPacketSize => let! v := read_u32 in ret (set_cp_max_packet_size (Some v) acc, 4)
  | TopicAliasMaximum => let! v := read_u16 in ret (set_cp_topic_alias_max (Some v) acc, 2)
  | RequestResponseInformation => let! v := read_u8 in ret (set_cp_request_response_info (Some v) acc, 1)
  | RequestProblemInformation => let! v := read_u8 in ret (set_cp_request_problem_info (Some v) acc, 1)
  | UserProperty =>
      let! key := read_mqtt_string in
      let! value := read_mqtt_string in
      ret (set_cp_user_properties (cp_user_properties acc ++ [(key, value)]) acc, 2 + blen key + 2 + blen value)
  | AuthenticationMethod => let! v := read_mqtt_string in ret (set_cp_authentication_method (Some v) acc, 2 + blen v)
  | AuthenticationData => let! v := read_mqtt_bytes in ret (set_cp_authentication_data (Some v) acc, 2 + blen v)
  | _ => fail (InvalidPropertyType prop)
  end.

Definition v5_connect_properties_read : R (option ConnectProperties) :=
  properties_read v5_connect_properties_step empty_ConnectProperties.

(** *** LastWillProperties *)

Definition empty_LastWillProperties : LastWillProperties :=
  mkLastWillProperties None None None None None None [].

Definition set_wp_delay_interval (v : option Z) (p : LastWillProperties) : LastWillProperties :=
  mkLastWillProperties v (wp_payload_format_indicator p) (wp_message_expiry_interval p)
    (wp_content_type p) (wp_response_topic p) (wp_correlation_data p) (wp_user_properties p).
Definition set_wp_payload_format_indicator (v : option Z) (p : LastWillProperties) : LastWillProperties :=
  mkLastWillProperties (wp_delay_interval p) v (wp_message_expiry_interval p) (wp_content_type p) (wp_response_topic p) (wp_correlation_data p) (wp_user_properties p).
Definition set_wp_message_expiry_interval (v : option Z) (p : LastWillProperties) : LastWillProperties :=
  mkLastWillProperties (wp_delay_interval p) (wp_payload_format_indicator p) v
    (wp_content_type p) (wp_response_topic p) (wp_correlation_data p) (wp_user_properties p).
Definition set_wp_content_type (v : option bytes) (p : LastWillProperties) : LastWillProperties :=
  mkLastWillProperties (wp_delay_interval p) (wp_payload_format_indicator p)
    (wp_message_expiry_interval p) v (wp_response_topic p) (wp_correlation_data p)
    (wp_user_properties p).
Definition set_wp_response_topic (v : option bytes) (p : LastWillProperties) : LastWillProperties :=
  mkLastWillProperties (wp_delay_interval p) (wp_payload_format_indicator p)
    (wp_message_expiry_interval p) (wp_content_type p) v (wp_correlation_data p)
    (wp_user_properties p).
Definition set_wp_correlation_data (v : option bytes) (p : LastWillProperties) : LastWillProperties :=
  mkLastWillProperties (wp_delay_interval p) (wp_payload_format_indicator p)
    (wp_message_expiry_interval p) (wp_content_type p) (wp_response_topic p) v
    (wp_user_properties p).
Definition set_wp_user_properties (v : list (bytes * bytes)) (p : LastWillProperties) : LastWillProperties :=
  mkLastWillProperties (wp_delay_interval p) (wp_payload_format_indicator p)
    (wp_message_expiry_interval p) (wp_content_type p) (wp_response_topic p)
    (wp_correlation_data p) v.

Definition v5_willproperties_len (properties : LastWillProperties) : Z :=
  let len := 0 in
  let len := len + (if is_some (wp_delay_interval properties) then 1 + 4 else 0) in
  let len := len + (if is_some (wp_payload_format_indicator properties) then 1 + 1 else 0) in
  let len := len + (if is_some (wp_message_expiry_interval properties) then 1 + 4 else 0) in
  let len := len + (match wp_content_type properties with Some x => 1 + 2 + blen x | None => 0 end) in
  let len := len + (match wp_response_topic properties with Some x => 1 + 2 + blen x | None => 0 end) in
  let len := len + (match wp_correlation_data properties with Some x => 1 + 2 + blen x | None => 0 end) in
  let len := foldl (fun len kv => len + (1 + 2 + blen kv.1 + 2 + blen kv.2)) len (wp_user_properties properties) in
  len.

Definition v5_willproperties_write (properties : LastWillProperties) : R unit :=
  let len := v5_willproperties_len properties in
  let! _ := write_remaining_length len in
  if_some (wp_delay_interval properties) (fun x =>
    put_u8 (u8_of_PropertyType WillDelayInterval) ;; put_u32 x) ;;
  if_some (wp_payload_format_indicator properties) (fun x =>
    put_u8 (u8_of_PropertyType PayloadFormatIndicator) ;; put_u8 x) ;;
  if_some (wp_message_expiry_interval properties) (fun x =>
    put_u8 (u8_of_PropertyType MessageExpiryInterval) ;; put_u32 x) ;;
  if_some (wp_content_type properties) (fun x =>
    put_u8 (u8_of_PropertyType ContentType) ;; write_mqtt_string x) ;;
  if_some (wp_response_topic properties) (fun x =>
    put_u8 (u8_of_PropertyType ResponseTopic) ;; write_mqtt_string x) ;;
  if_some (wp_correlation_data properties) (fun x =>
    put_u8 (u8_of_PropertyType CorrelationData) ;; write_mqtt_bytes x) ;;
  for_each (wp_user_properties properties) (fun kv =>
    put_u8 (u8_of_PropertyType UserProperty) ;; write_mqtt_string kv.1 ;; write_mqtt_string kv.2) ;;
  ret tt.

Definition v5_willproperties_step : prop_step LastWillProperties := fun prop t acc =>
  match t with
  | WillDelayInterval => let! v := read_u32 in ret (set_wp_delay_interval (Some v) acc, 4)
  | PayloadFormatIndicator => let! v := read_u8 in ret (set_wp_payload_format_indicator (Some v) acc, 1)
  | MessageExpiryInterval => let! v := read_u32 in ret (set_wp_message_expiry_interval (Some v) acc, 4)
  | ContentType => let! v := read_mqtt_string in ret (set_wp_content_type (Some v) acc, 2 + blen v)
  | ResponseTopic => let! v := read_mqtt_string in ret (set_wp_response_topic (Some v) acc, 2 + blen v)
  | CorrelationData => let! v := read_mqtt_bytes in ret (set_wp_correlation_data (Some v) acc, 2 + blen v)
  | UserProperty =>
      let! key := read_mqtt_string in
      let! value := read_mqtt_string in
      ret (set_wp_user_properties (wp_user_properties acc ++ [(key, value)]) acc, 2 + blen key + 2 + blen value)
  | _ => fail (InvalidPropertyType prop)
  end.

Definition v5_willproperties_read : R (option LastWillProperties) :=
  properties_read v5_willproperties_step empty_LastWillProperties.

(** *** ConnAckProperties *)

Definition empty_ConnAckProperties : ConnAckProperties :=
  mkConnAckProperties None None None None None None None None [] None None None None None None None None.

Definition set_cap_session_expiry_interval (v : option Z) (p : ConnAckProperties) : ConnAckProperties :=
  mkConnAckProperties v (cap_receive_max p) (cap_max_qos p) (cap_retain_available p)
    (cap_max_packet_size p) (cap_assigned_client_identifier p) (cap_topic_alias_max p)
    (cap_reason_string p) (cap_user_properties p) (cap_wildcard_subscription_available p)
    (cap_subscription_identifiers_available p) (cap_shared_subscription_available p)
    (cap_server_keep_alive p) (cap_response_information p) (cap_server_reference p)
    (cap_authentication_method p) (cap_authentication_data p).
Definition set_cap_receive_max (v : option Z) (p : ConnAckProperties) : ConnAckProperties :=
  mkConnAckProperties (cap_session_expiry_interval p) v (cap_max_qos p) (cap_retain_available p) (cap_max_packet_size p) (cap_assigned_client_identifier p) (cap_topic_alias_max p)
    (cap_reason_string p) (cap_user_properties p) (cap_wildcard_subscription_available p)
    (cap_subscription_identifiers_available p) (cap_shared_subscription_available p)
    (cap_server_keep_alive p) (cap_response_information p) (cap_server_reference p)
    (cap_authentication_method p) (cap_authentication_data p).
Definition set_cap_max_qos (v : option Z) (p : ConnAckProperties) : ConnAckProperties :=
  mkConnAckProperties (cap_session_expiry_interval p) (cap_receive_max p) v
    (cap_retain_available p) (cap_max_packet_size p) (cap_assigned_client_identifier p)
    (cap_topic_alias_max p) (cap_reason_string p) (cap_user_properties p)
    (cap_wildcard_subscription_available p) (cap_subscription_identifiers_available p)
    (cap_shared_subscription_available p) (cap_server_keep_alive p) (cap_response_information p) (cap_server_reference p) (cap_authentication_method p) (cap_authentication_data p).
Definition set_cap_retain_available (v : option Z) (p : ConnAckProperties) : ConnAckProperties :=
  mkConnAckProperties (cap_session_expiry_interval p) (cap_receive_max p) (cap_max_qos p) v
    (cap_max_packet_size p) (cap_assigned_client_identifier p) (cap_topic_alias_max p)
    (cap_reason_string p) (cap_user_properties p) (cap_wildcard_subscription_available p)
    (cap_subscription_identifiers_available p) (cap_shared_subscription_available p)
    (cap_server_keep_alive p) (cap_response_information p) (cap_server_reference p)
    (cap_authentication_method p) (cap_authentication_data p).
Definition set_cap_max_packet_size (v : option Z) (p : ConnAckProperties) : ConnAckProperties :=
  mkConnAckProperties (cap_session_expiry_interval p) (cap_receive_max p) (cap_max_qos p)
    (cap_retain_available p) v (cap_assigned_client_identifier p) (cap_topic_alias_max p)
    (cap_reason_string p) (cap_user_properties p) (cap_wildcard_subscription_available p)
    (cap_subscription_identifiers_available p) (cap_shared_subscription_available p)
    (cap_server_keep_alive p) (cap_response_information p) (cap_server_reference p)
    (cap_authentication_method p) (cap_authentication_data p).
Definition set_cap_assigned_client_identifier (v : option bytes) (p : ConnAckProperties) : ConnAckProperties :=
  mkConnAckProperties (cap_session_expiry_interval p) (cap_receive_max p) (cap_max_qos p)
    (cap_retain_available p) (cap_max_packet_size p) v (cap_topic_alias_max p)
    (cap_reason_string p) (cap_user_properties p) (cap_wildcard_subscription_available p)
    (cap_subscription_identifiers_available p) (cap_shared_subscription_available p)
    (cap_server_keep_alive p) (cap_response_information p) (cap_server_reference p)
    (cap_authentication_method p) (cap_authentication_data p).
Definition set_cap_topic_alias_max (v : option Z) (p : ConnAckProperties) : ConnAckProperties :=
  mkConnAckProperties (cap_session_expiry_interval p) (cap_receive_max p) (cap_max_qos p)
    (cap_retain_available p) (cap_max_packet_size p) (cap_assigned_client_identifier p) v
    (cap_reason_string p) (cap_user_properties p) (cap_wildcard_subscription_available p)
    (cap_subscription_identifiers_available p) (cap_shared_subscription_available p)
    (cap_server_keep_alive p) (cap_response_information p) (cap_server_reference p)
    (cap_authentication_method p) (cap_authentication_data p).
Definition set_cap_reason_string (v : option bytes) (p : ConnAckProperties) : ConnAckProperties :=
  mkConnAckProperties (cap_session_expiry_interval p) (cap_receive_max p) (cap_max_qos p)
    (cap_retain_available p) (cap_max_packet_size p) (cap_assigned_client_identifier p)
    (cap_topic_alias_max p) v (cap_user_properties p) (cap_wildcard_subscription_available p)
    (cap_subscription_identifiers_available p) (cap_shared_subscription_available p)
    (cap_server_keep_alive p) (cap_response_information p) (cap_server_reference p)
    (cap_authentication_method p) (cap_authentication_data p).
Definition set_cap_user_properties (v : list (bytes * bytes)) (p : ConnAckProperties) : ConnAckProperties :=
  mkConnAckProperties (cap_session_expiry_interval p) (cap_receive_max p) (cap_max_qos p)
    (cap_retain_available p) (cap_max_packet_size p) (cap_assigned_client_identifier p)
    (cap_topic_alias_max p) (cap_reason_string p) v (cap_wildcard_subscription_available p)
    (cap_subscription_identifiers_available p) (cap_shared_subscription_available p)
    (cap_server_keep_alive p) (cap_response_information p) (cap_server_reference p)
    (cap_authentication_method p) (cap_authentication_data p).
Definition set_cap_wildcard_subscription_available (v : option Z) (p : ConnAckProperties) : ConnAckProperties :=
  mkConnAckProperties (cap_session_expiry_interval p) (cap_receive_max p) (cap_max_qos p)
    (cap_retain_available p) (cap_max_packet_size p) (cap_assigned_client_identifier p)
    (cap_topic_alias_max p) (cap_reason_string p) (cap_user_properties p) v
    (cap_subscription_identifiers_available p) (cap_shared_subscription_available p)
    (cap_server_keep_alive p) (cap_response_information p) (cap_server_reference p)
    (cap_authentication_method p) (cap_authentication_data p).
Definition set_cap_subscription_identifiers_available (v : option Z) (p : ConnAckProperties) : ConnAckProperties :=
  mkConnAckProperties (cap_session_expiry_interval p) (cap_receive_max p) (cap_max_qos p)
    (cap_retain_available p) (cap_max_packet_size p) (cap_assigned_client_identifier p)
    (cap_topic_alias_max p) (cap_reason_string p) (cap_user_properties p)
    (cap_wildcard_subscription_available p) v (cap_shared_subscription_available p)
    (cap_server_keep_alive p) (cap_response_information p) (cap_server_reference p)
    (cap_authentication_method p) (cap_authentication_data p).
Definition set_cap_shared_subscription_available (v : option Z) (p : ConnAckProperties) : ConnAckProperties :=
  mkConnAckProperties (cap_session_expiry_interval p) (cap_receive_max p) (cap_max_qos p)
    (cap_retain_available p) (cap_max_packet_size p) (cap_assigned_client_identifier p)
    (cap_topic_alias_max p) (cap_reason_string p) (cap_user_properties p)
    (cap_wildcard_subscription_available p) (cap_subscription_identifiers_available p) v
    (cap_server_keep_alive p) (cap_response_information p) (cap_server_reference p)
    (cap_authentication_method p) (cap_authentication_data p).
Definition set_cap_server_keep_alive (v : option Z) (p : ConnAckProperties) : ConnAckProperties :=
  mkConnAckProperties (cap_session_expiry_interval p) (cap_receive_max p) (cap_max_qos p)
    (cap_retain_available p) (cap_max_packet_size p) (cap_assigned_client_identifier p)
    (cap_topic_alias_max p) (cap_reason_string p) (cap_user_properties p)
    (cap_wildcard_subscription_available p) (cap_subscription_identifiers_available p)
    (cap_shared_subscription_available p) v (cap_response_information p) (cap_server_reference p) (cap_authentication_method p) (cap_authentication_data p).
Definition set_cap_response_information (v : option bytes) (p : ConnAckProperties) : ConnAckProperties :=
  mkConnAckProperties (cap_session_expiry_interval p) (cap_receive_max p) (cap_max_qos p)
    (cap_retain_available p) (cap_max_packet_size p) (cap_assigned_client_identifier p)
    (cap_topic_alias_max p) (cap_reason_string p) (cap_user_properties p)
    (cap_wildcard_subscription_available p) (cap_subscription_identifiers_available p)
    (cap_shared_subscription_available p) (cap_server_keep_alive p) v (cap_server_reference p)
    (cap_authentication_method p) (cap_authentication_data p).
Definition set_cap_server_reference (v : option bytes) (p : ConnAckProperties) : ConnAckProperties :=
  mkConnAckProperties (cap_session_expiry_interval p) (cap_receive_max p) (cap_max_qos p)
    (cap_retain_available p) (cap_max_packet_size p) (cap_assigned_client_identifier p)
    (cap_topic_alias_max p) (cap_reason_string p) (cap_user_properties p)
    (cap_wildcard_subscription_available p) (cap_subscription_identifiers_available p)
    (cap_shared_subscription_available p) (cap_server_keep_alive p) (cap_response_information p) v (cap_authentication_method p) (cap_authentication_data p).
Definition set_cap_authentication_method (v : option bytes) (p : ConnAckProperties) : ConnAckProperties :=
  mkConnAckProperties (cap_session_expiry_interval p) (cap_receive_max p) (cap_max_qos p)
    (cap_retain_available p) (cap_max_packet_size p) (cap_assigned_client_identifier p)
    (cap_topic_alias_max p) (cap_reason_string p) (cap_user_properties p)
    (cap_wildcard_subscription_available p) (cap_subscription_identifiers_available p)
    (cap_shared_subscription_available p) (cap_server_keep_alive p) (cap_response_information p) (cap_server_reference p) v (cap_authentication_data p).
Definition set_cap_authentication_data (v : option bytes) (p : ConnAckProperties) : ConnAckProperties :=
  mkConnAckProperties (cap_session_expiry_interval p) (cap_receive_max p) (cap_max_qos p)
    (cap_retain_available p) (cap_max_packet_size p) (cap_assigned_client_identifier p)
    (cap_topic_alias_max p) (cap_reason_string p) (cap_user_properties p)
    (cap_wildcard_subscription_available p) (cap_subscription_identifiers_available p)
    (cap_shared_subscription_available p) (cap_server_keep_alive p) (cap_response_information p) (cap_server_reference p) (cap_authentication_method p) v.

Definition v5_connack_properties_len (properties : ConnAckProperties) : Z :=
  let len := 0 in
  let len := len + (if is_some (cap_session_expiry_interval properties) then 1 + 4 else 0) in
  let len := len + (if is_some (cap_receive_max properties) then 1 + 2 else 0) in
  let len := len + (if is_some (cap_max_qos properties) then 1 + 1 else 0) in
  let len := len + (if is_some (cap_retain_available properties) then 1 + 1 else 0) in
  let len := len + (if is_some (cap_max_packet_size properties) then 1 + 4 else 0) in
  let len := len + (match cap_assigned_client_identifier properties with Some x => 1 + 2 + blen x | None => 0 end) in
  let len := len + (if is_some (cap_topic_alias_max properties) then 1 + 2 else 0) in
  let len := len + (match cap_reason_string properties with Some x => 1 + 2 + blen x | None => 0 end) in
  let len := foldl (fun len kv => len + (1 + 2 + blen kv.1 + 2 + blen kv.2)) len (cap_user_properties properties) in
  let len := len + (if is_some (cap_wildcard_subscription_available properties) then 1 + 1 else 0) in
  let len := len + (if is_some (cap_subscription_identifiers_available properties) then 1 + 1 else 0) in
  let len := len + (if is_some (cap_shared_subscription_available properties) then 1 + 1 else 0) in
  let len := len + (if is_some (cap_server_keep_alive properties) then 1 + 2 else 0) in
  let len := len + (match cap_response_information properties with Some x => 1 + 2 + blen x | None => 0 end) in
  let len := len + (match cap_server_reference properties with Some x => 1 + 2 + blen x | None => 0 end) in
  let len := len + (match cap_authentication_method properties with Some x => 1 + 2 + blen x | None => 0 end) in
  let len := len + (match cap_authentication_data properties with Some x => 1 + 2 + blen x | None => 0 end) in
  len.

Definition v5_connack_properties_write (properties : ConnAckProperties) : R unit :=
  let len := v5_connack_properties_len properties in
  let! _ := write_remaining_length len in
  if_some (cap_session_expiry_interval properties) (fun x =>
    put_u8 (u8_of_PropertyType SessionExpiryInterval) ;; put_u32 x) ;;
  if_some (cap_receive_max properties) (fun x =>
    put_u8 (u8_of_PropertyType ReceiveMaximum) ;; put_u16 x) ;;
  if_some (cap_max_qos properties) (fun x =>
    put_u8 (u8_of_PropertyType MaximumQos) ;; put_u8 x) ;;
  if_some (cap_retain_available properties) (fun x =>
    put_u8 (u8_of_PropertyType RetainAvailable) ;; put_u8 x) ;;
  if_some (cap_max_packet_size properties) (fun x =>
    put_u8 (u8_of_PropertyType MaximumPacketSize) ;; put_u32 x) ;;
  if_some (cap_assigned_client_identifier properties) (fun x =>
    put_u8 (u8_of_PropertyType AssignedClientIdentifier) ;; write_mqtt_string x) ;;
  if_some (cap_topic_alias_max properties) (fun x =>
    put_u8 (u8_of_PropertyType TopicAliasMaximum) ;; put_u16 x) ;;
  if_some (cap_reason_string properties) (fun x =>
    put_u8 (u8_of_PropertyType ReasonString) ;; write_mqtt_string x) ;;
  for_each (cap_user_properties properties) (fun kv =>
    put_u8 (u8_of_PropertyType UserProperty) ;; write_mqtt_string kv.1 ;; write_mqtt_string kv.2) ;;
  if_some (cap_wildcard_subscription_available properties) (fun x =>
    put_u8 (u8_of_PropertyType WildcardSubscriptionAvailable) ;; put_u8 x) ;;
  if_some (cap_subscription_identifiers_available properties) (fun x =>
    put_u8 (u8_of_PropertyType SubscriptionIdentifierAvailable) ;; put_u8 x) ;;
  if_some (cap_shared_subscription_available properties) (fun x =>
    put_u8 (u8_of_PropertyType SharedSubscriptionAvailable) ;; put_u8 x) ;;
  if_some (cap_server_keep_alive properties) (fun x =>
    put_u8 (u8_of_PropertyType ServerKeepAlive) ;; put_u16 x) ;;
  if_some (cap_response_information properties) (fun x =>
    put_u8 (u8_of_PropertyType ResponseInformation) ;; write_mqtt_string x) ;;
  if_some (cap_server_reference properties) (fun x =>
    put_u8 (u8_of_PropertyType ServerReference) ;; write_mqtt_string x) ;;
  if_some (cap_authentication_method properties) (fun x =>
    put_u8 (u8_of_PropertyType AuthenticationMethod) ;; write_mqtt_string x) ;;
  if_some (cap_authentication_data properties) (fun x =>
    put_u8 (u8_of_PropertyType AuthenticationData) ;; write_mqtt_bytes x) ;;
  ret tt.

Definition v5_connack_properties_step : prop_step ConnAckProperties := fun prop t acc =>
  match t with
  | SessionExpiryInterval => let! v := read_u32 in ret (set_cap_session_expiry_interval (Some v) acc, 4)
  | ReceiveMaximum => let! v := read_u16 in ret (set_cap_receive_max (Some v) acc, 2)
  | MaximumQos => let! v := read_u8 in ret (set_cap_max_qos (Some v) acc, 1)
  | RetainAvailable => let! v := read_u8 in ret (set_cap_retain_available (Some v) acc, 1)
  | MaximumPacketSize => let! v := read_u32 in ret (set_cap_max_packet_size (Some v) acc, 4)
  | AssignedClientIdentifier => let! v := read_mqtt_string in ret (set_cap_assigned_client_identifier (Some v) acc, 2 + blen v)
  | TopicAliasMaximum => let! v := read_u16 in ret (set_cap_topic_alias_max (Some v) acc, 2)
  | ReasonString => let! v := read_mqtt_string in ret (set_cap_reason_string (Some v) acc, 2 + blen v)
  | UserProperty =>
      let! key := read_mqtt_string in
      let! value := read_mqtt_string in
      ret (set_cap_user_properties (cap_user_properties acc ++ [(key, value)]) acc, 2 + blen key + 2 + blen value)
  | WildcardSubscriptionAvailable => let! v := read_u8 in ret (set_cap_wildcard_subscription_available (Some v) acc, 1)
  | SubscriptionIdentifierAvailable => let! v := read_u8 in ret (set_cap_subscription_identifiers_available (Some v) acc, 1)
  | SharedSubscriptionAvailable => let! v := read_u8 in ret (set_cap_shared_subscription_available (Some v) acc, 1)
  | ServerKeepAlive => let! v := read_u16 in ret (set_cap_server_keep_alive (Some v) acc, 2)
  | ResponseInformation => let! v := read_mqtt_string in ret (set_cap_response_information (Some v) acc, 2 + blen v)
  | ServerReference => let! v := read_mqtt_string in ret (set_cap_server_reference (Some v) acc, 2 + blen v)
  | AuthenticationMethod => let! v := read_mqtt_string in ret (set_cap_authentication_method (Some v) acc, 2 + blen v)
  | AuthenticationData => let! v := read_mqtt_bytes in ret (set_cap_authentication_data (Some v) acc, 2 + blen v)
  | _ => fail (InvalidPropertyType prop)
  end.

Definition v5_connack_properties_read : R (option ConnAckProperties) :=
  properties_read v5_connack_properties_step empty_ConnAckProperties.

(** *** PublishProperties *)

Definition empty_PublishProperties : PublishProperties :=
  mkPublishProperties None None None None None [] [] None.

Definition set_pp_payload_format_indicator (v : option Z) (p : PublishProperties) : PublishProperties :=
  mkPublishProperties v (pp_message_expiry_interval p) (pp_topic_alias p) (pp_response_topic p) (pp_correlation_data p) (pp_user_properties p) (pp_subscription_identifiers p)
    (pp_content_type p).
Definition set_pp_message_expiry_interval (v : option Z) (p : PublishProperties) : PublishProperties :=
  mkPublishProperties (pp_payload_format_indicator p) v (pp_topic_alias p) (pp_response_topic p) (pp_correlation_data p) (pp_user_properties p) (pp_subscription_identifiers p)
    (pp_content_type p).
Definition set_pp_topic_alias (v : option Z) (p : PublishProperties) : PublishProperties :=
  mkPublishProperties (pp_payload_format_indicator p) (pp_message_expiry_interval p) v
    (pp_response_topic p) (pp_correlation_data p) (pp_user_properties p)
    (pp_subscription_identifiers p) (pp_content_type p).
Definition set_pp_response_topic (v : option bytes) (p : PublishProperties) : PublishProperties :=
  mkPublishProperties (pp_payload_format_indicator p) (pp_message_expiry_interval p)
    (pp_topic_alias p) v (pp_correlation_data p) (pp_user_properties p)
    (pp_subscription_identifiers p) (pp_content_type p).
Definition set_pp_correlation_data (v : option bytes) (p : PublishProperties) : PublishProperties :=
  mkPublishProperties (pp_payload_format_indicator p) (pp_message_expiry_interval p)
    (pp_topic_alias p) (pp_response_topic p) v (pp_user_properties p)
    (pp_subscription_identifiers p) (pp_content_type p).
Definition set_pp_user_properties (v : list (bytes * bytes)) (p : PublishProperties) : PublishProperties :=
  mkPublishProperties (pp_payload_format_indicator p) (pp_message_expiry_interval p)
    (pp_topic_alias p) (pp_response_topic p) (pp_correlation_data p) v
    (pp_subscription_identifiers p) (pp_content_type p).
Definition set_pp_subscription_identifiers (v : list Z) (p : PublishProperties) : PublishProperties :=
  mkPublishProperties (pp_payload_format_indicator p) (pp_message_expiry_interval p)
    (pp_topic_alias p) (pp_response_topic p) (pp_correlation_data p) (pp_user_properties p) v
    (pp_content_type p).
Definition set_pp_content_type (v : option bytes) (p : PublishProperties) : PublishProperties :=
  mkPublishProperties (pp_payload_format_indicator p) (pp_message_expiry_interval p)
    (pp_topic_alias p) (pp_response_topic p) (pp_correlation_data p) (pp_user_properties p)
    (pp_subscription_identifiers p) v.

Definition v5_publish_properties_len (properties : PublishProperties) : Z :=
  let len := 0 in
  let len := len + (if is_some (pp_payload_format_indicator properties) then 1 + 1 else 0) in
  let len := len + (if is_some (pp_message_expiry_interval properties) then 1 + 4 else 0) in
  let len := len + (if is_some (pp_topic_alias properties) then 1 + 1 else 0) in
  let len := len + (match pp_response_topic properties with Some x => 1 + 2 + blen x | None => 0 end) in
  let len := len + (match pp_correlation_data properties with Some x => 1 + 2 + blen x | None => 0 end) in
  let len := foldl (fun len kv => len + (1 + 2 + blen kv.1 + 2 + blen kv.2)) len (pp_user_properties properties) in
  let len := foldl (fun len id => len + (1 + len_len id)) len (pp_subscription_identifiers properties) in
  let len := len + (match pp_content_type properties with Some x => 1 + 2 + blen x | None => 0 end) in
  len.

Definition v5_publish_properties_write (properties : PublishProperties) : R unit :=
  let len := v5_publish_properties_len properties in
  let! _ := write_remaining_length len in
  if_some (pp_payload_format_indicator properties) (fun x =>
    put_u8 (u8_of_PropertyType PayloadFormatIndicator) ;; put_u8 x) ;;
  if_some (pp_message_expiry_interval properties) (fun x =>
    put_u8 (u8_of_PropertyType MessageExpiryInterval) ;; put_u32 x) ;;
  if_some (pp_topic_alias properties) (fun x =>
    put_u8 (u8_of_PropertyType TopicAlias) ;; put_u16 x) ;;
  if_some (pp_response_topic properties) (fun x =>
    put_u8 (u8_of_PropertyType ResponseTopic) ;; write_mqtt_string x) ;;
  if_some (pp_correlation_data properties) (fun x =>
    put_u8 (u8_of_PropertyType CorrelationData) ;; write_mqtt_bytes x) ;;
  for_each (pp_user_properties properties) (fun kv =>
    put_u8 (u8_of_PropertyType UserProperty) ;; write_mqtt_string kv.1 ;; write_mqtt_string kv.2) ;;
  for_each (pp_subscription_identifiers properties) (fun id =>
    put_u8 (u8_of_PropertyType SubscriptionIdentifier) ;; let! _ := write_remaining_length id in ret tt) ;;
  if_some (pp_content_type properties) (fun x =>
    put_u8 (u8_of_PropertyType ContentType) ;; write_mqtt_string x) ;;
  ret tt.

Definition v5_publish_properties_step : prop_step PublishProperties := fun prop t acc =>
  match t with
  | PayloadFormatIndicator => let! v := read_u8 in ret (set_pp_payload_format_indicator (Some v) acc, 1)
  | MessageExpiryInterval => let! v := read_u32 in ret (set_pp_message_expiry_interval (Some v) acc, 4)
  | TopicAlias => let! v := read_u16 in ret (set_pp_topic_alias (Some v) acc, 2)
  | ResponseTopic => let! v := read_mqtt_string in ret (set_pp_response_topic (Some v) acc, 2 + blen v)
  | CorrelationData => let! v := read_mqtt_bytes in ret (set_pp_correlation_data (Some v) acc, 2 + blen v)
  | UserProperty =>
      let! key := read_mqtt_string in
      let! value := read_mqtt_string in
      ret (set_pp_user_properties (pp_user_properties acc ++ [(key, value)]) acc, 2 + blen key + 2 + blen value)
  | SubscriptionIdentifier =>
      let! stream := get in
      let! (id_len, id) := lift (mqtt_length stream) in
      advance id_len ;;
      ret (set_pp_subscription_identifiers (pp_subscription_identifiers acc ++ [id]) acc, 1 + id_len)
  | ContentType => let! v := read_mqtt_string in ret (set_pp_content_type (Some v) acc, 2 + blen v)
  | _ => fail (InvalidPropertyType prop)
  end.

Definition v5_publish_properties_read : R (option PublishProperties) :=
  properties_read v5_publish_properties_step empty_PublishProperties.

(** *** PubAckProperties *)

Definition empty_PubAckProperties : PubAckProperties :=
  mkPubAckProperties None [].

Definition set_pap_reason_string (v : option bytes) (p : PubAckProperties) : PubAckProperties :=
  mkPubAckProperties v (pap_user_properties p).
Definition set_pap_user_properties (v : list (bytes * bytes)) (p : PubAckProperties) : PubAckProperties :=
  mkPubAckProperties (pap_reason_string p) v.

Definition v5_puback_properties_len (properties : PubAckProperties) : Z :=
  let len := 0 in
  let len := len + (match pap_reason_string properties with Some x => 1 + 2 + blen x | None => 0 end) in
  let len := foldl (fun len kv => len + (1 + 2 + blen kv.1 + 2 + blen kv.2)) len (pap_user_properties properties) in
  len.

Definition v5_puback_properties_write (properties : PubAckProperties) : R unit :=
  let len := v5_puback_properties_len properties in
  let! _ := write_remaining_length len in
  if_some (pap_reason_string properties) (fun x =>
    put_u8 (u8_of_PropertyType ReasonString) ;; write_mqtt_string x) ;;
  for_each (pap_user_properties properties) (fun kv =>
    put_u8 (u8_of_PropertyType UserProperty) ;; write_mqtt_string kv.1 ;; write_mqtt_string kv.2) ;;
  ret tt.

Definition v5_puback_properties_step : prop_step PubAckProperties := fun prop t acc =>
  match t with
  | ReasonString => let! v := read_mqtt_string in ret (set_pap_reason_string (Some v) acc, 2 + blen v)
  | UserProperty =>
      let! key := read_mqtt_string in
      let! value := read_mqtt_string in
      ret (set_pap_user_properties (pap_user_properties acc ++ [(key, value)]) acc, 2 + blen key + 2 + blen value)
  | _ => fail (InvalidPropertyType prop)
  end.

Definition v5_puback_properties_read : R (option PubAckProperties) :=
  properties_read v5_puback_properties_step empty_PubAckProperties.

(** *** PubRecProperties *)

Definition empty_PubRecProperties : PubRecProperties :=
  mkPubRecProperties None [].

Definition set_prp_reason_string (v : option bytes) (p : PubRecProperties) : PubRecProperties :=
  mkPubRecProperties v (prp_user_properties p).
Definition set_prp_user_properties (v : list (bytes * bytes)) (p : PubRecProperties) : PubRecProperties :=
  mkPubRecProperties (prp_reason_string p) v.

Definition v5_pubrec_properties_len (properties : PubRecProperties) : Z :=
  let len := 0 in
  let len := len + (match prp_reason_string properties with Some x => 1 + 2 + blen x | None => 0 end) in
  let len := foldl (fun len kv => len + (1 + 2 + blen kv.1 + 2 + blen kv.2)) len (prp_user_properties properties) in
  len.

Definition v5_pubrec_properties_write (properties : PubRecProperties) : R unit :=
  let len := v5_pubrec_properties_len properties in
  let! _ := write_remaining_length len in
  if_some (prp_reason_string properties) (fun x =>
    put_u8 (u8_of_PropertyType ReasonString) ;; write_mqtt_string x) ;;
  for_each (prp_user_properties properties) (fun kv =>
    put_u8 (u8_of_PropertyType UserProperty) ;; write_mqtt_string kv.1 ;; write_mqtt_string kv.2) ;;
  ret tt.

Definition v5_pubrec_properties_step : prop_step PubRecProperties := fun prop t acc =>
  match t with
  | ReasonString => let! v := read_mqtt_string in ret (set_prp_reason_string (Some v) acc, 2 + blen v)
  | UserProperty =>
      let! key := read_mqtt_string in
      let! value := read_mqtt_string in
      ret (set_prp_user_properties (prp_user_properties acc ++ [(key, value)]) acc, 2 + blen key + 2 + blen value)
  | _ => fail (InvalidPacketType prop)
  end.

Definition v5_pubrec_properties_read : R (option PubRecProperties) :=
  properties_read v5_pubrec_properties_step empty_PubRecProperties.

(** *** PubRelProperties *)

Definition empty_PubRelProperties : PubRelProperties :=
  mkPubRelProperties None [].

Definition set_plp_reason_string (v : option bytes) (p : PubRelProperties) : PubRelProperties :=
  mkPubRelProperties v (plp_user_properties p).
Definition set_plp_user_properties (v : list (bytes * bytes)) (p : PubRelProperties) : PubRelProperties :=
  mkPubRelProperties (plp_reason_string p) v.

Definition v5_pubrel_properties_len (properties : PubRelProperties) : Z :=
  let len := 0 in
  let len := len + (match plp_reason_string properties with Some x => 1 + 2 + blen x | None => 0 end) in
  let len := foldl (fun len kv => len + (1 + 2 + blen kv.1 + 2 + blen kv.2)) len (plp_user_properties properties) in
  len.

Definition v5_pubrel_properties_write (properties : PubRelProperties) : R unit :=
  let len := v5_pubrel_properties_len properties in
  let! _ := write_remaining_length len in
  if_some (plp_reason_string properties) (fun x =>
    put_u8 (u8_of_PropertyType ReasonString) ;; write_mqtt_string x) ;;
  for_each (plp_user_properties properties) (fun kv =>
    put_u8 (u8_of_PropertyType UserProperty) ;; write_mqtt_string kv.1 ;; write_mqtt_string kv.2) ;;
  ret tt.

Definition v5_pubrel_properties_step : prop_step PubRelProperties := fun prop t acc =>
  match t with
  | ReasonString => let! v := read_mqtt_string in ret (set_plp_reason_string (Some v) acc, 2 + blen v)
  | UserProperty =>
      let! key := read_mqtt_string in
      let! value := read_mqtt_string in
      ret (set_plp_user_properties (plp_user_properties acc ++ [(key, value)]) acc, 2 + blen key + 2 + blen value)
  | _ => fail (InvalidPacketType prop)
  end.

Definition v5_pubrel_properties_read : R (option PubRelProperties) :=
  properties_read v5_pubrel_properties_step empty_PubRelProperties.

(** *** PubCompProperties *)

Definition empty_PubCompProperties : PubCompProperties :=
  mkPubCompProperties None [].

Definition set_pcp_reason_string (v : option bytes) (p : PubCompProperties) : PubCompProperties :=
  mkPubCompProperties v (pcp_user_properties p).
Definition set_pcp_user_properties (v : list (bytes * bytes)) (p : PubCompProperties) : PubCompProperties :=
  mkPubCompProperties (pcp_reason_string p) v.

Definition v5_pubcomp_properties_len (properties : PubCompProperties) : Z :=
  let len := 0 in
  let len := len + (match pcp_reason_string properties with Some x => 1 + 2 + blen x | None => 0 end) in
  let len := foldl (fun len kv => len + (1 + 2 + blen kv.1 + 2 + blen kv.2)) len (pcp_user_properties properties) in
  len.

Definition v5_pubcomp_properties_write (properties : PubCompProperties) : R unit :=
  let len := v5_pubcomp_properties_len properties in
  let! _ := write_remaining_length len in
  if_some (pcp_reason_string properties) (fun x =>
    put_u8 (u8_of_PropertyType ReasonString) ;; write_mqtt_string x) ;;
  for_each (pcp_user_properties properties) (fun kv =>
    put_u8 (u8_of_PropertyType UserProperty) ;; write_mqtt_string kv.1 ;; write_mqtt_string kv.2) ;;
  ret tt.

Definition v5_pubcomp_properties_step : prop_step PubCompProperties := fun prop t acc =>
  match t with
  | ReasonString => let! v := read_mqtt_string in ret (set_pcp_reason_string (Some v) acc, 2 + blen v)
  | UserProperty =>
      let! key := read_mqtt_string in
      let! value := read_mqtt_string in
      ret (set_pcp_user_properties (pcp_user_properties acc ++ [(key, value)]) acc, 2 + blen key + 2 + blen value)
  | _ => fail (InvalidPropertyType prop)
  end.

Definition v5_pubcomp_properties_read : R (option PubCompProperties) :=
  properties_read v5_pubcomp_properties_step empty_PubCompProperties.

(** *** SubscribeProperties *)

Definition empty_SubscribeProperties : SubscribeProperties :=
  mkSubscribeProperties None [].

Definition set_sp_subscription_identifier (v : option Z) (p : SubscribeProperties) : SubscribeProperties :=
  mkSubscribeProperties v (sp_user_properties p).
Definition set_sp_user_properties (v : list (bytes * bytes)) (p : SubscribeProperties) : SubscribeProperties :=
  mkSubscribeProperties (sp_subscription_identifier p) v.

Definition v5_subscribe_properties_len (properties : SubscribeProperties) : Z :=
  let len := 0 in
  let len := len + (match sp_subscription_identifier properties with Some id => 1 + len_len id | None => 0 end) in
  let len := foldl (fun len kv => len + (1 + 2 + blen kv.1 + 2 + blen kv.2)) len (sp_user_properties properties) in
  len.

Definition v5_subscribe_properties_write (properties : SubscribeProperties) : R unit :=
  let len := v5_subscribe_properties_len properties in
  let! _ := write_remaining_length len in
  if_some (sp_subscription_identifier properties) (fun id =>
    put_u8 (u8_of_PropertyType SubscriptionIdentifier) ;; let! _ := write_remaining_length id in ret tt) ;;
  for_each (sp_user_properties properties) (fun kv =>
    put_u8 (u8_of_PropertyType UserProperty) ;; write_mqtt_string kv.1 ;; write_mqtt_string kv.2) ;;
  ret tt.

Definition v5_subscribe_properties_step : prop_step SubscribeProperties := fun prop t acc =>
  match t with
  | SubscriptionIdentifier =>
      let! stream := get in
      let! (id_len, id) := lift (mqtt_length stream) in
      advance id_len ;;
      ret (set_sp_subscription_identifier (Some id) acc, 1 + id_len)
  | UserProperty =>
      let! key := read_mqtt_string in
      let! value := read_mqtt_string in
      ret (set_sp_user_properties (sp_user_properties acc ++ [(key, value)]) acc, 2 + blen key + 2 + blen value)
  | _ => fail (InvalidPropertyType prop)
  end.

Definition v5_subscribe_properties_read : R (option SubscribeProperties) :=
  properties_read v5_subscribe_properties_step empty_SubscribeProperties.

(** *** SubAckProperties *)

Definition empty_SubAckProperties : SubAckProperties :=
  mkSubAckProperties None [].

Definition set_sap_reason_string (v : option bytes) (p : SubAckProperties) : SubAckProperties :=
  mkSubAckProperties v (sap_user_properties p).
Definition set_sap_user_properties (v : list (bytes * bytes)) (p : SubAckProperties) : SubAckProperties :=
  mkSubAckProperties (sap_reason_string p) v.

Definition v5_suback_properties_len (properties : SubAckProperties) : Z :=
  let len := 0 in
  let len := len + (match sap_reason_string properties with Some x => 1 + 2 + blen x | None => 0 end) in
  let len := foldl (fun len kv => len + (1 + 2 + blen kv.1 + 2 + blen kv.2)) len (sap_user_properties properties) in
  len.

Definition v5_suback_properties_write (properties : SubAckProperties) : R unit :=
  let len := v5_suback_properties_len properties in
  let! _ := write_remaining_length len in
  if_some (sap_reason_string properties) (fun x =>
    put_u8 (u8_of_PropertyType ReasonString) ;; write_mqtt_string x) ;;
  for_each (sap_user_properties properties) (fun kv =>
    put_u8 (u8_of_PropertyType UserProperty) ;; write_mqtt_string kv.1 ;; write_mqtt_string kv.2) ;;
  ret tt.

Definition v5_suback_properties_step : prop_step SubAckProperties := fun prop t acc =>
  match t with
  | ReasonString => let! v := read_mqtt_string in ret (set_sap_reason_string (Some v) acc, 2 + blen v)
  | UserProperty =>
      let! key := read_mqtt_string in
      let! value := read_mqtt_string in
      ret (set_sap_user_properties (sap_user_properties acc ++ [(key, value)]) acc, 2 + blen key + 2 + blen value)
  | _ => fail (InvalidPropertyType prop)
  end.

Definition v5_suback_properties_read : R (option SubAckProperties) :=
  properties_read v5_suback_properties_step empty_SubAckProperties.

(** *** UnsubscribeProperties *)

Definition empty_UnsubscribeProperties : UnsubscribeProperties :=
  mkUnsubscribeProperties [].

Definition set_up_user_properties (v : list (bytes * bytes)) (p : UnsubscribeProperties) : UnsubscribeProperties :=
  mkUnsubscribeProperties v.

Definition v5_unsubscribe_properties_len (properties : UnsubscribeProperties) : Z :=
  let len := 0 in
  let len := foldl (fun len kv => len + (1 + 2 + blen kv.1 + 2 + blen kv.2)) len (up_user_properties properties) in
  len.

Definition v5_unsubscribe_properties_write (properties : UnsubscribeProperties) : R unit :=
  let len := v5_unsubscribe_properties_len properties in
  let! _ := write_remaining_length len in
  for_each (up_user_properties properties) (fun kv =>
    put_u8 (u8_of_PropertyType UserProperty) ;; write_mqtt_string kv.1 ;; write_mqtt_string kv.2) ;;
  ret tt.

Definition v5_unsubscribe_properties_step : prop_step UnsubscribeProperties := fun prop t acc =>
  match t with
  | UserProperty =>
      let! key := read_mqtt_string in
      let! value := read_mqtt_string in
      ret (set_up_user_properties (up_user_properties acc ++ [(key, value)]) acc, 2 + blen key + 2 + blen value)
  | _ => fail (InvalidPacketType prop)
  end.

Definition v5_unsubscribe_properties_read : R (option UnsubscribeProperties) :=
  properties_read v5_unsubscribe_properties_step empty_UnsubscribeProperties.

(** *** UnsubAckProperties *)

Definition empty_UnsubAckProperties : UnsubAckProperties :=
  mkUnsubAckProperties None [].

Definition set_uap_reason_string (v : option bytes) (p : UnsubAckProperties) : UnsubAckProperties :=
  mkUnsubAckProperties v (uap_user_properties p).
Definition set_uap_user_properties (v : list (bytes * bytes)) (p : UnsubAckProperties) : UnsubAckProperties :=
  mkUnsubAckProperties (uap_reason_string p) v.

Definition v5_unsuback_properties_len (properties : UnsubAckProperties) : Z :=
  let len := 0 in
  let len := len + (match uap_reason_string properties with Some x => 1 + 2 + blen x | None => 0 end) in
  let len := foldl (fun len kv => len + (1 + 2 + blen kv.1 + 2 + blen kv.2)) len (uap_user_properties properties) in
  len.

Definition v5_unsuback_properties_write (properties : UnsubAckProperties) : R unit :=
  let len := v5_unsuback_properties_len properties in
  let! _ := write_remaining_length len in
  if_some (uap_reason_string properties) (fun x =>
    put_u8 (u8_of_PropertyType ReasonString) ;; write_mqtt_string x) ;;
  for_each (uap_user_properties properties) (fun kv =>
    put_u8 (u8_of_PropertyType UserProperty) ;; write_mqtt_string kv.1 ;; write_mqtt_string kv.2) ;;
  ret tt.

Definition v5_unsuback_properties_step : prop_step UnsubAckProperties := fun prop t acc =>
  match t with
  | ReasonString => let! v := read_mqtt_string in ret (set_uap_reason_string (Some v) acc, 2 + blen v)
  | UserProperty =>
      let! key := read_mqtt_string in
      let! value := read_mqtt_string in
      ret (set_uap_user_properties (uap_user_properties acc ++ [(key, value)]) acc, 2 + blen key + 2 + blen value)
  | _ => fail (InvalidPacketType prop)
  end.

Definition v5_unsuback_properties_read : R (option UnsubAckProperties) :=
  properties_read v5_unsuback_properties_step empty_UnsubAckProperties.

(** *** DisconnectProperties *)

Definition empty_DisconnectProperties : DisconnectProperties :=
  mkDisconnectProperties None None [] None.

Definition set_dp_session_expiry_interval (v : option Z) (p : DisconnectProperties) : DisconnectProperties :=
  mkDisconnectProperties v (dp_reason_string p) (dp_user_properties p) (dp_server_reference p).
Definition set_dp_reason_string (v : option bytes) (p : DisconnectProperties) : DisconnectProperties :=
  mkDisconnectProperties (dp_session_expiry_interval p) v (dp_user_properties p)
    (dp_server_reference p).
Definition set_dp_user_properties (v : list (bytes * bytes)) (p : DisconnectProperties) : DisconnectProperties :=
  mkDisconnectProperties (dp_session_expiry_interval p) (dp_reason_string p) v
    (dp_server_reference p).
Definition set_dp_server_reference (v : option bytes) (p : DisconnectProperties) : DisconnectProperties :=
  mkDisconnectProperties (dp_session_expiry_interval p) (dp_reason_string p)
    (dp_user_properties p) v.

Definition v5_disconnect_properties_len (properties : DisconnectProperties) : Z :=
  let len := 0 in
  let len := len + (if is_some (dp_session_expiry_interval properties) then 1 + 4 else 0) in
  let len := len + (match dp_reason_string properties with Some x => 1 + 2 + blen x | None => 0 end) in
  let len := foldl (fun len kv => len + (1 + 2 + blen kv.1 + 2 + blen kv.2)) len (dp_user_properties properties) in
  let len := len + (match dp_server_reference properties with Some x => 1 + 2 + blen x | None => 0 end) in
  len.

Definition v5_disconnect_properties_write (properties : DisconnectProperties) : R unit :=
  let len := v5_disconnect_properties_len properties in
  let! _ := write_remaining_length len in
  if_some (dp_session_expiry_interval properties) (fun x =>
    put_u8 (u8_of_PropertyType SessionExpiryInterval) ;; put_u32 x) ;;
  if_some (dp_reason_string properties) (fun x =>
    put_u8 (u8_of_PropertyType ReasonString) ;; write_mqtt_string x) ;;
  for_each (dp_user_properties properties) (fun kv =>
    put_u8 (u8_of_PropertyType UserProperty) ;; write_mqtt_string kv.1 ;; write_mqtt_string kv.2) ;;
  if_some (dp_server_reference properties) (fun x =>
    put_u8 (u8_of_PropertyType ServerReference) ;; write_mqtt_string x) ;;
  ret tt.

Definition v5_disconnect_properties_step : prop_step DisconnectProperties := fun prop t acc =>
  match t with
  | SessionExpiryInterval => let! v := read_u32 in ret (set_dp_session_expiry_interval (Some v) acc, 4)
  | ReasonString => let! v := read_mqtt_string in ret (set_dp_reason_string (Some v) acc, 2 + blen v)
  | UserProperty =>
      let! key := read_mqtt_string in
      let! value := read_mqtt_string in
      ret (set_dp_user_properties (dp_user_properties acc ++ [(key, value)]) acc, 2 + blen key + 2 + blen value)
  | ServerReference => let! v := read_mqtt_string in ret (set_dp_server_reference (Some v) acc, 2 + blen v)
  | _ => fail (InvalidPacketType prop)
  end.

Definition v5_disconnect_properties_read : R (option DisconnectProperties) :=
  properties_read v5_disconnect_properties_step empty_DisconnectProperties.

(** *** AuthProperties *)

Definition empty_AuthProperties : AuthProperties :=
  mkAuthProperties None None None [].

Definition set_ap_authentication_method (v : option bytes) (p : AuthProperties) : AuthProperties :=
  mkAuthProperties v (ap_authentication_data p) (ap_reason_string p) (ap_user_properties p).
Definition set_ap_authentication_data (v : option bytes) (p : AuthProperties) : AuthProperties :=
  mkAuthProperties (ap_authentication_method p) v (ap_reason_string p) (ap_user_properties p).
Definition set_ap_reason_string (v : option bytes) (p : AuthProperties) : AuthProperties :=
  mkAuthProperties (ap_authentication_method p) (ap_authentication_data p) v
    (ap_user_properties p).
Definition set_ap_user_properties (v : list (bytes * bytes)) (p : AuthProperties) : AuthProperties :=
  mkAuthProperties (ap_authentication_method p) (ap_authentication_data p) (ap_reason_string p) v.

Definition v5_auth_properties_len (properties : AuthProperties) : Z :=
  let len := 0 in
  let len := len + (match ap_authentication_method properties with Some x => 1 + 2 + blen x | None => 0 end) in
  let len := len + (match ap_authentication_data properties with Some x => 1 + 2 + blen x | None => 0 end) in
  let len := len + (match ap_reason_string properties with Some x => 1 + 2 + blen x | None => 0 end) in
  let len := foldl (fun len kv => len + (1 + 2 + blen kv.1 + 2 + blen kv.2)) len (ap_user_properties properties) in
  len.

Definition v5_auth_properties_write (properties : AuthProperties) : R unit :=
  let len := v5_auth_properties_len properties in
  let! _ := write_remaining_length len in
  if_some (ap_authentication_method properties) (fun x =>
    put_u8 (u8_of_PropertyType AuthenticationMethod) ;; write_mqtt_string x) ;;
  if_some (ap_authentication_data properties) (fun x =>
    put_u8 (u8_of_PropertyType AuthenticationData) ;; write_mqtt_bytes x) ;;
  if_some (ap_reason_string properties) (fun x =>
    put_u8 (u8_of_PropertyType ReasonString) ;; write_mqtt_string x) ;;
  for_each (ap_user_properties properties) (fun kv =>
    put_u8 (u8_of_PropertyType UserProperty) ;; write_mqtt_string kv.1 ;; write_mqtt_string kv.2) ;;
  ret tt.

Definition v5_auth_properties_step : prop_step AuthProperties := fun prop t acc =>
  match t with
  | AuthenticationMethod => let! v := read_mqtt_string in ret (set_ap_authentication_method (Some v) acc, 2 + blen v)
  | AuthenticationData => let! v := read_mqtt_bytes in ret (set_ap_authentication_data (Some v) acc, 2 + blen v)
  | ReasonString => let! v := read_mqtt_string in ret (set_ap_reason_string (Some v) acc, 2 + blen v)
  | UserProperty =>
      let! key := read_mqtt_string in
      let! value := read_mqtt_string in
      ret (set_ap_user_properties (ap_user_properties acc ++ [(key, value)]) acc, 2 + blen key + 2 + blen value)
  | _ => fail (InvalidPropertyType prop)
  end.

Definition v5_auth_properties_read : R (option AuthProperties) :=
  properties_read v5_auth_properties_step empty_AuthProperties.
End definitions.
