(* ===== verification/V5PropSets.v ===== *)
(** * MQTT 5 properties: the contracts

    For every [properties] module, the items it puts on the wire in the order
    of [write], the ranges of its fields, and the proof that it keeps the
    contract [PropertySet]: [len] counts the octets [write] emits, [read]
    recovers the record, and [read] never panics. *)

From S2P Require Import Prelude Bytes MqttTypes MqttCommon V5Props V5PropDefs.

(** ** Items and ranges *)

Definition cp_items (p : ConnectProperties) : list item :=
  opt_item SessionExpiryInterval VU32 (cp_session_expiry_interval p)
  ++ opt_item ReceiveMaximum VU16 (cp_receive_maximum p)
  ++ opt_item MaximumPacketSize VU32 (cp_max_packet_size p)
  ++ opt_item TopicAliasMaximum VU16 (cp_topic_alias_max p)
  ++ opt_item RequestResponseInformation VU8 (cp_request_response_info p)
  ++ opt_item RequestProblemInformation VU8 (cp_request_problem_info p)
  ++ list_items UserProperty VPair (cp_user_properties p)
  ++ opt_item AuthenticationMethod VStr (cp_authentication_method p)
  ++ opt_item AuthenticationData VBin (cp_authentication_data p).

Definition cp_ok (p : ConnectProperties) : Prop :=
  opt_all u32 (cp_session_expiry_interval p) /\
  opt_all u16 (cp_receive_maximum p) /\
  opt_all u32 (cp_max_packet_size p) /\
  opt_all u16 (cp_topic_alias_max p) /\
  opt_all u8 (cp_request_response_info p) /\
  opt_all u8 (cp_request_problem_info p) /\
  Forall pair_wf (cp_user_properties p) /\
  opt_all string_wf (cp_authentication_method p) /\
  opt_all bytes_wf (cp_authentication_data p).

Definition wp_items (p : LastWillProperties) : list item :=
  opt_item WillDelayInterval VU32 (wp_delay_interval p)
  ++ opt_item PayloadFormatIndicator VU8 (wp_payload_format_indicator p)
  ++ opt_item MessageExpiryInterval VU32 (wp_message_expiry_interval p)
  ++ opt_item ContentType VStr (wp_content_type p)
  ++ opt_item ResponseTopic VStr (wp_response_topic p)
  ++ opt_item CorrelationData VBin (wp_correlation_data p)
  ++ list_items UserProperty VPair (wp_user_properties p).

Definition wp_ok (p : LastWillProperties) : Prop :=
  opt_all u32 (wp_delay_interval p) /\
  opt_all u8 (wp_payload_format_indicator p) /\
  opt_all u32 (wp_message_expiry_interval p) /\
  opt_all string_wf (wp_content_type p) /\
  opt_all string_wf (wp_response_topic p) /\
  opt_all bytes_wf (wp_correlation_data p) /\
  Forall pair_wf (wp_user_properties p).

Definition cap_items (p : ConnAckProperties) : list item :=
  opt_item SessionExpiryInterval VU32 (cap_session_expiry_interval p)
  ++ opt_item ReceiveMaximum VU16 (cap_receive_max p)
  ++ opt_item MaximumQos VU8 (cap_max_qos p)
  ++ opt_item RetainAvailable VU8 (cap_retain_available p)
  ++ opt_item MaximumPacketSize VU32 (cap_max_packet_size p)
  ++ opt_item AssignedClientIdentifier VStr (cap_assigned_client_identifier p)
  ++ opt_item TopicAliasMaximum VU16 (cap_topic_alias_max p)
  ++ opt_item ReasonString VStr (cap_reason_string p)
  ++ list_items UserProperty VPair (cap_user_properties p)
  ++ opt_item WildcardSubscriptionAvailable VU8 (cap_wildcard_subscription_available p)
  ++ opt_item SubscriptionIdentifierAvailable VU8 (cap_subscription_identifiers_available p)
  ++ opt_item SharedSubscriptionAvailable VU8 (cap_shared_subscription_available p)
  ++ opt_item ServerKeepAlive VU16 (cap_server_keep_alive p)
  ++ opt_item ResponseInformation VStr (cap_response_information p)
  ++ opt_item ServerReference VStr (cap_server_reference p)
  ++ opt_item AuthenticationMethod VStr (cap_authentication_method p)
  ++ opt_item AuthenticationData VBin (cap_authentication_data p).

Definition cap_ok (p : ConnAckProperties) : Prop :=
  opt_all u32 (cap_session_expiry_interval p) /\
  opt_all u16 (cap_receive_max p) /\
  opt_all u8 (cap_max_qos p) /\
  opt_all u8 (cap_retain_available p) /\
  opt_all u32 (cap_max_packet_size p) /\
  opt_all string_wf (cap_assigned_client_identifier p) /\
  opt_all u16 (cap_topic_alias_max p) /\
  opt_all string_wf (cap_reason_string p) /\
  Forall pair_wf (cap_user_properties p) /\
  opt_all u8 (cap_wildcard_subscription_available p) /\
  opt_all u8 (cap_subscription_identifiers_available p) /\
  opt_all u8 (cap_shared_subscription_available p) /\
  opt_all u16 (cap_server_keep_alive p) /\
  opt_all string_wf (cap_response_information p) /\
  opt_all string_wf (cap_server_reference p) /\
  opt_all string_wf (cap_authentication_method p) /\
  opt_all bytes_wf (cap_authentication_data p).

Definition pp_items (p : PublishProperties) : list item :=
  opt_item PayloadFormatIndicator VU8 (pp_payload_format_indicator p)
  ++ opt_item MessageExpiryInterval VU32 (pp_message_expiry_interval p)
  ++ opt_item TopicAlias VU16 (pp_topic_alias p)
  ++ opt_item ResponseTopic VStr (pp_response_topic p)
  ++ opt_item CorrelationData VBin (pp_correlation_data p)
  ++ list_items UserProperty VPair (pp_user_properties p)
  ++ list_items SubscriptionIdentifier VVar (pp_subscription_identifiers p)
  ++ opt_item ContentType VStr (pp_content_type p).

Definition pp_ok (p : PublishProperties) : Prop :=
  opt_all u8 (pp_payload_format_indicator p) /\
  opt_all u32 (pp_message_expiry_interval p) /\
  opt_all u16 (pp_topic_alias p) /\
  opt_all string_wf (pp_response_topic p) /\
  opt_all bytes_wf (pp_correlation_data p) /\
  Forall pair_wf (pp_user_properties p) /\
  Forall varint_wf (pp_subscription_identifiers p) /\
  opt_all string_wf (pp_content_type p).

Definition pap_items (p : PubAckProperties) : list item :=
  opt_item ReasonString VStr (pap_reason_string p)
  ++ list_items UserProperty VPair (pap_user_properties p).

Definition pap_ok (p : PubAckProperties) : Prop :=
  opt_all string_wf (pap_reason_string p) /\
  Forall pair_wf (pap_user_properties p).

Definition prp_items (p : PubRecProperties) : list item :=
  opt_item ReasonString VStr (prp_reason_string p)
  ++ list_items UserProperty VPair (prp_user_properties p).

Definition prp_ok (p : PubRecProperties) : Prop :=
  opt_all string_wf (prp_reason_string p) /\
  Forall pair_wf (prp_user_properties p).

Definition plp_items (p : PubRelProperties) : list item :=
  opt_item ReasonString VStr (plp_reason_string p)
  ++ list_items UserProperty VPair (plp_user_properties p).

Definition plp_ok (p : PubRelProperties) : Prop :=
  opt_all string_wf (plp_reason_string p) /\
  Forall pair_wf (plp_user_properties p).

Definition pcp_items (p : PubCompProperties) : list item :=
  opt_item ReasonString VStr (pcp_reason_string p)
  ++ list_items UserProperty VPair (pcp_user_properties p).

Definition pcp_ok (p : PubCompProperties) : Prop :=
  opt_all string_wf (pcp_reason_string p) /\
  Forall pair_wf (pcp_user_properties p).

Definition sp_items (p : SubscribeProperties) : list item :=
  opt_item SubscriptionIdentifier VVar (sp_subscription_identifier p)
  ++ list_items UserProperty VPair (sp_user_properties p).

Definition sp_ok (p : SubscribeProperties) : Prop :=
  opt_all varint_wf (sp_subscription_identifier p) /\
  Forall pair_wf (sp_user_properties p).

Definition sap_items (p : SubAckProperties) : list item :=
  opt_item ReasonString VStr (sap_reason_string p)
  ++ list_items UserProperty VPair (sap_user_properties p).

Definition sap_ok (p : SubAckProperties) : Prop :=
  opt_all string_wf (sap_reason_string p) /\
  Forall pair_wf (sap_user_properties p).

Definition up_items (p : UnsubscribeProperties) : list item :=
  list_items UserProperty VPair (up_user_properties p).

Definition up_ok (p : UnsubscribeProperties) : Prop :=
  Forall pair_wf (up_user_properties p).

Definition uap_items (p : UnsubAckProperties) : list item :=
  opt_item ReasonString VStr (uap_reason_string p)
  ++ list_items UserProperty VPair (uap_user_properties p).

Definition uap_ok (p : UnsubAckProperties) : Prop :=
  opt_all string_wf (uap_reason_string p) /\
  Forall pair_wf (uap_user_properties p).

Definition dp_items (p : DisconnectProperties) : list item :=
  opt_item SessionExpiryInterval VU32 (dp_session_expiry_interval p)
  ++ opt_item ReasonString VStr (dp_reason_string p)
  ++ list_items UserProperty VPair (dp_user_properties p)
  ++ opt_item ServerReference VStr (dp_server_reference p).

Definition dp_ok (p : DisconnectProperties) : Prop :=
  opt_all u32 (dp_session_expiry_interval p) /\
  opt_all string_wf (dp_reason_string p) /\
  Forall pair_wf (dp_user_properties p) /\
  opt_all string_wf (dp_server_reference p).

Definition ap_items (p : AuthProperties) : list item :=
  opt_item AuthenticationMethod VStr (ap_authentication_method p)
  ++ opt_item AuthenticationData VBin (ap_authentication_data p)
  ++ opt_item ReasonString VStr (ap_reason_string p)
  ++ list_items UserProperty VPair (ap_user_properties p).

Definition ap_ok (p : AuthProperties) : Prop :=
  opt_all string_wf (ap_authentication_method p) /\
  opt_all bytes_wf (ap_authentication_data p) /\
  opt_all string_wf (ap_reason_string p) /\
  Forall pair_wf (ap_user_properties p).

(** PUBLISH: [len] counts two octets for a topic alias that takes three, and
    [read] counts one octet too many for a subscription identifier.  The three
    functions agree when there is no alias and there are at most two
    identifiers. *)
Definition pp_fit (p : PublishProperties) : Prop :=
  pp_ok p /\ pp_topic_alias p = None /\ (length (pp_subscription_identifiers p) <= 2)%nat.

(** SUBSCRIBE has the same extra octet, which does no harm there. *)
Definition sp_fit (p : SubscribeProperties) : Prop := sp_ok p.

(** ** Automation of the contract proofs *)

Section fields.
Context {BC : BytesCrate} {BS : BytesSpec BC}.

Lemma appends_opt_u8 t o :
  opt_all u8 o ->
  appends (if_some o (fun x => put_u8 (u8_of_PropertyType t) ;; put_u8 x) : R unit)
          (items_wire (opt_item t VU8 o)) tt.
Proof. intros H. apply (appends_opt_item _ _ _ _ _ H). intros. by apply put_u8_appends. Qed.
Lemma appends_opt_u16 t o :
  opt_all u16 o ->
  appends (if_some o (fun x => put_u8 (u8_of_PropertyType t) ;; put_u16 x) : R unit)
          (items_wire (opt_item t VU16 o)) tt.
Proof. intros H. apply (appends_opt_item _ _ _ _ _ H). intros. by apply put_u16_appends. Qed.
Lemma appends_opt_u32 t o :
  opt_all u32 o ->
  appends (if_some o (fun x => put_u8 (u8_of_PropertyType t) ;; put_u32 x) : R unit)
          (items_wire (opt_item t VU32 o)) tt.
Proof. intros H. apply (appends_opt_item _ _ _ _ _ H). intros. by apply put_u32_appends. Qed.
Lemma appends_opt_str t o :
  opt_all string_wf o ->
  appends (if_some o (fun x => put_u8 (u8_of_PropertyType t) ;; write_mqtt_string x))
          (items_wire (opt_item t VStr o)) tt.
Proof. intros H. apply (appends_opt_item _ _ _ _ _ H). intros ? [? _]. by apply write_mqtt_string_appends. Qed.
Lemma appends_opt_bin t o :
  opt_all bytes_wf o ->
  appends (if_some o (fun x => put_u8 (u8_of_PropertyType t) ;; write_mqtt_bytes x))
          (items_wire (opt_item t VBin o)) tt.
Proof. intros H. apply (appends_opt_item _ _ _ _ _ H). intros. by apply write_mqtt_bytes_appends. Qed.
Lemma appends_opt_var t o :
  opt_all varint_wf o ->
  appends (if_some o (fun id => put_u8 (u8_of_PropertyType t) ;;
                                let! _ := write_remaining_length id in ret tt))
          (items_wire (opt_item t VVar o)) tt.
Proof. intros H. apply (appends_opt_item _ _ _ _ _ H). intros. by apply write_varint_appends. Qed.
Lemma appends_pairs t l :
  Forall pair_wf l ->
  appends (for_each l (fun kv => put_u8 (u8_of_PropertyType t) ;;
                                 write_mqtt_string kv.1 ;; write_mqtt_string kv.2))
          (items_wire (list_items t VPair l)) tt.
Proof. intros H. apply (appends_list_items _ _ _ _ _ H). intros. by apply write_pair_appends. Qed.
Lemma appends_vars t l :
  Forall varint_wf l ->
  appends (for_each l (fun id => put_u8 (u8_of_PropertyType t) ;;
                                 let! _ := write_remaining_length id in ret tt))
          (items_wire (list_items t VVar l)) tt.
Proof. intros H. apply (appends_list_items _ _ _ _ _ H). intros. by apply write_varint_appends. Qed.

(** The readers of a field, with what they add to the cursor. *)
Lemma parses_field {A B} (m : R A) w (a : A) (r : A -> B) (n : A -> Z) :
  parses m w a -> n a = blen w -> parses (let! v := m in ret (r v, n v)) w (r a, blen w).
Proof. intros H <-. eapply parses_bind_nil; [exact H|apply parses_ret]. Qed.

Lemma parses_pair {B} (r : bytes * bytes -> B) kv :
  pair_wf kv ->
  parses (let! key := read_mqtt_string in
          let! value := read_mqtt_string in
          ret (r (key, value), 2 + blen key + 2 + blen value))
         (pval_wire (VPair kv)) (r kv, blen (pval_wire (VPair kv))).
Proof.
  destruct kv as [k v]. intros [? ?]. cbn [pval_wire].
  eapply parses_bind; [by apply read_mqtt_string_parses|].
  eapply parses_bind_nil; [by apply read_mqtt_string_parses|].
  replace (2 + blen k + 2 + blen v) with (blen (wire_bytes k ++ wire_bytes v)) by blia.
  apply parses_ret.
Qed.
End fields.

Create HintDb fieldsdb.
#[export] Hint Resolve appends_opt_u8 appends_opt_u16 appends_opt_u32 appends_opt_str
  appends_opt_bin appends_opt_var appends_pairs appends_vars : fieldsdb.

(** [len] against the wire form, field by field. *)
Ltac len_wire len items :=
  intros p Hp; unfold len, items; cbv zeta;
  rewrite ?foldl_pairs, ?items_wire_app, ?blen_app; autorewrite with field_len; lia.

Lemma runs_eq {BC : BytesCrate} {P} (step : prop_step P) a l b b' :
  runs step a l b -> b = b' -> runs step a l b'.
Proof. by intros ? <-. Qed.

(** [write] emits the wire form, by the writers of its fields. *)
Ltac write_wire items unfold_ok Hlen :=
  intros p Hp Hsz; lazymatch goal with |- appends (?w _ _) _ _ => unfold w end; cbv zeta; unfold properties_wire;
  eapply appends_bind;
  [ rewrite Hlen by done; apply write_remaining_length_appends; split; [apply blen_nonneg|done]
  | clear Hsz; unfold items; rewrite ?items_wire_app; unfold_ok; destruct_and?;
    eapply appends_cast;
    [ repeat (eapply appends_bind; [solve [eauto with fieldsdb]|]); apply appends_ret
    | app_eq | done ] ].

(** [read] runs over the items of a record, one field after the other. *)
Ltac unfold_step :=
  intros; lazymatch goal with |- parses (?st _ _ _ _) _ _ => unfold st end; cbv iota;
  cbn [pval_wire].
Ltac opt_step :=
  unfold_step;
  lazymatch goal with |- parses _ _ (?set (Some ?a) ?acc, _) =>
    eapply (parses_field _ _ a (fun v => set (Some v) acc)) end;
  [by eauto with parsesdb|autorewrite with blen; reflexivity].
Ltac pair_step :=
  unfold_step;
  lazymatch goal with |- parses _ _ (?set (?get ?acc ++ [?a]) ?acc, _) =>
    by apply (parses_pair (fun kv => set (get acc ++ [kv]) acc)) end.
Ltac norm_acc set :=
  lazymatch goal with |- runs ?st ?a ?l ?b =>
    let a' := eval unfold set in a in
    let a' := eval cbn in a' in change (runs st a' l b) end.
Ltac run_field set t :=
  first [eapply runs_app; [t|norm_acc set] | eapply runs_eq; [t|reflexivity]].
Ltac run_opt set :=
  run_field set ltac:(eapply (runs_opt _ _ _ _ _ set); [done|opt_step|reflexivity]).
Ltac run_list get set :=
  run_field set
    ltac:(eapply (runs_list _ _ _ _ _ get set); [done|done|done|pair_step|reflexivity]).

(** Every branch of a step keeps the fields in range. *)
Ltac step_ok ok :=
  intros prop t acc s Hs Hok;
  lazymatch goal with |- wp (?st _ _ _ _) _ _ => unfold st end; destruct t; wp_go;
  try (apply wp_advance; [lia|]; wp_go);
  destruct acc; unfold ok in *; cbn in *; destruct_and?; split_and!;
  first [ done | blia | by auto with bytesdb | rewrite blen_drop; lia
        | apply Forall_app; split; [done|by apply Forall_singleton] ].

Section contracts.
Context {BC : BytesCrate} {BS : BytesSpec BC}.

Lemma connect_properties_len_wire p : cp_ok p -> v5_connect_properties_len p = blen (items_wire (cp_items p)).
Proof. revert p. len_wire v5_connect_properties_len cp_items. Qed.

Lemma willproperties_len_wire p : wp_ok p -> v5_willproperties_len p = blen (items_wire (wp_items p)).
Proof. revert p. len_wire v5_willproperties_len wp_items. Qed.

Lemma connack_properties_len_wire p : cap_ok p -> v5_connack_properties_len p = blen (items_wire (cap_items p)).
Proof. revert p. len_wire v5_connack_properties_len cap_items. Qed.

Lemma puback_properties_len_wire p : pap_ok p -> v5_puback_properties_len p = blen (items_wire (pap_items p)).
Proof. revert p. len_wire v5_puback_properties_len pap_items. Qed.

Lemma pubrec_properties_len_wire p : prp_ok p -> v5_pubrec_properties_len p = blen (items_wire (prp_items p)).
Proof. revert p. len_wire v5_pubrec_properties_len prp_items. Qed.

Lemma pubrel_properties_len_wire p : plp_ok p -> v5_pubrel_properties_len p = blen (items_wire (plp_items p)).
Proof. revert p. len_wire v5_pubrel_properties_len plp_items. Qed.

Lemma pubcomp_properties_len_wire p : pcp_ok p -> v5_pubcomp_properties_len p = blen (items_wire (pcp_items p)).
Proof. revert p. len_wire v5_pubcomp_properties_len pcp_items. Qed.

Lemma suback_properties_len_wire p : sap_ok p -> v5_suback_properties_len p = blen (items_wire (sap_items p)).
Proof. revert p. len_wire v5_suback_properties_len sap_items. Qed.

Lemma unsubscribe_properties_len_wire p : up_ok p -> v5_unsubscribe_properties_len p = blen (items_wire (up_items p)).
Proof. revert p. len_wire v5_unsubscribe_properties_len up_items. Qed.

Lemma unsuback_properties_len_wire p : uap_ok p -> v5_unsuback_properties_len p = blen (items_wire (uap_items p)).
Proof. revert p. len_wire v5_unsuback_properties_len uap_items. Qed.

Lemma disconnect_properties_len_wire p : dp_ok p -> v5_disconnect_properties_len p = blen (items_wire (dp_items p)).
Proof. revert p. len_wire v5_disconnect_properties_len dp_items. Qed.

Lemma auth_properties_len_wire p : ap_ok p -> v5_auth_properties_len p = blen (items_wire (ap_items p)).
Proof. revert p. len_wire v5_auth_properties_len ap_items. Qed.

Lemma connect_properties_runs p : cp_ok p -> runs v5_connect_properties_step empty_ConnectProperties (cp_items p) p.
Proof.
  destruct p. unfold cp_ok, cp_items, empty_ConnectProperties. cbn.
  intros (? & ? & ? & ? & ? & ? & ? & ? & ?).
  run_opt set_cp_session_expiry_interval.
  run_opt set_cp_receive_maximum.
  run_opt set_cp_max_packet_size.
  run_opt set_cp_topic_alias_max.
  run_opt set_cp_request_response_info.
  run_opt set_cp_request_problem_info.
  run_list MqttTypes.cp_user_properties set_cp_user_properties.
  run_opt set_cp_authentication_method.
  run_opt set_cp_authentication_data.
Qed.

Lemma connect_properties_step_safe : step_safe cp_ok v5_connect_properties_step.
Proof. step_ok cp_ok. Qed.

Lemma willproperties_runs p : wp_ok p -> runs v5_willproperties_step empty_LastWillProperties (wp_items p) p.
Proof.
  destruct p. unfold wp_ok, wp_items, empty_LastWillProperties. cbn.
  intros (? & ? & ? & ? & ? & ? & ?).
  run_opt set_wp_delay_interval.
  run_opt set_wp_payload_format_indicator.
  run_opt set_wp_message_expiry_interval.
  run_opt set_wp_content_type.
  run_opt set_wp_response_topic.
  run_opt set_wp_correlation_data.
  run_list MqttTypes.wp_user_properties set_wp_user_properties.
Qed.

Lemma willproperties_step_safe : step_safe wp_ok v5_willproperties_step.
Proof. step_ok wp_ok. Qed.

Lemma connack_properties_runs p : cap_ok p -> runs v5_connack_properties_step empty_ConnAckProperties (cap_items p) p.
Proof.
  destruct p. unfold cap_ok, cap_items, empty_ConnAckProperties. cbn.
  intros (? & ? & ? & ? & ? & ? & ? & ? & ? & ? & ? & ? & ? & ? & ? & ? & ?).
  run_opt set_cap_session_expiry_interval.
  run_opt set_cap_receive_max.
  run_opt set_cap_max_qos.
  run_opt set_cap_retain_available.
  run_opt set_cap_max_packet_size.
  run_opt set_cap_assigned_client_identifier.
  run_opt set_cap_topic_alias_max.
  run_opt set_cap_reason_string.
  run_list MqttTypes.cap_user_properties set_cap_user_properties.
  run_opt set_cap_wildcard_subscription_available.
  run_opt set_cap_subscription_identifiers_available.
  run_opt set_cap_shared_subscription_available.
  run_opt set_cap_server_keep_alive.
  run_opt set_cap_response_information.
  run_opt set_cap_server_reference.
  run_opt set_cap_authentication_method.
  run_opt set_cap_authentication_data.
Qed.

Lemma connack_properties_step_safe : step_safe cap_ok v5_connack_properties_step.
Proof. step_ok cap_ok. Qed.

Lemma publish_properties_step_safe : step_safe pp_ok v5_publish_properties_step.
Proof. step_ok pp_ok. Qed.

Lemma puback_properties_runs p : pap_ok p -> runs v5_puback_properties_step empty_PubAckProperties (pap_items p) p.
Proof.
  destruct p. unfold pap_ok, pap_items, empty_PubAckProperties. cbn.
  intros (? & ?).
  run_opt set_pap_reason_string.
  run_list MqttTypes.pap_user_properties set_pap_user_properties.
Qed.

Lemma puback_properties_step_safe : step_safe pap_ok v5_puback_properties_step.
Proof. step_ok pap_ok. Qed.

Lemma pubrec_properties_runs p : prp_ok p -> runs v5_pubrec_properties_step empty_PubRecProperties (prp_items p) p.
Proof.
  destruct p. unfold prp_ok, prp_items, empty_PubRecProperties. cbn.
  intros (? & ?).
  run_opt set_prp_reason_string.
  run_list MqttTypes.prp_user_properties set_prp_user_properties.
Qed.

Lemma pubrec_properties_step_safe : step_safe prp_ok v5_pubrec_properties_step.
Proof. step_ok prp_ok. Qed.

Lemma pubrel_properties_runs p : plp_ok p -> runs v5_pubrel_properties_step empty_PubRelProperties (plp_items p) p.
Proof.
  destruct p. unfold plp_ok, plp_items, empty_PubRelProperties. cbn.
  intros (? & ?).
  run_opt set_plp_reason_string.
  run_list MqttTypes.plp_user_properties set_plp_user_properties.
Qed.

Lemma pubrel_properties_step_safe : step_safe plp_ok v5_pubrel_properties_step.
Proof. step_ok plp_ok. Qed.

Lemma pubcomp_properties_runs p : pcp_ok p -> runs v5_pubcomp_properties_step empty_PubCompProperties (pcp_items p) p.
Proof.
  destruct p. unfold pcp_ok, pcp_items, empty_PubCompProperties. cbn.
  intros (? & ?).
  run_opt set_pcp_reason_string.
  run_list MqttTypes.pcp_user_properties set_pcp_user_properties.
Qed.

Lemma pubcomp_properties_step_safe : step_safe pcp_ok v5_pubcomp_properties_step.
Proof. step_ok pcp_ok. Qed.

Lemma subscribe_properties_step_safe : step_safe sp_ok v5_subscribe_properties_step.
Proof. step_ok sp_ok. Qed.

Lemma suback_properties_runs p : sap_ok p -> runs v5_suback_properties_step empty_SubAckProperties (sap_items p) p.
Proof.
  destruct p. unfold sap_ok, sap_items, empty_SubAckProperties. cbn.
  intros (? & ?).
  run_opt set_sap_reason_string.
  run_list MqttTypes.sap_user_properties set_sap_user_properties.
Qed.

Lemma suback_properties_step_safe : step_safe sap_ok v5_suback_properties_step.
Proof. step_ok sap_ok. Qed.

Lemma unsubscribe_properties_runs p : up_ok p -> runs v5_unsubscribe_properties_step empty_UnsubscribeProperties (up_items p) p.
Proof.
  destruct p. unfold up_ok, up_items, empty_UnsubscribeProperties. cbn.
  intros ?.
  run_list MqttTypes.up_user_properties set_up_user_properties.
Qed.

Lemma unsubscribe_properties_step_safe : step_safe up_ok v5_unsubscribe_properties_step.
Proof. step_ok up_ok. Qed.

Lemma unsuback_properties_runs p : uap_ok p -> runs v5_unsuback_properties_step empty_UnsubAckProperties (uap_items p) p.
Proof.
  destruct p. unfold uap_ok, uap_items, empty_UnsubAckProperties. cbn.
  intros (? & ?).
  run_opt set_uap_reason_string.
  run_list MqttTypes.uap_user_properties set_uap_user_properties.
Qed.

Lemma unsuback_properties_step_safe : step_safe uap_ok v5_unsuback_properties_step.
Proof. step_ok uap_ok. Qed.

Lemma disconnect_properties_runs p : dp_ok p -> runs v5_disconnect_properties_step empty_DisconnectProperties (dp_items p) p.
Proof.
  destruct p. unfold dp_ok, dp_items, empty_DisconnectProperties. cbn.
  intros (? & ? & ? & ?).
  run_opt set_dp_session_expiry_interval.
  run_opt set_dp_reason_string.
  run_list MqttTypes.dp_user_properties set_dp_user_properties.
  run_opt set_dp_server_reference.
Qed.

Lemma disconnect_properties_step_safe : step_safe dp_ok v5_disconnect_properties_step.
Proof. step_ok dp_ok. Qed.

Lemma auth_properties_runs p : ap_ok p -> runs v5_auth_properties_step empty_AuthProperties (ap_items p) p.
Proof.
  destruct p. unfold ap_ok, ap_items, empty_AuthProperties. cbn.
  intros (? & ? & ? & ?).
  run_opt set_ap_authentication_method.
  run_opt set_ap_authentication_data.
  run_opt set_ap_reason_string.
  run_list MqttTypes.ap_user_properties set_ap_user_properties.
Qed.

Lemma auth_properties_step_safe : step_safe ap_ok v5_auth_properties_step.
Proof. step_ok ap_ok. Qed.

Lemma foldl_vars l s :
  Forall varint_wf l ->
  foldl (fun len id => len + (1 + len_len id)) s l
  = s + blen (items_wire (list_items SubscriptionIdentifier VVar l)).
Proof.
  intros Hl. apply foldl_len. intros ? id Hid. cbn [pval_wire]. rewrite Forall_forall in Hl.
  by rewrite blen_varint by (by apply Hl).
Qed.

Lemma publish_properties_len_wire p :
  pp_fit p -> v5_publish_properties_len p = blen (items_wire (pp_items p)).
Proof.
  intros (Hok & Ha & _). unfold pp_ok in Hok. destruct_and?.
  unfold v5_publish_properties_len, pp_items. cbv zeta. rewrite Ha.
  rewrite foldl_pairs, foldl_vars, !items_wire_app, !blen_app by done.
  autorewrite with field_len. cbn [is_some]. lia.
Qed.

Lemma publish_properties_write_wire p :
  pp_fit p -> blen (items_wire (pp_items p)) <= max_remaining ->
  appends (v5_publish_properties_write p) (properties_wire (pp_items p)) tt.
Proof.
  revert p. write_wire pp_items ltac:(unfold pp_fit, pp_ok in * ) publish_properties_len_wire.
Qed.

(** A varint field as the step functions read it. *)
Lemma parses_var {B} (r : Z -> B) n :
  varint_wf n ->
  parses (let! stream := get in
          let! (id_len, id) := lift (mqtt_length stream) in
          advance id_len ;;
          ret (r id, 1 + id_len))
         (pval_wire (VVar n)) (r n, 1 + blen (pval_wire (VVar n))).
Proof.
  intros Hn rest. cbn [pval_wire]. unfold bind at 1, get. rewrite mqtt_length_varint by done.
  unfold bind at 1, lift. by rewrite (bind_ok _ _ _ _ _ (advance_app _ _)).
Qed.

Lemma publish_properties_runs p :
  pp_ok p -> pp_topic_alias p = None -> pp_subscription_identifiers p = [] ->
  runs v5_publish_properties_step empty_PublishProperties (pp_items p) p.
Proof.
  destruct p. unfold pp_ok, pp_items, empty_PublishProperties. cbn.
  intros (? & ? & ? & ? & ? & ? & ? & ?) -> ->. cbn [opt_item list_items map app].
  run_opt set_pp_payload_format_indicator.
  run_opt set_pp_message_expiry_interval.
  run_opt set_pp_response_topic.
  run_opt set_pp_correlation_data.
  run_list MqttTypes.pp_user_properties set_pp_user_properties.
  run_opt set_pp_content_type.
Qed.

(** Up to two subscription identifiers, each of which puts the cursor one
    octet ahead. *)
Lemma publish_ids_loop ids acc plen cursor fuel rest :
  Forall varint_wf ids -> (length ids <= 2)%nat ->
  cursor + blen (items_wire (list_items SubscriptionIdentifier VVar ids)) <= plen ->
  properties_loop (length ids + fuel) v5_publish_properties_step plen cursor acc
    (items_wire (list_items SubscriptionIdentifier VVar ids) ++ rest)
  = properties_loop fuel v5_publish_properties_step plen
      (cursor + blen (items_wire (list_items SubscriptionIdentifier VVar ids)) + Z.of_nat (length ids))
      (set_pp_subscription_identifiers (pp_subscription_identifiers acc ++ ids) acc) rest.
Proof.
  intros Hids Hlen Hp.
  assert (forall id acc fuel cursor rest, varint_wf id -> cursor < plen ->
    properties_loop (S fuel) v5_publish_properties_step plen cursor acc
      (item_wire (SubscriptionIdentifier, VVar id) ++ rest)
    = properties_loop fuel v5_publish_properties_step plen
        (cursor + 1 + (1 + blen (varint id)))
        (set_pp_subscription_identifiers (pp_subscription_identifiers acc ++ [id]) acc) rest) as Hone.
  { intros id acc' f c r Hid Hc. apply properties_loop_item; [|done].
    by apply (parses_var (fun i => set_pp_subscription_identifiers (pp_subscription_identifiers acc' ++ [i]) acc')). }
  destruct ids as [|a [|b [|? ?]]]; cbn [length] in *; [| | |lia];
    cbn [list_items map] in *; rewrite ?items_wire_cons, ?blen_app, ?blen_item_wire in *;
    cbn [snd pval_wire items_wire concat map] in *; rewrite ?blen_nil in *; cbn [Nat.add].
  - destruct acc. cbn. rewrite app_nil_r. f_equal. lia.
  - apply Forall_cons in Hids as [Ha _]. pose proof (blen_nonneg (varint a)).
    rewrite <- app_assoc, Hone by (done || lia).
    cbn [app]. f_equal. lia.
  - apply Forall_cons in Hids as [Ha Hids]. apply Forall_cons in Hids as [Hb _].
    pose proof (blen_varint a Ha). pose proof (len_len_bounds a).
    pose proof (blen_varint b Hb). pose proof (len_len_bounds b).
    rewrite <- !app_assoc, !Hone by (done || lia). cbn [app]. f_equal; [lia|].
    destruct acc. unfold set_pp_subscription_identifiers. cbn. by rewrite <- app_assoc.
Qed.

Lemma publish_properties_read_wire p :
  pp_fit p -> pp_items p <> [] -> blen (items_wire (pp_items p)) <= max_remaining ->
  parses v5_publish_properties_read (properties_wire (pp_items p)) (Some p).
Proof.
  intros (Hok & Ha & Hids) Hne Hsz.
  set (p0 := set_pp_content_type None (set_pp_subscription_identifiers [] p)).
  set (ids := pp_subscription_identifiers p) in *.
  set (ct := opt_item ContentType VStr (pp_content_type p)).
  assert (pp_items p = pp_items p0 ++ list_items SubscriptionIdentifier VVar ids ++ ct) as E.
  { unfold pp_items, ct, ids. cbn. by rewrite <- !app_assoc. }
  unfold pp_ok in Hok. destruct_and?.
  assert (runs v5_publish_properties_step empty_PublishProperties (pp_items p0) p0) as Hr0.
  { apply publish_properties_runs; [|done|done]. unfold pp_ok. cbn. by split_and!. }
  assert (runs v5_publish_properties_step (set_pp_content_type None p) ct p) as Hr1.
  { eapply runs_eq; [eapply (runs_opt _ _ _ _ _ set_pp_content_type); [done|opt_step|reflexivity]|].
    by destruct p. }
  assert (Forall (fun i => Z.of_nat (length ids) < blen (item_wire i)) ct) as Hct.
  { unfold ct. destruct (pp_content_type p); [|constructor]. constructor; [|constructor].
    rewrite blen_item_wire. cbn [snd pval_wire]. blia. }
  apply properties_read_items; [done|done|]. intros fuel rest. rewrite E.
  rewrite !items_wire_app, !blen_app, !length_app, <- !app_assoc.
  unfold list_items at 1. rewrite length_map, <- !Nat.add_assoc.
  rewrite (properties_loop_runs _ _ _ _ _ _ _ 0 _ Hr0) by (try apply item_wire_pos; blia).
  rewrite publish_ids_loop by (done || blia).
  replace (set_pp_subscription_identifiers (pp_subscription_identifiers p0 ++ ids) p0)
    with (set_pp_content_type None p) by (unfold ids; by destruct p).
  rewrite (properties_loop_runs _ _ _ _ _ _ _ (Z.of_nat (length ids)) _ Hr1) by (try done; lia).
  apply properties_loop_end. lia.
Qed.

Lemma subscribe_properties_len_wire p :
  sp_fit p -> v5_subscribe_properties_len p = blen (items_wire (sp_items p)).
Proof.
  intros [? ?]. unfold v5_subscribe_properties_len, sp_items. cbv zeta.
  rewrite foldl_pairs, items_wire_app, blen_app, blen_opt_var by done. lia.
Qed.

Lemma subscribe_properties_write_wire p :
  sp_fit p -> blen (items_wire (sp_items p)) <= max_remaining ->
  appends (v5_subscribe_properties_write p) (properties_wire (sp_items p)) tt.
Proof.
  revert p. write_wire sp_items ltac:(unfold sp_fit, sp_ok in * ) subscribe_properties_len_wire.
Qed.

Lemma subscribe_properties_read_wire p :
  sp_fit p -> sp_items p <> [] -> blen (items_wire (sp_items p)) <= max_remaining ->
  parses v5_subscribe_properties_read (properties_wire (sp_items p)) (Some p).
Proof.
  intros [Hid Hu] Hne Hsz.
  set (p0 := set_sp_subscription_identifier (sp_subscription_identifier p) empty_SubscribeProperties).
  assert (runs v5_subscribe_properties_step p0
            (list_items UserProperty VPair (sp_user_properties p)) p) as Hr.
  { eapply runs_eq; [eapply (runs_list _ _ _ _ _ sp_user_properties set_sp_user_properties);
      [done|done|done|pair_step|reflexivity]|]. by destruct p. }
  assert (Forall (fun i => 1 < blen (item_wire i))
            (list_items UserProperty VPair (sp_user_properties p))) as Hl.
  { unfold list_items. apply Forall_map, Forall_forall. intros [k v] _.
    change (1 < blen (item_wire (UserProperty, VPair (k, v)))).
    rewrite blen_item_wire. cbn [snd pval_wire]. blia. }
  apply properties_read_items; [done|done|]. intros fuel rest. unfold sp_items in *.
  rewrite items_wire_app, blen_app, length_app, <- app_assoc, <- Nat.add_assoc.
  unfold p0 in Hr. destruct (sp_subscription_identifier p) as [id|]; cbn [opt_item].
  - rewrite items_wire_cons, app_nil_r, blen_item_wire. cbn [snd length Nat.add].
    rewrite (properties_loop_item _ _ p0 _ _ (1 + blen (pval_wire (VVar id)))) by
      (try blia; by apply (parses_var (fun i => set_sp_subscription_identifier (Some i) empty_SubscribeProperties))).
    rewrite (properties_loop_runs _ _ _ _ _ _ _ 1 _ Hr) by (try done; lia).
    apply properties_loop_end. lia.
  - cbn [length Nat.add items_wire map concat app]. rewrite blen_nil.
    rewrite (properties_loop_runs _ _ _ _ _ _ _ 0 _ Hr) by (try apply item_wire_pos; lia).
    apply properties_loop_end. lia.
Qed.
End contracts.

(** ** The contracts *)

#[export] Instance connect_properties_contract {BC : BytesCrate} {BS : BytesSpec BC} :
  PropertySet cp_items cp_ok cp_ok
    v5_connect_properties_len v5_connect_properties_write v5_connect_properties_read.
Proof.
  split.
  - done.
  - apply connect_properties_len_wire.
  - write_wire cp_items ltac:(unfold cp_ok in * ) connect_properties_len_wire.
  - intros p Hp. apply properties_read_runs. by apply connect_properties_runs.
  - apply properties_read_none.
  - intros s Hs. apply wp_properties_read; [apply connect_properties_step_safe|by repeat constructor|done].
Qed.

#[export] Instance willproperties_contract {BC : BytesCrate} {BS : BytesSpec BC} :
  PropertySet wp_items wp_ok wp_ok
    v5_willproperties_len v5_willproperties_write v5_willproperties_read.
Proof.
  split.
  - done.
  - apply willproperties_len_wire.
  - write_wire wp_items ltac:(unfold wp_ok in * ) willproperties_len_wire.
  - intros p Hp. apply properties_read_runs. by apply willproperties_runs.
  - apply properties_read_none.
  - intros s Hs. apply wp_properties_read; [apply willproperties_step_safe|by repeat constructor|done].
Qed.

#[export] Instance connack_properties_contract {BC : BytesCrate} {BS : BytesSpec BC} :
  PropertySet cap_items cap_ok cap_ok
    v5_connack_properties_len v5_connack_properties_write v5_connack_properties_read.
Proof.
  split.
  - done.
  - apply connack_properties_len_wire.
  - write_wire cap_items ltac:(unfold cap_ok in * ) connack_properties_len_wire.
  - intros p Hp. apply properties_read_runs. by apply connack_properties_runs.
  - apply properties_read_none.
  - intros s Hs. apply wp_properties_read; [apply connack_properties_step_safe|by repeat constructor|done].
Qed.

#[export] Instance publish_properties_contract {BC : BytesCrate} {BS : BytesSpec BC} :
  PropertySet pp_items pp_ok pp_fit
    v5_publish_properties_len v5_publish_properties_write v5_publish_properties_read.
Proof.
  split.
  - by intros p (? & _).
  - apply publish_properties_len_wire.
  - apply publish_properties_write_wire.
  - apply publish_properties_read_wire.
  - apply properties_read_none.
  - intros s Hs. apply wp_properties_read; [apply publish_properties_step_safe|by repeat constructor|done].
Qed.

#[export] Instance puback_properties_contract {BC : BytesCrate} {BS : BytesSpec BC} :
  PropertySet pap_items pap_ok pap_ok
    v5_puback_properties_len v5_puback_properties_write v5_puback_properties_read.
Proof.
  split.
  - done.
  - apply puback_properties_len_wire.
  - write_wire pap_items ltac:(unfold pap_ok in * ) puback_properties_len_wire.
  - intros p Hp. apply properties_read_runs. by apply puback_properties_runs.
  - apply properties_read_none.
  - intros s Hs. apply wp_properties_read; [apply puback_properties_step_safe|by repeat constructor|done].
Qed.

#[export] Instance pubrec_properties_contract {BC : BytesCrate} {BS : BytesSpec BC} :
  PropertySet prp_items prp_ok prp_ok
    v5_pubrec_properties_len v5_pubrec_properties_write v5_pubrec_properties_read.
Proof.
  split.
  - done.
  - apply pubrec_properties_len_wire.
  - write_wire prp_items ltac:(unfold prp_ok in * ) pubrec_properties_len_wire.
  - intros p Hp. apply properties_read_runs. by apply pubrec_properties_runs.
  - apply properties_read_none.
  - intros s Hs. apply wp_properties_read; [apply pubrec_properties_step_safe|by repeat constructor|done].
Qed.

#[export] Instance pubrel_properties_contract {BC : BytesCrate} {BS : BytesSpec BC} :
  PropertySet plp_items plp_ok plp_ok
    v5_pubrel_properties_len v5_pubrel_properties_write v5_pubrel_properties_read.
Proof.
  split.
  - done.
  - apply pubrel_properties_len_wire.
  - write_wire plp_items ltac:(unfold plp_ok in * ) pubrel_properties_len_wire.
  - intros p Hp. apply properties_read_runs. by apply pubrel_properties_runs.
  - apply properties_read_none.
  - intros s Hs. apply wp_properties_read; [apply pubrel_properties_step_safe|by repeat constructor|done].
Qed.

#[export] Instance pubcomp_properties_contract {BC : BytesCrate} {BS : BytesSpec BC} :
  PropertySet pcp_items pcp_ok pcp_ok
    v5_pubcomp_properties_len v5_pubcomp_properties_write v5_pubcomp_properties_read.
Proof.
  split.
  - done.
  - apply pubcomp_properties_len_wire.
  - write_wire pcp_items ltac:(unfold pcp_ok in * ) pubcomp_properties_len_wire.
  - intros p Hp. apply properties_read_runs. by apply pubcomp_properties_runs.
  - apply properties_read_none.
  - intros s Hs. apply wp_properties_read; [apply pubcomp_properties_step_safe|by repeat constructor|done].
Qed.

#[export] Instance subscribe_properties_contract {BC : BytesCrate} {BS : BytesSpec BC} :
  PropertySet sp_items sp_ok sp_fit
    v5_subscribe_properties_len v5_subscribe_properties_write v5_subscribe_properties_read.
Proof.
  split.
  - done.
  - apply subscribe_properties_len_wire.
  - apply subscribe_properties_write_wire.
  - apply subscribe_properties_read_wire.
  - apply properties_read_none.
  - intros s Hs. apply wp_properties_read; [apply subscribe_properties_step_safe|by repeat constructor|done].
Qed.

#[export] Instance suback_properties_contract {BC : BytesCrate} {BS : BytesSpec BC} :
  PropertySet sap_items sap_ok sap_ok
    v5_suback_properties_len v5_suback_properties_write v5_suback_properties_read.
Proof.
  split.
  - done.
  - apply suback_properties_len_wire.
  - write_wire sap_items ltac:(unfold sap_ok in * ) suback_properties_len_wire.
  - intros p Hp. apply properties_read_runs. by apply suback_properties_runs.
  - apply properties_read_none.
  - intros s Hs. apply wp_properties_read; [apply suback_properties_step_safe|by repeat constructor|done].
Qed.

#[export] Instance unsubscribe_properties_contract {BC : BytesCrate} {BS : BytesSpec BC} :
  PropertySet up_items up_ok up_ok
    v5_unsubscribe_properties_len v5_unsubscribe_properties_write v5_unsubscribe_properties_read.
Proof.
  split.
  - done.
  - apply unsubscribe_properties_len_wire.
  - write_wire up_items ltac:(unfold up_ok in * ) unsubscribe_properties_len_wire.
  - intros p Hp. apply properties_read_runs. by apply unsubscribe_properties_runs.
  - apply properties_read_none.
  - intros s Hs. apply wp_properties_read; [apply unsubscribe_properties_step_safe|by repeat constructor|done].
Qed.

#[export] Instance unsuback_properties_contract {BC : BytesCrate} {BS : BytesSpec BC} :
  PropertySet uap_items uap_ok uap_ok
    v5_unsuback_properties_len v5_unsuback_properties_write v5_unsuback_properties_read.
Proof.
  split.
  - done.
  - apply unsuback_properties_len_wire.
  - write_wire uap_items ltac:(unfold uap_ok in * ) unsuback_properties_len_wire.
  - intros p Hp. apply properties_read_runs. by apply unsuback_properties_runs.
  - apply properties_read_none.
  - intros s Hs. apply wp_properties_read; [apply unsuback_properties_step_safe|by repeat constructor|done].
Qed.

#[export] Instance disconnect_properties_contract {BC : BytesCrate} {BS : BytesSpec BC} :
  PropertySet dp_items dp_ok dp_ok
    v5_disconnect_properties_len v5_disconnect_properties_write v5_disconnect_properties_read.
Proof.
  split.
  - done.
  - apply disconnect_properties_len_wire.
  - write_wire dp_items ltac:(unfold dp_ok in * ) disconnect_properties_len_wire.
  - intros p Hp. apply properties_read_runs. by apply disconnect_properties_runs.
  - apply properties_read_none.
  - intros s Hs. apply wp_properties_read; [apply disconnect_properties_step_safe|by repeat constructor|done].
Qed.

#[export] Instance auth_properties_contract {BC : BytesCrate} {BS : BytesSpec BC} :
  PropertySet ap_items ap_ok ap_ok
    v5_auth_properties_len v5_auth_properties_write v5_auth_properties_read.
Proof.
  split.
  - done.
  - apply auth_properties_len_wire.
  - write_wire ap_items ltac:(unfold ap_ok in * ) auth_properties_len_wire.
  - intros p Hp. apply properties_read_runs. by apply auth_properties_runs.
  - apply properties_read_none.
  - intros s Hs. apply wp_properties_read; [apply auth_properties_step_safe|by repeat constructor|done].
Qed.
