(* ===== verification/V5Packets.v ===== *)
(** * The MQTT 5 packets of [protocol/src/mqtt/mqttv5]

    [len], [write] and [read] of every packet, in the order of the files; the
    properties are those of [V5PropDefs]. *)

From Stdlib Require Import String.
From S2P Require Import Prelude Bytes MqttTypes MqttCommon V5Props V5PropDefs.

Section definitions.
Context {BC : BytesCrate}.

(** *** connect.rs *)

Definition v5_will_len (will : LastWill) (properties : option LastWillProperties) : Z :=
  let len := 0 in
  let len := len + opt_properties_len v5_willproperties_len properties in
  len + (2 + blen (lw_topic will) + 2 + blen (lw_message will)).

Definition v5_will_read (connect_flags : Z) : R (option LastWill * option LastWillProperties) :=
  if Z.land connect_flags 4 =? 0 then
    if negb (Z.land connect_flags 56 =? 0) then fail IncorrectPacketFormat
    else ret (None, None)
  else
    let! properties := v5_willproperties_read in
    let! will_topic := read_mqtt_bytes in
    let! will_message := read_mqtt_bytes in
    let qos_num := Z.shiftr (Z.land connect_flags 24) 3 in
    let! will_qos := ok_or (qos qos_num) (InvalidQoS qos_num) in
    ret (Some (mkLastWill will_topic will_message will_qos
                          (negb (Z.land connect_flags 32 =? 0))), properties).

Definition v5_will_write (will : LastWill) (properties : option LastWillProperties) : R Z :=
  let connect_flags := Z.lor 0 (Z.lor 4 (Z.shiftl (u8_of_QoS (lw_qos will)) 3)) in
  let connect_flags := if lw_retain will then Z.lor connect_flags 32 else connect_flags in
  opt_properties_write v5_willproperties_write properties ;;
  write_mqtt_bytes (lw_topic will) ;;
  write_mqtt_bytes (lw_message will) ;;
  ret connect_flags.

Definition v5_login_read (connect_flags : Z) : R (option Login) :=
  let! username :=
    if Z.land connect_flags 128 =? 0 then ret [] else read_mqtt_string in
  let! password :=
    if Z.land connect_flags 64 =? 0 then ret [] else read_mqtt_string in
  if (blen username =? 0) && (blen password =? 0) then ret None
  else ret (Some (mkLogin username password)).

Definition v5_login_len (login : Login) : Z :=
  let len := 0 in
  let len := if negb (blen (username login) =? 0)
             then len + (2 + blen (username login)) else len in
  if negb (blen (password login) =? 0)
  then len + (2 + blen (password login)) else len.

Definition v5_login_write (login : Login) : R Z :=
  let connect_flags := 0 in
  let! connect_flags :=
    if negb (blen (username login) =? 0)
    then write_mqtt_string (username login) ;; ret (Z.lor connect_flags 128)
    else ret connect_flags in
  if negb (blen (password login) =? 0)
  then write_mqtt_string (password login) ;; ret (Z.lor connect_flags 64)
  else ret connect_flags.

(** The block [let len = { ... }] at the start of [write]. *)
Definition v5_connect_len (connect : Connect) (properties : option ConnectProperties)
    (will : option LastWill) (will_properties : option LastWillProperties)
    (l : option Login) : Z :=
  let len := 2 + blen (lit "MQTT") + 1 + 1 + 2 in
  let len := len + opt_properties_len v5_connect_properties_len properties in
  let len := len + (2 + blen (client_id connect)) in
  let len := match will with Some w => len + v5_will_len w will_properties | None => len end in
  match l with Some l => len + v5_login_len l | None => len end.

Definition v5_connect_write (connect : Connect) (properties : option ConnectProperties)
    (will : option LastWill) (will_properties : option LastWillProperties)
    (l : option Login) : R Z :=
  let len := v5_connect_len connect properties will will_properties l in
  put_u8 16 ;;
  let! count := write_remaining_length len in
  write_mqtt_string (lit "MQTT") ;;
  put_u8 5 ;;
  let flags_index := 1 + count + 2 + 4 + 1 in
  let connect_flags := if clean_session connect then Z.lor 0 2 else 0 in
  put_u8 connect_flags ;;
  put_u16 (keep_alive connect) ;;
  opt_properties_write v5_connect_properties_write properties ;;
  write_mqtt_string (client_id connect) ;;
  let! connect_flags :=
    match will with
    | Some w => let! f := v5_will_write w will_properties in ret (Z.lor connect_flags f)
    | None => ret connect_flags
    end in
  let! connect_flags :=
    match l with
    | Some l => let! f := v5_login_write l in ret (Z.lor connect_flags f)
    | None => ret connect_flags
    end in
  set_index flags_index connect_flags ;;
  ret len.

Definition v5_connect_read (h : FixedHeader) : R ConnectReadOutcome :=
  skip_header h ;;
  let! protocol_name := read_mqtt_string in
  let! protocol_level := read_u8 in
  if negb (bool_decide (protocol_name = lit "MQTT")) then fail InvalidProtocol
  else if negb (protocol_level =? 5) then fail (InvalidProtocolLevel protocol_level)
  else
    let! connect_flags := read_u8 in
    let clean_session := negb (Z.land connect_flags 2 =? 0) in
    let! keep_alive := read_u16 in
    let! properties := v5_connect_properties_read in
    let! client_id := read_mqtt_string in
    let! (will, willproperties) := v5_will_read connect_flags in
    let! login := v5_login_read connect_flags in
    ret (mkConnectReadOutcome protocol_level (mkConnect keep_alive client_id clean_session)
           properties will willproperties login).

(** *** connack.rs *)

Definition v5_connack_len (properties : option ConnAckProperties) : Z :=
  let len := 1 + 1 in
  len + opt_properties_len v5_connack_properties_len properties.

Definition v5_connect_return (num : Z) : outcome Error ConnectReturnCode :=
  match num with
  | 0 => Ok CR_Success
  | 128 => Ok CR_UnspecifiedError
  | 129 => Ok CR_MalformedPacket
  | 130 => Ok CR_ProtocolError
  | 131 => Ok CR_ImplementationSpecificError
  | 132 => Ok CR_UnsupportedProtocolVersion
  | 133 => Ok CR_ClientIdentifierNotValid
  | 134 => Ok CR_BadUserNamePassword
  | 135 => Ok CR_NotAuthorized
  | 136 => Ok CR_ServerUnavailable
  | 137 => Ok CR_ServerBusy
  | 138 => Ok CR_Banned
  | 140 => Ok CR_BadAuthenticationMethod
  | 144 => Ok CR_TopicNameInvalid
  | 149 => Ok CR_PacketTooLarge
  | 151 => Ok CR_QuotaExceeded
  | 153 => Ok CR_PayloadFormatInvalid
  | 154 => Ok CR_RetainNotSupported
  | 155 => Ok CR_QoSNotSupported
  | 156 => Ok CR_UseAnotherServer
  | 157 => Ok CR_ServerMoved
  | 159 => Ok CR_ConnectionRateExceeded
  | num => Err (InvalidConnectReturnCode num)
  end.

(** [unreachable!()] for the MQTT 3/4 codes. *)
Definition v5_connect_code (return_code : ConnectReturnCode) : R Z :=
  match return_code with
  | CR_Success => ret 0
  | CR_UnspecifiedError => ret 128
  | CR_MalformedPacket => ret 129
  | CR_ProtocolError => ret 130
  | CR_ImplementationSpecificError => ret 131
  | CR_UnsupportedProtocolVersion => ret 132
  | CR_ClientIdentifierNotValid => ret 133
  | CR_BadUserNamePassword => ret 134
  | CR_NotAuthorized => ret 135
  | CR_ServerUnavailable => ret 136
  | CR_ServerBusy => ret 137
  | CR_Banned => ret 138
  | CR_BadAuthenticationMethod => ret 140
  | CR_TopicNameInvalid => ret 144
  | CR_PacketTooLarge => ret 149
  | CR_QuotaExceeded => ret 151
  | CR_PayloadFormatInvalid => ret 153
  | CR_RetainNotSupported => ret 154
  | CR_QoSNotSupported => ret 155
  | CR_UseAnotherServer => ret 156
  | CR_ServerMoved => ret 157
  | CR_ConnectionRateExceeded => ret 159
  | _ => panic
  end.

Definition v5_connack_write (connack : ConnAck) (properties : option ConnAckProperties) : R Z :=
  let len := v5_connack_len properties in
  put_u8 32 ;;
  let! count := write_remaining_length len in
  put_u8 (bool_as_u8 (session_present connack)) ;;
  let! code := v5_connect_code (ca_code connack) in
  put_u8 code ;;
  opt_properties_write v5_connack_properties_write properties ;;
  ret (1 + count + len).

Definition v5_connack_read (h : FixedHeader) : R (ConnAck * option ConnAckProperties) :=
  skip_header h ;;
  let! flags := read_u8 in
  let! return_code := read_u8 in
  let! properties := v5_connack_properties_read in
  let session_present := Z.land flags 1 =? 1 in
  let! code := lift (v5_connect_return return_code) in
  ret (mkConnAck session_present code, properties).

(** *** publish.rs *)

Definition v5_publish_len (publish : Publish) (properties : option PublishProperties) : Z :=
  let len := 2 + blen (topic publish) in
  let len := if negb (bool_decide (pub_qos publish = AtMostOnce)) && negb (pub_pkid publish =? 0)
             then len + 2 else len in
  let len := len + opt_properties_len v5_publish_properties_len properties in
  len + blen (payload publish).

Definition v5_publish_write (publish : Publish) (properties : option PublishProperties) : R Z :=
  let len := v5_publish_len publish properties in
  let dup := bool_as_u8 (dup publish) in
  let qos := u8_of_QoS (pub_qos publish) in
  let retain := bool_as_u8 (retain publish) in
  put_u8 (Z.lor (Z.lor (Z.lor 48 retain) (Z.shiftl qos 1)) (Z.shiftl dup 3)) ;;
  let! count := write_remaining_length len in
  write_mqtt_bytes (topic publish) ;;
  (if negb (bool_decide (pub_qos publish = AtMostOnce)) then
     let pkid := pub_pkid publish in
     if pkid =? 0 then fail PacketIdZero else put_u16 pkid
   else ret tt) ;;
  opt_properties_write v5_publish_properties_write properties ;;
  put_slice (payload publish) ;;
  ret (1 + count + len).

Definition v5_publish_read (h : FixedHeader) : R (Publish * option PublishProperties) :=
  let qos_num := Z.shiftr (Z.land (byte1 h) 6) 1 in
  let! qos := ok_or (qos qos_num) (InvalidQoS qos_num) in
  let dup := negb (Z.land (byte1 h) 8 =? 0) in
  let retain := negb (Z.land (byte1 h) 1 =? 0) in
  skip_header h ;;
  let! topic := read_mqtt_bytes in
  let! pkid :=
    match qos with
    | AtMostOnce => ret 0
    | AtLeastOnce | ExactlyOnce => read_u16
    end in
  if negb (bool_decide (qos = AtMostOnce)) && (pkid =? 0) then fail PacketIdZero
  else
    let! properties := v5_publish_properties_read in
    let! bytes := get in
    ret (mkPublish dup qos pkid retain topic bytes, properties).

(** *** puback.rs *)

Definition v5_puback_reason (num : Z) : outcome Error PubAckReason :=
  match num with
  | 0 => Ok PA_Success
  | 16 => Ok PA_NoMatchingSubscribers
  | 128 => Ok PA_UnspecifiedError
  | 131 => Ok PA_ImplementationSpecificError
  | 135 => Ok PA_NotAuthorized
  | 144 => Ok PA_TopicNameInvalid
  | 145 => Ok PA_PacketIdentifierInUse
  | 151 => Ok PA_QuotaExceeded
  | 153 => Ok PA_PayloadFormatInvalid
  | num => Err (InvalidConnectReturnCode num)
  end.

Definition v5_puback_code (reason : PubAckReason) : Z :=
  match reason with
  | PA_Success => 0
  | PA_NoMatchingSubscribers => 16
  | PA_UnspecifiedError => 128
  | PA_ImplementationSpecificError => 131
  | PA_NotAuthorized => 135
  | PA_TopicNameInvalid => 144
  | PA_PacketIdentifierInUse => 145
  | PA_QuotaExceeded => 151
  | PA_PayloadFormatInvalid => 153
  end.

(** [puback.reason.unwrap()] panics when there is no reason. *)
Definition v5_puback_len (puback : PubAck) (properties : option PubAckProperties) : R Z :=
  let len := 2 + 1 in
  let! reason := unwrap (pa_reason puback) in
  if bool_decide (reason = PA_Success) && is_none properties then ret 2
  else ret (len + opt_properties_len v5_puback_properties_len properties).

Definition v5_puback_write (puback : PubAck) (properties : option PubAckProperties) : R Z :=
  let! len := v5_puback_len puback properties in
  put_u8 64 ;;
  let! count := write_remaining_length len in
  put_u16 (pa_pkid puback) ;;
  let! reason := unwrap (pa_reason puback) in
  if bool_decide (reason = PA_Success) && is_none properties then ret 4
  else
    put_u8 (v5_puback_code reason) ;;
    opt_properties_write v5_puback_properties_write properties ;;
    ret (1 + count + len).

Definition v5_puback_read (h : FixedHeader) : R (PubAck * option PubAckProperties) :=
  skip_header h ;;
  let! pkid := read_u16 in
  if remaining_len h =? 2 then ret (mkPubAck pkid (Some PA_Success), None)
  else
    let! ack_reason := read_u8 in
    if remaining_len h <? 4 then
      let! reason := lift (v5_puback_reason ack_reason) in
      ret (mkPubAck pkid (Some reason), None)
    else
      let! reason := lift (v5_puback_reason ack_reason) in
      let! properties := v5_puback_properties_read in
      ret (mkPubAck pkid (Some reason), properties).

(** *** pubrec.rs *)

Definition v5_pubrec_reason (num : Z) : outcome Error PubRecReason :=
  match num with
  | 0 => Ok PR_Success
  | 16 => Ok PR_NoMatchingSubscribers
  | 128 => Ok PR_UnspecifiedError
  | 131 => Ok PR_ImplementationSpecificError
  | 135 => Ok PR_NotAuthorized
  | 144 => Ok PR_TopicNameInvalid
  | 145 => Ok PR_PacketIdentifierInUse
  | 151 => Ok PR_QuotaExceeded
  | 153 => Ok PR_PayloadFormatInvalid
  | num => Err (InvalidConnectReturnCode num)
  end.

Definition v5_pubrec_code (reason : PubRecReason) : Z :=
  match reason with
  | PR_Success => 0
  | PR_NoMatchingSubscribers => 16
  | PR_UnspecifiedError => 128
  | PR_ImplementationSpecificError => 131
  | PR_NotAuthorized => 135
  | PR_TopicNameInvalid => 144
  | PR_PacketIdentifierInUse => 145
  | PR_QuotaExceeded => 151
  | PR_PayloadFormatInvalid => 153
  end.

(** [pubrec.reason.unwrap()] panics when there is no reason. *)
Definition v5_pubrec_len (pubrec : PubRec) (properties : option PubRecProperties) : R Z :=
  let len := 2 + 1 in
  let! reason := unwrap (pr_reason pubrec) in
  if bool_decide (reason = PR_Success) && is_none properties then ret 2
  else ret (len + opt_properties_len v5_pubrec_properties_len properties).

Definition v5_pubrec_write (pubrec : PubRec) (properties : option PubRecProperties) : R Z :=
  let! len := v5_pubrec_len pubrec properties in
  put_u8 80 ;;
  let! count := write_remaining_length len in
  put_u16 (pr_pkid pubrec) ;;
  let! reason := unwrap (pr_reason pubrec) in
  if bool_decide (reason = PR_Success) && is_none properties then ret 4
  else
    put_u8 (v5_pubrec_code reason) ;;
    opt_properties_write v5_pubrec_properties_write properties ;;
    ret (1 + count + len).

Definition v5_pubrec_read (h : FixedHeader) : R (PubRec * option PubRecProperties) :=
  skip_header h ;;
  let! pkid := read_u16 in
  if remaining_len h =? 2 then ret (mkPubRec pkid (Some PR_Success), None)
  else
    let! ack_reason := read_u8 in
    if remaining_len h <? 4 then
      let! reason := lift (v5_pubrec_reason ack_reason) in
      ret (mkPubRec pkid (Some reason), None)
    else
      let! reason := lift (v5_pubrec_reason ack_reason) in
      let! properties := v5_pubrec_properties_read in
      ret (mkPubRec pkid (Some reason), properties).

(** *** pubrel.rs *)

Definition v5_pubrel_reason (num : Z) : outcome Error PubRelReason :=
  match num with
  | 0 => Ok PL_Success
  | 146 => Ok PL_PacketIdentifierNotFound
  | num => Err (InvalidConnectReturnCode num)
  end.

Definition v5_pubrel_code (reason : PubRelReason) : Z :=
  match reason with
  | PL_Success => 0
  | PL_PacketIdentifierNotFound => 146
  end.

(** [pubrel.reason.unwrap()] panics when there is no reason. *)
Definition v5_pubrel_len (pubrel : PubRel) (properties : option PubRelProperties) : R Z :=
  let len := 2 + 1 in
  let! reason := unwrap (pl_reason pubrel) in
  if bool_decide (reason = PL_Success) && is_none properties then ret 2
  else ret (len + opt_properties_len v5_pubrel_properties_len properties).

Definition v5_pubrel_write (pubrel : PubRel) (properties : option PubRelProperties) : R Z :=
  let! len := v5_pubrel_len pubrel properties in
  put_u8 98 ;;
  let! count := write_remaining_length len in
  put_u16 (pl_pkid pubrel) ;;
  let! reason := unwrap (pl_reason pubrel) in
  if bool_decide (reason = PL_Success) && is_none properties then ret 4
  else
    put_u8 (v5_pubrel_code reason) ;;
    opt_properties_write v5_pubrel_properties_write properties ;;
    ret (1 + count + len).

Definition v5_pubrel_read (h : FixedHeader) : R (PubRel * option PubRelProperties) :=
  skip_header h ;;
  let! pkid := read_u16 in
  if remaining_len h =? 2 then ret (mkPubRel pkid (Some PL_Success), None)
  else
    let! ack_reason := read_u8 in
    if remaining_len h <? 4 then
      let! reason := lift (v5_pubrel_reason ack_reason) in
      ret (mkPubRel pkid (Some reason), None)
    else
      let! reason := lift (v5_pubrel_reason ack_reason) in
      let! properties := v5_pubrel_properties_read in
      ret (mkPubRel pkid (Some reason), properties).

(** *** pubcomp.rs *)

Definition v5_pubcomp_reason (num : Z) : outcome Error PubCompReason :=
  match num with
  | 0 => Ok PC_Success
  | 146 => Ok PC_PacketIdentifierNotFound
  | num => Err (InvalidConnectReturnCode num)
  end.

Definition v5_pubcomp_code (reason : PubCompReason) : Z :=
  match reason with
  | PC_Success => 0
  | PC_PacketIdentifierNotFound => 146
  end.

(** [pubcomp.reason.unwrap()] panics when there is no reason. *)
Definition v5_pubcomp_len (pubcomp : PubComp) (properties : option PubCompProperties) : R Z :=
  let len := 2 + 1 in
  let! reason := unwrap (pc_reason pubcomp) in
  if bool_decide (reason = PC_Success) && is_none properties then ret 2
  else ret (len + opt_properties_len v5_pubcomp_properties_len properties).

Definition v5_pubcomp_write (pubcomp : PubComp) (properties : option PubCompProperties) : R Z :=
  let! len := v5_pubcomp_len pubcomp properties in
  put_u8 112 ;;
  let! count := write_remaining_length len in
  put_u16 (pc_pkid pubcomp) ;;
  let! reason := unwrap (pc_reason pubcomp) in
  if bool_decide (reason = PC_Success) && is_none properties then ret 4
  else
    put_u8 (v5_pubcomp_code reason) ;;
    opt_properties_write v5_pubcomp_properties_write properties ;;
    ret (1 + count + len).

Definition v5_pubcomp_read (h : FixedHeader) : R (PubComp * option PubCompProperties) :=
  skip_header h ;;
  let! pkid := read_u16 in
  if remaining_len h =? 2 then ret (mkPubComp pkid (Some PC_Success), None)
  else
    let! ack_reason := read_u8 in
    if remaining_len h <? 4 then
      let! reason := lift (v5_pubcomp_reason ack_reason) in
      ret (mkPubComp pkid (Some reason), None)
    else
      let! reason := lift (v5_pubcomp_reason ack_reason) in
      let! properties := v5_pubcomp_properties_read in
      ret (mkPubComp pkid (Some reason), properties).

(** *** subscribe.rs *)

Definition v5_filter_len (filter : Filter) : Z := 2 + blen (path filter) + 1.

Definition v5_filter_write (filter : Filter) : R unit :=
  let options := Z.lor 0 (u8_of_QoS (f_qos filter)) in
  let options := if nolocal filter then Z.lor options 4 else options in
  let options := if preserve_retain filter then Z.lor options 8 else options in
  let options := Z.lor options (match retain_forward_rule filter with
                                | OnEverySubscribe => 0
                                | OnNewSubscribe => 16
                                | Never => 32
                                end) in
  write_mqtt_string (path filter) ;;
  put_u8 options.

Definition v5_subscribe_len (subscribe : Subscribe) (properties : option SubscribeProperties) : Z :=
  let len := 2 + foldl (fun s t => s + v5_filter_len t) 0 (filters subscribe) in
  len + opt_properties_len v5_subscribe_properties_len properties.

(** The body of the [while] loop of [read]. *)
Definition v5_filter_read_one : R Filter :=
  let! path := read_mqtt_string in
  let! options := read_u8 in
  let requested_qos := Z.land options 3 in
  let nolocal := Z.land (Z.shiftr options 2) 1 in
  let nolocal := negb (nolocal =? 0) in
  let preserve_retain := Z.land (Z.shiftr options 3) 1 in
  let preserve_retain := negb (preserve_retain =? 0) in
  let retain_forward_rule := Z.land (Z.shiftr options 4) 3 in
  let! retain_forward_rule :=
    match retain_forward_rule with
    | 0 => ret OnEverySubscribe
    | 1 => ret OnNewSubscribe
    | 2 => ret Never
    | r => fail (InvalidRetainForwardRule r)
    end in
  let! qos := ok_or (qos requested_qos) (InvalidQoS requested_qos) in
  ret (mkFilter path qos nolocal preserve_retain retain_forward_rule).

Definition v5_subscribe_read (h : FixedHeader) : R (Subscribe * option SubscribeProperties) :=
  skip_header h ;;
  let! pkid := read_u16 in
  let! properties := v5_subscribe_properties_read in
  let! stream := get in
  let! filters := while_remaining (length stream) v5_filter_read_one [] in
  match filters with
  | [] => fail EmptySubscription
  | _ => ret (mkSubscribe pkid filters, properties)
  end.

Definition v5_subscribe_write (subscribe : Subscribe) (properties : option SubscribeProperties)
  : R Z :=
  put_u8 130 ;;
  let remaining_len := v5_subscribe_len subscribe properties in
  let! remaining_len_bytes := write_remaining_length remaining_len in
  put_u16 (packet_identifier subscribe) ;;
  opt_properties_write v5_subscribe_properties_write properties ;;
  for_each (filters subscribe) v5_filter_write ;;
  ret (1 + remaining_len_bytes + remaining_len).

(** *** suback.rs *)

Definition v5_suback_reason (code : Z) : outcome Error SubscribeReasonCode :=
  match code with
  | 0 => Ok SR_QoS0
  | 1 => Ok SR_QoS1
  | 2 => Ok SR_QoS2
  | 128 => Ok SR_Unspecified
  | 131 => Ok SR_ImplementationSpecific
  | 135 => Ok SR_NotAuthorized
  | 143 => Ok SR_TopicFilterInvalid
  | 145 => Ok SR_PkidInUse
  | 151 => Ok SR_QuotaExceeded
  | 158 => Ok SR_SharedSubscriptionsNotSupported
  | 161 => Ok SR_SubscriptionIdNotSupported
  | 162 => Ok SR_WildcardSubscriptionsNotSupported
  | v => Err (InvalidSubscribeReasonCode v)
  end.

Definition v5_suback_code (value : SubscribeReasonCode) : Z :=
  match value with
  | SR_Success qos => u8_of_QoS qos
  | SR_Failure => 128
  | SR_QoS0 => 0
  | SR_QoS1 => 1
  | SR_QoS2 => 2
  | SR_Unspecified => 128
  | SR_ImplementationSpecific => 131
  | SR_NotAuthorized => 135
  | SR_TopicFilterInvalid => 143
  | SR_PkidInUse => 145
  | SR_QuotaExceeded => 151
  | SR_SharedSubscriptionsNotSupported => 158
  | SR_SubscriptionIdNotSupported => 161
  | SR_WildcardSubscriptionsNotSupported => 162
  | SR_ExclusiveSubscriptionDisabled => 143
  | SR_TopicSubscribed => 151
  end.

Definition v5_suback_len (suback : SubAck) (properties : option SubAckProperties) : Z :=
  let len := 2 + blen (return_codes suback) in
  len + opt_properties_len v5_suback_properties_len properties.

Definition v5_suback_write (suback : SubAck) (properties : option SubAckProperties) : R Z :=
  put_u8 144 ;;
  let remaining_len := v5_suback_len suback properties in
  let! remaining_len_bytes := write_remaining_length remaining_len in
  put_u16 (sa_pkid suback) ;;
  opt_properties_write v5_suback_properties_write properties ;;
  let p := map v5_suback_code (return_codes suback) in
  put_slice p ;;
  ret (1 + remaining_len_bytes + remaining_len).

Definition v5_suback_read_one : R SubscribeReasonCode :=
  let! return_code := read_u8 in lift (v5_suback_reason return_code).

Definition v5_suback_read (h : FixedHeader) : R (SubAck * option SubAckProperties) :=
  skip_header h ;;
  let! pkid := read_u16 in
  let! properties := v5_suback_properties_read in
  let! stream := get in
  if blen stream =? 0 then fail MalformedPacket
  else
    let! return_codes := while_remaining (length stream) v5_suback_read_one [] in
    ret (mkSubAck pkid return_codes, properties).

(** *** unsubscribe.rs *)

Definition v5_unsubscribe_len (unsubscribe : Unsubscribe)
    (properties : option UnsubscribeProperties) : Z :=
  let len := 2 + foldl (fun s t => 2 + s + blen t) 0 (un_filters unsubscribe) in
  len + opt_properties_len v5_unsubscribe_properties_len properties.

Definition v5_unsubscribe_write (unsubscribe : Unsubscribe)
    (properties : option UnsubscribeProperties) : R Z :=
  put_u8 162 ;;
  let remaining_len := v5_unsubscribe_len unsubscribe properties in
  let! remaining_len_bytes := write_remaining_length remaining_len in
  put_u16 (un_pkid unsubscribe) ;;
  opt_properties_write v5_unsubscribe_properties_write properties ;;
  for_each (un_filters unsubscribe) write_mqtt_string ;;
  ret (1 + remaining_len_bytes + remaining_len).

Definition v5_unsubscribe_read (h : FixedHeader)
  : R (Unsubscribe * option UnsubscribeProperties) :=
  skip_header h ;;
  let! pkid := read_u16 in
  let! properties := v5_unsubscribe_properties_read in
  let! stream := get in
  let! filters := while_remaining (length stream) read_mqtt_string [] in
  ret (mkUnsubscribe pkid filters, properties).

(** *** unsuback.rs *)

Definition v5_unsuback_reason (num : Z) : outcome Error UnsubAckReason :=
  match num with
  | 0 => Ok UR_Success
  | 17 => Ok UR_NoSubscriptionExisted
  | 128 => Ok UR_UnspecifiedError
  | 131 => Ok UR_ImplementationSpecificError
  | 135 => Ok UR_NotAuthorized
  | 143 => Ok UR_TopicFilterInvalid
  | 145 => Ok UR_PacketIdentifierInUse
  | num => Err (InvalidSubscribeReasonCode num)
  end.

Definition v5_unsuback_code (reason : UnsubAckReason) : Z :=
  match reason with
  | UR_Success => 0
  | UR_NoSubscriptionExisted => 17
  | UR_UnspecifiedError => 128
  | UR_ImplementationSpecificError => 131
  | UR_NotAuthorized => 135
  | UR_TopicFilterInvalid => 143
  | UR_PacketIdentifierInUse => 145
  end.

Definition v5_unsuback_len (unsuback : UnsubAck) (properties : option UnsubAckProperties) : Z :=
  let len := 2 + blen (reasons unsuback) in
  len + opt_properties_len v5_unsuback_properties_len properties.

Definition v5_unsuback_write (unsuback : UnsubAck) (properties : option UnsubAckProperties) : R Z :=
  put_u8 176 ;;
  let remaining_len := v5_unsuback_len unsuback properties in
  let! remaining_len_bytes := write_remaining_length remaining_len in
  put_u16 (ua_pkid unsuback) ;;
  opt_properties_write v5_unsuback_properties_write properties ;;
  let p := map v5_unsuback_code (reasons unsuback) in
  put_slice p ;;
  ret (1 + remaining_len_bytes + remaining_len).

Definition v5_unsuback_read_one : R UnsubAckReason :=
  let! r := read_u8 in lift (v5_unsuback_reason r).

Definition v5_unsuback_read (h : FixedHeader) : R (UnsubAck * option UnsubAckProperties) :=
  skip_header h ;;
  let! pkid := read_u16 in
  let! properties := v5_unsuback_properties_read in
  let! stream := get in
  if blen stream =? 0 then fail MalformedPacket
  else
    let! reasons := while_remaining (length stream) v5_unsuback_read_one [] in
    ret (mkUnsubAck pkid reasons, properties).

(** *** disconnect.rs *)

Definition v5_disconnect_code (reason : DisconnectReasonCode) : Z :=
  match reason with
  | DR_NormalDisconnection => 0x00
  | DR_DisconnectWithWillMessage => 0x04
  | DR_UnspecifiedError => 0x80
  | DR_MalformedPacket => 0x81
  | DR_ProtocolError => 0x82
  | DR_ImplementationSpecificError => 0x83
  | DR_NotAuthorized => 0x87
  | DR_ServerBusy => 0x89
  | DR_ServerShuttingDown => 0x8B
  | DR_KeepAliveTimeout => 0x8D
  | DR_SessionTakenOver => 0x8E
  | DR_TopicFilterInvalid => 0x8F
  | DR_TopicNameInvalid => 0x90
  | DR_ReceiveMaximumExceeded => 0x93
  | DR_TopicAliasInvalid => 0x94
  | DR_PacketTooLarge => 0x95
  | DR_MessageRateTooHigh => 0x96
  | DR_QuotaExceeded => 0x97
  | DR_AdministrativeAction => 0x98
  | DR_PayloadFormatInvalid => 0x99
  | DR_RetainNotSupported => 0x9A
  | DR_QoSNotSupported => 0x9B
  | DR_UseAnotherServer => 0x9C
  | DR_ServerMoved => 0x9D
  | DR_SharedSubscriptionNotSupported => 0x9E
  | DR_ConnectionRateExceeded => 0x9F
  | DR_MaximumConnectTime => 0xA0
  | DR_SubscriptionIdentifiersNotSupported => 0xA1
  | DR_WildcardSubscriptionsNotSupported => 0xA2
  end.

Definition v5_disconnect_reason (num : Z) : outcome Error DisconnectReasonCode :=
  match num with
  | 0x00 => Ok DR_NormalDisconnection
  | 0x04 => Ok DR_DisconnectWithWillMessage
  | 0x80 => Ok DR_UnspecifiedError
  | 0x81 => Ok DR_MalformedPacket
  | 0x82 => Ok DR_ProtocolError
  | 0x83 => Ok DR_ImplementationSpecificError
  | 0x87 => Ok DR_NotAuthorized
  | 0x89 => Ok DR_ServerBusy
  | 0x8B => Ok DR_ServerShuttingDown
  | 0x8D => Ok DR_KeepAliveTimeout
  | 0x8E => Ok DR_SessionTakenOver
  | 0x8F => Ok DR_TopicFilterInvalid
  | 0x90 => Ok DR_TopicNameInvalid
  | 0x93 => Ok DR_ReceiveMaximumExceeded
  | 0x94 => Ok DR_TopicAliasInvalid
  | 0x95 => Ok DR_PacketTooLarge
  | 0x96 => Ok DR_MessageRateTooHigh
  | 0x97 => Ok DR_QuotaExceeded
  | 0x98 => Ok DR_AdministrativeAction
  | 0x99 => Ok DR_PayloadFormatInvalid
  | 0x9A => Ok DR_RetainNotSupported
  | 0x9B => Ok DR_QoSNotSupported
  | 0x9C => Ok DR_UseAnotherServer
  | 0x9D => Ok DR_ServerMoved
  | 0x9E => Ok DR_SharedSubscriptionNotSupported
  | 0x9F => Ok DR_ConnectionRateExceeded
  | 0xA0 => Ok DR_MaximumConnectTime
  | 0xA1 => Ok DR_SubscriptionIdentifiersNotSupported
  | 0xA2 => Ok DR_WildcardSubscriptionsNotSupported
  | num => Err (InvalidConnectReturnCode num)
  end.

Definition v5_disconnect_len (disconnect : Disconnect)
    (properties : option DisconnectProperties) : Z :=
  match reason_code disconnect with
  | None => 0
  | Some reason =>
      if bool_decide (reason = DR_NormalDisconnection) && is_none properties then 2
      else
        match properties with
        | Some properties =>
            let length := 1 in
            let properties_len := v5_disconnect_properties_len properties in
            let properties_len_len := len_len properties_len in
            length + (properties_len_len + properties_len)
        | None => 1
        end
  end.

Definition v5_disconnect_write (disconnect : Disconnect)
    (properties : option DisconnectProperties) : R Z :=
  put_u8 224 ;;
  let length := v5_disconnect_len disconnect properties in
  if length =? 0 then ret 0
  else if length =? 2 then put_u8 0 ;; ret length
  else
    let! len_len := write_remaining_length length in
    let! reason := unwrap (reason_code disconnect) in
    put_u8 (v5_disconnect_code reason) ;;
    opt_properties_write v5_disconnect_properties_write properties ;;
    ret (1 + len_len + length).

Definition v5_disconnect_read (h : FixedHeader) : R (Disconnect * option DisconnectProperties) :=
  let packet_type := Z.shiftr (byte1 h) 4 in
  let flags := Z.land (byte1 h) 15 in
  skip_header h ;;
  if negb (packet_type =? u8_of_PacketType PT_Disconnect) then fail (InvalidPacketType packet_type)
  else if negb (flags =? 0) then fail MalformedPacket
  else if remaining_len h =? 0 then ret (mkDisconnect (Some DR_NormalDisconnection), None)
  else
    let! reason_code := read_u8 in
    let! reason := lift (v5_disconnect_reason reason_code) in
    let! properties := v5_disconnect_properties_read in
    ret (mkDisconnect (Some reason), properties).

(** *** auth.rs *)

Definition v5_auth_code (reason : AuthReason) : Z :=
  match reason with
  | AU_Success => 0x00
  | AU_ContinueAuthentication => 0x18
  | AU_ReAuthenticate => 0x19
  end.

Definition v5_auth_reason (num : Z) : outcome Error AuthReason :=
  match num with
  | 0x00 => Ok AU_Success
  | 0x18 => Ok AU_ContinueAuthentication
  | 0x19 => Ok AU_ReAuthenticate
  | num => Err (InvalidConnectReturnCode num)
  end.

Definition v5_auth_len (auth : Auth) (properties : option AuthProperties) : R Z :=
  let! reason := unwrap (au_reason auth) in
  if bool_decide (reason = AU_Success) && is_none properties then ret 2
  else
    let len := 0 in
    ret (len + opt_properties_len v5_auth_properties_len properties).

Definition v5_auth_write (auth : Auth) (properties : option AuthProperties) : R Z :=
  let! len := v5_auth_len auth properties in
  put_u8 240 ;;
  if len =? 2 then put_u8 0 ;; ret len
  else
    let! count := write_remaining_length len in
    let! reason := unwrap (au_reason auth) in
    put_u8 (v5_auth_code reason) ;;
    opt_properties_write v5_auth_properties_write properties ;;
    ret (1 + count + len).

Definition v5_auth_read (h : FixedHeader) : R (Auth * option AuthProperties) :=
  let packet_type := Z.shiftr (byte1 h) 4 in
  let flags := Z.land (byte1 h) 15 in
  skip_header h ;;
  if negb (packet_type =? u8_of_PacketType PT_Auth) then fail (InvalidPacketType packet_type)
  else if negb (flags =? 0) then fail MalformedPacket
  else if remaining_len h =? 0 then ret (mkAuth (Some AU_Success), None)
  else
    let! reason_code := read_u8 in
    let! reason := lift (v5_auth_reason reason_code) in
    let! properties := v5_auth_properties_read in
    ret (mkAuth (Some reason), properties).

(** *** ping.rs *)

Definition v5_pingreq_write : R Z := put_slice [192; 0] ;; ret 2.
Definition v5_pingresp_write : R Z := put_slice [208; 0] ;; ret 2.
End definitions.
