(* ===== verification/V5Wire.v ===== *)
(** * The MQTT 5 packets: what [write] emits and what [read] recovers

    The wire form of every packet, the octets its [write] appends, and the
    packet its [read] recovers from them.  The properties enter through the
    contract [PropertySet] alone. *)

From Stdlib Require Import String.
From S2P Require Import Prelude Bytes MqttTypes MqttCommon MqttV4 V5Props V5PropDefs V5PropSets V5Packets.

(** ** The wire form *)

Definition props_wire {P : Type} (items : P -> list item) (o : option P) : bytes :=
  properties_wire (opt_items items o).

Definition v5_will_wire (wp : option LastWillProperties) (w : LastWill) : bytes :=
  props_wire wp_items wp ++ will_wire w.

Definition v5_connect_body (c : Connect) (p : option ConnectProperties) (w : option LastWill)
    (wp : option LastWillProperties) (l : option Login) : bytes :=
  wire_bytes (lit "MQTT") ++ [5] ++ [connect_flags_of c l w] ++ be16 (keep_alive c)
  ++ props_wire cp_items p ++ wire_bytes (client_id c)
  ++ opt_wire (v5_will_wire wp) w ++ opt_wire login_wire l.

Definition v5_connack_body (a : ConnAck) (code : Z) (p : option ConnAckProperties) : bytes :=
  [bool_as_u8 (session_present a)] ++ [code] ++ props_wire cap_items p.

Definition v5_publish_body (m : Publish) (p : option PublishProperties) : bytes :=
  wire_bytes (topic m) ++ pkid_wire m ++ props_wire pp_items p ++ payload m.

(** The reason and the properties are left out on success without properties. *)
Definition ack_body (pkid code : Z) (short : bool) (l : list item) : bytes :=
  be16 pkid ++ (if short then [] else [code] ++ properties_wire l).
Definition ack_short {R P : Type} `{EqDecision R} (success r : R) (p : option P) : bool :=
  bool_decide (r = success) && is_none p.

Definition puback_body (k : Z) (r : PubAckReason) (p : option PubAckProperties) : bytes :=
  ack_body k (v5_puback_code r) (ack_short PA_Success r p) (opt_items pap_items p).
Definition pubrec_body (k : Z) (r : PubRecReason) (p : option PubRecProperties) : bytes :=
  ack_body k (v5_pubrec_code r) (ack_short PR_Success r p) (opt_items prp_items p).
Definition pubrel_body (k : Z) (r : PubRelReason) (p : option PubRelProperties) : bytes :=
  ack_body k (v5_pubrel_code r) (ack_short PL_Success r p) (opt_items plp_items p).
Definition pubcomp_body (k : Z) (r : PubCompReason) (p : option PubCompProperties) : bytes :=
  ack_body k (v5_pubcomp_code r) (ack_short PC_Success r p) (opt_items pcp_items p).

Definition v5_filter_options (f : Filter) : Z :=
  u8_of_QoS (f_qos f) + bool_as_u8 (nolocal f) * 4 + bool_as_u8 (preserve_retain f) * 8
  + u8_of_RetainForwardRule (retain_forward_rule f) * 16.
Definition v5_filter_wire (f : Filter) : bytes := wire_bytes (path f) ++ [v5_filter_options f].

Definition v5_subscribe_body (s : Subscribe) (p : option SubscribeProperties) : bytes :=
  be16 (packet_identifier s) ++ props_wire sp_items p ++ concat (map v5_filter_wire (filters s)).
Definition v5_suback_body (a : SubAck) (p : option SubAckProperties) : bytes :=
  be16 (sa_pkid a) ++ props_wire sap_items p ++ map v5_suback_code (return_codes a).
Definition v5_unsubscribe_body (u : Unsubscribe) (p : option UnsubscribeProperties) : bytes :=
  be16 (un_pkid u) ++ props_wire up_items p ++ concat (map wire_bytes (un_filters u)).
Definition v5_unsuback_body (a : UnsubAck) (p : option UnsubAckProperties) : bytes :=
  be16 (ua_pkid a) ++ props_wire uap_items p ++ map v5_unsuback_code (reasons a).
Definition v5_disconnect_body (r : DisconnectReasonCode) (p : option DisconnectProperties) : bytes :=
  [v5_disconnect_code r] ++ props_wire dp_items p.

(** ** Well-formed packets *)

Definition v5_suback_code_wf (c : SubscribeReasonCode) : Prop :=
  v5_suback_reason (v5_suback_code c) = Ok c.
Definition v5_subscribe_wf (s : Subscribe) : Prop :=
  u16 (packet_identifier s) /\ filters s <> [] /\ Forall (fun f => string_wf (path f)) (filters s).
Definition v5_suback_wf (a : SubAck) : Prop :=
  u16 (sa_pkid a) /\ return_codes a <> [] /\ Forall v5_suback_code_wf (return_codes a).
Definition v5_unsuback_wf (a : UnsubAck) : Prop := u16 (ua_pkid a) /\ reasons a <> [].

(** ** Properties inside a packet *)

Section props.
Context {BC : BytesCrate} {BS : BytesSpec BC}.
Context {P : Type} {items : P -> list item} {ok fit : P -> Prop}.
Context {len : P -> Z} {write : P -> R unit} {read : R (option P)}.
Context {PS : PropertySet items ok fit len write read}.

Lemma props_wf_fit o : props_wf items fit o -> opt_all fit o.
Proof. destruct o; [by intros [? _]|done]. Qed.

Lemma blen_props_wire o :
  blen (props_wire items o) <= max_remaining ->
  blen (items_wire (opt_items items o)) <= max_remaining /\
  blen (props_wire items o)
  = len_len (blen (items_wire (opt_items items o))) + blen (items_wire (opt_items items o)).
Proof.
  unfold props_wire, properties_wire. rewrite blen_app. intros Hsz.
  assert (blen (items_wire (opt_items items o)) <= max_remaining) by blia.
  split; [done|]. rewrite blen_varint by blia. done.
Qed.

Lemma opt_len_wire o :
  opt_all fit o -> blen (props_wire items o) <= max_remaining ->
  opt_properties_len len o = blen (props_wire items o).
Proof.
  intros Ho Hsz. destruct (blen_props_wire o Hsz) as [_ ->].
  destruct o as [p|]; [|done]. cbn. by rewrite (ps_len (len := len) p Ho).
Qed.

Lemma opt_write_wire o :
  opt_all fit o -> blen (props_wire items o) <= max_remaining ->
  appends (opt_properties_write write o) (props_wire items o) tt.
Proof.
  intros Ho Hsz. destruct (blen_props_wire o Hsz) as [Hi _].
  destruct o as [p|]; [exact (ps_write (write := write) p Ho Hi)|]. apply (write_varint_appends 0). by split.
Qed.

Lemma opt_read_wire o :
  props_wf items fit o -> blen (props_wire items o) <= max_remaining ->
  parses read (props_wire items o) o.
Proof.
  intros Ho Hsz. destruct (blen_props_wire o Hsz) as [Hi _].
  destruct o as [p|]; [|exact (ps_read_none (read := read))].
  destruct Ho as [Hf Hne]. exact (ps_read (read := read) p Hf Hne Hi).
Qed.

Lemma blen_props_pos o : 1 <= blen (props_wire items o).
Proof.
  unfold props_wire, properties_wire. rewrite blen_app.
  assert (1 <= blen (varint (blen (items_wire (opt_items items o))))).
  { unfold varint. cbn [varint_fuel]. case_match; blia. }
  blia.
Qed.
End props.

(** ** Writers *)

Section writers.
Context {BC : BytesCrate} {BS : BytesSpec BC}.

Lemma v5_connect_code_return code n rest :
  v5_connect_return n = Ok code -> v5_connect_code code rest = (Ok n, rest).
Proof.
  unfold v5_connect_return. intros H. repeat case_match; simplify_eq; reflexivity.
Qed.

Lemma v5_connect_return_bound code n : v5_connect_return n = Ok code -> u8 n.
Proof. unfold v5_connect_return. intros H. repeat case_match; done. Qed.

Lemma v5_connack_write_appends a n p :
  v5_connect_return n = Ok (ca_code a) -> opt_all cap_ok p ->
  blen (v5_connack_body a n p) <= max_remaining ->
  appends (v5_connack_write a p) (frame 32 (v5_connack_body a n p))
          (frame_size (v5_connack_body a n p)).
Proof.
  intros Hn Hp Hsz. pose proof (v5_connect_return_bound _ _ Hn).
  assert (u8 (bool_as_u8 (session_present a))) by (destruct (session_present a); done).
  assert (blen (props_wire cap_items p) <= max_remaining) by (unfold v5_connack_body in Hsz; blia).
  assert (v5_connack_len p = blen (v5_connack_body a n p)) as Hlen
    by (unfold v5_connack_len, v5_connack_body; cbv zeta;
        rewrite (opt_len_wire (len := v5_connack_properties_len)) by done; blia).
  unfold v5_connack_write. cbv zeta. apply write_frame; [done|done|by rewrite Hlen|].
  unfold v5_connack_body at 1. eapply appends_bind; [by apply put_u8_appends|].
  rewrite <- (app_nil_l ([n] ++ _)). eapply appends_bind.
  { intros buf. rewrite app_nil_r. by apply v5_connect_code_return. }
  eapply appends_bind; [by apply put_u8_appends|].
  eapply appends_cast; [eapply appends_bind; [by apply opt_write_wire|apply appends_ret]|app_eq|].
  unfold frame_size. by rewrite Hlen.
Qed.

Lemma v5_publish_len_body m p :
  publish_wf m -> opt_all pp_fit p -> blen (v5_publish_body m p) <= max_remaining ->
  v5_publish_len m p = blen (v5_publish_body m p).
Proof.
  intros (_ & _ & _ & Hk) Hp Hsz. unfold v5_publish_body in Hsz.
  unfold v5_publish_len, v5_publish_body, pkid_wire. cbv zeta.
  rewrite (opt_len_wire (len := v5_publish_properties_len)) by (done || blia).
  destruct (bool_decide_reflect (pub_qos m = AtMostOnce)); cbn; [blia|].
  rewrite (proj2 (Z.eqb_neq _ _)) by tauto. cbn. blia.
Qed.

Lemma v5_publish_write_appends m p :
  publish_wf m -> opt_all pp_fit p -> blen (v5_publish_body m p) <= max_remaining ->
  appends (v5_publish_write m p) (frame (publish_byte1 m) (v5_publish_body m p))
          (frame_size (v5_publish_body m p)).
Proof.
  intros Hm Hp Hsz. pose proof (v5_publish_len_body m p Hm Hp Hsz) as Hlen.
  assert (blen (props_wire pp_items p) <= max_remaining) by (unfold v5_publish_body in Hsz; blia).
  unfold v5_publish_write. cbv zeta. rewrite publish_byte1_eq.
  apply write_frame; [apply publish_byte1_u8|done|by rewrite Hlen|].
  unfold v5_publish_body at 1. eapply appends_bind; [apply write_mqtt_bytes_appends, Hm|].
  eapply appends_bind; [by apply pkid_write_appends|].
  eapply appends_bind; [by apply opt_write_wire|].
  eapply appends_cast; [appends_go|app_eq|]. unfold frame_size. by rewrite Hlen.
Qed.

(** The four acknowledgements share their shape. *)
Lemma ack_write_appends_v5 {P} {items : P -> list item} {ok fit len write read}
    `{PS : !PropertySet items ok fit len write read} b pkid code short (p : option P) :
  u8 b -> u16 pkid -> u8 code -> opt_all fit p -> (short = true -> p = None) ->
  blen (ack_body pkid code short (opt_items items p)) <= max_remaining ->
  let n := if short then 2 else 2 + 1 + opt_properties_len len p in
  appends (put_u8 b ;;
           let! count := write_remaining_length n in
           put_u16 pkid ;;
           if short then ret 4
           else put_u8 code ;; opt_properties_write write p ;; ret (1 + count + n))
          (frame b (ack_body pkid code short (opt_items items p)))
          (frame_size (ack_body pkid code short (opt_items items p))).
Proof.
  intros Hb Hk Hc Hp Hs Hsz n.
  assert (n = blen (ack_body pkid code short (opt_items items p))) as Hn.
  { unfold n, ack_body in *. destruct short; [done|]. fold (props_wire items p) in *.
    rewrite (opt_len_wire (len := len)) by (done || blia). blia. }
  apply write_frame; [done|done|by rewrite Hn|].
  unfold frame_size. rewrite <- Hn. unfold n, ack_body in *. destruct short.
  - eapply appends_cast; [appends_go|app_eq|done].
  - fold (props_wire items p) in *. eapply appends_bind; [by apply put_u16_appends|].
    eapply appends_bind; [by apply put_u8_appends|].
    eapply appends_cast; [eapply appends_bind; [apply opt_write_wire|apply appends_ret]|app_eq|done];
      [done|blia].
Qed.

Lemma ack_short_none {T P} `{EqDecision T} (a r : T) (p : option P) :
  ack_short a r p = true -> p = None.
Proof. unfold ack_short. destruct p; [|done]. by rewrite andb_false_r. Qed.

(** A writer that computes [len] from the reason first is the shared shape. *)
Ltac ack_write_v5 unfold_write len code success :=
  lazymatch goal with |- ?k -> _ -> _ -> appends (_ (_ ?pk (Some ?r)) ?p) (frame ?b _) _ =>
    intros Hk Hp Hsz buf; etrans;
    [| refine (ack_write_appends_v5 (len := len) b pk (code r) (ack_short success r p) p
                 _ _ _ _ _ Hsz buf);
       [done|done|by destruct r|done|apply ack_short_none] ];
    unfold_write; unfold ack_short; cbn;
    by destruct (bool_decide (r = success) && is_none p) end.

Lemma v5_puback_write_appends k r p :
  u16 k -> opt_all pap_ok p -> blen (puback_body k r p) <= max_remaining ->
  appends (v5_puback_write (mkPubAck k (Some r)) p) (frame 64 (puback_body k r p))
          (frame_size (puback_body k r p)).
Proof.
  ack_write_v5 ltac:(unfold v5_puback_write, v5_puback_len, bind, ret) v5_puback_properties_len
    v5_puback_code PA_Success.
Qed.

Lemma v5_pubrec_write_appends k r p :
  u16 k -> opt_all prp_ok p -> blen (pubrec_body k r p) <= max_remaining ->
  appends (v5_pubrec_write (mkPubRec k (Some r)) p) (frame 80 (pubrec_body k r p))
          (frame_size (pubrec_body k r p)).
Proof.
  ack_write_v5 ltac:(unfold v5_pubrec_write, v5_pubrec_len, bind, ret) v5_pubrec_properties_len
    v5_pubrec_code PR_Success.
Qed.

Lemma v5_pubrel_write_appends k r p :
  u16 k -> opt_all plp_ok p -> blen (pubrel_body k r p) <= max_remaining ->
  appends (v5_pubrel_write (mkPubRel k (Some r)) p) (frame 98 (pubrel_body k r p))
          (frame_size (pubrel_body k r p)).
Proof.
  ack_write_v5 ltac:(unfold v5_pubrel_write, v5_pubrel_len, bind, ret) v5_pubrel_properties_len
    v5_pubrel_code PL_Success.
Qed.

Lemma v5_pubcomp_write_appends k r p :
  u16 k -> opt_all pcp_ok p -> blen (pubcomp_body k r p) <= max_remaining ->
  appends (v5_pubcomp_write (mkPubComp k (Some r)) p) (frame 112 (pubcomp_body k r p))
          (frame_size (pubcomp_body k r p)).
Proof.
  ack_write_v5 ltac:(unfold v5_pubcomp_write, v5_pubcomp_len, bind, ret) v5_pubcomp_properties_len
    v5_pubcomp_code PC_Success.
Qed.

Lemma filter_options_eq f :
  let options := Z.lor 0 (u8_of_QoS (f_qos f)) in
  let options := if nolocal f then Z.lor options 4 else options in
  let options := if preserve_retain f then Z.lor options 8 else options in
  Z.lor options (match retain_forward_rule f with
                 | OnEverySubscribe => 0 | OnNewSubscribe => 16 | Never => 32 end)
  = v5_filter_options f.
Proof.
  unfold v5_filter_options.
  by destruct (f_qos f), (nolocal f), (preserve_retain f), (retain_forward_rule f).
Qed.

Lemma v5_filter_options_u8 f : u8 (v5_filter_options f).
Proof.
  unfold v5_filter_options.
  destruct (f_qos f), (nolocal f), (preserve_retain f), (retain_forward_rule f);
    split; by vm_compute.
Qed.

(** SUBSCRIBE, SUBACK, UNSUBSCRIBE and UNSUBACK: an identifier, properties and
    a payload. *)
Lemma list_packet_appends {P} {items : P -> list item} {ok fit len write read}
    `{PS : !PropertySet items ok fit len write read} b pkid (p : option P) (wr : R unit) out n :
  u8 b -> u16 pkid -> opt_all fit p -> appends wr out tt ->
  blen (be16 pkid ++ props_wire items p ++ out) <= max_remaining ->
  n = 2 + blen out + opt_properties_len len p ->
  appends (put_u8 b ;;
           let! count := write_remaining_length n in
           put_u16 pkid ;;
           opt_properties_write write p ;;
           wr ;;
           ret (1 + count + n))
          (frame b (be16 pkid ++ props_wire items p ++ out))
          (frame_size (be16 pkid ++ props_wire items p ++ out)).
Proof.
  intros Hb Hk Hp Hwr Hsz ->.
  assert (2 + blen out + opt_properties_len len p
          = blen (be16 pkid ++ props_wire items p ++ out)) as Hn
    by (rewrite (opt_len_wire (len := len)) by (done || blia); blia).
  apply write_frame; [done|done|by rewrite Hn|].
  eapply appends_bind; [by apply put_u16_appends|].
  eapply appends_bind; [apply opt_write_wire; [done|blia]|].
  eapply appends_cast; [eapply appends_bind; [exact Hwr|apply appends_ret]|app_eq|].
  unfold frame_size. by rewrite Hn.
Qed.

Lemma v5_subscribe_write_appends s p :
  v5_subscribe_wf s -> opt_all sp_fit p -> blen (v5_subscribe_body s p) <= max_remaining ->
  appends (v5_subscribe_write s p) (frame 130 (v5_subscribe_body s p))
          (frame_size (v5_subscribe_body s p)).
Proof.
  intros (Hk & _ & Hf) Hp Hsz. rewrite Forall_forall in Hf.
  apply (list_packet_appends (len := v5_subscribe_properties_len)); [done..| |done|].
  - apply appends_for_each. intros f Hin. destruct (Hf _ Hin) as [? _].
    unfold v5_filter_write. rewrite filter_options_eq. unfold v5_filter_wire.
    eapply appends_bind; [by apply write_mqtt_string_appends|].
    apply put_u8_appends, v5_filter_options_u8.
  - unfold v5_subscribe_len. rewrite (fold_len_concat _ v5_filter_wire); [lia|].
    intros ? f. unfold v5_filter_len, v5_filter_wire. blia.
Qed.

Lemma v5_suback_write_appends a p :
  v5_suback_wf a -> opt_all sap_ok p -> blen (v5_suback_body a p) <= max_remaining ->
  appends (v5_suback_write a p) (frame 144 (v5_suback_body a p)) (frame_size (v5_suback_body a p)).
Proof.
  intros (Hk & _) Hp Hsz.
  apply (list_packet_appends (len := v5_suback_properties_len)); [done..| |done|].
  - apply put_slice_appends.
  - unfold v5_suback_len. rewrite blen_map. lia.
Qed.

Lemma v5_unsubscribe_write_appends u p :
  v4_unsubscribe_wf u -> opt_all up_ok p -> blen (v5_unsubscribe_body u p) <= max_remaining ->
  appends (v5_unsubscribe_write u p) (frame 162 (v5_unsubscribe_body u p))
          (frame_size (v5_unsubscribe_body u p)).
Proof.
  intros (Hk & Hf) Hp Hsz. rewrite Forall_forall in Hf.
  apply (list_packet_appends (len := v5_unsubscribe_properties_len)); [done..| |done|].
  - apply appends_for_each. intros f Hin. apply write_mqtt_string_appends, Hf, Hin.
  - unfold v5_unsubscribe_len. rewrite (fold_len_concat _ wire_bytes); [lia|]. intros. blia.
Qed.

Lemma v5_unsuback_write_appends a p :
  u16 (ua_pkid a) -> opt_all uap_ok p -> blen (v5_unsuback_body a p) <= max_remaining ->
  appends (v5_unsuback_write a p) (frame 176 (v5_unsuback_body a p))
          (frame_size (v5_unsuback_body a p)).
Proof.
  intros Hk Hp Hsz.
  apply (list_packet_appends (len := v5_unsuback_properties_len)); [done..| |done|].
  - apply put_slice_appends.
  - unfold v5_unsuback_len. rewrite blen_map. lia.
Qed.

Lemma v5_will_write_appends wp w :
  opt_all wp_ok wp -> will_wf w -> blen (v5_will_wire wp w) <= max_remaining ->
  appends (v5_will_write w wp) (v5_will_wire wp w) (will_flags w).
Proof.
  intros Hp [? ?] Hsz. unfold v5_will_wire in *. unfold v5_will_write, will_wire. cbv zeta.
  eapply appends_cast; [eapply appends_bind; [apply opt_write_wire; [done|blia]|appends_go]|app_eq|].
  unfold will_flags. destruct (lw_qos w), (lw_retain w); reflexivity.
Qed.

Lemma v5_connect_len_body c p w wp l :
  opt_all cp_ok p -> opt_all wp_ok wp -> blen (v5_connect_body c p w wp l) <= max_remaining ->
  v5_connect_len c p w wp l = blen (v5_connect_body c p w wp l).
Proof.
  intros Hp Hwp Hsz. unfold v5_connect_body in *. autorewrite with blen in *.
  unfold v5_connect_len. cbv zeta. change (blen (lit "MQTT")) with 4 in *.
  rewrite (opt_len_wire (len := v5_connect_properties_len)) by (done || blia).
  destruct l as [l|]; cbn [opt_wire] in *;
    [change (v5_login_len l) with (v4_login_len l); rewrite v4_login_len_wire|];
    (destruct w as [w|]; cbn [opt_wire] in *; [|blia]);
    unfold v5_will_wire, v5_will_len, will_wire in *; cbv zeta; autorewrite with blen in *;
    rewrite (opt_len_wire (len := v5_willproperties_len)) by (done || blia); blia.
Qed.

(** As in MQTT 3/4, [connect::write] patches the flags in at an index counted
    from the start of the buffer. *)
Lemma v5_connect_write_eval c p w wp l :
  connect_wf c -> opt_all cp_ok p -> opt_all will_wf w -> opt_all wp_ok wp ->
  opt_all login_wf l -> blen (v5_connect_body c p w wp l) <= max_remaining ->
  v5_connect_write c p w wp l []
  = (Ok (v5_connect_len c p w wp l), frame 16 (v5_connect_body c p w wp l)).
Proof.
  intros [Hk [Hid _]] Hp Hw Hwp Hl Hsz. pose proof (v5_connect_len_body c p w wp l Hp Hwp Hsz) as Hlen.
  assert (bytes_wf (lit "MQTT")) by (split; [repeat constructor; done|done]).
  assert (0 <= v5_connect_len c p w wp l <= max_remaining) as Hlm by blia.
  pose proof (blen_varint _ Hlm) as Hvar.
  assert (blen (props_wire cp_items p) <= max_remaining) by (unfold v5_connect_body in Hsz; blia).
  assert (blen (opt_wire (v5_will_wire wp) w) <= max_remaining) by (unfold v5_connect_body in Hsz; blia).
  assert (u8 (if clean_session c then Z.lor 0 2 else 0)) by (destruct (clean_session c); done).
  assert (u8 16) by done. assert (u8 5) by done.
  unfold v5_connect_write. cbv zeta. do 6 write_step.
  rewrite (appends_eval _ _ (props_wire cp_items p) tt) by (by apply opt_write_wire). write_step.
  erewrite (appends_eval _ _ (opt_wire (v5_will_wire wp) w) (add_flags will_flags w _))
    by (apply appends_opt_flags; intros ? ->; by apply v5_will_write_appends).
  erewrite (appends_eval _ _ (opt_wire login_wire l) (add_flags login_flags l _))
    by (apply appends_opt_flags; intros ? ->; by apply v4_login_write_appends).
  rewrite connect_flags_eq, app_nil_l, <- Hvar.
  set (pre := ((([16] ++ varint (v5_connect_len c p w wp l)) ++ wire_bytes (lit "MQTT")) ++ [5])).
  replace (1 + blen (varint (v5_connect_len c p w wp l)) + 2 + 4 + 1) with (blen pre)
    by (unfold pre; autorewrite with blen; change (blen (lit "MQTT")) with 4; lia).
  rewrite <- !(app_assoc pre). cbn [app].
  erewrite bind_ok by apply set_index_app.
  unfold frame, pre, ret. rewrite Hlen. do 2 f_equal. unfold v5_connect_body. cbn [app]. app_eq.
Qed.

(** DISCONNECT with properties, and the normal one without. *)
Lemma v5_disconnect_write_appends r p :
  dp_ok p -> dp_items p <> [] -> blen (v5_disconnect_body r (Some p)) <= max_remaining ->
  appends (v5_disconnect_write (mkDisconnect (Some r)) (Some p))
          (frame 224 (v5_disconnect_body r (Some p)))
          (frame_size (v5_disconnect_body r (Some p))).
Proof.
  intros Hp Hne Hsz. unfold v5_disconnect_body in Hsz. rewrite blen_app in Hsz.
  change (blen [v5_disconnect_code r]) with 1 in Hsz.
  assert (v5_disconnect_len (mkDisconnect (Some r)) (Some p)
          = blen (v5_disconnect_body r (Some p))) as Hlen.
  { unfold v5_disconnect_len, v5_disconnect_body. cbn [reason_code is_none is_some negb].
    rewrite andb_false_r, blen_app.
    rewrite <- (opt_len_wire (len := v5_disconnect_properties_len)) by (done || lia). done. }
  assert (2 < blen (v5_disconnect_body r (Some p))) as H2.
  { unfold v5_disconnect_body. rewrite blen_app. change (blen [_]) with 1.
    destruct (blen_props_wire (items := dp_items) (Some p)) as [_ ->]; [lia|].
    cbn [opt_items]. pose proof (len_len_bounds (blen (items_wire (dp_items p)))).
    destruct (Z.eq_dec (blen (items_wire (dp_items p))) 0) as [E|E];
      [by apply items_wire_nil_inv in E|blen_pose; lia]. }
  assert (u8 (v5_disconnect_code r)) by (by destruct r).
  unfold v5_disconnect_write. rewrite Hlen.
  rewrite (proj2 (Z.eqb_neq _ 0)), (proj2 (Z.eqb_neq _ 2)) by lia.
  apply write_frame; [done|done|unfold v5_disconnect_body; rewrite blen_app; exact Hsz|].
  unfold v5_disconnect_body. cbn [unwrap reason_code].
  eapply appends_cast;
    [eapply appends_bind; [apply appends_ret|]; eapply appends_bind; [by apply put_u8_appends|];
     eapply appends_bind; [apply opt_write_wire; [done|lia]|apply appends_ret]|app_eq|done].
Qed.

Lemma v5_disconnect_normal_appends :
  appends (v5_disconnect_write (mkDisconnect (Some DR_NormalDisconnection)) None) (frame 224 []) 2.
Proof.
  unfold v5_disconnect_write. change (frame 224 []) with ([224] ++ [0] ++ []).
  eapply appends_bind; [by apply put_u8_appends|].
  change (v5_disconnect_len _ _) with 2. cbv zeta. cbn [Z.eqb Pos.eqb].
  eapply appends_bind; [by apply put_u8_appends|apply appends_ret].
Qed.
End writers.

(** ** Readers *)

Section readers.
Context {BC : BytesCrate} {BS : BytesSpec BC}.

Lemma v5_will_read_parses c l w wp :
  opt_all will_wf w -> props_wf wp_items wp_ok wp -> (w = None -> wp = None) ->
  blen (opt_wire (v5_will_wire wp) w) <= max_remaining ->
  parses (v5_will_read (connect_flags_of c l w)) (opt_wire (v5_will_wire wp) w) (w, wp).
Proof.
  intros Hw Hwp Hnone Hsz rest. unfold v5_will_read, connect_flags_of.
  destruct (flags_of_read (clean_session c) (will_bits <$> w) (has_user l) (has_pass l))
    as (_ & E4 & _ & _ & E56 & Eq).
  rewrite E4. destruct w as [w|]; cbn [fmap option_fmap option_map opt_wire] in *.
  - rewrite bool_decide_eq_false_2 by done. destruct Hw as [Ht Hm].
    destruct (Eq (lw_qos w) (lw_retain w) eq_refl) as [-> ->].
    unfold v5_will_wire, will_wire in *. rewrite <- !app_assoc.
    rewrite (parses_eval _ _ _ wp) by (apply opt_read_wire; [done|blia]).
    do 2 parse_step. by destruct w.
  - rewrite bool_decide_eq_true_2, E56 by done. by rewrite Hnone.
Qed.

Lemma read_nonempty_string_parses (s : bytes) f m :
  string_wf s -> (Z.land f m =? 0) = negb (nonempty s) ->
  parses (if Z.land f m =? 0 then ret [] else read_mqtt_string) (wire_nonempty s) s.
Proof.
  intros Hs ->. unfold wire_nonempty. destruct (nonempty s) eqn:E; cbn.
  - by apply read_mqtt_string_parses.
  - unfold nonempty in E. bool_prop. rewrite (blen_0_inv _ E). apply parses_ret.
Qed.

Lemma v5_login_read_parses c l w :
  opt_all login_wf l -> parses (v5_login_read (connect_flags_of c l w)) (opt_wire login_wire l) l.
Proof.
  intros Hl. unfold v5_login_read, connect_flags_of.
  destruct (flags_of_read (clean_session c) (will_bits <$> w) (has_user l) (has_pass l))
    as (_ & _ & E128 & E64 & _ & _).
  destruct l as [[u p]|]; cbn [has_user has_pass username password opt_all opt_wire] in *.
  - destruct Hl as (Hu & Hp & Hne). cbn in *. unfold login_wire. cbn [username password].
    eapply parses_bind; [by apply read_nonempty_string_parses|].
    eapply parses_bind_nil; [by apply read_nonempty_string_parses|].
    unfold nonempty in Hne. rewrite <- negb_andb, negb_true_iff in Hne. rewrite Hne. apply parses_ret.
  - rewrite E128, E64. cbn. done.
Qed.

Lemma v5_connect_read_eval c p w wp l :
  connect_wf c -> props_wf cp_items cp_ok p -> opt_all will_wf w ->
  props_wf wp_items wp_ok wp -> (w = None -> wp = None) -> opt_all login_wf l ->
  blen (v5_connect_body c p w wp l) <= max_remaining ->
  v5_connect_read (hdr_of 16 (v5_connect_body c p w wp l)) (frame 16 (v5_connect_body c p w wp l))
  = (Ok (mkConnectReadOutcome 5 c p w wp l), []).
Proof.
  intros [Hk Hid] Hp Hw Hwp Hnone Hl Hsz. unfold v5_connect_read. rewrite read_frame.
  assert (string_wf (lit "MQTT")) by (repeat split; [repeat constructor; done]).
  pose proof (flags_of_u8 (clean_session c) (will_bits <$> w) (has_user l) (has_pass l)) as Hf.
  fold (connect_flags_of c l w) in Hf. assert (u8 5) by done.
  destruct (flags_of_read (clean_session c) (will_bits <$> w) (has_user l) (has_pass l))
    as (E2 & _). fold (connect_flags_of c l w) in E2.
  unfold v5_connect_body in *. do 2 parse_step. rewrite bool_decide_eq_true_2 by done.
  cbn [negb Z.eqb Pos.eqb]. do 2 parse_step.
  rewrite (parses_eval _ _ _ p) by (apply opt_read_wire; [done|blia]). parse_step.
  rewrite (parses_eval _ _ _ (w, wp)) by (apply v5_will_read_parses; [done..|blia]).
  rewrite <- (app_nil_r (opt_wire login_wire l)).
  rewrite (parses_eval _ _ _ _ _ (v5_login_read_parses c l w Hl)).
  rewrite E2. by destruct c.
Qed.

Lemma v5_connack_read_eval a n p :
  v5_connect_return n = Ok (ca_code a) -> props_wf cap_items cap_ok p ->
  blen (v5_connack_body a n p) <= max_remaining ->
  v5_connack_read (hdr_of 32 (v5_connack_body a n p)) (frame 32 (v5_connack_body a n p))
  = (Ok (a, p), []).
Proof.
  intros Hn Hp Hsz. pose proof (v5_connect_return_bound _ _ Hn).
  assert (u8 (bool_as_u8 (session_present a))) by (destruct (session_present a); done).
  unfold v5_connack_read. rewrite read_frame. unfold v5_connack_body in *.
  do 2 parse_step. rewrite <- (app_nil_r (props_wire _ _)).
  rewrite (parses_eval _ _ _ p) by (apply opt_read_wire; [done|blia]).
  unfold bind, lift. rewrite Hn. by destruct a as [[] ?].
Qed.

Lemma v5_publish_read_eval m p :
  publish_wf m -> props_wf pp_items pp_fit p -> blen (v5_publish_body m p) <= max_remaining ->
  v5_publish_read (hdr_of (publish_byte1 m) (v5_publish_body m p))
                  (frame (publish_byte1 m) (v5_publish_body m p)) = (Ok (m, p), payload m).
Proof.
  intros Hm Hp Hsz. destruct (publish_byte1_read m) as (Eq & Ed & Er).
  destruct (pkid_read_parses m Hm) as [Hpk Hnz].
  unfold v5_publish_read. cbn [byte1 hdr_of]. rewrite Eq, Ed, Er. cbn [ok_or].
  unfold bind at 1, ret at 1. rewrite read_frame. unfold v5_publish_body in *.
  rewrite (parses_eval _ _ _ _ _ (read_mqtt_bytes_parses _ (proj1 Hm))).
  rewrite (parses_eval _ _ _ _ _ Hpk), Hnz.
  rewrite (parses_eval _ _ _ p) by (apply opt_read_wire; [done|blia]).
  unfold bind, get, ret. by destruct m.
Qed.

(** The shared shape of the acknowledgements' readers. *)
Lemma ack_read_v5 {P A T} {items : P -> list item} {ok fit len write read}
    `{PS : !PropertySet items ok fit len write read} b pkid code short (p : option P)
    (mk : Z -> option T -> A) (success r : T) (reason : Z -> outcome Error T) :
  u16 pkid -> u8 code -> reason code = Ok r -> props_wf items fit p ->
  (short = true -> p = None /\ r = success) ->
  let body := ack_body pkid code short (opt_items items p) in
  blen body <= max_remaining ->
  (skip_header (hdr_of b body) ;;
   let! pkid := read_u16 in
   if remaining_len (hdr_of b body) =? 2 then ret (mk pkid (Some success), None)
   else
     let! ack_reason := read_u8 in
     if remaining_len (hdr_of b body) <? 4 then
       let! reason := lift (reason ack_reason) in
       ret (mk pkid (Some reason), None)
     else
       let! reason := lift (reason ack_reason) in
       let! properties := read in
       ret (mk pkid (Some reason), properties)) (frame b body)
  = (Ok (mk pkid (Some r), p), []).
Proof.
  intros Hk Hc Hr Hp Hs body Hsz. rewrite read_frame. cbn [remaining_len hdr_of].
  unfold body, ack_body in *. destruct short.
  - destruct (Hs eq_refl) as [-> ->]. parse_step. done.
  - fold (props_wire items p) in *. pose proof (blen_props_pos (items := items) p). parse_step.
    rewrite (proj2 (Z.eqb_neq _ _)), (proj2 (Z.ltb_ge _ _)) by blia. parse_step.
    rewrite Hr. unfold bind at 1, lift. rewrite <- (app_nil_r (props_wire _ _)).
    by rewrite (parses_eval _ _ _ p) by (apply opt_read_wire; [done|blia]).
Qed.

Lemma ack_short_inv {T P} `{EqDecision T} (a r : T) (p : option P) :
  ack_short a r p = true -> p = None /\ r = a.
Proof.
  unfold ack_short. intros H. apply andb_true_iff in H as [H%bool_decide_eq_true ?].
  by destruct p.
Qed.

Lemma v5_puback_read_eval k r p :
  u16 k -> props_wf pap_items pap_ok p -> blen (puback_body k r p) <= max_remaining ->
  v5_puback_read (hdr_of 64 (puback_body k r p)) (frame 64 (puback_body k r p))
  = (Ok (mkPubAck k (Some r), p), []).
Proof.
  intros Hk Hp Hsz. apply (ack_read_v5 (read := v5_puback_properties_read));
    [done|by destruct r|by destruct r|done|apply ack_short_inv|done].
Qed.

Lemma v5_pubrec_read_eval k r p :
  u16 k -> props_wf prp_items prp_ok p -> blen (pubrec_body k r p) <= max_remaining ->
  v5_pubrec_read (hdr_of 80 (pubrec_body k r p)) (frame 80 (pubrec_body k r p))
  = (Ok (mkPubRec k (Some r), p), []).
Proof.
  intros Hk Hp Hsz. apply (ack_read_v5 (read := v5_pubrec_properties_read));
    [done|by destruct r|by destruct r|done|apply ack_short_inv|done].
Qed.

Lemma v5_pubrel_read_eval k r p :
  u16 k -> props_wf plp_items plp_ok p -> blen (pubrel_body k r p) <= max_remaining ->
  v5_pubrel_read (hdr_of 98 (pubrel_body k r p)) (frame 98 (pubrel_body k r p))
  = (Ok (mkPubRel k (Some r), p), []).
Proof.
  intros Hk Hp Hsz. apply (ack_read_v5 (read := v5_pubrel_properties_read));
    [done|by destruct r|by destruct r|done|apply ack_short_inv|done].
Qed.

Lemma v5_pubcomp_read_eval k r p :
  u16 k -> props_wf pcp_items pcp_ok p -> blen (pubcomp_body k r p) <= max_remaining ->
  v5_pubcomp_read (hdr_of 112 (pubcomp_body k r p)) (frame 112 (pubcomp_body k r p))
  = (Ok (mkPubComp k (Some r), p), []).
Proof.
  intros Hk Hp Hsz. apply (ack_read_v5 (read := v5_pubcomp_properties_read));
    [done|by destruct r|by destruct r|done|apply ack_short_inv|done].
Qed.

Lemma v5_filter_parses f : string_wf (path f) -> parses v5_filter_read_one (v5_filter_wire f) f.
Proof.
  intros Hp. pose proof (v5_filter_options_u8 f) as Hu.
  unfold v5_filter_read_one, v5_filter_wire. eapply parses_bind; [by apply read_mqtt_string_parses|].
  eapply parses_bind_nil; [by apply read_u8_parses|]. unfold v5_filter_options.
  destruct f as [pa [] [] [] []]; intros rest; reflexivity.
Qed.

Lemma v5_subscribe_read_eval s p :
  v5_subscribe_wf s -> props_wf sp_items sp_fit p -> blen (v5_subscribe_body s p) <= max_remaining ->
  v5_subscribe_read (hdr_of 130 (v5_subscribe_body s p)) (frame 130 (v5_subscribe_body s p))
  = (Ok (s, p), []).
Proof.
  intros (Hk & Hne & Hf) Hp Hsz. rewrite Forall_forall in Hf.
  assert (forall f, f ∈ filters s -> 0 < blen (v5_filter_wire f))
    by (intros; unfold v5_filter_wire; blia).
  unfold v5_subscribe_read. rewrite read_frame. unfold v5_subscribe_body in *. parse_step.
  rewrite (parses_eval _ _ _ p) by (apply opt_read_wire; [done|blia]).
  unfold bind at 1, get. unfold bind. rewrite (while_remaining_eval _ _ v5_filter_wire).
  - cbn [app]. destruct s as [k [|f fs]]; done.
  - intros f Hin. split; [by apply v5_filter_parses, Hf|auto].
  - by apply length_concat_ge.
Qed.

Lemma v5_unsubscribe_read_eval u p :
  v4_unsubscribe_wf u -> props_wf up_items up_ok p ->
  blen (v5_unsubscribe_body u p) <= max_remaining ->
  v5_unsubscribe_read (hdr_of 162 (v5_unsubscribe_body u p)) (frame 162 (v5_unsubscribe_body u p))
  = (Ok (u, p), []).
Proof.
  intros (Hk & Hf) Hp Hsz. rewrite Forall_forall in Hf.
  unfold v5_unsubscribe_read. rewrite read_frame. unfold v5_unsubscribe_body in *. parse_step.
  rewrite (parses_eval _ _ _ p) by (apply opt_read_wire; [done|blia]).
  unfold bind at 1, get. unfold bind. rewrite (while_remaining_eval _ _ wire_bytes).
  - by destruct u.
  - intros f Hin. split; [by apply read_mqtt_string_parses, Hf|blia].
  - apply length_concat_ge. intros. blia.
Qed.

(** One octet per element. *)
Lemma codes_read_eval {A} (code : A -> Z) (reason : Z -> outcome Error A) (l : list A) :
  (forall a, a ∈ l -> reason (code a) = Ok a /\ u8 (code a)) ->
  while_remaining (length (map code l)) (let! c := read_u8 in lift (reason c)) [] (map code l)
  = (Ok l, []).
Proof.
  intros Hl. assert (map code l = concat (map (fun c => [code c]) l)) as E
    by (clear; induction l as [|c l IH]; cbn; congruence).
  rewrite E, (while_remaining_eval _ _ (fun c => [code c])); [done| |].
  - intros c Hin. destruct (Hl c Hin) as [Hr Hu]. split; [|done].
    intros rest. rewrite (parses_eval _ _ _ _ _ (read_u8_parses _ Hu)). unfold lift. by rewrite Hr.
  - by apply length_concat_ge.
Qed.

Lemma v5_suback_read_eval a p :
  v5_suback_wf a -> props_wf sap_items sap_ok p -> blen (v5_suback_body a p) <= max_remaining ->
  v5_suback_read (hdr_of 144 (v5_suback_body a p)) (frame 144 (v5_suback_body a p)) = (Ok (a, p), []).
Proof.
  intros (Hk & Hne & Hc) Hp Hsz. rewrite Forall_forall in Hc.
  unfold v5_suback_read. rewrite read_frame. unfold v5_suback_body in *. parse_step.
  rewrite (parses_eval _ _ _ p) by (apply opt_read_wire; [done|blia]).
  unfold bind at 1, get. rewrite (proj2 (Z.eqb_neq _ _))
    by (rewrite blen_map; intros ?%blen_0_inv; done).
  unfold bind. rewrite (codes_read_eval v5_suback_code v5_suback_reason).
  - by destruct a.
  - intros c Hin. split; [by apply Hc|]. by destruct c as [| | |[]| | | | | | | | | | | |].
Qed.

Lemma v5_unsuback_read_eval a p :
  v5_unsuback_wf a -> props_wf uap_items uap_ok p -> blen (v5_unsuback_body a p) <= max_remaining ->
  v5_unsuback_read (hdr_of 176 (v5_unsuback_body a p)) (frame 176 (v5_unsuback_body a p))
  = (Ok (a, p), []).
Proof.
  intros (Hk & Hne) Hp Hsz.
  unfold v5_unsuback_read. rewrite read_frame. unfold v5_unsuback_body in *. parse_step.
  rewrite (parses_eval _ _ _ p) by (apply opt_read_wire; [done|blia]).
  unfold bind at 1, get. rewrite (proj2 (Z.eqb_neq _ _))
    by (rewrite blen_map; intros ?%blen_0_inv; done).
  unfold bind. rewrite (codes_read_eval v5_unsuback_code v5_unsuback_reason).
  - by destruct a.
  - intros c _. by destruct c.
Qed.

Lemma v5_disconnect_read_eval r p :
  props_wf dp_items dp_ok p -> blen (v5_disconnect_body r p) <= max_remaining ->
  v5_disconnect_read (hdr_of 224 (v5_disconnect_body r p)) (frame 224 (v5_disconnect_body r p))
  = (Ok (mkDisconnect (Some r), p), []).
Proof.
  intros Hp Hsz. assert (u8 (v5_disconnect_code r)) by (by destruct r).
  unfold v5_disconnect_read. cbv zeta. rewrite read_frame. cbn [byte1 hdr_of remaining_len].
  cbn [negb Z.eqb Z.shiftr Z.shiftl Z.land Pos.land u8_of_PacketType].
  change (negb _) with false. change (negb _) with false. cbv iota.
  unfold v5_disconnect_body in *. rewrite (proj2 (Z.eqb_neq _ _)) by blia. parse_step.
  assert (v5_disconnect_reason (v5_disconnect_code r) = Ok r) as -> by (by destruct r).
  unfold bind at 1, lift. rewrite <- (app_nil_r (props_wire _ _)).
  by rewrite (parses_eval _ _ _ p) by (apply opt_read_wire; [done|blia]).
Qed.

Lemma v5_disconnect_normal_read :
  v5_disconnect_read (hdr_of 224 []) (frame 224 [])
  = (Ok (mkDisconnect (Some DR_NormalDisconnection), None), []).
Proof. unfold v5_disconnect_read. cbv zeta. by rewrite read_frame. Qed.
End readers.
