(* ===== verification/V5Safety.v ===== *)
(** * The MQTT 5 readers on arbitrary input

    On any frame a reader neither panics nor loops, and the packet it returns
    has every field in its range. *)

From Stdlib Require Import String.
From S2P Require Import Prelude Bytes MqttTypes MqttCommon MqttV4 V5Props V5PropDefs V5PropSets V5Packets V5Wire.

(** ** What the readers return *)

Definition v5_connect_ok (r : ConnectReadOutcome) : Prop :=
  cro_protocol_version r = 5 /\ connect_wf (cro_connect r) /\ opt_all cp_ok (cro_properties r) /\
  opt_all will_wf (cro_last_will r) /\ opt_all wp_ok (cro_last_will_properties r) /\
  opt_all login_wf (cro_login r).
Definition v5_connack_ok (r : ConnAck * option ConnAckProperties) : Prop :=
  (exists n, v5_connect_return n = Ok (ca_code r.1)) /\ opt_all cap_ok r.2.
Definition v5_publish_ok (r : Publish * option PublishProperties) : Prop :=
  publish_wf r.1 /\ opt_all pp_ok r.2.
Definition v5_puback_ok (r : PubAck * option PubAckProperties) : Prop :=
  u16 (pa_pkid r.1) /\ pa_reason r.1 <> None /\ opt_all pap_ok r.2.
Definition v5_pubrec_ok (r : PubRec * option PubRecProperties) : Prop :=
  u16 (pr_pkid r.1) /\ pr_reason r.1 <> None /\ opt_all prp_ok r.2.
Definition v5_pubrel_ok (r : PubRel * option PubRelProperties) : Prop :=
  u16 (pl_pkid r.1) /\ pl_reason r.1 <> None /\ opt_all plp_ok r.2.
Definition v5_pubcomp_ok (r : PubComp * option PubCompProperties) : Prop :=
  u16 (pc_pkid r.1) /\ pc_reason r.1 <> None /\ opt_all pcp_ok r.2.
Definition v5_subscribe_ok (r : Subscribe * option SubscribeProperties) : Prop :=
  v5_subscribe_wf r.1 /\ opt_all sp_ok r.2.
Definition v5_suback_ok (r : SubAck * option SubAckProperties) : Prop :=
  v5_suback_wf r.1 /\ opt_all sap_ok r.2.
Definition v5_unsubscribe_ok (r : Unsubscribe * option UnsubscribeProperties) : Prop :=
  v4_unsubscribe_wf r.1 /\ opt_all up_ok r.2.
Definition v5_unsuback_ok (r : UnsubAck * option UnsubAckProperties) : Prop :=
  v5_unsuback_wf r.1 /\ opt_all uap_ok r.2.
Definition v5_disconnect_ok (r : Disconnect * option DisconnectProperties) : Prop :=
  reason_code r.1 <> None /\ opt_all dp_ok r.2.
Definition v5_auth_ok (r : Auth * option AuthProperties) : Prop :=
  au_reason r.1 <> None /\ opt_all ap_ok r.2.

(** ** The readers *)

Lemma wp_read_props {BC : BytesCrate} {BS : BytesSpec BC} {P} {items : P -> list item}
    {ok fit len write} {read : R (option P)} `{PS : !PropertySet items ok fit len write read}
    (Q : option P -> bytes -> Prop) s :
  bytes_ok s ->
  (forall o s', opt_all ok o -> bytes_ok s' -> blen s' <= blen s -> Q o s') -> wp read Q s.
Proof.
  intros Hs HQ. eapply wp_mono; [exact (ps_safe (read := read) s Hs)|].
  cbn. intros o s' (? & ? & ?). auto.
Qed.

(** Reasons are looked up in a table that never panics. *)
Lemma reasons_return n :
  returns (v5_connect_return n) /\ returns (v5_puback_reason n) /\ returns (v5_pubrec_reason n) /\
  returns (v5_pubrel_reason n) /\ returns (v5_pubcomp_reason n) /\ returns (v5_suback_reason n) /\
  returns (v5_unsuback_reason n) /\ returns (v5_disconnect_reason n) /\ returns (v5_auth_reason n).
Proof.
  split_and!; unfold v5_connect_return, v5_puback_reason, v5_pubrec_reason, v5_pubrel_reason,
    v5_pubcomp_reason, v5_suback_reason, v5_unsuback_reason, v5_disconnect_reason, v5_auth_reason;
    by repeat case_match.
Qed.

Ltac wp_prim5 :=
  first [ wp_prim
        | refine (wp_read_props _ _ _ _); [done|]; intros
        | lazymatch goal with |- wp (lift (_ ?n)) _ _ =>
            apply wp_lift; [apply (reasons_return n)|]; intros end ].
Ltac wp_go5 := repeat (wp_step_with wp_prim5; cbn beta in * ).

Section safety.
Context {BC : BytesCrate} {BS : BytesSpec BC}.

Lemma wp_v5_will_read f s (Q : option LastWill * option LastWillProperties -> bytes -> Prop) :
  bytes_ok s ->
  (forall w p s', opt_all will_wf w -> opt_all wp_ok p -> bytes_ok s' -> Q (w, p) s') ->
  wp (v5_will_read f) Q s.
Proof. intros Hs HQ. unfold v5_will_read. cbv zeta. wp_go5; by apply HQ. Qed.

Lemma wp_v5_login_field f m s (Q : bytes -> bytes -> Prop) :
  bytes_ok s -> (forall u s', string_wf u -> bytes_ok s' -> Q u s') ->
  wp (if Z.land f m =? 0 then ret [] else read_mqtt_string) Q s.
Proof. intros Hs HQ. wp_go; apply HQ; try done. by repeat constructor. Qed.

Lemma wp_v5_login_read f s (Q : option Login -> bytes -> Prop) :
  bytes_ok s -> (forall l s', opt_all login_wf l -> bytes_ok s' -> Q l s') ->
  wp (v5_login_read f) Q s.
Proof.
  intros Hs HQ. unfold v5_login_read.
  apply wp_bind, wp_v5_login_field; [done|]. intros u s1 Hu Hs1.
  apply wp_bind, wp_v5_login_field; [done|]. intros p s2 Hp Hs2.
  wp_go; apply HQ; try done. split_and!; [done..|]. unfold nonempty. cbn.
  by rewrite <- negb_andb, negb_true_iff.
Qed.

Lemma wp_v5_connect_read h s : frame_for h s -> wp (v5_connect_read h) (fun r _ => v5_connect_ok r) s.
Proof.
  intros Hf. unfold v5_connect_read. wp_go5.
  apply wp_v5_will_read; [done|]. intros w p s1 Hw Hp Hs1. wp_go5.
  apply wp_v5_login_read; [done|]. intros l s2 Hl Hs2. wp_go5.
  bool_prop. unfold v5_connect_ok. by split_and!.
Qed.

Lemma wp_v5_connack_read h s : frame_for h s -> wp (v5_connack_read h) (fun r _ => v5_connack_ok r) s.
Proof. intros Hf. unfold v5_connack_read. wp_go5. split; [by eexists|done]. Qed.

Lemma wp_v5_publish_read h s : frame_for h s -> wp (v5_publish_read h) (fun r _ => v5_publish_ok r) s.
Proof.
  intros Hf. unfold v5_publish_read. wp_go5; (split; [|done]); unfold publish_wf; cbn;
    split_and!; try done; (split; [done|]); intros ->; done.
Qed.

Lemma wp_v5_puback_read h s : frame_for h s -> wp (v5_puback_read h) (fun r _ => v5_puback_ok r) s.
Proof. intros Hf. unfold v5_puback_read. by wp_go5; split_and!. Qed.
Lemma wp_v5_pubrec_read h s : frame_for h s -> wp (v5_pubrec_read h) (fun r _ => v5_pubrec_ok r) s.
Proof. intros Hf. unfold v5_pubrec_read. by wp_go5; split_and!. Qed.
Lemma wp_v5_pubrel_read h s : frame_for h s -> wp (v5_pubrel_read h) (fun r _ => v5_pubrel_ok r) s.
Proof. intros Hf. unfold v5_pubrel_read. by wp_go5; split_and!. Qed.
Lemma wp_v5_pubcomp_read h s : frame_for h s -> wp (v5_pubcomp_read h) (fun r _ => v5_pubcomp_ok r) s.
Proof. intros Hf. unfold v5_pubcomp_read. by wp_go5; split_and!. Qed.
Lemma wp_v5_disconnect_read h s :
  frame_for h s -> wp (v5_disconnect_read h) (fun r _ => v5_disconnect_ok r) s.
Proof. intros Hf. unfold v5_disconnect_read. cbv zeta. by wp_go5; split_and!. Qed.
Lemma wp_v5_auth_read h s : frame_for h s -> wp (v5_auth_read h) (fun r _ => v5_auth_ok r) s.
Proof. intros Hf. unfold v5_auth_read. cbv zeta. by wp_go5; split_and!. Qed.

Lemma wp_v5_subscribe_read h s :
  frame_for h s -> wp (v5_subscribe_read h) (fun r _ => v5_subscribe_ok r) s.
Proof.
  intros Hf. unfold v5_subscribe_read. wp_go5.
  eapply wp_mono; [apply (wp_while_remaining _ _ (fun l _ => Forall (fun f => string_wf (path f)) l));
                   [|done|done|constructor]|].
  - intros s1 Hs1 acc Hacc. unfold v5_filter_read_one. cbv zeta. wp_go5;
      (split_and!; [apply Forall_app; split; [done|by apply Forall_singleton]|done|blia]).
  - cbn. intros l s2 [Hl ->]. destruct l; wp_go5. by split_and!.
Qed.

(** A list of codes, one octet each, of which there is at least one. *)
Lemma wp_codes {A} (reason : Z -> outcome Error A) (wf : A -> Prop) s :
  (forall n, returns (reason n)) -> (forall n c, reason n = Ok c -> wf c) ->
  bytes_ok s -> blen s <> 0 ->
  wp (while_remaining (length s) (let! c := read_u8 in lift (reason c)) [])
     (fun l _ => l <> [] /\ Forall wf l) s.
Proof.
  intros Hret Hwf Hs Hne.
  eapply wp_mono; [apply (wp_while_remaining _ _ (fun l s => Forall wf l /\ (l = [] -> blen s <> 0)));
                   [|done|done|by split; [constructor|]]|].
  - intros s1 Hs1 acc [Hacc _]. wp_go. apply wp_lift; [done|]. intros c Hc.
    split_and!; [|intros; by destruct acc|done|blia]. apply Forall_app. eauto.
  - cbn. intros l s2 [[Hl Hn] ->]. split; [|done]. intros ->. by apply Hn.
Qed.

Lemma v5_suback_reason_wf n c : v5_suback_reason n = Ok c -> v5_suback_code_wf c.
Proof. unfold v5_suback_reason. intros H. repeat case_match; simplify_eq; done. Qed.

Lemma wp_v5_suback_read h s : frame_for h s -> wp (v5_suback_read h) (fun r _ => v5_suback_ok r) s.
Proof.
  intros Hf. unfold v5_suback_read. wp_go5. bool_prop.
  eapply wp_mono; [apply (wp_codes _ v5_suback_code_wf); [apply reasons_return|
                   apply v5_suback_reason_wf|done|done]|].
  cbn. intros l s2 [Hne Hl]. by split_and!.
Qed.

Lemma wp_v5_unsuback_read h s :
  frame_for h s -> wp (v5_unsuback_read h) (fun r _ => v5_unsuback_ok r) s.
Proof.
  intros Hf. unfold v5_unsuback_read. wp_go5. bool_prop.
  eapply wp_mono; [apply (wp_codes _ (fun _ => True)); [apply reasons_return|done|done|done]|].
  cbn. intros l s2 [Hne Hl]. by split_and!.
Qed.

Lemma wp_v5_unsubscribe_read h s :
  frame_for h s -> wp (v5_unsubscribe_read h) (fun r _ => v5_unsubscribe_ok r) s.
Proof.
  intros Hf. unfold v5_unsubscribe_read. wp_go5.
  eapply wp_mono; [apply (wp_while_remaining _ _ (fun l _ => Forall string_wf l));
                   [|done|done|constructor]|].
  - intros s1 Hs1 acc Hacc. wp_prim. split_and!; [|done|blia]. apply Forall_app. auto.
  - cbn. intros l s2 [Hl ->]. by split_and!.
Qed.
End safety.
