(* ===== verification/MqttCodec.v ===== *)
(** * The codecs: [protocol/src/mqtt/codec.rs], [mqttv4/codec.rs], [mqttv5/codec.rs]

    [MqttCodec] decodes a byte stream into packets and encodes packets into a
    buffer; it remembers the protocol version that the last CONNECT announced.
    [Mqtt4Codec] and [Mqtt5Codec] are the same for one version each.  The wire
    relations [v4_wire] and [v5_wire] say which octets stand for which packet;
    the encoders and the decoder are shown to implement them. *)

From Stdlib Require Import String.
From S2P Require Import Prelude Bytes MqttTypes MqttCommon MqttV4 V5Props V5PropDefs V5PropSets V5Packets V5Wire V5Safety.

(** ** Definitions *)

Record MqttPacketWrapper : Type := mkMqttPacketWrapper {
  pw_protocol_version : Z;
  pw_packet : MqttPacket
}.

Section definitions.
Context {BC : BytesCrate}.

(** [connect_read] of common.rs: the CONNECT of either version. *)
Definition connect_read (h : FixedHeader) : R ConnectReadOutcome :=
  skip_header h ;;
  let! protocol_name := read_mqtt_string in
  let! protocol_level := read_u8 in
  if negb (bool_decide (protocol_name = lit "MQTT"))
     && negb (bool_decide (protocol_name = lit "MQIsdp")) then fail InvalidProtocol
  else if protocol_level =? 5 then
    let! connect_flags := read_u8 in
    let clean_session := negb (Z.land connect_flags 2 =? 0) in
    let! keep_alive := read_u16 in
    let! properties := v5_connect_properties_read in
    let! client_id := read_mqtt_string in
    let! (will, willproperties) := v5_will_read connect_flags in
    let! login := v5_login_read connect_flags in
    ret (mkConnectReadOutcome protocol_level (mkConnect keep_alive client_id clean_session)
           properties will willproperties login)
  else if (protocol_level =? 4) || (protocol_level =? 3) then
    let! connect_flags := read_u8 in
    let clean_session := negb (Z.land connect_flags 2 =? 0) in
    let! keep_alive := read_u16 in
    let! client_id := read_mqtt_utf8 in
    let! last_will := v4_will_read connect_flags in
    let! login := v4_login_read connect_flags in
    ret (mkConnectReadOutcome protocol_level (mkConnect keep_alive client_id clean_session)
           None last_will None login)
  else fail InvalidProtocol.

(** The [MqttCodec] (its protocol version) and the stream it decodes. *)
Definition CodecState : Type := option Z * bytes.
Definition C (A : Type) : Type := M CodecState Error A.

Definition on_stream {A : Type} (m : R A) : C A :=
  fun s => let '(o, b) := m s.2 in (o, (s.1, b)).
Definition get_version : C (option Z) := fun s => (Ok s.1, s).
Definition set_version (v : option Z) : C unit := fun s => (Ok tt, (v, s.2)).

(** A reader runs on a packet of its own, not on the stream. *)
Definition read_from {A B : Type} (m : R A) (packet : bytes) (k : A -> B) : C B :=
  let! a := lift (m packet).1 in ret (k a).

Definition decode_v4 (h : FixedHeader) (packet_type : PacketType) (packet : bytes) : C MqttPacket :=
  match packet_type with
  | PT_ConnAck => read_from (v4_connack_read h) packet (fun a => P_ConnAck a None)
  | PT_Publish => read_from (v4_publish_read h) packet (fun a => P_Publish a None)
  | PT_PubAck => read_from (v4_puback_read h) packet (fun a => P_PubAck a None)
  | PT_PubRec => read_from (v4_pubrec_read h) packet (fun a => P_PubRec a None)
  | PT_PubRel => read_from (v4_pubrel_read h) packet (fun a => P_PubRel a None)
  | PT_PubComp => read_from (v4_pubcomp_read h) packet (fun a => P_PubComp a None)
  | PT_Subscribe => read_from (v4_subscribe_read h) packet (fun a => P_Subscribe a None)
  | PT_SubAck => read_from (v4_suback_read h) packet (fun a => P_SubAck a None)
  | PT_Unsubscribe => read_from (v4_unsubscribe_read h) packet (fun a => P_Unsubscribe a None)
  | PT_UnsubAck => read_from (v4_unsuback_read h) packet (fun a => P_UnsubAck a None)
  | PT_PingReq => ret P_PingReq
  | PT_PingResp => ret P_PingResp
  | PT_Disconnect => read_from (v5_disconnect_read h) packet (fun a => P_Disconnect a.1 None)
  | _ => panic
  end.

Definition decode_v5 (h : FixedHeader) (packet_type : PacketType) (packet : bytes) : C MqttPacket :=
  match packet_type with
  | PT_ConnAck => read_from (v5_connack_read h) packet (fun '(a, p) => P_ConnAck a p)
  | PT_Publish => read_from (v5_publish_read h) packet (fun '(a, p) => P_Publish a p)
  | PT_PubAck => read_from (v5_puback_read h) packet (fun '(a, p) => P_PubAck a p)
  | PT_PubRec => read_from (v5_pubrec_read h) packet (fun '(a, p) => P_PubRec a p)
  | PT_PubRel => read_from (v5_pubrel_read h) packet (fun '(a, p) => P_PubRel a p)
  | PT_PubComp => read_from (v5_pubcomp_read h) packet (fun '(a, p) => P_PubComp a p)
  | PT_Subscribe => read_from (v5_subscribe_read h) packet (fun '(a, p) => P_Subscribe a p)
  | PT_SubAck => read_from (v5_suback_read h) packet (fun '(a, p) => P_SubAck a p)
  | PT_Unsubscribe => read_from (v5_unsubscribe_read h) packet (fun '(a, p) => P_Unsubscribe a p)
  | PT_UnsubAck => read_from (v5_unsuback_read h) packet (fun '(a, p) => P_UnsubAck a p)
  | PT_PingReq => ret P_PingReq
  | PT_PingResp => ret P_PingResp
  | PT_Disconnect => read_from (v5_disconnect_read h) packet (fun '(a, p) => P_Disconnect a p)
  | _ => panic
  end.

(** [decode_data] after the [if packet_type == PacketType::Connect]. *)
Definition decode_by_version (h : FixedHeader) (packet_type : PacketType) (packet : bytes)
  : C (option MqttPacket) :=
  let! version := get_version in
  match version with
  | None => fail InvalidProtocol
  | Some protocol_version =>
      if (protocol_version =? 4) || (protocol_version =? 3) then
        let! packet := decode_v4 h packet_type packet in ret (Some packet)
      else if protocol_version =? 5 then
        let! packet := decode_v5 h packet_type packet in ret (Some packet)
      else fail InvalidProtocol
  end.

(** [decode_data] once the frame has been cut off the stream. *)
Definition decode_packet (fixed_header : FixedHeader) (packet : bytes) : C (option MqttPacket) :=
  let! packet_type := lift (packet_type fixed_header) in
  if bool_decide (packet_type = PT_Connect) then
    match (connect_read fixed_header packet).1 with
    | Ok r =>
        let protocol_version := cro_protocol_version r in
        set_version (Some protocol_version) ;;
        if (protocol_version =? 4) || (protocol_version =? 3) then
          ret (Some (P_Connect protocol_version (cro_connect r) None (cro_last_will r) None
                       (cro_login r)))
        else if protocol_version =? 5 then
          ret (Some (P_Connect protocol_version (cro_connect r) (cro_properties r)
                       (cro_last_will r) (cro_last_will_properties r) (cro_login r)))
        else decode_by_version fixed_header packet_type packet
    | Err _ => fail InvalidProtocol
    | Panic => panic
    | OutOfFuel => out_of_fuel
    end
  else decode_by_version fixed_header packet_type packet.

Definition decode_data : C (option MqttPacket) :=
  let! stream := on_stream get in
  let! fixed_header := lift (check stream 1000000) in
  let! packet := on_stream (split_to (frame_length fixed_header)) in
  decode_packet fixed_header packet.

(** The two tables of [encode_data]; the writers return the sizes they wrote. *)
Definition encode_v4 (packet : MqttPacket) : R Z :=
  match packet with
  | P_Connect _ connect None last_will None login => v4_connect_write connect login last_will
  | P_ConnAck connack _ => v4_connack_write connack
  | P_Publish publish None => v4_publish_write publish
  | P_PubAck puback None => v4_puback_write puback
  | P_PubRec pubrec None => v4_pubrec_write pubrec
  | P_PubRel pubrel None => v4_pubrel_write pubrel
  | P_PubComp pubcomp None => v4_pubcomp_write pubcomp
  | P_Subscribe subscribe None => v4_subscribe_write subscribe
  | P_SubAck suback None => v4_suback_write suback
  | P_Unsubscribe unsubscribe None => v4_unsubscribe_write unsubscribe
  | P_UnsubAck unsuback None => v4_unsuback_write unsuback
  | P_PingReq => v4_pingreq_write
  | P_PingResp => v4_pingresp_write
  | P_Disconnect disconnect None => v4_disconnect_write disconnect
  | _ => panic
  end.

Definition encode_v5 (packet : MqttPacket) : R Z :=
  match packet with
  | P_Connect _ connect properties last_will last_will_properties login =>
      v5_connect_write connect properties last_will last_will_properties login
  | P_ConnAck connack properties => v5_connack_write connack properties
  | P_Publish publish properties => v5_publish_write publish properties
  | P_PubAck puback properties => v5_puback_write puback properties
  | P_PubRec pubrec properties => v5_pubrec_write pubrec properties
  | P_PubRel pubrel properties => v5_pubrel_write pubrel properties
  | P_PubComp pubcomp properties => v5_pubcomp_write pubcomp properties
  | P_Subscribe subscribe properties => v5_subscribe_write subscribe properties
  | P_SubAck suback properties => v5_suback_write suback properties
  | P_Unsubscribe unsubscribe properties => v5_unsubscribe_write unsubscribe properties
  | P_UnsubAck unsuback properties => v5_unsuback_write unsuback properties
  | P_PingReq => v5_pingreq_write
  | P_PingResp => v5_pingresp_write
  | P_Disconnect disconnect properties => v5_disconnect_write disconnect properties
  | P_Auth auth properties => v5_auth_write auth properties
  end.

Definition encode_data (w : MqttPacketWrapper) : R unit :=
  let packet := pw_packet w in
  let protocol_version := pw_protocol_version w in
  if (protocol_version =? 4) || (protocol_version =? 3) then
    let! _ := encode_v4 packet in ret tt
  else if protocol_version =? 5 then
    let! _ := encode_v5 packet in ret tt
  else ret tt.

(** The octets are written to a buffer of its own. *)
Definition calc_mqtt_packet_len (w : MqttPacketWrapper) : outcome Error Z :=
  let packet := pw_packet w in
  let protocol_version := pw_protocol_version w in
  let buffer := [] in
  let size : R Z :=
    if (protocol_version =? 4) || (protocol_version =? 3) then
      match packet with
      | P_Connect _ connect None last_will None login => v4_connect_write connect login last_will
      | P_ConnAck connack _ => v4_connack_write connack
      | P_Publish publish None => v4_publish_write publish
      | P_PubAck puback None => v4_puback_write puback
      | P_PubRec pubrec None => v4_pubrec_write pubrec
      | P_PubRel pubrel None => v4_pubrel_write pubrel
      | P_PubComp pubcomp None => v4_pubcomp_write pubcomp
      | P_Subscribe subscribe None => v4_subscribe_write subscribe
      | P_SubAck suback None => v4_suback_write suback
      | P_Unsubscribe unsubscribe None => v4_unsubscribe_write unsubscribe
      | P_UnsubAck unsuback None => v4_unsuback_write unsuback
      | P_PingReq => v4_pingreq_write
      | P_PingResp => v4_pingresp_write
      | P_Disconnect disconnect None => v4_disconnect_write disconnect
      | _ => panic
      end
    else if protocol_version =? 5 then
      match packet with
      | P_Connect _ connect properties last_will last_will_properties login =>
          v5_connect_write connect properties last_will last_will_properties login
      | P_ConnAck connack properties => v5_connack_write connack properties
      | P_Publish publish properties => v5_publish_write publish properties
      | P_PubAck puback properties => v5_puback_write puback properties
      | P_PubRec pubrec properties => v5_pubrec_write pubrec properties
      | P_PubRel pubrel properties => v5_pubrel_write pubrel properties
      | P_PubComp pubcomp properties => v5_pubcomp_write pubcomp properties
      | P_Subscribe subscribe properties => v5_subscribe_write subscribe properties
      | P_SubAck suback properties => v5_suback_write suback properties
      | P_Unsubscribe unsubscribe properties => v5_unsubscribe_write unsubscribe properties
      | P_UnsubAck unsuback properties => v5_unsuback_write unsuback properties
      | P_PingReq => v5_pingreq_write
      | P_PingResp => v5_pingresp_write
      | P_Disconnect disconnect properties => v5_disconnect_write disconnect properties
      | P_Auth auth properties => v5_auth_write auth properties
      end
    else ret 0 in
  (size buffer).1.

(** [unwrap_or_default]. *)
Definition calc_mqtt_packet_size (w : MqttPacketWrapper) : outcome Error Z :=
  match calc_mqtt_packet_len w with
  | Ok n => Ok n
  | Err _ => Ok 0
  | Panic => Panic
  | OutOfFuel => OutOfFuel
  end.

Definition parse_mqtt_packet_to_name (packet : MqttPacket) : bytes :=
  match packet with
  | P_Connect _ _ _ _ _ _ => lit "connect"
  | P_ConnAck _ _ => lit "conn_ack"
  | P_Publish _ _ => lit "publish"
  | P_PubAck _ _ => lit "pub_ack"
  | P_PubRec _ _ => lit "pub_rec"
  | P_PubRel _ _ => lit "pub_rel"
  | P_PubComp _ _ => lit "pub_comp"
  | P_Subscribe _ _ => lit "subscribe"
  | P_SubAck _ _ => lit "sub_ack"
  | P_Unsubscribe _ _ => lit "sub_ack"
  | P_UnsubAck _ _ => lit "unsub_ack"
  | P_PingReq => lit "ping"
  | P_PingResp => lit "pong"
  | P_Disconnect _ _ => lit "disconnect"
  | P_Auth _ _ => lit "auth"
  end.

(** ** [Mqtt4Codec] *)

Definition mqtt4_encode (packet : MqttPacket) : R unit :=
  let! _ :=
    match packet with
    | P_Connect _ connect None last_will None login => v4_connect_write connect login last_will
    | P_ConnAck connack _ => v4_connack_write connack
    | P_Publish publish None => v4_publish_write publish
    | P_PubAck puback None => v4_puback_write puback
    | P_PubRec pubrec None => v4_pubrec_write pubrec
    | P_PubRel pubrel None => v4_pubrel_write pubrel
    | P_PubComp pubcomp None => v4_pubcomp_write pubcomp
    | P_Subscribe subscribe None => v4_subscribe_write subscribe
    | P_SubAck suback None => v4_suback_write suback
    | P_Unsubscribe unsubscribe None => v4_unsubscribe_write unsubscribe
    | P_UnsubAck unsuback None => v4_unsuback_write unsuback
    | P_PingReq => v4_pingreq_write
    | P_PingResp => v4_pingresp_write
    | P_Disconnect disconnect None => v4_disconnect_write disconnect
    | _ => panic
    end in
  ret tt.

Definition mqtt4_decode : C (option MqttPacket) :=
  let! stream := on_stream get in
  let! fixed_header := lift (check stream 1000000) in
  let! packet := on_stream (split_to (frame_length fixed_header)) in
  let! packet_type := lift (packet_type fixed_header) in
  let! packet :=
    match packet_type with
    | PT_Connect =>
        read_from (v4_connect_read fixed_header) packet
          (fun '(protocol_level, connect, login, lastwill) =>
             P_Connect protocol_level connect None lastwill None login)
    | PT_ConnAck => read_from (v4_connack_read fixed_header) packet (fun a => P_ConnAck a None)
    | PT_Publish => read_from (v4_publish_read fixed_header) packet (fun a => P_Publish a None)
    | PT_PubAck => read_from (v4_puback_read fixed_header) packet (fun a => P_PubAck a None)
    | PT_PubRec => read_from (v4_pubrec_read fixed_header) packet (fun a => P_PubRec a None)
    | PT_PubRel => read_from (v4_pubrel_read fixed_header) packet (fun a => P_PubRel a None)
    | PT_PubComp => read_from (v4_pubcomp_read fixed_header) packet (fun a => P_PubComp a None)
    | PT_Subscribe => read_from (v4_subscribe_read fixed_header) packet (fun a => P_Subscribe a None)
    | PT_SubAck => read_from (v4_suback_read fixed_header) packet (fun a => P_SubAck a None)
    | PT_Unsubscribe => read_from (v4_unsubscribe_read fixed_header) packet (fun a => P_Unsubscribe a None)
    | PT_UnsubAck => read_from (v4_unsuback_read fixed_header) packet (fun a => P_UnsubAck a None)
    | PT_PingReq => ret P_PingReq
    | PT_PingResp => ret P_PingResp
    | PT_Disconnect => fail InvalidProtocol
    | PT_Auth => fail InvalidProtocol
    end in
  ret (Some packet).

(** ** [Mqtt5Codec] *)

Definition mqtt5_encode (packet : MqttPacket) : R unit :=
  let! _ :=
    match packet with
    | P_Connect _ connect properties last_will last_will_properties login =>
        v5_connect_write connect properties last_will last_will_properties login
    | P_ConnAck connack properties => v5_connack_write connack properties
    | P_Publish publish properties => v5_publish_write publish properties
    | P_PubAck puback properties => v5_puback_write puback properties
    | P_PubRec pubrec properties => v5_pubrec_write pubrec properties
    | P_PubRel pubrel properties => v5_pubrel_write pubrel properties
    | P_PubComp pubcomp properties => v5_pubcomp_write pubcomp properties
    | P_Subscribe subscribe properties => v5_subscribe_write subscribe properties
    | P_SubAck suback properties => v5_suback_write suback properties
    | P_Unsubscribe unsubscribe properties => v5_unsubscribe_write unsubscribe properties
    | P_UnsubAck unsuback properties => v5_unsuback_write unsuback properties
    | P_PingReq => v5_pingreq_write
    | P_PingResp => v5_pingresp_write
    | P_Disconnect disconnect properties => v5_disconnect_write disconnect properties
    | P_Auth auth properties => v5_auth_write auth properties
    end in
  ret tt.

Definition mqtt5_decode : C (option MqttPacket) :=
  let! stream := on_stream get in
  let! fixed_header := lift (check stream 1000000) in
  let! packet := on_stream (split_to (frame_length fixed_header)) in
  let! packet_type := lift (packet_type fixed_header) in
  let! packet :=
    match packet_type with
    | PT_Connect =>
        read_from (v5_connect_read fixed_header) packet
          (fun r => P_Connect (cro_protocol_version r) (cro_connect r) (cro_properties r)
                      (cro_last_will r) (cro_last_will_properties r) (cro_login r))
    | PT_ConnAck => read_from (v5_connack_read fixed_header) packet (fun '(a, p) => P_ConnAck a p)
    | PT_Publish => read_from (v5_publish_read fixed_header) packet (fun '(a, p) => P_Publish a p)
    | PT_PubAck => read_from (v5_puback_read fixed_header) packet (fun '(a, p) => P_PubAck a p)
    | PT_PubRec => read_from (v5_pubrec_read fixed_header) packet (fun '(a, p) => P_PubRec a p)
    | PT_PubRel => read_from (v5_pubrel_read fixed_header) packet (fun '(a, p) => P_PubRel a p)
    | PT_PubComp => read_from (v5_pubcomp_read fixed_header) packet (fun '(a, p) => P_PubComp a p)
    | PT_Subscribe => read_from (v5_subscribe_read fixed_header) packet (fun '(a, p) => P_Subscribe a p)
    | PT_SubAck => read_from (v5_suback_read fixed_header) packet (fun '(a, p) => P_SubAck a p)
    | PT_Unsubscribe => read_from (v5_unsubscribe_read fixed_header) packet (fun '(a, p) => P_Unsubscribe a p)
    | PT_UnsubAck => read_from (v5_unsuback_read fixed_header) packet (fun '(a, p) => P_UnsubAck a p)
    | PT_PingReq => ret P_PingReq
    | PT_PingResp => ret P_PingResp
    | PT_Disconnect => read_from (v5_disconnect_read fixed_header) packet (fun '(a, p) => P_Disconnect a p)
    | PT_Auth => read_from (v5_auth_read fixed_header) packet (fun '(a, p) => P_Auth a p)
    end in
  ret (Some packet).
End definitions.

(** ** The wire relations

    [v4_wire p b body]: [p] is a well-formed MQTT 3/4 packet whose frame has
    the first octet [b] and the given body; [v5_wire] likewise.  A CONNECT is
    written with the protocol level of its version. *)

Definition is_connect (p : MqttPacket) : bool :=
  match p with P_Connect _ _ _ _ _ _ => true | _ => false end.

Inductive v4_wire : MqttPacket -> Z -> bytes -> Prop :=
| W4_Connect level c w l :
    connect_wf c -> opt_all will_wf w -> opt_all login_wf l ->
    v4_wire (P_Connect level c None w None l) 16 (v4_connect_body c l w)
| W4_ConnAck a n :
    v4_connect_return n = Ok (ca_code a) -> v4_wire (P_ConnAck a None) 32 (v4_connack_body a n)
| W4_Publish m :
    publish_wf m -> v4_wire (P_Publish m None) (publish_byte1 m) (v4_publish_body m)
| W4_PubAck k : u16 k -> v4_wire (P_PubAck (mkPubAck k (Some PA_Success)) None) 64 (be16 k)
| W4_PubRec k : u16 k -> v4_wire (P_PubRec (mkPubRec k (Some PR_Success)) None) 80 (be16 k)
| W4_PubRel k : u16 k -> v4_wire (P_PubRel (mkPubRel k (Some PL_Success)) None) 98 (be16 k)
| W4_PubComp k : u16 k -> v4_wire (P_PubComp (mkPubComp k (Some PC_Success)) None) 112 (be16 k)
| W4_Subscribe s : v4_subscribe_wf s -> v4_wire (P_Subscribe s None) 130 (v4_subscribe_body s)
| W4_SubAck a : v4_suback_wf a -> v4_wire (P_SubAck a None) 144 (v4_suback_body a)
| W4_Unsubscribe u :
    v4_unsubscribe_wf u -> v4_wire (P_Unsubscribe u None) 162 (v4_unsubscribe_body u)
| W4_UnsubAck k : u16 k -> v4_wire (P_UnsubAck (mkUnsubAck k []) None) 176 (be16 k)
| W4_PingReq : v4_wire P_PingReq 192 []
| W4_PingResp : v4_wire P_PingResp 208 []
| W4_Disconnect :
    v4_wire (P_Disconnect (mkDisconnect (Some DR_NormalDisconnection)) None) 224 [].

Inductive v5_wire : MqttPacket -> Z -> bytes -> Prop :=
| W5_Connect level c p w wp l :
    connect_wf c -> props_wf cp_items cp_ok p -> opt_all will_wf w ->
    props_wf wp_items wp_ok wp -> (w = None -> wp = None) -> opt_all login_wf l ->
    v5_wire (P_Connect level c p w wp l) 16 (v5_connect_body c p w wp l)
| W5_ConnAck a n p :
    v5_connect_return n = Ok (ca_code a) -> props_wf cap_items cap_ok p ->
    v5_wire (P_ConnAck a p) 32 (v5_connack_body a n p)
| W5_Publish m p :
    publish_wf m -> props_wf pp_items pp_fit p ->
    v5_wire (P_Publish m p) (publish_byte1 m) (v5_publish_body m p)
| W5_PubAck k r p :
    u16 k -> props_wf pap_items pap_ok p ->
    v5_wire (P_PubAck (mkPubAck k (Some r)) p) 64 (puback_body k r p)
| W5_PubRec k r p :
    u16 k -> props_wf prp_items prp_ok p ->
    v5_wire (P_PubRec (mkPubRec k (Some r)) p) 80 (pubrec_body k r p)
| W5_PubRel k r p :
    u16 k -> props_wf plp_items plp_ok p ->
    v5_wire (P_PubRel (mkPubRel k (Some r)) p) 98 (pubrel_body k r p)
| W5_PubComp k r p :
    u16 k -> props_wf pcp_items pcp_ok p ->
    v5_wire (P_PubComp (mkPubComp k (Some r)) p) 112 (pubcomp_body k r p)
| W5_Subscribe s p :
    v5_subscribe_wf s -> props_wf sp_items sp_fit p ->
    v5_wire (P_Subscribe s p) 130 (v5_subscribe_body s p)
| W5_SubAck a p :
    v5_suback_wf a -> props_wf sap_items sap_ok p ->
    v5_wire (P_SubAck a p) 144 (v5_suback_body a p)
| W5_Unsubscribe u p :
    v4_unsubscribe_wf u -> props_wf up_items up_ok p ->
    v5_wire (P_Unsubscribe u p) 162 (v5_unsubscribe_body u p)
| W5_UnsubAck a p :
    v5_unsuback_wf a -> props_wf uap_items uap_ok p ->
    v5_wire (P_UnsubAck a p) 176 (v5_unsuback_body a p)
| W5_PingReq : v5_wire P_PingReq 192 []
| W5_PingResp : v5_wire P_PingResp 208 []
| W5_Disconnect :
    v5_wire (P_Disconnect (mkDisconnect (Some DR_NormalDisconnection)) None) 224 []
| W5_DisconnectProps r p :
    props_wf dp_items dp_ok (Some p) ->
    v5_wire (P_Disconnect (mkDisconnect (Some r)) (Some p)) 224 (v5_disconnect_body r (Some p)).

(** What the decoder makes of a well-formed MQTT 3/4 packet: a CONNECT gets
    the level it was written with, and its will the password bit for retain. *)
Definition v4_decoded (p : MqttPacket) : MqttPacket :=
  match p with
  | P_Connect _ c None w None l => P_Connect 4 c None (v4_will_seen l <$> w) None l
  | p => p
  end.
Definition v5_decoded (p : MqttPacket) : MqttPacket :=
  match p with
  | P_Connect _ c p w wp l => P_Connect 5 c p w wp l
  | p => p
  end.
(** The version the codec holds after decoding [p]. *)
Definition version_after (v : Z) (p : MqttPacket) (old : option Z) : option Z :=
  if is_connect p then Some v else old.

(** ** Encoding *)

Section encoding.
Context {BC : BytesCrate} {BS : BytesSpec BC}.

(** The tables of [calc_mqtt_packet_len] call the writers that those of
    [encode_data] call. *)
Lemma calc_mqtt_packet_len_writes v p :
  calc_mqtt_packet_len (mkMqttPacketWrapper v p)
  = if (v =? 4) || (v =? 3) then (encode_v4 p []).1 else if v =? 5 then (encode_v5 p []).1 else Ok 0.
Proof.
  unfold calc_mqtt_packet_len. cbn [pw_packet pw_protocol_version].
  destruct ((v =? 4) || (v =? 3)); [|destruct (v =? 5); [|done]]; by repeat case_match.
Qed.

Lemma encode_v4_appends p b body :
  v4_wire p b body -> is_connect p = false -> blen body <= max_remaining ->
  appends (encode_v4 p) (frame b body) (frame_size body).
Proof.
  intros Hw Hc Hsz. destruct Hw; try discriminate Hc; cbn [encode_v4].
  - by apply v4_connack_write_appends.
  - by apply v4_publish_write_appends.
  - by apply ack_write_appends.
  - by apply ack_write_appends.
  - by apply ack_write_appends.
  - by apply ack_write_appends.
  - by apply v4_subscribe_write_appends.
  - apply v4_suback_write_appends; [by destruct H|done].
  - by apply v4_unsubscribe_write_appends.
  - by apply v4_unsuback_write_appends.
  - exact (appends_bind _ _ [192; 0] [] tt 2 (put_slice_appends _) (appends_ret 2)).
  - exact (appends_bind _ _ [208; 0] [] tt 2 (put_slice_appends _) (appends_ret 2)).
  - exact (appends_bind _ _ [224; 0] [] tt 2 (put_slice_appends _) (appends_ret 2)).
Qed.

Lemma encode_v4_eval p b body :
  v4_wire p b body -> blen body <= max_remaining ->
  encode_v4 p [] = (Ok (if is_connect p then blen body else frame_size body), frame b body).
Proof.
  intros Hw Hsz. destruct (is_connect p) eqn:Hc.
  - destruct Hw; try discriminate Hc. cbn [encode_v4].
    rewrite v4_connect_write_eval by done. by rewrite v4_connect_len_body.
  - by rewrite (encode_v4_appends p b body Hw Hc Hsz []).
Qed.

Lemma encode_v5_appends p b body :
  v5_wire p b body -> is_connect p = false -> blen body <= max_remaining ->
  appends (encode_v5 p) (frame b body) (frame_size body).
Proof.
  intros Hw Hc Hsz. destruct Hw; try discriminate Hc; cbn [encode_v5];
    try match goal with H : props_wf _ _ (Some _) |- _ => destruct H end;
    try match goal with H : props_wf _ _ _ |- _ => apply props_wf_fit in H end.
  - by apply v5_connack_write_appends.
  - by apply v5_publish_write_appends.
  - by apply v5_puback_write_appends.
  - by apply v5_pubrec_write_appends.
  - by apply v5_pubrel_write_appends.
  - by apply v5_pubcomp_write_appends.
  - by apply v5_subscribe_write_appends.
  - by apply v5_suback_write_appends.
  - by apply v5_unsubscribe_write_appends.
  - apply v5_unsuback_write_appends; [by destruct H|done..].
  - exact (appends_bind _ _ [192; 0] [] tt 2 (put_slice_appends _) (appends_ret 2)).
  - exact (appends_bind _ _ [208; 0] [] tt 2 (put_slice_appends _) (appends_ret 2)).
  - apply v5_disconnect_normal_appends.
  - by apply v5_disconnect_write_appends.
Qed.

Lemma encode_v5_eval p b body :
  v5_wire p b body -> blen body <= max_remaining ->
  encode_v5 p [] = (Ok (if is_connect p then blen body else frame_size body), frame b body).
Proof.
  intros Hw Hsz. destruct (is_connect p) eqn:Hc.
  - destruct Hw; try discriminate Hc. cbn [encode_v5].
    rewrite v5_connect_write_eval by eauto using props_wf_fit.
    by rewrite v5_connect_len_body by eauto using props_wf_fit.
  - by rewrite (encode_v5_appends p b body Hw Hc Hsz []).
Qed.

Lemma encode_data_v4 v p : (v = 3 \/ v = 4) ->
  encode_data (mkMqttPacketWrapper v p) = (let! _ := encode_v4 p in ret tt).
Proof. by intros [-> | ->]. Qed.

Lemma encode_data_v5 p : encode_data (mkMqttPacketWrapper 5 p) = (let! _ := encode_v5 p in ret tt).
Proof. done. Qed.
End encoding.

(** ** Decoding *)

Section decoding.
Context {BC : BytesCrate} {BS : BytesSpec BC}.

Lemma connect_read_v4 c l w :
  connect_wf c -> opt_all will_wf w -> opt_all login_wf l ->
  connect_read (hdr_of 16 (v4_connect_body c l w)) (frame 16 (v4_connect_body c l w))
  = (Ok (mkConnectReadOutcome 4 c None (v4_will_seen l <$> w) None l), []).
Proof.
  intros [Hk Hid] Hw Hl. unfold connect_read. rewrite read_frame.
  assert (string_wf (lit "MQTT")) by (repeat split; [repeat constructor; done]).
  pose proof (flags_of_u8 (clean_session c) (will_bits <$> w) (has_user l) (has_pass l)) as Hf.
  fold (connect_flags_of c l w) in Hf. assert (u8 4) by done.
  destruct (flags_of_read (clean_session c) (will_bits <$> w) (has_user l) (has_pass l))
    as (E2 & _). fold (connect_flags_of c l w) in E2.
  unfold v4_connect_body. do 2 parse_step. rewrite bool_decide_eq_true_2 by done.
  cbn [negb andb orb Z.eqb Pos.eqb].
  do 3 parse_step. rewrite (parses_eval _ _ _ _ _ (v4_will_read_parses c l w Hw)).
  rewrite <- (app_nil_r (opt_wire login_wire l)).
  rewrite (parses_eval _ _ _ _ _ (v4_login_read_parses c l w Hl)).
  rewrite E2. by destruct c.
Qed.

Lemma connect_read_v5 c p w wp l :
  connect_wf c -> props_wf cp_items cp_ok p -> opt_all will_wf w ->
  props_wf wp_items wp_ok wp -> (w = None -> wp = None) -> opt_all login_wf l ->
  blen (v5_connect_body c p w wp l) <= max_remaining ->
  connect_read (hdr_of 16 (v5_connect_body c p w wp l)) (frame 16 (v5_connect_body c p w wp l))
  = (Ok (mkConnectReadOutcome 5 c p w wp l), []).
Proof.
  intros [Hk Hid] Hp Hw Hwp Hnone Hl Hsz. unfold connect_read. rewrite read_frame.
  assert (string_wf (lit "MQTT")) by (repeat split; [repeat constructor; done]).
  pose proof (flags_of_u8 (clean_session c) (will_bits <$> w) (has_user l) (has_pass l)) as Hf.
  fold (connect_flags_of c l w) in Hf. assert (u8 5) by done.
  destruct (flags_of_read (clean_session c) (will_bits <$> w) (has_user l) (has_pass l))
    as (E2 & _). fold (connect_flags_of c l w) in E2.
  unfold v5_connect_body in *. do 2 parse_step. rewrite bool_decide_eq_true_2 by done.
  cbn [negb andb Z.eqb Pos.eqb]. do 2 parse_step.
  rewrite (parses_eval _ _ _ p) by (apply opt_read_wire; [done|blia]). parse_step.
  rewrite (parses_eval _ _ _ (w, wp)) by (apply v5_will_read_parses; [done..|blia]).
  rewrite <- (app_nil_r (opt_wire login_wire l)).
  rewrite (parses_eval _ _ _ _ _ (v5_login_read_parses c l w Hl)).
  rewrite E2. by destruct c.
Qed.

(** [check] and [split_to] take one frame off the stream. *)
Lemma take_frame {A} b body rest v (k : FixedHeader -> bytes -> C A) :
  blen body <= 1000000 ->
  (let! stream := on_stream get in
   let! fixed_header := lift (check stream 1000000) in
   let! packet := on_stream (split_to (frame_length fixed_header)) in
   k fixed_header packet) (v, frame b body ++ rest)
  = k (hdr_of b body) (frame b body) (v, rest).
Proof.
  intros Hsz. assert (blen body <= max_remaining) by (unfold max_remaining; lia).
  unfold bind at 1, on_stream at 1, get. cbn [fst snd].
  rewrite check_frame_of by done. unfold bind at 1, lift at 1.
  unfold bind at 1, on_stream at 1. cbn [fst snd].
  rewrite frame_length_of by done. by rewrite split_to_app.
Qed.

Lemma read_from_eval {A B} (m : R A) packet (k : A -> B) a rest s :
  m packet = (Ok a, rest) -> read_from m packet k s = (Ok (k a), s).
Proof. intros H. unfold read_from, bind, lift. by rewrite H. Qed.

Lemma publish_byte1_type m : Z.shiftr (publish_byte1 m) 4 = 3.
Proof. unfold publish_byte1. by destruct (retain m), (pub_qos m), (dup m). Qed.

(** The first octet of a packet names its type. *)
Definition type_of (p : MqttPacket) : PacketType :=
  match p with
  | P_Connect _ _ _ _ _ _ => PT_Connect | P_ConnAck _ _ => PT_ConnAck
  | P_Publish _ _ => PT_Publish | P_PubAck _ _ => PT_PubAck | P_PubRec _ _ => PT_PubRec
  | P_PubRel _ _ => PT_PubRel | P_PubComp _ _ => PT_PubComp | P_PingReq => PT_PingReq
  | P_PingResp => PT_PingResp | P_Subscribe _ _ => PT_Subscribe | P_SubAck _ _ => PT_SubAck
  | P_Unsubscribe _ _ => PT_Unsubscribe | P_UnsubAck _ _ => PT_UnsubAck
  | P_Disconnect _ _ => PT_Disconnect | P_Auth _ _ => PT_Auth
  end.

Lemma v4_wire_type p b body : v4_wire p b body -> packet_type (hdr_of b body) = Ok (type_of p).
Proof.
  intros Hw. destruct Hw; try reflexivity. unfold packet_type. cbn [byte1 hdr_of].
  by rewrite publish_byte1_type.
Qed.

Lemma v5_wire_type p b body : v5_wire p b body -> packet_type (hdr_of b body) = Ok (type_of p).
Proof.
  intros Hw. destruct Hw; try reflexivity. unfold packet_type. cbn [byte1 hdr_of].
  by rewrite publish_byte1_type.
Qed.

Lemma decode_v4_eval p b body s :
  v4_wire p b body -> is_connect p = false -> blen body <= max_remaining ->
  decode_v4 (hdr_of b body) (type_of p) (frame b body) s = (Ok p, s).
Proof.
  intros Hw Hc Hsz. destruct Hw; try discriminate Hc; cbn [decode_v4 type_of]; try reflexivity.
  - by erewrite read_from_eval by (by apply v4_connack_read_eval).
  - by erewrite read_from_eval by (by apply v4_publish_read_eval).
  - by erewrite read_from_eval by (by apply v4_puback_read_eval).
  - by erewrite read_from_eval by (by apply v4_pubrec_read_eval).
  - by erewrite read_from_eval by (by apply v4_pubrel_read_eval).
  - by erewrite read_from_eval by (by apply v4_pubcomp_read_eval).
  - by erewrite read_from_eval by (by apply v4_subscribe_read_eval).
  - by erewrite read_from_eval by (by apply v4_suback_read_eval).
  - by erewrite read_from_eval by (by apply v4_unsubscribe_read_eval).
  - by erewrite read_from_eval by (by apply v4_unsuback_read_eval).
  - by erewrite read_from_eval by apply v5_disconnect_normal_read.
Qed.

Lemma decode_v5_eval p b body s :
  v5_wire p b body -> is_connect p = false -> blen body <= max_remaining ->
  decode_v5 (hdr_of b body) (type_of p) (frame b body) s = (Ok p, s).
Proof.
  intros Hw Hc Hsz. destruct Hw; try discriminate Hc; cbn [decode_v5 type_of]; try reflexivity.
  - by erewrite read_from_eval by (by apply v5_connack_read_eval).
  - by erewrite read_from_eval by (by apply v5_publish_read_eval).
  - by erewrite read_from_eval by (by apply v5_puback_read_eval).
  - by erewrite read_from_eval by (by apply v5_pubrec_read_eval).
  - by erewrite read_from_eval by (by apply v5_pubrel_read_eval).
  - by erewrite read_from_eval by (by apply v5_pubcomp_read_eval).
  - by erewrite read_from_eval by (by apply v5_subscribe_read_eval).
  - by erewrite read_from_eval by (by apply v5_suback_read_eval).
  - by erewrite read_from_eval by (by apply v5_unsubscribe_read_eval).
  - by erewrite read_from_eval by (by apply v5_unsuback_read_eval).
  - by erewrite read_from_eval by apply v5_disconnect_normal_read.
  - by erewrite read_from_eval by (by apply v5_disconnect_read_eval).
Qed.

(** One packet off the stream, whatever follows it. *)
Lemma decode_data_v4 p b body v rest :
  v4_wire p b body -> blen body <= 1000000 -> (is_connect p = false -> v = Some 3 \/ v = Some 4) ->
  decode_data (v, frame b body ++ rest)
  = (Ok (Some (v4_decoded p)), (version_after 4 p v, rest)).
Proof.
  intros Hw Hsz Hv. assert (blen body <= max_remaining) as Hm by (unfold max_remaining; lia).
  unfold decode_data. rewrite take_frame by done. unfold decode_packet.
  rewrite (v4_wire_type p) by done. unfold bind at 1, lift at 1.
  destruct (is_connect p) eqn:Hc.
  - destruct Hw; try discriminate Hc. by rewrite connect_read_v4.
  - rewrite bool_decide_eq_false_2 by (by destruct p). unfold decode_by_version, version_after.
    rewrite Hc. destruct p; try discriminate Hc; destruct (Hv eq_refl) as [-> | ->];
      unfold bind; cbn [get_version fst snd Z.eqb Pos.eqb orb]; by rewrite (decode_v4_eval _ _ _ _ Hw Hc Hm).
Qed.

Lemma decode_data_v5 p b body v rest :
  v5_wire p b body -> blen body <= 1000000 -> (is_connect p = false -> v = Some 5) ->
  decode_data (v, frame b body ++ rest)
  = (Ok (Some (v5_decoded p)), (version_after 5 p v, rest)).
Proof.
  intros Hw Hsz Hv. assert (blen body <= max_remaining) as Hm by (unfold max_remaining; lia).
  unfold decode_data. rewrite take_frame by done. unfold decode_packet.
  rewrite (v5_wire_type p) by done. unfold bind at 1, lift at 1.
  destruct (is_connect p) eqn:Hc.
  - destruct Hw; try discriminate Hc. by rewrite connect_read_v5.
  - rewrite bool_decide_eq_false_2 by (by destruct p). unfold decode_by_version, version_after.
    rewrite Hc. destruct p; try discriminate Hc; rewrite (Hv eq_refl);
      unfold bind; cbn [get_version fst snd Z.eqb Pos.eqb orb]; by rewrite (decode_v5_eval _ _ _ _ Hw Hc Hm).
Qed.
End decoding.
