(* ===== verification/CodecSafety.v ===== *)
(** * The decoder on arbitrary input

    [decode_data] never panics, whatever the octets; it takes exactly one frame
    off the stream or leaves the stream as it was; and the packets it returns
    are well formed. *)

From Stdlib Require Import String.
From S2P Require Import Prelude Bytes MqttTypes MqttCommon MqttV4 V5Props V5PropDefs V5PropSets V5Packets V5Wire V5Safety MqttCodec.

(** What the decoder returns under MQTT 3/4: a packet with a wire form that
    [check] accepts again; a DISCONNECT is read by the MQTT 5 reader, a CONNECT
    has no properties. *)
Definition v4_decode_ok (p : MqttPacket) : Prop :=
  match p with
  | P_Connect level c None w None l =>
      (level = 3 \/ level = 4) /\ connect_wf c /\ opt_all will_wf w /\ opt_all login_wf l
  | P_Disconnect d None => reason_code d <> None
  | _ => exists b body, v4_wire p b body /\ blen body <= 1000000
  end.

(** Under MQTT 5: every field in its range. *)
Definition v5_decode_ok (p : MqttPacket) : Prop :=
  match p with
  | P_Connect level c p w wp l => v5_connect_ok (mkConnectReadOutcome level c p w wp l)
  | P_ConnAck a p => v5_connack_ok (a, p)
  | P_Publish m p => v5_publish_ok (m, p)
  | P_PubAck a p => v5_puback_ok (a, p)
  | P_PubRec a p => v5_pubrec_ok (a, p)
  | P_PubRel a p => v5_pubrel_ok (a, p)
  | P_PubComp a p => v5_pubcomp_ok (a, p)
  | P_Subscribe s p => v5_subscribe_ok (s, p)
  | P_SubAck a p => v5_suback_ok (a, p)
  | P_Unsubscribe u p => v5_unsubscribe_ok (u, p)
  | P_UnsubAck a p => v5_unsuback_ok (a, p)
  | P_PingReq | P_PingResp => True
  | P_Disconnect d p => v5_disconnect_ok (d, p)
  | P_Auth a p => v5_auth_ok (a, p)
  end.

(** The packet belongs to the version the codec is left with. *)
Definition decode_ok (p : MqttPacket) (v : option Z) : Prop :=
  match v with
  | Some 3 | Some 4 => v4_decode_ok p
  | Some 5 => v5_decode_ok p
  | _ => False
  end.

Section safety.
Context {BC : BytesCrate} {BS : BytesSpec BC}.

Lemma wp_read_from {A B} (m : R A) packet (k : A -> B) (P : A -> Prop) (Q : B -> CodecState -> Prop) st :
  wp m (fun a _ => P a) packet -> (forall a, P a -> Q (k a) st) -> wp (read_from m packet k) Q st.
Proof.
  intros Hm HQ. unfold read_from, wp, bind, lift in *. destruct (m packet) as [[] ?]; cbn; auto.
Qed.

Lemma wp_decode_v4 h t packet v s :
  frame_for h packet -> remaining_len h <= 1000000 -> t <> PT_Connect -> t <> PT_Auth ->
  wp (decode_v4 h t packet) (fun p st => v4_decode_ok p /\ st = (v, s)) (v, s).
Proof.
  intros Hf Hsz Hc Ha. destruct t; try done; cbn [decode_v4].
  - eapply wp_read_from; [by apply wp_v4_connack_read|]. intros a [n Hn]. split; [|done].
    exists 32, (v4_connack_body a n). by split; [constructor|].
  - eapply wp_read_from; [by apply wp_v4_publish_read|]. intros a [Hw ?]. split; [|done].
    exists (publish_byte1 a), (v4_publish_body a). split; [by constructor|lia].
  - eapply wp_read_from; [by apply wp_v4_puback_read|]. intros a (k & Hk & ->). split; [|done].
    exists 64, (be16 k). by split; [constructor|].
  - eapply wp_read_from; [by apply wp_v4_pubrec_read|]. intros a (k & Hk & ->). split; [|done].
    exists 80, (be16 k). by split; [constructor|].
  - eapply wp_read_from; [by apply wp_v4_pubrel_read|]. intros a (k & Hk & ->). split; [|done].
    exists 98, (be16 k). by split; [constructor|].
  - eapply wp_read_from; [by apply wp_v4_pubcomp_read|]. intros a (k & Hk & ->). split; [|done].
    exists 112, (be16 k). by split; [constructor|].
  - eapply wp_read_from; [by apply wp_v4_subscribe_read|]. intros a [Hw ?]. split; [|done].
    exists 130, (v4_subscribe_body a). split; [by constructor|lia].
  - eapply wp_read_from; [by apply wp_v4_suback_read|]. intros a [Hw ?]. split; [|done].
    exists 144, (v4_suback_body a). split; [by constructor|lia].
  - eapply wp_read_from; [apply wp_v4_unsubscribe_read; [done|unfold max_remaining; lia]|]. intros a [Hw ?]. split; [|done].
    exists 162, (v4_unsubscribe_body a). split; [by constructor|lia].
  - eapply wp_read_from; [by apply wp_v4_unsuback_read|]. intros a (k & Hk & ->). split; [|done].
    exists 176, (be16 k). by split; [constructor|].
  - split; [|done]. exists 192, []. by split; [constructor|].
  - split; [|done]. exists 208, []. by split; [constructor|].
  - eapply wp_read_from; [by apply wp_v5_disconnect_read|]. by intros a [Hr _].
Qed.

Lemma wp_decode_v5 h t packet v s :
  frame_for h packet -> t <> PT_Connect -> t <> PT_Auth ->
  wp (decode_v5 h t packet) (fun p st => v5_decode_ok p /\ st = (v, s)) (v, s).
Proof.
  intros Hf Hc Ha. destruct t; try done; cbn [decode_v5].
  - eapply wp_read_from; [by apply wp_v5_connack_read|]. by intros [].
  - eapply wp_read_from; [by apply wp_v5_publish_read|]. by intros [].
  - eapply wp_read_from; [by apply wp_v5_puback_read|]. by intros [].
  - eapply wp_read_from; [by apply wp_v5_pubrec_read|]. by intros [].
  - eapply wp_read_from; [by apply wp_v5_pubrel_read|]. by intros [].
  - eapply wp_read_from; [by apply wp_v5_pubcomp_read|]. by intros [].
  - eapply wp_read_from; [by apply wp_v5_subscribe_read|]. by intros [].
  - eapply wp_read_from; [by apply wp_v5_suback_read|]. by intros [].
  - eapply wp_read_from; [by apply wp_v5_unsubscribe_read|]. by intros [].
  - eapply wp_read_from; [by apply wp_v5_unsuback_read|]. by intros [].
  - eapply wp_read_from; [by apply wp_v5_disconnect_read|]. by intros [].
Qed.

Definition connect_ok (r : ConnectReadOutcome) : Prop :=
  v5_connect_ok r \/
  (cro_protocol_version r = 3 \/ cro_protocol_version r = 4) /\ connect_wf (cro_connect r) /\
  opt_all will_wf (cro_last_will r) /\ opt_all login_wf (cro_login r).

Lemma wp_connect_read h s : frame_for h s -> wp (connect_read h) (fun r _ => connect_ok r) s.
Proof.
  intros Hf. unfold connect_read. wp_go5; bool_prop.
  - apply wp_v5_will_read; [done|]. intros w p s1 Hw Hp Hs1. wp_go5.
    apply wp_v5_login_read; [done|]. intros l s2 Hl Hs2. wp_go5.
    left. unfold v5_connect_ok. by split_and!.
  - apply wp_v4_will_read; [done|]. intros w s1 Hw Hs1. wp_go5.
    apply wp_v4_login_read; [done|]. intros l s2 Hl Hs2. wp_go5.
    right. cbn. split_and!; try done.
    match goal with H : _ || _ = true |- _ => apply orb_true_iff in H as [?|?] end; bool_prop; auto.
Qed.

Lemma packet_type_returns h : returns (packet_type h).
Proof. unfold packet_type. by repeat case_match. Qed.

Lemma packet_type_not_auth h : packet_type h <> Ok PT_Auth.
Proof. unfold packet_type. by repeat case_match. Qed.

(** The frame that [check] found and [split_to] cut off. *)
Lemma frame_for_take h s :
  bytes_ok s -> check s 1000000 = Ok h ->
  frame_for h (take (Z.to_nat (frame_length h)) s) /\ remaining_len h <= 1000000 /\
  0 <= frame_length h <= blen s.
Proof.
  intros Hs Hh. destruct (check_sound _ _ _ Hs Hh) as (Hr & Hl & Hlen & Hb).
  assert (0 <= frame_length h <= blen s) by (unfold frame_length in *; lia).
  split_and!; [|lia..]. unfold frame_for. rewrite blen_take by done.
  split_and!; try (done || lia). auto with bytesdb.
Qed.

Lemma wp_decode_by_version h t packet v s :
  frame_for h packet -> remaining_len h <= 1000000 -> t <> PT_Connect -> t <> PT_Auth ->
  wp (decode_by_version h t packet)
     (fun o st => exists p, o = Some p /\ decode_ok p st.1 /\ st = (v, s)) (v, s).
Proof.
  intros Hf Hsz Hc Ha. unfold decode_by_version. apply wp_bind.
  change (wp get_version) with (wp (E := Error) (S := CodecState) (fun st => (Ok st.1, st))).
  unfold wp at 1. cbn [fst]. destruct v as [v|]; [|done].
  apply wp_if; intros E; [apply orb_true_iff in E as [E|E]|apply wp_if; intros E']; bool_prop; subst;
    try done; apply wp_bind.
  - eapply wp_mono; [by apply wp_decode_v4|]. intros p st [Hp ->]. apply wp_ret. by exists p.
  - eapply wp_mono; [by apply wp_decode_v4|]. intros p st [Hp ->]. apply wp_ret. by exists p.
  - eapply wp_mono; [by apply wp_decode_v5|]. intros p st [Hp ->]. apply wp_ret. by exists p.
Qed.

(** After the frame has been cut off. *)
Lemma wp_decode_packet h packet v s :
  frame_for h packet -> remaining_len h <= 1000000 ->
  wp (decode_packet h packet)
     (fun o st => exists p, o = Some p /\ decode_ok p st.1 /\ st.2 = s /\
                            (is_connect p = false -> st.1 = v)) (v, s).
Proof.
  intros Hf Hsz. unfold decode_packet.
  apply wp_bind, wp_lift; [apply packet_type_returns|]. intros t Ht.
  assert (t <> PT_Auth) by (intros ->; by apply packet_type_not_auth in Ht).
  apply wp_if; intros Hc.
  - pose proof (wp_connect_read h packet Hf) as Hr. unfold wp in Hr.
    destruct (connect_read h packet) as [[r| | |] ?]; cbn [fst]; try done.
    apply wp_bind. unfold wp at 1, set_version. cbn [snd].
    destruct Hr as [Hr|([E|E] & Hc1 & Hw & Hl)].
    + pose proof (proj1 Hr) as E. rewrite E. cbn [Z.eqb Pos.eqb orb]. apply wp_ret.
      eexists. split; [done|]. split; [|done]. cbn. destruct r; cbn in *. by subst.
    + rewrite E. cbn [Z.eqb Pos.eqb orb]. apply wp_ret. eexists. split; [done|].
      split; [|done]. cbn. by split_and!; [left| ..].
    + rewrite E. cbn [Z.eqb Pos.eqb orb]. apply wp_ret. eexists. split; [done|].
      split; [|done]. cbn. by split_and!; [right| ..].
  - eapply wp_mono; [apply wp_decode_by_version; try done; by apply bool_decide_eq_false in Hc|].
    cbn. intros o st (p & -> & Hp & ->). by exists p.
Qed.

Lemma wp_decode_data v s :
  bytes_ok s ->
  wp decode_data (fun o st => exists p h, o = Some p /\ decode_ok p st.1 /\
        (is_connect p = false -> st.1 = v) /\
        check s 1000000 = Ok h /\ s = take (Z.to_nat (frame_length h)) s ++ st.2) (v, s).
Proof.
  intros Hs. unfold decode_data. apply wp_bind. unfold wp at 1, on_stream, get. cbn [fst snd].
  apply wp_bind, wp_lift; [apply check_returns|]. intros h Hh.
  destruct (frame_for_take h s Hs Hh) as (Hf & Hsz & Hl).
  apply wp_bind. unfold wp at 1, on_stream. cbn [fst snd]. unfold split_to, of_call.
  rewrite split_to_spec by lia.
  eapply wp_mono; [by apply wp_decode_packet|]. cbn. intros o st (p & -> & Hp & -> & Hv).
  exists p, h. split_and!; try done. by rewrite take_drop.
Qed.
End safety.
