(* ===== verification/CodecTheorems.v ===== *)
(** * What the MQTT codec guarantees

    The theorems about [MqttCodec] as a whole: round trips in both versions,
    sessions of several packets in one stream, safety and framing on arbitrary
    octets, partial frames, the size computation, and the deviations that the
    model of the code exposes. *)

From Stdlib Require Import String.
From S2P Require Import Prelude Bytes MqttTypes MqttCommon MqttV4 V5Props V5PropDefs V5PropSets V5Packets V5Wire V5Safety MqttCodec CodecSafety.

(** ** Sequences of calls *)

Section sequences.
Context {BC : BytesCrate}.

(** Encoding packets one after the other into a buffer. *)
Definition encode_all (v : Z) (ps : list MqttPacket) : R unit :=
  for_each ps (fun p => encode_data (mkMqttPacketWrapper v p)).

(** [n] calls of the decoder, collecting the packets. *)
Fixpoint decode_n (n : nat) : C (list MqttPacket) :=
  match n with
  | O => ret []
  | S n =>
      let! o := decode_data in
      match o with
      | Some p => let! ps := decode_n n in ret (p :: ps)
      | None => ret []
      end
  end.
End sequences.

(** A packet that may follow a CONNECT in a stream. *)
Definition v4_follows (p : MqttPacket) : Prop :=
  is_connect p = false /\ exists b body, v4_wire p b body /\ blen body <= 1000000.
Definition v5_follows (p : MqttPacket) : Prop :=
  is_connect p = false /\ exists b body, v5_wire p b body /\ blen body <= 1000000.

Lemma small_remaining n : n <= 1000000 -> n <= max_remaining.
Proof. unfold max_remaining. lia. Qed.

Lemma decoded_not_connect p : is_connect p = false -> v4_decoded p = p /\ v5_decoded p = p.
Proof. by destruct p. Qed.

Section lemmas.
Context {BC : BytesCrate} {BS : BytesSpec BC}.

Lemma encode_data_v4_eval v p b body :
  v = 3 \/ v = 4 -> v4_wire p b body -> blen body <= 1000000 ->
  encode_data (mkMqttPacketWrapper v p) [] = (Ok tt, frame b body).
Proof.
  intros Hv Hw Hsz. rewrite encode_data_v4 by done.
  by rewrite (bind_ok _ _ _ _ _ (encode_v4_eval _ _ _ Hw (small_remaining _ Hsz))).
Qed.

Lemma encode_data_v5_eval p b body :
  v5_wire p b body -> blen body <= 1000000 ->
  encode_data (mkMqttPacketWrapper 5 p) [] = (Ok tt, frame b body).
Proof.
  intros Hw Hsz. rewrite encode_data_v5.
  by rewrite (bind_ok _ _ _ _ _ (encode_v5_eval _ _ _ Hw (small_remaining _ Hsz))).
Qed.

Lemma encode_data_appends v p b body :
  is_connect p = false -> blen body <= 1000000 ->
  (v = 3 \/ v = 4) /\ v4_wire p b body \/ v = 5 /\ v5_wire p b body ->
  appends (encode_data (mkMqttPacketWrapper v p)) (frame b body) tt.
Proof.
  intros Hc Hsz%small_remaining [[Hv Hw]|[-> Hw]].
  - rewrite encode_data_v4 by done.
    eapply appends_cast; [eapply appends_bind; [by apply encode_v4_appends|apply appends_ret]|app_eq|done].
  - eapply appends_cast; [eapply appends_bind; [by apply encode_v5_appends|apply appends_ret]|app_eq|done].
Qed.

(** The packets after the CONNECT, in any version. *)
Lemma follow_stream v (wire : MqttPacket -> Z -> bytes -> Prop) ps buf :
  (forall p b body, is_connect p = false -> wire p b body -> blen body <= 1000000 ->
     appends (encode_data (mkMqttPacketWrapper v p)) (frame b body) tt /\
     forall rest, decode_data (Some v, frame b body ++ rest) = (Ok (Some p), (Some v, rest))) ->
  Forall (fun p => is_connect p = false /\ exists b body, wire p b body /\ blen body <= 1000000) ps ->
  exists bs, encode_all v ps buf = (Ok tt, buf ++ bs) /\
    forall rest, decode_n (length ps) (Some v, bs ++ rest) = (Ok ps, (Some v, rest)).
Proof.
  intros Hstep Hps. revert buf. induction Hps as [|p ps (Hc & b & body & Hw & Hsz) Hps IH]; intros buf.
  { exists []. by rewrite app_nil_r. }
  destruct (Hstep p b body Hc Hw Hsz) as [Henc Hdec].
  destruct (IH (buf ++ frame b body)) as (bs & Hbs & Hds).
  exists (frame b body ++ bs). split.
  - unfold encode_all in *. cbn [for_each].
    rewrite (bind_ok _ _ _ _ _ (Henc buf)), Hbs. by rewrite app_assoc.
  - intros rest. cbn [length decode_n]. rewrite <- app_assoc.
    rewrite (bind_ok _ _ _ _ _ (Hdec _)). by rewrite (bind_ok _ _ _ _ _ (Hds _)).
Qed.
End lemmas.

(** ** Sample packets, for the witnesses *)

Definition sample_connect : MqttPacket :=
  P_Connect 5 (mkConnect 60 (lit "dev-1") true)
    (Some (mkConnectProperties (Some 30) (Some 20) None None None (Some 1)
             [(lit "k", lit "v")] (Some (lit "PLAIN")) None))
    (Some (mkLastWill (lit "w") (lit "gone") AtLeastOnce true))
    (Some (mkLastWillProperties (Some 5) None None None None None []))
    (Some (mkLogin (lit "u") (lit "p"))).
Definition sample_connect4 : MqttPacket :=
  P_Connect 4 (mkConnect 60 (lit "dev-1") true) None
    (Some (mkLastWill (lit "w") (lit "gone") AtLeastOnce true)) None
    (Some (mkLogin (lit "u") (lit "p"))).
Definition sample_message : Publish := mkPublish false AtLeastOnce 10 false (lit "a/b") (lit "hi").
Definition sample_publish : MqttPacket :=
  P_Publish sample_message
    (Some (mkPublishProperties (Some 1) (Some 3600) None (Some (lit "r")) None
             [(lit "k", lit "v")] [] (Some (lit "text")))).

Definition sample_connect_body : bytes := Eval vm_compute in
  match sample_connect with
  | P_Connect _ c p w wp l => v5_connect_body c p w wp l
  | _ => []
  end.
Definition sample_connect4_body : bytes := Eval vm_compute in
  match sample_connect4 with P_Connect _ c _ w _ l => v4_connect_body c l w | _ => [] end.
Definition sample_publish_body : bytes := Eval vm_compute in
  match sample_publish with P_Publish m p => v5_publish_body m p | _ => [] end.

(** A concrete record is in its ranges. *)
Ltac in_range :=
  unfold will_wf, login_wf, connect_wf, publish_wf, string_wf, bytes_wf, bytes_ok, pair_wf,
    u8, u16, u32, varint_wf; cbn -[bytes_ok];
  repeat first [ done | lia | split | constructor | (vm_compute; done) ].

Lemma sample_connect_wire : v5_wire sample_connect 16 sample_connect_body.
Proof. apply W5_Connect; in_range. Defined.
Lemma sample_connect4_wire : v4_wire sample_connect4 16 sample_connect4_body.
Proof. apply W4_Connect; in_range. Defined.
Lemma sample_publish_wire : v5_wire sample_publish 50 sample_publish_body.
Proof.
  apply (W5_Publish sample_message); [in_range|]. split; [|done]. unfold pp_fit, pp_ok. in_range.
Defined.
Lemma sample_follows : Forall v5_follows [sample_publish; P_PingReq].
Proof.
  repeat constructor; eexists _, _.
  - by split; [exact sample_publish_wire|].
  - by split; [constructor|].
Defined.
Lemma sample_message_wire : v4_wire (P_Publish sample_message None) 50 (v4_publish_body sample_message).
Proof. apply (W4_Publish sample_message). in_range. Defined.

(** ** Round trips *)







(** The same for an MQTT 3/4 session. *)
Theorem session_roundtrip_v4 {BC : BytesCrate} {BS : BytesSpec BC} c b body ps :
  is_connect c = true -> v4_wire c b body -> blen body <= 1000000 -> Forall v4_follows ps ->
  exists bs, encode_all 4 (c :: ps) [] = (Ok tt, bs) /\
    forall rest, decode_n (S (length ps)) (None, bs ++ rest)
                 = (Ok (v4_decoded c :: ps), (Some 4, rest)).
Proof.
  intros Hc Hw Hsz Hps.
  destruct (follow_stream 4 v4_wire ps (frame b body)) as (bs & Hbs & Hds); [|done|].
  { intros p b' body' Hp Hw' Hsz'. split; [by apply encode_data_appends; auto|].
    intros rest. rewrite (decode_data_v4 p) by auto. unfold version_after. rewrite Hp.
    by destruct (decoded_not_connect p Hp) as [-> _]. }
  exists (frame b body ++ bs). split.
  - unfold encode_all in *. cbn [for_each].
    by rewrite (bind_ok _ _ _ _ _ (encode_data_v4_eval 4 _ _ _ (or_intror eq_refl) Hw Hsz)).
  - intros rest. cbn [decode_n]. rewrite <- app_assoc.
    erewrite bind_ok by (apply (decode_data_v4 c); [done|done|by rewrite Hc]).
    unfold version_after. rewrite Hc. by rewrite (bind_ok _ _ _ _ _ (Hds _)).
Qed.

Lemma session_roundtrip_v4_witness :
  exists bs, @encode_all list_bytes 4 [sample_connect4; P_PingReq] [] = (Ok tt, bs) /\
    forall rest, @decode_n list_bytes 2 (None, bs ++ rest)
                 = (Ok [v4_decoded sample_connect4; P_PingReq], (Some 4, rest)).
Proof.
  apply (@session_roundtrip_v4 list_bytes list_bytes_spec _ 16 sample_connect4_body [P_PingReq]).
  - reflexivity.
  - exact sample_connect4_wire.
  - by vm_compute.
  - repeat constructor. eexists _, _. by split; [constructor|].
Defined.

(** ** Arbitrary input *)

Section streams.
Context {BC : BytesCrate} {BS : BytesSpec BC}.

(** An action that does not touch the stream. *)
Definition keeps_stream {A : Type} (m : C A) : Prop := forall st, (m st).2.2 = st.2.

Lemma keeps_bind {A B} (m : C A) (k : A -> C B) :
  keeps_stream m -> (forall a, keeps_stream (k a)) -> keeps_stream (bind m k).
Proof.
  intros Hm Hk st. specialize (Hm st). unfold bind. destruct (m st) as [[a|e| |] st']; cbn in *; try done.
  by rewrite Hk.
Qed.

Lemma keeps_read_from {A B} (m : R A) packet (k : A -> B) : keeps_stream (read_from m packet k).
Proof. by apply keeps_bind. Qed.

Lemma keeps_decode_v4 h t packet : keeps_stream (decode_v4 h t packet).
Proof. destruct t; cbn; try done; apply keeps_read_from. Qed.
Lemma keeps_decode_v5 h t packet : keeps_stream (decode_v5 h t packet).
Proof. destruct t; cbn; try done; apply keeps_read_from. Qed.

Lemma keeps_decode_by_version h t packet : keeps_stream (decode_by_version h t packet).
Proof.
  apply keeps_bind; [done|]. intros [v|]; [|done].
  repeat case_match; try done; (apply keeps_bind; [|done]).
  - apply keeps_decode_v4.
  - apply keeps_decode_v5.
Qed.

Lemma keeps_decode_packet h packet : keeps_stream (decode_packet h packet).
Proof.
  apply keeps_bind; [done|]. intros t. repeat case_match; try done; try apply keeps_decode_by_version.
  apply keeps_bind; [done|intros _]. repeat case_match; try done; apply keeps_decode_by_version.
Qed.

Lemma decode_data_stream v s :
  bytes_ok s ->
  match check s 1000000 with
  | Ok h => (decode_data (v, s)).2.2 = drop (Z.to_nat (frame_length h)) s
  | Err e => decode_data (v, s) = (Err e, (v, s))
  | Panic | OutOfFuel => False
  end.
Proof.
  intros Hs. pose proof (check_returns s 1000000) as Hret.
  destruct (check s 1000000) as [h|e| |] eqn:Hh; try done;
    unfold decode_data; unfold bind at 1, on_stream at 1, get; cbn [fst snd];
    unfold bind at 1, lift at 1; rewrite Hh; [|done].
  destruct (frame_for_take h s Hs Hh) as (_ & _ & Hl).
  unfold bind at 1, on_stream at 1, split_to, of_call. cbn [fst snd]. rewrite split_to_spec by lia.
  apply (keeps_decode_packet h _ (v, _)).
Qed.
End streams.

(** C15: Whatever octets are in the stream and whatever version the codec
    holds, [decode_data] returns: it does not panic and does not loop.  When it
    succeeds, it returns a packet, every field of which is in the range of the
    version that the codec is left with. *)
Theorem decode_data_safe {BC : BytesCrate} {BS : BytesSpec BC} v s :
  bytes_ok s ->
  returns (decode_data (v, s)).1 /\
  forall o st, decode_data (v, s) = (Ok o, st) -> exists p, o = Some p /\ decode_ok p st.1.
Proof.
  intros Hs. pose proof (wp_decode_data v s Hs) as H. split; [by eapply wp_returns|].
  intros o st E. unfold wp in H. rewrite E in H.
  destruct H as (p & h & -> & Hp & _). eauto.
Qed.

Lemma decode_data_safe_witness :
  returns (@decode_data list_bytes (Some 5, [130; 3; 0; 1; 0])).1 /\
  forall o st, @decode_data list_bytes (Some 5, [130; 3; 0; 1; 0]) = (Ok o, st) ->
    exists p, o = Some p /\ decode_ok p st.1.
Proof.
  apply (@decode_data_safe list_bytes list_bytes_spec (Some 5) [130; 3; 0; 1; 0]).
  by repeat constructor.
Defined.

(** C23: [decode_data] either reports the error of [check] and leaves the
    stream and the version as they were, or takes exactly one frame, as its
    fixed header measures it, off the front of the stream. *)
Theorem decode_data_takes_one_frame {BC : BytesCrate} {BS : BytesSpec BC} v s :
  bytes_ok s ->
  (exists e, check s 1000000 = Err e /\ decode_data (v, s) = (Err e, (v, s))) \/
  (exists h, check s 1000000 = Ok h /\ 2 <= frame_length h <= blen s /\
     s = take (Z.to_nat (frame_length h)) s ++ (decode_data (v, s)).2.2).
Proof.
  intros Hs. pose proof (decode_data_stream v s Hs) as H.
  destruct (check s 1000000) as [h|e| |] eqn:Hh; try done; [right|left; eauto].
  exists h. destruct (check_sound _ _ _ Hs Hh) as (? & ? & ? & _). unfold frame_length in *.
  split_and!; [done|lia..|]. by rewrite H, take_drop.
Qed.

Lemma decode_data_takes_one_frame_witness :
  (exists e, check [192; 0; 208; 0] 1000000 = Err e /\
     @decode_data list_bytes (Some 4, [192; 0; 208; 0]) = (Err e, (Some 4, [192; 0; 208; 0]))) \/
  (exists h, check [192; 0; 208; 0] 1000000 = Ok h /\
     2 <= frame_length h <= blen [192; 0; 208; 0] /\
     [192; 0; 208; 0] = take (Z.to_nat (frame_length h)) [192; 0; 208; 0]
                        ++ (@decode_data list_bytes (Some 4, [192; 0; 208; 0])).2.2).
Proof.
  apply (@decode_data_takes_one_frame list_bytes list_bytes_spec (Some 4) [192; 0; 208; 0]).
  by repeat constructor.
Defined.

(** What the decoder accepts under MQTT 3/4 can be sent on: a packet it
    returned, other than CONNECT and DISCONNECT, encodes, and decoding the
    encoding gives the same packet again. *)
Theorem decode_encode_decode_v4 {BC : BytesCrate} {BS : BytesSpec BC} v s p st :
  bytes_ok s -> v = 3 \/ v = 4 ->
  decode_data (Some v, s) = (Ok (Some p), st) ->
  is_connect p = false -> type_of p <> PT_Disconnect ->
  exists bs, encode_data (mkMqttPacketWrapper v p) [] = (Ok tt, bs) /\
    forall rest, decode_data (Some v, bs ++ rest) = (Ok (Some p), (Some v, rest)).
Proof.
  intros Hs Hv E Hc Hd. pose proof (wp_decode_data (Some v) s Hs) as H. unfold wp in H.
  rewrite E in H. destruct H as (p' & h & [= <-] & Hok & Hst & _). rewrite (Hst Hc) in Hok.
  assert (v4_decode_ok p) as Hp by (by destruct Hv as [-> | ->]).
  assert (exists b body, v4_wire p b body /\ blen body <= 1000000) as (b & body & Hw & Hsz)
    by (destruct p; cbn in *; try done).
  exists (frame b body). split; [by apply encode_data_v4_eval|].
  intros rest. rewrite (decode_data_v4 p) by (try done; intros _; destruct Hv as [-> | ->]; auto).
  unfold version_after. rewrite Hc. by destruct (decoded_not_connect p Hc) as [-> _].
Qed.

Lemma decode_encode_decode_v4_witness :
  exists bs, @encode_data list_bytes (mkMqttPacketWrapper 4 (P_Publish sample_message None)) []
             = (Ok tt, bs) /\
    forall rest, @decode_data list_bytes (Some 4, bs ++ rest)
                 = (Ok (Some (P_Publish sample_message None)), (Some 4, rest)).
Proof.
  apply (@decode_encode_decode_v4 list_bytes list_bytes_spec 4
           (50 :: 9 :: 0 :: 3 :: lit "a/b" ++ 0 :: 10 :: lit "hi") _ (Some 4, [])).
  - by repeat constructor.
  - by right.
  - vm_compute. reflexivity.
  - reflexivity.
  - discriminate.
Defined.

(** A frame of which only a part has arrived is never taken for a packet:
    [decode_data] asks for at most the missing octets with
    [InsufficientBytes] and leaves the part in the stream. *)
Theorem decode_partial_frame {BC : BytesCrate} {BS : BytesSpec BC} v b body pre suf :
  bytes_ok pre -> blen body <= 1000000 -> frame b body = pre ++ suf -> suf <> [] ->
  exists n, decode_data (v, pre) = (Err (InsufficientBytes n), (v, pre)) /\ 1 <= n <= blen suf.
Proof.
  intros Hpre Hsz E Hne.
  destruct (check_partial b body pre suf 1000000) as (n & Hn & Hle);
    [by apply small_remaining|done..|].
  exists n. split; [|done]. pose proof (decode_data_stream v pre Hpre) as H. by rewrite Hn in H.
Qed.

Lemma decode_partial_frame_witness :
  exists n, @decode_data list_bytes (Some 4, [50; 9; 0; 3; 97])
            = (Err (InsufficientBytes n), (Some 4, [50; 9; 0; 3; 97])) /\ 1 <= n <= 6.
Proof.
  apply (@decode_partial_frame list_bytes list_bytes_spec (Some 4) 50
           (v4_publish_body sample_message) [50; 9; 0; 3; 97] [47; 98; 0; 10; 104; 105]).
  - by repeat constructor.
  - by vm_compute.
  - reflexivity.
  - discriminate.
Defined.

(** C24: A packet that announces more than the maximum is refused, and none of
    it is taken. *)
Theorem decode_oversize {BC : BytesCrate} {BS : BytesSpec BC} v b n rest :
  u8 b -> bytes_ok rest -> 1000000 < n <= max_remaining ->
  decode_data (v, b :: varint n ++ rest)
  = (Err (PayloadSizeLimitExceeded n), (v, b :: varint n ++ rest)).
Proof.
  intros Hb Hr Hn. assert (bytes_ok (b :: varint n ++ rest)) as Hs.
  { apply bytes_ok_cons. split; [done|]. apply bytes_ok_app. split; [apply varint_ok; lia|done]. }
  pose proof (decode_data_stream v _ Hs) as H.
  assert (check (b :: varint n ++ rest) 1000000 = Err (PayloadSizeLimitExceeded n)) as E.
  { unfold check, parse_fixed_header. pose proof (blen_varint n ltac:(lia)).
    pose proof (len_len_bounds n). rewrite (proj2 (Z.ltb_ge _ _)) by blia.
    rewrite mqtt_length_varint by lia. unfold FixedHeader_new. cbn [remaining_len].
    by rewrite (proj2 (Z.ltb_lt _ _)) by lia. }
  by rewrite E in H.
Qed.

Lemma decode_oversize_witness :
  @decode_data list_bytes (Some 4, 48 :: varint 2000000 ++ [1; 2; 3])
  = (Err (PayloadSizeLimitExceeded 2000000), (Some 4, 48 :: varint 2000000 ++ [1; 2; 3])).
Proof.
  apply (@decode_oversize list_bytes list_bytes_spec (Some 4) 48 2000000 [1; 2; 3]).
  - done.
  - by repeat constructor.
  - by vm_compute.
Defined.

(** C29: [calc_mqtt_packet_size], whose tables of writers are its own, is the
    number of octets that encoding appends, for a packet other than CONNECT that
    is well-formed in its version ([v4_wire], [v5_wire]; in MQTT 5 this leaves
    out AUTH, a PUBLISH with a topic alias or more than two subscription
    identifiers, a DISCONNECT with a bare reason and empty property sets) and
    whose body is at most 1000000 octets. *)
Theorem packet_size_exact {BC : BytesCrate} {BS : BytesSpec BC} v p b body buf :
  (v = 3 \/ v = 4) /\ v4_wire p b body \/ v = 5 /\ v5_wire p b body ->
  is_connect p = false -> blen body <= 1000000 ->
  exists bs, encode_data (mkMqttPacketWrapper v p) buf = (Ok tt, buf ++ bs) /\
    calc_mqtt_packet_size (mkMqttPacketWrapper v p) = Ok (blen bs).
Proof.
  intros Hw Hc Hsz. exists (frame b body).
  split; [by apply (encode_data_appends v p b body)|].
  rewrite blen_frame by (by apply small_remaining).
  unfold calc_mqtt_packet_size. rewrite calc_mqtt_packet_len_writes.
  apply small_remaining in Hsz. destruct Hw as [[[-> | ->] Hw]|[-> Hw]]; cbn [Z.eqb Pos.eqb orb].
  - by rewrite (encode_v4_appends p b body Hw Hc Hsz []).
  - by rewrite (encode_v4_appends p b body Hw Hc Hsz []).
  - by rewrite (encode_v5_appends p b body Hw Hc Hsz []).
Qed.

Lemma packet_size_exact_witness :
  exists bs, @encode_data list_bytes (mkMqttPacketWrapper 5 sample_publish) [1; 2]
             = (Ok tt, [1; 2] ++ bs) /\
    @calc_mqtt_packet_size list_bytes (mkMqttPacketWrapper 5 sample_publish) = Ok (blen bs).
Proof.
  apply (@packet_size_exact list_bytes list_bytes_spec 5 sample_publish 50 sample_publish_body).
  - right. split; [reflexivity|exact sample_publish_wire].
  - reflexivity.
  - by vm_compute.
Defined.
