(* ===== verification/CodecDeviations.v ===== *)
(** * Where the codec departs from itself

    The single-version codecs against [MqttCodec], and the places where the
    writers and the readers of the code do not agree with each other: AUTH,
    DISCONNECT with a reason, the topic alias, the size of a CONNECT and the
    retain flag of an MQTT 3/4 will. *)

From Stdlib Require Import String.
From S2P Require Import Prelude Bytes MqttTypes MqttCommon MqttV4 V5Props V5PropDefs V5PropSets V5Packets V5Wire V5Safety MqttCodec CodecSafety CodecTheorems.

(** The frame at the front of a stream is there and has the type [t]. *)
Definition framed_as (s : bytes) (t : PacketType) : bool :=
  match check s 1000000 with
  | Ok h => match packet_type h with Ok t' => bool_decide (t' = t) | _ => false end
  | _ => false
  end.

Section lemmas.
Context {BC : BytesCrate} {BS : BytesSpec BC}.

Lemma framed_as_type s t h : framed_as s t = false -> check s 1000000 = Ok h -> packet_type h <> Ok t.
Proof. unfold framed_as. intros H E Ht. rewrite E, Ht in H. by rewrite bool_decide_eq_true_2 in H. Qed.

Lemma utf8_string b x b' : read_mqtt_utf8 b = (Ok x, b') -> read_mqtt_string b = (Ok x, b').
Proof.
  unfold read_mqtt_utf8, read_mqtt_string. intros (y & c & E & H)%bind_inv. rewrite (bind_ok _ _ _ _ _ E).
  revert H. unfold ok_or. by destruct (from_utf8 y).
Qed.

(** The reader of MQTT 5 accepts what the reader of both versions does. *)
Lemma v5_connect_accepted h b r :
  (v5_connect_read h b).1 = Ok r -> (connect_read h b).1 = Ok r /\ cro_protocol_version r = 5.
Proof.
  destruct (v5_connect_read h b) as [o b'] eqn:E. cbn [fst]. intros ->. revert E. unfold v5_connect_read, connect_read.
  intros (u & b1 & E1 & E)%bind_inv. rewrite (bind_ok _ _ _ _ _ E1).
  apply bind_inv in E as (name & b2 & E2 & E). rewrite (bind_ok _ _ _ _ _ E2).
  apply bind_inv in E as (level & b3 & E3 & E). rewrite (bind_ok _ _ _ _ _ E3).
  destruct (bool_decide (name = lit "MQTT")) eqn:En; [|done]. cbn [negb andb] in *.
  destruct (level =? 5) eqn:El; [|done]. cbn [negb] in E. rewrite E. split; [done|].
  apply bind_inv in E as (? & ? & _ & E). apply bind_inv in E as (? & ? & _ & E). apply bind_inv in E as (? & ? & _ & E).
  apply bind_inv in E as (? & ? & _ & E). apply bind_inv in E as ([? ?] & ? & _ & E). apply bind_inv in E as (? & ? & _ & E).
  injection E as <- <-. cbn [cro_protocol_version]. by apply Z.eqb_eq.
Qed.

Lemma v4_connect_accepted h b level c l w :
  (v4_connect_read h b).1 = Ok (level, c, l, w) ->
  (connect_read h b).1 = Ok (mkConnectReadOutcome level c None w None l) /\ (level = 3 \/ level = 4).
Proof.
  destruct (v4_connect_read h b) as [o b'] eqn:E. cbn [fst]. intros ->. revert E. unfold v4_connect_read, connect_read.
  intros (u & b1 & E1 & E)%bind_inv. rewrite (bind_ok _ _ _ _ _ E1).
  apply bind_inv in E as (name & b2 & E2%utf8_string & E). rewrite (bind_ok _ _ _ _ _ E2).
  apply bind_inv in E as (level' & b3 & E3 & E). rewrite (bind_ok _ _ _ _ _ E3).
  destruct (bool_decide (name = lit "MQTT")) eqn:En; [|done]. cbn [negb andb] in *.
  assert (level' = 4 \/ level' = 3) as Hl by (destruct (Z.eqb_spec level' 4), (Z.eqb_spec level' 3); auto; done).
  rewrite (proj2 (Z.eqb_neq level' 5)) by lia.
  replace ((level' =? 4) || (level' =? 3)) with true by (destruct Hl as [-> | ->]; done).
  replace (negb (level' =? 4) && negb (level' =? 3)) with false in E by (destruct Hl as [-> | ->]; done).
  apply bind_inv in E as (f & b4 & E4 & E). rewrite (bind_ok _ _ _ _ _ E4).
  apply bind_inv in E as (k & b5 & E5 & E). rewrite (bind_ok _ _ _ _ _ E5).
  apply bind_inv in E as (id & b6 & E6 & E). rewrite (bind_ok _ _ _ _ _ E6).
  apply bind_inv in E as (w' & b7 & E7 & E). rewrite (bind_ok _ _ _ _ _ E7).
  apply bind_inv in E as (l' & b8 & E8 & E). rewrite (bind_ok _ _ _ _ _ E8).
  injection E as -> -> -> -> _. split; [done|]. lia.
Qed.

(** A CONNECT at the front of the stream, read by one codec and by another. *)
Lemma connect_ext s v (f : FixedHeader -> bytes -> PacketType -> C (option MqttPacket)) p st :
  framed_as s PT_Connect = true ->
  (let! stream := on_stream get in
   let! fixed_header := lift (check stream 1000000) in
   let! packet := on_stream (split_to (frame_length fixed_header)) in
   let! packet_type := lift (packet_type fixed_header) in
   f fixed_header packet packet_type) (v, s) = (Ok (Some p), st) ->
  exists h packet rest, packet_type h = Ok PT_Connect /\ f h packet PT_Connect (v, rest) = (Ok (Some p), st) /\
    forall old, decode_data (old, s) = decode_packet h packet (old, rest).
Proof.
  unfold framed_as. intros Ht (s' & st1 & [= <- <-] & H)%bind_inv.
  apply bind_inv in H as (h & st2 & E2 & H). cbn in E2. unfold lift in E2. injection E2 as E2 <-.
  apply bind_inv in H as (packet & st3 & E3 & H). rewrite E2 in Ht.
  apply bind_inv in H as (t & st4 & E4 & H). unfold lift in E4. injection E4 as E4 <-. rewrite E4 in Ht.
  apply bool_decide_eq_true in Ht as ->. unfold on_stream in E3. cbn in E3.
  destruct (split_to (frame_length h) s) as [o rest] eqn:E. injection E3 as -> <-.
  exists h, packet, rest. split_and!; [done|done|]. intros old. unfold decode_data.
  rewrite (bind_ok _ _ _ s (old, s)) by done. rewrite (bind_ok _ _ _ h (old, s)) by (unfold lift; cbn; by rewrite E2).
  rewrite (bind_ok _ _ _ packet (old, rest)) by (unfold on_stream; cbn; by rewrite E). done.
Qed.

(** What [MqttCodec] makes of a CONNECT that its reader accepts. *)
Lemma decode_packet_connect h packet r old rest :
  packet_type h = Ok PT_Connect -> (connect_read h packet).1 = Ok r ->
  decode_packet h packet (old, rest)
  = (let v := cro_protocol_version r in
     if (v =? 4) || (v =? 3) then
       (Ok (Some (P_Connect v (cro_connect r) None (cro_last_will r) None (cro_login r))), (Some v, rest))
     else if v =? 5 then
       (Ok (Some (P_Connect v (cro_connect r) (cro_properties r) (cro_last_will r) (cro_last_will_properties r)
                    (cro_login r))), (Some v, rest))
     else decode_by_version h PT_Connect packet (Some v, rest)).
Proof.
  intros Ht Hr. unfold decode_packet. rewrite (bind_ok _ _ _ PT_Connect (old, rest)) by (unfold lift; by rewrite Ht).
  rewrite bool_decide_eq_true_2, Hr by done. cbv zeta. unfold set_version, bind, ret. cbn [snd].
  by repeat case_match.
Qed.

Lemma bind_ext {S E A B} (m : M S E A) (k k' : A -> M S E B) s :
  (forall a s', m s = (Ok a, s') -> k a s' = k' a s') -> bind m k s = bind m k' s.
Proof. intros H. unfold bind. destruct (m s) as [[a|e| |] s'] eqn:E0; try done. by apply H. Qed.

(** Both codecs cut the frame off the stream in the same way. *)
Lemma frame_ext {A} v s (k k' : FixedHeader -> bytes -> C A) :
  (forall h packet rest, check s 1000000 = Ok h -> k h packet (v, rest) = k' h packet (v, rest)) ->
  (let! stream := on_stream get in
   let! fixed_header := lift (check stream 1000000) in
   let! packet := on_stream (split_to (frame_length fixed_header)) in
   k fixed_header packet) (v, s)
  = (let! stream := on_stream get in
     let! fixed_header := lift (check stream 1000000) in
     let! packet := on_stream (split_to (frame_length fixed_header)) in
     k' fixed_header packet) (v, s).
Proof.
  intros H. apply bind_ext. intros s' st [= <- <-]. apply bind_ext. intros h st. cbn.
  intros [= Hh <-]. apply bind_ext. intros packet [v' rest]. unfold on_stream. cbn.
  destruct (split_to (frame_length h) s) as [o b]. intros [= -> <- <-]. by apply H.
Qed.

(** A DISCONNECT with a reason and no properties, as it is written. *)
Lemma disconnect_reason_appends r :
  r <> DR_NormalDisconnection ->
  appends (v5_disconnect_write (mkDisconnect (Some r)) None)
          (frame 224 [v5_disconnect_code r] ++ [0]) 3.
Proof.
  intros Hr. assert (u8 (v5_disconnect_code r)) as Hu by (by destruct r).
  assert (v5_disconnect_len (mkDisconnect (Some r)) None = 1) as Hlen
    by (unfold v5_disconnect_len; cbn; by rewrite bool_decide_eq_false_2).
  unfold v5_disconnect_write. rewrite Hlen. cbv zeta. cbn [Z.eqb Pos.eqb reason_code unwrap].
  eapply appends_cast;
    [eapply appends_bind; [by apply put_u8_appends|];
     eapply appends_bind; [by apply write_remaining_length_appends|];
     eapply appends_bind; [apply appends_ret|];
     eapply appends_bind; [by apply put_u8_appends|];
     eapply appends_bind; [by apply (opt_write_wire None)|apply appends_ret]|app_eq|done].
Qed.

(** Reading it back runs out of octets. *)
Lemma disconnect_reason_read r :
  v5_disconnect_read (hdr_of 224 [v5_disconnect_code r]) (frame 224 [v5_disconnect_code r])
  = (Err (InsufficientBytes 1), []).
Proof.
  assert (u8 (v5_disconnect_code r)) as Hu by (by destruct r).
  unfold v5_disconnect_read. cbv zeta. rewrite read_frame. cbn [byte1 hdr_of remaining_len].
  change [v5_disconnect_code r] with ([v5_disconnect_code r] ++ []).
  change (blen _ =? 0) with false. cbn [negb]. change (Z.shiftr 224 4 =? _) with true.
  change (Z.land 224 15 =? 0) with true. cbn [negb]. parse_step.
  assert (v5_disconnect_reason (v5_disconnect_code r) = Ok r) as -> by (by destruct r).
  reflexivity.
Qed.
End lemmas.

(** C30: The single-version codecs, whose tables are their own, against
    [MqttCodec].  [Mqtt5Codec] and [Mqtt4Codec] encode every packet as
    [MqttCodec] does for a wrapper of version 5, and of 3 or 4.  On a stream
    whose frame is no CONNECT (nor, for [Mqtt4Codec], a DISCONNECT) they decode
    as [MqttCodec] does once its version is set, octet for octet and error for
    error.  A CONNECT that one of them accepts [MqttCodec] accepts as the same
    packet, whatever version it held before, and records its version. *)
Theorem single_version_codecs_agree {BC : BytesCrate} s :
  (forall p buf, mqtt5_encode p buf = encode_data (mkMqttPacketWrapper 5 p) buf) /\
  (forall v p buf, v = 3 \/ v = 4 -> mqtt4_encode p buf = encode_data (mkMqttPacketWrapper v p) buf) /\
  (framed_as s PT_Connect = false -> mqtt5_decode (Some 5, s) = decode_data (Some 5, s)) /\
  (framed_as s PT_Connect = false -> framed_as s PT_Disconnect = false ->
   forall v, v = 3 \/ v = 4 -> mqtt4_decode (Some v, s) = decode_data (Some v, s)) /\
  (framed_as s PT_Connect = true -> forall v p st, mqtt5_decode (v, s) = (Ok (Some p), st) ->
   forall old, decode_data (old, s) = (Ok (Some p), (Some 5, st.2))) /\
  (framed_as s PT_Connect = true -> forall v p st, mqtt4_decode (v, s) = (Ok (Some p), st) ->
   forall old, exists level, (level = 3 \/ level = 4) /\ decode_data (old, s) = (Ok (Some p), (Some level, st.2))).
Proof.
  split_and!.
  - intros p buf. unfold mqtt5_encode. by rewrite encode_data_v5; destruct p.
  - intros v p buf Hv. rewrite encode_data_v4 by done. unfold mqtt4_encode. by repeat case_match.
  - intros Hc. apply frame_ext. intros h packet rest Hh. apply bind_ext. intros t st [= Ht <-].
    pose proof (framed_as_type _ _ _ Hc Hh). pose proof (packet_type_not_auth h).
    rewrite bool_decide_eq_false_2 by congruence. unfold decode_by_version. destruct t; try congruence; done.
  - intros Hc Hd v Hv. apply frame_ext. intros h packet rest Hh. apply bind_ext. intros t st [= Ht <-].
    pose proof (framed_as_type _ _ _ Hc Hh). pose proof (framed_as_type _ _ _ Hd Hh). pose proof (packet_type_not_auth h).
    rewrite bool_decide_eq_false_2 by congruence. unfold decode_by_version.
    destruct Hv as [-> | ->]; destruct t; try congruence; done.
  - intros Hc v p st (h & packet & rest & Ht & E & Hd)%(connect_ext s); [|done]. intros old. rewrite Hd.
    apply bind_inv in E as (q & st' & E & [= <- <-]). apply bind_inv in E as (r & st2 & E & [= <- <-]).
    unfold lift in E. injection E as E <-. destruct (v5_connect_accepted _ _ _ E) as [Er Hv].
    rewrite (decode_packet_connect _ _ _ _ _ Ht Er). cbv zeta. by rewrite Hv.
  - intros Hc v p st (h & packet & rest & Ht & E & Hd)%(connect_ext s); [|done]. intros old. rewrite Hd.
    apply bind_inv in E as (q & st' & E & [= <- <-]). apply bind_inv in E as ([[[level c] l] w] & st2 & E & [= <- <-]).
    unfold lift in E. injection E as E <-. destruct (v4_connect_accepted _ _ _ _ _ _ E) as [Er Hv]. exists level.
    split; [done|]. rewrite (decode_packet_connect _ _ _ _ _ Ht Er). cbv zeta. cbn. by destruct Hv as [-> | ->].
Qed.

Lemma single_version_codecs_agree_witness :
  let s := frame 16 sample_connect_body ++ [192; 0] in
  exists p, (@mqtt5_decode list_bytes (None, s)).1 = Ok (Some p) /\
            @decode_data list_bytes (Some 4, s) = (Ok (Some p), (Some 5, [192; 0])).
Proof.
  intros s. destruct (@single_version_codecs_agree list_bytes s) as (_ & _ & _ & _ & H & _).
  eexists. split; [vm_compute; reflexivity|]. refine (H _ None _ (None, [192; 0]) _ (Some 4)); vm_compute; reflexivity.
Defined.

(** [Mqtt4Codec] cannot read the DISCONNECT it writes: it takes the frame
    off the stream and answers [InvalidProtocol], where [MqttCodec] returns the
    packet. *)
Theorem mqtt4_codec_refuses_disconnect {BC : BytesCrate} {BS : BytesSpec BC} :
  let p := P_Disconnect (mkDisconnect (Some DR_NormalDisconnection)) None in
  exists bs, encode_v4 p [] = (Ok 2, bs) /\
    forall rest,
      mqtt4_decode (Some 4, bs ++ rest) = (Err InvalidProtocol, (Some 4, rest)) /\
      decode_data (Some 4, bs ++ rest) = (Ok (Some p), (Some 4, rest)).
Proof.
  intros p. exists (frame 224 []). split.
  { exact (encode_v4_eval p 224 [] W4_Disconnect ltac:(by vm_compute)). }
  intros rest. split.
  - unfold mqtt4_decode. by rewrite (take_frame 224 [] rest).
  - apply (decode_data_v4 p); [constructor|done|by right].
Qed.

Lemma mqtt4_codec_refuses_disconnect_witness :
  let p := P_Disconnect (mkDisconnect (Some DR_NormalDisconnection)) None in
  exists bs, @encode_v4 list_bytes p [] = (Ok 2, bs) /\
    forall rest,
      @mqtt4_decode list_bytes (Some 4, bs ++ rest) = (Err InvalidProtocol, (Some 4, rest)) /\
      @decode_data list_bytes (Some 4, bs ++ rest) = (Ok (Some p), (Some 4, rest)).
Proof. exact (@mqtt4_codec_refuses_disconnect list_bytes list_bytes_spec). Defined.

(** An AUTH packet is never decoded: a frame of type 15 that is there in
    full is taken off the stream and refused by [packet_type], whatever it
    holds and whatever the version, although [encode_data] writes AUTH. *)
Theorem auth_never_decoded {BC : BytesCrate} {BS : BytesSpec BC} v b body rest :
  Z.shiftr b 4 = 15 -> blen body <= 1000000 ->
  decode_data (v, frame b body ++ rest) = (Err (InvalidPacketType 15), (v, rest)) /\
  mqtt5_decode (v, frame b body ++ rest) = (Err (InvalidPacketType 15), (v, rest)).
Proof.
  intros Hb Hsz. unfold decode_data, mqtt5_decode. rewrite !take_frame by done.
  unfold decode_packet, packet_type, bind, lift. cbn [byte1 hdr_of]. by rewrite Hb.
Qed.

Lemma auth_never_decoded_witness :
  @decode_data list_bytes (Some 5, frame 240 [24; 0] ++ [1])
  = (Err (InvalidPacketType 15), (Some 5, [1])) /\
  @mqtt5_decode list_bytes (Some 5, frame 240 [24; 0] ++ [1])
  = (Err (InvalidPacketType 15), (Some 5, [1])).
Proof.
  apply (@auth_never_decoded list_bytes list_bytes_spec (Some 5) 240 [24; 0] [1]).
  - reflexivity.
  - by vm_compute.
Defined.

(** An MQTT 5 DISCONNECT with a reason other than the normal one and no
    properties is written with a remaining length of 1 and an octet more, so
    the reader runs out of octets inside the frame, reports
    [InsufficientBytes] with the frame already taken, and leaves the odd octet
    at the front of the stream. *)
Theorem disconnect_reason_unreadable {BC : BytesCrate} {BS : BytesSpec BC} r rest :
  r <> DR_NormalDisconnection ->
  exists bs, encode_data (mkMqttPacketWrapper 5 (P_Disconnect (mkDisconnect (Some r)) None)) []
             = (Ok tt, bs) /\
    decode_data (Some 5, bs ++ rest) = (Err (InsufficientBytes 1), (Some 5, 0 :: rest)).
Proof.
  intros Hr. exists (frame 224 [v5_disconnect_code r] ++ [0]). split.
  - rewrite encode_data_v5. cbn [encode_v5]. by rewrite (bind_ok _ _ _ _ _ (disconnect_reason_appends r Hr [])).
  - rewrite <- app_assoc. unfold decode_data. rewrite take_frame by done.
    unfold decode_packet, decode_by_version, decode_v5, read_from, bind, lift. cbn -[v5_disconnect_read].
    by rewrite disconnect_reason_read.
Qed.

Lemma disconnect_reason_unreadable_witness :
  exists bs, @encode_data list_bytes
               (mkMqttPacketWrapper 5 (P_Disconnect (mkDisconnect (Some DR_ServerBusy)) None)) []
             = (Ok tt, bs) /\
    @decode_data list_bytes (Some 5, bs ++ [192; 0])
    = (Err (InsufficientBytes 1), (Some 5, 0 :: [192; 0])).
Proof.
  apply (@disconnect_reason_unreadable list_bytes list_bytes_spec DR_ServerBusy [192; 0]).
  discriminate.
Defined.

(** The length of PUBLISH properties that hold a topic alias is one short
    of the octets written for them, since [properties::len] counts one octet
    for the two of the alias.  A message with an alias is cut off by one octet
    when it is read back, and that octet is left in the stream. *)
Theorem topic_alias_undercounted p a :
  pp_ok p -> pp_topic_alias p = Some a ->
  v5_publish_properties_len p + 1 = blen (items_wire (pp_items p)) /\
  let q := mkPublishProperties None None (Some 7) None None [] [] None in
  exists bs,
    @encode_data list_bytes (mkMqttPacketWrapper 5 (P_Publish sample_message (Some q))) [] = (Ok tt, bs) /\
    exists m, @decode_data list_bytes (Some 5, bs) = (Ok (Some (P_Publish m (Some q))), (Some 5, lit "i")) /\
      payload sample_message = payload m ++ lit "i".
Proof.
  intros Hok Ha. split.
  - unfold pp_ok in Hok. destruct_and?. unfold v5_publish_properties_len, pp_items. cbv zeta.
    rewrite Ha, foldl_pairs, foldl_vars, !items_wire_app, !blen_app by done.
    autorewrite with field_len. cbn [is_some]. lia.
  - eexists. split; [vm_compute; reflexivity|]. eexists. split; vm_compute; reflexivity.
Qed.

Lemma topic_alias_undercounted_witness :
  let p := mkPublishProperties None None (Some 7) None None [] [] None in
  v5_publish_properties_len p + 1 = blen (items_wire (pp_items p)).
Proof.
  intros p. apply (topic_alias_undercounted p 7).
  - unfold pp_ok. in_range.
  - reflexivity.
Defined.

(** The size that [calc_mqtt_packet_size] gives for a CONNECT leaves out
    the fixed header: it is 1 octet and the octets of the remaining length
    less than what [encode_data] writes. *)
Theorem connect_size_short {BC : BytesCrate} {BS : BytesSpec BC} v p b body :
  (v = 3 \/ v = 4) /\ v4_wire p b body \/ v = 5 /\ v5_wire p b body ->
  is_connect p = true -> blen body <= 1000000 ->
  exists bs, encode_data (mkMqttPacketWrapper v p) [] = (Ok tt, bs) /\
    calc_mqtt_packet_size (mkMqttPacketWrapper v p) = Ok (blen bs - 1 - len_len (blen body)).
Proof.
  intros Hw Hc Hsz. pose proof (small_remaining _ Hsz) as Hm.
  exists (frame b body). rewrite blen_frame by done. unfold frame_size.
  replace (1 + len_len (blen body) + blen body - 1 - len_len (blen body)) with (blen body) by lia.
  destruct Hw as [[Hv Hw]|[-> Hw]].
  - split; [by apply encode_data_v4_eval|]. unfold calc_mqtt_packet_size. rewrite calc_mqtt_packet_len_writes.
    destruct Hv as [-> | ->]; cbn [Z.eqb Pos.eqb orb];
      by rewrite (encode_v4_eval p b body Hw Hm), Hc.
  - split; [by apply encode_data_v5_eval|]. unfold calc_mqtt_packet_size. rewrite calc_mqtt_packet_len_writes.
    cbn [Z.eqb Pos.eqb orb]. by rewrite (encode_v5_eval p b body Hw Hm), Hc.
Qed.

Lemma connect_size_short_witness :
  exists bs, @encode_data list_bytes (mkMqttPacketWrapper 5 sample_connect) [] = (Ok tt, bs) /\
    @calc_mqtt_packet_size list_bytes (mkMqttPacketWrapper 5 sample_connect)
    = Ok (blen bs - 1 - len_len (blen sample_connect_body)).
Proof.
  apply (@connect_size_short list_bytes list_bytes_spec 5 sample_connect 16 sample_connect_body).
  - right. split; [reflexivity|exact sample_connect_wire].
  - reflexivity.
  - by vm_compute.
Defined.

(** The retain flag of an MQTT 3/4 will is lost: whatever the client
    asked for, the broker reads it as set exactly when the CONNECT carries a
    password, since [will::read] tests the password bit of the flags. *)
Theorem v4_will_retain_is_password {BC : BytesCrate} {BS : BytesSpec BC} level c w l old rest :
  connect_wf c -> will_wf w -> opt_all login_wf l ->
  exists bs w',
    encode_data (mkMqttPacketWrapper 4 (P_Connect level c None (Some w) None l)) [] = (Ok tt, bs) /\
    decode_data (old, bs ++ rest) = (Ok (Some (P_Connect 4 c None (Some w') None l)), (Some 4, rest)) /\
    lw_topic w' = lw_topic w /\ lw_message w' = lw_message w /\ lw_qos w' = lw_qos w /\
    (lw_retain w' = true <-> exists g, l = Some g /\ password g <> []).
Proof.
  intros Hc Hw Hl. pose proof (v4_connect_body_size c l (Some w) Hc Hw Hl) as Hsz.
  assert (v4_wire (P_Connect level c None (Some w) None l) 16 (v4_connect_body c l (Some w))) as Hwire
    by (by constructor).
  assert (blen (v4_connect_body c l (Some w)) <= 1000000) as Hle by (unfold max_remaining in *; lia).
  eexists _, (v4_will_seen l w). split; [by apply encode_data_v4_eval; eauto|].
  split; [by rewrite (decode_data_v4 _ _ _ _ _ Hwire Hle)|]. split_and!; try done. cbn.
  destruct l as [[u [|x g]]|]; cbn; (split; [|]); try done.
  - by intros (? & [= <-] & ?).
  - intros _. by eexists.
  - by intros (? & ? & ?).
Qed.

Lemma v4_will_retain_is_password_witness :
  let c := mkConnect 60 (lit "dev-1") true in
  let w := mkLastWill (lit "w") (lit "gone") AtLeastOnce true in
  exists bs w',
    @encode_data list_bytes (mkMqttPacketWrapper 4 (P_Connect 4 c None (Some w) None None)) [] = (Ok tt, bs) /\
    @decode_data list_bytes (None, bs ++ [])
    = (Ok (Some (P_Connect 4 c None (Some w') None None)), (Some 4, [])) /\
    lw_topic w' = lw_topic w /\ lw_message w' = lw_message w /\ lw_qos w' = lw_qos w /\
    (lw_retain w' = true <-> exists g, None = Some g /\ password g <> []).
Proof.
  intros c w.
  apply (@v4_will_retain_is_password list_bytes list_bytes_spec 4 c w None None []); in_range.
Defined.
