(* ===== verification/Storage.v ===== *)
(** * The storage interface: [storage-adapter/src/storage.rs]

    The records that the broker stores ([metadata-struct/src/adapter]), the
    [StorageAdapter] trait as a class of operations over a store, and what a
    client may rely on: an abstract store of append-only logs and committed
    offsets, and the class [LogStore] of the stores that implement it. *)

From stdpp Require Export gmap.
From S2P Require Import Prelude Bytes.
#[global] Open Scope Z_scope.
#[global] Open Scope rust_scope.

(** ** Data *)

(** [common/base/src/error/common.rs]; an error of a library is kept as the
    text it displays. *)
Inductive CommonError : Type :=
| TokioBroadcastSendErrorBool (e : bytes)
| FromTonicTransport (e : bytes)
| FromErrorKind (e : bytes)
| FromDecodeError (e : bytes)
| FromSerdeJsonError (e : bytes)
| FromRocksdbError (e : bytes)
| SchemaError (e : bytes)
| FromIoError (e : bytes)
| FromUtf8Error (e : bytes)
| FromAddrParseError (e : bytes)
| ApacheAvroError (e : bytes)
| FromMysqlError (e : bytes)
| FromParseIntError (e : bytes)
| CommonError_ (e : bytes)
| GrpcServerStatus (e : bytes)
| NoAvailableGrpcConnection (name e : bytes)
| ParameterCannotBeNull (name : bytes)
| InvalidParameterFormat (name value : bytes)
| NotSupportFeature (module feature : bytes)
| UnavailableClusterType
| ClusterNoAvailableNode
| RocksDBFamilyNotAvailable (name : bytes)
| CrcCheckByMessage
| OpenDALError (e : bytes).
#[export] Instance CommonError_eq_dec : EqDecision CommonError.
Proof. solve_decision. Defined.

Record Header : Type := mkHeader { h_name : bytes; h_value : bytes }.
#[export] Instance Header_eq_dec : EqDecision Header.
Proof. solve_decision. Defined.

(** [Record]: a stored message. *)
Record MsgRecord : Type := mkMsgRecord {
  r_offset : option Z;
  r_header : list Header;
  r_key : bytes;
  r_data : bytes;
  r_tags : list bytes;
  r_timestamp : Z;
  r_delay_timestamp : Z;
  r_crc_num : Z
}.
#[export] Instance MsgRecord_eq_dec : EqDecision MsgRecord.
Proof. solve_decision. Defined.

(** [msg.offset = Some(o)]. *)
Definition set_offset (o : Z) (r : MsgRecord) : MsgRecord :=
  mkMsgRecord (Some o) (r_header r) (r_key r) (r_data r) (r_tags r) (r_timestamp r)
    (r_delay_timestamp r) (r_crc_num r).

Record ReadConfig : Type := mkReadConfig { max_record_num : Z; max_size : Z }.
Definition ReadConfig_new : ReadConfig := mkReadConfig 10 (1024 * 1024 * 1024).

Record ShardInfo : Type := mkShardInfo {
  si_namespace : bytes;
  si_shard_name : bytes;
  si_replica_num : Z
}.

Record ShardOffset : Type := mkShardOffset {
  so_namespace : bytes;
  so_shard_name : bytes;
  so_segment_no : Z;
  so_offset : Z
}.
(** [ShardOffset { offset, ..Default::default() }]. *)
Definition default_offset (offset : Z) : ShardOffset := mkShardOffset [] [] 0 offset.

(** [Record::build_byte] and [Record::crc32_check]; the checksum is that of
    the crate [crc32fast], the time that of the system clock. *)
Section record.
Variable calc_crc32 : bytes -> Z.

Definition build_byte (now_second : Z) (data : bytes) : MsgRecord :=
  mkMsgRecord None [] [] data [] now_second 0 (calc_crc32 data).
Definition crc32_check (r : MsgRecord) : bool := calc_crc32 (r_data r) =? r_crc_num r.
End record.

(** ** The trait *)

Class StorageAdapter (S : Type) : Type := {
  create_shard : ShardInfo -> M S CommonError unit;
  list_shard : bytes -> bytes -> M S CommonError (list ShardInfo);
  delete_shard : bytes -> bytes -> M S CommonError unit;
  write : bytes -> bytes -> MsgRecord -> M S CommonError Z;
  batch_write : bytes -> bytes -> list MsgRecord -> M S CommonError (list Z);
  read_by_offset : bytes -> bytes -> Z -> ReadConfig -> M S CommonError (list MsgRecord);
  read_by_tag : bytes -> bytes -> Z -> bytes -> ReadConfig -> M S CommonError (list MsgRecord);
  read_by_key : bytes -> bytes -> Z -> bytes -> ReadConfig -> M S CommonError (list MsgRecord);
  get_offset_by_timestamp : bytes -> bytes -> Z -> M S CommonError (option ShardOffset);
  get_offset_by_group : bytes -> M S CommonError (list ShardOffset);
  commit_offset : bytes -> bytes -> gmap bytes Z -> M S CommonError unit;
  close : M S CommonError unit
}.

(** A hash map is iterated in an order of its own. *)
Class MapIter : Type := { map_iter {A : Type} : gmap bytes A -> list (bytes * A) }.
Class MapIterSpec (MI : MapIter) : Prop :=
  { map_iter_perm {A : Type} (m : gmap bytes A) : map_iter m ≡ₚ map_to_list m }.
Definition key_order : MapIter := {| map_iter A m := map_to_list m |}.
Lemma key_order_spec : MapIterSpec key_order.
Proof. by split. Qed.

(** ** The abstract store

    A log of records for every shard, and the offsets that every consumer
    group has committed. *)

Record LogSpec : Type := mkLogSpec {
  logs : gmap (bytes * bytes) (list MsgRecord);
  commits : gmap bytes (gmap (bytes * bytes) Z)
}.

(** The records of [ms] with their offsets, from [start] on. *)
Fixpoint stamp (start : Z) (ms : list MsgRecord) : list MsgRecord :=
  match ms with
  | [] => []
  | m :: ms => set_offset start m :: stamp (start + 1) ms
  end.

Definition values {K : Type} `{Countable K} {A : Type} (m : gmap K A) : list A :=
  (map_to_list m).*2.

Definition spec_create (k : bytes * bytes) (a : LogSpec) : LogSpec :=
  mkLogSpec (<[k := []]> (logs a)) (commits a).
Definition spec_append (k : bytes * bytes) (ms : list MsgRecord) (a : LogSpec) : LogSpec :=
  let l := default [] (logs a !! k) in
  mkLogSpec (<[k := l ++ stamp (blen l) ms]> (logs a)) (commits a).
Definition spec_read (k : bytes * bytes) (offset n : Z) (a : LogSpec) : list MsgRecord :=
  take (Z.to_nat n) (drop (Z.to_nat offset) (default [] (logs a !! k))).
Definition group_commits (a : LogSpec) (g : bytes) : gmap (bytes * bytes) Z :=
  default ∅ (commits a !! g).
Definition spec_commit (g ns : bytes) (offsets : gmap bytes Z) (a : LogSpec) : LogSpec :=
  mkLogSpec (logs a) (<[g := kmap (pair ns) offsets ∪ group_commits a g]> (commits a)).

(** What a store promises to its clients.  [ls_rep s a]: the store [s]
    implements the abstract store [a]; the promise holds for the names that
    the store can tell apart. *)
Class LogStore (S : Type) {SA : StorageAdapter S} : Type := {
  ls_rep : S -> LogSpec -> Prop;
  ls_ns : bytes -> Prop;
  ls_group : bytes -> Prop;
  ls_create s a info :
    ls_rep s a -> ls_ns (si_namespace info) ->
    logs a !! (si_namespace info, si_shard_name info) = None ->
    exists s', create_shard info s = (Ok tt, s') /\
               ls_rep s' (spec_create (si_namespace info, si_shard_name info) a);
  ls_batch_write s a ns sh ms l :
    ls_rep s a -> ls_ns ns -> logs a !! (ns, sh) = Some l -> blen l + blen ms < 2 ^ 64 ->
    exists s', batch_write ns sh ms s = (Ok (seqZ (blen l) (blen ms)), s') /\
               ls_rep s' (spec_append (ns, sh) ms a);
  ls_write s a ns sh m l :
    ls_rep s a -> ls_ns ns -> logs a !! (ns, sh) = Some l -> blen l + 1 < 2 ^ 64 ->
    exists s', write ns sh m s = (Ok (blen l), s') /\ ls_rep s' (spec_append (ns, sh) [m] a);
  ls_read s a ns sh l offset config :
    ls_rep s a -> ls_ns ns -> logs a !! (ns, sh) = Some l ->
    0 <= offset -> 0 <= max_record_num config -> offset + max_record_num config < 2 ^ 64 ->
    read_by_offset ns sh offset config s
    = (Ok (spec_read (ns, sh) offset (max_record_num config) a), s);
  ls_commit s a g ns offsets :
    ls_rep s a -> ls_ns ns -> ls_group g ->
    exists s', commit_offset g ns offsets s = (Ok tt, s') /\ ls_rep s' (spec_commit g ns offsets a);
  ls_get_group s a g :
    ls_rep s a -> ls_group g ->
    exists l, get_offset_by_group g s = (Ok l, s) /\
              map so_offset l ≡ₚ values (group_commits a g)
}.

(** ** Facts about the abstract store *)

Lemma stamp_app start l1 l2 : stamp start (l1 ++ l2) = stamp start l1 ++ stamp (start + blen l1) l2.
Proof.
  revert start. induction l1 as [|m l1 IH]; intros start; cbn [app stamp].
  { rewrite blen_nil. by rewrite Z.add_0_r. }
  rewrite IH, blen_cons. by replace (start + 1 + blen l1) with (start + (1 + blen l1)) by lia.
Qed.

Lemma blen_stamp start ms : blen (stamp start ms) = blen ms.
Proof. revert start. induction ms; intros start; cbn [stamp]; [done|]. by rewrite !blen_cons, IHms. Qed.
#[global] Hint Rewrite blen_stamp : blen.

Lemma stamp_lookup start ms i :
  stamp start ms !! i = set_offset (start + Z.of_nat i) <$> ms !! i.
Proof.
  revert start i. induction ms as [|m ms IH]; intros start [|i]; cbn [stamp lookup list_lookup]; try done.
  - cbn. by rewrite Z.add_0_r.
  - cbn. rewrite IH. by replace (start + 1 + Z.of_nat i) with (start + Z.of_nat (S i)) by lia.
Qed.

Lemma stamp_zip start ms :
  map (fun om : Z * MsgRecord => set_offset om.1 om.2) (zip (seqZ start (blen ms)) ms) = stamp start ms /\
  (zip (seqZ start (blen ms)) ms).*1 = seqZ start (blen ms).
Proof.
  revert start. induction ms as [|m ms IH]; intros start; [done|].
  rewrite blen_cons. pose proof (blen_nonneg ms).
  rewrite seqZ_cons by lia. replace (Z.pred (1 + blen ms)) with (blen ms) by lia.
  destruct (IH (Z.succ start)) as [IH1 IH2]. cbn. split; by f_equal.
Qed.

(** A log whose records carry their positions. *)
Definition stamped (l : list MsgRecord) : Prop := forall i r, l !! i = Some r -> r_offset r = Some (Z.of_nat i).

Lemma stamped_nil : stamped [].
Proof. by intros i r. Qed.

Lemma stamped_append l ms : stamped l -> stamped (l ++ stamp (blen l) ms).
Proof.
  intros Hl i r [Hi|[Hge Hi]]%lookup_app_Some; [by apply Hl|].
  rewrite stamp_lookup in Hi. destruct (ms !! (i - length l)%nat) as [m|]; [|done].
  injection Hi as <-. cbn. unfold blen. f_equal. lia.
Qed.

(** The position that a timestamp stands for: that of the first record that is
    no older. *)
Definition resolves (l : list MsgRecord) (timestamp : Z) (o : option ShardOffset) : Prop :=
  match o with
  | Some o => exists i r, so_offset o = Z.of_nat i /\ l !! i = Some r /\ timestamp <= r_timestamp r /\
      forall j r', (j < i)%nat -> l !! j = Some r' -> r_timestamp r' < timestamp
  | None => forall j r', l !! j = Some r' -> r_timestamp r' < timestamp
  end.

Lemma values_insert {K} `{Countable K} {A} (m : gmap K A) k v :
  values (<[k := v]> m) ≡ₚ v :: values (delete k m).
Proof.
  unfold values. rewrite <- insert_delete_eq.
  by rewrite map_to_list_insert by apply lookup_delete_eq.
Qed.

Lemma values_lookup {K} `{Countable K} {A} (m : gmap K A) k v :
  m !! k = Some v -> values m ≡ₚ v :: values (delete k m).
Proof.
  intros Hk. unfold values. by rewrite <- (map_to_list_delete m k v Hk).
Qed.

(** ** Sequences of operations

    What they do to a store, and to the abstract store. *)

Inductive store_op : Type :=
| OpCreate (info : ShardInfo)
| OpDelete (namespace shard_name : bytes)
| OpWrite (namespace shard_name : bytes) (m : MsgRecord)
| OpBatchWrite (namespace shard_name : bytes) (ms : list MsgRecord)
| OpCommit (group namespace : bytes) (offsets : gmap bytes Z).

Definition op_namespace (o : store_op) : bytes :=
  match o with
  | OpCreate info => si_namespace info
  | OpDelete ns _ | OpWrite ns _ _ | OpBatchWrite ns _ _ | OpCommit _ ns _ => ns
  end.

Definition spec_op (o : store_op) (a : LogSpec) : LogSpec :=
  match o with
  | OpCreate info => spec_create (si_namespace info, si_shard_name info) a
  | OpDelete ns sh => mkLogSpec (delete (ns, sh) (logs a)) (commits a)
  | OpWrite ns sh m => spec_append (ns, sh) [m] a
  | OpBatchWrite ns sh ms => spec_append (ns, sh) ms a
  | OpCommit g ns offsets => spec_commit g ns offsets a
  end.

Definition spec_ops (ops : list store_op) : LogSpec :=
  foldl (fun a o => spec_op o a) (mkLogSpec ∅ ∅) ops.

Definition run_op {S : Type} {SA : StorageAdapter S} (o : store_op) : M S CommonError unit :=
  match o with
  | OpCreate info => create_shard info
  | OpDelete ns sh => delete_shard ns sh
  | OpWrite ns sh m => write ns sh m ;; ret tt
  | OpBatchWrite ns sh ms => batch_write ns sh ms ;; ret tt
  | OpCommit g ns offsets => commit_offset g ns offsets
  end.

(** A run in which operations may fail: every operation is tried, and a write
    answers with the offsets it was given. *)
Definition op_offsets {S : Type} {SA : StorageAdapter S} (o : store_op) : M S CommonError (list Z) :=
  match o with
  | OpCreate info => create_shard info ;; ret []
  | OpDelete ns sh => delete_shard ns sh ;; ret []
  | OpWrite ns sh m => let! offset := write ns sh m in ret [offset]
  | OpBatchWrite ns sh ms => batch_write ns sh ms
  | OpCommit g ns offsets => commit_offset g ns offsets ;; ret []
  end.

Fixpoint attempt_all {S : Type} {SA : StorageAdapter S} (ops : list store_op) (s : S)
  : list (store_op * outcome CommonError (list Z)) * S :=
  match ops with
  | [] => ([], s)
  | o :: ops =>
      let (r, s) := op_offsets o s in
      let (trace, s) := attempt_all ops s in
      ((o, r) :: trace, s)
  end.

Definition op_messages (ns sh : bytes) (o : store_op) : list MsgRecord :=
  match o with
  | OpWrite ns' sh' m => if decide ((ns', sh') = (ns, sh)) then [m] else []
  | OpBatchWrite ns' sh' ms => if decide ((ns', sh') = (ns, sh)) then ms else []
  | _ => []
  end.

(** The records of a shard that were acknowledged, with their offsets. *)
Definition acks (ns sh : bytes) (trace : list (store_op * outcome CommonError (list Z)))
  : list (Z * MsgRecord) :=
  concat (map (fun or : store_op * outcome CommonError (list Z) =>
                 match or.2 with Ok offsets => zip offsets (op_messages ns sh or.1) | _ => [] end) trace).

Lemma spec_op_stamped o a :
  (forall k l, logs a !! k = Some l -> stamped l) ->
  forall k l, logs (spec_op o a) !! k = Some l -> stamped l.
Proof.
  assert (forall k0 (l0 : list MsgRecord), stamped l0 -> (forall k l, logs a !! k = Some l -> stamped l) ->
    forall k l, <[k0 := l0]> (logs a) !! k = Some l -> stamped l) as Hins.
  { intros k0 l0 H0 Ha k l [[<- <-]|[? ?]]%lookup_insert_Some; eauto. }
  intros Ha. destruct o as [info|ns sh|ns sh m|ns sh ms|g ns offs]; cbn.
  - apply Hins; [apply stamped_nil|done].
  - intros k l [? ?]%lookup_delete_Some. eauto.
  - apply Hins; [|done]. apply (stamped_append _ [m]). destruct (logs a !! (ns, sh)) eqn:E; cbn; eauto using stamped_nil.
  - apply Hins; [|done]. apply stamped_append. destruct (logs a !! (ns, sh)) eqn:E; cbn; eauto using stamped_nil.
  - done.
Qed.

Lemma spec_ops_stamped ops k l : logs (spec_ops ops) !! k = Some l -> stamped l.
Proof.
  unfold spec_ops. assert (forall k l, logs (mkLogSpec ∅ ∅) !! k = Some l -> stamped l) as H0 by done.
  revert H0. generalize (mkLogSpec ∅ ∅). induction ops as [|o ops IH]; intros a Ha; cbn; [by eapply Ha|].
  by apply IH, spec_op_stamped.
Qed.

#[export] Instance pair_inj_r {A B} (a : A) : Inj (=) (=) (@pair A B a).
Proof. by intros x y [= ->]. Qed.

(** ** A loop that inserts what it finds in a hash map *)

Lemma insert_loop {MI : MapIter} {MS : MapIterSpec MI} {A B : Type} (f : bytes -> bytes) `{!Inj (=) (=) f}
    (h : A -> B) (m : gmap bytes A) (data : gmap bytes B) :
  foldl (fun data kv => <[f kv.1 := h kv.2]> data) data (map_iter m) = kmap f (h <$> m) ∪ data.
Proof.
  assert (forall l : list (bytes * A), NoDup l.*1 -> forall data,
    foldl (fun data kv => <[f kv.1 := h kv.2]> data) data l
    = (list_to_map (prod_map f h <$> l) : gmap bytes B) ∪ data) as Hfold.
  { induction l as [|[k v] l IH]; cbn; intros Hnd d; [by rewrite (left_id_L ∅ (∪))|].
    apply NoDup_cons in Hnd as [Hk Hnd]. rewrite IH by done. rewrite <- insert_union_r.
    - by rewrite insert_union_l.
    - apply not_elem_of_list_to_map_1. rewrite <- list_fmap_compose.
      intros (x & Hx & Hin)%list_elem_of_fmap. cbn in Hx. apply (inj f) in Hx as ->.
      apply Hk, list_elem_of_fmap. eauto. }
  rewrite Hfold by (rewrite map_iter_perm; apply NoDup_fst_map_to_list).
  f_equal. apply map_eq. intros k. apply option_eq. intros v.
  assert (NoDup (prod_map f h <$> map_iter m).*1) as Hnd.
  { rewrite map_iter_perm, <- list_fmap_compose. change (fst ∘ prod_map f h) with (f ∘ @fst bytes A).
    rewrite list_fmap_compose. apply (NoDup_fmap_2 _), NoDup_fst_map_to_list. }
  rewrite <- elem_of_list_to_map by done. rewrite map_iter_perm, lookup_kmap_Some by apply _.
  rewrite list_elem_of_fmap. split.
  - intros ([k' v'] & [= -> ->] & Hin%elem_of_map_to_list). exists k'. split; [done|].
    by rewrite lookup_fmap, Hin.
  - intros (k' & -> & (v' & <- & Hin)%lookup_fmap_Some). exists (k', v'). split; [done|].
    by apply elem_of_map_to_list.
Qed.

(** ** Loops over a copy of a hash map that delete from the map *)

Section delete_loop.
Context {MI : MapIter} {MS : MapIterSpec MI} {A : Type}.
Implicit Types (m : gmap bytes A) (P : bytes * A -> bool).

Definition delete_loop P m (l : list (bytes * A)) : gmap bytes A :=
  foldl (fun m kv => if P kv then delete kv.1 m else m) m l.

Lemma delete_loop_lookup P m l k :
  delete_loop P m l !! k = None /\ Exists (fun kv => kv.1 = k /\ P kv = true) l \/
  delete_loop P m l !! k = m !! k /\ ~ Exists (fun kv => kv.1 = k /\ P kv = true) l.
Proof.
  revert m. induction l as [|kv l IH]; intros m.
  { right. split; [done|]. by intros ?%Exists_nil. }
  destruct (IH (if P kv then delete kv.1 m else m)) as [[H He]|[H He]].
  { left. split; [done|]. by right. }
  change (delete_loop P m (kv :: l)) with (delete_loop P (if P kv then delete kv.1 m else m) l).
  rewrite H. destruct (P kv) eqn:Hp; [destruct (decide (kv.1 = k)) as [<-|Hk]|].
  - left. rewrite lookup_delete_eq. split; [done|]. by left.
  - right. rewrite lookup_delete_ne by done. split; [done|]. intros [[? ?]|?]%Exists_cons; done.
  - right. split; [done|]. intros [[? ?]|?]%Exists_cons; congruence.
Qed.

Lemma delete_loop_iter P m : delete_loop P m (map_iter m) = filter (fun kv => P kv = false) m.
Proof.
  apply map_eq. intros k. assert (forall kv, kv ∈ map_iter m <-> m !! kv.1 = Some kv.2) as Hin.
  { intros [k' v]. rewrite map_iter_perm. apply elem_of_map_to_list. }
  destruct (delete_loop_lookup P m (map_iter m) k) as [[-> He]|[-> He]].
  - apply Exists_exists in He as (kv & Hkv%Hin & <- & Hp). symmetry.
    apply map_lookup_filter_None. right. intros v Hv. rewrite Hkv in Hv. injection Hv as <-.
    destruct kv. cbn. congruence.
  - destruct (m !! k) as [v|] eqn:Hk; symmetry; [|by apply map_lookup_filter_None; left].
    apply map_lookup_filter_Some. split; [done|]. destruct (P (k, v)) eqn:Hp; [|done].
    destruct He. apply Exists_exists. exists (k, v). split; [|done]. by apply Hin.
Qed.
End delete_loop.
