(* ===== verification/MemoryStorage.v ===== *)
(** * The in-memory store: [storage-adapter/src/memory/mod.rs]

    [MemoryStorageAdapter] keeps the records of a shard in a vector under the
    key [namespace_shard] of a concurrent hash map.  Its operations are
    modelled one by one, shown to implement the abstract store of [Storage]
    for the namespaces that hold no underscore, and its [write] is taken apart
    into the two accesses it makes to the map, to see what writers that run at
    the same time do to each other. *)

From Stdlib Require Import String.
From S2P Require Import Prelude Bytes Storage.

(** ** Definitions *)

Record MemoryStorageAdapter : Type := mkMemoryStorageAdapter {
  shard_info : gmap bytes ShardInfo;
  shard_data : gmap bytes (list MsgRecord);
  group_data : gmap bytes (gmap bytes Z)
}.

Definition MemoryStorageAdapter_new : MemoryStorageAdapter := mkMemoryStorageAdapter ∅ ∅ ∅.

Definition shard_key (namespace shard_name : bytes) : bytes := namespace ++ (lit "_") ++ shard_name.

(** Assignments to the maps. *)
Definition put_data (key : bytes) (l : list MsgRecord) (s : MemoryStorageAdapter)
  : MemoryStorageAdapter :=
  mkMemoryStorageAdapter (shard_info s) (<[key := l]> (shard_data s)) (group_data s).
Definition put_info (key : bytes) (i : ShardInfo) (s : MemoryStorageAdapter)
  : MemoryStorageAdapter :=
  mkMemoryStorageAdapter (<[key := i]> (shard_info s)) (shard_data s) (group_data s).
Definition put_group (g : bytes) (m : gmap bytes Z) (s : MemoryStorageAdapter)
  : MemoryStorageAdapter :=
  mkMemoryStorageAdapter (shard_info s) (shard_data s) (<[g := m]> (group_data s)).

Section definitions.
Context {MI : MapIter}.

Definition Mem (A : Type) : Type := M MemoryStorageAdapter CommonError A.
Definition modify (f : MemoryStorageAdapter -> MemoryStorageAdapter) : Mem unit :=
  fun s => (Ok tt, f s).

Definition mem_create_shard (shard : ShardInfo) : Mem unit :=
  let key := shard_key (si_namespace shard) (si_shard_name shard) in
  modify (put_data key []) ;;
  modify (put_info key shard) ;;
  ret tt.

Definition mem_list_shard (namespace shard_name : bytes) : Mem (list ShardInfo) :=
  let! s := get in
  let all := (map_iter (shard_info s)).*2 in
  if bool_decide (shard_name = []) then
    match shard_info s !! shard_key namespace shard_name with
    | Some info => ret [info]
    | None => ret all
    end
  else ret all.

Definition mem_delete_shard (namespace shard_name : bytes) : Mem unit :=
  modify (fun s => mkMemoryStorageAdapter (shard_info s)
                     (delete (shard_key namespace shard_name) (shard_data s)) (group_data s)) ;;
  ret tt.

(** The loop over the messages: the vector and the offsets it builds up. *)
Fixpoint push_all (start_offset : Z) (messages data_list : list MsgRecord) (offset_res : list Z)
  : list MsgRecord * list Z :=
  match messages with
  | [] => (data_list, offset_res)
  | msg :: messages =>
      push_all (start_offset + 1) messages (data_list ++ [set_offset start_offset msg])
        (offset_res ++ [start_offset])
  end.

Definition mem_batch_write (namespace shard_name : bytes) (messages : list MsgRecord)
  : Mem (list Z) :=
  let shard_key := shard_key namespace shard_name in
  let! s := get in
  match shard_data s !! shard_key with
  | Some data_list =>
      let '(data_list, offset_res) := push_all (blen data_list) messages data_list [] in
      modify (put_data shard_key data_list) ;;
      ret offset_res
  | None =>
      let '(data_list, offset_res) := push_all 0 messages [] [] in
      modify (put_data shard_key data_list) ;;
      ret offset_res
  end.

Definition mem_write (namespace shard_name : bytes) (data : MsgRecord) : Mem Z :=
  let shard_key := shard_key namespace shard_name in
  let! s := get in
  match shard_data s !! shard_key with
  | Some data_list =>
      let start_offset := blen data_list in
      modify (put_data shard_key (data_list ++ [set_offset start_offset data])) ;;
      ret start_offset
  | None =>
      modify (put_data shard_key [set_offset 0 data]) ;;
      ret 0
  end.

(** The loop [for i in i..stop], which pushes the records that [keep] accepts
    and breaks at the end of the vector. *)
Fixpoint read_range (fuel : nat) (data_list : list MsgRecord) (keep : MsgRecord -> bool)
    (i stop : Z) (result : list MsgRecord) : Mem (list MsgRecord) :=
  if i <? stop then
    match data_list !! Z.to_nat i with
    | Some value =>
        match fuel with
        | O => out_of_fuel
        | S fuel =>
            read_range fuel data_list keep (i + 1) stop
              (if keep value then result ++ [value] else result)
        end
    | None => ret result
    end
  else ret result.

(** The common shape of the three readers. *)
Definition read_window (namespace shard_name : bytes) (offset : Z) (read_config : ReadConfig)
    (keep : MsgRecord -> bool) : Mem (list MsgRecord) :=
  let! s := get in
  match shard_data s !! shard_key namespace shard_name with
  | Some data_list =>
      if blen data_list <? offset then ret []
      else
        read_range (length data_list) data_list keep offset
          (wrap64 (offset + max_record_num read_config)) []
  | None => ret []
  end.

Definition mem_read_by_offset (namespace shard_name : bytes) (offset : Z)
    (read_config : ReadConfig) : Mem (list MsgRecord) :=
  read_window namespace shard_name offset read_config (fun _ => true).

Definition mem_read_by_tag (namespace shard_name : bytes) (offset : Z) (tag : bytes)
    (read_config : ReadConfig) : Mem (list MsgRecord) :=
  read_window namespace shard_name offset read_config (fun value => bool_decide (tag ∈ r_tags value)).

Definition mem_read_by_key (namespace shard_name : bytes) (offset : Z) (key : bytes)
    (read_config : ReadConfig) : Mem (list MsgRecord) :=
  read_window namespace shard_name offset read_config (fun value => bool_decide (r_key value = key)).

Fixpoint find_timestamp (record_list : list MsgRecord) (timestamp : Z) : option ShardOffset :=
  match record_list with
  | [] => None
  | record :: record_list =>
      if timestamp <=? r_timestamp record then default_offset <$> r_offset record
      else find_timestamp record_list timestamp
  end.

Definition mem_get_offset_by_timestamp (namespace shard_name : bytes) (timestamp : Z)
  : Mem (option ShardOffset) :=
  let! s := get in
  match shard_data s !! shard_key namespace shard_name with
  | Some record_list => ret (find_timestamp record_list timestamp)
  | None => ret None
  end.

Definition mem_get_offset_by_group (group_name : bytes) : Mem (list ShardOffset) :=
  let! s := get in
  match group_data s !! group_name with
  | Some data => ret (map (fun raw => default_offset raw.2) (map_iter data))
  | None => ret []
  end.

(** [for (shard_name, offset) in offset.iter() { data.insert(..) }]. *)
Definition insert_offsets (namespace : bytes) (offset : gmap bytes Z) (data : gmap bytes Z)
  : gmap bytes Z :=
  foldl (fun data kv => <[shard_key namespace kv.1 := kv.2]> data) data (map_iter offset).

Definition mem_commit_offset (group_name namespace : bytes) (offset : gmap bytes Z) : Mem unit :=
  let! s := get in
  match group_data s !! group_name with
  | Some data => modify (put_group group_name (insert_offsets namespace offset data)) ;; ret tt
  | None => modify (put_group group_name (insert_offsets namespace offset ∅)) ;; ret tt
  end.

#[export] Instance MemoryStorage_adapter : StorageAdapter MemoryStorageAdapter := {|
  create_shard := mem_create_shard;
  list_shard := mem_list_shard;
  delete_shard := mem_delete_shard;
  write := mem_write;
  batch_write := mem_batch_write;
  read_by_offset := mem_read_by_offset;
  read_by_tag := mem_read_by_tag;
  read_by_key := mem_read_by_key;
  get_offset_by_timestamp := mem_get_offset_by_timestamp;
  get_offset_by_group := mem_get_offset_by_group;
  commit_offset := mem_commit_offset;
  close := ret tt
|}.
End definitions.

(** ** What the operations compute *)

Lemma push_all_eval start ms l res :
  push_all start ms l res = (l ++ stamp start ms, res ++ seqZ start (blen ms)).
Proof.
  revert start l res. induction ms as [|m ms IH]; intros start l res; cbn [push_all stamp].
  { by rewrite !app_nil_r. }
  rewrite IH, <- !app_assoc. cbn [app]. do 3 f_equal.
  rewrite (seqZ_cons start) by blia. do 2 f_equal; blia.
Qed.

Lemma read_range_eval fuel l keep i stop res s :
  0 <= i -> (length l - Z.to_nat i <= fuel)%nat ->
  read_range fuel l keep i stop res s
  = (Ok (res ++ filter keep (take (Z.to_nat (stop - i)) (drop (Z.to_nat i) l))), s).
Proof.
  revert i res. induction fuel as [|fuel IH]; intros i res Hi Hf; cbn [read_range];
    (destruct (Z.ltb_spec i stop) as [Hlt|Hge];
     [|replace (Z.to_nat (stop - i)) with O by lia; cbn; by rewrite app_nil_r]);
    destruct (l !! Z.to_nat i) as [v|] eqn:Hv.
  - apply lookup_lt_Some in Hv. lia.
  - rewrite drop_ge by (by apply lookup_ge_None). rewrite take_nil. cbn. by rewrite app_nil_r.
  - rewrite IH by lia. rewrite (drop_S l v (Z.to_nat i)) by done.
    replace (Z.to_nat (stop - i)) with (S (Z.to_nat (stop - (i + 1)))) by lia.
    replace (Z.to_nat (i + 1)) with (S (Z.to_nat i)) by lia. cbn [take].
    rewrite filter_cons. destruct (keep v) eqn:Hk.
    + rewrite decide_True by done. by rewrite <- app_assoc.
    + by rewrite decide_False by tauto.
  - rewrite drop_ge by (by apply lookup_ge_None). rewrite take_nil. cbn. by rewrite app_nil_r.
Qed.

Section lemmas.
Context {MI : MapIter} {MS : MapIterSpec MI}.

Lemma read_window_eval ns sh offset config keep s :
  0 <= offset ->
  read_window ns sh offset config keep s
  = (Ok (filter keep
           (take (Z.to_nat (wrap64 (offset + max_record_num config) - offset))
              (drop (Z.to_nat offset) (default [] (shard_data s !! shard_key ns sh))))), s).
Proof.
  intros Ho. unfold read_window, bind, get. destruct (shard_data s !! _) as [l|]; cbn [from_option id].
  - destruct (Z.ltb_spec (blen l) offset).
    + rewrite drop_ge by (unfold blen in *; lia). by rewrite take_nil.
    + by rewrite read_range_eval by lia.
  - by rewrite drop_nil, take_nil.
Qed.

#[export] Instance shard_key_inj ns : Inj (=) (=) (shard_key ns).
Proof. intros sh sh' H. unfold shard_key in H. by apply (inj (app ns)), (inj (app (lit "_"))) in H. Qed.

Lemma insert_offsets_eval ns offset data :
  insert_offsets ns offset data = kmap (shard_key ns) offset ∪ data.
Proof.
  etrans; [exact (insert_loop (shard_key ns) id offset data)|]. by rewrite map_fmap_id.
Qed.
End lemmas.

(** ** Names

    [format!("{}_{}", namespace, shard_name)] tells two shards apart when the
    namespaces hold no underscore; in general it does not. *)

Definition no_underscore (s : bytes) : Prop := 95 ∉ s.

Lemma shard_key_names ns ns' sh sh' :
  no_underscore ns -> no_underscore ns' -> shard_key ns sh = shard_key ns' sh' ->
  ns = ns' /\ sh = sh'.
Proof.
  unfold no_underscore, shard_key. revert ns'.
  induction ns as [|c ns IH]; intros [|c' ns'] H H' E; cbn in *.
  - by injection E.
  - injection E as <- _. by apply not_elem_of_cons in H' as [[] _].
  - injection E as -> _. by apply not_elem_of_cons in H as [[] _].
  - injection E as -> E. apply not_elem_of_cons in H as [_ H], H' as [_ H'].
    by destruct (IH ns' H H' E) as [-> ->].
Qed.

(** ** The refinement *)

(** The committed offsets of one group. *)
Definition rep_group (m : gmap bytes Z) (m' : gmap (bytes * bytes) Z) : Prop :=
  (forall ns sh, no_underscore ns -> m !! shard_key ns sh = m' !! (ns, sh)) /\
  values m ≡ₚ values m'.

Definition mem_rep (s : MemoryStorageAdapter) (a : LogSpec) : Prop :=
  (forall ns sh, no_underscore ns -> shard_data s !! shard_key ns sh = logs a !! (ns, sh)) /\
  (forall g, rep_group (default ∅ (group_data s !! g)) (group_commits a g)).

Lemma rep_group_insert m m' ns sh v :
  no_underscore ns -> rep_group m m' ->
  rep_group (<[shard_key ns sh := v]> m) (<[(ns, sh) := v]> m').
Proof.
  intros Hns [Hl Hv]. split.
  - intros ns' sh' Hns'. destruct (decide ((ns', sh') = (ns, sh))) as [[= -> ->]|Hne].
    + by rewrite !lookup_insert_eq.
    + rewrite !lookup_insert_ne by (try done; intros E; by apply Hne;
        destruct (shard_key_names _ _ _ _ Hns Hns' E) as [-> ->]). by apply Hl.
  - rewrite !values_insert. f_equiv. specialize (Hl ns sh Hns).
    destruct (m' !! (ns, sh)) as [w|] eqn:Hw.
    + apply (Permutation_cons_inv (a := w)). by rewrite <- !values_lookup.
    + by rewrite !delete_id.
Qed.

Lemma rep_group_commit m m' ns offs :
  no_underscore ns -> rep_group m m' ->
  rep_group (kmap (shard_key ns) offs ∪ m) (kmap (pair ns) offs ∪ m').
Proof.
  intros Hns Hm. induction offs as [|k v offs Hk IH] using map_ind.
  { by rewrite !kmap_empty, !(left_id_L ∅ (∪)). }
  rewrite !(kmap_insert _), <- !insert_union_l. by apply rep_group_insert.
Qed.

(** Writing one log. *)
Lemma mem_rep_put s a ns sh l :
  no_underscore ns -> mem_rep s a ->
  mem_rep (put_data (shard_key ns sh) l s) (mkLogSpec (<[(ns, sh) := l]> (logs a)) (commits a)).
Proof.
  intros Hns [Hl Hg]. split; [|exact Hg]. intros ns' sh' Hns'. cbn.
  destruct (decide ((ns', sh') = (ns, sh))) as [[= -> ->]|Hne].
  - by rewrite !lookup_insert_eq.
  - rewrite !lookup_insert_ne by (try done; intros E; by apply Hne;
      destruct (shard_key_names _ _ _ _ Hns Hns' E) as [-> ->]). by apply Hl.
Qed.

Section refinement.
Context {MI : MapIter} {MS : MapIterSpec MI}.

Lemma mem_batch_write_refines s a ns sh ms :
  mem_rep s a -> no_underscore ns ->
  exists s', batch_write ns sh ms s
             = (Ok (seqZ (blen (default [] (logs a !! (ns, sh)))) (blen ms)), s') /\
             mem_rep s' (spec_append (ns, sh) ms a).
Proof.
  intros Hr Hns. eexists. split; [|by apply (mem_rep_put s a ns sh)].
  cbn. unfold mem_batch_write, bind at 1, get. rewrite (proj1 Hr ns sh Hns).
  destruct (logs a !! (ns, sh)) as [l|]; cbn [from_option id]; by rewrite push_all_eval.
Qed.

Lemma mem_write_refines s a ns sh m :
  mem_rep s a -> no_underscore ns ->
  exists s', write ns sh m s = (Ok (blen (default [] (logs a !! (ns, sh)))), s') /\
             mem_rep s' (spec_append (ns, sh) [m] a).
Proof.
  intros Hr Hns. eexists. split; [|by apply (mem_rep_put s a ns sh)].
  cbn. unfold mem_write, bind at 1, get. rewrite (proj1 Hr ns sh Hns).
  by destruct (logs a !! (ns, sh)) as [l|].
Qed.

Lemma mem_create_refines s a info :
  mem_rep s a -> no_underscore (si_namespace info) ->
  exists s', create_shard info s = (Ok tt, s') /\
             mem_rep s' (spec_create (si_namespace info, si_shard_name info) a).
Proof.
  intros Hr Hns. eexists. split; [reflexivity|].
  exact (mem_rep_put s a (si_namespace info) (si_shard_name info) [] Hns Hr).
Qed.

Lemma mem_commit_refines s a g ns offs :
  mem_rep s a -> no_underscore ns ->
  exists s', commit_offset g ns offs s = (Ok tt, s') /\ mem_rep s' (spec_commit g ns offs a).
Proof.
  intros [Hl Hg] Hns.
  exists (put_group g (insert_offsets ns offs (default ∅ (group_data s !! g))) s). split.
  { cbn. unfold mem_commit_offset, bind at 1, get. by destruct (group_data s !! g). }
  split; [exact Hl|]. intros g'. unfold group_commits. cbn.
  destruct (decide (g = g')) as [->|Hne].
  - rewrite !lookup_insert_eq. cbn. rewrite insert_offsets_eval. by apply rep_group_commit.
  - rewrite !lookup_insert_ne by done. apply Hg.
Qed.

Lemma mem_get_group_refines s a g :
  mem_rep s a ->
  exists l, get_offset_by_group g s = (Ok l, s) /\ map so_offset l ≡ₚ values (group_commits a g).
Proof.
  intros [_ Hg]. destruct (Hg g) as [_ Hv].
  exists (map (fun raw => default_offset raw.2) (map_iter (default ∅ (group_data s !! g)))). split.
  - cbn. unfold mem_get_offset_by_group, bind, get. destruct (group_data s !! g); [done|]. cbn.
    pose proof (map_iter_perm (∅ : gmap bytes Z)) as Hp. rewrite map_to_list_empty in Hp.
    by apply Permutation_nil_r in Hp as ->.
  - rewrite <- Hv, map_map. unfold values. cbn. by rewrite map_iter_perm.
Qed.

Lemma mem_read_refines s a ns sh offset config keep :
  mem_rep s a -> no_underscore ns ->
  0 <= offset -> 0 <= max_record_num config -> offset + max_record_num config < 2 ^ 64 ->
  read_window ns sh offset config keep s
  = (Ok (filter keep (spec_read (ns, sh) offset (max_record_num config) a)), s).
Proof.
  intros [Hl _] Hns ? ? ?. rewrite read_window_eval by done.
  rewrite wrap64_small, (Hl ns sh Hns) by lia.
  by replace (offset + max_record_num config - offset) with (max_record_num config) by lia.
Qed.

Lemma filter_true {A} (l : list A) : filter (fun _ : A => true) l = l.
Proof. induction l as [|x l IH]; [done|]. rewrite filter_cons, decide_True by done. by rewrite IH. Qed.

#[export] Instance MemoryStorage_log_store : LogStore MemoryStorageAdapter.
Proof.
  refine {| ls_rep := mem_rep; ls_ns := no_underscore; ls_group := fun _ => True |}.
  - intros s a info Hr Hns _. by apply mem_create_refines.
  - intros s a ns sh ms l Hr Hns Hl _.
    destruct (mem_batch_write_refines s a ns sh ms Hr Hns) as (s' & Hs & Hr'). rewrite Hl in Hs. eauto.
  - intros s a ns sh m l Hr Hns Hl _.
    destruct (mem_write_refines s a ns sh m Hr Hns) as (s' & Hs & Hr'). rewrite Hl in Hs. eauto.
  - intros s a ns sh l offset config Hr Hns Hl H1 H2 H3.
    etrans; [by apply mem_read_refines|]. by rewrite filter_true.
  - intros s a g ns offs Hr Hns _. by apply mem_commit_refines.
  - intros s a g Hr _. by apply mem_get_group_refines.
Defined.
End refinement.

(** ** Sequences of operations *)

Section sequences.
Context {MI : MapIter} {MS : MapIterSpec MI}.

Lemma mem_rep_new : mem_rep MemoryStorageAdapter_new (mkLogSpec ∅ ∅).
Proof.
  split; [done|]. intros g. unfold group_commits. cbn. by split.
Qed.

Lemma run_op_refines o s a :
  no_underscore (op_namespace o) -> mem_rep s a ->
  exists s', run_op o s = (Ok tt, s') /\ mem_rep s' (spec_op o a).
Proof.
  intros Hns Hr. destruct o as [info|ns sh|ns sh m|ns sh ms|g ns offs]; cbn [run_op op_namespace] in *.
  - by apply mem_create_refines.
  - eexists. split; [reflexivity|]. destruct Hr as [Hl Hg]. split; [|exact Hg].
    intros ns' sh' Hns'. cbn. destruct (decide ((ns', sh') = (ns, sh))) as [[= -> ->]|Hne].
    + by rewrite !lookup_delete_eq.
    + rewrite !lookup_delete_ne by (try done; intros E; by apply Hne;
        destruct (shard_key_names _ _ _ _ Hns Hns' E) as [-> ->]). by apply Hl.
  - destruct (mem_write_refines s a ns sh m Hr Hns) as (s' & Hs & Hr').
    exists s'. by rewrite (bind_ok _ _ _ _ _ Hs).
  - destruct (mem_batch_write_refines s a ns sh ms Hr Hns) as (s' & Hs & Hr').
    exists s'. by rewrite (bind_ok _ _ _ _ _ Hs).
  - by apply mem_commit_refines.
Qed.

Lemma run_ops_refine ops s a :
  Forall (fun o => no_underscore (op_namespace o)) ops -> mem_rep s a ->
  exists s', for_each ops run_op s = (Ok tt, s') /\
             mem_rep s' (foldl (fun a o => spec_op o a) a ops).
Proof.
  intros Hops. revert s a. induction Hops as [|o ops Ho Hops IH]; intros s a Hr; [by exists s|].
  destruct (run_op_refines o s a Ho Hr) as (s1 & Hs1 & Hr1).
  destruct (IH s1 _ Hr1) as (s2 & Hs2 & Hr2). exists s2. cbn [for_each].
  by rewrite (bind_ok _ _ _ _ _ Hs1).
Qed.
End sequences.

(** The first position whose record is no older than [timestamp]. *)
Lemma find_timestamp_spec l start timestamp :
  (forall i r, l !! i = Some r -> r_offset r = Some (start + Z.of_nat i)) ->
  match find_timestamp l timestamp with
  | Some o => exists i r, o = default_offset (start + Z.of_nat i) /\ l !! i = Some r /\
      timestamp <= r_timestamp r /\
      forall j r', (j < i)%nat -> l !! j = Some r' -> r_timestamp r' < timestamp
  | None => forall j r', l !! j = Some r' -> r_timestamp r' < timestamp
  end.
Proof.
  revert start. induction l as [|r l IH]; intros start Hl; cbn [find_timestamp]; [done|].
  destruct (Z.leb_spec timestamp (r_timestamp r)) as [Hle|Hgt].
  - rewrite (Hl O r eq_refl). cbn. exists O, r. split_and!; try done. lia.
  - specialize (IH (start + 1)). destruct (find_timestamp l timestamp) as [o|].
    + destruct IH as (i & r0 & -> & Hi & Hle & Hlt).
      { intros i r0 Hi. rewrite (Hl (S i) r0 Hi). f_equal. lia. }
      exists (S i), r0. split_and!; [f_equal; lia|done|done|].
      intros [|j] r' Hj Hr'; [by injection Hr' as <-|]. eapply Hlt; [|done]. lia.
    + intros [|j] r' Hr'; [by injection Hr' as <-|]. eapply IH; [|done].
      intros i r0 Hi. rewrite (Hl (S i) r0 Hi). f_equal. lia.
Qed.

(** ** Writers at the same time

    [write] makes two accesses to the concurrent map: [get_mut], which holds
    the shard while the record is pushed, and, when the shard is not there, a
    separate [insert].  The steps of several writers to one shard interleave
    in any order. *)

Inductive write_pc : Type :=
| AtGet
| AtInsert
| Written (offset : Z).

Definition write_system : Type := MemoryStorageAdapter * list (MsgRecord * write_pc).

Inductive write_step (key : bytes) : write_system -> write_system -> Prop :=
| step_push s ts i m l :
    ts !! i = Some (m, AtGet) -> shard_data s !! key = Some l ->
    write_step key (s, ts)
      (put_data key (l ++ [set_offset (blen l) m]) s, <[i := (m, Written (blen l))]> ts)
| step_miss s ts i m :
    ts !! i = Some (m, AtGet) -> shard_data s !! key = None ->
    write_step key (s, ts) (s, <[i := (m, AtInsert)]> ts)
| step_insert s ts i m :
    ts !! i = Some (m, AtInsert) ->
    write_step key (s, ts) (put_data key [set_offset 0 m] s, <[i := (m, Written 0)]> ts).

Definition is_written (t : MsgRecord * write_pc) : bool :=
  match t.2 with Written _ => true | _ => false end.

(** A writer that runs alone does what [mem_write] does. *)
Lemma write_alone {MI : MapIter} ns sh m s o s' :
  mem_write ns sh m s = (Ok o, s') ->
  rtc (write_step (shard_key ns sh)) (s, [(m, AtGet)]) (s', [(m, Written o)]).
Proof.
  unfold mem_write, bind, get, modify, ret.
  destruct (shard_data s !! shard_key ns sh) as [l|] eqn:E; cbn; intros [= <- <-].
  - apply rtc_once. by apply (step_push _ s [(m, AtGet)] 0%nat m l).
  - eapply rtc_l; [by apply (step_miss _ s [(m, AtGet)] 0%nat m)|]. apply rtc_once.
    by apply (step_insert _ s [(m, AtInsert)] 0%nat m).
Qed.

(** The writers of a shard that exists. *)
Definition writers_inv (key : bytes) (l0 : list MsgRecord) (sys : write_system) : Prop :=
  exists l, shard_data sys.1 !! key = Some (l0 ++ l) /\
    length l = length (filter is_written sys.2) /\
    (forall i m pc, sys.2 !! i = Some (m, pc) ->
       pc = AtGet \/
       exists o, pc = Written o /\ blen l0 <= o < blen (l0 ++ l) /\
                 (l0 ++ l) !! Z.to_nat o = Some (set_offset o m)) /\
    (forall i j m m' o, sys.2 !! i = Some (m, Written o) -> sys.2 !! j = Some (m', Written o) -> i = j).

Lemma filter_written_insert (ts : list (MsgRecord * write_pc)) i m o :
  ts !! i = Some (m, AtGet) ->
  length (filter is_written (<[i := (m, Written o)]> ts)) = S (length (filter is_written ts)).
Proof.
  revert i. induction ts as [|t ts IH]; intros [|i] Hi; cbn in Hi; try done.
  - by injection Hi as ->.
  - change (<[S i := (m, Written o)]> (t :: ts)) with (t :: <[i := (m, Written o)]> ts).
    rewrite !filter_cons. destruct (decide (is_written t)); cbn [length]; by rewrite IH.
Qed.

Lemma writers_inv_step key l0 sys sys' :
  writers_inv key l0 sys -> write_step key sys sys' -> writers_inv key l0 sys'.
Proof.
  intros (l & Hk & Hlen & Hts & Hinj) Hstep. destruct Hstep as [s ts i m l' Hi Hl'|s ts i m Hi Hn|s ts i m Hi];
    cbn [fst snd] in *.
  - rewrite Hk in Hl'. injection Hl' as <-.
    exists (l ++ [set_offset (blen (l0 ++ l)) m]). cbn [fst snd]. split_and!.
    + cbn. by rewrite lookup_insert_eq, app_assoc.
    + rewrite length_app, (filter_written_insert ts i m) by done. cbn. lia.
    + intros j m' pc [(-> & [= <- <-] & _)|[Hne Hj]]%list_lookup_insert_Some.
      * right. eexists. split; [done|]. rewrite (app_assoc l0 l). split; [blia|].
        unfold blen. rewrite Nat2Z.id. by rewrite lookup_app_r, Nat.sub_diag by lia.
      * destruct (Hts j m' pc Hj) as [->|(o & -> & Ho & Hl)]; [by left|right].
        exists o. split; [done|]. rewrite (app_assoc l0 l). split; [blia|].
        apply lookup_app_l_Some. done.
    + assert (forall j m' o, ts !! j = Some (m', Written o) -> o < blen (l0 ++ l)) as Hold.
      { intros j m' o Hj. destruct (Hts j m' _ Hj) as [|(? & [= <-] & Ho & _)]; [done|lia]. }
      intros j j' m1 m2 o H1 H2. apply list_lookup_insert_Some in H1, H2.
      destruct H1 as [(-> & E1 & _)|[? Hj]], H2 as [(-> & E2 & _)|[? Hj']]; simplify_eq; try done.
      * apply Hold in Hj'. lia.
      * apply Hold in Hj. lia.
      * eauto.
  - by rewrite Hk in Hn.
  - destruct (Hts i m AtInsert Hi) as [|(? & ? & _)]; done.
Qed.

(** ** Theorems *)

(** C12: The in-memory store implements the abstract store of logs, for
    namespaces without an underscore (with one, shards run into each other:
    [underscored_shards_collide]).  After any sequence of creations, deletions,
    writes and commits, which all succeed, every read by offset of a window
    below 2^64 returns the part of the shard's log that was asked for, in order
    and with the offsets that the writers were given; a read by tag or key
    returns the records of that window that match; and a group is told the
    offsets it committed. *)
Theorem memory_store_refines_logs {MI : MapIter} {MS : MapIterSpec MI} ops :
  Forall (fun o => no_underscore (op_namespace o)) ops ->
  exists s, for_each ops run_op MemoryStorageAdapter_new = (Ok tt, s) /\
    (forall ns sh offset config,
       no_underscore ns -> 0 <= offset -> 0 <= max_record_num config ->
       offset + max_record_num config < 2 ^ 64 ->
       let window := spec_read (ns, sh) offset (max_record_num config) (spec_ops ops) in
       read_by_offset ns sh offset config s = (Ok window, s) /\
       (forall tag, read_by_tag ns sh offset tag config s
                    = (Ok (filter (fun r => tag ∈ r_tags r) window), s)) /\
       (forall key, read_by_key ns sh offset key config s
                    = (Ok (filter (fun r => r_key r = key) window), s))) /\
    (forall g, exists l, get_offset_by_group g s = (Ok l, s) /\
                         map so_offset l ≡ₚ values (group_commits (spec_ops ops) g)).
Proof.
  intros Hops. destruct (run_ops_refine ops _ _ Hops mem_rep_new) as (s & Hs & Hr).
  exists s. split_and!; [done| |by intros; apply mem_get_group_refines].
  intros ns sh offset config Hns H1 H2 H3 window. split_and!.
  - etrans; [by apply mem_read_refines|]. by rewrite filter_true.
  - intros tag. etrans; [by apply mem_read_refines|]. do 2 f_equal.
    apply list_filter_iff. intros r. apply bool_decide_spec.
  - intros key. etrans; [by apply mem_read_refines|]. do 2 f_equal.
    apply list_filter_iff. intros r. apply bool_decide_spec.
Qed.

(** The shards "c" of the namespace "a_b" and "b_c" of the namespace "a" are
    one: the key of a shard is its namespace and its name around an underscore.
    What is written to one is written to the other, and a read of one is a read
    of the other. *)
Theorem underscored_shards_collide {MI : MapIter} ns x sh :
  let ns' := ns ++ lit "_" ++ x in
  let sh' := x ++ lit "_" ++ sh in
  forall s, (forall m, write ns' sh m s = write ns sh' m s) /\
            (forall ms, batch_write ns' sh ms s = batch_write ns sh' ms s) /\
            (forall offset config, read_by_offset ns' sh offset config s = read_by_offset ns sh' offset config s).
Proof.
  intros ns' sh' s.
  assert (shard_key ns' sh = shard_key ns sh') as E by (unfold shard_key, ns', sh'; by rewrite <- !app_assoc).
  cbn [write batch_write read_by_offset MemoryStorage_adapter].
  unfold mem_write, mem_batch_write, mem_read_by_offset, read_window. by rewrite E.
Qed.

Definition sample_record (key : bytes) (timestamp : Z) : MsgRecord :=
  mkMsgRecord None [] key [1; 2] [(lit "t")] timestamp 0 7.

Lemma memory_store_refines_logs_witness :
  let ops := [OpCreate (mkShardInfo (lit "ns") (lit "a_b") 1); OpWrite (lit "ns") (lit "a_b") (sample_record (lit "k") 5);
              OpBatchWrite (lit "ns") (lit "a_b") [sample_record (lit "l") 6; sample_record (lit "m") 7];
              OpCommit (lit "g") (lit "ns") {[ (lit "a_b") := 1 ]}] in
  exists s, for_each ops (@run_op _ (@MemoryStorage_adapter key_order)) MemoryStorageAdapter_new = (Ok tt, s) /\
    @read_by_offset _ (@MemoryStorage_adapter key_order) (lit "ns") (lit "a_b") 1 (mkReadConfig 5 0) s
    = (Ok [set_offset 1 (sample_record (lit "l") 6); set_offset 2 (sample_record (lit "m") 7)], s).
Proof.
  intros ops. destruct (@memory_store_refines_logs key_order key_order_spec ops) as (s & Hs & Hr & _).
  { repeat constructor; by apply (bool_decide_unpack _). }
  exists s. split; [exact Hs|].
  destruct (Hr (lit "ns") (lit "a_b") 1 (mkReadConfig 5 0)) as [H _].
  { by apply (bool_decide_unpack _). }
  { done. }
  { done. }
  { done. }
  rewrite H. do 2 f_equal.
Defined.

(** In a store that has been through any operations, the offset that a
    timestamp is resolved to is the position of the first record of the shard
    that is no older, and there is none only when all records are older. *)
Theorem memory_offset_by_timestamp {MI : MapIter} {MS : MapIterSpec MI} ops s ns sh timestamp :
  Forall (fun o => no_underscore (op_namespace o)) ops -> no_underscore ns ->
  for_each ops run_op MemoryStorageAdapter_new = (Ok tt, s) ->
  let log := default [] (logs (spec_ops ops) !! (ns, sh)) in
  exists o, get_offset_by_timestamp ns sh timestamp s = (Ok o, s) /\ resolves log timestamp o.
Proof.
  intros Hops Hns Hs log. destruct (run_ops_refine ops _ _ Hops mem_rep_new) as (s' & Hs' & Hr).
  rewrite Hs in Hs'. injection Hs' as <-. exists (find_timestamp log timestamp). split.
  - cbn. unfold mem_get_offset_by_timestamp, bind, get. rewrite (proj1 Hr ns sh Hns). unfold log.
    by destruct (logs (spec_ops ops) !! (ns, sh)) eqn:E; unfold spec_ops in E; rewrite E.
  - assert (stamped log) as Hst.
    { unfold log. destruct (logs (spec_ops ops) !! (ns, sh)) eqn:E; cbn; eauto using spec_ops_stamped, stamped_nil. }
    pose proof (find_timestamp_spec log 0 timestamp Hst) as H.
    destruct (find_timestamp log timestamp) as [o|]; [|done]. destruct H as (i & r & -> & H). by exists i, r.
Qed.

Lemma memory_offset_by_timestamp_witness :
  let ops := [OpBatchWrite (lit "ns") (lit "s") [sample_record (lit "k") 5; sample_record (lit "l") 9]] in
  let s := (for_each ops (@run_op _ (@MemoryStorage_adapter key_order)) MemoryStorageAdapter_new).2 in
  exists o, @get_offset_by_timestamp _ (@MemoryStorage_adapter key_order) (lit "ns") (lit "s") 6 s = (Ok o, s) /\
    resolves (default [] (logs (spec_ops ops) !! ((lit "ns"), (lit "s")))) 6 o.
Proof.
  intros ops s. apply (@memory_offset_by_timestamp key_order key_order_spec ops s (lit "ns") (lit "s") 6).
  - repeat constructor. by apply (bool_decide_unpack _).
  - by apply (bool_decide_unpack _).
  - reflexivity.
Defined.

(** C28: Writers to a shard that exists do not lose each other's records,
    however their steps interleave: the log is the old one followed by exactly
    one record for every writer that is done, each at the offset the writer
    was told, and no two writers were told the same offset. *)
Theorem concurrent_writes_kept key s l0 ms s' ts :
  shard_data s !! key = Some l0 ->
  rtc (write_step key) (s, map (fun m => (m, AtGet)) ms) (s', ts) ->
  exists l, shard_data s' !! key = Some (l0 ++ l) /\
    length l = length (filter is_written ts) /\
    (forall i m o, ts !! i = Some (m, Written o) ->
       blen l0 <= o /\ (l0 ++ l) !! Z.to_nat o = Some (set_offset o m)) /\
    (forall i j m m' o, ts !! i = Some (m, Written o) -> ts !! j = Some (m', Written o) -> i = j).
Proof.
  intros Hs Hrun.
  assert (writers_inv key l0 (s, map (fun m => (m, AtGet)) ms)) as H0.
  { exists []. rewrite app_nil_r. split_and!; [done| | |]; cbn [snd].
    - clear Hrun. induction ms as [|m ms IH]; [done|exact IH].
    - intros i m pc Hi. rewrite list_lookup_fmap in Hi. destruct (ms !! i); naive_solver.
    - intros i j m m' o Hi. rewrite list_lookup_fmap in Hi. destruct (ms !! i); naive_solver. }
  assert (writers_inv key l0 (s', ts)) as (l & Hl & Hlen & Hts & Hinj).
  { clear Hs. induction Hrun; [done|]. eauto using writers_inv_step. }
  exists l. split_and!; try done. intros i m o Hi.
  destruct (Hts i m _ Hi) as [|(? & [= <-] & [? _] & ?)]; done.
Qed.

Lemma concurrent_writes_kept_witness :
  let m1 := sample_record (lit "a") 1 in
  let m2 := sample_record (lit "b") 2 in
  let s := put_data (lit "ns_s") [] MemoryStorageAdapter_new in
  let s' := put_data (lit "ns_s") [set_offset 0 m2; set_offset 1 m1] (put_data (lit "ns_s") [set_offset 0 m2] s) in
  let ts := [(m1, Written 1); (m2, Written 0)] in
  exists l, shard_data s' !! (lit "ns_s") = Some ([] ++ l) /\
    length l = length (filter is_written ts) /\
    (forall i m o, ts !! i = Some (m, Written o) ->
       blen (@nil MsgRecord) <= o /\ ([] ++ l) !! Z.to_nat o = Some (set_offset o m)) /\
    (forall i j m m' o, ts !! i = Some (m, Written o) -> ts !! j = Some (m', Written o) -> i = j).
Proof.
  intros m1 m2 s s' ts. apply (concurrent_writes_kept (lit "ns_s") s [] [m1; m2] s' ts).
  - reflexivity.
  - eapply rtc_l; [by apply (step_push (lit "ns_s") s [(m1, AtGet); (m2, AtGet)] 1%nat m2 [])|].
    apply rtc_once.
    by apply (step_push (lit "ns_s") (put_data (lit "ns_s") [set_offset 0 m2] s)
                [(m1, AtGet); (m2, Written 0)] 0%nat m1 [set_offset 0 m2]).
Defined.

(** The first writers of a shard that was not created can lose a record:
    two writers that both miss the shard both insert a vector of their own,
    both are told offset 0, and only the record of the later one is kept. *)
Theorem concurrent_first_write_lost key s m1 m2 :
  shard_data s !! key = None ->
  exists s', rtc (write_step key) (s, [(m1, AtGet); (m2, AtGet)]) (s', [(m1, Written 0); (m2, Written 0)]) /\
    shard_data s' !! key = Some [set_offset 0 m2].
Proof.
  intros Hn. exists (put_data key [set_offset 0 m2] (put_data key [set_offset 0 m1] s)). split.
  - eapply rtc_l; [by apply (step_miss key s [(m1, AtGet); (m2, AtGet)] 0%nat m1)|].
    eapply rtc_l; [by apply (step_miss key s [(m1, AtInsert); (m2, AtGet)] 1%nat m2)|].
    eapply rtc_l; [by apply (step_insert key s [(m1, AtInsert); (m2, AtInsert)] 0%nat m1)|].
    apply rtc_once. by apply (step_insert key _ [(m1, Written 0); (m2, AtInsert)] 1%nat m2).
  - cbn. by rewrite lookup_insert_eq.
Qed.

Lemma concurrent_first_write_lost_witness :
  exists s', rtc (write_step (lit "ns_s"))
      (MemoryStorageAdapter_new, [(sample_record (lit "a") 1, AtGet); (sample_record (lit "b") 2, AtGet)])
      (s', [(sample_record (lit "a") 1, Written 0); (sample_record (lit "b") 2, Written 0)]) /\
    shard_data s' !! (lit "ns_s") = Some [set_offset 0 (sample_record (lit "b") 2)].
Proof.
  apply (concurrent_first_write_lost (lit "ns_s") MemoryStorageAdapter_new).
  reflexivity.
Defined.
