(* ===== verification/RocksEngine.v ===== *)
(** * The key-value engine: [common/rocksdb-engine/src]

    [RocksDBEngine] ([lib.rs]) reads and writes JSON values in a column family
    of a RocksDB database, and [engine.rs] wraps the values with the time they
    were stored.  The database itself (crate [rocksdb]) and the serializer
    (crate [serde_json]) are parameters: [RocksDB] and [Json] with their
    documented behaviour, [RocksSpec], [RocksReliable] and [JsonSpec]. *)

From Stdlib Require Import String.
From stdpp Require Import sorting.
From S2P Require Import Prelude Bytes RustStr Storage.

(** ** The crates *)

(** [serde_json::to_vec] and [from_slice], and the [Debug] text of a value;
    an error is its text. *)
Class Json (A : Type) : Type := {
  to_vec : A -> bytes + bytes;
  from_slice : bytes -> bytes + A;
  json_debug : A -> bytes
}.
(** What derived implementations promise: a value is serialized to a text that
    is not empty and is read back as the value. *)
Class JsonSpec (A : Type) {J : Json A} : Prop := {
  json_roundtrip (a : A) : exists b, to_vec a = inr b /\ b <> [] /\ from_slice b = inr a
}.

(** A database with column families.  [db_iter_from cf k]: what a raw iterator
    yields that was placed at [k], on the state it was created in.  A key is
    the octets of the string it was put with. *)
Class RocksDB (D : Type) : Type := {
  db_cf_handle : bytes -> D -> bool;
  db_put_cf : bytes -> bytes -> bytes -> M D bytes unit;
  db_get_cf : bytes -> bytes -> D -> bytes + option bytes;
  db_delete_cf : bytes -> bytes -> M D bytes unit;
  db_key_may_exist_cf : bytes -> bytes -> D -> bool;
  db_iter_from : bytes -> bytes -> D -> list (bytes * bytes)
}.

Definition key_lt (a b : bytes * bytes) : Prop := octets_lt a.1 b.1 = true.

(** A call may fail, and then it has changed nothing; iterators follow the
    order of the octets. *)
Class RocksSpec (D : Type) {RD : RocksDB D} : Type := {
  contents : D -> bytes -> gmap bytes bytes;
  put_spec cf k v d :
    db_cf_handle cf d = true ->
    let (r, d') := db_put_cf cf k v d in
    (forall cf', db_cf_handle cf' d' = db_cf_handle cf' d) /\
    ((r = Ok tt /\ contents d' cf = <[k := v]> (contents d cf) /\
      forall cf', cf' <> cf -> contents d' cf' = contents d cf') \/
     (exists e, r = Err e) /\ forall cf', contents d' cf' = contents d cf');
  get_spec cf k d :
    db_get_cf cf k d = inr (contents d cf !! k) \/ exists e, db_get_cf cf k d = inl e;
  delete_spec cf k d :
    db_cf_handle cf d = true ->
    let (r, d') := db_delete_cf cf k d in
    (forall cf', db_cf_handle cf' d' = db_cf_handle cf' d) /\
    ((r = Ok tt /\ contents d' cf = delete k (contents d cf) /\
      forall cf', cf' <> cf -> contents d' cf' = contents d cf') \/
     (exists e, r = Err e) /\ forall cf', contents d' cf' = contents d cf');
  may_exist_spec cf k d :
    is_Some (contents d cf !! k) -> db_key_may_exist_cf cf k d = true;
  iter_sorted cf k d : StronglySorted key_lt (db_iter_from cf k d);
  iter_elem cf k d kv :
    kv ∈ db_iter_from cf k d <->
    contents d cf !! kv.1 = Some kv.2 /\ octets_lt kv.1 k = false
}.

(** A database whose disk does not fail. *)
Class RocksReliable (D : Type) {RD : RocksDB D} : Prop := {
  put_reliable cf k v d : db_cf_handle cf d = true -> (db_put_cf cf k v d).1 = Ok tt;
  get_reliable cf k d e : db_get_cf cf k d <> inl e;
  delete_reliable cf k d : db_cf_handle cf d = true -> (db_delete_cf cf k d).1 = Ok tt
}.

(** ** lib.rs *)

Section engine.
Context {D : Type} {RD : RocksDB D}.

Definition map_err {S E F A : Type} (f : E -> F) (m : M S E A) : M S F A :=
  fun s =>
    match m s with
    | (Ok a, s') => (Ok a, s')
    | (Err e, s') => (Err (f e), s')
    | (Panic, s') => (Panic, s')
    | (OutOfFuel, s') => (OutOfFuel, s')
    end.

Definition engine_write {A : Type} {J : Json A} (cf key : bytes) (value : A)
  : M D CommonError unit :=
  match to_vec value with
  | inr serialized =>
      map_err (fun e => CommonError_ (lit "Failed to put to ColumnFamily:" ++ e))
        (db_put_cf cf key serialized)
  | inl err =>
      fail (CommonError_ (lit "Failed to serialize to String. T: " ++ json_debug value
                          ++ lit ", err: " ++ err))
  end.

Definition engine_write_str {J : Json bytes} (cf key value : bytes) : M D CommonError unit :=
  engine_write cf key value.

Definition engine_read {A : Type} {J : Json A} (cf key : bytes) : M D CommonError (option A) :=
  fun d =>
    match db_get_cf cf key d with
    | inr (Some found) =>
        if negb (bool_decide (found = [])) then
          match from_slice found with
          | inr t => (Ok (Some t), d)
          | inl err => (Err (CommonError_ (lit "Failed to deserialize: " ++ err)), d)
          end
        else (Ok None, d)
    | inr None => (Ok None, d)
    | inl err => (Err (CommonError_ (lit "Failed to get from ColumnFamily: " ++ err)), d)
    end.

(** The loop leaves at the first key without the prefix. *)
Fixpoint prefix_loop (search_key : bytes) (iter : list (bytes * bytes)) : list (bytes * bytes) :=
  match iter with
  | [] => []
  | kv :: iter =>
      if negb (starts_with search_key kv.1) then [] else kv :: prefix_loop search_key iter
  end.

Definition engine_read_prefix (cf search_key : bytes) : M D CommonError (list (bytes * bytes)) :=
  fun d => (Ok (prefix_loop search_key (db_iter_from cf search_key d)), d).

Definition engine_read_all_by_cf (cf : bytes) : M D CommonError (list (bytes * bytes)) :=
  fun d => (Ok (db_iter_from cf [] d), d).

Definition engine_delete (cf key : bytes) : M D CommonError unit :=
  map_err FromRocksdbError (db_delete_cf cf key).

Definition engine_delete_prefix (cf search_key : bytes) : M D CommonError unit :=
  fun d => for_each (db_iter_from cf search_key d)
             (fun kv => map_err FromRocksdbError (db_delete_cf cf kv.1)) d.

Definition engine_exist (cf key : bytes) : M D CommonError bool :=
  fun d => (Ok (db_key_may_exist_cf cf key d), d).
End engine.

(** ** warp.rs and engine.rs: values with the time they were stored *)

Record StorageDataWrap : Type := mkStorageDataWrap { sd_data : bytes; sd_create_time : Z }.

Section wrapped.
Context {D : Type} {RD : RocksDB D} {JW : Json StorageDataWrap}.

(** The column family is looked up first. *)
Definition with_cf {A : Type} (cf : bytes) (m : M D CommonError A) : M D CommonError A :=
  fun d => if db_cf_handle cf d then m d else (Err (RocksDBFamilyNotAvailable cf), d).

Definition rocksdb_engine_save {A : Type} {J : Json A} (now_second : Z) (cf key_name : bytes)
    (value : A) : M D CommonError unit :=
  with_cf cf
    match to_vec value with
    | inr content => engine_write cf key_name (mkStorageDataWrap content now_second)
    | inl e => fail (CommonError_ e)
    end.

Definition rocksdb_engine_get (cf key_name : bytes) : M D CommonError (option StorageDataWrap) :=
  with_cf cf (engine_read cf key_name).

Definition rocksdb_engine_delete (cf key_name : bytes) : M D CommonError unit :=
  with_cf cf (engine_delete cf key_name).

Definition rocksdb_engine_exists (cf key_name : bytes) : M D CommonError bool :=
  with_cf cf (engine_exist cf key_name).

(** The values that can be read; the others are skipped. *)
Fixpoint readable (raw : list (bytes * bytes)) : list (bytes * StorageDataWrap) :=
  match raw with
  | [] => []
  | (k, v) :: raw =>
      match from_slice v with
      | inr w => (k, w) :: readable raw
      | inl _ => readable raw
      end
  end.

Definition rocksdb_engine_prefix_list (cf prefix_key_name : bytes)
  : M D CommonError (list StorageDataWrap) :=
  with_cf cf (let! raw := engine_read_prefix cf prefix_key_name in ret (readable raw).*2).

Definition rocksdb_engine_prefix_map (cf prefix_key_name : bytes)
  : M D CommonError (gmap bytes StorageDataWrap) :=
  with_cf cf
    (let! raw := engine_read_prefix cf prefix_key_name in
     ret (foldl (fun results kw => <[kw.1 := kw.2]> results) ∅ (readable raw))).
End wrapped.

(** ** What the engine does *)

(** The octets that a value is stored as. *)
Definition json {A : Type} {J : Json A} (a : A) : bytes :=
  match to_vec a with inr b => b | inl _ => [] end.

Lemma json_ok {A} {J : Json A} {JS : JsonSpec A} (a : A) :
  to_vec a = inr (json a) /\ json a <> [] /\ from_slice (json a) = inr a.
Proof. destruct (json_roundtrip a) as (b & Hb & Hne & Hf). unfold json. by rewrite Hb. Qed.

Lemma json_inj {A} {J : Json A} {JS : JsonSpec A} (a1 a2 : A) : json a1 = json a2 -> a1 = a2.
Proof.
  intros E. destruct (json_ok a1) as (_ & _ & H1), (json_ok a2) as (_ & _ & H2). rewrite E, H2 in H1. congruence.
Qed.

Section facts.
Context {D : Type} {RD : RocksDB D} {RS : RocksSpec D}.
Implicit Types (d : D) (cf k p : bytes).

(** A write that fails changes nothing; one that succeeds stores the value. *)
Lemma engine_write_cases {A} {J : Json A} {JS : JsonSpec A} cf k (a : A) d :
  db_cf_handle cf d = true ->
  let (r, d') := engine_write cf k a d in
  (forall cf', db_cf_handle cf' d' = db_cf_handle cf' d) /\
  ((r = Ok tt /\ contents d' cf = <[k := json a]> (contents d cf) /\
    forall cf', cf' <> cf -> contents d' cf' = contents d cf') \/
   (exists e, r = Err e) /\ forall cf', contents d' cf' = contents d cf').
Proof.
  intros Hcf. unfold engine_write. destruct (json_ok a) as (-> & _ & _). unfold map_err.
  pose proof (put_spec cf k (json a) d Hcf) as H. destruct (db_put_cf cf k (json a) d) as [r d'].
  destruct H as [Hh [(-> & H1 & H2)|[[e ->] H]]]; split; eauto 10.
Qed.

Lemma engine_write_ok {RR : RocksReliable D} {A} {J : Json A} {JS : JsonSpec A} cf k (a : A) d :
  db_cf_handle cf d = true ->
  exists d', engine_write cf k a d = (Ok tt, d') /\
    (forall cf', db_cf_handle cf' d' = db_cf_handle cf' d) /\
    contents d' cf = <[k := json a]> (contents d cf) /\
    forall cf', cf' <> cf -> contents d' cf' = contents d cf'.
Proof.
  intros Hcf. pose proof (engine_write_cases cf k a d Hcf) as H.
  assert ((engine_write cf k a d).1 = Ok tt) as Hr.
  { unfold engine_write. destruct (json_ok a) as (-> & _ & _). unfold map_err.
    pose proof (put_reliable cf k (json a) d Hcf) as Hp. destruct (db_put_cf cf k (json a) d) as [r d'].
    by cbn in Hp; subst. }
  destruct (engine_write cf k a d) as [r d']. cbn in Hr. subst. exists d'. split; [done|].
  destruct H as [Hh [(_ & H1 & H2)|[[e He] _]]]; done.
Qed.

Lemma engine_delete_ok {RR : RocksReliable D} cf k d :
  db_cf_handle cf d = true ->
  exists d', engine_delete cf k d = (Ok tt, d') /\
    (forall cf', db_cf_handle cf' d' = db_cf_handle cf' d) /\
    contents d' cf = delete k (contents d cf) /\
    forall cf', cf' <> cf -> contents d' cf' = contents d cf'.
Proof.
  intros Hcf. unfold engine_delete, map_err. pose proof (delete_spec cf k d Hcf) as H.
  pose proof (delete_reliable cf k d Hcf) as Hp. destruct (db_delete_cf cf k d) as [r d'].
  cbn in Hp. subst. exists d'. split; [done|]. destruct H as [Hh [(_ & H1 & H2)|[[e He] _]]]; done.
Qed.

(** A read of a stored value, if the disk does not fail. *)
Lemma engine_read_cases {A} {J : Json A} {JS : JsonSpec A} cf k (o : option A) d :
  contents d cf !! k = json <$> o ->
  engine_read cf k d = (Ok o, d) \/ exists e, engine_read (A := A) cf k d = (Err e, d).
Proof.
  intros Hk. unfold engine_read. destruct (get_spec cf k d) as [->|[e ->]]; [|eauto]. rewrite Hk.
  destruct o as [a|]; cbn [fmap option_fmap option_map]; [|by left].
  destruct (json_ok a) as (_ & Hne & ->). rewrite bool_decide_eq_false_2 by done. by left.
Qed.

Lemma engine_read_ok {RR : RocksReliable D} {A} {J : Json A} {JS : JsonSpec A} cf k (o : option A) d :
  contents d cf !! k = json <$> o -> engine_read cf k d = (Ok o, d).
Proof.
  intros Hk. destruct (engine_read_cases cf k o d Hk) as [|[e He]]; [done|]. exfalso.
  unfold engine_read in He. destruct (get_spec cf k d) as [Hg|[e' Hg]]; [|by eapply get_reliable].
  rewrite Hg, Hk in He. destruct o as [a|]; cbn in He; [|done].
  destruct (json_ok a) as (_ & Hne & Hf). by rewrite bool_decide_eq_false_2, Hf in He by done.
Qed.

(** The prefix scan: all keys with the prefix, in their order. *)
Lemma starts_with_ge p k : starts_with p k = true -> octets_lt k p = false.
Proof.
  revert k. induction p as [|x p IH]; intros [|y k]; cbn; try done.
  intros [->%Z.eqb_eq H]%andb_true_iff. by rewrite Z.ltb_irrefl, Z.eqb_refl, IH.
Qed.

Lemma prefix_loop_elem p l kv :
  StronglySorted key_lt l -> Forall (fun kv => octets_lt kv.1 p = false) l ->
  kv ∈ prefix_loop p l <-> kv ∈ l /\ starts_with p kv.1 = true.
Proof.
  induction 1 as [|kv0 l Hs IH Hlt]; intros Hge; cbn [prefix_loop].
  { split; [by intros ?%elem_of_nil|by intros [?%elem_of_nil ?]]. }
  apply Forall_cons in Hge as [Hge0 Hge]. destruct (starts_with p kv0.1) eqn:E; cbn [negb].
  - rewrite !elem_of_cons, IH by done. split; [|tauto].
    intros [->|[? ?]]; auto.
  - split; [by intros ?%elem_of_nil|]. intros [[->|Hin]%elem_of_cons Hp]; [congruence|].
    rewrite Forall_forall in Hlt. specialize (Hlt kv Hin). unfold key_lt in Hlt.
    rewrite (starts_with_convex p kv0.1 kv.1) in Hp; try done.
    destruct (octets_lt_total p kv0.1) as [|[Heq|]]; [done| |congruence].
    pose proof (starts_with_app p []) as Hpp. rewrite app_nil_r in Hpp. rewrite <- Heq in E. congruence.
Qed.

Lemma prefix_loop_sorted p l : StronglySorted key_lt l -> StronglySorted key_lt (prefix_loop p l).
Proof.
  induction 1 as [|kv l Hs IH Hlt]; cbn [prefix_loop]; [constructor|].
  case_match; constructor; [done|]. rewrite Forall_forall in *. intros x Hx. apply Hlt.
  clear -Hx. induction l as [|y l IH]; cbn in Hx; [done|]. case_match; [by apply elem_of_nil in Hx|].
  apply elem_of_cons in Hx as [->|Hx]; [by left|right; auto].
Qed.

Lemma engine_read_prefix_ok cf p d :
  exists l, engine_read_prefix cf p d = (Ok l, d) /\ StronglySorted key_lt l /\
    forall kv, kv ∈ l <-> contents d cf !! kv.1 = Some kv.2 /\ starts_with p kv.1 = true.
Proof.
  eexists. split; [done|]. pose proof (iter_sorted cf p d) as Hs. split; [by apply prefix_loop_sorted|].
  intros kv. rewrite prefix_loop_elem; [|done|].
  - rewrite iter_elem. split; [tauto|]. intros [Hk Hp]. split_and!; auto using starts_with_ge.
  - rewrite Forall_forall. intros x [_ Hx]%iter_elem. done.
Qed.

Lemma sorted_NoDup l : StronglySorted key_lt l -> NoDup l.
Proof.
  induction 1 as [|kv l Hs IH Hlt]; constructor; [|done]. intros Hin. rewrite Forall_forall in Hlt.
  specialize (Hlt kv Hin). unfold key_lt in Hlt. by rewrite octets_lt_irrefl in Hlt.
Qed.
End facts.

(** ** A database that is a map

    It satisfies the contract; the examples run on it. *)

Definition key_le (a b : bytes * bytes) : Prop := octets_lt b.1 a.1 = false.
#[export] Instance key_le_dec : RelDecision key_le.
Proof. intros a b. unfold key_le. apply _. Defined.
#[export] Instance key_le_total : Total key_le.
Proof.
  intros a b. unfold key_le. destruct (octets_lt b.1 a.1) eqn:E; [right|by left].
  destruct (octets_lt a.1 b.1) eqn:E'; [|done].
  pose proof (octets_lt_trans _ _ _ E E') as Hbb. by rewrite octets_lt_irrefl in Hbb.
Qed.
#[export] Instance key_le_trans : Transitive key_le.
Proof.
  intros a b c Hab Hbc. unfold key_le in *. destruct (octets_lt c.1 a.1) eqn:E; [|done].
  destruct (octets_lt_total a.1 b.1) as [H|[H|H]]; [|congruence|congruence].
  rewrite (octets_lt_trans _ _ _ E H) in Hbc. done.
Qed.

Definition map_db : RocksDB (gmap bytes (gmap bytes bytes)) := {|
  db_cf_handle cf d := is_some (d !! cf);
  db_put_cf cf k v := fun d => (Ok tt, alter (insert k v) cf d);
  db_get_cf cf k d := inr (default ∅ (d !! cf) !! k);
  db_delete_cf cf k := fun d => (Ok tt, alter (delete k) cf d);
  db_key_may_exist_cf cf k d := is_some (default ∅ (d !! cf) !! k);
  db_iter_from cf k d :=
    filter (fun kv => octets_lt kv.1 k = false)
      (merge_sort key_le (map_to_list (default ∅ (d !! cf))))
|}.

Lemma sorted_strict l : NoDup l.*1 -> StronglySorted key_le l -> StronglySorted key_lt l.
Proof.
  intros Hnd. induction 1 as [|a l Hs IH Hle]; constructor; cbn in Hnd; apply NoDup_cons in Hnd as [Ha Hnd].
  - auto.
  - rewrite Forall_forall in *. intros b Hb. specialize (Hle b Hb). unfold key_le in Hle. unfold key_lt.
    destruct (octets_lt_total a.1 b.1) as [H|[H|H]]; [done| |congruence].
    destruct Ha. rewrite H. apply list_elem_of_fmap. by exists b.
Qed.

Lemma StronglySorted_filter {A} (R : A -> A -> Prop) (P : A -> Prop) `{!forall x, Decision (P x)} l :
  StronglySorted R l -> StronglySorted R (filter P l).
Proof.
  induction 1 as [|a l Hs IH Hle]; [constructor|]. rewrite filter_cons. case_decide; [|done].
  constructor; [done|]. rewrite Forall_forall in *. intros b [_ Hb]%list_elem_of_filter. auto.
Qed.

Lemma alter_put_spec (d : gmap bytes (gmap bytes bytes)) (f : gmap bytes bytes -> gmap bytes bytes) cf :
  is_some (d !! cf) = true ->
  (forall cf', is_some (alter f cf d !! cf') = is_some (d !! cf')) /\
  default ∅ (alter f cf d !! cf) = f (default ∅ (d !! cf)) /\
  forall cf', cf' <> cf -> default (∅ : gmap bytes bytes) (alter f cf d !! cf') = default ∅ (d !! cf').
Proof.
  intros Hcf. split_and!.
  - intros cf'. destruct (decide (cf = cf')) as [->|Hn]; [|by rewrite lookup_alter_ne].
    rewrite lookup_alter_eq. by destruct (d !! cf').
  - rewrite lookup_alter_eq. by destruct (d !! cf).
  - intros cf' Hn. by rewrite lookup_alter_ne.
Qed.

Definition map_db_spec : @RocksSpec _ map_db.
Proof.
  refine (@Build_RocksSpec _ map_db (fun d cf => default ∅ (d !! cf)) _ _ _ _ _ _); cbn.
  - intros cf k v d Hcf. destruct (alter_put_spec d (insert k v) cf Hcf) as (H1 & H2 & H3). auto 10.
  - by left.
  - intros cf k d Hcf. destruct (alter_put_spec d (delete k) cf Hcf) as (H1 & H2 & H3). auto 10.
  - intros cf k d [v Hv]. by rewrite Hv.
  - intros cf k d. apply StronglySorted_filter, sorted_strict.
    + rewrite merge_sort_Permutation. apply NoDup_fst_map_to_list.
    + apply StronglySorted_merge_sort; apply _.
  - intros cf k d [k' v]. rewrite list_elem_of_filter, merge_sort_Permutation, elem_of_map_to_list. cbn. tauto.
Defined.

Lemma map_db_reliable : @RocksReliable _ map_db.
Proof. by split. Qed.

(** The same database on a disk that refuses one write, the [n]-th. *)
Definition flaky_db : RocksDB (nat * gmap bytes (gmap bytes bytes)) := {|
  db_cf_handle cf d := is_some (d.2 !! cf);
  db_put_cf cf k v :=
    fun d => match d.1 with
             | 1%nat => (Err (lit "no space left on device"), (0%nat, d.2))
             | n => (Ok tt, (pred n, alter (insert k v) cf d.2))
             end;
  db_get_cf cf k d := inr (default ∅ (d.2 !! cf) !! k);
  db_delete_cf cf k := fun d => (Ok tt, (d.1, alter (delete k) cf d.2));
  db_key_may_exist_cf cf k d := is_some (default ∅ (d.2 !! cf) !! k);
  db_iter_from cf k d := @db_iter_from _ map_db cf k d.2
|}.

Definition flaky_db_spec : @RocksSpec _ flaky_db.
Proof.
  refine (@Build_RocksSpec _ flaky_db (fun d cf => default ∅ (d.2 !! cf)) _ _ _ _ _ _); cbn.
  - intros cf k v [n d] Hcf. destruct (alter_put_spec d (insert k v) cf Hcf) as (H1 & H2 & H3).
    destruct n as [|[|n]]; cbn; (split; [done|]); [left; auto|right; split; [by eexists|done]|left; auto].
  - by left.
  - intros cf k [n d] Hcf. destruct (alter_put_spec d (delete k) cf Hcf) as (H1 & H2 & H3). auto 10.
  - intros cf k d [v Hv]. by rewrite Hv.
  - intros cf k d. apply (@iter_sorted _ map_db map_db_spec).
  - intros cf k d kv. apply (@iter_elem _ map_db map_db_spec).
Defined.

(** A serializer that writes the code of a value. *)
Definition coded_json {A : Type} `{Countable A} : Json A := {|
  to_vec a := inr [Z.pos (encode a)];
  from_slice b :=
    match b with
    | [Z.pos p] => match decode p with Some a => inr a | None => inl [] end
    | _ => inl []
    end;
  json_debug _ := []
|}.
Lemma coded_json_spec {A} `{Countable A} : @JsonSpec A coded_json.
Proof. split. intros a. eexists. split; [done|]. split; [done|]. cbn. by rewrite decode_encode. Qed.
