(* ===== verification/RocksStorage.v ===== *)
(** * The RocksDB storage adapter: [storage-adapter/src/rocksdb/mod.rs]

    Records, indexes and committed offsets as keys of one column family, and a
    write thread per shard.  The database and the serializer are the parameters
    of [RocksEngine].  The requests of one client are modelled one after the
    other: a request that is handed to a running write thread is answered
    (neither the queue of 1000 requests nor the limit of 30 seconds is
    exceeded). *)

From Stdlib Require Import String.
From S2P Require Import Prelude Bytes RustStr Storage RocksEngine.

(** ** Keys *)

Definition shard_record_key (ns sh : bytes) (record_offset : Z) : bytes :=
  lit "/record/" ++ ns ++ lit "/" ++ sh ++ lit "/record/" ++ padded 20 record_offset.
Definition shard_record_key_prefix (ns sh : bytes) : bytes :=
  lit "/record/" ++ ns ++ lit "/" ++ sh ++ lit "/record/".
Definition shard_offset_key (ns sh : bytes) : bytes := lit "/offset/" ++ ns ++ lit "/" ++ sh.
Definition key_offset_key (ns sh key : bytes) : bytes :=
  lit "/key/" ++ ns ++ lit "/" ++ sh ++ lit "/" ++ key.
Definition tag_offsets_key (ns sh tag : bytes) (offset : Z) : bytes :=
  lit "/tag/" ++ ns ++ lit "/" ++ sh ++ lit "/" ++ tag ++ lit "/" ++ padded 20 offset.
Definition tag_offsets_key_prefix (ns sh tag : bytes) : bytes :=
  lit "/tag/" ++ ns ++ lit "/" ++ sh ++ lit "/" ++ tag ++ lit "/".
Definition group_record_offsets_key (group ns sh : bytes) : bytes :=
  lit "/group/" ++ group ++ lit "/" ++ ns ++ lit "/" ++ sh.
Definition group_record_offsets_key_prefix (group : bytes) : bytes := lit "/group/" ++ group ++ lit "/".
Definition shard_info_key (ns sh : bytes) : bytes := lit "/shard/" ++ ns ++ lit "/" ++ sh.
Definition write_handle_key (ns sh : bytes) : bytes := ns ++ lit "-" ++ sh.

Definition DB_COLUMN_FAMILY : bytes := lit "db".

Section adapter.
Context {D : Type} {RD : RocksDB D} {MI : MapIter}
        {JZ : Json Z} {JB : Json bytes} {JR : Json MsgRecord} {JI : Json ShardInfo}.

(** A write thread: it ends when it is told to stop. *)
Record ThreadWriteHandle : Type := mkThreadWriteHandle { th_running : bool }.

Record RocksDBStorageAdapter : Type := mkRocks {
  rk_db : D;
  rk_write_handles : gmap bytes ThreadWriteHandle
}.
Definition R (A : Type) : Type := M RocksDBStorageAdapter CommonError A.

Definition on_db {A : Type} (m : M D CommonError A) : R A :=
  fun s => let (r, d) := m (rk_db s) in (r, mkRocks d (rk_write_handles s)).

(** [self.db.cf_handle(DB_COLUMN_FAMILY).unwrap()]. *)
Definition unwrap_cf : M D CommonError unit :=
  fun d => if db_cf_handle DB_COLUMN_FAMILY d then (Ok tt, d) else (Panic, d).

Abbreviation db_write := (engine_write DB_COLUMN_FAMILY).
Abbreviation db_read A := (engine_read (A := A) DB_COLUMN_FAMILY).

(** ** Writing *)

(** The loop over the messages: the offsets given out and the next one. *)
Fixpoint batch_write_loop (ns sh : bytes) (messages : list MsgRecord) (start_offset : Z)
    (offset_res : list Z) : M D CommonError (list Z * Z) :=
  match messages with
  | [] => ret (offset_res, start_offset)
  | msg :: messages =>
      let msg := set_offset start_offset msg in
      db_write (shard_record_key ns sh start_offset) msg ;;
      (if negb (bool_decide (r_key msg = [])) then
         db_write (key_offset_key ns sh (r_key msg)) start_offset
       else ret tt) ;;
      for_each (r_tags msg) (fun tag => db_write (tag_offsets_key ns sh tag start_offset) start_offset) ;;
      batch_write_loop ns sh messages (wrap64 (start_offset + 1)) (offset_res ++ [start_offset])
  end.

Definition thread_batch_write (ns sh : bytes) (messages : list MsgRecord) : M D CommonError (list Z) :=
  unwrap_cf ;;
  let! o := db_read Z (shard_offset_key ns sh) in
  match o with
  | None => fail (CommonError_ (lit "shard " ++ sh ++ lit " under " ++ ns ++ lit " not exists"))
  | Some offset =>
      let! (offset_res, start_offset) := batch_write_loop ns sh messages offset [] in
      db_write (shard_offset_key ns sh) start_offset ;;
      ret offset_res
  end.

Definition create_write_thread (ns sh : bytes) : R unit :=
  fun s => (Ok tt, mkRocks (rk_db s)
                     (<[write_handle_key ns sh := mkThreadWriteHandle true]> (rk_write_handles s))).

Definition get_write_handle (ns sh : bytes) : R ThreadWriteHandle :=
  let handle_key := write_handle_key ns sh in
  let! s := get in
  (if is_none (rk_write_handles s !! handle_key) then create_write_thread ns sh else ret tt) ;;
  let! s := get in
  unwrap (rk_write_handles s !! handle_key).

(** The error of a send to a thread that has ended is that of the channel. *)
Definition handle_write_request (ns sh : bytes) (messages : list MsgRecord) : R (list Z) :=
  let! write_handle := get_write_handle ns sh in
  if th_running write_handle then on_db (thread_batch_write ns sh messages)
  else fail (CommonError_ (lit "Failed to send data to write thread: channel closed")).

(** ** The trait *)

Definition rocks_create_shard (shard : ShardInfo) : R unit :=
  let ns := si_namespace shard in
  let sh := si_shard_name shard in
  on_db
    (unwrap_cf ;;
     let! o := db_read Z (shard_offset_key ns sh) in
     if is_some o then
       fail (CommonError_ (lit "shard " ++ sh ++ lit " under namespace " ++ ns ++ lit " already exists"))
     else
       db_write (shard_offset_key ns sh) (0 : Z) ;;
       match to_vec shard with
       | inr info => db_write (shard_info_key ns sh) info
       | inl e => fail (FromSerdeJsonError e)
       end).

Definition rocks_list_shard (ns sh : bytes) : R (list ShardInfo) := ret [].

Definition rocks_delete_shard (ns sh : bytes) : R unit :=
  on_db
    (unwrap_cf ;;
     let! o := db_read Z (shard_offset_key ns sh) in
     if is_none o then
       fail (CommonError_ (lit "shard " ++ sh ++ lit " under namespace " ++ ns ++ lit " not exists"))
     else engine_delete DB_COLUMN_FAMILY (shard_offset_key ns sh)).

Definition rocks_write (ns sh : bytes) (message : MsgRecord) : R Z :=
  let! offsets := handle_write_request ns sh [message] in
  unwrap (head offsets).

Definition rocks_batch_write (ns sh : bytes) (messages : list MsgRecord) : R (list Z) :=
  handle_write_request ns sh messages.

(** [for i in offset..end], left at the first offset without a record. *)
Fixpoint read_offset_loop (ns sh : bytes) (n : nat) (i : Z) : M D CommonError (list MsgRecord) :=
  match n with
  | O => ret []
  | S n =>
      let! record := db_read MsgRecord (shard_record_key ns sh i) in
      match record with
      | None => ret []
      | Some r => let! records := read_offset_loop ns sh n (i + 1) in ret (r :: records)
      end
  end.

Definition rocks_read_by_offset (ns sh : bytes) (offset : Z) (config : ReadConfig) : R (list MsgRecord) :=
  on_db
    (unwrap_cf ;;
     read_offset_loop ns sh (Z.to_nat (wrap64 (offset + max_record_num config) - offset)) offset).

(** The offsets of the index that are wanted, in the order of the index. *)
Fixpoint tag_offsets_loop (offset limit : Z) (raw_offsets : list (bytes * bytes)) (offsets : list Z)
  : M D CommonError (list Z) :=
  match raw_offsets with
  | [] => ret offsets
  | (_, v) :: raw_offsets =>
      match from_slice v with
      | inl e => fail (FromSerdeJsonError e)
      | inr record_offset =>
          if (offset <=? record_offset) && (blen offsets <? limit)
          then tag_offsets_loop offset limit raw_offsets (offsets ++ [record_offset])
          else tag_offsets_loop offset limit raw_offsets offsets
      end
  end.

(** The record must be there. *)
Definition read_record (ns sh : bytes) (offset : Z) : M D CommonError MsgRecord :=
  let! record := db_read MsgRecord (shard_record_key ns sh offset) in
  ok_or record (CommonError_ (lit "Record not found")).

Fixpoint read_records (ns sh : bytes) (offsets : list Z) : M D CommonError (list MsgRecord) :=
  match offsets with
  | [] => ret []
  | offset :: offsets =>
      let! r := read_record ns sh offset in
      let! rs := read_records ns sh offsets in
      ret (r :: rs)
  end.

Definition rocks_read_by_tag (ns sh : bytes) (offset : Z) (tag : bytes) (config : ReadConfig)
  : R (list MsgRecord) :=
  on_db
    (unwrap_cf ;;
     let! raw_offsets := engine_read_prefix DB_COLUMN_FAMILY (tag_offsets_key_prefix ns sh tag) in
     let! offsets := tag_offsets_loop offset (max_record_num config) raw_offsets [] in
     read_records ns sh offsets).

(** The record at [offset] is read, not the one that the index names. *)
Definition rocks_read_by_key (ns sh : bytes) (offset : Z) (key : bytes) (config : ReadConfig)
  : R (list MsgRecord) :=
  on_db
    (unwrap_cf ;;
     let! o := db_read Z (key_offset_key ns sh key) in
     match o with
     | Some key_offset =>
         if (offset <=? key_offset) && (1 <=? max_record_num config) then
           let! record := read_record ns sh offset in ret [record]
         else ret []
     | None => ret []
     end).

Fixpoint timestamp_loop (timestamp : Z) (raw_res : list (bytes * bytes))
  : M D CommonError (option ShardOffset) :=
  match raw_res with
  | [] => ret None
  | (_, v) :: raw_res =>
      match from_slice v with
      | inl e => fail (FromSerdeJsonError e)
      | inr record =>
          if timestamp <=? r_timestamp record then
            let! offset := ok_or (r_offset record) (CommonError_ (lit "Record offset is None")) in
            ret (Some (default_offset offset))
          else timestamp_loop timestamp raw_res
      end
  end.

Definition rocks_get_offset_by_timestamp (ns sh : bytes) (timestamp : Z) : R (option ShardOffset) :=
  on_db
    (unwrap_cf ;;
     let! raw_res := engine_read_prefix DB_COLUMN_FAMILY (shard_record_key_prefix ns sh) in
     timestamp_loop timestamp raw_res).

Fixpoint group_offsets_loop (raw_offsets : list (bytes * bytes)) : M D CommonError (list ShardOffset) :=
  match raw_offsets with
  | [] => ret []
  | (_, v) :: raw_offsets =>
      match from_slice v with
      | inl e => fail (FromSerdeJsonError e)
      | inr offset => let! offsets := group_offsets_loop raw_offsets in ret (default_offset offset :: offsets)
      end
  end.

Definition rocks_get_offset_by_group (group_name : bytes) : R (list ShardOffset) :=
  on_db
    (unwrap_cf ;;
     let! raw_offsets := engine_read_prefix DB_COLUMN_FAMILY (group_record_offsets_key_prefix group_name) in
     group_offsets_loop raw_offsets).

Definition rocks_commit_offset (group_name ns : bytes) (offsets : gmap bytes Z) : R unit :=
  on_db
    (unwrap_cf ;;
     for_each (map_iter offsets) (fun kv =>
       db_write (group_record_offsets_key group_name ns kv.1) kv.2)).

(** Every thread is told to stop; one that has ended cannot be told. *)
Fixpoint close_loop (handles : list (bytes * ThreadWriteHandle)) : R unit :=
  match handles with
  | [] => ret tt
  | (key, handle) :: handles =>
      if th_running handle then
        (fun s => (Ok tt, mkRocks (rk_db s)
                            (<[key := mkThreadWriteHandle false]> (rk_write_handles s)))) ;;
        close_loop handles
      else fail (TokioBroadcastSendErrorBool (lit "channel closed"))
  end.

Definition rocks_close : R unit :=
  let! s := get in close_loop (map_iter (rk_write_handles s)).

#[export] Instance RocksDBStorage_adapter : StorageAdapter RocksDBStorageAdapter := {|
  create_shard := rocks_create_shard;
  list_shard := rocks_list_shard;
  delete_shard := rocks_delete_shard;
  write := rocks_write;
  batch_write := rocks_batch_write;
  read_by_offset := rocks_read_by_offset;
  read_by_tag := rocks_read_by_tag;
  read_by_key := rocks_read_by_key;
  get_offset_by_timestamp := rocks_get_offset_by_timestamp;
  get_offset_by_group := rocks_get_offset_by_group;
  commit_offset := rocks_commit_offset;
  close := rocks_close
|}.
End adapter.

(** ** Keys do not collide *)

Abbreviation no_slash b := (slash ∉ b).
Definition u64 (n : Z) : Prop := 0 <= n < 2 ^ 64.

(** Keys of different kinds differ in their first octets. *)
Definition kind (k : bytes) : bytes := take 4 k.

Ltac key_ne := let E := fresh in intros E; apply (f_equal kind) in E; discriminate E.

Lemma two_names (p ns ns' x y : bytes) :
  no_slash ns -> no_slash ns' -> p ++ ns ++ lit "/" ++ x = p ++ ns' ++ lit "/" ++ y -> ns = ns' /\ x = y.
Proof. intros H1 H2 E%app_inv_head. by apply sep_inj in E. Qed.

Lemma padded20_inj i j : u64 i -> u64 j -> padded 20 i = padded 20 j -> i = j.
Proof. unfold u64. intros Hi Hj. apply padded_inj; change (Z.of_nat 20) with 20; lia. Qed.

Lemma shard_record_key_inj ns sh i ns' sh' i' :
  no_slash ns -> no_slash ns' -> u64 i -> u64 i' ->
  shard_record_key ns sh i = shard_record_key ns' sh' i' -> (ns, sh) = (ns', sh') /\ i = i'.
Proof.
  intros Hn Hn' Hi Hi' [-> E]%two_names; try done.
  rewrite !(app_assoc sh), !(app_assoc sh') in E. apply app_inj_2 in E as [E Ei]; [|by rewrite !length_padded].
  apply app_inj_2 in E as [-> _]; [|done]. by apply padded20_inj in Ei as ->.
Qed.

Lemma shard_offset_key_inj ns sh ns' sh' :
  no_slash ns -> no_slash ns' -> shard_offset_key ns sh = shard_offset_key ns' sh' -> (ns, sh) = (ns', sh').
Proof. intros Hn Hn' [-> ->]%two_names; done. Qed.

Lemma group_key_inj g ns sh g' ns' sh' :
  no_slash g -> no_slash g' -> no_slash ns -> no_slash ns' ->
  group_record_offsets_key g ns sh = group_record_offsets_key g' ns' sh' -> g = g' /\ (ns, sh) = (ns', sh').
Proof. intros Hg Hg' Hn Hn' [-> E]%two_names; try done. by apply sep_inj in E as [-> ->]. Qed.

Lemma tag_key_inj ns sh t i ns' sh' t' i' :
  no_slash ns -> no_slash ns' -> no_slash sh -> no_slash sh' -> no_slash t -> no_slash t' ->
  u64 i -> u64 i' ->
  tag_offsets_key ns sh t i = tag_offsets_key ns' sh' t' i' -> (ns, sh) = (ns', sh') /\ t = t' /\ i = i'.
Proof.
  intros ? ? ? ? ? ? ? ? [-> E]%two_names; try done. apply sep_inj in E as [-> E]; try done.
  apply sep_inj in E as [-> E]; try done. by apply padded20_inj in E as ->.
Qed.

#[global] Arguments padded : simpl never.
#[global] Arguments lit : simpl never.

(** ** What a batch stores *)

Section refinement.
Context {D : Type} {RD : RocksDB D} {RS : RocksSpec D} {MI : MapIter} {MS : MapIterSpec MI}
        {JZ : Json Z} {JB : Json bytes} {JR : Json MsgRecord} {JI : Json ShardInfo}
        {JZS : JsonSpec Z} {JBS : JsonSpec bytes} {JRS : JsonSpec MsgRecord} {JIS : JsonSpec ShardInfo}.
Implicit Types (s : RocksDBStorageAdapter (D := D)) (d : D) (a : LogSpec) (C : gmap bytes bytes).

(** The database of the adapter. *)
Definition db_contents d : gmap bytes bytes := contents d DB_COLUMN_FAMILY.
Definition db_open d : Prop := db_cf_handle DB_COLUMN_FAMILY d = true.

(** The keys that a batch from [start] on may write before its last write. *)
Definition batch_key (ns sh : bytes) (start : Z) (ms : list MsgRecord) (k : bytes) : Prop :=
  exists j m, ms !! j = Some m /\
    (k = shard_record_key ns sh (start + Z.of_nat j) \/
     k = key_offset_key ns sh (r_key m) \/
     exists tag, tag ∈ r_tags m /\ k = tag_offsets_key ns sh tag (start + Z.of_nat j)).

(** A database that differs at most at the keys that satisfy [P]. *)
Definition only_at (P : bytes -> Prop) d d' : Prop :=
  (db_open d -> db_open d') /\
  (db_open d -> forall k, ~ P k -> db_contents d' !! k = db_contents d !! k).

#[export] Instance only_at_preorder P : PreOrder (only_at P).
Proof.
  split; [by split|]. intros d1 d2 d3 [Ho1 H1] [Ho2 H2]. split; [auto|].
  intros Ho k Hk. rewrite H2, H1; auto.
Qed.

Lemma only_at_mono (P Q : bytes -> Prop) d d' : (forall k, P k -> Q k) -> only_at P d d' -> only_at Q d d'.
Proof. intros HPQ [Ho H]. split; [done|]. intros Hd k Hk. apply H; auto. Qed.

Lemma write_only_at {A} {J : Json A} {JS : JsonSpec A} (P : bytes -> Prop) k (v : A) :
  P k -> preserves (only_at P) (engine_write (D := D) DB_COLUMN_FAMILY k v).
Proof.
  intros Hk d. destruct (db_cf_handle DB_COLUMN_FAMILY d) eqn:Ho.
  - pose proof (engine_write_cases DB_COLUMN_FAMILY k v d Ho) as H.
    destruct (engine_write DB_COLUMN_FAMILY k v d) as [r d']. cbn [snd]. destruct H as [Hh H]. split.
    { intros _. unfold db_open. by rewrite Hh. }
    intros _ k' Hk'. unfold db_contents. destruct H as [(_ & -> & _)|[_ ->]]; [|done].
    apply lookup_insert_ne. by intros ->.
  - split; intros Ho'; unfold db_open in Ho'; congruence.
Qed.

Lemma write_stores {A} {J : Json A} {JS : JsonSpec A} k (v : A) d d' :
  db_open d -> engine_write DB_COLUMN_FAMILY k v d = (Ok tt, d') -> db_contents d' !! k = Some (json v).
Proof.
  intros Ho Hw. pose proof (engine_write_cases DB_COLUMN_FAMILY k v d Ho) as H. rewrite Hw in H.
  destruct H as [_ [(_ & Hc & _)|[[e He] _]]]; [|done]. unfold db_contents. by rewrite Hc, lookup_insert_eq.
Qed.

Lemma batch_key_cons ns sh start m ms k :
  batch_key ns sh (start + 1) ms k -> batch_key ns sh start (m :: ms) k.
Proof.
  intros (j & m' & Hj & Hk). exists (S j), m'. split; [done|].
  by replace (start + Z.of_nat (S j)) with (start + 1 + Z.of_nat j) by lia.
Qed.

Lemma key_index_frame (P : bytes -> Prop) ns sh (m : MsgRecord) (v : Z) :
  P (key_offset_key ns sh (r_key m)) ->
  preserves (only_at P)
    (if negb (bool_decide (r_key m = [])) then
       engine_write (D := D) DB_COLUMN_FAMILY (key_offset_key ns sh (r_key m)) v
     else ret tt).
Proof. intros HP. case_match; [by apply write_only_at|apply preserves_ret, _]. Qed.

Lemma tag_index_frame (P : bytes -> Prop) ns sh (tags : list bytes) (i : Z) :
  (forall tag, tag ∈ tags -> P (tag_offsets_key ns sh tag i)) ->
  preserves (only_at P)
    (for_each tags (fun tag => engine_write (D := D) DB_COLUMN_FAMILY (tag_offsets_key ns sh tag i) i)).
Proof. intros HP. apply preserves_for_each; [apply _|]. intros tag Ht. by apply write_only_at, HP. Qed.

Lemma batch_loop_frame ns sh ms start acc :
  0 <= start -> start + blen ms < 2 ^ 64 ->
  preserves (only_at (batch_key ns sh start ms)) (batch_write_loop (D := D) ns sh ms start acc).
Proof.
  revert start acc. induction ms as [|m ms IH]; intros start acc H0 H1; cbn [batch_write_loop].
  { apply preserves_ret, _. }
  rewrite blen_cons in H1. pose proof (blen_nonneg ms).
  assert (forall k, (k = shard_record_key ns sh start \/ k = key_offset_key ns sh (r_key m) \/
     exists tag, tag ∈ r_tags m /\ k = tag_offsets_key ns sh tag start) -> batch_key ns sh start (m :: ms) k) as Hhd.
  { intros k Hk. exists O, m. split; [done|]. by rewrite Z.add_0_r. }
  apply preserves_bind; [apply _|apply write_only_at; auto|]. intros _.
  apply preserves_bind; [apply _|apply key_index_frame; auto|intros _].
  apply preserves_bind; [apply _|apply tag_index_frame; intros tag Ht; apply Hhd; right; right; by exists tag|intros _].
  rewrite wrap64_small by lia. intros d. eapply only_at_mono; [apply batch_key_cons|]. apply IH; lia.
Qed.

(** When the loop ends well, the records and the tag index are there, also on
    a disk that can fail. *)
Lemma batch_loop_stores ns sh ms start acc d offs next d' :
  no_slash ns -> db_open d -> 0 <= start -> start + blen ms < 2 ^ 64 ->
  batch_write_loop ns sh ms start acc d = (Ok (offs, next), d') ->
  offs = acc ++ seqZ start (blen ms) /\ next = start + blen ms /\
  forall j m, ms !! j = Some m ->
    db_contents d' !! shard_record_key ns sh (start + Z.of_nat j)
    = Some (json (set_offset (start + Z.of_nat j) m)).
Proof.
  intros Hns. revert start acc d. induction ms as [|m ms IH]; intros start acc d Ho H0 H1; cbn [batch_write_loop].
  { intros [= <- <- <-]. rewrite blen_nil, Z.add_0_r, app_nil_r. by split_and!. }
  rewrite blen_cons in *. pose proof (blen_nonneg ms). rewrite wrap64_small by lia.
  intros ([] & d1 & Hd1 & ([] & d2 & Hd2 & ([] & d3 & Hd3 & Hl)%bind_inv)%bind_inv)%bind_inv.
  pose proof (write_only_at (fun _ => True) (shard_record_key ns sh start) (set_offset start m) I d) as [Ho1 _].
  rewrite Hd1 in Ho1. specialize (Ho1 Ho). apply write_stores in Hd1; [|done].
  pose proof (key_index_frame (fun k => kind k = lit "/key") ns sh (set_offset start m) start eq_refl d1) as [Ho2 H2].
  rewrite Hd2 in Ho2, H2. specialize (Ho2 Ho1).
  pose proof (tag_index_frame (fun k => kind k = lit "/tag") ns sh (r_tags m) start (fun _ _ => eq_refl) d2) as [Ho3 H3].
  cbn [r_tags set_offset] in Hd3. rewrite Hd3 in Ho3, H3. specialize (Ho3 Ho2).
  pose proof (batch_loop_frame ns sh ms (start + 1) (acc ++ [start])) as H4.
  specialize (H4 ltac:(lia) ltac:(lia) d3). rewrite Hl in H4. destruct H4 as [_ H4].
  destruct (IH (start + 1) _ _ Ho3 ltac:(lia) ltac:(lia) Hl) as (-> & -> & Hr). split_and!.
  - rewrite (seqZ_cons start) by lia. rewrite <- app_assoc. cbn. do 3 f_equal; lia.
  - lia.
  - intros [|j] m' Hj.
    + injection Hj as <-. rewrite Z.add_0_r. cbn [snd] in *. rewrite H4, H3, H2; try done.
      intros (j & m' & Hj & [E|[E|(tag & _ & E)]]); [|by revert E; key_ne..].
      apply lookup_lt_Some in Hj. unfold blen in *.
      apply shard_record_key_inj in E as [_ E]; try done; unfold u64; lia.
    + replace (start + Z.of_nat (S j)) with (start + 1 + Z.of_nat j) by lia. by apply Hr.
Qed.

Lemma wp_write {A} {J : Json A} {JS : JsonSpec A} k (v : A) d :
  db_open d -> wp (engine_write DB_COLUMN_FAMILY k v) (fun _ d' => db_open d') d.
Proof.
  intros Ho. pose proof (engine_write_cases DB_COLUMN_FAMILY k v d Ho) as H. unfold wp.
  destruct (engine_write DB_COLUMN_FAMILY k v d) as [r d']. destruct H as [Hh [(-> & _)|[[e ->] _]]]; [|done].
  unfold db_open. by rewrite Hh.
Qed.

Lemma tags_stored ns sh i tags tag d d' :
  db_open d -> tag ∈ tags ->
  for_each tags (fun tag => engine_write DB_COLUMN_FAMILY (tag_offsets_key ns sh tag i) i) d = (Ok tt, d') ->
  db_contents d' !! tag_offsets_key ns sh tag i = Some (json i).
Proof.
  revert d. induction tags as [|t tags IH]; intros d Ho; [by intros ?%elem_of_nil|].
  rewrite for_each_cons. intros Ht ([] & d1 & H1 & H2)%bind_inv.
  pose proof (wp_write (tag_offsets_key ns sh t i) i d Ho) as Ho1. unfold wp in Ho1. rewrite H1 in Ho1.
  apply elem_of_cons in Ht as [->|Ht]; [|by eapply IH]. apply write_stores in H1; [|done].
  set (Q d := db_open d /\ db_contents d !! tag_offsets_key ns sh t i = Some (json i)).
  assert (wp (for_each tags (fun tag => engine_write DB_COLUMN_FAMILY (tag_offsets_key ns sh tag i) i))
            (fun _ => Q) d1) as HQ; [|unfold wp in HQ; rewrite H2 in HQ; apply HQ].
  apply wp_for_each; [|by split]. intros t' d2 _ [Ho2 Hd2].
  pose proof (engine_write_cases DB_COLUMN_FAMILY (tag_offsets_key ns sh t' i) i d2 Ho2) as Hw. unfold wp.
  destruct (engine_write _ _ i d2) as [r d3]. destruct Hw as [Hh [(-> & Hc & _)|[[e ->] _]]]; [|done].
  split; [unfold db_open; by rewrite Hh|]. unfold db_contents. rewrite Hc.
  destruct (decide (tag_offsets_key ns sh t' i = tag_offsets_key ns sh t i)) as [->|Hn];
    [by rewrite lookup_insert_eq|by rewrite lookup_insert_ne].
Qed.

Lemma tag_key_offset ns sh t i ns' sh' t' i' :
  u64 i -> u64 i' -> tag_offsets_key ns sh t i = tag_offsets_key ns' sh' t' i' -> i = i'.
Proof.
  intros Hi Hi' E. unfold tag_offsets_key in E. rewrite !app_assoc in E.
  apply app_inj_2 in E as [_ E]; [|by rewrite !length_padded]. by apply padded20_inj in E.
Qed.

Lemma batch_loop_tags ns sh ms start acc d offs next d' :
  db_open d -> 0 <= start -> start + blen ms < 2 ^ 64 ->
  batch_write_loop ns sh ms start acc d = (Ok (offs, next), d') ->
  forall j m tag, ms !! j = Some m -> tag ∈ r_tags m ->
    db_contents d' !! tag_offsets_key ns sh tag (start + Z.of_nat j) = Some (json (start + Z.of_nat j)).
Proof.
  revert start acc d. induction ms as [|m ms IH]; intros start acc d Ho H0 H1; cbn [batch_write_loop]; [done|].
  rewrite blen_cons in *. pose proof (blen_nonneg ms). rewrite wrap64_small by lia.
  intros ([] & d1 & Hd1 & ([] & d2 & Hd2 & ([] & d3 & Hd3 & Hl)%bind_inv)%bind_inv)%bind_inv.
  pose proof (write_only_at (fun _ => True) (shard_record_key ns sh start) (set_offset start m) I d) as [Ho1 _].
  rewrite Hd1 in Ho1. specialize (Ho1 Ho).
  pose proof (key_index_frame (fun _ => True) ns sh (set_offset start m) start I d1) as [Ho2 _].
  rewrite Hd2 in Ho2. specialize (Ho2 Ho1).
  pose proof (tag_index_frame (fun _ => True) ns sh (r_tags m) start (fun _ _ => I) d2) as [Ho3 _].
  cbn [r_tags set_offset] in Hd3. rewrite Hd3 in Ho3. specialize (Ho3 Ho2).
  pose proof (batch_loop_frame ns sh ms (start + 1) (acc ++ [start])) as H4.
  specialize (H4 ltac:(lia) ltac:(lia) d3). rewrite Hl in H4. destruct H4 as [_ H4].
  intros [|j] m' tag Hj Ht.
  - injection Hj as <-. rewrite Z.add_0_r. cbn [snd] in *. rewrite H4; [apply (tags_stored ns sh start (r_tags m) tag d2 d3 Ho2 Ht Hd3)|done|].
    intros (j & m' & Hj & [E|[E|(tag' & _ & E)]]); [by revert E; key_ne..|].
    apply lookup_lt_Some in Hj. unfold blen in *. apply tag_key_offset in E; unfold u64; lia.
  - replace (start + Z.of_nat (S j)) with (start + 1 + Z.of_nat j) by lia.
    eapply (IH (start + 1)); try done; lia.
Qed.

(** ** Acknowledged records

    [acked d a]: the records of the logs of [a] are in the database, at their
    offsets, and the next offset of a shard is the length of its log.  It says
    nothing of what lies behind the end of a log: a batch that failed may have
    left something there. *)

Definition log_of a (ns sh : bytes) : list MsgRecord := default [] (logs a !! (ns, sh)).

Definition acked d a : Prop :=
  db_open d /\
  forall ns sh, no_slash ns ->
    db_contents d !! shard_offset_key ns sh = (fun l => json (blen l)) <$> logs a !! (ns, sh) /\
    blen (log_of a ns sh) < 2 ^ 64 /\
    forall i r, log_of a ns sh !! i = Some r ->
      db_contents d !! shard_record_key ns sh (Z.of_nat i) = Some (json r).

Lemma wp_batch_loop ns sh ms start acc d :
  db_open d -> wp (batch_write_loop ns sh ms start acc) (fun _ d' => db_open d') d.
Proof.
  revert start acc d. induction ms as [|m ms IH]; intros start acc d Ho; cbn [batch_write_loop]; [done|].
  apply wp_bind. eapply wp_mono; [by apply wp_write|]. cbn beta. intros _ d1 H1. apply wp_bind.
  eapply wp_mono with (Q := fun _ => db_open); [case_match; [by apply wp_write|done]|]. intros _ d2 H2. apply wp_bind.
  eapply wp_mono with (Q := fun _ => db_open); [|by intros _ d3 H3; apply IH].
  apply wp_for_each; [|done]. intros tag d3 _ H3. by apply wp_write.
Qed.

(** The index and the records of a shard do not touch those of another. *)
Lemma batch_key_record ns sh start ms ns' sh' i :
  no_slash ns -> no_slash ns' -> 0 <= start -> start + blen ms < 2 ^ 64 -> u64 i ->
  batch_key ns sh start ms (shard_record_key ns' sh' i) ->
  (ns', sh') = (ns, sh) /\ start <= i < start + blen ms.
Proof.
  intros Hn Hn' H0 H1 Hi (j & m & Hj & [E|[E|(tag & _ & E)]]); [|by revert E; key_ne..].
  apply lookup_lt_Some in Hj. unfold blen, u64 in *.
  apply shard_record_key_inj in E as [-> ->]; try done; [split; [done|]|..]; unfold u64; lia.
Qed.

Lemma batch_key_kind ns sh start ms k :
  batch_key ns sh start ms k -> kind k = lit "/rec" \/ kind k = lit "/key" \/ kind k = lit "/tag".
Proof. intros (j & m & _ & [->|[->|(tag & _ & ->)]]); auto. Qed.

Lemma logs_append a ns sh ms ns' sh' l :
  logs a !! (ns, sh) = Some l ->
  logs (spec_append (ns, sh) ms a) !! (ns', sh')
  = if decide ((ns', sh') = (ns, sh)) then Some (l ++ stamp (blen l) ms) else logs a !! (ns', sh').
Proof.
  intros Hl. cbn. rewrite Hl. cbn [default]. case_decide as E; [by rewrite E, lookup_insert_eq|].
  by rewrite lookup_insert_ne.
Qed.

Lemma log_u64 a ns sh i r : blen (log_of a ns sh) < 2 ^ 64 -> log_of a ns sh !! i = Some r -> u64 (Z.of_nat i).
Proof. intros Hb Hi%lookup_lt_Some. unfold u64, blen in *. lia. Qed.

(** What a batch does to the rest of the database, finished or not. *)
Lemma acked_frame d d' a ns sh l ms :
  no_slash ns -> logs a !! (ns, sh) = Some l -> blen l + blen ms < 2 ^ 64 ->
  acked d a -> only_at (batch_key ns sh (blen l) ms) d d' -> acked d' a.
Proof.
  intros Hns Hl Hb [Ho Ha] [Ho' Hf]. split; [auto|]. intros ns' sh' Hns'.
  destruct (Ha ns' sh' Hns') as (H1 & H2 & H3). split_and!; [|done|].
  - rewrite Hf; [done|done|]. intros [E|[E|E]]%batch_key_kind; discriminate E.
  - intros i r Hi. rewrite Hf; [by apply H3|done|].
    intros [[= -> ->] Hge]%batch_key_record; auto using blen_nonneg.
    + unfold log_of in Hi. rewrite Hl in Hi. apply lookup_lt_Some in Hi. unfold blen in Hge. cbn in *. lia.
    + by eapply log_u64.
Qed.

Lemma acked_append d d' d2 a ns sh l ms :
  no_slash ns -> logs a !! (ns, sh) = Some l -> blen l + blen ms < 2 ^ 64 ->
  acked d a -> only_at (batch_key ns sh (blen l) ms) d d' ->
  (forall j m, ms !! j = Some m ->
     db_contents d' !! shard_record_key ns sh (blen l + Z.of_nat j)
     = Some (json (set_offset (blen l + Z.of_nat j) m))) ->
  db_open d2 -> db_contents d2 = <[shard_offset_key ns sh := json (blen l + blen ms)]> (db_contents d') ->
  acked d2 (spec_append (ns, sh) ms a).
Proof.
  intros Hns Hl Hb Ha Hf Hms Ho2 Hd2.
  destruct (acked_frame _ _ _ _ _ _ _ Hns Hl Hb Ha Hf) as [Ho' Ha']. split; [done|].
  intros ns' sh' Hns'. destruct (Ha' ns' sh' Hns') as (H1 & H2 & H3).
  unfold log_of. rewrite (logs_append a ns sh ms ns' sh' l Hl), Hd2. unfold log_of in *.
  case_decide as E.
  - injection E as -> ->. rewrite Hl in *. cbn [default fmap option_fmap option_map id] in *.
    rewrite lookup_insert_eq, blen_app, blen_stamp. split_and!; [done|done|].
    intros i r Hi. rewrite lookup_insert_ne by key_ne.
    apply lookup_app_Some in Hi as [Hi|[Hge Hi]]; [by apply H3|].
    rewrite stamp_lookup in Hi. apply fmap_Some in Hi as (m & Hm & ->).
    replace (Z.of_nat i) with (blen l + Z.of_nat (i - length l)) by (unfold blen; lia). by apply Hms.
  - rewrite lookup_insert_ne by (by intros Eq%shard_offset_key_inj; [apply E|..]). split_and!; [done|done|].
    intros i r Hi. rewrite lookup_insert_ne by key_ne. by apply H3.
Qed.

Lemma read_next_offset d a ns sh :
  acked d a -> no_slash ns ->
  engine_read DB_COLUMN_FAMILY (shard_offset_key ns sh) d = (Ok (blen <$> logs a !! (ns, sh)), d) \/
  exists e, engine_read (A := Z) DB_COLUMN_FAMILY (shard_offset_key ns sh) d = (Err e, d).
Proof.
  intros [_ Ha] Hns. apply engine_read_cases. destruct (Ha ns sh Hns) as [H _]. unfold db_contents in H. rewrite H.
  by destruct (logs a !! (ns, sh)).
Qed.

(** A batch is stored as a whole and acknowledged, or nothing is. *)
Definition write_key a (ns sh : bytes) (ms : list MsgRecord) (k : bytes) : Prop :=
  batch_key ns sh (blen (log_of a ns sh)) ms k \/ k = shard_offset_key ns sh.

Lemma thread_write_acked ns sh ms d a :
  no_slash ns -> acked d a -> blen (log_of a ns sh) + blen ms < 2 ^ 64 ->
  let (r, d') := thread_batch_write ns sh ms d in
  only_at (write_key a ns sh ms) d d' /\
  ((exists l, logs a !! (ns, sh) = Some l /\ r = Ok (seqZ (blen l) (blen ms)) /\
              acked d' (spec_append (ns, sh) ms a)) \/
   (exists e, r = Err e) /\ acked d' a).
Proof.
  intros Hns Ha Hb. unfold thread_batch_write, unwrap_cf.
  pose proof (proj1 Ha : db_cf_handle _ _ = true) as Ho. unfold bind at 1. rewrite Ho. unfold bind at 1.
  destruct (read_next_offset d a ns sh Ha Hns) as [->|[e ->]]; [|by split; [|right; split; [eexists|]]].
  unfold write_key, log_of in *. destruct (logs a !! (ns, sh)) as [l|] eqn:Hl; [|by split; [|right; split; [eexists|]]].
  cbn [fmap option_fmap option_map default id] in *. pose proof (blen_nonneg l) as H0.
  pose proof (batch_loop_frame ns sh ms (blen l) [] H0 Hb d) as Hf.
  pose proof (wp_returns _ _ _ (wp_batch_loop ns sh ms (blen l) [] d Ho)) as Hret. unfold bind at 1.
  destruct (batch_write_loop ns sh ms (blen l) [] d) as [[[offs next]|e| |] d'] eqn:Eloop; cbn in Hret, Hf; try done.
  - apply batch_loop_stores in Eloop as (-> & -> & Hms); try done.
    pose proof (acked_frame d d' a ns sh l ms Hns Hl Hb Ha Hf) as Ha'.
    pose proof (engine_write_cases DB_COLUMN_FAMILY (shard_offset_key ns sh) (blen l + blen ms) d' (proj1 Ha')) as Hw.
    pose proof (write_only_at (fun k => batch_key ns sh (blen l) ms k \/ k = shard_offset_key ns sh)
                  (shard_offset_key ns sh) (blen l + blen ms) (or_intror eq_refl) d') as Hf2.
    unfold bind. destruct (engine_write _ _ _ d') as [r d2]. cbn [snd] in Hf2.
    assert (only_at (fun k => batch_key ns sh (blen l) ms k \/ k = shard_offset_key ns sh) d d2) as Hf3.
    { etrans; [|exact Hf2]. by eapply only_at_mono; [|exact Hf]; auto. }
    destruct Hw as [Hh [(-> & Hc & _)|[[e ->] Hc]]]; (split; [exact Hf3|]).
    + left. exists l. split_and!; [done|done|]. eapply acked_append; try done.
      unfold db_open. rewrite Hh. apply Ha'.
    + right. split; [eauto|]. split; [unfold db_open; rewrite Hh; apply Ha'|]. unfold db_contents. rewrite Hc.
      apply Ha'.
  - split; [by eapply only_at_mono; [|exact Hf]; auto|]. right. split; [eauto|]. by eapply acked_frame.
Qed.

(** ** The adapter on a disk that can fail *)

Definition live s : Prop := forall k h, rk_write_handles s !! k = Some h -> th_running h = true.

Lemma handle_write_eval ns sh ms s :
  live s ->
  exists handles, (forall d, live (mkRocks d handles)) /\
    handle_write_request ns sh ms s
    = ((thread_batch_write ns sh ms (rk_db s)).1, mkRocks (thread_batch_write ns sh ms (rk_db s)).2 handles).
Proof.
  intros Hs. unfold handle_write_request, get_write_handle, bind, get.
  destruct (rk_write_handles s !! write_handle_key ns sh) as [h|] eqn:E; cbn [is_none is_some negb].
  - exists (rk_write_handles s). split; [done|]. cbn [ret]. unfold ret. rewrite E. cbn [unwrap ret]. unfold ret.
    rewrite (Hs _ _ E). unfold on_db. by destruct (thread_batch_write ns sh ms (rk_db s)).
  - eexists (<[write_handle_key ns sh := mkThreadWriteHandle true]> (rk_write_handles s)). split.
    + intros d k h. cbn. intros [[_ <-]|[_ Hk]]%lookup_insert_Some; [done|by eapply Hs].
    + unfold create_write_thread. cbn [rk_write_handles]. rewrite lookup_insert_eq. cbn [unwrap]. unfold ret.
      cbn [th_running]. unfold on_db. cbn [rk_db]. by destruct (thread_batch_write ns sh ms (rk_db s)).
Qed.

Lemma batch_write_acked ns sh ms s a :
  no_slash ns -> live s -> acked (rk_db s) a -> blen (log_of a ns sh) + blen ms < 2 ^ 64 ->
  let (r, s') := rocks_batch_write ns sh ms s in
  live s' /\ only_at (write_key a ns sh ms) (rk_db s) (rk_db s') /\
  ((exists l, logs a !! (ns, sh) = Some l /\ r = Ok (seqZ (blen l) (blen ms)) /\
              acked (rk_db s') (spec_append (ns, sh) ms a)) \/
   (exists e, r = Err e) /\ acked (rk_db s') a).
Proof.
  intros Hns Hs Ha Hb. destruct (handle_write_eval ns sh ms s Hs) as (handles & Hl & E).
  unfold rocks_batch_write. rewrite E. pose proof (thread_write_acked ns sh ms (rk_db s) a Hns Ha Hb) as H.
  destruct (thread_batch_write ns sh ms (rk_db s)) as [r d']. cbn [fst snd rk_db] in *. auto.
Qed.

Definition create_key (ns sh : bytes) (k : bytes) : Prop :=
  k = shard_offset_key ns sh \/ k = shard_info_key ns sh.

Lemma acked_create d d' a ns sh :
  no_slash ns -> logs a !! (ns, sh) = None -> acked d a -> only_at (create_key ns sh) d d' ->
  db_contents d' !! shard_offset_key ns sh = Some (json 0) -> acked d' (spec_create (ns, sh) a).
Proof.
  intros Hns Hl [Ho Ha] [Ho' Hf] H0. split; [auto|]. intros ns' sh' Hns'.
  destruct (Ha ns' sh' Hns') as (H1 & H2 & H3). unfold log_of in *. cbn [logs spec_create].
  destruct (decide ((ns', sh') = (ns, sh))) as [[= -> ->]|Hne].
  - rewrite lookup_insert_eq. by split_and!.
  - rewrite lookup_insert_ne by done. split_and!; [|done|].
    + rewrite Hf; [done|done|]. intros [E|E]; [|by revert E; key_ne].
      by apply shard_offset_key_inj in E.
    + intros i r Hi. rewrite Hf; [by apply H3|done|]. by intros [E|E]; revert E; key_ne.
Qed.

(** A shard that is created may be there although the answer is an error: the
    description of the shard is written last. *)
Lemma create_acked info s a :
  let ns := si_namespace info in let sh := si_shard_name info in
  no_slash ns -> acked (rk_db s) a ->
  let (r, s') := rocks_create_shard info s in
  rk_write_handles s' = rk_write_handles s /\ only_at (create_key ns sh) (rk_db s) (rk_db s') /\
  ((r = Ok tt /\ logs a !! (ns, sh) = None /\ acked (rk_db s') (spec_create (ns, sh) a)) \/
   (exists e, r = Err e) /\
   (acked (rk_db s') a \/ logs a !! (ns, sh) = None /\ acked (rk_db s') (spec_create (ns, sh) a))).
Proof.
  intros ns sh Hns Ha. unfold rocks_create_shard, on_db, unwrap_cf. fold ns sh.
  pose proof (proj1 Ha : db_cf_handle _ _ = true) as Ho. unfold bind at 1. rewrite Ho. unfold bind at 1.
  destruct (read_next_offset (rk_db s) a ns sh Ha Hns) as [->|[e ->]]; cbn [rk_write_handles rk_db];
    [|by split_and!; [..|right; split; [eexists|left]]].
  destruct (logs a !! (ns, sh)) as [l|] eqn:Hl; cbn [fmap option_fmap option_map is_some fail];
    [by split_and!; [..|right; split; [eexists|left]]|].
  pose proof (engine_write_cases DB_COLUMN_FAMILY (shard_offset_key ns sh) 0 (rk_db s) Ho) as H1.
  pose proof (write_only_at (create_key ns sh) (shard_offset_key ns sh) 0 (or_introl eq_refl) (rk_db s)) as F1.
  unfold bind. destruct (engine_write _ _ 0 (rk_db s)) as [r1 d1]. cbn [snd] in F1.
  destruct H1 as [Hh1 [(-> & Hc1 & _)|[[e ->] Hc1]]].
  2:{ cbn [rk_write_handles rk_db]. split_and!; [done|done|]. right. split; [eauto|]. left.
      split; [unfold db_open; rewrite Hh1; apply Ha|]. unfold db_contents. rewrite Hc1. apply Ha. }
  destruct (json_ok info) as (-> & _ & _).
  assert (db_open d1) as Ho1 by (unfold db_open; by rewrite Hh1).
  pose proof (engine_write_cases DB_COLUMN_FAMILY (shard_info_key ns sh) (json info) d1 Ho1) as H2.
  pose proof (write_only_at (create_key ns sh) (shard_info_key ns sh) (json info) (or_intror eq_refl) d1) as F2.
  pose proof (write_only_at (fun k => k = shard_info_key ns sh) (shard_info_key ns sh) (json info) eq_refl d1) as F3.
  destruct (engine_write _ _ (json info) d1) as [r2 d2]. cbn [snd rk_write_handles rk_db] in *.
  assert (acked d2 (spec_create (ns, sh) a)) as Ha2.
  { apply (acked_create (rk_db s)); [done|done|done|by etrans|]. destruct F3 as [_ F3].
    rewrite F3; [|done|key_ne]. unfold db_contents. by rewrite Hc1, lookup_insert_eq. }
  split_and!; [done|by etrans|]. destruct H2 as [_ [(-> & _)|[[e ->] _]]]; [by left|right]. eauto.
Qed.

Definition commit_key (g ns : bytes) (k : bytes) : Prop := exists sh, k = group_record_offsets_key g ns sh.

Lemma acked_kind d d' a (P : bytes -> Prop) :
  (forall k, P k -> kind k <> lit "/rec" /\ kind k <> lit "/off") ->
  acked d a -> only_at P d d' -> acked d' a.
Proof.
  intros HP [Ho Ha] [Ho' Hf]. split; [auto|]. intros ns sh Hns.
  destruct (Ha ns sh Hns) as (H1 & H2 & H3). split_and!; [|done|].
  - rewrite Hf; [done|done|]. by intros [_ []]%HP.
  - intros i r Hi. rewrite Hf; [by apply H3|done|]. by intros [[] _]%HP.
Qed.

Lemma commit_acked g ns offs s a :
  acked (rk_db s) a ->
  let (r, s') := rocks_commit_offset g ns offs s in
  rk_write_handles s' = rk_write_handles s /\ only_at (commit_key g ns) (rk_db s) (rk_db s') /\
  returns r /\ acked (rk_db s') a.
Proof.
  intros Ha. unfold rocks_commit_offset, on_db, unwrap_cf.
  pose proof (proj1 Ha : db_cf_handle _ _ = true) as Ho. unfold bind. rewrite Ho.
  set (body := fun kv : bytes * Z => engine_write (D := D) DB_COLUMN_FAMILY (group_record_offsets_key g ns kv.1) kv.2).
  assert (preserves (only_at (commit_key g ns)) (for_each (map_iter offs) body)) as Hf.
  { apply preserves_for_each; [apply _|]. intros kv _. apply write_only_at. by eexists. }
  specialize (Hf (rk_db s)).
  assert (returns (for_each (map_iter offs) body (rk_db s)).1) as Hr.
  { apply (wp_returns _ (fun _ => db_open)), wp_for_each; [|done]. intros kv d _ Hd. by apply wp_write. }
  destruct (for_each (map_iter offs) body (rk_db s)) as [r d']. cbn in *. split_and!; try done.
  eapply acked_kind; [|done|done]. by intros k [sh ->].
Qed.

(** Reading what was acknowledged. *)
Lemma read_offset_loop_acked ns sh d a n i rs d' :
  acked d a -> no_slash ns ->
  read_offset_loop ns sh n (Z.of_nat i) d = (Ok rs, d') -> take n (drop i (log_of a ns sh)) `prefix_of` rs.
Proof.
  intros [Ho Ha] Hns. destruct (Ha ns sh Hns) as (_ & _ & Hr). revert i rs.
  induction n as [|n IH]; intros i rs; cbn [read_offset_loop]; [intros _; apply prefix_nil|].
  intros (o & d1 & Hd1 & Hrest)%bind_inv.
  destruct (log_of a ns sh !! i) as [r|] eqn:Hi.
  - rewrite (drop_S _ r) by done. cbn [take firstn].
    destruct (engine_read_cases DB_COLUMN_FAMILY (shard_record_key ns sh (Z.of_nat i)) (Some r) d) as [E|[e E]];
      [by apply Hr| |congruence]. rewrite E in Hd1. injection Hd1 as <- <-.
    apply bind_inv in Hrest as (rs' & d2 & Hrs' & [= <- <-]). apply prefix_cons.
    apply IH. by replace (Z.of_nat (S i)) with (Z.of_nat i + 1) by lia.
  - rewrite drop_ge by by apply lookup_ge_None. rewrite take_nil. apply prefix_nil.
Qed.

(** ** Runs on a disk that can fail *)

Definition op_supported (o : store_op) : Prop :=
  no_slash (op_namespace o) /\ match o with OpDelete _ _ => False | _ => True end.

(** What an operation with answer [r] adds to a shard. *)
Definition op_added (ns sh : bytes) (o : store_op) (r : outcome CommonError (list Z)) : list MsgRecord :=
  match r with Ok _ => op_messages ns sh o | _ => [] end.

Definition extends (a a' : LogSpec) (o : store_op) (r : outcome CommonError (list Z)) : Prop :=
  forall ns sh, log_of a' ns sh = log_of a ns sh ++ stamp (blen (log_of a ns sh)) (op_added ns sh o r) /\
    (op_messages ns sh o <> [] -> forall os, r = Ok os ->
       os = seqZ (blen (log_of a ns sh)) (blen (op_messages ns sh o))).

Lemma log_of_append a ns sh ms l ns' sh' :
  logs a !! (ns, sh) = Some l ->
  log_of (spec_append (ns, sh) ms a) ns' sh'
  = log_of a ns' sh' ++ stamp (blen (log_of a ns' sh')) (if decide ((ns, sh) = (ns', sh')) then ms else []).
Proof.
  intros Hl. unfold log_of. rewrite (logs_append a ns sh ms ns' sh' l Hl).
  destruct (decide ((ns', sh') = (ns, sh))) as [[= -> ->]|Hne].
  - by rewrite Hl, decide_True.
  - rewrite decide_False by congruence. cbn. by rewrite app_nil_r.
Qed.

Lemma extends_append a o ns sh ms l :
  (forall ns' sh', op_messages ns' sh' o = if decide ((ns, sh) = (ns', sh')) then ms else []) ->
  logs a !! (ns, sh) = Some l ->
  extends a (spec_append (ns, sh) ms a) o (Ok (seqZ (blen l) (blen ms))).
Proof.
  intros Ho Hl ns' sh'. unfold op_added. rewrite !Ho, (log_of_append a ns sh ms l) by done. split; [done|].
  case_decide as E; [|done]. injection E as <- <-. intros _ os [= <-]. unfold log_of. by rewrite Hl.
Qed.

Lemma extends_same a a' o r :
  (forall ns sh, log_of a' ns sh = log_of a ns sh) -> (forall ns sh, op_added ns sh o r = []) ->
  (forall os, r = Ok os -> forall ns sh, op_messages ns sh o = []) -> extends a a' o r.
Proof.
  intros Ha Ho Hr ns sh. rewrite Ha, Ho. cbn. rewrite app_nil_r. split; [done|]. intros Hne os ->.
  by rewrite (Hr os eq_refl) in Hne.
Qed.

Lemma log_of_create a ns sh ns' sh' :
  logs a !! (ns, sh) = None -> log_of (spec_create (ns, sh) a) ns' sh' = log_of a ns' sh'.
Proof.
  intros Hl. unfold log_of. cbn. destruct (decide ((ns, sh) = (ns', sh'))) as [<-|Hne].
  - by rewrite lookup_insert_eq, Hl.
  - by rewrite lookup_insert_ne.
Qed.

Lemma write_eval ns sh m s :
  rocks_write ns sh m s
  = match rocks_batch_write ns sh [m] s with
    | (Ok offs, s') => unwrap (head offs) s'
    | (Err e, s') => (Err e, s')
    | (Panic, s') => (Panic, s')
    | (OutOfFuel, s') => (OutOfFuel, s')
    end.
Proof. done. Qed.

Lemma step_acked o s a :
  op_supported o -> live s -> acked (rk_db s) a ->
  (forall ns sh, blen (log_of a ns sh) + blen (op_messages ns sh o) < 2 ^ 64) ->
  let (r, s') := op_offsets o s in
  live s' /\ exists a', acked (rk_db s') a' /\ extends a a' o r.
Proof.
  intros [Hns Hd] Hs Ha Hb. destruct o as [info|ns sh|ns sh m|ns sh ms|g ns offs]; [|done|..]; cbn in Hns.
  - pose proof (create_acked info s a Hns Ha) as H. cbn. unfold bind.
    destruct (rocks_create_shard info s) as [r s']. destruct H as (Hh & _ & H).
    assert (live s') as Hs' by (intros k h; rewrite Hh; apply Hs).
    destruct H as [(-> & Hl & Ha')|[[e ->] [Ha'|[Hl Ha']]]]; split; try done; eexists; (split; [exact Ha'|]);
      apply extends_same; try done; intros; by apply log_of_create.
  - pose proof (batch_write_acked ns sh [m] s a Hns Hs Ha) as H. specialize (Hb ns sh). cbn in Hb.
    rewrite decide_True in Hb by done. specialize (H Hb). cbn. unfold bind. rewrite write_eval.
    destruct (rocks_batch_write ns sh [m] s) as [r s'].
    destruct H as (Hl & _ & [(l & Hk & -> & Ha')|[[e ->] Ha']]).
    + split; [done|]. exists (spec_append (ns, sh) [m] a). split; [done|]. by apply (extends_append a _ ns sh [m] l).
    + split; [done|]. exists a. split; [done|]. by apply extends_same.
  - pose proof (batch_write_acked ns sh ms s a Hns Hs Ha) as H. specialize (Hb ns sh). cbn in Hb.
    rewrite decide_True in Hb by done. specialize (H Hb). cbn [op_offsets batch_write RocksDBStorage_adapter].
    destruct (rocks_batch_write ns sh ms s) as [r s'].
    destruct H as (Hl & _ & [(l & Hk & -> & Ha')|[[e ->] Ha']]).
    + split; [done|]. exists (spec_append (ns, sh) ms a). split; [done|]. by apply (extends_append a _ ns sh ms l).
    + split; [done|]. exists a. split; [done|]. by apply extends_same.
  - pose proof (commit_acked g ns offs s a Ha) as H. cbn. unfold bind.
    destruct (rocks_commit_offset g ns offs s) as [r s']. destruct H as (Hh & _ & Hr & Ha').
    assert (live s') as Hs' by (intros k h; rewrite Hh; apply Hs). destruct r; try done; (split; [done|]; exists a; split; [done|by apply extends_same]).
Qed.

Definition stored (om : Z * MsgRecord) : MsgRecord := set_offset om.1 om.2.

Lemma acks_cons ns sh o r trace :
  acks ns sh ((o, r) :: trace)
  = match r with Ok os => zip os (op_messages ns sh o) | _ => [] end ++ acks ns sh trace.
Proof. done. Qed.

Lemma extends_acks a a' o r ns sh :
  extends a a' o r ->
  let new := match r with Ok os => zip os (op_messages ns sh o) | _ => [] end in
  log_of a' ns sh = log_of a ns sh ++ map stored new /\
  new.*1 = seqZ (blen (log_of a ns sh)) (blen new) /\ blen new <= blen (op_messages ns sh o).
Proof.
  intros He new. destruct (He ns sh) as [-> Hos]. unfold op_added, new. destruct r as [os|e| |];
    [|by cbn [stamp map]; split_and!; [..|apply blen_nonneg]..].
  destruct (decide (op_messages ns sh o = [])) as [->|Hne].
  { rewrite zip_with_nil_r. by split_and!. }
  rewrite (Hos Hne os eq_refl). set (start := blen (log_of a ns sh)). set (ms := op_messages ns sh o).
  destruct (stamp_zip start ms) as [<- E2]. split; [done|].
  assert (blen (zip (seqZ start (blen ms)) ms) = blen ms) as ->; [|by split].
  unfold blen. rewrite length_zip_with, length_seqZ. lia.
Qed.

Lemma attempt_acked ops s a :
  Forall op_supported ops -> live s -> acked (rk_db s) a ->
  (forall ns sh, blen (log_of a ns sh) + blen (concat (map (op_messages ns sh) ops)) < 2 ^ 64) ->
  let (trace, s') := attempt_all ops s in
  live s' /\ exists a', acked (rk_db s') a' /\
    forall ns sh, log_of a' ns sh = log_of a ns sh ++ map stored (acks ns sh trace) /\
      (acks ns sh trace).*1 = seqZ (blen (log_of a ns sh)) (blen (acks ns sh trace)).
Proof.
  intros Hops. revert s a. induction Hops as [|o ops Ho Hops IH]; intros s a Hs Ha Hb; cbn [attempt_all].
  { split; [done|]. exists a. split; [done|]. intros ns sh. by rewrite app_nil_r. }
  pose proof (step_acked o s a Ho Hs Ha) as H1. destruct (op_offsets o s) as [r s1].
  assert (forall ns sh, 0 <= blen (concat (map (op_messages ns sh) ops))) as Hpos by (intros; apply blen_nonneg).
  destruct H1 as (Hs1 & a1 & Ha1 & He).
  { intros ns sh. specialize (Hb ns sh). specialize (Hpos ns sh). cbn in Hb. rewrite blen_app in Hb. lia. }
  specialize (IH s1 a1 Hs1 Ha1). destruct (attempt_all ops s1) as [trace s2].
  destruct IH as (Hs2 & a2 & Ha2 & H2).
  { intros ns sh. specialize (Hb ns sh). cbn in Hb. rewrite blen_app in Hb.
    destruct (extends_acks _ _ _ _ ns sh He) as (-> & _ & Hle). rewrite blen_app, blen_map. lia. }
  split; [done|]. exists a2. split; [done|]. intros ns sh. destruct (H2 ns sh) as [E1 E2].
  destruct (extends_acks _ _ _ _ ns sh He) as (E3 & E4 & _). rewrite acks_cons.
  set (new := match r with Ok os => zip os (op_messages ns sh o) | _ => [] end) in *.
  rewrite E1, E3, map_app, app_assoc. split; [done|]. rewrite fmap_app, E4, E2, E3, blen_app, blen_map, blen_app.
  by rewrite seqZ_app by apply blen_nonneg.
Qed.
End refinement.
