(* ===== verification/RocksRefine.v ===== *)
(** * The RocksDB storage adapter implements the abstract store

    On a disk that does not fail, the adapter is a [LogStore]; names that hold
    no slash are found again by the prefix scans of the tag index, the records
    of a shard and the offsets of a group.  On a disk that can fail, what was
    acknowledged stays. *)

From Stdlib Require Import String.
From stdpp Require Import sorting.
From S2P Require Import Prelude Bytes RustStr Storage RocksEngine RocksStorage.

Section reliable.
Context {D : Type} {RD : RocksDB D} {RS : RocksSpec D} {RR : RocksReliable D} {MI : MapIter} {MS : MapIterSpec MI}
        {JZ : Json Z} {JB : Json bytes} {JR : Json MsgRecord} {JI : Json ShardInfo}
        {JZS : JsonSpec Z} {JBS : JsonSpec bytes} {JRS : JsonSpec MsgRecord} {JIS : JsonSpec ShardInfo}.
Implicit Types (s : RocksDBStorageAdapter (D := D)) (d : D) (a : LogSpec) (C : gmap bytes bytes).

(** The committed offsets of group [g] in the database. *)
Definition rep_group_offsets C (g : bytes) (m : gmap (bytes * bytes) Z) : Prop :=
  (forall ns sh, no_slash ns -> C !! group_record_offsets_key g ns sh = json <$> m !! (ns, sh)) /\
  (forall k, is_Some (C !! k) -> starts_with (group_record_offsets_key_prefix g) k = true ->
     exists ns sh, no_slash ns /\ k = group_record_offsets_key g ns sh) /\
  (forall ns sh, is_Some (m !! (ns, sh)) -> no_slash ns).

Definition rocks_rep s a : Prop :=
  acked (rk_db s) a /\ live s /\
  (forall ns sh i, no_slash ns -> blen (log_of a ns sh) <= i < 2 ^ 64 ->
     db_contents (rk_db s) !! shard_record_key ns sh i = None) /\
  (forall g, no_slash g -> rep_group_offsets (db_contents (rk_db s)) g (group_commits a g)).

(** ** Calls succeed *)

Definition succeeds {A} (m : M D CommonError A) d : Prop := exists x d', m d = (Ok x, d') /\ db_open d'.

Lemma succeeds_bind {A B} (m : M D CommonError A) (k : A -> M D CommonError B) d :
  succeeds m d -> (forall x d', db_open d' -> succeeds (k x) d') -> succeeds (bind m k) d.
Proof. intros (x & d1 & E & Ho) Hk. destruct (Hk x d1 Ho) as (b & d2 & E2 & Ho2). exists b, d2. by rewrite (bind_ok _ _ _ _ _ E). Qed.

Lemma succeeds_write {A} {J : Json A} {JS : JsonSpec A} k (v : A) d :
  db_open d -> succeeds (engine_write DB_COLUMN_FAMILY k v) d.
Proof.
  intros Ho. destruct (engine_write_ok DB_COLUMN_FAMILY k v d Ho) as (d' & E & Hh & _). exists tt, d'.
  split; [done|]. unfold db_open. by rewrite Hh.
Qed.

Lemma succeeds_for_each {A} (l : list A) (f : A -> M D CommonError unit) d :
  (forall x d, db_open d -> succeeds (f x) d) -> db_open d -> succeeds (for_each l f) d.
Proof.
  intros Hf. revert d. induction l as [|x l IH]; intros d Ho; [by exists tt, d|].
  cbn [for_each]. apply succeeds_bind; auto.
Qed.

Lemma succeeds_batch_loop ns sh ms start acc d :
  db_open d -> succeeds (batch_write_loop ns sh ms start acc) d.
Proof.
  revert start acc d. induction ms as [|m ms IH]; intros start acc d Ho; cbn [batch_write_loop]; [by eexists _, d|].
  apply succeeds_bind; [by apply succeeds_write|]. intros _ d1 H1.
  apply succeeds_bind; [case_match; [by apply succeeds_write|by exists tt, d1]|]. intros _ d2 H2.
  apply succeeds_bind; [|auto]. apply succeeds_for_each; [|done]. intros tag d3 H3. by apply succeeds_write.
Qed.

Lemma read_next_ok d a ns sh :
  acked d a -> no_slash ns ->
  engine_read DB_COLUMN_FAMILY (shard_offset_key ns sh) d = (Ok (blen <$> logs a !! (ns, sh)), d).
Proof.
  intros [_ Ha] Hns. apply engine_read_ok. destruct (Ha ns sh Hns) as [H _]. unfold db_contents in H. rewrite H.
  by destruct (logs a !! (ns, sh)).
Qed.

Lemma succeeds_thread_write ns sh ms d a l :
  acked d a -> no_slash ns -> logs a !! (ns, sh) = Some l -> succeeds (thread_batch_write ns sh ms) d.
Proof.
  intros Ha Hns Hl. unfold succeeds, thread_batch_write, unwrap_cf.
  pose proof (proj1 Ha : db_cf_handle _ _ = true) as Ho. unfold bind at 1. rewrite Ho. unfold bind at 1.
  rewrite (read_next_ok d a ns sh Ha Hns), Hl. cbn [fmap option_fmap option_map].
  apply (succeeds_bind (batch_write_loop ns sh ms (blen l) [])); [by apply succeeds_batch_loop|].
  intros [offs next] d1 H1. apply succeeds_bind; [by apply succeeds_write|]. intros _ d2 H2. by exists offs, d2.
Qed.

(** ** What writes leave alone *)

Lemma group_key_prefix g ns sh :
  starts_with (group_record_offsets_key_prefix g) (group_record_offsets_key g ns sh) = true.
Proof.
  unfold group_record_offsets_key, group_record_offsets_key_prefix.
  rewrite !(app_assoc g), !(app_assoc (lit "/group/")). apply starts_with_app.
Qed.

Lemma other_kind g k : kind k <> lit "/gro" -> starts_with (group_record_offsets_key_prefix g) k = false.
Proof. intros Hk. apply not_true_is_false. intros [t ->]%starts_with_inv. by apply Hk. Qed.

Lemma rep_group_frame d d' (P : bytes -> Prop) g m :
  db_open d -> only_at P d d' -> (forall k, P k -> starts_with (group_record_offsets_key_prefix g) k = false) ->
  rep_group_offsets (db_contents d) g m -> rep_group_offsets (db_contents d') g m.
Proof.
  intros Ho [_ Hf] HP (H1 & H2 & H3). split_and!; [|..|done].
  - intros ns sh Hns. rewrite Hf; [by apply H1|done|]. intros E%HP. by rewrite group_key_prefix in E.
  - intros k Hk Hp. apply H2; [|done]. rewrite Hf in Hk; [done|done|]. intros E%HP. congruence.
Qed.

Lemma write_key_kind a ns sh ms k : write_key a ns sh ms k -> kind k <> lit "/gro".
Proof. by intros [[->|[->| ->]]%batch_key_kind| ->]. Qed.

(** ** The operations *)

Lemma rocks_batch_write_refines s a ns sh ms l :
  rocks_rep s a -> no_slash ns -> logs a !! (ns, sh) = Some l -> blen l + blen ms < 2 ^ 64 ->
  exists s', rocks_batch_write ns sh ms s = (Ok (seqZ (blen l) (blen ms)), s') /\
             rocks_rep s' (spec_append (ns, sh) ms a).
Proof.
  intros (Ha & Hs & Hend & Hg) Hns Hl Hb.
  pose proof (batch_write_acked ns sh ms s a Hns Hs Ha) as H. unfold log_of in H at 1. rewrite Hl in H.
  specialize (H Hb). destruct (succeeds_thread_write ns sh ms _ _ _ Ha Hns Hl) as (offs & d' & E & _).
  destruct (handle_write_eval ns sh ms s Hs) as (handles & _ & E2). unfold rocks_batch_write in *.
  rewrite E2, E in H |- *. cbn [fst snd rk_db] in *. destruct H as (Hs' & Hf & [H|[[e He] _]]); [|done].
  destruct H as (l' & Hl' & Ho & Ha'). injection Hl' as <-. injection Ho as ->.
  eexists. split; [done|]. split_and!; [done|done| |].
  - intros ns' sh' i Hns' Hi. rewrite (log_of_append a ns sh ms l ns' sh' Hl), blen_app, blen_stamp in Hi.
    cbn [rk_db]. pose proof (blen_nonneg (log_of a ns' sh')). 
    assert (0 <= blen (if decide ((ns, sh) = (ns', sh')) then ms else [])) by apply blen_nonneg.
    rewrite (proj2 Hf); [apply Hend; [done|lia]|apply Ha|]. intros [Hk|Hk]; [|by revert Hk; key_ne].
    unfold log_of in Hk at 1. rewrite Hl in Hk.
    apply batch_key_record in Hk as [[= -> ->] Hk]; try done; try (unfold u64; lia); [|apply blen_nonneg].
    rewrite decide_True in Hi by done. unfold log_of in Hi. rewrite Hl in Hi. cbn in *. lia.
  - intros g Hg'. eapply (rep_group_frame (rk_db s)); [apply Ha|exact Hf| |by apply Hg].
    intros k Hk. by eapply other_kind, write_key_kind.
Qed.

Lemma rocks_create_refines s a info :
  rocks_rep s a -> no_slash (si_namespace info) ->
  logs a !! (si_namespace info, si_shard_name info) = None ->
  exists s', rocks_create_shard info s = (Ok tt, s') /\
             rocks_rep s' (spec_create (si_namespace info, si_shard_name info) a).
Proof.
  intros (Ha & Hs & Hend & Hg) Hns Hl. pose proof (create_acked info s a Hns Ha) as H.
  assert ((rocks_create_shard info s).1 = Ok tt) as Hok.
  { unfold rocks_create_shard, on_db, unwrap_cf.
    pose proof (proj1 Ha : db_cf_handle _ _ = true) as Ho. unfold bind at 1. rewrite Ho. unfold bind at 1.
    rewrite (read_next_ok (rk_db s) a _ _ Ha Hns), Hl. cbn [fmap option_fmap option_map is_some].
    destruct (succeeds_write (shard_offset_key (si_namespace info) (si_shard_name info)) 0 (rk_db s) Ho) as ([] & d1 & E1 & H1).
    rewrite (bind_ok _ _ _ _ _ E1). destruct (json_ok info) as (-> & _ & _).
    destruct (succeeds_write (shard_info_key (si_namespace info) (si_shard_name info)) (json info) d1 H1) as ([] & d2 & E2 & H2).
    by rewrite E2. }
  destruct (rocks_create_shard info s) as [r s']. cbn in Hok. subst r. exists s'. split; [done|].
  destruct H as (Hh & Hf & [(_ & _ & Ha')|[[e He] _]]); [|done]. split_and!; [done| | |].
  - intros k h. rewrite Hh. apply Hs.
  - intros ns sh i Hns' Hi. rewrite log_of_create in Hi by done.
    rewrite (proj2 Hf); [by apply Hend|apply Ha|]. by intros [Hk|Hk]; revert Hk; key_ne.
  - intros g Hg'. eapply (rep_group_frame (rk_db s)); [apply Ha|exact Hf| |by apply Hg].
    intros k Hk. apply other_kind. by destruct Hk as [->| ->].
Qed.

Lemma rocks_write_refines s a ns sh m l :
  rocks_rep s a -> no_slash ns -> logs a !! (ns, sh) = Some l -> blen l + 1 < 2 ^ 64 ->
  exists s', rocks_write ns sh m s = (Ok (blen l), s') /\ rocks_rep s' (spec_append (ns, sh) [m] a).
Proof.
  intros Hr Hns Hl Hb. destruct (rocks_batch_write_refines s a ns sh [m] l Hr Hns Hl Hb) as (s' & E & Hr').
  exists s'. split; [|done]. by rewrite write_eval, E.
Qed.

(** The records of the logs are in the database, and no others. *)
Definition logs_recorded d a : Prop :=
  db_open d /\
  forall ns sh, no_slash ns ->
    (forall i r, log_of a ns sh !! i = Some r -> db_contents d !! shard_record_key ns sh (Z.of_nat i) = Some (json r)) /\
    (forall i, blen (log_of a ns sh) <= i < 2 ^ 64 -> db_contents d !! shard_record_key ns sh i = None).

Lemma rep_recorded s a : rocks_rep s a -> logs_recorded (rk_db s) a.
Proof.
  intros ([Ho Ha] & _ & Hend & _). split; [done|]. intros ns sh Hns. split; [apply (Ha ns sh Hns)|intros i; by apply Hend].
Qed.

Lemma read_loop_eval ns sh d a n i :
  logs_recorded d a -> no_slash ns -> Z.of_nat i + Z.of_nat n <= 2 ^ 64 ->
  read_offset_loop ns sh n (Z.of_nat i) d = (Ok (take n (drop i (log_of a ns sh))), d).
Proof.
  intros [_ Ha] Hns. destruct (Ha ns sh Hns) as (Hr & Hend). revert i.
  induction n as [|n IH]; intros i Hn; cbn [read_offset_loop]; [done|].
  assert (engine_read DB_COLUMN_FAMILY (shard_record_key ns sh (Z.of_nat i)) d = (Ok (log_of a ns sh !! i), d)) as E.
  { apply engine_read_ok. destruct (log_of a ns sh !! i) as [r|] eqn:Hi; [by apply Hr|].
    apply Hend. apply lookup_ge_None in Hi. unfold blen. lia. }
  rewrite (bind_ok _ _ _ _ _ E). destruct (log_of a ns sh !! i) as [r|] eqn:Hi.
  - rewrite (drop_S _ r) by done. cbn [take firstn].
    replace (Z.of_nat i + 1) with (Z.of_nat (S i)) by lia. rewrite (bind_ok _ _ _ _ _ (IH (S i) ltac:(lia))). done.
  - rewrite drop_ge by by apply lookup_ge_None. by rewrite take_nil.
Qed.

Lemma rocks_read_recorded s a ns sh offset config :
  logs_recorded (rk_db s) a -> no_slash ns ->
  0 <= offset -> 0 <= max_record_num config -> offset + max_record_num config < 2 ^ 64 ->
  rocks_read_by_offset ns sh offset config s
  = (Ok (spec_read (ns, sh) offset (max_record_num config) a), s).
Proof.
  intros Ha Hns H0 H1 H2. unfold rocks_read_by_offset, on_db, unwrap_cf, bind.
  pose proof (proj1 Ha : db_cf_handle _ _ = true) as ->. rewrite wrap64_small by lia.
  replace (offset + max_record_num config - offset) with (max_record_num config) by lia.
  rewrite <- (Z2Nat.id offset) at 1 by done.
  rewrite (read_loop_eval ns sh _ a); [by destruct s|done|done|lia].
Qed.

Lemma rocks_read_refines s a ns sh offset config :
  rocks_rep s a -> no_slash ns ->
  0 <= offset -> 0 <= max_record_num config -> offset + max_record_num config < 2 ^ 64 ->
  rocks_read_by_offset ns sh offset config s
  = (Ok (spec_read (ns, sh) offset (max_record_num config) a), s).
Proof. intros Hr. by apply rocks_read_recorded, rep_recorded. Qed.

(** *** Deleting a shard *)

(** A shard that is not there cannot be deleted; one that is is closed for
    writers, and every record stays. *)
Lemma rocks_delete_missing s a ns sh :
  rocks_rep s a -> no_slash ns -> logs a !! (ns, sh) = None -> exists e, rocks_delete_shard ns sh s = (Err e, s).
Proof.
  intros (Ha & _) Hns Hl. eexists. unfold rocks_delete_shard, on_db, unwrap_cf, bind.
  pose proof (proj1 Ha : db_cf_handle _ _ = true) as ->. rewrite (read_next_ok (rk_db s) a _ _ Ha Hns), Hl.
  by destruct s.
Qed.

Lemma rocks_delete_eval s a ns sh l :
  rocks_rep s a -> no_slash ns -> logs a !! (ns, sh) = Some l ->
  exists d', rocks_delete_shard ns sh s = (Ok tt, mkRocks d' (rk_write_handles s)) /\ logs_recorded d' a /\
             db_contents d' !! shard_offset_key ns sh = None.
Proof.
  intros Hr Hns Hl. pose proof Hr as (Ha & _). pose proof (proj1 Ha : db_cf_handle _ _ = true) as Ho.
  destruct (engine_delete_ok DB_COLUMN_FAMILY (shard_offset_key ns sh) (rk_db s) Ho) as (d' & E & Hh & Hc & _).
  exists d'. split_and!.
  - unfold rocks_delete_shard, on_db, unwrap_cf, bind. rewrite Ho, (read_next_ok (rk_db s) a _ _ Ha Hns), Hl.
    cbn [fmap option_fmap option_map is_none is_some negb]. by rewrite E.
  - destruct (rep_recorded s a Hr) as [_ H]. split; [unfold db_open; by rewrite Hh|]. intros ns' sh' Hns'.
    destruct (H ns' sh' Hns') as [H1 H2]. unfold db_contents in *. rewrite Hc.
    split; intros; rewrite lookup_delete_ne by key_ne; auto.
  - unfold db_contents. by rewrite Hc, lookup_delete_eq.
Qed.

Lemma closed_write ns sh ms s :
  db_open (rk_db s) -> live s -> db_contents (rk_db s) !! shard_offset_key ns sh = None ->
  exists e s', rocks_batch_write ns sh ms s = (Err e, s') /\ rk_db s' = rk_db s.
Proof.
  intros Ho Hs Hk. destruct (handle_write_eval ns sh ms s Hs) as (handles & _ & E). unfold rocks_batch_write. rewrite E.
  assert (exists e, thread_batch_write ns sh ms (rk_db s) = (Err e, rk_db s)) as [e ->].
  { eexists. unfold thread_batch_write, unwrap_cf, bind. unfold db_open in Ho. rewrite Ho.
    by rewrite (engine_read_ok _ _ (None : option Z)). }
  by eexists _, _.
Qed.

#[export] Instance group_key_of_shard_inj g ns : Inj (=) (=) (group_record_offsets_key g ns).
Proof. intros x y E. by repeat apply app_inv_head in E. Qed.

Lemma commit_loop_eval g ns (l : list (bytes * Z)) d :
  db_open d ->
  exists d', for_each l (fun kv => engine_write DB_COLUMN_FAMILY (group_record_offsets_key g ns kv.1) kv.2) d
             = (Ok tt, d') /\ db_open d' /\
    db_contents d' = foldl (fun C kv => <[group_record_offsets_key g ns kv.1 := json kv.2]> C) (db_contents d) l.
Proof.
  revert d. induction l as [|kv l IH]; intros d Ho; [by exists d|].
  destruct (engine_write_ok DB_COLUMN_FAMILY (group_record_offsets_key g ns kv.1) kv.2 d Ho) as (d1 & E1 & Hh & Hc & _).
  destruct (IH d1) as (d2 & E2 & Ho2 & Hc2); [unfold db_open; by rewrite Hh|].
  exists d2. rewrite for_each_cons, (bind_ok _ _ _ _ _ E1). split_and!; [done|done|].
  rewrite Hc2. cbn [foldl]. f_equal. exact Hc.
Qed.

Lemma rep_group_add C (g ns : bytes) (offs : gmap bytes Z) m :
  no_slash g -> no_slash ns -> rep_group_offsets C g m ->
  rep_group_offsets (kmap (group_record_offsets_key g ns) (json <$> offs) ∪ C) g (kmap (pair ns) offs ∪ m).
Proof.
  intros Hg Hns (H1 & H2 & H3). split_and!.
  - intros ns' sh' Hns'. destruct (decide (ns' = ns)) as [->|Hne].
    + rewrite !lookup_union, (lookup_kmap _), (lookup_kmap _), lookup_fmap, H1 by done.
      by destruct (offs !! sh'), (m !! (ns, sh')).
    + rewrite lookup_union_r, lookup_union_r, H1; [done|done|..].
      * apply (lookup_kmap_None _). by intros sh [= -> ->].
      * apply (lookup_kmap_None _). intros sh E. by apply group_key_inj in E as [_ [= -> ->]].
  - intros k [v [Hk|[_ Hk]]%lookup_union_Some_raw] Hp; [|by apply H2].
    apply (lookup_kmap_Some _) in Hk as (sh & -> & _). by exists ns, sh.
  - intros ns' sh' [v [Hk|[_ Hk]]%lookup_union_Some_raw]; [|by eapply H3].
    by apply (lookup_kmap_Some _) in Hk as (sh & [= -> ->] & _).
Qed.

Lemma rocks_commit_refines s a g ns offs :
  rocks_rep s a -> no_slash ns -> no_slash g ->
  exists s', rocks_commit_offset g ns offs s = (Ok tt, s') /\ rocks_rep s' (spec_commit g ns offs a).
Proof.
  intros (Ha & Hs & Hend & Hg) Hns Hg'. pose proof (commit_acked g ns offs s a Ha) as H.
  pose proof (proj1 Ha : db_cf_handle _ _ = true) as Ho.
  destruct (commit_loop_eval g ns (map_iter offs) (rk_db s) Ho) as (d' & E & Ho' & Hc).
  assert (rocks_commit_offset g ns offs s = (Ok tt, mkRocks d' (rk_write_handles s))) as E2.
  { unfold rocks_commit_offset, on_db, unwrap_cf, bind. by rewrite Ho, E. }
  rewrite E2 in *. destruct H as (_ & Hf & _ & Ha'). eexists. split; [done|]. split_and!.
  - exact Ha'.
  - exact Hs.
  - intros ns' sh i Hns' Hi. rewrite (proj2 Hf); [by apply Hend|done|].
    intros (sh' & Hk). by revert Hk; key_ne.
  - intros g' Hg2. destruct (decide (g = g')) as [<-|Hne].
    + cbn [rk_db]. rewrite Hc, insert_loop by apply _.
      unfold group_commits at 1. cbn. rewrite lookup_insert_eq. cbn. apply rep_group_add; auto.
    + unfold group_commits. cbn. rewrite lookup_insert_ne by done.
      eapply (rep_group_frame (rk_db s)); [done|exact Hf| |by apply Hg].
      intros k (sh & ->). apply not_true_is_false. intros [t Ht]%starts_with_inv.
      unfold group_record_offsets_key, group_record_offsets_key_prefix in Ht. rewrite <- !app_assoc in Ht.
      by apply two_names in Ht as [? _].
Qed.

(** The scan of a group's keys finds its offsets. *)
Definition group_pair (g : bytes) (x : (bytes * bytes) * Z) : bytes * bytes :=
  (group_record_offsets_key g x.1.1 x.1.2, json x.2).

Lemma group_loop_eval g (l : list ((bytes * bytes) * Z)) d :
  group_offsets_loop (map (group_pair g) l) d = (Ok (map (fun x => default_offset x.2) l), d).
Proof.
  induction l as [|x l IH]; [done|]. cbn [map group_offsets_loop group_pair].
  destruct (json_ok x.2) as (_ & _ & ->). by rewrite (bind_ok _ _ _ _ _ IH).
Qed.

Lemma group_scan d g m :
  no_slash g -> rep_group_offsets (db_contents d) g m ->
  exists l, engine_read_prefix DB_COLUMN_FAMILY (group_record_offsets_key_prefix g) d
            = (Ok (map (group_pair g) l), d) /\ l ≡ₚ map_to_list m.
Proof.
  intros Hg (H1 & H2 & H3).
  destruct (engine_read_prefix_ok DB_COLUMN_FAMILY (group_record_offsets_key_prefix g) d) as (l & -> & Hs & Hl).
  assert (l ≡ₚ map (group_pair g) (map_to_list m)) as Hp.
  { apply NoDup_Permutation.
    - by apply sorted_NoDup.
    - apply NoDup_fmap_2_strong; [|apply NoDup_map_to_list].
      intros [[ns sh] o] [[ns' sh'] o'] Hx%elem_of_map_to_list Hy%elem_of_map_to_list E.
      pose proof (f_equal fst E) as Hk. apply (f_equal snd) in E. cbn [group_pair fst snd] in Hk, E.
      apply json_inj in E as ->.
      apply group_key_inj in Hk as [_ [= -> ->]]; [done|done|done|by eapply H3..].
    - intros [k v]. rewrite Hl. cbn [fst snd]. rewrite list_elem_of_fmap. split.
      + intros [Hk Hp]. destruct (H2 k) as (ns & sh & Hns & ->); [by eexists|done|].
        rewrite H1 in Hk by done. apply fmap_Some in Hk as (o & Ho & ->).
        exists ((ns, sh), o). split; [done|]. by apply elem_of_map_to_list.
      + intros ([[ns sh] o] & E & Hin%elem_of_map_to_list).
        assert (k = group_record_offsets_key g ns sh /\ v = json o) as [-> ->]
          by (split; [apply (f_equal fst E)|apply (f_equal snd E)]). split; [|apply group_key_prefix].
        assert (no_slash ns) as Hns by (by eapply H3). unfold db_contents in H1. by rewrite H1, Hin. }
  apply Permutation_map_inv in Hp as (l0 & -> & Hp). by exists l0.
Qed.

Lemma rocks_get_group_refines s a g :
  rocks_rep s a -> no_slash g ->
  exists l, rocks_get_offset_by_group g s = (Ok l, s) /\ map so_offset l ≡ₚ values (group_commits a g).
Proof.
  intros (Ha & _ & _ & Hg) Hg'. destruct (group_scan _ g _ Hg' (Hg g Hg')) as (l & E & Hp).
  exists (map (fun x => default_offset x.2) l). split.
  - unfold rocks_get_offset_by_group, on_db, unwrap_cf, bind at 1.
    pose proof (proj1 Ha : db_cf_handle _ _ = true) as ->. rewrite (bind_ok _ _ _ _ _ E), group_loop_eval.
    by destruct s.
  - rewrite map_map. unfold values. cbn. by rewrite <- Hp.
Qed.

#[export] Instance RocksDBStorage_log_store : LogStore (RocksDBStorageAdapter (D := D)).
Proof.
  refine {| ls_rep := rocks_rep; ls_ns := fun ns => no_slash ns; ls_group := fun g => no_slash g |}.
  - intros s a info. apply rocks_create_refines.
  - intros s a ns sh ms l. apply rocks_batch_write_refines.
  - intros s a ns sh m l. apply rocks_write_refines.
  - intros s a ns sh l offset config Hr Hns _. by apply rocks_read_refines.
  - intros s a g ns offs. apply rocks_commit_refines.
  - intros s a g. apply rocks_get_group_refines.
Defined.

(** ** The indexes

    The tags and the records of a shard are found by a prefix of their keys,
    so here no name may hold a slash. *)

Definition tagged a (ns sh tag : bytes) (i : nat) : Prop :=
  exists l r, logs a !! (ns, sh) = Some l /\ l !! i = Some r /\ tag ∈ r_tags r.

Definition names_ok a : Prop :=
  forall ns sh l, logs a !! (ns, sh) = Some l ->
    no_slash ns /\ no_slash sh /\ Forall (fun r => Forall (fun tag => no_slash tag) (r_tags r)) l.

Definition indexed C a : Prop :=
  (forall k v, C !! k = Some v -> kind k = lit "/tag" ->
     exists ns sh tag i, tagged a ns sh tag i /\ k = tag_offsets_key ns sh tag (Z.of_nat i) /\
                         v = json (Z.of_nat i)) /\
  (forall ns sh tag i, tagged a ns sh tag i ->
     C !! tag_offsets_key ns sh tag (Z.of_nat i) = Some (json (Z.of_nat i))) /\
  (forall k v, C !! k = Some v -> kind k = lit "/rec" ->
     exists ns sh l i, logs a !! (ns, sh) = Some l /\ is_Some (l !! i) /\
                       k = shard_record_key ns sh (Z.of_nat i)).

Lemma batch_key_dec ns sh start ms k : Decision (batch_key ns sh start ms k).
Proof.
  revert start. induction ms as [|m ms IH]; intros start; [by right; intros (j & m & Hj & _)|].
  destruct (decide (k = shard_record_key ns sh start \/ k = key_offset_key ns sh (r_key m) \/
                    Exists (fun tag => k = tag_offsets_key ns sh tag start) (r_tags m))) as [Hd|Hd].
  - left. exists O, m. rewrite Z.add_0_r. split; [done|]. by rewrite <- Exists_exists.
  - destruct (IH (start + 1)) as [Hk|Hk]; [left; by apply batch_key_cons|right].
    intros ([|j] & m' & Hj & H).
    + injection Hj as <-. apply Hd. by rewrite Z.add_0_r, <- Exists_exists in H.
    + apply Hk. exists j, m'. split; [done|].
      by replace (start + Z.of_nat (S j)) with (start + 1 + Z.of_nat j) in H by lia.
Qed.

Lemma thread_write_inv ns sh ms d a l offs d' :
  acked d a -> no_slash ns -> logs a !! (ns, sh) = Some l -> blen l + blen ms < 2 ^ 64 ->
  thread_batch_write ns sh ms d = (Ok offs, d') ->
  only_at (write_key a ns sh ms) d d' /\
  forall j m tag, ms !! j = Some m -> tag ∈ r_tags m ->
    db_contents d' !! tag_offsets_key ns sh tag (blen l + Z.of_nat j) = Some (json (blen l + Z.of_nat j)).
Proof.
  intros Ha Hns Hl Hb E. split.
  - pose proof (thread_write_acked ns sh ms d a Hns Ha) as H. unfold log_of in H at 1. rewrite Hl in H.
    specialize (H Hb). rewrite E in H. apply H.
  - pose proof (proj1 Ha : db_cf_handle _ _ = true) as Ho. unfold thread_batch_write, unwrap_cf in E.
    unfold bind at 1 in E. rewrite Ho in E. unfold bind at 1 in E.
    rewrite (read_next_ok d a ns sh Ha Hns), Hl in E. cbn [fmap option_fmap option_map] in E.
    apply bind_inv in E as ([offs' next] & d1 & E1 & ([] & d2 & E2 & [= <- <-])%bind_inv).
    pose proof (wp_batch_loop ns sh ms (blen l) [] d Ho) as Ho1. unfold wp in Ho1. rewrite E1 in Ho1.
    pose proof (write_only_at (fun k => kind k = lit "/off") (shard_offset_key ns sh) next eq_refl d1) as [_ Hf].
    rewrite E2 in Hf. intros j m tag Hj Ht. cbn [snd] in Hf. rewrite Hf; [|done|done].
    by apply (batch_loop_tags ns sh ms (blen l) [] d offs' next d1 Ho (blen_nonneg l) Hb E1 j m tag).
Qed.

Lemma tagged_append a ns sh ms l ns' sh' tag i :
  logs a !! (ns, sh) = Some l ->
  tagged (spec_append (ns, sh) ms a) ns' sh' tag i <->
  tagged a ns' sh' tag i \/
  (ns', sh') = (ns, sh) /\ exists j m, ms !! j = Some m /\ tag ∈ r_tags m /\ i = (length l + j)%nat.
Proof.
  intros Hl. unfold tagged. rewrite (logs_append a ns sh ms ns' sh' l Hl). case_decide as E.
  - injection E as -> ->. split.
    + intros (l' & r & [= <-] & Hi & Ht). apply lookup_app_Some in Hi as [Hi|[Hge Hi]]; [by left; exists l, r|].
      rewrite stamp_lookup in Hi. apply fmap_Some in Hi as (m & Hm & ->). right. split; [done|].
      exists (i - length l)%nat, m. split_and!; [done|done|lia].
    + intros [(l' & r & Hl' & Hi & Ht)|(_ & j & m & Hm & Ht & ->)]; eexists _, _; (split; [done|]).
      * rewrite Hl in Hl'. injection Hl' as <-. split; [|exact Ht]. by apply lookup_app_l_Some.
      * rewrite lookup_app_r by lia. replace (length l + j - length l)%nat with j by lia.
        rewrite stamp_lookup, Hm. by split.
  - split; [by left|]. intros [H|[H _]]; done.
Qed.

Lemma indexed_append ns sh ms d a l offs d' :
  acked d a -> no_slash ns -> logs a !! (ns, sh) = Some l -> blen l + blen ms < 2 ^ 64 ->
  thread_batch_write ns sh ms d = (Ok offs, d') -> names_ok a ->
  indexed (db_contents d) a -> indexed (db_contents d') (spec_append (ns, sh) ms a).
Proof.
  intros Ha Hns Hl Hb E Hok (H1 & H2 & H3).
  destruct (thread_write_inv ns sh ms d a l offs d' Ha Hns Hl Hb E) as ([_ Hf] & Ht).
  specialize (Hf (proj1 Ha)). unfold write_key, log_of in Hf. rewrite Hl in Hf. cbn [default id] in Hf.
  assert (forall k, ~ batch_key ns sh (blen l) ms k -> kind k = lit "/tag" \/ kind k = lit "/rec" ->
    db_contents d' !! k = db_contents d !! k) as Hold.
  { intros k Hk Hkind. apply Hf. intros [?| ->]; [done|]. by destruct Hkind. }
  split_and!.
  - intros k v Hv Hkind. destruct (batch_key_dec ns sh (blen l) ms k) as [Hk|Hk].
    + destruct Hk as (j & m & Hj & [->|[->|(tag & Htag & ->)]]); [done..|].
      rewrite (Ht j m tag Hj Htag) in Hv. injection Hv as <-. exists ns, sh, tag, (length l + j)%nat.
      rewrite Nat2Z.inj_add. split_and!; [|done|done]. apply (tagged_append a ns sh ms l); [done|]. right. eauto 10.
    + rewrite Hold in Hv by auto. destruct (H1 k v Hv Hkind) as (ns' & sh' & tag & i & Hi & -> & ->).
      exists ns', sh', tag, i. split_and!; [|done|done]. apply (tagged_append a ns sh ms l); auto.
  - intros ns' sh' tag i. rewrite (tagged_append a ns sh ms l) by done.
    intros [Hi|([= -> ->] & j & m & Hj & Htag & ->)]; [|rewrite Nat2Z.inj_add; by apply (Ht j m)].
    destruct (batch_key_dec ns sh (blen l) ms (tag_offsets_key ns' sh' tag (Z.of_nat i))) as [Hk|Hk];
      [|rewrite Hold; auto].
    destruct Hk as (j & m & Hj & [Ek|[Ek|(tag' & Htag & Ek)]]); [by revert Ek; key_ne..|].
    rewrite Ek, (Ht j m tag' Hj Htag). do 2 f_equal. symmetry. apply lookup_lt_Some in Hj.
    destruct Hi as (l' & r & Hl' & Hr & _). destruct (Hok _ _ _ Hl') as (Hns' & _).
    destruct (proj2 Ha ns' sh' Hns') as (_ & Hb' & _). eapply tag_key_offset, Ek; [|unfold u64, blen in *; lia].
    eapply log_u64; [exact Hb'|]. unfold log_of. by rewrite Hl'.
  - intros k v Hv Hkind. destruct (batch_key_dec ns sh (blen l) ms k) as [Hk|Hk].
    + destruct Hk as (j & m & Hj & [->|[->|(tag & Htag & ->)]]); [|done..].
      exists ns, sh, (l ++ stamp (blen l) ms), (length l + j)%nat. rewrite (logs_append a ns sh ms ns sh l Hl), decide_True by done.
      rewrite Nat2Z.inj_add. split_and!; [done| |done]. rewrite lookup_app_r by lia.
      replace (length l + j - length l)%nat with j by lia. by rewrite stamp_lookup, Hj.
    + rewrite Hold in Hv by auto. destruct (H3 k v Hv Hkind) as (ns' & sh' & l' & i & Hl' & Hi & ->).
      exists ns', sh'. rewrite (logs_append a ns sh ms ns' sh' l Hl). case_decide as Ek; [|by exists l', i].
      injection Ek as -> ->. rewrite Hl in Hl'. injection Hl' as <-. eexists _, i. split_and!; [done| |done].
      destruct Hi as [r Hr]. exists r. by apply lookup_app_l_Some.
Qed.

(** Operations that leave both indexes alone. *)
Lemma indexed_frame d d' (P : bytes -> Prop) a a' :
  db_open d -> only_at P d d' ->
  (forall k, P k -> kind k <> lit "/tag" /\ kind k <> lit "/rec") ->
  (forall ns sh l, logs a !! (ns, sh) = Some l -> logs a' !! (ns, sh) = Some l) ->
  (forall ns sh l, logs a' !! (ns, sh) = Some l -> l <> [] -> logs a !! (ns, sh) = Some l) ->
  indexed (db_contents d) a -> indexed (db_contents d') a'.
Proof.
  intros Ho [_ Hf] HP Hlog Hlog' (H1 & H2 & H3). specialize (Hf Ho).
  assert (forall k, kind k = lit "/tag" \/ kind k = lit "/rec" -> db_contents d' !! k = db_contents d !! k) as Hold.
  { intros k Hk. apply Hf. intros [? ?]%HP. tauto. }
  split_and!.
  - intros k v Hv Hk. rewrite Hold in Hv by auto. destruct (H1 k v Hv Hk) as (ns & sh & tag & i & Hi & Hkv).
    exists ns, sh, tag, i. split; [|done]. destruct Hi as (l & r & Hl & Hi & Ht). exists l, r. eauto.
  - intros ns sh tag i (l & r & Hl & Hi & Ht). rewrite Hold by auto. apply H2. exists l, r.
    split_and!; [|done|done]. apply Hlog'; [done|]. by intros ->.
  - intros k v Hv Hk. rewrite Hold in Hv by auto. destruct (H3 k v Hv Hk) as (ns & sh & l & i & Hl & Hi & ->).
    exists ns, sh, l, i. eauto.
Qed.

(** ** Scans *)

(** The records of a log with their positions. *)
Definition numbered (l : list MsgRecord) : list (Z * MsgRecord) := zip (seqZ 0 (blen l)) l.

Lemma numbered_elem l (x : Z * MsgRecord) :
  x ∈ numbered l <-> exists i : nat, x.1 = Z.of_nat i /\ l !! i = Some x.2.
Proof.
  unfold numbered. rewrite list_elem_of_lookup. split; intros [i Hi]; exists i.
  - apply lookup_zip_with_Some in Hi as (o & r & -> & Ho & Hr). cbn. split; [|done].
    apply lookup_seqZ in Ho as [-> _]. lia.
  - destruct Hi as [E Hi]. apply lookup_zip_with_Some. exists x.1, x.2. split_and!; [by destruct x| |done].
    apply lookup_seqZ. apply lookup_lt_Some in Hi. unfold blen. lia.
Qed.

Definition position_lt (x y : Z * MsgRecord) : Prop := 0 <= x.1 < y.1.

Lemma zip_sorted start l : 0 <= start -> StronglySorted position_lt (zip (seqZ start (blen l)) l).
Proof.
  revert start. induction l as [|r l IH]; intros start H0; [constructor|].
  rewrite blen_cons. pose proof (blen_nonneg l). rewrite seqZ_cons by lia.
  replace (Z.pred (1 + blen l)) with (blen l) by lia. constructor; [apply IH; lia|].
  apply Forall_forall. intros x (i & Hi)%list_elem_of_lookup.
  apply lookup_zip_with_Some in Hi as (o & r' & -> & [-> _]%lookup_seqZ & _). unfold position_lt. cbn. lia.
Qed.

Lemma StronglySorted_map {A B} (R1 : A -> A -> Prop) (R2 : B -> B -> Prop) (f : A -> B) l :
  (forall x y, x ∈ l -> y ∈ l -> R1 x y -> R2 (f x) (f y)) -> StronglySorted R1 l -> StronglySorted R2 (map f l).
Proof.
  intros Hf Hs. induction Hs as [|x l Hs IH Hx]; [constructor|]. cbn. constructor.
  - apply IH. intros y z Hy Hz. apply Hf; by right.
  - apply Forall_fmap. rewrite Forall_forall in *. intros y Hy. apply Hf; [by left|by right|auto].
Qed.

#[export] Instance key_lt_antisymm : AntiSymm (=) key_lt.
Proof.
  intros x y Hxy Hyx. unfold key_lt in *. pose proof (octets_lt_trans _ _ _ Hxy Hyx) as Hxx.
  by rewrite octets_lt_irrefl in Hxx.
Qed.

(** A sorted list is known from its elements. *)
Lemma scan_eq (l l' : list (bytes * bytes)) :
  StronglySorted key_lt l -> StronglySorted key_lt l' -> (forall kv, kv ∈ l <-> kv ∈ l') -> l = l'.
Proof.
  intros H1 H2 He. apply (StronglySorted_unique key_lt); [done|done|].
  by apply NoDup_Permutation; [apply sorted_NoDup..|].
Qed.

Definition tag_entry (ns sh tag : bytes) (x : Z * MsgRecord) : bytes * bytes :=
  (tag_offsets_key ns sh tag x.1, json x.1).
Definition record_entry (ns sh : bytes) (x : Z * MsgRecord) : bytes * bytes :=
  (shard_record_key ns sh x.1, json x.2).

Lemma padded_key_lt p i j : 0 <= i < j -> j < 2 ^ 64 -> octets_lt (p ++ padded 20 i) (p ++ padded 20 j) = true.
Proof. intros Hi Hj. rewrite octets_lt_app. apply padded_lt; [done|]. change (Z.of_nat 20) with 20. lia. Qed.

Lemma numbered_bound l x : blen l < 2 ^ 64 -> x ∈ numbered l -> u64 x.1.
Proof. intros Hl (i & -> & Hi%lookup_lt_Some)%numbered_elem. unfold u64, blen in *. lia. Qed.

Lemma tag_entries_sorted ns sh tag l (P : Z * MsgRecord -> Prop) `{!forall x, Decision (P x)} :
  blen l < 2 ^ 64 -> StronglySorted key_lt (map (tag_entry ns sh tag) (filter P (numbered l))).
Proof.
  intros Hl. eapply (StronglySorted_map position_lt).
  - intros x y [_ Hx]%list_elem_of_filter [_ Hy]%list_elem_of_filter Hxy.
    apply (numbered_bound _ _ Hl) in Hx, Hy. unfold key_lt, u64 in *. cbn [tag_entry fst].
    unfold tag_offsets_key. rewrite !app_assoc. apply padded_key_lt; [apply Hxy|lia].
  - apply StronglySorted_filter, zip_sorted. done.
Qed.

Lemma record_entries_sorted ns sh l :
  blen l < 2 ^ 64 -> StronglySorted key_lt (map (record_entry ns sh) (numbered l)).
Proof.
  intros Hl. eapply (StronglySorted_map position_lt); [|by apply zip_sorted].
  intros x y Hx Hy Hxy. apply (numbered_bound _ _ Hl) in Hx, Hy. unfold key_lt, u64 in *. cbn [record_entry fst].
  unfold shard_record_key. rewrite !app_assoc. apply padded_key_lt; [apply Hxy|lia].
Qed.

Lemma tag_key_prefix ns sh tag i : starts_with (tag_offsets_key_prefix ns sh tag) (tag_offsets_key ns sh tag i) = true.
Proof. unfold tag_offsets_key_prefix, tag_offsets_key. rewrite !app_assoc. apply starts_with_app. Qed.

Lemma tag_key_prefix_inv ns sh tag ns' sh' tag' i :
  no_slash ns -> no_slash sh -> no_slash tag -> no_slash ns' -> no_slash sh' -> no_slash tag' ->
  starts_with (tag_offsets_key_prefix ns sh tag) (tag_offsets_key ns' sh' tag' i) = true ->
  ns' = ns /\ sh' = sh /\ tag' = tag.
Proof.
  intros ? ? ? ? ? ? [t E]%starts_with_inv. unfold tag_offsets_key_prefix, tag_offsets_key in E.
  rewrite <- !app_assoc in E. apply two_names in E as [-> E]; try done. apply sep_inj in E as [-> E]; try done.
  by apply sep_inj in E as [-> _].
Qed.

Lemma record_key_prefix ns sh i : starts_with (shard_record_key_prefix ns sh) (shard_record_key ns sh i) = true.
Proof. unfold shard_record_key_prefix, shard_record_key. rewrite !app_assoc. apply starts_with_app. Qed.

Lemma record_key_prefix_inv ns sh ns' sh' i :
  no_slash ns -> no_slash sh -> no_slash ns' -> no_slash sh' ->
  starts_with (shard_record_key_prefix ns sh) (shard_record_key ns' sh' i) = true -> ns' = ns /\ sh' = sh.
Proof.
  intros ? ? ? ? [t E]%starts_with_inv. unfold shard_record_key_prefix, shard_record_key in E.
  rewrite <- !app_assoc in E. apply two_names in E as [-> E]; try done. by apply sep_inj in E as [-> _].
Qed.

Lemma log_of_some a ns sh i r : log_of a ns sh !! i = Some r -> logs a !! (ns, sh) = Some (log_of a ns sh).
Proof. unfold log_of. by destruct (logs a !! (ns, sh)). Qed.

Lemma tag_scan d a ns sh tag :
  acked d a -> names_ok a -> indexed (db_contents d) a -> no_slash ns -> no_slash sh -> no_slash tag ->
  engine_read_prefix DB_COLUMN_FAMILY (tag_offsets_key_prefix ns sh tag) d
  = (Ok (map (tag_entry ns sh tag) (filter (fun x => tag ∈ r_tags x.2) (numbered (log_of a ns sh)))), d).
Proof.
  intros Ha Hok (H1 & H2 & _) Hns Hsh Htag.
  destruct (engine_read_prefix_ok DB_COLUMN_FAMILY (tag_offsets_key_prefix ns sh tag) d) as (l & -> & Hs & Hl).
  do 2 f_equal. apply scan_eq; [done|apply tag_entries_sorted, (proj2 Ha ns sh Hns)|].
  intros [k v]. rewrite Hl, list_elem_of_fmap. cbn [fst snd]. split.
  - intros [Hk Hp]. destruct (H1 k v Hk) as (ns' & sh' & tag' & i & Ht & -> & ->).
    { apply starts_with_inv in Hp as [t ->]. done. }
    destruct Ht as (l' & r & Hl' & Hr & Ht). destruct (Hok _ _ _ Hl') as (Hns' & Hsh' & Htags).
    apply tag_key_prefix_inv in Hp as (-> & -> & ->); try done.
    + exists (Z.of_nat i, r). split; [done|]. apply list_elem_of_filter. split; [done|].
      apply numbered_elem. exists i. unfold log_of. by rewrite Hl'.
    + pose proof (Forall_lookup_1 _ _ _ _ Htags Hr) as Hrt. cbn in Hrt. rewrite Forall_forall in Hrt. by apply Hrt.
  - intros ([o r] & E & [Ht (i & Ei & Hi)%numbered_elem]%list_elem_of_filter). cbn [fst snd] in *. subst o.
    assert (k = tag_offsets_key ns sh tag (Z.of_nat i) /\ v = json (Z.of_nat i)) as [-> ->]
      by (split; [apply (f_equal fst E)|apply (f_equal snd E)]).
    split; [|apply tag_key_prefix]. apply H2. exists (log_of a ns sh), r. eauto using log_of_some.
Qed.

Lemma record_scan d a ns sh :
  acked d a -> names_ok a -> indexed (db_contents d) a -> no_slash ns -> no_slash sh ->
  engine_read_prefix DB_COLUMN_FAMILY (shard_record_key_prefix ns sh) d
  = (Ok (map (record_entry ns sh) (numbered (log_of a ns sh))), d).
Proof.
  intros Ha Hok (_ & _ & H3) Hns Hsh. destruct (proj2 Ha ns sh Hns) as (_ & Hb & Hr).
  destruct (engine_read_prefix_ok DB_COLUMN_FAMILY (shard_record_key_prefix ns sh) d) as (l & -> & Hs & Hl).
  do 2 f_equal. apply scan_eq; [done|by apply record_entries_sorted|].
  intros [k v]. rewrite Hl, list_elem_of_fmap. cbn [fst snd]. split.
  - intros [Hk Hp]. destruct (H3 k v Hk) as (ns' & sh' & l' & i & Hl' & [r Hi] & ->).
    { apply starts_with_inv in Hp as [t ->]. done. }
    destruct (Hok _ _ _ Hl') as (Hns' & Hsh' & _). apply record_key_prefix_inv in Hp as (-> & ->); try done.
    assert (log_of a ns sh !! i = Some r) as Hir by (unfold log_of; by rewrite Hl').
    unfold db_contents in Hr. rewrite (Hr i r Hir) in Hk. injection Hk as <-.
    exists (Z.of_nat i, r). split; [done|]. apply numbered_elem. by exists i.
  - intros ([o r] & E & (i & Ei & Hi)%numbered_elem). cbn [fst snd] in *. subst o.
    assert (k = shard_record_key ns sh (Z.of_nat i) /\ v = json r) as [-> ->]
      by (split; [apply (f_equal fst E)|apply (f_equal snd E)]).
    split; [|apply record_key_prefix]. by apply Hr.
Qed.

(** ** Reading by tag and by time *)

Lemma tag_loop_eval ns sh tag offset limit xs acc d :
  tag_offsets_loop offset limit (map (tag_entry ns sh tag) xs) acc d
  = (Ok (acc ++ take (Z.to_nat (limit - blen acc)) (filter (fun x => offset <= x.1) xs).*1), d).
Proof.
  revert acc. induction xs as [|x xs IH]; intros acc; cbn [map tag_offsets_loop tag_entry].
  { by rewrite filter_nil, fmap_nil, take_nil, app_nil_r. }
  destruct (json_ok x.1) as (_ & _ & ->). rewrite filter_cons.
  destruct (Z.leb_spec offset x.1) as [Hle|Hgt]; [rewrite decide_True by done|rewrite decide_False by lia].
  - destruct (Z.ltb_spec (blen acc) limit) as [Hlt|Hge]; cbn [andb]; rewrite IH.
    + rewrite <- app_assoc, blen_app. do 3 f_equal.
      replace (Z.to_nat (limit - blen acc)) with (S (Z.to_nat (limit - (blen acc + blen [x.1])))) by (unfold blen in *; cbn; lia).
      done.
    + by rewrite Z2Nat.nonpos by lia.
  - cbn [andb]. by rewrite IH.
Qed.

Lemma read_records_eval ns sh d a xs :
  acked d a -> no_slash ns -> (forall x, x ∈ xs -> x ∈ numbered (log_of a ns sh)) ->
  read_records ns sh xs.*1 d = (Ok xs.*2, d).
Proof.
  intros Ha Hns. induction xs as [|x xs IH]; intros Hxs; cbn [fmap list_fmap map read_records]; [done|].
  destruct (proj1 (numbered_elem _ x) (Hxs x (list_elem_of_here _ _))) as (i & Ei & Hi).
  assert (read_record ns sh x.1 d = (Ok x.2, d)) as E.
  { unfold read_record. rewrite (bind_ok _ _ _ (Some x.2) d); [done|]. apply engine_read_ok. rewrite Ei.
    by apply (proj2 Ha ns sh Hns). }
  rewrite (bind_ok _ _ _ _ _ E), (bind_ok _ _ _ xs.*2 d); [done|]. apply IH. intros y Hy. apply Hxs. by right.
Qed.

Lemma filter_numbered (P : MsgRecord -> Prop) `{!forall r, Decision (P r)} offset start l :
  (filter (fun x : Z * MsgRecord => offset <= x.1)
     (filter (fun x => P x.2) (zip (seqZ start (blen l)) l))).*2
  = filter P (drop (Z.to_nat (offset - start)) l).
Proof.
  revert start. induction l as [|r l IH]; intros start; [by rewrite drop_nil|].
  rewrite blen_cons. pose proof (blen_nonneg l). rewrite seqZ_cons by lia.
  replace (Z.pred (1 + blen l)) with (blen l) by lia. cbn [zip zip_with]. rewrite filter_cons.
  destruct (Z.le_gt_cases offset start) as [Hle|Hgt].
  - replace (Z.to_nat (offset - start)) with O by lia. rewrite drop_0, filter_cons.
    specialize (IH (Z.succ start)). replace (Z.to_nat (offset - Z.succ start)) with O in IH by lia. rewrite drop_0 in IH.
    cbn [snd]. destruct (decide (P r)); [|done]. rewrite filter_cons, decide_True by done. cbn. by f_equal.
  - replace (Z.to_nat (offset - start)) with (S (Z.to_nat (offset - Z.succ start))) by lia. cbn [drop skipn].
    cbn [snd]. destruct (decide (P r)); [|done]. rewrite filter_cons, decide_False by (cbn; lia). done.
Qed.

Lemma rocks_read_by_tag_eval s a ns sh offset tag config :
  acked (rk_db s) a -> names_ok a -> indexed (db_contents (rk_db s)) a ->
  no_slash ns -> no_slash sh -> no_slash tag ->
  rocks_read_by_tag ns sh offset tag config s
  = (Ok (take (Z.to_nat (max_record_num config))
           (filter (fun r => tag ∈ r_tags r) (drop (Z.to_nat offset) (log_of a ns sh)))), s).
Proof.
  intros Ha Hok Hi Hns Hsh Htag. unfold rocks_read_by_tag, on_db, unwrap_cf, bind at 1.
  pose proof (proj1 Ha : db_cf_handle _ _ = true) as ->.
  rewrite (bind_ok _ _ _ _ _ (tag_scan _ _ _ _ _ Ha Hok Hi Hns Hsh Htag)).
  rewrite (bind_ok _ _ _ _ _ (tag_loop_eval _ _ _ _ _ _ _ _)). cbn [app]. change (blen []) with 0.
  rewrite Z.sub_0_r, <- fmap_take, (read_records_eval ns sh _ a); [|done|done|].
  - rewrite fmap_take. pose proof (filter_numbered (fun r => tag ∈ r_tags r) offset 0 (log_of a ns sh)) as Hf.
    rewrite Z.sub_0_r in Hf. rewrite <- Hf. by destruct s.
  - intros x Hx. eapply (elem_of_take _ _ _) in Hx as (i & Hx & _). apply list_elem_of_lookup_2 in Hx.
    by apply list_elem_of_filter in Hx as [_ [_ Hx]%list_elem_of_filter].
Qed.

Lemma timestamp_loop_eval ns sh timestamp l start d :
  (forall i r, l !! i = Some r -> r_offset r = Some (start + Z.of_nat i)) ->
  exists o, timestamp_loop timestamp (map (record_entry ns sh) (zip (seqZ start (blen l)) l)) d = (Ok o, d) /\
    match o with
    | Some o => exists i r, so_offset o = start + Z.of_nat i /\ l !! i = Some r /\ timestamp <= r_timestamp r /\
        forall j r', (j < i)%nat -> l !! j = Some r' -> r_timestamp r' < timestamp
    | None => forall j r', l !! j = Some r' -> r_timestamp r' < timestamp
    end.
Proof.
  revert start. induction l as [|r l IH]; intros start Hl; [by exists None|].
  rewrite blen_cons. pose proof (blen_nonneg l). rewrite seqZ_cons by lia.
  replace (Z.pred (1 + blen l)) with (blen l) by lia. cbn [zip zip_with map timestamp_loop record_entry snd].
  destruct (json_ok r) as (_ & _ & ->). destruct (Z.leb_spec timestamp (r_timestamp r)) as [Hle|Hgt].
  - exists (Some (default_offset start)). rewrite (Hl O r eq_refl), Z.add_0_r. split; [done|].
    exists O, r. rewrite Z.add_0_r. split_and!; [done|done|done|lia].
  - destruct (IH (Z.succ start)) as (o & -> & Ho).
    { intros i r' Hi. rewrite (Hl (S i) r' Hi). f_equal. lia. }
    exists o. split; [done|]. destruct o as [o|].
    + destruct Ho as (i & r' & -> & Hi & Hts & Hj). exists (S i), r'. split_and!; [lia|done|done|].
      intros [|j] r'' Hlt Hj'; [by injection Hj' as <-|]. eapply Hj, Hj'. lia.
    + intros [|j] r' Hj; [by injection Hj as <-|]. by eapply Ho.
Qed.

Lemma rocks_offset_by_timestamp_eval s a ns sh timestamp :
  acked (rk_db s) a -> names_ok a -> indexed (db_contents (rk_db s)) a -> stamped (log_of a ns sh) ->
  no_slash ns -> no_slash sh ->
  exists o, rocks_get_offset_by_timestamp ns sh timestamp s = (Ok o, s) /\ resolves (log_of a ns sh) timestamp o.
Proof.
  intros Ha Hok Hi Hst Hns Hsh. unfold rocks_get_offset_by_timestamp, on_db, unwrap_cf, bind at 1.
  pose proof (proj1 Ha : db_cf_handle _ _ = true) as ->.
  rewrite (bind_ok _ _ _ _ _ (record_scan _ _ _ _ Ha Hok Hi Hns Hsh)). unfold numbered.
  destruct (timestamp_loop_eval ns sh timestamp (log_of a ns sh) 0 (rk_db s) Hst) as (o & -> & Ho).
  exists o. split; [by destruct s|exact Ho].
Qed.

(** ** Sequences of operations *)

Definition op_named (o : store_op) : Prop :=
  no_slash (op_namespace o) /\
  match o with
  | OpCreate info => no_slash (si_shard_name info)
  | OpDelete _ _ => False
  | OpWrite _ sh m => Forall (fun tag => no_slash tag) (r_tags m)
  | OpBatchWrite _ sh ms => Forall (fun m => Forall (fun tag => no_slash tag) (r_tags m)) ms
  | OpCommit g _ _ => no_slash g
  end.

(** A shard is created once, and only a shard that exists is written. *)
Definition strict_op (o : store_op) (a : LogSpec) : LogSpec :=
  match o with
  | OpCreate info =>
      if is_some (logs a !! (si_namespace info, si_shard_name info)) then a else spec_op o a
  | OpWrite ns sh _ | OpBatchWrite ns sh _ => if is_some (logs a !! (ns, sh)) then spec_op o a else a
  | _ => spec_op o a
  end.

Definition rocks_full s a : Prop :=
  rocks_rep s a /\ indexed (db_contents (rk_db s)) a /\ names_ok a /\
  forall k l, logs a !! k = Some l -> stamped l.

Lemma stamp_tags (P : list bytes -> Prop) start ms :
  Forall (fun m => P (r_tags m)) ms -> Forall (fun m => P (r_tags m)) (stamp start ms).
Proof. intros H. revert start. induction H as [|m ms Hm H IH]; intros start; constructor; auto. Qed.

Lemma names_ok_append a ns sh ms l :
  names_ok a -> logs a !! (ns, sh) = Some l -> Forall (fun m => Forall (fun tag => no_slash tag) (r_tags m)) ms ->
  names_ok (spec_append (ns, sh) ms a).
Proof.
  intros Hok Hl Hms ns' sh' l'. rewrite (logs_append a ns sh ms ns' sh' l Hl). case_decide as E; [|apply Hok].
  intros [= <-]. destruct (Hok ns sh l Hl) as (H1 & H2 & H3). injection E as -> ->. split_and!; [done|done|].
  apply Forall_app. split; [done|]. by apply (stamp_tags (Forall (fun tag => no_slash tag))).
Qed.

Lemma thread_write_missing ns sh ms d a :
  acked d a -> no_slash ns -> logs a !! (ns, sh) = None -> exists e, thread_batch_write ns sh ms d = (Err e, d).
Proof.
  intros Ha Hns Hl. unfold thread_batch_write, unwrap_cf.
  pose proof (proj1 Ha : db_cf_handle _ _ = true) as Ho. unfold bind at 1. rewrite Ho. unfold bind at 1.
  rewrite (read_next_ok d a ns sh Ha Hns), Hl. by eexists.
Qed.

Lemma batch_full s a ns sh ms :
  rocks_full s a -> no_slash ns -> Forall (fun m => Forall (fun tag => no_slash tag) (r_tags m)) ms ->
  blen (log_of a ns sh) + blen ms < 2 ^ 64 ->
  rocks_full (rocks_batch_write ns sh ms s).2
    (if is_some (logs a !! (ns, sh)) then spec_append (ns, sh) ms a else a).
Proof.
  intros (Hr & Hi & Hok & Hst) Hns Hms Hb. pose proof Hr as (Ha & Hs & Hend & Hg).
  destruct (handle_write_eval ns sh ms s Hs) as (handles & Hlive & E). unfold log_of in Hb.
  destruct (logs a !! (ns, sh)) as [l|] eqn:Hl; cbn [is_some].
  - destruct (rocks_batch_write_refines s a ns sh ms l Hr Hns Hl Hb) as (s' & Es & Hr').
    rewrite Es. split_and!; [done| |by eapply names_ok_append|].
    + cbn [snd]. unfold rocks_batch_write in Es. rewrite E in Es. injection Es as E1 <-. cbn [rk_db].
      apply (indexed_append ns sh ms (rk_db s) a l (seqZ (blen l) (blen ms))); try done. rewrite <- E1. by destruct (thread_batch_write ns sh ms (rk_db s)).
    + intros k l'. apply (spec_op_stamped (OpBatchWrite ns sh ms)). exact Hst.
  - destruct (thread_write_missing ns sh ms _ _ Ha Hns Hl) as (e & Et).
    unfold rocks_batch_write. rewrite E, Et. cbn [fst snd]. split_and!; [|done|done|done].
    by split_and!; [..|apply Hend|apply Hg].
Qed.

Lemma create_full s a info :
  rocks_full s a -> no_slash (si_namespace info) -> no_slash (si_shard_name info) ->
  rocks_full (rocks_create_shard info s).2
    (if is_some (logs a !! (si_namespace info, si_shard_name info)) then a
     else spec_create (si_namespace info, si_shard_name info) a).
Proof.
  intros (Hr & Hi & Hok & Hst) Hns Hsh. pose proof Hr as (Ha & Hs & Hend & Hg).
  destruct (logs a !! (si_namespace info, si_shard_name info)) as [l|] eqn:Hl; cbn [is_some].
  - assert ((rocks_create_shard info s).2 = s) as ->; [|done].
    unfold rocks_create_shard, on_db, unwrap_cf.
    pose proof (proj1 Ha : db_cf_handle _ _ = true) as Ho. unfold bind at 1. rewrite Ho. unfold bind at 1.
    rewrite (read_next_ok (rk_db s) a _ _ Ha Hns), Hl. by destruct s.
  - destruct (rocks_create_refines s a info Hr Hns Hl) as (s' & Es & Hr'). rewrite Es.
    pose proof (create_acked info s a Hns Ha) as Hf. rewrite Es in Hf. destruct Hf as (_ & Hf & _).
    split_and!; [done| | |].
    + eapply indexed_frame; [apply Ha|exact Hf|by intros k [->| ->]|..|done].
      * intros ns sh l Hl'. cbn. rewrite lookup_insert_ne; [done|]. intros [= <- <-]. congruence.
      * intros ns sh l. cbn. by intros [[_ <-]|[_ Hl']]%lookup_insert_Some.
    + intros ns sh l. cbn. intros [[[= <- <-] <-]|[_ Hl']]%lookup_insert_Some; [|by apply Hok].
      by split_and!.
    + intros k l. apply (spec_op_stamped (OpCreate info)). exact Hst.
Qed.

Lemma step_full o s a :
  op_named o -> rocks_full s a ->
  (forall ns sh, blen (log_of a ns sh) + blen (op_messages ns sh o) < 2 ^ 64) ->
  rocks_full (op_offsets o s).2 (strict_op o a).
Proof.
  intros [Hns Hn] Hf Hb. destruct o as [info|ns sh|ns sh m|ns sh ms|g ns offs]; [|done|..]; cbn in Hns.
  - pose proof (create_full s a info Hf Hns Hn) as H. cbn. unfold bind.
    by destruct (rocks_create_shard info s) as [[[]|e| |] s'].
  - specialize (Hb ns sh). cbn in Hb. rewrite decide_True in Hb by done.
    pose proof (batch_full s a ns sh [m] Hf Hns (Forall_cons_2 _ _ _ Hn (Forall_nil_2 _)) Hb) as H.
    cbn. unfold bind. rewrite write_eval.
    destruct (rocks_batch_write ns sh [m] s) as [[[|o os]|e| |] s']; done.
  - specialize (Hb ns sh). cbn in Hb. rewrite decide_True in Hb by done. by apply batch_full.
  - destruct Hf as (Hr & Hi & Hok & Hst). pose proof Hr as (Ha & _).
    pose proof (commit_acked g ns offs s a Ha) as Hf.
    destruct (rocks_commit_refines s a g ns offs Hr Hns Hn) as (s' & Es & Hr'). cbn. unfold bind.
    rewrite Es in *. destruct Hf as (_ & Hf & _). cbn [ret snd]. split_and!; [done| |done|done].
    eapply indexed_frame; [apply Ha|exact Hf|by intros k [sh ->]|done|done|done].
Qed.

Definition strict_ops (ops : list store_op) : LogSpec :=
  foldl (fun a o => strict_op o a) (mkLogSpec ∅ ∅) ops.

Lemma strict_length o a ns sh :
  blen (log_of (strict_op o a) ns sh) <= blen (log_of a ns sh) + blen (op_messages ns sh o).
Proof.
  assert (forall ns' sh' ms l, logs a !! (ns', sh') = Some l ->
    blen (log_of (spec_append (ns', sh') ms a) ns sh)
    <= blen (log_of a ns sh) + blen (if decide ((ns', sh') = (ns, sh)) then ms else [])) as Happ.
  { intros ns' sh' ms l Hl. rewrite (log_of_append a ns' sh' ms l ns sh Hl), blen_app, blen_stamp. lia. }
  destruct o as [info|ns' sh'|ns' sh' m|ns' sh' ms|g ns' offs]; cbn.
  - destruct (logs a !! _) eqn:Hl; cbn [is_some]; rewrite ?(log_of_create a _ _ ns sh Hl), blen_nil; lia.
  - unfold log_of. cbn. destruct (decide ((ns', sh') = (ns, sh))) as [->|Hne].
    + rewrite lookup_delete_eq. cbn. pose proof (blen_nonneg (default [] (logs a !! (ns, sh)))). rewrite blen_nil in *. lia.
    + rewrite lookup_delete_ne by done. rewrite blen_nil. lia.
  - destruct (logs a !! (ns', sh')) eqn:Hl; cbn [is_some]; [by apply (Happ ns' sh' [m] l)|].
    pose proof (blen_nonneg (if decide ((ns', sh') = (ns, sh)) then [m] else [])). lia.
  - destruct (logs a !! (ns', sh')) eqn:Hl; cbn [is_some]; [by apply (Happ ns' sh' ms l)|].
    pose proof (blen_nonneg (if decide ((ns', sh') = (ns, sh)) then ms else [])). lia.
  - unfold log_of. rewrite blen_nil. cbn. lia.
Qed.

Lemma attempt_full ops s a :
  Forall op_named ops -> rocks_full s a ->
  (forall ns sh, blen (log_of a ns sh) + blen (concat (map (op_messages ns sh) ops)) < 2 ^ 64) ->
  rocks_full (attempt_all ops s).2 (foldl (fun a o => strict_op o a) a ops).
Proof.
  intros Hops. revert s a. induction Hops as [|o ops Ho Hops IH]; intros s a Hf Hb; [done|]. cbn [attempt_all foldl].
  pose proof (step_full o s a Ho Hf) as H1.
  assert (forall ns sh, 0 <= blen (concat (map (op_messages ns sh) ops))) as Hpos by (intros; apply blen_nonneg).
  destruct (op_offsets o s) as [r s1]. cbn [snd] in H1. specialize (IH s1 (strict_op o a)).
  destruct (attempt_all ops s1) as [trace s2]. apply IH; [apply H1|]; intros ns sh;
    specialize (Hb ns sh); specialize (Hpos ns sh); cbn in Hb; rewrite blen_app in Hb;
    [lia|pose proof (strict_length o a ns sh); lia].
Qed.

(** A database that was just opened. *)
Definition fresh d : Prop := db_open d /\ db_contents d = ∅.

Lemma acked_fresh d : fresh d -> acked d (mkLogSpec ∅ ∅).
Proof. intros [Ho Hc]. split; [done|]. intros ns sh _. rewrite Hc. by split_and!. Qed.

Lemma full_fresh d : fresh d -> rocks_full (mkRocks d ∅) (mkLogSpec ∅ ∅).
Proof.
  intros Hd. pose proof (acked_fresh d Hd) as Ha. destruct Hd as [Ho Hc].
  split_and!; [split_and!|..]; [done|done|..].
  - intros ns sh i _ _. cbn. by rewrite Hc.
  - intros g _. cbn. rewrite Hc. split_and!; [done|by intros k [? ?]|by intros ns sh [? ?]].
  - cbn. rewrite Hc. split_and!; [done| |done]. by intros ns sh tag i (l & r & ? & _).
  - by intros ns sh l.
  - by intros k l.
Qed.
End reliable.

(** ** Theorems *)

(** C5: On a disk that does not fail, the adapter implements the abstract store
    of logs.  After any creations, writes and commits, tried one after the other
    on a new database, where no namespace, shard name that is created, tag or
    group holds a slash and no log gets to 2^64 records, creating a shard twice
    or writing to one that was not created having changed nothing: every read
    by offset returns the window of the shard's log; a read by tag returns the
    first records behind the offset that have the tag, in order; a timestamp is
    resolved to the first record that is no older; and a group is told the
    offsets it committed.  Deleting a shard that was not created is an error
    that changes nothing; deleting one that was closes it for writers, and
    leaves every record of it and of the others to be read by offset. *)
Theorem rocks_store_refines_logs {D : Type} {RD : RocksDB D} {RS : RocksSpec D} {RR : RocksReliable D}
    {MI : MapIter} {MS : MapIterSpec MI}
    {JZ : Json Z} {JB : Json bytes} {JR : Json MsgRecord} {JI : Json ShardInfo}
    {JZS : JsonSpec Z} {JBS : JsonSpec bytes} {JRS : JsonSpec MsgRecord} {JIS : JsonSpec ShardInfo} (d : D) ops :
  fresh d -> Forall op_named ops ->
  (forall ns sh, blen (concat (map (op_messages ns sh) ops)) < 2 ^ 64) ->
  let s := (attempt_all ops (mkRocks d ∅)).2 in
  let log ns sh := log_of (strict_ops ops) ns sh in
  let reads s := forall ns sh offset config,
    no_slash ns -> 0 <= offset -> 0 <= max_record_num config -> offset + max_record_num config < 2 ^ 64 ->
    read_by_offset ns sh offset config s
    = (Ok (take (Z.to_nat (max_record_num config)) (drop (Z.to_nat offset) (log ns sh))), s) in
  reads s /\
  (forall ns sh offset tag config, no_slash ns -> no_slash sh -> no_slash tag ->
     read_by_tag ns sh offset tag config s
     = (Ok (take (Z.to_nat (max_record_num config))
              (filter (fun r => tag ∈ r_tags r) (drop (Z.to_nat offset) (log ns sh)))), s)) /\
  (forall ns sh timestamp, no_slash ns -> no_slash sh ->
     exists o, get_offset_by_timestamp ns sh timestamp s = (Ok o, s) /\ resolves (log ns sh) timestamp o) /\
  (forall g, no_slash g ->
     exists l, get_offset_by_group g s = (Ok l, s) /\
               map so_offset l ≡ₚ values (group_commits (strict_ops ops) g)) /\
  (forall ns sh, no_slash ns ->
     match logs (strict_ops ops) !! (ns, sh) with
     | None => exists e, delete_shard ns sh s = (Err e, s)
     | Some _ => exists s', delete_shard ns sh s = (Ok tt, s') /\ reads s' /\
                            forall ms, exists e s'', batch_write ns sh ms s' = (Err e, s'') /\ rk_db s'' = rk_db s'
     end).
Proof.
  intros Hd Hops Hb s log reads.
  assert (rocks_full s (strict_ops ops)) as (Hr & Hi & Hok & Hst) by (by apply attempt_full; [|apply full_fresh|]).
  split_and!.
  - intros ns sh offset config. by apply rocks_read_refines.
  - intros. by apply rocks_read_by_tag_eval; [apply Hr|..].
  - intros ns sh timestamp Hns Hsh. apply rocks_offset_by_timestamp_eval; try done; [apply Hr|].
    unfold log, log_of. destruct (logs (strict_ops ops) !! (ns, sh)) eqn:E; [by eapply Hst|apply stamped_nil].
  - intros g Hg. by apply rocks_get_group_refines.
  - intros ns sh Hns. destruct (logs (strict_ops ops) !! (ns, sh)) as [l|] eqn:El; [|by eapply rocks_delete_missing].
    destruct (rocks_delete_eval s _ ns sh l Hr Hns El) as (d' & E & Hrec & Hk). eexists. split; [exact E|]. split.
    + intros ns' sh' offset config. by apply rocks_read_recorded.
    + intros ms. apply closed_write; [apply Hrec|apply Hr|exact Hk].
Qed.

#[export] Instance Header_countable : Countable Header.
Proof. by apply (inj_countable' (fun h => (h_name h, h_value h)) (fun p => mkHeader p.1 p.2)); intros []. Defined.
#[export] Instance MsgRecord_countable : Countable MsgRecord.
Proof.
  apply (inj_countable'
    (fun r => (r_offset r, r_header r, r_key r, r_data r, r_tags r, r_timestamp r, r_delay_timestamp r, r_crc_num r))
    (fun '(o, h, k, d, t, ts, dts, c) => mkMsgRecord o h k d t ts dts c)). by intros [].
Defined.
#[export] Instance ShardInfo_eq_dec : EqDecision ShardInfo.
Proof. solve_decision. Defined.
#[export] Instance ShardInfo_countable : Countable ShardInfo.
Proof.
  apply (inj_countable' (fun i => (si_namespace i, si_shard_name i, si_replica_num i))
    (fun '(n, s, r) => mkShardInfo n s r)). by intros [].
Defined.

Definition tagged_record (tag : string) (timestamp : Z) : MsgRecord :=
  mkMsgRecord None [] (lit "k") [1; 2] [lit tag] timestamp 0 7.

Definition sample_ops : list store_op :=
  [OpWrite (lit "ns") (lit "s") (tagged_record "t" 4); OpCreate (mkShardInfo (lit "ns") (lit "s") 1);
   OpBatchWrite (lit "ns") (lit "s") [tagged_record "t" 5; tagged_record "u" 6; tagged_record "t" 7]].

Lemma sample_ops_named : Forall op_named sample_ops.
Proof. repeat constructor; by apply (bool_decide_unpack _). Qed.

Lemma sample_ops_few ns sh : blen (concat (map (op_messages ns sh) sample_ops)) < 2 ^ 64.
Proof. cbn. repeat case_decide; done. Qed.

Lemma rocks_store_refines_logs_witness :
  let s := (@attempt_all _ (@RocksDBStorage_adapter _ map_db key_order coded_json coded_json coded_json coded_json)
              sample_ops (mkRocks {[ DB_COLUMN_FAMILY := ∅ ]} ∅)).2 in
  @read_by_tag _ (@RocksDBStorage_adapter _ map_db key_order coded_json coded_json coded_json coded_json)
    (lit "ns") (lit "s") 1 (lit "t") (mkReadConfig 5 0) s
  = (Ok [set_offset 2 (tagged_record "t" 7)], s).
Proof.
  intros s.
  destruct (@rocks_store_refines_logs _ map_db map_db_spec map_db_reliable key_order key_order_spec
              coded_json coded_json coded_json coded_json coded_json_spec coded_json_spec coded_json_spec coded_json_spec
              {[ DB_COLUMN_FAMILY := ∅ ]} sample_ops) as (_ & H & _).
  - split; reflexivity.
  - exact sample_ops_named.
  - exact sample_ops_few.
  - etrans; [apply (H (lit "ns") (lit "s") 1 (lit "t") (mkReadConfig 5 0)); by apply (bool_decide_unpack _)|].
    reflexivity.
Defined.


(** The second write of the batch is refused; the batch is repeated. *)
Definition flaky_ops : list store_op :=
  [OpCreate (mkShardInfo (lit "ns") (lit "s") 1);
   OpBatchWrite (lit "ns") (lit "s") [tagged_record "t" 5; tagged_record "u" 6];
   OpBatchWrite (lit "ns") (lit "s") [tagged_record "v" 7]].

Abbreviation flaky_adapter :=
  (@RocksDBStorage_adapter _ flaky_db key_order coded_json coded_json coded_json coded_json).
Abbreviation flaky_start := (mkRocks (6%nat, {[ DB_COLUMN_FAMILY := ∅ ]}) ∅).

