(* ===== verification/Topics.v ===== *)
(** * Topic names and subscription paths

    The string functions of [mqtt-broker/src/subscribe/sub_common.rs],
    [mqtt-broker/src/handler/topic.rs] and [common/base/src/utils/topic_util.rs]:
    shared, queue and exclusive subscriptions, the match of a topic with a
    path, and the validators.  Regular expressions are those of the crate
    [regex], a parameter of the functions that use them. *)

From Stdlib Require Import String.
From S2P Require Import Prelude Bytes RustStr Storage MqttTypes.

(** ** Errors of the broker: [mqtt-broker/src/handler/error.rs] *)

Inductive MqttBrokerError : Type :=
| BE_FromIoError (e : bytes)
| BE_FromUtf8Error
| BE_FromCommonError (e : CommonError)
| BE_ParseIntError (e : bytes)
| BE_TokioBroadcastSendError
| BE_SerdeJsonError (e : bytes)
| BE_GrepError (e : bytes)
| BE_FromMysqlError (e : bytes)
| BE_TopicAliasTooLong (alias : Z)
| BE_TopicNameIsEmpty
| BE_TopicNameInvalid
| BE_TopicNameIncorrectlyFormatted (name : bytes)
| BE_NotFoundConnectionInCache (id : Z)
| BE_PacketLengthError (n : Z)
| BE_ClusterIsInSelfProtection
| BE_SubPublishWaitPubRecTimeout (client_id : bytes)
| BE_SubscriptionPathNotExists (path : bytes)
| BE_UserDoesNotExist
| BE_UserAlreadyExist
| BE_SessionDoesNotExist
| BE_TopicDoesNotExist (topic : bytes)
| BE_UnavailableStorageType
| BE_CommonError (e : bytes)
| BE_InvalidAclAction
| BE_InvalidAclPermission
| BE_TopicRewriteRuleAlreadyExist
| BE_DelayPublishDecodeTopicNameFail (topic : bytes)
| BE_InvalidSchemaType (schema_type : bytes)
| BE_KafkaError (e : bytes).

(** [Regex::new(pattern)]: the match function, unless the pattern is wrong. *)
Class RegexCrate : Type := { regex_new : bytes -> option (bytes -> bool) }.

(** ** sub_common.rs *)

Definition is_share_sub (sub_name : bytes) : bool := starts_with (lit "$share") sub_name.
Definition is_queue_sub (sub_name : bytes) : bool := starts_with (lit "$queue") sub_name.

(** [Vec::remove(0)] panics on an empty vector. *)
Definition decode_share_info {E : Type} (sub_name : bytes) : outcome E (bytes * bytes) :=
  match split_on slash sub_name with
  | _ :: group_name :: str_slice => Ok (group_name, lit "/" ++ join_with (lit "/") str_slice)
  | _ => Panic
  end.

Definition decode_queue_info {E : Type} (sub_name : bytes) : outcome E bytes :=
  match split_on slash sub_name with
  | _ :: str_slice => Ok (lit "/" ++ join_with (lit "/") str_slice)
  | [] => Panic
  end.

Definition min_qos (qos sub_qos : QoS) : QoS :=
  if u8_of_QoS qos <=? u8_of_QoS sub_qos then qos else sub_qos.

(** The part of a path behind the prefix of a shared or queue subscription. *)
Definition plain_path {S E : Type} (sub_path : bytes) : M S E bytes :=
  if is_share_sub sub_path then
    let! (_, group_path) := lift (decode_share_info sub_path) in ret group_path
  else if is_queue_sub sub_path then lift (decode_queue_info sub_path)
  else ret sub_path.

Section regex.
Context {RX : RegexCrate} {S E : Type}.

(** [Regex::new(p).unwrap().is_match(s)]. *)
Definition is_match (pattern s : bytes) : M S E bool :=
  let! re := unwrap (regex_new pattern) in ret (re s).

Definition match_wildcard (topic path : bytes) : M S E bool :=
  if contains_octet plus_sign path then
    is_match (replace_octet plus_sign (lit "[^+*/]+") path) topic
  else if contains_octet hash_sign path then
    let! last := unwrap (last (split_on slash path)) in
    if negb (bool_decide (last = lit "#")) then ret false
    else is_match (replace_octet hash_sign (lit "[^+#]+") path) topic
  else ret false.

Definition path_regex_match (topic_name sub_path : bytes) : M S E bool :=
  let! path := plain_path sub_path in
  let! topic := plain_path topic_name in
  if bool_decide (topic = path) then ret true else match_wildcard topic path.

(** The loop over the pieces of the path. *)
Fixpoint pieces_valid (pieces : list bytes) : bool :=
  match pieces with
  | [] => true
  | path :: pieces =>
      if contains_octet plus_sign path && negb (bool_decide (path = lit "+")) then false
      else if contains_octet hash_sign path && negb (bool_decide (path = lit "#")) then false
      else pieces_valid pieces
  end.

Definition sub_path_validator (sub_path : bytes) : M S E bool :=
  let! ok := is_match (lit "^[\$a-zA-Z0-9_#+/]+$") sub_path in
  if negb ok then ret false else ret (pieces_valid (split_on slash sub_path)).

(** ** topic_util.rs *)

Definition base_topic_name_regex_match (topic_name regex_topic_name : bytes) : M S E bool :=
  if bool_decide (topic_name = regex_topic_name) then ret true
  else match_wildcard topic_name regex_topic_name.

Definition topic_name_regex_match (topic_name1 topic_name2 : bytes) : M S E bool :=
  let! b := base_topic_name_regex_match topic_name1 topic_name2 in
  if b then ret true else base_topic_name_regex_match topic_name2 topic_name1.
End regex.

Definition is_exclusive_sub (sub_path : bytes) : bool := starts_with (lit "$exclusive") sub_path.
Definition decode_exclusive_sub_path_to_topic_name (sub_path : bytes) : bytes :=
  if is_exclusive_sub sub_path then
    trim_start_matches (length sub_path) (lit "$exclusive") sub_path
  else sub_path.

(** ** handler/topic.rs *)

Definition payload_format_validator (payload : bytes) (payload_format_indicator max_packet_size : Z)
  : bool :=
  if (blen payload =? 0) || (max_packet_size <? blen payload) then false
  else if payload_format_indicator =? 1 then is_some (from_utf8 payload)
  else false.

Definition topic_name_validator {RX : RegexCrate} {S : Type} (topic_name : bytes)
  : M S MqttBrokerError unit :=
  if blen topic_name =? 0 then fail BE_TopicNameIsEmpty
  else
    let topic_slice := split_on slash topic_name in
    let! first := unwrap (head topic_slice) in
    if bool_decide (first = lit "/") then fail (BE_TopicNameIncorrectlyFormatted topic_name)
    else
      let! last := unwrap (last topic_slice) in
      if bool_decide (last = lit "/") then fail (BE_TopicNameIncorrectlyFormatted topic_name)
      else
        let! ok := is_match (lit "^[A-Za-z0-9_+#/$]+$") topic_name in
        if negb ok then fail (BE_TopicNameIncorrectlyFormatted topic_name) else ret tt.

(** ** Facts about paths *)

(** A shared path: group and filter. *)
Lemma decode_share_info_eval {E} g rest :
  slash ∉ g ->
  decode_share_info (E := E) (lit "$share/" ++ g ++ lit "/" ++ rest) = Ok (g, lit "/" ++ rest).
Proof.
  intros Hg. unfold decode_share_info.
  change (lit "$share/" ++ g ++ lit "/" ++ rest) with (lit "$share" ++ slash :: (g ++ slash :: rest)).
  rewrite split_on_app by (by apply (bool_decide_unpack _)). rewrite split_on_app by done.
  by rewrite (join_split slash).
Qed.

Lemma decode_queue_info_eval {E} rest :
  decode_queue_info (E := E) (lit "$queue/" ++ rest) = Ok (lit "/" ++ rest).
Proof.
  unfold decode_queue_info. change (lit "$queue/" ++ rest) with (lit "$queue" ++ slash :: rest).
  rewrite split_on_app by (by apply (bool_decide_unpack _)). by rewrite (join_split slash).
Qed.

Lemma decode_share_info_panics {E} p :
  decode_share_info (E := E) p = Panic <-> slash ∉ p.
Proof.
  unfold decode_share_info. split.
  - intros H Hin. destruct (split_on_has _ _ Hin) as (a & b & -> & Ha).
    rewrite split_on_app in H by done. pose proof (split_on_nonempty slash b).
    by destruct (split_on slash b).
  - intros Hp. by rewrite split_on_single.
Qed.

Section matching.
Context {RX : RegexCrate} {S E : Type}.

Lemma plain_path_share g rest s :
  slash ∉ g ->
  plain_path (S := S) (E := E) (lit "$share/" ++ g ++ lit "/" ++ rest) s = (Ok (lit "/" ++ rest), s).
Proof.
  intros Hg. unfold plain_path. change (is_share_sub _) with true. cbv iota.
  unfold bind, lift. by rewrite decode_share_info_eval.
Qed.

Lemma plain_path_plain p s :
  is_share_sub p = false -> is_queue_sub p = false ->
  plain_path (S := S) (E := E) p s = (Ok p, s).
Proof. unfold plain_path. by intros -> ->. Qed.

Lemma match_wildcard_plain topic path s :
  plus_sign ∉ path -> hash_sign ∉ path ->
  match_wildcard (S := S) (E := E) topic path s = (Ok false, s).
Proof.
  intros H1 H2. unfold match_wildcard, contains_octet.
  by rewrite !bool_decide_eq_false_2.
Qed.
End matching.

(** ** Theorems *)

(** A subscription [$share/<group>/<filter>] is taken apart into its group
    and [/<filter>], and matches a topic exactly when [/<filter>] does. *)
Theorem share_subscription_path {RX : RegexCrate} {S E : Type} group filter topic (s : S) :
  slash ∉ group -> is_share_sub topic = false -> is_queue_sub topic = false ->
  decode_share_info (E := E) (lit "$share/" ++ group ++ lit "/" ++ filter) = Ok (group, lit "/" ++ filter) /\
  path_regex_match (E := E) topic (lit "$share/" ++ group ++ lit "/" ++ filter) s
  = path_regex_match topic (lit "/" ++ filter) s.
Proof.
  intros Hg Ht1 Ht2. split; [by apply decode_share_info_eval|]. unfold path_regex_match.
  rewrite (bind_ok _ _ _ _ _ (plain_path_share group filter s Hg)).
  by rewrite (bind_ok _ _ _ _ _ (plain_path_plain (lit "/" ++ filter) s eq_refl eq_refl)).
Qed.

(** A regular expression engine for the witnesses: it accepts every pattern
    and matches nothing. *)
Definition no_match : RegexCrate := {| regex_new _ := Some (fun _ => false) |}.

Lemma share_subscription_path_witness :
  decode_share_info (E := MqttBrokerError) (lit "$share/" ++ lit "g" ++ lit "/" ++ lit "a/b")
  = Ok (lit "g", lit "/" ++ lit "a/b") /\
  @path_regex_match no_match unit MqttBrokerError (lit "/a/b")
    (lit "$share/" ++ lit "g" ++ lit "/" ++ lit "a/b") tt
  = @path_regex_match no_match unit MqttBrokerError (lit "/a/b") (lit "/" ++ lit "a/b") tt.
Proof.
  apply (@share_subscription_path no_match unit MqttBrokerError (lit "g") (lit "a/b") (lit "/a/b") tt).
  - by apply (bool_decide_unpack _).
  - reflexivity.
  - reflexivity.
Defined.

(** A subscription path that starts with [$share] and holds no slash
    passes the checks of [sub_path_validator] when its octets are allowed, and
    then panics wherever it is matched with a topic. *)
Theorem share_without_group_panics {RX : RegexCrate} {S E : Type} path topic (s : S) :
  is_share_sub path = true -> slash ∉ path -> plus_sign ∉ path -> hash_sign ∉ path ->
  (forall allowed, regex_new (lit "^[\$a-zA-Z0-9_#+/]+$") = Some allowed -> allowed path = true ->
     sub_path_validator (E := E) path s = (Ok true, s)) /\
  path_regex_match (E := E) topic path s = (Panic, s).
Proof.
  intros Hs Hsl Hp Hh. split.
  - intros allowed Hre Ha. unfold sub_path_validator, is_match, unwrap, bind. rewrite Hre. cbn [ret].
    unfold ret. rewrite Ha. cbn [negb]. rewrite split_on_single by done. cbn [pieces_valid].
    unfold contains_octet. rewrite (bool_decide_eq_false_2 (plus_sign ∈ path)) by done.
    by rewrite (bool_decide_eq_false_2 (hash_sign ∈ path)).
  - unfold path_regex_match, plain_path at 1. rewrite Hs. unfold bind at 1, bind at 1, lift.
    by rewrite (proj2 (decode_share_info_panics path) Hsl).
Qed.

Lemma share_without_group_panics_witness :
  (forall allowed,
     @regex_new {| regex_new _ := Some (fun _ => true) |} (lit "^[\$a-zA-Z0-9_#+/]+$") = Some allowed ->
     allowed (lit "$shared") = true ->
     @sub_path_validator {| regex_new _ := Some (fun _ => true) |} unit unit (lit "$shared") tt = (Ok true, tt)) /\
  @path_regex_match {| regex_new _ := Some (fun _ => true) |} unit unit (lit "t") (lit "$shared") tt
  = (Panic, tt).
Proof.
  apply (@share_without_group_panics {| regex_new _ := Some (fun _ => true) |} unit unit
           (lit "$shared") (lit "t") tt).
  - reflexivity.
  - by apply (bool_decide_unpack _).
  - by apply (bool_decide_unpack _).
  - by apply (bool_decide_unpack _).
Defined.
