(* ===== verification/Subscriptions.v ===== *)
(** * The subscription index of the broker

    [mqtt-broker/src/subscribe/subscribe_manager.rs] and the handlers that
    fill and empty it: [handler/subscribe.rs], [handler/unsubscribe.rs] and
    [handler/sub_exclusive.rs].  [SubscribeManager] keeps every subscription
    of a client and, for every topic that a subscription matches, an entry
    that a push thread serves. *)

From Stdlib Require Import String.
From S2P Require Import Prelude Bytes RustStr Storage MqttTypes Topics.

(** ** Data *)

Record Subscriber : Type := mkSubscriber {
  s_protocol : MqttProtocol;
  s_client_id : bytes;
  s_sub_path : bytes;
  s_topic_name : bytes;
  s_group_name : option bytes;
  s_topic_id : bytes;
  s_qos : QoS;
  s_nolocal : bool;
  s_preserve_retain : bool;
  s_retain_forward_rule : RetainForwardRule;
  s_subscription_identifier : option Z
}.

Record MqttSubscribe : Type := mkMqttSubscribe {
  ms_client_id : bytes;
  ms_path : bytes;
  ms_cluster_name : bytes;
  ms_broker_id : Z;
  ms_protocol : MqttProtocol;
  ms_filter : Filter;
  ms_pkid : Z;
  ms_subscribe_properties : option SubscribeProperties
}.

Record MqttTopic : Type := mkMqttTopic {
  t_topic_id : bytes;
  t_cluster_name : bytes;
  t_topic_name : bytes;
  t_retain_message : option bytes;
  t_retain_message_expired_at : option Z;
  t_create_time : Z
}.

Record ShareSubShareSub : Type := mkShareSubShareSub {
  ss_client_id : bytes;
  ss_group_name : bytes;
  ss_sub_name : bytes;
  ss_protocol : MqttProtocol;
  ss_packet_identifier : Z;
  ss_filter : Filter;
  ss_subscription_identifier : option Z
}.

Record ShareLeaderSubscribeData : Type := mkShareLeaderSubscribeData {
  sl_group_name : bytes;
  sl_topic_id : bytes;
  sl_topic_name : bytes;
  sl_sub_name : bytes;
  sl_sub_list : gmap bytes Subscriber
}.

Record TopicSubscribeInfo : Type := mkTopicSubscribeInfo { ti_client_id : bytes; ti_path : bytes }.

(** The sending half of a push thread's stop channel: [send] of tokio's
    broadcast channel fails when nobody receives. *)
Class StopChannel : Type := { Sender : Type; send_ok : Sender -> bool }.

Section manager.
Context {SC : StopChannel}.

Record SubscribeManager : Type := mkSubscribeManager {
  subscribe_list : gmap bytes MqttSubscribe;
  exclusive_push : gmap bytes Subscriber;
  exclusive_push_thread : gmap bytes Sender;
  share_leader_push : gmap bytes ShareLeaderSubscribeData;
  share_leader_push_thread : gmap bytes Sender;
  share_follower_resub : gmap bytes ShareSubShareSub;
  share_follower_resub_thread : gmap bytes Sender;
  share_follower_identifier_id : gmap Z bytes;
  exclusive_subscribe : gmap bytes bytes;
  topic_subscribe_list : gmap bytes (list TopicSubscribeInfo)
}.

Definition SubscribeManager_new : SubscribeManager :=
  mkSubscribeManager ∅ ∅ ∅ ∅ ∅ ∅ ∅ ∅ ∅ ∅.

(** *** Assignments to the maps *)

Definition upd_subscribe_list f m :=
  mkSubscribeManager (f (subscribe_list m)) (exclusive_push m) (exclusive_push_thread m)
    (share_leader_push m) (share_leader_push_thread m) (share_follower_resub m)
    (share_follower_resub_thread m) (share_follower_identifier_id m) (exclusive_subscribe m)
    (topic_subscribe_list m).
Definition upd_exclusive_push f m :=
  mkSubscribeManager (subscribe_list m) (f (exclusive_push m)) (exclusive_push_thread m)
    (share_leader_push m) (share_leader_push_thread m) (share_follower_resub m)
    (share_follower_resub_thread m) (share_follower_identifier_id m) (exclusive_subscribe m)
    (topic_subscribe_list m).
Definition upd_share_leader_push f m :=
  mkSubscribeManager (subscribe_list m) (exclusive_push m) (exclusive_push_thread m)
    (f (share_leader_push m)) (share_leader_push_thread m) (share_follower_resub m)
    (share_follower_resub_thread m) (share_follower_identifier_id m) (exclusive_subscribe m)
    (topic_subscribe_list m).
Definition upd_share_follower_resub f m :=
  mkSubscribeManager (subscribe_list m) (exclusive_push m) (exclusive_push_thread m)
    (share_leader_push m) (share_leader_push_thread m) (f (share_follower_resub m))
    (share_follower_resub_thread m) (share_follower_identifier_id m) (exclusive_subscribe m)
    (topic_subscribe_list m).
Definition upd_exclusive_subscribe f m :=
  mkSubscribeManager (subscribe_list m) (exclusive_push m) (exclusive_push_thread m)
    (share_leader_push m) (share_leader_push_thread m) (share_follower_resub m)
    (share_follower_resub_thread m) (share_follower_identifier_id m) (f (exclusive_subscribe m))
    (topic_subscribe_list m).
Definition upd_topic_subscribe_list f m :=
  mkSubscribeManager (subscribe_list m) (exclusive_push m) (exclusive_push_thread m)
    (share_leader_push m) (share_leader_push_thread m) (share_follower_resub m)
    (share_follower_resub_thread m) (share_follower_identifier_id m) (exclusive_subscribe m)
    (f (topic_subscribe_list m)).

(** *** Keys *)

Definition subscribe_key (client_id path : bytes) : bytes := client_id ++ lit "_" ++ path.
Definition exclusive_key (client_id sub_name topic_id : bytes) : bytes :=
  client_id ++ lit "_" ++ sub_name ++ lit "_" ++ topic_id.
Definition share_leader_key (group_name sub_name topic_id : bytes) : bytes :=
  group_name ++ lit "_" ++ sub_name ++ lit "_" ++ topic_id.
Definition share_leader_sub_key (client_id sub_path : bytes) : bytes :=
  client_id ++ lit "_" ++ sub_path.
Definition share_follower_key (client_id group_name topic_id : bytes) : bytes :=
  client_id ++ lit "_" ++ group_name ++ lit "_" ++ topic_id.

(** *** Operations *)

Definition add_subscribe (subscribe : MqttSubscribe) (m : SubscribeManager) : SubscribeManager :=
  upd_subscribe_list (insert (subscribe_key (ms_client_id subscribe) (ms_path subscribe)) subscribe) m.
Definition get_subscribe (client_id path : bytes) (m : SubscribeManager) : option MqttSubscribe :=
  subscribe_list m !! subscribe_key client_id path.
Definition remove_subscribe_entry (client_id path : bytes) (m : SubscribeManager) : SubscribeManager :=
  upd_subscribe_list (delete (subscribe_key client_id path)) m.

Definition add_exclusive_push_entry (client_id path topic_id : bytes) (sub : Subscriber)
    (m : SubscribeManager) : SubscribeManager :=
  upd_exclusive_push (insert (exclusive_key client_id path topic_id) sub) m.

(** [list.retain(|x| keep(x))] on the list of a topic. *)
Definition retain_topic_subscribe (topic_name : bytes) (keep : TopicSubscribeInfo -> bool)
    (m : SubscribeManager) : SubscribeManager :=
  upd_topic_subscribe_list (alter (fun l => filter (fun x => keep x) l) topic_name) m.
Definition remove_topic_subscribe_by_client_id (topic_name client_id : bytes)
    (m : SubscribeManager) : SubscribeManager :=
  retain_topic_subscribe topic_name (fun x => bool_decide (ti_client_id x = client_id)) m.
Definition remove_topic_subscribe_by_path (topic_name path : bytes) (m : SubscribeManager)
  : SubscribeManager :=
  retain_topic_subscribe topic_name (fun x => bool_decide (ti_path x = path)) m.

Definition add_topic_subscribe (topic_name client_id path : bytes) (m : SubscribeManager)
  : SubscribeManager :=
  match topic_subscribe_list m !! topic_name with
  | Some list =>
      upd_topic_subscribe_list (insert topic_name (list ++ [mkTopicSubscribeInfo client_id path])) m
  | None => upd_topic_subscribe_list (insert topic_name [mkTopicSubscribeInfo client_id path]) m
  end.
Definition contain_topic_subscribe (topic_name : bytes) (m : SubscribeManager) : bool :=
  match topic_subscribe_list m !! topic_name with
  | Some list => negb (blen list =? 0)
  | None => false
  end.

Definition add_share_subscribe_follower (client_id group_name topic_id : bytes)
    (share_sub : ShareSubShareSub) (m : SubscribeManager) : SubscribeManager :=
  upd_share_follower_resub (insert (share_follower_key client_id group_name topic_id) share_sub) m.

Definition is_exclusive_subscribe (topic : bytes) (m : SubscribeManager) : bool :=
  is_some (exclusive_subscribe m !! topic).
Definition add_exclusive_subscribe_entry (topic client_id : bytes) (m : SubscribeManager)
  : SubscribeManager := upd_exclusive_subscribe (insert topic client_id) m.
Definition remove_exclusive_subscribe_by_topic (topic : bytes) (m : SubscribeManager)
  : SubscribeManager := upd_exclusive_subscribe (delete topic) m.

Definition set_sub_list (f : gmap bytes Subscriber -> gmap bytes Subscriber)
    (d : ShareLeaderSubscribeData) : ShareLeaderSubscribeData :=
  mkShareLeaderSubscribeData (sl_group_name d) (sl_topic_id d) (sl_topic_name d) (sl_sub_name d)
    (f (sl_sub_list d)).

(** The group name is unwrapped: every caller sets it. *)
Definition add_share_subscribe_leader (sub_name : bytes) (sub : Subscriber) (group_name : bytes)
    (m : SubscribeManager) : SubscribeManager :=
  let share_leader_key := share_leader_key group_name sub_name (s_topic_id sub) in
  let leader_sub_key := share_leader_sub_key (s_client_id sub) sub_name in
  match share_leader_push m !! share_leader_key with
  | Some share_sub =>
      upd_share_leader_push
        (insert share_leader_key (set_sub_list (insert leader_sub_key sub) share_sub)) m
  | None =>
      upd_share_leader_push
        (insert share_leader_key
           (mkShareLeaderSubscribeData group_name (s_topic_id sub) (s_topic_name sub) sub_name
              {[ leader_sub_key := sub ]})) m
  end.

(** *** Removing a client: loops over a copy of the maps *)

Context {MI : MapIter}.

Definition remove_exclusive_push_by_client_id (client_id : bytes) (m : SubscribeManager)
  : SubscribeManager :=
  foldl (fun m kv =>
           if bool_decide (s_client_id kv.2 = client_id) then
             remove_topic_subscribe_by_client_id (s_topic_name kv.2) (s_client_id kv.2)
               (upd_exclusive_push (delete kv.1) m)
           else m) m (map_iter (exclusive_push m)).

(** The inner loop, over the subscribers of one group. *)
Definition remove_leader_subs (client_id key : bytes) (sub_list : gmap bytes Subscriber)
    (m : SubscribeManager) : SubscribeManager :=
  foldl (fun m kv =>
           if bool_decide (s_client_id kv.2 = client_id) then
             remove_topic_subscribe_by_client_id (s_topic_name kv.2) (s_client_id kv.2)
               (upd_share_leader_push (alter (set_sub_list (delete kv.1)) key) m)
           else m) m (map_iter sub_list).
Definition remove_share_subscribe_leader_by_client_id (client_id : bytes) (m : SubscribeManager)
  : SubscribeManager :=
  foldl (fun m kv => remove_leader_subs client_id kv.1 (sl_sub_list kv.2) m) m
    (map_iter (share_leader_push m)).

Definition remove_share_subscribe_follower_by_client_id (client_id : bytes) (m : SubscribeManager)
  : SubscribeManager :=
  foldl (fun m kv =>
           if bool_decide (ss_client_id kv.2 = client_id) then
             upd_share_follower_resub (delete kv.1) m
           else m) m (map_iter (share_follower_resub m)).

Definition remove_exclusive_subscribe_by_client_id (client_id : bytes) (m : SubscribeManager)
  : SubscribeManager :=
  foldl (fun m kv =>
           if bool_decide (kv.2 = client_id) then upd_exclusive_subscribe (delete kv.1) m else m)
    m (map_iter (exclusive_subscribe m)).

Definition remove_client_id (client_id : bytes) (m : SubscribeManager) : SubscribeManager :=
  let m := remove_exclusive_push_by_client_id client_id m in
  let m := remove_share_subscribe_leader_by_client_id client_id m in
  let m := remove_share_subscribe_follower_by_client_id client_id m in
  remove_exclusive_subscribe_by_client_id client_id m.
End manager.

(** ** The handlers

    They run on the manager and on the stop signals that they have sent; the
    rest of the broker that they consult is [BrokerEnv]: the configuration,
    the topics in the cache, and the calls to the placement center. *)

Record BrokerEnv : Type := mkBrokerEnv {
  conf_cluster_name : bytes;
  conf_broker_id : Z;
  topic_info : gmap bytes MqttTopic;
  exclusive_subscription_available : bool;
  placement_set_subscribe : MqttSubscribe -> outcome CommonError unit;
  placement_delete_subscribe : bytes -> bytes -> outcome CommonError unit;
  get_share_sub_leader : bytes -> outcome CommonError Z
}.

Section handlers.
Context {SC : StopChannel} {MI : MapIter} {RX : RegexCrate}.

Record SubWorld : Type := mkSubWorld {
  w_manager : SubscribeManager;
  w_stops : list Sender
}.
Definition H (A : Type) : Type := M SubWorld MqttBrokerError A.

Definition manage (f : SubscribeManager -> SubscribeManager) : H unit :=
  fun w => (Ok tt, mkSubWorld (f (w_manager w)) (w_stops w)).
Definition manager : H SubscribeManager := fun w => (Ok (w_manager w), w).

(** [call.await?], an error of the placement center turned into the broker's. *)
Definition rpc {A : Type} (o : outcome CommonError A) : H A :=
  match o with
  | Ok a => ret a
  | Err e => fail (BE_FromCommonError e)
  | Panic => panic
  | OutOfFuel => out_of_fuel
  end.

(** [sx.send(true)?]. *)
Definition send_stop (sx : Sender) : H unit :=
  fun w => if send_ok sx then (Ok tt, mkSubWorld (w_manager w) (w_stops w ++ [sx]))
           else (Err BE_TokioBroadcastSendError, w).
Definition send_stop_to (o : option Sender) : H unit :=
  match o with Some sx => send_stop sx | None => ret tt end.

(** *** sub_exclusive.rs *)

Definition check_exclusive_subscribe (env : BrokerEnv) (subscribe : Subscribe)
    (m : SubscribeManager) : bool :=
  if negb (exclusive_subscription_available env) then false
  else
    forallb (fun filter =>
      if negb (is_exclusive_sub (path filter)) then true
      else negb (is_exclusive_subscribe
                   (decode_exclusive_sub_path_to_topic_name (path filter)) m))
      (filters subscribe).

Definition add_exclusive_subscribe (path client_id : bytes) (m : SubscribeManager)
  : SubscribeManager :=
  if negb (is_exclusive_sub path) then m
  else add_exclusive_subscribe_entry (decode_exclusive_sub_path_to_topic_name path) client_id m.

(** The loop returns at the first path that is not exclusive. *)
Fixpoint remove_exclusive_subscribe (paths : list bytes) (m : SubscribeManager)
  : SubscribeManager :=
  match paths with
  | [] => m
  | path :: paths =>
      if negb (is_exclusive_sub path) then m
      else remove_exclusive_subscribe paths
             (remove_exclusive_subscribe_by_topic (decode_exclusive_sub_path_to_topic_name path) m)
  end.

Definition remove_exclusive_subscribe_by_path (path : bytes) (m : SubscribeManager)
  : SubscribeManager :=
  if negb (is_exclusive_sub path) then m
  else remove_exclusive_subscribe_by_topic (decode_exclusive_sub_path_to_topic_name path) m.

(** *** subscribe.rs *)

(** [ParseShareQueueSubscribeRequest]. *)
Record ShareRequest : Type := mkShareRequest {
  q_topic_name : bytes;
  q_topic_id : bytes;
  q_client_id : bytes;
  q_protocol : MqttProtocol;
  q_sub_identifier : option Z;
  q_filter : Filter;
  q_sub_name : bytes;
  q_group_name : bytes;
  q_pkid : Z
}.

Definition add_share_push_leader (req : ShareRequest) : H unit :=
  let sub :=
    mkSubscriber (q_protocol req) (q_client_id req) (path (q_filter req)) (q_topic_name req)
      (Some (q_group_name req)) (q_topic_id req) (f_qos (q_filter req)) (nolocal (q_filter req))
      (preserve_retain (q_filter req)) (retain_forward_rule (q_filter req)) (q_sub_identifier req) in
  manage (add_topic_subscribe (q_topic_name req) (q_client_id req) (path (q_filter req))) ;;
  manage (add_share_subscribe_leader (q_sub_name req) sub (q_group_name req)).

Definition add_share_push_follower (req : ShareRequest) : H unit :=
  let share_sub :=
    mkShareSubShareSub (q_client_id req) (q_group_name req) (q_sub_name req) (q_protocol req)
      (q_pkid req) (q_filter req) (q_sub_identifier req) in
  manage (add_share_subscribe_follower (q_client_id req) (q_group_name req) (q_topic_id req) share_sub).

Definition parse_share_queue_subscribe_common (env : BrokerEnv) (req : ShareRequest) : H unit :=
  let! matches := path_regex_match (q_topic_name req) (q_sub_name req) in
  if matches then
    match get_share_sub_leader env (q_group_name req) with
    | Ok broker_id =>
        if broker_id =? conf_broker_id env then add_share_push_leader req
        else add_share_push_follower req
    | Err _ => ret tt
    | Panic => panic
    | OutOfFuel => out_of_fuel
    end
  else ret tt.

Definition set_names (group_name sub_name : bytes) (req : ShareRequest) : ShareRequest :=
  mkShareRequest (q_topic_name req) (q_topic_id req) (q_client_id req) (q_protocol req)
    (q_sub_identifier req) (q_filter req) sub_name group_name (q_pkid req).

Definition parse_share_subscribe (env : BrokerEnv) (req : ShareRequest) : H unit :=
  let! (group_name, sub_name) := lift (decode_share_info (path (q_filter req))) in
  parse_share_queue_subscribe_common env
    (set_names (group_name ++ lit "_" ++ sub_name) sub_name req).

Definition parse_queue_subscribe (env : BrokerEnv) (req : ShareRequest) : H unit :=
  let! sub_name := lift (decode_queue_info (path (q_filter req))) in
  parse_share_queue_subscribe_common env (set_names (lit "$queue_" ++ sub_name) sub_name req).

Definition add_exclusive_push (topic : MqttTopic) (client_id : bytes) (protocol : MqttProtocol)
    (sub_identifier : option Z) (filter : Filter) : H unit :=
  let! matches := path_regex_match (t_topic_name topic) (path filter) in
  if matches then
    let sub :=
      mkSubscriber protocol client_id (path filter) (t_topic_name topic) None (t_topic_id topic)
        (f_qos filter) (nolocal filter) (preserve_retain filter) (retain_forward_rule filter)
        sub_identifier in
    manage (add_topic_subscribe (t_topic_name topic) client_id (path filter)) ;;
    manage (add_exclusive_push_entry client_id (path filter) (t_topic_id topic) sub)
  else ret tt.

Definition parse_subscribe (env : BrokerEnv) (client_id : bytes) (topic : MqttTopic)
    (protocol : MqttProtocol) (pkid : Z) (filter : Filter)
    (subscribe_properties : option SubscribeProperties) : H unit :=
  let sub_identifier :=
    match subscribe_properties with
    | Some properties => sp_subscription_identifier properties
    | None => None
    end in
  (if exclusive_subscription_available env then
     manage (add_exclusive_subscribe (path filter) client_id)
   else ret tt) ;;
  let req :=
    mkShareRequest (t_topic_name topic) (t_topic_id topic) client_id protocol sub_identifier filter
      [] [] pkid in
  if is_share_sub (path filter) then parse_share_subscribe env req
  else if is_queue_sub (path filter) then parse_queue_subscribe env req
  else add_exclusive_push topic client_id protocol sub_identifier filter.

Definition save_subscribe (env : BrokerEnv) (client_id : bytes) (protocol : MqttProtocol)
    (subscribe : Subscribe) (subscribe_properties : option SubscribeProperties) : H unit :=
  for_each (filters subscribe) (fun filter =>
    let subscribe_data :=
      mkMqttSubscribe client_id (path filter) (conf_cluster_name env) (conf_broker_id env) protocol
        filter (packet_identifier subscribe) subscribe_properties in
    rpc (placement_set_subscribe env subscribe_data) ;;
    manage (add_subscribe subscribe_data)) ;;
  for_each (map_iter (topic_info env)) (fun topic =>
    for_each (filters subscribe) (fun filter =>
      parse_subscribe env client_id topic.2 protocol (packet_identifier subscribe) filter
        subscribe_properties)).

(** *** unsubscribe.rs *)

(** The subscribers of one shared group: the inner loop and its [flag]. *)
Fixpoint unsub_leader_loop (client_id group_name sub_name key : bytes)
    (subs : list (bytes * Subscriber)) (flag : bool) : H bool :=
  match subs with
  | [] => ret flag
  | (sub_key, share_sub) :: subs =>
      if bool_decide (s_client_id share_sub = client_id)
         && bool_decide (s_group_name share_sub = Some group_name)
         && bool_decide (s_sub_path share_sub = sub_name)
      then
        manage (upd_share_leader_push (alter (set_sub_list (delete sub_key)) key)) ;;
        manage (remove_topic_subscribe_by_path (s_topic_name share_sub) (s_sub_path share_sub)) ;;
        unsub_leader_loop client_id group_name sub_name key subs true
      else unsub_leader_loop client_id group_name sub_name key subs flag
  end.

Definition unsub_share (client_id path : bytes) : H unit :=
  let! (group_name, sub_name) := lift (decode_share_info path) in
  let! m := manager in
  for_each (map_iter (share_leader_push m)) (fun kv =>
    let! flag := unsub_leader_loop client_id group_name sub_name kv.1
                   (map_iter (sl_sub_list kv.2)) false in
    if flag then let! m := manager in send_stop_to (share_leader_push_thread m !! kv.1)
    else ret tt) ;;
  let! m := manager in
  for_each (map_iter (share_follower_resub m)) (fun kv =>
    if bool_decide (ss_client_id kv.2 = client_id)
       && bool_decide (MqttTypes.path (ss_filter kv.2) = path)
    then
      manage (upd_share_follower_resub (delete kv.1)) ;;
      let! m := manager in send_stop_to (share_follower_resub_thread m !! kv.1)
    else ret tt).

Definition unsub_exclusive (client_id path : bytes) : H unit :=
  let! m := manager in
  for_each (map_iter (exclusive_push m)) (fun kv =>
    if bool_decide (s_client_id kv.2 = client_id) && bool_decide (s_sub_path kv.2 = path) then
      let! m := manager in
      match exclusive_push_thread m !! kv.1 with
      | Some sx => send_stop sx ;; manage (upd_exclusive_push (delete kv.1))
      | None => ret tt
      end ;;
      manage (remove_topic_subscribe_by_path (s_topic_name kv.2) (s_sub_path kv.2))
    else ret tt).

(** The body of the inner loop: one path and one topic. *)
Definition unsubscribe_path (client_id topic_name path : bytes) : H unit :=
  let! matches := path_regex_match topic_name path in
  if negb matches then ret tt
  else if is_share_sub path then unsub_share client_id path
  else unsub_exclusive client_id path.

Definition unsubscribe_by_path (env : BrokerEnv) (client_id : bytes) (filter_path : list bytes)
  : H unit :=
  for_each (map_iter (topic_info env)) (fun topic =>
    for_each filter_path (unsubscribe_path client_id topic.1)).

Definition remove_subscribe (env : BrokerEnv) (client_id : bytes) (un_subscribe : Unsubscribe)
  : H unit :=
  for_each (un_filters un_subscribe) (fun path =>
    rpc (placement_delete_subscribe env client_id path) ;;
    manage (remove_subscribe_entry client_id path)) ;;
  manage (remove_exclusive_subscribe (un_filters un_subscribe)) ;;
  unsubscribe_by_path env client_id (un_filters un_subscribe).

(** *** sub_parse_topic.rs: one pass over the topics created since. *)
Definition parse_subscribe_by_new_topic (env : BrokerEnv) (last_update_time : Z) : H unit :=
  for_each (map_iter (topic_info env)) (fun topic =>
    if t_create_time topic.2 <? last_update_time then ret tt
    else
      let! m := manager in
      for_each (map_iter (subscribe_list m)) (fun sub =>
        if negb (ms_broker_id sub.2 =? conf_broker_id env) then ret tt
        else
          parse_subscribe env (ms_client_id sub.2) topic.2 (ms_protocol sub.2) (ms_pkid sub.2)
            (ms_filter sub.2) (ms_subscribe_properties sub.2))).
End handlers.

(** ** Removing a client *)

Section removal.
Context {SC : StopChannel} {MI : MapIter} {MS : MapIterSpec MI}.
Implicit Types m : SubscribeManager.

(** The components that removing the push entries of a client leaves alone. *)
Definition same_index m m' : Prop :=
  subscribe_list m' = subscribe_list m /\ exclusive_push_thread m' = exclusive_push_thread m /\
  share_leader_push_thread m' = share_leader_push_thread m /\
  share_follower_resub_thread m' = share_follower_resub_thread m.

Lemma same_index_fold {A} (F : SubscribeManager -> A -> SubscribeManager) l m :
  (forall m a, same_index m (F m a)) -> same_index m (foldl F m l).
Proof.
  intros HF. revert m. induction l as [|a l IH]; intros m; [done|]. unfold same_index. cbn.
  destruct (IH (F m a)) as (-> & -> & -> & ->). apply HF.
Qed.

(** A component that the loop leaves alone, and one that it deletes from. *)
Ltac fold_same proj :=
  rewrite (foldl_proj proj _ (fun mp _ => mp)) by (intros ? ? _; by case_bool_decide);
  apply foldl_id.
Ltac fold_filter proj P :=
  rewrite (foldl_proj proj _ (fun mp kv => if bool_decide (P kv) then delete kv.1 mp else mp))
    by (intros ? ? _; by case_bool_decide);
  etrans; [apply (delete_loop_iter (fun kv => bool_decide (P kv)))|];
  apply map_filter_ext; intros k v _; cbn; by rewrite bool_decide_eq_false.

Lemma remove_exclusive_push_eval c m :
  let m' := remove_exclusive_push_by_client_id c m in
  exclusive_push m' = filter (fun kv => s_client_id kv.2 <> c) (exclusive_push m) /\
  share_leader_push m' = share_leader_push m /\ share_follower_resub m' = share_follower_resub m /\
  exclusive_subscribe m' = exclusive_subscribe m /\ same_index m m'.
Proof.
  intros m'. unfold m', remove_exclusive_push_by_client_id. split_and!.
  - fold_filter exclusive_push (fun kv : bytes * Subscriber => s_client_id kv.2 = c).
  - fold_same share_leader_push.
  - fold_same share_follower_resub.
  - fold_same exclusive_subscribe.
  - apply same_index_fold. intros ? ?. by case_bool_decide.
Qed.

Lemma remove_leader_subs_eval c key sub_list m :
  let m' := remove_leader_subs c key sub_list m in
  (forall d, share_leader_push m !! key = Some d -> sl_sub_list d = sub_list ->
     share_leader_push m'
     = <[key := set_sub_list (filter (fun kv => s_client_id kv.2 <> c)) d]> (share_leader_push m)) /\
  exclusive_push m' = exclusive_push m /\ share_follower_resub m' = share_follower_resub m /\
  exclusive_subscribe m' = exclusive_subscribe m /\ same_index m m'.
Proof.
  intros m'. unfold m', remove_leader_subs. split_and!.
  - intros d Hd <-.
    rewrite (foldl_proj share_leader_push _
      (fun mp kv => if bool_decide (s_client_id kv.2 = c) then alter (set_sub_list (delete kv.1)) key mp else mp))
      by (intros ? ? _; by case_bool_decide).
    assert (forall l d0, share_leader_push m !! key = Some d ->
      foldl (fun mp kv => if bool_decide (s_client_id kv.2 = c)
                          then alter (set_sub_list (delete kv.1)) key mp else mp)
        (<[key := d0]> (share_leader_push m)) l
      = <[key := set_sub_list (fun s => delete_loop (fun kv => bool_decide (s_client_id kv.2 = c)) s l) d0]>
          (share_leader_push m)) as Hfold.
    { intros l. induction l as [|kv l IH]; intros d0 _; cbn [foldl]; [by destruct d0|].
      case_bool_decide as Hc; [rewrite alter_insert_eq|]; rewrite IH by done; cbn;
        f_equal; unfold set_sub_list; cbn; f_equal; unfold delete_loop; cbn.
      - by rewrite bool_decide_eq_true_2.
      - by rewrite bool_decide_eq_false_2. }
    rewrite <- (insert_id (share_leader_push m) key d) at 1 by done. rewrite Hfold by done.
    unfold set_sub_list at 1. rewrite delete_loop_iter. f_equal. unfold set_sub_list. f_equal.
    apply map_filter_ext. intros k v _. cbn. by rewrite bool_decide_eq_false.
  - fold_same exclusive_push.
  - fold_same share_follower_resub.
  - fold_same exclusive_subscribe.
  - apply same_index_fold. intros ? ?. by case_bool_decide.
Qed.

(** What is left of the subscribers of a group. *)
Abbreviation drop_client c := (set_sub_list (filter (fun kv => s_client_id kv.2 <> c))).

Lemma remove_leaders_loop c l m :
  NoDup l.*1 -> (forall kv, kv ∈ l -> share_leader_push m !! kv.1 = Some kv.2) ->
  let m' := foldl (fun m kv => remove_leader_subs c kv.1 (sl_sub_list kv.2) m) m l in
  (forall k, share_leader_push m' !! k
             = if decide (k ∈ l.*1) then drop_client c <$> share_leader_push m !! k
               else share_leader_push m !! k) /\
  exclusive_push m' = exclusive_push m /\ share_follower_resub m' = share_follower_resub m /\
  exclusive_subscribe m' = exclusive_subscribe m /\ same_index m m'.
Proof.
  revert m. induction l as [|[k0 d0] l IH]; intros m Hnd Hl; cbn [foldl fmap list_fmap].
  { split_and!; try done. }
  cbn [fmap list_fmap fst] in Hnd. apply NoDup_cons in Hnd as [Hk0 Hnd].
  destruct (remove_leader_subs_eval c k0 (sl_sub_list d0) m) as (Hs & He & Hf & Hx & Hi).
  specialize (Hs d0 (Hl (k0, d0) (list_elem_of_here _ _)) eq_refl).
  destruct (IH (remove_leader_subs c k0 (sl_sub_list d0) m)) as (IHs & IHe & IHf & IHx & IHi).
  { done. }
  { intros kv Hkv. rewrite Hs, lookup_insert_ne; [apply Hl; by right|].
    intros ->. by apply Hk0, list_elem_of_fmap_2. }
  cbn [fst snd]. split_and!; [|congruence..|].
  - intros k. rewrite IHs, Hs. destruct (decide (k = k0)) as [->|Hne].
    + rewrite lookup_insert_eq, decide_False, decide_True by (try done; by left).
      by rewrite (Hl (k0, d0) (list_elem_of_here _ _) : share_leader_push m !! k0 = Some d0).
    + rewrite lookup_insert_ne by done. destruct (decide (k ∈ l.*1)).
      * by rewrite decide_True by (by right).
      * rewrite decide_False; [done|]. by intros [->|?]%elem_of_cons.
  - unfold same_index in *. destruct_and!. split_and!; congruence.
Qed.

Lemma remove_share_leader_eval c m :
  let m' := remove_share_subscribe_leader_by_client_id c m in
  share_leader_push m' = drop_client c <$> share_leader_push m /\
  exclusive_push m' = exclusive_push m /\ share_follower_resub m' = share_follower_resub m /\
  exclusive_subscribe m' = exclusive_subscribe m /\ same_index m m'.
Proof.
  intros m'. destruct (remove_leaders_loop c (map_iter (share_leader_push m)) m) as (Hs & H).
  { rewrite map_iter_perm. apply NoDup_fst_map_to_list. }
  { intros [k d]. rewrite map_iter_perm. apply elem_of_map_to_list. }
  split; [|exact H]. apply map_eq. intros k. unfold m', remove_share_subscribe_leader_by_client_id.
  rewrite Hs, lookup_fmap. case_decide as Hk; [done|].
  destruct (share_leader_push m !! k) as [d|] eqn:E; [|done]. destruct Hk.
  rewrite map_iter_perm. apply list_elem_of_fmap. exists (k, d). split; [done|].
  by apply elem_of_map_to_list.
Qed.

Lemma remove_follower_eval c m :
  let m' := remove_share_subscribe_follower_by_client_id c m in
  share_follower_resub m' = filter (fun kv => ss_client_id kv.2 <> c) (share_follower_resub m) /\
  exclusive_push m' = exclusive_push m /\ share_leader_push m' = share_leader_push m /\
  exclusive_subscribe m' = exclusive_subscribe m /\ same_index m m'.
Proof.
  intros m'. unfold m', remove_share_subscribe_follower_by_client_id. split_and!.
  - fold_filter share_follower_resub (fun kv : bytes * ShareSubShareSub => ss_client_id kv.2 = c).
  - fold_same exclusive_push.
  - fold_same share_leader_push.
  - fold_same exclusive_subscribe.
  - apply same_index_fold. intros ? ?. by case_bool_decide.
Qed.

Lemma remove_exclusive_eval c m :
  let m' := remove_exclusive_subscribe_by_client_id c m in
  exclusive_subscribe m' = filter (fun kv => kv.2 <> c) (exclusive_subscribe m) /\
  exclusive_push m' = exclusive_push m /\ share_leader_push m' = share_leader_push m /\
  share_follower_resub m' = share_follower_resub m /\ same_index m m'.
Proof.
  intros m'. unfold m', remove_exclusive_subscribe_by_client_id. split_and!.
  - fold_filter exclusive_subscribe (fun kv : bytes * bytes => kv.2 = c).
  - fold_same exclusive_push.
  - fold_same share_leader_push.
  - fold_same share_follower_resub.
  - apply same_index_fold. intros ? ?. by case_bool_decide.
Qed.

(** *** The lists of the topics

    [remove_topic_subscribe_by_client_id] keeps the entries of the client on
    the list of a topic and drops the others. *)

Definition own_entries (c : bytes) (l : list TopicSubscribeInfo) : list TopicSubscribeInfo :=
  filter (fun x => ti_client_id x = c) l.
(** The lists of the topics [ts] are cut down to the entries of the client. *)
Definition cut_lists (c : bytes) (ts : list bytes) (m m' : SubscribeManager) : Prop :=
  forall t, topic_subscribe_list m' !! t
            = if decide (t ∈ ts) then own_entries c <$> topic_subscribe_list m !! t else topic_subscribe_list m !! t.

Lemma cut_lists_nil c m m' : topic_subscribe_list m' = topic_subscribe_list m -> cut_lists c [] m m'.
Proof. intros E t. rewrite E. by rewrite decide_False by (apply not_elem_of_nil). Qed.

Lemma cut_lists_app c ts ts' m m1 m2 : cut_lists c ts m m1 -> cut_lists c ts' m1 m2 -> cut_lists c (ts ++ ts') m m2.
Proof.
  intros H1 H2 t. rewrite H2, H1. destruct (topic_subscribe_list m !! t) as [l|]; [|by repeat case_decide].
  repeat case_decide; rewrite ?elem_of_app in *; try done; try tauto.
  cbn [fmap option_fmap option_map]. f_equal. unfold own_entries. rewrite list_filter_filter. apply list_filter_iff. tauto.
Qed.

Lemma cut_lists_one c t m : cut_lists c [t] m (remove_topic_subscribe_by_client_id t c m).
Proof.
  intros t'. cbn [topic_subscribe_list remove_topic_subscribe_by_client_id retain_topic_subscribe upd_topic_subscribe_list].
  destruct (decide (t' = t)) as [->|Hne].
  - rewrite lookup_alter_eq, decide_True by set_solver. destruct (topic_subscribe_list m !! t); [|done]. cbn.
    f_equal. apply list_filter_iff. intros x. by rewrite Is_true_true, bool_decide_eq_true.
  - by rewrite lookup_alter_ne, decide_False by set_solver.
Qed.

Lemma cut_lists_fold {A} c (f : SubscribeManager -> A -> SubscribeManager) (g : A -> list bytes) l m :
  (forall m x, cut_lists c (g x) m (f m x)) -> cut_lists c (l ≫= g) m (foldl f m l).
Proof.
  intros Hf. revert m. induction l as [|x l IH]; intros m; [by apply cut_lists_nil|].
  cbn [foldl]. eapply cut_lists_app; [apply Hf|apply IH].
Qed.

(** The topics of the entries of the client among [l]. *)
Definition topics_of (c : bytes) (l : list (bytes * Subscriber)) : list bytes :=
  l ≫= fun kv => if bool_decide (s_client_id kv.2 = c) then [s_topic_name kv.2] else [].

Lemma elem_of_topics_of c l t :
  t ∈ topics_of c l <-> exists k s, (k, s) ∈ l /\ s_client_id s = c /\ s_topic_name s = t.
Proof.
  unfold topics_of. rewrite list_elem_of_bind. split.
  - intros ([k s] & Ht & Hl). case_bool_decide; [|by apply not_elem_of_nil in Ht].
    apply list_elem_of_singleton in Ht as ->. eauto.
  - intros (k & s & Hl & Hc & <-). exists (k, s). split; [|done]. rewrite bool_decide_eq_true_2 by done. set_solver.
Qed.

(** The client is pushed messages of the topic [t], for itself or in a group
    that this node leads. *)
Definition pushed_topic (c t : bytes) (m : SubscribeManager) : Prop :=
  (exists k s, exclusive_push m !! k = Some s /\ s_client_id s = c /\ s_topic_name s = t) \/
  (exists g d k s, share_leader_push m !! g = Some d /\ sl_sub_list d !! k = Some s /\
                   s_client_id s = c /\ s_topic_name s = t).

Lemma remove_client_id_lists c m :
  let m' := remove_client_id c m in
  forall t, (pushed_topic c t m -> topic_subscribe_list m' !! t = own_entries c <$> topic_subscribe_list m !! t) /\
            (~ pushed_topic c t m -> topic_subscribe_list m' !! t = topic_subscribe_list m !! t).
Proof.
  cbv zeta. unfold remove_client_id. set (m1 := remove_exclusive_push_by_client_id c m).
  set (m2 := remove_share_subscribe_leader_by_client_id c m1).
  set (m3 := remove_share_subscribe_follower_by_client_id c m2).
  assert (cut_lists c (topics_of c (map_iter (exclusive_push m))) m m1) as H1.
  { apply cut_lists_fold. intros m0 kv. case_bool_decide as E; [|by apply cut_lists_nil]. rewrite E.
    apply (cut_lists_app c [] [_] _ (upd_exclusive_push (delete kv.1) m0)); [by apply cut_lists_nil|apply cut_lists_one]. }
  assert (share_leader_push m1 = share_leader_push m) as El by apply remove_exclusive_push_eval.
  assert (cut_lists c (map_iter (share_leader_push m) ≫= fun g => topics_of c (map_iter (sl_sub_list g.2))) m1 m2) as H2.
  { unfold m2, remove_share_subscribe_leader_by_client_id. rewrite El. apply cut_lists_fold. intros m0 g.
    apply cut_lists_fold. intros m4 kv. case_bool_decide as E; [|by apply cut_lists_nil]. rewrite E.
    apply (cut_lists_app c [] [_] _ (upd_share_leader_push (alter (set_sub_list (delete kv.1)) g.1) m4));
      [by apply cut_lists_nil|apply cut_lists_one]. }
  assert (topic_subscribe_list m3 = topic_subscribe_list m2) as E3.
  { unfold m3, remove_share_subscribe_follower_by_client_id. fold_same topic_subscribe_list. }
  assert (topic_subscribe_list (remove_exclusive_subscribe_by_client_id c m3) = topic_subscribe_list m3) as E4.
  { unfold remove_exclusive_subscribe_by_client_id. fold_same topic_subscribe_list. }
  pose proof (cut_lists_app _ _ _ _ _ _ H1 H2) as Hc. intros t. rewrite E4, E3, Hc.
  assert (t ∈ topics_of c (map_iter (exclusive_push m)) ++
            (map_iter (share_leader_push m) ≫= fun g => topics_of c (map_iter (sl_sub_list g.2))) <-> pushed_topic c t m) as Ht.
  { rewrite elem_of_app, elem_of_topics_of, list_elem_of_bind. unfold pushed_topic. f_equiv.
    - f_equiv. intros k. f_equiv. intros s. by rewrite map_iter_perm, elem_of_map_to_list.
    - split.
      + intros ([g d] & Hs & Hg). apply elem_of_topics_of in Hs as (k & s & Hk & Hs).
        rewrite map_iter_perm, elem_of_map_to_list in Hg. cbn [snd] in Hk. rewrite map_iter_perm, elem_of_map_to_list in Hk.
        naive_solver.
      + intros (g & d & k & s & Hg & Hk & Hs). exists (g, d).
        split; [|by rewrite map_iter_perm, elem_of_map_to_list].
        apply elem_of_topics_of. exists k, s. cbn [snd]. by rewrite map_iter_perm, elem_of_map_to_list. }
  case_decide as Hd; rewrite Ht in Hd; tauto.
Qed.

Lemma remove_client_id_eval c m :
  let m' := remove_client_id c m in
  exclusive_push m' = filter (fun kv => s_client_id kv.2 <> c) (exclusive_push m) /\
  share_leader_push m'
  = set_sub_list (filter (fun kv => s_client_id kv.2 <> c)) <$> share_leader_push m /\
  share_follower_resub m' = filter (fun kv => ss_client_id kv.2 <> c) (share_follower_resub m) /\
  exclusive_subscribe m' = filter (fun kv => kv.2 <> c) (exclusive_subscribe m) /\
  subscribe_list m' = subscribe_list m /\ exclusive_push_thread m' = exclusive_push_thread m /\
  share_leader_push_thread m' = share_leader_push_thread m /\
  share_follower_resub_thread m' = share_follower_resub_thread m.
Proof.
  cbv zeta. unfold remove_client_id.
  set (m1 := remove_exclusive_push_by_client_id c m).
  set (m2 := remove_share_subscribe_leader_by_client_id c m1).
  set (m3 := remove_share_subscribe_follower_by_client_id c m2).
  destruct (remove_exclusive_push_eval c m) as (E1 & L1 & F1 & X1 & S1). fold m1 in E1, L1, F1, X1, S1.
  destruct (remove_share_leader_eval c m1) as (L2 & E2 & F2 & X2 & S2). fold m2 in E2, L2, F2, X2, S2.
  destruct (remove_follower_eval c m2) as (F3 & E3 & L3 & X3 & S3). fold m3 in E3, L3, F3, X3, S3.
  destruct (remove_exclusive_eval c m3) as (X4 & E4 & L4 & F4 & S4).
  unfold same_index in *. destruct_and!. split_and!; congruence.
Qed.
End removal.

(** ** Unsubscribing *)

Section unsubscribing.
Context {SC : StopChannel} {MI : MapIter} {MS : MapIterSpec MI} {RX : RegexCrate}.

(** One subscriber in the loop of [unsubscribe_by_path], when its thread
    listens. *)
Definition unsub_one (c p : bytes) (w : SubWorld) (kv : bytes * Subscriber) : SubWorld :=
  if bool_decide (s_client_id kv.2 = c) && bool_decide (s_sub_path kv.2 = p) then
    let m := w_manager w in
    match exclusive_push_thread m !! kv.1 with
    | Some sx =>
        mkSubWorld (remove_topic_subscribe_by_path (s_topic_name kv.2) (s_sub_path kv.2)
                      (upd_exclusive_push (delete kv.1) m)) (w_stops w ++ [sx])
    | None =>
        mkSubWorld (remove_topic_subscribe_by_path (s_topic_name kv.2) (s_sub_path kv.2) m) (w_stops w)
    end
  else w.

Definition unsubs (c p : bytes) (threads : gmap bytes Sender) (kv : bytes * Subscriber) : bool :=
  bool_decide (s_client_id kv.2 = c) && bool_decide (s_sub_path kv.2 = p)
  && is_some (threads !! kv.1).

Lemma unsubs_false c p threads kv :
  unsubs c p threads kv = false <->
  ~ (s_client_id kv.2 = c /\ s_sub_path kv.2 = p /\ is_some (threads !! kv.1) = true).
Proof. unfold unsubs. rewrite <- not_true_iff_false, !andb_true_iff, !bool_decide_eq_true. tauto. Qed.

Lemma unsub_one_proj c p w kv :
  exclusive_push_thread (w_manager (unsub_one c p w kv)) = exclusive_push_thread (w_manager w) /\
  subscribe_list (w_manager (unsub_one c p w kv)) = subscribe_list (w_manager w) /\
  exclusive_push (w_manager (unsub_one c p w kv))
  = if unsubs c p (exclusive_push_thread (w_manager w)) kv then delete kv.1 (exclusive_push (w_manager w))
    else exclusive_push (w_manager w).
Proof.
  unfold unsub_one, unsubs. destruct (_ && _); [|done]. cbn.
  by destruct (exclusive_push_thread (w_manager w) !! kv.1).
Qed.

Lemma unsub_exclusive_eval c p w :
  (forall sx, send_ok sx = true) ->
  let w' := foldl (unsub_one c p) w (map_iter (exclusive_push (w_manager w))) in
  unsub_exclusive c p w = (Ok tt, w') /\
  exclusive_push_thread (w_manager w') = exclusive_push_thread (w_manager w) /\
  subscribe_list (w_manager w') = subscribe_list (w_manager w) /\
  exclusive_push (w_manager w')
  = filter (fun kv => unsubs c p (exclusive_push_thread (w_manager w)) kv = false)
      (exclusive_push (w_manager w)).
Proof.
  intros Hsend w'. split_and!.
  - unfold unsub_exclusive, manager, bind at 1.
    apply (for_each_fold _ _ _ (fun _ => True)); [done|]. intros kv w0 _ _. split; [|done].
    unfold unsub_one. destruct (_ && _); [|done]. cbn.
    destruct (exclusive_push_thread (w_manager w0) !! kv.1) as [sx|]; [|done].
    unfold bind, send_stop, manage. by rewrite Hsend.
  - unfold w'. rewrite (foldl_proj (fun w => exclusive_push_thread (w_manager w)) _ (fun t _ => t))
      by (intros; apply unsub_one_proj). apply foldl_id.
  - unfold w'. rewrite (foldl_proj (fun w => subscribe_list (w_manager w)) _ (fun t _ => t))
      by (intros; apply unsub_one_proj). apply foldl_id.
  - unfold w'. rewrite <- delete_loop_iter. unfold delete_loop.
    generalize (map_iter (exclusive_push (w_manager w))). intros l. clear w'.
    revert w. induction l as [|kv l IH]; intros w; [done|]. cbn.
    destruct (unsub_one_proj c p w kv) as (Ht & _ & He). by rewrite IH, Ht, He.
Qed.

(** Unsubscribing again changes nothing more. *)
Lemma unsubs_filter_idem (c p : bytes) (threads : gmap bytes Sender) (mp : gmap bytes Subscriber) :
  filter (fun kv : bytes * Subscriber => unsubs c p threads kv = false) (filter (fun kv : bytes * Subscriber => unsubs c p threads kv = false) mp)
  = filter (fun kv : bytes * Subscriber => unsubs c p threads kv = false) mp.
Proof.
  apply map_eq. intros k. apply option_eq. intros v. rewrite !map_lookup_filter_Some. tauto.
Qed.

Lemma unsubscribe_by_path_eval env c p w mt :
  (forall sx, send_ok sx = true) -> is_share_sub p = false ->
  (forall t w, is_some (topic_info env !! t) = true ->
     (path_regex_match t p : H bool) w = (Ok (mt t), w)) ->
  exists w', unsubscribe_by_path env c [p] w = (Ok tt, w') /\
    subscribe_list (w_manager w') = subscribe_list (w_manager w) /\
    exclusive_push (w_manager w')
    = if existsb (fun topic => mt topic.1) (map_iter (topic_info env))
      then filter (fun kv => unsubs c p (exclusive_push_thread (w_manager w)) kv = false)
             (exclusive_push (w_manager w))
      else exclusive_push (w_manager w).
Proof.
  intros Hsend Hs Hm. unfold unsubscribe_by_path.
  assert (forall l w, (forall t, t ∈ l -> is_some (topic_info env !! t.1) = true) -> exists w',
    for_each l (fun topic : bytes * MqttTopic => for_each [p] (unsubscribe_path c topic.1)) w = (Ok tt, w') /\
    exclusive_push_thread (w_manager w') = exclusive_push_thread (w_manager w) /\
    subscribe_list (w_manager w') = subscribe_list (w_manager w) /\
    exclusive_push (w_manager w')
    = if existsb (fun topic => mt topic.1) l
      then filter (fun kv => unsubs c p (exclusive_push_thread (w_manager w)) kv = false)
             (exclusive_push (w_manager w))
      else exclusive_push (w_manager w)) as Hl.
  { clear w. intros l. induction l as [|t l IH]; intros w Hin; [by exists w|]. cbn [existsb].
    destruct (unsub_exclusive_eval c p w Hsend) as (He & Ht & Hsl & Hex).
    set (w1 := if mt t.1 then foldl (unsub_one c p) w (map_iter (exclusive_push (w_manager w))) else w).
    destruct (IH w1) as (w' & Hw' & Ht' & Hs' & He'); [intros; apply Hin; by right|]. exists w'.
    assert (for_each [p] (unsubscribe_path c t.1) w = (Ok tt, w1)) as Hstep.
    { rewrite for_each_cons. unfold unsubscribe_path.
      rewrite bind_assoc, (bind_ok _ _ _ _ _ (Hm _ _ (Hin t (list_elem_of_here _ _)))), Hs. unfold w1. destruct (mt t.1); cbn [negb]; [|done].
      by rewrite (bind_ok _ _ _ _ _ He). }
    rewrite for_each_cons, (bind_ok _ _ _ _ _ Hstep), Hw'. split; [done|].
    rewrite Ht', Hs', He'. unfold w1. destruct (mt t.1); cbn [orb]; [|done].
    rewrite Ht, Hsl, Hex. split_and!; [done..|]. destruct (existsb _ l); [|done].
    by rewrite unsubs_filter_idem. }
  destruct (Hl (map_iter (topic_info env)) w) as (w' & ? & _ & ? & ?); [|by eauto].
  intros [t tp]. rewrite map_iter_perm, elem_of_map_to_list. cbn. by intros ->.
Qed.
End unsubscribing.

(** ** What the handlers leave alone *)

Section frames.
Context {SC : StopChannel} {MI : MapIter} {MS : MapIterSpec MI} {RX : RegexCrate}.

(** The subscribers that a leader serves came with a path [$share/..] or
    [$queue/..]. *)
Definition leader_paths (mp : gmap bytes ShareLeaderSubscribeData) : Prop :=
  forall k d sk s, mp !! k = Some d -> sl_sub_list d !! sk = Some s ->
    starts_with (lit "$") (s_sub_path s) = true.

Definition keeps_leader_paths (w w' : SubWorld) : Prop :=
  leader_paths (share_leader_push (w_manager w)) -> leader_paths (share_leader_push (w_manager w')).
Definition same_leaders (w w' : SubWorld) : Prop :=
  share_leader_push (w_manager w') = share_leader_push (w_manager w).
(** Exclusive subscriptions are only added. *)
Definition more_exclusive (w w' : SubWorld) : Prop :=
  forall t, is_exclusive_subscribe t (w_manager w) = true -> is_exclusive_subscribe t (w_manager w') = true.

#[export] Instance keeps_leader_paths_preorder : PreOrder keeps_leader_paths.
Proof. split; [by intros ? ?|]. intros ? ? ? H1 H2 ?. auto. Qed.
#[export] Instance same_leaders_preorder : PreOrder same_leaders.
Proof. split; [by intros ?|]. intros ? ? ? H1 H2. unfold same_leaders in *. congruence. Qed.
#[export] Instance more_exclusive_preorder : PreOrder more_exclusive.
Proof. split; [by intros ? ?|]. intros ? ? ? H1 H2 t ?. auto. Qed.

Lemma is_share_dollar p : is_share_sub p = true -> starts_with (lit "$") p = true.
Proof. intros [t ->]%starts_with_inv. done. Qed.
Lemma is_queue_dollar p : is_queue_sub p = true -> starts_with (lit "$") p = true.
Proof. intros [t ->]%starts_with_inv. done. Qed.

(** Matching paths does not touch the state. *)
Lemma preserves_plain_path (R : SubWorld -> SubWorld -> Prop) `{!PreOrder R} p :
  preserves R (plain_path p : H bytes).
Proof.
  unfold plain_path. repeat case_match; auto with preservesdb.
  apply preserves_bind; auto with preservesdb. intros [? ?]. auto with preservesdb.
Qed.

Lemma preserves_match (R : SubWorld -> SubWorld -> Prop) `{!PreOrder R} t p :
  preserves R (path_regex_match t p : H bool).
Proof.
  assert (forall pt s, preserves R (is_match pt s : H bool)) as Hre.
  { intros. unfold is_match, unwrap. destruct (regex_new pt); apply preserves_bind; auto with preservesdb. }
  unfold path_regex_match. apply preserves_bind; [done|by apply preserves_plain_path|]. intros path.
  apply preserves_bind; [done|by apply preserves_plain_path|]. intros topic.
  case_bool_decide; auto with preservesdb. unfold match_wildcard.
  repeat case_match; auto with preservesdb. unfold unwrap.
  apply preserves_bind; [done|destruct (last _); auto with preservesdb|]. intros l. case_match; auto with preservesdb.
Qed.

Lemma preserves_rpc (R : SubWorld -> SubWorld -> Prop) `{!PreOrder R} {A} (o : outcome CommonError A) :
  preserves R (rpc o).
Proof. destruct o; cbn; auto with preservesdb. by intros w. Qed.

Lemma preserves_manage (R : SubWorld -> SubWorld -> Prop) f :
  (forall w, R w (mkSubWorld (f (w_manager w)) (w_stops w))) -> preserves R (manage f : H unit).
Proof. intros Hf w. apply Hf. Qed.

(** Adding a subscriber to the leaders. *)
Lemma add_leader_paths sub_name sub g m :
  starts_with (lit "$") (s_sub_path sub) = true ->
  leader_paths (share_leader_push m) ->
  leader_paths (share_leader_push (add_share_subscribe_leader sub_name sub g m)).
Proof.
  intros Hsub Hm k d sk s. unfold add_share_subscribe_leader.
  destruct (share_leader_push m !! share_leader_key g sub_name (s_topic_id sub)) as [d0|] eqn:E;
    cbn [share_leader_push upd_share_leader_push];
    (intros [[<- <-]|[? Hd]]%lookup_insert_Some; [cbn [sl_sub_list set_sub_list]|by eauto]).
  - intros [[_ <-]|[? Hs]]%lookup_insert_Some; [done|by eauto].
  - by intros [_ <-]%lookup_singleton_Some.
Qed.

(** The handlers of SUBSCRIBE. *)
Lemma preserves_parse_common R `{!PreOrder R} env req :
  (forall f, preserves R (manage (add_topic_subscribe (q_topic_name req) (q_client_id req) f) : H unit)) ->
  (forall g sub_name sub, s_sub_path sub = path (q_filter req) ->
     preserves R (manage (add_share_subscribe_leader sub_name sub g) : H unit)) ->
  (forall c g t s, preserves R (manage (add_share_subscribe_follower c g t s) : H unit)) ->
  preserves R (parse_share_queue_subscribe_common env req).
Proof.
  intros Ht Hl Hf. apply preserves_bind; [done|by apply preserves_match|]. intros [|]; auto with preservesdb.
  repeat case_match; auto with preservesdb.
  - apply preserves_bind; [done|apply Ht|]. intros _. by apply Hl.
  - apply Hf.
  - by intros w.
Qed.

Lemma preserves_parse_kinds R `{!PreOrder R} env c topic pr ident f req :
  q_client_id req = c -> q_filter req = f ->
  (forall t p, preserves R (manage (add_topic_subscribe t c p) : H unit)) ->
  (forall p t sub, preserves R (manage (add_exclusive_push_entry c p t sub) : H unit)) ->
  (forall g sub_name sub, starts_with (lit "$") (s_sub_path sub) = true ->
     preserves R (manage (add_share_subscribe_leader sub_name sub g) : H unit)) ->
  (forall c g t s, preserves R (manage (add_share_subscribe_follower c g t s) : H unit)) ->
  preserves R (if is_share_sub (path f) then parse_share_subscribe env req
               else if is_queue_sub (path f) then parse_queue_subscribe env req
               else add_exclusive_push topic c pr ident f).
Proof.
  intros <- <- Ht He Hl Hf.
  destruct (is_share_sub _) eqn:Es; [|destruct (is_queue_sub _) eqn:Eq].
  - apply preserves_bind; [done|auto with preservesdb|]. intros [g sn].
    apply preserves_parse_common; cbn; auto.
    intros g' sn' sub Hp. apply Hl. rewrite Hp. by apply is_share_dollar.
  - apply preserves_bind; [done|auto with preservesdb|]. intros sn.
    apply preserves_parse_common; cbn; auto.
    intros g' sn' sub Hp. apply Hl. rewrite Hp. by apply is_queue_dollar.
  - apply preserves_bind; [done|by apply preserves_match|]. intros [|]; auto with preservesdb.
    apply preserves_bind; auto.
Qed.

Lemma parse_kinds_more_exclusive env c topic pr ident f req :
  q_client_id req = c -> q_filter req = f ->
  preserves more_exclusive
    (if is_share_sub (path f) then parse_share_subscribe env req
     else if is_queue_sub (path f) then parse_queue_subscribe env req
     else add_exclusive_push topic c pr ident f).
Proof.
  intros ? ?. apply preserves_parse_kinds; [apply _|done|done|..]; intros; apply preserves_manage; intros w t0 Hw;
    try done.
  - unfold add_topic_subscribe. cbn. by case_match.
  - unfold add_share_subscribe_leader. cbn. by case_match.
Qed.

Lemma add_exclusive_more p c w :
  more_exclusive w (mkSubWorld (add_exclusive_subscribe p c (w_manager w)) (w_stops w)).
Proof.
  intros t0 Hw. unfold add_exclusive_subscribe. cbn. case_match; [done|].
  unfold is_exclusive_subscribe in *. cbn in *.
  destruct (decide (decode_exclusive_sub_path_to_topic_name p = t0)) as [->|?].
  - by rewrite lookup_insert_eq.
  - by rewrite lookup_insert_ne.
Qed.

Lemma parse_subscribe_leader_paths env c topic pr pkid f props :
  preserves keeps_leader_paths (parse_subscribe env c topic pr pkid f props).
Proof.
  apply preserves_bind; [apply _|case_match; auto with preservesdb|].
  { apply preserves_manage. intros w Hw. unfold add_exclusive_subscribe. by case_match. }
  { apply preserves_ret; apply _. }
  intros _. apply preserves_parse_kinds; [apply _|done|done|..]; intros; apply preserves_manage; intros w Hw;
    try done.
  - unfold add_topic_subscribe. cbn. by case_match.
  - by apply add_leader_paths.
Qed.

Lemma parse_subscribe_more_exclusive env c topic pr pkid f props :
  preserves more_exclusive (parse_subscribe env c topic pr pkid f props).
Proof.
  apply preserves_bind; [apply _|case_match; [|apply preserves_ret; apply _]|].
  - apply preserves_manage. intros w. apply add_exclusive_more.
  - intros _. by apply parse_kinds_more_exclusive.
Qed.

Lemma save_subscribe_leader_paths env c pr sub props :
  preserves keeps_leader_paths (save_subscribe env c pr sub props).
Proof.
  apply preserves_bind; [apply _|apply preserves_for_each; [apply _|]|]; [intros f _|intros _].
  - apply preserves_bind; [apply _|by apply preserves_rpc; apply _|]. intros _. by apply preserves_manage; intros w ?.
  - apply preserves_for_each; [apply _|]. intros t _. apply preserves_for_each; [apply _|].
    intros f _. apply parse_subscribe_leader_paths.
Qed.

(** The handlers of UNSUBSCRIBE. *)
Lemma unsub_leader_loop_none c g sn key subs flag w :
  (forall kv, kv ∈ subs -> starts_with (lit "$") (s_sub_path kv.2) = true) ->
  starts_with (lit "/") sn = true ->
  unsub_leader_loop c g sn key subs flag w = (Ok flag, w).
Proof.
  intros Hs Hsn. revert flag. induction subs as [|[k s] subs IH]; intros flag; [done|].
  cbn [unsub_leader_loop]. rewrite (bool_decide_eq_false_2 (s_sub_path s = sn)).
  - rewrite andb_false_r. apply IH. intros kv Hkv. apply Hs. by right.
  - intros <-. specialize (Hs (k, s) (list_elem_of_here _ _)). cbn [snd] in Hs.
    apply starts_with_inv in Hs as [t Ht]. by rewrite Ht in Hsn.
Qed.

Lemma unsub_leaders_none c g sn l w :
  (forall kv, kv ∈ l -> share_leader_push (w_manager w) !! kv.1 = Some kv.2) ->
  leader_paths (share_leader_push (w_manager w)) -> starts_with (lit "/") sn = true ->
  for_each l (fun kv : bytes * ShareLeaderSubscribeData =>
    let! flag := unsub_leader_loop c g sn kv.1 (map_iter (sl_sub_list kv.2)) false in
    if flag then let! m := manager in send_stop_to (share_leader_push_thread m !! kv.1)
    else ret tt) w = (Ok tt, w).
Proof.
  intros Hl Hp Hsn. induction l as [|kv l IH]; [done|]. rewrite for_each_cons.
  erewrite bind_ok; [apply IH; intros; apply Hl; by right|].
  rewrite (bind_ok _ _ _ false w); [done|]. apply unsub_leader_loop_none; [|done].
  intros [sk s] Hs. rewrite map_iter_perm in Hs. apply elem_of_map_to_list in Hs.
  eapply Hp; [|exact Hs]. apply Hl. by left.
Qed.

Lemma preserves_send R `{!PreOrder R} o :
  (forall w stops, R w (mkSubWorld (w_manager w) stops)) -> preserves R (send_stop_to o : H unit).
Proof. intros Hr. destruct o as [sx|]; cbn; [|auto with preservesdb]. intros w. unfold send_stop. by case_match; cbn. Qed.

Definition leaders_kept (w w' : SubWorld) : Prop :=
  leader_paths (share_leader_push (w_manager w)) -> same_leaders w w'.
#[export] Instance leaders_kept_preorder : PreOrder leaders_kept.
Proof.
  split; [by intros ? ?|]. intros w1 w2 w3 H12 H23 H1. specialize (H12 H1). unfold same_leaders in *.
  rewrite <- H12. apply H23. by rewrite H12.
Qed.

Lemma unsub_followers_leaders c p l :
  preserves same_leaders
    (for_each l (fun kv : bytes * ShareSubShareSub =>
       if bool_decide (ss_client_id kv.2 = c) && bool_decide (path (ss_filter kv.2) = p) then
         manage (upd_share_follower_resub (delete kv.1)) ;;
         let! m := manager in send_stop_to (share_follower_resub_thread m !! kv.1)
       else ret tt)).
Proof.
  apply preserves_for_each; [apply _|]. intros kv _. case_match; [|apply preserves_ret; apply _].
  apply preserves_bind; [apply _|by apply preserves_manage|]. intros _.
  apply preserves_bind; [apply _|by intros w|]. intros m. by apply preserves_send; [apply _|].
Qed.

Lemma unsub_share_leaders c p : preserves leaders_kept (unsub_share c p).
Proof.
  intros w Hw. unfold unsub_share. unfold bind at 1, lift.
  destruct (decode_share_info p) as [[g sn]|e| |] eqn:E; try done.
  assert (starts_with (lit "/") sn = true) as Hsn.
  { unfold decode_share_info in E. repeat case_match; try done. by injection E as _ <-. }
  unfold bind at 1, manager. rewrite (bind_ok _ _ _ tt w).
  - unfold bind at 1, manager. apply unsub_followers_leaders.
  - apply unsub_leaders_none; [|done|done]. intros [k d]. rewrite map_iter_perm. apply elem_of_map_to_list.
Qed.

Lemma unsub_exclusive_leaders c p : preserves same_leaders (unsub_exclusive c p).
Proof.
  apply preserves_bind; [apply _|by intros w|]. intros m. apply preserves_for_each; [apply _|].
  intros kv _. case_match; [|apply preserves_ret; apply _].
  apply preserves_bind; [apply _|by intros w|]. intros m'.
  apply preserves_bind; [apply _| |by intros _; apply preserves_manage].
  case_match; [|apply preserves_ret; apply _].
  apply preserves_bind; [apply _| |by intros _; apply preserves_manage].
  by apply (preserves_send _ (Some _)).
Qed.

Lemma unsubscribe_leaders env c ps : preserves leaders_kept (unsubscribe_by_path env c ps).
Proof.
  apply preserves_for_each; [apply _|]. intros t _. apply preserves_for_each; [apply _|]. intros p _.
  apply preserves_bind; [apply _|apply preserves_match; apply _|]. intros b.
  repeat case_match; try (apply preserves_ret; apply _); [apply unsub_share_leaders|].
  intros w _. apply unsub_exclusive_leaders.
Qed.

Lemma remove_subscribe_leaders env c u : preserves leaders_kept (remove_subscribe env c u).
Proof.
  apply preserves_bind; [apply _|apply preserves_for_each; [apply _|]|]; [intros p _|intros _].
  { apply preserves_bind; [apply _|apply preserves_rpc; apply _|]. intros _. by apply preserves_manage; intros w ?. }
  apply preserves_bind; [apply _| |intros _; apply unsubscribe_leaders].
  apply preserves_manage. intros w _. unfold same_leaders. cbn. generalize (w_manager w).
  induction (un_filters u) as [|p ps IH]; intros m; [done|]. cbn. case_match; [done|]. by rewrite IH.
Qed.
Lemma remove_client_id_leader_paths c : preserves keeps_leader_paths (manage (remove_client_id c) : H unit).
Proof.
  apply preserves_manage. intros w Hw. unfold keeps_leader_paths. cbn [w_manager].
  destruct (remove_client_id_eval c (w_manager w)) as (_ & -> & _).
  intros k d sk s. rewrite lookup_fmap_Some. intros (d0 & <- & Hd). cbn.
  rewrite map_lookup_filter_Some. intros [Hs _]. by eapply Hw.
Qed.

Lemma new_topic_leader_paths env t : preserves keeps_leader_paths (parse_subscribe_by_new_topic env t).
Proof.
  apply preserves_for_each; [apply _|]. intros topic _. case_match; [apply preserves_ret; apply _|].
  apply preserves_bind; [apply _|by intros w|]. intros m. apply preserves_for_each; [apply _|].
  intros sub _. case_match; [apply preserves_ret; apply _|]. apply parse_subscribe_leader_paths.
Qed.

(** The removal of the groups without subscribers at the start of
    [start_push_thread], once their threads have heard the stop signal. *)
Definition remove_empty_groups : H unit :=
  let! m := manager in
  for_each (map_iter (share_leader_push m)) (fun '(share_leader_key, sub_data) =>
    if bool_decide (sl_sub_list sub_data = ∅) then
      let! m := manager in
      match share_leader_push_thread m !! share_leader_key with
      | Some sx =>
          if send_ok sx then
            send_stop sx ;; manage (upd_share_leader_push (delete share_leader_key))
          else ret tt
      | None => ret tt
      end
    else ret tt).

Lemma remove_empty_groups_leader_paths : preserves keeps_leader_paths remove_empty_groups.
Proof.
  apply preserves_bind; [apply _|by intros w|]. intros m. apply preserves_for_each; [apply _|]. intros [k d] _.
  case_bool_decide; [|apply preserves_ret; apply _]. apply preserves_bind; [apply _|by intros w|]. intros m'.
  case_match; [|apply preserves_ret; apply _]. case_match; [|apply preserves_ret; apply _].
  apply preserves_bind; [apply _| |intros _].
  - intros w Hw. unfold send_stop. by case_match.
  - apply preserves_manage. intros w Hw. unfold keeps_leader_paths. cbn.
    intros k' d' sk s' [_ Hd]%lookup_delete_Some. by eapply Hw.
Qed.

(** The senders of the push threads, which come and go with the threads. *)
Definition set_threads (exclusive share_leader share_follower : gmap bytes Sender) (m : SubscribeManager)
  : SubscribeManager :=
  mkSubscribeManager (subscribe_list m) (exclusive_push m) exclusive (share_leader_push m) share_leader
    (share_follower_resub m) share_follower (share_follower_identifier_id m) (exclusive_subscribe m)
    (topic_subscribe_list m).

(** One request, one pass of the thread that follows new topics or of the
    thread that removes empty groups, a subscription that another broker added
    or removed, or push threads that start and end; a handler that fails leaves
    what it had done. *)
Inductive sub_step (w : SubWorld) : SubWorld -> Prop :=
| step_subscribe env c pr sub props : sub_step w (save_subscribe env c pr sub props w).2
| step_unsubscribe env c u : sub_step w (remove_subscribe env c u w).2
| step_new_topic env t : sub_step w (parse_subscribe_by_new_topic env t w).2
| step_remove_client c : sub_step w (manage (remove_client_id c) w).2
| step_empty_groups : sub_step w (remove_empty_groups w).2
| step_added_elsewhere s : sub_step w (manage (add_subscribe s) w).2
| step_removed_elsewhere c p :
    sub_step w (manage (fun m =>
      remove_subscribe_entry c p
        (if is_some (get_subscribe c p m) then remove_exclusive_subscribe_by_path p m else m)) w).2
| step_threads e l f : sub_step w (manage (set_threads e l f) w).2.

Inductive sub_reachable : SubWorld -> Prop :=
| reach_new : sub_reachable (mkSubWorld SubscribeManager_new [])
| reach_step w w' : sub_reachable w -> sub_step w w' -> sub_reachable w'.

Lemma reachable_leader_paths w : sub_reachable w -> leader_paths (share_leader_push (w_manager w)).
Proof.
  induction 1 as [|w w' _ IH Hs]; [by intros k d sk s Hk|]. destruct Hs.
  - by apply save_subscribe_leader_paths.
  - unfold leader_paths. by rewrite (remove_subscribe_leaders env c u w IH).
  - by apply new_topic_leader_paths.
  - by apply remove_client_id_leader_paths.
  - by apply remove_empty_groups_leader_paths.
  - done.
  - cbn. unfold remove_exclusive_subscribe_by_path. by repeat case_match.
  - done.
Qed.

(** The exclusive subscriptions that SUBSCRIBE records. *)
Lemma parse_subscribe_records env c topic pr pkid f props w w' :
  exclusive_subscription_available env = true -> is_exclusive_sub (path f) = true ->
  parse_subscribe env c topic pr pkid f props w = (Ok tt, w') ->
  is_exclusive_subscribe (decode_exclusive_sub_path_to_topic_name (path f)) (w_manager w') = true.
Proof.
  intros Hon Hx Hp. unfold parse_subscribe in Hp. rewrite Hon in Hp. unfold bind, manage in Hp.
  match type of Hp with (if _ then parse_share_subscribe _ ?q else if _ then _ else add_exclusive_push _ _ _ ?i _) ?w1 = _ =>
    pose proof (parse_kinds_more_exclusive env c topic pr i f q eq_refl eq_refl w1) as Hm end.
  change w' with ((Ok tt : outcome MqttBrokerError unit, w').2). rewrite <- Hp.
  repeat case_match; apply Hm; unfold add_exclusive_subscribe; rewrite Hx; unfold is_exclusive_subscribe; cbn;
    by rewrite lookup_insert_eq.
Qed.

Definition same_exclusive (w w' : SubWorld) : Prop :=
  exclusive_subscribe (w_manager w') = exclusive_subscribe (w_manager w).
#[export] Instance same_exclusive_preorder : PreOrder same_exclusive.
Proof. split; [by intros ?|]. intros ? ? ? H1 H2. unfold same_exclusive in *. congruence. Qed.

Lemma parse_subscribes_record env c pr sub props w w' f :
  exclusive_subscription_available env = true -> is_exclusive_sub (path f) = true ->
  f ∈ filters sub -> topic_info env <> ∅ ->
  for_each (map_iter (topic_info env)) (fun topic =>
    for_each (filters sub) (fun filter =>
      parse_subscribe env c topic.2 pr (packet_identifier sub) filter props)) w = (Ok tt, w') ->
  is_exclusive_subscribe (decode_exclusive_sub_path_to_topic_name (path f)) (w_manager w') = true.
Proof.
  intros Hon Hx Hf Hne. set (t0 := decode_exclusive_sub_path_to_topic_name (path f)).
  destruct (map_choose _ Hne) as (k & topic & Hk).
  apply (for_each_establish _ _ (fun w => is_exclusive_subscribe t0 (w_manager w) = true) (k, topic)).
  - intros b w1. enough (preserves more_exclusive
        (for_each (filters sub) (fun filter => parse_subscribe env c b.2 pr (packet_identifier sub) filter props)))
      as Hb by apply Hb.
    apply preserves_for_each; [apply _|]. intros x _. apply parse_subscribe_more_exclusive.
  - intros w1 w2. apply (for_each_establish _ _ (fun w => is_exclusive_subscribe t0 (w_manager w) = true) f).
    + intros b w3 Hw3. by apply parse_subscribe_more_exclusive.
    + intros w3 w4. by apply parse_subscribe_records.
    + done.
  - rewrite map_iter_perm. by apply elem_of_map_to_list.
Qed.
End frames.

(** ** Theorems *)

(** C26: [remove_client_id] removes the push entries, the memberships of
    shared groups, the follower entries and the exclusive subscriptions of the
    client, and keeps those of every other client; the subscriptions and the
    threads are left as they were.  The lists of subscribers by topic are not
    kept: on the list of every topic that the client was pushed, the entries of
    the client stay and those of all other clients go, since
    [remove_topic_subscribe_by_client_id] retains what it should drop; the lists
    of the other topics are left. *)
Theorem remove_client_id_complete {SC : StopChannel} {MI : MapIter} {MS : MapIterSpec MI} c m :
  let m' := remove_client_id c m in
  exclusive_push m' = filter (fun kv => s_client_id kv.2 <> c) (exclusive_push m) /\
  share_leader_push m'
  = set_sub_list (filter (fun kv => s_client_id kv.2 <> c)) <$> share_leader_push m /\
  share_follower_resub m' = filter (fun kv => ss_client_id kv.2 <> c) (share_follower_resub m) /\
  exclusive_subscribe m' = filter (fun kv => kv.2 <> c) (exclusive_subscribe m) /\
  subscribe_list m' = subscribe_list m /\ exclusive_push_thread m' = exclusive_push_thread m /\
  share_leader_push_thread m' = share_leader_push_thread m /\
  share_follower_resub_thread m' = share_follower_resub_thread m /\
  forall t, (pushed_topic c t m -> topic_subscribe_list m' !! t = own_entries c <$> topic_subscribe_list m !! t) /\
            (~ pushed_topic c t m -> topic_subscribe_list m' !! t = topic_subscribe_list m !! t).
Proof.
  destruct (remove_client_id_eval c m) as (H1 & H2 & H3 & H4 & H5 & H6 & H7 & H8). split_and!; try done.
  apply remove_client_id_lists.
Qed.

(** A stop channel that is always heard, for the witnesses. *)
Definition heard : StopChannel := {| Sender := nat; send_ok _ := true |}.

(** Two clients on the topic "/a", one of them also on "/b". *)
Definition two_clients : @SubscribeManager heard :=
  let sub c t := mkSubscriber Mqtt5 c t t None t AtLeastOnce false false OnEverySubscribe None in
  @mkSubscribeManager heard ∅
    {[ lit "c_/a" := sub (lit "c") (lit "/a"); lit "d_/a" := sub (lit "d") (lit "/a"); lit "d_/b" := sub (lit "d") (lit "/b") ]} ∅
    {[ lit "g" := mkShareLeaderSubscribeData (lit "g") (lit "/a") (lit "/a") (lit "/a")
                    {[ lit "c_/a" := sub (lit "c") (lit "/a"); lit "d_/a" := sub (lit "d") (lit "/a") ]} ]} ∅ ∅ ∅ ∅
    {[ lit "/x" := lit "c"; lit "/y" := lit "d" ]}
    {[ lit "/a" := [mkTopicSubscribeInfo (lit "c") (lit "/a"); mkTopicSubscribeInfo (lit "d") (lit "/a")];
       lit "/b" := [mkTopicSubscribeInfo (lit "d") (lit "/b")] ]}.

Lemma remove_client_id_complete_witness :
  let m' := @remove_client_id heard key_order (lit "c") two_clients in
  is_some (exclusive_push m' !! lit "c_/a") = false /\ is_some (exclusive_push m' !! lit "d_/a") = true /\
  exclusive_subscribe m' = {[ lit "/y" := lit "d" ]} /\
  topic_subscribe_list m' !! lit "/a" = Some [mkTopicSubscribeInfo (lit "c") (lit "/a")].
Proof.
  destruct (@remove_client_id_complete heard key_order key_order_spec (lit "c") two_clients)
    as (H1 & _ & _ & H4 & _ & _ & _ & _ & H).
  cbv zeta. split_and!.
  - rewrite H1. vm_compute. reflexivity.
  - rewrite H1. vm_compute. reflexivity.
  - rewrite H4. vm_compute. reflexivity.
  - refine (eq_trans (proj1 (H (lit "/a")) _) _); [|vm_compute; reflexivity].
    left. exists (lit "c_/a"). eexists. split_and!; vm_compute; reflexivity.
Defined.

(** C27: UNSUBSCRIBE from an ordinary path that matches a topic removes the
    subscription and exactly those push entries of the client and the path
    that a push thread serves; when the stop signals are heard and the
    placement center answers, the request succeeds. *)
Theorem unsubscribe_removes_push {SC : StopChannel} {MI : MapIter} {MS : MapIterSpec MI}
    {RX : RegexCrate} env c p pkid w mt :
  (forall sx, send_ok sx = true) -> (forall a b, placement_delete_subscribe env a b = Ok tt) ->
  is_share_sub p = false ->
  (forall t w, is_some (topic_info env !! t) = true ->
     (path_regex_match t p : H bool) w = (Ok (mt t), w)) ->
  (exists t, is_some (topic_info env !! t) = true /\ mt t = true) ->
  exists w', remove_subscribe env c (mkUnsubscribe pkid [p]) w = (Ok tt, w') /\
    get_subscribe c p (w_manager w') = None /\
    forall k s, exclusive_push (w_manager w') !! k = Some s <->
      exclusive_push (w_manager w) !! k = Some s /\
      ~ (s_client_id s = c /\ s_sub_path s = p /\ is_some (exclusive_push_thread (w_manager w) !! k) = true).
Proof.
  intros Hsend Hrpc Hs Hm (t & Ht & Hmt). unfold remove_subscribe. cbn [un_filters].
  set (m1 := remove_exclusive_subscribe [p] (remove_subscribe_entry c p (w_manager w))).
  assert (exclusive_push m1 = exclusive_push (w_manager w) /\
          exclusive_push_thread m1 = exclusive_push_thread (w_manager w) /\
          subscribe_list m1 = delete (subscribe_key c p) (subscribe_list (w_manager w))) as (E1 & T1 & S1).
  { unfold m1. cbn. by case_match. }
  destruct (unsubscribe_by_path_eval env c p (mkSubWorld m1 (w_stops w)) mt) as (w' & Hw & Hsl & Hex); try done.
  exists w'. cbn [w_manager] in *. split_and!.
  - cbn [for_each]. unfold rpc. rewrite Hrpc. exact Hw.
  - unfold get_subscribe. by rewrite Hsl, S1, lookup_delete_eq.
  - assert (existsb (fun topic => mt topic.1) (map_iter (topic_info env)) = true) as Hb.
    { apply existsb_exists. destruct (topic_info env !! t) as [tp|] eqn:E; [|done].
      exists (t, tp). split; [|done]. apply list_elem_of_In. rewrite map_iter_perm.
      by apply elem_of_map_to_list. }
    intros k s. rewrite Hex, Hb, E1, T1, map_lookup_filter_Some. by rewrite unsubs_false.
Qed.

Definition sample_subscriber : Subscriber :=
  mkSubscriber Mqtt5 (lit "c") (lit "/a") (lit "/a") None (lit "id") AtLeastOnce false false
    OnEverySubscribe None.
Definition sample_env : BrokerEnv :=
  mkBrokerEnv (lit "cluster") 1 {[ lit "/a" := mkMqttTopic (lit "id") (lit "cluster") (lit "/a") None None 0 ]}
    true (fun _ => Ok tt) (fun _ _ => Ok tt) (fun _ => Ok 1).

Lemma unsubscribe_removes_push_witness :
  let m := @mkSubscribeManager heard ∅ {[ lit "c_/a_id" := sample_subscriber ]}
             {[ lit "c_/a_id" := 1%nat ]} ∅ ∅ ∅ ∅ ∅ ∅ ∅ in
  exists w', @remove_subscribe heard key_order no_match sample_env (lit "c") (mkUnsubscribe 1 [lit "/a"])
               (@mkSubWorld heard m []) = (Ok tt, w') /\
    get_subscribe (lit "c") (lit "/a") (w_manager w') = None /\
    forall k s, exclusive_push (w_manager w') !! k = Some s <->
      exclusive_push m !! k = Some s /\
      ~ (s_client_id s = lit "c" /\ s_sub_path s = lit "/a" /\
         is_some (exclusive_push_thread m !! k) = true).
Proof.
  intros m.
  apply (@unsubscribe_removes_push heard key_order key_order_spec no_match sample_env (lit "c") (lit "/a") 1
           (@mkSubWorld heard m []) (fun t => bool_decide (t = lit "/a"))).
  - reflexivity.
  - reflexivity.
  - reflexivity.
  - intros t w Ht. cbn [sample_env topic_info] in Ht.
    destruct (decide (t = lit "/a")) as [->|Hne]; [reflexivity|by rewrite lookup_singleton_ne in Ht].
  - exists (lit "/a"). split; reflexivity.
Defined.

(** C31: Once a subscriber is in a shared or queue group that this broker
    leads, UNSUBSCRIBE never takes it out: in every state that the requests, the
    threads for new topics and for empty groups, the push threads and the
    notices of other brokers can reach, whatever is unsubscribed and however
    the request ends, the groups are left exactly as they were. *)
Theorem unsubscribe_keeps_shared_leaders {SC : StopChannel} {MI : MapIter} {MS : MapIterSpec MI}
    {RX : RegexCrate} env c u w :
  sub_reachable w ->
  share_leader_push (w_manager (remove_subscribe env c u w).2) = share_leader_push (w_manager w).
Proof. intros Hw. by apply remove_subscribe_leaders, reachable_leader_paths. Qed.

Definition sample_filter (p : string) : Filter := mkFilter (lit p) AtLeastOnce false false OnEverySubscribe.

Lemma unsubscribe_keeps_shared_leaders_witness :
  let w := (@save_subscribe heard key_order no_match sample_env (lit "c") Mqtt5
              (mkSubscribe 1 [sample_filter "$share/g/a"]) None
              (@mkSubWorld heard SubscribeManager_new [])).2 in
  let w' := (@remove_subscribe heard key_order no_match sample_env (lit "c")
               (mkUnsubscribe 2 [lit "$share/g/a"]) w).2 in
  share_leader_push (w_manager w') = share_leader_push (w_manager w) /\
  size (share_leader_push (w_manager w)) = 1%nat.
Proof.
  intros w w'. split; [|by vm_compute].
  apply (@unsubscribe_keeps_shared_leaders heard key_order key_order_spec no_match).
  eapply reach_step; [apply reach_new|apply step_subscribe].
Defined.

(** With the feature on, an exclusive subscription that was accepted while
    the broker knows some topic shuts out every later SUBSCRIBE that asks for
    the same topic exclusively; while the broker knows no topic, it is not
    recorded at all. *)
Theorem exclusive_subscription_recorded {SC : StopChannel} {MI : MapIter} {MS : MapIterSpec MI}
    {RX : RegexCrate} env c pr sub props w w' f :
  exclusive_subscription_available env = true ->
  save_subscribe env c pr sub props w = (Ok tt, w') ->
  f ∈ filters sub -> is_exclusive_sub (path f) = true ->
  (topic_info env <> ∅ ->
     forall sub2 f2, f2 ∈ filters sub2 -> path f2 = path f ->
       check_exclusive_subscribe env sub2 (w_manager w') = false) /\
  (topic_info env = ∅ -> exclusive_subscribe (w_manager w') = exclusive_subscribe (w_manager w)).
Proof.
  intros Hon Hs Hf Hx. apply bind_inv in Hs as ([] & w1 & H1 & H2). split.
  - intros Hne sub2 f2 Hf2 Hp. unfold check_exclusive_subscribe. rewrite Hon. cbn [negb].
    apply not_true_iff_false. rewrite forallb_forall. intros Hall.
    specialize (Hall f2 (proj1 (list_elem_of_In _ _) Hf2)). rewrite Hp, Hx in Hall. cbn [negb] in Hall.
    rewrite (parse_subscribes_record env c pr sub props w1 w' f) in Hall; done.
  - intros He. rewrite He in H2.
    assert (map_iter (∅ : gmap bytes MqttTopic) = []) as Hnil.
    { apply Permutation_nil_r. by rewrite map_iter_perm, map_to_list_empty. }
    rewrite Hnil in H2. injection H2 as <-.
    change w1 with ((Ok tt : outcome MqttBrokerError unit, w1).2). rewrite <- H1.
    apply (preserves_for_each same_exclusive). intros x _.
    apply preserves_bind; [apply _|apply preserves_rpc; apply _|]. intros _. by apply preserves_manage.
Qed.

Lemma exclusive_subscription_recorded_witness :
  let sub := mkSubscribe 1 [sample_filter "$exclusive/a"] in
  let w := @mkSubWorld heard SubscribeManager_new [] in
  let w' := (@save_subscribe heard key_order no_match sample_env (lit "c") Mqtt5 sub None w).2 in
  check_exclusive_subscribe sample_env sub (w_manager w) = true /\
  check_exclusive_subscribe sample_env sub (w_manager w') = false.
Proof.
  intros sub w w'. split; [by vm_compute|].
  refine (proj1 (@exclusive_subscription_recorded heard key_order key_order_spec no_match sample_env (lit "c") Mqtt5
           sub None w w' (sample_filter "$exclusive/a") eq_refl _ _ _) _ sub _ _ eq_refl).
  - by vm_compute.
  - by left.
  - by vm_compute.
  - done.
  - by left.
Defined.
