(* ===== verification/MessageStorage.v ===== *)
(** * Messages and their storage

    [metadata-struct/src/mqtt/message.rs] (a published message as it is
    stored), [mqtt-broker/src/handler/message.rs] (its expiry) and
    [mqtt-broker/src/storage/message.rs] (the broker's view of a store: topics
    are shards of the cluster's namespace).  The theorems hold for every store
    that is a [LogStore]. *)

From Stdlib Require Import String.
From S2P Require Import Prelude Bytes RustStr Storage MemoryStorage RocksEngine MqttTypes Topics.

(** ** metadata-struct/src/mqtt/message.rs *)

Record MqttMessage : Type := mkMqttMessage {
  m_client_id : bytes;
  m_dup : bool;
  m_qos : QoS;
  m_pkid : Z;
  m_retain : bool;
  m_topic : bytes;
  m_payload : bytes;
  m_format_indicator : option Z;
  m_expiry_interval : Z;
  m_response_topic : option bytes;
  m_correlation_data : option bytes;
  m_user_properties : list (bytes * bytes);
  m_subscription_identifiers : list Z;
  m_content_type : option bytes;
  m_create_time : Z
}.

Section message.
Context {JM : Json MqttMessage}.
Variable calc_crc32 : bytes -> Z.

Definition build_message (now_second : Z) (client_id : bytes) (publish : Publish)
    (publish_properties : option PublishProperties) (expiry_interval : Z) : MqttMessage :=
  match publish_properties with
  | Some properties =>
      mkMqttMessage client_id (dup publish) (pub_qos publish) (pub_pkid publish) (retain publish)
        (topic publish) (payload publish) (pp_payload_format_indicator properties) expiry_interval
        (pp_response_topic properties) (pp_correlation_data properties)
        (pp_user_properties properties) (pp_subscription_identifiers properties)
        (pp_content_type properties) now_second
  | None =>
      mkMqttMessage client_id (dup publish) (pub_qos publish) (pub_pkid publish) (retain publish)
        (topic publish) (payload publish) None expiry_interval None None [] [] None now_second
  end.

Definition build_record (now_second : Z) (client_id : bytes) (publish : Publish)
    (publish_properties : option PublishProperties) (expiry_interval : Z) : option MsgRecord :=
  match to_vec (build_message now_second client_id publish publish_properties expiry_interval) with
  | inr data => Some (build_byte calc_crc32 now_second data)
  | inl _ => None
  end.

Definition build_system_topic_message (now_second : Z) (topic_name payload : bytes) : option MsgRecord :=
  match to_vec (mkMqttMessage (lit "-") false AtMostOnce 0 false topic_name payload None 0 None None [] []
                  None now_second) with
  | inr data => Some (build_byte calc_crc32 now_second data)
  | inl _ => None
  end.

Definition decode_record (record : MsgRecord) : outcome CommonError MqttMessage :=
  match from_slice (r_data record) with
  | inr data => Ok data
  | inl e => Err (CommonError_ e)
  end.

(** ** handler/message.rs *)

Definition is_message_expire (now_second : Z) (message : MqttMessage) : bool :=
  m_expiry_interval message <? now_second.

Definition build_message_expire (now_second max_message_expiry_interval : Z)
    (publish_properties : option PublishProperties) : Z :=
  let by_cluster := wrap64 (now_second + max_message_expiry_interval) in
  match publish_properties with
  | Some properties =>
      match pp_message_expiry_interval properties with
      | Some expire => if 0 <? expire then wrap64 (now_second + expire) else by_cluster
      | None => by_cluster
      end
  | None => by_cluster
  end.
End message.

(** ** storage/message.rs *)

Section storage.
Context {S : Type} {SA : StorageAdapter S}.
Variable calc_crc32 : bytes -> Z.
Variable cluster_name : bytes.

Definition append_topic_message (topic_id : bytes) (record : list MsgRecord) : M S CommonError (list Z) :=
  let! results := batch_write cluster_name topic_id record in
  ret results.

Definition read_topic_message (topic_id : bytes) (offset record_num : Z) : M S CommonError (list MsgRecord) :=
  let read_config := mkReadConfig record_num (max_size ReadConfig_new) in
  let! records := read_by_offset cluster_name topic_id offset read_config in
  for_each records (fun raw =>
    if negb (crc32_check calc_crc32 raw) then fail CrcCheckByMessage else ret tt) ;;
  ret records.

Definition get_group_offset (group_id : bytes) : M S CommonError Z :=
  let! offset_data := get_offset_by_group group_id in
  match offset_data with
  | offset :: _ => ret (so_offset offset)
  | [] => ret 0
  end.

Definition commit_group_offset (group_id topic_id : bytes) (offset : Z) : M S CommonError unit :=
  commit_offset group_id cluster_name {[ topic_id := offset ]}.
End storage.

(** ** What the broker can rely on *)

Section client.
Context {S : Type} {SA : StorageAdapter S} {LS : LogStore S}.
Variable calc_crc32 : bytes -> Z.
Variable cluster_name : bytes.
Implicit Types (s : S) (a : LogSpec).

Lemma crc_loop records s :
  for_each records (fun raw => if negb (crc32_check calc_crc32 raw) then fail CrcCheckByMessage else ret tt) s
  = (if forallb (crc32_check calc_crc32) records then Ok tt else Err CrcCheckByMessage, s).
Proof.
  induction records as [|r records IH]; [done|]. rewrite for_each_cons. cbn [forallb].
  destruct (crc32_check calc_crc32 r); [|done]. exact IH.
Qed.

Lemma read_topic_eval s a topic_id l offset n :
  ls_rep s a -> ls_ns cluster_name -> logs a !! (cluster_name, topic_id) = Some l ->
  0 <= offset -> 0 <= n -> offset + n < 2 ^ 64 ->
  let window := take (Z.to_nat n) (drop (Z.to_nat offset) l) in
  read_topic_message calc_crc32 cluster_name topic_id offset n s
  = (if forallb (crc32_check calc_crc32) window then Ok window else Err CrcCheckByMessage, s).
Proof.
  intros Hr Hns Hl H0 H1 H2 window. unfold read_topic_message.
  rewrite (bind_ok _ _ _ _ _ (ls_read s a cluster_name topic_id l offset (mkReadConfig n (max_size ReadConfig_new))
                                Hr Hns Hl H0 H1 H2)).
  unfold spec_read. rewrite Hl. cbn [default id max_record_num]. fold window. unfold bind. rewrite crc_loop.
  by destruct (forallb _ window).
Qed.

Lemma append_topic_eval s a topic_id l ms :
  ls_rep s a -> ls_ns cluster_name -> logs a !! (cluster_name, topic_id) = Some l -> blen l + blen ms < 2 ^ 64 ->
  exists s', append_topic_message cluster_name topic_id ms s = (Ok (seqZ (blen l) (blen ms)), s') /\
             ls_rep s' (spec_append (cluster_name, topic_id) ms a).
Proof.
  intros Hr Hns Hl Hb. destruct (ls_batch_write s a cluster_name topic_id ms l Hr Hns Hl Hb) as (s' & E & Hr').
  exists s'. split; [|done]. unfold append_topic_message. by rewrite (bind_ok _ _ _ _ _ E).
Qed.

(** A group that listens to one topic. *)
Lemma get_group_eval s a g topic_id o :
  ls_rep s a -> ls_group g -> group_commits a g = {[ (cluster_name, topic_id) := o ]} ->
  get_group_offset g s = (Ok o, s).
Proof.
  intros Hr Hg Ho. destruct (ls_get_group s a g Hr Hg) as (l & E & Hp). unfold get_group_offset.
  rewrite (bind_ok _ _ _ _ _ E). rewrite Ho in Hp. unfold values in Hp. rewrite map_to_list_singleton in Hp.
  cbn in Hp. apply Permutation_singleton_r in Hp. destruct l as [|x [|? ?]]; try done. by injection Hp as <-.
Qed.

Lemma get_group_none s a g :
  ls_rep s a -> ls_group g -> group_commits a g = ∅ -> get_group_offset g s = (Ok 0, s).
Proof.
  intros Hr Hg Ho. destruct (ls_get_group s a g Hr Hg) as (l & E & Hp). unfold get_group_offset.
  rewrite (bind_ok _ _ _ _ _ E). rewrite Ho in Hp. unfold values in Hp. rewrite map_to_list_empty in Hp.
  cbn in Hp. apply Permutation_nil_r in Hp. by destruct l.
Qed.

Lemma commit_group_eval s a g topic_id o :
  ls_rep s a -> ls_ns cluster_name -> ls_group g ->
  exists s', commit_group_offset cluster_name g topic_id o s = (Ok tt, s') /\
             ls_rep s' (spec_commit g cluster_name {[ topic_id := o ]} a).
Proof. intros. by apply ls_commit. Qed.

Lemma group_commits_one a g topic_id o :
  group_commits (spec_commit g cluster_name {[ topic_id := o ]} a) g
  = <[(cluster_name, topic_id) := o]> (group_commits a g).
Proof.
  unfold group_commits at 1. cbn. rewrite lookup_insert_eq. cbn. rewrite (kmap_singleton _).
  by rewrite insert_union_singleton_l.
Qed.
End client.

(** ** Theorems *)

(** The record [r] holds the message of a PUBLISH: it is the last one of the
    log of the topic, a read from its offset returns it and passes the
    checksum, and it decodes to the message as it was published. *)
Definition stored_as {S : Type} {SA : StorageAdapter S} {LS : LogStore S} {JM : Json MqttMessage}
    calc_crc32 cluster topic_id (a : LogSpec) (l : list MsgRecord) now client_id publish properties expiry
    (r : MsgRecord) (s' : S) : Prop :=
  build_record calc_crc32 now client_id publish properties expiry = Some r /\
  ls_rep s' (spec_append (cluster, topic_id) [r] a) /\
  read_topic_message calc_crc32 cluster topic_id (blen l) 1 s' = (Ok [set_offset (blen l) r], s') /\
  decode_record (set_offset (blen l) r) = Ok (build_message now client_id publish properties expiry).

(** In every store that keeps the promise of [LogStore], a message is appended
    behind the log of an existing topic at the offset that is answered. *)
Lemma message_stored {S : Type} {SA : StorageAdapter S} {LS : LogStore S}
    {JM : Json MqttMessage} {JMS : JsonSpec MqttMessage} calc_crc32 cluster topic_id (s : S) a l
    now client_id publish properties expiry :
  ls_rep s a -> ls_ns cluster -> logs a !! (cluster, topic_id) = Some l -> blen l + 2 < 2 ^ 64 ->
  exists r s',
    stored_as calc_crc32 cluster topic_id a l now client_id publish properties expiry r s' /\
    append_topic_message cluster topic_id [r] s = (Ok [blen l], s').
Proof.
  intros Hr Hns Hl Hb. set (msg := build_message now client_id publish properties expiry).
  destruct (json_ok msg) as (E1 & _ & E2). exists (build_byte calc_crc32 now (json msg)).
  destruct (append_topic_eval cluster s a topic_id l [build_byte calc_crc32 now (json msg)] Hr Hns Hl) as (s' & Ea & Hr').
  { rewrite blen_cons, blen_nil. lia. }
  exists s'. split; [|done]. split_and!; [|done| |].
  - unfold build_record. fold msg. by rewrite E1.
  - pose proof (blen_nonneg l).
    rewrite (read_topic_eval calc_crc32 cluster s' _ topic_id (l ++ [set_offset (blen l) (build_byte calc_crc32 now (json msg))])
               (blen l) 1 Hr' Hns); [|by cbn; rewrite lookup_insert_eq, Hl|lia|lia|lia].
    rewrite drop_blen_app. change (Z.to_nat 1) with 1%nat. cbn [take forallb].
    assert (crc32_check calc_crc32 (set_offset (blen l) (build_byte calc_crc32 now (json msg))) = true) as ->
      by apply Z.eqb_refl. done.
  - unfold decode_record. cbn. by rewrite E2.
Qed.

#[export] Instance QoS_countable : Countable QoS.
Proof.
  apply (inj_countable' (fun q => match q with AtMostOnce => 0 | AtLeastOnce => 1 | ExactlyOnce => 2 end)
    (fun z => if z =? 0 then AtMostOnce else if z =? 1 then AtLeastOnce else ExactlyOnce)). by intros [].
Defined.
#[export] Instance MqttMessage_eq_dec : EqDecision MqttMessage.
Proof. solve_decision. Defined.
#[export] Instance MqttMessage_countable : Countable MqttMessage.
Proof.
  apply (inj_countable'
    (fun m => (m_client_id m, m_dup m, m_qos m, m_pkid m, m_retain m, m_topic m, m_payload m, m_format_indicator m,
               (m_expiry_interval m, m_response_topic m, m_correlation_data m, m_user_properties m,
                m_subscription_identifiers m, m_content_type m, m_create_time m)))
    (fun '(a, b, c, d, e, f, g, h, (i, j, k, l, n, o, p)) => mkMqttMessage a b c d e f g h i j k l n o p)).
  by intros [].
Defined.

Definition sample_publish : Publish := mkPublish false AtLeastOnce 7 false (lit "/a") [104; 105].
