(* ===== verification/DelayMessages.v ===== *)
(** * Delayed messages

    The crate [delay-message]: messages published to a [$delayed] topic are
    written to one of a few shards and queued; when their time has come they
    are read back and written on.  The queue is the [DelayQueue] of
    [tokio-util]: the list of what was put into it, with the deadlines. *)

From Stdlib Require Import String.
From S2P Require Import Prelude Bytes RustStr Storage MemoryStorage.

Record DelayMessageRecord : Type := mkDelayMessageRecord {
  dr_shard_name : bytes;
  dr_offset : Z;
  dr_delay_timestamp : Z
}.

Record DelayMessageManager : Type := mkDelayMessageManager {
  dm_namespace : bytes;
  dm_shard_num : Z;
  dm_incr_no : Z;
  dm_delay_queue_list : gmap Z (list (DelayMessageRecord * Z))
}.
Definition DelayMessageManager_new (namespace : bytes) (shard_num : Z) : DelayMessageManager :=
  mkDelayMessageManager namespace shard_num 0 ∅.

Definition get_delay_message_shard_name (no : Z) : bytes := lit "$delay-message-shard-" ++ decimal no.

Section delay.
Context {S : Type} {SA : StorageAdapter S}.

Record DelayState : Type := mkDelayState { ds_store : S; ds_manager : DelayMessageManager }.
Definition DM (A : Type) : Type := M DelayState CommonError A.

Definition on_store {A : Type} (m : M S CommonError A) : DM A :=
  fun s => let (o, st) := m (ds_store s) in (o, mkDelayState st (ds_manager s)).
Definition manager_of : DM DelayMessageManager := fun s => (Ok (ds_manager s), s).
Definition set_manager (m : DelayMessageManager) : DM unit :=
  fun s => (Ok tt, mkDelayState (ds_store s) m).

(** ** lib.rs *)

Definition try_init_shard : DM unit :=
  let! m := manager_of in
  for_each (seqZ 0 (dm_shard_num m)) (fun i =>
    let shard_name := get_delay_message_shard_name i in
    let! results := on_store (list_shard (dm_namespace m) shard_name) in
    if blen results =? 0 then on_store (create_shard (mkShardInfo (dm_namespace m) shard_name 1))
    else ret tt).

Definition init_delay_queue : DM unit :=
  let! m := manager_of in
  set_manager (mkDelayMessageManager (dm_namespace m) (dm_shard_num m) (dm_incr_no m)
    (foldl (fun q no => <[ no := [] ]> q) (dm_delay_queue_list m) (seqZ 0 (dm_shard_num m)))).

Definition delay_init : DM unit := try_init_shard ;; init_delay_queue.

(** [fetch_add(1) % shard_num], which panics for 0. *)
Definition get_target_shard_no : DM Z :=
  let! m := manager_of in
  set_manager (mkDelayMessageManager (dm_namespace m) (dm_shard_num m) (wrap64 (dm_incr_no m + 1))
    (dm_delay_queue_list m)) ;;
  if dm_shard_num m =? 0 then panic else ret (dm_incr_no m mod dm_shard_num m).

(** [now] is the instant at which the entry is made, in seconds. *)
Definition send_to_delay_queue (now : Z) (shard_no : Z) (r : DelayMessageRecord) : DM unit :=
  let! m := manager_of in
  set_manager (mkDelayMessageManager (dm_namespace m) (dm_shard_num m) (dm_incr_no m)
    (alter (fun q => q ++ [(r, now + dr_delay_timestamp r)]) shard_no (dm_delay_queue_list m))).

Definition send_delay_message (now : Z) (data : MsgRecord) : DM unit :=
  let! shard_no := get_target_shard_no in
  let! m := manager_of in
  let shard_name := get_delay_message_shard_name shard_no in
  let! offset := on_store (write (dm_namespace m) shard_name data) in
  send_to_delay_queue now shard_no (mkDelayMessageRecord shard_name offset (r_delay_timestamp data)).

(** ** build.rs

    The loop that fills the queue from a shard when the broker starts; [fuel]
    bounds its rounds, an error of the store is retried. *)
Definition queue_record (now_second shard_no : Z) (shard_name : bytes) (record : MsgRecord) (offset : Z)
  : DM unit :=
  if r_delay_timestamp record <? now_second then ret tt
  else send_to_delay_queue now_second shard_no
         (mkDelayMessageRecord shard_name offset (r_delay_timestamp record)).

Fixpoint queue_records (now_second shard_no : Z) (shard_name : bytes) (data : list MsgRecord) (offset : Z)
  : DM Z :=
  match data with
  | [] => ret offset
  | record :: data =>
      let! offset := unwrap (r_offset record) in
      queue_record now_second shard_no shard_name record offset ;;
      queue_records now_second shard_no shard_name data offset
  end.

Fixpoint build_delay_queue_loop (fuel : nat) (now_second : Z) (namespace : bytes) (shard_no : Z)
    (shard_name : bytes) (read_config : ReadConfig) (offset : Z) : DM unit :=
  match fuel with
  | O => out_of_fuel
  | Datatypes.S fuel => fun s =>
      match on_store (read_by_offset namespace shard_name offset read_config) s with
      | (Ok data, s) =>
          if blen data =? 0 then (Ok tt, s)
          else (let! offset := queue_records now_second shard_no shard_name data offset in
                build_delay_queue_loop fuel now_second namespace shard_no shard_name read_config offset) s
      | (Err _, s) =>
          build_delay_queue_loop fuel now_second namespace shard_no shard_name read_config offset s
      | (Panic, s) => (Panic, s)
      | (OutOfFuel, s) => (OutOfFuel, s)
      end
  end.
Definition build_delay_queue (fuel : nat) (now_second : Z) (namespace : bytes) (shard_no : Z)
    (shard_name : bytes) (read_config : ReadConfig) : DM unit :=
  build_delay_queue_loop fuel now_second namespace shard_no shard_name read_config 0.

(** ** pop.rs *)

Fixpoint first_at (offset : Z) (results : list MsgRecord) : M S CommonError (option MsgRecord) :=
  match results with
  | [] => ret None
  | record :: results =>
      let! o := unwrap (r_offset record) in
      if o =? offset then ret (Some record) else first_at offset results
  end.
Definition read_offset_data (namespace shard_name : bytes) (offset : Z)
  : M S CommonError (option MsgRecord) :=
  let! results := read_by_offset namespace shard_name offset (mkReadConfig 1 (1024 * 1024 * 1024)) in
  first_at offset results.

(** At most 1001 attempts; an error is retried. *)
Fixpoint send_to_shard_loop (attempts : nat) (namespace shard_name : bytes) (offset : Z)
  : M S CommonError unit :=
  match attempts with
  | O => ret tt
  | Datatypes.S attempts => fun s =>
      match read_offset_data namespace shard_name offset s with
      | (Ok (Some record), s) =>
          match write namespace shard_name record s with
          | (Ok _, s) => (Ok tt, s)
          | (Err _, s) => send_to_shard_loop attempts namespace shard_name offset s
          | (Panic, s) => (Panic, s)
          | (OutOfFuel, s) => (OutOfFuel, s)
          end
      | (Ok None, s) => (Ok tt, s)
      | (Err _, s) => send_to_shard_loop attempts namespace shard_name offset s
      | (Panic, s) => (Panic, s)
      | (OutOfFuel, s) => (OutOfFuel, s)
      end
  end.
Definition send_delay_message_to_shard (namespace shard_name : bytes) (offset : Z)
  : M S CommonError unit := send_to_shard_loop 1001 namespace shard_name offset.

(** The entries of a queue whose deadline is over leave it, and each is sent on
    in a task of its own. *)
Definition pop_delay_queue (now : Z) (namespace : bytes) (shard_no : Z) : DM unit :=
  let! m := manager_of in
  match dm_delay_queue_list m !! shard_no with
  | Some q =>
      set_manager (mkDelayMessageManager (dm_namespace m) (dm_shard_num m) (dm_incr_no m)
        (<[ shard_no := filter (fun e => (now <? e.2) = true) q ]> (dm_delay_queue_list m))) ;;
      for_each (filter (fun e => (now <? e.2) = false) q) (fun e =>
        on_store (send_delay_message_to_shard namespace (dr_shard_name e.1) (dr_offset e.1)))
  | None => ret tt
  end.
End delay.

(** ** What becomes of a delayed message *)

Section theorems.
Context {S : Type} {SA : StorageAdapter S} {LS : LogStore S}.
Implicit Types (st : S) (a : LogSpec) (l : list MsgRecord).

Lemma spec_read_stamped a ns sh l offset n :
  logs a !! (ns, sh) = Some l -> stamped l -> 0 <= offset -> 0 <= n ->
  exists data, spec_read (ns, sh) offset n a = data /\ blen data = Z.max 0 (Z.min n (blen l - offset)) /\
    forall i r, data !! i = Some r ->
      r_offset r = Some (offset + Z.of_nat i) /\ l !! Z.to_nat (offset + Z.of_nat i) = Some r.
Proof.
  intros Hl Hst Ho Hn. eexists. split; [done|]. unfold spec_read. rewrite Hl. cbn. split.
  - unfold blen. rewrite length_take, length_drop. lia.
  - intros i r. rewrite lookup_take_Some, lookup_drop. intros [Hi _].
    replace (Z.to_nat (offset + Z.of_nat i)) with (Z.to_nat offset + i)%nat by lia. split; [|done].
    rewrite (Hst _ _ Hi). f_equal. lia.
Qed.

Lemma read_offset_data_eval st a ns sh l i r :
  ls_rep st a -> ls_ns ns -> logs a !! (ns, sh) = Some l -> stamped l -> blen l < 2 ^ 64 - 1 ->
  l !! i = Some r ->
  read_offset_data ns sh (Z.of_nat i) st = (Ok (Some r), st).
Proof.
  intros Hrep Hns Hl Hst Hlen Hi. unfold read_offset_data.
  pose proof (lookup_lt_Some _ _ _ Hi). unfold blen in *.
  erewrite bind_ok by (eapply ls_read; cbn; eauto; lia). cbn [max_record_num].
  destruct (spec_read_stamped a ns sh l (Z.of_nat i) 1 Hl Hst) as (data & -> & Hd & Hr); [lia..|].
  unfold blen in Hd. destruct data as [|r' data]; cbn in Hd; [lia|].
  destruct (Hr 0%nat r' eq_refl) as [Ho Hl']. cbn. rewrite Z.add_0_r in *. rewrite Nat2Z.id in Hl'.
  rewrite Ho. cbn. rewrite Z.eqb_refl. assert (r' = r) as -> by congruence. done.
Qed.

(** A delayed message whose time has come is appended once more to the
    shard of delayed messages in which it waited; no other log, that of the
    topic it was published to included, changes. *)
Theorem delayed_message_returns_to_its_shard st a ns sh l i r :
  ls_rep st a -> ls_ns ns -> logs a !! (ns, sh) = Some l -> stamped l -> blen l + 1 < 2 ^ 64 ->
  l !! i = Some r ->
  exists st' a', send_delay_message_to_shard ns sh (Z.of_nat i) st = (Ok tt, st') /\ ls_rep st' a' /\
    logs a' !! (ns, sh) = Some (l ++ [set_offset (blen l) r]) /\
    (forall k, k ≠ (ns, sh) -> logs a' !! k = logs a !! k) /\ commits a' = commits a.
Proof.
  intros Hrep Hns Hl Hst Hlen Hi. unfold send_delay_message_to_shard.
  change 1001%nat with (Datatypes.S 1000). generalize 1000%nat. intros n. cbn [send_to_shard_loop].
  rewrite (read_offset_data_eval _ _ _ _ _ _ _ Hrep Hns Hl Hst ltac:(lia) Hi).
  destruct (ls_write _ _ _ _ r _ Hrep Hns Hl Hlen) as (st' & -> & Hrep').
  exists st', (spec_append (ns, sh) [r] a). split_and!; try done.
  - unfold spec_append. rewrite Hl. cbn. by rewrite lookup_insert_eq.
  - intros k Hk. cbn. by rewrite lookup_insert_ne.
Qed.

Lemma queue_records_eval now_second no sh data offset (s : DelayState (S := S)) :
  (forall i r, data !! i = Some r -> r_offset r = Some (offset + Z.of_nat i)) ->
  data <> [] ->
  exists m', queue_records now_second no sh data offset s =
             (Ok (offset + blen data - 1), mkDelayState (ds_store s) m').
Proof.
  assert (forall data o (s : DelayState (S := S)), (forall i r, data !! i = Some r -> r_offset r = Some (o + 1 + Z.of_nat i)) ->
    exists m', queue_records now_second no sh data o s =
               (Ok (o + blen data), mkDelayState (ds_store s) m')) as Hgen.
  { clear. intros data. induction data as [|r data IH]; intros o s Ho.
    { exists (ds_manager s). cbn. rewrite blen_nil, Z.add_0_r. by destruct s. }
    cbn [queue_records]. rewrite (Ho 0%nat r eq_refl). cbn [unwrap ret bind].
    edestruct (IH (o + 1 + Z.of_nat 0) (queue_record now_second no sh r (o + 1 + Z.of_nat 0) s).2)
      as [m' Hm'].
    { intros i r' Hi. rewrite (Ho (Datatypes.S i) r' Hi). f_equal. lia. }
    exists m'. rewrite blen_cons. unfold queue_record in *.
    destruct (_ <? _); cbn in *; rewrite Hm'; do 2 f_equal; lia. }
  intros Ho Hne. destruct (Hgen data (offset - 1) s) as [m' Hm'].
  { intros i r Hi. rewrite (Ho i r Hi). f_equal. lia. }
  exists m'. destruct data as [|r data]; [done|]. cbn [queue_records] in *. rewrite Hm'. do 2 f_equal. lia.
Qed.

(** Rebuilding the queue of a shard that holds a message never ends: each
    round reads again from the offset of the last message it has seen. *)
Theorem build_delay_queue_diverges fuel now_second st a m ns no sh l n size :
  ls_rep st a -> ls_ns ns -> logs a !! (ns, sh) = Some l -> stamped l -> l <> [] ->
  0 < n -> blen l + n < 2 ^ 64 ->
  fst (build_delay_queue fuel now_second ns no sh (mkReadConfig n size) (mkDelayState st m)) = OutOfFuel.
Proof.
  intros Hrep Hns Hl Hst Hne Hn Hlen. unfold build_delay_queue.
  assert (0 < blen l) as Hpos by (destruct l; [done|]; rewrite blen_cons; pose proof (blen_nonneg l); lia).
  assert (forall offset m, 0 <= offset < blen l ->
    fst (build_delay_queue_loop fuel now_second ns no sh (mkReadConfig n size) offset
           (mkDelayState st m)) = OutOfFuel) as Hgen; [|by apply Hgen; lia].
  induction fuel as [|fuel IH]; intros offset m' Ho; [done|]. cbn [build_delay_queue_loop].
  destruct (spec_read_stamped a ns sh l offset n Hl Hst) as (data & Hread & Hd & Hr); [lia..|].
  assert (on_store (read_by_offset ns sh offset (mkReadConfig n size)) (mkDelayState st m') =
          (Ok data, mkDelayState st m')) as ->.
  { unfold on_store. cbn [ds_store ds_manager].
    rewrite (ls_read _ _ _ _ _ _ _ Hrep Hns Hl) by (cbn; lia). cbn [max_record_num]. by rewrite Hread. }
  rewrite (proj2 (Z.eqb_neq _ _)) by lia.
  edestruct (queue_records_eval now_second no sh data offset (mkDelayState st m')) as [m1 Hq].
  { intros i r Hi. by apply Hr. } { intros ->. rewrite blen_nil in Hd. lia. }
  rewrite (bind_ok _ _ _ _ _ Hq). cbn [ds_store]. apply IH. lia.
Qed.
End theorems.

(** ** Examples *)

(** A shard of delayed messages that holds one record. *)
Definition delay_shard : bytes := get_delay_message_shard_name 0.
Definition delayed : MsgRecord := sample_record (lit "k") 5.
Definition delay_ops : list store_op :=
  [OpCreate (mkShardInfo (lit "ns") delay_shard 1); OpWrite (lit "ns") delay_shard delayed].
Definition delay_store : MemoryStorageAdapter :=
  (for_each delay_ops (@run_op _ (@MemoryStorage_adapter key_order)) MemoryStorageAdapter_new).2.

Lemma delay_store_rep : mem_rep delay_store (foldl (fun a o => spec_op o a) (mkLogSpec ∅ ∅) delay_ops).
Proof.
  destruct (@run_ops_refine key_order key_order_spec delay_ops MemoryStorageAdapter_new (mkLogSpec ∅ ∅))
    as (s & Hs & Hr); [|apply mem_rep_new|].
  { repeat constructor; by apply (bool_decide_unpack _). }
  unfold delay_store. by rewrite Hs.
Qed.
Lemma delay_store_stamped : stamped [set_offset 0 delayed].
Proof. intros [|i] r H; [by injection H as <-|done]. Qed.

Lemma delayed_message_returns_to_its_shard_witness :
  exists st', @send_delay_message_to_shard _ (@MemoryStorage_adapter key_order) (lit "ns") delay_shard 0
                delay_store = (Ok tt, st').
Proof.
  destruct (@delayed_message_returns_to_its_shard _ (@MemoryStorage_adapter key_order)
              (@MemoryStorage_log_store key_order key_order_spec) delay_store
              (foldl (fun a o => spec_op o a) (mkLogSpec ∅ ∅) delay_ops) (lit "ns") delay_shard
              [set_offset 0 delayed] 0 (set_offset 0 delayed)) as (st' & a' & H & _).
  - apply delay_store_rep.
  - by apply (bool_decide_unpack _).
  - vm_compute; reflexivity.
  - apply delay_store_stamped.
  - reflexivity.
  - reflexivity.
  - exists st'. exact H.
Defined.

Lemma build_delay_queue_diverges_witness :
  fst (@build_delay_queue _ (@MemoryStorage_adapter key_order) 1000 9 (lit "ns") 0 delay_shard
         (mkReadConfig 100 0) (mkDelayState delay_store (DelayMessageManager_new (lit "ns") 1)))
  = OutOfFuel.
Proof.
  apply (@build_delay_queue_diverges _ (@MemoryStorage_adapter key_order)
           (@MemoryStorage_log_store key_order key_order_spec) 1000 9 delay_store
           (foldl (fun a o => spec_op o a) (mkLogSpec ∅ ∅) delay_ops)
           (DelayMessageManager_new (lit "ns") 1) (lit "ns") 0 delay_shard [set_offset 0 delayed] 100 0).
  - apply delay_store_rep.
  - by apply (bool_decide_unpack _).
  - vm_compute; reflexivity.
  - apply delay_store_stamped.
  - done.
  - lia.
  - reflexivity.
Defined.
