(* ===== verification/Acl.v ===== *)
(** * Access control lists and blacklists

    [common/metadata-struct/src/acl/*.rs] and
    [mqtt-broker/src/security/acl/metadata.rs]: the rules that the broker
    caches, and the record of reconnecting clients that
    [handler/flapping_detect.rs] keeps beside them. *)

From Stdlib Require Import String.
From S2P Require Import Prelude Bytes RustStr Storage.

(** ** Rules *)

Inductive MqttAclResourceType : Type := ClientId | User.
Inductive MqttAclAction : Type := All | Subscribe_ | Publish_ | PubSub | Retain | Qos.
Inductive MqttAclPermission : Type := Allow | Deny.
#[export] Instance MqttAclResourceType_eq_dec : EqDecision MqttAclResourceType.
Proof. solve_decision. Defined.
#[export] Instance MqttAclAction_eq_dec : EqDecision MqttAclAction.
Proof. solve_decision. Defined.
#[export] Instance MqttAclPermission_eq_dec : EqDecision MqttAclPermission.
Proof. solve_decision. Defined.

Record MqttAcl : Type := mkMqttAcl {
  acl_resource_type : MqttAclResourceType;
  acl_resource_name : bytes;
  acl_topic : bytes;
  acl_ip : bytes;
  acl_action : MqttAclAction;
  acl_permission : MqttAclPermission
}.

Inductive MqttAclBlackListType : Type :=
| BL_ClientId | BL_User | BL_Ip | BL_ClientIdMatch | BL_UserMatch | BL_IPCIDR.

Record MqttAclBlackList : Type := mkMqttAclBlackList {
  bl_blacklist_type : MqttAclBlackListType;
  bl_resource_name : bytes;
  bl_end_time : Z;
  bl_desc : bytes
}.

(** [flapping_detect.rs]. *)
Record FlappingDetectCondition : Type := mkFlappingDetectCondition {
  fd_client_id : bytes;
  fd_before_last_window_connections : Z;
  fd_first_request_time : Z
}.

(** ** The cache of rules *)

Record AclMetadata : Type := mkAclMetadata {
  blacklist_user : gmap bytes MqttAclBlackList;
  blacklist_client_id : gmap bytes MqttAclBlackList;
  blacklist_ip : gmap bytes MqttAclBlackList;
  blacklist_user_match : gmap bytes (list MqttAclBlackList);
  blacklist_client_id_match : gmap bytes (list MqttAclBlackList);
  blacklist_ip_match : gmap bytes (list MqttAclBlackList);
  acl_user : gmap bytes (list MqttAcl);
  acl_client_id : gmap bytes (list MqttAcl);
  flapping_detect_map : gmap bytes FlappingDetectCondition
}.

Definition AclMetadata_new : AclMetadata := mkAclMetadata ∅ ∅ ∅ ∅ ∅ ∅ ∅ ∅ ∅.

(** *** Assignments *)

Definition upd_blacklists fu fc fi (m : AclMetadata) : AclMetadata :=
  mkAclMetadata (fu (blacklist_user m)) (fc (blacklist_client_id m)) (fi (blacklist_ip m))
    (blacklist_user_match m) (blacklist_client_id_match m) (blacklist_ip_match m)
    (acl_user m) (acl_client_id m) (flapping_detect_map m).
Definition upd_blacklist_matches fu fc fi (m : AclMetadata) : AclMetadata :=
  mkAclMetadata (blacklist_user m) (blacklist_client_id m) (blacklist_ip m)
    (fu (blacklist_user_match m)) (fc (blacklist_client_id_match m)) (fi (blacklist_ip_match m))
    (acl_user m) (acl_client_id m) (flapping_detect_map m).
Definition upd_acls fu fc (m : AclMetadata) : AclMetadata :=
  mkAclMetadata (blacklist_user m) (blacklist_client_id m) (blacklist_ip m)
    (blacklist_user_match m) (blacklist_client_id_match m) (blacklist_ip_match m)
    (fu (acl_user m)) (fc (acl_client_id m)) (flapping_detect_map m).
Definition upd_flapping f (m : AclMetadata) : AclMetadata :=
  mkAclMetadata (blacklist_user m) (blacklist_client_id m) (blacklist_ip m)
    (blacklist_user_match m) (blacklist_client_id_match m) (blacklist_ip_match m)
    (acl_user m) (acl_client_id m) (f (flapping_detect_map m)).

(** [if let Some(mut list) = map.get_mut(&key) { list.push(x) } else { map.insert(key, vec![x]) }]. *)
Definition push_at {A : Type} (key : bytes) (x : A) (map : gmap bytes (list A)) : gmap bytes (list A) :=
  match map !! key with
  | Some list => <[ key := list ++ [x] ]> map
  | None => <[ key := [x] ]> map
  end.

Definition client_id_match_key : bytes := lit "ClientIdMatch".
Definition user_match_key : bytes := lit "UserMatch".
Definition ip_cidr_key : bytes := lit "IPCIDR".

(** *** Operations *)

Definition parse_mqtt_acl (acl : MqttAcl) : AclMetadata -> AclMetadata :=
  match acl_resource_type acl with
  | ClientId => upd_acls id (push_at (acl_resource_name acl) acl)
  | User => upd_acls (push_at (acl_resource_name acl) acl) id
  end.

(** Every rule of the resource goes, not only the one that is named. *)
Definition remove_mqtt_acl (acl : MqttAcl) : AclMetadata -> AclMetadata :=
  match acl_resource_type acl with
  | ClientId => upd_acls id (delete (acl_resource_name acl))
  | User => upd_acls (delete (acl_resource_name acl)) id
  end.

Definition parse_mqtt_blacklist (blacklist : MqttAclBlackList) : AclMetadata -> AclMetadata :=
  let name := bl_resource_name blacklist in
  match bl_blacklist_type blacklist with
  | BL_ClientId => upd_blacklists id (insert name blacklist) id
  | BL_User => upd_blacklists (insert name blacklist) id id
  | BL_Ip => upd_blacklists id id (insert name blacklist)
  | BL_ClientIdMatch => upd_blacklist_matches id (push_at client_id_match_key blacklist) id
  | BL_UserMatch => upd_blacklist_matches (push_at user_match_key blacklist) id id
  | BL_IPCIDR => upd_blacklist_matches id id (push_at ip_cidr_key blacklist)
  end.

(** Removing one pattern removes all patterns of its kind. *)
Definition remove_mqtt_blacklist (blacklist : MqttAclBlackList) : AclMetadata -> AclMetadata :=
  let name := bl_resource_name blacklist in
  match bl_blacklist_type blacklist with
  | BL_ClientId => upd_blacklists id (delete name) id
  | BL_User => upd_blacklists (delete name) id id
  | BL_Ip => upd_blacklists id id (delete name)
  | BL_ClientIdMatch => upd_blacklist_matches id (delete client_id_match_key) id
  | BL_UserMatch => upd_blacklist_matches (delete user_match_key) id id
  | BL_IPCIDR => upd_blacklist_matches id id (delete ip_cidr_key)
  end.

Definition add_flapping_detect_condition (c : FlappingDetectCondition) : AclMetadata -> AclMetadata :=
  upd_flapping (insert (fd_client_id c) c).
Definition remove_flapping_detect_condition (client_id : bytes) : AclMetadata -> AclMetadata :=
  upd_flapping (delete client_id).

(** [convert_seconds(n, TimeUnit::Minutes)]. *)
Definition minutes (n : Z) : Z := wrap64 (n * 60).

Definition remove_flapping_detect_conditions (now_second window_time : Z) : AclMetadata -> AclMetadata :=
  upd_flapping (filter (fun kc =>
    (wrap64 (now_second - fd_first_request_time kc.2) <? minutes window_time) = true)).
