(* ===== verification/BrokerCache.v ===== *)
(** * The metadata cache of the broker

    [mqtt-broker/src/handler/cache.rs] and the records it holds
    ([common/metadata-struct/src/mqtt/*.rs]): sessions, connections, topics,
    users, packet identifiers, acknowledgements that are waited for, and the
    dynamic configuration of the cluster.  A [DashMap] is a finite map; the
    clock is the argument [now_second]. *)

From Stdlib Require Import String.
From S2P Require Import Prelude Bytes RustStr Storage MqttTypes Topics Subscriptions Acl.

(** ** Records *)

Record MqttUser : Type := mkMqttUser { u_username : bytes; u_password : bytes; u_is_superuser : bool }.

Record MqttSession : Type := mkMqttSession {
  se_client_id : bytes;
  se_session_expiry : Z;
  se_is_contain_last_will : bool;
  se_last_will_delay_interval : option Z;
  se_create_time : Z;
  se_connection_id : option Z;
  se_broker_id : option Z;
  se_reconnect_time : option Z;
  se_distinct_time : option Z
}.
Definition MqttSession_new (now_second : Z) (client_id : bytes) (session_expiry : Z)
    (is_contain_last_will : bool) (last_will_delay_interval : option Z) : MqttSession :=
  mkMqttSession client_id session_expiry is_contain_last_will last_will_delay_interval now_second
    None None None None.
Definition set_connection_id (connection_id : option Z) (s : MqttSession) : MqttSession :=
  mkMqttSession (se_client_id s) (se_session_expiry s) (se_is_contain_last_will s)
    (se_last_will_delay_interval s) (se_create_time s) connection_id (se_broker_id s)
    (se_reconnect_time s) (se_distinct_time s).
Definition set_broker_and_reconnect (broker_id reconnect_time : Z) (s : MqttSession) : MqttSession :=
  mkMqttSession (se_client_id s) (se_session_expiry s) (se_is_contain_last_will s)
    (se_last_will_delay_interval s) (se_create_time s) (se_connection_id s) (Some broker_id)
    (Some reconnect_time) (se_distinct_time s).
Definition set_distinct_time (distinct_time : Z) (s : MqttSession) : MqttSession :=
  mkMqttSession (se_client_id s) (se_session_expiry s) (se_is_contain_last_will s)
    (se_last_will_delay_interval s) (se_create_time s) (se_connection_id s) (se_broker_id s)
    (se_reconnect_time s) (Some distinct_time).

(** The counters of messages in flight are shared by all clones of a
    connection; here they live in the one copy that the cache holds. *)
Record MQTTConnection : Type := mkMQTTConnection {
  c_connect_id : Z;
  c_client_id : bytes;
  c_is_login : bool;
  c_source_ip_addr : bytes;
  c_login_user : bytes;
  c_keep_alive : Z;
  c_topic_alias : gmap Z bytes;
  c_client_max_receive_maximum : Z;
  c_max_packet_size : Z;
  c_topic_alias_max : Z;
  c_request_problem_info : Z;
  c_receive_qos_message : Z;
  c_sender_qos_message : Z;
  c_create_time : Z
}.
Definition set_login (user_name : bytes) (c : MQTTConnection) : MQTTConnection :=
  mkMQTTConnection (c_connect_id c) (c_client_id c) true (c_source_ip_addr c) user_name
    (c_keep_alive c) (c_topic_alias c) (c_client_max_receive_maximum c) (c_max_packet_size c)
    (c_topic_alias_max c) (c_request_problem_info c) (c_receive_qos_message c)
    (c_sender_qos_message c) (c_create_time c).
Definition set_alias (alias : Z) (topic_name : bytes) (c : MQTTConnection) : MQTTConnection :=
  mkMQTTConnection (c_connect_id c) (c_client_id c) (c_is_login c) (c_source_ip_addr c)
    (c_login_user c) (c_keep_alive c) (<[ alias := topic_name ]> (c_topic_alias c))
    (c_client_max_receive_maximum c) (c_max_packet_size c) (c_topic_alias_max c)
    (c_request_problem_info c) (c_receive_qos_message c) (c_sender_qos_message c) (c_create_time c).
(** [recv_qos_message_incr] and [recv_qos_message_decr] add 1 and -1. *)
Definition recv_qos_message_add (n : Z) (c : MQTTConnection) : MQTTConnection :=
  mkMQTTConnection (c_connect_id c) (c_client_id c) (c_is_login c) (c_source_ip_addr c)
    (c_login_user c) (c_keep_alive c) (c_topic_alias c) (c_client_max_receive_maximum c)
    (c_max_packet_size c) (c_topic_alias_max c) (c_request_problem_info c)
    (c_receive_qos_message c + n) (c_sender_qos_message c) (c_create_time c).
Definition is_response_problem_info (c : MQTTConnection) : bool := c_request_problem_info c =? 1.

Record MqttTopicRewriteRule : Type := mkMqttTopicRewriteRule {
  rr_cluster : bytes;
  rr_action : bytes;
  rr_source_topic : bytes;
  rr_dest_topic : bytes;
  rr_regex : bytes;
  rr_timestamp : Z
}.

(** *** The dynamic configuration *)

Record MqttClusterDynamicConfigProtocol : Type := mkConfigProtocol {
  session_expiry_interval : Z;
  topic_alias_max : Z;
  max_qos : QoS;
  max_packet_size : Z;
  max_server_keep_alive : Z;
  default_server_keep_alive : Z;
  receive_max : Z;
  max_message_expiry_interval : Z;
  client_pkid_persistent : bool
}.
Record MqttClusterDynamicConfigFeature : Type := mkConfigFeature {
  retain_available : bool;
  wildcard_subscription_available : bool;
  subscription_identifiers_available : bool;
  shared_subscription_available : bool;
  exclusive_subscription_available_flag : bool
}.
Record MqttClusterDynamicConfigSecurity : Type := mkConfigSecurity {
  is_self_protection_status : bool;
  secret_free_login : bool
}.
Record MqttClusterDynamicFlappingDetect : Type := mkFlappingDetect {
  fl_enable : bool;
  fl_window_time : Z;
  fl_max_client_connections : Z;
  fl_ban_time : Z
}.
(** The sections on the network and on slow subscribers are not read by the
    handlers and left out. *)
Record MqttClusterDynamicConfig : Type := mkClusterConfig {
  cl_protocol : MqttClusterDynamicConfigProtocol;
  cl_feature : MqttClusterDynamicConfigFeature;
  cl_security : MqttClusterDynamicConfigSecurity;
  cl_flapping_detect : MqttClusterDynamicFlappingDetect;
  cl_offline_message_enable : bool
}.
Definition set_flapping_detect (d : MqttClusterDynamicFlappingDetect) (c : MqttClusterDynamicConfig)
  : MqttClusterDynamicConfig :=
  mkClusterConfig (cl_protocol c) (cl_feature c) (cl_security c) d (cl_offline_message_enable c).

(** [cluster_config.rs]. *)
Definition build_default_cluster_config : MqttClusterDynamicConfig :=
  mkClusterConfig
    (mkConfigProtocol 1800 65535 ExactlyOnce (1024 * 1024 * 10) 3600 60 65535 3600 false)
    (mkConfigFeature true true true true true)
    (mkConfigSecurity false false)
    (mkFlappingDetect false 1 15 5)
    true.

Record ConnectionLiveTime : Type := mkConnectionLiveTime {
  lt_protocol : MqttProtocol;
  lt_keep_live : Z;
  lt_heartbeat : Z
}.
Inductive QosAckPackageType : Type := AckPubAck | AckPubComp | AckPubRel | AckPubRec.
#[export] Instance QosAckPackageType_eq_dec : EqDecision QosAckPackageType.
Proof. solve_decision. Defined.
Record QosAckPackageData : Type := mkQosAckPackageData { ack_type : QosAckPackageType; ack_pkid : Z }.

(** The sending half of the channel on which a push thread waits for an
    acknowledgement, named by a number. *)
Record QosAckPacketInfo : Type := mkQosAckPacketInfo { qa_sx : Z; qa_create_time : Z }.
Record ClientPkidData : Type := mkClientPkidData { cp_client_id : bytes; cp_create_time : Z }.

(** ** The cache *)

Record CacheManager : Type := mkCacheManager {
  cluster_name : bytes;
  cluster_info : gmap bytes MqttClusterDynamicConfig;
  user_info : gmap bytes MqttUser;
  session_info : gmap bytes MqttSession;
  publish_pkid_info : gmap bytes (list Z);
  connection_info : gmap Z MQTTConnection;
  cm_topic_info : gmap bytes MqttTopic;
  topic_id_name : gmap bytes bytes;
  heartbeat_data : gmap bytes ConnectionLiveTime;
  qos_ack_packet : gmap bytes QosAckPacketInfo;
  client_pkid_data : gmap bytes ClientPkidData;
  acl_metadata : AclMetadata;
  topic_rewrite_rule : gmap bytes MqttTopicRewriteRule
}.

(** *** Assignments to the maps *)

Definition upd_cluster_info f (c : CacheManager) : CacheManager :=
  mkCacheManager (cluster_name c) (f (cluster_info c)) (user_info c) (session_info c)
    (publish_pkid_info c) (connection_info c) (cm_topic_info c) (topic_id_name c)
    (heartbeat_data c) (qos_ack_packet c) (client_pkid_data c) (acl_metadata c)
    (topic_rewrite_rule c).
Definition upd_user_info f (c : CacheManager) : CacheManager :=
  mkCacheManager (cluster_name c) (cluster_info c) (f (user_info c)) (session_info c)
    (publish_pkid_info c) (connection_info c) (cm_topic_info c) (topic_id_name c)
    (heartbeat_data c) (qos_ack_packet c) (client_pkid_data c) (acl_metadata c)
    (topic_rewrite_rule c).
Definition upd_session_info f (c : CacheManager) : CacheManager :=
  mkCacheManager (cluster_name c) (cluster_info c) (user_info c) (f (session_info c))
    (publish_pkid_info c) (connection_info c) (cm_topic_info c) (topic_id_name c)
    (heartbeat_data c) (qos_ack_packet c) (client_pkid_data c) (acl_metadata c)
    (topic_rewrite_rule c).
Definition upd_publish_pkid_info f (c : CacheManager) : CacheManager :=
  mkCacheManager (cluster_name c) (cluster_info c) (user_info c) (session_info c) (f
    (publish_pkid_info c)) (connection_info c) (cm_topic_info c) (topic_id_name c)
    (heartbeat_data c) (qos_ack_packet c) (client_pkid_data c) (acl_metadata c)
    (topic_rewrite_rule c).
Definition upd_connection_info f (c : CacheManager) : CacheManager :=
  mkCacheManager (cluster_name c) (cluster_info c) (user_info c) (session_info c)
    (publish_pkid_info c) (f (connection_info c)) (cm_topic_info c) (topic_id_name c)
    (heartbeat_data c) (qos_ack_packet c) (client_pkid_data c) (acl_metadata c)
    (topic_rewrite_rule c).
Definition upd_topic_info f (c : CacheManager) : CacheManager :=
  mkCacheManager (cluster_name c) (cluster_info c) (user_info c) (session_info c)
    (publish_pkid_info c) (connection_info c) (f (cm_topic_info c)) (topic_id_name c)
    (heartbeat_data c) (qos_ack_packet c) (client_pkid_data c) (acl_metadata c)
    (topic_rewrite_rule c).
Definition upd_topic_id_name f (c : CacheManager) : CacheManager :=
  mkCacheManager (cluster_name c) (cluster_info c) (user_info c) (session_info c)
    (publish_pkid_info c) (connection_info c) (cm_topic_info c) (f (topic_id_name c))
    (heartbeat_data c) (qos_ack_packet c) (client_pkid_data c) (acl_metadata c)
    (topic_rewrite_rule c).
Definition upd_heartbeat_data f (c : CacheManager) : CacheManager :=
  mkCacheManager (cluster_name c) (cluster_info c) (user_info c) (session_info c)
    (publish_pkid_info c) (connection_info c) (cm_topic_info c) (topic_id_name c) (f
    (heartbeat_data c)) (qos_ack_packet c) (client_pkid_data c) (acl_metadata c)
    (topic_rewrite_rule c).
Definition upd_qos_ack_packet f (c : CacheManager) : CacheManager :=
  mkCacheManager (cluster_name c) (cluster_info c) (user_info c) (session_info c)
    (publish_pkid_info c) (connection_info c) (cm_topic_info c) (topic_id_name c)
    (heartbeat_data c) (f (qos_ack_packet c)) (client_pkid_data c) (acl_metadata c)
    (topic_rewrite_rule c).
Definition upd_client_pkid_data f (c : CacheManager) : CacheManager :=
  mkCacheManager (cluster_name c) (cluster_info c) (user_info c) (session_info c)
    (publish_pkid_info c) (connection_info c) (cm_topic_info c) (topic_id_name c)
    (heartbeat_data c) (qos_ack_packet c) (f (client_pkid_data c)) (acl_metadata c)
    (topic_rewrite_rule c).
Definition upd_acl_metadata f (c : CacheManager) : CacheManager :=
  mkCacheManager (cluster_name c) (cluster_info c) (user_info c) (session_info c)
    (publish_pkid_info c) (connection_info c) (cm_topic_info c) (topic_id_name c)
    (heartbeat_data c) (qos_ack_packet c) (client_pkid_data c) (f (acl_metadata c))
    (topic_rewrite_rule c).
Definition upd_topic_rewrite_rule f (c : CacheManager) : CacheManager :=
  mkCacheManager (cluster_name c) (cluster_info c) (user_info c) (session_info c)
    (publish_pkid_info c) (connection_info c) (cm_topic_info c) (topic_id_name c)
    (heartbeat_data c) (qos_ack_packet c) (client_pkid_data c) (acl_metadata c) (f
    (topic_rewrite_rule c)).

Definition CacheManager_new (cluster_name : bytes) : CacheManager :=
  mkCacheManager cluster_name ∅ ∅ ∅ ∅ ∅ ∅ ∅ ∅ ∅ ∅ AclMetadata_new ∅.

Section cache.
Implicit Types (c : CacheManager).

(** *** Sessions *)

Definition add_session (client_id : bytes) (session : MqttSession) c : CacheManager :=
  upd_session_info (insert client_id session) c.

Definition update_session_connect_id (now_second : Z) (client_id : bytes) (connect_id : option Z) c
  : CacheManager :=
  upd_session_info (alter (fun session =>
    let session := set_connection_id connect_id session in
    if is_none connect_id then set_distinct_time now_second session else session) client_id) c.

(** Both loops compare a key with the bare client id, and both remove from
    [qos_ack_packet]. *)
Definition remove_session (client_id : bytes) c : CacheManager :=
  let c := upd_session_info (delete client_id) c in
  let c := upd_publish_pkid_info (delete client_id) c in
  let c := upd_heartbeat_data (delete client_id) c in
  let c := upd_qos_ack_packet (filter (fun kv => starts_with client_id kv.1 = false)) c in
  upd_qos_ack_packet (filter (fun kv =>
    starts_with client_id kv.1 && is_some (client_pkid_data c !! kv.1) = false)) c.

(** *** Users *)

Definition add_user (user : MqttUser) c : CacheManager :=
  upd_user_info (insert (u_username user) user) c.
Definition del_user (username : bytes) c : CacheManager := upd_user_info (delete username) c.
Definition retain_users (usernames : list bytes) c : CacheManager :=
  upd_user_info (filter (fun kv => kv.1 ∈ usernames)) c.

(** *** Connections *)

Definition add_connection (connect_id : Z) (conn : MQTTConnection) c : CacheManager :=
  match session_info c !! c_client_id conn with
  | Some session =>
      upd_connection_info (insert connect_id conn)
        (upd_session_info (insert (c_client_id conn) (set_connection_id (Some connect_id) session)) c)
  | None => c
  end.
Definition remove_connection (connect_id : Z) c : CacheManager :=
  upd_connection_info (delete connect_id) c.
Definition get_connect_id (client_id : bytes) c : option Z :=
  match session_info c !! client_id with
  | Some sess => se_connection_id sess
  | None => None
  end.
Definition login_success (connect_id : Z) (user_name : bytes) c : CacheManager :=
  upd_connection_info (alter (set_login user_name) connect_id) c.
Definition is_login (connect_id : Z) c : bool :=
  match connection_info c !! connect_id with
  | Some conn => c_is_login conn
  | None => false
  end.

(** *** Topics *)

Definition add_topic (topic_name : bytes) (topic : MqttTopic) c : CacheManager :=
  upd_topic_id_name (insert (t_topic_id topic) topic_name)
    (upd_topic_info (insert topic_name topic) c).
Definition delete_topic (topic_name : bytes) (topic : MqttTopic) c : CacheManager :=
  upd_topic_id_name (delete (t_topic_id topic)) (upd_topic_info (delete topic_name) c).
Definition update_topic_retain_message (topic_name : bytes) (retain_message : option bytes) c
  : CacheManager :=
  upd_topic_info (alter (fun topic =>
    mkMqttTopic (t_topic_id topic) (t_cluster_name topic) (t_topic_name topic) retain_message
      (t_retain_message_expired_at topic) (t_create_time topic)) topic_name) c.

Definition topic_rewrite_rule_key (cluster action source_topic : bytes) : bytes :=
  cluster ++ lit "_" ++ action ++ lit "_" ++ source_topic.
Definition add_topic_rewrite_rule (rule : MqttTopicRewriteRule) c : CacheManager :=
  upd_topic_rewrite_rule
    (insert (topic_rewrite_rule_key (cluster_name c) (rr_action rule) (rr_source_topic rule)) rule) c.
Definition delete_topic_rewrite_rule (cluster action source_topic : bytes) c : CacheManager :=
  upd_topic_rewrite_rule (delete (topic_rewrite_rule_key cluster action source_topic)) c.

(** *** Topic aliases *)

Definition get_topic_alias (connect_id topic_alias : Z) c : option bytes :=
  match connection_info c !! connect_id with
  | Some conn => c_topic_alias conn !! topic_alias
  | None => None
  end.
Definition add_topic_alias (connect_id : Z) (topic_name : bytes)
    (publish_properties : option PublishProperties) c : CacheManager :=
  match publish_properties with
  | Some properties =>
      match pp_topic_alias properties with
      | Some alias => upd_connection_info (alter (set_alias alias topic_name) connect_id) c
      | None => c
      end
  | None => c
  end.

(** *** Packet identifiers of outgoing messages

    [get_available_pkid] looks for an identifier that is not in use, in rounds
    that are 10 milliseconds apart; [sleeps] lists what the other tasks do to
    the cache during each sleep. *)

Definition pkid_range : list Z := seqZ 1 65534.
Definition free_pkid (pkid_list : list Z) : option Z :=
  snd <$> list_find (fun i => i ∉ pkid_list) pkid_range.
Definition modify {S E : Type} (f : S -> S) : M S E unit := fun s => (Ok tt, f s).

Fixpoint get_available_pkid {E : Type} (sleeps : list (CacheManager -> CacheManager))
    (client_id : bytes) : M CacheManager E Z :=
  let! c := get in
  match publish_pkid_info c !! client_id with
  | Some pkid_list =>
      match free_pkid pkid_list with
      | Some i => ret i
      | None =>
          match sleeps with
          | [] => out_of_fuel
          | others :: sleeps => modify others ;; get_available_pkid sleeps client_id
          end
      end
  | None => modify (upd_publish_pkid_info (insert client_id [1])) ;; ret 1
  end.

Definition get_pkid {E : Type} (sleeps : list (CacheManager -> CacheManager)) (client_id : bytes)
  : M CacheManager E Z :=
  let! pkid := get_available_pkid sleeps client_id in
  modify (upd_publish_pkid_info (push_at client_id pkid)) ;;
  ret pkid.

(** [retain(|x| *x == pkid)]. *)
Definition remove_pkid_info (client_id : bytes) (pkid : Z) c : CacheManager :=
  upd_publish_pkid_info (alter (filter (fun x => x = pkid)) client_id) c.

(** *** Identifiers and acknowledgements of a client, by the key [<client>_<pkid>] *)

Definition key (client_id : bytes) (pkid : Z) : bytes := client_id ++ lit "_" ++ decimal pkid.

Definition add_client_pkid (now_second : Z) (client_id : bytes) (pkid : Z) c : CacheManager :=
  upd_client_pkid_data (insert (key client_id pkid) (mkClientPkidData client_id now_second)) c.
Definition delete_client_pkid (client_id : bytes) (pkid : Z) c : CacheManager :=
  upd_client_pkid_data (delete (key client_id pkid)) c.
Definition get_client_pkid (client_id : bytes) (pkid : Z) c : option ClientPkidData :=
  client_pkid_data c !! key client_id pkid.

Definition add_ack_packet (client_id : bytes) (pkid : Z) (packet : QosAckPacketInfo) c : CacheManager :=
  upd_qos_ack_packet (insert (key client_id pkid) packet) c.
Definition remove_ack_packet (client_id : bytes) (pkid : Z) c : CacheManager :=
  upd_qos_ack_packet (delete (key client_id pkid)) c.
Definition get_ack_packet (client_id : bytes) (pkid : Z) c : option QosAckPacketInfo :=
  qos_ack_packet c !! key client_id pkid.

(** *** Heartbeats, rules and configuration *)

Definition report_heartbeat (client_id : bytes) (live_time : ConnectionLiveTime) c : CacheManager :=
  upd_heartbeat_data (insert client_id live_time) c.
Definition remove_heartbeat (client_id : bytes) c : CacheManager :=
  upd_heartbeat_data (delete client_id) c.
Definition retain_acls (users clients : list bytes) c : CacheManager :=
  upd_acl_metadata (upd_acls (filter (fun kv => kv.1 ∈ users)) (filter (fun kv => kv.1 ∈ clients))) c.
Definition set_cluster_info (cluster : MqttClusterDynamicConfig) c : CacheManager :=
  upd_cluster_info (insert (cluster_name c) cluster) c.
(** [self.cluster_info.get(&self.cluster_name).unwrap()]. *)
Definition get_cluster_info {S E : Type} c : M S E MqttClusterDynamicConfig :=
  unwrap (cluster_info c !! cluster_name c).
End cache.

(** ** Packet identifiers *)

Section pkids.
Implicit Types (c : CacheManager) (l : list Z).

Definition pkids_of (client_id : bytes) c : list Z := default [] (publish_pkid_info c !! client_id).
(** Every identifier is in use. *)
Definition exhausted (client_id : bytes) c : Prop := forall i, 1 <= i <= 65534 -> i ∈ pkids_of client_id c.
(** The least identifier that is not in use. *)
Definition least_free l (i : Z) : Prop :=
  1 <= i <= 65534 /\ (i ∉ l) /\ forall j, 1 <= j < i -> j ∈ l.

Lemma free_pkid_some l i : free_pkid l = Some i -> least_free l i.
Proof.
  unfold free_pkid. rewrite fmap_Some. intros ([n j] & (Hj & Hn & Hmin)%list_find_Some & ->). cbn.
  apply lookup_seqZ in Hj as [-> Hlt]. split; [lia|]. split; [done|]. intros j Hj.
  apply dec_stable. apply (Hmin (Z.to_nat (j - 1))); [|lia].
  unfold pkid_range. rewrite lookup_seqZ. lia.
Qed.
Lemma free_pkid_none l : free_pkid l = None -> forall i, 1 <= i <= 65534 -> i ∈ l.
Proof.
  unfold free_pkid. rewrite fmap_None, list_find_None, Forall_forall. intros H i Hi.
  apply dec_stable, H. apply elem_of_seqZ. lia.
Qed.
Lemma least_free_unique l i j : least_free l i -> least_free l j -> i = j.
Proof.
  intros (Hi & Hni & Hli) (Hj & Hnj & Hlj).
  destruct (Z.lt_trichotomy i j) as [H|[H|H]]; [|done|].
  - destruct Hni. apply Hlj. lia.
  - destruct Hnj. apply Hli. lia.
Qed.
Lemma free_pkid_least l i : least_free l i -> free_pkid l = Some i.
Proof.
  intros H. destruct (free_pkid l) as [j|] eqn:E.
  - f_equal. by eapply least_free_unique; [apply free_pkid_some|].
  - destruct H as (Hi & Hn & _). destruct Hn. by eapply free_pkid_none.
Qed.

(** The rounds that find nothing. *)
Lemma available_waits {E} sleeps client_id rest c :
  (forall n, (n < length sleeps)%nat ->
     exhausted client_id (foldl (fun c f => f c) c (take n sleeps))) ->
  get_available_pkid (E := E) (sleeps ++ rest) client_id c =
  get_available_pkid rest client_id (foldl (fun c f => f c) c sleeps).
Proof.
  revert c. induction sleeps as [|f sleeps IH]; intros c H; [done|].
  cbn [app foldl]. rewrite <- IH.
  2: { intros n Hn. apply (H (S n)). cbn. lia. }
  specialize (H 0%nat). cbn in H. unfold exhausted, pkids_of in H. cbn [get_available_pkid]. unfold get.
  unfold bind at 1. destruct (publish_pkid_info c !! client_id) as [l|]; cbn [default] in H.
  - destruct (free_pkid l) as [i|] eqn:Ei; [|done].
    apply free_pkid_some in Ei as (Hi & Hni & _). destruct Hni. apply H; [lia|done].
  - exfalso. by apply (not_elem_of_nil 1), H; [lia|].
Qed.

Lemma available_found {E} sleeps client_id c i :
  least_free (pkids_of client_id c) i ->
  exists c', get_available_pkid (E := E) sleeps client_id c = (Ok i, c') /\
             (forall k, k ≠ client_id -> pkids_of k c' = pkids_of k c) /\
             forall p, p ∈ i :: pkids_of client_id c' <-> p ∈ i :: pkids_of client_id c.
Proof.
  unfold pkids_of. intros H. destruct sleeps; cbn [get_available_pkid]; unfold get, bind at 1.
  all: destruct (publish_pkid_info c !! client_id) as [l|] eqn:El.
  all: cbn [default id] in H; try (rewrite (free_pkid_least _ _ H); exists c; by rewrite El).
  all: assert (i = 1) as -> by (eapply least_free_unique; [done|]; split; [lia|]; split; [set_solver|lia]).
  all: eexists; split; [done|]; cbn; rewrite lookup_insert_eq; cbn; split; [|intros p; rewrite !elem_of_cons, elem_of_nil; tauto].
  all: intros k Hk; by rewrite lookup_insert_ne.
Qed.

(** C25: Allocating an identifier for an outgoing message ends in the first
    round in which the client has one that is not in use, whatever the other
    tasks do in the rounds before; the message gets the least free identifier
    of 1 to 65534, which is then in use, as is everything that was. *)
Theorem get_pkid_first_free {E} sleeps rest client_id c i :
  let round n := foldl (fun c f => f c) c (take n sleeps) in
  (forall n, (n < length sleeps)%nat -> exhausted client_id (round n)) ->
  least_free (pkids_of client_id (round (length sleeps))) i ->
  exists c', get_pkid (E := E) (sleeps ++ rest) client_id c = (Ok i, c') /\
             (forall p, p ∈ pkids_of client_id c' <->
                        p = i \/ p ∈ pkids_of client_id (round (length sleeps))) /\
             (forall k, k ≠ client_id -> pkids_of k c' = pkids_of k (round (length sleeps))).
Proof.
  intros round Hfull Hfree. unfold round in *. rewrite firstn_all in *.
  destruct (available_found (E := E) rest _ _ _ Hfree) as (c' & Hc & Hother & Hin).
  unfold get_pkid. rewrite (bind_ok _ _ _ i c') by (by rewrite available_waits).
  eexists. split; [done|]. unfold pkids_of in *. cbn.
  unfold push_at. destruct (publish_pkid_info c' !! client_id) as [l|] eqn:El; cbn in Hin.
  all: rewrite lookup_insert_eq; cbn; (split; [intros p; specialize (Hin p); rewrite ?elem_of_app, ?elem_of_cons, ?elem_of_nil in *; tauto|]).
  all: intros k Hk; rewrite lookup_insert_ne by done; by apply Hother.
Qed.

(** When the exchange of one message is over, [remove_pkid_info] keeps its
    identifier and releases those of all other messages: the identifiers of
    messages in flight are free again, and the next message gets 1 (or 2, where
    1 is the one that is over), also while another message still holds it. *)
Theorem settled_pkid_releases_others {E} sleeps client_id c q :
  q ∈ pkids_of client_id c -> 1 <= q <= 65534 ->
  let settled := remove_pkid_info client_id q c in
  let p := if q =? 1 then 2 else 1 in
  (forall i, i ∈ pkids_of client_id settled <-> i = q) /\
  fst (get_pkid (E := E) sleeps client_id settled) = Ok p.
Proof.
  intros Hq Hrange settled p. unfold settled, pkids_of in *. cbn.
  destruct (publish_pkid_info c !! client_id) as [l|] eqn:El; [|by apply not_elem_of_nil in Hq].
  cbn in Hq. rewrite lookup_alter_eq, El. cbn.
  assert (forall i, i ∈ filter (fun x => x = q) l <-> i = q) as Hkept.
  { intros i. rewrite list_elem_of_filter. naive_solver. }
  split; [done|].
  assert (least_free (pkids_of client_id (remove_pkid_info client_id q c)) p) as Hfree.
  { unfold pkids_of. cbn. rewrite lookup_alter_eq, El. cbn. unfold p.
    destruct (q =? 1) eqn:E1; bool_prop; (split; [lia|]); rewrite Hkept; (split; [lia|]).
    all: intros j Hj; apply Hkept; lia. }
  destruct (available_found (E := E) sleeps _ _ _ Hfree) as (c' & Hc & _).
  unfold get_pkid. by rewrite (bind_ok _ _ _ _ _ Hc).
Qed.
End pkids.

(** *** Examples *)

(** The cache of a broker that has started, with the default configuration. *)
Definition default_cache : CacheManager :=
  set_cluster_info build_default_cluster_config (CacheManager_new (lit "k")).

(** All identifiers of a client are in use, and a message that holds 7 is
    acknowledged during the first sleep. *)
Definition busy_cache : CacheManager :=
  upd_publish_pkid_info (insert (lit "c") pkid_range) (CacheManager_new (lit "k")).
Definition release_7 : CacheManager -> CacheManager :=
  upd_publish_pkid_info (alter (filter (fun x => x ≠ 7)) (lit "c")).

Lemma get_pkid_first_free_witness :
  exists c', get_pkid (E := unit) ([release_7] ++ []) (lit "c") busy_cache = (Ok 7, c').
Proof.
  edestruct (get_pkid_first_free (E := unit) [release_7] [] (lit "c") busy_cache 7) as (c' & Hc & _).
  - intros n Hn i Hi. cbn in Hn. assert (n = 0%nat) as -> by lia.
    unfold pkids_of, busy_cache. cbn -[pkid_range lit]. rewrite lookup_insert_eq.
    apply elem_of_seqZ. lia.
  - assert (pkids_of (lit "c") (release_7 busy_cache) = filter (fun x => x ≠ 7) pkid_range) as Hl
      by (unfold pkids_of, release_7, busy_cache; cbn -[pkid_range lit];
          by rewrite lookup_alter_eq, lookup_insert_eq).
    cbn [length take foldl]. rewrite Hl. split; [lia|]. split.
    + rewrite list_elem_of_filter. naive_solver.
    + intros j Hj. apply list_elem_of_filter. split; [lia|]. apply elem_of_seqZ. lia.
  - exists c'. exact Hc.
Defined.

Lemma settled_pkid_releases_others_witness :
  fst (get_pkid (E := unit) [] (lit "c")
         (remove_pkid_info (lit "c") 3
            (upd_publish_pkid_info (insert (lit "c") [1; 2; 3]) (CacheManager_new (lit "k"))))) = Ok 1.
Proof.
  apply (settled_pkid_releases_others (E := unit) [] (lit "c")
           (upd_publish_pkid_info (insert (lit "c") [1; 2; 3]) (CacheManager_new (lit "k"))) 3).
  - apply (bool_decide_eq_true_1 _). vm_compute. reflexivity.
  - lia.
Defined.
