(* ===== verification/Security.v ===== *)
(** * Login and access control

    [mqtt-broker/src/security/mod.rs], [security/acl/auth.rs] and
    [security/login/plaintext.rs].  The store of users and rules behind the
    cache ([AuthStorageAdapter]: the placement center or MySQL) is a
    parameter, as are the regular expressions and the arithmetic of network
    addresses of the crate [ipnet]. *)

From Stdlib Require Import String.
From S2P Require Import Prelude Bytes RustStr Storage MqttTypes Topics Subscriptions Acl BrokerCache.

(** [s.parse::<IpAddr>()] and [IpNet::from_str(role)] succeed, and the network
    contains the address. *)
Class IpNet : Type := { net_contains : bytes -> bytes -> bool }.

Definition WILDCARD_RESOURCE : bytes := lit "*".

(** ** acl/auth.rs *)

Section acl.
Context {RX : RegexCrate} {IN : IpNet}.
Implicit Types (c : CacheManager) (connection : MQTTConnection).

Definition topic_match (topic_name match_topic_name : bytes) : bool :=
  if bool_decide (match_topic_name = WILDCARD_RESOURCE) then true
  else bool_decide (topic_name = match_topic_name).

Definition ip_match (source_ip_addr ip_role : bytes) : bool :=
  if bool_decide (ip_role = WILDCARD_RESOURCE) then true
  else if bool_decide (source_ip_addr = ip_role) then true
  else net_contains source_ip_addr ip_role.

Definition is_super_user c (username : bytes) : bool :=
  if blen username =? 0 then false
  else match user_info c !! username with
       | Some user => u_is_superuser user
       | None => false
       end.

(** The loop over the patterns of user names or client ids. *)
Fixpoint banned_by_match {S E : Type} (now_second : Z) (name : bytes) (data : list MqttAclBlackList)
  : M S E bool :=
  match data with
  | [] => ret false
  | raw :: data =>
      let! found := is_match (lit "^" ++ bl_resource_name raw ++ lit "$") name in
      if found && (now_second <? bl_end_time raw) then ret true
      else banned_by_match now_second name data
  end.
Definition banned_until (now_second : Z) (entry : option MqttAclBlackList) : bool :=
  match entry with Some data => now_second <? bl_end_time data | None => false end.

(** An address is refused where the ban is over, and let through while it
    lasts. *)
Definition is_blacklist {S E : Type} (now_second : Z) c connection : M S E bool :=
  let acl := acl_metadata c in
  if banned_until now_second (blacklist_user acl !! c_login_user connection) then ret true
  else
  let! user_match :=
    banned_by_match now_second (c_login_user connection)
      (default [] (blacklist_user_match acl !! user_match_key)) in
  if user_match then ret true
  else if banned_until now_second (blacklist_client_id acl !! c_client_id connection) then ret true
  else
  let! client_match :=
    banned_by_match now_second (c_client_id connection)
      (default [] (blacklist_client_id_match acl !! client_id_match_key)) in
  if client_match then ret true
  else if match blacklist_ip acl !! c_source_ip_addr connection with
          | Some data => bl_end_time data <? now_second
          | None => false
          end then ret true
  else ret (existsb (fun raw =>
              ip_match (c_source_ip_addr connection) (bl_resource_name raw)
              && (bl_end_time raw <? now_second))
              (default [] (blacklist_ip_match acl !! ip_cidr_key))).

Definition denies connection (topic_name : bytes) (action : MqttAclAction) (raw : MqttAcl) : bool :=
  topic_match topic_name (acl_topic raw)
  && ip_match (c_source_ip_addr connection) (acl_ip raw)
  && (bool_decide (acl_action raw = action) || bool_decide (acl_action raw = All))
  && bool_decide (acl_permission raw = Deny).

Definition is_acl_deny c connection (topic_name : bytes) (action : MqttAclAction) : bool :=
  if existsb (denies connection topic_name action)
       (default [] (acl_user (acl_metadata c) !! c_login_user connection)) then true
  else existsb (denies connection topic_name action)
         (default [] (acl_client_id (acl_metadata c) !! c_client_id connection)).

Definition is_allow_acl {S E : Type} (now_second : Z) c connection (topic_name : bytes)
    (action : MqttAclAction) (retain : bool) : M S E bool :=
  if is_super_user c (c_login_user connection) then ret true
  else
  let! banned := is_blacklist now_second c connection in
  if banned then ret false
  else if is_acl_deny c connection topic_name action then ret false
  else if retain && is_acl_deny c connection topic_name Retain then ret false
  else ret true.

(** [sub_common.rs]: the identifiers of the topics that a path matches. *)
Context {MI : MapIter}.
Fixpoint matching_topic_ids {S E : Type} (sub_path : bytes) (topics : list (bytes * bytes))
  : M S E (list bytes) :=
  match topics with
  | [] => ret []
  | (topic_id, topic_name) :: topics =>
      let! matches := path_regex_match topic_name sub_path in
      let! rest := matching_topic_ids sub_path topics in
      ret (if matches then topic_id :: rest else rest)
  end.
Definition get_sub_topic_id_list {S E : Type} c (sub_path : bytes) : M S E (list bytes) :=
  matching_topic_ids sub_path (map_iter (topic_id_name c)).

Fixpoint allow_topics {S E : Type} (now_second : Z) c connection (topics : list bytes) : M S E bool :=
  match topics with
  | [] => ret true
  | topic :: topics =>
      let! allowed := is_allow_acl now_second c connection topic Subscribe_ false in
      if negb allowed then ret false else allow_topics now_second c connection topics
  end.
Fixpoint allow_filters {S E : Type} (now_second : Z) c connection (filters : list Filter) : M S E bool :=
  match filters with
  | [] => ret true
  | filter :: filters =>
      let! topic_list := get_sub_topic_id_list c (path filter) in
      let! allowed := allow_topics now_second c connection topic_list in
      if negb allowed then ret false else allow_filters now_second c connection filters
  end.
Definition allow_subscribe {S E : Type} (now_second : Z) c connection (subscribe : Subscribe)
  : M S E bool := allow_filters now_second c connection (filters subscribe).
End acl.

(** ** The driver: security/mod.rs *)

Class AuthStorageAdapter (D : Type) : Type := {
  drv_read_all_user : M D MqttBrokerError (gmap bytes MqttUser);
  drv_read_all_acl : M D MqttBrokerError (list MqttAcl);
  drv_get_user : bytes -> M D MqttBrokerError (option MqttUser);
  drv_save_user : MqttUser -> M D MqttBrokerError unit;
  drv_delete_user : bytes -> M D MqttBrokerError unit;
  drv_save_acl : MqttAcl -> M D MqttBrokerError unit;
  drv_delete_acl : MqttAcl -> M D MqttBrokerError unit;
  drv_save_blacklist : MqttAclBlackList -> M D MqttBrokerError unit;
  drv_delete_blacklist : MqttAclBlackList -> M D MqttBrokerError unit
}.

Section driver.
Context {D : Type} {AD : AuthStorageAdapter D} {MI : MapIter}.

Record AuthDriver : Type := mkAuthDriver { ad_cache : CacheManager; ad_driver : D }.
Definition A (X : Type) : Type := M AuthDriver MqttBrokerError X.

Definition cached (f : CacheManager -> CacheManager) : A unit :=
  fun s => (Ok tt, mkAuthDriver (f (ad_cache s)) (ad_driver s)).
Definition cache : A CacheManager := fun s => (Ok (ad_cache s), s).
Definition driven {X : Type} (m : M D MqttBrokerError X) : A X :=
  fun s => let (o, d) := m (ad_driver s) in (o, mkAuthDriver (ad_cache s) d).

Definition save_user (user_info : MqttUser) : A unit :=
  let! c := cache in
  match BrokerCache.user_info c !! u_username user_info with
  | Some _ => fail BE_UserAlreadyExist
  | None => cached (add_user user_info) ;; driven (drv_save_user user_info)
  end.
Definition delete_user (username : bytes) : A unit :=
  let! c := cache in
  match BrokerCache.user_info c !! username with
  | None => fail BE_UserDoesNotExist
  | Some _ => driven (drv_delete_user username) ;; cached (del_user username)
  end.
Definition update_user_cache : A unit :=
  let! all_users := driven drv_read_all_user in
  for_each (map_iter all_users) (fun entry => cached (add_user entry.2)) ;;
  cached (retain_users (map fst (map_iter all_users))).

Definition save_acl (acl : MqttAcl) : A unit :=
  cached (upd_acl_metadata (parse_mqtt_acl acl)) ;; driven (drv_save_acl acl).
Definition delete_acl (acl : MqttAcl) : A unit :=
  driven (drv_delete_acl acl) ;; cached (upd_acl_metadata (remove_mqtt_acl acl)).
Definition update_acl_cache : A unit :=
  let! all_acls := driven drv_read_all_acl in
  for_each all_acls (fun acl => cached (upd_acl_metadata (parse_mqtt_acl acl))) ;;
  let names t := map acl_resource_name (filter (fun acl => acl_resource_type acl = t) all_acls) in
  cached (retain_acls (names User) (names ClientId)).
Definition save_blacklist (blacklist : MqttAclBlackList) : A unit :=
  cached (upd_acl_metadata (parse_mqtt_blacklist blacklist)) ;; driven (drv_save_blacklist blacklist).
Definition delete_blacklist (blacklist : MqttAclBlackList) : A unit :=
  driven (drv_delete_blacklist blacklist) ;; cached (upd_acl_metadata (remove_mqtt_blacklist blacklist)).

(** [Plaintext::apply]. *)
Definition plaintext_apply (username password : bytes) : A bool :=
  let! c := cache in
  match BrokerCache.user_info c !! username with
  | Some user => ret (bool_decide (u_password user = password))
  | None => fail BE_UserDoesNotExist
  end.

(** The password that is checked is the one that the store returned. *)
Definition try_get_check_user_by_driver (username : bytes) : A bool :=
  let! found := driven (drv_get_user username) in
  match found with
  | Some user =>
      cached (add_user user) ;;
      plaintext_apply (u_username user) (u_password user)
  | None => ret false
  end.

(** An error of [apply] is [UserDoesNotExist], the only one it has. *)
Definition plaintext_check_login (username password : bytes) : A bool :=
  fun s =>
    match plaintext_apply username password s with
    | (Err BE_UserDoesNotExist, s) => try_get_check_user_by_driver username s
    | r => r
    end.

Definition check_login_auth (login : option Login) : A bool :=
  let! c := cache in
  let! cluster := get_cluster_info c in
  if secret_free_login (cl_security cluster) then ret true
  else match login with
       | Some info => plaintext_check_login (username info) (password info)
       | None => ret false
       end.
End driver.

(** ** What login checks *)

Section login.
Context {D : Type} {AD : AuthStorageAdapter D} {MI : MapIter}.
Implicit Types (c : CacheManager) (d : D).

Lemma check_login_eval c d cluster info :
  cluster_info c !! cluster_name c = Some cluster ->
  secret_free_login (cl_security cluster) = false ->
  check_login_auth (Some info) (mkAuthDriver c d) =
  plaintext_check_login (username info) (password info) (mkAuthDriver c d).
Proof.
  intros Hc Hs. unfold check_login_auth, cache, bind, get_cluster_info, unwrap. cbn.
  rewrite Hc. cbn. by rewrite Hs.
Qed.

(** Without secret-free login, a user that the cache holds is let in with
    the password of the cache and with no other; a user that only the store
    holds is let in with any password, and is in the cache afterwards; a user
    that neither holds is refused. *)
Theorem login_of_uncached_user c d d' cluster name pw :
  cluster_info c !! cluster_name c = Some cluster ->
  secret_free_login (cl_security cluster) = false ->
  let login := check_login_auth (Some (mkLogin name pw)) (mkAuthDriver c d) in
  (forall user, user_info c !! name = Some user ->
     login = (Ok (bool_decide (u_password user = pw)), mkAuthDriver c d)) /\
  (forall user, user_info c !! name = None -> drv_get_user name d = (Ok (Some user), d') ->
     login = (Ok true, mkAuthDriver (add_user user c) d')) /\
  (user_info c !! name = None -> drv_get_user name d = (Ok None, d') ->
     login = (Ok false, mkAuthDriver c d')).
Proof.
  intros Hc Hs login. unfold login. rewrite (check_login_eval _ _ _ _ Hc Hs).
  unfold plaintext_check_login, plaintext_apply, try_get_check_user_by_driver, cache, cached, driven,
    bind. cbn [ad_cache ad_driver username password]. repeat split.
  - intros user ->. done.
  - intros user Hn Hd. rewrite Hn. cbn. rewrite Hd. cbn. rewrite lookup_insert_eq.
    by rewrite bool_decide_true.
  - intros Hn Hd. rewrite Hn. cbn. by rewrite Hd.
Qed.
End login.

(** ** Bans *)

Section bans.
Context {RX : RegexCrate} {IN : IpNet} {S E : Type}.
Implicit Types (c : CacheManager) (connection : MQTTConnection) (s : S).

(** The patterns of the blacklist are regular expressions. *)
Definition patterns_compile c : Prop :=
  forall raws raw, raw ∈ raws ->
    (blacklist_user_match (acl_metadata c) !! user_match_key = Some raws \/
     blacklist_client_id_match (acl_metadata c) !! client_id_match_key = Some raws) ->
    regex_new (lit "^" ++ bl_resource_name raw ++ lit "$") <> None.

Lemma banned_by_match_returns now_second name data s :
  (forall raw, raw ∈ data -> regex_new (lit "^" ++ bl_resource_name raw ++ lit "$") <> None) ->
  exists b, banned_by_match (E := E) now_second name data s = (Ok b, s).
Proof.
  induction data as [|raw data IH]; intros Hok; [by exists false|]. cbn.
  unfold is_match, bind, unwrap. destruct (regex_new _) as [re|] eqn:Er.
  - cbn. destruct (_ && _); [by exists true|]. apply IH. intros r Hr. apply Hok. by right.
  - exfalso. eapply Hok; [by left|done].
Qed.

(** What is decided before the addresses are looked at. *)
Lemma is_blacklist_names now_second c connection s :
  patterns_compile c ->
  exists b, is_blacklist (E := E) now_second c connection s =
    (Ok (b || match blacklist_ip (acl_metadata c) !! c_source_ip_addr connection with
              | Some data => bl_end_time data <? now_second
              | None => false
              end
           || existsb (fun raw => ip_match (c_source_ip_addr connection) (bl_resource_name raw)
                                  && (bl_end_time raw <? now_second))
                (default [] (blacklist_ip_match (acl_metadata c) !! ip_cidr_key))), s) /\
    (banned_until now_second (blacklist_user (acl_metadata c) !! c_login_user connection) = true \/
     banned_until now_second (blacklist_client_id (acl_metadata c) !! c_client_id connection) = true ->
     b = true) /\
    (forall ips, acl_metadata c = upd_blacklists id id (const ips) AclMetadata_new -> b = false).
Proof.
  intros Hok. unfold is_blacklist.
  destruct (banned_by_match_returns now_second (c_login_user connection)
              (default [] (blacklist_user_match (acl_metadata c) !! user_match_key)) s) as [b1 H1].
  { intros raw Hraw. destruct (blacklist_user_match _ !! _) eqn:El; [|by apply not_elem_of_nil in Hraw].
    eapply Hok; [done|by left]. }
  destruct (banned_by_match_returns now_second (c_client_id connection)
              (default [] (blacklist_client_id_match (acl_metadata c) !! client_id_match_key)) s) as [b2 H2].
  { intros raw Hraw. destruct (blacklist_client_id_match _ !! _) eqn:El; [|by apply not_elem_of_nil in Hraw].
    eapply Hok; [done|by right]. }
  exists (banned_until now_second (blacklist_user (acl_metadata c) !! c_login_user connection) || b1 ||
          banned_until now_second (blacklist_client_id (acl_metadata c) !! c_client_id connection) || b2).
  split; [|split].
  - destruct (banned_until _ (blacklist_user _ !! _)); [done|]. rewrite (bind_ok _ _ _ _ _ H1).
    destruct b1; [done|]. destruct (banned_until _ _); [done|]. rewrite (bind_ok _ _ _ _ _ H2).
    destruct b2; [done|]. cbn. by destruct (match _ with Some _ => _ | None => _ end).
  - intros [->| ->]; [done|]. by rewrite orb_true_r.
  - intros ips Hm. rewrite Hm in H1, H2 |- *. injection H1 as <-. injection H2 as <-. done.
Qed.

(** A user or a client that is banned is refused while the ban lasts.  A
    ban of an address works the other way round: where nothing else is banned,
    a connection from it is let through until the ban is over and refused from
    then on. *)
Theorem bans_of_addresses_inverted now_second c connection ban s :
  patterns_compile c ->
  (banned_until now_second (blacklist_user (acl_metadata c) !! c_login_user connection) = true \/
   banned_until now_second (blacklist_client_id (acl_metadata c) !! c_client_id connection) = true ->
   is_blacklist (E := E) now_second c connection s = (Ok true, s)) /\
  (acl_metadata c = upd_blacklists id id (const {[ c_source_ip_addr connection := ban ]}) AclMetadata_new ->
   is_blacklist (E := E) now_second c connection s = (Ok (bl_end_time ban <? now_second), s)).
Proof.
  intros Hok. destruct (is_blacklist_names now_second c connection s Hok) as (b & -> & Hnames & Hnone).
  split; [by intros ->%Hnames|]. intros Hm.
  rewrite (Hnone _ Hm), Hm. cbn. rewrite lookup_singleton_eq, lookup_empty. cbn.
  by rewrite orb_false_r.
Qed.
End bans.

(** ** Examples *)

(** A store that holds users only. *)
Definition users_only : AuthStorageAdapter (gmap bytes MqttUser) := {|
  drv_read_all_user := fun d => (Ok d, d);
  drv_read_all_acl := ret [];
  drv_get_user n := fun d => (Ok (d !! n), d);
  drv_save_user u := modify (insert (u_username u) u);
  drv_delete_user n := modify (delete n);
  drv_save_acl _ := ret tt;
  drv_delete_acl _ := ret tt;
  drv_save_blacklist _ := ret tt;
  drv_delete_blacklist _ := ret tt
|}.
Definition no_net : IpNet := {| net_contains _ _ := false |}.
Definition admin : MqttUser := mkMqttUser (lit "admin") (lit "secret") true.

Lemma login_of_uncached_user_witness :
  @check_login_auth _ users_only (Some (mkLogin (lit "admin") (lit "guess")))
    (mkAuthDriver default_cache {[ lit "admin" := admin ]}) =
  (Ok true, mkAuthDriver (add_user admin default_cache) {[ lit "admin" := admin ]}).
Proof.
  apply (@login_of_uncached_user _ users_only default_cache {[ lit "admin" := admin ]}
           {[ lit "admin" := admin ]} build_default_cluster_config (lit "admin") (lit "guess"));
    vm_compute; reflexivity.
Defined.

Definition banned_address : MqttAclBlackList := mkMqttAclBlackList BL_Ip (lit "10.0.0.1:1883") 100 [].
Definition sample_connection : MQTTConnection :=
  mkMQTTConnection 1 (lit "c") false (lit "10.0.0.1:1883") [] 60 ∅ 10 1000 10 1 0 0 0.
Definition banned_cache : CacheManager :=
  upd_acl_metadata (parse_mqtt_blacklist banned_address) default_cache.

Lemma bans_of_addresses_inverted_witness :
  @is_blacklist no_match no_net unit unit 99 banned_cache sample_connection tt = (Ok false, tt).
Proof.
  apply (@bans_of_addresses_inverted no_match no_net unit unit 99 banned_cache sample_connection
           banned_address tt); [|vm_compute; reflexivity].
  intros raws raw _ [H|H]; vm_compute in H; discriminate H.
Defined.
