(* ===== verification/Responses.v ===== *)
(** * The packets with which the broker answers

    [mqtt-broker/src/handler/response.rs], with the small functions it uses of
    [handler/connection.rs], [handler/keep_alive.rs] and
    [handler/validator.rs]. *)

From Stdlib Require Import String.
From S2P Require Import Prelude Bytes RustStr Storage MqttTypes Topics Subscriptions Acl BrokerCache.

(** [protocol.is_mqtt5()]. *)
Definition is_v5 (protocol : MqttProtocol) : bool := bool_decide (protocol = Mqtt5).

(** [keep_alive.rs]. *)
Definition keep_live_time (keep_alive : Z) : Z :=
  let new_keep_alive := keep_alive * 2 in
  if 65535 <? new_keep_alive then 65535 else new_keep_alive.
Definition client_keep_live_time (cluster : MqttClusterDynamicConfig) (keep_alive : Z) : Z :=
  let keep_alive :=
    if keep_alive =? 0 then default_server_keep_alive (cl_protocol cluster) else keep_alive in
  if max_server_keep_alive (cl_protocol cluster) <? keep_alive
  then max_server_keep_alive (cl_protocol cluster) / 2 else keep_alive.

(** [connection.rs]. *)
Definition response_information (connect_properties : option ConnectProperties) : option bytes :=
  match connect_properties with
  | Some properties =>
      match cp_request_response_info properties with
      | Some info => if info =? 1 then Some (lit "/sys/request_response/") else None
      | None => None
      end
  | None => None
  end.

(** [validator.rs]. *)
Definition is_request_problem_info (connect_properties : option ConnectProperties) : bool :=
  match connect_properties with
  | Some properties =>
      match cp_request_problem_info properties with
      | Some problem_info => problem_info =? 1
      | None => false
      end
  | None => false
  end.

Definition u8_of_flag (b : bool) : Z := if b then 1 else 0.

Definition DisconnectProperties_default : DisconnectProperties := mkDisconnectProperties None None [] None.

Definition response_packet_mqtt_connect_success (protocol : MqttProtocol)
    (cluster : MqttClusterDynamicConfig) (client_id : bytes) (auto_client_id : bool)
    (session_expiry_interval : Z) (session_present : bool) (keep_alive : Z)
    (connect_properties : option ConnectProperties) : MqttPacket :=
  if negb (is_v5 protocol) then P_ConnAck (mkConnAck session_present CR_Success) None
  else
    let p := cl_protocol cluster in
    let f := cl_feature cluster in
    P_ConnAck (mkConnAck session_present CR_Success)
      (Some (mkConnAckProperties
         (Some session_expiry_interval)
         (Some (receive_max p))
         (Some (u8_of_QoS (max_qos p)))
         (Some (u8_of_flag (retain_available f)))
         (Some (max_packet_size p))
         (if auto_client_id then Some client_id else None)
         (Some (topic_alias_max p))
         None []
         (Some (u8_of_flag (wildcard_subscription_available f)))
         (Some (u8_of_flag (subscription_identifiers_available f)))
         (Some (u8_of_flag (shared_subscription_available f)))
         (Some (keep_live_time keep_alive))
         (response_information connect_properties)
         None None None)).

(** [Success && NotAuthorized] is never true, so MQTT 3 clients are told one of
    three codes. *)
Definition response_packet_mqtt_connect_fail (protocol : MqttProtocol) (code : ConnectReturnCode)
    (connect_properties : option ConnectProperties) (error_reason : option bytes) : MqttPacket :=
  if negb (is_v5 protocol) then
    let new_code :=
      if bool_decide (code = CR_ClientIdentifierNotValid) then CR_BadClientId
      else if bool_decide (code = CR_ProtocolError) then CR_RefusedProtocolVersion
      else if bool_decide (code = CR_Success) && bool_decide (code = CR_NotAuthorized) then code
      else CR_ServiceUnavailable in
    P_ConnAck (mkConnAck false new_code) None
  else
    let properties :=
      mkConnAckProperties None None None None None None None
        (if is_request_problem_info connect_properties then error_reason else None)
        [] None None None None None None None None in
    P_ConnAck (mkConnAck false code) (Some properties).

Definition response_packet_mqtt_distinct_by_reason (protocol : MqttProtocol)
    (code : option DisconnectReasonCode) : MqttPacket :=
  if negb (is_v5 protocol) then P_Disconnect (mkDisconnect None) None
  else P_Disconnect (mkDisconnect code) (Some DisconnectProperties_default).

(** The reason string is shown to a connection that asked for it. *)
Definition problem (connection : MQTTConnection) (reason_string : option bytes) : option bytes :=
  if is_response_problem_info connection then reason_string else None.

Definition response_packet_mqtt_puback_success (protocol : MqttProtocol) (reason : PubAckReason)
    (pkid : Z) (user_properties : list (bytes * bytes)) : MqttPacket :=
  if negb (is_v5 protocol) then P_PubAck (mkPubAck pkid None) None
  else P_PubAck (mkPubAck pkid (Some reason)) (Some (mkPubAckProperties None user_properties)).
Definition response_packet_mqtt_puback_fail (protocol : MqttProtocol) (connection : MQTTConnection)
    (pkid : Z) (reason : PubAckReason) (reason_string : option bytes) : MqttPacket :=
  if negb (is_v5 protocol) then P_PubAck (mkPubAck pkid None) None
  else P_PubAck (mkPubAck pkid (Some reason))
         (Some (mkPubAckProperties (problem connection reason_string) [])).

Definition response_packet_mqtt_pubrec_success (protocol : MqttProtocol) (reason : PubRecReason)
    (pkid : Z) (user_properties : list (bytes * bytes)) : MqttPacket :=
  if negb (is_v5 protocol) then P_PubRec (mkPubRec pkid None) None
  else P_PubRec (mkPubRec pkid (Some reason)) (Some (mkPubRecProperties None user_properties)).
Definition response_packet_mqtt_pubrec_fail (protocol : MqttProtocol) (connection : MQTTConnection)
    (pkid : Z) (reason : PubRecReason) (reason_string : option bytes) : MqttPacket :=
  if negb (is_v5 protocol) then P_PubRec (mkPubRec pkid None) None
  else P_PubRec (mkPubRec pkid (Some reason))
         (Some (mkPubRecProperties (problem connection reason_string) [])).

Definition response_packet_mqtt_pubrel_success (protocol : MqttProtocol) (pkid : Z)
    (reason : PubRelReason) : MqttPacket :=
  if negb (is_v5 protocol) then P_PubRel (mkPubRel pkid None) None
  else P_PubRel (mkPubRel pkid (Some reason)) (Some (mkPubRelProperties None [])).

Definition response_packet_mqtt_pubcomp_success (protocol : MqttProtocol) (pkid : Z) : MqttPacket :=
  if negb (is_v5 protocol) then P_PubComp (mkPubComp pkid None) None
  else P_PubComp (mkPubComp pkid (Some PC_Success)) (Some (mkPubCompProperties None [])).
Definition response_packet_mqtt_pubcomp_fail (protocol : MqttProtocol) (connection : MQTTConnection)
    (pkid : Z) (reason : PubCompReason) (reason_string : option bytes) : MqttPacket :=
  if negb (is_v5 protocol) then P_PubComp (mkPubComp pkid None) None
  else P_PubComp (mkPubComp pkid (Some reason))
         (Some (mkPubCompProperties (problem connection reason_string) [])).

Definition response_packet_mqtt_suback (protocol : MqttProtocol) (connection : MQTTConnection)
    (pkid : Z) (return_codes : list SubscribeReasonCode) (reason_string : option bytes) : MqttPacket :=
  if negb (is_v5 protocol) then P_SubAck (mkSubAck pkid return_codes) None
  else P_SubAck (mkSubAck pkid return_codes)
         (Some (mkSubAckProperties (problem connection reason_string) [])).

(** The properties are built and not sent. *)
Definition response_packet_mqtt_unsuback (connection : MQTTConnection) (pkid : Z)
    (reasons : list UnsubAckReason) (reason_string : option bytes) : MqttPacket :=
  P_UnsubAck (mkUnsubAck pkid reasons) None.
