(* ===== verification/ResponseEncoding.v ===== *)
(** * The broker's answers on the wire

    The packets that [Responses.v] builds, given to the encoder of
    [MqttCodec.v] with the protocol of the connection: which answers the
    encoder accepts, and what becomes of the reason of a DISCONNECT. *)

From Stdlib Require Import String.
From S2P Require Import Prelude Bytes RustStr Storage MqttTypes MqttCommon MqttV4 V5Props V5PropDefs V5Packets MqttCodec Topics Subscriptions Acl BrokerCache Responses.

(** What the encoders accept without unwinding. *)
Definition encodable4 (p : MqttPacket) : Prop :=
  match p with
  | P_ConnAck a _ =>
      ca_code a ∈ [CR_Success; CR_RefusedProtocolVersion; CR_BadClientId; CR_ServiceUnavailable;
                   CR_BadUserNamePassword; CR_NotAuthorized]
  | P_PubAck _ p => p = None
  | P_PubRec _ p => p = None
  | P_PubRel _ p => p = None
  | P_PubComp _ p => p = None
  | P_SubAck _ p => p = None
  | P_UnsubAck _ p => p = None
  | P_Disconnect _ p => p = None
  | P_PingResp => True
  | _ => False
  end.
Definition encodable5 (p : MqttPacket) : Prop :=
  match p with
  | P_ConnAck a _ => ca_code a ∉ [CR_RefusedProtocolVersion; CR_BadClientId; CR_ServiceUnavailable]
  | P_PubAck a _ => pa_reason a <> None
  | P_PubRec a _ => pr_reason a <> None
  | P_PubRel a _ => pl_reason a <> None
  | P_PubComp a _ => pc_reason a <> None
  | P_SubAck _ _ | P_UnsubAck _ _ | P_Disconnect _ _ | P_PingResp => True
  | _ => False
  end.
Definition encodable (protocol : MqttProtocol) (p : MqttPacket) : Prop :=
  if is_v5 protocol then encodable5 p else encodable4 p.

Section encoding.
Context {BC : BytesCrate}.

(** *** Writers do not unwind *)

Definition writes {A} (m : M bytes Error A) : Prop := forall s, wp m (fun _ _ => True) s.

Lemma writes_bind {A B} (m : M bytes Error A) (k : A -> M bytes Error B) :
  writes m -> (forall a, writes (k a)) -> writes (bind m k).
Proof. intros Hm Hk s. apply wp_bind. eapply wp_mono; [apply Hm|]. intros a s' _. apply Hk. Qed.
Lemma writes_bind_ret {A B} (a : A) (k : A -> M bytes Error B) : writes (k a) -> writes (bind (ret a) k).
Proof. done. Qed.
Lemma writes_bind_bind_ret {A B C} (a : A) (k : A -> M bytes Error B) (k' : B -> M bytes Error C) :
  writes (bind (k a) k') -> writes (bind (bind (ret a) k) k').
Proof. done. Qed.
Lemma writes_ret {A} (a : A) : writes (ret a).
Proof. by intros s. Qed.
Lemma writes_fail {A} (e : Error) : writes (fail (A := A) e).
Proof. by intros s. Qed.
Lemma writes_put_u8 v : writes (put_u8 v).
Proof. by intros s. Qed.
Lemma writes_put_u16 v : writes (put_u16 v).
Proof. by intros s. Qed.
Lemma writes_put_u32 v : writes (put_u32 v).
Proof. by intros s. Qed.
Lemma writes_put_slice v : writes (put_slice v).
Proof. by intros s. Qed.
Lemma writes_if_some {A} (o : option A) f : (forall a, writes (f a)) -> writes (if_some o f).
Proof. intros Hf. destruct o; [apply Hf|by intros s]. Qed.
Lemma writes_for_each {A} (l : list A) f : (forall a, writes (f a)) -> writes (for_each l f).
Proof. intros Hf s. apply (wp_for_each (fun _ => True)); [|done]. intros a s' _ _. apply Hf. Qed.
Lemma writes_remaining_loop fuel x count :
  (0 < fuel)%nat -> 0 <= x < 128 ^ Z.of_nat fuel -> writes (write_remaining_length_loop fuel x count).
Proof.
  revert x count. induction fuel as [|fuel IH]; intros x count Hf Hx; [lia|]. cbn [write_remaining_length_loop].
  apply writes_bind; [apply writes_put_u8|]. intros _.
  destruct (x / 128 =? 0) eqn:E; [apply writes_ret|]. apply Z.eqb_neq in E.
  rewrite Nat2Z.inj_succ, Z.pow_succ_r in Hx by lia.
  assert (0 <= x / 128 < 128 ^ Z.of_nat fuel) by (split; [apply Z.div_pos|apply Z.div_lt_upper_bound]; lia).
  apply IH; [|lia]. destruct fuel; [cbn in *; lia|lia].
Qed.
Lemma writes_remaining x : 0 <= x -> writes (write_remaining_length x).
Proof.
  intros Hx. unfold write_remaining_length. destruct (268435455 <? x) eqn:E; [apply writes_fail|].
  apply Z.ltb_ge in E. apply writes_remaining_loop; [lia|]. cbn. lia.
Qed.
Lemma writes_mqtt_bytes b : writes (write_mqtt_bytes b).
Proof. apply writes_bind; [apply writes_put_u16|intros _; apply writes_put_slice]. Qed.

(** *** Lengths are not negative *)

Lemma foldl_nonneg {A} (g : Z -> A -> Z) l s :
  (forall s a, 0 <= s -> 0 <= g s a) -> 0 <= s -> 0 <= foldl g s l.
Proof. intros Hg. revert s. induction l as [|a l IH]; intros s Hs; [done|]. cbn. by apply IH, Hg. Qed.

Ltac nonneg :=
  repeat first
    [ progress cbn [is_some]
    | match goal with
      | |- 0 <= foldl _ _ _ => apply foldl_nonneg; [intros; blen_pose; lia|]
      | |- 0 <= ?a + ?b => apply Z.add_nonneg_nonneg
      | |- 0 <= (if ?b then _ else _) => destruct b
      | |- 0 <= (match ?o with Some _ => _ | None => _ end) => destruct o
      | |- 0 <= blen _ => apply blen_nonneg
      | |- _ => lia
      end ].

Lemma len_len_pos x : 0 <= len_len x.
Proof. unfold len_len. nonneg. Qed.
Lemma opt_len_nonneg {P} (len : P -> Z) o :
  (forall p, 0 <= len p) -> 0 <= opt_properties_len len o.
Proof.
  intros Hl. unfold opt_properties_len. destruct o as [p|]; [|lia].
  apply Z.add_nonneg_nonneg; [apply len_len_pos|apply Hl].
Qed.
Lemma writes_opt {P} (w : P -> M bytes Error unit) o : (forall p, writes (w p)) -> writes (opt_properties_write w o).
Proof.
  intros Hw. destruct o; [apply Hw|]. apply writes_bind; [by apply writes_remaining|intros; apply writes_ret].
Qed.

Create HintDb writesdb.
Hint Resolve writes_ret writes_fail writes_put_u8 writes_put_u16 writes_put_u32 writes_put_slice
  writes_mqtt_bytes : writesdb.
Ltac writes_step :=
  lazymatch goal with
  | |- writes (bind (ret _) _) => apply writes_bind_ret
  | |- writes (bind (bind (ret _) _) _) => apply writes_bind_bind_ret
  | |- writes (bind (if ?b then _ else _) _) => destruct b
  | |- writes (bind _ _) => apply writes_bind; [|intros]
  | |- writes (if_some _ _) => apply writes_if_some; intros
  | |- writes (for_each _ _) => apply writes_for_each; intros
  | |- writes (write_mqtt_string _) => apply writes_mqtt_bytes
  | |- writes (opt_properties_write _ _) => apply writes_opt; intros
  | |- writes (if ?b then _ else _) => destruct b
  | |- writes (write_remaining_length _) => apply writes_remaining
  | |- writes _ => solve [auto with writesdb]
  end.
Ltac writes_tac := repeat writes_step.

Lemma connack_props_len p : 0 <= v5_connack_properties_len p.
Proof. unfold v5_connack_properties_len. cbn zeta. nonneg. Qed.
Lemma puback_props_len p : 0 <= v5_puback_properties_len p.
Proof. unfold v5_puback_properties_len. cbn zeta. nonneg. Qed.
Lemma pubrec_props_len p : 0 <= v5_pubrec_properties_len p.
Proof. unfold v5_pubrec_properties_len. cbn zeta. nonneg. Qed.
Lemma pubrel_props_len p : 0 <= v5_pubrel_properties_len p.
Proof. unfold v5_pubrel_properties_len. cbn zeta. nonneg. Qed.
Lemma pubcomp_props_len p : 0 <= v5_pubcomp_properties_len p.
Proof. unfold v5_pubcomp_properties_len. cbn zeta. nonneg. Qed.
Lemma suback_props_len p : 0 <= v5_suback_properties_len p.
Proof. unfold v5_suback_properties_len. cbn zeta. nonneg. Qed.
Lemma unsuback_props_len p : 0 <= v5_unsuback_properties_len p.
Proof. unfold v5_unsuback_properties_len. cbn zeta. nonneg. Qed.
Lemma disconnect_props_len p : 0 <= v5_disconnect_properties_len p.
Proof. unfold v5_disconnect_properties_len. cbn zeta. nonneg. Qed.
Hint Resolve connack_props_len puback_props_len pubrec_props_len pubrel_props_len pubcomp_props_len
  suback_props_len unsuback_props_len disconnect_props_len opt_len_nonneg Z.add_nonneg_nonneg
  blen_nonneg len_len_pos : writesdb.

Lemma encode_v4_writes p : encodable4 p -> writes (encode_v4 p).
Proof.
  destruct p; cbn; intros Hp; try done; try subst.
  - unfold v4_connack_write, v4_connack_len. writes_tac; [lia|].
    rewrite !elem_of_cons, elem_of_nil in Hp. unfold v4_connect_code.
    destruct Hp as [->|[->|[->|[->|[->|[->|[]]]]]]]; apply writes_ret.
  - unfold v4_puback_write, v4_puback_len. writes_tac. lia.
  - unfold v4_pubrec_write, v4_pubrec_len. writes_tac. lia.
  - unfold v4_pubrel_write, v4_pubrel_len. writes_tac. lia.
  - unfold v4_pubcomp_write, v4_pubcomp_len. writes_tac. lia.
  - unfold v4_suback_write, SubAck_len. writes_tac. nonneg.
  - unfold v4_unsuback_write. writes_tac.
  - unfold v4_disconnect_write. writes_tac.
Qed.

Ltac lengths := repeat first [solve [auto with writesdb] | lia | apply Z.add_nonneg_nonneg].

Lemma encode_v5_writes p : encodable5 p -> writes (encode_v5 p).
Proof.
  destruct p as [| a p| | a p| a p| a p| a p| | | | a p| | a p| d p|]; cbn; intros Hp; try done.
  - unfold v5_connack_write, v5_connack_len, v5_connack_properties_write. writes_tac; lengths.
    unfold v5_connect_code. destruct (ca_code a); try apply writes_ret; set_solver.
  - unfold v5_puback_write, v5_puback_len, v5_puback_properties_write.
    destruct (pa_reason a) as [r|]; [|done]. cbn [unwrap]. writes_tac; lengths.
  - unfold v5_pubrec_write, v5_pubrec_len, v5_pubrec_properties_write.
    destruct (pr_reason a) as [r|]; [|done]. cbn [unwrap]. writes_tac; lengths.
  - unfold v5_pubrel_write, v5_pubrel_len, v5_pubrel_properties_write.
    destruct (pl_reason a) as [r|]; [|done]. cbn [unwrap]. writes_tac; lengths.
  - unfold v5_pubcomp_write, v5_pubcomp_len, v5_pubcomp_properties_write.
    destruct (pc_reason a) as [r|]; [|done]. cbn [unwrap]. writes_tac; lengths.
  - unfold v5_suback_write, v5_suback_len, v5_suback_properties_write. writes_tac; lengths.
  - unfold v5_unsuback_write, v5_unsuback_len, v5_unsuback_properties_write. writes_tac; lengths.
  - unfold v5_disconnect_write, v5_disconnect_len, v5_disconnect_properties_write.
    destruct (reason_code d) as [r|]; [|by intros s]. cbn [unwrap]. writes_tac; lengths.
    all: destruct p, (bool_decide (r = DR_NormalDisconnection)); cbn [andb is_none is_some negb]; lengths.
Qed.

Lemma encodable_writes protocol p :
  encodable protocol p -> writes (encode_data (mkMqttPacketWrapper (u8_of_MqttProtocol protocol) p)).
Proof.
  unfold encodable, encode_data. destruct protocol; cbn; intros Hp; writes_tac.
  all: first [by apply encode_v4_writes|by apply encode_v5_writes].
Qed.
End encoding.
