(* ===== verification/SchemaRegister.v ===== *)
(** * The schema register

    [schema-register/src/schema.rs]: the schemas, the topics they are bound to
    and the check of a message.  What a JSON or Avro schema accepts is decided
    by the crates [valico], [serde_json] and [apache_avro], a parameter. *)

From Stdlib Require Import String.
From S2P Require Import Prelude Bytes RustStr Storage.

Inductive SchemaType : Type := JSON | PROTOBUF | AVRO.

Record SchemaData : Type := mkSchemaData {
  sd_cluster_name : bytes;
  sd_name : bytes;
  sd_schema_type : SchemaType;
  sd_desc : bytes;
  sd_schema : bytes
}.
Record SchemaResourceBind : Type := mkSchemaResourceBind {
  sb_cluster_name : bytes;
  sb_schema_name : bytes;
  sb_resource_name : bytes
}.

(** [serde_json::from_slice::<String>], [json_validate] and [avro_validate]. *)
Class SchemaCrates : Type := {
  json_string : bytes -> outcome CommonError bytes;
  json_validate : bytes -> bytes -> outcome CommonError bool;
  avro_validate : bytes -> bytes -> outcome CommonError bool
}.

Record SchemaRegisterManager : Type := mkSchemaRegisterManager {
  schema_list : gmap bytes SchemaData;
  schema_resource_list : gmap bytes (list bytes)
}.
Definition SchemaRegisterManager_new : SchemaRegisterManager := mkSchemaRegisterManager ∅ ∅.

Section schema.
Context {SX : SchemaCrates}.
Implicit Types (m : SchemaRegisterManager).

Definition is_check_schema (topic : bytes) m : bool :=
  match schema_resource_list m !! topic with
  | Some list => negb (blen list =? 0)
  | None => false
  end.

(** The first schema that decides; a PROTOBUF schema or an unknown one does
    not. *)
Fixpoint validate_list (names : list bytes) (data : bytes) m : outcome CommonError bool :=
  match names with
  | [] => Ok true
  | schema_name :: names =>
      match schema_list m !! schema_name with
      | Some schema =>
          match sd_schema_type schema with
          | JSON =>
              match json_string data with
              | Ok raw => json_validate (sd_schema schema) raw
              | Err e => Err e
              | Panic => Panic
              | OutOfFuel => OutOfFuel
              end
          | PROTOBUF => validate_list names data m
          | AVRO => avro_validate (sd_schema schema) data
          end
      | None => validate_list names data m
      end
  end.
Definition validate (resource data : bytes) m : outcome CommonError bool :=
  match schema_resource_list m !! resource with
  | Some schema_list => validate_list schema_list data m
  | None => Ok true
  end.

Definition add_schema (schema : SchemaData) m : SchemaRegisterManager :=
  mkSchemaRegisterManager (<[ sd_name schema := schema ]> (schema_list m)) (schema_resource_list m).
Definition remove_schema (schema_name : bytes) m : SchemaRegisterManager :=
  mkSchemaRegisterManager (delete schema_name (schema_list m)) (schema_resource_list m).

(** The list is looked up under the name of the schema, and a new one is
    inserted under that of the resource. *)
Definition add_schema_resource (b : SchemaResourceBind) m : SchemaRegisterManager :=
  let schema_name := sb_schema_name b in
  match schema_resource_list m !! schema_name with
  | Some list =>
      mkSchemaRegisterManager (schema_list m)
        (if bool_decide (schema_name ∈ list) then schema_resource_list m
         else <[ schema_name := list ++ [schema_name] ]> (schema_resource_list m))
  | None =>
      mkSchemaRegisterManager (schema_list m)
        (<[ sb_resource_name b := [schema_name] ]> (schema_resource_list m))
  end.
Definition remove_resource (resource : bytes) m : SchemaRegisterManager :=
  mkSchemaRegisterManager (schema_list m) (delete resource (schema_resource_list m)).
Definition remove_resource_schema (resource schema_name : bytes) m : SchemaRegisterManager :=
  mkSchemaRegisterManager (schema_list m)
    (alter (filter (fun x => x ≠ schema_name)) resource (schema_resource_list m)).
End schema.
