(* ===== verification/Broker.v ===== *)
(** * The state of the broker and its surroundings

    The request handlers share one state: the metadata cache, the subscription
    index, the message store, the placement center, the store of users, the
    delayed messages, the schemas, and the network connections.  This file has
    the state, the ways in which a handler acts on one part of it, and the
    handlers' helpers that are not about one packet type:
    [handler/{pkid,topic,topic_rewrite,session,lastwill,retain,offline_message,
    delay_message,flapping_detect,connection}.rs],
    [storage/{topic,session}.rs] and [observability/system_topic]. *)

From Stdlib Require Import String.
From S2P Require Import Prelude Bytes RustStr Storage MemoryStorage RocksEngine MqttTypes Topics Subscriptions MessageStorage DelayMessages Acl BrokerCache Security Responses SchemaRegister.

(** ** Parameters *)

(** The services of the placement center, for the broker's own cluster.  A
    session, a topic and a last will travel as JSON. *)
Class PlacementCenter (P : Type) : Type := {
  set_idempotent_data : bytes -> Z -> M P CommonError unit;
  exists_idempotent_data : bytes -> Z -> M P CommonError bool;
  delete_idempotent_data : bytes -> Z -> M P CommonError unit;
  placement_create_session : bytes -> bytes -> M P CommonError unit;
  placement_update_session : bytes -> Z -> Z -> Z -> Z -> M P CommonError unit;
  placement_list_session : bytes -> M P CommonError (list bytes);
  placement_save_last_will_message : bytes -> bytes -> M P CommonError unit;
  placement_create_topic : bytes -> bytes -> M P CommonError unit;
  placement_list_topic : bytes -> M P CommonError (list bytes);
  placement_set_topic_retain_message : bytes -> bytes -> Z -> M P CommonError unit
}.

(** [re.captures(s)]: the groups from the first on. *)
Class RegexCaptures : Type := { captures : bytes -> bytes -> option (list (option bytes)) }.

Record LastWillData : Type := mkLastWillData {
  wd_client_id : bytes;
  wd_last_will : option LastWill;
  wd_last_will_properties : option LastWillProperties
}.

Inductive NetworkConnectionType : Type := Tcp | Tls | WebSocket | WebSockets | Quic.
Record NetworkConnection : Type := mkNetworkConnection {
  nc_connection_type : NetworkConnectionType;
  nc_connection_id : Z;
  nc_protocol : option MqttProtocol;
  nc_addr : bytes
}.

(** A task that [try_send_retain_message] has spawned. *)
Record RetainTask : Type := mkRetainTask {
  rt_protocol : MqttProtocol;
  rt_client_id : bytes;
  rt_subscribe : Subscribe;
  rt_subscribe_properties : option SubscribeProperties;
  rt_is_new_subs : gmap bytes bool
}.

(** What a system topic reports; its JSON is a parameter. *)
Inductive SystemEvent : Type :=
| EvConnected (session : MqttSession) (connection : MQTTConnection) (network : NetworkConnection)
| EvDisconnected (session : MqttSession) (connection : MQTTConnection) (network : NetworkConnection)
    (reason : option DisconnectReasonCode)
| EvSubscribed (connection : MQTTConnection) (network : NetworkConnection) (filter : Filter)
| EvUnsubscribed (connection : MQTTConnection) (network : NetworkConnection) (path : bytes).

(** What a request finds: the clock, a fresh identifier, the configuration
    file, the texts of errors, the listeners of acknowledgements, and the calls
    of the subscription handlers to the placement center. *)
Record Env : Type := mkEnv {
  now_second : Z;
  unique_id : bytes;
  calc_crc32 : bytes -> Z;
  conf_cluster : bytes;
  conf_id : Z;
  local_ip : bytes;
  error_text : MqttBrokerError -> bytes;
  common_text : CommonError -> bytes;
  utf8_error_text : bytes;
  parse_error_text : bytes;
  ack_heard : Z -> bool;
  event_json : SystemEvent -> option bytes;
  rpc_set_subscribe : MqttSubscribe -> outcome CommonError unit;
  rpc_delete_subscribe : bytes -> bytes -> outcome CommonError unit;
  rpc_share_leader : bytes -> outcome CommonError Z
}.

Section broker.
Context {S P D : Type} {SA : StorageAdapter S} {PC : PlacementCenter P} {AD : AuthStorageAdapter D}.
Context {SC : StopChannel} {MI : MapIter} {RX : RegexCrate} {RG : RegexCaptures} {IN : IpNet}.
Context {JS : Json MqttSession} {JT : Json MqttTopic} {JM : Json MqttMessage} {JW : Json LastWillData}.

(** ** State *)

Record Broker : Type := mkBroker {
  b_cache : CacheManager;
  b_subs : SubWorld;
  b_store : S;
  b_placement : P;
  b_driver : D;
  b_delay : DelayMessageManager;
  b_schemas : SchemaRegisterManager;
  b_network : gmap Z NetworkConnection;
  b_acks : list (Z * QosAckPackageData);
  b_retain_tasks : list RetainTask;
  b_counters : gmap bytes Z
}.

Definition upd_b_cache f (b : Broker) : Broker :=
  mkBroker (f (b_cache b)) (b_subs b) (b_store b) (b_placement b) (b_driver b) (b_delay b)
    (b_schemas b) (b_network b) (b_acks b) (b_retain_tasks b) (b_counters b).
Definition upd_b_subs f (b : Broker) : Broker :=
  mkBroker (b_cache b) (f (b_subs b)) (b_store b) (b_placement b) (b_driver b) (b_delay b)
    (b_schemas b) (b_network b) (b_acks b) (b_retain_tasks b) (b_counters b).
Definition upd_b_store f (b : Broker) : Broker :=
  mkBroker (b_cache b) (b_subs b) (f (b_store b)) (b_placement b) (b_driver b) (b_delay b)
    (b_schemas b) (b_network b) (b_acks b) (b_retain_tasks b) (b_counters b).
Definition upd_b_placement f (b : Broker) : Broker :=
  mkBroker (b_cache b) (b_subs b) (b_store b) (f (b_placement b)) (b_driver b) (b_delay b)
    (b_schemas b) (b_network b) (b_acks b) (b_retain_tasks b) (b_counters b).
Definition upd_b_driver f (b : Broker) : Broker :=
  mkBroker (b_cache b) (b_subs b) (b_store b) (b_placement b) (f (b_driver b)) (b_delay b)
    (b_schemas b) (b_network b) (b_acks b) (b_retain_tasks b) (b_counters b).
Definition upd_b_delay f (b : Broker) : Broker :=
  mkBroker (b_cache b) (b_subs b) (b_store b) (b_placement b) (b_driver b) (f (b_delay b))
    (b_schemas b) (b_network b) (b_acks b) (b_retain_tasks b) (b_counters b).
Definition upd_b_schemas f (b : Broker) : Broker :=
  mkBroker (b_cache b) (b_subs b) (b_store b) (b_placement b) (b_driver b) (b_delay b) (f
    (b_schemas b)) (b_network b) (b_acks b) (b_retain_tasks b) (b_counters b).
Definition upd_b_network f (b : Broker) : Broker :=
  mkBroker (b_cache b) (b_subs b) (b_store b) (b_placement b) (b_driver b) (b_delay b)
    (b_schemas b) (f (b_network b)) (b_acks b) (b_retain_tasks b) (b_counters b).
Definition upd_b_acks f (b : Broker) : Broker :=
  mkBroker (b_cache b) (b_subs b) (b_store b) (b_placement b) (b_driver b) (b_delay b)
    (b_schemas b) (b_network b) (f (b_acks b)) (b_retain_tasks b) (b_counters b).
Definition upd_b_retain_tasks f (b : Broker) : Broker :=
  mkBroker (b_cache b) (b_subs b) (b_store b) (b_placement b) (b_driver b) (b_delay b)
    (b_schemas b) (b_network b) (b_acks b) (f (b_retain_tasks b)) (b_counters b).
Definition upd_b_counters f (b : Broker) : Broker :=
  mkBroker (b_cache b) (b_subs b) (b_store b) (b_placement b) (b_driver b) (b_delay b)
    (b_schemas b) (b_network b) (b_acks b) (b_retain_tasks b) (f (b_counters b)).

Definition B (A : Type) : Type := M Broker MqttBrokerError A.

(** *** Acting on a part of the state *)

Definition the_cache : B CacheManager := fun b => (Ok (b_cache b), b).
Definition with_cache (f : CacheManager -> CacheManager) : B unit := modify (upd_b_cache f).
Definition cluster_config : B MqttClusterDynamicConfig := let! c := the_cache in get_cluster_info c.

Definition on_subs {A : Type} (m : M SubWorld MqttBrokerError A) : B A :=
  fun b => let (o, w) := m (b_subs b) in (o, upd_b_subs (const w) b).
(** [call.await?] on the store, with the error turned into the broker's. *)
Definition on_storage {A : Type} (m : M S CommonError A) : B A :=
  fun b => let (o, st) := map_err BE_FromCommonError m (b_store b) in (o, upd_b_store (const st) b).
Definition on_placement {A : Type} (wrap : CommonError -> MqttBrokerError) (m : M P CommonError A) : B A :=
  fun b => let (o, p) := map_err wrap m (b_placement b) in (o, upd_b_placement (const p) b).
Definition on_auth {A : Type} (m : M (AuthDriver (D := D)) MqttBrokerError A) : B A :=
  fun b =>
    let (o, s) := m (mkAuthDriver (b_cache b) (b_driver b)) in
    (o, upd_b_driver (const (ad_driver s)) (upd_b_cache (const (ad_cache s)) b)).
Definition on_delay {A : Type} (m : M (DelayState (S := S)) CommonError A) : B A :=
  fun b =>
    let (o, s) := map_err BE_FromCommonError m (mkDelayState (b_store b) (b_delay b)) in
    (o, upd_b_delay (const (ds_manager s)) (upd_b_store (const (ds_store s)) b)).

(** [match call.await { Ok(..) => .., Err(e) => .. }]. *)
Definition attempt {A : Type} (m : B A) : B (MqttBrokerError + A) :=
  fun b =>
    match m b with
    | (Ok a, b) => (Ok (inr a), b)
    | (Err e, b) => (Ok (inl e), b)
    | (Panic, b) => (Panic, b)
    | (OutOfFuel, b) => (OutOfFuel, b)
    end.

(** [serde_json::to_vec(&x).unwrap()]. *)
Definition encode {A : Type} {J : Json A} (a : A) : B bytes :=
  match to_vec a with inr v => ret v | inl _ => panic end.

Context (env : Env).

(** [Err(MqttBrokerError::CommonError(e.to_string()))]. *)
Definition by_text (e : CommonError) : MqttBrokerError := BE_CommonError (common_text env e).

(** ** pkid.rs: identifiers of QoS 2 messages that a client has sent *)

Definition pkid_save (client_id : bytes) (pkid : Z) : B unit :=
  let! cluster := cluster_config in
  if client_pkid_persistent (cl_protocol cluster) then
    on_placement by_text (set_idempotent_data client_id pkid)
  else with_cache (add_client_pkid (now_second env) client_id pkid).
Definition pkid_exists (client_id : bytes) (pkid : Z) : B bool :=
  let! cluster := cluster_config in
  if client_pkid_persistent (cl_protocol cluster) then
    on_placement by_text (exists_idempotent_data client_id pkid)
  else let! c := the_cache in ret (is_some (get_client_pkid client_id pkid c)).
Definition pkid_delete (client_id : bytes) (pkid : Z) : B unit :=
  let! cluster := cluster_config in
  if client_pkid_persistent (cl_protocol cluster) then
    on_placement by_text (delete_idempotent_data client_id pkid)
  else with_cache (delete_client_pkid client_id pkid).

(** ** storage/session.rs and session.rs *)

Definition set_session (client_id : bytes) (session : MqttSession) : B unit :=
  let! content := encode session in
  on_placement by_text (placement_create_session client_id content).
Definition update_session (client_id : bytes) (connection_id broker_id reconnect_time distinct_time : Z)
  : B unit :=
  on_placement by_text
    (placement_update_session client_id connection_id broker_id reconnect_time distinct_time).
Definition get_session (client_id : bytes) : B (option MqttSession) :=
  let! sessions := on_placement by_text (placement_list_session client_id) in
  match sessions with
  | [] => ret None
  | raw :: _ =>
      match from_slice raw with
      | inr data => ret (Some data)
      | inl e => fail (by_text (CommonError_ e))
      end
  end.

Definition session_expiry (cluster : MqttClusterDynamicConfig)
    (connect_properties : option ConnectProperties) : Z :=
  let by_cluster := session_expiry_interval (cl_protocol cluster) in
  let by_connection :=
    match connect_properties with
    | Some properties => default by_cluster (cp_session_expiry_interval properties)
    | None => by_cluster
    end in
  Z.min by_cluster by_connection.

Definition last_will_delay_interval (last_will_properties : option LastWillProperties) : option Z :=
  match last_will_properties with
  | Some properties => wp_delay_interval properties
  | None => None
  end.

(** A stored session is looked for when the client asks for a clean one. *)
Definition build_session (connect_id : Z) (client_id : bytes) (connect : Connect)
    (connect_properties : option ConnectProperties) (last_will : option LastWill)
    (last_will_properties : option LastWillProperties) : B (MqttSession * bool) :=
  let! cluster := cluster_config in
  let fresh :=
    MqttSession_new (now_second env) client_id (session_expiry cluster connect_properties)
      (is_some last_will) (last_will_delay_interval last_will_properties) in
  let! (session, new_session) :=
    (if clean_session connect then
       let! found := get_session client_id in
       match found with
       | Some session => ret (session, false)
       | None => ret (fresh, true)
       end
     else ret (fresh, true)) in
  ret (set_broker_and_reconnect (conf_id env) (now_second env)
         (set_connection_id (Some connect_id) session), new_session).

Definition save_session (connect_id : Z) (session : MqttSession) (new_session : bool) (client_id : bytes)
  : B unit :=
  if new_session then set_session client_id session
  else update_session client_id connect_id (conf_id env) (now_second env) 0.

(** ** connection.rs *)

Definition get_client_id (client_id : bytes) : bytes * bool :=
  if blen client_id =? 0 then (unique_id env, true) else (client_id, false).

(** [addr] is the text of the socket address, with its port. *)
Definition build_connection (connect_id : Z) (client_id : bytes) (cluster : MqttClusterDynamicConfig)
    (connect : Connect) (connect_properties : option ConnectProperties) (addr : bytes) : MQTTConnection :=
  let p := cl_protocol cluster in
  let alive := client_keep_live_time cluster (keep_alive connect) in
  let of_properties {A : Type} (f : ConnectProperties -> option A) :=
    match connect_properties with Some properties => f properties | None => None end in
  let at_most limit o := match o with Some value => Z.min value limit | None => limit end in
  mkMQTTConnection connect_id client_id false addr [] alive ∅
    (default (receive_max p) (of_properties cp_receive_maximum))
    (at_most (max_packet_size p) (of_properties cp_max_packet_size))
    (at_most (topic_alias_max p) (of_properties cp_topic_alias_max))
    (default 0 (of_properties cp_request_problem_info))
    0 0 (now_second env).

Definition disconnect_connection (client_id : bytes) (connect_id : Z) : B unit :=
  with_cache (remove_connection connect_id) ;;
  with_cache (update_session_connect_id (now_second env) client_id None) ;;
  update_session client_id 0 0 0 (now_second env) ;;
  modify (upd_b_network (delete connect_id)).

(** ** storage/topic.rs *)

Definition save_topic (topic : MqttTopic) : B unit :=
  let! content := encode topic in
  on_placement BE_FromCommonError (placement_create_topic (t_topic_name topic) content).
Definition get_topic (topic_name : bytes) : B (option MqttTopic) :=
  let! topics := on_placement BE_FromCommonError (placement_list_topic topic_name) in
  match topics with
  | [] => ret None
  | raw :: _ =>
      match from_slice raw with
      | inr data => ret (Some data)
      | inl e => fail (BE_SerdeJsonError e)
      end
  end.
Definition set_retain_message (topic_name : bytes) (retain_message : MqttMessage)
    (retain_message_expired_at : Z) : B unit :=
  let! content := encode retain_message in
  on_placement BE_FromCommonError
    (placement_set_topic_retain_message topic_name content retain_message_expired_at).
Definition delete_retain_message (topic_name : bytes) : B unit :=
  on_placement BE_FromCommonError (placement_set_topic_retain_message topic_name [] 0).
Definition get_retain_message (topic_name : bytes) : B (option MqttMessage) :=
  let! topic := get_topic topic_name in
  match topic with
  | Some topic =>
      match t_retain_message topic with
      | Some retain_message =>
          if blen retain_message =? 0 then ret None
          else match from_slice retain_message with
               | inr message => ret (Some message)
               | inl e => fail (BE_SerdeJsonError e)
               end
      | None => ret None
      end
  | None => fail (BE_TopicDoesNotExist topic_name)
  end.

(** ** topic.rs and topic_rewrite.rs *)

(** The loop that replaces [$1], [$2] and so on. *)
Fixpoint replace_captures (i : Z) (groups : list (option bytes)) (rewrite_topic : bytes) : B bytes :=
  match groups with
  | [] => ret rewrite_topic
  | capture :: groups =>
      let! text := unwrap capture in
      replace_captures (i + 1) groups (replace_str (lit "$" ++ decimal i) text rewrite_topic)
  end.

Definition gen_rewrite_topic (input pattern template : bytes) : B (option bytes) :=
  let! (prefix, topic) :=
    (if is_share_sub input then
       let! (group, group_path) := lift (decode_share_info input) in
       ret (lit "$share/" ++ group, group_path)
     else if is_queue_sub input then
       let! path := lift (decode_queue_info input) in ret (lit "$queue", path)
     else ret ([], input)) in
  match regex_new pattern with
  | None => ret None
  | Some _ =>
      match captures pattern topic with
      | Some groups =>
          let! rewrite_topic := replace_captures 1 groups template in
          ret (Some (prefix ++ rewrite_topic))
      | None => ret None
      end
  end.

(** [rules.sort_by_key(|rule| rule.timestamp)], then [iter().rev()]. *)
Fixpoint insert_by_time (x : MqttTopicRewriteRule) (l : list MqttTopicRewriteRule)
  : list MqttTopicRewriteRule :=
  match l with
  | [] => [x]
  | y :: l' => if rr_timestamp x <? rr_timestamp y then x :: l else y :: insert_by_time x l'
  end.
Definition newest_first (rules : gmap bytes MqttTopicRewriteRule) : list MqttTopicRewriteRule :=
  rev (foldl (fun l x => insert_by_time x l) [] (map snd (map_iter rules))).

Definition rule_applies (action : bytes) (rule : MqttTopicRewriteRule) : bool :=
  bool_decide (rr_action rule = lit "All") || bool_decide (rr_action rule = action).

Fixpoint publish_rewrite (topic_name : bytes) (rules : list MqttTopicRewriteRule) : B (option bytes) :=
  match rules with
  | [] => ret None
  | rule :: rules =>
      if negb (rule_applies (lit "Publish") rule) then publish_rewrite topic_name rules
      else
        let! matches := path_regex_match topic_name (rr_source_topic rule) in
        if matches then
          let! rewrite_topic := gen_rewrite_topic topic_name (rr_regex rule) (rr_dest_topic rule) in
          ret (Some (default topic_name rewrite_topic))
        else publish_rewrite topic_name rules
  end.
Definition process_publish_topic_rewrite (topic_name : bytes) : B (option bytes) :=
  let! c := the_cache in publish_rewrite topic_name (newest_first (topic_rewrite_rule c)).

(** Each rule rewrites what the newer rules have left. *)
Fixpoint path_rewrite (path : bytes) (rules : list MqttTopicRewriteRule) : B bytes :=
  match rules with
  | [] => ret path
  | rule :: rules =>
      if negb (rule_applies (lit "Subscribe") rule) then path_rewrite path rules
      else
        let! matches := path_regex_match path (rr_source_topic rule) in
        if matches then
          let! val := gen_rewrite_topic path (rr_regex rule) (rr_dest_topic rule) in
          path_rewrite (default path val) rules
        else path_rewrite path rules
  end.
Fixpoint map_m {X Y : Type} (f : X -> B Y) (l : list X) : B (list Y) :=
  match l with
  | [] => ret []
  | x :: l => let! y := f x in let! l := map_m f l in ret (y :: l)
  end.
Definition process_sub_topic_rewrite (subscribe : Subscribe) : B Subscribe :=
  let! c := the_cache in
  let! filters := map_m (fun filter =>
    let! p := path_rewrite (path filter) (newest_first (topic_rewrite_rule c)) in
    ret (mkFilter p (f_qos filter) (nolocal filter) (preserve_retain filter)
           (retain_forward_rule filter))) (filters subscribe) in
  ret (mkSubscribe (packet_identifier subscribe) filters).
Definition process_unsub_topic_rewrite (un_subscribe : Unsubscribe) : B Unsubscribe :=
  let! c := the_cache in
  let! filters := map_m (fun filter => path_rewrite filter (newest_first (topic_rewrite_rule c)))
                    (un_filters un_subscribe) in
  ret (mkUnsubscribe (un_pkid un_subscribe) filters).

Definition topic_alias_of (publish_properties : option PublishProperties) : option Z :=
  match publish_properties with Some p => pp_topic_alias p | None => None end.

Definition get_topic_name (connect_id : Z) (publish : Publish)
    (publish_properties : option PublishProperties) : B bytes :=
  let topic_alias := topic_alias_of publish_properties in
  let! topic := ok_or (from_utf8 (topic publish)) BE_FromUtf8Error in
  let! topic_name :=
    (if blen topic =? 0 then
       match topic_alias with
       | None => fail BE_TopicNameIsEmpty
       | Some alias =>
           let! c := the_cache in
           match get_topic_alias connect_id alias c with
           | Some tn => ret tn
           | None => fail BE_TopicNameInvalid
           end
       end
     else ret topic) in
  topic_name_validator topic_name ;;
  let! rewrite_topic_name := process_publish_topic_rewrite topic_name in
  match rewrite_topic_name with
  | Some val => topic_name_validator val ;; ret val
  | None => ret topic_name
  end.

Definition try_init_topic (topic_name : bytes) : B MqttTopic :=
  let! c := the_cache in
  match cm_topic_info c !! topic_name with
  | Some tp => ret tp
  | None =>
      let namespace := conf_cluster env in
      let! found := get_topic topic_name in
      let! topic :=
        (match found with
         | Some topic => ret topic
         | None =>
             let topic :=
               mkMqttTopic (unique_id env) (conf_cluster env) topic_name None None (now_second env) in
             save_topic topic ;; ret topic
         end) in
      with_cache (add_topic topic_name topic) ;;
      let! list := on_storage (list_shard namespace topic_name) in
      (if blen list =? 0 then on_storage (create_shard (mkShardInfo namespace topic_name 1)) else ret tt) ;;
      ret topic
  end.

(** ** delay_message.rs and offline_message.rs *)

Definition is_delay_message (topic : bytes) : bool := starts_with (lit "$delayed") topic.

Record DelayPublishTopic : Type := mkDelayPublishTopic { dp_topic : bytes; dp_delay_timestamp : Z }.
Definition decode_delay_topic (topic : bytes) : B (option DelayPublishTopic) :=
  if negb (is_delay_message topic) then ret None
  else match split_on slash topic with
       | _ :: seconds :: ((_ :: _) as str_slice) =>
           match parse_u64 seconds with
           | Some delay_timestamp =>
               ret (Some (mkDelayPublishTopic (lit "/" ++ join_with (lit "/") str_slice)
                            delay_timestamp))
           | None => fail (BE_ParseIntError (parse_error_text env))
           end
       | _ => ret None
       end.

(** [format!("{:?}", offsets)]. *)
Definition debug_offsets (offsets : list Z) : bytes :=
  lit "[" ++ join_with (lit ", ") (map decimal offsets) ++ lit "]".

(** The offset that is shown to the publisher; [None] for a message that was
    not stored. *)
Definition save_message (publish : Publish) (publish_properties : option PublishProperties)
    (client_id : bytes) (topic : MqttTopic) : B (option bytes) :=
  let! w := on_subs manager in
  let! cluster := cluster_config in
  if negb (contain_topic_subscribe (t_topic_name topic) w) && negb (cl_offline_message_enable cluster)
  then ret None
  else
    let message_expire :=
      build_message_expire (now_second env) (max_message_expiry_interval (cl_protocol cluster))
        publish_properties in
    match build_record (calc_crc32 env) (now_second env) client_id publish publish_properties
            message_expire with
    | Some record =>
        if is_delay_message (t_topic_name topic) then
          let! delay_topic := decode_delay_topic (t_topic_name topic) in
          match delay_topic with
          | None => fail (BE_DelayPublishDecodeTopicNameFail (t_topic_name topic))
          | Some _ => on_delay (send_delay_message (now_second env) record) ;; ret None
          end
        else
          let! offsets :=
            on_storage (append_topic_message (conf_cluster env) (t_topic_id topic) [record]) in
          ret (Some (debug_offsets offsets))
    | None => ret None
    end.

(** ** retain.rs *)

Definition is_new_sub (client_id : bytes) (subscribe : Subscribe) : B (gmap bytes bool) :=
  let! m := on_subs manager in
  ret (foldl (fun results filter =>
         <[ path filter := is_none (get_subscribe client_id (path filter) m) ]> results)
         ∅ (filters subscribe)).

Definition save_retain_message (topic_name client_id : bytes) (publish : Publish)
    (publish_properties : option PublishProperties) : B unit :=
  if negb (retain publish) then ret tt
  else if blen (payload publish) =? 0 then
    delete_retain_message topic_name ;;
    with_cache (update_topic_retain_message topic_name (Some []))
  else
    let! cluster := cluster_config in
    let message_expire :=
      build_message_expire (now_second env) (max_message_expiry_interval (cl_protocol cluster))
        publish_properties in
    let retain_message :=
      build_message (now_second env) client_id publish publish_properties message_expire in
    set_retain_message topic_name retain_message message_expire ;;
    let! content := encode retain_message in
    with_cache (update_topic_retain_message topic_name (Some content)).

(** [tokio::spawn]: the task runs beside the handler. *)
Definition try_send_retain_message (protocol : MqttProtocol) (client_id : bytes) (subscribe : Subscribe)
    (subscribe_properties : option SubscribeProperties) (is_new_subs : gmap bytes bool) : B unit :=
  modify (upd_b_retain_tasks (fun l =>
    l ++ [mkRetainTask protocol client_id subscribe subscribe_properties is_new_subs])).

(** ** lastwill.rs *)

Definition build_publish_message_by_lastwill (last_will : option LastWill)
    (last_will_properties : option LastWillProperties)
  : B (bytes * option Publish * option PublishProperties) :=
  match last_will with
  | Some will =>
      if (blen (lw_topic will) =? 0) || (blen (lw_message will) =? 0) then ret ([], None, None)
      else
        let! topic_name := ok_or (from_utf8 (lw_topic will)) BE_FromUtf8Error in
        let publish := mkPublish false (lw_qos will) 0 (lw_retain will) topic_name (lw_message will) in
        let properties :=
          (fun p => mkPublishProperties (wp_payload_format_indicator p) (wp_message_expiry_interval p)
                      None (wp_response_topic p) (wp_correlation_data p) [] [] (wp_content_type p))
          <$> last_will_properties in
        ret (topic_name, Some publish, properties)
  | None => ret ([], None, None)
  end.

Definition send_last_will_message (client_id : bytes) (last_will : option LastWill)
    (last_will_properties : option LastWillProperties) : B unit :=
  let! (topic_name, publish_res, publish_properties) :=
    build_publish_message_by_lastwill last_will last_will_properties in
  match publish_res with
  | None => ret tt
  | Some publish =>
      if blen topic_name =? 0 then ret tt
      else
        let! topic := try_init_topic topic_name in
        save_retain_message topic_name client_id publish publish_properties ;;
        let! cluster := cluster_config in
        let message_expire :=
          build_message_expire (now_second env) (max_message_expiry_interval (cl_protocol cluster))
            publish_properties in
        match build_record (calc_crc32 env) (now_second env) client_id publish publish_properties
                message_expire with
        | Some record =>
            on_storage (append_topic_message (conf_cluster env) (t_topic_id topic) [record]) ;; ret tt
        | None => ret tt
        end
  end.

Definition save_last_will_message (client_id : bytes) (last_will : option LastWill)
    (last_will_properties : option LastWillProperties) : B unit :=
  match last_will with
  | None => ret tt
  | Some _ =>
      let! content := encode (mkLastWillData client_id last_will last_will_properties) in
      on_placement BE_FromCommonError (placement_save_last_will_message client_id content)
  end.

(** ** flapping_detect.rs

    [b_counters] is the counter of connections of each client that the metrics
    keep. *)

Definition is_within_window_time (current_request_time first_request_time window_time : Z) : bool :=
  wrap64 (current_request_time - first_request_time) <? minutes window_time.
Definition is_exceed_max_client_connections (current_time connect_times max_client_connections : Z)
  : bool := max_client_connections <=? wrap64 (current_time - connect_times).

Definition check_flapping_detect (client_id : bytes) : B unit :=
  let! b := get in
  let current_counter := default 0 (b_counters b !! client_id) in
  let! c := the_cache in
  let condition :=
    default (mkFlappingDetectCondition client_id (wrap64 (current_counter + 1)) (now_second env))
      (flapping_detect_map (acl_metadata c) !! client_id) in
  modify (upd_b_counters (insert client_id (wrap64 (current_counter + 1)))) ;;
  let! cluster := cluster_config in
  let config := cl_flapping_detect cluster in
  (if is_within_window_time (now_second env) (fd_first_request_time condition) (fl_window_time config)
      && is_exceed_max_client_connections (wrap64 (current_counter + 1))
           (fd_before_last_window_connections condition) (fl_max_client_connections config)
   then
     with_cache (upd_acl_metadata (parse_mqtt_blacklist
       (mkMqttAclBlackList BL_ClientId client_id
          (wrap64 (now_second env + minutes (fl_ban_time config)))
          (lit "Ban due to connection jitter "))))
   else ret tt) ;;
  with_cache (upd_acl_metadata (add_flapping_detect_condition condition)).

(** ** System topics: observability/system_topic *)

(** The names hold [${clientid}], which is not what is replaced. *)
Definition replace_name (topic_name client_id : bytes) : bytes :=
  replace_str (lit "${client_id}") client_id (replace_str (lit "${node}") (local_ip env) topic_name).
Definition system_topic (event : bytes) : bytes :=
  lit "$SYS/brokers/${node}/clients/${clientid}/" ++ event.

(** Errors are logged. *)
Definition write_topic_data (topic_name : bytes) (record : MsgRecord) : B unit :=
  let! init := attempt (try_init_topic topic_name) in
  match init with
  | inr topic =>
      attempt (on_storage (append_topic_message (conf_cluster env) (t_topic_id topic) [record])) ;;
      ret tt
  | inl _ => ret tt
  end.

Definition report (client_id event : bytes) (data : SystemEvent) : B unit :=
  match event_json env data with
  | Some text =>
      let topic_name := replace_name (system_topic event) client_id in
      match build_system_topic_message (calc_crc32 env) (now_second env) topic_name text with
      | Some record => write_topic_data topic_name record
      | None => ret tt
      end
  | None => ret tt
  end.

Definition st_report_connected_event (session : MqttSession) (connection : MQTTConnection)
    (connect_id : Z) : B unit :=
  let! b := get in
  match b_network b !! connect_id with
  | Some network =>
      report (se_client_id session) (lit "connected") (EvConnected session connection network)
  | None => ret tt
  end.
Definition st_report_disconnected_event (session : MqttSession) (connection : MQTTConnection)
    (connect_id : Z) (reason : option DisconnectReasonCode) : B unit :=
  let! b := get in
  match b_network b !! connect_id with
  | Some network =>
      report (se_client_id session) (lit "disconnected") (EvDisconnected session connection network reason)
  | None => ret tt
  end.
Definition st_report_subscribed_event (connection : MQTTConnection) (connect_id : Z)
    (subscribe : Subscribe) : B unit :=
  let! b := get in
  match b_network b !! connect_id with
  | Some network =>
      for_each (filters subscribe) (fun filter =>
        report (c_client_id connection) (lit "subscribed") (EvSubscribed connection network filter))
  | None => ret tt
  end.
Definition st_report_unsubscribed_event (connection : MQTTConnection) (connect_id : Z)
    (un_subscribe : Unsubscribe) : B unit :=
  let! b := get in
  match b_network b !! connect_id with
  | Some network =>
      for_each (un_filters un_subscribe) (fun path =>
        report (c_client_id connection) (lit "unsubscribed") (EvUnsubscribed connection network path))
  | None => ret tt
  end.
End broker.
