(* ===== verification/Service.v ===== *)
(** * The request handlers

    [handler/validator.rs], [handler/mqtt.rs] (the methods of [MqttService])
    and [handler/command.rs] ([Command::apply], which picks the method by
    packet and protocol).  A handler answers with a packet or with nothing; it
    returns no error of its own, and [Panic] where the code unwinds. *)

From Stdlib Require Import String.
From S2P Require Import Prelude Bytes RustStr Storage MemoryStorage RocksEngine MqttTypes Topics Subscriptions MessageStorage DelayMessages Acl BrokerCache Security Responses SchemaRegister Broker.

Section service.
Context {S P D : Type} {SA : StorageAdapter S} {PC : PlacementCenter P} {AD : AuthStorageAdapter D}.
Context {SC : StopChannel} {MI : MapIter} {RX : RegexCrate} {RG : RegexCaptures} {IN : IpNet}.
Context {JS : Json MqttSession} {JT : Json MqttTopic} {JM : Json MqttMessage} {JW : Json LastWillData}.
Context {SX : SchemaCrates}.
Context (env : Env) (protocol : MqttProtocol).
Abbreviation B := (B (S := S) (P := P) (D := D)).
Implicit Types (connection : MQTTConnection) (publish : Publish).

(** ** validator.rs *)

(** No length is both 5 and above 23. *)
Definition client_id_validator (client_id : bytes) : bool :=
  negb ((blen client_id =? 5) && (23 <? blen client_id)).
Definition username_validator (username : bytes) : bool := negb (blen username =? 0).
Definition password_validator (password : bytes) : bool := negb (blen password =? 0).

Definition connection_max_packet_size (connect_properties : option ConnectProperties)
    (cluster : MqttClusterDynamicConfig) : Z :=
  let limit := max_packet_size (cl_protocol cluster) in
  match connect_properties with
  | Some properties =>
      match cp_max_packet_size properties with
      | Some size => Z.min size limit
      | None => limit
      end
  | None => limit
  end.

(** The result of [topic_name_validator] is not used. *)
Definition will_validator (cluster : MqttClusterDynamicConfig)
    (connect_properties : option ConnectProperties) (will : LastWill)
    (last_will_properties : option LastWillProperties) : B (option MqttPacket) :=
  let refuse code text :=
    ret (Some (response_packet_mqtt_connect_fail protocol code connect_properties text)) in
  if blen (lw_topic will) =? 0 then refuse CR_TopicNameInvalid None
  else match from_utf8 (lw_topic will) with
  | None => refuse CR_TopicNameInvalid (Some (utf8_error_text env))
  | Some topic_name =>
      attempt (topic_name_validator topic_name) ;;
      if blen (lw_message will) =? 0 then refuse CR_PayloadFormatInvalid None
      else if connection_max_packet_size connect_properties cluster <? blen (lw_message will) then
        refuse CR_PacketTooLarge None
      else
        let format :=
          match last_will_properties with
          | Some will_properties => wp_payload_format_indicator will_properties
          | None => None
          end in
        if bool_decide (format = Some 1) && negb (utf8_valid (lw_message will)) then
          refuse CR_PayloadFormatInvalid None
        else ret None
  end.

Definition connect_validator (cluster : MqttClusterDynamicConfig) (connect : Connect)
    (connect_properties : option ConnectProperties) (last_will : option LastWill)
    (last_will_properties : option LastWillProperties) (login : option Login) : B (option MqttPacket) :=
  let refuse code text :=
    ret (Some (response_packet_mqtt_connect_fail protocol code connect_properties text)) in
  if is_self_protection_status (cl_security cluster) then
    refuse CR_ServerBusy (Some (error_text env BE_ClusterIsInSelfProtection))
  else if negb (blen (client_id connect) =? 0) && negb (client_id_validator (client_id connect)) then
    refuse CR_ClientIdentifierNotValid None
  else if match login with
          | Some l => negb (username_validator (username l)) || negb (password_validator (password l))
          | None => false
          end then refuse CR_BadUserNamePassword None
  else match last_will with
       | Some will => will_validator cluster connect_properties will last_will_properties
       | None => ret None
       end.

(** [if is_puback { puback_fail } else { pubrec_fail }]: a publish of QoS 0 is
    answered like one of QoS 1. *)
Definition publish_fail connection publish (ack : PubAckReason) (rec : PubRecReason)
    (text : option bytes) : MqttPacket :=
  if bool_decide (pub_qos publish = ExactlyOnce)
  then response_packet_mqtt_pubrec_fail protocol connection (pub_pkid publish) rec text
  else response_packet_mqtt_puback_fail protocol connection (pub_pkid publish) ack text.

Definition is_qos_message (q : QoS) : bool := negb (bool_decide (q = AtMostOnce)).

Definition publish_validator connection publish (publish_properties : option PublishProperties)
  : B (option MqttPacket) :=
  let! known :=
    (if bool_decide (pub_qos publish = ExactlyOnce) then
       let! res := attempt (pkid_exists env (c_client_id connection) (pub_pkid publish)) in
       ret (Some res)
     else ret None) in
  match known with
  | Some (inr true) =>
      ret (Some (response_packet_mqtt_pubrec_fail protocol connection (pub_pkid publish)
                   PR_PacketIdentifierInUse None))
  | Some (inl e) =>
      ret (Some (response_packet_mqtt_pubrec_fail protocol connection (pub_pkid publish)
                   PR_UnspecifiedError (Some (error_text env e))))
  | _ =>
  let! cluster := cluster_config in
  let p := cl_protocol cluster in
  let too_long := Some (error_text env (BE_PacketLengthError (blen (payload publish)))) in
  let format :=
    match publish_properties with Some x => pp_payload_format_indicator x | None => None end in
  if Z.min (max_packet_size p) (c_max_packet_size connection) <? blen (payload publish) then
    ret (Some (publish_fail connection publish PA_PayloadFormatInvalid PR_PayloadFormatInvalid too_long))
  else if bool_decide (format = Some 1) && negb (utf8_valid (payload publish)) then
    ret (Some (publish_fail connection publish PA_PayloadFormatInvalid PR_PayloadFormatInvalid too_long))
  else
  let! c := the_cache in
  let recv := match connection_info c !! c_connect_id connection with
              | Some conn => c_receive_qos_message conn
              | None => c_receive_qos_message connection
              end in
  if is_qos_message (pub_qos publish) && (receive_max p <=? recv) then
    ret (Some (publish_fail connection publish PA_QuotaExceeded PR_QuotaExceeded None))
  else match topic_alias_of publish_properties with
       | Some alias =>
           if topic_alias_max p <? alias then
             ret (Some (publish_fail connection publish PA_UnspecifiedError PR_UnspecifiedError
                          (Some (error_text env (BE_TopicAliasTooLong alias)))))
           else ret None
       | None => ret None
       end
  end.

(** The codes of the filters that are refused. *)
Fixpoint bad_filters {X : Type} (code : X) (paths : list bytes) : B (list X) :=
  match paths with
  | [] => ret []
  | p :: paths =>
      let! valid := sub_path_validator p in
      let! rest := bad_filters code paths in
      ret (if negb valid then code :: rest else rest)
  end.

Definition sub_env (c : CacheManager) (cluster : MqttClusterDynamicConfig) : BrokerEnv :=
  mkBrokerEnv (conf_cluster env) (conf_id env) (cm_topic_info c)
    (exclusive_subscription_available_flag (cl_feature cluster))
    (rpc_set_subscribe env) (rpc_delete_subscribe env) (rpc_share_leader env).

Definition subscribe_validator connection (subscribe : Subscribe) : B (option MqttPacket) :=
  let refuse codes :=
    ret (Some (response_packet_mqtt_suback protocol connection (packet_identifier subscribe) codes None)) in
  let! bad := bad_filters SR_TopicFilterInvalid (map path (filters subscribe)) in
  if negb (blen bad =? 0) then refuse bad
  else
  let! c := the_cache in
  let! cluster := cluster_config in
  let! m := on_subs manager in
  if negb (check_exclusive_subscribe (sub_env c cluster) subscribe m) then refuse [SR_TopicSubscribed]
  else
  let! allowed := allow_subscribe (now_second env) c connection subscribe in
  if negb allowed then refuse [SR_NotAuthorized] else ret None.

Fixpoint unsubscribed_path (client_id : bytes) (paths : list bytes) (m : SubscribeManager)
  : option bytes :=
  match paths with
  | [] => None
  | p :: paths =>
      if is_none (get_subscribe client_id p m) then Some p else unsubscribed_path client_id paths m
  end.
Definition un_subscribe_validator connection (un_subscribe : Unsubscribe) : B (option MqttPacket) :=
  let! bad := bad_filters UR_TopicFilterInvalid (un_filters un_subscribe) in
  if negb (blen bad =? 0) then
    ret (Some (response_packet_mqtt_unsuback connection (un_pkid un_subscribe) bad None))
  else
  let! m := on_subs manager in
  match unsubscribed_path (c_client_id connection) (un_filters un_subscribe) m with
  | Some p =>
      ret (Some (response_packet_mqtt_unsuback connection (un_pkid un_subscribe)
                   [UR_NoSubscriptionExisted]
                   (Some (error_text env (BE_SubscriptionPathNotExists p)))))
  | None => ret None
  end.

(** ** mqtt.rs *)

Definition connect_fail (connect_properties : option ConnectProperties) (code : ConnectReturnCode)
    (text : option bytes) : MqttPacket :=
  response_packet_mqtt_connect_fail protocol code connect_properties text.

(** [match call { Ok(a) => a, Err(e) => return answer(e) }]. *)
Definition or_answer {A R : Type} (m : B A) (answer : MqttBrokerError -> R) (k : A -> B R) : B R :=
  let! r := attempt m in
  match r with
  | inr a => k a
  | inl e => ret (answer e)
  end.

(** What follows the checks of a CONNECT. *)
Definition connect_accept (connect_id : Z) (connect : Connect)
    (connect_properties : option ConnectProperties) (last_will : option LastWill)
    (last_will_properties : option LastWillProperties) (cluster : MqttClusterDynamicConfig)
    (client_id : bytes) (new_client_id : bool) (connection : MQTTConnection) : B MqttPacket :=
  let text e := Some (error_text env e) in
  (if fl_enable (cl_flapping_detect cluster)
   then check_flapping_detect env (MqttTypes.client_id connect) else ret tt) ;;
  or_answer (build_session env connect_id client_id connect connect_properties last_will
               last_will_properties)
    (fun e => connect_fail connect_properties CR_MalformedPacket (text e))
    (fun '(session, new_session) =>
  or_answer (save_session env connect_id session new_session client_id)
    (fun e => connect_fail connect_properties CR_MalformedPacket (text e)) (fun _ =>
  or_answer (save_last_will_message client_id last_will last_will_properties)
    (fun e => connect_fail connect_properties CR_UnspecifiedError (text e)) (fun _ =>
  with_cache (report_heartbeat client_id
    (mkConnectionLiveTime protocol (c_keep_alive connection) (now_second env))) ;;
  with_cache (add_session client_id session) ;;
  with_cache (add_connection connect_id connection) ;;
  st_report_connected_event env session connection connect_id ;;
  ret (response_packet_mqtt_connect_success protocol cluster client_id new_client_id
         (se_session_expiry session mod 2 ^ 32) new_session (c_keep_alive connection)
         connect_properties)))).

(** [allow_connect] answers whether the connection is banned. *)
Definition connect (connect_id : Z) (connect : Connect) (connect_properties : option ConnectProperties)
    (last_will : option LastWill) (last_will_properties : option LastWillProperties)
    (login : option Login) (addr : bytes) : B MqttPacket :=
  let! cluster := cluster_config in
  let! refused := connect_validator cluster connect connect_properties last_will
                    last_will_properties login in
  match refused with
  | Some res => ret res
  | None =>
      let (client_id, new_client_id) := get_client_id env (MqttTypes.client_id connect) in
      let connection :=
        build_connection env connect_id client_id cluster connect connect_properties addr in
      let! c := the_cache in
      let! banned := is_blacklist (now_second env) c connection in
      if banned then ret (connect_fail connect_properties CR_Banned None)
      else
      or_answer (on_auth (check_login_auth login))
        (fun e => connect_fail connect_properties CR_UnspecifiedError (Some (error_text env e)))
        (fun flag =>
           if negb flag then ret (connect_fail connect_properties CR_NotAuthorized None)
           else connect_accept connect_id connect connect_properties last_will last_will_properties
                  cluster client_id new_client_id connection)
  end.

(** [format!("{:?}", da)] of the optional offset text. *)
Definition debug_option (o : option bytes) : bytes :=
  match o with
  | Some s => lit "Some(" ++ [34] ++ s ++ [34] ++ lit ")"
  | None => lit "None"
  end.

(** What follows the checks of a PUBLISH: the message is stored and answered. *)
Definition publish_store (connect_id : Z) connection publish
    (publish_properties : option PublishProperties) (topic_name : bytes) (topic : MqttTopic)
  : B (option MqttPacket) :=
  let client_id := c_client_id connection in
  let failed e :=
    Some (publish_fail connection publish PA_UnspecifiedError PR_UnspecifiedError
            (Some (error_text env e))) in
  or_answer (save_retain_message env topic_name client_id publish publish_properties) failed (fun _ =>
  or_answer (save_message env publish publish_properties client_id topic) failed (fun offset =>
  let user_properties := [(lit "offset", debug_option offset)] in
  with_cache (add_topic_alias connect_id topic_name publish_properties) ;;
  match pub_qos publish with
  | AtMostOnce => ret None
  | AtLeastOnce =>
      ret (Some (response_packet_mqtt_puback_success protocol PA_Success (pub_pkid publish)
                   user_properties))
  | ExactlyOnce =>
      or_answer (pkid_save env client_id (pub_pkid publish)) failed (fun _ =>
      ret (Some (response_packet_mqtt_pubrec_success protocol PR_Success (pub_pkid publish)
                   user_properties)))
  end)).

(** A schema that rejects the message answers [Ok(false)], which is not an
    error. *)
Definition publish (connect_id : Z) publish (publish_properties : option PublishProperties)
  : B (option MqttPacket) :=
  let! c := the_cache in
  match connection_info c !! connect_id with
  | None =>
      ret (Some (response_packet_mqtt_distinct_by_reason protocol (Some DR_MaximumConnectTime)))
  | Some connection =>
      let failed e :=
        Some (publish_fail connection publish PA_UnspecifiedError PR_UnspecifiedError
                (Some (error_text env e))) in
      let! refused := publish_validator connection publish publish_properties in
      match refused with
      | Some pkg => ret (if bool_decide (pub_qos publish = AtMostOnce) then None else Some pkg)
      | None =>
          or_answer (get_topic_name connect_id publish publish_properties) failed (fun topic_name =>
          let! c := the_cache in
          let! allowed := is_allow_acl (now_second env) c connection topic_name Publish_ (retain publish) in
          if negb allowed then
            ret (Some (publish_fail connection publish PA_NotAuthorized PR_NotAuthorized None))
          else
          or_answer (try_init_topic env topic_name) failed (fun topic =>
          let! b := get in
          match (if is_check_schema topic_name (b_schemas b)
                 then validate topic_name (payload publish) (b_schemas b) else Ok true) with
          | Err e => ret (failed (BE_FromCommonError e))
          | Panic => panic
          | OutOfFuel => out_of_fuel
          | Ok _ =>
              publish_store connect_id connection publish publish_properties topic_name topic
          end))
      end
  end.

(** The acknowledgements of a client: handed to the push thread that waits for
    them, if any.  [send] fails when nobody listens. *)
Definition forward_ack (connect_id : Z) (ack : QosAckPackageType) (pkid : Z) : B bool :=
  let! c := the_cache in
  match connection_info c !! connect_id with
  | Some conn =>
      match get_ack_packet (c_client_id conn) pkid c with
      | Some data =>
          if ack_heard env (qa_sx data) then
            modify (upd_b_acks (fun l => l ++ [(qa_sx data, mkQosAckPackageData ack pkid)])) ;; ret true
          else ret false
      | None => ret false
      end
  | None => ret false
  end.
Definition publish_ack (connect_id : Z) (pub_ack : PubAck) : B (option MqttPacket) :=
  forward_ack connect_id AckPubAck (pa_pkid pub_ack) ;; ret None.
Definition publish_rec (connect_id : Z) (pub_rec : PubRec) : B (option MqttPacket) :=
  let! sent := forward_ack connect_id AckPubRec (pr_pkid pub_rec) in
  if sent then ret None
  else ret (Some (response_packet_mqtt_pubrel_success protocol (pr_pkid pub_rec) PL_Success)).
Definition publish_comp (connect_id : Z) (pub_comp : PubComp) : B (option MqttPacket) :=
  forward_ack connect_id AckPubComp (pc_pkid pub_comp) ;; ret None.

(** [connection.recv_qos_message_incr()] and [..._decr()]. *)
Definition recv_qos_add (connect_id n : Z) : B unit :=
  with_cache (upd_connection_info (alter (recv_qos_message_add n) connect_id)).

(** The counter is decremented twice. *)
Definition publish_rel (connect_id : Z) (pub_rel : PubRel) : B MqttPacket :=
  let! c := the_cache in
  match connection_info c !! connect_id with
  | None => ret (response_packet_mqtt_distinct_by_reason protocol (Some DR_MaximumConnectTime))
  | Some connection =>
      let client_id := c_client_id connection in
      let pkid := pl_pkid pub_rel in
      let failed text :=
        response_packet_mqtt_pubcomp_fail protocol connection pkid PC_PacketIdentifierNotFound text in
      or_answer (pkid_exists env client_id pkid) (fun e => failed (Some (error_text env e))) (fun res =>
      if negb res then ret (failed None)
      else
      or_answer (pkid_delete env client_id pkid) (fun e => failed (Some (error_text env e))) (fun _ =>
      recv_qos_add connect_id (-1) ;;
      recv_qos_add connect_id (-1) ;;
      ret (response_packet_mqtt_pubcomp_success protocol pkid)))
  end.

Definition granted (q : QoS) : SubscribeReasonCode :=
  match q with AtMostOnce => SR_QoS0 | AtLeastOnce => SR_QoS1 | ExactlyOnce => SR_QoS2 end.

Definition subscribe (connect_id : Z) (subscribe : Subscribe)
    (subscribe_properties : option SubscribeProperties) : B MqttPacket :=
  let! c := the_cache in
  match connection_info c !! connect_id with
  | None => ret (response_packet_mqtt_distinct_by_reason protocol (Some DR_MaximumConnectTime))
  | Some connection =>
      let! refused := subscribe_validator connection subscribe in
      match refused with
      | Some packet => ret packet
      | None =>
          let! new_subs := is_new_sub (c_client_id connection) subscribe in
          let! subscribe := process_sub_topic_rewrite subscribe in
          let! c := the_cache in
          let! cluster := cluster_config in
          or_answer (on_subs (save_subscribe (sub_env c cluster) (c_client_id connection) protocol
                                subscribe subscribe_properties))
            (fun e => response_packet_mqtt_suback protocol connection (packet_identifier subscribe)
                        [SR_Unspecified] (Some (error_text env e)))
            (fun _ =>
          st_report_subscribed_event env connection connect_id subscribe ;;
          try_send_retain_message protocol (c_client_id connection) subscribe subscribe_properties
            new_subs ;;
          let! cluster := cluster_config in
          let cluster_qos := max_qos (cl_protocol cluster) in
          ret (response_packet_mqtt_suback protocol connection (packet_identifier subscribe)
                 (map (fun filter => granted (min_qos cluster_qos (f_qos filter))) (filters subscribe))
                 None))
      end
  end.

Definition ping (connect_id : Z) : B MqttPacket :=
  let! c := the_cache in
  match connection_info c !! connect_id with
  | None => ret (response_packet_mqtt_distinct_by_reason protocol (Some DR_MaximumConnectTime))
  | Some connection =>
      with_cache (report_heartbeat (c_client_id connection)
        (mkConnectionLiveTime protocol (c_keep_alive connection) (now_second env))) ;;
      ret P_PingResp
  end.

Definition un_subscribe (connect_id : Z) (un_subscribe : Unsubscribe) : B MqttPacket :=
  let! c := the_cache in
  match connection_info c !! connect_id with
  | None => ret (response_packet_mqtt_distinct_by_reason protocol (Some DR_MaximumConnectTime))
  | Some connection =>
      let! refused := un_subscribe_validator connection un_subscribe in
      match refused with
      | Some packet => ret packet
      | None =>
          let! un_subscribe := process_unsub_topic_rewrite un_subscribe in
          let! c := the_cache in
          let! cluster := cluster_config in
          or_answer (on_subs (remove_subscribe (sub_env c cluster) (c_client_id connection) un_subscribe))
            (fun e => response_packet_mqtt_unsuback connection (un_pkid un_subscribe)
                        [UR_UnspecifiedError] (Some (error_text env e)))
            (fun _ =>
          st_report_unsubscribed_event env connection connect_id un_subscribe ;;
          ret (response_packet_mqtt_unsuback connection (un_pkid un_subscribe) [UR_Success] None))
      end
  end.

Definition disconnect (connect_id : Z) (disconnect : Disconnect) : B (option MqttPacket) :=
  let! c := the_cache in
  match connection_info c !! connect_id with
  | None => ret None
  | Some connection =>
      (match session_info c !! c_client_id connection with
       | Some session =>
           st_report_disconnected_event env session connection connect_id (reason_code disconnect)
       | None => ret tt
       end) ;;
      attempt (disconnect_connection env (c_client_id connection) connect_id) ;;
      ret None
  end.
End service.

(** ** command.rs *)

Section command.
Context {S P D : Type} {SA : StorageAdapter S} {PC : PlacementCenter P} {AD : AuthStorageAdapter D}.
Context {SC : StopChannel} {MI : MapIter} {RX : RegexCrate} {RG : RegexCaptures} {IN : IpNet}.
Context {JS : Json MqttSession} {JT : Json MqttTopic} {JM : Json MqttMessage} {JW : Json LastWillData}.
Context {SX : SchemaCrates}.
Context (env : Env).
Abbreviation B := (B (S := S) (P := P) (D := D)).

Definition protocol_of_level (level : Z) : option MqttProtocol :=
  if is_mqtt3 level then Some Mqtt3 else if is_mqtt4 level then Some Mqtt4
  else if is_mqtt5 level then Some Mqtt5 else None.

(** [connection_manager.rs]. *)
Definition set_connect_protocol (connect_id level : Z) : B unit :=
  modify (upd_b_network (alter (fun n =>
    match protocol_of_level level with
    | Some p => mkNetworkConnection (nc_connection_type n) (nc_connection_id n) (Some p) (nc_addr n)
    | None => n
    end) connect_id)).

Definition apply_connect (connect_id : Z) (addr : bytes) (level : Z) (connect : Connect)
    (properties : option ConnectProperties) (last_will : option LastWill)
    (last_will_properties : option LastWillProperties) (login : option Login) : B (option MqttPacket) :=
  set_connect_protocol connect_id level ;;
  match protocol_of_level level with
  | Some protocol =>
      let! ack_pkg := Service.connect env protocol connect_id connect properties last_will
                        last_will_properties login addr in
      match ack_pkg with
      | P_ConnAck conn_ack _ =>
          if bool_decide (ca_code conn_ack = CR_Success) then
            with_cache (login_success connect_id
              (match login with Some user => username user | None => [] end))
          else ret tt
      | _ => ret tt
      end ;;
      ret (Some ack_pkg)
  | None =>
      ret (Some (response_packet_mqtt_connect_fail Mqtt4 CR_UnsupportedProtocolVersion None None))
  end.

(** [get_protocol] of a network connection, MQTT 5 where none is set. *)
Definition apply_publish (connect_id : Z) (protocol : option MqttProtocol) (publish : Publish)
    (publish_properties : option PublishProperties) : B (option MqttPacket) :=
  let! c := the_cache in
  match connection_info c !! connect_id with
  | None =>
      ret (Some (response_packet_mqtt_distinct_by_reason (default Mqtt5 protocol)
                   (Some DR_MaximumConnectTime)))
  | Some _ =>
      (if is_qos_message (pub_qos publish) then recv_qos_add connect_id 1 else ret tt) ;;
      let! resp :=
        (match protocol with
         | Some p => Service.publish env p connect_id publish publish_properties
         | None => ret None
         end) in
      match resp with
      | Some (P_PubRec _ _) | None => ret tt
      | Some _ => if is_qos_message (pub_qos publish) then recv_qos_add connect_id (-1) else ret tt
      end ;;
      ret resp
  end.

(** [tcp_connection] is a copy of the network connection that the request came
    on; [protocol] is its protocol. *)
Definition apply (connect_id : Z) (protocol : option MqttProtocol) (addr : bytes) (packet : MqttPacket)
  : B (option MqttPacket) :=
  let! c := the_cache in
  let fallback code := Some (response_packet_mqtt_connect_fail Mqtt5 code None None) in
  match packet with
  | P_Connect level connect properties last_will last_will_properties login =>
      apply_connect connect_id addr level connect properties last_will last_will_properties login
  | _ =>
    if negb (is_login connect_id c) then
      ret (Some (response_packet_mqtt_distinct_by_reason Mqtt5 (Some DR_NotAuthorized)))
    else
    match packet with
    | P_Publish publish properties => apply_publish connect_id protocol publish properties
    | P_PubAck pub_ack _ =>
        match protocol with
        | Some _ => publish_ack env connect_id pub_ack
        | None => ret None
        end
    | _ =>
      match protocol with
      | None =>
          match packet with
          | P_PubRec _ _ | P_PubComp _ _ | P_PubRel _ _ | P_Subscribe _ _ | P_PingReq
          | P_Unsubscribe _ _ | P_Disconnect _ _ => ret (fallback CR_UnsupportedProtocolVersion)
          | _ => ret (fallback CR_MalformedPacket)
          end
      | Some p =>
          match packet with
          | P_PubRec pub_rec _ => publish_rec env p connect_id pub_rec
          | P_PubComp pub_comp _ => publish_comp env connect_id pub_comp
          | P_PubRel pub_rel _ => let! r := publish_rel env p connect_id pub_rel in ret (Some r)
          | P_Subscribe subscribe properties =>
              let! r := Service.subscribe env p connect_id subscribe properties in ret (Some r)
          | P_PingReq => let! r := ping env p connect_id in ret (Some r)
          | P_Unsubscribe un_subscribe _ =>
              let! r := Service.un_subscribe env p connect_id un_subscribe in ret (Some r)
          | P_Disconnect disconnect _ => Service.disconnect env connect_id disconnect
          | _ => ret (fallback CR_MalformedPacket)
          end
      end
    end
  end.
End command.
