(* ===== verification/ServiceFrame.v ===== *)
(** * What the request handlers leave alone

    Most of what a handler calls touches neither the connections, nor their
    heartbeats, nor the identifiers of QoS 2 messages, nor the configuration:
    the core of the broker.  The lemmas of this file say so for every helper, so that a theorem
    about the core has to look only at the few calls that change it. *)

From Stdlib Require Import String.
From S2P Require Import Prelude Bytes RustStr Storage MemoryStorage RocksEngine MqttTypes Topics Subscriptions MessageStorage DelayMessages Acl BrokerCache Security Responses SchemaRegister Broker Service.

(** ** Actions that only read *)

Definition reads_only {S E A : Type} (m : M S E A) : Prop := forall s, (m s).2 = s.

Create HintDb readsdb.

Section reads.
Context {S E : Type}.

Lemma reads_ret {A} (a : A) : reads_only (S := S) (E := E) (ret a).
Proof. done. Qed.
Lemma reads_unwrap {A} (o : option A) : reads_only (S := S) (E := E) (unwrap o).
Proof. by destruct o. Qed.
Lemma reads_ok_or {A} (o : option A) (e : E) : reads_only (S := S) (ok_or o e).
Proof. by destruct o. Qed.
Lemma reads_lift {A} (o : outcome E A) : reads_only (S := S) (lift o).
Proof. done. Qed.
Lemma reads_fail {A} (e : E) : reads_only (S := S) (fail (A := A) e).
Proof. done. Qed.
Lemma reads_panic {A} : reads_only (S := S) (E := E) (panic (A := A)).
Proof. done. Qed.
Lemma reads_out_of_fuel {A} : reads_only (S := S) (E := E) (out_of_fuel (A := A)).
Proof. done. Qed.
Lemma reads_get : reads_only (S := S) (E := E) get.
Proof. done. Qed.
Lemma reads_bind {A B} (m : M S E A) (k : A -> M S E B) :
  reads_only m -> (forall a, reads_only (k a)) -> reads_only (bind m k).
Proof.
  intros Hm Hk s. specialize (Hm s). unfold bind. destruct (m s) as [[a|e| |] s']; cbn in *; try done.
  rewrite Hk. done.
Qed.
End reads.
#[export] Hint Resolve reads_ret reads_unwrap reads_ok_or reads_lift reads_fail reads_panic
  reads_out_of_fuel reads_get : readsdb.

Ltac reads_step :=
  lazymatch goal with
  | |- reads_only (bind _ _) => apply reads_bind; [|intros]
  | |- reads_only (match ?x with _ => _ end) => destruct x
  | |- reads_only _ => solve [auto with readsdb]
  end.
Ltac reads_tac := repeat reads_step.

Section more_reads.
Context {S E : Type} {RX : RegexCrate} {IN : IpNet} {MI : MapIter}.

Lemma reads_is_match p s : reads_only (S := S) (E := E) (is_match p s).
Proof. unfold is_match. reads_tac. Qed.
Hint Resolve reads_is_match : readsdb.
Lemma reads_plain_path p : reads_only (S := S) (E := E) (plain_path p).
Proof. unfold plain_path. reads_tac. Qed.
Hint Resolve reads_plain_path : readsdb.
Lemma reads_path_regex_match t p : reads_only (S := S) (E := E) (path_regex_match t p).
Proof. unfold path_regex_match, match_wildcard. reads_tac. Qed.
Lemma reads_sub_path_validator p : reads_only (S := S) (E := E) (sub_path_validator p).
Proof. unfold sub_path_validator. reads_tac. Qed.
Lemma reads_banned_by_match now name l : reads_only (S := S) (E := E) (banned_by_match now name l).
Proof. induction l; cbn [banned_by_match]; reads_tac. Qed.
Hint Resolve reads_path_regex_match reads_banned_by_match : readsdb.
Lemma reads_is_blacklist now c conn : reads_only (S := S) (E := E) (is_blacklist now c conn).
Proof. unfold is_blacklist. reads_tac. Qed.
Hint Resolve reads_is_blacklist : readsdb.
Lemma reads_is_allow_acl now c conn t a r : reads_only (S := S) (E := E) (is_allow_acl now c conn t a r).
Proof. unfold is_allow_acl. reads_tac. Qed.
Hint Resolve reads_is_allow_acl : readsdb.
Lemma reads_topic_ids p l : reads_only (S := S) (E := E) (matching_topic_ids p l).
Proof. induction l as [|[i n] l IH]; cbn [matching_topic_ids]; reads_tac. Qed.
Lemma reads_allow_topics now c conn l : reads_only (S := S) (E := E) (allow_topics now c conn l).
Proof. induction l; cbn [allow_topics]; reads_tac. Qed.
Hint Resolve reads_topic_ids reads_allow_topics : readsdb.
Lemma reads_allow_subscribe now c conn s : reads_only (S := S) (E := E) (allow_subscribe now c conn s).
Proof.
  unfold allow_subscribe, get_sub_topic_id_list. induction (filters s) as [|f l IH]; cbn [allow_filters].
  all: unfold get_sub_topic_id_list; reads_tac.
Qed.
Lemma reads_get_cluster_info c : reads_only (S := S) (E := E) (get_cluster_info c).
Proof. unfold get_cluster_info. reads_tac. Qed.
End more_reads.
#[export] Hint Resolve reads_is_match reads_path_regex_match reads_sub_path_validator reads_is_blacklist
  reads_is_allow_acl reads_allow_subscribe reads_get_cluster_info : readsdb.

Lemma reads_topic_name_validator {S : Type} {RX : RegexCrate} t : reads_only (S := S) (topic_name_validator t).
Proof. unfold topic_name_validator. reads_tac. Qed.
#[export] Hint Resolve reads_topic_name_validator : readsdb.

(** ** The core of the broker *)

Section frame.
Context {S P D : Type} {SA : StorageAdapter S} {PC : PlacementCenter P} {AD : AuthStorageAdapter D}.
Context {SC : StopChannel} {MI : MapIter} {RX : RegexCrate} {RG : RegexCaptures} {IN : IpNet}.
Context {JS : Json MqttSession} {JT : Json MqttTopic} {JM : Json MqttMessage} {JW : Json LastWillData}.
Context {SX : SchemaCrates}.
Context (env : Env).
Abbreviation Broker := (Broker (S := S) (P := P) (D := D)).
Abbreviation B := (B (S := S) (P := P) (D := D)).
Implicit Types (b : Broker) (c : CacheManager).

Definition cache_core c :=
  (cluster_name c, cluster_info c, connection_info c, heartbeat_data c, client_pkid_data c).
#[global] Arguments cache_core : simpl never.
Definition same_core b b' : Prop :=
  cache_core (b_cache b) = cache_core (b_cache b') /\ b_network b = b_network b'.
#[export] Instance same_core_equiv : Equivalence same_core.
Proof. unfold same_core. split; [by intros b|by intros b b' [-> ->]|by intros b b' b'' [-> ->]]. Qed.
Lemma same_core_inv b b' :
  same_core b b' ->
  cluster_name (b_cache b') = cluster_name (b_cache b) /\
  cluster_info (b_cache b') = cluster_info (b_cache b) /\
  connection_info (b_cache b') = connection_info (b_cache b) /\
  heartbeat_data (b_cache b') = heartbeat_data (b_cache b) /\
  client_pkid_data (b_cache b') = client_pkid_data (b_cache b) /\ b_network b' = b_network b.
Proof. unfold same_core, cache_core. by intros [[= -> -> -> -> ->] ->]. Qed.

Definition frames {A} (m : B A) : Prop := preserves same_core m.

Lemma frames_reads {A} (m : B A) : reads_only m -> frames m.
Proof. intros H b. by rewrite H. Qed.
Lemma frames_bind {A X} (m : B A) (k : A -> B X) : frames m -> (forall a, frames (k a)) -> frames (bind m k).
Proof. apply preserves_bind, _. Qed.
Lemma frames_with_cache f : (forall c, cache_core (f c) = cache_core c) -> frames (with_cache f).
Proof. intros H b. unfold same_core. cbn. by rewrite H. Qed.
Lemma frames_modify f :
  (forall b, b_cache (f b) = b_cache b) -> (forall b, b_network (f b) = b_network b) -> frames (modify f).
Proof. intros H1 H2 b. unfold same_core. cbn. by rewrite H1, H2. Qed.
Lemma frames_on_subs {A} (m : M SubWorld MqttBrokerError A) : frames (on_subs m).
Proof. intros b. unfold on_subs, same_core. by destruct (m _). Qed.
Lemma frames_on_storage {A} (m : M S CommonError A) : frames (on_storage m).
Proof. intros b. unfold on_storage, same_core. by destruct (map_err _ _ _). Qed.
Lemma frames_on_placement {A} w (m : M P CommonError A) : frames (on_placement w m).
Proof. intros b. unfold on_placement, same_core. by destruct (map_err _ _ _). Qed.
Lemma frames_on_delay {A} (m : M (DelayState (S := S)) CommonError A) : frames (on_delay m).
Proof. intros b. unfold on_delay, same_core. by destruct (map_err _ _ _). Qed.
Lemma frames_attempt {A} (m : B A) : frames m -> frames (attempt m).
Proof. intros H b. specialize (H b). unfold attempt. by destruct (m b) as [[] ?]. Qed.
Lemma frames_for_each {A} (l : list A) (f : A -> B unit) : (forall a, frames (f a)) -> frames (for_each l f).
Proof. intros H. apply preserves_for_each; [apply _|]. intros a _. apply H. Qed.
Lemma frames_or_answer {A X} (m : B A) (f : MqttBrokerError -> X) (k : A -> B X) :
  frames m -> (forall a, frames (k a)) -> frames (or_answer m f k).
Proof.
  intros Hm Hk. apply frames_bind; [by apply frames_attempt|].
  intros [e|a]; [by apply frames_reads, reads_ret|apply Hk].
Qed.
Lemma frames_encode {A} {J : Json A} (a : A) : frames (encode a).
Proof. unfold encode. destruct (to_vec a); by apply frames_reads; auto with readsdb. Qed.
Lemma frames_the_cache : frames the_cache.
Proof. by intros b. Qed.
Lemma frames_cluster_config : frames cluster_config.
Proof. apply frames_bind; [apply frames_the_cache|]. intros c. apply frames_reads. auto with readsdb. Qed.

(** Logging in caches a user at most. *)
Lemma frames_check_login login : frames (on_auth (check_login_auth login)).
Proof.
  assert (forall s, cache_core (ad_cache (check_login_auth (D := D) login s).2) = cache_core (ad_cache s)) as H.
  { intros [c d]. unfold check_login_auth, cache, bind, get_cluster_info, unwrap. cbn.
    destruct (cluster_info c !! cluster_name c) as [cl|]; [|done]. cbn.
    destruct (secret_free_login _); [done|]. destruct login as [[n pw]|]; [|done]. cbn.
    unfold plaintext_check_login, plaintext_apply, cache, bind. cbn.
    destruct (user_info c !! n); [done|]. cbn. unfold try_get_check_user_by_driver, driven, bind. cbn.
    destruct (drv_get_user n d) as [[[u|]|e| |] d']; try done. cbn. by rewrite lookup_insert_eq. }
  intros b. unfold on_auth, same_core.
  specialize (H (mkAuthDriver (b_cache b) (b_driver b))).
  destruct (check_login_auth login _) as [o s]. cbn in *. by rewrite H.
Qed.
End frame.

Create HintDb framesdb.
#[export] Hint Resolve frames_on_subs frames_on_storage frames_on_placement frames_on_delay
  frames_encode frames_the_cache frames_cluster_config frames_check_login : framesdb.
#[export] Hint Extern 1 (frames (with_cache _)) => apply frames_with_cache; intros; reflexivity : framesdb.
#[export] Hint Extern 1 (frames (modify _)) => apply frames_modify; intros; reflexivity : framesdb.

Ltac frames_step :=
  lazymatch goal with
  | |- frames (bind _ _) => apply frames_bind; [|intros ?]
  | |- frames (attempt _) => apply frames_attempt
  | |- frames (for_each _ _) => apply frames_for_each; intros ?
  | |- frames (or_answer _ _ _) => apply frames_or_answer; [|intros ?]
  | |- frames (let _ := _ in _) => cbv zeta
  | |- frames (match ?x with _ => _ end) => destruct x
  | |- frames _ => first [solve [auto with framesdb] | apply frames_reads; solve [auto with readsdb]]
  end.
Ltac frames_tac := repeat frames_step.

(** ** The helpers of the handlers *)

Section helpers.
Context {S P D : Type} {SA : StorageAdapter S} {PC : PlacementCenter P} {AD : AuthStorageAdapter D}.
Context {SC : StopChannel} {MI : MapIter} {RX : RegexCrate} {RG : RegexCaptures} {IN : IpNet}.
Context {JS : Json MqttSession} {JT : Json MqttTopic} {JM : Json MqttMessage} {JW : Json LastWillData}.
Context {SX : SchemaCrates}.
Context (env : Env) (protocol : MqttProtocol).
Abbreviation B := (B (S := S) (P := P) (D := D)).
Abbreviation frames := (frames (S := S) (P := P) (D := D)).

Lemma frames_build_session i id c cp lw lwp : frames (build_session env i id c cp lw lwp).
Proof. unfold build_session, get_session. frames_tac. Qed.
Lemma frames_save_session i s n id : frames (save_session env i s n id).
Proof. unfold save_session, set_session, update_session. frames_tac. Qed.
Lemma frames_save_last_will_message id w wp : frames (save_last_will_message id w wp).
Proof. unfold save_last_will_message. frames_tac. Qed.
Lemma frames_check_flapping_detect id : frames (check_flapping_detect env id).
Proof. unfold check_flapping_detect. frames_tac. Qed.
Hint Resolve frames_build_session frames_save_session frames_save_last_will_message
  frames_check_flapping_detect : framesdb.

Lemma frames_try_init_topic n : frames (try_init_topic env n).
Proof. unfold try_init_topic, get_topic, save_topic. frames_tac. Qed.
Hint Resolve frames_try_init_topic : framesdb.
Lemma frames_report id ev d : frames (report env id ev d).
Proof. unfold report, write_topic_data. frames_tac. Qed.
Hint Resolve frames_report : framesdb.
Lemma frames_save_retain_message t id p pp : frames (save_retain_message env t id p pp).
Proof. unfold save_retain_message, delete_retain_message, set_retain_message. frames_tac. Qed.
Lemma frames_decode_delay_topic t : frames (decode_delay_topic env t).
Proof. unfold decode_delay_topic. frames_tac. Qed.
Hint Resolve frames_save_retain_message frames_decode_delay_topic : framesdb.
Lemma frames_save_message p pp id t : frames (save_message env p pp id t).
Proof. unfold save_message. frames_tac. Qed.
Hint Resolve frames_save_message : framesdb.

Lemma frames_replace_captures i g r : frames (replace_captures i g r).
Proof. revert i r. induction g; intros i r; cbn [replace_captures]; frames_tac. Qed.
Hint Resolve frames_replace_captures : framesdb.
Lemma frames_gen_rewrite_topic i p t : frames (gen_rewrite_topic i p t).
Proof. unfold gen_rewrite_topic. frames_tac. Qed.
Hint Resolve frames_gen_rewrite_topic : framesdb.
Lemma frames_publish_rewrite t l : frames (publish_rewrite t l).
Proof. induction l; cbn [publish_rewrite]; frames_tac. Qed.
Lemma frames_path_rewrite p l : frames (path_rewrite p l).
Proof. revert p. induction l; intros p; cbn [path_rewrite]; frames_tac. Qed.
Hint Resolve frames_publish_rewrite frames_path_rewrite : framesdb.
Lemma frames_map_m {X Y} (f : X -> B Y) l : (forall x, frames (f x)) -> frames (map_m f l).
Proof. intros H. induction l; cbn [map_m]; frames_tac. Qed.
Lemma frames_process_sub_topic_rewrite s : frames (process_sub_topic_rewrite s).
Proof. unfold process_sub_topic_rewrite. frames_tac. apply frames_map_m. intros. frames_tac. Qed.
Lemma frames_process_unsub_topic_rewrite s : frames (process_unsub_topic_rewrite s).
Proof. unfold process_unsub_topic_rewrite. frames_tac. apply frames_map_m. intros. frames_tac. Qed.
Lemma frames_get_topic_name i p pp : frames (get_topic_name i p pp).
Proof. unfold get_topic_name, process_publish_topic_rewrite. frames_tac. Qed.

Lemma frames_pkid_exists id k : frames (pkid_exists env id k).
Proof. unfold pkid_exists. frames_tac. Qed.
Hint Resolve frames_pkid_exists : framesdb.
Lemma frames_connect_validator cl c cp lw lwp l : frames (connect_validator env protocol cl c cp lw lwp l).
Proof. unfold connect_validator, will_validator. frames_tac. Qed.
Lemma frames_publish_validator c p pp : frames (publish_validator env protocol c p pp).
Proof. unfold publish_validator. frames_tac. Qed.
Lemma frames_bad_filters {X} (code : X) l : frames (bad_filters code l).
Proof. induction l; cbn [bad_filters]; frames_tac. Qed.
Hint Resolve frames_bad_filters : framesdb.
Lemma frames_subscribe_validator c s : frames (subscribe_validator env protocol c s).
Proof. unfold subscribe_validator. frames_tac. Qed.
Lemma frames_un_subscribe_validator c s : frames (un_subscribe_validator env c s).
Proof. unfold un_subscribe_validator. frames_tac. Qed.
Lemma frames_st_report_connected_event s c i : frames (st_report_connected_event env s c i).
Proof. unfold st_report_connected_event. frames_tac. Qed.
Lemma frames_st_report_disconnected_event s c i r : frames (st_report_disconnected_event env s c i r).
Proof. unfold st_report_disconnected_event. frames_tac. Qed.
Lemma frames_st_report_subscribed_event c i s : frames (st_report_subscribed_event env c i s).
Proof. unfold st_report_subscribed_event. frames_tac. Qed.
Lemma frames_st_report_unsubscribed_event c i s : frames (st_report_unsubscribed_event env c i s).
Proof. unfold st_report_unsubscribed_event. frames_tac. Qed.
Lemma frames_forward_ack i t k : frames (forward_ack env i t k).
Proof. unfold forward_ack. frames_tac. Qed.
End helpers.
#[export] Hint Resolve frames_build_session frames_save_session frames_save_last_will_message
  frames_check_flapping_detect frames_try_init_topic frames_report frames_save_retain_message
  frames_save_message frames_gen_rewrite_topic frames_process_sub_topic_rewrite
  frames_process_unsub_topic_rewrite frames_get_topic_name frames_pkid_exists frames_connect_validator
  frames_publish_validator frames_subscribe_validator frames_un_subscribe_validator
  frames_st_report_connected_event frames_st_report_disconnected_event frames_st_report_subscribed_event
  frames_st_report_unsubscribed_event frames_forward_ack : framesdb.

(** ** The handlers that leave the core alone *)

Section handlers.
Context {S P D : Type} {SA : StorageAdapter S} {PC : PlacementCenter P} {AD : AuthStorageAdapter D}.
Context {SC : StopChannel} {MI : MapIter} {RX : RegexCrate} {RG : RegexCaptures} {IN : IpNet}.
Context {JS : Json MqttSession} {JT : Json MqttTopic} {JM : Json MqttMessage} {JW : Json LastWillData}.
Context (env : Env) (protocol : MqttProtocol) (id : Z).
Abbreviation frames := (frames (S := S) (P := P) (D := D)).

Lemma frames_publish_ack a : frames (publish_ack env id a).
Proof. unfold publish_ack. frames_tac. Qed.
Lemma frames_publish_rec a : frames (publish_rec env protocol id a).
Proof. unfold publish_rec. frames_tac. Qed.
Lemma frames_publish_comp a : frames (publish_comp env id a).
Proof. unfold publish_comp. frames_tac. Qed.
Lemma frames_subscribe s p : frames (Service.subscribe env protocol id s p).
Proof. unfold Service.subscribe, is_new_sub, try_send_retain_message. frames_tac. Qed.
Lemma frames_un_subscribe s : frames (Service.un_subscribe env protocol id s).
Proof. unfold Service.un_subscribe. frames_tac. Qed.
End handlers.
#[export] Hint Resolve frames_publish_ack frames_publish_rec frames_publish_comp frames_subscribe
  frames_un_subscribe : framesdb.
