(* ===== verification/Server.v ===== *)
(** * The server around the request handlers

    [server/tcp/{handler,response}.rs], [server/connection_manager.rs],
    [server/packet.rs] and [handler/keep_alive.rs]: how a request reaches
    [Command::apply], how its answer reaches the socket, and the check of the
    heartbeats.  The tasks run beside each other; a run of the server is a list
    of events, one for each turn of a task, in any order. *)

From Stdlib Require Import String.
From S2P Require Import Prelude Bytes RustStr Storage MemoryStorage RocksEngine MqttTypes MqttCommon MqttCodec Topics Subscriptions MessageStorage DelayMessages Acl BrokerCache Security Responses SchemaRegister Broker Service.

(** The order in which the iteration over the connections finds them. *)
Class ConnectionIter : Type := { connection_iter : gmap Z MQTTConnection -> list (Z * MQTTConnection) }.
Class ConnectionIterSpec (CI : ConnectionIter) : Prop :=
  connection_iter_perm m : connection_iter m ≡ₚ map_to_list m.
Definition id_order : ConnectionIter := {| connection_iter := map_to_list |}.
Lemma id_order_spec : ConnectionIterSpec id_order.
Proof. by intros m. Qed.

Record RequestPackage : Type := mkRequestPackage {
  rq_connection_id : Z;
  rq_addr : bytes;
  rq_packet : MqttPacket
}.
Record ResponsePackage : Type := mkResponsePackage {
  rs_connection_id : Z;
  rs_packet : MqttPacket
}.

(** ** The response queue

    One task hands the answers to the response tasks.  A response task is the
    sending end of its channel: whether the task still runs, and what waits in
    the channel, which has room for 100. *)

Record Worker : Type := mkWorker { wk_alive : bool; wk_queue : list ResponsePackage }.
Record ResponseProcess : Type := mkResponseProcess {
  process_handler : gmap Z Worker;
  response_process_seq : Z
}.

Definition response_process_new (response_process_num : Z) : ResponseProcess :=
  mkResponseProcess (list_to_map ((fun i => (i, mkWorker true [])) <$> seqZ 1 response_process_num)) 1.

Definition try_send (pkg : ResponsePackage) (w : Worker) : Worker :=
  if blen (wk_queue w) <? 100 then mkWorker (wk_alive w) (wk_queue w ++ [pkg]) else w.

(** The body of the loop of [response_process] for one answer.  The number is
    never set back to 1. *)
Definition response_dispatch (pkg : ResponsePackage) (rp : ResponseProcess) : ResponseProcess :=
  let seq :=
    if Z.of_nat (size (process_handler rp)) <? response_process_seq rp then 1
    else response_process_seq rp in
  match process_handler rp !! seq with
  | Some handler_sx =>
      if negb (wk_alive handler_sx) then
        mkResponseProcess (delete seq (process_handler rp)) (response_process_seq rp)
      else
        mkResponseProcess (<[ seq := try_send pkg handler_sx ]> (process_handler rp))
          (wrap64 (response_process_seq rp + 1))
  | None => rp
  end.

Section server.
Context {S P D : Type} {SA : StorageAdapter S} {PC : PlacementCenter P} {AD : AuthStorageAdapter D}.
Context {SC : StopChannel} {MI : MapIter} {RX : RegexCrate} {RG : RegexCaptures} {IN : IpNet}.
Context {JS : Json MqttSession} {JT : Json MqttTopic} {JM : Json MqttMessage} {JW : Json LastWillData}.
Context {SX : SchemaCrates} {BC : BytesCrate} {CI : ConnectionIter}.
Abbreviation Broker := (Broker (S := S) (P := P) (D := D)).
Abbreviation B := (B (S := S) (P := P) (D := D)).

(** ** One request: the body of the loop of [handler_child_process] *)

Definition handler_child (env : Env) (packet : RequestPackage) : B (option ResponsePackage) :=
  let! b := get in
  match b_network b !! rq_connection_id packet with
  | Some connect =>
      let! resp := apply env (rq_connection_id packet) (nc_protocol connect) (rq_addr packet)
                     (rq_packet packet) in
      ret (mkResponsePackage (rq_connection_id packet) <$> resp)
  | None => ret None
  end.

(** ** One answer *)

(** [write_tcp_frame] and [write_websocket_frame]: the octets that the socket
    gets, or nothing for an error.  [taken]: the socket is there and takes the
    frame within the attempts that are made. *)
Definition write_frame (taken : bool) (w : MqttPacketWrapper) : B (option bytes) :=
  match encode_data w [] with
  | (Ok _, buf) => ret (if taken then Some buf else None)
  | (Err _, _) => ret None
  | (Panic, _) => panic
  | (OutOfFuel, _) => out_of_fuel
  end.

Definition close_connect (connection_id : Z) : B unit := modify (upd_b_network (delete connection_id)).

Definition get_connect_protocol (connect_id : Z) (b : Broker) : option MqttProtocol :=
  match b_network b !! connect_id with
  | Some connect => nc_protocol connect
  | None => None
  end.

(** The body of the loop of [response_child_process]. *)
Definition response_child (env : Env) (taken : bool) (pkg : ResponsePackage) : B (list (Z * bytes)) :=
  let! b := get in
  let! out :=
    (match get_connect_protocol (rs_connection_id pkg) b with
     | Some protocol =>
         let! written := write_frame taken (mkMqttPacketWrapper (u8_of_MqttProtocol protocol) (rs_packet pkg)) in
         match written with
         | Some octets => ret [(rs_connection_id pkg, octets)]
         | None => close_connect (rs_connection_id pkg) ;; ret []
         end
     | None => ret []
     end) in
  (match rs_packet pkg with
   | P_Disconnect _ _ =>
       let! c := the_cache in
       match connection_info c !! rs_connection_id pkg with
       | Some connection =>
           attempt (disconnect_connection env (c_client_id connection) (c_connect_id connection)) ;; ret tt
       | None => ret tt
       end
   | _ => ret tt
   end) ;;
  ret out.

(** ** Heartbeats: keep_alive.rs *)

(** A connection whose client has no heartbeat gets one. *)
Fixpoint expire_connections (env : Env) (connections : list (Z * MQTTConnection)) : B (list Z) :=
  match connections with
  | [] => ret []
  | (connect_id, connection) :: connections =>
      let! c := the_cache in
      match heartbeat_data c !! c_client_id connection with
      | Some time =>
          let max_timeout := keep_live_time (lt_keep_live time) in
          let! rest := expire_connections env connections in
          ret (if max_timeout <=? wrap64 (now_second env - lt_heartbeat time)
               then connect_id :: rest else rest)
      | None =>
          with_cache (report_heartbeat (c_client_id connection)
            (mkConnectionLiveTime Mqtt5 (c_keep_alive connection) (now_second env))) ;;
          expire_connections env connections
      end
  end.
Definition get_expire_connection (env : Env) : B (list Z) :=
  let! c := the_cache in expire_connections env (connection_iter (connection_info c)).

Definition expire_connection (env : Env) (taken : bool) (connect_id : Z) : B (list (Z * bytes)) :=
  let! c := the_cache in
  let! b := get in
  match connection_info c !! connect_id, b_network b !! connect_id with
  | Some connection, Some network =>
      let! protocol := unwrap (nc_protocol network) in
      let resp := response_packet_mqtt_distinct_by_reason protocol (Some DR_KeepAliveTimeout) in
      let! written := write_frame taken (mkMqttPacketWrapper (u8_of_MqttProtocol protocol) resp) in
      match written with
      | Some octets =>
          attempt (disconnect_connection env (c_client_id connection) connect_id) ;;
          ret [(c_connect_id connection, octets)]
      | None => ret []
      end
  | _, _ => ret []
  end.

Fixpoint expire_all (env : Env) (taken : Z -> bool) (ids : list Z) : B (list (Z * bytes)) :=
  match ids with
  | [] => ret []
  | i :: ids =>
      let! out := expire_connection env (taken i) i in
      let! rest := expire_all env taken ids in
      ret (out ++ rest)
  end.

Definition keep_alive (env : Env) (taken : Z -> bool) : B (list (Z * bytes)) :=
  let! ids := get_expire_connection env in
  let! out := expire_all env taken ids in
  with_cache (fun c => upd_heartbeat_data (filter (fun kv => is_some (session_info c !! kv.1) = true)) c) ;;
  ret out.

(** ** Runs *)

(** [sv_sent] is what the sockets have got. *)
Record Server : Type := mkServer {
  sv_broker : Broker;
  sv_responses : ResponseProcess;
  sv_next_connection_id : Z;
  sv_sent : list (Z * bytes)
}.

Inductive Event : Type :=
(** The acceptor takes a connection; a socket that is turned away is no event. *)
| Accept (connection_type : NetworkConnectionType) (addr : bytes)
(** A handler task takes a request. *)
| Receive (env : Env) (packet : RequestPackage)
(** The response task [index] takes the next answer of its channel. *)
| Respond (env : Env) (index : Z) (taken : bool)
(** The heartbeats are checked. *)
| CheckHeartbeats (env : Env) (taken : Z -> bool).

Definition accept (ty : NetworkConnectionType) (addr : bytes) (sv : Server) : Server :=
  let id := sv_next_connection_id sv in
  mkServer (upd_b_network (insert id (mkNetworkConnection ty id None addr)) (sv_broker sv))
    (sv_responses sv) (wrap64 (id + 1)) (sv_sent sv).

Definition receive (env : Env) (packet : RequestPackage) (sv : Server) : Server :=
  let (o, b) := handler_child env packet (sv_broker sv) in
  mkServer b
    (match o with Ok (Some pkg) => response_dispatch pkg (sv_responses sv) | _ => sv_responses sv end)
    (sv_next_connection_id sv) (sv_sent sv).

(** A task that unwinds drops its end of the channel. *)
Definition respond (env : Env) (index : Z) (taken : bool) (sv : Server) : Server :=
  let rp := sv_responses sv in
  let set w := mkResponseProcess (<[ index := w ]> (process_handler rp)) (response_process_seq rp) in
  match process_handler rp !! index with
  | Some (mkWorker true (pkg :: queue)) =>
      match response_child env taken pkg (sv_broker sv) with
      | (Ok out, b) =>
          mkServer b (set (mkWorker true queue)) (sv_next_connection_id sv) (sv_sent sv ++ out)
      | (_, b) => mkServer b (set (mkWorker false [])) (sv_next_connection_id sv) (sv_sent sv)
      end
  | _ => sv
  end.

Definition check_heartbeats (env : Env) (taken : Z -> bool) (sv : Server) : Server :=
  let (o, b) := keep_alive env taken (sv_broker sv) in
  mkServer b (sv_responses sv) (sv_next_connection_id sv)
    (sv_sent sv ++ match o with Ok out => out | _ => [] end).

Definition server_step (ev : Event) (sv : Server) : Server :=
  match ev with
  | Accept ty addr => accept ty addr sv
  | Receive env packet => receive env packet sv
  | Respond env index taken => respond env index taken sv
  | CheckHeartbeats env taken => check_heartbeats env taken sv
  end.
Definition server_run (evs : list Event) (sv : Server) : Server := foldl (fun sv ev => server_step ev sv) sv evs.
End server.
