(* ===== verification/Samples.v ===== *)
(** * A small server

    Concrete instances of the parameters of the server, and a server with one
    connection, at which the theorems about runs are applied: messages in
    memory, users in a map, a placement center that takes everything and holds
    nothing, and regular expressions that match every text. *)

From Stdlib Require Import String.
From S2P Require Import Prelude Bytes RustStr Storage MemoryStorage RocksEngine MqttTypes MqttCommon MqttCodec Topics Subscriptions MessageStorage DelayMessages Acl BrokerCache Security Responses SchemaRegister Broker Service Server.

Module Sample.
#[export] Instance order : MapIter := key_order.
#[export] Instance order_spec : MapIterSpec order := key_order_spec.
#[export] Instance ids : ConnectionIter := id_order.
#[export] Instance ids_spec : ConnectionIterSpec ids := id_order_spec.
#[export] Instance stops : StopChannel := heard.
#[export] Instance nets : IpNet := no_net.
#[export] Instance octets : BytesCrate := list_bytes.
#[export] Instance regexes : RegexCrate := {| regex_new _ := Some (fun _ => true) |}.
#[export] Instance groups : RegexCaptures := {| captures _ _ := None |}.
#[export] Instance users : AuthStorageAdapter (gmap bytes MqttUser) := users_only.
#[export] Instance schemas : SchemaCrates := {|
  json_string b := Ok b; json_validate _ _ := Ok true; avro_validate _ _ := Ok true
|}.
#[export] Instance message_json : Json MqttMessage := coded_json.
#[export] Instance message_json_spec : JsonSpec MqttMessage := coded_json_spec.
(** Texts that are written and never read back. *)
Definition blank_json {A : Type} : Json A := {|
  to_vec _ := inr [123; 125]; from_slice _ := inl []; json_debug _ := []
|}.
#[export] Instance session_json : Json MqttSession := blank_json.
#[export] Instance topic_json : Json MqttTopic := blank_json.
#[export] Instance will_json : Json LastWillData := blank_json.
#[export] Instance placement : PlacementCenter unit := {|
  set_idempotent_data _ _ := ret tt;
  exists_idempotent_data _ _ := ret false;
  delete_idempotent_data _ _ := ret tt;
  placement_create_session _ _ := ret tt;
  placement_update_session _ _ _ _ _ := ret tt;
  placement_list_session _ := ret [];
  placement_save_last_will_message _ _ := ret tt;
  placement_create_topic _ _ := ret tt;
  placement_list_topic _ := ret [];
  placement_set_topic_retain_message _ _ _ := ret tt
|}.

Definition env (now : Z) : Env :=
  mkEnv now (lit "id") (fun b => blen b) (lit "k") 1 (lit "ip") (fun _ => []) (fun _ => []) [] []
    (fun _ => true) (fun _ => None) (fun _ => Ok tt) (fun _ _ => Ok tt) (fun _ => Ok 1).

(** The cache: the default configuration without the check of passwords, and
    one known topic. *)
Definition config : MqttClusterDynamicConfig :=
  let c := build_default_cluster_config in
  mkClusterConfig (cl_protocol c) (cl_feature c) (mkConfigSecurity false true) (cl_flapping_detect c) true.
Definition topic : MqttTopic := mkMqttTopic (lit "t") (lit "k") (lit "/a") None None 0.
Definition cache : CacheManager :=
  add_topic (lit "/a") topic (set_cluster_info config (CacheManager_new (lit "k"))).

Definition store : MemoryStorageAdapter :=
  (mem_create_shard (mkShardInfo (lit "k") (lit "t") 1) MemoryStorageAdapter_new).2.

Abbreviation Broker := (Broker (S := MemoryStorageAdapter) (P := unit) (D := gmap bytes MqttUser)).
Definition broker : Broker :=
  mkBroker cache (mkSubWorld SubscribeManager_new []) store tt ∅ (DelayMessageManager_new (lit "k") 1)
    SchemaRegisterManager_new ∅ [] [] ∅.
Abbreviation Server := (Server (S := MemoryStorageAdapter) (P := unit) (D := gmap bytes MqttUser)).
(** Two response tasks. *)
Definition server : Server := mkServer broker (response_process_new 2) 1 [].

Definition connect (level : Z) (clean : bool) : MqttPacket :=
  P_Connect level (mkConnect 60 (lit "c") clean) None None None None.
Definition request (p : MqttPacket) : RequestPackage := mkRequestPackage 1 (lit "10.0.0.1:1883") p.

(** The client "c" has connected with MQTT 3.1.1 at second 100. *)
Definition connected : Server :=
  server_run [Accept Tcp (lit "10.0.0.1:1883"); Receive (env 100) (request (connect 4 true));
              Respond (env 100) 1 true] server.

Definition message (q : QoS) (pkid : Z) : MqttPacket :=
  P_Publish (mkPublish false q pkid false (lit "/a") [104; 105]) None.
Definition publishes (now : Z) (q : QoS) (pkid : Z) : Event := Receive (env now) (request (message q pkid)).
(** It has published a QoS 2 message with the identifier 7. *)
Definition published : Server := server_step (publishes 101 ExactlyOnce 7) connected.

(** The connection 1 speaks MQTT 3.1.1 and is not logged in, and both response
    tasks have been used. *)
Definition refused : Server :=
  mkServer (upd_b_network (insert 1 (mkNetworkConnection Tcp 1 (Some Mqtt4) (lit "10.0.0.1:1883"))) broker)
    (mkResponseProcess (process_handler (response_process_new 2)) 3) 2 [].
End Sample.
