(* ===== verification/ServerCore.v ===== *)
(** * What one step of the server does to the core of the broker

    [core_move] lists the ways in which a turn of a task may change the
    connections, their heartbeats, the identifiers of QoS 2 messages and the
    network connections, each with the event that it takes.  Every step of
    [Server.v] is a sequence of such moves; the theorems about runs of the
    server are inductions over them. *)

From Stdlib Require Import String.
From S2P Require Import Prelude Bytes RustStr Storage MemoryStorage RocksEngine MqttTypes MqttCommon MqttCodec Topics Subscriptions MessageStorage DelayMessages Acl BrokerCache Security Responses SchemaRegister Broker Service ServiceFrame Server.

Section core.
Context {S P D : Type} {SA : StorageAdapter S} {PC : PlacementCenter P} {AD : AuthStorageAdapter D}.
Context {SC : StopChannel} {MI : MapIter} {RX : RegexCrate} {RG : RegexCaptures} {IN : IpNet}.
Context {JS : Json MqttSession} {JT : Json MqttTopic} {JM : Json MqttMessage} {JW : Json LastWillData}.
Context {SX : SchemaCrates} {BC : BytesCrate} {CI : ConnectionIter}.
Abbreviation Broker := (Broker (S := S) (P := P) (D := D)).
Abbreviation B := (B (S := S) (P := P) (D := D)).
Abbreviation frames := (frames (S := S) (P := P) (D := D)).
Implicit Types (b : Broker).

(** ** Invariants that depend on the core alone *)

Class CoreInv (I : Broker -> Prop) : Prop := core_inv b b' : same_core b b' -> I b -> I b'.
Definition keeps (I : Broker -> Prop) {A} (m : B A) : Prop := forall b, I b -> I (m b).2.

Section keeps.
Context (I : Broker -> Prop) {CO : CoreInv I}.

Lemma keeps_frames {A} (m : B A) : frames m -> keeps I m.
Proof. intros H b Hb. by eapply core_inv; [apply H|]. Qed.
Lemma keeps_state {A} (m : B A) b o b' : keeps I m -> I b -> m b = (o, b') -> I b'.
Proof. intros H Hb E. specialize (H b Hb). by rewrite E in H. Qed.
(** The rest of the action may use what is known of the result. *)
Lemma keeps_bind_known {A X} (Q : A -> Prop) (m : B A) (k : A -> B X) :
  keeps I m -> (forall b a b', I b -> m b = (Ok a, b') -> Q a) -> (forall a, Q a -> keeps I (k a)) ->
  keeps I (bind m k).
Proof.
  intros Hm HQ Hk b Hb. unfold bind. specialize (Hm b Hb). destruct (m b) as [[a|e| |] b'] eqn:E; try done.
  apply Hk; [|done]. by eapply HQ.
Qed.
Lemma keeps_then {A X} (m : B A) (k : A -> B X) : keeps I m -> (forall a, keeps I (k a)) -> keeps I (bind m k).
Proof. intros. by apply (keeps_bind_known (fun _ => True)); auto. Qed.
Lemma keeps_attempt {A} (m : B A) : keeps I m -> keeps I (attempt m).
Proof. intros H b Hb. specialize (H b Hb). unfold attempt. by destruct (m b) as [[] ?]. Qed.
Lemma keeps_or_answer {A X} (m : B A) (f : MqttBrokerError -> X) (k : A -> B X) :
  keeps I m -> (forall a, keeps I (k a)) -> keeps I (or_answer m f k).
Proof.
  intros Hm Hk. apply keeps_then; [by apply keeps_attempt|].
  intros [e|a]; [by apply keeps_frames, frames_reads, reads_ret|apply Hk].
Qed.
Lemma keeps_with_cache f : (forall b, I b -> I (upd_b_cache f b)) -> keeps I (with_cache f).
Proof. intros H b. apply H. Qed.
End keeps.

(** ** Moves *)

Definition config_of b : option MqttClusterDynamicConfig :=
  cluster_info (b_cache b) !! cluster_name (b_cache b).
Definition client_of (id : Z) b : option bytes :=
  c_client_id <$> connection_info (b_cache b) !! id.

Lemma cluster_config_eval b cluster : config_of b = Some cluster -> cluster_config b = (Ok cluster, b).
Proof.
  intros H. unfold cluster_config, bind, the_cache, get_cluster_info. unfold config_of in H. by rewrite H.
Qed.

Context (b0 : Broker) (ev : Event).

(** The event is a request on connection [id] with the packet [p]. *)
Definition requests (env : Env) (id : Z) (p : MqttPacket) : Prop :=
  exists rq, ev = Receive env rq /\ rq_connection_id rq = id /\ rq_packet rq = p.

Inductive core_move : Broker -> Broker -> Prop :=
| mv_same b b' : same_core b b' -> core_move b b'
(** A CONNECT sets the protocol of the network connection and adds the
    connection that [build_connection] makes of it, not logged in; the login
    is noted for that connection only. *)
| mv_protocol b env id level connect cp lw lwp login p :
    requests env id (P_Connect level connect cp lw lwp login) ->
    protocol_of_level level = Some p ->
    core_move b (upd_b_network (alter (fun n =>
      mkNetworkConnection (nc_connection_type n) (nc_connection_id n) (Some p) (nc_addr n)) id) b)
| mv_connection b env id level connect cp lw lwp login client cluster addr :
    requests env id (P_Connect level connect cp lw lwp login) ->
    config_of b0 = Some cluster ->
    core_move b (upd_b_cache (add_connection id
                   (build_connection env id client cluster connect cp addr)) b)
| mv_login b env id level connect cp lw lwp login user :
    requests env id (P_Connect level connect cp lw lwp login) ->
    core_move b (upd_b_cache (login_success id user) b)
(** A PUBLISH adds an alias within the limit of the cluster, and records the
    identifier of a QoS 2 message for the client of the connection. *)
| mv_alias b env id publish properties topic cluster :
    requests env id (P_Publish publish properties) ->
    config_of b0 = Some cluster ->
    (forall alias, topic_alias_of properties = Some alias -> alias <= topic_alias_max (cl_protocol cluster)) ->
    core_move b (upd_b_cache (add_topic_alias id topic properties) b)
| mv_save b env id publish properties client :
    requests env id (P_Publish publish properties) ->
    pub_qos publish = ExactlyOnce -> client_of id b0 = Some client ->
    core_move b (upd_b_cache (add_client_pkid (now_second env) client (pub_pkid publish)) b)
(** Only a PUBREL releases an identifier. *)
| mv_release b env id rel properties client :
    requests env id (P_PubRel rel properties) -> client_of id b0 = Some client ->
    core_move b (upd_b_cache (delete_client_pkid client (pl_pkid rel)) b)
| mv_quota b env id p n :
    requests env id p -> (exists publish properties, p = P_Publish publish properties) \/
                         (exists rel properties, p = P_PubRel rel properties) ->
    core_move b (upd_b_cache (upd_connection_info (alter (recv_qos_message_add n) id)) b)
(** A client is heard with a CONNECT or a PINGREQ. *)
| mv_beat b env id p client live :
    requests env id p ->
    p = P_PingReq /\ client_of id b0 = Some client \/
    (exists level connect cp lw lwp login,
       p = P_Connect level connect cp lw lwp login /\ (get_client_id env (client_id connect)).1 = client) ->
    core_move b (upd_b_cache (report_heartbeat client live) b)
(** A connection leaves with a DISCONNECT of its client, with one of the
    server, or when its heartbeat is checked. *)
| mv_leave b id :
    (exists env d properties, requests env id (P_Disconnect d properties)) \/
    (exists env index taken, ev = Respond env index taken) \/
    (exists env taken, ev = CheckHeartbeats env taken) ->
    core_move b (upd_b_cache (remove_connection id) b)
| mv_hang_up b id :
    (exists env d properties, requests env id (P_Disconnect d properties)) \/
    (exists env index taken, ev = Respond env index taken) \/
    (exists env taken, ev = CheckHeartbeats env taken) ->
    core_move b (upd_b_network (delete id) b)
(** The check adds heartbeats that are missing and drops those of clients
    without a session. *)
| mv_new_beat b env taken client live :
    ev = CheckHeartbeats env taken -> core_move b (upd_b_cache (report_heartbeat client live) b)
| mv_forget_beats b env taken :
    ev = CheckHeartbeats env taken ->
    core_move b (upd_b_cache (fun c =>
      upd_heartbeat_data (filter (fun kv => is_some (session_info c !! kv.1) = true)) c) b)
| mv_accept b ty addr id :
    ev = Accept ty addr ->
    core_move b (upd_b_network (insert id (mkNetworkConnection ty id None addr)) b).

Definition reached b : Prop := rtc core_move b0 b.

#[global] Instance reached_core : CoreInv reached.
Proof. intros b b' Hc Hb. eapply rtc_r; [done|]. by apply mv_same. Qed.
Lemma reached_move b b' : reached b -> core_move b b' -> reached b'.
Proof. intros. by eapply rtc_r. Qed.
Lemma reached_ind (I : Broker -> Prop) :
  I b0 -> (forall b b', core_move b b' -> I b -> I b') -> forall b, reached b -> I b.
Proof. intros H0 Hs b H. induction H as [b|b b1 b2 Hm _ IH]; eauto. Qed.

(** The configuration never changes, and a client id never leaves its
    connection. *)
Lemma move_config b b' : core_move b b' -> config_of b' = config_of b.
Proof.
  unfold config_of. destruct 1 as [b b' (-> & -> & _)%same_core_inv| | | | | | | | | | | | | ]; cbn; try done.
  - unfold add_connection. by destruct (session_info _ !! _).
  - unfold add_topic_alias. destruct properties as [q|]; [|done]. by destruct (pp_topic_alias q).
Qed.
Lemma reached_config b : reached b -> config_of b = config_of b0.
Proof.
  intros H. induction H as [b|b b' b'' Hm _ IH]; [done|]. rewrite IH. by apply move_config.
Qed.

Lemma requests_fun env env' id id' p p' :
  requests env id p -> requests env' id' p' -> env' = env /\ id' = id /\ p' = p.
Proof. intros (rq & E & <- & <-) (rq' & E' & <- & <-). rewrite E in E'. by injection E' as -> ->. Qed.

(** Requests that neither add nor remove a connection. *)
Definition stays (p : MqttPacket) : bool :=
  match p with P_Connect _ _ _ _ _ _ | P_Disconnect _ _ => false | _ => true end.

Lemma alter_client {A} (f : A -> MQTTConnection -> MQTTConnection) a id i (m : gmap Z MQTTConnection) :
  (forall conn, c_client_id (f a conn) = c_client_id conn) ->
  c_client_id <$> alter (f a) id m !! i = c_client_id <$> m !! i.
Proof.
  intros Hf. destruct (decide (id = i)) as [->|Hi]; [rewrite lookup_alter_eq|by rewrite lookup_alter_ne].
  destruct (m !! i); [|done]. cbn. by rewrite Hf.
Qed.

Lemma move_client env id p i b b' :
  requests env id p -> stays p = true -> core_move b b' -> client_of i b' = client_of i b.
Proof.
  intros Hr Hp Hm. unfold client_of.
  destruct Hm as [b b' (_ & _ & -> & _)%same_core_inv| | | | | | | | | | | | | ]; cbn; try done.
  all: try match goal with Hq : requests _ _ _ |- _ =>
         destruct (requests_fun _ _ _ _ _ _ Hr Hq) as (-> & -> & <-) end; try done.
  - unfold add_topic_alias. destruct properties as [q|]; [|done]. destruct (pp_topic_alias q); [|done].
    by apply (alter_client (fun t => set_alias t topic)).
  - by apply (alter_client recv_qos_message_add).
  - destruct Hr as (rq & E & _ & <-). destruct H as [(? & ? & ? & Hq)|[(? & ? & ? & ?)|(? & ? & ?)]]; try congruence.
    destruct Hq as (? & E' & _ & Hq). rewrite E in E'. injection E' as _ <-. by rewrite Hq in Hp.
Qed.
Lemma reached_client env id p i b :
  requests env id p -> stays p = true -> reached b -> client_of i b = client_of i b0.
Proof.
  intros Hr Hp H. induction H as [b|b b' b'' Hm _ IH]; [done|]. rewrite IH. by eapply move_client.
Qed.

(** ** Each handler makes moves of its request *)

Lemma known_config b b' cluster :
  reached b -> cluster_config b = (Ok cluster, b') -> config_of b0 = Some cluster.
Proof.
  intros Hb. rewrite <- (reached_config b Hb). unfold cluster_config, bind, the_cache, get_cluster_info, config_of.
  destruct (cluster_info _ !! _) as [c|]; [|done]. cbn. by intros [= <- _].
Qed.
End core.

Ltac keeps_step :=
  lazymatch goal with
  | |- keeps _ (bind _ _) => apply keeps_then; [|intros ?]
  | |- keeps _ (attempt _) => apply keeps_attempt
  | |- keeps _ (or_answer _ _ _) => apply keeps_or_answer; [apply _| |intros ?]
  | |- keeps _ (let _ := _ in _) => cbv zeta
  | |- keeps _ (match ?x with _ => _ end) => destruct x eqn:?
  | |- keeps _ (with_cache _) =>
      first [ apply keeps_frames; [apply _|]; solve [auto with framesdb]
            | apply keeps_with_cache; intros; eapply reached_move; [eassumption|]
            | apply keeps_with_cache; intros ]
  | |- keeps _ _ => apply keeps_frames; [apply _|];
      first [solve [auto with framesdb] | apply frames_reads; solve [auto with readsdb]]
  end.
Ltac keeps_tac := repeat keeps_step.

Section handlers.
Context {S P D : Type} {SA : StorageAdapter S} {PC : PlacementCenter P} {AD : AuthStorageAdapter D}.
Context {SC : StopChannel} {MI : MapIter} {RX : RegexCrate} {RG : RegexCaptures} {IN : IpNet}.
Context {JS : Json MqttSession} {JT : Json MqttTopic} {JM : Json MqttMessage} {JW : Json LastWillData}.
Context {SX : SchemaCrates} {BC : BytesCrate} {CI : ConnectionIter}.
Abbreviation Broker := (Broker (S := S) (P := P) (D := D)).
Abbreviation B := (B (S := S) (P := P) (D := D)).
Context (b0 : Broker) (ev : Event) (env : Env) (id : Z).
Abbreviation reached := (reached b0 ev).

Lemma moves_connect protocol level connect cp lw lwp login addr :
  requests ev env id (P_Connect level connect cp lw lwp login) ->
  keeps reached (Service.connect env protocol id connect cp lw lwp login addr).
Proof.
  intros Hr. unfold Service.connect, connect_accept.
  apply (keeps_bind_known _ (fun cl => config_of b0 = Some cl)).
  - keeps_tac.
  - intros b a b' Hb He. by eapply known_config.
  - intros cluster Hcl. keeps_tac.
    + eapply mv_beat; [done|]. right. eexists _, _, _, _, _, _. split; [done|]. by match goal with H : get_client_id _ _ = _ |- _ => rewrite H end.
    + by eapply mv_connection.
Qed.

(** The connection that a handler reads belongs to the client that the
    connection had before the request. *)
Lemma known_client p c conn :
  requests ev env id p -> stays p = true ->
  (exists b, reached b /\ b_cache b = c) -> connection_info c !! id = Some conn ->
  client_of id b0 = Some (c_client_id conn).
Proof.
  intros Hr Hp (b & Hb & <-) Hc. rewrite <- (reached_client _ _ _ _ _ id b Hr Hp Hb).
  unfold client_of. by rewrite Hc.
Qed.
Lemma keeps_the_cache {A} (k : CacheManager -> B A) :
  (forall c, (exists b, reached b /\ b_cache b = c) -> keeps reached (k c)) -> keeps reached (bind the_cache k).
Proof.
  intros H. apply (keeps_bind_known _ (fun c => exists b, reached b /\ b_cache b = c)); [keeps_tac| |done].
  intros b a b' Hb [= <- _]. by exists b.
Qed.

(** A PUBLISH that is not refused has an alias within the limit. *)
Lemma validated_alias protocol connection publish properties b b' :
  reached b -> publish_validator env protocol connection publish properties b = (Ok None, b') ->
  exists cluster, config_of b0 = Some cluster /\
    forall alias, topic_alias_of properties = Some alias -> alias <= topic_alias_max (cl_protocol cluster).
Proof.
  intros Hb H. unfold publish_validator in H. apply bind_inv in H as (known & b1 & E1 & H).
  assert (reached b1) as Hb1.
  { eapply keeps_state; [|exact Hb|exact E1]. keeps_tac. }
  assert (exists cluster, cluster_config b1 = (Ok cluster, b1) /\ forall alias,
    topic_alias_of properties = Some alias -> topic_alias_max (cl_protocol cluster) < alias -> False) as H'.
  { destruct known as [[e|[]]|]; try done.
    all: apply bind_inv in H as (cluster & b2 & E2 & H); exists cluster.
    all: assert (b2 = b1) as ->
      by (unfold cluster_config, bind, the_cache, get_cluster_info, unwrap in E2;
          destruct (cluster_info _ !! _); by injection E2).
    all: split; [done|]; intros alias Ha Hlt; cbn zeta in H; rewrite Ha in H.
    all: apply Z.ltb_lt in Hlt; revert H; destruct (Z.min _ _ <? _); [done|];
      destruct (bool_decide (_ = Some 1) && _); [done|]; unfold bind, the_cache;
      destruct (is_qos_message _ && _); [done|]; by rewrite Hlt. }
  destruct H' as (cluster & E & Ha). exists cluster. split; [by eapply known_config|].
  intros alias Hal. apply Z.nlt_ge. eauto.
Qed.

Lemma moves_recv_qos_add n p :
  requests ev env id p -> (exists publish properties, p = P_Publish publish properties) \/
                          (exists rel properties, p = P_PubRel rel properties) ->
  keeps reached (recv_qos_add id n).
Proof. intros Hr Hp. unfold recv_qos_add. keeps_tac. by eapply mv_quota. Qed.

Lemma moves_publish_store connection publish properties topic_name topic cluster :
  requests ev env id (P_Publish publish properties) ->
  client_of id b0 = Some (c_client_id connection) -> config_of b0 = Some cluster ->
  (forall alias, topic_alias_of properties = Some alias -> alias <= topic_alias_max (cl_protocol cluster)) ->
  forall protocol, keeps reached (publish_store env protocol id connection publish properties topic_name topic).
Proof.
  intros Hr Hc Hcl Ha protocol. unfold publish_store, pkid_save. keeps_tac.
  all: first [by eapply mv_alias|by eapply mv_save].
Qed.

Lemma moves_publish protocol publish properties :
  requests ev env id (P_Publish publish properties) ->
  keeps reached (Service.publish env protocol id publish properties).
Proof.
  intros Hr. unfold Service.publish. apply keeps_the_cache. intros c Hc.
  destruct (connection_info c !! id) as [connection|] eqn:Econn; [|keeps_tac].
  pose proof (known_client _ _ _ Hr eq_refl Hc Econn) as Hclient. cbv zeta.
  apply (keeps_bind_known _ (fun r => r = None -> exists cluster, config_of b0 = Some cluster /\
    forall alias, topic_alias_of properties = Some alias -> alias <= topic_alias_max (cl_protocol cluster))).
  - keeps_tac.
  - intros b a b' Hb E ->. by eapply validated_alias.
  - intros [pkg|] Hv; [keeps_tac|]. destruct (Hv eq_refl) as (cluster & Hcl & Ha). keeps_tac.
    by eapply moves_publish_store.
Qed.

Lemma moves_apply_publish protocol publish properties :
  requests ev env id (P_Publish publish properties) ->
  keeps reached (apply_publish env id protocol publish properties).
Proof.
  intros Hr. pose proof (fun n => moves_recv_qos_add n _ Hr (or_introl (ex_intro _ _ (ex_intro _ _ eq_refl)))) as Hq.
  pose proof (fun protocol => moves_publish protocol _ _ Hr) as Hp.
  unfold apply_publish. repeat first [apply Hq|apply Hp|keeps_step].
Qed.

Lemma moves_publish_rel protocol rel properties :
  requests ev env id (P_PubRel rel properties) -> keeps reached (publish_rel env protocol id rel).
Proof.
  intros Hr. pose proof (fun n => moves_recv_qos_add n _ Hr (or_intror (ex_intro _ _ (ex_intro _ _ eq_refl)))) as Hq.
  unfold publish_rel, pkid_delete. apply keeps_the_cache. intros c Hc.
  destruct (connection_info c !! id) as [connection|] eqn:Econn; [|keeps_tac].
  pose proof (known_client _ _ _ Hr eq_refl Hc Econn) as Hclient. cbv zeta.
  repeat first [apply Hq|keeps_step]. by eapply mv_release.
Qed.

Lemma moves_ping protocol :
  requests ev env id P_PingReq -> keeps reached (ping env protocol id).
Proof.
  intros Hr. unfold ping. apply keeps_the_cache. intros c Hc.
  destruct (connection_info c !! id) as [connection|] eqn:Econn; [|keeps_tac].
  pose proof (known_client _ _ _ Hr eq_refl Hc Econn) as Hclient. keeps_tac. eapply mv_beat; eauto.
Qed.

Lemma moves_disconnect_connection client i :
  (exists d properties, requests ev env i (P_Disconnect d properties)) \/
  (exists index taken, ev = Respond env index taken) \/
  (exists taken, ev = CheckHeartbeats env taken) ->
  keeps reached (disconnect_connection env client i).
Proof.
  intros Hl.
  assert ((exists env d properties, requests ev env i (P_Disconnect d properties)) \/
    (exists env index taken, ev = Respond env index taken) \/
    (exists env taken, ev = CheckHeartbeats env taken)) as Hl' by naive_solver.
  unfold disconnect_connection, update_session.
  apply keeps_then; [keeps_tac; by apply mv_leave|intros _].
  apply keeps_then; [keeps_tac|intros _]. apply keeps_then; [keeps_tac|intros _].
  intros b Hb. eapply reached_move; [done|]. by apply mv_hang_up.
Qed.

Lemma moves_disconnect d properties :
  requests ev env id (P_Disconnect d properties) -> keeps reached (Service.disconnect env id d).
Proof.
  intros Hr. unfold Service.disconnect. keeps_tac. apply moves_disconnect_connection. eauto.
Qed.

Lemma moves_apply_connect level connect cp lw lwp login addr :
  requests ev env id (P_Connect level connect cp lw lwp login) ->
  keeps reached (apply_connect env id addr level connect cp lw lwp login).
Proof.
  intros Hr. pose proof (fun protocol => moves_connect protocol _ _ _ _ _ _ addr Hr) as Hc.
  unfold apply_connect. apply keeps_then.
  - intros b Hb. unfold set_connect_protocol, modify. cbn.
    destruct (protocol_of_level level) as [p|] eqn:E.
    + eapply reached_move; [done|]. by eapply mv_protocol.
    + eapply core_inv; [|exact Hb]. split; [done|]. cbn. by rewrite alter_id.
  - intros _. repeat first [apply Hc|keeps_step]. by eapply mv_login.
Qed.

Lemma moves_apply protocol addr packet :
  requests ev env id packet -> keeps reached (apply env id protocol addr packet).
Proof.
  intros Hr. unfold apply. apply keeps_then; [keeps_tac|]. intros c.
  destruct packet; try by apply moves_apply_connect.
  all: destruct (is_login id c); cbn [negb]; try by keeps_tac.
  all: try by apply moves_apply_publish.
  all: destruct protocol as [q|]; try by keeps_tac.
  - apply keeps_then; [by eapply moves_publish_rel|intros; keeps_tac].
  - apply keeps_then; [by apply moves_ping|intros; keeps_tac].
  - by eapply moves_disconnect.
Qed.
End handlers.

Section steps.
Context {S P D : Type} {SA : StorageAdapter S} {PC : PlacementCenter P} {AD : AuthStorageAdapter D}.
Context {SC : StopChannel} {MI : MapIter} {RX : RegexCrate} {RG : RegexCaptures} {IN : IpNet}.
Context {JS : Json MqttSession} {JT : Json MqttTopic} {JM : Json MqttMessage} {JW : Json LastWillData}.
Context {SX : SchemaCrates} {BC : BytesCrate} {CI : ConnectionIter}.
Abbreviation Broker := (Broker (S := S) (P := P) (D := D)).
Implicit Types (b : Broker).

Lemma moves_handler_child b0 env rq :
  keeps (reached b0 (Receive env rq)) (handler_child env rq).
Proof.
  unfold handler_child. keeps_tac. apply moves_apply. by exists rq.
Qed.

Lemma frames_write_frame taken w : frames (S := S) (P := P) (D := D) (write_frame taken w).
Proof. unfold write_frame. destruct (encode_data w []) as [[] ?]; frames_tac. Qed.
Hint Resolve frames_write_frame : framesdb.

Lemma moves_response_child b0 env index taken pkg :
  keeps (reached b0 (Respond env index taken)) (response_child env taken pkg).
Proof.
  unfold response_child. keeps_tac; try (apply moves_disconnect_connection; eauto).
  all: intros b Hb; eapply reached_move; [done|]; apply mv_hang_up; right; left; eauto.
Qed.

Lemma moves_keep_alive b0 env taken :
  keeps (reached b0 (CheckHeartbeats env taken)) (keep_alive env taken).
Proof.
  unfold keep_alive, get_expire_connection.
  assert (forall l, keeps (reached b0 (CheckHeartbeats env taken)) (expire_connections env l)) as H1.
  { induction l as [|[i conn] l IH]; cbn [expire_connections]; repeat first [apply IH|keeps_step].
    by eapply mv_new_beat. }
  assert (forall l, keeps (reached b0 (CheckHeartbeats env taken)) (expire_all env taken l)) as H2.
  { induction l as [|i l IH]; cbn [expire_all]; unfold expire_connection; repeat first [apply IH|keeps_step].
    apply moves_disconnect_connection. eauto. }
  repeat first [apply H1|apply H2|keeps_step]. by eapply mv_forget_beats.
Qed.

Lemma step_moves ev (sv : Server) : reached (sv_broker sv) ev (sv_broker (server_step ev sv)).
Proof.
  destruct ev as [ty addr|env rq|env index taken|env taken]; cbn [server_step].
  - eapply reached_move; [apply rtc_refl|]. by eapply mv_accept.
  - unfold receive. pose proof (moves_handler_child (sv_broker sv) env rq _ (rtc_refl _ _)) as H.
    by destruct (handler_child env rq _).
  - unfold respond. destruct (process_handler _ !! index) as [[[] [|pkg queue]]|]; try apply rtc_refl.
    pose proof (moves_response_child (sv_broker sv) env index taken pkg _ (rtc_refl _ _)) as H.
    by destruct (response_child env taken pkg _) as [[] ?].
  - unfold check_heartbeats. pose proof (moves_keep_alive (sv_broker sv) env taken _ (rtc_refl _ _)) as H.
    by destruct (keep_alive env taken _).
Qed.
End steps.
#[export] Hint Resolve frames_write_frame : framesdb.
