(* ===== verification/Answers.v ===== *)
(** * The answers of the request handlers

    What the handlers of [Service.v] answer with: every answer to a CONNECT and
    to a request of a logged-in client is a packet of the client's protocol
    that the encoder accepts; the answer to a client that is not logged in is
    not, and the response task that encodes it unwinds. *)

From Stdlib Require Import String.
From S2P Require Import Prelude Bytes RustStr Storage MemoryStorage RocksEngine MqttTypes MqttCommon MqttCodec Topics Subscriptions MessageStorage DelayMessages Acl BrokerCache Security Responses ResponseEncoding SchemaRegister Broker Service ServiceFrame Server Samples ServerCore.

(** ** Facts about results *)

Definition yields {S E A : Type} (Q : A -> Prop) (m : M S E A) : Prop :=
  forall s a s', m s = (Ok a, s') -> Q a.

Section yields.
Context {S E : Type}.

Lemma yields_ret {A} (Q : A -> Prop) (a : A) : Q a -> yields (S := S) (E := E) Q (ret a).
Proof. by intros H s a' s' [= <- _]. Qed.
Lemma yields_fail {A} (Q : A -> Prop) (e : E) : yields (S := S) Q (fail e).
Proof. done. Qed.
Lemma yields_panic {A} (Q : A -> Prop) : yields (S := S) (E := E) Q panic.
Proof. done. Qed.
Lemma yields_out_of_fuel {A} (Q : A -> Prop) : yields (S := S) (E := E) Q out_of_fuel.
Proof. done. Qed.
Lemma yields_bind_known {A X} (R : A -> Prop) (Q : X -> Prop) (m : M S E A) (k : A -> M S E X) :
  yields R m -> (forall a, R a -> yields Q (k a)) -> yields Q (bind m k).
Proof. intros Hm Hk s x s' (a & s1 & E1 & E2)%bind_inv. by eapply Hk; [eapply Hm|]. Qed.
Lemma yields_bind {A X} (Q : X -> Prop) (m : M S E A) (k : A -> M S E X) :
  (forall a, yields Q (k a)) -> yields Q (bind m k).
Proof. intros Hk. by apply (yields_bind_known (fun _ => True)). Qed.
Lemma yields_mono {A} (Q Q' : A -> Prop) (m : M S E A) : yields Q m -> (forall a, Q a -> Q' a) -> yields Q' m.
Proof. intros H HQ s a s' E'. by eapply HQ, H. Qed.
End yields.

Lemma or_answer_inv {S P D A X : Type} {SC : StopChannel} (m : B (S := S) (P := P) (D := D) A) (f : MqttBrokerError -> X)
    (k : A -> B X) b x b' :
  or_answer m f k b = (Ok x, b') ->
  (exists e, m b = (Err e, b') /\ x = f e) \/ (exists a b1, m b = (Ok a, b1) /\ k a b1 = (Ok x, b')).
Proof.
  intros H. apply bind_inv in H as (r & b1 & E & H). unfold attempt in E.
  destruct (m b) as [[a|e| |] b2]; try done; injection E as <- <-; [right; eauto|left].
  injection H as <- <-. eauto.
Qed.
Lemma or_answer_ok {S P D A X : Type} {SC : StopChannel} (m : B (S := S) (P := P) (D := D) A)
    (f : MqttBrokerError -> X) (k : A -> B X) b a b' :
  m b = (Ok a, b') -> or_answer m f k b = k a b'.
Proof. intros E. unfold or_answer, attempt, bind. by rewrite E. Qed.
Lemma yields_or_answer {S P D A X : Type} {SC : StopChannel} (Q : X -> Prop) (m : B (S := S) (P := P) (D := D) A)
    (f : MqttBrokerError -> X) (k : A -> B X) :
  (forall e, Q (f e)) -> (forall a, yields Q (k a)) -> yields Q (or_answer m f k).
Proof.
  intros Hf Hk b x b' [(e & _ & ->)|(a & b1 & _ & E)]%or_answer_inv; [done|]. by eapply Hk.
Qed.

Ltac yields_step :=
  lazymatch goal with
  | |- yields _ (ret _) => apply yields_ret
  | |- yields ?Q (bind (ret ?a) ?k) => change (yields Q (k a)); cbv beta
  | |- yields _ (bind _ _) => apply yields_bind; intros ?
  | |- yields _ (or_answer _ _ _) => apply yields_or_answer; [intros ?|intros ?]
  | |- yields _ (let _ := _ in _) => cbv zeta
  | |- yields _ (match ?x with _ => _ end) => destruct x eqn:?
  | |- yields _ panic => apply yields_panic
  | |- yields _ out_of_fuel => apply yields_out_of_fuel
  | |- yields _ (fail _) => apply yields_fail
  end.
Ltac yields_tac := repeat yields_step.

(** ** Packets that the encoder takes *)

(** The answer of a handler that may stay silent. *)
Definition maybe (Q : MqttPacket -> Prop) (o : option MqttPacket) : Prop :=
  match o with Some p => Q p | None => True end.

Section answers.
Context (protocol : MqttProtocol).
Abbreviation encodable := (encodable protocol).

Ltac by_protocol := unfold ResponseEncoding.encodable; destruct protocol; cbn; try done; try set_solver.

Lemma enc_connect_success cluster client auto expiry present alive cp :
  encodable (response_packet_mqtt_connect_success protocol cluster client auto expiry present alive cp).
Proof. unfold response_packet_mqtt_connect_success. by_protocol. Qed.
Definition mqtt5_code (code : ConnectReturnCode) : Prop :=
  code ∉ [CR_RefusedProtocolVersion; CR_BadClientId; CR_ServiceUnavailable].
Lemma enc_connect_fail code cp text :
  mqtt5_code code -> encodable (response_packet_mqtt_connect_fail protocol code cp text).
Proof.
  intros Hc. unfold response_packet_mqtt_connect_fail, ResponseEncoding.encodable.
  destruct protocol; cbn; try done; repeat case_bool_decide; cbn; set_solver.
Qed.
Lemma enc_distinct code : encodable (response_packet_mqtt_distinct_by_reason protocol code).
Proof. unfold response_packet_mqtt_distinct_by_reason. by_protocol. Qed.
Lemma enc_puback_success r k u : encodable (response_packet_mqtt_puback_success protocol r k u).
Proof. unfold response_packet_mqtt_puback_success. by_protocol. Qed.
Lemma enc_pubrec_success r k u : encodable (response_packet_mqtt_pubrec_success protocol r k u).
Proof. unfold response_packet_mqtt_pubrec_success. by_protocol. Qed.
Lemma enc_pubrec_fail c k r t : encodable (response_packet_mqtt_pubrec_fail protocol c k r t).
Proof. unfold response_packet_mqtt_pubrec_fail. by_protocol. Qed.
Lemma enc_publish_fail c p a r t : encodable (publish_fail protocol c p a r t).
Proof.
  unfold publish_fail, response_packet_mqtt_pubrec_fail, response_packet_mqtt_puback_fail.
  destruct (bool_decide _); by_protocol.
Qed.
Lemma enc_pubrel_success k r : encodable (response_packet_mqtt_pubrel_success protocol k r).
Proof. unfold response_packet_mqtt_pubrel_success. by_protocol. Qed.
Lemma enc_pubcomp_success k : encodable (response_packet_mqtt_pubcomp_success protocol k).
Proof. unfold response_packet_mqtt_pubcomp_success. by_protocol. Qed.
Lemma enc_pubcomp_fail c k r t : encodable (response_packet_mqtt_pubcomp_fail protocol c k r t).
Proof. unfold response_packet_mqtt_pubcomp_fail. by_protocol. Qed.
Lemma enc_suback c k l t : encodable (response_packet_mqtt_suback protocol c k l t).
Proof. unfold response_packet_mqtt_suback. by_protocol. Qed.
Lemma enc_unsuback c k l t : encodable (response_packet_mqtt_unsuback c k l t).
Proof. unfold response_packet_mqtt_unsuback. by_protocol. Qed.
Lemma enc_pingresp : encodable P_PingResp.
Proof. by_protocol. Qed.
End answers.

Create HintDb answersdb.
#[export] Hint Resolve enc_connect_success enc_distinct enc_puback_success enc_pubrec_success
  enc_pubrec_fail enc_publish_fail enc_pubrel_success enc_pubcomp_success enc_pubcomp_fail enc_suback
  enc_unsuback enc_pingresp : answersdb.
#[export] Hint Extern 1 (encodable _ (response_packet_mqtt_connect_fail _ _ _ _)) =>
  apply enc_connect_fail; unfold mqtt5_code; set_solver : answersdb.
#[export] Hint Extern 1 (encodable _ (connect_fail _ _ _ _)) =>
  apply enc_connect_fail; unfold mqtt5_code; set_solver : answersdb.
#[export] Hint Extern 1 (maybe _ _) => cbn [maybe] : answersdb.

Section handlers.
Context {S P D : Type} {SA : StorageAdapter S} {PC : PlacementCenter P} {AD : AuthStorageAdapter D}.
Context {SC : StopChannel} {MI : MapIter} {RX : RegexCrate} {RG : RegexCaptures} {IN : IpNet}.
Context {JS : Json MqttSession} {JT : Json MqttTopic} {JM : Json MqttMessage} {JW : Json LastWillData}.
Context {SX : SchemaCrates} {BC : BytesCrate} {CI : ConnectionIter}.
Context (env : Env) (protocol : MqttProtocol) (id : Z).
Abbreviation B := (B (S := S) (P := P) (D := D)).
Abbreviation encodable := (encodable protocol).
Abbreviation answers := (yields (S := Broker (S := S) (P := P) (D := D)) (E := MqttBrokerError) (maybe encodable)).

Ltac answers_tac := yields_tac; eauto with answersdb.

Lemma connect_validator_answers cl c cp lw lwp l : answers (connect_validator env protocol cl c cp lw lwp l).
Proof. unfold connect_validator, will_validator. answers_tac. Qed.
Lemma publish_validator_answers c p pp : answers (publish_validator env protocol c p pp).
Proof. unfold publish_validator. answers_tac. Qed.
Lemma subscribe_validator_answers c s : answers (subscribe_validator env protocol c s).
Proof. unfold subscribe_validator. answers_tac. Qed.
Lemma un_subscribe_validator_answers c s : answers (un_subscribe_validator env c s).
Proof. unfold un_subscribe_validator. answers_tac. Qed.

Lemma connect_answers c cp lw lwp l addr :
  yields encodable (Service.connect (S := S) (P := P) (D := D) env protocol id c cp lw lwp l addr).
Proof.
  unfold Service.connect, connect_accept. apply yields_bind. intros cl.
  eapply yields_bind_known; [apply connect_validator_answers|]. intros [res|] Hres; answers_tac.
Qed.
Lemma publish_answers p pp : answers (Service.publish env protocol id p pp).
Proof.
  unfold Service.publish, publish_store. apply yields_bind. intros c. cbv zeta.
  destruct (connection_info c !! id) as [conn|]; [|answers_tac].
  eapply yields_bind_known; [apply publish_validator_answers|]. intros [res|] Hres; [|answers_tac].
  destruct (bool_decide _); answers_tac.
Qed.
Lemma subscribe_answers s p :
  yields encodable (Service.subscribe (S := S) (P := P) (D := D) env protocol id s p).
Proof.
  unfold Service.subscribe. apply yields_bind. intros c.
  destruct (connection_info c !! id) as [conn|]; [|answers_tac].
  eapply yields_bind_known; [apply subscribe_validator_answers|]. intros [res|] Hres; answers_tac.
Qed.
Lemma un_subscribe_answers s :
  yields encodable (Service.un_subscribe (S := S) (P := P) (D := D) env protocol id s).
Proof.
  unfold Service.un_subscribe. apply yields_bind. intros c.
  destruct (connection_info c !! id) as [conn|]; [|answers_tac].
  eapply yields_bind_known; [apply un_subscribe_validator_answers|]. intros [res|] Hres; answers_tac.
Qed.
Lemma publish_rel_answers r : yields encodable (publish_rel (S := S) (P := P) (D := D) env protocol id r).
Proof. unfold publish_rel. answers_tac. Qed.
Lemma ping_answers : yields encodable (ping (S := S) (P := P) (D := D) env protocol id).
Proof. unfold ping. answers_tac. Qed.
End handlers.

(** ** Answers on the wire *)

Section wire.
Context {S P D : Type} {SA : StorageAdapter S} {PC : PlacementCenter P} {AD : AuthStorageAdapter D}.
Context {SC : StopChannel} {MI : MapIter} {RX : RegexCrate} {RG : RegexCaptures} {IN : IpNet}.
Context {JS : Json MqttSession} {JT : Json MqttTopic} {JM : Json MqttMessage} {JW : Json LastWillData}.
Context {SX : SchemaCrates} {BC : BytesCrate} {CI : ConnectionIter}.
Abbreviation Broker := (Broker (S := S) (P := P) (D := D)).
Abbreviation B := (B (S := S) (P := P) (D := D)).
Implicit Types (b : Broker).

(** What a logged-in client sends. *)
Definition client_packet (p : MqttPacket) : bool :=
  match p with
  | P_Publish _ _ | P_PubAck _ _ | P_PubRec _ _ | P_PubRel _ _ | P_PubComp _ _ | P_Subscribe _ _
  | P_Unsubscribe _ _ | P_PingReq | P_Disconnect _ _ => true
  | _ => false
  end.

Lemma apply_publish_answers env protocol id p pp :
  yields (maybe (encodable protocol)) (apply_publish (S := S) (P := P) (D := D) env id (Some protocol) p pp).
Proof.
  unfold apply_publish. apply yields_bind. intros c. destruct (connection_info c !! id); [|yields_tac; apply enc_distinct].
  apply yields_bind. intros _. eapply yields_bind_known; [apply publish_answers|]. intros resp Hr.
  yields_tac. done.
Qed.

Lemma disconnect_answers env protocol id d :
  yields (maybe (encodable protocol)) (Service.disconnect (S := S) (P := P) (D := D) env id d).
Proof. unfold Service.disconnect. yields_tac; done. Qed.
Lemma apply_answers env protocol id addr p b a b' :
  client_packet p = true -> is_login id (b_cache b) = true ->
  apply env id (Some protocol) addr p b = (Ok a, b') -> maybe (encodable protocol) a.
Proof.
  intros Hp Hl H. unfold apply in H. apply bind_inv in H as (c & b1 & [= <- <-] & H).
  rewrite Hl in H. cbn [negb] in H.
  assert (forall m, yields (encodable protocol) m ->
            yields (S := Broker) (E := MqttBrokerError) (maybe (encodable protocol)) (let! r := m in ret (Some r))) as Hsome.
  { intros m Hm. eapply yields_bind_known; [apply Hm|]. intros r Hr. by apply yields_ret. }
  destruct p; try done; revert H.
  - apply apply_publish_answers.
  - unfold publish_ack. apply yields_bind. intros _. by apply yields_ret.
  - unfold publish_rec. apply yields_bind. intros []; apply yields_ret; [done|apply enc_pubrel_success].
  - apply Hsome, publish_rel_answers.
  - unfold publish_comp. apply yields_bind. intros _. by apply yields_ret.
  - apply Hsome, ping_answers.
  - apply Hsome, subscribe_answers.
  - apply Hsome, un_subscribe_answers.
  - apply disconnect_answers.
Qed.

(** *** The protocol of a network connection *)

#[export] Instance protocol_core i o : CoreInv (fun b => get_connect_protocol i b = o).
Proof.
  intros b b' (_ & _ & _ & _ & _ & E)%same_core_inv. unfold get_connect_protocol. by rewrite E.
Qed.

(** A request other than CONNECT may hang up, and changes no protocol. *)
Lemma request_protocol b0 ev env id p i b :
  requests ev env id p -> (forall l c cp lw lwp lo, p <> P_Connect l c cp lw lwp lo) ->
  reached b0 ev b ->
  get_connect_protocol i b = get_connect_protocol i b0 \/ get_connect_protocol i b = None.
Proof.
  intros Hr Hp. revert b. apply reached_ind; [by left|]. intros b b' Hm Hb. unfold get_connect_protocol in *.
  destruct Hm as [b b' (_ & _ & _ & _ & _ & ->)%same_core_inv| | | | | | | | | | | | | ]; cbn; try done.
  - destruct (requests_fun _ _ _ _ _ _ _ Hr H) as (_ & _ & <-). by edestruct Hp.
  - destruct (decide (id0 = i)) as [->|Hi]; [rewrite lookup_delete_eq; by right|by rewrite lookup_delete_ne].
  - by destruct Hr as (? & -> & _).
Qed.

Lemma set_protocol_known id level p b :
  protocol_of_level level = Some p -> is_Some (b_network b !! id) ->
  get_connect_protocol id (set_connect_protocol id level b).2 = Some p.
Proof.
  intros Hl [n Hn]. unfold get_connect_protocol, set_connect_protocol, modify. cbn. rewrite Hl.
  by rewrite lookup_alter_eq, Hn.
Qed.

(** A CONNECT is answered in the protocol that it asks for. *)
Lemma apply_connect_answers env id addr level c cp lw lwp lo p b a b' :
  protocol_of_level level = Some p -> is_Some (b_network b !! id) ->
  apply_connect env id addr level c cp lw lwp lo b = (Ok a, b') ->
  maybe (encodable p) a /\ get_connect_protocol id b' = Some p.
Proof.
  intros Hl Hn H. unfold apply_connect in H. apply bind_inv in H as (? & b1 & E1 & H).
  assert (get_connect_protocol id b1 = Some p) as Hb1.
  { by rewrite <- (set_protocol_known id level p b Hl Hn), E1. }
  rewrite Hl in H. apply bind_inv in H as (ack & b2 & E2 & H). split.
  - apply connect_answers in E2. revert H.
    apply (yields_bind (maybe (encodable p))). intros _. by apply yields_ret.
  - assert (get_connect_protocol id b2 = Some p) as Hb2.
    { eapply (keeps_state (fun b => get_connect_protocol id b = Some p)); [|exact Hb1|exact E2].
      unfold Service.connect, connect_accept. keeps_tac; done. }
    eapply (keeps_state (fun b => get_connect_protocol id b = Some p)); [|exact Hb2|exact H].
    keeps_tac. done.
Qed.

(** C20: Every answer to a CONNECT of a supported level, and to a packet that a
    logged-in client may send ([client_packet]: none that only a server sends,
    and no AUTH, which is never decoded), is a packet of the protocol of the
    connection as the response task finds it, which the encoder writes, or
    refuses with an error, without unwinding. *)
Theorem answers_encode env rq b pkg b' nc protocol :
  b_network b !! rq_connection_id rq = Some nc ->
  (exists level c cp lw lwp lo,
     rq_packet rq = P_Connect level c cp lw lwp lo /\ is_Some (protocol_of_level level)) \/
  (client_packet (rq_packet rq) = true /\ is_login (rq_connection_id rq) (b_cache b) = true /\
   is_Some (nc_protocol nc)) ->
  handler_child env rq b = (Ok (Some pkg), b') ->
  get_connect_protocol (rs_connection_id pkg) b' = Some protocol ->
  returns (encode_data (mkMqttPacketWrapper (u8_of_MqttProtocol protocol) (rs_packet pkg)) []).1.
Proof.
  intros Hn Hrq H Hp. eapply wp_returns. apply encodable_writes.
  pose proof (moves_handler_child b env rq b (rtc_refl _ _)) as Hreach. rewrite H in Hreach. cbn in Hreach.
  unfold handler_child in H. apply bind_inv in H as (? & b1 & [= <- <-] & H). rewrite Hn in H.
  apply bind_inv in H as (resp & b1 & E & [= Epkg <-]). destruct resp as [ans|]; [|done].
  injection Epkg as <-. cbn in Hp |- *.
  destruct Hrq as [(level & c & cp & lw & lwp & lo & Ep & [p Hlevel])|(Hc & Hl & [p Hnp])].
  - rewrite Ep in E. destruct (bind_inv _ _ _ _ _ E) as (c' & b2 & [= _ <-] & E').
    destruct (apply_connect_answers _ _ _ _ _ _ _ _ _ _ _ _ _ Hlevel (ex_intro _ _ Hn) E') as [Ha Hp'].
    by rewrite Hp' in Hp; injection Hp as <-.
  - rewrite Hnp in E. apply (apply_answers _ _ _ _ _ _ _ _ Hc Hl) in E.
    destruct (request_protocol b (Receive env rq) env (rq_connection_id rq) (rq_packet rq) (rq_connection_id rq) b1)
      as [Hs|Hs]; [by exists rq|by intros ?????? Ep; rewrite Ep in Hc|done| |congruence].
    unfold get_connect_protocol in Hs at 2. rewrite Hn, Hnp in Hs. by rewrite Hs in Hp; injection Hp as <-.
Qed.
End wire.

Import Sample.

Lemma answers_encode_witness :
  exists pkg, handler_child (Sample.env 110) (request P_PingReq) (sv_broker connected)
    = (Ok (Some pkg), (handler_child (Sample.env 110) (request P_PingReq) (sv_broker connected)).2) /\
    returns (encode_data (mkMqttPacketWrapper 4 (rs_packet pkg)) []).1.
Proof.
  eexists. split; [vm_compute; reflexivity|].
  apply (answers_encode (Sample.env 110) (request P_PingReq) (sv_broker connected) _
           (handler_child (Sample.env 110) (request P_PingReq) (sv_broker connected)).2
           (mkNetworkConnection Tcp 1 (Some Mqtt4) (lit "10.0.0.1:1883")) Mqtt4).
  - vm_compute. reflexivity.
  - right. split; [reflexivity|]. split; [vm_compute; reflexivity|]. by eexists.
  - vm_compute. reflexivity.
  - vm_compute. reflexivity.
Defined.
