(* ===== verification/LoginTheorems.v ===== *)
(** * Who is served

    A connection is logged in by an accepted CONNECT of its own and by nothing
    else, and what the server keeps of a connection stays within the limits of
    the cluster. *)

From Stdlib Require Import String.
From S2P Require Import Prelude Bytes RustStr Storage MemoryStorage RocksEngine MqttTypes MqttCommon MqttCodec Topics Subscriptions MessageStorage DelayMessages Acl BrokerCache Security Responses SchemaRegister Broker Service ServiceFrame Server Samples ServerCore Answers.

Section login.
Context {S P D : Type} {SA : StorageAdapter S} {PC : PlacementCenter P} {AD : AuthStorageAdapter D}.
Context {SC : StopChannel} {MI : MapIter} {RX : RegexCrate} {RG : RegexCaptures} {IN : IpNet}.
Context {JS : Json MqttSession} {JT : Json MqttTopic} {JM : Json MqttMessage} {JW : Json LastWillData}.
Context {SX : SchemaCrates} {BC : BytesCrate} {CI : ConnectionIter}.
Abbreviation Broker := (Broker (S := S) (P := P) (D := D)).
Abbreviation B := (B (S := S) (P := P) (D := D)).
Abbreviation Server := (Server (S := S) (P := P) (D := D)).
Implicit Types (b : Broker) (sv : Server).

(** ** An answer that accepts a CONNECT *)

Lemma reads_attempt {A} (m : B A) : reads_only m -> reads_only (attempt m).
Proof. intros H b. specialize (H b). unfold attempt. by destruct (m b) as [[] ?]. Qed.

Definition refusal (p : MqttPacket) : Prop :=
  match p with P_ConnAck ack _ => ca_code ack <> CR_Success | _ => True end.
Lemma connect_fail_refusal protocol code cp text :
  code <> CR_Success -> refusal (response_packet_mqtt_connect_fail protocol code cp text).
Proof.
  intros Hc. unfold response_packet_mqtt_connect_fail. destruct (negb (is_v5 protocol)); [|done].
  cbn. repeat case_bool_decide; done.
Qed.

Lemma connect_validator_state env protocol cluster connect cp lw lwp login b :
  (connect_validator env protocol cluster connect cp lw lwp login b).2 = b.
Proof.
  revert b. change (reads_only (connect_validator (S := S) (P := P) (D := D) env protocol cluster connect cp lw lwp login)).
  unfold connect_validator, will_validator.
  repeat first [apply reads_attempt|reads_step].
Qed.
Lemma connect_validator_refuses env protocol cluster connect cp lw lwp login :
  yields (maybe refusal)
    (connect_validator (S := S) (P := P) (D := D) env protocol cluster connect cp lw lwp login).
Proof.
  unfold connect_validator, will_validator. yields_tac; cbn [maybe]; try done; by apply connect_fail_refusal.
Qed.

(** A CONNECT is accepted only behind the check of its login. *)
Lemma accepted_authenticated env protocol id connect cp lw lwp login addr b ack q b' :
  Service.connect env protocol id connect cp lw lwp login addr b = (Ok (P_ConnAck ack q), b') ->
  ca_code ack = CR_Success ->
  (check_login_auth login (mkAuthDriver (b_cache b) (b_driver b))).1 = Ok true.
Proof.
  intros H Hs. assert (forall x, refusal x -> x = P_ConnAck ack q -> False) as Hno by (by intros x Hx ->).
  apply bind_inv in H as (cluster & b1 & E1 & H).
  assert (b1 = b) as ->.
  { unfold cluster_config, bind, the_cache, get_cluster_info, unwrap in E1.
    destruct (cluster_info _ !! _); by injection E1. }
  apply bind_inv in H as (refused & b1 & E2 & H).
  pose proof (connect_validator_state env protocol cluster connect cp lw lwp login b) as Eb. rewrite E2 in Eb.
  cbn in Eb. subst b1. destruct refused as [res|].
  { injection H as H _. destruct (Hno res); [|done]. by apply connect_validator_refuses in E2. }
  destruct (get_client_id env (client_id connect)) as [client new]. cbv zeta in H.
  apply bind_inv in H as (c & b1 & [= <- <-] & H). apply bind_inv in H as (banned & b1 & E3 & H).
  pose proof (reads_is_blacklist (E := MqttBrokerError) (now_second env) (b_cache b)
                (build_connection env id client cluster connect cp addr) b) as Eb.
  rewrite E3 in Eb. cbn in Eb. subst b1. destruct banned.
  { injection H as H _. edestruct Hno; [|exact H]. by apply connect_fail_refusal. }
  apply or_answer_inv in H as [(e & _ & H)|(flag & b1 & E4 & H)].
  { symmetry in H. edestruct Hno; [|exact H]. by apply connect_fail_refusal. }
  unfold on_auth in E4. destruct (check_login_auth login _) as [o s]. injection E4 as -> _. destruct flag; [done|].
  injection H as H _. edestruct Hno; [|exact H]. by apply connect_fail_refusal.
Qed.

(** ** Logins along a run *)

#[local] Instance not_logged_in_core i : CoreInv (fun b => is_login i (b_cache b) = false).
Proof. intros b b' (_ & _ & E & _)%same_core_inv. unfold is_login. by rewrite E. Qed.

Lemma alter_login {A} (f : A -> MQTTConnection -> MQTTConnection) a id i (c : CacheManager) :
  (forall conn, c_is_login (f a conn) = c_is_login conn) ->
  is_login i c = false -> is_login i (upd_connection_info (alter (f a) id) c) = false.
Proof.
  intros Hf. unfold is_login. cbn. destruct (decide (id = i)) as [->|Hi];
    [rewrite lookup_alter_eq|by rewrite lookup_alter_ne].
  destruct (connection_info c !! i); [|done]. cbn. by rewrite Hf.
Qed.
Lemma add_connection_login id conn i c :
  c_is_login conn = false -> is_login i c = false -> is_login i (add_connection id conn c) = false.
Proof.
  intros Hc Hl. unfold add_connection. destruct (session_info c !! _); [|done]. unfold is_login in *. cbn.
  destruct (decide (id = i)) as [->|Hi]; [by rewrite lookup_insert_eq|by rewrite lookup_insert_ne].
Qed.

(** Only the move of a CONNECT logs a connection in. *)
Lemma move_login b0 ev i b b' :
  core_move b0 ev b b' ->
  (forall env level connect cp lw lwp login, ~ requests ev env i (P_Connect level connect cp lw lwp login)) ->
  is_login i (b_cache b) = false -> is_login i (b_cache b') = false.
Proof.
  intros Hm Hno Hl.
  destruct Hm as [b b' Hc| | | | | | | | | | | | | ]; cbn; try done.
  - by eapply (core_inv (CoreInv := not_logged_in_core i)).
  - by apply add_connection_login.
  - unfold is_login, login_success. cbn. destruct (decide (id = i)) as [->|Hi]; [by edestruct Hno|].
    by rewrite lookup_alter_ne.
  - unfold add_topic_alias. destruct properties as [q|]; [|done]. destruct (pp_topic_alias q); [|done].
    by apply (alter_login (fun t => set_alias t topic)).
  - by apply (alter_login recv_qos_message_add).
  - unfold is_login. cbn. destruct (decide (id = i)) as [->|Hi]; [by rewrite lookup_delete_eq|by rewrite lookup_delete_ne].
Qed.

(** A CONNECT logs its connection in behind the check of its login. *)
Lemma apply_connect_login env id addr level connect cp lw lwp login b :
  is_login id (b_cache b) = false ->
  is_login id (b_cache (apply_connect env id addr level connect cp lw lwp login b).2) = true ->
  (check_login_auth login (mkAuthDriver (b_cache b) (b_driver b))).1 = Ok true.
Proof.
  intros Hl. unfold apply_connect, set_connect_protocol. unfold modify at 1, bind at 1. cbn [snd].
  set (b1 := upd_b_network _ b). destruct (protocol_of_level level) as [p|]; [|by cbn; rewrite Hl].
  assert (is_login id (b_cache (Service.connect env p id connect cp lw lwp login addr b1).2) = false) as H2.
  { eapply (keeps_state (fun b => is_login id (b_cache b) = false) _ b1); [|done|apply surjective_pairing].
    unfold Service.connect, connect_accept. keeps_tac; first [done|by apply add_connection_login]. }
  unfold bind at 1. destruct (Service.connect env p id connect cp lw lwp login addr b1) as [[ack|e| |] b2] eqn:E;
    cbn in H2 |- *; try congruence.
  destruct ack; try (cbn; congruence). case_bool_decide as Hs; [|cbn; congruence]. intros _.
  exact (accepted_authenticated _ _ _ _ _ _ _ _ _ _ _ _ _ E Hs).
Qed.

Definition authenticates (ev : Event) (id : Z) sv : Prop :=
  exists env level connect cp lw lwp login,
    requests ev env id (P_Connect level connect cp lw lwp login) /\
    (check_login_auth login (mkAuthDriver (b_cache (sv_broker sv)) (b_driver (sv_broker sv)))).1 = Ok true.

Lemma step_no_login ev id sv :
  (forall env level connect cp lw lwp login, ~ requests ev env id (P_Connect level connect cp lw lwp login)) ->
  is_login id (b_cache (sv_broker sv)) = false ->
  is_login id (b_cache (sv_broker (server_step ev sv))) = false.
Proof.
  intros Hno Hl. apply (reached_ind _ _ (fun b => is_login id (b_cache b) = false) Hl) with (2 := step_moves ev sv).
  intros b b' Hm. by eapply move_login.
Qed.
Lemma step_login ev id sv :
  is_login id (b_cache (sv_broker (server_step ev sv))) = true ->
  is_login id (b_cache (sv_broker sv)) = true \/ authenticates ev id sv.
Proof.
  intros H. destruct (is_login id (b_cache (sv_broker sv))) eqn:Hl; [by left|right].
  destruct ev as [ty addr|env rq|env index taken|env taken].
  1,3,4: rewrite step_no_login in H; [done|by intros ??????? (? & ? & _)|done].
  destruct (decide (rq_connection_id rq = id)) as [<-|Hid].
  2: { rewrite step_no_login in H; [done| |done]. by intros ??????? (? & [= _ <-] & ? & _). }
  destruct (rq_packet rq) as [level connect cp lw lwp login| | | | | | | | | | | | | |] eqn:Ep.
  2-15: rewrite step_no_login in H; [done| |done]; intros ??????? (? & [= _ <-] & _ & E'); congruence.
  exists env, level, connect, cp, lw, lwp, login. split; [by exists rq|].
  cbn [server_step] in H. unfold receive, handler_child, bind at 1, get in H. revert H.
  destruct (b_network (sv_broker sv) !! rq_connection_id rq) as [nc|]; [|cbn; congruence].
  rewrite Ep. unfold bind at 1, apply, bind at 1, the_cache. intros H.
  apply (apply_connect_login env (rq_connection_id rq) (rq_addr rq) level connect cp lw lwp login _ Hl).
  revert H. by destruct (apply_connect _ _ _ _ _ _ _ _ _ _) as [[] ?].
Qed.

(** A request before the login changes nothing. *)
Lemma unauthenticated_request env rq sv :
  (forall level connect cp lw lwp login, rq_packet rq <> P_Connect level connect cp lw lwp login) ->
  is_login (rq_connection_id rq) (b_cache (sv_broker sv)) = false ->
  sv_broker (server_step (Receive env rq) sv) = sv_broker sv.
Proof.
  intros Hp Hl. cbn [server_step]. unfold receive, handler_child, bind at 1, get.
  destruct (b_network (sv_broker sv) !! rq_connection_id rq) as [nc|]; [|done].
  unfold bind at 1, apply, bind at 1, the_cache.
  destruct (rq_packet rq); try (rewrite Hl; done). by edestruct Hp.
Qed.

(** C13: A connection is logged in only by a CONNECT of its own whose login the
    check of the users accepts, whatever the clients send and however the tasks
    of the server take turns; and any other request of a connection that is not
    logged in leaves the whole broker as it is. *)
Theorem login_required evs sv id :
  (forall i, is_login i (b_cache (sv_broker sv)) = false) ->
  (is_login id (b_cache (sv_broker (server_run evs sv))) = true ->
   exists before ev after, evs = before ++ ev :: after /\ authenticates ev id (server_run before sv)) /\
  (forall env rq,
     (forall level connect cp lw lwp login, rq_packet rq <> P_Connect level connect cp lw lwp login) ->
     is_login (rq_connection_id rq) (b_cache (sv_broker (server_run evs sv))) = false ->
     sv_broker (server_step (Receive env rq) (server_run evs sv)) = sv_broker (server_run evs sv)).
Proof.
  intros H0. split; [|intros; by apply unauthenticated_request].
  induction evs as [|ev evs IH] using rev_ind; [by rewrite H0|].
  unfold server_run. rewrite foldl_app. cbn. fold (server_run evs sv). intros H.
  apply step_login in H as [H|H].
  - destruct (IH H) as (before & ev' & after & -> & Ha). exists before, ev', (after ++ [ev]).
    by rewrite <- app_assoc.
  - by exists evs, ev, [].
Qed.

(** ** Limits *)

(** What the cache holds for the connection [id] is within the limits of the
    cluster. *)
Definition connection_wf (p : MqttClusterDynamicConfigProtocol) (id : Z) (conn : MQTTConnection) : Prop :=
  c_connect_id conn = id /\
  c_max_packet_size conn <= max_packet_size p /\
  c_topic_alias_max conn <= topic_alias_max p /\
  c_keep_alive conn <= max_server_keep_alive p /\
  forall alias topic, c_topic_alias conn !! alias = Some topic -> alias <= topic_alias_max p.
Definition connections_wf (p : MqttClusterDynamicConfigProtocol) b : Prop :=
  forall id conn, connection_info (b_cache b) !! id = Some conn -> connection_wf p id conn.

Lemma build_connection_wf env id client cluster connect cp addr :
  0 <= max_server_keep_alive (cl_protocol cluster) ->
  connection_wf (cl_protocol cluster) id (build_connection env id client cluster connect cp addr).
Proof.
  intros Hm. unfold connection_wf, build_connection. cbn. split_and!; try done.
  - destruct cp as [q|]; [destruct (cp_max_packet_size q)|]; lia.
  - destruct cp as [q|]; [destruct (cp_topic_alias_max q)|]; lia.
  - unfold client_keep_live_time. set (k := if _ =? 0 then _ else _).
    destruct (Z.ltb_spec (max_server_keep_alive (cl_protocol cluster)) k); [|lia].
    apply Z.div_le_upper_bound; lia.
Qed.

Lemma alter_wf p f id b :
  (forall conn, connection_wf p id conn -> connection_wf p id (f conn)) ->
  connections_wf p b -> connections_wf p (upd_b_cache (upd_connection_info (alter f id)) b).
Proof.
  intros Hf Hb i conn. cbn. destruct (decide (id = i)) as [<-|Hi].
  - rewrite lookup_alter_eq, fmap_Some. intros (conn' & Hc & ->). auto.
  - rewrite lookup_alter_ne by done. apply Hb.
Qed.

Lemma move_connections_wf b0 ev cluster b b' :
  config_of b0 = Some cluster -> 0 <= max_server_keep_alive (cl_protocol cluster) ->
  core_move b0 ev b b' -> connections_wf (cl_protocol cluster) b -> connections_wf (cl_protocol cluster) b'.
Proof.
  intros Hcl Hk Hm Hb.
  destruct Hm as [b b' (_ & _ & E & _)%same_core_inv| | | | | | | | | | | | | ]; try exact Hb.
  - intros i conn. rewrite E. apply Hb.
  - assert (cluster0 = cluster) as -> by congruence. intros i conn. cbn. unfold add_connection.
    destruct (session_info _ !! _); [|apply Hb]. cbn. destruct (decide (id = i)) as [<-|Hi].
    + rewrite lookup_insert_eq. intros [= <-]. by apply build_connection_wf.
    + rewrite lookup_insert_ne by done. apply Hb.
  - by apply alter_wf.
  - assert (cluster0 = cluster) as -> by congruence. unfold add_topic_alias.
    destruct properties as [q|]; [|exact Hb]. cbn in *. destruct (pp_topic_alias q) as [alias|]; [|exact Hb].
    apply alter_wf; [|done]. intros conn (? & ? & ? & ? & Ha). split_and!; try done.
    intros alias' topic'. cbn. destruct (decide (alias = alias')) as [<-|]; [auto|].
    rewrite lookup_insert_ne by done. apply Ha.
  - by apply alter_wf.
  - intros i conn. cbn. rewrite lookup_delete_Some. intros [_ Hc]. by apply Hb.
Qed.

(** C21: Every connection that the cache holds is filed under its own number,
    and its packet size, alias limit, keep-alive and aliases stay within the
    limits of the cluster, through any run of the server in which the
    configuration of the cluster is not changed (no event of [server_run]
    changes it). *)
Theorem connections_keep_limits evs sv cluster :
  config_of (sv_broker sv) = Some cluster -> 0 <= max_server_keep_alive (cl_protocol cluster) ->
  connections_wf (cl_protocol cluster) (sv_broker sv) ->
  config_of (sv_broker (server_run evs sv)) = Some cluster /\
  connections_wf (cl_protocol cluster) (sv_broker (server_run evs sv)).
Proof.
  intros Hcl Hk. revert sv Hcl. induction evs as [|ev evs IH]; intros sv Hcl Hwf; [done|]. cbn. apply IH.
  - rewrite <- Hcl. by apply (reached_config _ ev), step_moves.
  - apply (reached_ind _ _ (connections_wf (cl_protocol cluster)) Hwf) with (2 := step_moves ev sv).
    intros b b' Hm. by eapply move_connections_wf.
Qed.
End login.

Import Sample.

Definition first_events : list Event :=
  [Accept Tcp (lit "10.0.0.1:1883"); Receive (Sample.env 100) (request (Sample.connect 4 true));
   Respond (Sample.env 100) 1 true].

Lemma login_required_witness :
  is_login 1 (b_cache (sv_broker (server_run first_events server))) = true /\
  exists before ev after, first_events = before ++ ev :: after /\ authenticates ev 1 (server_run before server).
Proof.
  assert (is_login 1 (b_cache (sv_broker (server_run first_events server))) = true) as H by (vm_compute; reflexivity).
  split; [exact H|]. apply (login_required first_events server 1); [|exact H]. intros i. reflexivity.
Defined.

Lemma connections_keep_limits_witness :
  connections_wf (cl_protocol config) (sv_broker (server_run first_events server)).
Proof.
  apply (connections_keep_limits first_events server config).
  - vm_compute. reflexivity.
  - vm_compute. discriminate.
  - intros id conn H. discriminate H.
Defined.
