(* ===== verification/PublishTheorems.v ===== *)
(** * From a PUBLISH to the log

    A PUBLISH of QoS 1 that passes the checks goes through the server, the
    handler, the validators, the access rules, the message store and the codec
    of messages: it is answered with the offset at which it was stored, and a
    read from there returns the message. *)

From Stdlib Require Import String.
From S2P Require Import Prelude Bytes RustStr Storage MemoryStorage RocksEngine MqttTypes MqttCommon MqttCodec Topics Subscriptions MessageStorage DelayMessages Acl BrokerCache Security Responses SchemaRegister Broker Service ServiceFrame Server Samples ServerCore Answers.

Section publish.
Context {S P D : Type} {SA : StorageAdapter S} {PC : PlacementCenter P} {AD : AuthStorageAdapter D}.
Context {SC : StopChannel} {MI : MapIter} {RX : RegexCrate} {RG : RegexCaptures} {IN : IpNet}.
Context {JS : Json MqttSession} {JT : Json MqttTopic} {JM : Json MqttMessage} {JW : Json LastWillData}.
Context {SX : SchemaCrates} {BC : BytesCrate} {CI : ConnectionIter}.
Context {LS : LogStore S} {JMS : JsonSpec MqttMessage}.
Abbreviation Broker := (Broker (S := S) (P := P) (D := D)).
Implicit Types (b : Broker).

(** What [publish_validator] asks of a PUBLISH of QoS 1. *)
Definition publish_fits (cluster : MqttClusterDynamicConfig) (conn : MQTTConnection) (publish : Publish)
    (properties : option PublishProperties) : Prop :=
  blen (payload publish) <= Z.min (max_packet_size (cl_protocol cluster)) (c_max_packet_size conn) /\
  ((exists q, properties = Some q /\ pp_payload_format_indicator q = Some 1) -> utf8_valid (payload publish) = true) /\
  c_receive_qos_message conn < receive_max (cl_protocol cluster) /\
  (forall alias, topic_alias_of properties = Some alias -> alias <= topic_alias_max (cl_protocol cluster)).

Lemma publish_validator_passes env p conn publish properties cluster b :
  config_of b = Some cluster -> pub_qos publish = AtLeastOnce -> publish_fits cluster conn publish properties ->
  connection_info (b_cache b) !! c_connect_id conn = Some conn ->
  publish_validator env p conn publish properties b = (Ok None, b).
Proof.
  intros Hcl Hq (Hlen & Hutf & Hrecv & Hal) Hc. unfold publish_validator. rewrite Hq.
  rewrite bool_decide_eq_false_2 by done. erewrite bind_ok; [|reflexivity]. cbv beta iota.
  erewrite bind_ok; [|by apply cluster_config_eval]. cbv zeta.
  destruct (Z.ltb_spec (Z.min (max_packet_size (cl_protocol cluster)) (c_max_packet_size conn)) (blen (payload publish)));
    [lia|].
  assert (bool_decide (match properties with Some x => pp_payload_format_indicator x | None => None end = Some 1)
    && negb (utf8_valid (payload publish)) = false) as ->.
  { case_bool_decide as Hf; [|done]. rewrite Hutf; [done|]. destruct properties; [by eexists|done]. }
  unfold bind, the_cache. rewrite Hc. cbn [is_qos_message].
  destruct (Z.leb_spec (receive_max (cl_protocol cluster)) (c_receive_qos_message conn)); [lia|].
  rewrite andb_false_r. destruct (topic_alias_of properties) as [alias|] eqn:Ea; [|done].
  specialize (Hal alias eq_refl). destruct (Z.ltb_spec (topic_alias_max (cl_protocol cluster)) alias); [lia|done].
Qed.

(** The message is stored and answered. *)
Lemma publish_store_stores env p id conn publish properties name topic cluster b log l :
  config_of b = Some cluster -> pub_qos publish = AtLeastOnce -> retain publish = false ->
  (contain_topic_subscribe (t_topic_name topic) (w_manager (b_subs b)) = true \/ cl_offline_message_enable cluster = true) ->
  is_delay_message (t_topic_name topic) = false ->
  ls_rep (b_store b) log -> ls_ns (conf_cluster env) ->
  logs log !! (conf_cluster env, t_topic_id topic) = Some l -> blen l + 2 < 2 ^ 64 ->
  let expire := build_message_expire (now_second env) (max_message_expiry_interval (cl_protocol cluster)) properties in
  exists r st,
    stored_as (calc_crc32 env) (conf_cluster env) (t_topic_id topic) log l (now_second env) (c_client_id conn)
      publish properties expire r st /\
    publish_store env p id conn publish properties name topic b =
    (Ok (Some (response_packet_mqtt_puback_success p PA_Success (pub_pkid publish)
           [(lit "offset", debug_option (Some (debug_offsets [blen l])))])),
     upd_b_cache (add_topic_alias id name properties) (upd_b_store (const st) b)).
Proof.
  intros Hcl Hq Hret Hkeep Hdelay Hr Hns Hl Hb expire.
  destruct (message_stored (calc_crc32 env) (conf_cluster env) (t_topic_id topic) (b_store b) log l (now_second env)
              (c_client_id conn) publish properties expire Hr Hns Hl Hb) as (r & st & Hst & Ea).
  exists r, st. split; [done|]. unfold publish_store. cbv zeta.
  assert (save_retain_message env name (c_client_id conn) publish properties b = (Ok tt, b)) as E1
    by (unfold save_retain_message; by rewrite Hret).
  assert (save_message env publish properties (c_client_id conn) topic b
    = (Ok (Some (debug_offsets [blen l])), upd_b_store (const st) b)) as E2.
  { assert (on_subs manager b = (Ok (w_manager (b_subs b)), b)) as Es by (by destruct b).
    unfold save_message. erewrite bind_ok; [|exact Es]. erewrite bind_ok; [|by apply cluster_config_eval].
    assert (negb (contain_topic_subscribe (t_topic_name topic) (w_manager (b_subs b))) && negb (cl_offline_message_enable cluster) = false)
      as -> by (destruct Hkeep as [-> | ->]; [done|apply andb_false_r]).
    cbv zeta. fold expire. destruct Hst as (-> & _). rewrite Hdelay. erewrite bind_ok; [reflexivity|].
    unfold on_storage, map_err. by rewrite Ea. }
  erewrite or_answer_ok; [|exact E1]. erewrite or_answer_ok; [|exact E2].
  erewrite bind_ok; [|reflexivity]. by rewrite Hq.
Qed.

Lemma publish_passes env p id conn publish properties name topic cluster b r b' :
  config_of b = Some cluster -> connection_info (b_cache b) !! id = Some conn -> c_connect_id conn = id ->
  pub_qos publish = AtLeastOnce -> publish_fits cluster conn publish properties ->
  get_topic_name id publish properties b = (Ok name, b) ->
  is_allow_acl (E := MqttBrokerError) (now_second env) (b_cache b) conn name Publish_ (retain publish) b = (Ok true, b) ->
  cm_topic_info (b_cache b) !! name = Some topic ->
  is_ok (if is_check_schema name (b_schemas b) then validate name (payload publish) (b_schemas b) else Ok true) = true ->
  publish_store env p id conn publish properties name topic b = (r, b') ->
  Service.publish env p id publish properties b = (r, b').
Proof.
  intros Hcl Hc Hid Hq Hfits Hname Hacl Htopic Hschema Hst. unfold Service.publish, bind at 1, the_cache. rewrite Hc.
  cbv zeta. erewrite bind_ok; [|eapply publish_validator_passes; [done|done|done|by rewrite Hid]].
  cbv beta iota. erewrite or_answer_ok; [|exact Hname]. unfold bind at 1. erewrite bind_ok; [|exact Hacl]. cbn [negb].
  assert (try_init_topic env name b = (Ok topic, b)) as Et
    by (unfold try_init_topic, bind, the_cache; by rewrite Htopic).
  erewrite or_answer_ok; [|exact Et]. unfold bind at 1, get.
  by destruct (if is_check_schema name (b_schemas b) then _ else _).
Qed.

(** C3: A PUBLISH of QoS 1 that is not retained, from a client that is logged
    in on a known network connection, is stored and acknowledged when it fits
    the limits ([publish_fits]), its topic name resolves, the access rules and
    the schema of the topic allow it, the topic is in the cache with a shard in
    the store and is no topic for delayed messages, and somebody subscribes to
    it or the cluster keeps messages for clients that are away.  The server
    answers with a PUBACK of the packet's identifier; an MQTT 5 client is told
    the offset in a user property, an MQTT 3/4 client is not.  The message is
    the last one of the log of the topic in every store that keeps the promise
    of [LogStore], a read from that offset returns its record and passes the
    checksum, and the record decodes to the message as it was published. *)
Theorem published_message_stored env rq publish properties b conn nc p name topic cluster log l :
  let id := rq_connection_id rq in
  let conn' := recv_qos_message_add 1 conn in
  let b1 := upd_b_cache (upd_connection_info (alter (recv_qos_message_add 1) id)) b in
  rq_packet rq = P_Publish publish properties -> pub_qos publish = AtLeastOnce -> retain publish = false ->
  b_network b !! id = Some nc -> nc_protocol nc = Some p ->
  connection_info (b_cache b) !! id = Some conn -> c_connect_id conn = id -> c_is_login conn = true ->
  config_of b = Some cluster -> publish_fits cluster conn' publish properties ->
  get_topic_name id publish properties b1 = (Ok name, b1) ->
  is_allow_acl (E := MqttBrokerError) (now_second env) (b_cache b1) conn' name Publish_ false b1 = (Ok true, b1) ->
  cm_topic_info (b_cache b) !! name = Some topic ->
  is_ok (if is_check_schema name (b_schemas b) then validate name (payload publish) (b_schemas b) else Ok true) = true ->
  (contain_topic_subscribe (t_topic_name topic) (w_manager (b_subs b)) = true \/ cl_offline_message_enable cluster = true) ->
  is_delay_message (t_topic_name topic) = false ->
  ls_rep (b_store b) log -> ls_ns (conf_cluster env) ->
  logs log !! (conf_cluster env, t_topic_id topic) = Some l -> blen l + 2 < 2 ^ 64 ->
  exists r b',
    handler_child env rq b = (Ok (Some (mkResponsePackage id
      (if is_v5 p then
         P_PubAck (mkPubAck (pub_pkid publish) (Some PA_Success))
           (Some (mkPubAckProperties None [(lit "offset", debug_option (Some (debug_offsets [blen l])))]))
       else P_PubAck (mkPubAck (pub_pkid publish) None) None))), b') /\
    stored_as (calc_crc32 env) (conf_cluster env) (t_topic_id topic) log l (now_second env) (c_client_id conn)
      publish properties
      (build_message_expire (now_second env) (max_message_expiry_interval (cl_protocol cluster)) properties)
      r (b_store b').
Proof.
  intros id conn' b1 Epkt Hq Hret Hn Hnp Hc Hid Hl Hcl Hfits Hname Hacl Htopic Hschema Hkeep Hdelay Hr Hns Hlog Hb.
  destruct (publish_store_stores env p id conn' publish properties name topic cluster b1 log l) as (r & st & Hst & E);
    try done.
  assert (connection_info (b_cache b1) !! id = Some conn') as Hc1 by (cbn; by rewrite lookup_alter_eq, Hc).
  rewrite <- Hret in Hacl.
  pose proof (publish_passes env p id conn' publish properties name topic cluster b1 _ _ Hcl Hc1 Hid Hq Hfits Hname
                Hacl Htopic Hschema E) as Ep.
  set (ans := response_packet_mqtt_puback_success p PA_Success (pub_pkid publish) _) in *.
  set (b' := upd_b_cache (upd_connection_info (alter (recv_qos_message_add (-1)) id))
              (upd_b_cache (add_topic_alias id name properties) (upd_b_store (const st) b1))).
  exists r, b'. split; [|exact Hst].
  assert (apply env id (Some p) (rq_addr rq) (P_Publish publish properties) b = (Ok (Some ans), b')) as Ea.
  { unfold apply, bind at 1, the_cache. unfold is_login. rewrite Hc, Hl. cbn [negb].
    unfold apply_publish, bind at 1, the_cache. rewrite Hc. unfold is_qos_message. rewrite Hq.
    rewrite bool_decide_eq_false_2 by done. cbn [negb]. erewrite bind_ok; [|reflexivity]. fold b1.
    erewrite bind_ok; [|exact Ep]. unfold ans, response_packet_mqtt_puback_success. by destruct (negb (is_v5 p)). }
  unfold handler_child, bind at 1, get. fold id. rewrite Hn, Epkt, Hnp. unfold bind. rewrite Ea.
  unfold ans, response_packet_mqtt_puback_success. by destruct (is_v5 p).
Qed.
End publish.

Import Sample.

(** The client of the sample, over MQTT 5. *)
Definition connected5 := upd_b_network (insert 1 (mkNetworkConnection Tcp 1 (Some Mqtt5) (lit "10.0.0.1:1883"))) (sv_broker connected).

Lemma published_message_stored_witness :
  exists r b', handler_child (Sample.env 101) (request (message AtLeastOnce 5)) connected5
    = (Ok (Some (mkResponsePackage 1 (P_PubAck (mkPubAck 5 (Some PA_Success)) (Some (mkPubAckProperties None
         [(lit "offset", lit "Some(" ++ [34] ++ lit "[0]" ++ [34] ++ lit ")")]))))), b') /\
    read_topic_message (fun b => blen b) (lit "k") (lit "t") 0 1 (b_store b') = (Ok [set_offset 0 r], b_store b').
Proof.
  destruct (connection_info (b_cache connected5) !! 1) as [conn|] eqn:E; [|vm_compute in E; discriminate E].
  destruct (published_message_stored (Sample.env 101) (request (message AtLeastOnce 5))
              (mkPublish false AtLeastOnce 5 false (lit "/a") [104; 105]) None connected5 conn
              (mkNetworkConnection Tcp 1 (Some Mqtt5) (lit "10.0.0.1:1883")) Mqtt5 (lit "/a") Sample.topic config
              (spec_create (lit "k", lit "t") (mkLogSpec ∅ ∅)) []) as (r & b' & H1 & _ & _ & H2 & _).
  all: try (vm_compute; reflexivity).
  all: try exact E.
  all: try (vm_compute in E; injection E as <-; vm_compute; reflexivity).
  - vm_compute in E. injection E as <-. split_and!;
      [vm_compute; discriminate|by intros (? & ? & _)|vm_compute; reflexivity|by intros alias [=]].
  - right. reflexivity.
  - destruct (mem_create_refines MemoryStorageAdapter_new (mkLogSpec ∅ ∅) (mkShardInfo (lit "k") (lit "t") 1))
      as (s' & Es & Hr); [apply mem_rep_new|by apply (bool_decide_unpack _)|]. injection Es as <-. exact Hr.
  - by apply (bool_decide_unpack _).
  - exists r, b'. split; [exact H1|exact H2].
Defined.
