(* ===== verification/QosTheorems.v ===== *)
(** * QoS 2 messages of clients

    An identifier that is recorded for a client stays recorded until the client
    releases it, and a PUBLISH that repeats it stores nothing; the counter of
    unacknowledged messages, on the other hand, drifts. *)

From Stdlib Require Import String.
From S2P Require Import Prelude Bytes RustStr Storage MemoryStorage RocksEngine MqttTypes MqttCommon MqttCodec Topics Subscriptions MessageStorage DelayMessages Acl BrokerCache Security Responses SchemaRegister Broker Service ServiceFrame Server Samples ServerCore Answers.

Lemma key_inj client client' k k' :
  0 <= k < 2 ^ 16 -> 0 <= k' < 2 ^ 16 -> key client k = key client' k' -> client = client' /\ k = k'.
Proof.
  intros Hk Hk' E. unfold key in E. change (lit "_") with [95] in E.
  assert (forall n, 95 ∉ decimal n) as Hd.
  { intros n H. pose proof (decimal_loop_digits 20 n) as Hf. rewrite Forall_forall in Hf. apply Hf in H. lia. }
  apply app_sep_inj in E as [-> E]; [|apply Hd..]. split; [done|]. apply decimal_inj in E; lia.
Qed.

Section qos.
Context {S P D : Type} {SA : StorageAdapter S} {PC : PlacementCenter P} {AD : AuthStorageAdapter D}.
Context {SC : StopChannel} {MI : MapIter} {RX : RegexCrate} {RG : RegexCaptures} {IN : IpNet}.
Context {JS : Json MqttSession} {JT : Json MqttTopic} {JM : Json MqttMessage} {JW : Json LastWillData}.
Context {SX : SchemaCrates} {BC : BytesCrate} {CI : ConnectionIter}.
Abbreviation Broker := (Broker (S := S) (P := P) (D := D)).
Abbreviation Server := (Server (S := S) (P := P) (D := D)).
Implicit Types (b : Broker) (sv : Server).

Definition recorded (client : bytes) (k : Z) b : Prop := is_some (get_client_pkid client k (b_cache b)) = true.

(** The event is a PUBREL of that client for that identifier. *)
Definition releases (client : bytes) (k : Z) sv (ev : Event) : Prop :=
  exists env id rel properties,
    requests ev env id (P_PubRel rel properties) /\ pl_pkid rel = k /\ client_of id (sv_broker sv) = Some client.
(** Identifiers on the wire have 16 bits. *)
Definition rel_u16 (ev : Event) : Prop :=
  forall env id rel properties, requests ev env id (P_PubRel rel properties) -> 0 <= pl_pkid rel < 2 ^ 16.

Lemma step_recorded client k ev sv :
  0 <= k < 2 ^ 16 -> rel_u16 ev -> ~ releases client k sv ev ->
  recorded client k (sv_broker sv) -> recorded client k (sv_broker (server_step ev sv)).
Proof.
  intros Hk Hev Hno Hr. apply (reached_ind _ _ (recorded client k) Hr) with (2 := step_moves ev sv).
  intros b b' Hm. unfold recorded, get_client_pkid.
  destruct Hm as [b b' (_ & _ & _ & _ & -> & _)%same_core_inv| | | | | | | | | | | | | ]; cbn; try done.
  - unfold add_connection. by destruct (session_info _ !! _).
  - unfold add_topic_alias. destruct properties as [q|]; [|done]. by destruct (pp_topic_alias q).
  - destruct (decide (key client0 (pub_pkid publish) = key client k)) as [->|];
      [by rewrite lookup_insert_eq|by rewrite lookup_insert_ne].
  - rewrite lookup_delete_ne; [done|]. intros E.
    apply key_inj in E as [-> Ek]; [|by eapply Hev|done]. destruct Hno. by exists env, id, rel, properties.
Qed.

(** A PUBLISH whose identifier is recorded. *)
Lemma repeated_publish env rq publish properties conn nc p cluster b :
  config_of b = Some cluster -> client_pkid_persistent (cl_protocol cluster) = false ->
  recorded (c_client_id conn) (pub_pkid publish) b ->
  rq_packet rq = P_Publish publish properties -> pub_qos publish = ExactlyOnce ->
  connection_info (b_cache b) !! rq_connection_id rq = Some conn -> c_is_login conn = true ->
  b_network b !! rq_connection_id rq = Some nc -> nc_protocol nc = Some p ->
  handler_child env rq b =
  (Ok (Some (mkResponsePackage (rq_connection_id rq)
         (response_packet_mqtt_pubrec_fail p conn (pub_pkid publish) PR_PacketIdentifierInUse None))),
   upd_b_cache (upd_connection_info (alter (recv_qos_message_add 1) (rq_connection_id rq))) b).
Proof.
  intros Hcl Hp Hr Epkt Hq Hc Hl Hn Hnp. unfold handler_child, bind at 1, get. rewrite Hn, Epkt, Hnp.
  set (id := rq_connection_id rq) in *.
  assert (apply env id (Some p) (rq_addr rq) (P_Publish publish properties) b =
    apply_publish env id (Some p) publish properties b) as Ea.
  { unfold apply, bind at 1, the_cache. unfold is_login. by rewrite Hc, Hl. }
  unfold bind at 1. rewrite Ea. unfold apply_publish, bind at 1, the_cache. rewrite Hc. clear Ea.
  unfold is_qos_message. rewrite Hq.
  set (b1 := upd_b_cache (upd_connection_info (alter (recv_qos_message_add 1) id)) b).
  assert (publish_validator env p (recv_qos_message_add 1 conn) publish properties b1
    = (Ok (Some (response_packet_mqtt_pubrec_fail p (recv_qos_message_add 1 conn) (pub_pkid publish)
                   PR_PacketIdentifierInUse None)), b1)) as Ev.
  { unfold publish_validator. rewrite Hq. rewrite bool_decide_eq_true_2 by done.
    unfold attempt, bind at 1, pkid_exists, bind at 1, cluster_config, bind at 1, the_cache, get_cluster_info.
    unfold config_of in Hcl. cbn. rewrite Hcl. cbn. rewrite Hp. unfold recorded, get_client_pkid in *. cbn.
    destruct (client_pkid_data (b_cache b) !! _) as [d|]; [done|]. by cbn in Hr. }
  assert (Service.publish env p id publish properties b1
    = (Ok (Some (response_packet_mqtt_pubrec_fail p conn (pub_pkid publish) PR_PacketIdentifierInUse None)), b1)) as Es.
  { unfold Service.publish, bind at 1, the_cache. cbn [b_cache b1 upd_b_cache upd_connection_info connection_info].
    rewrite lookup_alter_eq, Hc. cbn. rewrite (bind_ok _ _ _ _ _ Ev). rewrite Hq.
    rewrite bool_decide_eq_false_2 by done. by unfold response_packet_mqtt_pubrec_fail, problem; repeat case_match. }
  rewrite bool_decide_eq_false_2 by done. cbn [negb].
  erewrite bind_ok; [|reflexivity]. change (with_cache _ b).2 with b1. fold b1.
  erewrite bind_ok; [|exact Es]. unfold response_packet_mqtt_pubrec_fail. by destruct (negb (is_v5 p)).
Qed.

(** C14: In a cluster that keeps the identifiers of QoS 2 messages itself, an
    identifier that is recorded for a client stays recorded through any run in
    which the client does not release it with a PUBREL; and a PUBLISH of the
    client that repeats it is answered with a PUBREC and stores nothing: it
    changes neither the messages, nor the delayed messages, nor what the
    placement center holds. *)
Theorem qos2_stored_once evs sv client k cluster :
  config_of (sv_broker sv) = Some cluster -> client_pkid_persistent (cl_protocol cluster) = false ->
  0 <= k < 2 ^ 16 -> recorded client k (sv_broker sv) ->
  (forall before ev after, evs = before ++ ev :: after ->
     rel_u16 ev /\ ~ releases client k (server_run before sv) ev) ->
  let b := sv_broker (server_run evs sv) in
  recorded client k b /\
  forall env rq publish properties conn nc p,
    rq_packet rq = P_Publish publish properties -> pub_qos publish = ExactlyOnce -> pub_pkid publish = k ->
    connection_info (b_cache b) !! rq_connection_id rq = Some conn -> c_client_id conn = client ->
    c_is_login conn = true ->
    b_network b !! rq_connection_id rq = Some nc -> nc_protocol nc = Some p ->
    exists b',
      handler_child env rq b = (Ok (Some (mkResponsePackage (rq_connection_id rq)
        (response_packet_mqtt_pubrec_fail p conn k PR_PacketIdentifierInUse None))), b') /\
      b_store b' = b_store b /\ b_delay b' = b_delay b /\ b_placement b' = b_placement b.
Proof.
  intros Hcl Hp Hk Hr Hevs.
  assert (recorded client k (sv_broker (server_run evs sv)) /\
          config_of (sv_broker (server_run evs sv)) = Some cluster) as [Hr' Hcl'].
  { revert Hevs. induction evs as [|ev evs IH] using rev_ind; [done|]. intros Hevs.
    destruct IH as [IHr IHc].
    { intros before e after ->. apply (Hevs before e (after ++ [ev])). by rewrite <- app_assoc. }
    unfold server_run. rewrite foldl_app. cbn. fold (server_run evs sv).
    destruct (Hevs evs ev [] eq_refl) as [Hu Hno]. split; [by apply step_recorded|].
    rewrite <- IHc. by apply (reached_config _ ev), step_moves. }
  intros b. split; [done|]. intros env rq publish properties conn nc p Epkt Hq <- Hc <- Hl Hn Hnp.
  eexists. split; [by eapply repeated_publish|]. done.
Qed.

(** ** The counter of unacknowledged messages *)

Definition counter (id : Z) b : option Z := c_receive_qos_message <$> connection_info (b_cache b) !! id.
#[local] Instance counter_core id o : CoreInv (fun b => counter id b = o).
Proof. intros b b' (_ & _ & E & _)%same_core_inv. unfold counter. by rewrite E. Qed.

Lemma counter_add id n b b' o :
  recv_qos_add id n b = (o, b') -> counter id b' = (fun m => m + n) <$> counter id b.
Proof.
  intros [= _ <-]. unfold counter. cbn. rewrite lookup_alter_eq. by destruct (connection_info _ !! id).
Qed.
Lemma counter_alias i id topic properties b :
  counter i (upd_b_cache (add_topic_alias id topic properties) b) = counter i b.
Proof.
  unfold counter. cbn. unfold add_topic_alias. destruct properties as [q|]; [|done].
  destruct (pp_topic_alias q); [|done]. cbn. destruct (decide (id = i)) as [<-|]; [|by rewrite lookup_alter_ne].
  rewrite lookup_alter_eq. by destruct (connection_info _ !! id).
Qed.
Lemma publish_counter env protocol id publish properties i o :
  keeps (fun b => counter i b = o) (Service.publish env protocol id publish properties).
Proof.
  unfold Service.publish, publish_store, pkid_save. keeps_tac; first [done|by rewrite counter_alias].
Qed.
Lemma counter_of_publish env id p publish properties b a q b' :
  is_qos_message (pub_qos publish) = true ->
  apply_publish env id (Some p) publish properties b = (Ok (Some (P_PubRec a q)), b') ->
  counter id b' = (fun n => n + 1) <$> counter id b.
Proof.
  intros Hq H. unfold apply_publish in H. apply bind_inv in H as (c & b1 & [= <- <-] & H).
  destruct (connection_info (b_cache b) !! id); [|revert H; unfold response_packet_mqtt_distinct_by_reason; by destruct p].
  rewrite Hq in H. apply bind_inv in H as ([] & b1 & E1 & H). apply bind_inv in H as (resp & b2 & E2 & H).
  apply bind_inv in H as (? & b3 & E3 & [= -> <-]). injection E3 as _ <-.
  rewrite <- (counter_add _ _ _ _ _ E1).
  by apply (keeps_state _ _ _ _ _ (publish_counter env p id publish properties id (counter id b1)) eq_refl) in E2.
Qed.
Lemma counter_of_release env id p rel cluster client b a b' :
  config_of b = Some cluster -> client_pkid_persistent (cl_protocol cluster) = false ->
  client_of id b = Some client -> recorded client (pl_pkid rel) b ->
  publish_rel env p id rel b = (Ok a, b') -> counter id b' = (fun n => n - 2) <$> counter id b.
Proof.
  intros Hcl Hp Hc Hr H. unfold publish_rel in H. apply bind_inv in H as (c & b1 & [= <- <-] & H).
  unfold client_of in Hc. destruct (connection_info (b_cache b) !! id) as [conn|] eqn:Econn; [|done].
  injection Hc as <-. cbv zeta in H.
  assert (cluster_config b = (Ok cluster, b)) as Ecl.
  { unfold cluster_config, bind, the_cache, get_cluster_info. unfold config_of in Hcl. by rewrite Hcl. }
  assert (pkid_exists env (c_client_id conn) (pl_pkid rel) b = (Ok true, b)) as Ee.
  { unfold pkid_exists. rewrite (bind_ok _ _ _ _ _ Ecl), Hp. unfold bind, the_cache. by rewrite Hr. }
  set (b1 := upd_b_cache (delete_client_pkid (c_client_id conn) (pl_pkid rel)) b).
  assert (pkid_delete env (c_client_id conn) (pl_pkid rel) b = (Ok tt, b1)) as Ed.
  { unfold pkid_delete. by rewrite (bind_ok _ _ _ _ _ Ecl), Hp. }
  apply or_answer_inv in H as [(e & E & _)|(res & b2 & E & H)]; rewrite Ee in E; [done|]. injection E as <- <-.
  cbn [negb] in H.
  apply or_answer_inv in H as [(e & E & _)|([] & b2 & E & H)]; rewrite Ed in E; [done|]. injection E as <-.
  apply bind_inv in H as ([] & b2 & E1 & H). apply bind_inv in H as ([] & b3 & E2 & [= _ <-]).
  rewrite (counter_add _ _ _ _ _ E2), (counter_add _ _ _ _ _ E1).
  change (counter id b1) with (counter id b). destruct (counter id b); [|done]. cbn. f_equal. lia.
Qed.

Lemma handled_apply env rq b pkg b' nc p :
  b_network b !! rq_connection_id rq = Some nc -> nc_protocol nc = Some p ->
  handler_child env rq b = (Ok (Some pkg), b') ->
  apply env (rq_connection_id rq) (Some p) (rq_addr rq) (rq_packet rq) b = (Ok (Some (rs_packet pkg)), b').
Proof.
  intros Hn Hnp H. unfold handler_child in H. apply bind_inv in H as (? & b1 & [= <- <-] & H). rewrite Hn, Hnp in H.
  apply bind_inv in H as ([resp|] & b1 & E & [= Epkg <-]). by rewrite E, <- Epkg.
Qed.
Lemma apply_logged_in env id p addr packet b r :
  is_login id (b_cache b) = true -> apply env id (Some p) addr packet b = r ->
  match packet with
  | P_Publish publish properties => apply_publish env id (Some p) publish properties b = r
  | P_PubRel rel _ => (let! x := publish_rel env p id rel in ret (Some x)) b = r
  | _ => True
  end.
Proof.
  intros Hl. unfold apply, bind at 1, the_cache. rewrite Hl. by destruct packet.
Qed.

(** A complete exchange of a QoS 2 message leaves the counter of
    unacknowledged messages of the connection one lower than before: the
    PUBLISH that is answered with a PUBREC counts up once, the PUBREL that
    releases it counts down twice.  The counter does not return to its value,
    and the receive maximum that is checked against it is not enforced. *)
Theorem qos2_exchange_lowers_counter env env' rq rq' publish properties rel relp b a q b1 pkg b2 nc p cluster client :
  let id := rq_connection_id rq in
  rq_packet rq = P_Publish publish properties -> pub_qos publish = ExactlyOnce ->
  b_network b !! id = Some nc -> nc_protocol nc = Some p -> is_login id (b_cache b) = true ->
  handler_child env rq b = (Ok (Some (mkResponsePackage id (P_PubRec a q))), b1) ->
  rq_connection_id rq' = id -> rq_packet rq' = P_PubRel rel relp ->
  b_network b1 !! id = Some nc -> is_login id (b_cache b1) = true ->
  config_of b1 = Some cluster -> client_pkid_persistent (cl_protocol cluster) = false ->
  client_of id b1 = Some client -> recorded client (pl_pkid rel) b1 ->
  handler_child env' rq' b1 = (Ok (Some pkg), b2) ->
  counter id b2 = (fun n => n - 1) <$> counter id b.
Proof.
  intros id Epkt Hq Hn Hnp Hl H1 Eid Epkt' Hn1 Hl1 Hcl Hp Hc Hr H2.
  apply (handled_apply _ _ _ _ _ _ _ Hn Hnp), (apply_logged_in _ _ _ _ _ _ _ Hl) in H1. rewrite Epkt in H1.
  apply counter_of_publish in H1; [|by rewrite Hq].
  rewrite <- Eid in Hn1, Hl1, Hc.
  apply (handled_apply _ _ _ _ _ _ _ Hn1 Hnp), (apply_logged_in _ _ _ _ _ _ _ Hl1) in H2. rewrite Epkt' in H2.
  apply bind_inv in H2 as (ans & b3 & E & [= _ <-]).
  apply (counter_of_release _ _ _ _ _ _ _ _ _ Hcl Hp Hc Hr) in E. rewrite Eid in E.
  rewrite E, H1. destruct (counter id b); [|done]. cbn. f_equal. lia.
Qed.
End qos.

Import Sample.

Definition qos2 : Publish := mkPublish false ExactlyOnce 7 false (lit "/a") [104; 105].

Lemma qos2_stored_once_witness :
  let b := sv_broker (server_run [Receive (Sample.env 102) (request P_PingReq)] published) in
  recorded (lit "c") 7 b /\
  exists conn b', handler_child (Sample.env 103) (request (message ExactlyOnce 7)) b =
    (Ok (Some (mkResponsePackage 1 (response_packet_mqtt_pubrec_fail Mqtt4 conn 7 PR_PacketIdentifierInUse None))), b')
    /\ b_store b' = b_store b.
Proof.
  intros b.
  destruct (qos2_stored_once [Receive (Sample.env 102) (request P_PingReq)] published (lit "c") 7 config) as [H1 H2].
  - vm_compute. reflexivity.
  - vm_compute. reflexivity.
  - lia.
  - vm_compute. reflexivity.
  - intros [|? [|? ?]] ev after [= <- <-]. split.
    + intros ???? (? & [= _ <-] & _ & Hp). discriminate Hp.
    + intros (? & ? & ? & ? & (? & [= _ <-] & _ & Hp) & _). discriminate Hp.
  - split; [exact H1|]. destruct (connection_info (b_cache b) !! 1) as [conn|] eqn:E; [|vm_compute in E; discriminate E].
    exists conn. destruct (H2 (Sample.env 103) (request (message ExactlyOnce 7)) qos2 None conn
      (mkNetworkConnection Tcp 1 (Some Mqtt4) (lit "10.0.0.1:1883")) Mqtt4) as (b' & Hb & Hs & _).
    + reflexivity.
    + reflexivity.
    + reflexivity.
    + exact E.
    + vm_compute in E. injection E as <-. reflexivity.
    + vm_compute in E. injection E as <-. reflexivity.
    + vm_compute. reflexivity.
    + reflexivity.
    + exists b'. split; [exact Hb|exact Hs].
Defined.

Definition release : MqttPacket := P_PubRel (mkPubRel 7 None) None.

Lemma qos2_exchange_lowers_counter_witness :
  counter 1 (handler_child (Sample.env 102) (request release)
    (handler_child (Sample.env 101) (request (message ExactlyOnce 7)) (sv_broker connected)).2).2 = Some (-1).
Proof.
  etransitivity.
  - eapply (qos2_exchange_lowers_counter (Sample.env 101) (Sample.env 102) (request (message ExactlyOnce 7))
             (request release) qos2 None (mkPubRel 7 None) None (sv_broker connected) (mkPubRec 7 None) None
             (handler_child (Sample.env 101) (request (message ExactlyOnce 7)) (sv_broker connected)).2
             (mkResponsePackage 1 (P_PubComp (mkPubComp 7 None) None)) _
             (mkNetworkConnection Tcp 1 (Some Mqtt4) (lit "10.0.0.1:1883")) Mqtt4 config (lit "c")).
    all: vm_compute; reflexivity.
  - vm_compute. reflexivity.
Defined.
