(* ===== verification/ServerDeviations.v ===== *)
(** * Where the server falls short

    Runs of the server in which a client is not treated as the protocol or the
    code's own comments promise: a refused client that stops the answers to
    everybody, a client that is dropped while it sends, and sessions that are
    resumed exactly when they must not be. *)

From Stdlib Require Import String.
From S2P Require Import Prelude Bytes RustStr Storage MemoryStorage RocksEngine MqttTypes MqttCommon MqttCodec Topics Subscriptions MessageStorage DelayMessages Acl BrokerCache Security Responses ResponseEncoding SchemaRegister Broker Service ServiceFrame Server Samples ServerCore Answers.

(** ** The response queue *)

(** No answer waits, the first response task is gone, and the dispatcher is
    past the last one. *)
Definition silenced (rp : ResponseProcess) : Prop :=
  (forall i w, process_handler rp !! i = Some w -> wk_queue w = []) /\
  (forall w, process_handler rp !! 1 = Some w -> wk_alive w = false) /\
  Z.of_nat (size (process_handler rp)) < response_process_seq rp.

Lemma silenced_dispatch pkg rp : silenced rp -> silenced (response_dispatch pkg rp).
Proof.
  intros H. pose proof H as (Hq & H1 & Hs). unfold response_dispatch. apply Z.ltb_lt in Hs as Hs'. rewrite Hs'.
  destruct (process_handler rp !! 1) as [w|] eqn:E; [|exact H]. rewrite (H1 w eq_refl). cbn [negb].
  split_and!; cbn.
  - intros i w'. rewrite lookup_delete_Some. intros [_ Hi]. by eapply Hq.
  - intros w'. by rewrite lookup_delete_eq.
  - rewrite map_size_delete, E. lia.
Qed.

Section deviations.
Context {S P D : Type} {SA : StorageAdapter S} {PC : PlacementCenter P} {AD : AuthStorageAdapter D}.
Context {SC : StopChannel} {MI : MapIter} {RX : RegexCrate} {RG : RegexCaptures} {IN : IpNet}.
Context {JS : Json MqttSession} {JT : Json MqttTopic} {JM : Json MqttMessage} {JW : Json LastWillData}.
Context {SX : SchemaCrates} {BC : BytesCrate} {CI : ConnectionIter}.
Abbreviation Broker := (Broker (S := S) (P := P) (D := D)).
Abbreviation Server := (Server (S := S) (P := P) (D := D)).
Implicit Types (b : Broker) (sv : Server).

(** Turns of the tasks that serve requests. *)
Definition serves (ev : Event) : bool := match ev with CheckHeartbeats _ _ => false | _ => true end.

Lemma silenced_step ev sv :
  serves ev = true -> silenced (sv_responses sv) ->
  silenced (sv_responses (server_step ev sv)) /\ sv_sent (server_step ev sv) = sv_sent sv.
Proof.
  intros Hev Hs. destruct ev as [ty addr|env rq|env index taken|env taken]; try done; cbn [server_step].
  - unfold receive. destruct (handler_child env rq _) as [[[pkg|]| | |] b]; try done.
    split; [by apply silenced_dispatch|done].
  - unfold respond. destruct (process_handler (sv_responses sv) !! index) as [[alive queue]|] eqn:E; [|done].
    destruct Hs as (Hq & ?). apply Hq in E as E'. cbn in E'. subst queue. by destruct alive.
Qed.
Lemma silenced_run evs sv :
  forallb serves evs = true -> silenced (sv_responses sv) -> sv_sent (server_run evs sv) = sv_sent sv.
Proof.
  revert sv. induction evs as [|ev evs IH]; intros sv; [done|]. cbn. intros [Hev Hevs]%andb_true_iff Hs.
  destruct (silenced_step ev sv Hev Hs) as [Hs' <-]. by apply IH.
Qed.

(** The answer to a request before the login. *)
Lemma unauthenticated_answer env rq nc b :
  b_network b !! rq_connection_id rq = Some nc -> is_login (rq_connection_id rq) (b_cache b) = false ->
  (forall level connect cp lw lwp login, rq_packet rq <> P_Connect level connect cp lw lwp login) ->
  handler_child env rq b = (Ok (Some (mkResponsePackage (rq_connection_id rq)
    (response_packet_mqtt_distinct_by_reason Mqtt5 (Some DR_NotAuthorized)))), b).
Proof.
  intros Hn Hl Hp. unfold handler_child, bind at 1, get. rewrite Hn. unfold bind at 1, apply, bind at 1, the_cache.
  destruct (rq_packet rq); try (rewrite Hl; done). by edestruct Hp.
Qed.
(** The MQTT 3 encoder unwinds on it. *)
Lemma unauthenticated_unwinds p :
  p <> Mqtt5 ->
  encode_data (mkMqttPacketWrapper (u8_of_MqttProtocol p)
    (response_packet_mqtt_distinct_by_reason Mqtt5 (Some DR_NotAuthorized))) [] = (Panic, []).
Proof. by destruct p. Qed.

(** C38: One client of MQTT 3.1.1 that was refused and sends another packet
    stops the answers to all clients of a TCP listener, whose connections share
    the queue of answers.  Once as many answers were dispatched as there are
    response tasks, all answers go to the first task; it unwinds while it
    encodes the DISCONNECT for the client, which is built for MQTT 5; and from
    then on no request of any client of the listener is answered. *)
Theorem refused_client_silences_server sv env env' taken rq nc p evs :
  (forall i w, process_handler (sv_responses sv) !! i = Some w -> wk_queue w = []) ->
  process_handler (sv_responses sv) !! 1 = Some (mkWorker true []) ->
  Z.of_nat (size (process_handler (sv_responses sv))) < response_process_seq (sv_responses sv) < 2 ^ 64 - 1 ->
  b_network (sv_broker sv) !! rq_connection_id rq = Some nc -> nc_protocol nc = Some p -> p <> Mqtt5 ->
  is_login (rq_connection_id rq) (b_cache (sv_broker sv)) = false ->
  (forall level connect cp lw lwp login, rq_packet rq <> P_Connect level connect cp lw lwp login) ->
  forallb serves evs = true ->
  sv_sent (server_run (Receive env rq :: Respond env' 1 taken :: evs) sv) = sv_sent sv.
Proof.
  intros Hq H1 Hs Hn Hnp Hp Hl Hpkt Hevs. cbn [server_run foldl].
  set (sv1 := server_step (Receive env rq) sv).
  set (pkg := mkResponsePackage (rq_connection_id rq)
                (response_packet_mqtt_distinct_by_reason Mqtt5 (Some DR_NotAuthorized))).
  assert (sv_broker sv1 = sv_broker sv /\ sv_sent sv1 = sv_sent sv /\ process_handler (sv_responses sv1)
    = <[1 := mkWorker true [pkg]]> (process_handler (sv_responses sv)) /\
    response_process_seq (sv_responses sv1) = response_process_seq (sv_responses sv) + 1) as (Eb & Esent & Eh & Eseq).
  { unfold sv1. cbn [server_step]. unfold receive. rewrite (unauthenticated_answer _ _ _ _ Hn Hl Hpkt).
    cbn [sv_responses]. unfold response_dispatch. destruct Hs as [Hs Hs']. apply Z.ltb_lt in Hs as Hs2.
    rewrite Hs2, H1. cbn. split_and!; try done. rewrite wrap64_small; [done|]. lia. }
  assert (server_step (Respond env' 1 taken) sv1 =
    mkServer (sv_broker sv) (mkResponseProcess (<[1 := mkWorker false []]> (process_handler (sv_responses sv)))
      (response_process_seq (sv_responses sv) + 1)) (sv_next_connection_id sv1) (sv_sent sv)) as ->.
  { cbn [server_step]. unfold respond. rewrite Eh, lookup_insert_eq, Eb, Eseq, Esent.
    assert (response_child env' taken pkg (sv_broker sv) = (Panic, sv_broker sv)) as ->; [|cbn; by rewrite insert_insert_eq].
    unfold response_child, bind at 1, get, get_connect_protocol. cbn [rs_connection_id pkg]. rewrite Hn, Hnp.
    unfold bind, write_frame. cbn [rs_packet pkg]. by rewrite (unauthenticated_unwinds p Hp). }
  etransitivity; [apply (silenced_run evs); [done|]|done]. split_and!; cbn.
  - intros i w. rewrite lookup_insert_Some. intros [[_ <-]|[_ Hi]]; [done|by eapply Hq].
  - intros w. rewrite lookup_insert_eq. by intros [= <-].
  - rewrite map_size_insert, H1. unfold id. lia.
Qed.

(** ** Heartbeats *)

(** The event is a PINGREQ of the client, or a CONNECT of the client or on the
    connection [id]. *)
Definition hears (client : bytes) (id : Z) sv (ev : Event) : Prop :=
  exists env i p, requests ev env i p /\
    (p = P_PingReq /\ client_of i (sv_broker sv) = Some client \/
     exists level connect cp lw lwp login, p = P_Connect level connect cp lw lwp login /\
       (i = id \/ (get_client_id env (client_id connect)).1 = client)).

(** The heartbeat of the client of connection [id]. *)
Definition beats_at (client : bytes) (id : Z) (time : ConnectionLiveTime) b : Prop :=
  heartbeat_data (b_cache b) !! client = Some time /\
  forall conn, connection_info (b_cache b) !! id = Some conn -> c_client_id conn = client.

Lemma alter_beats_at client id time f i b :
  (forall conn, c_client_id (f conn) = c_client_id conn) ->
  beats_at client id time b -> beats_at client id time (upd_b_cache (upd_connection_info (alter f i)) b).
Proof.
  intros Hf [Hb Hc]. split; [done|]. intros conn. cbn. destruct (decide (i = id)) as [->|].
  - rewrite lookup_alter_eq, fmap_Some. intros (conn' & Hi & ->). rewrite Hf. auto.
  - rewrite lookup_alter_ne by done. auto.
Qed.

Lemma add_connection_beats_at client id time i conn b :
  i <> id -> beats_at client id time b -> beats_at client id time (upd_b_cache (add_connection i conn) b).
Proof.
  intros Hi [Hb Hc]. unfold beats_at. cbn. unfold add_connection.
  destruct (session_info (b_cache b) !! c_client_id conn); [|done]. cbn. by rewrite lookup_insert_ne.
Qed.

Lemma step_beats_at client id time ev sv :
  serves ev = true -> ~ hears client id sv ev ->
  beats_at client id time (sv_broker sv) -> beats_at client id time (sv_broker (server_step ev sv)).
Proof.
  intros Hev Hno H0. apply (reached_ind _ _ (beats_at client id time) H0) with (2 := step_moves ev sv).
  intros b b' Hm Hb.
  destruct Hm as [b b' (_ & _ & E1 & E2 & _)%same_core_inv| | | | | | | |b env i p cl live Hr Hp| | | | | ]; subst; try done.
  - unfold beats_at. by rewrite E1, E2.
  - apply add_connection_beats_at; [|done]. intros ->. apply Hno. eexists _, _, _. split; [done|].
    right. eexists _, _, _, _, _, _. split; [done|]. by left.
  - by apply alter_beats_at.
  - unfold add_topic_alias. destruct properties as [q|]; [|done]. destruct (pp_topic_alias q); [|done].
    by apply alter_beats_at.
  - by apply alter_beats_at.
  - destruct Hb as [Hb Hc]. split; [|done]. cbn. rewrite lookup_insert_ne; [done|]. intros ->. apply Hno.
    exists env, i, p. split; [done|]. destruct Hp as [Hp|(level & connect & cp & lw & lwp & login & -> & Hp)]; [by left|].
    right. eexists _, _, _, _, _, _. split; [done|]. by right.
  - destruct Hb as [Hb Hc]. split; [done|]. intros conn. cbn. rewrite lookup_delete_Some. intros [_ Hi]. auto.
Qed.

(** *** The check *)

Definition expired (env : Env) (time : ConnectionLiveTime) : Prop :=
  keep_live_time (lt_keep_live time) <= wrap64 (now_second env - lt_heartbeat time).
(** A connection that is gone, or that no longer has a socket. *)
Definition gone (id : Z) b : Prop :=
  connection_info (b_cache b) !! id = None \/ b_network b !! id = None.
#[local] Instance gone_core id : CoreInv (gone id).
Proof. intros b b' (_ & _ & E1 & _ & _ & E2)%same_core_inv. unfold gone. by rewrite E1, E2. Qed.
#[local] Instance no_connection_core id : CoreInv (fun b => connection_info (b_cache b) !! id = None).
Proof. intros b b' (_ & _ & E1 & _)%same_core_inv. by rewrite E1. Qed.
#[local] Instance connections_core m n : CoreInv (fun b => connection_info (b_cache b) = m /\ b_network b = n).
Proof. intros b b' (_ & _ & E1 & _ & _ & E2)%same_core_inv. by rewrite E1, E2. Qed.

Lemma expire_connections_found env client time id conn l ids b b' :
  heartbeat_data (b_cache b) !! client = Some time -> expired env time ->
  (id, conn) ∈ l -> c_client_id conn = client -> expire_connections env l b = (Ok ids, b') -> id ∈ ids.
Proof.
  intros Hb Hx Hin Hc. revert ids b b' Hb. induction l as [|[j conn'] l IH]; intros ids b b' Hb; [set_solver|].
  cbn [expire_connections]. intros H. apply bind_inv in H as (c & b1 & [= <- <-] & H).
  apply elem_of_cons in Hin as [[= <- <-]|Hin].
  - rewrite Hc, Hb in H. apply bind_inv in H as (rest & b1 & _ & [= <- _]).
    unfold expired in Hx. apply Z.leb_le in Hx. rewrite Hx. by left.
  - destruct (heartbeat_data (b_cache b) !! c_client_id conn') as [time'|] eqn:Et.
    + apply bind_inv in H as (rest & b1 & E & [= <- _]). pose proof (IH Hin _ _ _ Hb E).
      destruct (_ <=? _); [by right|done].
    + apply bind_inv in H as ([] & b1 & [= <-] & H). eapply (IH Hin); [|exact H].
      cbn. rewrite lookup_insert_ne; [done|congruence].
Qed.
Lemma expire_connections_frame env l m n :
  keeps (fun b => connection_info (b_cache b) = m /\ b_network b = n) (expire_connections env l).
Proof. induction l as [|[i conn] l IH]; cbn [expire_connections]; repeat first [apply IH|keeps_step]; done. Qed.

Lemma keeps_disconnect_connection (I : Broker -> Prop) {CO : CoreInv I} env client i :
  (forall b, I b -> I (upd_b_cache (remove_connection i) b)) ->
  (forall b, I b -> I (upd_b_network (delete i) b)) -> keeps I (disconnect_connection env client i).
Proof.
  intros H1 H2. unfold disconnect_connection, update_session.
  apply keeps_then; [by apply keeps_with_cache|intros _].
  apply keeps_then; [keeps_tac|intros _]. apply keeps_then; [keeps_tac|intros _]. exact H2.
Qed.
Lemma gone_remove id i b : gone id b -> gone id (upd_b_cache (remove_connection i) b).
Proof.
  intros [H|H]; [left|by right]. cbn. destruct (decide (i = id)) as [->|];
    [by rewrite lookup_delete_eq|by rewrite lookup_delete_ne].
Qed.
Lemma gone_hang_up id i b : gone id b -> gone id (upd_b_network (delete i) b).
Proof.
  intros [H|H]; [by left|right]. cbn. destruct (decide (i = id)) as [->|];
    [by rewrite lookup_delete_eq|by rewrite lookup_delete_ne].
Qed.

Lemma disconnect_connection_removes env client i b :
  connection_info (b_cache (disconnect_connection env client i b).2) !! i = None.
Proof.
  unfold disconnect_connection, update_session.
  match goal with |- context [bind (with_cache (remove_connection i)) ?k] =>
    assert (keeps (fun b => connection_info (b_cache b) !! i = None) (k tt)) as Hk end.
  { apply keeps_then; [keeps_tac|intros _]. apply keeps_then; [keeps_tac|intros _]. by intros b1. }
  apply (Hk (upd_b_cache (remove_connection i) b)). apply lookup_delete_eq.
Qed.
Lemma keep_alive_frame_written taken p :
  exists octets, write_frame (S := S) (P := P) (D := D) taken (mkMqttPacketWrapper (u8_of_MqttProtocol p)
    (response_packet_mqtt_distinct_by_reason p (Some DR_KeepAliveTimeout)))
  = ret (if taken then Some octets else None).
Proof. destruct p; eexists; reflexivity. Qed.

Lemma expire_connection_gone env id b out b' :
  expire_connection env true id b = (Ok out, b') -> gone id b'.
Proof.
  intros H. unfold expire_connection in H. apply bind_inv in H as (c & b1 & [= <- <-] & H).
  apply bind_inv in H as (? & b1 & [= <- <-] & H).
  destruct (connection_info (b_cache b) !! id) as [conn|] eqn:Ec; [|injection H as _ <-; by left].
  destruct (b_network b !! id) as [nc|] eqn:En; [|injection H as _ <-; by right].
  apply bind_inv in H as (p & b1 & E1 & H). assert (b1 = b) as -> by (destruct (nc_protocol nc); by injection E1).
  destruct (keep_alive_frame_written true p) as [octets Ew]. cbv zeta in H. rewrite Ew in H.
  change (bind (ret (Some octets)) _ b) with
    ((let! _ := attempt (disconnect_connection env (c_client_id conn) id) in ret [(c_connect_id conn, octets)]) b) in H.
  apply bind_inv in H as (r & b1 & E & [= _ <-]). left.
  pose proof (disconnect_connection_removes env (c_client_id conn) id b) as Hd.
  unfold attempt in E. revert E. by destruct (disconnect_connection env (c_client_id conn) id b) as [[] b2]; intros [= _ <-].
Qed.
Lemma gone_expire_all env taken id ids : keeps (gone id) (expire_all env taken ids).
Proof.
  induction ids as [|i ids IH]; cbn [expire_all]; unfold expire_connection; repeat first [apply IH|keeps_step].
  apply keeps_disconnect_connection; [apply _|apply gone_remove|apply gone_hang_up].
Qed.
Lemma expire_all_gone env taken id ids b out b' :
  id ∈ ids -> taken id = true -> expire_all env taken ids b = (Ok out, b') -> gone id b'.
Proof.
  intros Hin Ht. revert b out. induction ids as [|i ids IH]; intros b out; [set_solver|]. cbn [expire_all].
  intros H. apply bind_inv in H as (o1 & b1 & E1 & H). apply bind_inv in H as (o2 & b2 & E2 & [= _ <-]).
  apply elem_of_cons in Hin as [<-|Hin]; [|by eapply IH].
  rewrite Ht in E1. apply expire_connection_gone in E1. eapply (keeps_state (gone id)); [|exact E1|exact E2].
  apply gone_expire_all.
Qed.

(** C39: Only a CONNECT and a PINGREQ keep a client alive.  When the heartbeats
    are checked, a client whose last PINGREQ is older than the timeout is
    disconnected although it went on to send: any other packets of its own, and
    of the other clients, before the check make no difference. *)
Theorem sending_client_expires {CIS : ConnectionIterSpec CI} evs sv id conn time env taken out b :
  connection_info (b_cache (sv_broker sv)) !! id = Some conn ->
  heartbeat_data (b_cache (sv_broker sv)) !! c_client_id conn = Some time ->
  (forall before ev after, evs = before ++ ev :: after ->
     serves ev = true /\ ~ hears (c_client_id conn) id (server_run before sv) ev) ->
  expired env time -> taken id = true ->
  keep_alive env taken (sv_broker (server_run evs sv)) = (Ok out, b) ->
  sv_broker (server_run (evs ++ [CheckHeartbeats env taken]) sv) = b /\ gone id b.
Proof.
  intros Hc Hb Hevs Hx Ht H.
  assert (beats_at (c_client_id conn) id time (sv_broker (server_run evs sv))) as [Hb' Hc'].
  { revert Hevs. clear H. induction evs as [|ev evs IH] using rev_ind.
    - intros _. split; [done|]. cbn. by intros conn' [= <-]%(eq_trans (eq_sym Hc)).
    - intros Hevs. unfold server_run. rewrite foldl_app. cbn. fold (server_run evs sv).
      destruct (Hevs evs ev [] eq_refl) as [Hs Hno]. apply step_beats_at; [done|done|]. apply IH.
      intros before e after ->. apply (Hevs before e (after ++ [ev])). by rewrite <- app_assoc. }
  split.
  { unfold server_run. rewrite foldl_app. cbn. fold (server_run evs sv). unfold check_heartbeats. by rewrite H. }
  set (b0 := sv_broker (server_run evs sv)) in *. unfold keep_alive in H.
  apply bind_inv in H as (ids & b1 & E1 & H). apply bind_inv in H as (out1 & b2 & E2 & H).
  apply bind_inv in H as (? & b3 & [= _ <-] & [= _ <-]).
  cut (gone id b2); [done|].
  unfold get_expire_connection in E1. apply bind_inv in E1 as (c & b4 & [= <- <-] & E1).
  destruct (expire_connections_frame env (connection_iter (connection_info (b_cache b0)))
              (connection_info (b_cache b0)) (b_network b0) b0 (conj eq_refl eq_refl)) as [Ec En].
  rewrite E1 in Ec, En. cbn in Ec, En.
  destruct (connection_info (b_cache b0) !! id) as [conn'|] eqn:E0.
  - eapply expire_all_gone; [|exact Ht|exact E2].
    eapply expire_connections_found; [exact Hb'|exact Hx| |by apply (Hc' conn')|exact E1].
    rewrite connection_iter_perm. by apply elem_of_map_to_list.
  - eapply (keeps_state (gone id)); [apply gone_expire_all| |exact E2]. left. by rewrite Ec.
Qed.

(** ** Sessions *)

Definition says_present (p : MqttPacket) : Prop :=
  match p with P_ConnAck ack _ => ca_code ack = CR_Success -> session_present ack = true | _ => True end.
Lemma connect_fail_present protocol code cp text :
  code <> CR_Success -> says_present (response_packet_mqtt_connect_fail protocol code cp text).
Proof.
  intros Hc. unfold response_packet_mqtt_connect_fail. destruct (negb (is_v5 protocol)); cbn; [|congruence].
  repeat case_bool_decide; cbn; congruence.
Qed.

Lemma build_session_resume env id client connect cp lw lwp cluster b :
  config_of b = Some cluster -> clean_session connect = false ->
  build_session env id client connect cp lw lwp b =
  (Ok (set_broker_and_reconnect (conf_id env) (now_second env) (set_connection_id (Some id)
         (MqttSession_new (now_second env) client (session_expiry cluster cp) (is_some lw)
            (last_will_delay_interval lwp))), true), b).
Proof.
  intros Hcl Hc. unfold build_session, cluster_config, bind, the_cache, get_cluster_info. unfold config_of in Hcl.
  rewrite Hcl. cbn. by rewrite Hc.
Qed.
Lemma build_session_clean env id client connect cp lw lwp cluster session b b' :
  config_of b = Some cluster -> clean_session connect = true ->
  get_session env client b = (Ok (Some session), b') ->
  build_session env id client connect cp lw lwp b =
  (Ok (set_broker_and_reconnect (conf_id env) (now_second env) (set_connection_id (Some id) session), false), b').
Proof.
  intros Hcl Hc Hs. unfold build_session, cluster_config, bind, the_cache, get_cluster_info. unfold config_of in Hcl.
  rewrite Hcl. cbn. by rewrite Hc, Hs.
Qed.

Lemma resumed_says_present env protocol id connect cp lw lwp login addr :
  clean_session connect = false ->
  yields says_present (Service.connect (S := S) (P := P) (D := D) env protocol id connect cp lw lwp login addr).
Proof.
  intros Hc. unfold Service.connect. apply yields_bind. intros cluster.
  apply (yields_bind_known (maybe says_present)).
  { unfold connect_validator, will_validator. yields_tac; cbn [maybe]; try done; by apply connect_fail_present. }
  intros [res|] Hres; [by apply yields_ret|]. destruct (get_client_id env _) as [client new]. cbv zeta.
  apply yields_bind. intros c. apply yields_bind. intros []; [by apply yields_ret, connect_fail_present|].
  apply yields_or_answer; [intros; by apply connect_fail_present|].
  intros []; cbn [negb]; [|by apply yields_ret, connect_fail_present].
  unfold connect_accept. apply yields_bind. intros _.
  intros b x b' [(e & _ & ->)|([session present] & b1 & E & H)]%or_answer_inv; [by apply connect_fail_present|].
  assert (present = true) as ->.
  { unfold build_session in E. apply bind_inv in E as (cl & b2 & _ & E). rewrite Hc in E. by injection E as _ -> _. }
  revert H. match goal with |- ?m b1 = _ -> _ => assert (yields says_present m) as Hy; [|apply Hy] end.
  yields_tac; try by apply connect_fail_present.
  unfold response_packet_mqtt_connect_success. by destruct (negb (is_v5 protocol)).
Qed.

(** C40: The clean-session flag of a CONNECT is read the wrong way round.  A
    client that asks to resume its session (clean session 0) gets a new one,
    without a look at the stored session, and every acceptance tells it that a
    session was present; a client that asks for a clean session gets the stored
    one. *)
Theorem clean_session_inverted env protocol id connect cp lw lwp login addr cluster b :
  config_of b = Some cluster ->
  (clean_session connect = false ->
   (forall client, build_session env id client connect cp lw lwp b =
      (Ok (set_broker_and_reconnect (conf_id env) (now_second env) (set_connection_id (Some id)
             (MqttSession_new (now_second env) client (session_expiry cluster cp) (is_some lw)
                (last_will_delay_interval lwp))), true), b)) /\
   forall ack q b', Service.connect env protocol id connect cp lw lwp login addr b = (Ok (P_ConnAck ack q), b') ->
     ca_code ack = CR_Success -> session_present ack = true) /\
  (clean_session connect = true ->
   forall client session b', get_session env client b = (Ok (Some session), b') ->
     build_session env id client connect cp lw lwp b =
     (Ok (set_broker_and_reconnect (conf_id env) (now_second env) (set_connection_id (Some id) session), false), b')).
Proof.
  intros Hcl. split.
  - intros Hc. split; [intros; by apply build_session_resume|].
    intros ack q b' E. exact (resumed_says_present _ _ _ _ _ _ _ _ _ Hc _ _ _ E).
  - intros Hc client session b' Hs. by eapply build_session_clean.
Qed.
End deviations.

Import Sample.

Lemma refused_client_silences_server_witness :
  sv_sent (server_run [Receive (Sample.env 100) (request P_PingReq); Respond (Sample.env 100) 1 true;
                       Accept Tcp (lit "10.0.0.2:1883");
                       Receive (Sample.env 101) (mkRequestPackage 2 (lit "10.0.0.2:1883") (Sample.connect 4 true));
                       Respond (Sample.env 101) 1 true; Respond (Sample.env 101) 2 true] refused) = [].
Proof.
  apply (refused_client_silences_server refused (Sample.env 100) (Sample.env 100) true (request P_PingReq)
           (mkNetworkConnection Tcp 1 (Some Mqtt4) (lit "10.0.0.1:1883")) Mqtt4).
  - intros i w Hw. apply elem_of_map_to_list in Hw. vm_compute in Hw.
    repeat (apply elem_of_cons in Hw as [[= _ ->]|Hw]; [reflexivity|]). by apply elem_of_nil in Hw.
  - vm_compute. reflexivity.
  - vm_compute. split; reflexivity.
  - vm_compute. reflexivity.
  - reflexivity.
  - discriminate.
  - vm_compute. reflexivity.
  - discriminate.
  - reflexivity.
Defined.

Lemma sending_client_expires_witness :
  gone 1 (sv_broker (server_run ([publishes 240 AtLeastOnce 5] ++ [CheckHeartbeats (Sample.env 250) (fun _ => true)]) connected)).
Proof.
  destruct (connection_info (b_cache (sv_broker connected)) !! 1) as [conn|] eqn:E; [|vm_compute in E; discriminate E].
  destruct (keep_alive (Sample.env 250) (fun _ => true) (sv_broker (server_run [publishes 240 AtLeastOnce 5] connected)))
    as [o b] eqn:Ek.
  assert (o = Ok [(1, [224; 0])]) as ->.
  { change o with (o, b).1. rewrite <- Ek. vm_compute. reflexivity. }
  destruct (sending_client_expires [publishes 240 AtLeastOnce 5] connected 1 conn (mkConnectionLiveTime Mqtt4 60 100)
              (Sample.env 250) (fun _ => true) [(1, [224; 0])] b) as [H1 H2].
  - exact E.
  - vm_compute in E. injection E as <-. vm_compute. reflexivity.
  - intros [|? [|? ?]] ev after [= <- <-]. split; [reflexivity|].
    intros (? & ? & p & (? & [= _ <-] & _ & <-) & [[Hp _]|(? & ? & ? & ? & ? & ? & Hp & _)]); discriminate Hp.
  - vm_compute. discriminate.
  - reflexivity.
  - exact Ek.
  - rewrite H1. exact H2.
Defined.

Definition resuming : B MqttPacket :=
  Service.connect (Sample.env 100) Mqtt4 1 (mkConnect 60 (lit "c") false) None None None None (lit "10.0.0.1:1883").

Lemma clean_session_inverted_witness :
  resuming broker = (Ok (P_ConnAck (mkConnAck true CR_Success) None), (resuming broker).2) /\
  session_present (mkConnAck true CR_Success) = true.
Proof.
  assert (resuming broker = (Ok (P_ConnAck (mkConnAck true CR_Success) None), (resuming broker).2)) as E
    by (vm_compute; reflexivity).
  split; [exact E|].
  destruct (clean_session_inverted (Sample.env 100) Mqtt4 1 (mkConnect 60 (lit "c") false) None None None None
              (lit "10.0.0.1:1883") config broker) as [H _]; [vm_compute; reflexivity|].
  destruct (H eq_refl) as [_ H']. exact (H' _ _ _ E eq_refl).
Defined.
