(* ===== verification/ExclusivePush.v ===== *)
(** * Pushing messages to a subscriber

    [subscribe/exclusive_push.rs] and the sending half of
    [subscribe/sub_common.rs]: the task that reads the log of a topic for one
    subscription, sends every message to the client with the QoS of the
    subscription, waits for the acknowledgements and commits the offset.

    The task runs beside the others and waits often: for the socket, for an
    acknowledgement, for the client to come back.  What happens during a wait is
    given by [turn]: it depends on how many waits there were and on what was
    sent before, and says what the other tasks do to the broker, whether the
    socket takes the frame, and which acknowledgement arrives, if any does in
    time.  The loops carry fuel; a run that is out of fuel is one that still
    waits.  A stop signal ends the task at a wait and has no other effect. *)

From Stdlib Require Import String.
From S2P Require Import Prelude Bytes RustStr Storage MemoryStorage RocksEngine MqttTypes MqttCommon MqttCodec Topics Subscriptions MessageStorage DelayMessages Acl BrokerCache Security Responses SchemaRegister Broker Service Server.

(** [subscriber.rs] *)
Record SubPublishParam : Type := mkSubPublishParam {
  sp_subscribe : Subscriber;
  sp_publish : Publish;
  sp_properties : option PublishProperties;
  sp_create_time : Z;
  sp_pkid : Z;
  sp_group_id : bytes
}.

Definition set_dup (d : bool) (q : Publish) : Publish :=
  mkPublish d (pub_qos q) (pub_pkid q) (retain q) (topic q) (payload q).

Section push.
Context {S P D : Type} {SA : StorageAdapter S} {SC : StopChannel} {JM : Json MqttMessage} {BC : BytesCrate}.
Abbreviation Broker := (Broker (S := S) (P := P) (D := D)).
Abbreviation B := (B (S := S) (P := P) (D := D)).

(** ** Waiting *)

Record Turn : Type := mkTurn {
  tn_others : Broker -> Broker;
  tn_taken : bool;
  tn_ack : option QosAckPackageData
}.
(** What was sent is kept in the order in which the sockets took it. *)
Record PushState : Type := mkPushState {
  ps_broker : Broker;
  ps_sent : list (Z * MqttPacket);
  ps_waits : nat
}.
Definition X (A : Type) : Type := M PushState MqttBrokerError A.

Definition on_broker {A : Type} (m : B A) : X A :=
  fun s => let (o, b) := m (ps_broker s) in (o, mkPushState b (ps_sent s) (ps_waits s)).
Definition on_cache {A : Type} (m : M CacheManager MqttBrokerError A) : B A :=
  fun b => let (o, c) := m (b_cache b) in (o, upd_b_cache (const c) b).
Definition record_sent (connection_id : Z) (packet : MqttPacket) : X unit :=
  modify (fun s => mkPushState (ps_broker s) (ps_sent s ++ [(connection_id, packet)]) (ps_waits s)).

Context (env : Env) (seconds : nat -> Z) (turn : nat -> list (Z * MqttPacket) -> Turn).
(** What the other tasks do while [get_pkid] waits for a free identifier. *)
Context (sleeps : list (CacheManager -> CacheManager)).

Definition await : X Turn :=
  fun s =>
    let t := turn (ps_waits s) (ps_sent s) in
    (Ok t, mkPushState (tn_others t (ps_broker s)) (ps_sent s) (1 + ps_waits s)).

(** [match call.await { Ok(..) => .., Err(e) => .. }]. *)
Definition catch {A : Type} (m : X A) : X (MqttBrokerError + A) :=
  fun s =>
    match m s with
    | (Ok a, s) => (Ok (inr a), s)
    | (Err e, s) => (Ok (inl e), s)
    | (Panic, s) => (Panic, s)
    | (OutOfFuel, s) => (OutOfFuel, s)
    end.

(** ** sub_common.rs *)

Definition wait_packet_ack : X (option QosAckPackageData) := let! t := await in ret (tn_ack t).

(** Nothing is sent on a connection without a protocol, which is no error.  The
    line that is logged for a slow subscriber is left out. *)
Definition publish_message_to_client (connection_id : Z) (packet : MqttPacket) : X unit :=
  let! protocol := on_broker (fun b => (Ok (get_connect_protocol connection_id b), b)) in
  match protocol with
  | Some protocol =>
      let! octets := on_broker (write_frame true (mkMqttPacketWrapper (u8_of_MqttProtocol protocol) packet)) in
      let! t := await in
      if is_some octets && tn_taken t then record_sent connection_id packet
      else fail (BE_CommonError (lit "Failed to write data to the mqtt tcp client"))
  | None => ret tt
  end.

(** The message is longer than the client takes. *)
Definition too_long (connect_id : Z) (q : Publish) (c : CacheManager) : bool :=
  match connection_info c !! connect_id with
  | Some conn => c_max_packet_size conn <? blen (payload q)
  | None => false
  end.
(** Properties are sent to an MQTT 5 client only. *)
Definition publish_packet (connect_id : Z) (q : Publish) (properties : option PublishProperties) (b : Broker)
  : MqttPacket :=
  P_Publish q (match get_connect_protocol connect_id b with
               | Some protocol => if is_v5 protocol then properties else None
               | None => None
               end).

Definition the_broker : X Broker := fun s => (Ok (ps_broker s), s).

Fixpoint qos2_send_publish (fuel : nat) (param : SubPublishParam) (retry_times : Z) : X unit :=
  match fuel with
  | O => out_of_fuel
  | Datatypes.S fuel =>
      let! b := the_broker in
      match get_connect_id (s_client_id (sp_subscribe param)) (b_cache b) with
      | None => await ;; qos2_send_publish fuel param retry_times
      | Some connect_id =>
          let q := sp_publish param in
          if too_long connect_id q (b_cache b) then fail (BE_PacketLengthError (blen (payload q)))
          else
            let retry_times := retry_times + 1 in
            let! r := catch (publish_message_to_client connect_id
                        (publish_packet connect_id (set_dup (2 <=? retry_times) q) (sp_properties param) b)) in
            match r with
            | inr _ => ret tt
            | inl _ => await ;; qos2_send_publish fuel param retry_times
            end
      end
  end.

Fixpoint qos2_send_pubrel (fuel : nat) (param : SubPublishParam) : X unit :=
  match fuel with
  | O => out_of_fuel
  | Datatypes.S fuel =>
      let! b := the_broker in
      match get_connect_id (s_client_id (sp_subscribe param)) (b_cache b) with
      | None => await ;; qos2_send_pubrel fuel param
      | Some connect_id =>
          let! r := catch (publish_message_to_client connect_id
                      (P_PubRel (mkPubRel (sp_pkid param) (Some PL_Success)) None)) in
          match r with
          | inr _ => ret tt
          | inl _ => qos2_send_pubrel fuel param
          end
      end
  end.

Fixpoint loop_commit_offset (fuel : nat) (topic_id group_id : bytes) (offset : Z) : X unit :=
  match fuel with
  | O => out_of_fuel
  | Datatypes.S fuel =>
      let! r := catch (on_broker (on_storage
                  (commit_group_offset (conf_cluster env) group_id topic_id offset))) in
      match r with
      | inr _ => ret tt
      | inl _ => loop_commit_offset fuel topic_id group_id offset
      end
  end.

Fixpoint publish_message_qos0 (fuel : nat) (param : SubPublishParam) : X unit :=
  match fuel with
  | O => out_of_fuel
  | Datatypes.S fuel =>
      let! b := the_broker in
      match get_connect_id (s_client_id (sp_subscribe param)) (b_cache b) with
      | None => await ;; publish_message_qos0 fuel param
      | Some connect_id =>
          if too_long connect_id (sp_publish param) (b_cache b) then ret tt
          else
            catch (publish_message_to_client connect_id
                     (publish_packet connect_id (sp_publish param) (sp_properties param) b)) ;;
            ret tt
      end
  end.

(** ** exclusive_push.rs *)

Definition acknowledges (kind : QosAckPackageType) (pkid : Z) (data : option QosAckPackageData) : bool :=
  match data with
  | Some data => bool_decide (ack_type data = kind) && (ack_pkid data =? pkid)
  | None => false
  end.

(** A message that is longer than the client takes counts as sent. *)
Fixpoint exclusive_publish_message_qos1 (fuel : nat) (param : SubPublishParam) (retry_times : Z) : X unit :=
  match fuel with
  | O => out_of_fuel
  | Datatypes.S fuel =>
      let! b := the_broker in
      match get_connect_id (s_client_id (sp_subscribe param)) (b_cache b) with
      | None => await ;; exclusive_publish_message_qos1 fuel param retry_times
      | Some connect_id =>
          let q := sp_publish param in
          if too_long connect_id q (b_cache b) then ret tt
          else
            let retry_times := retry_times + 1 in
            let! r := catch (publish_message_to_client connect_id
                        (publish_packet connect_id (set_dup (2 <=? retry_times) q) (sp_properties param) b)) in
            match r with
            | inr _ =>
                let! data := wait_packet_ack in
                if acknowledges AckPubAck (sp_pkid param) data then ret tt
                else exclusive_publish_message_qos1 fuel param retry_times
            | inl _ => await ;; exclusive_publish_message_qos1 fuel param retry_times
            end
      end
  end.

Fixpoint wait_pubrec (fuel : nat) (param : SubPublishParam) : X unit :=
  match fuel with
  | O => out_of_fuel
  | Datatypes.S fuel =>
      let! data := wait_packet_ack in
      if acknowledges AckPubRec (sp_pkid param) data then ret tt
      else
        (if is_none data then qos2_send_publish fuel param 0 else ret tt) ;;
        await ;; wait_pubrec fuel param
  end.
Fixpoint wait_pubcomp (fuel : nat) (param : SubPublishParam) : X unit :=
  match fuel with
  | O => out_of_fuel
  | Datatypes.S fuel =>
      let! data := wait_packet_ack in
      if acknowledges AckPubComp (sp_pkid param) data then ret tt
      else
        (if is_none data then qos2_send_pubrel fuel param else ret tt) ;;
        await ;; wait_pubcomp fuel param
  end.
Definition exclusive_publish_message_qos2 (fuel : nat) (param : SubPublishParam) : X unit :=
  qos2_send_publish fuel param 0 ;;
  wait_pubrec fuel param ;;
  qos2_send_pubrel fuel param ;;
  wait_pubcomp fuel param.

Definition build_group_name (subscriber : Subscriber) : bytes :=
  lit "system_sub_" ++ s_client_id subscriber ++ lit "_" ++ s_sub_path subscriber ++ lit "_" ++
  s_topic_id subscriber.
Definition build_pub_qos (subscriber : Subscriber) : B QoS :=
  let! cluster := cluster_config in ret (min_qos (max_qos (cl_protocol cluster)) (s_qos subscriber)).
Definition build_sub_ids (subscriber : Subscriber) : list Z := option_list (s_subscription_identifier subscriber).

Definition message_publish (q : QoS) (subscriber : Subscriber) (pkid : Z) (msg : MqttMessage) : Publish :=
  let retain := if s_preserve_retain subscriber then m_retain msg else false in
  mkPublish false q pkid retain (s_topic_name subscriber) (m_payload msg).
(** The deadline of the message is sent as its expiry interval. *)
Definition message_properties (sub_ids : list Z) (msg : MqttMessage) : PublishProperties :=
  mkPublishProperties (m_format_indicator msg) (Some (m_expiry_interval msg mod 2 ^ 32)) None
    (m_response_topic msg) (m_correlation_data msg) (m_user_properties msg) sub_ids (m_content_type msg).
Definition build_pub_message (record : MsgRecord) (group_id : bytes) (q : QoS) (subscriber : Subscriber)
    (sub_ids : list Z) : X (option SubPublishParam) :=
  let! msg := on_broker (map_err BE_FromCommonError (lift (decode_record record))) in
  let! now := (fun s => (Ok (seconds (ps_waits s)), s)) in
  if is_message_expire now msg then ret None
  else if s_nolocal subscriber && bool_decide (s_client_id subscriber = m_client_id msg) then ret None
  else
    let! pkid :=
      (if bool_decide (q = AtMostOnce) then ret 0
       else on_broker (on_cache (get_pkid sleeps (s_client_id subscriber)))) in
    ret (Some (mkSubPublishParam subscriber (message_publish q subscriber pkid msg)
                 (Some (message_properties sub_ids msg)) (r_timestamp record) pkid group_id)).

(** The channel of an acknowledgement is named after the wait at which it was
    made. *)
Definition await_acks (client_id : bytes) (pkid : Z) (send : X unit) : X unit :=
  let! s := get in
  on_broker (with_cache (add_ack_packet client_id pkid
    (mkQosAckPacketInfo (Z.of_nat (ps_waits s)) (seconds (ps_waits s))))) ;;
  send ;;
  on_broker (with_cache (remove_pkid_info client_id pkid)) ;;
  on_broker (with_cache (remove_ack_packet client_id pkid)).

(** One turn of the loop over the records. *)
Definition push_record (fuel : nat) (subscriber : Subscriber) (group_id : bytes) (q : QoS) (sub_ids : list Z)
    (record : MsgRecord) : X unit :=
  let! record_offset := unwrap (r_offset record) in
  let! params := build_pub_message record group_id q subscriber sub_ids in
  match params with
  | None => ret tt
  | Some param =>
      let client_id := s_client_id subscriber in
      (match q with
       | AtMostOnce => publish_message_qos0 fuel param
       | AtLeastOnce => await_acks client_id (sp_pkid param) (exclusive_publish_message_qos1 fuel param 0)
       | ExactlyOnce => await_acks client_id (sp_pkid param) (exclusive_publish_message_qos2 fuel param)
       end) ;;
      loop_commit_offset fuel (s_topic_id subscriber) group_id record_offset
  end.

Definition pub_message (fuel : nat) (subscriber : Subscriber) (group_id : bytes) (q : QoS) (sub_ids : list Z)
    (offset : Z) : X (option Z) :=
  let record_num := 5 in
  let! results := on_broker (on_storage
    (read_topic_message (calc_crc32 env) (conf_cluster env) (s_topic_id subscriber) offset record_num)) in
  match last results with
  | None => ret None
  | Some record =>
      for_each results (push_record fuel subscriber group_id q sub_ids) ;;
      let! offset := unwrap (r_offset record) in
      ret (Some offset)
  end.

(** The task: [rounds] turns of its loop. *)
Fixpoint push_rounds (fuel rounds : nat) (subscriber : Subscriber) (group_id : bytes) (q : QoS)
    (sub_ids : list Z) (offset : Z) : X Z :=
  match rounds with
  | O => ret offset
  | Datatypes.S rounds =>
      let! val := catch (pub_message fuel subscriber group_id q sub_ids offset) in
      match val with
      | inr (Some off) => push_rounds fuel rounds subscriber group_id q sub_ids (wrap64 (off + 1))
      | inr None | inl _ => await ;; push_rounds fuel rounds subscriber group_id q sub_ids offset
      end
  end.
Definition push_thread (fuel rounds : nat) (subscriber : Subscriber) : X Z :=
  let group_id := build_group_name subscriber in
  let! q := on_broker (build_pub_qos subscriber) in
  let sub_ids := build_sub_ids subscriber in
  let! offset := on_broker (on_storage (get_group_offset group_id)) in
  push_rounds fuel rounds subscriber group_id q sub_ids offset.
End push.
