(* ===== verification/PushTheorems.v ===== *)
(** * Messages reach their subscriber

    A subscriber that is connected and acknowledges what it gets receives the
    messages of its topic, each once and in the order of the log, also while
    other tasks append to the log; and the offset of the last one is
    committed. *)

From Stdlib Require Import String.
From S2P Require Import Prelude Bytes RustStr Storage MemoryStorage RocksEngine MqttTypes MqttCommon MqttCodec Topics Subscriptions MessageStorage DelayMessages Acl BrokerCache Security Responses SchemaRegister Broker Service Server Samples ServerCore ExclusivePush.

(** What a client answers. *)
Definition answer (packet : MqttPacket) : option QosAckPackageData :=
  match packet with
  | P_Publish q _ =>
      match pub_qos q with
      | AtMostOnce => None
      | AtLeastOnce => Some (mkQosAckPackageData AckPubAck (pub_pkid q))
      | ExactlyOnce => Some (mkQosAckPackageData AckPubRec (pub_pkid q))
      end
  | P_PubRel r _ => Some (mkQosAckPackageData AckPubComp (pl_pkid r))
  | _ => None
  end.

(** The messages among what was sent. *)
Definition delivery (sent : Z * MqttPacket) : option (Z * bool * QoS * bytes * bytes) :=
  match sent.2 with
  | P_Publish q _ => Some (sent.1, dup q, pub_qos q, topic q, payload q)
  | _ => None
  end.
Definition deliveries (sent : list (Z * MqttPacket)) : list (Z * bool * QoS * bytes * bytes) := omap delivery sent.

Section push.
Context {S P D : Type} {SA : StorageAdapter S} {LS : LogStore S} {SC : StopChannel} {JM : Json MqttMessage} {BC : BytesCrate}.
Abbreviation Broker := (Broker (S := S) (P := P) (D := D)).
Abbreviation PushState := (PushState (S := S) (P := P) (D := D)).
Abbreviation X := (X (S := S) (P := P) (D := D)).
Context (env : Env) (seconds : nat -> Z) (sleeps : list (CacheManager -> CacheManager)).
Context (sub : Subscriber) (q : QoS) (id : Z) (conn : MQTTConnection) (p : MqttProtocol).
Abbreviation client := (s_client_id sub).
Abbreviation shard := (conf_cluster env, s_topic_id sub).
Abbreviation group := (build_group_name sub).
Abbreviation sub_ids := (build_sub_ids sub).
Implicit Types (s : PushState) (b : Broker) (l : list MsgRecord).

Definition local (msg : MqttMessage) : bool := s_nolocal sub && bool_decide (client = m_client_id msg).
Definition wanted (r : MsgRecord) : bool :=
  match decode_record r with Ok msg => negb (local msg) | _ => false end.
Definition expected (r : MsgRecord) : option (Z * bool * QoS * bytes * bytes) :=
  match decode_record r with
  | Ok msg => if local msg then None else Some (id, false, q, s_topic_name sub, m_payload msg)
  | _ => None
  end.
(** The offset that is committed behind [l], where [c] was before. *)
Definition settled_at (c : option Z) l : option Z :=
  match last (filter wanted l) with Some r => r_offset r | None => c end.

(** A packet has an encoding for the client. *)
Definition sendable (packet : MqttPacket) : Prop :=
  is_ok (fst (encode_data (mkMqttPacketWrapper (u8_of_MqttProtocol p) packet) [])) = true.
Definition message_packet (pkid : Z) (msg : MqttMessage) : MqttPacket :=
  P_Publish (message_publish q sub pkid msg) (if is_v5 p then Some (message_properties sub_ids msg) else None).
(** The identifiers of messages. *)
Definition identifies (pkid : Z) : Prop := q = AtMostOnce \/ 1 <= pkid <= 65534.
(** A record that can be pushed: it is intact, has not expired, and is no
    longer than the client and the protocol take. *)
Definition pushable (r : MsgRecord) : Prop :=
  crc32_check (calc_crc32 env) r = true /\
  exists msg, decode_record r = Ok msg /\ (forall n, is_message_expire (seconds n) msg = false) /\
              blen (m_payload msg) <= c_max_packet_size conn /\
              forall pkid, identifies pkid -> sendable (message_packet pkid msg).

(** The subscriber is connected, the log of the topic is [l], and [c] is
    committed. *)
Definition ready l (c : option Z) b : Prop :=
  get_connect_id client (b_cache b) = Some id /\
  connection_info (b_cache b) !! id = Some conn /\
  get_connect_protocol id b = Some p /\
  Forall pushable l /\ stamped l /\ blen l + 5 < 2 ^ 64 /\
  exists a, ls_rep (b_store b) a /\ logs a !! shard = Some l /\
            group_commits a group = match c with Some o => {[ shard := o ]} | None => ∅ end.

(** The other tasks leave the subscriber alone, and append to the log at most;
    the client takes what is sent and answers it. *)
Definition cooperative (turn : nat -> list (Z * MqttPacket) -> Turn (S := S) (P := P) (D := D)) : Prop :=
  forall n sent,
    tn_taken (turn n sent) = true /\
    (forall i packet, last sent = Some (i, packet) -> tn_ack (turn n sent) = answer packet) /\
    forall l c b, ready l c b ->
      (exists l', l `prefix_of` l' /\ ready l' c (tn_others (turn n sent) b)) /\
      pkids_of client (b_cache (tn_others (turn n sent) b)) = pkids_of client (b_cache b).

Context (turn : nat -> list (Z * MqttPacket) -> Turn (S := S) (P := P) (D := D)) (Hturn : cooperative turn).
Context (Hns : ls_ns (conf_cluster env)) (Hgroup : ls_group group).

(** From [s] to [s'], [sent] was sent, and the log grew to [l']. *)
Definition moved l l' c s s' (sent : list (Z * MqttPacket)) : Prop :=
  l `prefix_of` l' /\ ready l' c (ps_broker s') /\ ps_sent s' = ps_sent s ++ sent.

Lemma moved_trans l1 l2 l3 c s1 s2 s3 p1 p2 :
  moved l1 l2 c s1 s2 p1 -> moved l2 l3 c s2 s3 p2 -> moved l1 l3 c s1 s3 (p1 ++ p2).
Proof.
  intros (H1 & _ & E1) (H2 & R & E2). split_and!; [by etrans|done|]. by rewrite E2, E1, app_assoc.
Qed.

Lemma await_moves l c s :
  ready l c (ps_broker s) ->
  exists l' s', await turn s = (Ok (turn (ps_waits s) (ps_sent s)), s') /\ moved l l' c s s' [] /\
                pkids_of client (b_cache (ps_broker s')) = pkids_of client (b_cache (ps_broker s)).
Proof.
  intros Hr. destruct (Hturn (ps_waits s) (ps_sent s)) as (_ & _ & Ho).
  destruct (Ho l c _ Hr) as ((l' & Hl & Hr') & Hk). exists l'. eexists. split; [reflexivity|]. split; [|exact Hk].
  split_and!; [done|done|]. cbn. by rewrite app_nil_r.
Qed.

Lemma ack_moves l c s i packet :
  ready l c (ps_broker s) -> last (ps_sent s) = Some (i, packet) ->
  exists l' s', wait_packet_ack turn s = (Ok (answer packet), s') /\ moved l l' c s s' [].
Proof.
  intros Hr Hlast. destruct (await_moves l c s Hr) as (l' & s' & E & Hm & _). exists l', s'. split; [|done].
  unfold wait_packet_ack. erewrite bind_ok; [|exact E]. destruct (Hturn (ps_waits s) (ps_sent s)) as (_ & Ha & _).
  by rewrite (Ha i packet Hlast).
Qed.

Lemma send_moves l c s packet :
  ready l c (ps_broker s) -> sendable packet ->
  exists l' s', catch (publish_message_to_client turn id packet) s = (Ok (inr tt), s') /\
                moved l l' c s s' [(id, packet)] /\ last (ps_sent s') = Some (id, packet).
Proof.
  intros Hr Hs. destruct (await_moves l c s Hr) as (l' & s' & E & (Hl & Hr' & Hsent) & _).
  rewrite app_nil_r in Hsent.
  exists l', (mkPushState (ps_broker s') (ps_sent s' ++ [(id, packet)]) (ps_waits s')). split_and!; cbn.
  - unfold catch, publish_message_to_client. destruct s as [b sent w].
    destruct Hr as (_ & _ & Hp & _). erewrite bind_ok; [|cbn; reflexivity]. cbn in Hp. rewrite Hp.
    unfold sendable in Hs.
    destruct (encode_data _ []) as [[[]| | |] buf] eqn:Ee; try discriminate Hs.
    erewrite bind_ok; [|unfold on_broker, write_frame; rewrite Ee; reflexivity].
    erewrite bind_ok; [|exact E]. cbn [is_some andb ps_waits ps_sent].
    by destruct (Hturn w sent) as (-> & _).
  - split_and!; [done|done|]. cbn. by rewrite Hsent.
  - by rewrite last_snoc.
Qed.

(** ** One message *)

Lemma ready_fits l c b q' :
  ready l c b -> blen (payload q') <= c_max_packet_size conn -> too_long id q' (b_cache b) = false.
Proof. intros (_ & Hc & _) Hb. unfold too_long. rewrite Hc. by apply Z.ltb_ge. Qed.

Lemma ready_packet l c b pkid msg :
  ready l c b ->
  publish_packet id (message_publish q sub pkid msg) (Some (message_properties sub_ids msg)) b = message_packet pkid msg.
Proof. intros (_ & _ & Hp & _). unfold publish_packet. by rewrite Hp. Qed.

(** What the exchange of a message needs. *)
Definition carries (param : SubPublishParam) (msg : MqttMessage) : Prop :=
  sp_subscribe param = sub /\ sp_publish param = message_publish q sub (sp_pkid param) msg /\
  sp_properties param = Some (message_properties sub_ids msg) /\
  blen (m_payload msg) <= c_max_packet_size conn /\ sendable (message_packet (sp_pkid param) msg).

Lemma acknowledges_refl kind pkid : acknowledges kind pkid (Some (mkQosAckPackageData kind pkid)) = true.
Proof. unfold acknowledges. cbn. by rewrite bool_decide_eq_true_2, Z.eqb_refl. Qed.

Lemma qos0_moves fuel l c s param msg :
  ready l c (ps_broker s) -> carries param msg ->
  exists l' s', publish_message_qos0 turn (Datatypes.S fuel) param s = (Ok tt, s') /\
                moved l l' c s s' [(id, message_packet (sp_pkid param) msg)].
Proof.
  intros Hr (Hsub & Hq & Hpp & Hb & Hs). destruct (send_moves l c s _ Hr Hs) as (l' & s' & E & Hm & _).
  exists l', s'. split; [|done]. cbn [publish_message_qos0]. unfold bind at 1, the_broker. rewrite Hsub.
  pose proof Hr as (-> & _). rewrite Hq, Hpp, (ready_fits l c) by done. rewrite (ready_packet l c) by done.
  by erewrite bind_ok; [|exact E].
Qed.

Lemma qos1_moves fuel l c s param msg :
  q = AtLeastOnce -> ready l c (ps_broker s) -> carries param msg ->
  exists l' s', exclusive_publish_message_qos1 turn (Datatypes.S fuel) param 0 s = (Ok tt, s') /\
                moved l l' c s s' [(id, message_packet (sp_pkid param) msg)].
Proof.
  intros Eq Hr (Hsub & Hq & Hpp & Hb & Hs).
  destruct (send_moves l c s _ Hr Hs) as (l1 & s1 & E & Hm & Hlast).
  destruct (ack_moves l1 c s1 _ _ (proj1 (proj2 Hm)) Hlast) as (l' & s' & Ea & Hm').
  exists l', s'. split; [|exact (moved_trans _ _ _ _ _ _ _ _ _ Hm Hm')].
  cbn [exclusive_publish_message_qos1]. unfold bind at 1, the_broker. rewrite Hsub.
  pose proof Hr as (-> & _). cbv zeta. rewrite Hq, Hpp, (ready_fits l c) by done.
  change (set_dup (2 <=? 0 + 1) (message_publish q sub (sp_pkid param) msg))
    with (message_publish q sub (sp_pkid param) msg). rewrite (ready_packet l c) by done.
  erewrite bind_ok; [|exact E]. cbv beta iota. erewrite bind_ok; [|exact Ea].
  cbn [answer message_packet message_publish pub_qos pub_pkid]. by rewrite Eq, acknowledges_refl.
Qed.

Lemma qos2_publish_moves fuel l c s param msg :
  ready l c (ps_broker s) -> carries param msg ->
  exists l' s', qos2_send_publish turn (Datatypes.S fuel) param 0 s = (Ok tt, s') /\
                moved l l' c s s' [(id, message_packet (sp_pkid param) msg)] /\
                last (ps_sent s') = Some (id, message_packet (sp_pkid param) msg).
Proof.
  intros Hr (Hsub & Hq & Hpp & Hb & Hs). destruct (send_moves l c s _ Hr Hs) as (l' & s' & E & Hm & Hlast).
  exists l', s'. split; [|done]. cbn [qos2_send_publish]. unfold bind at 1, the_broker. rewrite Hsub.
  pose proof Hr as (-> & _). cbv zeta. rewrite Hq, Hpp, (ready_fits l c) by done.
  change (set_dup (2 <=? 0 + 1) (message_publish q sub (sp_pkid param) msg))
    with (message_publish q sub (sp_pkid param) msg). rewrite (ready_packet l c) by done.
  by erewrite bind_ok; [|exact E].
Qed.

Definition release (pkid : Z) : MqttPacket := P_PubRel (mkPubRel pkid (Some PL_Success)) None.
Lemma release_sendable pkid : sendable (release pkid).
Proof. unfold sendable. by destruct p. Qed.

Lemma qos2_pubrel_moves fuel l c s param :
  ready l c (ps_broker s) -> sp_subscribe param = sub ->
  exists l' s', qos2_send_pubrel turn (Datatypes.S fuel) param s = (Ok tt, s') /\
                moved l l' c s s' [(id, release (sp_pkid param))] /\
                last (ps_sent s') = Some (id, release (sp_pkid param)).
Proof.
  intros Hr Hsub. destruct (send_moves l c s _ Hr (release_sendable (sp_pkid param))) as (l' & s' & E & Hm).
  exists l', s'. split; [|done]. cbn [qos2_send_pubrel]. unfold bind at 1, the_broker. rewrite Hsub.
  pose proof Hr as (-> & _). by erewrite bind_ok; [|exact E].
Qed.

Lemma wait_pubrec_moves fuel l c s param msg :
  q = ExactlyOnce -> ready l c (ps_broker s) -> last (ps_sent s) = Some (id, message_packet (sp_pkid param) msg) ->
  exists l' s', wait_pubrec turn (Datatypes.S fuel) param s = (Ok tt, s') /\ moved l l' c s s' [].
Proof.
  intros Eq Hr Hlast. destruct (ack_moves l c s _ _ Hr Hlast) as (l' & s' & E & Hm). exists l', s'. split; [|done].
  cbn [wait_pubrec]. erewrite bind_ok; [|exact E].
  cbn [answer message_packet message_publish pub_qos pub_pkid]. by rewrite Eq, acknowledges_refl.
Qed.
Lemma wait_pubcomp_moves fuel l c s param :
  ready l c (ps_broker s) -> last (ps_sent s) = Some (id, release (sp_pkid param)) ->
  exists l' s', wait_pubcomp turn (Datatypes.S fuel) param s = (Ok tt, s') /\ moved l l' c s s' [].
Proof.
  intros Hr Hlast. destruct (ack_moves l c s _ _ Hr Hlast) as (l' & s' & E & Hm). exists l', s'. split; [|done].
  cbn [wait_pubcomp]. erewrite bind_ok; [|exact E]. cbn [answer release pl_pkid]. by rewrite acknowledges_refl.
Qed.

Lemma qos2_moves fuel l c s param msg :
  q = ExactlyOnce -> ready l c (ps_broker s) -> carries param msg ->
  exists l' s', exclusive_publish_message_qos2 turn (Datatypes.S fuel) param s = (Ok tt, s') /\
                moved l l' c s s' [(id, message_packet (sp_pkid param) msg); (id, release (sp_pkid param))].
Proof.
  intros Eq Hr Hp. destruct (qos2_publish_moves fuel l c s param msg Hr Hp) as (l1 & s1 & E1 & M1 & L1).
  destruct (wait_pubrec_moves fuel l1 c s1 param msg Eq (proj1 (proj2 M1)) L1) as (l2 & s2 & E2 & M2).
  destruct (qos2_pubrel_moves fuel l2 c s2 param (proj1 (proj2 M2)) (proj1 Hp)) as (l3 & s3 & E3 & M3 & L3).
  destruct (wait_pubcomp_moves fuel l3 c s3 param (proj1 (proj2 M3)) L3) as (l4 & s4 & E4 & M4).
  exists l4, s4. split.
  - unfold exclusive_publish_message_qos2. do 3 (erewrite bind_ok; [|eassumption]). exact E4.
  - exact (moved_trans _ _ _ _ _ _ _ _ _ M1
             (moved_trans _ _ _ _ _ _ _ _ _ M2 (moved_trans _ _ _ _ _ _ _ _ _ M3 M4))).
Qed.

(** ** Identifiers and offsets *)

(** An identifier is free: at most one is held. *)
Definition spare b : Prop :=
  q = AtMostOnce \/ exists k, forall i, i ∈ pkids_of client (b_cache b) -> i = k.

Lemma ready_cache l c b f :
  session_info (f (b_cache b)) = session_info (b_cache b) ->
  connection_info (f (b_cache b)) = connection_info (b_cache b) ->
  ready l c b -> ready l c (upd_b_cache f b).
Proof.
  intros H1 H2 Hr. unfold ready, get_connect_id in *. cbn. rewrite H1, H2. exact Hr.
Qed.

Lemma get_pkid_one cm k :
  (forall i, i ∈ pkids_of client cm -> i = k) ->
  exists i cm', get_pkid (E := MqttBrokerError) sleeps client cm = (Ok i, cm') /\
    session_info cm' = session_info cm /\ connection_info cm' = connection_info cm /\ 1 <= i <= 65534.
Proof.
  intros Hk.
  assert (exists i cm', get_available_pkid (E := MqttBrokerError) sleeps client cm = (Ok i, cm') /\
    session_info cm' = session_info cm /\ connection_info cm' = connection_info cm /\ 1 <= i <= 65534)
    as (i & cm' & E & H1 & H2 & H3).
  { unfold pkids_of in Hk. destruct (publish_pkid_info cm !! client) as [ids|] eqn:El.
    - destruct (free_pkid ids) as [i|] eqn:Ef.
      + exists i, cm. pose proof (free_pkid_some _ _ Ef) as (Hi & _).
        destruct sleeps; cbn [get_available_pkid]; unfold get, bind at 1; by rewrite El, Ef.
      + exfalso. pose proof (free_pkid_none _ Ef 1 ltac:(lia)) as H1. pose proof (free_pkid_none _ Ef 2 ltac:(lia)) as H2.
        apply Hk in H1, H2. lia.
    - exists 1. eexists. destruct sleeps; cbn [get_available_pkid]; unfold get, bind at 1; by rewrite El. }
  exists i. eexists. unfold get_pkid. erewrite bind_ok; [|exact E]. split; [reflexivity|]. done.
Qed.

Lemma await_acks_moves l c s pkid (send : X unit) sent :
  (forall s, ready l c (ps_broker s) -> exists l' s', send s = (Ok tt, s') /\ moved l l' c s s' sent) ->
  ready l c (ps_broker s) ->
  exists l' s', await_acks seconds client pkid send s = (Ok tt, s') /\ moved l l' c s s' sent /\ spare (ps_broker s').
Proof.
  intros Hsend Hr. unfold await_acks. unfold bind at 1, get. erewrite bind_ok; [|reflexivity].
  match goal with |- context [bind send _ ?x] => destruct (Hsend x) as (l' & s' & E & Hl & Hr' & Hs) end.
  { by apply ready_cache. }
  erewrite bind_ok; [|exact E]. exists l'. eexists. split; [reflexivity|]. cbn. split_and!.
  - split_and!; [done| |done]. cbn. by repeat apply ready_cache.
  - right. exists pkid. intros i. unfold pkids_of. cbn. rewrite lookup_alter_eq.
    destruct (publish_pkid_info _ !! client) as [ids|]; cbn; [|by intros ?%not_elem_of_nil].
    by intros [? _]%list_elem_of_filter.
Qed.

Lemma commit_settles fuel l c s o :
  ready l c (ps_broker s) -> spare (ps_broker s) ->
  exists s', loop_commit_offset env (Datatypes.S fuel) (s_topic_id sub) group o s = (Ok tt, s') /\
             ready l (Some o) (ps_broker s') /\ spare (ps_broker s') /\ ps_sent s' = ps_sent s.
Proof.
  intros (H1 & H2 & H3 & H4 & H5 & H6 & a & Ha & Hl & Hc) Hk.
  destruct (commit_group_eval (conf_cluster env) (b_store (ps_broker s)) a group (s_topic_id sub) o Ha Hns Hgroup)
    as (st & E & Ha').
  exists (mkPushState (upd_b_store (const st) (ps_broker s)) (ps_sent s) (ps_waits s)). split; [|split; [|done]].
  - cbn [loop_commit_offset]. erewrite bind_ok; [|unfold catch, on_broker, on_storage, map_err; rewrite E; reflexivity]. done.
  - split_and!; [exact H1|exact H2|exact H3|exact H4|exact H5|exact H6|].
    eexists. split; [exact Ha'|]. split; [exact Hl|]. rewrite group_commits_one, Hc.
    destruct c; [by rewrite insert_singleton_eq|by rewrite insert_empty].
Qed.

(** ** One record *)

Definition settle (c : option Z) (r : MsgRecord) : option Z := if wanted r then r_offset r else c.

(** From [s] to [s'], the records [rs] were pushed. *)
Definition pushed l l' c c' s s' (rs : list MsgRecord) : Prop :=
  l `prefix_of` l' /\ ready l' c' (ps_broker s') /\ spare (ps_broker s') /\
  deliveries (ps_sent s') = deliveries (ps_sent s) ++ omap expected rs /\ c' = foldl settle c rs.

Lemma build_message_builds l c s r msg :
  ready l c (ps_broker s) -> spare (ps_broker s) ->
  decode_record r = Ok msg -> (forall n, is_message_expire (seconds n) msg = false) -> local msg = false ->
  exists pkid s', identifies pkid /\ ready l c (ps_broker s') /\ ps_sent s' = ps_sent s /\
    build_pub_message seconds sleeps r group q sub sub_ids s
    = (Ok (Some (mkSubPublishParam sub (message_publish q sub pkid msg) (Some (message_properties sub_ids msg))
                   (r_timestamp r) pkid group)), s').
Proof.
  intros Hr Hk Hd Hx Hloc. unfold build_pub_message. unfold local in Hloc.
  destruct s as [b sent w]. cbn [ps_broker ps_sent] in *.
  assert (exists pkid b', identifies pkid /\ ready l c b' /\
    (if bool_decide (q = AtMostOnce) then ret 0 else on_broker (on_cache (get_pkid sleeps client)))
      (mkPushState b sent w) = (Ok pkid, mkPushState b' sent w)) as (pkid & b' & Hi & Hr' & E).
  { destruct (bool_decide_reflect (q = AtMostOnce)) as [Eq|Eq]; [by exists 0, b; split; [left|]|]. destruct Hk as [|[k Hk]]; [done|].
    destruct (get_pkid_one _ _ Hk) as (i & cm & E & H1 & H2 & Hi).
    exists i, (upd_b_cache (const cm) b). split; [by right|]. split; [by apply ready_cache|]. unfold on_broker, on_cache. cbn [ps_broker]. by rewrite E. }
  exists pkid, (mkPushState b' sent w). split_and!; try done.
  erewrite bind_ok; [|unfold on_broker, map_err, lift; rewrite Hd; reflexivity].
  unfold bind at 1. cbn [ps_waits]. rewrite Hx, Hloc. by erewrite bind_ok; [|exact E].
Qed.

Lemma build_message_skips s r msg :
  decode_record r = Ok msg -> (forall n, is_message_expire (seconds n) msg = false) -> local msg = true ->
  build_pub_message seconds sleeps r group q sub sub_ids s = (Ok None, s).
Proof.
  intros Hd Hx Hloc. unfold build_pub_message. unfold local in Hloc. destruct s as [b sent w].
  erewrite bind_ok; [|unfold on_broker, map_err, lift; rewrite Hd; reflexivity].
  unfold bind at 1. by rewrite Hx, Hloc.
Qed.

(** The exchange of a message, at each quality of service. *)
Lemma exchange_moves fuel l c s param msg :
  ready l c (ps_broker s) -> carries param msg ->
  exists l' s' sent,
    (match q with
     | AtMostOnce => publish_message_qos0 turn (Datatypes.S fuel) param
     | AtLeastOnce =>
         await_acks seconds client (sp_pkid param) (exclusive_publish_message_qos1 turn (Datatypes.S fuel) param 0)
     | ExactlyOnce =>
         await_acks seconds client (sp_pkid param) (exclusive_publish_message_qos2 turn (Datatypes.S fuel) param)
     end) s = (Ok tt, s') /\
    moved l l' c s s' sent /\ spare (ps_broker s') /\
    deliveries sent = [(id, false, q, s_topic_name sub, m_payload msg)].
Proof.
  intros Hr Hp. destruct q eqn:Eq; rewrite <- Eq in *.
  - destruct (qos0_moves fuel l c s param msg Hr Hp) as (l' & s' & E & Hm). exists l', s'. eexists.
    split_and!; [exact E|exact Hm|by left|done].
  - destruct (await_acks_moves l c s (sp_pkid param) (exclusive_publish_message_qos1 turn (Datatypes.S fuel) param 0)
                [(id, message_packet (sp_pkid param) msg)]) as (l' & s' & E & Hm & Hs); [|done|].
    { intros s1 Hr1. by apply qos1_moves. }
    exists l', s'. eexists. split_and!; [exact E|exact Hm|done|done].
  - destruct (await_acks_moves l c s (sp_pkid param) (exclusive_publish_message_qos2 turn (Datatypes.S fuel) param)
                [(id, message_packet (sp_pkid param) msg); (id, release (sp_pkid param))])
      as (l' & s' & E & Hm & Hs); [|done|].
    { intros s1 Hr1. by apply qos2_moves. }
    exists l', s'. eexists. split_and!; [exact E|exact Hm|done|done].
Qed.

Lemma push_record_pushes fuel l c s r o :
  ready l c (ps_broker s) -> spare (ps_broker s) -> pushable r -> r_offset r = Some o ->
  exists l' s', push_record env seconds turn sleeps (Datatypes.S fuel) sub group q sub_ids r s = (Ok tt, s') /\
                pushed l l' c (settle c r) s s' [r].
Proof.
  intros Hr Hk (_ & msg & Hd & Hx & Hlen & Hsend) Ho. unfold push_record. rewrite Ho. erewrite bind_ok; [|reflexivity].
  unfold pushed, settle, wanted, expected. cbn [omap list_omap foldl]. rewrite Hd.
  destruct (local msg) eqn:Hloc; cbn [negb].
  - erewrite bind_ok; [|by eapply build_message_skips]. exists l, s. split; [done|]. by rewrite app_nil_r.
  - destruct (build_message_builds l c s r msg Hr Hk Hd Hx Hloc) as (pkid & s1 & Hi & Hr1 & Hs1 & E1).
    erewrite bind_ok; [|exact E1]. cbv beta iota zeta.
    match goal with |- context [sp_pkid ?x] =>
      destruct (exchange_moves fuel l c s1 x msg Hr1) as (l' & s2 & sent & E2 & (Hl & Hr2 & Hs2) & Hk2 & Hdel);
        [by split_and!; [..|apply Hsend]|] end.
    destruct (commit_settles fuel l' c s2 o Hr2 Hk2) as (s3 & E3 & Hr3 & Hk3 & Hs3).
    exists l', s3. erewrite bind_ok; [|exact E2]. split; [exact E3|]. rewrite Ho. split_and!; try done.
    rewrite Hs3, Hs2, Hs1. unfold deliveries in *. by rewrite omap_app, Hdel.
Qed.

Lemma pushed_trans l1 l2 l3 c1 c2 c3 s1 s2 s3 r1 r2 :
  pushed l1 l2 c1 c2 s1 s2 r1 -> pushed l2 l3 c2 c3 s2 s3 r2 -> pushed l1 l3 c1 c3 s1 s3 (r1 ++ r2).
Proof.
  intros (H1 & _ & _ & E1 & ->) (H2 & R & K & E2 & ->). split_and!; [by etrans|done|done| |by rewrite foldl_app].
  by rewrite E2, E1, omap_app, app_assoc.
Qed.

Lemma push_records_push fuel l c s rs :
  ready l c (ps_broker s) -> spare (ps_broker s) -> Forall pushable rs ->
  Forall (fun r => is_Some (r_offset r)) rs ->
  exists l' c' s',
    for_each rs (push_record env seconds turn sleeps (Datatypes.S fuel) sub group q sub_ids) s = (Ok tt, s') /\
    pushed l l' c c' s s' rs.
Proof.
  intros Hr Hk Hp Ho. revert l c s Hr Hk. induction rs as [|r rs IH]; intros l c s Hr Hk.
  { exists l, c, s. split; [done|]. split_and!; try done. by rewrite app_nil_r. }
  apply Forall_cons in Hp as [Hp Hps], Ho as [[o Ho] Hos].
  destruct (push_record_pushes fuel l c s r o Hr Hk Hp Ho) as (l1 & s1 & E1 & M1).
  destruct (IH Hps Hos l1 _ s1 (proj1 (proj2 M1)) (proj1 (proj2 (proj2 M1)))) as (l2 & c2 & s2 & E2 & M2).
  exists l2, c2, s2. split; [by rewrite for_each_cons; erewrite bind_ok; [|exact E1]|].
  exact (pushed_trans _ _ _ _ _ _ _ _ _ [r] _ M1 M2).
Qed.

(** ** The task *)

(** The offset [c] was committed when the task started at [start]. *)
Context (c : option Z) (start : nat).

(** The records from [start] up to [n] have been pushed, since [base]. *)
Definition caught_up base l (n : nat) s : Prop :=
  ready l (foldl settle c (drop start (take n l))) (ps_broker s) /\ spare (ps_broker s) /\ (start <= n <= length l)%nat /\
  deliveries (ps_sent s) = base ++ omap expected (drop start (take n l)).

Lemma window_read l n :
  Forall pushable l -> forallb (crc32_check (calc_crc32 env)) (take 5 (drop n l)) = true.
Proof.
  intros Hp. apply forallb_forall. intros r Hr. rewrite Forall_forall in Hp. apply Hp.
  eapply subseteq_drop, subseteq_take. by apply list_elem_of_In.
Qed.

(** The records that are read: up to five from position [n] on. *)
Lemma window_last l n :
  stamped l -> (n < length l)%nat ->
  exists r k, last (take 5 (drop n l)) = Some r /\ (0 < k)%nat /\ (n + k <= length l)%nat /\
              r_offset r = Some (Z.of_nat (n + k) - 1) /\ take (n + k) l = take n l ++ take 5 (drop n l).
Proof.
  intros Hst Hn. set (k := length (take 5 (drop n l))).
  assert (k = Nat.min 5 (length l - n)) as Hk by (unfold k; by rewrite length_take, length_drop).
  assert (take 5 (drop n l) = take k (drop n l)) as E.
  { rewrite Hk. destruct (Nat.min_spec 5 (length l - n)) as [[? ->]|[? ->]]; [done|].
    rewrite !take_ge; rewrite ?length_drop; try done; lia. }
  destruct (lookup_lt_is_Some_2 l (n + (k - 1))) as [r Hr]; [lia|].
  exists r, k. split_and!; [|lia|lia| |].
  - rewrite last_lookup. fold k. rewrite lookup_take_lt by lia. rewrite lookup_drop. rewrite <- Hr. f_equal. lia.
  - rewrite (Hst _ _ Hr). f_equal. lia.
  - by rewrite E, take_take_drop.
Qed.

Lemma read_window l c' s n :
  ready l c' (ps_broker s) -> (n <= length l)%nat ->
  on_broker (on_storage (read_topic_message (calc_crc32 env) (conf_cluster env) (s_topic_id sub) (Z.of_nat n) 5)) s
  = (Ok (take 5 (drop n l)), s).
Proof.
  intros (_ & _ & _ & Hp & _ & Hb & a & Ha & Hl & _) Hn. destruct s as [b sent w]. cbn [ps_broker] in *.
  unfold on_broker, on_storage, map_err. cbn [ps_broker].
  erewrite read_topic_eval; [|exact Ha|done|exact Hl|lia|lia|unfold blen in Hb; lia].
  rewrite Nat2Z.id. change (Z.to_nat 5) with 5%nat. rewrite window_read by done. by destruct b.
Qed.

Lemma pub_message_idle fuel base l s :
  caught_up base l (length l) s ->
  pub_message env seconds turn sleeps fuel sub group q sub_ids (Z.of_nat (length l)) s = (Ok None, s).
Proof.
  intros (Hr & _). unfold pub_message. cbv zeta. erewrite bind_ok; [|eapply read_window; [exact Hr|lia]].
  by rewrite drop_ge by lia.
Qed.

Lemma pub_message_pushes fuel base l n s :
  caught_up base l n s -> (n < length l)%nat ->
  exists l' k s',
    pub_message env seconds turn sleeps (Datatypes.S fuel) sub group q sub_ids (Z.of_nat n) s
    = (Ok (Some (Z.of_nat (n + k) - 1)), s') /\
    l `prefix_of` l' /\ (0 < k)%nat /\ caught_up base l' (n + k) s'.
Proof.
  intros (Hr & Hk & Hn & Hd) Hlt. pose proof Hr as (_ & _ & _ & Hp & Hst & _).
  destruct (window_last l n Hst Hlt) as (r & k & Hlast & Hk0 & Hkl & Ho & Htake).
  destruct (push_records_push fuel l _ s (take 5 (drop n l)) Hr Hk) as (l' & c' & s' & E & Hl & Hr' & Hk' & Hd' & Hc).
  { by apply Forall_take, Forall_drop. }
  { apply Forall_take, Forall_drop, Forall_lookup. intros i x Hx. rewrite (Hst i x Hx). by eexists. }
  exists l', k, s'. split_and!; [|done|done|].
  - unfold pub_message. cbv zeta. erewrite bind_ok; [|eapply read_window; [exact Hr|lia]]. rewrite Hlast.
    erewrite bind_ok; [|exact E]. by rewrite Ho.
  - destruct Hl as [more ->]. unfold caught_up. rewrite take_app_le by lia. rewrite Htake.
    rewrite drop_app_le by (rewrite length_take; lia).
    rewrite foldl_app, <- Hc, omap_app, app_assoc, <- Hd. rewrite length_app.
    split_and!; [done..|lia|lia|done].
Qed.

Lemma push_rounds_push fuel rounds base l n s :
  caught_up base l n s ->
  exists l' n' s',
    push_rounds env seconds turn sleeps (Datatypes.S fuel) rounds sub group q sub_ids (Z.of_nat n) s
    = (Ok (Z.of_nat n'), s') /\
    l `prefix_of` l' /\ caught_up base l' n' s' /\ (Nat.min (n + rounds) (length l) <= n')%nat.
Proof.
  revert l n s. induction rounds as [|rounds IH]; intros l n s Hc.
  { exists l, n, s. split_and!; [done|done|done|lia]. }
  cbn [push_rounds]. pose proof Hc as (Hr & Hk & Hn & Hd). destruct (decide (n < length l)%nat) as [Hlt|Hge].
  - destruct (pub_message_pushes fuel base l n s Hc Hlt) as (l1 & k & s1 & E & Hl & Hk0 & Hc1).
    destruct (IH l1 (n + k)%nat s1 Hc1) as (l' & n' & s' & E' & Hl' & Hc' & Hmin).
    exists l', n', s'. split_and!; [|by etrans|done|].
    + erewrite bind_ok; [|unfold catch; rewrite E; reflexivity]. cbv beta iota.
      destruct Hc1 as ((_ & _ & _ & _ & _ & Hb & _) & _ & Hle & _). unfold blen in Hb.
      rewrite wrap64_small by lia. by rewrite Z.sub_add.
    + apply prefix_length in Hl. lia.
  - assert (n = length l) as -> by lia.
    destruct (await_moves l _ s Hr) as (l1 & s1 & E1 & (Hl & Hr1 & Hs1) & Hk1).
    destruct (IH l1 (length l) s1) as (l' & n' & s' & E' & Hl' & Hc' & Hmin).
    { destruct Hl as [more ->]. unfold caught_up. rewrite take_app_le by done. rewrite length_app.
      split_and!; [done| |lia|lia|by rewrite Hs1, app_nil_r]. unfold spare. by rewrite Hk1. }
    exists l', n', s'. split_and!; [|by etrans|done|apply prefix_length in Hl; lia].
    erewrite bind_ok; [|unfold catch; rewrite (pub_message_idle _ base) by done; reflexivity]. cbv beta iota.
    by erewrite bind_ok; [|exact E1].
Qed.

Lemma settled_last l : foldl settle c l = settled_at c l.
Proof.
  unfold settled_at. induction l as [|r l IH] using rev_ind; [done|].
  rewrite foldl_app, filter_app, filter_cons, filter_nil. cbn [foldl]. unfold settle at 1.
  case_decide as Hw.
  - rewrite last_snoc. apply Is_true_true in Hw. by rewrite Hw.
  - apply Is_true_false in Hw. by rewrite Hw, app_nil_r.
Qed.
End push.

Section delivery.
Context {S P D : Type} {SA : StorageAdapter S} {LS : LogStore S} {SC : StopChannel} {JM : Json MqttMessage} {BC : BytesCrate}.

(** C4: A subscriber that stays connected and acknowledges what it gets
    receives the messages of its topic from the committed offset of its group
    on (from the beginning when nothing is committed; a task that is started
    again sends the message at the committed offset once more), at the quality
    of service of the subscription, each once, unflagged as a duplicate and in
    the order of the log, but for its own messages where it asked not to get
    them.  This is for every store that keeps the promise of [LogStore], while
    the other tasks append to the log and do nothing else to the subscriber (in
    particular take no packet identifiers of it), and for records that are
    intact, have not expired, fit the client's packet size and can be encoded
    ([ready], [pushable], [cooperative]).  Each round of the task gets at least
    one record further until the end of the log, no wait is left open, and the
    offset that is committed is that of the last message that was sent. *)
Theorem messages_reach_subscriber env seconds sleeps turn sub q id conn p cluster fuel rounds l c
    (s : PushState (S := S) (P := P) (D := D)) :
  config_of (ps_broker s) = Some cluster -> q = min_qos (max_qos (cl_protocol cluster)) (s_qos sub) ->
  ls_ns (conf_cluster env) -> ls_group (build_group_name sub) ->
  cooperative env seconds sub q id conn p turn ->
  ready env seconds sub q id conn p l c (ps_broker s) -> spare sub q (ps_broker s) ->
  0 <= default 0 c <= blen l ->
  let start := Z.to_nat (default 0 c) in
  exists l' n s',
    push_thread env seconds turn sleeps (Datatypes.S fuel) rounds sub s = (Ok (Z.of_nat n), s') /\
    l `prefix_of` l' /\ (Nat.min (start + rounds) (length l) <= n <= length l')%nat /\ (start <= n)%nat /\
    deliveries (ps_sent s') = deliveries (ps_sent s) ++ omap (expected sub q id) (drop start (take n l')) /\
    ready env seconds sub q id conn p l' (settled_at sub c (drop start (take n l'))) (ps_broker s').
Proof.
  intros Hcl Hq Hns Hg Hturn Hr Hk Hc start. assert (start <= length l)%nat as Hstart by (unfold blen in Hc; lia).
  assert (drop start (take start l) = []) as E0 by (apply drop_ge; rewrite length_take; lia).
  destruct (push_rounds_push env seconds sleeps sub q id conn p turn Hturn Hns Hg c start fuel rounds
              (deliveries (ps_sent s)) l start s) as (l' & n & s' & E & Hl & (Hr' & _ & Hn & Hd) & Hmin).
  { unfold caught_up. rewrite E0. split_and!; [done|done|lia|lia|by rewrite app_nil_r]. }
  exists l', n, s'. rewrite settled_last in Hr'. split_and!; [|done|lia|lia|lia|done|done].
  destruct Hr as (_ & _ & _ & _ & _ & _ & a & Ha & _ & Hg'). destruct s as [b sent w]. cbn [ps_broker] in *.
  assert (on_broker (build_pub_qos sub) (mkPushState b sent w) = (Ok q, mkPushState b sent w)) as E1.
  { unfold on_broker, build_pub_qos. cbn [ps_broker ps_sent ps_waits].
    erewrite bind_ok; [|by apply cluster_config_eval]. by rewrite Hq. }
  assert (on_broker (on_storage (get_group_offset (build_group_name sub))) (mkPushState b sent w)
          = (Ok (Z.of_nat start), mkPushState b sent w)) as E2.
  { unfold on_broker, on_storage, map_err. cbn [ps_broker ps_sent ps_waits]. unfold start. rewrite Z2Nat.id by lia.
    assert (get_group_offset (build_group_name sub) (b_store b) = (Ok (default 0 c), b_store b)) as ->
      by (destruct c; [by eapply get_group_eval|by eapply get_group_none]).
    by destruct b. }
  unfold push_thread. cbv zeta. erewrite bind_ok; [|exact E1]. cbv beta. by erewrite bind_ok; [|exact E2].
Qed.
End delivery.

(** *** Example *)

Import Sample.

(** Two messages in the log of the topic, and a subscription of QoS 1 of the
    client "c", for which a client stands that answers at once. *)
Definition sample_records : list MsgRecord :=
  omap (fun payload => build_record (fun b => blen b) 101 (lit "p")
          (mkPublish false AtLeastOnce 5 false (lit "/a") payload) None 500) [[104; 105]; [121; 111]].
Definition sample_subscriber : Subscriber :=
  mkSubscriber Mqtt4 (lit "c") (lit "/a") (lit "/a") None (lit "t") AtLeastOnce false false OnEverySubscribe None.
Abbreviation Turn := (Turn (S := MemoryStorageAdapter) (P := unit) (D := gmap bytes MqttUser)).
Abbreviation PushState := (PushState (S := MemoryStorageAdapter) (P := unit) (D := gmap bytes MqttUser)).
Definition sample_start : PushState :=
  mkPushState (upd_b_store (fun s => (mem_batch_write (lit "k") (lit "t") sample_records s).2)
                 (sv_broker connected)) [] 0.
Definition sample_turn (n : nat) (sent : list (Z * MqttPacket)) : Turn :=
  mkTurn (fun b => b) true (match last sent with Some (_, packet) => answer packet | None => None end).

Lemma sample_sendable pkid payload :
  1 <= pkid <= 65534 -> blen payload = 2 ->
  sendable Mqtt4 (P_Publish (mkPublish false AtLeastOnce pkid false (lit "/a") payload) None).
Proof.
  intros Hk Hp. destruct payload as [|x [|y [|z payload]]]; try (unfold blen in Hp; cbn in Hp; lia).
  unfold sendable. destruct pkid; [lia|reflexivity|lia].
Qed.

Lemma messages_reach_subscriber_witness :
  exists l' n s',
    push_thread (Sample.env 101) (fun _ => 101) sample_turn [] 1 2 sample_subscriber sample_start
    = (Ok (Z.of_nat n), s') /\ stamp 0 sample_records `prefix_of` l' /\ (2 <= n)%nat /\
    deliveries (ps_sent s') = omap (expected sample_subscriber AtLeastOnce 1) (take n l').
Proof.
  destruct (connection_info (b_cache (ps_broker sample_start)) !! 1) as [conn|] eqn:E; [|vm_compute in E; discriminate E].
  destruct (messages_reach_subscriber (Sample.env 101) (fun _ => 101) [] sample_turn sample_subscriber AtLeastOnce 1
              conn Mqtt4 config 0 2 (stamp 0 sample_records) None sample_start) as (l' & n & s' & H1 & H2 & H3 & _ & H4 & _).
  - vm_compute. reflexivity.
  - reflexivity.
  - by apply (bool_decide_unpack _).
  - done.
  - intros k sent. split_and!; [done| |].
    + intros i packet Hl. unfold sample_turn. by rewrite Hl.
    + intros l c b Hr. split; [by exists l|done].
  - split; [vm_compute; reflexivity|]. split; [exact E|]. split; [vm_compute; reflexivity|].
    split; [|split; [|split; [vm_compute; reflexivity|]]].
    + apply Forall_cons; split; [|apply Forall_cons; split; [|apply Forall_nil; done]].
      all: split; [vm_compute; reflexivity|]; eexists; split; [vm_compute; reflexivity|].
      all: split; [by intros _|]; split; [vm_compute in E; injection E as <-; vm_compute; discriminate|].
      all: intros pkid [Hq|Hk]; [discriminate Hq|by apply sample_sendable].
    + apply (stamped_append [] sample_records), stamped_nil.
    + destruct (mem_create_refines MemoryStorageAdapter_new (mkLogSpec ∅ ∅) (mkShardInfo (lit "k") (lit "t") 1))
        as (s1 & E1 & Hr1); [apply mem_rep_new|by apply (bool_decide_unpack _)|]. injection E1 as <-.
      destruct (mem_batch_write_refines _ _ (lit "k") (lit "t") sample_records Hr1) as (s2 & E2 & Hr2);
        [by apply (bool_decide_unpack _)|].
      exists (spec_append (lit "k", lit "t") sample_records (spec_create (lit "k", lit "t") (mkLogSpec ∅ ∅))).
      split; [|split; [vm_compute; reflexivity|vm_compute; reflexivity]].
      assert (s2 = (batch_write (lit "k") (lit "t") sample_records Sample.store).2) as -> by exact (eq_sym (f_equal snd E2)).
      exact Hr2.
  - right. exists 0. intros i Hi. vm_compute in Hi. by apply not_elem_of_nil in Hi.
  - vm_compute. split; discriminate.
  - exists l', n, s'. split; [exact H1|]. split; [exact H2|]. split; [exact (proj1 H3)|exact H4].
Defined.
