(* ===== verification/PlacementStore.v ===== *)
(** * The storages of the placement center: [placement-center/src/storage]

    The metadata of the clusters, of the journal and of MQTT, kept as JSON in
    one column family of RocksDB under keys that [keys.rs] composes, and the
    key-value store that the service of [server/grpc/service_kv.rs] offers.
    The database and the serializer are those of [RocksEngine]. *)

From Stdlib Require Import String.
From stdpp Require Import sorting.
From S2P Require Import Prelude Bytes RustStr Storage RocksEngine Topics Subscriptions Acl BrokerCache SchemaRegister MqttTypes Broker.

(** ** Data of [common/metadata-struct] *)

Record ClusterInfo : Type := mkClusterInfo {
  ci_cluster_name : bytes;
  ci_cluster_type : bytes;
  ci_create_time : Z
}.

Record BrokerNode : Type := mkBrokerNode {
  bn_cluster_name : bytes;
  bn_cluster_type : bytes;
  bn_create_time : Z;
  bn_extend : bytes;
  bn_node_id : Z;
  bn_node_inner_addr : bytes;
  bn_node_ip : bytes
}.

Inductive JournalShardStatus : Type := Run | PrepareDelete | ShardDeleting.
#[export] Instance JournalShardStatus_eq_dec : EqDecision JournalShardStatus.
Proof. solve_decision. Defined.

Record JournalShardConfig : Type := mkJournalShardConfig { replica_num : Z; max_segment_size : Z }.

Record JournalShard : Type := mkJournalShard {
  js_shard_uid : bytes;
  js_cluster_name : bytes;
  js_namespace : bytes;
  js_shard_name : bytes;
  js_start_segment_seq : Z;
  js_active_segment_seq : Z;
  js_last_segment_seq : Z;
  js_status : JournalShardStatus;
  js_config : JournalShardConfig;
  js_create_time : Z
}.

Inductive SegmentStatus : Type :=
| Idle | PreWrite | Write | PreSealUp | SealUp | PreDelete | Deleting.
#[export] Instance SegmentStatus_eq_dec : EqDecision SegmentStatus.
Proof. solve_decision. Defined.

Record Replica : Type := mkReplica { rp_replica_seq : Z; rp_node_id : Z; rp_fold : bytes }.

Record JournalSegment : Type := mkJournalSegment {
  sg_cluster_name : bytes;
  sg_namespace : bytes;
  sg_shard_name : bytes;
  sg_segment_seq : Z;
  sg_replicas : list Replica;
  sg_leader_epoch : Z;
  sg_leader : Z;
  sg_isr : list Z;
  sg_status : SegmentStatus;
  sg_max_segment_size : Z
}.

Record JournalSegmentMetadata : Type := mkJournalSegmentMetadata {
  mt_cluster_name : bytes;
  mt_namespace : bytes;
  mt_shard_name : bytes;
  mt_segment_seq : Z;
  mt_start_offset : Z;
  mt_end_offset : Z;
  mt_start_timestamp : Z;
  mt_end_timestamp : Z
}.

Inductive ConnectorType : Type := Kafka | LocalFile.
Inductive MQTTStatus : Type := ConnectorIdle | ConnectorRunning.
Record MQTTConnector : Type := mkMQTTConnector {
  cn_cluster_name : bytes;
  cn_connector_name : bytes;
  cn_connector_type : ConnectorType;
  cn_config : bytes;
  cn_topic_id : bytes;
  cn_status : MQTTStatus;
  cn_broker_id : option Z;
  cn_create_time : Z;
  cn_update_time : Z
}.

(** [storage/placement/offset.rs]. *)
Record OffsetData : Type := mkOffsetData {
  od_cluster_name : bytes;
  od_group : bytes;
  od_namespace : bytes;
  od_shard_name : bytes;
  od_offset : Z;
  od_timestamp : Z
}.

(** A [Vec<u8>] in JSON is a list of numbers and not a string. *)
Record ByteVec : Type := mkByteVec { bv_octets : bytes }.

(** [Display] of the enumerations that are part of a key. *)
Definition acl_resource_type_text (t : MqttAclResourceType) : bytes :=
  match t with ClientId => lit "ClientId" | User => lit "User" end.
Definition blacklist_type_text (t : MqttAclBlackListType) : bytes :=
  match t with
  | BL_ClientId => lit "ClientId"
  | BL_User => lit "User"
  | BL_Ip => lit "Ip"
  | BL_ClientIdMatch => lit "ClientIdMatch"
  | BL_UserMatch => lit "UserMatch"
  | BL_IPCIDR => lit "IPCIDR"
  end.

(** ** Errors: [core/error.rs]

    The conversions that the operator [?] applies are a class. *)

Inductive PlacementCenterError : Type :=
| PE_TonicTransport (e : bytes)
| PE_ErrorKind (e : bytes)
| PE_DecodeError (e : bytes)
| PE_SerdeJsonError (e : bytes)
| PE_RocksdbError (e : bytes)
| PE_BaseCommonError (e : CommonError)
| PE_IoError (e : bytes)
| PE_FromUtf8Error (e : bytes)
| PE_AddrParseError (e : bytes)
| PE_TokioTimeErrorElapsed (e : bytes)
| PE_OpenRaftError (e : bytes)
| PE_RaftLogCommitTimeout (name : bytes)
| PE_CommonError (e : bytes)
| PE_ClusterDoesNotExist (name : bytes)
| PE_NoAvailableBrokerNode
| PE_NodeDoesNotExist (node_id : Z)
| PE_ShardDoesNotExist (name : bytes)
| PE_SegmentDoesNotExist (name : bytes)
| PE_SegmentMetaDoesNotExist (name : bytes)
| PE_SegmentStateError (name current passed : bytes)
| PE_NoAllowDeleteSegment (name state : bytes)
| PE_ShardHasEnoughSegment (name : bytes)
| PE_NotEnoughNodes (needed current : Z)
| PE_ExecutionResultIsEmpty
| PE_RocksDBFamilyNotAvailable (name : bytes)
| PE_InvalidSegmentGreaterThan (segment start : Z)
| PE_InvalidSegmentLessThan (segment start : Z)
| PE_RequestParamsNotEmpty (name : bytes)
| PE_SessionDoesNotExist
| PE_NumberOfReplicasIsIncorrect (needed obtained : Z)
| PE_TopicDoesNotExist (name : bytes)
| PE_TopicAlreadyExist (name : bytes)
| PE_SegmentWrongState (name : bytes)
| PE_ConnectorNotFound (name : bytes)
| PE_ConnectorAlreadyExist (name : bytes)
| PE_SchemaDoesNotExist (name : bytes)
| PE_SchemaNotFound (name : bytes).
#[export] Instance PlacementCenterError_eq_dec : EqDecision PlacementCenterError.
Proof. solve_decision. Defined.

Class FromErrors (E : Type) : Type := {
  from_common : CommonError -> E;
  from_serde : bytes -> E
}.
#[export] Instance CommonError_from : FromErrors CommonError :=
  {| from_common e := e; from_serde := FromSerdeJsonError |}.
#[export] Instance PlacementCenterError_from : FromErrors PlacementCenterError :=
  {| from_common := PE_BaseCommonError; from_serde := PE_SerdeJsonError |}.

(** ** [keys.rs] *)

Definition key_cluster (cluster_type cluster_name : bytes) : bytes :=
  lit "/clusters/" ++ cluster_type ++ lit "/" ++ cluster_name.
Definition key_cluster_prefix : bytes := lit "/clusters/".
Definition key_cluster_prefix_by_type (cluster_type : bytes) : bytes :=
  lit "/clusters/" ++ cluster_type ++ lit "/".
Definition key_node (cluster_name : bytes) (node_id : Z) : bytes :=
  lit "/clusters/node/" ++ cluster_name ++ lit "/" ++ decimal node_id.
Definition key_node_prefix (cluster_name : bytes) : bytes :=
  lit "/clusters/node/" ++ cluster_name ++ lit "/".
Definition key_node_prefix_all : bytes := lit "/clusters/node/".
Definition key_resource_config (cluster_name resource_key : bytes) : bytes :=
  lit "/config/" ++ cluster_name ++ lit "/" ++ resource_key.
Definition key_resource_idempotent (cluster_name produce_id : bytes) (seq_num : Z) : bytes :=
  lit "/idempotent/" ++ cluster_name ++ lit "/" ++ produce_id ++ lit "/" ++ decimal seq_num.
Definition key_offset (cluster_name group namespace shard_name : bytes) : bytes :=
  lit "/offset/" ++ cluster_name ++ lit "/" ++ group ++ lit "/" ++ namespace ++ lit "/" ++ shard_name.
Definition key_offset_by_group (cluster_name group : bytes) : bytes :=
  lit "/offset/" ++ cluster_name ++ lit "/" ++ group.

Definition key_shard (cluster_name namespace shard_name : bytes) : bytes :=
  lit "/journal/shard/" ++ cluster_name ++ lit "/" ++ namespace ++ lit "/" ++ shard_name.
Definition key_shard_cluster_prefix (cluster_name : bytes) : bytes :=
  lit "/journal/shard/" ++ cluster_name ++ lit "/".
Definition key_shard_namespace_prefix (cluster_name namespace : bytes) : bytes :=
  lit "/journal/shard/" ++ cluster_name ++ lit "/" ++ namespace ++ lit "/".
Definition key_all_shard : bytes := lit "/journal/shard/".
Definition key_segment (cluster_name namespace shard_name : bytes) (segment_seq : Z) : bytes :=
  lit "/journal/segment/" ++ cluster_name ++ lit "/" ++ namespace ++ lit "/" ++ shard_name
  ++ lit "/" ++ decimal segment_seq.
Definition key_all_segment : bytes := lit "/journal/segment/".
Definition key_segment_cluster_prefix (cluster_name : bytes) : bytes :=
  lit "/journal/segment/" ++ cluster_name ++ lit "/".
Definition key_segment_namespace_prefix (cluster_name namespace : bytes) : bytes :=
  lit "/journal/segment/" ++ cluster_name ++ lit "/" ++ namespace ++ lit "/".
Definition key_segment_shard_prefix (cluster_name namespace shard_name : bytes) : bytes :=
  lit "/journal/segment/" ++ cluster_name ++ lit "/" ++ namespace ++ lit "/" ++ shard_name ++ lit "/".
Definition key_segment_metadata (cluster_name namespace shard_name : bytes) (segment_seq : Z) : bytes :=
  lit "/journal/segmentmeta/" ++ cluster_name ++ lit "/" ++ namespace ++ lit "/" ++ shard_name
  ++ lit "/" ++ decimal segment_seq.
Definition key_all_segment_metadata : bytes := lit "/journal/segmentmeta/".
Definition key_segment_metadata_cluster_prefix (cluster_name : bytes) : bytes :=
  lit "/journal/segmentmeta/" ++ cluster_name ++ lit "/".
Definition key_segment_metadata_namespace_prefix (cluster_name namespace : bytes) : bytes :=
  lit "/journal/segmentmeta/" ++ cluster_name ++ lit "/" ++ namespace ++ lit "/".
Definition key_segment_metadata_shard_prefix (cluster_name namespace shard_name : bytes) : bytes :=
  lit "/journal/segmentmeta/" ++ cluster_name ++ lit "/" ++ namespace ++ lit "/" ++ shard_name ++ lit "/".

(** The keys of MQTT: a kind and a list of names. *)
Definition mqtt_key (kind_ : bytes) (names : list bytes) : bytes :=
  lit "/mqtt/" ++ kind_ ++ concat (map (fun name => lit "/" ++ name) names).

Definition storage_key_mqtt_user (c user : bytes) : bytes := mqtt_key (lit "user") [c; user].
Definition storage_key_mqtt_user_cluster_prefix (c : bytes) : bytes := mqtt_key (lit "user") [c; []].
Definition storage_key_mqtt_topic (c topic : bytes) : bytes := mqtt_key (lit "topic") [c; topic].
Definition storage_key_mqtt_topic_cluster_prefix (c : bytes) : bytes := mqtt_key (lit "topic") [c; []].
Definition storage_key_mqtt_session (c client : bytes) : bytes := mqtt_key (lit "session") [c; client].
Definition storage_key_mqtt_session_cluster_prefix (c : bytes) : bytes := mqtt_key (lit "session") [c; []].
Definition storage_key_mqtt_last_will (c client : bytes) : bytes := mqtt_key (lit "lastwill") [c; client].
Definition storage_key_mqtt_last_will_prefix (c : bytes) : bytes := mqtt_key (lit "lastwill") [c; []].
Definition storage_key_mqtt_node_sub_group_leader (c : bytes) : bytes :=
  mqtt_key (lit "sub_group_leader") [c].
Definition storage_key_mqtt_subscribe (c client path : bytes) : bytes :=
  mqtt_key (lit "subscribe") [c; client; path].
Definition storage_key_mqtt_subscribe_client_id_prefix (c client : bytes) : bytes :=
  mqtt_key (lit "subscribe") [c; client; []].
Definition storage_key_mqtt_subscribe_cluster_prefix (c : bytes) : bytes :=
  mqtt_key (lit "subscribe") [c; []].
Definition storage_key_mqtt_connector (c connector : bytes) : bytes :=
  mqtt_key (lit "connector") [c; connector].
Definition storage_key_mqtt_connector_prefix (c : bytes) : bytes := mqtt_key (lit "connector") [c].
Definition storage_key_mqtt_schema (c schema : bytes) : bytes := mqtt_key (lit "schema") [c; schema].
Definition storage_key_mqtt_schema_prefix (c : bytes) : bytes := mqtt_key (lit "schema") [c].
Definition storage_key_mqtt_schema_bind (c resource schema : bytes) : bytes :=
  mqtt_key (lit "schema_bind") [c; resource; schema].
Definition storage_key_mqtt_schema_bind_prefix_by_resource (c resource : bytes) : bytes :=
  mqtt_key (lit "schema_bind") [c; resource].
Definition storage_key_mqtt_schema_bind_prefix_by_cluster (c : bytes) : bytes :=
  mqtt_key (lit "schema_bind") [c].
Definition storage_key_mqtt_acl (c resource_type resource : bytes) : bytes :=
  mqtt_key (lit "acl") [c; resource_type; resource].
Definition storage_key_mqtt_acl_prefix (c : bytes) : bytes := mqtt_key (lit "acl") [c; []].
Definition storage_key_mqtt_blacklist (c black_list_type resource : bytes) : bytes :=
  mqtt_key (lit "blacklist") [c; black_list_type; resource].
Definition storage_key_mqtt_blacklist_prefix (c : bytes) : bytes := mqtt_key (lit "blacklist") [c; []].
Definition storage_key_mqtt_topic_rewrite_rule (c action source : bytes) : bytes :=
  mqtt_key (lit "topic_rewrite_rule") [c; action; source].
Definition storage_key_mqtt_topic_rewrite_rule_prefix (c : bytes) : bytes :=
  mqtt_key (lit "topic_rewrite_rule") [c; []].

(** ** The engine: [storage/engine.rs] *)

Definition DB_COLUMN_FAMILY_CLUSTER : bytes := lit "cluster".

Section storage.
Context {D : Type} {RD : RocksDB D} {JW : Json StorageDataWrap}.

Definition engine_save_by_cluster {A : Type} {J : Json A} (now : Z) (key_name : bytes) (value : A)
  : M D CommonError unit :=
  rocksdb_engine_save now DB_COLUMN_FAMILY_CLUSTER key_name value.
Definition engine_get_by_cluster (key_name : bytes) : M D CommonError (option StorageDataWrap) :=
  rocksdb_engine_get DB_COLUMN_FAMILY_CLUSTER key_name.
Definition engine_exists_by_cluster (key_name : bytes) : M D CommonError bool :=
  rocksdb_engine_exists DB_COLUMN_FAMILY_CLUSTER key_name.
Definition engine_delete_by_cluster (key_name : bytes) : M D CommonError unit :=
  rocksdb_engine_delete DB_COLUMN_FAMILY_CLUSTER key_name.
Definition engine_prefix_list_by_cluster (prefix_key_name : bytes) : M D CommonError (list StorageDataWrap) :=
  rocksdb_engine_prefix_list DB_COLUMN_FAMILY_CLUSTER prefix_key_name.

(** *** What the storages have in common

    A stored value is read back with [serde_json::from_str]; a list stops at
    the first value that cannot be read. *)
Section common.
Context {E : Type} {FE : FromErrors E}.

Definition from_str {A : Type} {J : Json A} (data : bytes) : M D E A :=
  match from_slice data with inr a => ret a | inl e => fail (from_serde e) end.

Definition save_as {A : Type} {J : Json A} (now : Z) (key : bytes) (value : A) : M D E unit :=
  map_err from_common (engine_save_by_cluster now key value).

Definition delete_key (key : bytes) : M D E unit := map_err from_common (engine_delete_by_cluster key).

Definition get_as (A : Type) {J : Json A} (key : bytes) : M D E (option A) :=
  let! data := map_err from_common (engine_get_by_cluster key) in
  match data with
  | Some data => let! a := from_str (sd_data data) in ret (Some a)
  | None => ret None
  end.

Fixpoint read_all (A : Type) {J : Json A} (raw : list StorageDataWrap) : M D E (list A) :=
  match raw with
  | [] => ret []
  | data :: raw => let! a := from_str (sd_data data) in let! results := read_all A raw in ret (a :: results)
  end.

Definition list_as (A : Type) {J : Json A} (prefix_key : bytes) : M D E (list A) :=
  let! data := map_err from_common (engine_prefix_list_by_cluster prefix_key) in
  read_all A data.
End common.

(** *** [storage/placement] *)

Definition kv_set {J : Json bytes} (now : Z) (key value : bytes) : M D CommonError unit := save_as now key value.
Definition kv_delete (key : bytes) : M D CommonError unit := delete_key key.
Definition kv_get {J : Json bytes} (key : bytes) : M D CommonError (option bytes) := get_as bytes key.
Definition kv_exists (key : bytes) : M D CommonError bool := engine_exists_by_cluster key.
Definition kv_get_prefix {J : Json bytes} (prefix : bytes) : M D CommonError (list bytes) := list_as bytes prefix.

Definition cluster_save {J : Json ClusterInfo} (now : Z) (cluster_info : ClusterInfo) : M D CommonError unit :=
  save_as now (key_cluster (ci_cluster_type cluster_info) (ci_cluster_name cluster_info)) cluster_info.
Definition cluster_list_of {J : Json ClusterInfo} (cluster_type : option bytes) : M D CommonError (list ClusterInfo) :=
  list_as ClusterInfo
    match cluster_type with Some ct => key_cluster_prefix_by_type ct | None => key_cluster_prefix end.

Definition node_save {J : Json BrokerNode} (now : Z) (node : BrokerNode) : M D CommonError unit :=
  save_as now (key_node (bn_cluster_name node) (bn_node_id node)) node.
Definition node_delete (cluster_name : bytes) (node_id : Z) : M D CommonError unit :=
  delete_key (key_node cluster_name node_id).
Definition node_get {J : Json BrokerNode} (cluster_name : bytes) (node_id : Z)
  : M D CommonError (option BrokerNode) := get_as BrokerNode (key_node cluster_name node_id).
Definition node_list_of {J : Json BrokerNode} (cluster_name : option bytes) : M D CommonError (list BrokerNode) :=
  list_as BrokerNode match cluster_name with Some cn => key_node_prefix cn | None => key_node_prefix_all end.

Definition config_save {J : Json ByteVec} (now : Z) (cluster_name : bytes) (resource_key : list bytes)
    (config : ByteVec) : M D CommonError unit :=
  save_as now (key_resource_config cluster_name (join_with (lit "/") resource_key)) config.
Definition config_delete (cluster_name : bytes) (resource_key : list bytes) : M D CommonError unit :=
  delete_key (key_resource_config cluster_name (join_with (lit "/") resource_key)).
Definition config_get {J : Json ByteVec} (cluster_name : bytes) (resource_key : list bytes)
  : M D CommonError (option ByteVec) :=
  get_as ByteVec (key_resource_config cluster_name (join_with (lit "/") resource_key)).

Definition idempotent_save {J : Json Z} (now : Z) (cluster_name producer_id : bytes) (seq_num : Z)
  : M D CommonError unit :=
  save_as now (key_resource_idempotent cluster_name producer_id seq_num) seq_num.
Definition idempotent_delete (cluster_name producer_id : bytes) (seq_num : Z) : M D CommonError unit :=
  delete_key (key_resource_idempotent cluster_name producer_id seq_num).
Definition idempotent_exists (cluster_name producer_id : bytes) (seq_num : Z) : M D CommonError bool :=
  engine_exists_by_cluster (key_resource_idempotent cluster_name producer_id seq_num).

Definition offset_save {J : Json OffsetData} (now : Z) (cluster_name group namespace shard_name : bytes)
    (offset : Z) : M D CommonError unit :=
  save_as now (key_offset cluster_name group namespace shard_name)
    (mkOffsetData cluster_name group namespace shard_name offset now).
Definition offset_delete (cluster_name group namespace shard_name : bytes) : M D CommonError unit :=
  delete_key (key_offset cluster_name group namespace shard_name).
Definition group_offset {J : Json OffsetData} (cluster_name group : bytes) : M D CommonError (list OffsetData) :=
  list_as OffsetData (key_offset_by_group cluster_name group).

Definition schema_save {J : Json SchemaData} (now : Z) (cluster_name schema_name : bytes) (schema : SchemaData)
  : M D PlacementCenterError unit :=
  save_as now (storage_key_mqtt_schema cluster_name schema_name) schema.
Definition schema_list_of {J : Json SchemaData} (cluster_name : bytes) : M D PlacementCenterError (list SchemaData) :=
  list_as SchemaData (storage_key_mqtt_schema_prefix cluster_name).
Definition schema_get {J : Json SchemaData} (cluster_name schema_name : bytes)
  : M D PlacementCenterError (option SchemaData) :=
  get_as SchemaData (storage_key_mqtt_schema cluster_name schema_name).
Definition schema_delete (cluster_name schema_name : bytes) : M D PlacementCenterError unit :=
  delete_key (storage_key_mqtt_schema cluster_name schema_name).

(** The schema takes the place of the resource in the key, and the resource
    that of the schema. *)
Definition schema_save_bind {J : Json SchemaResourceBind} (now : Z) (cluster_name : bytes)
    (bind_data : SchemaResourceBind) : M D PlacementCenterError unit :=
  save_as now (storage_key_mqtt_schema_bind cluster_name (sb_schema_name bind_data) (sb_resource_name bind_data))
    bind_data.
Definition schema_list_bind_by_resource {J : Json SchemaResourceBind} (cluster_name resource_name : bytes)
  : M D PlacementCenterError (list SchemaResourceBind) :=
  list_as SchemaResourceBind (storage_key_mqtt_schema_bind_prefix_by_resource cluster_name resource_name).
Definition schema_list_bind_by_cluster {J : Json SchemaResourceBind} (cluster_name : bytes)
  : M D PlacementCenterError (list SchemaResourceBind) :=
  list_as SchemaResourceBind (storage_key_mqtt_schema_bind_prefix_by_cluster cluster_name).
Definition schema_get_bind {J : Json SchemaResourceBind} (cluster_name resource_name schema_name : bytes)
  : M D PlacementCenterError (option SchemaResourceBind) :=
  get_as SchemaResourceBind (storage_key_mqtt_schema_bind cluster_name resource_name schema_name).
Definition schema_delete_bind (cluster_name resource_name schema_name : bytes) : M D PlacementCenterError unit :=
  delete_key (storage_key_mqtt_schema_bind cluster_name resource_name schema_name).

(** *** [storage/journal] *)

Definition shard_save {J : Json JournalShard} (now : Z) (shard_info : JournalShard) : M D CommonError unit :=
  save_as now (key_shard (js_cluster_name shard_info) (js_namespace shard_info) (js_shard_name shard_info))
    shard_info.
Definition shard_get {J : Json JournalShard} (cluster_name namespace shard_name : bytes)
  : M D CommonError (option JournalShard) := get_as JournalShard (key_shard cluster_name namespace shard_name).
Definition shard_delete (cluster_name namespace shard_name : bytes) : M D CommonError unit :=
  delete_key (key_shard cluster_name namespace shard_name).
Definition all_shard {J : Json JournalShard} : M D CommonError (list JournalShard) :=
  list_as JournalShard key_all_shard.
Definition shard_list_by_cluster {J : Json JournalShard} (cluster_name : bytes)
  : M D CommonError (list JournalShard) := list_as JournalShard (key_shard_cluster_prefix cluster_name).
Definition shard_list_by_namespace {J : Json JournalShard} (cluster_name namespace : bytes)
  : M D CommonError (list JournalShard) :=
  list_as JournalShard (key_shard_namespace_prefix cluster_name namespace).

Definition segment_save {J : Json JournalSegment} (now : Z) (segment : JournalSegment) : M D CommonError unit :=
  save_as now (key_segment (sg_cluster_name segment) (sg_namespace segment) (sg_shard_name segment)
                 (sg_segment_seq segment)) segment.
Definition segment_get {J : Json JournalSegment} (cluster_name namespace shard_name : bytes) (segment_seq : Z)
  : M D CommonError (option JournalSegment) :=
  get_as JournalSegment (key_segment cluster_name namespace shard_name segment_seq).
Definition all_segment {J : Json JournalSegment} : M D CommonError (list JournalSegment) :=
  list_as JournalSegment key_all_segment.
Definition segment_list_by_cluster {J : Json JournalSegment} (cluster_name : bytes)
  : M D CommonError (list JournalSegment) := list_as JournalSegment (key_segment_cluster_prefix cluster_name).
Definition segment_list_by_namespace {J : Json JournalSegment} (cluster_name namespace : bytes)
  : M D CommonError (list JournalSegment) :=
  list_as JournalSegment (key_segment_namespace_prefix cluster_name namespace).
Definition segment_list_by_shard {J : Json JournalSegment} (cluster_name namespace shard_name : bytes)
  : M D CommonError (list JournalSegment) :=
  list_as JournalSegment (key_segment_shard_prefix cluster_name namespace shard_name).
Definition segment_delete (cluster_name namespace shard_name : bytes) (segment_seq : Z) : M D CommonError unit :=
  delete_key (key_segment cluster_name namespace shard_name segment_seq).

Definition segment_meta_save {J : Json JournalSegmentMetadata} (now : Z) (segment : JournalSegmentMetadata)
  : M D CommonError unit :=
  save_as now (key_segment_metadata (mt_cluster_name segment) (mt_namespace segment) (mt_shard_name segment)
                 (mt_segment_seq segment)) segment.
Definition segment_meta_get {J : Json JournalSegmentMetadata} (cluster_name namespace shard_name : bytes)
    (segment_seq : Z) : M D CommonError (option JournalSegmentMetadata) :=
  get_as JournalSegmentMetadata (key_segment_metadata cluster_name namespace shard_name segment_seq).
Definition all_segment_meta {J : Json JournalSegmentMetadata} : M D CommonError (list JournalSegmentMetadata) :=
  list_as JournalSegmentMetadata key_all_segment_metadata.
Definition segment_meta_list_by_cluster {J : Json JournalSegmentMetadata} (cluster_name : bytes)
  : M D CommonError (list JournalSegmentMetadata) :=
  list_as JournalSegmentMetadata (key_segment_metadata_cluster_prefix cluster_name).
Definition segment_meta_list_by_namespace {J : Json JournalSegmentMetadata} (cluster_name namespace : bytes)
  : M D CommonError (list JournalSegmentMetadata) :=
  list_as JournalSegmentMetadata (key_segment_metadata_namespace_prefix cluster_name namespace).
Definition segment_meta_list_by_shard {J : Json JournalSegmentMetadata} (cluster_name namespace shard_name : bytes)
  : M D CommonError (list JournalSegmentMetadata) :=
  list_as JournalSegmentMetadata (key_segment_metadata_shard_prefix cluster_name namespace shard_name).
Definition segment_meta_delete (cluster_name namespace shard_name : bytes) (segment_seq : Z) : M D CommonError unit :=
  delete_key (key_segment_metadata cluster_name namespace shard_name segment_seq).

(** *** [storage/mqtt] *)

Definition user_save {J : Json MqttUser} (now : Z) (cluster_name user_name : bytes) (user : MqttUser)
  : M D CommonError unit := save_as now (storage_key_mqtt_user cluster_name user_name) user.
Definition user_list_of {J : Json MqttUser} (cluster_name : bytes) : M D CommonError (list MqttUser) :=
  list_as MqttUser (storage_key_mqtt_user_cluster_prefix cluster_name).
Definition user_get {J : Json MqttUser} (cluster_name username : bytes) : M D CommonError (option MqttUser) :=
  get_as MqttUser (storage_key_mqtt_user cluster_name username).
Definition user_delete (cluster_name user_name : bytes) : M D CommonError unit :=
  delete_key (storage_key_mqtt_user cluster_name user_name).

Definition topic_save {J : Json MqttTopic} (now : Z) (cluster_name topic_name : bytes) (topic : MqttTopic)
  : M D PlacementCenterError unit := save_as now (storage_key_mqtt_topic cluster_name topic_name) topic.
Definition topic_list_of {J : Json MqttTopic} (cluster_name : bytes) : M D PlacementCenterError (list MqttTopic) :=
  list_as MqttTopic (storage_key_mqtt_topic_cluster_prefix cluster_name).
Definition topic_get {J : Json MqttTopic} (cluster_name topicname : bytes)
  : M D PlacementCenterError (option MqttTopic) := get_as MqttTopic (storage_key_mqtt_topic cluster_name topicname).
Definition topic_delete (cluster_name topic_name : bytes) : M D PlacementCenterError unit :=
  delete_key (storage_key_mqtt_topic cluster_name topic_name).
Definition save_topic_rewrite_rule {J : Json MqttTopicRewriteRule} (now : Z)
    (cluster_name action source_topic : bytes) (topic_rewrite_rule : MqttTopicRewriteRule)
  : M D PlacementCenterError unit :=
  save_as now (storage_key_mqtt_topic_rewrite_rule cluster_name action source_topic) topic_rewrite_rule.
Definition delete_topic_rewrite_rule (cluster_name action source_topic : bytes) : M D PlacementCenterError unit :=
  delete_key (storage_key_mqtt_topic_rewrite_rule cluster_name action source_topic).
Definition list_topic_rewrite_rule {J : Json MqttTopicRewriteRule} (cluster_name : bytes)
  : M D PlacementCenterError (list MqttTopicRewriteRule) :=
  list_as MqttTopicRewriteRule (storage_key_mqtt_topic_rewrite_rule_prefix cluster_name).

Definition session_save {J : Json MqttSession} (now : Z) (cluster_name client_id : bytes) (session : MqttSession)
  : M D CommonError unit := save_as now (storage_key_mqtt_session cluster_name client_id) session.
Definition session_list_of (cluster_name : bytes) : M D CommonError (list StorageDataWrap) :=
  engine_prefix_list_by_cluster (storage_key_mqtt_session_cluster_prefix cluster_name).
Definition session_get {J : Json MqttSession} (cluster_name client_id : bytes)
  : M D CommonError (option MqttSession) := get_as MqttSession (storage_key_mqtt_session cluster_name client_id).
Definition session_delete (cluster_name client_id : bytes) : M D CommonError unit :=
  delete_key (storage_key_mqtt_session cluster_name client_id).

Definition lastwill_save {J : Json LastWillData} (now : Z) (cluster_name client_id : bytes)
    (last_will_message : LastWillData) : M D PlacementCenterError unit :=
  save_as now (storage_key_mqtt_last_will cluster_name client_id) last_will_message.
Definition lastwill_get {J : Json LastWillData} (cluster_name client_id : bytes)
  : M D PlacementCenterError (option LastWillData) :=
  get_as LastWillData (storage_key_mqtt_last_will cluster_name client_id).
Definition lastwill_delete (cluster_name client_id : bytes) : M D PlacementCenterError unit :=
  delete_key (storage_key_mqtt_last_will cluster_name client_id).

Definition subscribe_save {J : Json MqttSubscribe} (now : Z) (cluster_name client_id path : bytes)
    (subscribe : MqttSubscribe) : M D CommonError unit :=
  save_as now (storage_key_mqtt_subscribe cluster_name client_id path) subscribe.
Definition subscribe_list_by_cluster {J : Json MqttSubscribe} (cluster_name : bytes)
  : M D CommonError (list MqttSubscribe) :=
  list_as MqttSubscribe (storage_key_mqtt_subscribe_cluster_prefix cluster_name).
Definition subscribe_list_by_client_id {J : Json MqttSubscribe} (cluster_name client_id : bytes)
  : M D CommonError (list MqttSubscribe) :=
  list_as MqttSubscribe (storage_key_mqtt_subscribe_client_id_prefix cluster_name client_id).
Definition subscribe_get {J : Json MqttSubscribe} (cluster_name client_id path : bytes)
  : M D PlacementCenterError (option MqttSubscribe) :=
  get_as MqttSubscribe (storage_key_mqtt_subscribe cluster_name client_id path).
Definition subscribe_delete_by_path (cluster_name client_id path : bytes) : M D CommonError unit :=
  delete_key (storage_key_mqtt_subscribe cluster_name client_id path).
Definition subscribe_delete_by_client_id {J : Json MqttSubscribe} (cluster_name client_id : bytes)
  : M D CommonError unit :=
  let! list := engine_prefix_list_by_cluster (storage_key_mqtt_subscribe_client_id_prefix cluster_name client_id) in
  for_each list (fun raw =>
    let! sub := from_str (sd_data raw) in
    subscribe_delete_by_path (ms_cluster_name sub) (ms_client_id sub) (path (ms_filter sub))).

Definition connector_save {J : Json MQTTConnector} (now : Z) (cluster_name connector_name : bytes)
    (connector : MQTTConnector) : M D CommonError unit :=
  save_as now (storage_key_mqtt_connector cluster_name connector_name) connector.
(** Values that cannot be read are left out. *)
Definition connector_list_of {J : Json MQTTConnector} (cluster_name : bytes) : M D CommonError (list MQTTConnector) :=
  let! raw := engine_prefix_list_by_cluster (storage_key_mqtt_connector_prefix cluster_name) in
  ret (omap (fun w => match from_slice (sd_data w) with inr data => Some data | inl _ => None end) raw).
Definition connector_get {J : Json MQTTConnector} (cluster_name connector_name : bytes)
  : M D CommonError (option MQTTConnector) :=
  get_as MQTTConnector (storage_key_mqtt_connector cluster_name connector_name).
Definition connector_delete (cluster_name connector_name : bytes) : M D CommonError unit :=
  delete_key (storage_key_mqtt_connector cluster_name connector_name).

(** The rules of one user or client are one value. *)
Definition acl_same (raw acl : MqttAcl) : bool :=
  bool_decide (acl_permission raw = acl_permission acl) && bool_decide (acl_action raw = acl_action acl)
  && bool_decide (acl_topic raw = acl_topic acl) && bool_decide (acl_ip raw = acl_ip acl).
Definition acl_exists (acl_list : list MqttAcl) (acl : MqttAcl) : bool :=
  existsb (fun raw => acl_same raw acl) acl_list.
Definition acl_get {J : Json (list MqttAcl)} (cluster_name resource_type resource_name : bytes)
  : M D CommonError (list MqttAcl) :=
  let! o := get_as (list MqttAcl) (storage_key_mqtt_acl cluster_name resource_type resource_name) in
  ret (default [] o).
Definition acl_save {J : Json (list MqttAcl)} (now : Z) (cluster_name : bytes) (acl : MqttAcl) : M D CommonError unit :=
  let resource_type := acl_resource_type_text (acl_resource_type acl) in
  let! acl_list := acl_get cluster_name resource_type (acl_resource_name acl) in
  if acl_exists acl_list acl then ret tt
  else save_as now (storage_key_mqtt_acl cluster_name resource_type (acl_resource_name acl)) (acl_list ++ [acl]).
Definition acl_list_of {J : Json (list MqttAcl)} (cluster_name : bytes) : M D CommonError (list MqttAcl) :=
  let! lists := list_as (list MqttAcl) (storage_key_mqtt_acl_prefix cluster_name) in
  ret (concat lists).
Definition acl_delete {J : Json (list MqttAcl)} (now : Z) (cluster_name : bytes) (delete_acl : MqttAcl)
  : M D CommonError unit :=
  let resource_type := acl_resource_type_text (acl_resource_type delete_acl) in
  let! acl_list := acl_get cluster_name resource_type (acl_resource_name delete_acl) in
  if negb (acl_exists acl_list delete_acl) then ret tt
  else save_as now (storage_key_mqtt_acl cluster_name resource_type (acl_resource_name delete_acl))
         (List.filter (fun raw => negb (acl_same raw delete_acl)) acl_list).

Definition blacklist_save {J : Json MqttAclBlackList} (now : Z) (cluster_name : bytes)
    (blacklist : MqttAclBlackList) : M D CommonError unit :=
  save_as now (storage_key_mqtt_blacklist cluster_name (blacklist_type_text (bl_blacklist_type blacklist))
                 (bl_resource_name blacklist)) blacklist.
Definition blacklist_list_of {J : Json MqttAclBlackList} (cluster_name : bytes)
  : M D CommonError (list MqttAclBlackList) :=
  list_as MqttAclBlackList (storage_key_mqtt_blacklist_prefix cluster_name).
Definition blacklist_delete (cluster_name blacklist_type resource_name : bytes) : M D CommonError unit :=
  delete_key (storage_key_mqtt_blacklist cluster_name blacklist_type resource_name).
End storage.

(** ** What the storages keep *)

(** The octets of a value in the database. *)
Definition wrapped {JW : Json StorageDataWrap} {A : Type} {J : Json A} (now : Z) (a : A) : bytes :=
  json (mkStorageDataWrap (json a) now).

Section facts.
Context {D : Type} {RD : RocksDB D} {RS : RocksSpec D} {RR : RocksReliable D}
        {JW : Json StorageDataWrap} {JWS : JsonSpec StorageDataWrap}.
Implicit Types (d : D) (k p : bytes) (C : gmap bytes bytes).

Definition meta d : gmap bytes bytes := contents d DB_COLUMN_FAMILY_CLUSTER.
Definition meta_open d : Prop := db_cf_handle DB_COLUMN_FAMILY_CLUSTER d = true.

(** [holds C k o]: the value at [k] is [o], stored at some time. *)
Definition holds {A} {J : Json A} C k (o : option A) : Prop :=
  match o with Some a => exists t, C !! k = Some (wrapped t a) | None => C !! k = None end.

(** All values under a prefix are of one type. *)
Definition typed (A : Type) {J : Json A} C p : Prop :=
  forall k v, C !! k = Some v -> starts_with p k = true -> exists t (a : A), v = wrapped t a.

Lemma map_err_ok {S E F A} (f : E -> F) (m : M S E A) s a s' :
  m s = (Ok a, s') -> map_err f m s = (Ok a, s').
Proof. unfold map_err. by intros ->. Qed.

Section values.
Context {E : Type} {FE : FromErrors E} {A : Type} {J : Json A} {JS : JsonSpec A}.

Lemma save_as_ok now k (a : A) d :
  meta_open d ->
  exists d', save_as (E := E) now k a d = (Ok tt, d') /\ meta_open d' /\
             meta d' = <[k := wrapped now a]> (meta d).
Proof.
  intros Ho. unfold save_as, engine_save_by_cluster, rocksdb_engine_save, with_cf.
  destruct (json_ok a) as (-> & _ & _).
  destruct (engine_write_ok DB_COLUMN_FAMILY_CLUSTER k (mkStorageDataWrap (json a) now) d Ho)
    as (d' & E1 & Hh & Hc & _).
  exists d'. split; [|split; [unfold meta_open; by rewrite Hh|exact Hc]].
  unfold map_err. unfold meta_open in Ho. by rewrite Ho, E1.
Qed.

Lemma get_as_ok k (o : option A) d :
  meta_open d -> holds (meta d) k o -> get_as (E := E) A k d = (Ok o, d).
Proof.
  intros Ho Hk. unfold get_as.
  assert (exists o', map_err from_common (engine_get_by_cluster k) d = (@Ok E _ o', d) /\
            match o, o' with
            | Some a, Some w => sd_data w = json a
            | None, None => True
            | _, _ => False
            end) as (o' & E1 & Hoo).
  { unfold map_err, engine_get_by_cluster, rocksdb_engine_get, with_cf. unfold meta_open in Ho. rewrite Ho.
    destruct o as [a|].
    - destruct Hk as [t Ht]. exists (Some (mkStorageDataWrap (json a) t)). split; [|done].
      by rewrite (engine_read_ok _ _ (Some (mkStorageDataWrap (json a) t)) d Ht).
    - exists None. split; [|done]. by rewrite (engine_read_ok _ _ (None : option StorageDataWrap) d Hk). }
  rewrite (bind_ok _ _ _ _ _ E1). destruct o as [a|], o' as [w|]; try done.
  unfold from_str. destruct (json_ok a) as (_ & _ & Hf). rewrite Hoo, Hf. done.
Qed.
End values.

Lemma delete_key_ok {E} {FE : FromErrors E} k d :
  meta_open d ->
  exists d', delete_key (E := E) k d = (Ok tt, d') /\ meta_open d' /\ meta d' = delete k (meta d).
Proof.
  intros Ho. unfold delete_key, engine_delete_by_cluster, rocksdb_engine_delete, with_cf.
  destruct (engine_delete_ok DB_COLUMN_FAMILY_CLUSTER k d Ho) as (d' & E1 & Hh & Hc & _).
  exists d'. split; [|split; [unfold meta_open; by rewrite Hh|exact Hc]].
  unfold map_err. unfold meta_open in Ho. by rewrite Ho, E1.
Qed.

Lemma key_lt_elem_eq l (x y : bytes * bytes) :
  StronglySorted key_lt l -> x ∈ l -> y ∈ l -> x.1 = y.1 -> x = y.
Proof.
  intros Hs. induction Hs as [|z l Hs IH Hz]; intros Hx Hy E; [by apply elem_of_nil in Hx|].
  rewrite Forall_forall in Hz. unfold key_lt in Hz.
  apply elem_of_cons in Hx as [->|Hx], Hy as [->|Hy]; auto.
  - specialize (Hz y Hy). by rewrite E, octets_lt_irrefl in Hz.
  - specialize (Hz x Hx). by rewrite E, octets_lt_irrefl in Hz.
Qed.

(** A list of the values under a prefix, in the order of their keys. *)
Definition listing {A} {J : Json A} C p (kas : list (bytes * A)) : Prop :=
  StronglySorted (fun x y => octets_lt x.1 y.1 = true) kas /\
  forall k a, (k, a) ∈ kas <-> starts_with p k = true /\ holds C k (Some a).

Section listing.
Context {E : Type} {FE : FromErrors E} {A : Type} {J : Json A} {JS : JsonSpec A}.

Lemma wrapped_inj t t' (a a' : A) : wrapped t a = wrapped t' a' -> a = a'.
Proof. intros H%json_inj. injection H as H _. by apply json_inj in H. Qed.

Lemma readable_typed (raw : list (bytes * bytes)) d :
  (forall k v, (k, v) ∈ raw -> exists t (a : A), v = wrapped t a) ->
  exists kas : list (bytes * A), kas.*1 = raw.*1 /\
    read_all (E := E) A (readable raw).*2 d = (Ok kas.*2, d) /\
    Forall2 (fun kv ka => exists t, kv.2 = wrapped t ka.2) raw kas.
Proof.
  induction raw as [|[k v] raw IH]; intros Hraw; [by exists []|].
  destruct (Hraw k v) as (t & a & ->); [by left|].
  destruct IH as (kas & Hk & Hr & Hf); [intros k' v' Hin; apply (Hraw k'); by right|].
  exists ((k, a) :: kas). cbn [readable].
  assert (from_slice (wrapped t a) = inr (mkStorageDataWrap (json a) t)) as -> by apply json_ok.
  cbn. split_and!.
  - by rewrite Hk.
  - unfold from_str at 1. destruct (json_ok a) as (_ & _ & ->). unfold bind at 1. cbn. by rewrite (bind_ok _ _ _ _ _ Hr).
  - constructor; [by exists t|done].
Qed.

Lemma list_as_ok p d :
  meta_open d -> typed A (meta d) p ->
  exists kas, list_as (E := E) A p d = (Ok kas.*2, d) /\ listing (J := J) (meta d) p kas.
Proof.
  intros Ho Ht. destruct (engine_read_prefix_ok DB_COLUMN_FAMILY_CLUSTER p d) as (l & E1 & Hs & Hl).
  destruct (readable_typed l d) as (kas & Hk & Hr & Hf).
  { intros k v Hkv. apply Hl in Hkv as [Hkv Hp]. by apply (Ht k v). }
  exists kas. split.
  - unfold list_as. rewrite (bind_ok _ _ _ (readable l).*2 d); [done|].
    unfold map_err, engine_prefix_list_by_cluster, rocksdb_engine_prefix_list, with_cf.
    unfold meta_open in Ho. rewrite Ho. by rewrite (bind_ok _ _ _ _ _ E1).
  - split.
    + clear -Hs Hk. revert kas Hk. induction Hs as [|x l Hs IH Hx]; intros [|y kas] Hk; try done; constructor.
      { apply IH. by injection Hk. }
      injection Hk as Hy Hk. apply Forall_forall. intros z Hz. pose proof (proj1 (Forall_forall _ _) Hx) as Hlt.
      assert (z.1 ∈ l.*1) as (x' & -> & Hx')%list_elem_of_fmap.
      { replace (l.*1) with (kas.*1) by exact Hk. apply list_elem_of_fmap. eauto. }
      rewrite Hy. by apply Hlt.
    + intros k a. split.
      * intros (i & Hi)%list_elem_of_lookup. destruct (Forall2_lookup_r _ _ _ _ _ Hf Hi) as ([k' v] & Hi' & t & Hv).
        cbn in Hv. subst v. assert (k' = k) as ->.
        { pose proof (f_equal (lookup i) Hk) as Hki. rewrite !list_lookup_fmap, Hi, Hi' in Hki. by injection Hki. }
        apply list_elem_of_lookup_2, Hl in Hi' as [Hc Hp]. split; [done|]. by exists t.
      * intros [Hp [t Hc]]. assert ((k, wrapped t a) ∈ l) as Hin by (by apply Hl).
        apply list_elem_of_lookup in Hin as [i Hi]. destruct (Forall2_lookup_l _ _ _ _ _ Hf Hi) as ([k' a'] & Hi' & t' & Hv).
        cbn in Hv. apply wrapped_inj in Hv as ->. assert (k' = k) as ->.
        { pose proof (f_equal (lookup i) Hk) as Hki. rewrite !list_lookup_fmap, Hi, Hi' in Hki. by injection Hki. }
        by eapply list_elem_of_lookup_2.
Qed.
End listing.

(** How a write and a deletion change what is held. *)
Lemma holds_insert_eq {A} {J : Json A} C k t (a : A) : holds (<[k := wrapped t a]> C) k (Some a).
Proof. exists t. by rewrite lookup_insert_eq. Qed.
Lemma holds_insert_ne {A} {J : Json A} C k k' v (o : option A) :
  k' <> k -> holds (<[k := v]> C) k' o <-> holds C k' o.
Proof. intros Hn. destruct o; cbn; by rewrite lookup_insert_ne. Qed.
Lemma holds_delete_eq {A} {J : Json A} C k : holds (delete k C) k (None : option A).
Proof. cbn. by rewrite lookup_delete_eq. Qed.
Lemma holds_delete_ne {A} {J : Json A} C k k' (o : option A) :
  k' <> k -> holds (delete k C) k' o <-> holds C k' o.
Proof. intros Hn. destruct o; cbn; by rewrite lookup_delete_ne. Qed.
Lemma holds_fun {A} {J : Json A} {JS : JsonSpec A} C k (o1 o2 : option A) : holds C k o1 -> holds C k o2 -> o1 = o2.
Proof.
  destruct o1, o2; cbn; try done.
  - intros [t Ht] [t' Ht']. rewrite Ht in Ht'. injection Ht' as H%wrapped_inj. by subst.
  - intros [t Ht] H. congruence.
  - intros H [t Ht]. congruence.
Qed.
Lemma typed_insert {A} {J : Json A} C p k t (a : A) : typed A C p -> typed A (<[k := wrapped t a]> C) p.
Proof. intros Ht k' v [[_ <-]|[_ Hv]]%lookup_insert_Some Hp; [eauto|by eapply Ht]. Qed.
Lemma typed_insert_other {A} {J : Json A} C p k v :
  starts_with p k = false -> typed A C p -> typed A (<[k := v]> C) p.
Proof. intros Hk Ht k' v' [[<- _]|[_ Hv]]%lookup_insert_Some Hp; [congruence|by eapply Ht]. Qed.
Lemma typed_delete {A} {J : Json A} C p k : typed A C p -> typed A (delete k C) p.
Proof. intros Ht k' v [_ Hv]%lookup_delete_Some Hp. by eapply Ht. Qed.
End facts.
