(* ===== verification/PlacementCache.v ===== *)
(** * The caches of the placement center

    [core/cache.rs] (clusters, nodes and their heartbeats), [journal/cache.rs]
    (shards, segments and their metadata) and [mqtt/cache.rs] (topics, users,
    connectors and the wills that are due), and how they are loaded from the
    storages.  The time of day is an argument. *)

From Stdlib Require Import String.
From S2P Require Import Prelude Bytes RustStr Storage RocksEngine Topics Subscriptions BrokerCache PlacementStore.

(** ** Maps of maps

    [if let Some(data) = m.get_mut(a) { data.insert(k, v) } else { ... }] and
    [if let Some(data) = m.get_mut(a) { data.remove(k) }]. *)
Section nested.
Context {K : Type} `{Countable K} {V : Type}.
Implicit Types (m : gmap bytes (gmap K V)) (a : bytes) (k : K) (v : V).

Definition insert2 a k v m : gmap bytes (gmap K V) :=
  match m !! a with
  | Some data => <[a := <[k := v]> data]> m
  | None => <[a := {[k := v]}]> m
  end.
Definition remove2 a k m : gmap bytes (gmap K V) :=
  match m !! a with
  | Some data => <[a := delete k data]> m
  | None => m
  end.
Definition lookup2 a k m : option V := m !! a ≫= lookup k.

Lemma lookup2_insert2 a k v m a' k' :
  lookup2 a' k' (insert2 a k v m) = if decide ((a', k') = (a, k)) then Some v else lookup2 a' k' m.
Proof.
  unfold lookup2, insert2. destruct (decide (a' = a)) as [->|Ha].
  - destruct (m !! a) as [data|] eqn:E; rewrite lookup_insert_eq; cbn.
    + destruct (decide (k' = k)) as [->|Hk].
      * by rewrite lookup_insert_eq, decide_True.
      * rewrite lookup_insert_ne, decide_False; congruence.
    + destruct (decide (k' = k)) as [->|Hk].
      * by rewrite lookup_singleton_eq, decide_True.
      * rewrite lookup_singleton_ne, decide_False; congruence.
  - rewrite decide_False by congruence. destruct (m !! a); by rewrite lookup_insert_ne.
Qed.

Lemma lookup2_remove2 a k m a' k' :
  lookup2 a' k' (remove2 a k m) = if decide ((a', k') = (a, k)) then None else lookup2 a' k' m.
Proof.
  unfold lookup2, remove2. destruct (decide (a' = a)) as [->|Ha].
  - destruct (m !! a) as [data|] eqn:E.
    + rewrite lookup_insert_eq. cbn. destruct (decide (k' = k)) as [->|Hk].
      * by rewrite lookup_delete_eq, decide_True.
      * rewrite lookup_delete_ne, decide_False; congruence.
    + rewrite E. cbn. by case_decide.
  - rewrite decide_False by congruence. destruct (m !! a); [by rewrite lookup_insert_ne|done].
Qed.

Lemma lookup2_delete a m a' k' :
  lookup2 a' k' (delete a m) = if decide (a' = a) then None else lookup2 a' k' m.
Proof.
  unfold lookup2. case_decide as E; [by subst; rewrite lookup_delete_eq|by rewrite lookup_delete_ne].
Qed.
End nested.

(** A hash map with numbers as keys is iterated in an order of its own. *)
Class MapIterZ : Type := { map_iterZ {A : Type} : gmap Z A -> list (Z * A) }.
Class MapIterZSpec (MI : MapIterZ) : Prop :=
  { map_iterZ_perm {A : Type} (m : gmap Z A) : map_iterZ m ≡ₚ map_to_list m }.
Definition key_orderZ : MapIterZ := {| map_iterZ A m := map_to_list m |}.
Lemma key_orderZ_spec : MapIterZSpec key_orderZ.
Proof. by split. Qed.

(** ** [core/cache.rs] *)

Record NodeHeartbeatData : Type := mkNodeHeartbeatData {
  nh_cluster_name : bytes;
  nh_node_id : Z;
  nh_time : Z
}.

Record PlacementCacheManager : Type := mkPlacementCacheManager {
  cluster_list : gmap bytes ClusterInfo;
  node_list : gmap bytes (gmap Z BrokerNode);
  node_heartbeat : gmap bytes NodeHeartbeatData
}.
Definition PlacementCacheManager_empty : PlacementCacheManager := mkPlacementCacheManager ∅ ∅ ∅.

Section cluster_cache.
Context {MI : MapIter} {MZ : MapIterZ}.
Implicit Types (m : PlacementCacheManager).

Definition add_broker_cluster (cluster : ClusterInfo) m : PlacementCacheManager :=
  mkPlacementCacheManager (<[ci_cluster_name cluster := cluster]> (cluster_list m)) (node_list m)
    (node_heartbeat m).
Definition get_cluster (cluster_name : bytes) m : option ClusterInfo := cluster_list m !! cluster_name.
Definition get_all_cluster m : list ClusterInfo := (map_iter (cluster_list m)).*2.
Definition get_all_cluster_name m : list bytes := map ci_cluster_name (get_all_cluster m).

Definition add_broker_node (node : BrokerNode) m : PlacementCacheManager :=
  mkPlacementCacheManager (cluster_list m)
    (insert2 (bn_cluster_name node) (bn_node_id node) node (node_list m)) (node_heartbeat m).
Definition remove_broker_node (cluster_name : bytes) (node_id : Z) m : PlacementCacheManager :=
  mkPlacementCacheManager (cluster_list m) (remove2 cluster_name node_id (node_list m)) (node_heartbeat m).
Definition nodes_of (cluster_name : bytes) m : gmap Z BrokerNode := default ∅ (node_list m !! cluster_name).
Definition get_broker_num (cluster_name : bytes) m : Z := Z.of_nat (size (nodes_of cluster_name m)).
Definition get_broker_node (cluster_name : bytes) (node_id : Z) m : option BrokerNode :=
  lookup2 cluster_name node_id (node_list m).
Definition get_broker_node_by_cluster (cluster_name : bytes) m : list BrokerNode :=
  (map_iterZ (nodes_of cluster_name m)).*2.
Definition get_broker_node_addr_by_cluster (cluster_name : bytes) m : list bytes :=
  map bn_node_inner_addr (get_broker_node_by_cluster cluster_name m).
Definition get_broker_node_id_by_cluster (cluster_name : bytes) m : list Z :=
  map bn_node_id (get_broker_node_by_cluster cluster_name m).

Definition node_key (cluster_name : bytes) (node_id : Z) : bytes := cluster_name ++ lit "_" ++ decimal node_id.
Definition report_broker_heart (now : Z) (cluster_name : bytes) (node_id : Z) m : PlacementCacheManager :=
  mkPlacementCacheManager (cluster_list m) (node_list m)
    (<[node_key cluster_name node_id := mkNodeHeartbeatData cluster_name node_id now]> (node_heartbeat m)).
Definition remove_broker_heart (cluster_name : bytes) (node_id : Z) m : PlacementCacheManager :=
  mkPlacementCacheManager (cluster_list m) (node_list m)
    (delete (node_key cluster_name node_id) (node_heartbeat m)).
Definition get_broker_heart (cluster_name : bytes) (node_id : Z) m : option NodeHeartbeatData :=
  node_heartbeat m !! node_key cluster_name node_id.
End cluster_cache.

(** ** [journal/cache.rs] *)

Record JournalCacheManager : Type := mkJournalCacheManager {
  shard_list : gmap bytes JournalShard;
  segment_list : gmap bytes (gmap Z JournalSegment);
  segment_meta_list : gmap bytes (gmap Z JournalSegmentMetadata);
  wait_delete_shard_list : gmap bytes JournalShard;
  wait_delete_segment_list : gmap bytes JournalSegment
}.
Definition JournalCacheManager_new : JournalCacheManager := mkJournalCacheManager ∅ ∅ ∅ ∅ ∅.

Definition shard_key (cluster_name namespace shard_name : bytes) : bytes :=
  cluster_name ++ lit "_" ++ namespace ++ lit "_" ++ shard_name.
Definition segment_key (cluster_name namespace shard_name : bytes) (segment_seq : Z) : bytes :=
  cluster_name ++ lit "_" ++ namespace ++ lit "_" ++ shard_name ++ lit "_" ++ decimal segment_seq.

Definition key_of_shard (s : JournalShard) : bytes := shard_key (js_cluster_name s) (js_namespace s) (js_shard_name s).
Definition key_of_segment (s : JournalSegment) : bytes :=
  shard_key (sg_cluster_name s) (sg_namespace s) (sg_shard_name s).
Definition key_of_meta (s : JournalSegmentMetadata) : bytes :=
  shard_key (mt_cluster_name s) (mt_namespace s) (mt_shard_name s).

Section journal_cache.
Context {MI : MapIter} {MZ : MapIterZ}.
Implicit Types (m : JournalCacheManager).

Definition get_shard (c ns sh : bytes) m : option JournalShard := shard_list m !! shard_key c ns sh.
Definition set_shard (shard : JournalShard) m : JournalCacheManager :=
  mkJournalCacheManager (<[key_of_shard shard := shard]> (shard_list m)) (segment_list m) (segment_meta_list m)
    (wait_delete_shard_list m) (wait_delete_segment_list m).
(** The metadata of the segments stays. *)
Definition remove_shard (c ns sh : bytes) m : JournalCacheManager :=
  mkJournalCacheManager (delete (shard_key c ns sh) (shard_list m)) (delete (shard_key c ns sh) (segment_list m))
    (segment_meta_list m) (wait_delete_shard_list m) (wait_delete_segment_list m).

Definition get_segment_list_by_shard (c ns sh : bytes) m : list JournalSegment :=
  (map_iterZ (default ∅ (segment_list m !! shard_key c ns sh))).*2.
Definition get_segment_meta_list_by_shard (c ns sh : bytes) m : list JournalSegmentMetadata :=
  (map_iterZ (default ∅ (segment_meta_list m !! shard_key c ns sh))).*2.

(** [u32] arithmetic. *)
Definition next_segment_seq (c ns sh : bytes) m : option Z :=
  (fun shard => (js_last_segment_seq shard + 1) mod 2 ^ 32) <$> shard_list m !! shard_key c ns sh.
Definition shard_idle_segment_num (c ns sh : bytes) m : Z :=
  blen (List.filter (fun segment => bool_decide (sg_status segment = Idle)) (get_segment_list_by_shard c ns sh m)).

Definition get_segment (c ns sh : bytes) (seq : Z) m : option JournalSegment :=
  lookup2 (shard_key c ns sh) seq (segment_list m).
Definition set_segment (segment : JournalSegment) m : JournalCacheManager :=
  mkJournalCacheManager (shard_list m)
    (insert2 (key_of_segment segment) (sg_segment_seq segment) segment (segment_list m)) (segment_meta_list m)
    (wait_delete_shard_list m) (wait_delete_segment_list m).
Definition remove_segment (c ns sh : bytes) (seq : Z) m : JournalCacheManager :=
  mkJournalCacheManager (shard_list m) (remove2 (shard_key c ns sh) seq (segment_list m)) (segment_meta_list m)
    (wait_delete_shard_list m) (wait_delete_segment_list m).

Definition get_segment_meta (c ns sh : bytes) (seq : Z) m : option JournalSegmentMetadata :=
  lookup2 (shard_key c ns sh) seq (segment_meta_list m).
Definition set_segment_meta (meta : JournalSegmentMetadata) m : JournalCacheManager :=
  mkJournalCacheManager (shard_list m) (segment_list m)
    (insert2 (key_of_meta meta) (mt_segment_seq meta) meta (segment_meta_list m))
    (wait_delete_shard_list m) (wait_delete_segment_list m).
Definition remove_segment_meta (c ns sh : bytes) (seq : Z) m : JournalCacheManager :=
  mkJournalCacheManager (shard_list m) (segment_list m) (remove2 (shard_key c ns sh) seq (segment_meta_list m))
    (wait_delete_shard_list m) (wait_delete_segment_list m).

Definition add_wait_delete_shard (shard : JournalShard) m : JournalCacheManager :=
  mkJournalCacheManager (shard_list m) (segment_list m) (segment_meta_list m)
    (<[key_of_shard shard := shard]> (wait_delete_shard_list m)) (wait_delete_segment_list m).
(** The entry is inserted and not removed. *)
Definition remove_wait_delete_shard (shard : JournalShard) m : JournalCacheManager :=
  mkJournalCacheManager (shard_list m) (segment_list m) (segment_meta_list m)
    (<[key_of_shard shard := shard]> (wait_delete_shard_list m)) (wait_delete_segment_list m).
Definition add_wait_delete_segment (segment : JournalSegment) m : JournalCacheManager :=
  mkJournalCacheManager (shard_list m) (segment_list m) (segment_meta_list m) (wait_delete_shard_list m)
    (<[segment_key (sg_cluster_name segment) (sg_namespace segment) (sg_shard_name segment)
         (sg_segment_seq segment) := segment]> (wait_delete_segment_list m)).
(** The entry is inserted and not removed. *)
Definition remove_wait_delete_segment (segment : JournalSegment) m : JournalCacheManager :=
  mkJournalCacheManager (shard_list m) (segment_list m) (segment_meta_list m) (wait_delete_shard_list m)
    (<[segment_key (sg_cluster_name segment) (sg_namespace segment) (sg_shard_name segment)
         (sg_segment_seq segment) := segment]> (wait_delete_segment_list m)).
Definition get_wait_delete_shard_list m : list JournalShard := (map_iter (wait_delete_shard_list m)).*2.
Definition get_wait_delete_segment_list m : list JournalSegment := (map_iter (wait_delete_segment_list m)).*2.
End journal_cache.

(** ** [mqtt/cache.rs] *)

Record ExpireLastWill : Type := mkExpireLastWill {
  ew_client_id : bytes;
  ew_delay_sec : Z;
  ew_cluster_name : bytes
}.
Record ConnectorHeartbeat : Type := mkConnectorHeartbeat {
  ch_cluster_name : bytes;
  ch_connector_name : bytes;
  ch_last_heartbeat : Z
}.

Record MqttCacheManager : Type := mkMqttCacheManager {
  mc_topic_list : gmap bytes (gmap bytes MqttTopic);
  mc_user_list : gmap bytes (gmap bytes MqttUser);
  mc_expire_last_wills : gmap bytes (gmap bytes ExpireLastWill);
  mc_connector_list : gmap bytes (gmap bytes MQTTConnector);
  mc_connector_heartbeat : gmap bytes ConnectorHeartbeat
}.
Definition MqttCacheManager_new : MqttCacheManager := mkMqttCacheManager ∅ ∅ ∅ ∅ ∅.

(** [mqtt/mod.rs]. *)
Definition is_send_last_will (now : Z) (lastwill : ExpireLastWill) : bool := ew_delay_sec lastwill <=? now.

Section mqtt_cache.
Context {MI : MapIter}.
Implicit Types (m : MqttCacheManager).

Definition mc_add_topic (cluster_name : bytes) (topic : MqttTopic) m : MqttCacheManager :=
  mkMqttCacheManager (insert2 cluster_name (t_topic_name topic) topic (mc_topic_list m)) (mc_user_list m)
    (mc_expire_last_wills m) (mc_connector_list m) (mc_connector_heartbeat m).
Definition mc_remove_topic (cluster_name topic_name : bytes) m : MqttCacheManager :=
  mkMqttCacheManager (remove2 cluster_name topic_name (mc_topic_list m)) (mc_user_list m)
    (mc_expire_last_wills m) (mc_connector_list m) (mc_connector_heartbeat m).
Definition mc_add_user (cluster_name : bytes) (user : MqttUser) m : MqttCacheManager :=
  mkMqttCacheManager (mc_topic_list m) (insert2 cluster_name (u_username user) user (mc_user_list m))
    (mc_expire_last_wills m) (mc_connector_list m) (mc_connector_heartbeat m).
(** A topic of the name is removed and the user stays. *)
Definition mc_remove_user (cluster_name user_name : bytes) m : MqttCacheManager :=
  mkMqttCacheManager (remove2 cluster_name user_name (mc_topic_list m)) (mc_user_list m)
    (mc_expire_last_wills m) (mc_connector_list m) (mc_connector_heartbeat m).

Definition add_expire_last_will (will : ExpireLastWill) m : MqttCacheManager :=
  mkMqttCacheManager (mc_topic_list m) (mc_user_list m)
    (insert2 (ew_cluster_name will) (ew_client_id will) will (mc_expire_last_wills m)) (mc_connector_list m)
    (mc_connector_heartbeat m).
Definition remove_expire_last_will (cluster_name client_id : bytes) m : MqttCacheManager :=
  mkMqttCacheManager (mc_topic_list m) (mc_user_list m) (remove2 cluster_name client_id (mc_expire_last_wills m))
    (mc_connector_list m) (mc_connector_heartbeat m).
Definition get_expire_last_wills (now : Z) (cluster_name : bytes) m : list ExpireLastWill :=
  List.filter (is_send_last_will now) (map_iter (default ∅ (mc_expire_last_wills m !! cluster_name))).*2.

Definition mc_add_connector (cluster_name : bytes) (connector : MQTTConnector) m : MqttCacheManager :=
  mkMqttCacheManager (mc_topic_list m) (mc_user_list m) (mc_expire_last_wills m)
    (insert2 cluster_name (cn_connector_name connector) connector (mc_connector_list m)) (mc_connector_heartbeat m).
Definition mc_remove_connector (cluster_name connector_name : bytes) m : MqttCacheManager :=
  mkMqttCacheManager (mc_topic_list m) (mc_user_list m) (mc_expire_last_wills m)
    (remove2 cluster_name connector_name (mc_connector_list m)) (mc_connector_heartbeat m).
Definition mc_get_connector (cluster_name connector_name : bytes) m : option MQTTConnector :=
  lookup2 cluster_name connector_name (mc_connector_list m).
Definition mc_get_all_connector m : list MQTTConnector :=
  concat (map (fun raw => (map_iter raw.2).*2) (map_iter (mc_connector_list m))).

Definition connector_key (cluster_name connector_name : bytes) : bytes :=
  cluster_name ++ lit "_" ++ connector_name.
Definition report_connector_heartbeat (cluster_name connector_name : bytes) (heartbeat_time : Z) m
  : MqttCacheManager :=
  mkMqttCacheManager (mc_topic_list m) (mc_user_list m) (mc_expire_last_wills m) (mc_connector_list m)
    (<[connector_key cluster_name connector_name := mkConnectorHeartbeat cluster_name connector_name heartbeat_time]>
       (mc_connector_heartbeat m)).
Definition remove_connector_heartbeat (cluster_name connector_name : bytes) m : MqttCacheManager :=
  mkMqttCacheManager (mc_topic_list m) (mc_user_list m) (mc_expire_last_wills m) (mc_connector_list m)
    (delete (connector_key cluster_name connector_name) (mc_connector_heartbeat m)).
Definition get_all_connector_heartbeat m : list ConnectorHeartbeat := (map_iter (mc_connector_heartbeat m)).*2.
End mqtt_cache.

(** ** Loading *)

Section load.
Context {MI : MapIter} {D : Type} {RD : RocksDB D} {JW : Json StorageDataWrap}.

(** [PlacementCacheManager::load_cache]: a list that cannot be read is left
    out. *)
Definition load_cache {JC : Json ClusterInfo} {JN : Json BrokerNode} (d : D) (m : PlacementCacheManager)
  : PlacementCacheManager :=
  let m := match (cluster_list_of None d).1 with
           | Ok result => foldl (fun m cluster => add_broker_cluster cluster m) m result
           | _ => m
           end in
  match (node_list_of None d).1 with
  | Ok result => foldl (fun m bn => add_broker_node bn m) m result
  | _ => m
  end.
Definition PlacementCacheManager_new {JC : Json ClusterInfo} {JN : Json BrokerNode} (d : D)
  : PlacementCacheManager := load_cache d PlacementCacheManager_empty.

Definition load_journal_cache {JS : Json JournalShard} {JG : Json JournalSegment} {JM : Json JournalSegmentMetadata}
    (m : JournalCacheManager) : M D PlacementCenterError JournalCacheManager :=
  let! res := map_err PE_BaseCommonError all_shard in
  let m := foldl (fun m shard => set_shard shard m) m res in
  let! res := map_err PE_BaseCommonError all_segment in
  let m := foldl (fun m segment => set_segment segment m) m res in
  let! res := map_err PE_BaseCommonError all_segment_meta in
  ret (foldl (fun m meta => set_segment_meta meta m) m res).

Definition load_mqtt_cluster {JT : Json MqttTopic} {JU : Json MqttUser} {JC : Json MQTTConnector}
    (cluster_name : bytes) (m : MqttCacheManager) : M D PlacementCenterError MqttCacheManager :=
  let! data := topic_list_of cluster_name in
  let m := foldl (fun m topic => mc_add_topic cluster_name topic m) m data in
  let! data := map_err PE_BaseCommonError (user_list_of cluster_name) in
  let m := foldl (fun m user => mc_add_user cluster_name user m) m data in
  let! data := map_err PE_BaseCommonError (connector_list_of cluster_name) in
  ret (foldl (fun m connector => mc_add_connector cluster_name connector m) m data).

(** [ClusterType::MqttBrokerServer.as_str_name()]. *)
Definition MqttBrokerServer : bytes := lit "MQTTBrokerServer".

Fixpoint load_mqtt_clusters {JT : Json MqttTopic} {JU : Json MqttUser} {JC : Json MQTTConnector}
    (clusters : list ClusterInfo) (m : MqttCacheManager) : M D PlacementCenterError MqttCacheManager :=
  match clusters with
  | [] => ret m
  | cluster :: clusters =>
      let! m := (if bool_decide (ci_cluster_type cluster = MqttBrokerServer)
                 then load_mqtt_cluster (ci_cluster_name cluster) m else ret m) in
      load_mqtt_clusters clusters m
  end.

Definition load_mqtt_cache {JT : Json MqttTopic} {JU : Json MqttUser} {JC : Json MQTTConnector}
    (placement_cache : PlacementCacheManager) (m : MqttCacheManager) : M D PlacementCenterError MqttCacheManager :=
  load_mqtt_clusters (get_all_cluster placement_cache) m.
End load.
