(* ===== verification/PlacementRoute.v ===== *)
(** * The replicated commands of the placement center: [placement-center/src/route]

    A command is a [StorageData]: a type and the octets of a request.  Raft
    agrees on a sequence of commands, and every node hands them one after the
    other to [DataRoute::route], which changes the database and the caches of
    the node.  Protocol Buffers (crate [prost]), [bincode] and [serde_json] are
    parameters; the clock of the node is a part of its state. *)

From Stdlib Require Import String.
From S2P Require Import Prelude Bytes RustStr Storage RocksEngine Topics Subscriptions Acl BrokerCache SchemaRegister MqttTypes Broker PlacementStore PlacementCache.

(** ** Requests: [protocol/src/placement_center/proto] *)

(** [Message::encode_to_vec] and [Message::decode]. *)
Class Prost (A : Type) : Type := {
  encode_to_vec : A -> bytes;
  prost_decode : bytes -> bytes + A
}.
Class ProstSpec (A : Type) {P : Prost A} : Prop := {
  prost_roundtrip (a : A) : prost_decode (encode_to_vec a) = inr a
}.

Record SetRequest : Type := mkSetRequest { set_key : bytes; set_value : bytes }.
Record DeleteRequest : Type := mkDeleteRequest { del_key : bytes }.

Inductive ClusterType : Type := CT_PlacementCenter | CT_JournalServer | CT_MQTTBrokerServer | CT_AMQPBrokerServer.
#[export] Instance ClusterType_eq_dec : EqDecision ClusterType.
Proof. solve_decision. Defined.
Definition as_str_name (t : ClusterType) : bytes :=
  match t with
  | CT_PlacementCenter => lit "PlacementCenter"
  | CT_JournalServer => lit "JournalServer"
  | CT_MQTTBrokerServer => lit "MQTTBrokerServer"
  | CT_AMQPBrokerServer => lit "AMQPBrokerServer"
  end.

Record UnRegisterNodeRequest : Type := mkUnRegisterNodeRequest {
  un_cluster_type : ClusterType; un_cluster_name : bytes; un_node_id : Z }.
Record SetResourceConfigRequest : Type := mkSetResourceConfigRequest {
  sc_cluster_name : bytes; sc_resources : list bytes; sc_config : bytes }.
Record DeleteResourceConfigRequest : Type := mkDeleteResourceConfigRequest {
  dc_cluster_name : bytes; dc_resources : list bytes }.
Record IdempotentDataRequest : Type := mkIdempotentDataRequest {
  id_cluster_name : bytes; id_producer_id : bytes; id_seq_num : Z }.
Record SaveOffsetDataRequestOffset : Type := mkSaveOffsetDataRequestOffset {
  so_req_namespace : bytes; so_req_shard_name : bytes; so_req_offset : Z }.
Record SaveOffsetDataRequest : Type := mkSaveOffsetDataRequest {
  od_req_cluster_name : bytes; od_req_group : bytes; od_req_offsets : list SaveOffsetDataRequestOffset }.
Record CreateSchemaRequest : Type := mkCreateSchemaRequest {
  cs_cluster_name : bytes; cs_schema_name : bytes; cs_schema : bytes }.
Record DeleteSchemaRequest : Type := mkDeleteSchemaRequest { ds_cluster_name : bytes; ds_schema_name : bytes }.
Record BindSchemaRequest : Type := mkBindSchemaRequest {
  bs_cluster_name : bytes; bs_schema_name : bytes; bs_resource_name : bytes }.
Record UnBindSchemaRequest : Type := mkUnBindSchemaRequest {
  us_cluster_name : bytes; us_schema_name : bytes; us_resource_name : bytes }.

Record CreateUserRequest : Type := mkCreateUserRequest {
  cu_cluster_name : bytes; cu_user_name : bytes; cu_content : bytes }.
Record DeleteUserRequest : Type := mkDeleteUserRequest { du_cluster_name : bytes; du_user_name : bytes }.
Record CreateTopicRequest : Type := mkCreateTopicRequest {
  ct_cluster_name : bytes; ct_topic_name : bytes; ct_content : bytes }.
Record DeleteTopicRequest : Type := mkDeleteTopicRequest { dt_cluster_name : bytes; dt_topic_name : bytes }.
Record SaveLastWillMessageRequest : Type := mkSaveLastWillMessageRequest {
  sl_cluster_name : bytes; sl_client_id : bytes; sl_last_will_message : bytes }.
Record CreateSessionRequest : Type := mkCreateSessionRequest {
  cse_cluster_name : bytes; cse_client_id : bytes; cse_session : bytes }.
Record UpdateSessionRequest : Type := mkUpdateSessionRequest {
  use_cluster_name : bytes; use_client_id : bytes; use_connection_id : Z; use_broker_id : Z;
  use_reconnect_time : Z; use_distinct_time : Z }.
Record DeleteSessionRequest : Type := mkDeleteSessionRequest { dse_cluster_name : bytes; dse_client_id : bytes }.
Record CreateTopicRewriteRuleRequest : Type := mkCreateTopicRewriteRuleRequest {
  cr_cluster_name : bytes; cr_action : bytes; cr_source_topic : bytes; cr_dest_topic : bytes; cr_regex : bytes }.
Record DeleteTopicRewriteRuleRequest : Type := mkDeleteTopicRewriteRuleRequest {
  dr_cluster_name : bytes; dr_action : bytes; dr_source_topic : bytes }.
Record SetSubscribeRequest : Type := mkSetSubscribeRequest {
  ssu_cluster_name : bytes; ssu_client_id : bytes; ssu_path : bytes; ssu_subscribe : bytes }.
Record DeleteSubscribeRequest : Type := mkDeleteSubscribeRequest {
  dsu_cluster_name : bytes; dsu_client_id : bytes; dsu_path : bytes }.
Record CreateConnectorRequest : Type := mkCreateConnectorRequest {
  cco_cluster_name : bytes; cco_connector_name : bytes; cco_connector : bytes }.
Record DeleteConnectorRequest : Type := mkDeleteConnectorRequest {
  dco_cluster_name : bytes; dco_connector_name : bytes }.
Record AclRequest : Type := mkAclRequest { ar_cluster_name : bytes; ar_acl : bytes }.
Record CreateBlacklistRequest : Type := mkCreateBlacklistRequest { cb_cluster_name : bytes; cb_blacklist : bytes }.
Record DeleteBlacklistRequest : Type := mkDeleteBlacklistRequest {
  db_cluster_name : bytes; db_blacklist_type : bytes; db_resource_name : bytes }.

(** The serializers that the routes use. *)
Class MetaProst : Type := {
  pr_set :: Prost SetRequest;
  pr_delete :: Prost DeleteRequest;
  pr_unregister :: Prost UnRegisterNodeRequest;
  pr_config :: Prost SetResourceConfigRequest;
  pr_delete_config :: Prost DeleteResourceConfigRequest;
  pr_idempotent :: Prost IdempotentDataRequest;
  pr_offset :: Prost SaveOffsetDataRequest;
  pr_schema :: Prost CreateSchemaRequest;
  pr_delete_schema :: Prost DeleteSchemaRequest;
  pr_bind :: Prost BindSchemaRequest;
  pr_unbind :: Prost UnBindSchemaRequest;
  pr_user :: Prost CreateUserRequest;
  pr_delete_user :: Prost DeleteUserRequest;
  pr_topic :: Prost CreateTopicRequest;
  pr_delete_topic :: Prost DeleteTopicRequest;
  pr_will :: Prost SaveLastWillMessageRequest;
  pr_session :: Prost CreateSessionRequest;
  pr_update_session :: Prost UpdateSessionRequest;
  pr_delete_session :: Prost DeleteSessionRequest;
  pr_rule :: Prost CreateTopicRewriteRuleRequest;
  pr_delete_rule :: Prost DeleteTopicRewriteRuleRequest;
  pr_subscribe :: Prost SetSubscribeRequest;
  pr_delete_subscribe :: Prost DeleteSubscribeRequest;
  pr_connector :: Prost CreateConnectorRequest;
  pr_delete_connector :: Prost DeleteConnectorRequest;
  pr_acl :: Prost AclRequest;
  pr_blacklist :: Prost CreateBlacklistRequest;
  pr_delete_blacklist :: Prost DeleteBlacklistRequest
}.
Class MetaJson : Type := {
  mj_wrap :: Json StorageDataWrap;
  mj_string :: Json bytes;
  mj_octets :: Json ByteVec;
  mj_u64 :: Json Z;
  mj_cluster :: Json ClusterInfo;
  mj_node :: Json BrokerNode;
  mj_offset :: Json OffsetData;
  mj_schema :: Json SchemaData;
  mj_bind :: Json SchemaResourceBind;
  mj_shard :: Json JournalShard;
  mj_segment :: Json JournalSegment;
  mj_segment_meta :: Json JournalSegmentMetadata;
  mj_user :: Json MqttUser;
  mj_topic :: Json MqttTopic;
  mj_will :: Json LastWillData;
  mj_session :: Json MqttSession;
  mj_rule :: Json MqttTopicRewriteRule;
  mj_subscribe :: Json MqttSubscribe;
  mj_connector :: Json MQTTConnector;
  mj_acl :: Json MqttAcl;
  mj_acl_list :: Json (list MqttAcl);
  mj_blacklist :: Json MqttAclBlackList
}.
(** [bincode::serialize] and [deserialize] of the pairs of a snapshot. *)
Class Bincode : Type := {
  bincode_serialize : list (bytes * bytes) -> bytes + bytes;
  bincode_deserialize : bytes -> bytes + list (bytes * bytes)
}.
Class BincodeSpec {B : Bincode} : Prop := {
  bincode_roundtrip l : exists b, bincode_serialize l = inr b /\ bincode_deserialize b = inr l
}.

(** ** [route/data.rs] *)

Inductive StorageDataType : Type :=
| ClusterAddNode | ClusterDeleteNode | ClusterAddCluster | ClusterDeleteCluster
| KvSet | KvDelete
| SchemaSet | SchemaDelete | SchemaBindSet | SchemaBindDelete
| ResourceConfigSet | ResourceConfigDelete | IdempotentDataSet | IdempotentDataDelete | OffsetSet | OffsetDelete
| JournalSetShard | JournalDeleteShard | JournalSetSegment | JournalDeleteSegment
| JournalSetSegmentMetadata | JournalDeleteSegmentMetadata
| MqttSetUser | MqttDeleteUser | MqttSetTopic | MqttDeleteTopic
| MqttSetSession | MqttDeleteSession | MqttUpdateSession | MqttSaveLastWillMessage
| MqttSetAcl | MqttDeleteAcl | MqttSetBlacklist | MqttDeleteBlacklist
| MqttCreateTopicRewriteRule | MqttDeleteTopicRewriteRule | MqttSetSubscribe | MqttDeleteSubscribe
| MqttSetConnector | MqttDeleteConnector.

Record StorageData : Type := mkStorageData { data_type : StorageDataType; data_value : bytes }.

(** ** A node *)

Section route.
Context {D : Type} {RD : RocksDB D} {MI : MapIter} {MZ : MapIterZ} {MP : MetaProst} {MJ : MetaJson} {BC : Bincode}.

Record PlacementNode : Type := mkPlacementNode {
  pn_db : D;
  pn_cluster : PlacementCacheManager;
  pn_journal : JournalCacheManager;
  pn_mqtt : MqttCacheManager;
  pn_second : Z;
  pn_millisecond : Z
}.
Definition Route (A : Type) : Type := M PlacementNode PlacementCenterError A.

Definition on_store {A : Type} (m : Z -> M D PlacementCenterError A) : Route A :=
  fun n => let (r, d) := m (pn_second n) (pn_db n) in
           (r, mkPlacementNode d (pn_cluster n) (pn_journal n) (pn_mqtt n) (pn_second n) (pn_millisecond n)).
Definition on_common {A : Type} (m : Z -> M D CommonError A) : Route A :=
  on_store (fun now => map_err PE_BaseCommonError (m now)).
Definition on_cluster (f : PlacementCacheManager -> PlacementCacheManager) : Route unit :=
  fun n => (Ok tt, mkPlacementNode (pn_db n) (f (pn_cluster n)) (pn_journal n) (pn_mqtt n)
                     (pn_second n) (pn_millisecond n)).
Definition on_journal (f : JournalCacheManager -> JournalCacheManager) : Route unit :=
  fun n => (Ok tt, mkPlacementNode (pn_db n) (pn_cluster n) (f (pn_journal n)) (pn_mqtt n)
                     (pn_second n) (pn_millisecond n)).
Definition on_mqtt (f : MqttCacheManager -> MqttCacheManager) : Route unit :=
  fun n => (Ok tt, mkPlacementNode (pn_db n) (pn_cluster n) (pn_journal n) (f (pn_mqtt n))
                     (pn_second n) (pn_millisecond n)).

(** [X::decode(value.as_ref())?] and [serde_json::from_slice(&value)?]. *)
Definition decode_req (A : Type) {P : Prost A} (value : bytes) : Route A :=
  match prost_decode value with inr a => ret a | inl e => fail (PE_DecodeError e) end.
Definition from_json (A : Type) {J : Json A} (value : bytes) : Route A :=
  match from_slice value with inr a => ret a | inl e => fail (PE_SerdeJsonError e) end.

(** *** [route/kv.rs] *)

Definition route_kv_set (value : bytes) : Route unit :=
  let! req := decode_req SetRequest value in
  on_common (fun now => kv_set now (set_key req) (set_value req)).
Definition route_kv_delete (value : bytes) : Route unit :=
  let! req := decode_req DeleteRequest value in
  on_common (fun _ => kv_delete (del_key req)).

(** *** [route/common.rs] *)

Definition route_add_cluster (value : bytes) : Route unit :=
  let! cluster := from_json ClusterInfo value in
  on_common (fun now => cluster_save now cluster) ;;
  on_cluster (add_broker_cluster cluster).
Definition route_add_node (value : bytes) : Route unit :=
  let! node := from_json BrokerNode value in
  on_common (fun now => node_save now node) ;;
  on_cluster (add_broker_node node).
Definition route_delete_node (value : bytes) : Route unit :=
  let! req := decode_req UnRegisterNodeRequest value in
  on_common (fun _ => node_delete (un_cluster_name req) (un_node_id req)) ;;
  on_cluster (remove_broker_node (un_cluster_name req) (un_node_id req)).
Definition route_set_resource_config (value : bytes) : Route unit :=
  let! req := decode_req SetResourceConfigRequest value in
  on_common (fun now => config_save now (sc_cluster_name req) (sc_resources req) (mkByteVec (sc_config req))).
Definition route_delete_resource_config (value : bytes) : Route unit :=
  let! req := decode_req DeleteResourceConfigRequest value in
  on_common (fun _ => config_delete (dc_cluster_name req) (dc_resources req)).
Definition route_set_idempotent_data (value : bytes) : Route unit :=
  let! req := decode_req IdempotentDataRequest value in
  on_common (fun now => idempotent_save now (id_cluster_name req) (id_producer_id req) (id_seq_num req)).
Definition route_delete_idempotent_data (value : bytes) : Route unit :=
  let! req := decode_req IdempotentDataRequest value in
  on_common (fun _ => idempotent_delete (id_cluster_name req) (id_producer_id req) (id_seq_num req)).
Definition route_save_offset_data (value : bytes) : Route unit :=
  let! req := decode_req SaveOffsetDataRequest value in
  for_each (od_req_offsets req) (fun raw =>
    on_common (fun now => offset_save now (od_req_cluster_name req) (od_req_group req) (so_req_namespace raw)
                            (so_req_shard_name raw) (so_req_offset raw))).
Definition route_delete_offset_data (value : bytes) : Route unit := ret tt.
Definition route_set_schema (value : bytes) : Route unit :=
  let! req := decode_req CreateSchemaRequest value in
  let! schema := from_json SchemaData (cs_schema req) in
  on_store (fun now => schema_save now (cs_cluster_name req) (cs_schema_name req) schema).
Definition route_delete_schema (value : bytes) : Route unit :=
  let! req := decode_req DeleteSchemaRequest value in
  on_store (fun _ => schema_delete (ds_cluster_name req) (ds_schema_name req)).
Definition route_set_schema_bind (value : bytes) : Route unit :=
  let! req := decode_req BindSchemaRequest value in
  let bind_data := mkSchemaResourceBind (bs_cluster_name req) (bs_schema_name req) (bs_resource_name req) in
  on_store (fun now => schema_save_bind now (bs_cluster_name req) bind_data).
Definition route_delete_schema_bind (value : bytes) : Route unit :=
  let! req := decode_req UnBindSchemaRequest value in
  on_store (fun _ => schema_delete_bind (us_cluster_name req) (us_resource_name req) (us_schema_name req)).

(** *** [route/journal.rs] *)

Definition route_set_shard (value : bytes) : Route bytes :=
  let! shard_info := from_json JournalShard value in
  on_common (fun now => shard_save now shard_info) ;;
  on_journal (set_shard shard_info) ;;
  ret value.
Definition route_delete_shard (value : bytes) : Route unit :=
  let! s := from_json JournalShard value in
  on_common (fun _ => shard_delete (js_cluster_name s) (js_namespace s) (js_shard_name s)) ;;
  on_journal (remove_shard (js_cluster_name s) (js_namespace s) (js_shard_name s)).
Definition route_set_segment (value : bytes) : Route bytes :=
  let! segment := from_json JournalSegment value in
  on_common (fun now => segment_save now segment) ;;
  on_journal (set_segment segment) ;;
  ret value.
Definition route_delete_segment (value : bytes) : Route unit :=
  let! s := from_json JournalSegment value in
  on_common (fun _ => segment_delete (sg_cluster_name s) (sg_namespace s) (sg_shard_name s) (sg_segment_seq s)) ;;
  on_journal (remove_segment (sg_cluster_name s) (sg_namespace s) (sg_shard_name s) (sg_segment_seq s)).
Definition route_set_segment_meta (value : bytes) : Route bytes :=
  let! segment_meta := from_json JournalSegmentMetadata value in
  on_common (fun now => segment_meta_save now segment_meta) ;;
  on_journal (set_segment_meta segment_meta) ;;
  ret value.
Definition route_delete_segment_meta (value : bytes) : Route unit :=
  let! s := from_json JournalSegmentMetadata value in
  on_common (fun _ => segment_meta_delete (mt_cluster_name s) (mt_namespace s) (mt_shard_name s) (mt_segment_seq s)) ;;
  on_journal (remove_segment_meta (mt_cluster_name s) (mt_namespace s) (mt_shard_name s) (mt_segment_seq s)).

(** *** [route/mqtt.rs] *)

Definition route_create_user (value : bytes) : Route unit :=
  let! req := decode_req CreateUserRequest value in
  let! user := from_json MqttUser (cu_content req) in
  on_common (fun now => user_save now (cu_cluster_name req) (cu_user_name req) user) ;;
  on_mqtt (mc_add_user (cu_cluster_name req) user).
Definition route_delete_user (value : bytes) : Route unit :=
  let! req := decode_req DeleteUserRequest value in
  on_common (fun _ => user_delete (du_cluster_name req) (du_user_name req)) ;;
  on_mqtt (mc_remove_user (du_cluster_name req) (du_user_name req)).
Definition route_create_topic (value : bytes) : Route unit :=
  let! req := decode_req CreateTopicRequest value in
  let! topic := from_json MqttTopic (ct_content req) in
  on_store (fun now => topic_save now (t_cluster_name topic) (t_topic_name topic) topic) ;;
  on_mqtt (mc_add_topic (t_cluster_name topic) topic).
Definition route_delete_topic (value : bytes) : Route unit :=
  let! req := decode_req DeleteTopicRequest value in
  on_store (fun _ => topic_delete (dt_cluster_name req) (dt_topic_name req)) ;;
  on_mqtt (mc_remove_topic (dt_cluster_name req) (dt_topic_name req)).
Definition route_save_last_will_message (value : bytes) : Route unit :=
  let! req := decode_req SaveLastWillMessageRequest value in
  let! last_will_message := from_json LastWillData (sl_last_will_message req) in
  on_store (fun now => lastwill_save now (sl_cluster_name req) (sl_client_id req) last_will_message).
Definition route_create_session (value : bytes) : Route unit :=
  let! req := decode_req CreateSessionRequest value in
  let! session := from_json MqttSession (cse_session req) in
  on_common (fun now => session_save now (cse_cluster_name req) (cse_client_id req) session).

(** The session as an update leaves it: zero stands for an absent value, and
    an absent time of reconnection leaves the old one. *)
Definition positive (n : Z) : option Z := if 0 <? n then Some n else None.
Definition updated_session (req : UpdateSessionRequest) (s : MqttSession) : MqttSession :=
  mkMqttSession (se_client_id s) (se_session_expiry s) (se_is_contain_last_will s)
    (se_last_will_delay_interval s) (se_create_time s)
    (positive (use_connection_id req))
    (positive (use_broker_id req))
    (if 0 <? use_reconnect_time req then Some (use_reconnect_time req) else se_reconnect_time s)
    (positive (use_distinct_time req)).
Definition route_update_session (value : bytes) : Route unit :=
  let! req := decode_req UpdateSessionRequest value in
  let! o := on_common (fun _ => session_get (use_cluster_name req) (use_client_id req)) in
  match o with
  | Some session =>
      on_common (fun now => session_save now (use_cluster_name req) (use_client_id req) (updated_session req session))
  | None => ret tt
  end.
Definition route_delete_session (value : bytes) : Route unit :=
  let! req := decode_req DeleteSessionRequest value in
  on_common (fun _ => session_delete (dse_cluster_name req) (dse_client_id req)).

(** The rule gets the time of the node that applies it. *)
Definition route_create_topic_rewrite_rule (value : bytes) : Route unit :=
  let! req := decode_req CreateTopicRewriteRuleRequest value in
  let! n := get in
  let rule := mkMqttTopicRewriteRule (cr_cluster_name req) (cr_action req) (cr_source_topic req)
                (cr_dest_topic req) (cr_regex req) (pn_millisecond n) in
  on_store (fun now => save_topic_rewrite_rule now (cr_cluster_name req) (cr_action req) (cr_source_topic req) rule).
Definition route_delete_topic_rewrite_rule (value : bytes) : Route unit :=
  let! req := decode_req DeleteTopicRewriteRuleRequest value in
  on_store (fun _ => delete_topic_rewrite_rule (dr_cluster_name req) (dr_action req) (dr_source_topic req)).
Definition route_set_subscribe (value : bytes) : Route unit :=
  let! req := decode_req SetSubscribeRequest value in
  let! subscribe := from_json MqttSubscribe (ssu_subscribe req) in
  on_common (fun now => subscribe_save now (ssu_cluster_name req) (ssu_client_id req) (ssu_path req) subscribe).
Definition route_delete_subscribe (value : bytes) : Route unit :=
  let! req := decode_req DeleteSubscribeRequest value in
  if negb (bool_decide (dsu_path req = [])) then
    on_common (fun _ => subscribe_delete_by_path (dsu_cluster_name req) (dsu_client_id req) (dsu_path req))
  else on_common (fun _ => subscribe_delete_by_client_id (dsu_cluster_name req) (dsu_client_id req)).
Definition route_set_connector (value : bytes) : Route unit :=
  let! req := decode_req CreateConnectorRequest value in
  let! connector := from_json MQTTConnector (cco_connector req) in
  on_common (fun now => connector_save now (cco_cluster_name req) (cco_connector_name req) connector) ;;
  on_mqtt (mc_add_connector (cco_cluster_name req) connector).
Definition route_delete_connector (value : bytes) : Route unit :=
  let! req := decode_req DeleteConnectorRequest value in
  on_common (fun _ => connector_delete (dco_cluster_name req) (dco_connector_name req)) ;;
  on_mqtt (mc_remove_connector (dco_cluster_name req) (dco_connector_name req)).
Definition route_create_acl (value : bytes) : Route unit :=
  let! req := decode_req AclRequest value in
  let! acl := from_json MqttAcl (ar_acl req) in
  on_common (fun now => acl_save now (ar_cluster_name req) acl).
Definition route_delete_acl (value : bytes) : Route unit :=
  let! req := decode_req AclRequest value in
  let! acl := from_json MqttAcl (ar_acl req) in
  on_common (fun now => acl_delete now (ar_cluster_name req) acl).
Definition route_create_blacklist (value : bytes) : Route unit :=
  let! req := decode_req CreateBlacklistRequest value in
  let! blacklist := from_json MqttAclBlackList (cb_blacklist req) in
  on_common (fun now => blacklist_save now (cb_cluster_name req) blacklist).
Definition route_delete_blacklist (value : bytes) : Route unit :=
  let! req := decode_req DeleteBlacklistRequest value in
  on_common (fun _ => blacklist_delete (db_cluster_name req) (db_blacklist_type req) (db_resource_name req)).

(** *** [DataRoute] *)

Definition no_value (m : Route unit) : Route (option bytes) := m ;; ret None.
Definition with_value (m : Route bytes) : Route (option bytes) := let! value := m in ret (Some value).

Definition route (storage_data : StorageData) : Route (option bytes) :=
  let value := data_value storage_data in
  match data_type storage_data with
  | KvSet => no_value (route_kv_set value)
  | KvDelete => no_value (route_kv_delete value)
  | ClusterAddNode => no_value (route_add_node value)
  | ClusterDeleteNode => no_value (route_delete_node value)
  | ClusterAddCluster => no_value (route_add_cluster value)
  | ClusterDeleteCluster => ret None
  | ResourceConfigSet => no_value (route_set_resource_config value)
  | ResourceConfigDelete => no_value (route_delete_resource_config value)
  | IdempotentDataSet => no_value (route_set_idempotent_data value)
  | IdempotentDataDelete => no_value (route_delete_idempotent_data value)
  | OffsetSet => no_value (route_save_offset_data value)
  | OffsetDelete => no_value (route_delete_offset_data value)
  | SchemaSet => no_value (route_set_schema value)
  | SchemaDelete => no_value (route_delete_schema value)
  | SchemaBindSet => no_value (route_set_schema_bind value)
  | SchemaBindDelete => no_value (route_delete_schema_bind value)
  | JournalSetShard => with_value (route_set_shard value)
  | JournalDeleteShard => no_value (route_delete_shard value)
  | JournalSetSegment => with_value (route_set_segment value)
  | JournalDeleteSegment => no_value (route_delete_segment value)
  | JournalSetSegmentMetadata => with_value (route_set_segment_meta value)
  | JournalDeleteSegmentMetadata => no_value (route_delete_segment_meta value)
  | MqttSetAcl => no_value (route_create_acl value)
  | MqttDeleteAcl => no_value (route_delete_acl value)
  | MqttSetBlacklist => no_value (route_create_blacklist value)
  | MqttDeleteBlacklist => no_value (route_delete_blacklist value)
  | MqttSetUser => no_value (route_create_user value)
  | MqttDeleteUser => no_value (route_delete_user value)
  | MqttSetTopic => no_value (route_create_topic value)
  | MqttDeleteTopic => no_value (route_delete_topic value)
  | MqttSetSession => no_value (route_create_session value)
  | MqttDeleteSession => no_value (route_delete_session value)
  | MqttUpdateSession => no_value (route_update_session value)
  | MqttSaveLastWillMessage => no_value (route_save_last_will_message value)
  | MqttCreateTopicRewriteRule => no_value (route_create_topic_rewrite_rule value)
  | MqttDeleteTopicRewriteRule => no_value (route_delete_topic_rewrite_rule value)
  | MqttSetSubscribe => no_value (route_set_subscribe value)
  | MqttDeleteSubscribe => no_value (route_delete_subscribe value)
  | MqttSetConnector => no_value (route_set_connector value)
  | MqttDeleteConnector => no_value (route_delete_connector value)
  end.

(** An error is logged and gives an empty snapshot. *)
Definition build_snapshot (d : D) : bytes :=
  if db_cf_handle DB_COLUMN_FAMILY_CLUSTER d then
    match (engine_read_all_by_cf DB_COLUMN_FAMILY_CLUSTER d).1 with
    | Ok res => match bincode_serialize res with inr data => data | inl _ => [] end
    | _ => []
    end
  else [].

(** The values are the octets of the snapshot, written as a [Vec<u8>]. *)
Definition recover_snapshot (data : bytes) : M D PlacementCenterError unit :=
  match bincode_deserialize data with
  | inl e => fail (PE_CommonError e)
  | inr records =>
      fun d =>
        if db_cf_handle DB_COLUMN_FAMILY_CLUSTER d then
          for_each records (fun raw =>
            map_err PE_BaseCommonError (engine_write DB_COLUMN_FAMILY_CLUSTER raw.1 (mkByteVec raw.2))) d
        else (Err (PE_RocksDBFamilyNotAvailable DB_COLUMN_FAMILY_CLUSTER), d)
  end.
End route.
