(* ===== verification/RaftLog.v ===== *)
(** * The log of Raft: [placement-center/src/raft/store/log_store.rs]

    The entries of the log, the vote and the marks that openraft asks a node to
    keep, in two column families of RocksDB.  [openraft] and [rocksdb] are
    parameters: what the store uses of the database beyond [RocksEngine] is
    [RocksRange], and the types of openraft are records with the fields that
    the store looks at. *)

From Stdlib Require Import String.
From stdpp Require Import sorting.
From S2P Require Import Prelude Bytes RustStr Storage RocksEngine PlacementStore PlacementCache PlacementRoute.

(** ** What else is used of RocksDB

    [delete_range_cf] removes the keys from the first to before the second;
    [iterator_cf(_, IteratorMode::End)] starts with the last key. *)
Class RocksRange (D : Type) : Type := {
  db_delete_range_cf : bytes -> bytes -> bytes -> M D bytes unit;
  db_last : bytes -> D -> option (bytes * bytes);
  db_flush_wal : M D bytes unit
}.

Definition in_range (from to k : bytes) : Prop := octets_lt k from = false /\ octets_lt k to = true.
#[export] Instance in_range_dec from to k : Decision (in_range from to k).
Proof. unfold in_range. apply _. Defined.

Class RocksRangeSpec (D : Type) {RD : RocksDB D} {RS : RocksSpec D} {RX : RocksRange D} : Prop := {
  delete_range_spec cf from to d :
    db_cf_handle cf d = true ->
    exists d', db_delete_range_cf cf from to d = (Ok tt, d') /\
      (forall cf', db_cf_handle cf' d' = db_cf_handle cf' d) /\
      contents d' cf = filter (fun kv => ~ in_range from to kv.1) (contents d cf) /\
      forall cf', cf' <> cf -> contents d' cf' = contents d cf';
  last_spec cf d :
    match db_last cf d with
    | None => contents d cf = ∅
    | Some kv => contents d cf !! kv.1 = Some kv.2 /\
                 forall k, is_Some (contents d cf !! k) -> octets_lt kv.1 k = false
    end;
  flush_spec d :
    exists d', db_flush_wal d = (Ok tt, d') /\
      (forall cf, db_cf_handle cf d' = db_cf_handle cf d) /\ (forall cf, contents d' cf = contents d cf)
}.

(** ** The types of openraft *)

Record LogId : Type := mkLogId { li_term : Z; li_node_id : Z; li_index : Z }.
#[export] Instance LogId_eq_dec : EqDecision LogId.
Proof. solve_decision. Defined.

Section types.
Context {Mem : Type}.
Inductive EntryPayload : Type :=
| Blank
| Normal (req : StorageData)
| Membership (mem : Mem).
Record Entry : Type := mkEntry { en_log_id : LogId; en_payload : EntryPayload }.
End types.
Arguments EntryPayload : clear implicits.
Arguments Entry : clear implicits.

Record LogState : Type := mkLogState { last_purged_log_id : option LogId; last_log_id : option LogId }.

Inductive StorageError : Type :=
| SE_Read (e : bytes) | SE_Write (e : bytes) | SE_WriteVote (e : bytes) | SE_WriteLogs (e : bytes)
| SE_WriteSnapshot (e : bytes) | SE_Flush (e : bytes) | SE_Route (e : PlacementCenterError).

(** [RangeBounds<u64>]. *)
Inductive Bound : Type := Included (n : Z) | Excluded (n : Z) | Unbounded.
Definition range_contains (lo hi : Bound) (i : Z) : bool :=
  match lo with Included x => x <=? i | Excluded x => x <? i | Unbounded => true end
  && match hi with Included x => i <=? x | Excluded x => i <? x | Unbounded => true end.

(** ** [mod.rs]: keys in network byte order *)

Fixpoint be_octets (n : nat) (z : Z) : bytes :=
  match n with
  | O => []
  | S n => be_octets n (z / 256) ++ [z mod 256]
  end.
Definition be_value (b : bytes) : Z := foldl (fun v o => 256 * v + o) 0 b.

Definition id_to_bin (id : Z) : bytes := be_octets 8 id.
(** [&buf[0..8]] panics on less than eight octets. *)
Definition bin_to_id (buf : bytes) : option Z :=
  if blen buf <? 8 then None else Some (be_value (take 8 buf)).

Definition cf_raft_store : bytes := lit "store".
Definition cf_raft_logs : bytes := lit "logs".

(** ** [log_store.rs] *)

Section log_store.
Context {R : Type} {RD : RocksDB R} {RX : RocksRange R} {Mem Vote : Type}
        {JI : Json LogId} {JO : Json (option LogId)} {JV : Json Vote} {JE : Json (Entry Mem)}.
Definition LogM (A : Type) : Type := M R StorageError A.

(** [self.db.cf_handle(name).unwrap()]. *)
Definition cf_unwrap (cf : bytes) : LogM unit :=
  fun d => if db_cf_handle cf d then (Ok tt, d) else (Panic, d).

Definition flush : LogM unit := map_err SE_Flush db_flush_wal.

(** A mark of the column family [store]: [get_cf] and [put_cf]; a value that
    cannot be read counts as absent. *)
Definition get_mark (A : Type) {J : Json A} (err : bytes -> StorageError) (key : bytes) : LogM (option A) :=
  cf_unwrap cf_raft_store ;;
  fun d => match db_get_cf cf_raft_store key d with
           | inl e => (Err (err e), d)
           | inr o => (Ok (o ≫= (fun v => match from_slice v with inr a => Some a | inl _ => None end)), d)
           end.
Definition put_mark {A : Type} {J : Json A} (err : bytes -> StorageError) (key : bytes) (a : A) : LogM unit :=
  cf_unwrap cf_raft_store ;;
  match to_vec a with
  | inr v => map_err err (db_put_cf cf_raft_store key v) ;; flush
  | inl _ => panic
  end.

Definition get_last_purged_ : LogM (option LogId) := get_mark LogId SE_Read (lit "last_purged_log_id").
Definition set_last_purged_ (log_id : LogId) : LogM unit := put_mark SE_Write (lit "last_purged_log_id") log_id.
(** An [Option] is written and a [LogId] is read. *)
Definition set_committed_ (committed : option LogId) : LogM unit := put_mark SE_Write (lit "committed") committed.
Definition get_committed_ : LogM (option LogId) := get_mark LogId SE_Read (lit "committed").
Definition set_vote_ (vote : Vote) : LogM unit := put_mark SE_WriteVote (lit "vote") vote.
Definition get_vote_ : LogM (option Vote) := get_mark Vote SE_WriteVote (lit "vote").

(** The entries from the start of the range on, up to the first that is
    outside; every entry that is looked at must be one, at the key of its
    index. *)
Fixpoint entries_loop (lo hi : Bound) (iter : list (bytes * bytes)) : LogM (list (Entry Mem)) :=
  match iter with
  | [] => ret []
  | (key, val) :: iter =>
      match bin_to_id key, from_slice (A := Entry Mem) val with
      | Some id, inr entry =>
          if id =? li_index (en_log_id entry) then
            if range_contains lo hi id then
              let! entries := entries_loop lo hi iter in ret (entry :: entries)
            else ret []
          else panic
      | _, _ => panic
      end
  end.

Definition try_get_log_entries (lo hi : Bound) : LogM (list (Entry Mem)) :=
  let start := match lo with
               | Included x => id_to_bin x
               | Excluded x => id_to_bin (wrap64 (x + 1))
               | Unbounded => id_to_bin 0
               end in
  cf_unwrap cf_raft_logs ;;
  fun d => entries_loop lo hi (db_iter_from cf_raft_logs start d) d.

Definition read_vote : LogM (option Vote) := get_vote_.

Definition get_log_state : LogM LogState :=
  cf_unwrap cf_raft_logs ;;
  let! d := get in
  let last := db_last cf_raft_logs d ≫= (fun kv =>
                match from_slice (A := Entry Mem) kv.2 with inr e => Some (en_log_id e) | inl _ => None end) in
  let! purged := get_last_purged_ in
  ret (mkLogState purged match last with None => purged | Some x => Some x end).

Definition save_committed (committed : option LogId) : LogM unit := set_committed_ committed.
Definition read_committed : LogM (option LogId) := get_committed_.
Definition save_vote (vote : Vote) : LogM unit := set_vote_ vote.

Definition raft_append (entries : list (Entry Mem)) : LogM unit :=
  for_each entries (fun entry =>
    let id := id_to_bin (li_index (en_log_id entry)) in
    if bool_decide (bin_to_id id = Some (li_index (en_log_id entry))) then
      cf_unwrap cf_raft_logs ;;
      match to_vec entry with
      | inr v => map_err SE_WriteLogs (db_put_cf cf_raft_logs id v)
      | inl e => fail (SE_WriteLogs e)
      end
    else panic).

(** Up to the greatest index, which is not removed. *)
Definition raft_truncate (log_id : LogId) : LogM unit :=
  cf_unwrap cf_raft_logs ;;
  map_err SE_WriteLogs
    (db_delete_range_cf cf_raft_logs (id_to_bin (li_index log_id)) (id_to_bin (2 ^ 64 - 1))).

Definition raft_purge (log_id : LogId) : LogM unit :=
  set_last_purged_ log_id ;;
  cf_unwrap cf_raft_logs ;;
  map_err SE_WriteLogs
    (db_delete_range_cf cf_raft_logs (id_to_bin 0) (id_to_bin (wrap64 (li_index log_id + 1)))).
End log_store.

(** ** Keys *)

Lemma length_be n z : length (be_octets n z) = n.
Proof. revert z. induction n as [|n IH]; intros z; [done|]. cbn. rewrite length_app, IH. cbn. lia. Qed.

Lemma be_value_octets n z : 0 <= z < 256 ^ Z.of_nat n -> be_value (be_octets n z) = z.
Proof.
  revert z. induction n as [|n IH]; intros z Hz; [cbn in *; lia|].
  rewrite Nat2Z.inj_succ, Z.pow_succ_r in Hz by lia. cbn [be_octets]. unfold be_value in *.
  rewrite foldl_app, IH by (split; [apply Z.div_pos|apply Z.div_lt_upper_bound]; lia). cbn.
  pose proof (Z.div_mod z 256). lia.
Qed.

Lemma be_lt n z1 z2 : 0 <= z1 < z2 -> z2 < 256 ^ Z.of_nat n -> octets_lt (be_octets n z1) (be_octets n z2) = true.
Proof.
  revert z1 z2. induction n as [|n IH]; intros z1 z2 H1 H2; [cbn in *; lia|].
  rewrite Nat2Z.inj_succ, Z.pow_succ_r in * by lia. cbn [be_octets].
  pose proof (Z.div_mod z1 256). pose proof (Z.div_mod z2 256).
  pose proof (Z.mod_pos_bound z1 256). pose proof (Z.mod_pos_bound z2 256).
  destruct (Z.lt_ge_cases (z1 / 256) (z2 / 256)) as [Hlt|Hge].
  - apply octets_lt_same_length; [by rewrite !length_be|]. apply IH; [|lia].
    split; [apply Z.div_pos; lia|done].
  - replace (z2 / 256) with (z1 / 256) by lia. rewrite octets_lt_app. cbn.
    apply orb_true_iff. left. apply Z.ltb_lt. lia.
Qed.

#[global] Arguments id_to_bin : simpl never.

Definition index_ok (i : Z) : Prop := 0 <= i < 2 ^ 64.

Lemma bin_roundtrip i : index_ok i -> bin_to_id (id_to_bin i) = Some i.
Proof.
  intros Hi. unfold bin_to_id, id_to_bin, blen. rewrite length_be.
  rewrite take_ge by by rewrite length_be. change (Z.of_nat 8 <? 8) with false. cbv iota.
  f_equal. apply be_value_octets. unfold index_ok in Hi. change (256 ^ Z.of_nat 8) with (2 ^ 64). lia.
Qed.

Lemma id_to_bin_inj i j : index_ok i -> index_ok j -> id_to_bin i = id_to_bin j -> i = j.
Proof. intros Hi Hj E. apply (f_equal bin_to_id) in E. rewrite !bin_roundtrip in E by done. congruence. Qed.

Lemma id_lt i j : index_ok i -> index_ok j -> octets_lt (id_to_bin i) (id_to_bin j) = (i <? j).
Proof.
  unfold index_ok. intros Hi Hj. destruct (Z.ltb_spec i j) as [Hlt|Hge].
  - apply be_lt; [lia|]. change (256 ^ Z.of_nat 8) with (2 ^ 64). lia.
  - destruct (decide (i = j)) as [->|Hne]; [apply octets_lt_irrefl|].
    destruct (octets_lt (id_to_bin i) (id_to_bin j)) eqn:E; [|done].
    assert (octets_lt (id_to_bin j) (id_to_bin i) = true) as E'
      by (apply be_lt; [lia|change (256 ^ Z.of_nat 8) with (2 ^ 64); lia]).
    pose proof (octets_lt_trans _ _ _ E E') as H. by rewrite octets_lt_irrefl in H.
Qed.

(** ** The abstract log *)

Section spec.
Context {Mem Vote : Type}.

Record RaftLogSpec : Type := mkRaftLogSpec {
  rl_entries : gmap Z (Entry Mem);
  rl_purged : option LogId;
  rl_committed : option LogId;
  rl_vote : option Vote
}.
Implicit Types (a : RaftLogSpec) (e : Entry Mem).

Definition entry_index e : Z := li_index (en_log_id e).

Definition log_insert (m : gmap Z (Entry Mem)) e : gmap Z (Entry Mem) := <[entry_index e := e]> m.

Inductive raft_op : Type :=
| RaftAppend (entries : list (Entry Mem))
| RaftTruncate (log_id : LogId)
| RaftPurge (log_id : LogId)
| RaftSaveVote (vote : Vote)
| RaftSaveCommitted (committed : option LogId).

Definition raft_spec (op : raft_op) a : RaftLogSpec :=
  match op with
  | RaftAppend entries =>
      mkRaftLogSpec (foldl log_insert (rl_entries a) entries) (rl_purged a) (rl_committed a) (rl_vote a)
  | RaftTruncate log_id =>
      mkRaftLogSpec (filter (fun ie => ie.1 < li_index log_id) (rl_entries a)) (rl_purged a) (rl_committed a) (rl_vote a)
  | RaftPurge log_id =>
      mkRaftLogSpec (filter (fun ie => li_index log_id < ie.1) (rl_entries a)) (Some log_id) (rl_committed a) (rl_vote a)
  | RaftSaveVote vote => mkRaftLogSpec (rl_entries a) (rl_purged a) (rl_committed a) (Some vote)
  | RaftSaveCommitted committed => mkRaftLogSpec (rl_entries a) (rl_purged a) committed (rl_vote a)
  end.

(** Indexes are [u64], and the greatest is not used. *)
Definition raft_op_ok (op : raft_op) : Prop :=
  match op with
  | RaftAppend entries => Forall (fun e => 0 <= entry_index e < 2 ^ 64 - 1) entries
  | RaftTruncate log_id | RaftPurge log_id => 0 <= li_index log_id < 2 ^ 64 - 1
  | _ => True
  end.

(** The entries of a range, in the order of their indexes. *)
Definition entries_between a (lo hi : Bound) (l : list (Entry Mem)) : Prop :=
  StronglySorted (fun e1 e2 => entry_index e1 < entry_index e2) l /\
  forall e, e ∈ l <-> rl_entries a !! entry_index e = Some e /\ range_contains lo hi (entry_index e) = true.

(** What openraft is told about the log: the last entry, or the last that was
    purged when there is none. *)
Definition log_state_of a (s : LogState) : Prop :=
  last_purged_log_id s = rl_purged a /\
  ((rl_entries a = ∅ /\ last_log_id s = rl_purged a) \/
   exists e, rl_entries a !! entry_index e = Some e /\ last_log_id s = Some (en_log_id e) /\
             forall i, is_Some (rl_entries a !! i) -> i <= entry_index e).

Definition bound_ok (lo : Bound) : Prop :=
  match lo with Included x => 0 <= x < 2 ^ 64 | Excluded x => 0 <= x < 2 ^ 64 - 1 | Unbounded => True end.
End spec.
Arguments RaftLogSpec : clear implicits.
Arguments raft_op : clear implicits.

(** ** The store implements the abstract log *)

(** [Option] is transparent in JSON, and [None] is [null]. *)
Class JsonOption (A : Type) {J : Json A} {JO : Json (option A)} : Prop := {
  json_some (a : A) : to_vec (Some a) = to_vec a;
  json_null b : to_vec (None : option A) = inr b -> exists e, from_slice (A := A) b = inl e
}.

Section refinement.
Context {R : Type} {RD : RocksDB R} {RS : RocksSpec R} {RR : RocksReliable R} {RX : RocksRange R}
        {RXS : RocksRangeSpec R} {Mem Vote : Type}
        {JI : Json LogId} {JO : Json (option LogId)} {JV : Json Vote} {JE : Json (Entry Mem)}
        {JIS : JsonSpec LogId} {JOS : JsonSpec (option LogId)} {JVS : JsonSpec Vote} {JES : JsonSpec (Entry Mem)}
        {JOO : JsonOption LogId}.
Implicit Types (d : R) (a : RaftLogSpec Mem Vote) (e : Entry Mem).

Definition raft_open d : Prop := db_cf_handle cf_raft_store d = true /\ db_cf_handle cf_raft_logs d = true.

Definition logs_rep (C : gmap bytes bytes) (m : gmap Z (Entry Mem)) : Prop :=
  (forall i e, m !! i = Some e ->
     0 <= i < 2 ^ 64 - 1 /\ entry_index e = i /\ C !! id_to_bin i = Some (json e)) /\
  (forall k v, C !! k = Some v -> exists i e, m !! i = Some e /\ k = id_to_bin i /\ v = json e).

Definition marks_rep (C : gmap bytes bytes) a : Prop :=
  C !! lit "last_purged_log_id" = json <$> rl_purged a /\
  C !! lit "vote" = json <$> rl_vote a /\
  exists o : option (option LogId), C !! lit "committed" = json <$> o /\ rl_committed a = mjoin o.

Definition raft_rep d a : Prop :=
  raft_open d /\ logs_rep (contents d cf_raft_logs) (rl_entries a) /\ marks_rep (contents d cf_raft_store) a.

(** *** Marks *)

Lemma put_mark_ok {A} {J : Json A} {JS : JsonSpec A} err key (x : A) d :
  raft_open d ->
  exists d', put_mark err key x d = (Ok tt, d') /\ raft_open d' /\
    contents d' cf_raft_store = <[key := json x]> (contents d cf_raft_store) /\
    contents d' cf_raft_logs = contents d cf_raft_logs.
Proof.
  intros [H1 H2]. unfold put_mark, cf_unwrap. unfold bind at 1. rewrite H1. destruct (json_ok x) as (-> & _ & _).
  pose proof (put_spec cf_raft_store key (json x) d H1) as Hp.
  pose proof (put_reliable cf_raft_store key (json x) d H1) as Hr.
  destruct (db_put_cf cf_raft_store key (json x) d) as [r d1] eqn:E. cbn in Hr. subst r.
  destruct Hp as [Hh [(_ & Hc & Ho)|[[? ?] _]]]; [|done].
  destruct (flush_spec d1) as (d2 & E2 & Hh2 & Hc2).
  exists d2. split_and!.
  - rewrite (bind_ok _ _ _ tt d1) by (unfold map_err; by rewrite E). unfold flush, map_err. by rewrite E2.
  - by split; rewrite Hh2, Hh.
  - by rewrite Hc2.
  - by rewrite Hc2, Ho.
Qed.

Lemma get_mark_raw {A} {J : Json A} err key d :
  raft_open d ->
  get_mark A err key d
  = (Ok (contents d cf_raft_store !! key ≫= (fun v => match from_slice v with inr x => Some x | inl _ => None end)), d).
Proof.
  intros [H1 _]. unfold get_mark, cf_unwrap, bind. rewrite H1.
  destruct (get_spec cf_raft_store key d) as [->|[x E]]; [done|by apply get_reliable in E].
Qed.

Lemma get_mark_ok {A} {J : Json A} {JS : JsonSpec A} err key (o : option A) d :
  raft_open d -> contents d cf_raft_store !! key = json <$> o -> get_mark A err key d = (Ok o, d).
Proof.
  intros Ho Hk. rewrite get_mark_raw, Hk by done. destruct o as [x|]; [|done]. cbn.
  by destruct (json_ok x) as (_ & _ & ->).
Qed.

(** *** Entries *)

Lemma logs_rep_insert C m e :
  0 <= entry_index e < 2 ^ 64 - 1 -> logs_rep C m ->
  logs_rep (<[id_to_bin (entry_index e) := json e]> C) (log_insert m e).
Proof.
  intros Hi (H1 & H2). unfold log_insert. split.
  - intros i e' [[<- <-]|[Hne He]]%lookup_insert_Some; [by rewrite lookup_insert_eq|].
    destruct (H1 i e' He) as (Hr & Hidx & Hc). rewrite lookup_insert_ne; [done|].
    intros E. apply id_to_bin_inj in E; [done|unfold index_ok; lia..].
  - intros k v [[<- <-]|[Hne Hk]]%lookup_insert_Some; [exists (entry_index e), e; by rewrite lookup_insert_eq|].
    destruct (H2 k v Hk) as (i & e' & He & -> & ->). exists i, e'. rewrite lookup_insert_ne; [done|].
    intros E. by rewrite E in Hne.
Qed.

Lemma logs_rep_filter C m (P : bytes -> Prop) `{!forall k, Decision (P k)} (Q : Z -> Prop) `{!forall i, Decision (Q i)} :
  (forall i, is_Some (m !! i) -> P (id_to_bin i) <-> Q i) -> logs_rep C m ->
  logs_rep (filter (fun kv => P kv.1) C) (filter (fun ie => Q ie.1) m).
Proof.
  intros HPQ (H1 & H2). split.
  - intros i e [He Hq]%map_lookup_filter_Some. destruct (H1 i e He) as (Hr & Hidx & Hc). split_and!; [lia|lia|done|].
    apply map_lookup_filter_Some. split; [done|]. cbn in *. apply HPQ; [by exists e|done].
  - intros k v [Hk Hp]%map_lookup_filter_Some. destruct (H2 k v Hk) as (i & e & He & -> & ->).
    exists i, e. split_and!; [|done|done]. apply map_lookup_filter_Some. split; [done|]. cbn in *.
    apply HPQ; [by exists e|done].
Qed.

Lemma append_ok entries d m :
  Forall (fun e => 0 <= entry_index e < 2 ^ 64 - 1) entries ->
  raft_open d -> logs_rep (contents d cf_raft_logs) m ->
  exists d', raft_append entries d = (Ok tt, d') /\ raft_open d' /\
    logs_rep (contents d' cf_raft_logs) (foldl log_insert m entries) /\
    contents d' cf_raft_store = contents d cf_raft_store.
Proof.
  unfold raft_append. revert d m. induction entries as [|e entries IH]; intros d m Hall Ho Hm; [by exists d|].
  apply Forall_cons in Hall as [He Hall]. pose proof Ho as [H1 H2]. rewrite for_each_cons.
  pose proof (put_spec cf_raft_logs (id_to_bin (entry_index e)) (json e) d H2) as Hp.
  pose proof (put_reliable cf_raft_logs (id_to_bin (entry_index e)) (json e) d H2) as Hr.
  destruct (db_put_cf cf_raft_logs (id_to_bin (entry_index e)) (json e) d) as [r d1] eqn:E. cbn in Hr. subst r.
  destruct Hp as [Hh [(_ & Hc & Hst)|[[? ?] _]]]; [|done].
  destruct (IH d1 (log_insert m e)) as (d' & E' & Ho' & Hm' & Hs').
  - done.
  - by split; rewrite Hh.
  - rewrite Hc. by apply logs_rep_insert.
  - exists d'. split_and!; [|done|done|by rewrite Hs', Hst]. rewrite (bind_ok _ _ _ tt d1); [done|].
    rewrite bool_decide_eq_true_2 by (apply bin_roundtrip; unfold index_ok, entry_index in *; lia).
    unfold bind, cf_unwrap. rewrite H2. destruct (json_ok e) as (-> & _ & _).
    unfold map_err. unfold entry_index in E. by rewrite E.
Qed.

Lemma delete_range_ok from to d :
  raft_open d ->
  exists d', (cf_unwrap cf_raft_logs ;; map_err SE_WriteLogs (db_delete_range_cf cf_raft_logs from to)) d = (Ok tt, d') /\
    raft_open d' /\
    contents d' cf_raft_logs = filter (fun kv => ~ in_range from to kv.1) (contents d cf_raft_logs) /\
    contents d' cf_raft_store = contents d cf_raft_store.
Proof.
  intros [H1 H2]. destruct (delete_range_spec cf_raft_logs from to d H2) as (d' & E & Hh & Hc & Ho).
  exists d'. split_and!; [|by split; rewrite Hh|done|by apply Ho].
  unfold bind, cf_unwrap, map_err. by rewrite H2, E.
Qed.

(** *** Operations *)

Definition raft_run (op : raft_op Mem Vote) : LogM unit :=
  match op with
  | RaftAppend entries => raft_append entries
  | RaftTruncate log_id => raft_truncate log_id
  | RaftPurge log_id => raft_purge log_id
  | RaftSaveVote vote => save_vote vote
  | RaftSaveCommitted committed => save_committed committed
  end.

Lemma truncate_keys i log_id :
  0 <= li_index log_id < 2 ^ 64 - 1 -> 0 <= i < 2 ^ 64 - 1 ->
  ~ in_range (id_to_bin (li_index log_id)) (id_to_bin (2 ^ 64 - 1)) (id_to_bin i) <-> i < li_index log_id.
Proof.
  intros H1 H2. unfold in_range. rewrite !id_lt by (unfold index_ok; lia).
  rewrite Z.ltb_ge, Z.ltb_lt. lia.
Qed.

Lemma purge_keys i log_id :
  0 <= li_index log_id < 2 ^ 64 - 1 -> 0 <= i < 2 ^ 64 - 1 ->
  ~ in_range (id_to_bin 0) (id_to_bin (wrap64 (li_index log_id + 1))) (id_to_bin i) <-> li_index log_id < i.
Proof.
  intros H1 H2. unfold in_range. rewrite wrap64_small by lia. rewrite !id_lt by (unfold index_ok; lia).
  rewrite Z.ltb_ge, Z.ltb_lt. lia.
Qed.

Lemma raft_op_refines op d a :
  raft_op_ok op -> raft_rep d a -> exists d', raft_run op d = (Ok tt, d') /\ raft_rep d' (raft_spec op a).
Proof.
  intros Hok (Ho & Hl & Hm). destruct op as [entries|log_id|log_id|vote|committed]; cbn [raft_run raft_spec].
  - destruct (append_ok entries d _ Hok Ho Hl) as (d' & E & Ho' & Hl' & Hs). exists d'. split; [done|].
    split; [done|]. split; [done|]. by rewrite Hs.
  - destruct (delete_range_ok (id_to_bin (li_index log_id)) (id_to_bin (2 ^ 64 - 1)) d Ho) as (d' & E & Ho' & Hl' & Hs).
    exists d'. split; [exact E|]. split; [done|]. split; [|by rewrite Hs]. rewrite Hl'.
    refine (logs_rep_filter _ _ (fun k => ~ in_range (id_to_bin (li_index log_id)) (id_to_bin (2 ^ 64 - 1)) k)
              (fun i => i < li_index log_id) _ Hl).
    intros i [e He]. apply truncate_keys; [done|]. by destruct Hl as [Hl _]; destruct (Hl i e He).
  - destruct (put_mark_ok SE_Write (lit "last_purged_log_id") log_id d Ho) as (d1 & E1 & Ho1 & Hs1 & Hl1).
    destruct (delete_range_ok (id_to_bin 0) (id_to_bin (wrap64 (li_index log_id + 1))) d1 Ho1) as (d' & E & Ho' & Hl' & Hs).
    exists d'. split; [unfold raft_purge, set_last_purged_; by rewrite (bind_ok _ _ _ _ _ E1)|].
    split; [done|]. split.
    + rewrite Hl', Hl1.
      refine (logs_rep_filter _ _ (fun k => ~ in_range (id_to_bin 0) (id_to_bin (wrap64 (li_index log_id + 1))) k)
                (fun i => li_index log_id < i) _ Hl).
      intros i [e He]. apply purge_keys; [done|]. by destruct Hl as [Hl _]; destruct (Hl i e He).
    + rewrite Hs, Hs1. destruct Hm as (_ & Hv & o & Hc & Eo). split_and!; [by rewrite lookup_insert_eq|..].
      * by rewrite lookup_insert_ne.
      * exists o. by rewrite lookup_insert_ne.
  - destruct (put_mark_ok SE_WriteVote (lit "vote") vote d Ho) as (d' & E & Ho' & Hs & Hl').
    exists d'. split; [exact E|]. split; [done|]. split; [by rewrite Hl'|]. rewrite Hs.
    destruct Hm as (Hp & _ & o & Hc & Eo). split_and!; [by rewrite lookup_insert_ne|by rewrite lookup_insert_eq|].
    exists o. by rewrite lookup_insert_ne.
  - destruct (put_mark_ok SE_Write (lit "committed") committed d Ho) as (d' & E & Ho' & Hs & Hl').
    exists d'. split; [exact E|]. split; [done|]. split; [by rewrite Hl'|]. rewrite Hs.
    destruct Hm as (Hp & Hv & _). split_and!; [by rewrite lookup_insert_ne..|].
    exists (Some committed). by rewrite lookup_insert_eq.
Qed.

(** *** Reading *)

Definition entry_pair e : bytes * bytes := (id_to_bin (entry_index e), json e).

Fixpoint take_while {A : Type} (f : A -> bool) (l : list A) : list A :=
  match l with [] => [] | x :: l => if f x then x :: take_while f l else [] end.

Lemma entries_loop_eval lo hi es d :
  Forall (fun e => index_ok (entry_index e)) es ->
  entries_loop lo hi (map entry_pair es) d
  = (Ok (take_while (fun e => range_contains lo hi (entry_index e)) es), d).
Proof.
  induction 1 as [|e es He Hes IH]; [done|]. cbn [map entries_loop entry_pair take_while].
  rewrite (bin_roundtrip _ He). destruct (json_ok e) as (_ & _ & ->). fold (entry_index e). rewrite Z.eqb_refl.
  destruct (range_contains lo hi (entry_index e)); [|done]. by rewrite (bind_ok _ _ _ _ _ IH).
Qed.

(** On a sorted list that begins inside the range, the loop stops at its end. *)
Lemma take_while_elem lo hi es e :
  StronglySorted (fun e1 e2 => entry_index e1 < entry_index e2) es ->
  (forall e, e ∈ es -> match lo with Included x => x <= entry_index e | Excluded x => x < entry_index e | Unbounded => True end) ->
  e ∈ take_while (fun e => range_contains lo hi (entry_index e)) es <->
  e ∈ es /\ range_contains lo hi (entry_index e) = true.
Proof.
  induction 1 as [|e0 es Hs IH Hlt]; intros Hlo; cbn [take_while].
  { rewrite elem_of_nil. tauto. }
  specialize (IH (fun e He => Hlo e (list_elem_of_further _ _ _ He))).
  destruct (range_contains lo hi (entry_index e0)) eqn:E.
  - rewrite !elem_of_cons, IH. split; [|tauto]. intros [->|[? ?]]; auto.
  - rewrite elem_of_nil. split; [done|]. intros [[->|Hin]%elem_of_cons Hr]; [congruence|].
    rewrite Forall_forall in Hlt. specialize (Hlt e Hin). pose proof (Hlo e0 (list_elem_of_here _ _)) as Hlo0.
    unfold range_contains in *. destruct lo, hi; cbn in *; bool_prop; try done;
      try (apply andb_false_iff in E as [E|E]; bool_prop); bool_prop; lia.
Qed.

Lemma take_while_sorted {A} (Rel : A -> A -> Prop) f l : StronglySorted Rel l -> StronglySorted Rel (take_while f l).
Proof.
  induction 1 as [|x l Hs IH Hx]; cbn; [constructor|]. case_match; constructor; [done|].
  apply Forall_forall. intros y Hy. rewrite Forall_forall in Hx. apply Hx. clear -Hy.
  induction l as [|z l IH]; cbn in Hy; [done|]. case_match; [|by apply elem_of_nil in Hy].
  apply elem_of_cons in Hy as [->|Hy]; [by left|right; auto].
Qed.

(** The iterator from an index on: the entries that are no smaller. *)
Lemma iter_entries d m start :
  logs_rep (contents d cf_raft_logs) m -> index_ok start ->
  exists es, db_iter_from cf_raft_logs (id_to_bin start) d = map entry_pair es /\
    StronglySorted (fun e1 e2 => entry_index e1 < entry_index e2) es /\
    Forall (fun e => index_ok (entry_index e)) es /\
    forall e, e ∈ es <-> m !! entry_index e = Some e /\ start <= entry_index e.
Proof.
  intros (H1 & H2) Hst. pose proof (iter_sorted cf_raft_logs (id_to_bin start) d) as Hs.
  pose proof (iter_elem cf_raft_logs (id_to_bin start) d) as Hel.
  assert (forall kv, kv ∈ db_iter_from cf_raft_logs (id_to_bin start) d ->
            exists e, kv = entry_pair e /\ index_ok (entry_index e)) as Hpair.
  { intros [k v] [Hk _]%Hel. destruct (H2 k v Hk) as (i & e & He & -> & ->). destruct (H1 i e He) as (Hr & <- & _).
    exists e. split; [done|]. unfold index_ok. lia. }
  revert Hs Hel Hpair. generalize (db_iter_from cf_raft_logs (id_to_bin start) d). intros l Hs Hel Hpair.
  assert (exists es, l = map entry_pair es /\ Forall (fun e => index_ok (entry_index e)) es) as (es & -> & Hok).
  { clear -Hpair. induction l as [|kv l IH]; [by exists []|]. destruct (Hpair kv (list_elem_of_here _ _)) as (e & -> & He).
    destruct IH as (es & -> & Hes); [intros kv' Hkv; apply Hpair; by right|]. exists (e :: es). split; [done|by constructor]. }
  exists es. split_and!; [done| |done|].
  - clear -Hs Hok. induction es as [|e es IH]; [constructor|]. apply Forall_cons in Hok as [He Hok].
    apply StronglySorted_cons in Hs as [Hs Hs']. constructor; [auto|].
    apply Forall_forall. intros e' He'. rewrite Forall_forall in Hok.
    pose proof (proj1 (Forall_forall _ _) Hs (entry_pair e') (list_elem_of_fmap_2 entry_pair es e' He')) as Hlt.
    unfold key_lt, entry_pair in Hlt. cbn [fst] in Hlt. rewrite id_lt in Hlt by auto. by apply Z.ltb_lt.
  - intros e. split.
    + intros He. assert (entry_pair e ∈ map entry_pair es) as [Hk Hge]%Hel by (apply list_elem_of_fmap; eauto).
      cbn in Hk, Hge. destruct (H2 _ _ Hk) as (i & e' & He' & Ek & Ev). apply json_inj in Ev as <-.
      rewrite Forall_forall in Hok. specialize (Hok e He). destruct (H1 i e He') as (Hr & <- & _). split; [done|].
      rewrite id_lt in Hge by done. by apply Z.ltb_ge.
    + intros [He Hge]. destruct (H1 _ _ He) as (Hr & _ & Hk).
      assert (entry_pair e ∈ map entry_pair es) as Hin.
      { apply Hel. cbn. split; [done|]. rewrite id_lt by (unfold index_ok in *; lia). by apply Z.ltb_ge. }
      apply list_elem_of_fmap in Hin as (e' & E & Hin). apply (f_equal snd), json_inj in E. cbn in E. by subst.
Qed.

Lemma try_get_ok lo hi d a :
  raft_rep d a -> bound_ok lo -> exists l, try_get_log_entries lo hi d = (Ok l, d) /\ entries_between a lo hi l.
Proof.
  intros ([Ho1 Ho2] & Hl & _) Hlo. unfold try_get_log_entries, cf_unwrap, bind. rewrite Ho2.
  set (start := match lo with Included x => x | Excluded x => x + 1 | Unbounded => 0 end).
  assert (index_ok start) as Hst by (unfold start, index_ok; destruct lo; cbn in Hlo; lia).
  destruct (iter_entries d _ start Hl Hst) as (es & Eit & Hs & Hok & Hel).
  eexists. split.
  { replace (match lo with Included x => id_to_bin x | Excluded x => id_to_bin (wrap64 (x + 1)) | Unbounded => id_to_bin 0 end)
      with (id_to_bin start) by (unfold start; destruct lo; cbn in Hlo; rewrite ?wrap64_small by lia; done).
    rewrite Eit. by apply entries_loop_eval. }
  split; [by apply take_while_sorted|]. intros e. rewrite take_while_elem; [|done|].
  - rewrite Hel. split; [tauto|]. intros [He Hr]. split_and!; [done| |done].
    unfold range_contains, start in *. destruct lo; cbn in *; bool_prop; try lia.
    destruct Hl as [Hl _]. destruct (Hl _ _ He). lia.
  - intros e' [_ Hge]%Hel. unfold start in Hge. destruct lo; lia.
Qed.

Lemma log_state_ok d a : raft_rep d a -> exists s, get_log_state d = (Ok s, d) /\ log_state_of a s.
Proof.
  intros ([Ho1 Ho2] & Hl & Hp & _). unfold get_log_state, cf_unwrap. unfold bind at 1. rewrite Ho2.
  unfold bind at 1. cbn [get]. unfold get_last_purged_.
  rewrite (bind_ok _ _ _ _ _ (get_mark_ok SE_Read _ _ d (conj Ho1 Ho2) Hp)). eexists. split; [done|].
  split; [done|]. cbn [last_log_id]. pose proof (last_spec cf_raft_logs d) as Hlast. destruct Hl as [H1 H2].
  destruct (db_last cf_raft_logs d) as [[k v]|].
  - right. destruct Hlast as [Hk Hmax]. cbn [fst snd] in *. destruct (H2 k v Hk) as (i & e & He & -> & ->).
    destruct (H1 i e He) as (Hr & <- & _). exists e. split_and!; [done| |].
    + cbn. by destruct (json_ok e) as (_ & _ & ->).
    + intros i [e' He']. destruct (H1 i e' He') as (Hr' & Hidx & Hc).
      assert (octets_lt (id_to_bin (entry_index e)) (id_to_bin i) = false) as Hge by (apply Hmax; by eexists).
      rewrite id_lt in Hge by (unfold index_ok; lia). by apply Z.ltb_ge.
  - left. split; [|done]. apply map_eq. intros i. rewrite lookup_empty. destruct (rl_entries a !! i) as [e|] eqn:He; [|done].
    destruct (H1 i e He) as (_ & _ & Hc). by rewrite Hlast, lookup_empty in Hc.
Qed.

Lemma read_committed_ok d a : raft_rep d a -> read_committed d = (Ok (rl_committed a), d).
Proof.
  intros (Ho & _ & _ & _ & o & Hc & Eo). unfold read_committed, get_committed_. rewrite get_mark_raw, Hc, Eo by done.
  destruct o as [[x|]|]; [..|done]; cbn.
  - assert (json (Some x) = json x) as -> by (unfold json; by rewrite json_some).
    by destruct (json_ok x) as (_ & _ & ->).
  - destruct (json_ok (None : option LogId)) as (E & _ & _). destruct (json_null _ E) as [err ->]. done.
Qed.

Lemma raft_rep_empty d :
  raft_open d -> contents d cf_raft_store = ∅ -> contents d cf_raft_logs = ∅ -> raft_rep d (mkRaftLogSpec ∅ None None None).
Proof.
  intros Ho Hs Hl. split; [done|]. split; [split|split_and!].
  - by intros i e.
  - intros k v. by rewrite Hl, lookup_empty.
  - by rewrite Hs.
  - by rewrite Hs.
  - exists None. by rewrite Hs.
Qed.

Lemma raft_ops_refine ops d a :
  Forall raft_op_ok ops -> raft_rep d a ->
  exists d', for_each ops raft_run d = (Ok tt, d') /\ raft_rep d' (foldl (fun a op => raft_spec op a) a ops).
Proof.
  revert d a. induction ops as [|op ops IH]; intros d a Hok Hr; [by exists d|].
  apply Forall_cons in Hok as [Hop Hok]. destruct (raft_op_refines op d a Hop Hr) as (d1 & E1 & Hr1).
  destruct (IH d1 _ Hok Hr1) as (d2 & E2 & Hr2). exists d2. by rewrite for_each_cons, (bind_ok _ _ _ _ _ E1).
Qed.
End refinement.
