(* ===== verification/RaftMachine.v ===== *)
(** * The state machine of Raft: [raft/store/state_machine_store.rs] and [route/apply.rs]

    Entries that are committed are applied to the database and the caches of
    the node; snapshots of the database are built, kept in the database of Raft
    and installed.  A client's command is handed to openraft, a parameter: on
    the leader a command is applied before it is answered. *)

From Stdlib Require Import String.
From S2P Require Import Prelude Bytes RustStr Storage RocksEngine PlacementStore PlacementCache PlacementRoute RaftLog.

Section machine.
Context {D : Type} {RD : RocksDB D} {R : Type} {RR : RocksDB R} {RX : RocksRange R}
        {MI : MapIter} {MZ : MapIterZ} {MP : MetaProst} {MJ : MetaJson} {BC : Bincode} {Mem : Type}.
Abbreviation Node := (PlacementNode (D := D)).

Record StoredMembership : Type := mkStoredMembership { sm_log_id : option LogId; sm_membership : option Mem }.
Definition StoredMembership_default : StoredMembership := mkStoredMembership None None.

Record SnapshotMeta : Type := mkSnapshotMeta {
  sn_last_log_id : option LogId;
  sn_last_membership : StoredMembership;
  sn_snapshot_id : bytes
}.
Record StoredSnapshot : Type := mkStoredSnapshot { st_meta : SnapshotMeta; st_data : bytes }.

Record StateMachineStore : Type := mkStateMachineStore {
  ms_last_applied_log_id : option LogId;
  ms_last_membership : StoredMembership;
  ms_snapshot_idx : Z;
  ms_db : R;
  ms_node : Node
}.
Definition Machine (A : Type) : Type := M StateMachineStore StorageError A.

(** [last.leader_id] as openraft displays it. *)
Context {JS : Json StoredSnapshot} (leader_text : LogId -> bytes).

Definition on_raft_db {A : Type} (m : M R StorageError A) : Machine A :=
  fun s => let (r, d) := m (ms_db s) in
           (r, mkStateMachineStore (ms_last_applied_log_id s) (ms_last_membership s) (ms_snapshot_idx s) d (ms_node s)).

Definition get_current_snapshot_ : Machine (option StoredSnapshot) :=
  on_raft_db (get_mark StoredSnapshot SE_Read (lit "snapshot")).
Definition set_current_snapshot_ (snap : StoredSnapshot) : Machine unit :=
  on_raft_db (put_mark SE_WriteSnapshot (lit "snapshot") snap).

(** The caches of the node are left as they are. *)
Definition update_state_machine_ (snapshot : StoredSnapshot) : Machine unit :=
  fun s =>
    let n := ms_node s in
    let (r, d) := recover_snapshot (st_data snapshot) (pn_db n) in
    (match r with Ok tt => Ok tt | Err e => Err (SE_Route e) | Panic => Panic | OutOfFuel => OutOfFuel end,
     mkStateMachineStore (sn_last_log_id (st_meta snapshot)) (sn_last_membership (st_meta snapshot))
       (ms_snapshot_idx s) (ms_db s)
       (mkPlacementNode d (pn_cluster n) (pn_journal n) (pn_mqtt n) (pn_second n) (pn_millisecond n))).

(** A snapshot that is there is written over the database of the node, and the
    log is applied again from where the snapshot was taken. *)
Definition StateMachineStore_new (db : R) (node : Node) : outcome StorageError unit * StateMachineStore :=
  (let! snapshot := get_current_snapshot_ in
   match snapshot with
   | Some snap => update_state_machine_ snap
   | None => ret tt
   end) (mkStateMachineStore None StoredMembership_default 0 db node).

Definition applied_state : Machine (option LogId * StoredMembership) :=
  fun s => (Ok (ms_last_applied_log_id s, ms_last_membership s), s).

(** An entry that the route refuses is logged, and answered like the others. *)
Definition apply_entry (ent : Entry Mem) : Machine (option bytes) :=
  fun s =>
    let applied := Some (en_log_id ent) in
    match en_payload ent with
    | Blank =>
        (Ok None, mkStateMachineStore applied (ms_last_membership s) (ms_snapshot_idx s) (ms_db s) (ms_node s))
    | Normal req =>
        let (r, n) := route req (ms_node s) in
        (match r with Ok data => Ok data | Err _ => Ok None | Panic => Panic | OutOfFuel => OutOfFuel end,
         mkStateMachineStore applied (ms_last_membership s) (ms_snapshot_idx s) (ms_db s) n)
    | Membership mem =>
        (Ok None, mkStateMachineStore applied (mkStoredMembership applied (Some mem)) (ms_snapshot_idx s)
                    (ms_db s) (ms_node s))
    end.
Fixpoint apply_all (entries : list (Entry Mem)) : Machine (list (option bytes)) :=
  match entries with
  | [] => ret []
  | ent :: entries =>
      let! reply := apply_entry ent in
      let! replies := apply_all entries in
      ret (reply :: replies)
  end.

(** The builder is a copy of the store: the marks are those of the moment the
    builder was made, the data those of the moment it builds. *)
Record SnapshotBuilder : Type := mkSnapshotBuilder {
  sb_last_applied_log_id : option LogId;
  sb_last_membership : StoredMembership;
  sb_snapshot_idx : Z
}.
Definition get_snapshot_builder : Machine SnapshotBuilder :=
  fun s =>
    let idx := wrap64 (ms_snapshot_idx s + 1) in
    (Ok (mkSnapshotBuilder (ms_last_applied_log_id s) (ms_last_membership s) idx),
     mkStateMachineStore (ms_last_applied_log_id s) (ms_last_membership s) idx (ms_db s) (ms_node s)).
Definition snapshot_id_of (b : SnapshotBuilder) : bytes :=
  match sb_last_applied_log_id b with
  | Some last => leader_text last ++ lit "-" ++ decimal (li_index last) ++ lit "-" ++ decimal (sb_snapshot_idx b)
  | None => lit "--" ++ decimal (sb_snapshot_idx b)
  end.
Definition machine_build_snapshot (b : SnapshotBuilder) : Machine StoredSnapshot :=
  fun s =>
    let snapshot := mkStoredSnapshot
                      (mkSnapshotMeta (sb_last_applied_log_id b) (sb_last_membership b) (snapshot_id_of b))
                      (build_snapshot (pn_db (ms_node s))) in
    (set_current_snapshot_ snapshot ;; ret snapshot) s.

Definition install_snapshot (meta_ : SnapshotMeta) (snapshot : bytes) : Machine unit :=
  let new_snapshot := mkStoredSnapshot meta_ snapshot in
  update_state_machine_ new_snapshot ;;
  set_current_snapshot_ new_snapshot.
Definition get_current_snapshot : Machine (option StoredSnapshot) := get_current_snapshot_.
End machine.
Arguments StoredMembership : clear implicits.
Arguments SnapshotMeta : clear implicits.
Arguments StoredSnapshot : clear implicits.

(** ** [route/apply.rs]

    [openraft_node.client_write], within ten seconds: an error is its text. *)
Section client_write.
Context {D : Type} {RD : RocksDB D} {MI : MapIter} {MZ : MapIterZ} {MP : MetaProst} {MJ : MetaJson}.
Abbreviation Node := (PlacementNode (D := D)).

Class OpenRaft : Type := {
  openraft_client_write : StorageData -> Route (D := D) (option bytes)
}.

Definition client_write {RW : OpenRaft} (data : StorageData) : Route (option (option bytes)) :=
  let! reply := openraft_client_write data in ret (Some reply).

(** What a command does to the node that applies it. *)
Definition applied (data : StorageData) (n : Node) : Node := (route data n).2.
Definition reply_of (data : StorageData) (n : Node) : option bytes :=
  match (route data n).1 with Ok v => v | _ => None end.

(** On the leader, a write returns when its entry has been committed and
    applied to the state machine of the node. *)
Class OpenRaftLeader {RW : OpenRaft} : Prop := {
  leader_applies data n :
    returns (route data n).1 -> openraft_client_write data n = (Ok (reply_of data n), applied data n)
}.

(** A leader without followers. *)
Definition single_node : OpenRaft := {|
  openraft_client_write data := fun n => (Ok (reply_of data n), applied data n)
|}.
Lemma single_node_leader : @OpenRaftLeader single_node.
Proof. by split. Qed.

Lemma client_write_ok {RW : OpenRaft} {RL : OpenRaftLeader} data n :
  returns (route data n).1 -> client_write data n = (Ok (Some (reply_of data n)), applied data n).
Proof. intros H. unfold client_write. by rewrite (bind_ok _ _ _ _ _ (leader_applies data n H)). Qed.
End client_write.
