(* ===== verification/KvService.v ===== *)
(** * The key-value service of the placement center and its clients

    [server/grpc/service_kv.rs] at the nodes, [grpc-clients/src/utils.rs] with
    the leader cache of [pool.rs] at the clients, and the calls of
    [placement/kv/call.rs].  The network and the texts of errors are
    parameters: [Network], with [NetworkSpec] for what the nodes of a cluster
    answer, and [ErrorText]. *)

From Stdlib Require Import String.
From stdpp Require Import sorting.
From S2P Require Import Prelude Bytes RustStr Storage RocksEngine PlacementStore PlacementCache PlacementRoute RaftLog RaftMachine.

(** ** Requests *)

Inductive KvRequest : Type :=
| KvSetReq (req : SetRequest)
| KvGetReq (key : bytes)
| KvDeleteReq (req : DeleteRequest)
| KvExistsReq (key : bytes)
| KvListShardReq (namespace : bytes)
| KvGetPrefixReq (prefix : bytes).
Inductive KvReply : Type :=
| KvDone
| KvValue (value : bytes)
| KvFlag (flag : bool)
| KvValues (values : list bytes).

(** [to_string] of the errors. *)
Class ErrorText : Type := {
  common_text : CommonError -> bytes;
  placement_text : PlacementCenterError -> bytes
}.

(** ** The service *)

Section service.
Context {D : Type} {RD : RocksDB D} {MP : MetaProst} {MJ : MetaJson} {RW : OpenRaft (D := D)} {ET : ErrorText}.
Abbreviation Node := (PlacementNode (D := D)).

(** An error is the text of the status. *)
Definition Grpc (A : Type) : Type := M Node bytes A.
Definition cancelled {A : Type} (m : Route A) : Grpc A := map_err placement_text m.
Definition local {A : Type} (m : M D CommonError A) : Grpc A :=
  fun n => let (r, d) := map_err common_text m (pn_db n) in
           (r, mkPlacementNode d (pn_cluster n) (pn_journal n) (pn_mqtt n) (pn_second n) (pn_millisecond n)).
Definition not_null {A : Type} (name value : bytes) (m : Grpc A) : Grpc A :=
  if bool_decide (value = []) then fail (common_text (ParameterCannotBeNull name)) else m.

Definition grpc_set (req : SetRequest) : Grpc KvReply :=
  if bool_decide (set_key req = []) || bool_decide (set_value req = [])
  then fail (common_text (ParameterCannotBeNull (lit "key or value")))
  else cancelled (client_write (mkStorageData KvSet (encode_to_vec req))) ;; ret KvDone.
(** A key that is not there is an empty value. *)
Definition grpc_get (key : bytes) : Grpc KvReply :=
  not_null (lit "key") key (let! o := local (kv_get key) in ret (KvValue (default [] o))).
Definition grpc_delete (req : DeleteRequest) : Grpc KvReply :=
  not_null (lit "key") (del_key req)
    (cancelled (client_write (mkStorageData KvDelete (encode_to_vec req))) ;; ret KvDone).
Definition grpc_exists (key : bytes) : Grpc KvReply :=
  not_null (lit "key") key (let! flag := local (kv_exists key) in ret (KvFlag flag)).
Definition grpc_list_shard (namespace : bytes) : Grpc KvReply :=
  not_null (lit "namespace") namespace
    (let! shards_info := local (kv_get_prefix (lit "/shard/" ++ namespace ++ lit "/")) in ret (KvValues shards_info)).
Definition grpc_get_prefix (prefix : bytes) : Grpc KvReply :=
  not_null (lit "prefix") prefix (let! values := local (kv_get_prefix prefix) in ret (KvValues values)).

Definition serve_kv (req : KvRequest) : Grpc KvReply :=
  match req with
  | KvSetReq req => grpc_set req
  | KvGetReq key => grpc_get key
  | KvDeleteReq req => grpc_delete req
  | KvExistsReq key => grpc_exists key
  | KvListShardReq namespace => grpc_list_shard namespace
  | KvGetPrefixReq prefix => grpc_get_prefix prefix
  end.
End service.

(** ** Clients *)

(** Connecting to an address and one call of a service, with the requests and
    the answers of the service. *)
Class Network (N Req Rep : Type) : Type := {
  net_connect : bytes -> M N CommonError unit;
  net_call : bytes -> Req -> M N CommonError Rep
}.

(** The leader that a node named, under the address it was asked at. *)
Record ClientPool (N : Type) : Type := mkClientPool { leader_addr_caches : gmap bytes bytes; cp_net : N }.
Arguments mkClientPool {N}.
Arguments leader_addr_caches {N}.
Arguments cp_net {N}.

Definition retry_times : nat := 0.

(** [s.contains(t)] for a text [t]. *)
Fixpoint contains_text (t s : bytes) : bool :=
  starts_with t s || match s with [] => false | _ :: s => contains_text t s end.
Fixpoint take_until (c : Z) (s : bytes) : bytes :=
  match s with [] => [] | x :: s => if x =? c then [] else x :: take_until c s end.

(** What the group of [rpc_addr: ([^}]+)] captures at the leftmost match. *)
Fixpoint forward_capture (s : bytes) : option bytes :=
  match s with
  | [] => None
  | _ :: s' =>
      let captured := take_until 125 (drop 10 s) in
      if starts_with (lit "rpc_addr: ") s && negb (bool_decide (captured = []))
      then Some captured else forward_capture s'
  end.
(** Backslashes, quotation marks and spaces are dropped. *)
Definition get_forward_addr (error_info : bytes) : option bytes :=
  List.filter (fun c => negb ((c =? 92) || (c =? 34) || (c =? 32))) <$> forward_capture error_info.

Section retry.
Context {N Req Rep : Type} {NW : Network N Req Rep} {ET : ErrorText}.
Definition Client (A : Type) : Type := M (ClientPool N) CommonError A.

Definition on_net {A : Type} (m : M N CommonError A) : Client A :=
  fun p => let (r, n) := m (cp_net p) in (r, mkClientPool (leader_addr_caches p) n).
Definition get_leader_addr (addr : bytes) : Client (option bytes) := fun p => (Ok (leader_addr_caches p !! addr), p).
Definition set_leader_addr (addr leader_addr : bytes) : Client unit :=
  fun p => (Ok tt, mkClientPool (<[addr := leader_addr]> (leader_addr_caches p)) (cp_net p)).
(** The result of a call as a value. *)
Definition attempt {A : Type} (m : Client A) : Client (CommonError + A) :=
  fun p => match m p with
           | (Ok a, p') => (Ok (inr a), p')
           | (Err e, p') => (Ok (inl e), p')
           | (Panic, p') => (Panic, p')
           | (OutOfFuel, p') => (OutOfFuel, p')
           end.

Definition not_found_leader : CommonError := CommonError_ (lit "Not found leader").

(** The loop of [retry_call]; a write request asks the leader that is known. *)
Fixpoint retry_loop (is_write_request : bool) (fuel : nat) (addrs : list bytes) (request : Req) (times : nat)
    (tried_addrs : gset bytes) : Client Rep :=
  match fuel with
  | O => out_of_fuel
  | S fuel =>
      let! addr := unwrap (addrs !! (times mod length addrs)%nat) in
      let! leader := get_leader_addr addr in
      let target_addr := if is_write_request then default addr leader else addr in
      let again tried_addrs :=
        if (retry_times <? times)%nat then fail not_found_leader
        else retry_loop is_write_request fuel addrs request (S times) tried_addrs in
      if bool_decide (target_addr ∈ tried_addrs) then again tried_addrs
      else
        on_net (net_connect target_addr) ;;
        let! reply := attempt (on_net (net_call target_addr request)) in
        match reply with
        | inr data => ret data
        | inl err =>
            if contains_text (lit "forward request to") (common_text err) then
              let tried_addrs := {[target_addr]} ∪ tried_addrs in
              match get_forward_addr (common_text err) with
              | Some leader_addr =>
                  set_leader_addr addr leader_addr ;;
                  if bool_decide (leader_addr ∈ tried_addrs) then again tried_addrs
                  else
                    let! connected := attempt (on_net (net_connect leader_addr)) in
                    match connected with
                    | inl _ => retry_loop is_write_request fuel addrs request times ({[leader_addr]} ∪ tried_addrs)
                    | inr _ =>
                        let! reply := attempt (on_net (net_call leader_addr request)) in
                        match reply with
                        | inr data => ret data
                        | inl _ => again ({[leader_addr]} ∪ tried_addrs)
                        end
                    end
              | None => again tried_addrs
              end
            else fail err
        end
  end.

Definition retry_fuel : nat := 3.
Definition retry_call (is_write_request : bool) (addrs : list bytes) (request : Req) : Client Rep :=
  if bool_decide (addrs = []) then fail (CommonError_ (lit "Call address list cannot be empty"))
  else retry_loop is_write_request retry_fuel addrs request 1 ∅.

End retry.

Section client.
Context {N : Type} {NW : Network N KvRequest KvReply} {ET : ErrorText}.

(** [placement/kv/call.rs]: every request of the service counts as a write
    request. *)
Definition placement_set (addrs : list bytes) (key value : bytes) : Client unit :=
  retry_call true addrs (KvSetReq (mkSetRequest key value)) ;; ret tt.
Definition placement_get (addrs : list bytes) (key : bytes) : Client bytes :=
  let! reply := retry_call true addrs (KvGetReq key) in
  ret (match reply with KvValue value => value | _ => [] end).
Definition placement_delete (addrs : list bytes) (key : bytes) : Client unit :=
  retry_call true addrs (KvDeleteReq (mkDeleteRequest key)) ;; ret tt.
Definition placement_exists (addrs : list bytes) (key : bytes) : Client bool :=
  let! reply := retry_call true addrs (KvExistsReq key) in
  ret (match reply with KvFlag flag => flag | _ => false end).
Definition placement_list_shard (addrs : list bytes) (namespace : bytes) : Client (list bytes) :=
  let! reply := retry_call true addrs (KvListShardReq namespace) in
  ret (match reply with KvValues values => values | _ => [] end).
Definition placement_get_prefix (addrs : list bytes) (prefix : bytes) : Client (list bytes) :=
  let! reply := retry_call true addrs (KvGetPrefixReq prefix) in
  ret (match reply with KvValues values => values | _ => [] end).
End client.
