(* ===== verification/PlacementAdapter.v ===== *)
(** * The storage adapter that keeps its records in the placement center

    [storage-adapter/src/placement/mod.rs]: the records, indexes and offsets of
    the RocksDB adapter, under the same keys, as values of the key-value
    service.  The adapter is written against [KvClient], the calls of
    [grpc-clients/src/placement/kv/call.rs]; [KvSpec] is what the service
    promises to it. *)

From Stdlib Require Import String.
From stdpp Require Import sorting.
From S2P Require Import Prelude Bytes RustStr Storage RocksEngine RocksStorage.

(** ** The service *)

Class KvClient (S : Type) : Type := {
  kvc_set : bytes -> bytes -> M S CommonError unit;
  kvc_get : bytes -> M S CommonError bytes;
  kvc_delete : bytes -> M S CommonError unit;
  kvc_get_prefix : bytes -> M S CommonError (list bytes)
}.

(** The keys of the adapter, by their first octets. *)
Definition adapter_key (k : bytes) : bool :=
  bool_decide (kind k ∈ [lit "/rec"; lit "/off"; lit "/key"; lit "/tag"; lit "/gro"; lit "/sha"]).

(** A client that can reach the service: what it set it gets, a key that is not
    there has no value, and a prefix is answered with the values of its keys in
    the order of the keys. *)
Class KvSpec (S : Type) {KC : KvClient S} : Type := {
  kv_map : S -> gmap bytes bytes;
  kv_ok : S -> Prop;
  kvs_set s k v :
    kv_ok s -> adapter_key k = true -> v <> [] ->
    exists s', kvc_set k v s = (Ok tt, s') /\ kv_ok s' /\ kv_map s' = <[k := v]> (kv_map s);
  kvs_get s k :
    kv_ok s -> adapter_key k = true -> kvc_get k s = (Ok (default [] (kv_map s !! k)), s);
  kvs_delete s k :
    kv_ok s -> adapter_key k = true ->
    exists s', kvc_delete k s = (Ok tt, s') /\ kv_ok s' /\ kv_map s' = delete k (kv_map s);
  kvs_get_prefix s p :
    kv_ok s -> (forall k, starts_with p k = true -> adapter_key k = true) ->
    exists l, kvc_get_prefix p s = (Ok l.*2, s) /\ StronglySorted key_lt l /\
      forall kv, kv ∈ l <-> kv_map s !! kv.1 = Some kv.2 /\ starts_with p kv.1 = true
}.

(** ** The adapter *)

(** The text of the error of [parse::<u64>()]. *)
Fixpoint digits_error (s : bytes) (acc : Z) : bytes :=
  match s with
  | [] => []
  | d :: s =>
      if (48 <=? d) && (d <=? 57) then
        let acc := acc * 10 + (d - 48) in
        if acc <? 2 ^ 64 then digits_error s acc else lit "number too large to fit in target type"
      else lit "invalid digit found in string"
  end.
Definition parse_error (s : bytes) : bytes :=
  match s with
  | [] => lit "cannot parse integer from empty string"
  | c :: s' => if (c =? 43) && negb (bool_decide (s' = [])) then digits_error s' 0 else digits_error s 0
  end.

Section adapter.
Context {S : Type} {KC : KvClient S} {MI : MapIter} {JZ : Json Z} {JR : Json MsgRecord} {JI : Json ShardInfo}.

Record PlacementStorageAdapter : Type := mkPlacementAdapter {
  pa_client : S;
  pa_write_handles : gmap bytes ThreadWriteHandle
}.
Definition P (A : Type) : Type := M PlacementStorageAdapter CommonError A.
Definition on_client {A : Type} (m : M S CommonError A) : P A :=
  fun s => let (r, c) := m (pa_client s) in (r, mkPlacementAdapter c (pa_write_handles s)).

(** [serde_json::to_string(&v)?] and [serde_json::from_str(&s)?]. *)
Definition to_string {A : Type} {J : Json A} (a : A) : M S CommonError bytes :=
  match to_vec a with inr s => ret s | inl e => fail (FromSerdeJsonError e) end.
Definition from_str {A : Type} {J : Json A} (s : bytes) : M S CommonError A :=
  match from_slice s with inr a => ret a | inl e => fail (FromSerdeJsonError e) end.
Definition set_json {A : Type} {J : Json A} (key : bytes) (a : A) : M S CommonError unit :=
  let! value := to_string a in kvc_set key value.

(** ** Writing *)

Fixpoint pa_batch_write_loop (ns sh : bytes) (messages : list MsgRecord) (start_offset : Z)
    (offset_res : list Z) : M S CommonError (list Z * Z) :=
  match messages with
  | [] => ret (offset_res, start_offset)
  | msg :: messages =>
      let msg := set_offset start_offset msg in
      set_json (shard_record_key ns sh start_offset) msg ;;
      (if negb (bool_decide (r_key msg = [])) then set_json (key_offset_key ns sh (r_key msg)) start_offset
       else ret tt) ;;
      for_each (r_tags msg) (fun tag => set_json (tag_offsets_key ns sh tag start_offset) start_offset) ;;
      pa_batch_write_loop ns sh messages (wrap64 (start_offset + 1)) (offset_res ++ [start_offset])
  end.

Definition pa_thread_batch_write (ns sh : bytes) (messages : list MsgRecord) : M S CommonError (list Z) :=
  let! value := kvc_get (shard_offset_key ns sh) in
  let! start_offset := ok_or (parse_u64 value) (FromParseIntError (parse_error value)) in
  let! (offset_res, start_offset) := pa_batch_write_loop ns sh messages start_offset [] in
  set_json (shard_offset_key ns sh) start_offset ;;
  ret offset_res.

Definition pa_create_write_thread (ns sh : bytes) : P unit :=
  fun s => (Ok tt, mkPlacementAdapter (pa_client s)
                     (<[write_handle_key ns sh := mkThreadWriteHandle true]> (pa_write_handles s))).
Definition pa_get_write_handle (ns sh : bytes) : P ThreadWriteHandle :=
  let handle_key := write_handle_key ns sh in
  let! s := get in
  (if is_none (pa_write_handles s !! handle_key) then pa_create_write_thread ns sh else ret tt) ;;
  let! s := get in
  unwrap (pa_write_handles s !! handle_key).
Definition pa_handle_write_request (ns sh : bytes) (messages : list MsgRecord) : P (list Z) :=
  let! write_handle := pa_get_write_handle ns sh in
  if th_running write_handle then on_client (pa_thread_batch_write ns sh messages)
  else fail (CommonError_ (lit "Failed to send data to write thread: channel closed")).

(** ** The trait *)

Definition pa_create_shard (shard : ShardInfo) : P unit :=
  let ns := si_namespace shard in
  let sh := si_shard_name shard in
  on_client
    (let! value := kvc_get (shard_offset_key ns sh) in
     if negb (bool_decide (value = [])) then
       fail (CommonError_ (lit "shard " ++ sh ++ lit " under namespace " ++ ns ++ lit " already exists"))
     else
       set_json (shard_offset_key ns sh) (0 : Z) ;;
       set_json (shard_info_key ns sh) shard).

Definition pa_list_shard (ns sh : bytes) : P (list ShardInfo) :=
  fail (NotSupportFeature (lit "PlacementStorageAdapter") (lit "list_shard")).

Definition pa_delete_shard (ns sh : bytes) : P unit :=
  on_client
    (let! value := kvc_get (shard_offset_key ns sh) in
     if bool_decide (value = []) then
       fail (CommonError_ (lit "shard " ++ sh ++ lit " under namespace " ++ ns ++ lit " not exists"))
     else kvc_delete (shard_offset_key ns sh)).

Definition pa_write (ns sh : bytes) (message : MsgRecord) : P Z :=
  let! offsets := pa_handle_write_request ns sh [message] in
  unwrap (head offsets).
Definition pa_batch_write (ns sh : bytes) (messages : list MsgRecord) : P (list Z) :=
  pa_handle_write_request ns sh messages.

(** [for i in offset..end], left at the first offset without a record and when
    the next record would exceed [max_size]. *)
Fixpoint pa_read_offset_loop (ns sh : bytes) (max_size : Z) (n : nat) (i total_size : Z)
  : M S CommonError (list MsgRecord) :=
  match n with
  | O => ret []
  | Datatypes.S n =>
      let! value := kvc_get (shard_record_key ns sh i) in
      if bool_decide (value = []) then ret []
      else if max_size <? blen value + total_size then ret []
      else
        let! r := from_str value in
        let! records := pa_read_offset_loop ns sh max_size n (i + 1) (total_size + blen value) in
        ret (r :: records)
  end.
Definition pa_read_by_offset (ns sh : bytes) (offset : Z) (config : ReadConfig) : P (list MsgRecord) :=
  on_client (pa_read_offset_loop ns sh (max_size config)
               (Z.to_nat (wrap64 (offset + max_record_num config) - offset)) offset 0).

Fixpoint pa_tag_offsets_loop (start_offset limit : Z) (values : list bytes) (offsets : list Z)
  : M S CommonError (list Z) :=
  match values with
  | [] => ret offsets
  | val :: values =>
      let! record_offset := from_str val in
      if (start_offset <=? record_offset) && (blen offsets <? limit)
      then pa_tag_offsets_loop start_offset limit values (offsets ++ [record_offset])
      else pa_tag_offsets_loop start_offset limit values offsets
  end.
Definition record_not_found (offset : Z) : CommonError :=
  CommonError_ (lit "Internal state error: Record not found for offset " ++ decimal offset).
Fixpoint pa_read_records (ns sh : bytes) (max_size : Z) (offsets : list Z) (total_size : Z)
  : M S CommonError (list MsgRecord) :=
  match offsets with
  | [] => ret []
  | offset :: offsets =>
      let! value := kvc_get (shard_record_key ns sh offset) in
      if bool_decide (value = []) then fail (record_not_found offset)
      else if max_size <? blen value + total_size then ret []
      else
        let! r := from_str value in
        let! records := pa_read_records ns sh max_size offsets (total_size + blen value) in
        ret (r :: records)
  end.
Definition pa_read_by_tag (ns sh : bytes) (start_offset : Z) (tag : bytes) (config : ReadConfig)
  : P (list MsgRecord) :=
  on_client
    (let! values := kvc_get_prefix (tag_offsets_key_prefix ns sh tag) in
     let! offsets := pa_tag_offsets_loop start_offset (max_record_num config) values [] in
     pa_read_records ns sh (max_size config) offsets 0).

(** A key that no record has is an error of the parser. *)
Definition pa_read_by_key (ns sh : bytes) (start_offset : Z) (key : bytes) (config : ReadConfig)
  : P (list MsgRecord) :=
  on_client
    (let! value := kvc_get (key_offset_key ns sh key) in
     let! offset := from_str value in
     if (offset <? start_offset) || (max_record_num config <? 1) then ret []
     else
       let! value := kvc_get (shard_record_key ns sh offset) in
       if bool_decide (value = []) then fail (record_not_found offset)
       else if max_size config <? blen value then ret []
       else let! record := from_str value in ret [record]).

Fixpoint pa_timestamp_loop (timestamp : Z) (values : list bytes) : M S CommonError (option ShardOffset) :=
  match values with
  | [] => ret None
  | v :: values =>
      let! record := from_str v in
      if timestamp <=? r_timestamp record then
        let! offset := ok_or (r_offset record) (CommonError_ (lit "Record offset is None")) in
        ret (Some (default_offset offset))
      else pa_timestamp_loop timestamp values
  end.
Definition pa_get_offset_by_timestamp (ns sh : bytes) (timestamp : Z) : P (option ShardOffset) :=
  on_client
    (let! values := kvc_get_prefix (shard_record_key_prefix ns sh) in
     pa_timestamp_loop timestamp values).

Fixpoint pa_group_offsets_loop (values : list bytes) : M S CommonError (list ShardOffset) :=
  match values with
  | [] => ret []
  | v :: values =>
      let! offset := from_str v in
      let! offsets := pa_group_offsets_loop values in
      ret (default_offset offset :: offsets)
  end.
Definition pa_get_offset_by_group (group_name : bytes) : P (list ShardOffset) :=
  on_client
    (let! values := kvc_get_prefix (group_record_offsets_key_prefix group_name) in
     pa_group_offsets_loop values).

Definition pa_commit_offset (group_name ns : bytes) (offsets : gmap bytes Z) : P unit :=
  on_client (for_each (map_iter offsets) (fun kv => set_json (group_record_offsets_key group_name ns kv.1) kv.2)).

Fixpoint pa_close_loop (handles : list (bytes * ThreadWriteHandle)) : P unit :=
  match handles with
  | [] => ret tt
  | (key, handle) :: handles =>
      if th_running handle then
        (fun s => (Ok tt, mkPlacementAdapter (pa_client s)
                            (<[key := mkThreadWriteHandle false]> (pa_write_handles s)))) ;;
        pa_close_loop handles
      else fail (TokioBroadcastSendErrorBool (lit "channel closed"))
  end.
Definition pa_close : P unit := let! s := get in pa_close_loop (map_iter (pa_write_handles s)).

#[export] Instance PlacementStorage_adapter : StorageAdapter PlacementStorageAdapter := {|
  create_shard := pa_create_shard;
  list_shard := pa_list_shard;
  delete_shard := pa_delete_shard;
  write := pa_write;
  batch_write := pa_batch_write;
  read_by_offset := pa_read_by_offset;
  read_by_tag := pa_read_by_tag;
  read_by_key := pa_read_by_key;
  get_offset_by_timestamp := pa_get_offset_by_timestamp;
  get_offset_by_group := pa_get_offset_by_group;
  commit_offset := pa_commit_offset;
  close := pa_close
|}.
End adapter.
Arguments PlacementStorageAdapter : clear implicits.
