(* ===== verification/PlacementRefine.v ===== *)
(** * The placement adapter follows the RocksDB adapter

    Both adapters keep the same values under the same keys, so the runs of one
    are those of the other: [store_sim] relates a client of the key-value
    service to a database with the same contents, and every operation keeps it
    ([follows]).  What the RocksDB adapter guarantees then holds of this
    adapter, up to the limit on the size of a read. *)

From Stdlib Require Import String.
From stdpp Require Import sorting.
From S2P Require Import Prelude Bytes RustStr Storage RocksEngine RocksStorage RocksRefine PlacementAdapter.

(** ** Two runs with the same results *)

(** The same value, which satisfies [Q], or an error in both. *)
Definition same_result {E A : Type} (Q : A -> Prop) (r1 r2 : outcome E A) : Prop :=
  match r1, r2 with
  | Ok a, Ok b => a = b /\ Q a
  | Err _, Err _ | Panic, Panic | OutOfFuel, OutOfFuel => True
  | _, _ => False
  end.

Definition follows {S1 S2 E A : Type} (Rel : S1 -> S2 -> Prop) (Q : A -> Prop) (m1 : M S1 E A) (m2 : M S2 E A) : Prop :=
  forall s1 s2, Rel s1 s2 -> same_result Q (m1 s1).1 (m2 s2).1 /\ Rel (m1 s1).2 (m2 s2).2.

Abbreviation anything := (fun _ => True).

Section follows.
Context {S1 S2 E : Type} {Rel : S1 -> S2 -> Prop}.

Lemma follows_ret {A} (Q : A -> Prop) (a : A) : Q a -> follows Rel Q (ret (E := E) a) (ret a).
Proof. intros Ha s1 s2 H. done. Qed.
Lemma follows_fail {A} (Q : A -> Prop) (e e' : E) : follows Rel Q (fail e) (fail e').
Proof. intros s1 s2 H. done. Qed.
Lemma follows_unwrap {A} (o : option A) : follows Rel anything (unwrap (E := E) o) (unwrap o).
Proof. intros s1 s2 H. by destruct o. Qed.
Lemma follows_bind {A B} (Q : A -> Prop) (Q' : B -> Prop) (m1 : M S1 E A) (m2 : M S2 E A)
    (k1 : A -> M S1 E B) (k2 : A -> M S2 E B) :
  follows Rel Q m1 m2 -> (forall a, Q a -> follows Rel Q' (k1 a) (k2 a)) -> follows Rel Q' (bind m1 k1) (bind m2 k2).
Proof.
  intros Hm Hk s1 s2 H. destruct (Hm s1 s2 H) as [E1 H1]. unfold bind.
  destruct (m1 s1) as [r1 t1], (m2 s2) as [r2 t2]. cbn [fst snd] in E1, H1.
  destruct r1 as [a| | |], r2 as [b| | |]; cbn in E1; try done. destruct E1 as [<- Ha]. by apply Hk.
Qed.
Lemma follows_for_each {A} (l : list A) (f1 : A -> M S1 E unit) (f2 : A -> M S2 E unit) :
  (forall a, a ∈ l -> follows Rel anything (f1 a) (f2 a)) -> follows Rel anything (for_each l f1) (for_each l f2).
Proof.
  induction l as [|x l IH]; intros Hf; cbn [for_each]; [by apply follows_ret|].
  eapply follows_bind; [apply Hf; by left|]. intros _ _. apply IH. intros a Ha. apply Hf. by right.
Qed.
Lemma follows_mono {A} (Q Q' : A -> Prop) (m1 : M S1 E A) (m2 : M S2 E A) :
  (forall a, Q a -> Q' a) -> follows Rel Q m1 m2 -> follows Rel Q' m1 m2.
Proof.
  intros HQ Hm s1 s2 H. destruct (Hm s1 s2 H) as [E1 H1]. split; [|done].
  unfold same_result in *. repeat case_match; naive_solver.
Qed.
End follows.

(** [u64] in JSON is its decimal digits. *)
Class JsonDigits {JZ : Json Z} : Prop := { json_u64 n : u64 n -> json n = decimal n }.

Section simulation.
Context {S : Type} {KC : KvClient S} {KS : KvSpec S} {D : Type} {RD : RocksDB D} {RS : RocksSpec D} {RR : RocksReliable D}
        {MI : MapIter} {MS : MapIterSpec MI}
        {JZ : Json Z} {JB : Json bytes} {JR : Json MsgRecord} {JI : Json ShardInfo}
        {JZS : JsonSpec Z} {JBS : JsonSpec bytes} {JRS : JsonSpec MsgRecord} {JIS : JsonSpec ShardInfo} {JD : JsonDigits}.
Implicit Types (c : S) (d : D) (k v : bytes) (a : LogSpec).
Abbreviation PA := (PlacementStorageAdapter S).
Abbreviation RA := (RocksDBStorageAdapter (D := D)).

(** The same contents, the descriptions of shards apart; the next offsets are
    numbers. *)
Definition store_sim c d : Prop :=
  kv_ok c /\ db_open d /\
  (forall k, adapter_key k = true -> kind k <> lit "/sha" -> db_contents d !! k = kv_map c !! k) /\
  (forall k v, kind k = lit "/off" -> kv_map c !! k = Some v -> exists n, u64 n /\ v = json n).

Definition adapter_sim (s : PA) (r : RA) : Prop :=
  store_sim (pa_client s) (rk_db r) /\ pa_write_handles s = rk_write_handles r.

Lemma kind_adapter_key k k' : kind k = kind k' -> adapter_key k = adapter_key k'.
Proof. unfold adapter_key. by intros ->. Qed.

(** ** Single calls *)

Lemma set_json_ok {A} {J : Json A} {JS : JsonSpec A} c k (x : A) :
  kv_ok c -> adapter_key k = true ->
  exists c', set_json k x c = (Ok tt, c') /\ kv_ok c' /\ kv_map c' = <[k := json x]> (kv_map c).
Proof.
  intros Hc Hk. destruct (json_ok x) as (E & Hne & _). destruct (kvs_set c k (json x) Hc Hk Hne) as (c' & E1 & H1 & H2).
  exists c'. unfold set_json, to_string. rewrite E. by rewrite (bind_ok _ _ _ (json x) c).
Qed.

Lemma set_follows {A} {J : Json A} {JS : JsonSpec A} k (x : A) :
  adapter_key k = true -> kind k <> lit "/sha" -> (kind k = lit "/off" -> exists n, u64 n /\ json x = json n) ->
  follows store_sim anything (set_json k x) (engine_write DB_COLUMN_FAMILY k x).
Proof.
  intros Hk Hsha Hoff c d (Hc & Ho & Heq & Hnum).
  destruct (set_json_ok c k x Hc Hk) as (c' & E1 & Hc' & Hm).
  destruct (engine_write_ok DB_COLUMN_FAMILY k x d Ho) as (d' & E2 & Hh & Hd & _).
  rewrite E1, E2. split; [done|]. cbn [snd]. split_and!; [done|by unfold db_open; rewrite Hh|..].
  - intros k' Hk' Hs'. unfold db_contents in *. rewrite Hd, Hm.
    destruct (decide (k = k')) as [<-|Hn]; [by rewrite !lookup_insert_eq|]. by rewrite !lookup_insert_ne, Heq.
  - intros k' v Hk'. rewrite Hm. intros [[<- <-]|[_ Hv]]%lookup_insert_Some; [by apply Hoff|by eapply Hnum].
Qed.

(** The description of a shard is encoded once here and twice there. *)
Lemma info_follows k (x : ShardInfo) :
  kind k = lit "/sha" ->
  follows store_sim anything (set_json k x)
    (match to_vec x with inr info => engine_write DB_COLUMN_FAMILY k info | inl e => fail (FromSerdeJsonError e) end).
Proof.
  intros Hk c d (Hc & Ho & Heq & Hnum). destruct (json_ok x) as (-> & _ & _).
  destruct (set_json_ok c k x Hc) as (c' & E1 & Hc' & Hm); [by apply (kind_adapter_key k (lit "/sha"))|].
  destruct (engine_write_ok DB_COLUMN_FAMILY k (json x) d Ho) as (d' & E2 & Hh & Hd & _).
  rewrite E1, E2. split; [done|]. cbn [snd]. split_and!; [done|by unfold db_open; rewrite Hh|..].
  - intros k' Hk' Hs'. unfold db_contents in *. rewrite Hd, Hm. rewrite !lookup_insert_ne by congruence. by apply Heq.
  - intros k' v Hk'. rewrite Hm, lookup_insert_ne by (intros ->; by rewrite Hk in Hk'). apply Hnum, Hk'.
Qed.

(** The next offset of a shard. *)
Lemma offset_read c d ns sh :
  store_sim c d ->
  exists o, kvc_get (shard_offset_key ns sh) c = (Ok (default [] (json <$> o)), c) /\
            engine_read DB_COLUMN_FAMILY (shard_offset_key ns sh) d = (Ok o, d) /\
            forall n, o = Some n -> u64 n.
Proof.
  intros (Hc & Ho & Heq & Hnum).
  assert (adapter_key (shard_offset_key ns sh) = true) as Hk by done.
  specialize (Heq _ Hk ltac:(done)). specialize (Hnum (shard_offset_key ns sh)).
  rewrite (kvs_get c _ Hc Hk). destruct (kv_map c !! shard_offset_key ns sh) as [v|].
  - destruct (Hnum v eq_refl eq_refl) as (n & Hn & ->). exists (Some n). split_and!; [done|by apply engine_read_ok|].
    by intros ? [= <-].
  - exists None. split_and!; [done|by apply engine_read_ok|done].
Qed.

(** A scan finds the same values. *)
Lemma prefix_read c d p l :
  store_sim c d -> adapter_key p = true -> kind p <> lit "/sha" -> length (kind p) = 4%nat ->
  engine_read_prefix DB_COLUMN_FAMILY p d = (Ok l, d) -> kvc_get_prefix p c = (Ok l.*2, c).
Proof.
  intros (Hc & Ho & Heq & _) Hp Hsha Hlen E.
  assert (forall k, starts_with p k = true -> kind k = kind p) as Hkind.
  { intros k [t ->]%starts_with_inv. unfold kind in *. rewrite length_take in Hlen. by rewrite take_app_le by lia. }
  assert (forall k, starts_with p k = true -> contents d DB_COLUMN_FAMILY !! k = kv_map c !! k) as Hsame.
  { intros k Hk%Hkind. apply Heq; [by rewrite (kind_adapter_key k p)|by rewrite Hk]. }
  destruct (kvs_get_prefix c p Hc) as (l1 & -> & Hs1 & H1).
  { intros k Hk. by rewrite (kind_adapter_key k p) by auto. }
  destruct (engine_read_prefix_ok DB_COLUMN_FAMILY p d) as (l2 & E2 & Hs2 & H2). rewrite E in E2. injection E2 as <-.
  do 3 f_equal. apply scan_eq; [done|done|]. intros [k v]. rewrite H1, H2. cbn [fst snd].
  split; intros [Hk Hst]; (split; [|done]); [by rewrite Hsame|by rewrite <- Hsame].
Qed.

(** ** Operations that write *)

Lemma u64_wrap n : u64 (wrap64 n).
Proof. apply Z.mod_pos_bound. lia. Qed.

Lemma batch_loop_follows ns sh ms start acc :
  u64 start -> follows store_sim (fun x => u64 x.2) (pa_batch_write_loop ns sh ms start acc) (batch_write_loop ns sh ms start acc).
Proof.
  revert start acc. induction ms as [|m ms IH]; intros start acc Hn; cbn [pa_batch_write_loop batch_write_loop].
  { by apply follows_ret. }
  eapply (follows_bind anything); [by apply set_follows|intros _ _].
  eapply (follows_bind anything); [case_match; [by apply set_follows|by apply follows_ret]|intros _ _].
  eapply (follows_bind anything); [apply follows_for_each; intros tag _; by apply set_follows|intros _ _].
  apply IH, u64_wrap.
Qed.

Lemma parse_json n : u64 n -> parse_u64 (json n) = Some n.
Proof. intros Hn. rewrite json_u64 by done. by apply parse_u64_decimal. Qed.

Lemma thread_write_follows ns sh ms :
  follows store_sim anything (pa_thread_batch_write ns sh ms) (thread_batch_write ns sh ms).
Proof.
  intros c d Hs. destruct (offset_read c d ns sh Hs) as (o & E1 & E2 & Ho).
  unfold pa_thread_batch_write, thread_batch_write, unwrap_cf. rewrite (bind_ok _ _ _ _ _ E1).
  rewrite (bind_ok _ _ d tt d) by (pose proof (proj1 (proj2 Hs)) as Hd; unfold db_open in Hd; by rewrite Hd).
  rewrite (bind_ok _ _ _ _ _ E2). destruct o as [n|]; cbn [fmap option_fmap option_map default]; [|by split].
  unfold id. rewrite parse_json by auto. unfold ok_or. rewrite (bind_ok _ _ c n c) by done.
  revert c d Hs E1 E2.
  cut (follows store_sim anything
    (let! (offset_res, start_offset) := pa_batch_write_loop ns sh ms n [] in
     set_json (shard_offset_key ns sh) start_offset ;; ret offset_res)
    (let! (offset_res, start_offset) := batch_write_loop ns sh ms n [] in
     engine_write DB_COLUMN_FAMILY (shard_offset_key ns sh) start_offset ;; ret offset_res)); [by intros H c d Hs _ _; apply H|].
  eapply follows_bind; [by apply batch_loop_follows, Ho|]. intros [offs next] Hn.
  eapply (follows_bind anything); [apply set_follows; [done|done|by eexists]|]. intros _ _. by apply follows_ret.
Qed.

Lemma on_store_follows {A} (Q : A -> Prop) (m1 : M S CommonError A) (m2 : M D CommonError A) :
  follows store_sim Q m1 m2 -> follows adapter_sim Q (on_client m1) (on_db m2).
Proof.
  intros Hm s r [Hs Hh]. destruct (Hm _ _ Hs) as [Hres Hs']. unfold on_client, on_db.
  destruct (m1 (pa_client s)) as [r1 c'], (m2 (rk_db r)) as [r2 d']. by split.
Qed.

Lemma open_follows {A} (Q : A -> Prop) (m1 : M S CommonError A) (m2 : M D CommonError A) :
  follows store_sim Q m1 m2 -> follows store_sim Q m1 (unwrap_cf ;; m2).
Proof.
  intros Hm c d Hs. rewrite (bind_ok _ _ d tt d); [by apply Hm|]. unfold unwrap_cf.
  pose proof (proj1 (proj2 Hs)) as Hd. unfold db_open in Hd. by rewrite Hd.
Qed.

Lemma handle_follows ns sh ms : follows adapter_sim anything (pa_handle_write_request ns sh ms) (handle_write_request ns sh ms).
Proof.
  apply (follows_bind anything).
  - intros s r [Hs Hh]. unfold pa_get_write_handle, get_write_handle, bind, get. rewrite Hh.
    destruct (rk_write_handles r !! write_handle_key ns sh) eqn:E; cbn [is_none is_some negb ret]; unfold ret.
    + rewrite Hh, E. by split.
    + unfold pa_create_write_thread, create_write_thread. cbn [pa_write_handles rk_write_handles]. rewrite Hh, lookup_insert_eq.
      by split.
  - intros h _. destruct (th_running h); [apply on_store_follows, thread_write_follows|apply follows_fail].
Qed.

Lemma create_follows info : follows adapter_sim anything (pa_create_shard info) (rocks_create_shard info).
Proof.
  apply on_store_follows, open_follows. intros c d Hs.
  destruct (offset_read c d (si_namespace info) (si_shard_name info) Hs) as (o & E1 & E2 & Ho).
  rewrite (bind_ok _ _ _ _ _ E1), (bind_ok _ _ _ _ _ E2). destruct o as [n|]; cbn [fmap option_fmap option_map default is_some].
  - unfold id. destruct (json_ok n) as (_ & Hne & _). rewrite bool_decide_eq_false_2 by done. by split.
  - rewrite bool_decide_eq_true_2 by done. cbn [negb]. revert c d Hs E1 E2.
    match goal with |- forall c d, _ -> _ -> _ -> same_result _ (?m1 c).1 (?m2 d).1 /\ _ =>
      cut (follows store_sim anything m1 m2); [by intros H c d Hs _ _; apply H|] end.
    eapply (follows_bind anything); [apply set_follows; [done|done|]|].
    + intros _. exists 0. by split.
    + intros _ _. by apply info_follows.
Qed.

Lemma commit_follows g ns offs : follows adapter_sim anything (pa_commit_offset g ns offs) (rocks_commit_offset g ns offs).
Proof.
  apply on_store_follows, open_follows, follows_for_each. intros kv _. by apply set_follows.
Qed.

Lemma delete_follows ns sh : follows adapter_sim anything (pa_delete_shard ns sh) (rocks_delete_shard ns sh).
Proof.
  apply on_store_follows, open_follows. intros c d Hs. destruct (offset_read c d ns sh Hs) as (o & E1 & E2 & Ho).
  rewrite (bind_ok _ _ _ _ _ E1), (bind_ok _ _ _ _ _ E2).
  destruct o as [n|]; cbn [fmap option_fmap option_map default is_none is_some negb]; [|by split].
  unfold id. destruct (json_ok n) as (_ & Hne & _). rewrite bool_decide_eq_false_2 by done.
  destruct Hs as (Hc & Hd & Heq & Hnum).
  destruct (kvs_delete c (shard_offset_key ns sh) Hc eq_refl) as (c' & -> & Hc' & Hm).
  destruct (engine_delete_ok DB_COLUMN_FAMILY (shard_offset_key ns sh) d Hd) as (d' & -> & Hh & Hk & _).
  split; [done|]. cbn [snd]. split_and!; [done|by unfold db_open; rewrite Hh|..].
  - intros k Hk1 Hk2. unfold db_contents in *. rewrite Hk, Hm.
    destruct (decide (shard_offset_key ns sh = k)) as [<-|Hn]; [by rewrite !lookup_delete_eq|].
    by rewrite !lookup_delete_ne, Heq.
  - intros k v Hk1. rewrite Hm. intros [_ Hv]%lookup_delete_Some. by eapply Hnum.
Qed.

Lemma op_follows o : follows adapter_sim anything (op_offsets o) (op_offsets o).
Proof.
  destruct o as [info|ns sh|ns sh m|ns sh ms|g ns offs]; cbn [op_offsets].
  - eapply (follows_bind anything); [apply create_follows|]. intros _ _. by apply follows_ret.
  - eapply (follows_bind anything); [apply delete_follows|]. intros _ _. by apply follows_ret.
  - eapply (follows_bind anything); [|intros n _; by apply follows_ret].
    eapply (follows_bind anything); [apply handle_follows|]. intros offs _. apply follows_unwrap.
  - apply handle_follows.
  - eapply (follows_bind anything); [apply commit_follows|]. intros _ _. by apply follows_ret.
Qed.

Lemma attempt_follows ops s r :
  Forall op_named ops -> adapter_sim s r ->
  adapter_sim (attempt_all ops s).2 (attempt_all ops r).2 /\
  Forall2 (fun x y => x.1 = y.1 /\ same_result anything x.2 y.2) (attempt_all ops s).1 (attempt_all ops r).1.
Proof.
  intros Hops. revert s r. induction Hops as [|o ops [_ Ho] Hops IH]; intros s r Hs; [by split|]. cbn [attempt_all].
  destruct (op_follows o s r Hs) as [Hr1 Hs1].
  destruct (op_offsets o s) as [r1 s1], (op_offsets o r) as [r2 s2]. cbn [fst snd] in *.
  destruct (IH s1 s2 Hs1) as [Hs2 Ht]. destruct (attempt_all ops s1), (attempt_all ops s2). cbn [fst snd] in *.
  split; [done|]. by constructor.
Qed.

(** ** Reading *)

(** The records that fit: from the first on, as long as their texts take no
    more than [max] octets. *)
Fixpoint fitting (max total : Z) (rs : list MsgRecord) : list MsgRecord :=
  match rs with
  | [] => []
  | r :: rs => if max <? blen (json r) + total then [] else r :: fitting max (total + blen (json r)) rs
  end.

Lemma from_str_json {A} {J : Json A} {JS : JsonSpec A} (x : A) c : from_str (json x) c = (Ok x, c).
Proof. unfold from_str. by destruct (json_ok x) as (_ & _ & ->). Qed.

Lemma get_record c d a ns sh (i : nat) :
  store_sim c d -> logs_recorded d a -> no_slash ns -> Z.of_nat i < 2 ^ 64 ->
  kvc_get (shard_record_key ns sh (Z.of_nat i)) c = (Ok (default [] (json <$> log_of a ns sh !! i)), c).
Proof.
  intros (Hc & _ & Heq & _) [_ Ha] Hns Hlt. rewrite kvs_get by done. rewrite <- Heq by done.
  destruct (Ha ns sh Hns) as (Hr & Hend). destruct (log_of a ns sh !! i) as [r|] eqn:Hi; [by rewrite (Hr i r Hi)|].
  rewrite Hend; [done|]. apply lookup_ge_None in Hi. unfold blen. lia.
Qed.

Lemma read_loop_fitting ns sh c d a max n (i : nat) total :
  store_sim c d -> logs_recorded d a -> no_slash ns -> Z.of_nat i + Z.of_nat n <= 2 ^ 64 ->
  pa_read_offset_loop ns sh max n (Z.of_nat i) total c = (Ok (fitting max total (take n (drop i (log_of a ns sh)))), c).
Proof.
  intros Hs Ha Hns. revert i total. induction n as [|n IH]; intros i total Hn; cbn [pa_read_offset_loop]; [done|].
  rewrite (bind_ok _ _ _ _ _ (get_record c d a ns sh i Hs Ha Hns ltac:(lia))).
  destruct (log_of a ns sh !! i) as [r|] eqn:Hi; cbn [fmap option_fmap option_map default].
  - unfold id. destruct (json_ok r) as (_ & Hne & _). rewrite bool_decide_eq_false_2 by done.
    rewrite (drop_S _ r) by done. cbn [take firstn fitting]. destruct (max <? blen (json r) + total); [done|].
    rewrite (bind_ok _ _ _ _ _ (from_str_json r c)). replace (Z.of_nat i + 1) with (Z.of_nat (Datatypes.S i)) by lia.
    by rewrite (bind_ok _ _ _ _ _ (IH (Datatypes.S i) _ ltac:(lia))).
  - rewrite bool_decide_eq_true_2 by done. rewrite drop_ge by by apply lookup_ge_None. by rewrite take_nil.
Qed.

Lemma on_client_read {A} (m : M S CommonError A) (s : PA) x :
  m (pa_client s) = (Ok x, pa_client s) -> on_client m s = (Ok x, s).
Proof. intros E. unfold on_client. rewrite E. by destruct s. Qed.

Lemma read_by_offset_fitting s r a ns sh offset config :
  adapter_sim s r -> logs_recorded (rk_db r) a -> no_slash ns ->
  0 <= offset -> 0 <= max_record_num config -> offset + max_record_num config < 2 ^ 64 ->
  pa_read_by_offset ns sh offset config s
  = (Ok (fitting (max_size config) 0 (take (Z.to_nat (max_record_num config)) (drop (Z.to_nat offset) (log_of a ns sh)))), s).
Proof.
  intros [Hs _] Ha Hns H0 H1 H2. apply on_client_read. rewrite wrap64_small by lia.
  replace (offset + max_record_num config - offset) with (max_record_num config) by lia.
  rewrite <- (Z2Nat.id offset) at 1 by done. by apply (read_loop_fitting _ _ _ (rk_db r)); eauto; lia.
Qed.

Lemma tag_loop_same offset limit l acc c d :
  pa_tag_offsets_loop offset limit l.*2 acc c = ((tag_offsets_loop offset limit l acc d).1, c).
Proof.
  revert acc. induction l as [|[k v] l IH]; intros acc; [done|].
  cbn [fmap list_fmap map snd pa_tag_offsets_loop tag_offsets_loop]. unfold from_str, bind.
  destruct (from_slice v) as [e|z]; [done|]. cbn [ret]. unfold ret. by case_match.
Qed.
Lemma timestamp_loop_same timestamp l c d : pa_timestamp_loop timestamp l.*2 c = ((timestamp_loop timestamp l d).1, c).
Proof.
  induction l as [|[k v] l IH]; [done|].
  cbn [fmap list_fmap map snd pa_timestamp_loop timestamp_loop]. unfold from_str, bind.
  destruct (from_slice v) as [e|x]; [done|]. unfold ret. case_match; [|done]. by destruct (r_offset x).
Qed.
Lemma group_loop_same l c d : pa_group_offsets_loop l.*2 c = ((group_offsets_loop l d).1, c).
Proof.
  induction l as [|[k v] l IH]; [done|].
  cbn [fmap list_fmap map snd pa_group_offsets_loop group_offsets_loop]. unfold from_str, bind.
  destruct (from_slice v) as [e|x]; [done|]. unfold ret. rewrite IH.
  by destruct (group_offsets_loop l d) as [[]].
Qed.

Lemma read_records_fitting ns sh c d a max total (xs : list (Z * MsgRecord)) :
  store_sim c d -> logs_recorded d a -> blen (log_of a ns sh) < 2 ^ 64 -> no_slash ns -> (forall x, x ∈ xs -> x ∈ numbered (log_of a ns sh)) ->
  pa_read_records ns sh max xs.*1 total c = (Ok (fitting max total xs.*2), c).
Proof.
  intros Hs Ha Hlen Hns. revert total. induction xs as [|x xs IH]; intros total Hxs; [done|].
  destruct (proj1 (numbered_elem _ x) (Hxs x (list_elem_of_here _ _))) as (i & Ei & Hi).
  cbn [fmap list_fmap map pa_read_records fitting]. rewrite Ei.
  rewrite (bind_ok _ _ _ _ _ (get_record c d a ns sh i Hs Ha Hns
    ltac:(apply lookup_lt_Some in Hi; unfold blen in *; lia))).
  rewrite Hi. cbn [fmap option_fmap option_map default]. unfold id. destruct (json_ok x.2) as (_ & Hne & _).
  rewrite bool_decide_eq_false_2 by done. case_match; [done|]. rewrite (bind_ok _ _ _ _ _ (from_str_json x.2 c)).
  rewrite (bind_ok _ _ _ (fitting max (total + blen (json x.2)) xs.*2) c); [done|].
  apply IH. intros y Hy. apply Hxs. by right.
Qed.

Lemma read_by_tag_fitting s r a ns sh offset tag config :
  adapter_sim s r -> rocks_full r a -> no_slash ns -> no_slash sh -> no_slash tag ->
  pa_read_by_tag ns sh offset tag config s
  = (Ok (fitting (max_size config) 0 (take (Z.to_nat (max_record_num config))
           (filter (fun r => tag ∈ r_tags r) (drop (Z.to_nat offset) (log_of a ns sh))))), s).
Proof.
  intros [Hs _] (Hr & Hi & Hok & _) Hns Hsh Htag. apply on_client_read. pose proof Hr as (Ha & _).
  pose proof (tag_scan _ _ _ _ _ Ha Hok Hi Hns Hsh Htag) as E.
  rewrite (bind_ok _ _ _ _ _ (prefix_read _ _ (tag_offsets_key_prefix ns sh tag) _ Hs eq_refl ltac:(done) eq_refl E)).
  rewrite (bind_ok _ _ _ _ _ (eq_trans (tag_loop_same _ _ _ _ _ (rk_db r))
             (f_equal (fun x => (x.1, pa_client s)) (tag_loop_eval _ _ _ _ _ _ _ _)))). cbn [app].
  change (blen []) with 0. rewrite Z.sub_0_r, <- fmap_take, (read_records_fitting ns sh _ (rk_db r) a); [|done|by apply rep_recorded|by apply Ha|done|].
  - rewrite fmap_take. pose proof (filter_numbered (fun r => tag ∈ r_tags r) offset 0 (log_of a ns sh)) as Hf.
    rewrite Z.sub_0_r in Hf. by rewrite <- Hf.
  - intros x Hx. eapply (elem_of_take _ _ _) in Hx as (i & Hx & _). apply list_elem_of_lookup_2 in Hx.
    by apply list_elem_of_filter in Hx as [_ [_ Hx]%list_elem_of_filter].
Qed.

Lemma offset_by_timestamp_same s r a ns sh timestamp :
  adapter_sim s r -> rocks_full r a -> no_slash ns -> no_slash sh ->
  exists o, pa_get_offset_by_timestamp ns sh timestamp s = (Ok o, s) /\ resolves (log_of a ns sh) timestamp o.
Proof.
  intros [Hs _] ((Ha & _) & Hi & Hok & Hst) Hns Hsh.
  assert (stamped (log_of a ns sh)) as Hst'.
  { unfold log_of. destruct (logs a !! (ns, sh)) eqn:E; [by eapply Hst|apply stamped_nil]. }
  pose proof (record_scan _ _ _ _ Ha Hok Hi Hns Hsh) as E.
  destruct (timestamp_loop_eval ns sh timestamp (log_of a ns sh) 0 (rk_db r) Hst') as (o & E2 & Ho).
  exists o. split; [|exact Ho]. apply on_client_read.
  rewrite (bind_ok _ _ _ _ _ (prefix_read _ _ (shard_record_key_prefix ns sh) _ Hs eq_refl ltac:(done) eq_refl E)).
  rewrite (timestamp_loop_same _ _ _ (rk_db r)). unfold numbered. by rewrite E2.
Qed.

Lemma offset_by_group_same s r a g :
  adapter_sim s r -> rocks_full r a -> no_slash g ->
  exists l, pa_get_offset_by_group g s = (Ok l, s) /\ map so_offset l ≡ₚ values (group_commits a g).
Proof.
  intros [Hs _] ((Ha & _ & _ & Hg) & _) Hg'. destruct (group_scan _ g _ Hg' (Hg g Hg')) as (l & E & Hp).
  exists (map (fun x => default_offset x.2) l). split.
  - apply on_client_read. rewrite (bind_ok _ _ _ _ _ (prefix_read _ _ (group_record_offsets_key_prefix g) _ Hs eq_refl ltac:(done) eq_refl E)).
    by rewrite (group_loop_same _ _ (rk_db r)), group_loop_eval.
  - rewrite map_map. unfold values. cbn. by rewrite <- Hp.
Qed.

(** ** The index of keys *)

(** The last of the numbered records that has the key. *)
Definition last_at (key : bytes) (xs : list (Z * MsgRecord)) : option (Z * MsgRecord) :=
  last (filter (fun x => r_key x.2 = key) xs).

Lemma last_at_cons key x xs :
  last_at key (x :: xs) = match last_at key xs with Some y => Some y | None => if decide (r_key x.2 = key) then Some x else None end.
Proof.
  unfold last_at. rewrite filter_cons. destruct (decide (r_key x.2 = key)); [|by destruct (last _)].
  by destruct (filter _ xs) as [|y ys] using rev_ind; [|rewrite app_comm_cons, !last_snoc].
Qed.

Lemma last_at_app key xs ys :
  last_at key (xs ++ ys) = match last_at key ys with Some y => Some y | None => last_at key xs end.
Proof.
  unfold last_at. rewrite filter_app. destruct (filter _ ys) as [|y l] using rev_ind; [by rewrite app_nil_r|].
  by rewrite app_assoc, !last_snoc.
Qed.

Lemma last_at_elem key xs x : last_at key xs = Some x -> x ∈ xs.
Proof. intros H%last_Some_elem_of. by apply list_elem_of_filter in H as [_ H]. Qed.

Lemma key_key_inj ns sh key ns' sh' key' :
  no_slash ns -> no_slash ns' -> no_slash sh -> no_slash sh' ->
  key_offset_key ns sh key = key_offset_key ns' sh' key' -> (ns, sh) = (ns', sh') /\ key = key'.
Proof. intros ? ? ? ? [-> E]%two_names; try done. by apply sep_inj in E as [-> ->]. Qed.

Lemma batch_loop_keys ns sh key ms start acc d offs next d' :
  key <> [] -> db_open d -> 0 <= start -> start + blen ms < 2 ^ 64 ->
  batch_write_loop ns sh ms start acc d = (Ok (offs, next), d') ->
  db_contents d' !! key_offset_key ns sh key
  = match last_at key (zip (seqZ start (blen ms)) ms) with
    | Some x => Some (json x.1)
    | None => db_contents d !! key_offset_key ns sh key
    end.
Proof.
  intros Hkey. revert start acc d. induction ms as [|m ms IH]; intros start acc d Ho H0 H1; cbn [batch_write_loop].
  { by intros [= _ _ <-]. }
  rewrite blen_cons in *. pose proof (blen_nonneg ms). rewrite wrap64_small, seqZ_cons by lia.
  replace (Z.pred (1 + blen ms)) with (blen ms) by lia. cbn [zip zip_with]. rewrite last_at_cons.
  intros ([] & d1 & Hd1 & ([] & d2 & Hd2 & ([] & d3 & Hd3 & Hl)%bind_inv)%bind_inv)%bind_inv.
  pose proof (write_only_at (fun k => kind k = lit "/rec") (shard_record_key ns sh start) (set_offset start m) eq_refl d) as [Ho1 F1].
  rewrite Hd1 in Ho1, F1. specialize (Ho1 Ho).
  pose proof (key_index_frame (fun k => k = key_offset_key ns sh (r_key m)) ns sh (set_offset start m) start eq_refl d1) as [Ho2 F2].
  rewrite Hd2 in Ho2, F2. specialize (Ho2 Ho1).
  pose proof (tag_index_frame (fun k => kind k = lit "/tag") ns sh (r_tags m) start (fun _ _ => eq_refl) d2) as [Ho3 F3].
  cbn [r_tags r_key set_offset] in *. rewrite Hd3 in Ho3, F3. specialize (Ho3 Ho2). cbn [snd] in *.
  rewrite (IH (start + 1) _ _ Ho3 ltac:(lia) ltac:(lia) Hl).
  replace (Z.succ start) with (start + 1) by lia. destruct (last_at key _); [done|].
  rewrite F3 by done. case_decide as Ek.
  - subst key. rewrite bool_decide_eq_false_2 in Hd2 by done. by apply write_stores in Hd2.
  - rewrite F2, F1; [done|done|done|done|]. intros E%app_inv_head%app_inv_head%app_inv_head%app_inv_head%app_inv_head. congruence.
Qed.

Definition keyed (C : gmap bytes bytes) a : Prop :=
  forall ns sh key, no_slash ns -> no_slash sh -> key <> [] ->
    C !! key_offset_key ns sh key = (fun x => json x.1) <$> last_at key (numbered (log_of a ns sh)).

Lemma keyed_frame d d' a a' (Q : bytes -> Prop) :
  db_open d -> only_at Q d d' -> (forall k, Q k -> kind k <> lit "/key") ->
  (forall ns sh, log_of a' ns sh = log_of a ns sh) -> keyed (db_contents d) a -> keyed (db_contents d') a'.
Proof.
  intros Ho [_ Hf] HQ Hlog Hk ns sh key Hns Hsh Hkey. rewrite Hlog, Hf; [by apply Hk|done|]. by intros E%HQ.
Qed.

Lemma last_at_stamp key start n ms :
  fst <$> last_at key (zip (seqZ start n) (stamp start ms)) = fst <$> last_at key (zip (seqZ start n) ms).
Proof.
  generalize (seqZ start n). intros ps. revert start ps. induction ms as [|m ms IH]; intros start [|p ps]; try done.
  cbn [stamp zip zip_with]. rewrite !last_at_cons. specialize (IH (start + 1) ps).
  destruct (last_at key (zip ps (stamp (start + 1) ms))) as [x|], (last_at key (zip ps ms)) as [y|]; try done.
  cbn [snd r_key set_offset]. by case_decide.
Qed.

Lemma numbered_app l1 l2 : numbered (l1 ++ l2) = numbered l1 ++ zip (seqZ (blen l1) (blen l2)) l2.
Proof.
  unfold numbered. rewrite blen_app, seqZ_app by apply blen_nonneg.
  rewrite zip_with_app; [done|]. rewrite length_seqZ. unfold blen. lia.
Qed.

Lemma thread_write_keyed ns sh ms d a l offs d' :
  acked d a -> names_ok a -> no_slash ns -> logs a !! (ns, sh) = Some l -> blen l + blen ms < 2 ^ 64 ->
  thread_batch_write ns sh ms d = (Ok offs, d') -> keyed (db_contents d) a ->
  keyed (db_contents d') (spec_append (ns, sh) ms a).
Proof.
  intros Ha Hok Hns Hl Hb E Hk ns' sh' key Hns' Hsh' Hkey. destruct (Hok ns sh l Hl) as (_ & Hsh & _).
  pose proof (proj1 (thread_write_inv ns sh ms d a l offs d' Ha Hns Hl Hb E)) as [_ Hf].
  pose proof (proj1 Ha : db_cf_handle _ _ = true) as Ho. unfold thread_batch_write, unwrap_cf in E.
  unfold bind at 1 in E. rewrite Ho in E. unfold bind at 1 in E.
  rewrite (read_next_ok d a ns sh Ha Hns), Hl in E. cbn [fmap option_fmap option_map] in E.
  apply bind_inv in E as ([offs' next] & d1 & E1 & ([] & d2 & E2 & [= <- <-])%bind_inv).
  rewrite (log_of_append a ns sh ms l ns' sh' Hl). destruct (decide ((ns, sh) = (ns', sh'))) as [[= <- <-]|Hne].
  - pose proof (wp_batch_loop ns sh ms (blen l) [] d Ho) as Ho1. unfold wp in Ho1. rewrite E1 in Ho1.
    pose proof (write_only_at (fun k => kind k = lit "/off") (shard_offset_key ns sh) next eq_refl d1) as [_ Hf2].
    rewrite E2 in Hf2. cbn [snd] in Hf2. rewrite (Hf2 Ho1) by done. pose proof (blen_nonneg l).
    rewrite (batch_loop_keys ns sh key ms (blen l) [] d offs' next d1) by done. unfold log_of. rewrite Hl. cbn [default]. unfold id.
    rewrite numbered_app, blen_stamp, last_at_app. pose proof (last_at_stamp key (blen l) (blen ms) ms) as Hst.
    rewrite (Hk ns sh key) by done. unfold log_of. rewrite Hl.
    destruct (last_at key (zip _ (stamp _ ms))) as [x|], (last_at key (zip _ ms)) as [y|]; try done.
    cbn in *. congruence.
  - cbn [stamp]. rewrite app_nil_r, Hf; [by apply Hk|done|]. intros [(j & m & Hj & [Eq|[Eq|(tag & _ & Eq)]])|Eq]; try (by revert Eq; key_ne).
    apply key_key_inj in Eq as [Eq _]; [congruence|done..].
Qed.

Lemma batch_keyed s a ns sh ms :
  rocks_full s a -> no_slash ns -> blen (log_of a ns sh) + blen ms < 2 ^ 64 -> keyed (db_contents (rk_db s)) a ->
  keyed (db_contents (rk_db (rocks_batch_write (D := D) ns sh ms s).2))
    (if is_some (logs a !! (ns, sh)) then spec_append (ns, sh) ms a else a).
Proof.
  intros ((Ha & Hs & _) & Hi & Hok & Hst) Hns Hb Hk.
  destruct (handle_write_eval ns sh ms s Hs) as (handles & Hlive & E). unfold rocks_batch_write. rewrite E. cbn [snd rk_db].
  unfold log_of in Hb. destruct (logs a !! (ns, sh)) as [l|] eqn:Hl; cbn [is_some].
  - destruct (succeeds_thread_write ns sh ms _ _ _ Ha Hns Hl) as (offs & d' & Et & _). rewrite Et.
    by eapply thread_write_keyed.
  - destruct (thread_write_missing ns sh ms _ _ Ha Hns Hl) as (e & Et). by rewrite Et.
Qed.

Lemma step_keyed o s a :
  op_named o -> rocks_full s a -> (forall ns sh, blen (log_of a ns sh) + blen (op_messages ns sh o) < 2 ^ 64) ->
  keyed (db_contents (rk_db s)) a -> keyed (db_contents (rk_db (op_offsets (S := RA) o s).2)) (strict_op o a).
Proof.
  intros [Hns Hn] Hf Hb Hk. pose proof Hf as ((Ha & Hs & _) & _).
  destruct o as [info|ns sh|ns sh m|ns sh ms|g ns offs]; [|done|..]; cbn in Hns.
  - pose proof (create_acked info s a Hns Ha) as H. cbn. unfold bind.
    assert (forall s', only_at (create_key (si_namespace info) (si_shard_name info)) (rk_db s) (rk_db s') ->
      keyed (db_contents (rk_db s')) (strict_op (OpCreate info) a)) as Hgoal.
    { intros s' Hf'. eapply keyed_frame; [apply Ha|exact Hf'|by intros k [->| ->]| |done]. intros ns sh. cbn.
      destruct (logs a !! _) eqn:El; cbn [is_some]; [done|]. by apply log_of_create. }
    destruct (rocks_create_shard info s) as [[[]|e| |] s']; destruct H as (_ & Hf' & _); by apply Hgoal.
  - specialize (Hb ns sh). cbn in Hb. rewrite decide_True in Hb by done.
    pose proof (batch_keyed s a ns sh [m] Hf Hns Hb Hk) as H. cbn. unfold bind. rewrite write_eval.
    destruct (rocks_batch_write ns sh [m] s) as [[[|o os]|e| |] s']; done.
  - specialize (Hb ns sh). cbn in Hb. rewrite decide_True in Hb by done. by apply batch_keyed.
  - pose proof (commit_acked g ns offs s a Ha) as H. cbn. unfold bind.
    destruct (rocks_commit_offset g ns offs s) as [r s']. destruct H as (_ & Hf' & _).
    assert (keyed (db_contents (rk_db s')) (spec_commit g ns offs a)) as Hg
      by (eapply keyed_frame; [apply Ha|exact Hf'|by intros k [sh ->]|done|done]).
    by destruct r.
Qed.

Lemma attempt_keyed ops s a :
  Forall op_named ops -> rocks_full s a -> keyed (db_contents (rk_db s)) a ->
  (forall ns sh, blen (log_of a ns sh) + blen (concat (map (op_messages ns sh) ops)) < 2 ^ 64) ->
  keyed (db_contents (rk_db (attempt_all (S := RA) ops s).2)) (foldl (fun a o => strict_op o a) a ops).
Proof.
  intros Hops. revert s a. induction Hops as [|o ops Ho Hops IH]; intros s a Hf Hk Hb; [done|]. cbn [attempt_all foldl].
  assert (forall ns sh, 0 <= blen (concat (map (op_messages ns sh) ops))) as Hpos by (intros; apply blen_nonneg).
  assert (forall ns sh, blen (log_of a ns sh) + blen (op_messages ns sh o) < 2 ^ 64) as Hb1.
  { intros ns sh. specialize (Hb ns sh). specialize (Hpos ns sh). cbn in Hb. rewrite blen_app in Hb. lia. }
  pose proof (step_full o s a Ho Hf Hb1) as H1. pose proof (step_keyed o s a Ho Hf Hb1 Hk) as H2.
  destruct (op_offsets o s) as [r s1]. cbn [snd] in H1, H2. specialize (IH s1 (strict_op o a) H1 H2).
  destruct (attempt_all ops s1) as [trace s2]. apply IH. intros ns sh. pose proof (strict_length o a ns sh).
  specialize (Hb ns sh). cbn in Hb. rewrite blen_app in Hb. lia.
Qed.

Lemma read_by_key_last s r a ns sh start_offset key config x :
  adapter_sim s r -> rocks_rep r a -> keyed (db_contents (rk_db r)) a ->
  no_slash ns -> no_slash sh -> key <> [] -> last_at key (numbered (log_of a ns sh)) = Some x ->
  pa_read_by_key ns sh start_offset key config s
  = (Ok (if (x.1 <? start_offset) || (max_record_num config <? 1) || (max_size config <? blen (json x.2)) then []
         else [x.2]), s).
Proof.
  intros [Hs _] Hr Hk Hns Hsh Hkey Hx. apply on_client_read. pose proof Hs as (Hc & _ & Heq & _).
  assert (blen (log_of a ns sh) < 2 ^ 64) as Hlen by by apply Hr. apply rep_recorded in Hr as Ha.
  assert (kvc_get (key_offset_key ns sh key) (pa_client s) = (Ok (json x.1), pa_client s)) as E.
  { rewrite kvs_get, <- Heq, Hk, Hx by done. done. }
  rewrite (bind_ok _ _ _ _ _ E), (bind_ok _ _ _ _ _ (from_str_json x.1 _)).
  destruct ((x.1 <? start_offset) || (max_record_num config <? 1)); [done|]. cbn [orb].
  destruct (proj1 (numbered_elem _ x) (last_at_elem _ _ _ Hx)) as (i & Ei & Hi). rewrite Ei.
  rewrite (bind_ok _ _ _ _ _ (get_record _ (rk_db r) a ns sh i Hs Ha Hns
    ltac:(apply lookup_lt_Some in Hi; unfold blen in *; lia))).
  rewrite Hi. cbn [fmap option_fmap option_map default]. unfold id. destruct (json_ok x.2) as (_ & Hne & _).
  rewrite bool_decide_eq_false_2 by done. case_match; [done|]. by rewrite (bind_ok _ _ _ _ _ (from_str_json x.2 _)).
Qed.
(** A shard that is deleted is closed for writers. *)
Lemma closed_batch_write s r ns sh ms :
  adapter_sim s r -> live r -> db_contents (rk_db r) !! shard_offset_key ns sh = None ->
  exists e s', pa_batch_write ns sh ms s = (Err e, s') /\ kv_map (pa_client s') = kv_map (pa_client s).
Proof.
  intros [Hs Hh] Hl Hk. pose proof Hs as (Hc & Ho & Heq & _). pose proof (Heq (shard_offset_key ns sh) eq_refl ltac:(done)) as Hk'.
  assert (exists e, pa_thread_batch_write ns sh ms (pa_client s) = (Err e, pa_client s)) as [e E].
  { eexists. unfold pa_thread_batch_write. rewrite (bind_ok _ _ _ [] (pa_client s)); [reflexivity|].
    rewrite kvs_get by done. by rewrite <- Hk', Hk. }
  unfold pa_batch_write, pa_handle_write_request, pa_get_write_handle, bind, get. rewrite Hh.
  destruct (rk_write_handles r !! write_handle_key ns sh) as [h|] eqn:Eh; cbn [is_none is_some negb].
  - unfold ret. rewrite Hh, Eh. cbn [unwrap]. unfold ret. rewrite (Hl _ _ Eh). unfold on_client. rewrite E. by eexists _, _.
  - unfold pa_create_write_thread. cbn [pa_write_handles]. rewrite Hh, lookup_insert_eq. cbn [unwrap]. unfold ret.
    cbn [th_running]. unfold on_client. cbn [pa_client]. rewrite E. by eexists _, _.
Qed.
End simulation.

(** ** The adapter on a new service *)

(** The service holds nothing for an adapter. *)
Definition no_records {S : Type} {KC : KvClient S} {KS : KvSpec S} (c : S) : Prop :=
  kv_ok c /\ forall k, adapter_key k = true -> kv_map c !! k = None.

Section fresh.
#[local] Existing Instances map_db map_db_spec map_db_reliable.
Context {S : Type} {KC : KvClient S} {KS : KvSpec S} {MI : MapIter} {MS : MapIterSpec MI}
        {JZ : Json Z} {JB : Json bytes} {JR : Json MsgRecord} {JI : Json ShardInfo}
        {JZS : JsonSpec Z} {JBS : JsonSpec bytes} {JRS : JsonSpec MsgRecord} {JIS : JsonSpec ShardInfo} {JD : JsonDigits}.

Lemma sim_fresh c : no_records c -> adapter_sim (mkPlacementAdapter c ∅) (mkRocks {[DB_COLUMN_FAMILY := ∅]} ∅).
Proof.
  intros [Hc Hnone]. split; [|done]. split_and!; [done|done|..].
  - intros k Hk _. cbn [pa_client]. by rewrite Hnone.
  - intros k v Hk Hv. cbn [pa_client] in Hv. rewrite Hnone in Hv; [done|]. by rewrite (kind_adapter_key k (lit "/off")).
Qed.

(** After any operations on a new service there is a database that the RocksDB
    adapter would have, and it represents their logs. *)
Lemma placement_follows c ops :
  no_records c -> Forall op_named ops -> (forall ns sh, blen (concat (map (op_messages ns sh) ops)) < 2 ^ 64) ->
  exists r : RocksDBStorageAdapter (D := gmap bytes (gmap bytes bytes)),
    adapter_sim (attempt_all ops (mkPlacementAdapter c ∅)).2 r /\
    rocks_full r (strict_ops ops) /\ keyed (db_contents (rk_db r)) (strict_ops ops).
Proof.
  intros Hc Hops Hb. assert (fresh {[DB_COLUMN_FAMILY := (∅ : gmap bytes bytes)]}) as Hd by (by split).
  eexists. split; [by apply attempt_follows, sim_fresh|]. split; [by apply attempt_full; [|apply full_fresh|]|].
  apply attempt_keyed; [done|by apply full_fresh| |done]. by intros ns sh key.
Qed.
End fresh.
