(* ===== verification/KvFacts.v ===== *)
(** * What clients of the key-value service observe

    At the leader the service is a map of keys to values ([serve_kv]); the
    retries of a client end, find the leader of a cluster when the node that was
    asked names it, and remember it.  Together they give the contract that the
    placement adapter is written against ([KvSpec]). *)

From Stdlib Require Import String.
From stdpp Require Import sorting.
From S2P Require Import Prelude Bytes RustStr Storage RocksEngine RocksStorage PlacementAdapter PlacementStore PlacementCache PlacementRoute RaftLog RaftMachine KvService.

(** ** The service at the leader *)

Section node.
Context {D : Type} {RD : RocksDB D} {RS : RocksSpec D} {RR : RocksReliable D}
        {MP : MetaProst} {MJ : MetaJson} {RW : OpenRaft (D := D)} {RL : OpenRaftLeader (D := D)} {ET : ErrorText}
        {PS : ProstSpec SetRequest} {PD : ProstSpec DeleteRequest}
        {JWS : JsonSpec StorageDataWrap} {JBS : JsonSpec bytes}.
Abbreviation Node := (PlacementNode (D := D)).
Implicit Types (n : Node) (k v p : bytes).

(** What a stored value is for a client. *)
Definition stored v : option bytes :=
  match from_slice (A := StorageDataWrap) v with
  | inr w => match from_slice (A := bytes) (sd_data w) with inr b => Some b | inl _ => None end
  | inl _ => None
  end.
Definition kv_view n : gmap bytes bytes := omap stored (meta (pn_db n)).

(** The keys of adapters hold values of the key-value service. *)
Definition node_ok n : Prop :=
  meta_open (pn_db n) /\
  forall k v, adapter_key k = true -> meta (pn_db n) !! k = Some v -> exists t (b : bytes), v = wrapped t b.

Lemma stored_wrapped t (b : bytes) : stored (wrapped t b) = Some b.
Proof.
  unfold stored, wrapped. destruct (json_ok (mkStorageDataWrap (json b) t)) as (_ & _ & ->). cbn [sd_data].
  by destruct (json_ok b) as (_ & _ & ->).
Qed.

Lemma view_holds n k : node_ok n -> adapter_key k = true -> holds (meta (pn_db n)) k (kv_view n !! k).
Proof.
  intros [_ Ht] Hk. unfold kv_view. rewrite lookup_omap. destruct (meta (pn_db n) !! k) as [v|] eqn:E; [|done].
  destruct (Ht k v Hk E) as (t & b & ->). cbn. rewrite stored_wrapped. by exists t.
Qed.

Lemma serve_set n k v :
  node_ok n -> k <> [] -> v <> [] ->
  exists n', serve_kv (KvSetReq (mkSetRequest k v)) n = (Ok KvDone, n') /\ node_ok n' /\ kv_view n' = <[k := v]> (kv_view n) /\
             holds (meta (pn_db n')) k (Some v).
Proof.
  intros [Ho Ht] Hk Hv. destruct (save_as_ok (E := CommonError) (pn_second n) k v (pn_db n) Ho) as (d' & E & Ho' & Hm).
  exists (mkPlacementNode d' (pn_cluster n) (pn_journal n) (pn_mqtt n) (pn_second n) (pn_millisecond n)).
  assert (route (mkStorageData KvSet (encode_to_vec (mkSetRequest k v))) n
          = (Ok None, mkPlacementNode d' (pn_cluster n) (pn_journal n) (pn_mqtt n) (pn_second n) (pn_millisecond n))) as Er.
  { cbn [route data_type data_value]. unfold no_value, route_kv_set, decode_req. rewrite prost_roundtrip. unfold bind.
    cbn [ret set_key set_value]. unfold ret, on_common, on_store, kv_set, map_err. by rewrite E. }
  split_and!.
  - cbn [serve_kv]. unfold grpc_set. cbn [set_key set_value]. rewrite !bool_decide_eq_false_2 by done. cbn [orb].
    pose proof (client_write_ok (mkStorageData KvSet (encode_to_vec (mkSetRequest k v))) n) as Ec.
    rewrite Er in Ec. specialize (Ec I). unfold cancelled. rewrite (bind_ok _ _ _ _ _ (map_err_ok _ _ _ _ _ Ec)).
    unfold applied. by rewrite Er.
  - split; [done|]. cbn [pn_db]. rewrite Hm. intros k' v' Hk' [[_ <-]|[_ Hv']]%lookup_insert_Some; [eauto|by eapply Ht].
  - unfold kv_view. cbn [pn_db]. rewrite Hm, (omap_insert_Some _ _ _ _ v); [done|]. apply stored_wrapped.
  - cbn [pn_db]. rewrite Hm. exists (pn_second n). by rewrite lookup_insert_eq.
Qed.

Lemma serve_delete n k :
  node_ok n -> k <> [] ->
  exists n', serve_kv (KvDeleteReq (mkDeleteRequest k)) n = (Ok KvDone, n') /\ node_ok n' /\ kv_view n' = delete k (kv_view n).
Proof.
  intros [Ho Ht] Hk. destruct (delete_key_ok (E := CommonError) k (pn_db n) Ho) as (d' & E & Ho' & Hm).
  exists (mkPlacementNode d' (pn_cluster n) (pn_journal n) (pn_mqtt n) (pn_second n) (pn_millisecond n)).
  assert (route (mkStorageData KvDelete (encode_to_vec (mkDeleteRequest k))) n
          = (Ok None, mkPlacementNode d' (pn_cluster n) (pn_journal n) (pn_mqtt n) (pn_second n) (pn_millisecond n))) as Er.
  { cbn [route data_type data_value]. unfold no_value, route_kv_delete, decode_req. rewrite prost_roundtrip. unfold bind.
    cbn [ret del_key]. unfold ret, on_common, on_store, kv_delete, map_err. by rewrite E. }
  split_and!.
  - cbn [serve_kv]. unfold grpc_delete, not_null. cbn [del_key]. rewrite bool_decide_eq_false_2 by done.
    pose proof (client_write_ok (mkStorageData KvDelete (encode_to_vec (mkDeleteRequest k))) n) as Ec.
    rewrite Er in Ec. specialize (Ec I). unfold cancelled. rewrite (bind_ok _ _ _ _ _ (map_err_ok _ _ _ _ _ Ec)).
    unfold applied. by rewrite Er.
  - split; [done|]. cbn [pn_db]. rewrite Hm. intros k' v' Hk' [_ Hv']%lookup_delete_Some. by eapply Ht.
  - unfold kv_view. cbn [pn_db]. by rewrite Hm, omap_delete.
Qed.

Lemma local_ok {A} (m : M D CommonError A) n x :
  m (pn_db n) = (Ok x, pn_db n) -> local m n = (Ok x, n).
Proof. intros E. unfold local, map_err. rewrite E. by destruct n. Qed.

(** A key that holds a value of the service, or nothing, is answered with it. *)
Lemma serve_get_held n k (x : option bytes) :
  node_ok n -> k <> [] -> holds (meta (pn_db n)) k x -> serve_kv (KvGetReq k) n = (Ok (KvValue (default [] x)), n).
Proof.
  intros Hn Hk Hx. cbn [serve_kv]. unfold grpc_get, not_null. rewrite bool_decide_eq_false_2 by done.
  rewrite (bind_ok _ _ _ x n); [done|]. by apply local_ok, get_as_ok; [apply Hn|].
Qed.

Lemma serve_get n k :
  node_ok n -> k <> [] -> adapter_key k = true ->
  serve_kv (KvGetReq k) n = (Ok (KvValue (default [] (kv_view n !! k))), n).
Proof. intros Hn Hk Ha. by apply serve_get_held; [..|apply view_holds]. Qed.

Lemma serve_get_prefix n p :
  node_ok n -> p <> [] -> (forall k, starts_with p k = true -> adapter_key k = true) ->
  exists l, serve_kv (KvGetPrefixReq p) n = (Ok (KvValues l.*2), n) /\ StronglySorted key_lt l /\
    forall kv, kv ∈ l <-> kv_view n !! kv.1 = Some kv.2 /\ starts_with p kv.1 = true.
Proof.
  intros Hn Hp Ha. destruct (list_as_ok (E := CommonError) (A := bytes) p (pn_db n) (proj1 Hn)) as (l & E & Hs & Hl).
  { intros k v Hk Hs. eapply (proj2 Hn); eauto. }
  exists l. split_and!; [|done|].
  - cbn [serve_kv]. unfold grpc_get_prefix, not_null. rewrite bool_decide_eq_false_2 by done.
    by rewrite (bind_ok _ _ _ _ _ (local_ok _ _ _ E)).
  - intros [k v]. rewrite Hl. cbn [fst snd]. split.
    + intros [Hst Hh]. split; [|done]. exact (holds_fun _ _ _ _ (view_holds n k Hn (Ha k Hst)) Hh).
    + intros [Hv Hst]. split; [done|]. pose proof (view_holds n k Hn (Ha k Hst)) as Hh. by rewrite Hv in Hh.
Qed.
End node.

(** ** Retries end *)

Section retries.
Context {N Req Rep : Type} {NW : Network N Req Rep} {ET : ErrorText}.
Implicit Types (p : ClientPool N) (addr : bytes) (req : Req) (w : bool).

Lemma on_net_returns {A} (m : M N CommonError A) p : returns (m (cp_net p)).1 -> returns (on_net m p).1.
Proof. unfold on_net. by destruct (m (cp_net p)). Qed.

Lemma again_returns times (k : Client (N := N) Rep) p :
  (0 < times)%nat -> returns ((if (retry_times <? times)%nat then fail not_found_leader else k) p).1.
Proof. intros Ht. by rewrite (proj2 (Nat.ltb_lt retry_times times)) by (unfold retry_times; lia). Qed.

(** [m] answers from every state. *)
Definition answers {S E A} (m : M S E A) : Prop := forall s, returns (m s).1.

Lemma answers_bind {S E A B} (m : M S E A) (k : A -> M S E B) :
  answers m -> (forall a, answers (k a)) -> answers (bind m k).
Proof.
  intros Hm Hk s. specialize (Hm s). unfold bind. destruct (m s) as [[a|e| |] s']; try done. apply Hk.
Qed.
Lemma answers_attempt {A} (m : Client (N := N) A) : answers m -> answers (attempt m).
Proof. intros Hm p. specialize (Hm p). unfold attempt. by destruct (m p) as [[]]. Qed.

Context (connect_answers : forall addr, answers (net_connect (Req := Req) (Rep := Rep) (N := N) addr))
        (call_answers : forall addr req, answers (net_call (N := N) addr req)).

(** The loop runs once, and once more when the leader that a node named cannot
    be connected to; what is left is the state at which it is entered. *)
Lemma retry_loop_tried w fuel addrs req times tried p addr :
  (0 < fuel)%nat -> (0 < times)%nat -> addrs !! (times mod length addrs)%nat = Some addr ->
  (if w then default addr (leader_addr_caches p !! addr) else addr) ∈ tried ->
  returns (retry_loop w fuel addrs req times tried p).1.
Proof.
  intros Hf Ht Ha Hin. destruct fuel as [|fuel]; [lia|]. cbn [retry_loop]. rewrite Ha.
  rewrite (bind_ok _ _ p addr p) by done. rewrite (bind_ok _ _ p (leader_addr_caches p !! addr) p) by done.
  rewrite bool_decide_eq_true_2 by done. by apply again_returns.
Qed.

Lemma retry_call_answers w addrs req p : returns (retry_call w addrs req p).1.
Proof.
  unfold retry_call. destruct (decide (addrs = [])) as [->|Hne]; [by rewrite bool_decide_eq_true_2|].
  rewrite bool_decide_eq_false_2 by done. unfold retry_fuel.
  assert (is_Some (addrs !! (1 mod length addrs)%nat)) as [addr Ha].
  { apply lookup_lt_is_Some_2, Nat.mod_upper_bound. by destruct addrs. }
  remember 2%nat as fuel eqn:Hfuel. cbn [retry_loop]. rewrite Ha, (bind_ok _ _ p addr p) by done.
  rewrite (bind_ok _ _ p (leader_addr_caches p !! addr) p) by done.
  rewrite bool_decide_eq_false_2 by set_solver.
  assert (w = false -> (if w then default addr (leader_addr_caches p !! addr) else addr) = addr) as Hw by (by intros ->).
  revert Hw. generalize (if w then default addr (leader_addr_caches p !! addr) else addr).
  intros target Hw. revert p. fold (answers (S := ClientPool N) (E := CommonError) (A := Rep)).
  apply answers_bind; [intros p; apply on_net_returns, connect_answers|]. intros _.
  apply answers_bind; [apply answers_attempt; intros p; apply on_net_returns, call_answers|]. intros [err|data]; [|done].
  destruct (contains_text _ _); [|done]. destruct (get_forward_addr _) as [leader|]; [|intros p; by apply again_returns; lia].
  intros p. rewrite (bind_ok _ _ p tt (mkClientPool (<[addr := leader]> (leader_addr_caches p)) (cp_net p))) by done.
  case_match; [by apply again_returns; lia|]. unfold bind at 1, attempt at 1, on_net at 1. cbn [leader_addr_caches cp_net].
  pose proof (connect_answers leader (cp_net p)) as Hc. destruct (net_connect leader (cp_net p)) as [[[]|e| |] n]; try done.
  - apply (answers_bind (attempt (on_net (net_call leader req))));
      [apply answers_attempt; intros p'; apply on_net_returns, call_answers|].
    intros [e|data]; [|done]. intros p'. by apply again_returns; lia.
  - apply (retry_loop_tried _ _ _ _ _ _ _ addr); [lia|lia|done|]. cbn [leader_addr_caches]. rewrite lookup_insert_eq.
    destruct w; [|rewrite <- (Hw eq_refl)]; set_solver.
Qed.
End retries.

(** ** A cluster with a leader *)

Definition is_write (req : KvRequest) : bool :=
  match req with KvSetReq _ | KvDeleteReq _ => true | _ => false end.

(** The client's side of an answer: a refusal is an error with the text of the
    status. *)
Definition grpc_result {A : Type} (r : outcome bytes A) : outcome CommonError A :=
  match r with
  | Ok a => Ok a
  | Err e => Err (GrpcServerStatus e)
  | Panic => Panic
  | OutOfFuel => OutOfFuel
  end.

(** The text of openraft's [ForwardToLeader] inside the text of a status: the
    node that leads, by the debug text of a [Node], whose quotation marks the
    text of the status escapes. *)
Definition forward_to_leader (node_id : Z) (rpc_addr : bytes) : bytes :=
  lit "has to forward request to: Some(" ++ decimal node_id ++ lit "), Some(Node { node_id: " ++ decimal node_id ++
  lit ", rpc_addr: " ++ [92; 34] ++ rpc_addr ++ [92; 34] ++ lit " })".

(** The octets of an address: no backslash, quotation mark, space or brace. *)
Definition addr_octet (c : Z) : Prop := c <> 92 /\ c <> 34 /\ c <> 32 /\ c <> 125.

(** *** The leader's address is read out of the text *)

Lemma capture_skip c s : c <> 114 -> forward_capture (c :: s) = forward_capture s.
Proof.
  intros Hc. cbn [forward_capture]. destruct (starts_with (lit "rpc_addr: ") (c :: s)) eqn:E; [|done].
  cbn in E. apply andb_true_iff in E as [E _]. by apply Z.eqb_eq in E.
Qed.

Lemma capture_skip_all a s : Forall (fun c => c <> 114) a -> forward_capture (a ++ s) = forward_capture s.
Proof. induction 1; [done|]. cbn [app]. by rewrite capture_skip. Qed.

(** A text does not go on behind an octet that it does not hold. *)
Lemma starts_with_stops p x h y : h ∉ p -> starts_with p (x ++ h :: y) = starts_with p x.
Proof.
  revert x. induction p as [|c p IH]; intros x Hh; [by destruct x|]. apply not_elem_of_cons in Hh as [Hc Hh].
  destruct x as [|d x]; cbn [starts_with app]; [|by rewrite IH].
  by rewrite (proj2 (Z.eqb_neq c h)) by congruence.
Qed.

Lemma capture_behind pre h y :
  contains_text (lit "rpc_addr: ") pre = false -> h ∉ lit "rpc_addr: " ->
  forward_capture (pre ++ h :: y) = forward_capture (h :: y).
Proof.
  intros Hp Hh. induction pre as [|c pre IH]; [done|]. cbn [contains_text] in Hp. apply orb_false_iff in Hp as [H1 H2].
  rewrite <- (IH H2). cbn [app forward_capture].
  change (c :: pre ++ h :: y) with ((c :: pre) ++ h :: y). by rewrite starts_with_stops, H1.
Qed.

Lemma take_until_end c a s : c ∉ a -> take_until c (a ++ c :: s) = a.
Proof.
  induction a as [|x a IH]; intros Hc; cbn [take_until app]; [by rewrite Z.eqb_refl|].
  apply not_elem_of_cons in Hc as [H1 H2]. by rewrite (proj2 (Z.eqb_neq x c)), IH by congruence.
Qed.

Lemma capture_here s : take_until 125 s <> [] -> forward_capture (lit "rpc_addr: " ++ s) = Some (take_until 125 s).
Proof.
  intros Hs. transitivity (if negb (bool_decide (take_until 125 s = [])) then Some (take_until 125 s)
                           else forward_capture (lit "pc_addr: " ++ s)); [reflexivity|].
  by rewrite bool_decide_eq_false_2.
Qed.

Lemma contains_text_inside t a b : contains_text t (a ++ t ++ b) = true.
Proof.
  induction a as [|x a IH]; cbn [app contains_text]; [|by rewrite IH, orb_true_r].
  assert (starts_with t (t ++ b) = true) as H by (clear; induction t; cbn; [done|by rewrite Z.eqb_refl]).
  destruct (t ++ b); cbn [contains_text]; by rewrite H.
Qed.

Lemma forward_to_leader_read pre id addr post :
  0 <= id -> contains_text (lit "rpc_addr: ") pre = false -> Forall addr_octet addr ->
  get_forward_addr (pre ++ forward_to_leader id addr ++ post) = Some addr.
Proof.
  intros Hid Hpre Ha. unfold get_forward_addr, forward_to_leader. rewrite <- !app_assoc.
  assert (Forall (fun c => c <> 114) (decimal id)) as Hd
    by (eapply Forall_impl; [apply decimal_loop_digits|]; cbn; intros; lia).
  assert (125 ∉ [92; 34] ++ addr ++ [92; 34] ++ [32]) as Hb.
  { rewrite !not_elem_of_app. split_and!; try by apply (bool_decide_unpack _).
    intros Hin. rewrite Forall_forall in Ha. by destruct (Ha _ Hin) as (_ & _ & _ & ?). }
  replace (forward_capture _) with (Some ([92; 34] ++ addr ++ [92; 34] ++ [32])).
  - cbn [fmap option_fmap option_map]. f_equal. cbn [app List.filter].
    clear -Ha. induction Ha as [|c addr (H1 & H2 & H3 & _) _ IH]; [done|].
    cbn [app List.filter]. rewrite (proj2 (Z.eqb_neq c 92)), (proj2 (Z.eqb_neq c 34)), (proj2 (Z.eqb_neq c 32)) by done.
    cbn. by f_equal.
  - symmetry. change (lit "has to forward request to: Some(") with (104 :: lit "as to forward request to: Some(").
    cbn [app]. rewrite capture_behind by (done || by apply (bool_decide_unpack _)).
    rewrite (capture_skip 104) by done.
    set (rest := decimal id ++ _).
    transitivity (forward_capture rest); [reflexivity|]. unfold rest. rewrite capture_skip_all by done.
    set (rest' := decimal id ++ _).
    transitivity (forward_capture rest'); [reflexivity|]. unfold rest'. rewrite capture_skip_all by done.
    transitivity (forward_capture (lit "rpc_addr: " ++ ([92; 34] ++ addr ++ [92; 34] ++ [32]) ++ 125 :: lit ")" ++ post)).
    { rewrite <- !app_assoc. reflexivity. }
    set (cap := [92; 34] ++ addr ++ [92; 34] ++ [32]) in *.
    by rewrite capture_here; rewrite take_until_end by done.
Qed.

(** *** The contract of the network

    Every member can be connected to; the leader serves its calls; another
    member refuses a write with openraft's error, whose text names the leader
    inside the text of the status. *)
Class NetworkSpec (N : Type) {NW : Network N KvRequest KvReply} {D : Type} {RD : RocksDB D} {MP : MetaProst}
    {MJ : MetaJson} {RW : OpenRaft (D := D)} {ET : ErrorText} : Type := {
  members : list bytes;
  leader : bytes;
  leader_id : Z;
  leader_id_unsigned : 0 <= leader_id;
  leader_octets : Forall addr_octet leader;
  leader_node : N -> PlacementNode (D := D);
  set_leader_node : PlacementNode (D := D) -> N -> N;
  leader_set n x : leader_node (set_leader_node x n) = x;
  set_leader_same n : set_leader_node (leader_node n) n = n;
  leader_member : leader ∈ members;
  member_connects addr n : addr ∈ members -> net_connect addr n = (Ok tt, n);
  leader_serves req n :
    net_call leader req n
    = let (r, x) := serve_kv req (leader_node n) in (grpc_result r, set_leader_node x n);
  member_forwards addr req n :
    addr ∈ members -> addr <> leader -> is_write req = true ->
    exists e pre post, net_call addr req n = (Err e, n) /\
      common_text e = pre ++ forward_to_leader leader_id leader ++ post /\ contains_text (lit "rpc_addr: ") pre = false
}.

Section cluster.
Context {N : Type} {NW : Network N KvRequest KvReply} {D : Type} {RD : RocksDB D} {RS : RocksSpec D} {RR : RocksReliable D}
        {MP : MetaProst} {MJ : MetaJson} {RW : OpenRaft (D := D)} {RL : OpenRaftLeader (D := D)} {ET : ErrorText}
        {NS : NetworkSpec N}
        {PS : ProstSpec SetRequest} {PD : ProstSpec DeleteRequest}
        {JWS : JsonSpec StorageDataWrap} {JBS : JsonSpec bytes}.
Context (addrs : list bytes).
Implicit Types (p : ClientPool N) (req : KvRequest).

(** The node that a client asks first. *)
Definition first_target p (t : bytes) : Prop :=
  exists addr, addrs !! (1 mod length addrs)%nat = Some addr /\ t = default addr (leader_addr_caches p !! addr).

Lemma first_target_nonempty p t : first_target p t -> bool_decide (addrs = []) = false.
Proof. intros (addr & Ha & _). apply bool_decide_eq_false_2. by intros ->. Qed.

(** The client recognises the refusal and finds the leader in it. *)
Lemma forwarded addr req n :
  addr ∈ members -> addr <> leader -> is_write req = true ->
  exists e, net_call addr req n = (Err e, n) /\ contains_text (lit "forward request to") (common_text e) = true /\
            get_forward_addr (common_text e) = Some leader.
Proof.
  intros H1 H2 H3. destruct (member_forwards addr req n H1 H2 H3) as (e & pre & post & E & Ht & Hp). exists e.
  split_and!; [done| |rewrite Ht; apply forward_to_leader_read; [apply leader_id_unsigned|done|apply leader_octets]].
  rewrite Ht. unfold forward_to_leader. rewrite <- !app_assoc.
  change (lit "has to forward request to: Some(") with (lit "has to " ++ lit "forward request to" ++ lit ": Some(").
  rewrite <- !app_assoc. rewrite (app_assoc pre). apply contains_text_inside.
Qed.

Lemma retry_at_leader p req x node :
  first_target p leader -> serve_kv req (leader_node (cp_net p)) = (Ok x, node) ->
  retry_call true addrs req p = (Ok x, mkClientPool (leader_addr_caches p) (set_leader_node node (cp_net p))).
Proof.
  intros Ht Hs. unfold retry_call. rewrite (first_target_nonempty _ _ Ht). destruct Ht as (addr & Ha & Ht).
  unfold retry_fuel. remember 2%nat as fuel. cbn [retry_loop]. rewrite Ha, (bind_ok _ _ p addr p) by done.
  rewrite (bind_ok _ _ p (leader_addr_caches p !! addr) p) by done. rewrite <- Ht, bool_decide_eq_false_2 by set_solver.
  rewrite (bind_ok _ _ p tt p).
  2:{ unfold on_net. rewrite member_connects by apply leader_member. by destruct p. }
  rewrite (bind_ok _ _ p (inr x) (mkClientPool (leader_addr_caches p) (set_leader_node node (cp_net p)))); [done|].
  unfold attempt, on_net. by rewrite leader_serves, Hs.
Qed.

(** A write that another member was asked for. *)
Lemma retry_forwarded p req x node t :
  first_target p t -> t ∈ members -> t <> leader -> is_write req = true ->
  serve_kv req (leader_node (cp_net p)) = (Ok x, node) ->
  exists p', retry_call true addrs req p = (Ok x, p') /\ cp_net p' = set_leader_node node (cp_net p) /\ first_target p' leader.
Proof.
  intros Ht Hm Hne Hw Hs. unfold retry_call. rewrite (first_target_nonempty _ _ Ht). destruct Ht as (addr & Ha & Ht).
  exists (mkClientPool (<[addr := leader]> (leader_addr_caches p)) (set_leader_node node (cp_net p))). split_and!; [|done|].
  2:{ exists addr. split; [done|]. cbn [leader_addr_caches]. by rewrite lookup_insert_eq. }
  unfold retry_fuel. remember 2%nat as fuel. cbn [retry_loop]. rewrite Ha, (bind_ok _ _ p addr p) by done.
  rewrite (bind_ok _ _ p (leader_addr_caches p !! addr) p) by done. rewrite <- Ht, bool_decide_eq_false_2 by set_solver.
  rewrite (bind_ok _ _ p tt p).
  2:{ unfold on_net. rewrite member_connects by done. by destruct p. }
  destruct (forwarded t req (cp_net p) Hm Hne Hw) as (e & Ec & Hf & Hl).
  rewrite (bind_ok _ _ p (inl e) p).
  2:{ unfold attempt, on_net. rewrite Ec. by destruct p. }
  rewrite Hf, Hl. set (p1 := mkClientPool (<[addr := leader]> (leader_addr_caches p)) (cp_net p)).
  rewrite (bind_ok _ _ p tt p1) by done. rewrite bool_decide_eq_false_2 by set_solver.
  rewrite (bind_ok _ _ p1 (inr tt) p1).
  2:{ unfold attempt, on_net. by rewrite member_connects by apply leader_member. }
  rewrite (bind_ok _ _ p1 (inr x) (mkClientPool (leader_addr_caches p1) (set_leader_node node (cp_net p)))); [done|].
  unfold attempt, on_net. cbn [cp_net p1]. by rewrite leader_serves, Hs.
Qed.

(** ** The contract of the placement adapter *)

Definition pool_client : KvClient (ClientPool N) := {|
  kvc_set := placement_set addrs;
  kvc_get := placement_get addrs;
  kvc_delete := placement_delete addrs;
  kvc_get_prefix := placement_get_prefix addrs
|}.

(** The client knows the leader. *)
Definition knows_leader p : Prop := first_target p leader /\ node_ok (leader_node (cp_net p)).

Lemma adapter_key_nonempty k : adapter_key k = true -> k <> [].
Proof. by intros H ->. Qed.

Lemma known_pool p node caches :
  first_target p leader -> node_ok node -> leader_addr_caches p = caches ->
  knows_leader (mkClientPool caches (set_leader_node node (cp_net p))).
Proof. intros Ht Hn <-. split; [exact Ht|]. cbn [cp_net]. by rewrite leader_set. Qed.

Lemma read_pool p : mkClientPool (leader_addr_caches p) (set_leader_node (leader_node (cp_net p)) (cp_net p)) = p.
Proof. rewrite set_leader_same. by destruct p. Qed.

Definition pool_spec : @KvSpec (ClientPool N) pool_client.
Proof.
  refine (@Build_KvSpec _ pool_client (fun p => kv_view (leader_node (cp_net p))) knows_leader _ _ _ _); cbn [kvc_set kvc_get kvc_delete kvc_get_prefix pool_client].
  - intros p k v [Ht Hn] Hk Hv. destruct (serve_set _ k v Hn (adapter_key_nonempty k Hk) Hv) as (n' & E & Hn' & Hview & _).
    eexists. unfold placement_set. rewrite (bind_ok _ _ _ _ _ (retry_at_leader p _ _ _ Ht E)). split_and!; [done|by apply known_pool|].
    cbn [cp_net]. by rewrite leader_set.
  - intros p k [Ht Hn] Hk. unfold placement_get.
    rewrite (bind_ok _ _ _ _ _ (retry_at_leader p _ _ _ Ht (serve_get _ k Hn (adapter_key_nonempty k Hk) Hk))).
    by rewrite read_pool.
  - intros p k [Ht Hn] Hk. destruct (serve_delete _ k Hn (adapter_key_nonempty k Hk)) as (n' & E & Hn' & Hview).
    eexists. unfold placement_delete. rewrite (bind_ok _ _ _ _ _ (retry_at_leader p _ _ _ Ht E)). split_and!; [done|by apply known_pool|].
    cbn [cp_net]. by rewrite leader_set.
  - intros p pre [Ht Hn] Hpre.
    assert (pre <> []) as Hne by (intros ->; by specialize (Hpre [] eq_refl)).
    destruct (serve_get_prefix _ pre Hn Hne Hpre) as (l & E & Hs & Hl). exists l. unfold placement_get_prefix.
    rewrite (bind_ok _ _ _ _ _ (retry_at_leader p _ _ _ Ht E)). by rewrite read_pool.
Defined.
End cluster.
