(* ===== verification/Replication.v ===== *)
(** * Replicas: what nodes that apply the same log agree on

    Every node applies the commands of the log with its own clock, and what it
    stores carries the time.  [replica] relates two nodes whose caches are the
    same and whose databases differ only in those times; the routes of
    [PlacementRoute] keep it, and answer the same at both nodes. *)

From Stdlib Require Import String.
From stdpp Require Import sorting.
From S2P Require Import Prelude Bytes RustStr Storage RocksEngine Topics Subscriptions Acl BrokerCache SchemaRegister MqttTypes Broker PlacementStore PlacementCache PlacementRoute RaftLog RaftMachine.

(** ** Two runs side by side *)

(** From related states, the same result and related states. *)
Definition agree {S1 S2 E A : Type} (Rel : S1 -> S2 -> Prop) (m1 : M S1 E A) (m2 : M S2 E A) : Prop :=
  forall s1 s2, Rel s1 s2 -> (m1 s1).1 = (m2 s2).1 /\ Rel (m1 s1).2 (m2 s2).2.

Section agree.
Context {S1 S2 E : Type} {Rel : S1 -> S2 -> Prop}.

Lemma agree_ret {A} (a : A) : agree Rel (ret (E := E) a) (ret a).
Proof. by intros s1 s2 H. Qed.
Lemma agree_fail {A} (e : E) : agree Rel (fail (A := A) e) (fail e).
Proof. by intros s1 s2 H. Qed.
Lemma agree_bind {A B} (m1 : M S1 E A) (m2 : M S2 E A) (k1 : A -> M S1 E B) (k2 : A -> M S2 E B) :
  agree Rel m1 m2 -> (forall a, agree Rel (k1 a) (k2 a)) -> agree Rel (bind m1 k1) (bind m2 k2).
Proof.
  intros Hm Hk s1 s2 H. destruct (Hm s1 s2 H) as [E1 H1]. unfold bind.
  destruct (m1 s1) as [r1 t1], (m2 s2) as [r2 t2]. cbn in E1, H1. subst r2. destruct r1; cbn; auto. by apply Hk.
Qed.
Lemma agree_map_err {F A} (f : E -> F) (m1 : M S1 E A) (m2 : M S2 E A) :
  agree Rel m1 m2 -> agree Rel (map_err f m1) (map_err f m2).
Proof.
  intros Hm s1 s2 H. destruct (Hm s1 s2 H) as [E1 H1]. unfold map_err.
  destruct (m1 s1) as [r1 t1], (m2 s2) as [r2 t2]. cbn in E1, H1. subst r2. by destruct r1.
Qed.
Lemma agree_for_each2 {A} (P : A -> A -> Prop) l1 l2 (f1 : A -> M S1 E unit) (f2 : A -> M S2 E unit) :
  Forall2 P l1 l2 -> (forall a1 a2, P a1 a2 -> agree Rel (f1 a1) (f2 a2)) -> agree Rel (for_each l1 f1) (for_each l2 f2).
Proof. intros Hl Hf. induction Hl; cbn [for_each]; [apply agree_ret|]. apply agree_bind; auto. Qed.
Lemma agree_for_each {A} (l : list A) (f1 : A -> M S1 E unit) (f2 : A -> M S2 E unit) :
  (forall a, agree Rel (f1 a) (f2 a)) -> agree Rel (for_each l f1) (for_each l f2).
Proof. intros Hf. induction l; cbn [for_each]; [apply agree_ret|]. apply agree_bind; auto. Qed.
End agree.

Create HintDb replica discriminated.
#[export] Hint Opaque agree : replica.
#[export] Hint Resolve agree_ret agree_fail agree_bind agree_map_err agree_for_each : replica.

(** ** Databases that differ in times *)

(** Offsets and rewrite rules carry the time once more in their values. *)
Definition timed_key (k : bytes) : bool :=
  starts_with (lit "/offset/") k || starts_with (lit "/mqtt/topic_rewrite_rule/") k.

Section replica.
Context {D1 D2 : Type} {RD1 : RocksDB D1} {RS1 : RocksSpec D1} {RR1 : RocksReliable D1}
        {RD2 : RocksDB D2} {RS2 : RocksSpec D2} {RR2 : RocksReliable D2}
        {MP : MetaProst} {MJ : MetaJson}
        {JWS : JsonSpec StorageDataWrap} {JOS : JsonSpec OffsetData} {JRS : JsonSpec MqttTopicRewriteRule}.

(** The values at a key, without the time they were stored. *)
Definition same_data (k x1 x2 : bytes) : Prop :=
  x1 = x2 \/
  timed_key k = true /\
  ((exists c g ns s o t1 t2, x1 = json (mkOffsetData c g ns s o t1) /\ x2 = json (mkOffsetData c g ns s o t2)) \/
   (exists c a s d r t1 t2, x1 = json (mkMqttTopicRewriteRule c a s d r t1) /\
                            x2 = json (mkMqttTopicRewriteRule c a s d r t2))).
Definition same_value (k v1 v2 : bytes) : Prop :=
  exists x1 x2 t1 t2, v1 = json (mkStorageDataWrap x1 t1) /\ v2 = json (mkStorageDataWrap x2 t2) /\ same_data k x1 x2.
Definition same_db (d1 : D1) (d2 : D2) : Prop :=
  db_cf_handle DB_COLUMN_FAMILY_CLUSTER d1 = db_cf_handle DB_COLUMN_FAMILY_CLUSTER d2 /\
  forall k, option_Forall2 (same_value k) (meta d1 !! k) (meta d2 !! k).

(** *** The engine *)

Lemma with_cf_agree {A} (m1 : M D1 CommonError A) (m2 : M D2 CommonError A) :
  (forall d1 d2, same_db d1 d2 -> meta_open d1 -> meta_open d2 ->
     (m1 d1).1 = (m2 d2).1 /\ same_db (m1 d1).2 (m2 d2).2) ->
  agree same_db (with_cf DB_COLUMN_FAMILY_CLUSTER m1) (with_cf DB_COLUMN_FAMILY_CLUSTER m2).
Proof.
  intros Hm d1 d2 H. unfold with_cf. pose proof H as [Hcf _]. rewrite <- Hcf.
  destruct (db_cf_handle DB_COLUMN_FAMILY_CLUSTER d1) eqn:E1; [|done]. by apply Hm.
Qed.

(** Two puts of values that agree. *)
Lemma put_agree t1 t2 k x1 x2 d1 d2 :
  same_data k x1 x2 -> same_db d1 d2 -> meta_open d1 -> meta_open d2 ->
  let m1 := engine_write DB_COLUMN_FAMILY_CLUSTER k (mkStorageDataWrap x1 t1) d1 in
  let m2 := engine_write DB_COLUMN_FAMILY_CLUSTER k (mkStorageDataWrap x2 t2) d2 in
  m1.1 = m2.1 /\ same_db m1.2 m2.2.
Proof.
  intros Hx [Hcf Hv] Ho1 Ho2.
  destruct (engine_write_ok DB_COLUMN_FAMILY_CLUSTER k (mkStorageDataWrap x1 t1) d1 Ho1) as (d1' & -> & Hh1 & Hc1 & _).
  destruct (engine_write_ok DB_COLUMN_FAMILY_CLUSTER k (mkStorageDataWrap x2 t2) d2 Ho2) as (d2' & -> & Hh2 & Hc2 & _).
  cbn. split; [done|]. split; [by rewrite Hh1, Hh2|]. intros k'. unfold meta. rewrite Hc1, Hc2.
  destruct (decide (k = k')) as [->|Hne].
  - rewrite !lookup_insert_eq. constructor. by exists x1, x2, t1, t2.
  - rewrite !lookup_insert_ne by done. apply Hv.
Qed.

Section storage.
Context {E : Type} {FE : FromErrors E}.

Lemma save_agree {A} {J : Json A} t1 t2 k (a : A) : agree same_db (save_as (E := E) t1 k a) (save_as t2 k a).
Proof.
  apply agree_map_err, with_cf_agree. intros d1 d2 H Ho1 Ho2.
  destruct (to_vec a); [done|]. apply put_agree; auto. by left.
Qed.

(** A value with the time in it. *)
Lemma save_timed_agree {A} {J : Json A} {JS : JsonSpec A} t1 t2 k (a1 a2 : A) :
  same_data k (json a1) (json a2) -> agree same_db (save_as (E := E) t1 k a1) (save_as t2 k a2).
Proof.
  intros Ha. apply agree_map_err, with_cf_agree. intros d1 d2 H Ho1 Ho2.
  destruct (json_ok a1) as (-> & _), (json_ok a2) as (-> & _). by apply put_agree.
Qed.

Lemma delete_agree k : agree same_db (delete_key (E := E) k) (delete_key k).
Proof.
  apply agree_map_err, with_cf_agree. intros d1 d2 [Hcf Hv] Ho1 Ho2.
  destruct (engine_delete_ok DB_COLUMN_FAMILY_CLUSTER k d1 Ho1) as (d1' & -> & Hh1 & Hc1 & _).
  destruct (engine_delete_ok DB_COLUMN_FAMILY_CLUSTER k d2 Ho2) as (d2' & -> & Hh2 & Hc2 & _).
  cbn. split; [done|]. split; [by rewrite Hh1, Hh2|]. intros k'. unfold meta. rewrite Hc1, Hc2.
  destruct (decide (k = k')) as [->|Hne]; [rewrite !lookup_delete_eq; constructor|].
  rewrite !lookup_delete_ne by done. apply Hv.
Qed.

Lemma same_data_eq k x1 x2 : timed_key k = false -> same_data k x1 x2 -> x1 = x2.
Proof. intros Hk [|[? _]]; congruence. Qed.

Lemma get_agree {A} {J : Json A} k :
  timed_key k = false -> agree same_db (get_as (E := E) A k) (get_as A k).
Proof.
  intros Hk d1 d2 H. pose proof H as [Hcf Hv]. unfold get_as, bind, map_err, engine_get_by_cluster, rocksdb_engine_get, with_cf.
  rewrite <- Hcf. destruct (db_cf_handle DB_COLUMN_FAMILY_CLUSTER d1); [|done].
  specialize (Hv k). unfold meta in Hv. inversion Hv as [v1 v2 Hs E1 E2|E1 E2]; symmetry in E1, E2.
  - destruct Hs as (x1 & x2 & t1 & t2 & -> & -> & ->%same_data_eq); [|done].
    rewrite (engine_read_ok _ _ (Some (mkStorageDataWrap x2 t1)) d1 E1).
    rewrite (engine_read_ok _ _ (Some (mkStorageDataWrap x2 t2)) d2 E2). cbn. unfold from_str.
    by destruct (from_slice x2).
  - by rewrite (engine_read_ok _ _ (None : option StorageDataWrap) d1 E1),
         (engine_read_ok _ _ (None : option StorageDataWrap) d2 E2).
Qed.

(** The iterators of the two databases go through the same keys. *)
Lemma sorted_keys_eq (l1 l2 : list (bytes * bytes)) :
  StronglySorted key_lt l1 -> StronglySorted key_lt l2 -> (forall k, k ∈ l1.*1 <-> k ∈ l2.*1) -> l1.*1 = l2.*1.
Proof.
  intros H1 H2 Hk. set (lt := fun k k' : bytes => octets_lt k k' = true).
  assert (forall l : list (bytes * bytes), StronglySorted key_lt l -> StronglySorted lt l.*1 /\ NoDup l.*1) as Hl.
  { clear. induction 1 as [|kv l Hs [IH IHn] Hlt]; [by repeat constructor|]. cbn. split; constructor; auto.
    - apply Forall_fmap. exact Hlt.
    - intros (kv' & E & Hin)%list_elem_of_fmap. rewrite Forall_forall in Hlt. specialize (Hlt kv' Hin).
      unfold key_lt in Hlt. by rewrite E, octets_lt_irrefl in Hlt. }
  destruct (Hl l1 H1) as [Hs1 Hn1], (Hl l2 H2) as [Hs2 Hn2].
  apply (StronglySorted_unique_strong lt); [|done|done|by apply NoDup_Permutation].
  intros k k' _ _ Hkk Hkk'. unfold lt in *. pose proof (octets_lt_trans _ _ _ Hkk Hkk') as Hbad.
  by rewrite octets_lt_irrefl in Hbad.
Qed.

Definition same_pair (kv1 kv2 : bytes * bytes) : Prop := kv1.1 = kv2.1 /\ same_value kv1.1 kv1.2 kv2.2.

Lemma iter_agree p d1 d2 :
  same_db d1 d2 ->
  Forall2 same_pair (db_iter_from DB_COLUMN_FAMILY_CLUSTER p d1) (db_iter_from DB_COLUMN_FAMILY_CLUSTER p d2).
Proof.
  intros [_ Hv]. pose proof (iter_elem DB_COLUMN_FAMILY_CLUSTER p d1) as He1.
  pose proof (iter_elem DB_COLUMN_FAMILY_CLUSTER p d2) as He2.
  pose proof (sorted_keys_eq _ _ (iter_sorted DB_COLUMN_FAMILY_CLUSTER p d1) (iter_sorted DB_COLUMN_FAMILY_CLUSTER p d2)) as Hk.
  revert He1 He2 Hk. generalize (db_iter_from DB_COLUMN_FAMILY_CLUSTER p d1).
  generalize (db_iter_from DB_COLUMN_FAMILY_CLUSTER p d2). intros l2 l1 He1 He2 Hk.
  assert (l1.*1 = l2.*1) as Ekeys.
  { apply Hk. intros k. rewrite !list_elem_of_fmap. specialize (Hv k). unfold meta in Hv.
    split; intros ([k' v] & -> & Hin); cbn [fst] in Hv.
    - apply He1 in Hin as [Hin Hp]. cbn [fst snd] in Hin, Hp. rewrite Hin in Hv.
      destruct (contents d2 DB_COLUMN_FAMILY_CLUSTER !! k') as [v'|] eqn:Ev; [|inversion Hv].
      exists (k', v'). split; [done|]. by apply He2.
    - apply He2 in Hin as [Hin Hp]. cbn [fst snd] in Hin, Hp. rewrite Hin in Hv.
      destruct (contents d1 DB_COLUMN_FAMILY_CLUSTER !! k') as [v'|] eqn:Ev; [|inversion Hv].
      exists (k', v'). split; [done|]. by apply He1. }
  clear Hk. assert (forall kv1 kv2, kv1 ∈ l1 -> kv2 ∈ l2 -> kv1.1 = kv2.1 -> same_pair kv1 kv2) as Hpair.
  { intros [k v1] [k' v2] [H1 _]%He1 [H2 _]%He2 Ek. cbn [fst snd] in *. subst k'. split; [done|]. cbn. specialize (Hv k).
    unfold meta in Hv. rewrite H1, H2 in Hv. by inversion Hv. }
  clear He1 He2. revert l2 Ekeys Hpair. induction l1 as [|kv1 l1 IH]; intros [|kv2 l2]; try done; intros Ek Hpair.
  cbn in Ek. injection Ek as E1 E2. constructor; [apply Hpair; [by left|by left|done]|].
  apply IH; [done|]. intros x y Hx Hy. apply Hpair; by right.
Qed.

Lemma prefix_agree p l1 l2 :
  Forall2 same_pair l1 l2 ->
  Forall2 (fun kv1 kv2 => same_pair kv1 kv2 /\ starts_with p kv1.1 = true) (prefix_loop p l1) (prefix_loop p l2).
Proof.
  induction 1 as [|kv1 kv2 l1 l2 H Hl IH]; cbn; [done|]. destruct H as [Hk Hv]. rewrite <- Hk.
  destruct (starts_with p kv1.1) eqn:Es; [|done]. by constructor.
Qed.

(** The wrapped values under a prefix without times. *)
Definition same_wrap (w1 w2 : StorageDataWrap) : Prop := sd_data w1 = sd_data w2.

Lemma readable_agree p l1 l2 :
  (forall k, starts_with p k = true -> timed_key k = false) ->
  Forall2 (fun kv1 kv2 => same_pair kv1 kv2 /\ starts_with p kv1.1 = true) l1 l2 ->
  Forall2 same_wrap (readable l1).*2 (readable l2).*2.
Proof.
  intros Hp. induction 1 as [|[k1 v1] [k2 v2] l1 l2 [[Hk Hv] Hpre] Hl IH]; [done|].
  cbn in Hk, Hv, Hpre. subst k2. destruct Hv as (x1 & x2 & t1 & t2 & -> & -> & Hx).
  apply same_data_eq in Hx as ->; [|auto]. cbn [readable].
  destruct (json_ok (mkStorageDataWrap x2 t1)) as (_ & _ & ->), (json_ok (mkStorageDataWrap x2 t2)) as (_ & _ & ->).
  by constructor.
Qed.

Lemma prefix_list_agree {A} p (f1 : list StorageDataWrap -> M D1 CommonError A)
    (f2 : list StorageDataWrap -> M D2 CommonError A) :
  (forall k, starts_with p k = true -> timed_key k = false) ->
  (forall l1 l2, Forall2 same_wrap l1 l2 -> agree same_db (f1 l1) (f2 l2)) ->
  agree same_db (bind (engine_prefix_list_by_cluster p) f1) (bind (engine_prefix_list_by_cluster p) f2).
Proof.
  intros Hp Hf d1 d2 H. pose proof H as [Hcf _].
  unfold bind, engine_prefix_list_by_cluster, rocksdb_engine_prefix_list, with_cf. rewrite <- Hcf.
  destruct (db_cf_handle DB_COLUMN_FAMILY_CLUSTER d1); [|done]. cbn. apply Hf; [|done].
  eapply readable_agree; [done|]. by apply prefix_agree, iter_agree.
Qed.
End storage.

(** *** The storages that read before they write *)

Lemma acl_get_agree c rt r : agree same_db (acl_get c rt r) (acl_get c rt r).
Proof. apply agree_bind; [by apply get_agree|auto with replica]. Qed.
Lemma acl_save_agree t1 t2 c acl : agree same_db (acl_save t1 c acl) (acl_save t2 c acl).
Proof. apply agree_bind; [apply acl_get_agree|]. intros l. case_match; [apply agree_ret|apply save_agree]. Qed.
Lemma acl_delete_agree t1 t2 c acl : agree same_db (acl_delete t1 c acl) (acl_delete t2 c acl).
Proof. apply agree_bind; [apply acl_get_agree|]. intros l. case_match; [apply agree_ret|apply save_agree]. Qed.

Lemma subscribe_delete_agree c client :
  agree same_db (subscribe_delete_by_client_id c client) (subscribe_delete_by_client_id c client).
Proof.
  apply prefix_list_agree.
  - by intros k [t ->]%starts_with_inv.
  - intros l1 l2 Hl. eapply agree_for_each2; [exact Hl|]. intros w1 w2 Hw. unfold same_wrap in Hw. rewrite Hw.
    apply agree_bind; [unfold from_str; case_match; auto with replica|]. intros sub. apply delete_agree.
Qed.

(** ** Nodes *)

Definition replica (n1 : PlacementNode (D := D1)) (n2 : PlacementNode (D := D2)) : Prop :=
  same_db (pn_db n1) (pn_db n2) /\
  pn_cluster n1 = pn_cluster n2 /\ pn_journal n1 = pn_journal n2 /\ pn_mqtt n1 = pn_mqtt n2.

Lemma on_store_agree {A} (m1 : Z -> M D1 PlacementCenterError A) (m2 : Z -> M D2 PlacementCenterError A) :
  (forall t1 t2, agree same_db (m1 t1) (m2 t2)) -> agree replica (on_store m1) (on_store m2).
Proof.
  intros Hm n1 n2 (Hd & Hc). destruct (Hm (pn_second n1) (pn_second n2) _ _ Hd) as [E1 H1]. unfold on_store.
  destruct (m1 (pn_second n1) (pn_db n1)), (m2 (pn_second n2) (pn_db n2)). cbn in *. by split.
Qed.
Lemma on_common_agree {A} (m1 : Z -> M D1 CommonError A) (m2 : Z -> M D2 CommonError A) :
  (forall t1 t2, agree same_db (m1 t1) (m2 t2)) -> agree replica (on_common m1) (on_common m2).
Proof. intros Hm. apply on_store_agree. intros t1 t2. apply agree_map_err, Hm. Qed.
Lemma on_cluster_agree f : agree replica (on_cluster f) (on_cluster f).
Proof. intros n1 n2 (Hd & Hc & Hj & Hm). split; [done|]. split; [done|]. cbn. by rewrite Hc. Qed.
Lemma on_journal_agree f : agree replica (on_journal f) (on_journal f).
Proof. intros n1 n2 (Hd & Hc & Hj & Hm). split; [done|]. split; [done|]. cbn. by rewrite Hj. Qed.
Lemma on_mqtt_agree f : agree replica (on_mqtt f) (on_mqtt f).
Proof. intros n1 n2 (Hd & Hc & Hj & Hm). split; [done|]. split; [done|]. cbn. by rewrite Hm. Qed.
Lemma decode_req_agree A {P : Prost A} v : agree replica (decode_req A v) (decode_req A v).
Proof. unfold decode_req. case_match; [apply agree_fail|apply agree_ret]. Qed.
Lemma from_json_agree A {J : Json A} v : agree replica (from_json A v) (from_json A v).
Proof. unfold from_json. case_match; [apply agree_fail|apply agree_ret]. Qed.

Hint Resolve on_store_agree on_common_agree on_cluster_agree on_journal_agree on_mqtt_agree decode_req_agree
  from_json_agree save_agree delete_agree acl_save_agree acl_delete_agree subscribe_delete_agree : replica.

Lemma offset_save_agree t1 t2 c g ns s o : agree same_db (offset_save t1 c g ns s o) (offset_save t2 c g ns s o).
Proof. apply save_timed_agree. right. split; [reflexivity|]. left. by exists c, g, ns, s, o, t1, t2. Qed.
Hint Resolve offset_save_agree : replica.

Lemma update_session_agree v : agree replica (route_update_session v) (route_update_session v).
Proof.
  apply agree_bind; [auto with replica|]. intros req. apply agree_bind.
  - apply on_common_agree. intros _ _. by apply get_agree.
  - intros [s|]; eauto with replica.
Qed.
(** A command that reads the clock. *)
Lemma agree_clock {A} (k1 : Z -> Route (D := D1) A) (k2 : Z -> Route (D := D2) A) :
  (forall t1 t2, agree replica (k1 t1) (k2 t2)) ->
  agree replica (bind get (fun n => k1 (pn_millisecond n))) (bind get (fun n => k2 (pn_millisecond n))).
Proof. intros Hk n1 n2 H. unfold bind, get. by apply Hk. Qed.
Lemma create_rule_agree v : agree replica (route_create_topic_rewrite_rule v) (route_create_topic_rewrite_rule v).
Proof.
  apply agree_bind; [auto with replica|]. intros req.
  refine (agree_clock
    (fun t => on_store (fun now => save_topic_rewrite_rule now (cr_cluster_name req) (cr_action req) (cr_source_topic req)
        (mkMqttTopicRewriteRule (cr_cluster_name req) (cr_action req) (cr_source_topic req) (cr_dest_topic req) (cr_regex req) t)))
    (fun t => on_store (fun now => save_topic_rewrite_rule now (cr_cluster_name req) (cr_action req) (cr_source_topic req)
        (mkMqttTopicRewriteRule (cr_cluster_name req) (cr_action req) (cr_source_topic req) (cr_dest_topic req) (cr_regex req) t))) _).
  intros t1 t2. apply on_store_agree. intros now1 now2. apply save_timed_agree. right. split; [reflexivity|]. right. by repeat eexists.
Qed.
Lemma delete_subscribe_agree v : agree replica (route_delete_subscribe v) (route_delete_subscribe v).
Proof. apply agree_bind; [auto with replica|]. intros req. case_match; eauto with replica. Qed.
Hint Resolve update_session_agree create_rule_agree delete_subscribe_agree : replica.

Lemma no_value_agree (m1 : Route (D := D1) unit) (m2 : Route (D := D2) unit) :
  agree replica m1 m2 -> agree replica (no_value m1) (no_value m2).
Proof. intros H. apply agree_bind; auto with replica. Qed.
Lemma with_value_agree (m1 : Route (D := D1) bytes) (m2 : Route (D := D2) bytes) :
  agree replica m1 m2 -> agree replica (with_value m1) (with_value m2).
Proof. intros H. apply agree_bind; auto with replica. Qed.

Ltac agree :=
  repeat first
    [ apply agree_ret | apply decode_req_agree | apply from_json_agree | apply on_cluster_agree
    | apply on_journal_agree | apply on_mqtt_agree
    | lazymatch goal with
      | |- agree _ (on_common _) _ => apply on_common_agree; intros ? ?
      | |- agree _ (on_store _) _ => apply on_store_agree; intros ? ?
      end
    | apply save_agree | apply delete_agree | apply acl_save_agree | apply acl_delete_agree
    | apply offset_save_agree | apply agree_for_each; intros ? | apply agree_bind; [|intros ?; cbv zeta] ].

Lemma route_agree data : agree replica (route data) (route data).
Proof.
  destruct data as [[] value]; cbn [route data_type data_value];
    first [apply no_value_agree | apply with_value_agree | apply agree_ret];
    first [apply update_session_agree | apply create_rule_agree | apply delete_subscribe_agree | agree].
Qed.
End replica.

(** ** Logs *)

(** A node applies the commands of a log, each at its own time. *)
Section log.
Context {D : Type} {RD : RocksDB D} {MP : MetaProst} {MJ : MetaJson}.

Definition at_time (second millisecond : Z) (n : PlacementNode (D := D)) : PlacementNode :=
  mkPlacementNode (pn_db n) (pn_cluster n) (pn_journal n) (pn_mqtt n) second millisecond.
Fixpoint apply_log (log : list (StorageData * (Z * Z))) (n : PlacementNode (D := D))
  : list (outcome PlacementCenterError (option bytes)) * PlacementNode :=
  match log with
  | [] => ([], n)
  | (data, (s, ms)) :: log =>
      let (r, n1) := route data (at_time s ms n) in
      let (rs, n2) := apply_log log n1 in
      (r :: rs, n2)
  end.
End log.

Section logs.
Context {D1 D2 : Type} {RD1 : RocksDB D1} {RS1 : RocksSpec D1} {RR1 : RocksReliable D1}
        {RD2 : RocksDB D2} {RS2 : RocksSpec D2} {RR2 : RocksReliable D2}
        {MP : MetaProst} {MJ : MetaJson}
        {JWS : JsonSpec StorageDataWrap} {JOS : JsonSpec OffsetData} {JRS : JsonSpec MqttTopicRewriteRule}.

Lemma apply_log_agree (log1 log2 : list (StorageData * (Z * Z))) (n1 : PlacementNode (D := D1))
    (n2 : PlacementNode (D := D2)) :
  log1.*1 = log2.*1 -> replica n1 n2 ->
  (apply_log log1 n1).1 = (apply_log log2 n2).1 /\ replica (apply_log log1 n1).2 (apply_log log2 n2).2.
Proof.
  revert log2 n1 n2. induction log1 as [|[data [s1 ms1]] log1 IH]; intros [|[data' [s2 ms2]] log2] n1 n2; try done.
  cbn [fmap list_fmap fst]. intros [= -> E] H. cbn [apply_log].
  destruct (route_agree data' (at_time s1 ms1 n1) (at_time s2 ms2 n2) H) as [E1 H1].
  destruct (route data' (at_time s1 ms1 n1)) as [r1 n1'], (route data' (at_time s2 ms2 n2)) as [r2 n2'].
  cbn in E1, H1. subst r2. destruct (IH log2 n1' n2' E H1) as [E2 H2].
  destruct (apply_log log1 n1'), (apply_log log2 n2'). cbn in *. by subst.
Qed.
End logs.
