(* ===== verification/Snapshots.v ===== *)
(** * Snapshots: what a restore leaves of the data

    A snapshot holds the stored octets of every key; [recover_snapshot] writes
    them back as values of their own, and what was stored in them is no longer
    found. *)

From Stdlib Require Import String.
From stdpp Require Import sorting.
From S2P Require Import Prelude Bytes RustStr Storage RocksEngine PlacementStore PlacementCache PlacementRoute RaftLog RaftMachine.

(** [Vec<u8>] is an array of numbers in JSON, and no array of numbers is a
    [StorageDataWrap], whose first field is a string. *)
Class JsonNumbers {JB : Json ByteVec} {JW : Json StorageDataWrap} : Prop := {
  octets_not_wrap v : exists e, from_slice (A := StorageDataWrap) (json (mkByteVec v)) = inl e
}.

Section restore.
Context {D : Type} {RD : RocksDB D} {RS : RocksSpec D} {RR : RocksReliable D} {MJ : MetaJson}
        {JBS : JsonSpec ByteVec} {JN : JsonNumbers} {BC : Bincode} {BS : BincodeSpec}.
Implicit Types (d : D) (l : list (bytes * bytes)).

Definition reinserted (C : gmap bytes bytes) l : gmap bytes bytes :=
  foldl (fun C kv => <[kv.1 := json (mkByteVec kv.2)]> C) C l.

Lemma reinserted_lookup C l k :
  (exists v, ((k, v) ∈ l) /\ reinserted C l !! k = Some (json (mkByteVec v))) \/
  ((k ∉ l.*1) /\ reinserted C l !! k = C !! k).
Proof.
  revert C. induction l as [|[k0 v0] l IH]; intros C; cbn [reinserted foldl fmap list_fmap fst].
  - right. split; [apply not_elem_of_nil|done].
  - destruct (IH (<[k0 := json (mkByteVec v0)]> C)) as [(v & Hin & E)|(Hni & E)].
    + left. exists v. split; [by right|exact E].
    + unfold reinserted in E. cbn [fst snd]. rewrite E. destruct (decide (k0 = k)) as [->|Hne].
      * left. exists v0. split; [left|by rewrite lookup_insert_eq].
      * right. rewrite lookup_insert_ne by done. split; [|done]. by rewrite not_elem_of_cons.
Qed.

Lemma recover_ok data l d :
  bincode_deserialize data = inr l -> meta_open d ->
  exists d', recover_snapshot data d = (Ok tt, d') /\ meta_open d' /\ meta d' = reinserted (meta d) l.
Proof.
  intros Hb Ho. unfold recover_snapshot. rewrite Hb. unfold meta_open in Ho. rewrite Ho. clear Hb data.
  revert d Ho. induction l as [|[k v] l IH]; intros d Ho; [by exists d|].
  destruct (engine_write_ok DB_COLUMN_FAMILY_CLUSTER k (mkByteVec v) d Ho) as (d1 & E1 & Hh & Hc & _).
  assert (db_cf_handle DB_COLUMN_FAMILY_CLUSTER d1 = true) as Ho1 by by rewrite Hh.
  destruct (IH d1 Ho1) as (d2 & E2 & Ho2 & Hm). exists d2. rewrite for_each_cons. cbn [fst snd].
  rewrite (bind_ok _ _ _ _ _ (map_err_ok _ _ _ _ _ E1)). split; [done|]. split; [done|].
  rewrite Hm. unfold meta. by rewrite Hc.
Qed.

(** What a snapshot of a database holds. *)
Lemma build_ok d :
  meta_open d ->
  exists l, bincode_deserialize (build_snapshot d) = inr l /\ forall k v, (k, v) ∈ l <-> meta d !! k = Some v.
Proof.
  intros Ho. exists (db_iter_from DB_COLUMN_FAMILY_CLUSTER [] d). unfold build_snapshot. unfold meta_open in Ho.
  rewrite Ho. unfold engine_read_all_by_cf.
  destruct (bincode_roundtrip (db_iter_from DB_COLUMN_FAMILY_CLUSTER [] d)) as (b & Hb & Hd). cbn [fst].
  rewrite Hb. split; [done|]. intros k v. rewrite iter_elem. cbn [fst snd]. unfold meta. split; [tauto|].
  intros H. split; [done|]. by destruct k.
Qed.

(** A key whose value is the octets of a value is not read. *)
Definition unreadable (C : gmap bytes bytes) k : Prop := exists v, C !! k = Some (json (mkByteVec v)).

Lemma unreadable_get {E} {FE : FromErrors E} {A} {J : Json A} k d :
  meta_open d -> unreadable (meta d) k -> exists e, get_as (E := E) A k d = (Err e, d).
Proof.
  intros Ho [v Hv]. unfold get_as, bind, map_err, engine_get_by_cluster, rocksdb_engine_get, with_cf.
  unfold meta_open in Ho. rewrite Ho. unfold engine_read. unfold meta in Hv.
  destruct (get_spec DB_COLUMN_FAMILY_CLUSTER k d) as [->|[e He]]; [|by eapply get_reliable in He].
  rewrite Hv. destruct (json_ok (mkByteVec v)) as (_ & Hne & _). rewrite bool_decide_eq_false_2 by done. cbn [negb].
  destruct (octets_not_wrap v) as [e ->]. eauto.
Qed.

Lemma unreadable_list {E} {FE : FromErrors E} {A} {J : Json A} p d :
  meta_open d -> (forall k, is_Some (meta d !! k) -> unreadable (meta d) k) -> list_as (E := E) A p d = (Ok [], d).
Proof.
  intros Ho Hall. unfold list_as. destruct (engine_read_prefix_ok DB_COLUMN_FAMILY_CLUSTER p d) as (l & E1 & _ & Hl).
  assert (readable l = []) as Er.
  { assert (forall k v, (k, v) ∈ l -> meta d !! k = Some v) as Hm by (intros k v Hin; by apply Hl in Hin as [? _]).
    clear E1 Hl. induction l as [|[k v] l IH]; [done|]. cbn [readable].
    destruct (Hall k) as [v' Hv']; [exists v; apply Hm; by left|].
    rewrite (Hm k v) in Hv' by by left. injection Hv' as ->. destruct (octets_not_wrap v') as [e ->].
    apply IH. intros k' v0 Hin. apply Hm. by right. }
  unfold bind, map_err, engine_prefix_list_by_cluster, rocksdb_engine_prefix_list, with_cf.
  unfold meta_open in Ho. rewrite Ho. rewrite (bind_ok _ _ _ _ _ E1), Er. done.
Qed.
End restore.

(** ** A node that starts from a snapshot *)

Section machine.
Context {D : Type} {RD : RocksDB D} {RS : RocksSpec D} {RR : RocksReliable D}
        {R : Type} {RDR : RocksDB R} {RSR : RocksSpec R} {RRR : RocksReliable R} {RX : RocksRange R} {RXS : RocksRangeSpec R}
        {MI : MapIter} {MZ : MapIterZ} {MP : MetaProst} {MJ : MetaJson}
        {JBS : JsonSpec ByteVec} {JN : JsonNumbers} {BC : Bincode} {BS : BincodeSpec} {Mem : Type}
        {JS : Json (StoredSnapshot Mem)} {JSS : JsonSpec (StoredSnapshot Mem)} (leader_text : LogId -> bytes).
Implicit Types (s : StateMachineStore (D := D) (R := R) (Mem := Mem)).

(** Every key of the database [d] is still there, and none can be read. *)
Definition all_unreadable (d d' : D) : Prop :=
  meta_open d' /\ (forall k, is_Some (meta d !! k) -> unreadable (meta d') k).

Lemma build_snapshot_ok b s :
  raft_open (ms_db s) ->
  exists snap d, machine_build_snapshot leader_text b s =
      (Ok snap, mkStateMachineStore (ms_last_applied_log_id s) (ms_last_membership s) (ms_snapshot_idx s) d (ms_node s)) /\
    st_data snap = build_snapshot (pn_db (ms_node s)) /\ raft_open d /\
    contents d cf_raft_store !! lit "snapshot" = Some (json snap).
Proof.
  intros Ho. unfold machine_build_snapshot.
  set (snap := mkStoredSnapshot _ _). destruct (put_mark_ok SE_WriteSnapshot (lit "snapshot") snap (ms_db s) Ho)
    as (d & E1 & Ho' & Hc & _).
  exists snap, d. split; [|split; [done|split; [done|]]].
  - unfold set_current_snapshot_, on_raft_db, bind. by rewrite E1.
  - by rewrite Hc, lookup_insert_eq.
Qed.

Lemma update_ok snap l s :
  bincode_deserialize (st_data snap) = inr l -> meta_open (pn_db (ms_node s)) ->
  exists s', update_state_machine_ snap s = (Ok tt, s') /\
    meta_open (pn_db (ms_node s')) /\ meta (pn_db (ms_node s')) = reinserted (meta (pn_db (ms_node s))) l /\
    pn_cluster (ms_node s') = pn_cluster (ms_node s) /\ pn_journal (ms_node s') = pn_journal (ms_node s) /\
    pn_mqtt (ms_node s') = pn_mqtt (ms_node s) /\ ms_db s' = ms_db s.
Proof.
  intros Hl Ho. destruct (recover_ok (st_data snap) l (pn_db (ms_node s)) Hl Ho) as (d & E1 & Ho' & Hm).
  unfold update_state_machine_. rewrite E1. eexists. split; [done|]. by cbn.
Qed.

Lemma reinserted_unreadable (C0 C : gmap bytes bytes) l :
  (forall k v, (k, v) ∈ l <-> C !! k = Some v) -> forall k, is_Some (C !! k) -> unreadable (reinserted C0 l) k.
Proof.
  intros Hl k [v Hv]. destruct (reinserted_lookup C0 l k) as [(v' & _ & E)|(Hni & _)]; [by exists v'|].
  destruct Hni. apply list_elem_of_fmap. exists (k, v). split; [done|]. by apply Hl.
Qed.

Lemma restart_ok s b node :
  raft_open (ms_db s) -> meta_open (pn_db (ms_node s)) -> pn_db node = pn_db (ms_node s) ->
  exists snap s1 s2,
    machine_build_snapshot leader_text b s = (Ok snap, s1) /\
    StateMachineStore_new (ms_db s1) node = (Ok tt, s2) /\
    all_unreadable (pn_db (ms_node s)) (pn_db (ms_node s2)) /\
    (forall k, meta (pn_db (ms_node s)) !! k = None -> meta (pn_db (ms_node s2)) !! k = None).
Proof.
  intros Hr Ho Hn. destruct (build_snapshot_ok b s Hr) as (snap & d & E1 & Hdata & Hr' & Hsnap).
  destruct (build_ok (pn_db (ms_node s)) Ho) as (l & Hl & Hel). rewrite <- Hdata in Hl. eexists snap, _.
  set (s0 := mkStateMachineStore (Mem := Mem) None StoredMembership_default 0 d node).
  destruct (update_ok snap l s0 Hl) as (s2 & E2 & Ho2 & Hm2 & _); [by cbn; rewrite Hn|].
  exists s2. split; [exact E1|]. cbn [ms_db]. split; [|split; [split; [done|]|]].
  - unfold StateMachineStore_new. fold s0. unfold get_current_snapshot_, on_raft_db, bind.
    rewrite (get_mark_ok SE_Read (lit "snapshot") (Some snap) (ms_db s0) Hr' Hsnap). cbn. exact E2.
  - rewrite Hm2. by apply reinserted_unreadable.
  - intros k Hk. rewrite Hm2. destruct (reinserted_lookup (meta (pn_db (ms_node s0))) l k) as [(v & Hin & _)|(_ & ->)].
    + apply Hel in Hin. congruence.
    + cbn. by rewrite Hn.
Qed.
End machine.
