(* ===== verification/InnerCalls.v ===== *)
(** * The channels to the nodes of a cluster

    The manager of [journal/controller/call_node.rs] of the placement center:
    for every node a channel of [tokio::sync::broadcast] and a task that takes
    the messages and calls the node.  The type of the messages is a parameter. *)

From Stdlib Require Import String.
From S2P Require Import Prelude Bytes RustStr Storage PlacementStore PlacementCache.

(** [tokio::sync::broadcast]: a channel holds at least as many messages as it
    was made for. *)
Class Broadcast : Type := {
  broadcast_capacity : nat -> nat;
  broadcast_capacity_ge n : (n <= broadcast_capacity n)%nat
}.

(** A sender with what its receiver has not taken yet; a sender without a
    receiver refuses.  A receiver that lags behind loses the oldest messages. *)
Record InnerCallNodeSender (Msg : Type) : Type := mkInnerCallNodeSender {
  ns_node : BrokerNode;
  ns_subscribed : bool;
  ns_queue : list Msg
}.
Arguments mkInnerCallNodeSender {Msg}.
Arguments ns_node {Msg}.
Arguments ns_subscribed {Msg}.
Arguments ns_queue {Msg}.

Record InnerCallManager (Msg : Type) : Type := mkInnerCallManager {
  node_sender : gmap bytes (InnerCallNodeSender Msg);
  node_stop_sender : gset bytes
}.
Arguments mkInnerCallManager {Msg}.
Arguments node_sender {Msg}.
Arguments node_stop_sender {Msg}.
Definition InnerCallManager_new {Msg : Type} : InnerCallManager Msg := mkInnerCallManager ∅ ∅.

Section calls.
Context {BC : Broadcast} {Msg : Type}.
Implicit Types (m : InnerCallManager Msg) (s : InnerCallNodeSender Msg) (message : Msg).

Definition sender_send message s : InnerCallNodeSender Msg :=
  if ns_subscribed s then
    let queue := ns_queue s ++ [message] in
    mkInnerCallNodeSender (ns_node s) true (drop (length queue - broadcast_capacity 1000) queue)
  else s.

Definition get_node_sender (cluster : bytes) (node_id : Z) m : option (InnerCallNodeSender Msg) :=
  node_sender m !! node_key cluster node_id.
Definition add_node_sender (cluster : bytes) (node_id : Z) s m : InnerCallManager Msg :=
  mkInnerCallManager (<[node_key cluster node_id := s]> (node_sender m)) (node_stop_sender m).
(** The task of the node is told to stop, and with it goes what it has not
    taken. *)
Definition remove_node (cluster : bytes) (node_id : Z) m : InnerCallManager Msg :=
  mkInnerCallManager (delete (node_key cluster node_id) (node_sender m))
    (node_stop_sender m ∖ {[node_key cluster node_id]}).
Definition add_node_stop_sender (cluster : bytes) (node_id : Z) m : InnerCallManager Msg :=
  mkInnerCallManager (node_sender m) ({[node_key cluster node_id]} ∪ node_stop_sender m).

(** The task of a node subscribes to the sender it finds under the name of
    the cluster. *)
Definition start_call_thread (cluster_name : bytes) (node : BrokerNode) m : InnerCallManager Msg :=
  match get_node_sender cluster_name (bn_node_id node) m with
  | Some s => add_node_sender cluster_name (bn_node_id node)
                (mkInnerCallNodeSender (ns_node s) true (ns_queue s)) m
  | None => m
  end.

(** One node of [add_call_message]. *)
Definition call_node (cluster_name : bytes) message (node : BrokerNode) m : InnerCallManager Msg :=
  let id := bn_node_id node in
  match get_node_sender cluster_name id m with
  | Some s => add_node_sender cluster_name id (sender_send message s) m
  | None =>
      let m := add_node_sender cluster_name id (mkInnerCallNodeSender node false []) m in
      let m := add_node_stop_sender cluster_name id (start_call_thread cluster_name node m) in
      match get_node_sender cluster_name id m with
      | Some s => add_node_sender cluster_name id (sender_send message s) m
      | None => m
      end
  end.

(** A pass of [journal_call_thread_manager], its loop that starts tasks: a task
    gets the key of its sender for the name of the cluster.  The loop behind it
    signals the tasks whose sender is gone, which ends them and changes nothing
    here. *)
Definition start_missing_threads (order : list (bytes * InnerCallNodeSender Msg)) m : InnerCallManager Msg :=
  foldl (fun m '(key, s) =>
           if bool_decide (key ∈ node_stop_sender m) then m
           else let m := start_call_thread key (ns_node s) m in
                mkInnerCallManager (node_sender m) ({[key]} ∪ node_stop_sender m)) m order.

(** The task of a node takes a message. *)
Definition take_message (cluster : bytes) (node_id : Z) m : option (BrokerNode * Msg * InnerCallManager Msg) :=
  match get_node_sender cluster node_id m with
  | Some s =>
      match ns_subscribed s, ns_queue s with
      | true, message :: queue =>
          Some (ns_node s, message, add_node_sender cluster node_id (mkInnerCallNodeSender (ns_node s) true queue) m)
      | _, _ => None
      end
  | None => None
  end.
End calls.
