(* ===== verification/JournalService.v ===== *)
(** * The journal at the placement center

    [journal/services] (shards and segments), [journal/controller] (the notices
    to the nodes of the journal and the removal of what was deleted) and
    [server/grpc/service_journal.rs].  Commands go through Raft ([client_write]
    of [RaftMachine]); the random choices of the crate [rand], the identifiers
    of [uuid] and the answers of the journal nodes are parameters. *)

From Stdlib Require Import String.
From S2P Require Import Prelude Bytes RustStr Storage RocksEngine PlacementStore PlacementCache PlacementRoute RaftLog RaftMachine InnerCalls.

(** ** Data *)

(** [SegmentStatus] as it is displayed, and [str_to_segment_status]. *)
Definition segment_status_text (s : SegmentStatus) : bytes :=
  match s with
  | Idle => lit "Idle"
  | PreWrite => lit "PreWrite"
  | Write => lit "Write"
  | PreSealUp => lit "PreSealUp"
  | SealUp => lit "SealUp"
  | PreDelete => lit "PreDelete"
  | Deleting => lit "Deleting"
  end.
Definition str_to_segment_status (s : bytes) : option SegmentStatus :=
  if bool_decide (s = lit "Idle") then Some Idle
  else if bool_decide (s = lit "PreWrite") then Some PreWrite
  else if bool_decide (s = lit "Write") then Some Write
  else if bool_decide (s = lit "PreSealUp") then Some PreSealUp
  else if bool_decide (s = lit "SealUp") then Some SealUp
  else if bool_decide (s = lit "PreDelete") then Some PreDelete
  else if bool_decide (s = lit "Deleting") then Some Deleting
  else None.

Definition shard_iden (s : JournalShard) : bytes := js_namespace s ++ lit "," ++ js_shard_name s.
Definition segment_iden (s : JournalSegment) : bytes :=
  sg_cluster_name s ++ lit "," ++ sg_namespace s ++ lit "," ++ sg_shard_name s ++ lit "," ++ decimal (sg_segment_seq s).

Definition with_segment_status (status : SegmentStatus) (s : JournalSegment) : JournalSegment :=
  mkJournalSegment (sg_cluster_name s) (sg_namespace s) (sg_shard_name s) (sg_segment_seq s) (sg_replicas s)
    (sg_leader_epoch s) (sg_leader s) (sg_isr s) status (sg_max_segment_size s).
Definition with_shard_status (status : JournalShardStatus) (s : JournalShard) : JournalShard :=
  mkJournalShard (js_shard_uid s) (js_cluster_name s) (js_namespace s) (js_shard_name s) (js_start_segment_seq s)
    (js_active_segment_seq s) (js_last_segment_seq s) status (js_config s) (js_create_time s).
Definition with_segments (start active last : Z) (s : JournalShard) : JournalShard :=
  mkJournalShard (js_shard_uid s) (js_cluster_name s) (js_namespace s) (js_shard_name s) start
    active last (js_status s) (js_config s) (js_create_time s).

Record JournalNodeExtend : Type := mkJournalNodeExtend {
  data_fold : list bytes; tcp_addr : bytes; tcps_addr : bytes }.

Record ShardName : Type := mkShardName { rq_cluster_name : bytes; rq_namespace : bytes; rq_shard_name : bytes }.
Record CreateShardRequest : Type := mkCreateShardRequest { csr_name : ShardName; csr_shard_config : bytes }.
Record CreateShardReply : Type := mkCreateShardReply { csr_segment_no : Z; csr_replica : list Z }.
Record UpdateSegmentStatusRequest : Type := mkUpdateSegmentStatusRequest {
  uss_name : ShardName; uss_segment_seq : Z; uss_cur_status : bytes; uss_next_status : bytes }.
Record UpdateSegmentMetaRequest : Type := mkUpdateSegmentMetaRequest {
  usm_name : ShardName; usm_segment_no : Z; usm_start_offset : Z; usm_end_offset : Z;
  usm_start_timestamp : Z; usm_end_timestamp : Z }.

(** ** Notices: [journal/controller/call_node.rs] *)

Inductive JournalUpdateCacheActionType : Type := UC_Set | UC_Delete.
Inductive JournalUpdateCacheResourceType : Type := RT_JournalNode | RT_Shard | RT_Segment | RT_SegmentMeta.
Record JournalInnerCallMessage : Type := mkJournalInnerCallMessage {
  cm_action_type : JournalUpdateCacheActionType;
  cm_resource_type : JournalUpdateCacheResourceType;
  cm_cluster_name : bytes;
  cm_data : bytes
}.

Definition JournalInnerCallManager : Type := InnerCallManager JournalInnerCallMessage.
Definition JournalInnerCallManager_new : JournalInnerCallManager := InnerCallManager_new.

(** ** The services *)

Inductive InnerRequest : Type :=
| DeleteShardFile (addr cluster_name namespace shard_name : bytes)
| DeleteSegmentFile (addr cluster_name namespace shard_name : bytes) (segment : Z).

(** [choose_multiple] takes distinct positions of the list, as many as asked
    for if there are so many; [gen_range] stays in the range.  A number stands
    for the state of the generator. *)
Class Rand : Type := {
  choose_multiple : Z -> list Z -> nat -> list Z;
  gen_range : Z -> nat -> nat;
  unique_id : Z -> bytes
}.
Class RandSpec {RN : Rand} : Prop := {
  choose_multiple_spec seed l n :
    exists l', l ≡ₚ choose_multiple seed l n ++ l' /\ length (choose_multiple seed l n) = Nat.min n (length l);
  gen_range_spec seed n : (0 < n)%nat -> (gen_range seed n < n)%nat
}.
(** What a journal node answers to [get_shard_delete_status] and
    [get_segment_delete_status], after the requests it was sent: whether the
    files are gone. *)
Class JournalInner : Type := {
  get_shard_delete_status : list InnerRequest -> bytes -> bytes -> bytes -> bytes -> bytes + bool;
  get_segment_delete_status : list InnerRequest -> bytes -> bytes -> bytes -> bytes -> Z -> bytes + bool
}.

Section services.
Context {D : Type} {RD : RocksDB D} {MI : MapIter} {MZ : MapIterZ} {MP : MetaProst} {MJ : MetaJson}
        {RW : OpenRaft (D := D)} {BC : Broadcast} {RN : Rand} {JI : JournalInner}
        {JX : Json JournalNodeExtend} {JC : Json JournalShardConfig}
        {JLS : Json (list JournalShard)} {JLG : Json (list JournalSegment)} {JLM : Json (list JournalSegmentMetadata)}.

Record JournalCenter : Type := mkJournalCenter {
  jn_node : PlacementNode (D := D);
  jn_calls : JournalInnerCallManager;
  jn_requests : list InnerRequest;
  jn_seed : Z
}.
Definition Center (A : Type) : Type := M JournalCenter PlacementCenterError A.

Definition on_node {A : Type} (m : Route A) : Center A :=
  fun s => let (r, n) := m (jn_node s) in (r, mkJournalCenter n (jn_calls s) (jn_requests s) (jn_seed s)).
Definition on_calls (f : JournalInnerCallManager -> JournalInnerCallManager) : Center unit :=
  fun s => (Ok tt, mkJournalCenter (jn_node s) (f (jn_calls s)) (jn_requests s) (jn_seed s)).
Definition send_request (r : InnerRequest) : Center unit :=
  fun s => (Ok tt, mkJournalCenter (jn_node s) (jn_calls s) (jn_requests s ++ [r]) (jn_seed s)).
Definition draw : Center Z :=
  fun s => (Ok (jn_seed s), mkJournalCenter (jn_node s) (jn_calls s) (jn_requests s) (jn_seed s + 1)).
Definition engine_cache : Center JournalCacheManager := fun s => (Ok (pn_journal (jn_node s)), s).
Definition cluster_cache : Center PlacementCacheManager := fun s => (Ok (pn_cluster (jn_node s)), s).
Definition on_engine_cache (f : JournalCacheManager -> JournalCacheManager) : Center unit := on_node (on_journal f).

(** [serde_json::to_vec(x)?]. *)
Definition to_json {A : Type} {J : Json A} (a : A) : Center bytes :=
  match to_vec a with inr b => ret b | inl e => fail (PE_SerdeJsonError e) end.

Definition add_call_message (cluster_name : bytes) (message : JournalInnerCallMessage) : Center unit :=
  let! cluster := cluster_cache in
  for_each (get_broker_node_by_cluster cluster_name cluster) (fun node => on_calls (call_node cluster_name message node)).

Definition notice {A : Type} {J : Json A} (action : JournalUpdateCacheActionType)
    (resource : JournalUpdateCacheResourceType) (cluster_name : bytes) (a : A) : Center unit :=
  let! data := to_json a in
  add_call_message cluster_name (mkJournalInnerCallMessage action resource cluster_name data).
Definition update_cache_by_add_journal_node (cluster_name : bytes) (node : BrokerNode) : Center unit :=
  notice UC_Set RT_JournalNode cluster_name node.
Definition update_cache_by_delete_journal_node (cluster_name : bytes) (node : BrokerNode) : Center unit :=
  notice UC_Delete RT_JournalNode cluster_name node.
Definition update_cache_by_set_shard (cluster_name : bytes) (shard_info : JournalShard) : Center unit :=
  notice UC_Set RT_Shard cluster_name shard_info.
Definition update_cache_by_set_segment (cluster_name : bytes) (segment_info : JournalSegment) : Center unit :=
  notice UC_Set RT_Segment cluster_name segment_info.
Definition update_cache_by_set_segment_meta (cluster_name : bytes) (segment_info : JournalSegmentMetadata) : Center unit :=
  notice UC_Set RT_SegmentMeta cluster_name segment_info.

(** *** Commands *)

Definition sync_write {A : Type} {J : Json A} (t : StorageDataType) (a : A) : Center unit :=
  let! value := to_json a in
  let! resp := on_node (client_write (mkStorageData t value)) in
  match resp with Some _ => ret tt | None => fail PE_ExecutionResultIsEmpty end.
Definition sync_save_segment_info (segment : JournalSegment) : Center unit := sync_write JournalSetSegment segment.
Definition sync_delete_segment_info (segment : JournalSegment) : Center unit := sync_write JournalDeleteSegment segment.
Definition sync_save_segment_metadata_info (segment : JournalSegmentMetadata) : Center unit :=
  sync_write JournalSetSegmentMetadata segment.
Definition sync_delete_segment_metadata_info (segment : JournalSegmentMetadata) : Center unit :=
  sync_write JournalDeleteSegmentMetadata segment.
Definition sync_save_shard_info (shard : JournalShard) : Center unit := sync_write JournalSetShard shard.
Definition sync_delete_shard_info (shard : JournalShard) : Center unit := sync_write JournalDeleteShard shard.

Definition update_segment_status (segment : JournalSegment) (status : SegmentStatus) : Center unit :=
  let new_segment := with_segment_status status segment in
  sync_save_segment_info new_segment ;;
  on_engine_cache (set_segment new_segment).
Definition update_shard_status (shard : JournalShard) (status : JournalShardStatus) : Center unit :=
  let new_shard := with_shard_status status shard in
  sync_save_shard_info new_shard ;;
  on_engine_cache (set_shard new_shard).
(** The shard is changed in place. *)
Definition update_start_segment_by_shard (shard : JournalShard) (segment_no : Z) : Center JournalShard :=
  let shard := with_segments segment_no (js_active_segment_seq shard) (js_last_segment_seq shard) shard in
  sync_save_shard_info shard ;;
  on_engine_cache (set_shard shard) ;;
  ret shard.
Definition update_last_segment_by_shard (shard : JournalShard) (segment_no : Z) : Center JournalShard :=
  let shard := with_segments (js_start_segment_seq shard) (js_active_segment_seq shard) segment_no shard in
  sync_save_shard_info shard ;;
  on_engine_cache (set_shard shard) ;;
  ret shard.

(** *** Segments *)

Definition calc_node_fold (cluster_name : bytes) (node_id : Z) : Center bytes :=
  let! cluster := cluster_cache in
  let! node := ok_or (get_broker_node cluster_name node_id cluster) (PE_NodeDoesNotExist node_id) in
  let! data := (match from_slice (bn_extend node) with
                | inr data => ret data
                | inl e => fail (PE_SerdeJsonError e)
                end) in
  let fold_list := data_fold data in
  let! seed := draw in
  if bool_decide (fold_list = []) then panic else unwrap (fold_list !! gen_range seed (length fold_list)).

Fixpoint build_replicas (cluster_name : bytes) (i : Z) (node_ids : list Z) : Center (list Replica) :=
  match node_ids with
  | [] => ret []
  | node_id :: node_ids =>
      let! fold := calc_node_fold cluster_name node_id in
      let! replicas := build_replicas cluster_name (i + 1) node_ids in
      ret (mkReplica i node_id fold :: replicas)
  end.

Definition calc_leader_node (replicas : list Replica) : Center Z :=
  let! first := unwrap (head replicas) in ret (rp_node_id first).

Definition build_segment (shard_info : JournalShard) (segment_no : Z) : Center JournalSegment :=
  let c := js_cluster_name shard_info in
  let! cache := engine_cache in
  match get_segment c (js_namespace shard_info) (js_shard_name shard_info) segment_no cache with
  | Some segment => ret segment
  | None =>
      let! cluster := cluster_cache in
      let node_list := get_broker_node_id_by_cluster c cluster in
      let replica_num := replica_num (js_config shard_info) in
      if blen node_list <? replica_num then fail (PE_NotEnoughNodes replica_num (blen node_list))
      else
        let! seed := draw in
        let node_ids := choose_multiple seed node_list (Z.to_nat replica_num) in
        let! replicas := build_replicas c 0 node_ids in
        if negb (blen replicas =? replica_num)
        then fail (PE_NumberOfReplicasIsIncorrect replica_num (blen replicas))
        else
          let! leader := calc_leader_node replicas in
          ret (mkJournalSegment c (js_namespace shard_info) (js_shard_name shard_info) segment_no replicas 0 leader
                 (map rp_node_id replicas) Idle (max_segment_size (js_config shard_info)))
  end.

Definition new_metadata (segment : JournalSegment) (start_offset start_timestamp : Z) : JournalSegmentMetadata :=
  mkJournalSegmentMetadata (sg_cluster_name segment) (sg_namespace segment) (sg_shard_name segment)
    (sg_segment_seq segment) start_offset (-1) start_timestamp (-1).

(** The cache is read again from the database. *)
Definition reload_journal_cache : Center unit :=
  fun s =>
    let n := jn_node s in
    match (load_journal_cache (pn_journal n) (pn_db n)).1 with
    | Ok m => on_engine_cache (fun _ => m) s
    | Err e => (Err e, s)
    | Panic => (Panic, s)
    | OutOfFuel => (OutOfFuel, s)
    end.

Definition create_segment_by_req (req : ShardName) : Center unit :=
  let c := rq_cluster_name req in
  let ns := rq_namespace req in
  let sh := rq_shard_name req in
  let! cache := engine_cache in
  let! shard := ok_or (get_shard c ns sh cache) (PE_ShardDoesNotExist c) in
  let! next_segment_no := ok_or (next_segment_seq c ns sh cache) (PE_ShardDoesNotExist (shard_iden shard)) in
  if 1 <=? shard_idle_segment_num c ns sh cache then ret tt
  else
    let! step := (if is_some (get_segment c ns sh next_segment_no cache) then ret (shard, false)
                  else
                    let! segment := build_segment shard next_segment_no in
                    sync_save_segment_info segment ;;
                    let metadata := new_metadata segment (if sg_segment_seq segment =? 0 then 0 else -1) (-1) in
                    sync_save_segment_metadata_info metadata ;;
                    let! shard := update_last_segment_by_shard shard next_segment_no in
                    update_cache_by_set_segment_meta c metadata ;;
                    update_cache_by_set_segment c segment ;;
                    ret (shard, true)) in
    let (shard, shard_notice) := step in
    let! cache := engine_cache in
    match get_segment c ns sh (js_active_segment_seq shard) cache with
    | None => reload_journal_cache ;; fail (PE_SegmentDoesNotExist (shard_iden shard))
    | Some active_segment =>
        let sealed := bool_decide (sg_status active_segment ∈ [SealUp; PreDelete; Deleting]) in
        let shard := if sealed
                     then with_segments (js_start_segment_seq shard) next_segment_no (js_last_segment_seq shard) shard
                     else shard in
        if shard_notice || sealed then update_cache_by_set_shard c shard else ret tt
    end.

Definition delete_segment_by_req (req : ShardName) (segment_seq : Z) : Center unit :=
  let c := rq_cluster_name req in
  let ns := rq_namespace req in
  let sh := rq_shard_name req in
  let! cache := engine_cache in
  if negb (is_some (get_shard c ns sh cache)) then fail (PE_ShardDoesNotExist c)
  else
    let! segment := ok_or (get_segment c ns sh segment_seq cache)
                      (PE_SegmentDoesNotExist (sh ++ lit "-" ++ decimal segment_seq)) in
    if negb (bool_decide (sg_status segment = SealUp))
    then fail (PE_NoAllowDeleteSegment (segment_iden segment) (segment_status_text (sg_status segment)))
    else
      update_segment_status segment PreDelete ;;
      let segment := with_segment_status PreDelete segment in
      on_engine_cache (add_wait_delete_segment segment) ;;
      update_cache_by_set_segment (sg_cluster_name segment) segment.

Definition update_segment_status_req (req : UpdateSegmentStatusRequest) : Center unit :=
  let c := rq_cluster_name (uss_name req) in
  let sh := rq_shard_name (uss_name req) in
  let! cache := engine_cache in
  let! segment := ok_or (get_segment c (rq_namespace (uss_name req)) sh (uss_segment_seq req) cache)
                    (PE_SegmentDoesNotExist (sh ++ lit "_" ++ decimal (uss_segment_seq req))) in
  if negb (bool_decide (segment_status_text (sg_status segment) = uss_cur_status req))
  then fail (PE_SegmentStateError (segment_iden segment) (segment_status_text (sg_status segment)) (uss_cur_status req))
  else
    let! new_status := ok_or (str_to_segment_status (uss_next_status req)) (PE_BaseCommonError (CommonError_ [])) in
    let segment := with_segment_status new_status segment in
    sync_save_segment_info segment ;;
    update_cache_by_set_segment c segment.

(** Only positive numbers are taken over. *)
Definition updated_meta (req : UpdateSegmentMetaRequest) (m : JournalSegmentMetadata) : JournalSegmentMetadata :=
  let take_over new old := if 0 <? new then new else old in
  mkJournalSegmentMetadata (mt_cluster_name m) (mt_namespace m) (mt_shard_name m) (mt_segment_seq m)
    (take_over (usm_start_offset req) (mt_start_offset m)) (take_over (usm_end_offset req) (mt_end_offset m))
    (take_over (usm_start_timestamp req) (mt_start_timestamp m)) (take_over (usm_end_timestamp req) (mt_end_timestamp m)).
Definition update_segment_meta_req (req : UpdateSegmentMetaRequest) : Center unit :=
  let c := rq_cluster_name (usm_name req) in
  let ns := rq_namespace (usm_name req) in
  let sh := rq_shard_name (usm_name req) in
  let name := sh ++ lit "_" ++ decimal (usm_segment_no req) in
  if bool_decide (c = []) then fail (PE_RequestParamsNotEmpty c)
  else
    let! cache := engine_cache in
    if negb (is_some (get_segment c ns sh (usm_segment_no req) cache)) then fail (PE_SegmentDoesNotExist name)
    else
      let! segment_meta := ok_or (get_segment_meta c ns sh (usm_segment_no req) cache)
                             (PE_SegmentMetaDoesNotExist name) in
      let segment_meta := updated_meta req segment_meta in
      sync_save_segment_metadata_info segment_meta ;;
      update_cache_by_set_segment_meta c segment_meta.

(** *** Shards *)

Definition new_shard (n : PlacementNode (D := D)) (uid : bytes) (req : ShardName) (config : JournalShardConfig)
  : JournalShard :=
  mkJournalShard uid (rq_cluster_name req) (rq_namespace req) (rq_shard_name req) 0 0 0 Run config (pn_millisecond n).

(** An active segment that is there is put to [Write], whatever its state. *)
Definition create_shard_by_req (req : CreateShardRequest) : Center CreateShardReply :=
  let name := csr_name req in
  let c := rq_cluster_name name in
  let! cluster := cluster_cache in
  let num := get_broker_num c cluster in
  let! shard_config := (match from_slice (csr_shard_config req) with
                        | inr config => ret config
                        | inl e => fail (PE_SerdeJsonError e)
                        end) in
  if num <? replica_num shard_config then fail (PE_NotEnoughNodes (replica_num shard_config) num)
  else
    let! cache := engine_cache in
    let! shard := (match get_shard c (rq_namespace name) (rq_shard_name name) cache with
                   | Some shard => ret shard
                   | None =>
                       let! seed := draw in
                       let! s := get in
                       let shard := new_shard (jn_node s) (unique_id seed) name shard_config in
                       sync_save_shard_info shard ;; ret shard
                   end) in
    let! cache := engine_cache in
    let! segment := (match get_segment (js_cluster_name shard) (js_namespace shard) (js_shard_name shard)
                             (js_active_segment_seq shard) cache with
                     | Some segment => ret segment
                     | None =>
                         let! segment := build_segment shard 0 in
                         sync_save_segment_info segment ;;
                         let metadata := new_metadata segment 0 0 in
                         sync_save_segment_metadata_info metadata ;;
                         update_cache_by_set_segment_meta c metadata ;;
                         ret segment
                     end) in
    update_segment_status segment Write ;;
    let segment := with_segment_status Write segment in
    update_cache_by_set_shard c shard ;;
    update_cache_by_set_segment (sg_cluster_name segment) segment ;;
    ret (mkCreateShardReply (sg_segment_seq segment) (map rp_node_id (sg_replicas segment))).

Definition delete_shard_by_req (req : ShardName) : Center unit :=
  let! cache := engine_cache in
  let! shard := ok_or (get_shard (rq_cluster_name req) (rq_namespace req) (rq_shard_name req) cache)
                  (PE_ShardDoesNotExist (rq_cluster_name req)) in
  update_shard_status shard PrepareDelete ;;
  let shard := with_shard_status PrepareDelete shard in
  on_engine_cache (add_wait_delete_shard shard) ;;
  update_cache_by_set_shard (rq_cluster_name req) shard.

(** ** The removal of deleted shards and segments: [journal/controller/gc.rs] *)

(** [if let Err(e) = m.await { error!(..) }]. *)
Definition logged {A : Type} (m : Center A) : Center unit :=
  fun s => match m s with
           | (Ok _, s') | (Err _, s') => (Ok tt, s')
           | (Panic, s') => (Panic, s')
           | (OutOfFuel, s') => (OutOfFuel, s')
           end.

(** Whether no answer says that the files are still there. *)
Definition no_false (answers : list (bytes + bool)) : bool :=
  forallb (fun a => match a with inr b => b | inl _ => true end) answers.

(** [delete shard/segment by storage/cache]. *)
Definition remove_shard_data (shard : JournalShard) : Center unit :=
  let c := js_cluster_name shard in
  let ns := js_namespace shard in
  let sh := js_shard_name shard in
  let! cache := engine_cache in
  for_each (get_segment_list_by_shard c ns sh cache) (fun segment => logged (sync_delete_segment_info segment)) ;;
  let! cache := engine_cache in
  for_each (get_segment_meta_list_by_shard c ns sh cache)
    (fun segment => logged (sync_delete_segment_metadata_info segment)) ;;
  logged (sync_delete_shard_info shard) ;;
  on_engine_cache (remove_wait_delete_shard shard).

(** The metadata is removed when a node says that it has not removed the
    files. *)
Definition gc_shard (shard : JournalShard) : Center unit :=
  let c := js_cluster_name shard in
  let ns := js_namespace shard in
  let sh := js_shard_name shard in
  if negb (bool_decide (js_status shard = PrepareDelete)) then ret tt
  else fun s =>
    match update_shard_status shard ShardDeleting s with
    | (Err _, s1) => (Ok tt, s1)
    | (Panic, s1) => (Panic, s1)
    | (OutOfFuel, s1) => (OutOfFuel, s1)
    | (Ok tt, s1) =>
        (let! cluster := cluster_cache in
         let node_addrs := get_broker_node_addr_by_cluster c cluster in
         for_each node_addrs (fun addr => send_request (DeleteShardFile addr c ns sh)) ;;
         let! s := get in
         let flag := no_false (map (fun addr => get_shard_delete_status (jn_requests s) addr c ns sh) node_addrs) in
         if negb flag then remove_shard_data shard
         else ret tt) s1
    end.
Definition gc_shard_thread : Center unit :=
  let! cache := engine_cache in for_each (get_wait_delete_shard_list cache) gc_shard.

Definition gc_segment (segment : JournalSegment) : Center unit :=
  let c := sg_cluster_name segment in
  let ns := sg_namespace segment in
  let sh := sg_shard_name segment in
  let seq := sg_segment_seq segment in
  if negb (bool_decide (sg_status segment = PreDelete)) then ret tt
  else
    let! cache := engine_cache in
    match get_shard c ns sh cache with
    | None => on_engine_cache (remove_wait_delete_segment segment)
    | Some shard =>
        logged (update_segment_status segment Deleting) ;;
        let! cluster := cluster_cache in
        let nodes := omap (fun rep => get_broker_node c (rp_node_id rep) cluster) (sg_replicas segment) in
        for_each nodes (fun node => send_request (DeleteSegmentFile (bn_node_inner_addr node) c ns sh seq)) ;;
        let! s := get in
        let flag := no_false (map (fun node => get_segment_delete_status (jn_requests s) (bn_node_inner_addr node)
                                                 c ns sh seq) nodes) in
        if negb flag then
          logged (sync_delete_segment_info segment) ;;
          let! cache := engine_cache in
          match get_segment_meta c ns sh seq cache with
          | Some meta => logged (sync_delete_segment_metadata_info meta)
          | None => ret tt
          end ;;
          logged (update_start_segment_by_shard shard seq) ;;
          on_engine_cache (remove_wait_delete_segment segment)
        else ret tt
    end.
Definition gc_segment_thread : Center unit :=
  let! cache := engine_cache in for_each (get_wait_delete_segment_list cache) gc_segment.

(** ** [server/grpc/service_journal.rs]

    An error becomes a status with its text; the errors are kept as values. *)

Definition known_cluster {A : Type} (c : bytes) (m : Center A) : Center A :=
  let! cluster := cluster_cache in
  if negb (is_some (get_cluster c cluster)) then fail (PE_ClusterDoesNotExist c) else m.
Definition named_cluster {A : Type} (c : bytes) (m : Center A) : Center A :=
  if bool_decide (c = []) then fail (PE_RequestParamsNotEmpty c) else m.
Definition on_db {A : Type} (m : M D CommonError A) : Center A := on_node (on_common (fun _ => m)).
Definition as_list {A : Type} (m : M D CommonError (option A)) : M D CommonError (list A) :=
  let! o := m in ret (match o with Some a => [a] | None => [] end).

Definition grpc_list_shard (req : ShardName) : Center bytes :=
  let c := rq_cluster_name req in
  let no_ns := bool_decide (rq_namespace req = []) in
  let no_sh := bool_decide (rq_shard_name req = []) in
  named_cluster c
    (let! res := on_db (if no_ns && no_sh then shard_list_by_cluster c
                        else if negb no_ns && no_sh then shard_list_by_namespace c (rq_namespace req)
                        else as_list (shard_get c (rq_namespace req) (rq_shard_name req))) in
     to_json res).
Definition grpc_create_shard (req : CreateShardRequest) : Center CreateShardReply :=
  known_cluster (rq_cluster_name (csr_name req)) (create_shard_by_req req).
Definition grpc_delete_shard (req : ShardName) : Center unit :=
  known_cluster (rq_cluster_name req) (delete_shard_by_req req).

(** [req.segment_no as u32]. *)
Definition as_u32 (n : Z) : Z := n mod 2 ^ 32.
Definition grpc_list_segment (req : ShardName) (segment_no : Z) : Center bytes :=
  let c := rq_cluster_name req in
  let ns := rq_namespace req in
  let sh := rq_shard_name req in
  let no_ns := bool_decide (ns = []) in
  let no_sh := bool_decide (sh = []) in
  let all := segment_no =? -1 in
  named_cluster c
    (let! res := on_db (if no_ns && no_sh && all then segment_list_by_cluster c
                        else if negb no_ns && no_sh && all then segment_list_by_namespace c ns
                        else if negb no_ns && negb no_sh && all then segment_list_by_shard c ns sh
                        else as_list (segment_get c ns sh (as_u32 segment_no))) in
     to_json res).
Definition grpc_list_segment_meta (req : ShardName) (segment_no : Z) : Center bytes :=
  let c := rq_cluster_name req in
  let ns := rq_namespace req in
  let sh := rq_shard_name req in
  let no_ns := bool_decide (ns = []) in
  let no_sh := bool_decide (sh = []) in
  let all := segment_no =? -1 in
  named_cluster c
    (let! res := on_db (if no_ns && no_sh && all then segment_meta_list_by_cluster c
                        else if negb no_ns && no_sh && all then segment_meta_list_by_namespace c ns
                        else if negb no_ns && negb no_sh && all then segment_meta_list_by_shard c ns sh
                        else as_list (segment_meta_get c ns sh (as_u32 segment_no))) in
     to_json res).
Definition grpc_create_next_segment (req : ShardName) : Center unit :=
  known_cluster (rq_cluster_name req) (create_segment_by_req req).
Definition grpc_delete_segment (req : ShardName) (segment_seq : Z) : Center unit :=
  known_cluster (rq_cluster_name req) (delete_segment_by_req req segment_seq).
Definition grpc_update_segment_status (req : UpdateSegmentStatusRequest) : Center unit :=
  named_cluster (rq_cluster_name (uss_name req)) (update_segment_status_req req).
Definition grpc_update_segment_meta (req : UpdateSegmentMetaRequest) : Center unit := update_segment_meta_req req.
End services.
