(* ===== verification/JournalTables.v ===== *)
(** * Caches and the tables they are loaded from

    A kind of metadata is kept twice: as values under a prefix of the database
    and as a map of a cache.  [table] says that the two hold the same; it is
    stated once, for any kind of value, and used for the shards, the segments
    and the metadata of segments of the journal. *)

From Stdlib Require Import String.
From stdpp Require Import sorting.
From S2P Require Import Prelude Bytes RustStr Storage RocksEngine PlacementStore PlacementCache PlacementRoute.

(** ** Tables *)

Section table.
Context {JW : Json StorageDataWrap} {JWS : JsonSpec StorageDataWrap} {A : Type} {J : Json A} {JS : JsonSpec A}
        {I : Type} `{!EqDecision I} (P : bytes) (key : A -> bytes) (idx : A -> I) (good : A -> Prop).
Context (key_prefix : forall a, good a -> starts_with P (key a) = true)
        (key_idx : forall a b, good a -> good b -> key a = key b <-> idx a = idx b).
Implicit Types (C : gmap bytes bytes) (look : I -> option A).

Definition table C look : Prop :=
  (forall k v, C !! k = Some v -> starts_with P k = true ->
     exists t a, v = wrapped t a /\ good a /\ k = key a /\ look (idx a) = Some a) /\
  (forall i a, look i = Some a -> good a /\ idx a = i /\ exists t, C !! key a = Some (wrapped t a)).

Lemma table_ext C look look' : (forall i, look' i = look i) -> table C look -> table C look'.
Proof.
  intros E [H1 H2]. split.
  - intros k v Hk Hp. destruct (H1 k v Hk Hp) as (t & a & ?). exists t, a. by rewrite E.
  - intros i a. rewrite E. apply H2.
Qed.

Lemma table_insert C look look' t a :
  table C look -> good a -> (forall i, look' i = if decide (i = idx a) then Some a else look i) ->
  table (<[key a := wrapped t a]> C) look'.
Proof.
  intros [H1 H2] Ha E. split.
  - intros k v [[<- <-]|[Hne Hk]]%lookup_insert_Some Hp.
    + exists t, a. rewrite E, decide_True by done. done.
    + destruct (H1 k v Hk Hp) as (t' & b & -> & Hb & -> & Hl). exists t', b. rewrite E, decide_False; [done|].
      intros Hi. apply Hne. symmetry. by apply key_idx.
  - intros i b. rewrite E. destruct (decide (i = idx a)) as [->|Hne].
    + intros [= ->]. split; [done|]. split; [done|]. exists t. by rewrite lookup_insert_eq.
    + intros Hl. destruct (H2 i b Hl) as (Hb & <- & t' & Hk). split; [done|]. split; [done|]. exists t'.
      rewrite lookup_insert_ne; [done|]. rewrite key_idx by done. congruence.
Qed.

Lemma table_delete C look look' a :
  table C look -> good a -> (forall i, look' i = if decide (i = idx a) then None else look i) ->
  table (delete (key a) C) look'.
Proof.
  intros [H1 H2] Ha E. split.
  - intros k v [Hne Hk]%lookup_delete_Some Hp.
    destruct (H1 k v Hk Hp) as (t' & b & -> & Hb & -> & Hl). exists t', b. rewrite E, decide_False; [done|].
    intros Hi. apply Hne. symmetry. by apply key_idx.
  - intros i b. rewrite E. destruct (decide (i = idx a)) as [->|Hne]; [done|].
    intros Hl. destruct (H2 i b Hl) as (Hb & <- & t' & Hk). split; [done|]. split; [done|]. exists t'.
    rewrite lookup_delete_ne; [done|]. rewrite key_idx by done. congruence.
Qed.

(** Other keys do not matter. *)
Lemma table_other C C' look :
  (forall k, starts_with P k = true -> C' !! k = C !! k) -> table C look -> table C' look.
Proof.
  intros E [H1 H2]. split.
  - intros k v Hk Hp. rewrite E in Hk by done. by apply H1.
  - intros i a Hl. destruct (H2 i a Hl) as (Ha & Hi & t & Hk). split; [done|]. split; [done|]. exists t.
    by rewrite E by auto.
Qed.

Lemma table_typed C look : table C look -> typed A C P.
Proof. intros [H1 _] k v Hk Hp. destruct (H1 k v Hk Hp) as (t & a & -> & _). eauto. Qed.

Lemma table_empty C : (forall k, starts_with P k = true -> C !! k = None) -> table C (fun _ => None).
Proof. intros H. split; [|done]. intros k v Hk Hp. rewrite H in Hk; done. Qed.

(** *** Loading *)

Context {D : Type} {RD : RocksDB D} {RS : RocksSpec D} {RR : RocksReliable D}.

Lemma table_list {E} {FE : FromErrors E} (d : D) look :
  meta_open d -> table (meta d) look ->
  exists l, list_as (E := E) A P d = (Ok l, d) /\ forall a, a ∈ l <-> look (idx a) = Some a.
Proof.
  intros Ho Ht. destruct (list_as_ok (E := E) (A := A) P d Ho (table_typed _ _ Ht)) as (kas & El & _ & Hl).
  exists (kas.*2). split; [done|]. destruct Ht as [H1 H2]. intros a. split.
  - intros ((k & a') & -> & Hin)%list_elem_of_fmap. apply Hl in Hin as [Hp [t Hk]].
    destruct (H1 k _ Hk Hp) as (t' & b & Hw & _ & _ & Hb). by apply wrapped_inj in Hw as ->.
  - intros Hla. destruct (H2 _ _ Hla) as (Ha & _ & t & Hk). apply list_elem_of_fmap. exists (key a, a).
    split; [done|]. apply Hl. split; [by apply key_prefix|]. by exists t.
Qed.

(** A cache filled with a list. *)
Lemma fold_lookup {S} (set : A -> S -> S) (lk : S -> I -> option A) l m look :
  (forall a m i, lk (set a m) i = if decide (i = idx a) then Some a else lk m i) ->
  (forall a, a ∈ l <-> look (idx a) = Some a) -> (forall i a, look i = Some a -> idx a = i) ->
  (forall i, lk m i = None \/ lk m i = look i) ->
  forall i, lk (foldl (fun m a => set a m) m l) i = look i.
Proof.
  intros Hset Hl Hi Hm i.
  assert (forall l' m, (forall a, a ∈ l' -> look (idx a) = Some a) -> (lk m i = None \/ lk m i = look i) ->
            lk (foldl (fun m a => set a m) m l') i = look i \/
            (lk (foldl (fun m a => set a m) m l') i = lk m i /\ forall a, a ∈ l' -> idx a <> i)) as Hf.
  { intros l'. induction l' as [|a l' IH]; intros m' Hl' Hm'.
    - right. split; [done|]. by intros a Ha%elem_of_nil.
    - cbn [foldl]. assert (look (idx a) = Some a) as Hla by (apply Hl'; by left).
      pose proof (Hset a m' i) as Hs. destruct (IH (set a m')) as [|[E1 E2]]; [intros b Hb; apply Hl'; by right| |by left|].
      + rewrite Hs. case_decide as E; [subst; by right|done].
      + rewrite E1, Hs. destruct (decide (i = idx a)) as [->|Hne]; [by left|]. right. split; [done|].
        intros b [->|Hb]%elem_of_cons; [congruence|auto]. }
  destruct (Hf l m) as [|[E1 E2]]; [by intros a Ha; apply Hl|auto|done|]. rewrite E1.
  destruct (Hm i) as [Hn|]; [|done]. rewrite Hn. destruct (look i) as [a|] eqn:E; [|done].
  pose proof (Hi i a E) as Hia. destruct (E2 a); [|done]. apply Hl. by rewrite Hia.
Qed.
End table.
