(* ===== verification/JournalFacts.v ===== *)
(** * The metadata of the journal: cache and database

    [coherent]: the caches of [journal/cache.rs] hold what the database holds.
    The commands of [route/journal.rs] keep it, and a cache that is loaded from
    the database of a coherent node is the cache of that node. *)

From Stdlib Require Import String.
From stdpp Require Import sorting.
From S2P Require Import Prelude Bytes RustStr Storage RocksEngine PlacementStore PlacementCache PlacementRoute RaftLog RaftMachine InnerCalls JournalService JournalTables.

(** ** Names

    The keys of the database are composed with [/], those of the caches with
    [_]. *)
Definition good_name (b : bytes) : Prop := (47 ∉ b) /\ (95 ∉ b).
Definition good_names (c ns sh : bytes) : Prop := good_name c /\ good_name ns /\ good_name sh.

Lemma join_inj sep (c ns x c' ns' x' : bytes) :
  sep ∉ c -> sep ∉ c' -> sep ∉ ns -> sep ∉ ns' ->
  c ++ [sep] ++ ns ++ [sep] ++ x = c' ++ [sep] ++ ns' ++ [sep] ++ x' -> c = c' /\ ns = ns' /\ x = x'.
Proof.
  intros Hc Hc' Hn Hn' E. apply sep_inj in E as [-> E]; [|done..]. by apply sep_inj in E as [-> ->].
Qed.

Lemma shard_key_inj c ns sh c' ns' sh' :
  good_names c ns sh -> good_names c' ns' sh' -> shard_key c ns sh = shard_key c' ns' sh' ->
  c = c' /\ ns = ns' /\ sh = sh'.
Proof. intros ((_ & ?) & (_ & ?) & _) ((_ & ?) & (_ & ?) & _). by apply join_inj. Qed.
Lemma key_shard_inj c ns sh c' ns' sh' :
  good_names c ns sh -> good_names c' ns' sh' -> key_shard c ns sh = key_shard c' ns' sh' ->
  c = c' /\ ns = ns' /\ sh = sh'.
Proof. intros ((? & _) & (? & _) & _) ((? & _) & (? & _) & _) E%app_inv_head. by apply join_inj in E. Qed.

Lemma seq_keys_inj p c ns sh q c' ns' sh' q' :
  good_names c ns sh -> good_names c' ns' sh' -> 0 <= q < 2 ^ 32 -> 0 <= q' < 2 ^ 32 ->
  p ++ c ++ lit "/" ++ ns ++ lit "/" ++ sh ++ lit "/" ++ decimal q
  = p ++ c' ++ lit "/" ++ ns' ++ lit "/" ++ sh' ++ lit "/" ++ decimal q' ->
  c = c' /\ ns = ns' /\ sh = sh' /\ q = q'.
Proof.
  intros ((? & _) & (? & _) & (? & _)) ((? & _) & (? & _) & (? & _)) Hq Hq' E%app_inv_head.
  apply join_inj in E as (-> & -> & E); [|done..]. apply sep_inj in E as [-> E]; [|done..].
  split_and!; [done..|]. apply decimal_inj; [lia..|done].
Qed.

(** ** Good values *)

(** The segment that is recorded as active is the first one. *)
Definition good_shard (s : JournalShard) : Prop :=
  good_names (js_cluster_name s) (js_namespace s) (js_shard_name s) /\ js_active_segment_seq s = 0.
(** The replicas are on distinct nodes, the first of them leads, and all of
    them are in sync. *)
Definition good_segment (s : JournalSegment) : Prop :=
  good_names (sg_cluster_name s) (sg_namespace s) (sg_shard_name s) /\ 0 <= sg_segment_seq s < 2 ^ 32 /\
  NoDup (map rp_node_id (sg_replicas s)) /\ sg_isr s = map rp_node_id (sg_replicas s) /\
  head (sg_isr s) = Some (sg_leader s).
Definition good_meta (m : JournalSegmentMetadata) : Prop :=
  good_names (mt_cluster_name m) (mt_namespace m) (mt_shard_name m) /\ 0 <= mt_segment_seq m < 2 ^ 32.

Definition shard_dbkey (s : JournalShard) : bytes := key_shard (js_cluster_name s) (js_namespace s) (js_shard_name s).
Definition segment_dbkey (s : JournalSegment) : bytes :=
  key_segment (sg_cluster_name s) (sg_namespace s) (sg_shard_name s) (sg_segment_seq s).
Definition meta_dbkey (m : JournalSegmentMetadata) : bytes :=
  key_segment_metadata (mt_cluster_name m) (mt_namespace m) (mt_shard_name m) (mt_segment_seq m).
Definition segment_idx (s : JournalSegment) : bytes * Z := (key_of_segment s, sg_segment_seq s).
Definition meta_idx (m : JournalSegmentMetadata) : bytes * Z := (key_of_meta m, mt_segment_seq m).

Lemma shard_key_idx a b : good_shard a -> good_shard b -> shard_dbkey a = shard_dbkey b <-> key_of_shard a = key_of_shard b.
Proof.
  intros [Ha _] [Hb _]. unfold shard_dbkey, key_of_shard. split; intros E.
  - apply key_shard_inj in E as (-> & -> & ->); done.
  - apply shard_key_inj in E as (-> & -> & ->); done.
Qed.
Lemma segment_key_idx a b : good_segment a -> good_segment b -> segment_dbkey a = segment_dbkey b <-> segment_idx a = segment_idx b.
Proof.
  intros (Ha & Hqa & _) (Hb & Hqb & _). unfold segment_dbkey, segment_idx, key_of_segment. split; intros E.
  - apply seq_keys_inj in E as (-> & -> & -> & ->); done.
  - injection E as (-> & -> & ->)%shard_key_inj ->; done.
Qed.
Lemma meta_key_idx a b : good_meta a -> good_meta b -> meta_dbkey a = meta_dbkey b <-> meta_idx a = meta_idx b.
Proof.
  intros (Ha & Hqa) (Hb & Hqb). unfold meta_dbkey, meta_idx, key_of_meta. split; intros E.
  - apply seq_keys_inj in E as (-> & -> & -> & ->); done.
  - injection E as (-> & -> & ->)%shard_key_inj ->; done.
Qed.

(** ** Coherence *)

Section coherent.
Context {D : Type} {RD : RocksDB D} {RS : RocksSpec D} {RR : RocksReliable D} {MP : MetaProst} {MJ : MetaJson}
        {JWS : JsonSpec StorageDataWrap} {JSS : JsonSpec JournalShard} {JGS : JsonSpec JournalSegment}
        {JMS : JsonSpec JournalSegmentMetadata}.
Implicit Types (n : PlacementNode (D := D)) (m : JournalCacheManager) (d : D) (C : gmap bytes bytes).

Definition look_shard m (k : bytes) : option JournalShard := shard_list m !! k.
Definition look_segment m (i : bytes * Z) : option JournalSegment := lookup2 i.1 i.2 (segment_list m).
Definition look_meta m (i : bytes * Z) : option JournalSegmentMetadata := lookup2 i.1 i.2 (segment_meta_list m).

Abbreviation shard_table := (table key_all_shard shard_dbkey key_of_shard good_shard).
Abbreviation segment_table := (table key_all_segment segment_dbkey segment_idx good_segment).
Abbreviation meta_table := (table key_all_segment_metadata meta_dbkey meta_idx good_meta).

Definition tables C m : Prop :=
  shard_table C (look_shard m) /\ segment_table C (look_segment m) /\ meta_table C (look_meta m).
Definition coherent n : Prop := meta_open (pn_db n) /\ tables (meta (pn_db n)) (pn_journal n).

Lemma shard_prefix a : good_shard a -> starts_with key_all_shard (shard_dbkey a) = true.
Proof. intros _. apply starts_with_app. Qed.
Lemma segment_prefix a : good_segment a -> starts_with key_all_segment (segment_dbkey a) = true.
Proof. intros _. apply starts_with_app. Qed.
Lemma meta_prefix a : good_meta a -> starts_with key_all_segment_metadata (meta_dbkey a) = true.
Proof. intros _. apply starts_with_app. Qed.

(** A key of one table is not a key of another. *)
Lemma insert_other C p k k' v :
  starts_with p k = false -> starts_with p k' = true -> (<[k := v]> C) !! k' = C !! k'.
Proof. intros Hk Hk'. rewrite lookup_insert_ne; [done|]. congruence. Qed.
Lemma delete_other C p k k' : starts_with p k = false -> starts_with p k' = true -> delete k C !! k' = C !! k'.
Proof. intros Hk Hk'. rewrite lookup_delete_ne; [done|]. congruence. Qed.

Ltac other_table prefix :=
  eapply (table_other _ _ _ _ prefix);
  [intros ? ?; first [eapply insert_other|eapply delete_other]; [|eassumption]; reflexivity|eassumption].

Lemma look_set_shard s m k :
  look_shard (set_shard s m) k = if decide (k = key_of_shard s) then Some s else look_shard m k.
Proof. unfold look_shard. cbn. case_decide; [subst; by rewrite lookup_insert_eq|by rewrite lookup_insert_ne]. Qed.
Lemma look_set_segment s m i :
  look_segment (set_segment s m) i = if decide (i = segment_idx s) then Some s else look_segment m i.
Proof. destruct i as [k q]. unfold look_segment. cbn. by rewrite lookup2_insert2. Qed.
Lemma look_set_meta s m i :
  look_meta (set_segment_meta s m) i = if decide (i = meta_idx s) then Some s else look_meta m i.
Proof. destruct i as [k q]. unfold look_meta. cbn. by rewrite lookup2_insert2. Qed.

Lemma tables_set_shard C m t s :
  tables C m -> good_shard s -> tables (<[shard_dbkey s := wrapped t s]> C) (set_shard s m).
Proof.
  intros (H1 & H2 & H3) Hs. split; [|split]; [|other_table segment_prefix|other_table meta_prefix].
  eapply table_insert; eauto using shard_key_idx, look_set_shard.
Qed.
Lemma tables_set_segment C m t s :
  tables C m -> good_segment s -> tables (<[segment_dbkey s := wrapped t s]> C) (set_segment s m).
Proof.
  intros (H1 & H2 & H3) Hs. split; [|split]; [other_table shard_prefix| |other_table meta_prefix].
  eapply table_insert; eauto using segment_key_idx, look_set_segment.
Qed.
Lemma tables_set_meta C m t s :
  tables C m -> good_meta s -> tables (<[meta_dbkey s := wrapped t s]> C) (set_segment_meta s m).
Proof.
  intros (H1 & H2 & H3) Hs. split; [|split]; [other_table shard_prefix|other_table segment_prefix|].
  eapply table_insert; eauto using meta_key_idx, look_set_meta.
Qed.

(** The segments of the shard leave the cache with it. *)
Lemma tables_remove_shard C m s :
  tables C m -> good_shard s -> (forall q, lookup2 (key_of_shard s) q (segment_list m) = None) ->
  tables (delete (shard_dbkey s) C) (remove_shard (js_cluster_name s) (js_namespace s) (js_shard_name s) m).
Proof.
  intros (H1 & H2 & H3) Hs Hno. split; [|split]; [| |other_table meta_prefix].
  - eapply table_delete; eauto using shard_prefix, shard_key_idx.
    intros k. unfold look_shard. cbn. fold (key_of_shard s).
    case_decide; [subst; by rewrite lookup_delete_eq|by rewrite lookup_delete_ne].
  - eapply table_ext; [|other_table segment_prefix]. intros [k q]. unfold look_segment. cbn. fold (key_of_shard s).
    rewrite lookup2_delete. case_decide; [subst; by rewrite Hno|done].
Qed.
Lemma tables_remove_segment C m s :
  tables C m -> good_segment s ->
  tables (delete (segment_dbkey s) C)
    (remove_segment (sg_cluster_name s) (sg_namespace s) (sg_shard_name s) (sg_segment_seq s) m).
Proof.
  intros (H1 & H2 & H3) Hs. split; [|split]; [other_table shard_prefix| |other_table meta_prefix].
  eapply table_delete; eauto using segment_prefix, segment_key_idx.
  intros [k q]. unfold look_segment. cbn. by rewrite lookup2_remove2.
Qed.
Lemma tables_remove_meta C m s :
  tables C m -> good_meta s ->
  tables (delete (meta_dbkey s) C)
    (remove_segment_meta (mt_cluster_name s) (mt_namespace s) (mt_shard_name s) (mt_segment_seq s) m).
Proof.
  intros (H1 & H2 & H3) Hs. split; [|split]; [other_table shard_prefix|other_table segment_prefix|].
  eapply table_delete; eauto using meta_prefix, meta_key_idx.
  intros [k q]. unfold look_meta. cbn. by rewrite lookup2_remove2.
Qed.

(** Only the three maps matter. *)
Lemma tables_ext C m m' :
  (forall k, look_shard m' k = look_shard m k) -> (forall i, look_segment m' i = look_segment m i) ->
  (forall i, look_meta m' i = look_meta m i) -> tables C m -> tables C m'.
Proof.
  intros E1 E2 E3 (H1 & H2 & H3).
  split; [|split]; [exact (table_ext _ _ _ _ _ _ _ E1 H1)|exact (table_ext _ _ _ _ _ _ _ E2 H2)|
                    exact (table_ext _ _ _ _ _ _ _ E3 H3)].
Qed.

(** ** Loading *)

Lemma fold_set_shard l m :
  let m' := foldl (fun m s => set_shard s m) m l in
  segment_list m' = segment_list m /\ segment_meta_list m' = segment_meta_list m /\
  wait_delete_shard_list m' = wait_delete_shard_list m /\ wait_delete_segment_list m' = wait_delete_segment_list m.
Proof. revert m. induction l as [|x l IH]; intros m; [done|]. exact (IH (set_shard x m)). Qed.
Lemma fold_set_segment l m :
  let m' := foldl (fun m s => set_segment s m) m l in
  shard_list m' = shard_list m /\ segment_meta_list m' = segment_meta_list m /\
  wait_delete_shard_list m' = wait_delete_shard_list m /\ wait_delete_segment_list m' = wait_delete_segment_list m.
Proof. revert m. induction l as [|x l IH]; intros m; [done|]. exact (IH (set_segment x m)). Qed.
Lemma fold_set_meta l m :
  let m' := foldl (fun m s => set_segment_meta s m) m l in
  shard_list m' = shard_list m /\ segment_list m' = segment_list m /\
  wait_delete_shard_list m' = wait_delete_shard_list m /\ wait_delete_segment_list m' = wait_delete_segment_list m.
Proof. revert m. induction l as [|x l IH]; intros m; [done|]. exact (IH (set_segment_meta x m)). Qed.

Lemma load_ok d m m0 :
  meta_open d -> tables (meta d) m ->
  (forall k, look_shard m0 k = None \/ look_shard m0 k = look_shard m k) ->
  (forall i, look_segment m0 i = None \/ look_segment m0 i = look_segment m i) ->
  (forall i, look_meta m0 i = None \/ look_meta m0 i = look_meta m i) ->
  exists m', load_journal_cache m0 d = (Ok m', d) /\
    (forall k, look_shard m' k = look_shard m k) /\ (forall i, look_segment m' i = look_segment m i) /\
    (forall i, look_meta m' i = look_meta m i) /\
    wait_delete_shard_list m' = wait_delete_shard_list m0 /\ wait_delete_segment_list m' = wait_delete_segment_list m0.
Proof.
  intros Ho (H1 & H2 & H3) M1 M2 M3. unfold load_journal_cache.
  destruct (table_list _ _ _ _ shard_prefix (E := CommonError) d _ Ho H1) as (l1 & E1 & L1).
  destruct (table_list _ _ _ _ segment_prefix (E := CommonError) d _ Ho H2) as (l2 & E2 & L2).
  destruct (table_list _ _ _ _ meta_prefix (E := CommonError) d _ Ho H3) as (l3 & E3 & L3).
  unfold all_shard, all_segment, all_segment_meta.
  rewrite (bind_ok _ _ _ _ _ (map_err_ok PE_BaseCommonError _ _ _ _ E1)). cbv zeta.
  rewrite (bind_ok _ _ _ _ _ (map_err_ok PE_BaseCommonError _ _ _ _ E2)). cbv zeta.
  rewrite (bind_ok _ _ _ _ _ (map_err_ok PE_BaseCommonError _ _ _ _ E3)).
  destruct (fold_set_shard l1 m0) as (A1 & A2 & A3 & A4). set (m1 := foldl _ m0 l1) in *.
  destruct (fold_set_segment l2 m1) as (B1 & B2 & B3 & B4). set (m2 := foldl _ m1 l2) in *.
  destruct (fold_set_meta l3 m2) as (G1 & G2 & G3 & G4). set (m3 := foldl _ m2 l3) in *.
  exists m3. split; [done|]. split_and!.
  - intros k. unfold look_shard at 1. rewrite G1, B1. apply (fold_lookup key_of_shard (fun a => set_shard a) look_shard);
      [exact look_set_shard|exact L1| |exact M1]. intros i a Ha. by apply H1.
  - intros i. unfold look_segment at 1. rewrite G2.
    apply (fold_lookup segment_idx (fun a => set_segment a) look_segment); [exact look_set_segment|exact L2| |].
    + intros j a Ha. by apply H2.
    + intros j. assert (look_segment m1 j = look_segment m0 j) as -> by (unfold look_segment; by rewrite A1). apply M2.
  - intros i. apply (fold_lookup meta_idx (fun a => set_segment_meta a) look_meta); [exact look_set_meta|exact L3| |].
    + intros j a Ha. by apply H3.
    + intros j. assert (look_meta m2 j = look_meta m0 j) as -> by (unfold look_meta; by rewrite B2, A2). apply M3.
  - congruence.
  - congruence.
Qed.

(** ** Commands *)

Inductive journal_cmd : Type :=
| SetShard (s : JournalShard) | DelShard (s : JournalShard)
| SetSegment (s : JournalSegment) | DelSegment (s : JournalSegment)
| SetMeta (m : JournalSegmentMetadata) | DelMeta (m : JournalSegmentMetadata).

Definition cmd_data (c : journal_cmd) : StorageData :=
  match c with
  | SetShard s => mkStorageData JournalSetShard (json s)
  | DelShard s => mkStorageData JournalDeleteShard (json s)
  | SetSegment s => mkStorageData JournalSetSegment (json s)
  | DelSegment s => mkStorageData JournalDeleteSegment (json s)
  | SetMeta m => mkStorageData JournalSetSegmentMetadata (json m)
  | DelMeta m => mkStorageData JournalDeleteSegmentMetadata (json m)
  end.
Definition cmd_cache (c : journal_cmd) : JournalCacheManager -> JournalCacheManager :=
  match c with
  | SetShard s => set_shard s
  | DelShard s => remove_shard (js_cluster_name s) (js_namespace s) (js_shard_name s)
  | SetSegment s => set_segment s
  | DelSegment s => remove_segment (sg_cluster_name s) (sg_namespace s) (sg_shard_name s) (sg_segment_seq s)
  | SetMeta m => set_segment_meta m
  | DelMeta m => remove_segment_meta (mt_cluster_name m) (mt_namespace m) (mt_shard_name m) (mt_segment_seq m)
  end.
(** A shard is deleted after its segments. *)
Definition cmd_ok (c : journal_cmd) m : Prop :=
  match c with
  | SetShard s => good_shard s
  | DelShard s => good_shard s /\ forall q, lookup2 (key_of_shard s) q (segment_list m) = None
  | SetSegment s | DelSegment s => good_segment s
  | SetMeta s | DelMeta s => good_meta s
  end.

Definition with_journal d m n : PlacementNode :=
  mkPlacementNode d (pn_cluster n) m (pn_mqtt n) (pn_second n) (pn_millisecond n).

Lemma on_save {A} {J : Json A} {JS : JsonSpec A} k (a : A) n :
  meta_open (pn_db n) ->
  exists d', on_common (fun now => save_as now k a) n = (Ok tt, with_journal d' (pn_journal n) n) /\ meta_open d' /\
    meta d' = <[k := wrapped (pn_second n) a]> (meta (pn_db n)).
Proof.
  intros Ho. destruct (save_as_ok (E := CommonError) (pn_second n) k a (pn_db n) Ho) as (d' & E & Ho' & Hm).
  exists d'. split; [|done]. unfold on_common, on_store. by rewrite (map_err_ok _ _ _ _ _ E).
Qed.
Lemma on_delete k n :
  meta_open (pn_db n) ->
  exists d', on_common (fun _ => delete_key k) n = (Ok tt, with_journal d' (pn_journal n) n) /\ meta_open d' /\
    meta d' = delete k (meta (pn_db n)).
Proof.
  intros Ho. destruct (delete_key_ok (E := CommonError) k (pn_db n) Ho) as (d' & E & Ho' & Hm).
  exists d'. split; [|done]. unfold on_common, on_store. by rewrite (map_err_ok _ _ _ _ _ E).
Qed.

(** The two shapes of a command. *)
Lemma set_cmd {A} {J : Json A} {JS : JsonSpec A} (a : A) (key : A -> bytes) (f : A -> JournalCacheManager -> JournalCacheManager) n :
  meta_open (pn_db n) ->
  exists d', with_value (let! x := from_json A (json a) in
                         on_common (fun now => save_as now (key x) x) ;; on_journal (f x) ;; ret (json a)) n
             = (Ok (Some (json a)), with_journal d' (f a (pn_journal n)) n) /\ meta_open d' /\
    meta d' = <[key a := wrapped (pn_second n) a]> (meta (pn_db n)).
Proof.
  intros Ho. destruct (on_save (key a) a n Ho) as (d' & E & Hrest). exists d'. split; [|done].
  unfold with_value, from_json. destruct (json_ok a) as (_ & _ & ->). unfold bind. cbn [ret]. by rewrite E.
Qed.
Lemma delete_cmd {A} {J : Json A} {JS : JsonSpec A} (a : A) (key : A -> bytes) (f : A -> JournalCacheManager -> JournalCacheManager) n :
  meta_open (pn_db n) ->
  exists d', no_value (let! x := from_json A (json a) in
                       on_common (fun _ => delete_key (key x)) ;; on_journal (f x)) n
             = (Ok None, with_journal d' (f a (pn_journal n)) n) /\ meta_open d' /\
    meta d' = delete (key a) (meta (pn_db n)).
Proof.
  intros Ho. destruct (on_delete (key a) n Ho) as (d' & E & Hrest). exists d'. split; [|done].
  unfold no_value, from_json. destruct (json_ok a) as (_ & _ & ->). unfold bind. cbn [ret]. by rewrite E.
Qed.

Lemma route_cmd c n :
  coherent n -> cmd_ok c (pn_journal n) ->
  exists r d', route (cmd_data c) n = (Ok r, with_journal d' (cmd_cache c (pn_journal n)) n) /\
    coherent (with_journal d' (cmd_cache c (pn_journal n)) n).
Proof.
  intros [Ho Ht] Hok. unfold coherent. cbn [pn_db pn_journal with_journal].
  destruct c as [s|s|s|s|s|s]; cbn [cmd_data route data_type data_value cmd_cache cmd_ok] in *.
  - destruct (set_cmd s shard_dbkey (fun s => set_shard s) n Ho) as (d' & E & Ho' & Hm).
    exists (Some (json s)), d'. split; [exact E|]. split; [done|]. rewrite Hm. by apply tables_set_shard.
  - destruct (delete_cmd s shard_dbkey (fun s => remove_shard (js_cluster_name s) (js_namespace s) (js_shard_name s)) n Ho)
      as (d' & E & Ho' & Hm). exists None, d'. split; [exact E|]. split; [done|]. rewrite Hm. destruct Hok.
    by apply tables_remove_shard.
  - destruct (set_cmd s segment_dbkey (fun s => set_segment s) n Ho) as (d' & E & Ho' & Hm).
    exists (Some (json s)), d'. split; [exact E|]. split; [done|]. rewrite Hm. by apply tables_set_segment.
  - destruct (delete_cmd s segment_dbkey
                (fun s => remove_segment (sg_cluster_name s) (sg_namespace s) (sg_shard_name s) (sg_segment_seq s)) n Ho)
      as (d' & E & Ho' & Hm). exists None, d'. split; [exact E|]. split; [done|]. rewrite Hm. by apply tables_remove_segment.
  - destruct (set_cmd s meta_dbkey (fun s => set_segment_meta s) n Ho) as (d' & E & Ho' & Hm).
    exists (Some (json s)), d'. split; [exact E|]. split; [done|]. rewrite Hm. by apply tables_set_meta.
  - destruct (delete_cmd s meta_dbkey
                (fun s => remove_segment_meta (mt_cluster_name s) (mt_namespace s) (mt_shard_name s) (mt_segment_seq s)) n Ho)
      as (d' & E & Ho' & Hm). exists None, d'. split; [exact E|]. split; [done|]. rewrite Hm. by apply tables_remove_meta.
Qed.
End coherent.
