(* ===== verification/JournalInv.v ===== *)
(** * What the services of the journal keep

    The requests of [service_journal.rs] and the rounds of [gc.rs] at the
    leader, whatever their outcome, leave the caches of the journal equal to the
    database and every segment well formed. *)

From Stdlib Require Import String.
From stdpp Require Import sorting.
From S2P Require Import Prelude Bytes RustStr Storage RocksEngine PlacementStore PlacementCache PlacementRoute RaftLog RaftMachine InnerCalls JournalService JournalTables JournalFacts.

(** ** Triples

    From a state with [I], an action leads to a state with [I], and a value that
    it returns has [Q]. *)
Definition triple {S E A : Type} (I : S -> Prop) (m : M S E A) (Q : A -> Prop) : Prop :=
  forall s, I s -> I (m s).2 /\ forall a, (m s).1 = Ok a -> Q a.

Section triple.
Context {S E : Type} {I : S -> Prop}.

Lemma triple_ret {A} (a : A) (Q : A -> Prop) : Q a -> triple I (ret (E := E) a) Q.
Proof. intros Ha s Hs. split; [done|]. by intros b [= <-]. Qed.
Lemma triple_fail {A} (e : E) (Q : A -> Prop) : triple I (fail e) Q.
Proof. by intros s Hs. Qed.
Lemma triple_panic {A} (Q : A -> Prop) : triple I (panic (E := E)) Q.
Proof. by intros s Hs. Qed.
Lemma triple_bind {A B} (m : M S E A) (k : A -> M S E B) (Q : A -> Prop) (Q' : B -> Prop) :
  triple I m Q -> (forall a, Q a -> triple I (k a) Q') -> triple I (bind m k) Q'.
Proof.
  intros Hm Hk s Hs. destruct (Hm s Hs) as [H1 H2]. unfold bind. destruct (m s) as [[a|e| |] s']; try done.
  apply Hk; [by apply H2|done].
Qed.
Lemma triple_weaken {A} (m : M S E A) (Q Q' : A -> Prop) : (forall a, Q a -> Q' a) -> triple I m Q -> triple I m Q'.
Proof. intros HQ Hm s Hs. destruct (Hm s Hs) as [H1 H2]. split; [done|]. intros a Ha. by apply HQ, H2. Qed.
Lemma triple_for_each {A} (l : list A) (f : A -> M S E unit) :
  (forall a, a ∈ l -> triple I (f a) (fun _ => True)) -> triple I (for_each l f) (fun _ => True).
Proof.
  induction l as [|a l IH]; intros Hf; cbn [for_each]; [by apply triple_ret|].
  eapply triple_bind; [apply Hf; by left|]. intros _ _. apply IH. intros b Hb. apply Hf. by right.
Qed.
Lemma triple_ok_or {A} (o : option A) (e : E) (Q : A -> Prop) :
  (forall a, o = Some a -> Q a) -> triple I (ok_or o e) Q.
Proof. intros H. destruct o; [by apply triple_ret, H|apply triple_fail]. Qed.
Lemma triple_get : triple I (get (E := E)) I.
Proof. intros s Hs. split; [done|]. by intros a [= <-]. Qed.
End triple.

(** ** The invariant *)

Section invariant.
Context {D : Type} {RD : RocksDB D} {RS : RocksSpec D} {RR : RocksReliable D} {MI : MapIter} {MZ : MapIterZ}
        {MIS : MapIterSpec MI} {MZS : MapIterZSpec MZ} {MP : MetaProst} {MJ : MetaJson}
        {JWS : JsonSpec StorageDataWrap} {JSS : JsonSpec JournalShard} {JGS : JsonSpec JournalSegment}
        {JMS : JsonSpec JournalSegmentMetadata}
        {RW : OpenRaft (D := D)} {RL : OpenRaftLeader} {BC : Broadcast} {RN : Rand} {RNS : RandSpec} {JI : JournalInner}
        {JX : Json JournalNodeExtend} {JC : Json JournalShardConfig}
        {JLS : Json (list JournalShard)} {JLG : Json (list JournalSegment)} {JLM : Json (list JournalSegmentMetadata)}.
Implicit Types (s : JournalCenter (D := D)) (m : JournalCacheManager).

Definition nodes_ok (m : PlacementCacheManager) : Prop :=
  forall c id b, lookup2 c id (node_list m) = Some b -> bn_node_id b = id.

(** What the caches hold is good and found under its own name. *)
Definition cache_good m : Prop :=
  (forall k a, look_shard m k = Some a -> good_shard a /\ key_of_shard a = k) /\
  (forall i a, look_segment m i = Some a -> good_segment a /\ segment_idx a = i) /\
  (forall i a, look_meta m i = Some a -> good_meta a /\ meta_idx a = i) /\
  (forall k a, wait_delete_shard_list m !! k = Some a -> good_shard a) /\
  (forall k a, wait_delete_segment_list m !! k = Some a -> good_segment a).

Definition center_ok s : Prop :=
  coherent (jn_node s) /\ cache_good (pn_journal (jn_node s)) /\ nodes_ok (pn_cluster (jn_node s)).

Abbreviation ok m := (triple center_ok m (fun _ => True)).

Lemma engine_cache_ok : triple center_ok engine_cache cache_good.
Proof. intros s Hs. split; [done|]. intros a [= <-]. apply Hs. Qed.
Lemma cluster_cache_ok : triple center_ok cluster_cache nodes_ok.
Proof. intros s Hs. split; [done|]. intros a [= <-]. apply Hs. Qed.
Lemma on_calls_ok f : ok (on_calls f).
Proof. by intros s Hs. Qed.
Lemma send_request_ok r : ok (send_request r).
Proof. by intros s Hs. Qed.
Lemma draw_ok : ok draw.
Proof. by intros s Hs. Qed.
Lemma to_json_ok {A} {J : Json A} (a : A) : ok (to_json a).
Proof. unfold to_json. case_match; [apply triple_fail|by apply triple_ret]. Qed.
Lemma logged_ok {A} (m : Center A) : ok m -> ok (logged m).
Proof. intros Hm s Hs. destruct (Hm s Hs) as [H1 _]. unfold logged. by destruct (m s) as [[]]. Qed.
Lemma notice_ok {A} {J : Json A} action resource c (a : A) : ok (notice action resource c a).
Proof.
  eapply triple_bind; [apply to_json_ok|]. intros data _. eapply triple_bind; [apply cluster_cache_ok|].
  intros cl _. apply triple_for_each. intros node _. apply on_calls_ok.
Qed.

(** The caches after a command are as good as they were. *)
Lemma cache_good_tables C m :
  tables C m -> (forall k a, wait_delete_shard_list m !! k = Some a -> good_shard a) ->
  (forall k a, wait_delete_segment_list m !! k = Some a -> good_segment a) -> cache_good m.
Proof.
  intros ((_ & H1) & (_ & H2) & (_ & H3)) W1 W2. split_and!; try done.
  - intros k a Ha. by destruct (H1 k a Ha) as (? & ? & _).
  - intros i a Ha. by destruct (H2 i a Ha) as (? & ? & _).
  - intros i a Ha. by destruct (H3 i a Ha) as (? & ? & _).
Qed.
Lemma cmd_cache_wait c m :
  wait_delete_shard_list (cmd_cache c m) = wait_delete_shard_list m /\
  wait_delete_segment_list (cmd_cache c m) = wait_delete_segment_list m.
Proof. by destruct c. Qed.

Definition cmd_sync (c : journal_cmd) : Center unit :=
  match c with
  | SetShard s => sync_save_shard_info s
  | DelShard s => sync_delete_shard_info s
  | SetSegment s => sync_save_segment_info s
  | DelSegment s => sync_delete_segment_info s
  | SetMeta s => sync_save_segment_metadata_info s
  | DelMeta s => sync_delete_segment_metadata_info s
  end.

(** A command at the leader. *)
Lemma cmd_sync_ok c s :
  center_ok s -> cmd_ok c (pn_journal (jn_node s)) ->
  exists n', cmd_sync c s = (Ok tt, mkJournalCenter n' (jn_calls s) (jn_requests s) (jn_seed s)) /\
    pn_journal n' = cmd_cache c (pn_journal (jn_node s)) /\ pn_cluster n' = pn_cluster (jn_node s) /\
    center_ok (mkJournalCenter n' (jn_calls s) (jn_requests s) (jn_seed s)).
Proof.
  intros (Hc & (_ & _ & _ & W1 & W2) & Hn) Hok.
  destruct (route_cmd c (jn_node s) Hc Hok) as (r & d' & E & Hc').
  assert (client_write (cmd_data c) (jn_node s) = (Ok (Some r), with_journal d' (cmd_cache c (pn_journal (jn_node s))) (jn_node s))) as Hw.
  { rewrite client_write_ok by (by rewrite E). unfold reply_of, applied. by rewrite E. }
  eexists. split_and!.
  - destruct c as [x|x|x|x|x|x]; cbn [cmd_sync cmd_data] in *;
      unfold sync_save_shard_info, sync_delete_shard_info, sync_save_segment_info, sync_delete_segment_info,
        sync_save_segment_metadata_info, sync_delete_segment_metadata_info, sync_write, to_json;
      destruct (json_ok x) as (-> & _); unfold bind, ret, on_node; rewrite Hw; reflexivity.
  - done.
  - done.
  - split; [exact Hc'|]. split; [|exact Hn]. cbn [jn_node]. destruct (cmd_cache_wait c (pn_journal (jn_node s))) as [E1 E2].
    eapply cache_good_tables; [apply Hc'|cbn [pn_journal with_journal]..].
    + by rewrite E1.
    + by rewrite E2.
Qed.

(** A cache with the same contents and good lists of what waits. *)
Lemma on_engine_cache_ok f s :
  let m := pn_journal (jn_node s) in
  center_ok s ->
  (forall k, look_shard (f m) k = look_shard m k) -> (forall i, look_segment (f m) i = look_segment m i) ->
  (forall i, look_meta (f m) i = look_meta m i) ->
  (forall k a, wait_delete_shard_list (f m) !! k = Some a -> good_shard a) ->
  (forall k a, wait_delete_segment_list (f m) !! k = Some a -> good_segment a) ->
  center_ok (on_engine_cache f s).2.
Proof.
  intros m ((Ho & Ht) & _ & Hn) E1 E2 E3 W1 W2.
  assert (tables (meta (pn_db (jn_node s))) (f m)) as Ht' by (eapply tables_ext; eauto).
  split; [by split|]. split; [|done]. by eapply cache_good_tables.
Qed.
Lemma on_engine_cache_triple f :
  (forall m, cache_good m ->
     (forall k, look_shard (f m) k = look_shard m k) /\ (forall i, look_segment (f m) i = look_segment m i) /\
     (forall i, look_meta (f m) i = look_meta m i) /\
     (forall k a, wait_delete_shard_list (f m) !! k = Some a -> good_shard a) /\
     (forall k a, wait_delete_segment_list (f m) !! k = Some a -> good_segment a)) ->
  ok (on_engine_cache f).
Proof.
  intros Hf s Hs. split; [|done]. pose proof Hs as (_ & Hg & _). destruct (Hf _ Hg) as (E1 & E2 & E3 & W1 & W2).
  by apply on_engine_cache_ok.
Qed.

Lemma add_wait_shard_ok a : good_shard a -> ok (on_engine_cache (add_wait_delete_shard a)).
Proof.
  intros Ha. apply on_engine_cache_triple. intros m (_ & _ & _ & W1 & W2). split_and!; try done.
  intros k b. cbn. intros [[_ <-]|[_ Hb]]%lookup_insert_Some; eauto.
Qed.
Lemma add_wait_segment_ok a : good_segment a -> ok (on_engine_cache (add_wait_delete_segment a)).
Proof.
  intros Ha. apply on_engine_cache_triple. intros m (_ & _ & _ & W1 & W2). split_and!; try done.
  intros k b. cbn. intros [[_ <-]|[_ Hb]]%lookup_insert_Some; eauto.
Qed.

(** Commands that do not depend on the state. *)
Lemma cmd_triple c : (forall m, cmd_ok c m) -> ok (cmd_sync c).
Proof. intros Hok s Hs. destruct (cmd_sync_ok c s Hs (Hok _)) as (n' & -> & _ & _ & H). by split. Qed.

(** A command, and the value set once more in the cache. *)
Lemma cmd_set_again c (f : JournalCacheManager -> JournalCacheManager) :
  (forall m, cmd_ok c m) ->
  (forall m, let m1 := cmd_cache c m in
     (forall k, look_shard (f m1) k = look_shard m1 k) /\ (forall i, look_segment (f m1) i = look_segment m1 i) /\
     (forall i, look_meta (f m1) i = look_meta m1 i) /\
     wait_delete_shard_list (f m1) = wait_delete_shard_list m1 /\
     wait_delete_segment_list (f m1) = wait_delete_segment_list m1) ->
  ok (cmd_sync c ;; on_engine_cache f).
Proof.
  intros Hok Hf s Hs. destruct (cmd_sync_ok c s Hs (Hok _)) as (n' & E & Hj & _ & H). rewrite (bind_ok _ _ _ _ _ E).
  split; [|done]. destruct (Hf (pn_journal (jn_node s))) as (E1 & E2 & E3 & E4 & E5). rewrite <- Hj in *.
  pose proof H as (_ & (_ & _ & _ & W1 & W2) & _). apply on_engine_cache_ok; try done; cbn [jn_node] in *; by rewrite ?E4, ?E5.
Qed.
Lemma update_segment_status_ok a status : good_segment a -> ok (update_segment_status a status).
Proof.
  intros Ha. apply (cmd_set_again (SetSegment (with_segment_status status a))); [done|]. intros m. cbn. split_and!; try done.
  intros i. rewrite !look_set_segment. by case_decide.
Qed.
Lemma save_shard_twice_ok a : good_shard a -> ok (sync_save_shard_info a ;; on_engine_cache (set_shard a)).
Proof.
  intros Ha. apply (cmd_set_again (SetShard a)); [done|]. intros m. cbn. split_and!; try done.
  intros i. rewrite !look_set_shard. by case_decide.
Qed.
Lemma update_shard_status_ok a status : good_shard a -> ok (update_shard_status a status).
Proof. intros Ha. by apply save_shard_twice_ok. Qed.

Lemma update_last_ok a q : good_shard a -> triple center_ok (update_last_segment_by_shard a q) (fun b =>
  b = with_segments (js_start_segment_seq a) (js_active_segment_seq a) q a).
Proof.
  intros Ha s Hs. unfold update_last_segment_by_shard. cbv zeta. set (b := with_segments _ _ _ _).
  rewrite <- bind_assoc. revert s Hs. eapply triple_bind; [by apply save_shard_twice_ok|]. intros _ _. by apply triple_ret.
Qed.
Lemma update_start_ok a q : good_shard a -> ok (update_start_segment_by_shard a q).
Proof.
  intros Ha s Hs. unfold update_start_segment_by_shard. cbv zeta. set (b := with_segments _ _ _ _).
  rewrite <- bind_assoc. revert s Hs. eapply triple_bind; [by apply save_shard_twice_ok|]. intros _ _. by apply triple_ret.
Qed.

(** ** Segments *)

Lemma calc_node_fold_ok c id : ok (calc_node_fold c id).
Proof.
  eapply triple_bind; [apply cluster_cache_ok|]. intros cl _.
  eapply triple_bind; [by eapply (triple_ok_or _ _ (fun _ => True))|]. intros node _.
  eapply (triple_bind _ _ (fun _ => True)); [case_match; [apply triple_fail|by apply triple_ret]|]. intros data _.
  eapply triple_bind; [apply draw_ok|]. intros seed _. case_match; [apply triple_panic|].
  unfold unwrap. case_match; [by apply triple_ret|apply triple_panic].
Qed.
Lemma build_replicas_ok c i ids :
  triple center_ok (build_replicas c i ids) (fun l => map rp_node_id l = ids).
Proof.
  revert i. induction ids as [|id ids IH]; intros i; cbn [build_replicas]; [by apply triple_ret|].
  eapply triple_bind; [apply calc_node_fold_ok|]. intros fold _. eapply triple_bind; [apply IH|].
  intros l Hl. apply triple_ret. cbn. by rewrite Hl.
Qed.

Lemma node_ids_NoDup c (m : PlacementCacheManager) : nodes_ok m -> NoDup (get_broker_node_id_by_cluster c m).
Proof.
  intros Hm. unfold get_broker_node_id_by_cluster, get_broker_node_by_cluster.
  replace (map bn_node_id (map_iterZ (nodes_of c m)).*2) with ((map_iterZ (nodes_of c m)).*1).
  - rewrite map_iterZ_perm. apply NoDup_fst_map_to_list.
  - assert (forall id b, (id, b) ∈ map_iterZ (nodes_of c m) -> bn_node_id b = id) as H.
    { intros id b Hin. rewrite map_iterZ_perm in Hin. apply elem_of_map_to_list in Hin. apply (Hm c id b).
      unfold nodes_of in Hin. unfold lookup2. by destruct (node_list m !! c). }
    induction (map_iterZ (nodes_of c m)) as [|[id b] l IH]; [done|]. cbn.
    rewrite (H id b) by left. f_equal. apply IH. intros id' b' Hin. apply H. by right.
Qed.

Lemma build_segment_ok sh q :
  good_shard sh -> 0 <= q < 2 ^ 32 -> triple center_ok (build_segment sh q) good_segment.
Proof.
  intros [Hs _] Hq. eapply triple_bind; [apply engine_cache_ok|]. intros cache Hc.
  destruct (get_segment _ _ _ q cache) as [seg|] eqn:Eg.
  { apply triple_ret. destruct Hc as (_ & Hseg & _). by destruct (Hseg (_, q) seg Eg). }
  eapply triple_bind; [apply cluster_cache_ok|]. intros cl Hcl. cbv zeta.
  case_match; [apply triple_fail|]. eapply triple_bind; [apply draw_ok|]. intros seed _.
  eapply triple_bind; [apply build_replicas_ok|]. intros l Hl. case_match; [apply triple_fail|].
  eapply (triple_bind _ _ (fun leader => head (map rp_node_id l) = Some leader)).
  { unfold calc_leader_node. destruct l as [|r l]; [intros s Hs'; by split|]. intros s Hs'. split; [done|]. by intros a [= <-]. }
  intros leader Hlead. apply triple_ret. unfold good_segment. cbn. split_and!; try done; try lia.
  rewrite Hl. destruct (choose_multiple_spec seed (get_broker_node_id_by_cluster (js_cluster_name sh) cl)
    (Z.to_nat (replica_num (js_config sh)))) as (l' & Hp & _).
  pose proof (node_ids_NoDup (js_cluster_name sh) cl Hcl) as Hnd. rewrite Hp in Hnd. by apply NoDup_app in Hnd as [? _].
Qed.

Lemma reload_ok : ok reload_journal_cache.
Proof.
  intros s Hs. pose proof Hs as ((Ho & Ht) & (_ & _ & _ & W1 & W2) & _).
  destruct (load_ok (pn_db (jn_node s)) (pn_journal (jn_node s)) (pn_journal (jn_node s)) Ho Ht)
    as (m' & E & E1 & E2 & E3 & E4 & E5); [by right..|].
  unfold reload_journal_cache. rewrite E. split; [|done].
  apply on_engine_cache_ok; try done; by rewrite ?E4, ?E5.
Qed.

Lemma new_metadata_good a o t : good_segment a -> good_meta (new_metadata a o t).
Proof. by intros (? & ? & _). Qed.

Lemma create_segment_ok req : ok (create_segment_by_req req).
Proof.
  unfold create_segment_by_req. cbv zeta. eapply triple_bind; [apply engine_cache_ok|]. intros cache Hc.
  eapply (triple_bind _ _ good_shard).
  { apply triple_ok_or. intros sh Hsh. by destruct (proj1 Hc _ _ Hsh). }
  intros sh Hsh. eapply (triple_bind _ _ (fun q => 0 <= q < 2 ^ 32)).
  { apply triple_ok_or. intros q Hq. unfold next_segment_seq in Hq. destruct (shard_list cache !! _); [|done].
    injection Hq as <-. apply Z.mod_pos_bound. lia. }
  intros q Hq. case_match; [by apply triple_ret|].
  eapply (triple_bind _ _ (fun step => good_shard step.1)).
  - case_match; [by apply triple_ret|]. eapply triple_bind; [by apply build_segment_ok|]. intros seg Hseg.
    eapply triple_bind; [by apply (cmd_triple (SetSegment seg))|]. intros _ _.
    eapply triple_bind; [apply (cmd_triple (SetMeta _)); intros; by apply new_metadata_good|]. intros _ _.
    eapply triple_bind; [by apply update_last_ok|]. intros sh' ->.
    eapply triple_bind; [apply notice_ok|]. intros _ _. eapply triple_bind; [apply notice_ok|]. intros _ _.
    by apply triple_ret.
  - intros [sh' shard_notice] Hsh'. eapply triple_bind; [apply engine_cache_ok|]. intros cache' _.
    case_match.
    + case_match; [apply notice_ok|by apply triple_ret].
    + eapply triple_bind; [apply reload_ok|]. intros _ _. apply triple_fail.
Qed.

Lemma delete_segment_ok req q : ok (delete_segment_by_req req q).
Proof.
  eapply triple_bind; [apply engine_cache_ok|]. intros cache Hc. case_match; [apply triple_fail|].
  eapply (triple_bind _ _ good_segment).
  { apply triple_ok_or. intros a Ha. destruct Hc as (_ & Hseg & _). by destruct (Hseg (_, q) a Ha). }
  intros a Ha. case_match; [apply triple_fail|].
  eapply triple_bind; [by apply update_segment_status_ok|]. intros _ _.
  eapply triple_bind; [by apply add_wait_segment_ok|]. intros _ _. apply notice_ok.
Qed.
Lemma update_status_req_ok req : ok (update_segment_status_req req).
Proof.
  eapply triple_bind; [apply engine_cache_ok|]. intros cache Hc.
  eapply (triple_bind _ _ good_segment).
  { apply triple_ok_or. intros a Ha. destruct Hc as (_ & Hseg & _). by destruct (Hseg (_, uss_segment_seq req) a Ha). }
  intros a Ha. case_match; [apply triple_fail|].
  eapply triple_bind; [by apply (triple_ok_or _ _ (fun _ => True))|]. intros st _.
  eapply triple_bind; [by apply (cmd_triple (SetSegment (with_segment_status st a)))|]. intros _ _. apply notice_ok.
Qed.
Lemma update_meta_req_ok req : ok (update_segment_meta_req req).
Proof.
  unfold update_segment_meta_req. cbv zeta. case_match; [apply triple_fail|].
  eapply triple_bind; [apply engine_cache_ok|]. intros cache Hc. case_match; [apply triple_fail|].
  eapply (triple_bind _ _ good_meta).
  { apply triple_ok_or. intros a Ha. destruct Hc as (_ & _ & Hm & _). by destruct (Hm (_, usm_segment_no req) a Ha). }
  intros a Ha. eapply triple_bind; [by apply (cmd_triple (SetMeta (updated_meta req a)))|]. intros _ _. apply notice_ok.
Qed.

(** ** Shards *)

Lemma create_shard_ok req :
  good_names (rq_cluster_name (csr_name req)) (rq_namespace (csr_name req)) (rq_shard_name (csr_name req)) ->
  ok (create_shard_by_req req).
Proof.
  intros Hreq. eapply triple_bind; [apply cluster_cache_ok|]. intros cl _. cbv zeta.
  eapply (triple_bind _ _ (fun _ => True)); [case_match; [apply triple_fail|by apply triple_ret]|]. intros config _.
  case_match; [apply triple_fail|]. eapply triple_bind; [apply engine_cache_ok|]. intros cache Hc.
  eapply (triple_bind _ _ good_shard).
  { case_match eqn:Eg; [apply triple_ret; by destruct (proj1 Hc _ _ Eg)|].
    eapply triple_bind; [apply draw_ok|]. intros seed _. eapply triple_bind; [apply triple_get|]. intros s _.
    eapply triple_bind; [by apply (cmd_triple (SetShard (new_shard _ _ _ _)))|]. intros _ _. by apply triple_ret. }
  intros sh Hsh. eapply triple_bind; [apply engine_cache_ok|]. intros cache' Hc'.
  eapply (triple_bind _ _ good_segment).
  { case_match eqn:Eg; [apply triple_ret; destruct Hc' as (_ & Hseg & _); by destruct (Hseg (_, _) _ Eg)|].
    eapply triple_bind; [by apply build_segment_ok|]. intros seg Hseg.
    eapply triple_bind; [by apply (cmd_triple (SetSegment seg))|]. intros _ _.
    eapply triple_bind; [apply (cmd_triple (SetMeta _)); intros; by apply new_metadata_good|]. intros _ _.
    eapply triple_bind; [apply notice_ok|]. intros _ _. by apply triple_ret. }
  intros seg Hseg. eapply triple_bind; [by apply update_segment_status_ok|]. intros _ _.
  eapply triple_bind; [apply notice_ok|]. intros _ _. eapply triple_bind; [apply notice_ok|]. intros _ _. by apply triple_ret.
Qed.
Lemma delete_shard_ok req : ok (delete_shard_by_req req).
Proof.
  eapply triple_bind; [apply engine_cache_ok|]. intros cache Hc.
  eapply (triple_bind _ _ good_shard).
  { apply triple_ok_or. intros sh Hsh. by destruct (proj1 Hc _ _ Hsh). }
  intros sh Hsh. eapply triple_bind; [by apply update_shard_status_ok|]. intros _ _.
  eapply triple_bind; [by apply add_wait_shard_ok|]. intros _ _. apply notice_ok.
Qed.

(** ** The removal of shards and segments *)

Lemma gc_segment_ok a : good_segment a -> ok (gc_segment a).
Proof.
  intros Ha. unfold gc_segment. cbv zeta. case_match; [by apply triple_ret|].
  eapply triple_bind; [apply engine_cache_ok|]. intros cache Hc. case_match eqn:Eg; [|by apply add_wait_segment_ok].
  destruct (proj1 Hc _ _ Eg) as [Hsh _].
  eapply triple_bind; [by apply logged_ok, update_segment_status_ok|]. intros _ _.
  eapply triple_bind; [apply cluster_cache_ok|]. intros cl _.
  eapply triple_bind; [apply triple_for_each; intros node _; apply send_request_ok|]. intros _ _.
  eapply triple_bind; [apply triple_get|]. intros s0 _. case_match; [|by apply triple_ret].
  eapply triple_bind; [by apply logged_ok, (cmd_triple (DelSegment a))|]. intros _ _.
  eapply triple_bind; [apply engine_cache_ok|]. intros cache' (_ & _ & Hm & _).
  eapply (triple_bind _ _ (fun _ => True)).
  { case_match eqn:Em; [|by apply triple_ret]. apply logged_ok, (cmd_triple (DelMeta _)). intros ?.
    by destruct (Hm (_, _) _ Em). }
  intros _ _. eapply triple_bind; [by apply logged_ok, update_start_ok|]. intros _ _. by apply add_wait_segment_ok.
Qed.

(** While the segments of a shard are removed, those that are left are in the
    rest of the list. *)
Definition left_in (K : bytes) (l : list JournalSegment) s : Prop :=
  forall q a, lookup2 K q (segment_list (pn_journal (jn_node s))) = Some a -> a ∈ l.

Lemma delete_segments_ok K l s :
  center_ok s -> Forall (fun a => good_segment a /\ key_of_segment a = K) l -> left_in K l s ->
  exists s', for_each l (fun a => logged (sync_delete_segment_info a)) s = (Ok tt, s') /\ center_ok s' /\ left_in K [] s'.
Proof.
  revert s. induction l as [|a l IH]; intros s Hs Hl Hleft; [by exists s|].
  apply Forall_cons in Hl as [[Ha HK] Hl]. destruct (cmd_sync_ok (DelSegment a) s Hs Ha) as (n' & E & Hj & _ & Hs').
  destruct (IH _ Hs' Hl) as (s' & E' & Hrest).
  - intros q b Hb. cbn [jn_node] in Hb. rewrite Hj in Hb. cbn [cmd_cache remove_segment segment_list] in Hb.
    rewrite lookup2_remove2 in Hb. case_decide as Hne; [done|].
    specialize (Hleft q b Hb). apply elem_of_cons in Hleft as [->|]; [|done]. destruct Hne.
    destruct Hs as (_ & (_ & Hg & _) & _). destruct (Hg (K, q) a Hb) as [_ Hi]. unfold segment_idx in Hi.
    injection Hi as Hk Hq. unfold key_of_segment in *. congruence.
  - exists s'. split; [|done]. rewrite for_each_cons. cbn [cmd_sync] in E. unfold bind, logged. by rewrite E.
Qed.

Lemma segment_list_elem c ns sh m a :
  a ∈ get_segment_list_by_shard c ns sh m <-> exists q, lookup2 (shard_key c ns sh) q (segment_list m) = Some a.
Proof.
  unfold get_segment_list_by_shard, lookup2. rewrite list_elem_of_fmap. split.
  - intros ([q b] & -> & Hin). rewrite map_iterZ_perm in Hin. apply elem_of_map_to_list in Hin. exists q.
    by destruct (segment_list m !! _).
  - intros [q Hq]. exists (q, a). split; [done|]. rewrite map_iterZ_perm, elem_of_map_to_list.
    by destruct (segment_list m !! _).
Qed.
Lemma meta_list_elem c ns sh m a :
  a ∈ get_segment_meta_list_by_shard c ns sh m -> exists q, lookup2 (shard_key c ns sh) q (segment_meta_list m) = Some a.
Proof.
  unfold get_segment_meta_list_by_shard, lookup2. intros ([q b] & -> & Hin)%list_elem_of_fmap.
  rewrite map_iterZ_perm in Hin. apply elem_of_map_to_list in Hin. exists q. by destruct (segment_meta_list m !! _).
Qed.

(** A shard without segments: its metadata, and the shard. *)
Definition without_segments (K : bytes) s : Prop := center_ok s /\ left_in K [] s.

Lemma delete_metas_ok K l s :
  without_segments K s -> Forall good_meta l ->
  exists s', for_each l (fun a => logged (sync_delete_segment_metadata_info a)) s = (Ok tt, s') /\ without_segments K s'.
Proof.
  revert s. induction l as [|a l IH]; intros s [Hs Hleft] Hl; [by exists s|].
  apply Forall_cons in Hl as [Ha Hl]. destruct (cmd_sync_ok (DelMeta a) s Hs Ha) as (n' & E & Hj & _ & Hs').
  destruct (IH (mkJournalCenter n' (jn_calls s) (jn_requests s) (jn_seed s))) as (s' & E' & Hrest); [|done|].
  - split; [done|]. intros q b. cbn [jn_node]. rewrite Hj. apply Hleft.
  - exists s'. split; [|done]. rewrite for_each_cons. cbn [cmd_sync] in E. unfold bind, logged. by rewrite E.
Qed.

Lemma bind_engine_cache {A} (k : JournalCacheManager -> Center A) s : bind engine_cache k s = k (pn_journal (jn_node s)) s.
Proof. done. Qed.

Lemma remove_shard_data_ok a s :
  good_shard a -> center_ok s ->
  exists s', remove_shard_data a s = (Ok tt, s') /\ center_ok s' /\
    look_shard (pn_journal (jn_node s')) (key_of_shard a) = None /\
    (forall q, look_segment (pn_journal (jn_node s')) (key_of_shard a, q) = None) /\
    wait_delete_shard_list (pn_journal (jn_node s')) !! key_of_shard a = Some a.
Proof.
  intros Ha Hs. unfold remove_shard_data. rewrite bind_engine_cache. set (m := pn_journal (jn_node s)).
  pose proof Hs as (_ & (_ & Hg & _) & _).
  destruct (delete_segments_ok (key_of_shard a)
    (get_segment_list_by_shard (js_cluster_name a) (js_namespace a) (js_shard_name a) m) s Hs) as (s1 & E1 & Hs1 & Hl1).
  { apply Forall_forall. intros b [q Hq]%segment_list_elem. destruct (Hg (_, q) b Hq) as [Hb Hi]. split; [done|].
    unfold segment_idx in Hi. by injection Hi. }
  { intros q b Hb. apply segment_list_elem. by exists q. }
  rewrite (bind_ok _ _ _ _ _ E1), bind_engine_cache.
  destruct (delete_metas_ok (key_of_shard a)
    (get_segment_meta_list_by_shard (js_cluster_name a) (js_namespace a) (js_shard_name a) (pn_journal (jn_node s1))) s1)
    as (s2 & E2 & Hs2 & Hl2); [done| |].
  { apply Forall_forall. intros b [q Hq]%meta_list_elem. destruct Hs1 as (_ & (_ & _ & Hm & _) & _).
    by destruct (Hm (_, q) b Hq). }
  rewrite (bind_ok _ _ _ _ _ E2). destruct (cmd_sync_ok (DelShard a) s2 Hs2) as (n' & E3 & Hj & _ & Hs3).
  { split; [done|]. intros q. destruct (lookup2 _ q _) as [b|] eqn:Eb; [|done]. by apply Hl2, elem_of_nil in Eb. }
  cbn [cmd_sync] in E3. eexists. split; [unfold bind at 1, logged; rewrite E3; reflexivity|].
  split; [by apply add_wait_shard_ok|]. cbn [snd jn_node pn_journal on_engine_cache on_node on_journal]. rewrite Hj. split_and!.
  - apply lookup_delete_eq.
  - intros q. unfold look_segment. cbn. by rewrite lookup2_delete, decide_True.
  - apply lookup_insert_eq.
Qed.

Lemma gc_shard_ok a : good_shard a -> ok (gc_shard a).
Proof.
  intros Ha. unfold gc_shard. cbv zeta. case_match; [by apply triple_ret|]. intros s Hs.
  destruct (update_shard_status_ok a ShardDeleting Ha s Hs) as [H1 _].
  destruct (update_shard_status a ShardDeleting s) as [[[]|e| |] s1]; cbn [snd] in *; try (by split).
  revert s1 H1. eapply triple_bind; [apply cluster_cache_ok|]. intros cl _.
  eapply triple_bind; [apply triple_for_each; intros addr _; apply send_request_ok|]. intros _ _.
  eapply triple_bind; [apply triple_get|]. intros s0 _. case_match; [|by apply triple_ret].
  intros s2 Hs2. destruct (remove_shard_data_ok a s2 Ha Hs2) as (s3 & E3 & Hs3 & _). rewrite E3. by split.
Qed.

Lemma gc_shard_thread_ok : ok gc_shard_thread.
Proof.
  eapply triple_bind; [apply engine_cache_ok|]. intros cache (_ & _ & _ & W & _). apply triple_for_each.
  intros a ((k & b) & -> & Hin)%list_elem_of_fmap. rewrite map_iter_perm in Hin. apply elem_of_map_to_list in Hin.
  by apply gc_shard_ok, (W k).
Qed.
Lemma gc_segment_thread_ok : ok gc_segment_thread.
Proof.
  eapply triple_bind; [apply engine_cache_ok|]. intros cache (_ & _ & _ & _ & W). apply triple_for_each.
  intros a ((k & b) & -> & Hin)%list_elem_of_fmap. rewrite map_iter_perm in Hin. apply elem_of_map_to_list in Hin.
  by apply gc_segment_ok, (W k).
Qed.

(** ** Any sequence of requests *)

Inductive JournalRequest : Type :=
| RqCreateShard (req : CreateShardRequest)
| RqDeleteShard (req : ShardName)
| RqCreateNextSegment (req : ShardName)
| RqDeleteSegment (req : ShardName) (segment_seq : Z)
| RqUpdateSegmentStatus (req : UpdateSegmentStatusRequest)
| RqUpdateSegmentMeta (req : UpdateSegmentMetaRequest)
| RqGcShards
| RqGcSegments.

Definition serve (r : JournalRequest) : Center unit :=
  match r with
  | RqCreateShard req => grpc_create_shard req ;; ret tt
  | RqDeleteShard req => grpc_delete_shard req
  | RqCreateNextSegment req => grpc_create_next_segment req
  | RqDeleteSegment req q => grpc_delete_segment req q
  | RqUpdateSegmentStatus req => grpc_update_segment_status req
  | RqUpdateSegmentMeta req => grpc_update_segment_meta req
  | RqGcShards => gc_shard_thread
  | RqGcSegments => gc_segment_thread
  end.

(** New shards have names without separators. *)
Definition request_ok (r : JournalRequest) : Prop :=
  match r with
  | RqCreateShard req => good_names (rq_cluster_name (csr_name req)) (rq_namespace (csr_name req)) (rq_shard_name (csr_name req))
  | _ => True
  end.

Lemma known_cluster_ok {A} c (m : Center A) : ok m -> ok (known_cluster c m).
Proof. intros Hm. eapply triple_bind; [apply cluster_cache_ok|]. intros cl _. case_match; [apply triple_fail|done]. Qed.
Lemma named_cluster_ok {A} c (m : Center A) : ok m -> ok (named_cluster c m).
Proof. intros Hm. unfold named_cluster. case_match; [apply triple_fail|done]. Qed.

Lemma serve_ok r : request_ok r -> ok (serve r).
Proof.
  intros Hr. destruct r; cbn [serve].
  - eapply triple_bind; [by apply known_cluster_ok, create_shard_ok|]. intros _ _. by apply triple_ret.
  - apply known_cluster_ok, delete_shard_ok.
  - apply known_cluster_ok, create_segment_ok.
  - apply known_cluster_ok, delete_segment_ok.
  - apply named_cluster_ok, update_status_req_ok.
  - apply update_meta_req_ok.
  - apply gc_shard_thread_ok.
  - apply gc_segment_thread_ok.
Qed.

(** The requests one after the other, whatever each of them answers. *)
Definition serve_all (rs : list JournalRequest) s : JournalCenter := foldl (fun s r => (serve r s).2) s rs.

Lemma serve_all_ok rs s : Forall request_ok rs -> center_ok s -> center_ok (serve_all rs s).
Proof.
  revert s. induction rs as [|r rs IH]; intros s Hrs Hs; [done|]. apply Forall_cons in Hrs as [Hr Hrs].
  apply IH; [done|]. by apply (serve_ok r Hr s Hs).
Qed.

(** ** What a round does *)

Lemma update_shard_status_run a status s :
  good_shard a -> center_ok s ->
  exists s', update_shard_status a status s = (Ok tt, s') /\ center_ok s' /\
    look_shard (pn_journal (jn_node s')) (key_of_shard a) = Some (with_shard_status status a) /\
    pn_cluster (jn_node s') = pn_cluster (jn_node s) /\ jn_requests s' = jn_requests s.
Proof.
  intros Ha Hs. destruct (cmd_sync_ok (SetShard (with_shard_status status a)) s Hs Ha) as (n' & E & Hj & Hc & _).
  cbn [cmd_sync] in E. destruct (update_shard_status_ok a status Ha s Hs) as [H1 _]. revert H1.
  unfold update_shard_status. cbv zeta. rewrite (bind_ok _ _ _ _ _ E). intros H1. eexists. split; [reflexivity|].
  split; [exact H1|]. split_and!; [apply lookup_insert_eq|exact Hc|done].
Qed.
Lemma send_requests_run {A} (f : A -> InnerRequest) l s :
  for_each l (fun x => send_request (f x)) s
  = (Ok tt, mkJournalCenter (jn_node s) (jn_calls s) (jn_requests s ++ map f l) (jn_seed s)).
Proof.
  revert s. induction l as [|x l IH]; intros s; [by destruct s; cbn; rewrite app_nil_r|].
  rewrite for_each_cons. unfold bind, send_request at 1. rewrite IH. cbn. by rewrite <- app_assoc.
Qed.

(** The shard is still there if the files are gone, and gone if they are not. *)
Lemma gc_shard_run a s :
  let c := js_cluster_name a in
  let ns := js_namespace a in
  let sh := js_shard_name a in
  let addrs := get_broker_node_addr_by_cluster c (pn_cluster (jn_node s)) in
  let requests := jn_requests s ++ map (fun addr => DeleteShardFile addr c ns sh) addrs in
  let gone := no_false (map (fun addr => get_shard_delete_status requests addr c ns sh) addrs) in
  good_shard a -> js_status a = PrepareDelete -> center_ok s ->
  exists s', gc_shard a s = (Ok tt, s') /\ center_ok s' /\
    get_shard c ns sh (pn_journal (jn_node s')) = (if gone then Some (with_shard_status ShardDeleting a) else None).
Proof.
  intros c ns sh addrs requests gone Ha Hst Hs. unfold gc_shard. rewrite bool_decide_eq_true_2 by done. cbn [negb].
  destruct (update_shard_status_run a ShardDeleting s Ha Hs) as (s1 & E1 & Hs1 & Hl & Hc & Hr). rewrite E1.
  unfold bind at 1. cbn [cluster_cache]. rewrite Hc. fold c ns sh addrs.
  rewrite (bind_ok _ _ _ _ _ (send_requests_run _ addrs s1)). unfold bind at 1. cbn [get jn_requests]. rewrite Hr.
  fold requests. fold gone. destruct gone; cbn [negb].
  - eexists. split; [reflexivity|]. split; [exact Hs1|exact Hl].
  - match goal with |- exists _, remove_shard_data a ?s2 = _ /\ _ =>
      destruct (remove_shard_data_ok a s2 Ha Hs1) as (s3 & E3 & Hs3 & Hl3 & _) end.
    exists s3. split; [exact E3|]. by split.
Qed.
End invariant.
