(* ===== verification/PlacementSamples.v ===== *)
(** * Concrete parameters for the placement center

    Instances of the crates that satisfy their contracts: the range operations
    of a database that is a map, serializers that write the code of a value,
    the numbers of a generator.  The examples of the theorems run on them. *)

From Stdlib Require Import String.
From stdpp Require Import sorting.
From S2P Require Import Prelude Bytes RustStr Storage RocksEngine Topics Subscriptions Acl BrokerCache SchemaRegister MqttTypes Broker PlacementStore PlacementCache PlacementRoute RaftLog RaftMachine InnerCalls JournalService.

(** ** RocksDB *)

Definition map_db_range : RocksRange (gmap bytes (gmap bytes bytes)) := {|
  db_delete_range_cf cf from to := fun d => (Ok tt, alter (filter (fun kv => ~ in_range from to kv.1)) cf d);
  db_last cf d := last (@db_iter_from _ map_db cf [] d);
  db_flush_wal := fun d => (Ok tt, d)
|}.

Lemma sorted_last l (kv : bytes * bytes) :
  StronglySorted key_lt l -> last l = Some kv -> kv ∈ l /\ forall x, x ∈ l -> octets_lt kv.1 x.1 = false.
Proof.
  induction 1 as [|x l Hs IH Hx]; [done|]. destruct l as [|y l].
  - intros [= ->]. split; [by left|]. intros z Hz. apply list_elem_of_singleton in Hz as ->. apply octets_lt_irrefl.
  - intros Hl. destruct (IH Hl) as [Hin Hmax]. split; [by right|]. intros z [->|Hz]%elem_of_cons; [|auto].
    rewrite Forall_forall in Hx. specialize (Hx kv Hin). unfold key_lt in Hx.
    destruct (octets_lt kv.1 x.1) eqn:E; [|done]. pose proof (octets_lt_trans _ _ _ Hx E) as Hb.
    by rewrite octets_lt_irrefl in Hb.
Qed.

Lemma map_db_range_spec : @RocksRangeSpec _ map_db map_db_spec map_db_range.
Proof.
  split.
  - intros cf from to d Hcf. eexists. split; [done|].
    destruct (alter_put_spec d (filter (fun kv => ~ in_range from to kv.1)) cf Hcf) as (H1 & H2 & H3). auto.
  - intros cf d. cbn [db_last map_db_range]. destruct (last _) as [kv|] eqn:E.
    + destruct (sorted_last _ _ (@iter_sorted _ map_db map_db_spec cf [] d) E) as [Hin Hmax].
      apply (@iter_elem _ map_db map_db_spec) in Hin as [Hin _]. split; [done|]. intros k [v Hv].
      apply (Hmax (k, v)). apply (@iter_elem _ map_db map_db_spec). split; [done|]. by destruct k.
    + apply last_None in E. apply map_eq. intros k. rewrite lookup_empty.
      destruct (@contents _ map_db map_db_spec d cf !! k) as [v|] eqn:Ek; [|done].
      assert ((k, v) ∈ @db_iter_from _ map_db cf [] d) as Hin
        by (apply (@iter_elem _ map_db map_db_spec); split; [done|by destruct k]).
      by rewrite E, elem_of_nil in Hin.
  - intros d. by exists d.
Qed.

(** ** Codes of the data *)

#[export] Instance StorageDataType_eq_dec : EqDecision StorageDataType.
Proof. solve_decision. Defined.
Definition data_types : list StorageDataType :=
  [ClusterAddNode; ClusterDeleteNode; ClusterAddCluster; ClusterDeleteCluster; KvSet; KvDelete; SchemaSet; SchemaDelete;
   SchemaBindSet; SchemaBindDelete; ResourceConfigSet; ResourceConfigDelete; IdempotentDataSet; IdempotentDataDelete;
   OffsetSet; OffsetDelete; JournalSetShard; JournalDeleteShard; JournalSetSegment; JournalDeleteSegment;
   JournalSetSegmentMetadata; JournalDeleteSegmentMetadata; MqttSetUser; MqttDeleteUser; MqttSetTopic; MqttDeleteTopic;
   MqttSetSession; MqttDeleteSession; MqttUpdateSession; MqttSaveLastWillMessage; MqttSetAcl; MqttDeleteAcl;
   MqttSetBlacklist; MqttDeleteBlacklist; MqttCreateTopicRewriteRule; MqttDeleteTopicRewriteRule; MqttSetSubscribe;
   MqttDeleteSubscribe; MqttSetConnector; MqttDeleteConnector].
Fixpoint type_index (t : StorageDataType) (l : list StorageDataType) : nat :=
  match l with [] => 0%nat | t' :: l => if bool_decide (t = t') then 0%nat else S (type_index t l) end.
#[export] Instance StorageDataType_countable : Countable StorageDataType.
Proof.
  refine (inj_countable' (fun t => type_index t data_types) (fun n => default KvSet (data_types !! n)) _).
  by intros [].
Defined.
#[export] Instance StorageData_eq_dec : EqDecision StorageData.
Proof. solve_decision. Defined.
#[export] Instance StorageData_countable : Countable StorageData.
Proof.
  refine (inj_countable' (fun x => (data_type x, data_value x)) (fun p => mkStorageData p.1 p.2) _). by intros [].
Defined.
#[export] Instance StorageDataWrap_eq_dec : EqDecision StorageDataWrap.
Proof. solve_decision. Defined.
#[export] Instance StorageDataWrap_countable : Countable StorageDataWrap.
Proof.
  refine (inj_countable' (fun x => (sd_data x, sd_create_time x)) (fun p => mkStorageDataWrap p.1 p.2) _). by intros [].
Defined.
#[export] Instance LogId_countable : Countable LogId.
Proof.
  refine (inj_countable' (fun x => (li_term x, li_node_id x, li_index x)) (fun p => mkLogId p.1.1 p.1.2 p.2) _). by intros [].
Defined.
#[export] Instance EntryPayload_eq_dec : EqDecision (EntryPayload unit).
Proof. solve_decision. Defined.
#[export] Instance Entry_eq_dec : EqDecision (Entry unit).
Proof. solve_decision. Defined.
#[export] Instance Entry_countable : Countable (Entry unit).
Proof.
  refine (inj_countable' (fun x => (en_log_id x, match en_payload x with
                                                 | Blank => inl tt | Normal d => inr (Some d) | Membership _ => inr None end))
            (fun p => mkEntry p.1 (match p.2 with
                                   | inl _ => Blank | inr (Some d) => Normal d | inr None => Membership tt end)) _).
  by intros [? [| |[]]].
Defined.
#[export] Instance OffsetData_eq_dec : EqDecision OffsetData.
Proof. solve_decision. Defined.
#[export] Instance OffsetData_countable : Countable OffsetData.
Proof.
  refine (inj_countable' (fun x => (od_cluster_name x, od_group x, od_namespace x, od_shard_name x, od_offset x, od_timestamp x))
            (fun '(a, b, c, d, e, f) => mkOffsetData a b c d e f) _). by intros [].
Defined.
#[export] Instance Rule_eq_dec : EqDecision MqttTopicRewriteRule.
Proof. solve_decision. Defined.
#[export] Instance Rule_countable : Countable MqttTopicRewriteRule.
Proof.
  refine (inj_countable' (fun x => (rr_cluster x, rr_action x, rr_source_topic x, rr_dest_topic x, rr_regex x, rr_timestamp x))
            (fun '(a, b, c, d, e, f) => mkMqttTopicRewriteRule a b c d e f) _). by intros [].
Defined.
#[export] Instance SetRequest_eq_dec : EqDecision SetRequest.
Proof. solve_decision. Defined.
#[export] Instance SetRequest_countable : Countable SetRequest.
Proof. refine (inj_countable' (fun x => (set_key x, set_value x)) (fun p => mkSetRequest p.1 p.2) _). by intros []. Defined.
#[export] Instance DeleteRequest_eq_dec : EqDecision DeleteRequest.
Proof. solve_decision. Defined.
#[export] Instance DeleteRequest_countable : Countable DeleteRequest.
Proof. refine (inj_countable' del_key mkDeleteRequest _). by intros []. Defined.

#[export] Instance JournalShardStatus_countable : Countable JournalShardStatus.
Proof.
  refine (inj_countable' (fun s => match s with Run => 0%nat | PrepareDelete => 1%nat | ShardDeleting => 2%nat end)
            (fun n => match n with 0%nat => Run | 1%nat => PrepareDelete | _ => ShardDeleting end) _). by intros [].
Defined.
#[export] Instance JournalShardConfig_eq_dec : EqDecision JournalShardConfig.
Proof. solve_decision. Defined.
#[export] Instance JournalShardConfig_countable : Countable JournalShardConfig.
Proof.
  refine (inj_countable' (fun x => (replica_num x, max_segment_size x)) (fun p => mkJournalShardConfig p.1 p.2) _).
  by intros [].
Defined.
#[export] Instance JournalShard_eq_dec : EqDecision JournalShard.
Proof. solve_decision. Defined.
#[export] Instance JournalShard_countable : Countable JournalShard.
Proof.
  refine (inj_countable' (fun x => (js_shard_uid x, js_cluster_name x, js_namespace x, js_shard_name x,
                                    (js_start_segment_seq x, js_active_segment_seq x, js_last_segment_seq x),
                                    js_status x, js_config x, js_create_time x))
            (fun '(a, b, c, d, (e, f, g), h, i, j) => mkJournalShard a b c d e f g h i j) _). by intros [].
Defined.
#[export] Instance SegmentStatus_countable : Countable SegmentStatus.
Proof.
  refine (inj_countable' segment_status_text (fun b => default Idle (str_to_segment_status b)) _). by intros [].
Defined.
#[export] Instance Replica_eq_dec : EqDecision Replica.
Proof. solve_decision. Defined.
#[export] Instance Replica_countable : Countable Replica.
Proof.
  refine (inj_countable' (fun x => (rp_replica_seq x, rp_node_id x, rp_fold x)) (fun '(a, b, c) => mkReplica a b c) _).
  by intros [].
Defined.
#[export] Instance JournalSegment_eq_dec : EqDecision JournalSegment.
Proof. solve_decision. Defined.
#[export] Instance JournalSegment_countable : Countable JournalSegment.
Proof.
  refine (inj_countable' (fun x => (sg_cluster_name x, sg_namespace x, sg_shard_name x, sg_segment_seq x, sg_replicas x,
                                    (sg_leader_epoch x, sg_leader x, sg_isr x), sg_status x, sg_max_segment_size x))
            (fun '(a, b, c, d, e, (f, g, h), i, j) => mkJournalSegment a b c d e f g h i j) _). by intros [].
Defined.
#[export] Instance JournalSegmentMetadata_eq_dec : EqDecision JournalSegmentMetadata.
Proof. solve_decision. Defined.
#[export] Instance JournalSegmentMetadata_countable : Countable JournalSegmentMetadata.
Proof.
  refine (inj_countable' (fun x => (mt_cluster_name x, mt_namespace x, mt_shard_name x, mt_segment_seq x,
                                    (mt_start_offset x, mt_end_offset x, mt_start_timestamp x, mt_end_timestamp x)))
            (fun '(a, b, c, d, (e, f, g, h)) => mkJournalSegmentMetadata a b c d e f g h) _). by intros [].
Defined.
#[export] Instance JournalNodeExtend_eq_dec : EqDecision JournalNodeExtend.
Proof. solve_decision. Defined.
#[export] Instance JournalNodeExtend_countable : Countable JournalNodeExtend.
Proof.
  refine (inj_countable' (fun x => (data_fold x, tcp_addr x, tcps_addr x)) (fun '(a, b, c) => mkJournalNodeExtend a b c) _).
  by intros [].
Defined.
#[export] Instance StoredMembership_eq_dec : EqDecision (StoredMembership unit).
Proof. solve_decision. Defined.
#[export] Instance StoredMembership_countable : Countable (StoredMembership unit).
Proof.
  refine (inj_countable' (fun x => (sm_log_id x, sm_membership x)) (fun p => mkStoredMembership p.1 p.2) _). by intros [].
Defined.
#[export] Instance SnapshotMeta_eq_dec : EqDecision (SnapshotMeta unit).
Proof. solve_decision. Defined.
#[export] Instance SnapshotMeta_countable : Countable (SnapshotMeta unit).
Proof.
  refine (inj_countable' (fun x => (sn_last_log_id x, sn_last_membership x, sn_snapshot_id x))
            (fun '(a, b, c) => mkSnapshotMeta a b c) _). by intros [].
Defined.
#[export] Instance StoredSnapshot_eq_dec : EqDecision (StoredSnapshot unit).
Proof. solve_decision. Defined.
#[export] Instance StoredSnapshot_countable : Countable (StoredSnapshot unit).
Proof.
  refine (inj_countable' (fun x => (st_meta x, st_data x)) (fun p => mkStoredSnapshot p.1 p.2) _). by intros [].
Defined.

(** ** Serializers *)

(** A type that a sample does not use. *)
Definition no_json {A : Type} : Json A := {| to_vec _ := inl []; from_slice _ := inl []; json_debug _ := [] |}.
Definition no_prost {A : Type} : Prost A := {| encode_to_vec _ := []; prost_decode _ := inl [] |}.

(** Octets behind a zero. *)
Definition octets_json : Json ByteVec := {|
  to_vec v := inr (0 :: bv_octets v);
  from_slice b := match b with 0 :: b => inr (mkByteVec b) | _ => inl [] end;
  json_debug _ := []
|}.
Lemma octets_json_spec : @JsonSpec ByteVec octets_json.
Proof. split. intros [b]. by exists (0 :: b). Qed.

(** [Option] is transparent, and [None] is a zero. *)
Definition option_json {A : Type} (J : Json A) : Json (option A) := {|
  to_vec o := match o with Some a => to_vec a | None => inr [0] end;
  from_slice b := if bool_decide (b = [0]) then inr None
                  else match from_slice b with inr a => inr (Some a) | inl e => inl e end;
  json_debug _ := []
|}.
Lemma option_json_spec {A} `{Countable A} : @JsonSpec (option A) (option_json coded_json).
Proof.
  split. intros [a|].
  - eexists. split; [done|]. split; [done|]. cbn. by rewrite decode_encode.
  - by exists [0].
Qed.
Lemma option_json_option {A} `{Countable A} : @JsonOption A coded_json (option_json coded_json).
Proof. split; [done|]. intros b [= <-]. by eexists. Qed.

Definition coded_prost {A : Type} `{Countable A} : Prost A := {|
  encode_to_vec a := [Z.pos (countable.encode a)];
  prost_decode b := match b with
                    | [Z.pos p] => match countable.decode p with Some a => inr a | None => inl [] end
                    | _ => inl []
                    end
|}.
Lemma coded_prost_spec {A} `{Countable A} : @ProstSpec A coded_prost.
Proof. split. intros a. cbn. by rewrite decode_encode. Qed.

Definition sample_prost : MetaProst := {|
  pr_set := coded_prost; pr_delete := coded_prost; pr_unregister := no_prost; pr_config := no_prost;
  pr_delete_config := no_prost; pr_idempotent := no_prost; pr_offset := no_prost; pr_schema := no_prost;
  pr_delete_schema := no_prost; pr_bind := no_prost; pr_unbind := no_prost; pr_user := no_prost;
  pr_delete_user := no_prost; pr_topic := no_prost; pr_delete_topic := no_prost; pr_will := no_prost;
  pr_session := no_prost; pr_update_session := no_prost; pr_delete_session := no_prost; pr_rule := no_prost;
  pr_delete_rule := no_prost; pr_subscribe := no_prost; pr_delete_subscribe := no_prost; pr_connector := no_prost;
  pr_delete_connector := no_prost; pr_acl := no_prost; pr_blacklist := no_prost; pr_delete_blacklist := no_prost
|}.
Definition sample_json : MetaJson := {|
  mj_wrap := coded_json; mj_string := coded_json; mj_octets := octets_json; mj_u64 := coded_json;
  mj_cluster := no_json; mj_node := no_json; mj_offset := coded_json; mj_schema := no_json; mj_bind := no_json;
  mj_shard := coded_json; mj_segment := coded_json; mj_segment_meta := coded_json; mj_user := no_json;
  mj_topic := no_json; mj_will := no_json; mj_session := no_json; mj_rule := coded_json; mj_subscribe := no_json;
  mj_connector := no_json; mj_acl := no_json; mj_acl_list := no_json; mj_blacklist := no_json
|}.
Definition coded_bincode : Bincode := {|
  bincode_serialize l := inr [Z.pos (countable.encode l)];
  bincode_deserialize b := match b with
                           | [Z.pos p] => match countable.decode p with Some l => inr l | None => inl [] end
                           | _ => inl []
                           end
|}.
Lemma coded_bincode_spec : @BincodeSpec coded_bincode.
Proof. split. intros l. eexists. split; [done|]. cbn. by rewrite decode_encode. Qed.

(** ** Random numbers, channels and journal nodes *)

(** The first elements, and the first position. *)
Definition sample_rand : Rand := {|
  choose_multiple _ l n := take n l;
  gen_range _ _ := 0%nat;
  unique_id seed := decimal seed
|}.
Lemma sample_rand_spec : @RandSpec sample_rand.
Proof.
  split; [|done]. intros seed l n. exists (drop n l). cbn. split; [by rewrite take_drop|]. apply length_take.
Qed.
Definition sample_broadcast : Broadcast := {| broadcast_capacity n := n; broadcast_capacity_ge n := le_n n |}.
(** Nodes whose files are still there, or gone. *)
Definition sample_inner (gone : bool) : JournalInner := {|
  get_shard_delete_status _ _ _ _ _ := inr gone;
  get_segment_delete_status _ _ _ _ _ _ := inr gone
|}.
