(* ===== verification/PlacementTheorems.v ===== *)
(** * What the placement center promises

    The log and the state machine of Raft, the replicas of the metadata, its
    snapshots, and the metadata of the journal. *)

From Stdlib Require Import String.
From stdpp Require Import sorting.
From S2P Require Import Prelude Bytes RustStr Storage RocksEngine Topics Subscriptions Acl BrokerCache SchemaRegister MqttTypes Broker PlacementStore PlacementCache PlacementRoute RaftLog RaftMachine Replication Snapshots InnerCalls JournalService JournalTables JournalFacts JournalInv PlacementSamples.

(** ** The log *)

(** C7: From an empty database, the log store of Raft runs every sequence of appends, truncations, purges and
    saves without an error, and then answers as the abstract log does: the
    entries of any range in the order of their indexes, the last and the last
    purged entry, the vote and the committed mark that were saved last. *)
Theorem raft_log_store_refines {R} {RD : RocksDB R} {RS : RocksSpec R} {RR : RocksReliable R} {RX : RocksRange R}
    {RXS : RocksRangeSpec R} {Mem Vote} {JI : Json LogId} {JO : Json (option LogId)} {JV : Json Vote}
    {JE : Json (Entry Mem)} {JIS : JsonSpec LogId} {JOS : JsonSpec (option LogId)} {JVS : JsonSpec Vote}
    {JES : JsonSpec (Entry Mem)} {JOO : JsonOption LogId} (ops : list (raft_op Mem Vote)) (d : R) :
  Forall raft_op_ok ops -> raft_open d -> contents d cf_raft_store = ∅ -> contents d cf_raft_logs = ∅ ->
  let a := foldl (fun a op => raft_spec op a) (mkRaftLogSpec ∅ None None None) ops in
  exists d', for_each ops raft_run d = (Ok tt, d') /\
    (forall lo hi, bound_ok lo -> exists l, try_get_log_entries lo hi d' = (Ok l, d') /\ entries_between a lo hi l) /\
    (exists s, get_log_state d' = (Ok s, d') /\ log_state_of a s) /\
    read_vote d' = (Ok (rl_vote a), d') /\ read_committed d' = (Ok (rl_committed a), d').
Proof.
  intros Hops Ho Hs Hl a. destruct (raft_ops_refine ops d _ Hops (raft_rep_empty d Ho Hs Hl)) as (d' & E & Hr).
  exists d'. split; [done|]. split_and!.
  - intros lo hi Hlo. by apply try_get_ok.
  - by apply log_state_ok.
  - destruct Hr as (Ho' & _ & _ & Hv & _). by apply get_mark_ok.
  - by apply read_committed_ok.
Qed.

Definition sample_raft_db : gmap bytes (gmap bytes bytes) := {[cf_raft_store := ∅; cf_raft_logs := ∅]}.
Definition sample_entry (i : Z) : Entry unit := mkEntry (mkLogId 1 1 i) (Normal (mkStorageData KvSet [i])).
Definition sample_raft_ops : list (raft_op unit Z) :=
  [RaftSaveVote 1; RaftAppend [sample_entry 1; sample_entry 2; sample_entry 300]; RaftTruncate (mkLogId 1 1 300);
   RaftSaveCommitted (Some (mkLogId 1 1 2)); RaftPurge (mkLogId 1 1 1)].

Lemma raft_log_store_refines_witness :
  exists d', @for_each _ _ _ sample_raft_ops (@raft_run _ map_db map_db_range unit Z coded_json (option_json coded_json) coded_json coded_json)
               sample_raft_db = (Ok tt, d') /\
    (exists l, @try_get_log_entries _ map_db unit coded_json (Included 0) Unbounded d' = (Ok l, d') /\
       entries_between (foldl (fun a op => raft_spec op a) (mkRaftLogSpec ∅ None None None) sample_raft_ops)
         (Included 0) Unbounded l).
Proof.
  destruct (@raft_log_store_refines _ map_db map_db_spec map_db_reliable map_db_range map_db_range_spec unit Z
    coded_json (option_json coded_json) coded_json coded_json coded_json_spec option_json_spec coded_json_spec coded_json_spec
    option_json_option sample_raft_ops sample_raft_db) as (d' & E & Hg & _).
  - repeat constructor; cbn; lia.
  - by split.
  - reflexivity.
  - reflexivity.
  - exists d'. split; [exact E|]. apply Hg. cbn. lia.
Defined.

(** ** Replicas *)

(** C8: Two nodes that start with the same caches and empty databases and apply the
    same commands, each with its own clock, give the same answers, have the same
    caches, and hold the same data under every key but for the times stored with
    it; what is read of a key other than an offset or a rewrite rule is the
    same. *)
Theorem replicas_agree {D1 D2} {RD1 : RocksDB D1} {RS1 : RocksSpec D1} {RR1 : RocksReliable D1}
    {RD2 : RocksDB D2} {RS2 : RocksSpec D2} {RR2 : RocksReliable D2} {MP : MetaProst} {MJ : MetaJson}
    {JWS : JsonSpec StorageDataWrap} {JOS : JsonSpec OffsetData} {JRS : JsonSpec MqttTopicRewriteRule}
    (log1 log2 : list (StorageData * (Z * Z))) (n1 : PlacementNode (D := D1)) (n2 : PlacementNode (D := D2)) :
  log1.*1 = log2.*1 ->
  meta_open (pn_db n1) -> meta_open (pn_db n2) -> meta (pn_db n1) = ∅ -> meta (pn_db n2) = ∅ ->
  pn_cluster n1 = pn_cluster n2 -> pn_journal n1 = pn_journal n2 -> pn_mqtt n1 = pn_mqtt n2 ->
  let (rs1, m1) := apply_log log1 n1 in
  let (rs2, m2) := apply_log log2 n2 in
  rs1 = rs2 /\ pn_cluster m1 = pn_cluster m2 /\ pn_journal m1 = pn_journal m2 /\ pn_mqtt m1 = pn_mqtt m2 /\
  (forall k, option_Forall2 (same_value k) (meta (pn_db m1) !! k) (meta (pn_db m2) !! k)) /\
  forall A (J : Json A) k, timed_key k = false ->
    (get_as (E := CommonError) A k (pn_db m1)).1 = (get_as (E := CommonError) A k (pn_db m2)).1.
Proof.
  intros El Ho1 Ho2 Em1 Em2 Hc Hj Hm.
  assert (replica n1 n2) as Hr.
  { split; [|done]. split; [by rewrite Ho1, Ho2|]. intros k. rewrite Em1, Em2, !lookup_empty. constructor. }
  destruct (apply_log_agree log1 log2 n1 n2 El Hr) as [E (Hd & Hrest)].
  destruct (apply_log log1 n1) as [rs1 m1], (apply_log log2 n2) as [rs2 m2]. cbn [fst snd] in *.
  destruct Hrest as (H1 & H2 & H3). split_and!; try done; [apply Hd|].
  intros A J k Hk. by apply (get_agree k Hk _ _ Hd).
Qed.

Definition sample_node (second : Z) : PlacementNode (D := gmap bytes (gmap bytes bytes)) :=
  mkPlacementNode {[DB_COLUMN_FAMILY_CLUSTER := ∅]} PlacementCacheManager_empty JournalCacheManager_new
    MqttCacheManager_new second (second * 1000).
Definition sample_kv_set (key value : bytes) : StorageData :=
  mkStorageData KvSet (@encode_to_vec _ coded_prost (mkSetRequest key value)).

Definition sample_log (clock : Z) : list (StorageData * (Z * Z)) :=
  [(sample_kv_set (lit "a") (lit "1"), (clock, clock)); (sample_kv_set (lit "a") (lit "2"), (clock + 5, clock))].

Lemma replicas_agree_witness :
  exists rs1 m1 rs2 m2,
    @apply_log _ map_db sample_prost sample_json (sample_log 10) (sample_node 10) = (rs1, m1) /\
    @apply_log _ map_db sample_prost sample_json (sample_log 77) (sample_node 77) = (rs2, m2) /\ rs1 = rs2 /\
    (@get_as _ map_db coded_json CommonError _ bytes coded_json (lit "a") (pn_db m1)).1
    = (@get_as _ map_db coded_json CommonError _ bytes coded_json (lit "a") (pn_db m2)).1.
Proof.
  pose proof (@replicas_agree _ _ map_db map_db_spec map_db_reliable map_db map_db_spec map_db_reliable
    sample_prost sample_json coded_json_spec coded_json_spec coded_json_spec (sample_log 10) (sample_log 77)
    (sample_node 10) (sample_node 77) eq_refl eq_refl eq_refl eq_refl eq_refl eq_refl eq_refl eq_refl) as H.
  destruct (apply_log (sample_log 10) (sample_node 10)) as [rs1 m1], (apply_log (sample_log 77) (sample_node 77)) as [rs2 m2].
  destruct H as (E & _ & _ & _ & _ & Hg). exists rs1, m1, rs2, m2. split; [done|]. split; [done|]. split; [exact E|].
  by apply (Hg bytes coded_json).
Defined.

(** ** Snapshots *)

(** C32: A node that builds a snapshot and starts again from it still has every key,
    and can read none of them: the restored values are the stored octets written
    as values of their own.  Every list of stored values is then empty. *)
Theorem restored_snapshot_unreadable {D} {RD : RocksDB D} {RS : RocksSpec D} {RR : RocksReliable D}
    {R} {RDR : RocksDB R} {RSR : RocksSpec R} {RRR : RocksReliable R} {RX : RocksRange R} {RXS : RocksRangeSpec R}
    {MI : MapIter} {MZ : MapIterZ} {MP : MetaProst} {MJ : MetaJson} {JBS : JsonSpec ByteVec} {JN : JsonNumbers}
    {BC : Bincode} {BS : BincodeSpec} {Mem} {JS : Json (StoredSnapshot Mem)} {JSS : JsonSpec (StoredSnapshot Mem)}
    (leader_text : LogId -> bytes) (b : SnapshotBuilder (Mem := Mem)) (s : StateMachineStore (D := D) (R := R) (Mem := Mem))
    (node : PlacementNode (D := D)) :
  raft_open (ms_db s) -> meta_open (pn_db (ms_node s)) -> pn_db node = pn_db (ms_node s) ->
  exists snap s1 s2,
    machine_build_snapshot leader_text b s = (Ok snap, s1) /\
    StateMachineStore_new (ms_db s1) node = (Ok tt, s2) /\
    (forall k, is_Some (meta (pn_db (ms_node s)) !! k) ->
       is_Some (meta (pn_db (ms_node s2)) !! k) /\
       forall A (J : Json A), exists e, get_as (E := CommonError) A k (pn_db (ms_node s2)) = (Err e, pn_db (ms_node s2))) /\
    forall A (J : Json A) p, list_as (E := CommonError) A p (pn_db (ms_node s2)) = (Ok [], pn_db (ms_node s2)).
Proof.
  intros Hr Ho Hn. destruct (restart_ok leader_text s b node Hr Ho Hn) as (snap & s1 & s2 & E1 & E2 & [Ho2 Hu] & Hnone).
  exists snap, s1, s2. split; [done|]. split; [done|]. split.
  - intros k Hk. specialize (Hu k Hk). split; [destruct Hu as [v ->]; eauto|]. intros A J. by apply unreadable_get.
  - intros A J p. apply unreadable_list; [done|]. intros k Hk. apply Hu.
    destruct (meta (pn_db (ms_node s)) !! k) eqn:Ek; [eauto|]. by rewrite Hnone in Hk by done; destruct Hk.
Qed.

Lemma sample_numbers : @JsonNumbers octets_json coded_json.
Proof. split. intros v. exists []. unfold json. cbn. by destruct v. Qed.

Definition sample_machine : StateMachineStore (D := gmap bytes (gmap bytes bytes)) (R := gmap bytes (gmap bytes bytes)) (Mem := unit) :=
  mkStateMachineStore None StoredMembership_default 0 sample_raft_db
    (@apply_log _ map_db sample_prost sample_json [(sample_kv_set (lit "a") (lit "1"), (1, 1))] (sample_node 0)).2.

Lemma restored_snapshot_unreadable_witness :
  exists s2, @StateMachineStore_new _ map_db _ map_db sample_json coded_bincode unit coded_json
               (ms_db (@machine_build_snapshot _ map_db _ map_db map_db_range coded_bincode unit coded_json (fun _ => [])
                         (mkSnapshotBuilder None StoredMembership_default 1) sample_machine).2) (ms_node sample_machine) = (Ok tt, s2) /\
    exists e, @kv_get _ map_db coded_json coded_json (lit "a") (pn_db (ms_node s2)) = (Err e, pn_db (ms_node s2)).
Proof.
  destruct (@restored_snapshot_unreadable _ map_db map_db_spec map_db_reliable _ map_db map_db_spec map_db_reliable
    map_db_range map_db_range_spec key_order key_orderZ sample_prost sample_json octets_json_spec sample_numbers coded_bincode
    coded_bincode_spec unit coded_json coded_json_spec (fun _ => []) (mkSnapshotBuilder None StoredMembership_default 1)
    sample_machine (ms_node sample_machine)) as (snap & s1 & s2 & E1 & E2 & Hk & _).
  - by split.
  - by vm_compute.
  - reflexivity.
  - exists s2. rewrite E1. split; [exact E2|]. apply (Hk (lit "a")). vm_compute. by eexists.
Defined.

(** ** The journal *)

Section journal.
Context {D : Type} {RD : RocksDB D} {RS : RocksSpec D} {RR : RocksReliable D} {MI : MapIter} {MZ : MapIterZ}
        {MIS : MapIterSpec MI} {MZS : MapIterZSpec MZ} {MP : MetaProst} {MJ : MetaJson}
        {JWS : JsonSpec StorageDataWrap} {JSS : JsonSpec JournalShard} {JGS : JsonSpec JournalSegment}
        {JMS : JsonSpec JournalSegmentMetadata}
        {RW : OpenRaft (D := D)} {RL : OpenRaftLeader} {BC : Broadcast} {RN : Rand} {RNS : RandSpec} {JI : JournalInner}
        {JX : Json JournalNodeExtend} {JC : Json JournalShardConfig}
        {JLS : Json (list JournalShard)} {JLG : Json (list JournalSegment)} {JLM : Json (list JournalSegmentMetadata)}.
Implicit Types (s : JournalCenter (D := D)).

(** A center before the first shard. *)
Definition fresh s : Prop :=
  meta_open (pn_db (jn_node s)) /\ meta (pn_db (jn_node s)) = ∅ /\
  pn_journal (jn_node s) = JournalCacheManager_new /\ nodes_ok (pn_cluster (jn_node s)).

Lemma fresh_ok s : fresh s -> center_ok s.
Proof.
  intros (Ho & Hm & Hj & Hn).
  assert (tables (meta (pn_db (jn_node s))) (pn_journal (jn_node s))) as Ht.
  { rewrite Hm, Hj. split; [|split]; by apply table_empty. }
  split; [by split|]. split; [|done]. eapply cache_good_tables; [exact Ht|rewrite Hj; by intros k a..].
Qed.

(** C11: After any requests of journal nodes and clients and any rounds of removal
    at the leader of a placement center that started empty, whatever they
    answered, a cache loaded from the database finds the same shards, segments
    and metadata as the cache of the leader; and every segment has its replicas
    on distinct nodes, the first of them as leader and all of them in sync.  The
    shards that are created have names of clusters, namespaces and shards
    without a slash and an underscore ([request_ok]); with a slash the keys of
    two shards can be one, and a restart loses a shard ([slashed_shard_lost]). *)
Theorem journal_restart_restores (rs : list JournalRequest) s :
  Forall request_ok rs -> fresh s ->
  let s' := serve_all rs s in
  let cache := pn_journal (jn_node s') in
  exists m, load_journal_cache JournalCacheManager_new (pn_db (jn_node s')) = (Ok m, pn_db (jn_node s')) /\
    (forall c ns sh, get_shard c ns sh m = get_shard c ns sh cache) /\
    (forall c ns sh q, get_segment c ns sh q m = get_segment c ns sh q cache) /\
    (forall c ns sh q, get_segment_meta c ns sh q m = get_segment_meta c ns sh q cache) /\
    forall c ns sh q seg, get_segment c ns sh q cache = Some seg ->
      NoDup (map rp_node_id (sg_replicas seg)) /\ sg_isr seg = map rp_node_id (sg_replicas seg) /\
      head (sg_isr seg) = Some (sg_leader seg) /\ sg_segment_seq seg = q.
Proof.
  intros Hrs Hf s' cache. destruct (serve_all_ok rs s Hrs (fresh_ok s Hf)) as ((Ho & Ht) & (_ & Hg & _) & _).
  destruct (load_ok (pn_db (jn_node s')) cache JournalCacheManager_new Ho Ht) as (m & E & E1 & E2 & E3 & _); [by left..|].
  exists m. split; [done|]. split_and!.
  - intros c ns sh. apply E1.
  - intros c ns sh q. apply (E2 (_, q)).
  - intros c ns sh q. apply (E3 (_, q)).
  - intros c ns sh q seg Hseg. destruct (Hg (_, q) seg Hseg) as [(_ & _ & H1 & H2 & H3) Hi].
    split_and!; try done. by injection Hi.
Qed.

(** No request moves the active segment of a shard on: every shard that is
    recorded has the first segment as its active one, however many segments it
    got and whatever their state. *)
Theorem active_segment_stays_first (rs : list JournalRequest) s :
  Forall request_ok rs -> fresh s ->
  forall c ns sh shard, get_shard c ns sh (pn_journal (jn_node (serve_all rs s))) = Some shard ->
  js_active_segment_seq shard = 0.
Proof.
  intros Hrs Hf c ns sh shard Hsh. destruct (serve_all_ok rs s Hrs (fresh_ok s Hf)) as (_ & (Hg & _) & _).
  by destruct (Hg _ _ Hsh) as [[_ ?] _].
Qed.

(** C33: A round of removal at the leader keeps a deleted shard, as deleting, when
    every node that answers says that the files of the shard are gone, and
    removes its metadata when a node says that they are still there. *)
Theorem gc_keeps_shards_that_are_gone (a : JournalShard) s :
  let c := js_cluster_name a in
  let ns := js_namespace a in
  let sh := js_shard_name a in
  let addrs := get_broker_node_addr_by_cluster c (pn_cluster (jn_node s)) in
  let requests := jn_requests s ++ map (fun addr => DeleteShardFile addr c ns sh) addrs in
  let gone := no_false (map (fun addr => get_shard_delete_status requests addr c ns sh) addrs) in
  good_shard a -> js_status a = PrepareDelete -> center_ok s ->
  exists s', gc_shard a s = (Ok tt, s') /\
    get_shard c ns sh (pn_journal (jn_node s')) = (if gone then Some (with_shard_status ShardDeleting a) else None).
Proof.
  intros c ns sh addrs requests gone Ha Hst Hs.
  destruct (gc_shard_run a s Ha Hst Hs) as (s' & E & _ & H). by exists s'.
Qed.
End journal.

(** *** A center with three journal nodes *)

Section journal_sample.
#[local] Existing Instances map_db map_db_spec map_db_reliable key_order key_order_spec key_orderZ key_orderZ_spec
  sample_prost sample_json single_node single_node_leader sample_broadcast sample_rand sample_rand_spec
  coded_json coded_json_spec.
#[local] Existing Instance sample_inner | 10.

Definition sample_broker (id : Z) : BrokerNode :=
  mkBrokerNode (lit "c") (as_str_name CT_JournalServer) 0 (json (mkJournalNodeExtend [lit "/data"] [] [])) id
    (lit "10.0.0." ++ decimal id) [].
Definition sample_center : JournalCenter (D := gmap bytes (gmap bytes bytes)) :=
  mkJournalCenter
    (mkPlacementNode {[DB_COLUMN_FAMILY_CLUSTER := ∅]}
       (add_broker_node (sample_broker 1) (add_broker_node (sample_broker 2) (add_broker_node (sample_broker 3)
          (add_broker_cluster (mkClusterInfo (lit "c") (as_str_name CT_JournalServer) 0) PlacementCacheManager_empty))))
       JournalCacheManager_new MqttCacheManager_new 100 100000)
    JournalInnerCallManager_new [] 0.
Definition sample_shard_name : ShardName := mkShardName (lit "c") (lit "ns") (lit "s").
Definition sample_requests : list JournalRequest :=
  [RqCreateShard (mkCreateShardRequest sample_shard_name (json (mkJournalShardConfig 2 1000)));
   RqCreateNextSegment sample_shard_name;
   RqUpdateSegmentStatus (mkUpdateSegmentStatusRequest sample_shard_name 0 (lit "Write") (lit "SealUp"));
   RqDeleteSegment sample_shard_name 0; RqGcSegments].

Lemma sample_fresh : fresh sample_center.
Proof.
  split_and!; [done..|]. intros c id b. unfold sample_center. cbn [jn_node pn_cluster].
  unfold add_broker_node. cbn [node_list]. rewrite !lookup2_insert2.
  repeat (case_decide as E; [intros [= <-]; by injection E as -> ->|clear E]). done.
Qed.
Lemma sample_requests_ok : Forall request_ok sample_requests.
Proof. repeat constructor; apply (bool_decide_unpack _); by vm_compute. Qed.

Lemma journal_restart_restores_witness :
  exists m, load_journal_cache JournalCacheManager_new (pn_db (jn_node (serve_all (JI := sample_inner true) sample_requests sample_center)))
    = (Ok m, pn_db (jn_node (serve_all (JI := sample_inner true) sample_requests sample_center))).
Proof.
  destruct (journal_restart_restores (JI := sample_inner true) sample_requests sample_center sample_requests_ok sample_fresh)
    as (m & E & _). exists m. exact E.
Defined.

(** Shards whose names hold slashes share a key of the database: of "c" in "a/b"
    and "b/c" in "a" the leader knows both, and a restart finds only the one
    that was created last. *)
Definition slashed_requests : list JournalRequest :=
  [RqCreateShard (mkCreateShardRequest (mkShardName (lit "c") (lit "a/b") (lit "c")) (json (mkJournalShardConfig 2 1000)));
   RqCreateShard (mkCreateShardRequest (mkShardName (lit "c") (lit "a") (lit "b/c")) (json (mkJournalShardConfig 2 1000)))].
Theorem slashed_shard_lost :
  let s := jn_node (serve_all (JI := sample_inner true) slashed_requests sample_center) in
  is_some (get_shard (lit "c") (lit "a/b") (lit "c") (pn_journal s)) = true /\
  is_some (get_shard (lit "c") (lit "a") (lit "b/c") (pn_journal s)) = true /\
  match (load_journal_cache JournalCacheManager_new (pn_db s)).1 with
  | Ok m => is_some (get_shard (lit "c") (lit "a/b") (lit "c") m) = false /\
            is_some (get_shard (lit "c") (lit "a") (lit "b/c") m) = true
  | _ => False
  end.
Proof. vm_compute. by split_and!. Qed.

Lemma active_segment_stays_first_witness :
  exists shard, get_shard (lit "c") (lit "ns") (lit "s")
                  (pn_journal (jn_node (serve_all (JI := sample_inner true) sample_requests sample_center))) = Some shard /\
    js_active_segment_seq shard = 0.
Proof.
  destruct (get_shard (lit "c") (lit "ns") (lit "s")
              (pn_journal (jn_node (serve_all (JI := sample_inner true) sample_requests sample_center)))) as [shard|] eqn:E.
  - exists shard. split; [reflexivity|].
    exact (active_segment_stays_first (JI := sample_inner true) sample_requests sample_center sample_requests_ok sample_fresh
      (lit "c") (lit "ns") (lit "s") shard E).
  - exfalso. vm_compute in E. discriminate E.
Defined.

Definition sample_shard : JournalShard :=
  mkJournalShard [] (lit "c") (lit "ns") (lit "s") 0 0 0 PrepareDelete (mkJournalShardConfig 2 1000) 0.

Lemma gc_keeps_shards_that_are_gone_witness :
  exists s', gc_shard (JI := sample_inner true) sample_shard sample_center = (Ok tt, s') /\
    get_shard (lit "c") (lit "ns") (lit "s") (pn_journal (jn_node s')) = Some (with_shard_status ShardDeleting sample_shard).
Proof.
  destruct (gc_keeps_shards_that_are_gone (JI := sample_inner true) sample_shard sample_center) as (s' & E & H).
  - split; [|done]. repeat constructor; apply (bool_decide_unpack _); by vm_compute.
  - reflexivity.
  - apply fresh_ok, sample_fresh.
  - exists s'. split; [exact E|]. exact H.
Defined.
End journal_sample.
