(* ===== verification/KvTheorems.v ===== *)
(** * What the key-value service and the placement adapter promise

    A client finds the leader and reads what it wrote, and the adapter that is
    built on the service implements the abstract store of logs. *)

From Stdlib Require Import String.
From stdpp Require Import sorting.
From S2P Require Import Prelude Bytes RustStr Storage RocksEngine RocksStorage RocksRefine PlacementAdapter PlacementRefine PlacementStore PlacementCache PlacementRoute RaftLog RaftMachine KvService KvFacts PlacementSamples.

(** ** Clients *)

(** C18: In a cluster whose members answer, a client that knows any member can
    write a value that is not empty under a key that is not empty: if the
    member is not the leader, the client follows the address that it reads out
    of the text of the refusal, the leader stores the value, and the client asks
    the leader from then on, so that it reads what it wrote. *)
Theorem client_reads_own_writes {N} {NW : Network N KvRequest KvReply} {D} {RD : RocksDB D} {RS : RocksSpec D} {RR : RocksReliable D}
    {MP : MetaProst} {MJ : MetaJson} {RW : OpenRaft (D := D)} {RL : OpenRaftLeader (D := D)} {ET : ErrorText}
    {NS : NetworkSpec N} {PS : ProstSpec SetRequest} {PD : ProstSpec DeleteRequest}
    {JWS : JsonSpec StorageDataWrap} {JBS : JsonSpec bytes}
    (addrs : list bytes) (p : ClientPool N) (t key value : bytes) :
  first_target addrs p t -> t ∈ members -> node_ok (leader_node (cp_net p)) ->
  key <> [] -> value <> [] ->
  exists p', placement_set addrs key value p = (Ok tt, p') /\
    placement_get addrs key p' = (Ok value, p') /\ knows_leader addrs p' /\
    kv_view (leader_node (cp_net p')) = <[key := value]> (kv_view (leader_node (cp_net p))).
Proof.
  intros Ht Hm Hn Hne Hv. destruct (serve_set _ key value Hn Hne Hv) as (n' & E & Hn' & Hview & Hh).
  assert (exists p', retry_call true addrs (KvSetReq (mkSetRequest key value)) p = (Ok KvDone, p') /\
            cp_net p' = set_leader_node n' (cp_net p) /\ first_target addrs p' leader) as (p' & E1 & Hnet & Ht').
  { destruct (decide (t = leader)) as [->|Hl]; [|by eapply retry_forwarded].
    eexists. split; [by eapply retry_at_leader|]. done. }
  exists p'. assert (leader_node (cp_net p') = n') as El by (rewrite Hnet; apply leader_set).
  assert (knows_leader addrs p') as Hkn by (split; [done|by rewrite El]). split_and!; [| |done|by rewrite El].
  - unfold placement_set. by rewrite (bind_ok _ _ _ _ _ E1).
  - unfold placement_get. rewrite <- El in Hn', Hh.
    rewrite (bind_ok _ _ _ _ _ (retry_at_leader addrs p' _ _ _ Ht' (serve_get_held _ key _ Hn' Hne Hh))). by rewrite read_pool.
Qed.

(** ** The adapter *)

Section adapter.
#[local] Existing Instances map_db map_db_spec map_db_reliable.

(** C6: The adapter on the key-value service implements the abstract store of
    logs.  After any creations, writes and commits on a service that held
    nothing for it, tried one after the other, where no namespace, shard name
    that is created, tag or group holds a slash and no log gets to 2^64 records:
    a read by offset returns the longest part of the window of the shard's log
    whose texts fit the limit; so does a read by tag, for the first records
    behind the offset that have the tag; a read by a key that some record was
    written with returns the last of them, or nothing when it is before the
    offset or over a limit; a timestamp is resolved to the first record that is
    no older; and a group is told the offsets it committed.  Deleting a shard
    that was not created is an error; deleting one that was closes it for
    writers, and leaves every record of it and of the others to be read by
    offset. *)
Theorem placement_store_refines_logs {S} {KC : KvClient S} {KS : KvSpec S} {MI : MapIter} {MS : MapIterSpec MI}
    {JZ : Json Z} {JR : Json MsgRecord} {JI : Json ShardInfo}
    {JZS : JsonSpec Z} {JRS : JsonSpec MsgRecord} {JIS : JsonSpec ShardInfo} {JD : JsonDigits} (c : S) ops :
  no_records c -> Forall op_named ops ->
  (forall ns sh, blen (concat (map (op_messages ns sh) ops)) < 2 ^ 64) ->
  let s := (attempt_all ops (mkPlacementAdapter c ∅)).2 in
  let log ns sh := log_of (strict_ops ops) ns sh in
  let reads s := forall ns sh offset config,
    no_slash ns -> 0 <= offset -> 0 <= max_record_num config -> offset + max_record_num config < 2 ^ 64 ->
    read_by_offset ns sh offset config s
    = (Ok (fitting (max_size config) 0
             (take (Z.to_nat (max_record_num config)) (drop (Z.to_nat offset) (log ns sh)))), s) in
  reads s /\
  (forall ns sh offset tag config, no_slash ns -> no_slash sh -> no_slash tag ->
     read_by_tag ns sh offset tag config s
     = (Ok (fitting (max_size config) 0 (take (Z.to_nat (max_record_num config))
              (filter (fun r => tag ∈ r_tags r) (drop (Z.to_nat offset) (log ns sh))))), s)) /\
  (forall ns sh offset key config x, no_slash ns -> no_slash sh -> key <> [] ->
     last_at key (numbered (log ns sh)) = Some x ->
     read_by_key ns sh offset key config s
     = (Ok (if (x.1 <? offset) || (max_record_num config <? 1) || (max_size config <? blen (json x.2)) then []
            else [x.2]), s)) /\
  (forall ns sh timestamp, no_slash ns -> no_slash sh ->
     exists o, get_offset_by_timestamp ns sh timestamp s = (Ok o, s) /\ resolves (log ns sh) timestamp o) /\
  (forall g, no_slash g ->
     exists l, get_offset_by_group g s = (Ok l, s) /\
               map so_offset l ≡ₚ values (group_commits (strict_ops ops) g)) /\
  (forall ns sh, no_slash ns ->
     match logs (strict_ops ops) !! (ns, sh) with
     | None => exists e s', delete_shard ns sh s = (Err e, s')
     | Some _ => exists s', delete_shard ns sh s = (Ok tt, s') /\ reads s' /\
                            forall ms, exists e s'', batch_write ns sh ms s' = (Err e, s'') /\
                                                     kv_map (pa_client s'') = kv_map (pa_client s')
     end).
Proof.
  intros Hc Hops Hb s log reads.
  destruct (@placement_follows _ _ _ _ _ _ coded_json _ _ _ coded_json_spec _ _ _ c ops Hc Hops Hb) as (r & Hs & Hf & Hk).
  fold s in Hs. pose proof Hf as (Hr & _). split_and!.
  - intros ns sh offset config. by apply (read_by_offset_fitting _ r), rep_recorded.
  - intros. by apply (read_by_tag_fitting _ r).
  - intros. by apply (read_by_key_last s r (strict_ops ops)).
  - intros. by apply (offset_by_timestamp_same _ r).
  - intros. by apply (offset_by_group_same _ r).
  - intros ns sh Hns. destruct (delete_follows ns sh s r Hs) as [Hres Hs'].
    change (delete_shard ns sh s) with (pa_delete_shard ns sh s).
    destruct (logs (strict_ops ops) !! (ns, sh)) as [l|] eqn:El.
    + destruct (rocks_delete_eval r _ ns sh l Hr Hns El) as (d' & E & Hrec & Hoff). rewrite E in Hres, Hs'. cbn [fst snd] in *.
      destruct (pa_delete_shard ns sh s) as [o s']. cbn [fst snd] in *. destruct o as [[]| | |]; try done.
      exists s'. split_and!; [done| |].
      * intros ns' sh' offset config. by apply (read_by_offset_fitting _ (mkRocks d' (rk_write_handles r))).
      * intros ms. eapply closed_batch_write; [exact Hs'|apply Hr|exact Hoff].
    + destruct (rocks_delete_missing r _ ns sh Hr Hns El) as [e E]. rewrite E in Hres.
      destruct (pa_delete_shard ns sh s) as [o s']. destruct o; try done. by eexists _, _.
Qed.
End adapter.

(** *** Two nodes *)

Section two_nodes.
#[local] Existing Instances map_db map_db_spec map_db_reliable key_order key_order_spec sample_prost sample_json
  single_node single_node_leader coded_json_spec coded_prost_spec.
Abbreviation Node := (PlacementNode (D := gmap bytes (gmap bytes bytes))).

Definition leader_addr : bytes := lit "127.0.0.1:1228".
Definition follower_addr : bytes := lit "127.0.0.1:2228".

(** The texts that matter: an error of the server is its text. *)
#[local] Instance sample_text : ErrorText := {|
  common_text e := match e with GrpcServerStatus t => t | _ => [] end;
  placement_text _ := []
|}.

Definition forward_text : bytes :=
  lit "Grpc status was status: Cancelled, message: " ++ [34] ++ forward_to_leader 1 leader_addr ++ [34] ++ lit ", details: []".

(** The leader and a follower; what a follower is told of a write comes later. *)
#[local] Instance two_nodes : Network (Node * Node) KvRequest KvReply := {|
  net_connect addr := fun n => (Ok tt, n);
  net_call addr req := fun n =>
    if bool_decide (addr = leader_addr) then
      let (r, x) := serve_kv req n.1 in (grpc_result r, (x, n.2))
    else if is_write req then (Err (GrpcServerStatus forward_text), n)
    else let (r, x) := serve_kv req n.2 in (grpc_result r, (n.1, x))
|}.

#[local] Instance two_nodes_spec : NetworkSpec (Node * Node).
Proof.
  refine {| members := [leader_addr; follower_addr]; leader := leader_addr; leader_id := 1;
            leader_node := fst; set_leader_node x n := (x, n.2) |}.
  - done.
  - by apply (bool_decide_unpack _).
  - done.
  - by intros [].
  - left.
  - done.
  - intros req n. cbn [net_call two_nodes]. by rewrite bool_decide_eq_true_2.
  - intros addr req n _ Hne Hw. exists (GrpcServerStatus forward_text), (lit "Grpc status was status: Cancelled, message: " ++ [34]),
      ([34] ++ lit ", details: []"). cbn [net_call two_nodes]. by rewrite bool_decide_eq_false_2, Hw by done.
Defined.

Definition empty_node : Node :=
  mkPlacementNode {[DB_COLUMN_FAMILY_CLUSTER := ∅]} PlacementCacheManager_empty JournalCacheManager_new
    MqttCacheManager_new 7 7000.
Definition sample_addrs : list bytes := [leader_addr; follower_addr].
Definition new_pool : ClientPool (Node * Node) := mkClientPool ∅ (empty_node, empty_node).

Lemma empty_node_ok : node_ok empty_node.
Proof. by split. Qed.

Lemma client_reads_own_writes_witness :
  exists p', placement_set sample_addrs (lit "k") (lit "3") new_pool = (Ok tt, p') /\
             placement_get sample_addrs (lit "k") p' = (Ok (lit "3"), p').
Proof.
  destruct (client_reads_own_writes sample_addrs new_pool follower_addr (lit "k") (lit "3"))
    as (p' & E1 & E2 & _).
  - exists follower_addr. by split.
  - right. left.
  - exact empty_node_ok.
  - discriminate.
  - discriminate.
  - eauto.
Defined.

(** A client that has not written yet asks a follower, which may not have heard
    of a write that another client was told of. *)
Example first_read_is_stale :
  let '(r1, p1) := placement_set sample_addrs (lit "k") (lit "3") new_pool in
  r1 = Ok tt /\ (placement_get sample_addrs (lit "k") p1).1 = Ok (lit "3") /\
  (placement_get sample_addrs (lit "k") (mkClientPool ∅ (cp_net p1))).1 = Ok [].
Proof. vm_compute. by split_and!. Qed.

(** Numbers as digits. *)
#[local] Instance digits_json : Json Z := {|
  to_vec n := inr (if bool_decide (0 <= n < 2 ^ 64) then decimal n else [-1; Z.pos (countable.encode n)]);
  from_slice b :=
    match parse_u64 b with
    | Some n => inr n
    | None => match b with
              | [-1; Z.pos p] => match countable.decode p with Some n => inr n | None => inl [] end
              | _ => inl []
              end
    end;
  json_debug _ := []
|}.
#[local] Instance digits_json_spec : JsonSpec Z.
Proof.
  split. intros n. eexists. split; [done|]. cbn [from_slice digits_json]. case_bool_decide as Hn.
  - rewrite parse_u64_decimal by done. split; [|done]. intros E. pose proof (parse_u64_decimal n Hn) as E2. by rewrite E in E2.
  - split; [done|]. by rewrite countable.decode_encode.
Qed.
#[local] Instance digits_json_digits : JsonDigits.
Proof. split. intros n Hn. unfold json. cbn. by rewrite bool_decide_eq_true_2. Qed.

(** A client that knows the leader of an empty cluster. *)
Definition leader_pool : ClientPool (Node * Node) :=
  mkClientPool {[follower_addr := leader_addr]} (empty_node, empty_node).

Lemma placement_store_refines_logs_witness :
  let SA := @PlacementStorage_adapter _ (pool_client sample_addrs) key_order digits_json coded_json coded_json in
  let s := (@attempt_all _ SA sample_ops (mkPlacementAdapter leader_pool ∅)).2 in
  @read_by_key _ SA (lit "ns") (lit "s") 1 (lit "k") (mkReadConfig 5 100) s = (Ok [set_offset 2 (tagged_record "t" 7)], s) /\
  @read_by_offset _ SA (lit "ns") (lit "s") 0 (mkReadConfig 5 2) s
  = (Ok [set_offset 0 (tagged_record "t" 5); set_offset 1 (tagged_record "u" 6)], s).
Proof.
  intros SA s.
  destruct (@placement_store_refines_logs _ (pool_client sample_addrs) (pool_spec sample_addrs) key_order key_order_spec
              digits_json coded_json coded_json digits_json_spec coded_json_spec coded_json_spec digits_json_digits
              leader_pool sample_ops) as (H1 & _ & H2 & _).
  - split; [|reflexivity]. split; [exists follower_addr; by split|exact empty_node_ok].
  - exact sample_ops_named.
  - exact sample_ops_few.
  - split.
    + apply (H2 (lit "ns") (lit "s") 1 (lit "k") (mkReadConfig 5 100) (2, set_offset 2 (tagged_record "t" 7)));
        [by apply (bool_decide_unpack _)..|vm_compute; reflexivity].
    + etrans; [apply (H1 (lit "ns") (lit "s") 0 (mkReadConfig 5 2)); by apply (bool_decide_unpack _)|]. reflexivity.
Defined.
End two_nodes.
