(* ===== verification/JournalCodec.v ===== *)
(** * The protocol of the journal: [protocol/src/journal_server/codec.rs]

    The messages of [engine.proto] and the frames that carry them: the length
    of the data, the kind of the packet (1 a request, 2 an answer), and the
    header and the body, each with its length.  The encoding of a message is
    that of the crate [prost], the parameter [Prost]. *)

From Stdlib Require Import String.
From S2P Require Import Prelude Bytes RustStr Storage PlacementRoute RaftLog.

(** ** Messages *)

Record JournalEngineError : Type := mkJournalEngineError { je_code : bytes; je_error : bytes }.
Record ReqHeader : Type := mkReqHeader { qh_api_key : Z; qh_api_version : Z }.
Record RespHeader : Type := mkRespHeader {
  ph_api_key : Z; ph_api_version : Z; ph_error : option JournalEngineError }.

(** [ApiKey], a number of the message; an unknown number is read as the first. *)
Inductive ApiKey : Type :=
| AK_Unimplemented | AK_Read | AK_Write | AK_CreateShard | AK_DeleteShard | AK_GetShardMetadata
| AK_GetClusterMetadata | AK_FetchOffset.
#[export] Instance ApiKey_eq_dec : EqDecision ApiKey.
Proof. solve_decision. Defined.
Definition api_key_number (k : ApiKey) : Z :=
  match k with
  | AK_Unimplemented => 0 | AK_Read => 1 | AK_Write => 2 | AK_CreateShard => 3 | AK_DeleteShard => 4
  | AK_GetShardMetadata => 5 | AK_GetClusterMetadata => 6 | AK_FetchOffset => 7
  end.
Definition api_key (n : Z) : ApiKey :=
  if n =? 1 then AK_Read else if n =? 2 then AK_Write else if n =? 3 then AK_CreateShard
  else if n =? 4 then AK_DeleteShard else if n =? 5 then AK_GetShardMetadata
  else if n =? 6 then AK_GetClusterMetadata else if n =? 7 then AK_FetchOffset else AK_Unimplemented.

(** *** Metadata of the cluster and of shards *)
Record GetClusterMetadataNode : Type := mkGetClusterMetadataNode {
  cm_node_id : Z; cm_tcp_addr : bytes; cm_tcps_addr : bytes }.
Record GetClusterMetadataRespBody : Type := mkGetClusterMetadataRespBody { cm_nodes : list GetClusterMetadataNode }.
Record CreateShardReqBody : Type := mkCreateShardReqBody {
  cs_namespace : bytes; cs_shard_name : bytes; cs_replica_num : Z }.
Inductive CreateShardRespBody : Type := mkCreateShardRespBody.
Record DeleteShardReqBody : Type := mkDeleteShardReqBody { dl_namespace : bytes; dl_shard_name : bytes }.
Inductive DeleteShardRespBody : Type := mkDeleteShardRespBody.
Record GetShardMetadataReqShard : Type := mkGetShardMetadataReqShard { gs_namespace : bytes; gs_shard_name : bytes }.
Record GetShardMetadataReqBody : Type := mkGetShardMetadataReqBody { gs_shards : list GetShardMetadataReqShard }.
Record ClientSegmentMetadata : Type := mkClientSegmentMetadata {
  cl_segment_no : Z; cl_leader : Z; cl_replicas : list Z; cl_start_offset : Z; cl_end_offset : Z;
  cl_start_timestamp : Z; cl_end_timestamp : Z }.
Record GetShardMetadataRespShard : Type := mkGetShardMetadataRespShard {
  rs_namespace : bytes; rs_shard : bytes; rs_active_segment : Z; rs_active_segment_leader : Z;
  rs_segments : list ClientSegmentMetadata }.
Record GetShardMetadataRespBody : Type := mkGetShardMetadataRespBody { rs_shards : list GetShardMetadataRespShard }.

(** *** Data *)
Record WriteReqMessages : Type := mkWriteReqMessages {
  wm_pkid : Z; wm_key : bytes; wm_value : bytes; wm_tags : list bytes }.
Record WriteReqSegmentMessages : Type := mkWriteReqSegmentMessages {
  ws_namespace : bytes; ws_shard_name : bytes; ws_segment : Z; ws_messages : list WriteReqMessages }.
Record WriteReqBody : Type := mkWriteReqBody { wb_data : list WriteReqSegmentMessages }.
Record WriteRespMessageStatus : Type := mkWriteRespMessageStatus {
  wt_offset : Z; wt_pkid : Z; wt_error : option JournalEngineError }.
Record WriteRespMessage : Type := mkWriteRespMessage {
  wp_namespace : bytes; wp_shard_name : bytes; wp_segment : Z; wp_messages : list WriteRespMessageStatus }.
Record WriteRespBody : Type := mkWriteRespBody { wp_status : list WriteRespMessage }.

Inductive ReadType : Type := ByOffset | ByKey | ByTag.
Record ReadReqFilter : Type := mkReadReqFilter {
  fl_timestamp : Z; fl_offset : Z; fl_key : bytes; fl_tag : bytes }.
Record ReadReqOptions : Type := mkReadReqOptions { op_max_size : Z; op_max_record : Z }.
Record ReadReqMessage : Type := mkReadReqMessage {
  rm_namespace : bytes; rm_shard_name : bytes; rm_segment : Z; rm_ready_type : Z;
  rm_filter : option ReadReqFilter; rm_options : option ReadReqOptions }.
Definition ready_type (m : ReadReqMessage) : ReadType :=
  if rm_ready_type m =? 1 then ByKey else if rm_ready_type m =? 2 then ByTag else ByOffset.
Record ReadReqBody : Type := mkReadReqBody { rb_messages : list ReadReqMessage }.
Record ReadRespMessage : Type := mkReadRespMessage {
  rr_offset : Z; rr_key : bytes; rr_value : bytes; rr_tags : list bytes; rr_timestamp : Z }.
Record ReadRespSegmentMessage : Type := mkReadRespSegmentMessage {
  rp_namespace : bytes; rp_shard_name : bytes; rp_segment : Z; rp_messages : list ReadRespMessage }.
Record ReadRespBody : Type := mkReadRespBody { rp_segments : list ReadRespSegmentMessage }.

Record FetchOffsetShard : Type := mkFetchOffsetShard {
  fo_namespace : bytes; fo_shard_name : bytes; fo_segment_no : Z; fo_timestamp : Z }.
Record FetchOffsetReqBody : Type := mkFetchOffsetReqBody { fo_shards : list FetchOffsetShard }.
Record FetchOffsetShardMeta : Type := mkFetchOffsetShardMeta {
  fs_namespace : bytes; fs_shard_name : bytes; fs_segment_no : Z; fs_offset : Z;
  fs_error : option JournalEngineError }.
Record FetchOffsetRespBody : Type := mkFetchOffsetRespBody { fs_shard_offsets : list FetchOffsetShardMeta }.

(** A request or an answer of each kind: a header and a body, both optional. *)
Record message (H B : Type) : Type := mkMessage { msg_header : option H; msg_body : option B }.
Arguments mkMessage {H B} _ _.
Arguments msg_header {H B} _.
Arguments msg_body {H B} _.

Inductive JournalEnginePacket : Type :=
| WriteReq (data : message ReqHeader WriteReqBody)
| WriteResp (data : message RespHeader WriteRespBody)
| ReadReq (data : message ReqHeader ReadReqBody)
| ReadResp (data : message RespHeader ReadRespBody)
| GetClusterMetadataReq (header : option ReqHeader)
| GetClusterMetadataResp (data : message RespHeader GetClusterMetadataRespBody)
| GetShardMetadataReq (data : message ReqHeader GetShardMetadataReqBody)
| GetShardMetadataResp (data : message RespHeader GetShardMetadataRespBody)
| FetchOffsetReq (data : message ReqHeader FetchOffsetReqBody)
| FetchOffsetResp (data : message RespHeader FetchOffsetRespBody)
| CreateShardReq (data : message ReqHeader CreateShardReqBody)
| CreateShardResp (data : message RespHeader CreateShardRespBody)
| DeleteShardReq (data : message ReqHeader DeleteShardReqBody)
| DeleteShardResp (data : message RespHeader DeleteShardRespBody).

Inductive CodecError : Type :=
| CE_IoError (e : bytes)
| CE_PayloadSizeLimitExceeded (n : Z)
| CE_HeaderLengthIsZero
| CE_DecodeHeaderError (e : bytes)
| CE_DecodeBodyError (name e : bytes)
| CE_NotAvailableRequestType (t : Z).

Class EngineProst : Type := {
  ep_req_header :: Prost ReqHeader;
  ep_resp_header :: Prost RespHeader;
  ep_write_req :: Prost WriteReqBody;
  ep_write_resp :: Prost WriteRespBody;
  ep_read_req :: Prost ReadReqBody;
  ep_read_resp :: Prost ReadRespBody;
  ep_cluster_resp :: Prost GetClusterMetadataRespBody;
  ep_shard_req :: Prost GetShardMetadataReqBody;
  ep_shard_resp :: Prost GetShardMetadataRespBody;
  ep_fetch_req :: Prost FetchOffsetReqBody;
  ep_fetch_resp :: Prost FetchOffsetRespBody;
  ep_create_req :: Prost CreateShardReqBody;
  ep_create_resp :: Prost CreateShardRespBody;
  ep_delete_req :: Prost DeleteShardReqBody;
  ep_delete_resp :: Prost DeleteShardRespBody
}.
(** Every message is read back, and nothing is read as the default message. *)
Class EngineProstSpec {EP : EngineProst} : Prop := {
  eps_req_header :: ProstSpec ReqHeader;
  eps_resp_header :: ProstSpec RespHeader;
  eps_write_req :: ProstSpec WriteReqBody;
  eps_write_resp :: ProstSpec WriteRespBody;
  eps_read_req :: ProstSpec ReadReqBody;
  eps_read_resp :: ProstSpec ReadRespBody;
  eps_cluster_resp :: ProstSpec GetClusterMetadataRespBody;
  eps_shard_req :: ProstSpec GetShardMetadataReqBody;
  eps_shard_resp :: ProstSpec GetShardMetadataRespBody;
  eps_fetch_req :: ProstSpec FetchOffsetReqBody;
  eps_fetch_resp :: ProstSpec FetchOffsetRespBody;
  eps_create_req :: ProstSpec CreateShardReqBody;
  eps_create_resp :: ProstSpec CreateShardRespBody;
  eps_delete_req :: ProstSpec DeleteShardReqBody;
  eps_delete_resp :: ProstSpec DeleteShardRespBody;
  req_header_default : prost_decode [] = inr (mkReqHeader 0 0);
  resp_header_default : prost_decode [] = inr (mkRespHeader 0 0 None)
}.

(** ** The codec *)

Definition MAX_SIZE : Z := 1024 * 1024 * 1024 * 8.

Section codec.
Context {EP : EngineProst}.

(** Header and body of a packet, each encoded, and its kind; [unwrap] of a part
    that is missing panics. *)
Definition parts {H B : Type} {PH : Prost H} {PB : Prost B} (req_type : Z) (data : message H B)
  : outcome CodecError (bytes * bytes * Z) :=
  match msg_header data, msg_body data with
  | Some header, Some body => Ok (encode_to_vec header, encode_to_vec body, req_type)
  | _, _ => Panic
  end.

Definition packet_parts (item : JournalEnginePacket) : outcome CodecError (bytes * bytes * Z) :=
  match item with
  | WriteReq data => parts 1 data
  | WriteResp data => parts 2 data
  | ReadReq data => parts 1 data
  | ReadResp data => parts 2 data
  | GetClusterMetadataReq header =>
      match header with Some header => Ok (encode_to_vec header, [], 1) | None => Panic end
  | GetClusterMetadataResp data => parts 2 data
  | GetShardMetadataReq data => parts 1 data
  | GetShardMetadataResp data => parts 2 data
  | FetchOffsetReq data => parts 1 data
  | FetchOffsetResp data => parts 2 data
  | CreateShardReq data => parts 1 data
  | CreateShardResp data => parts 2 data
  | DeleteShardReq data => parts 1 data
  | DeleteShardResp data => parts 2 data
  end.

(** [put_u32] of a length. *)
Definition u32_octets (n : Z) : bytes := be_octets 4 (n mod 2 ^ 32).

Definition encode (item : JournalEnginePacket) : M bytes CodecError unit :=
  let! p := lift (packet_parts item) in
  let '(header_byte, body_byte, req_type) := p in
  let data_len := blen header_byte + blen body_byte in
  if MAX_SIZE <? data_len then fail (CE_PayloadSizeLimitExceeded data_len)
  else
    fun dst =>
      (Ok tt, dst ++ u32_octets data_len ++ [req_type] ++ u32_octets (blen header_byte) ++ header_byte
                  ++ u32_octets (blen body_byte) ++ body_byte).

(** A slice of a buffer; out of range it panics. *)
Definition slice (b : bytes) (from len : Z) : outcome CodecError bytes :=
  if from + len <=? blen b then Ok (take (Z.to_nat len) (drop (Z.to_nat from) b)) else Panic.

(** The decoder of a body, with the name that it gives in an error. *)
Definition body_of {H B : Type} {PB : Prost B} (name : bytes) (packet : message H B -> JournalEnginePacket)
    (body_bytes : bytes) (header : H) : outcome CodecError (option JournalEnginePacket) :=
  match prost_decode body_bytes with
  | inr body => Ok (Some (packet (mkMessage (Some header) (Some body))))
  | inl e => Err (CE_DecodeBodyError name e)
  end.
Definition create_shard_req := body_of (H := ReqHeader) (lit "write_req") CreateShardReq.
Definition create_shard_resp := body_of (H := RespHeader) (lit "write_resp") CreateShardResp.
Definition delete_shard_req := body_of (H := ReqHeader) (lit "write_req") DeleteShardReq.
Definition delete_shard_resp := body_of (H := RespHeader) (lit "write_resp") DeleteShardResp.
Definition write_req := body_of (H := ReqHeader) (lit "write_req") WriteReq.
Definition write_resp := body_of (H := RespHeader) (lit "write_resp") WriteResp.
Definition read_req := body_of (H := ReqHeader) (lit "read_req") ReadReq.
Definition read_resp := body_of (H := RespHeader) (lit "read_resp") ReadResp.
Definition get_cluster_metadata_req (_ : bytes) (header : ReqHeader)
  : outcome CodecError (option JournalEnginePacket) := Ok (Some (GetClusterMetadataReq (Some header))).
Definition get_cluster_metadata_resp :=
  body_of (H := RespHeader) (lit "get_cluster_metadata_resp") GetClusterMetadataResp.
Definition get_shard_metadata_req := body_of (H := ReqHeader) (lit "get_shard_metadata_req") GetShardMetadataReq.
Definition get_shard_metadata_resp := body_of (H := RespHeader) (lit "get_shard_metadata_resp") GetShardMetadataResp.
Definition fetch_offset_req := body_of (H := ReqHeader) (lit "fetch_offset_resp") FetchOffsetReq.
Definition fetch_offset_resp := body_of (H := RespHeader) (lit "fetch_offset_resp") FetchOffsetResp.

Definition decode_request (header body_bytes : bytes) : outcome CodecError (option JournalEnginePacket) :=
  match prost_decode header with
  | inl e => Err (CE_DecodeHeaderError e)
  | inr header =>
      match api_key (qh_api_key header) with
      | AK_Write => write_req body_bytes header
      | AK_Read => read_req body_bytes header
      | AK_GetClusterMetadata => get_cluster_metadata_req body_bytes header
      | AK_GetShardMetadata => get_shard_metadata_req body_bytes header
      | AK_FetchOffset => fetch_offset_req body_bytes header
      | AK_CreateShard => create_shard_req body_bytes header
      | AK_DeleteShard => delete_shard_req body_bytes header
      | AK_Unimplemented => Err (CE_NotAvailableRequestType 1)
      end
  end.
Definition decode_response (header body_bytes : bytes) : outcome CodecError (option JournalEnginePacket) :=
  match prost_decode header with
  | inl e => Err (CE_DecodeHeaderError e)
  | inr header =>
      match api_key (ph_api_key header) with
      | AK_Write => write_resp body_bytes header
      | AK_Read => read_resp body_bytes header
      | AK_GetClusterMetadata => get_cluster_metadata_resp body_bytes header
      | AK_GetShardMetadata => get_shard_metadata_resp body_bytes header
      | AK_FetchOffset => fetch_offset_resp body_bytes header
      | AK_CreateShard => create_shard_resp body_bytes header
      | AK_DeleteShard => delete_shard_resp body_bytes header
      | AK_Unimplemented => Err (CE_NotAvailableRequestType 2)
      end
  end.

(** The parts of a frame that has been taken from the buffer. *)
Definition decode_frame (frame_bytes : bytes) : M bytes CodecError (option JournalEnginePacket) :=
  let! req_type := lift (slice frame_bytes 4 1) in
  let req_type := be_value req_type in
  let! header_len := lift (slice frame_bytes 5 4) in
  let header_len := be_value header_len in
  if header_len =? 0 then fail CE_HeaderLengthIsZero
  else
    let! header_body_bytes := lift (slice frame_bytes 9 header_len) in
    let position := 9 + header_len in
    let! body_len := lift (slice frame_bytes position 4) in
    let! body_bytes := lift (slice frame_bytes (position + 4) (be_value body_len)) in
    lift (if req_type =? 1 then decode_request header_body_bytes body_bytes
          else if req_type =? 2 then decode_response header_body_bytes body_bytes
          else Err (CE_NotAvailableRequestType req_type)).

Definition decode : M bytes CodecError (option JournalEnginePacket) :=
  fun src =>
    let src_len := blen src in
    if src_len <? 4 then (Ok None, src)
    else
      let data_len := be_value (take 4 src) in
      if MAX_SIZE <? data_len then (Err (CE_PayloadSizeLimitExceeded data_len), src)
      else
        let frame_len := data_len + 1 + 4 + 4 + 4 in
        if src_len <? frame_len then (Ok None, src)
        else decode_frame (take (Z.to_nat frame_len) src) (drop (Z.to_nat frame_len) src).
End codec.

(** ** What the codec does *)

(** A packet whose header names its kind, with both parts there. *)
Definition req_ok {B : Type} (k : ApiKey) (data : message ReqHeader B) : Prop :=
  exists header body, data = mkMessage (Some header) (Some body) /\ qh_api_key header = api_key_number k.
Definition resp_ok {B : Type} (k : ApiKey) (data : message RespHeader B) : Prop :=
  exists header body, data = mkMessage (Some header) (Some body) /\ ph_api_key header = api_key_number k.
Definition packet_ok (item : JournalEnginePacket) : Prop :=
  match item with
  | WriteReq data => req_ok AK_Write data
  | WriteResp data => resp_ok AK_Write data
  | ReadReq data => req_ok AK_Read data
  | ReadResp data => resp_ok AK_Read data
  | GetClusterMetadataReq header =>
      exists h, header = Some h /\ qh_api_key h = api_key_number AK_GetClusterMetadata
  | GetClusterMetadataResp data => resp_ok AK_GetClusterMetadata data
  | GetShardMetadataReq data => req_ok AK_GetShardMetadata data
  | GetShardMetadataResp data => resp_ok AK_GetShardMetadata data
  | FetchOffsetReq data => req_ok AK_FetchOffset data
  | FetchOffsetResp data => resp_ok AK_FetchOffset data
  | CreateShardReq data => req_ok AK_CreateShard data
  | CreateShardResp data => resp_ok AK_CreateShard data
  | DeleteShardReq data => req_ok AK_DeleteShard data
  | DeleteShardResp data => resp_ok AK_DeleteShard data
  end.
(** The length of header and body fits the field that holds it. *)
Definition packet_small {EP : EngineProst} (item : JournalEnginePacket) : Prop :=
  match packet_parts item with Ok (h, b, _) => blen h + blen b < 2 ^ 32 | _ => False end.

Definition codec_frame (header body : bytes) (req_type : Z) : bytes :=
  u32_octets (blen header + blen body) ++ [req_type] ++ u32_octets (blen header) ++ header
  ++ u32_octets (blen body) ++ body.

Section facts.
Context {EP : EngineProst}.
Implicit Types (header body rest : bytes).

Lemma blen_u32 n : blen (u32_octets n) = 4.
Proof. unfold u32_octets, blen. by rewrite length_be. Qed.
Lemma u32_value n : 0 <= n < 2 ^ 32 -> be_value (u32_octets n) = n.
Proof.
  intros Hn. unfold u32_octets. rewrite Z.mod_small by done. apply be_value_octets.
  change (256 ^ Z.of_nat 4) with (2 ^ 32). done.
Qed.

Lemma slice_app (a b c : bytes) from len : from = blen a -> len = blen b -> slice (a ++ b ++ c) from len = Ok b.
Proof.
  intros -> ->. unfold slice. rewrite (proj2 (Z.leb_le _ _)) by blia. by rewrite drop_blen_app, take_blen_app.
Qed.
Lemma slice_out (b : bytes) from len : blen b < from + len -> slice b from len = Panic.
Proof. intros Hb. unfold slice. by rewrite (proj2 (Z.leb_gt _ _)) by lia. Qed.

Lemma blen_codec_frame header body t : blen (codec_frame header body t) = blen header + blen body + 13.
Proof. unfold codec_frame. autorewrite with blen. rewrite !blen_u32. lia. Qed.

(** A frame gives back its parts. *)
Lemma decode_frame_parts header body t rest :
  header <> [] -> blen header + blen body < 2 ^ 32 ->
  decode_frame (codec_frame header body t) rest =
  (if t =? 1 then decode_request header body
   else if t =? 2 then decode_response header body else Err (CE_NotAvailableRequestType t), rest).
Proof.
  intros Hh Hs. pose proof (blen_nonneg header). pose proof (blen_nonneg body).
  assert (0 < blen header) by (destruct header; [done|autorewrite with blen in *; blen_pose; lia]).
  unfold decode_frame, lift. set (fr := codec_frame header body t).
  assert (slice fr 4 1 = Ok [t]) as S1.
  { unfold fr, codec_frame. apply slice_app; [by rewrite blen_u32|done]. }
  assert (slice fr 5 4 = Ok (u32_octets (blen header))) as S2.
  { unfold fr, codec_frame. rewrite (app_assoc _ [t]).
    apply slice_app; [rewrite blen_app, blen_u32; done|by rewrite blen_u32]. }
  assert (slice fr 9 (blen header) = Ok header) as S3.
  { unfold fr, codec_frame. rewrite (app_assoc _ [t]), (app_assoc _ (u32_octets (blen header))).
    apply slice_app; [rewrite !blen_app, !blen_u32; done|done]. }
  assert (slice fr (9 + blen header) 4 = Ok (u32_octets (blen body))) as S4.
  { unfold fr, codec_frame. rewrite (app_assoc _ [t]), (app_assoc _ (u32_octets (blen header))), (app_assoc _ header).
    apply slice_app; [rewrite !blen_app, !blen_u32; autorewrite with blen; lia|by rewrite blen_u32]. }
  assert (slice fr (9 + blen header + 4) (blen body) = Ok body) as S5.
  { unfold fr, codec_frame. rewrite <- (app_nil_r body) at 3.
    rewrite (app_assoc _ [t]), (app_assoc _ (u32_octets (blen header))), (app_assoc _ header), (app_assoc _ (u32_octets (blen body))).
    apply slice_app; [rewrite !blen_app, !blen_u32; autorewrite with blen; lia|done]. }
  unfold bind. rewrite S1, S2, u32_value by lia. rewrite (proj2 (Z.eqb_neq _ 0)) by lia.
  rewrite S3, S4, u32_value, S5 by lia. by replace (be_value [t]) with t by (unfold be_value; cbn; lia).
Qed.

Lemma decode_frame_ok header body t rest :
  header <> [] -> blen header + blen body < 2 ^ 32 ->
  decode (codec_frame header body t ++ rest) =
  (if t =? 1 then decode_request header body
   else if t =? 2 then decode_response header body else Err (CE_NotAvailableRequestType t), rest).
Proof.
  intros Hh Hs. pose proof (blen_codec_frame header body t) as Hl.
  pose proof (blen_nonneg header). pose proof (blen_nonneg body). pose proof (blen_nonneg rest).
  unfold decode. rewrite blen_app, (proj2 (Z.ltb_ge _ 4)) by lia.
  assert (take 4 (codec_frame header body t ++ rest) = u32_octets (blen header + blen body)) as ->.
  { unfold codec_frame. rewrite <- !app_assoc. pose proof (take_blen_app (u32_octets (blen header + blen body))) as Ht.
    rewrite blen_u32 in Ht. apply Ht. }
  rewrite u32_value by lia. unfold MAX_SIZE. rewrite (proj2 (Z.ltb_ge _ _)) by lia.
  rewrite (proj2 (Z.ltb_ge _ _)) by lia.
  replace (blen header + blen body + 1 + 4 + 4 + 4) with (blen (codec_frame header body t)) by lia.
  rewrite take_blen_app, drop_blen_app. by apply decode_frame_parts.
Qed.

(** Until a frame is complete the decoder waits. *)
Lemma decode_incomplete header body t octets lost :
  blen header + blen body < 2 ^ 32 -> codec_frame header body t = octets ++ lost -> lost <> [] ->
  decode octets = (Ok None, octets).
Proof.
  intros Hs Hc Hne. pose proof (blen_codec_frame header body t) as Hl. rewrite Hc, blen_app in Hl.
  assert (0 < blen lost) by (destruct lost; [done|autorewrite with blen in *; blen_pose; lia]).
  pose proof (blen_nonneg header). pose proof (blen_nonneg body).
  unfold decode. destruct (Z.ltb_spec (blen octets) 4); [done|].
  assert (take 4 octets = u32_octets (blen header + blen body)) as ->.
  { assert (take 4 (octets ++ lost) = take 4 octets) as <- by (apply take_app_le; unfold blen in *; lia).
    rewrite <- Hc. unfold codec_frame. pose proof (take_blen_app (u32_octets (blen header + blen body))) as Ht.
    rewrite blen_u32 in Ht. apply Ht. }
  rewrite u32_value by lia. unfold MAX_SIZE. rewrite (proj2 (Z.ltb_ge _ _)) by lia.
  by rewrite (proj2 (Z.ltb_lt _ _)) by lia.
Qed.

(** What an encoder puts into a buffer. *)
Lemma encode_parts item header body t dst :
  packet_parts item = Ok (header, body, t) -> blen header + blen body < 2 ^ 32 ->
  encode item dst = (Ok tt, dst ++ codec_frame header body t).
Proof.
  intros Hp Hs. unfold encode. erewrite bind_ok by (unfold lift; by rewrite Hp). cbn beta iota.
  unfold MAX_SIZE. by rewrite (proj2 (Z.ltb_ge _ _)) by lia.
Qed.

Context {ES : EngineProstSpec}.

Lemma req_header_nonempty h : qh_api_key h <> 0 -> encode_to_vec h <> [].
Proof.
  intros Hk E. pose proof (prost_roundtrip h) as Hr. rewrite E, req_header_default in Hr.
  injection Hr as <-. by cbn in Hk.
Qed.
Lemma resp_header_nonempty h : ph_api_key h <> 0 -> encode_to_vec h <> [].
Proof.
  intros Hk E. pose proof (prost_roundtrip h) as Hr. rewrite E, resp_header_default in Hr.
  injection Hr as <-. by cbn in Hk.
Qed.

Lemma decode_request_ok {B} {PB : Prost B} {PS : ProstSpec B} h (b : B) k :
  qh_api_key h = api_key_number k -> k <> AK_Unimplemented ->
  encode_to_vec h <> [] /\ api_key (qh_api_key h) = k /\ prost_decode (encode_to_vec h) = inr h /\
  prost_decode (encode_to_vec b) = inr b.
Proof.
  intros Hk Hn. split_and!; [apply req_header_nonempty; rewrite Hk; by destruct k|rewrite Hk; by destruct k| |];
    apply prost_roundtrip.
Qed.
Lemma decode_response_ok {B} {PB : Prost B} {PS : ProstSpec B} h (b : B) k :
  ph_api_key h = api_key_number k -> k <> AK_Unimplemented ->
  encode_to_vec h <> [] /\ api_key (ph_api_key h) = k /\ prost_decode (encode_to_vec h) = inr h /\
  prost_decode (encode_to_vec b) = inr b.
Proof.
  intros Hk Hn. split_and!; [apply resp_header_nonempty; rewrite Hk; by destruct k|rewrite Hk; by destruct k| |];
    apply prost_roundtrip.
Qed.

(** The parts of a packet decode to it. *)
Lemma packet_parts_ok item :
  packet_ok item ->
  exists header body t, packet_parts item = Ok (header, body, t) /\ header <> [] /\
    (if t =? 1 then decode_request header body
     else if t =? 2 then decode_response header body else Err (CE_NotAvailableRequestType t)) = Ok (Some item).
Proof.
  destruct item; cbn [packet_ok];
    first [ intros (h & b & -> & Hk); cbn [packet_parts parts msg_header msg_body]
          | intros (h & -> & Hk); cbn [packet_parts] ];
    do 3 eexists; (split; [reflexivity|]); cbn [Z.eqb Pos.eqb];
    first [ destruct (decode_request_ok h b _ Hk) as (H1 & H2 & H3 & H4); [done|]
          | destruct (decode_response_ok h b _ Hk) as (H1 & H2 & H3 & H4); [done|]
          | destruct (decode_request_ok h h _ Hk) as (H1 & H2 & H3 & H4); [done|] ];
    (split; [done|]); unfold decode_request, decode_response; rewrite H3, H2;
    first [ reflexivity | cbv delta [write_req write_resp read_req read_resp get_cluster_metadata_resp
      get_shard_metadata_req get_shard_metadata_resp fetch_offset_req fetch_offset_resp create_shard_req
      create_shard_resp delete_shard_req delete_shard_resp]; unfold body_of; by rewrite H4 ].
Qed.
End facts.
