(* ===== verification/SegmentFile.v ===== *)
(** * The files of the journal: [journal-server/src/segment/file.rs]

    A segment is one file of records, each written as its offset (eight
    octets), the length of its data (four octets) and the data, the record as
    [prost] encodes it.  The file system is a parameter, [Files] with its
    documented behaviour [FilesSpec] and, for a disk that does not fail,
    [FilesReliable]; how many octets one [read_buf] of a [tokio] reader yields
    is the parameter [ReadBuf].  Also here: the errors of the server,
    [core/error.rs], and the names of a segment. *)

From Stdlib Require Import String.
From S2P Require Import Prelude Bytes RustStr Storage RocksEngine PlacementRoute RaftLog KvService.

(** ** Data *)

Record JournalRecord : Type := mkJournalRecord {
  jr_producer_id : bytes;
  jr_pkid : Z;
  jr_key : bytes;
  jr_content : bytes;
  jr_create_time : Z;
  jr_tags : list bytes;
  jr_offset : Z;
  jr_namespace : bytes;
  jr_shard_name : bytes;
  jr_segment : Z
}.

Definition with_offset (offset : Z) (r : JournalRecord) : JournalRecord :=
  mkJournalRecord (jr_producer_id r) (jr_pkid r) (jr_key r) (jr_content r) (jr_create_time r)
    (jr_tags r) offset (jr_namespace r) (jr_shard_name r) (jr_segment r).

(** [SegmentIdentity], [segment_name] and [shard_name_iden]. *)
Record SegmentIdentity : Type := mkSegmentIdentity {
  si_namespace : bytes;
  si_shard_name : bytes;
  si_segment_seq : Z
}.
#[export] Instance SegmentIdentity_eq_dec : EqDecision SegmentIdentity.
Proof. solve_decision. Defined.

Definition segment_name (namespace shard_name : bytes) (segment_no : Z) : bytes :=
  namespace ++ lit "," ++ shard_name ++ lit "," ++ decimal segment_no.
Definition shard_name_iden (namespace shard_name : bytes) : bytes := namespace ++ lit "," ++ shard_name.
Definition iden_name (i : SegmentIdentity) : bytes :=
  segment_name (si_namespace i) (si_shard_name i) (si_segment_seq i).
Definition iden_shard (i : SegmentIdentity) : bytes := shard_name_iden (si_namespace i) (si_shard_name i).

(** ** Errors *)

Inductive JournalServerError : Type :=
| JE_FromUtf8Error (e : bytes)
| JE_CommonError (e : CommonError)
| JE_StdIoError (e : bytes)
| JE_BroadcastBoolSendError (e : bytes)
| JE_MpscSegmentWriteDataSendError (e : bytes)
| JE_OneshotRecvError (e : bytes)
| JE_ProstDecodeError (e : bytes)
| JE_TokioTimeErrorElapsed (e : bytes)
| JE_SerdeJsonError (e : bytes)
| JE_ParseIntError (e : bytes)
| JE_RequestBodyNotEmpty (name : bytes)
| JE_ShardNotExist (name : bytes)
| JE_NotAvailableSegments (name : bytes)
| JE_NotActiveSegment (name : bytes)
| JE_SegmentNotExist (name : bytes)
| JE_NotFoundConnectionInCache (id : Z)
| JE_SegmentStatusError (name status : bytes)
| JE_SegmentAlreadySealUp (name : bytes)
| JE_NotLeader (name : bytes)
| JE_SegmentFileNotExists (name : bytes)
| JE_SegmentDataDirectoryNotFound (name : bytes) (node_id : Z)
| JE_SegmentMetaNotExists (name : bytes)
| JE_SegmentFileMetaNotExists (name : bytes)
| JE_TimestampBelongToPreviousSegment (timestamp start : Z) (name : bytes)
| JE_TimestampBelongToNextSegment (timestamp start : Z) (name : bytes)
| JE_NotAvailableOffsetByTimestamp (timestamp : Z) (name : bytes)
| JE_SegmentOffsetAtTheEnd.

Definition get_journal_server_code (e : JournalServerError) : bytes :=
  match e with
  | JE_CommonError _ => lit "CommonError"
  | JE_BroadcastBoolSendError _ => lit "BroadcastBoolSendError"
  | JE_MpscSegmentWriteDataSendError _ => lit "MpscSegmentWriteDataSendError"
  | JE_OneshotRecvError _ => lit "OneshotRecvError"
  | JE_FromUtf8Error _ => lit "FromUtf8Error"
  | JE_SegmentAlreadySealUp _ => lit "SegmentAlreadySealUp"
  | JE_TokioTimeErrorElapsed _ => lit "TokioTimeErrorElapsed"
  | JE_StdIoError _ => lit "StdIoError"
  | JE_ProstDecodeError _ => lit "ProstDecodeError"
  | JE_SerdeJsonError _ => lit "SerdeJsonError"
  | JE_ParseIntError _ => lit "ParseIntError"
  | JE_RequestBodyNotEmpty _ => lit "RequestBodyNotEmpty"
  | JE_ShardNotExist _ => lit "ShardNotExist"
  | JE_NotAvailableSegments _ => lit "NotAvailableSegments"
  | JE_NotActiveSegment _ => lit "NotActiveSegment"
  | JE_SegmentNotExist _ => lit "SegmentNotExist"
  | JE_NotFoundConnectionInCache _ => lit "NotFoundConnectionInCache"
  | JE_SegmentStatusError _ _ => lit "SegmentStatusError"
  | JE_NotLeader _ => lit "NotLeader"
  | JE_SegmentFileNotExists _ => lit "SegmentFileNotExists"
  | JE_SegmentDataDirectoryNotFound _ _ => lit "SegmentDataDirectoryNotFound"
  | JE_SegmentMetaNotExists _ => lit "SegmentMetaNotExists"
  | JE_SegmentFileMetaNotExists _ => lit "SegmentFileMetaNotExists"
  | JE_TimestampBelongToPreviousSegment _ _ _ => lit "TimestampBelongToPreviousSegment"
  | JE_TimestampBelongToNextSegment _ _ _ => lit "TimestampBelongToNextSegment"
  | JE_NotAvailableOffsetByTimestamp _ _ => lit "NotAvailableOffsetByTimestamp"
  | JE_SegmentOffsetAtTheEnd => lit "SegmentOffsetAtTheEnd"
  end.

(** [Display] of a signed number and of an error. *)
Definition signed_decimal (n : Z) : bytes := if n <? 0 then lit "-" ++ decimal (- n) else decimal n.

Definition journal_error_text {ET : ErrorText} (e : JournalServerError) : bytes :=
  match e with
  | JE_CommonError e => common_text e
  | JE_FromUtf8Error e | JE_StdIoError e | JE_BroadcastBoolSendError e
  | JE_MpscSegmentWriteDataSendError e | JE_OneshotRecvError e | JE_ProstDecodeError e
  | JE_TokioTimeErrorElapsed e | JE_SerdeJsonError e | JE_ParseIntError e => e
  | JE_RequestBodyNotEmpty n => n ++ lit " request body cannot be empty"
  | JE_ShardNotExist n => lit "Shard " ++ n ++ lit " does not exist"
  | JE_NotAvailableSegments n => lit "No Segment is available for Shard " ++ n
  | JE_NotActiveSegment n =>
      lit "Shard " ++ n ++ lit " Not Active, is triggering the creation of an active Segment"
  | JE_SegmentNotExist n => lit "segment " ++ n ++ lit " does not exist"
  | JE_NotFoundConnectionInCache id =>
      lit "Connection ID " ++ decimal id ++ lit " information not found in cache."
  | JE_SegmentStatusError n s =>
      lit "Segment " ++ n ++ lit " is currently in state " ++ s ++ lit " and is not allowed to write data"
  | JE_SegmentAlreadySealUp n =>
      lit "Segment " ++ n ++ lit " is already in the SealUp state and is not allowed to write"
  | JE_NotLeader n => lit "Current node is not the Leader of Segment " ++ n
  | JE_SegmentFileNotExists n =>
      lit "Segment file " ++ n ++ lit " does not exist, maybe it hasn't been initialized yet."
  | JE_SegmentDataDirectoryNotFound n id =>
      lit "Data directory configuration for Segment " ++ n ++ lit " on node " ++ decimal id
      ++ lit " cannot be found, please check that the metadata information is correct"
  | JE_SegmentMetaNotExists n =>
      lit "Segment meta " ++ n ++ lit " does not exist, maybe it hasn't been initialized yet."
  | JE_SegmentFileMetaNotExists n =>
      lit "Segment file meta " ++ n ++ lit " does not exist, maybe it hasn't been initialized yet."
  | JE_TimestampBelongToPreviousSegment t s n =>
      lit "Timestamp " ++ decimal t ++ lit " is less than the start timestamp " ++ signed_decimal s
      ++ lit " of Segment " ++ n ++ lit ", which should belong to the previous segment"
  | JE_TimestampBelongToNextSegment t s n =>
      lit "Timestamp " ++ decimal t ++ lit " is greater than the start timestamp " ++ signed_decimal s
      ++ lit " of Segment " ++ n ++ lit ", which should belong to the next Segment"
  | JE_NotAvailableOffsetByTimestamp t n =>
      lit "Offset for timestamp " ++ decimal t ++ lit " is not available in Segment " ++ n ++ lit "."
  | JE_SegmentOffsetAtTheEnd => lit "Segment Offset is at the end and can no longer be written."
  end.

(** ** The file system *)

(** [std::fs] and [tokio::fs]; an error is its text.  [fs_append]: a file
    opened for appending and a buffered writer that is flushed.  [fs_read]: the
    octets of a file that was opened.  [fs_read_dir]: the paths of the entries
    of a directory, and whether each is a directory. *)
Class Files (F : Type) : Type := {
  fs_exists : bytes -> F -> bool;
  fs_create_dir_all : bytes -> M F bytes unit;
  fs_create : bytes -> M F bytes unit;
  fs_append : bytes -> bytes -> M F bytes unit;
  fs_read : bytes -> F -> bytes + bytes;
  fs_read_dir : bytes -> F -> bytes + list (bytes * bool);
  fs_remove_file : bytes -> M F bytes unit;
  fs_remove_dir_all : bytes -> M F bytes unit
}.

(** What is known of every call: a file that is missing cannot be opened, an
    append that fails leaves a prefix of the octets behind, and no call touches
    another file.  Removing a directory is left open but for what it keeps. *)
Class FilesSpec (F : Type) {FS : Files F} : Type := {
  files : F -> gmap bytes bytes;
  exists_spec p f : is_Some (files f !! p) -> fs_exists p f = true;
  create_dir_spec p f :
    files (fs_create_dir_all p f).2 = files f /\ (fs_create_dir_all p f).1 <> Panic /\ (fs_create_dir_all p f).1 <> OutOfFuel;
  create_spec p f :
    let (r, f') := fs_create p f in
    (r = Ok tt /\ files f' = <[p := []]> (files f)) \/ (exists e, r = Err e) /\ files f' = files f;
  append_spec p data f :
    let (r, f') := fs_append p data f in
    match files f !! p with
    | None => (exists e, r = Err e) /\ files f' = files f
    | Some b =>
        (r = Ok tt /\ files f' = <[p := b ++ data]> (files f)) \/
        (exists e, r = Err e) /\
        exists written lost, data = written ++ lost /\ files f' = <[p := b ++ written]> (files f)
    end;
  read_spec p f :
    match files f !! p with
    | Some b => fs_read p f = inr b \/ exists e, fs_read p f = inl e
    | None => exists e, fs_read p f = inl e
    end;
  remove_spec p f :
    let (r, f') := fs_remove_file p f in
    (r = Ok tt /\ files f' = delete p (files f)) \/ (exists e, r = Err e) /\ files f' = files f
}.

(** A disk that does not fail: a directory can be made, a file can be made in
    it, and a file that is there can be written and read. *)
Class FilesReliable (F : Type) {FS : Files F} {FP : FilesSpec F} : Prop := {
  create_dir_reliable p f :
    fs_exists p f = false ->
    (fs_create_dir_all p f).1 = Ok tt /\ fs_exists p (fs_create_dir_all p f).2 = true;
  create_reliable dir name f :
    fs_exists dir f = true -> slash ∉ name -> fs_exists (dir ++ lit "/" ++ name) f = false ->
    (fs_create (dir ++ lit "/" ++ name) f).1 = Ok tt;
  exists_reliable dir name f :
    fs_exists dir f = false ->
    fs_exists (dir ++ lit "/" ++ name) (fs_create_dir_all dir f).2 = fs_exists (dir ++ lit "/" ++ name) f;
  append_reliable p data f : is_Some (files f !! p) -> (fs_append p data f).1 = Ok tt;
  read_reliable p f b : files f !! p = Some b -> fs_read p f = inr b
}.

(** One [read_buf] of a [BufReader] into a buffer of [len] octets, at [pos]
    octets after the place of the last seek, [rest] octets before the end of
    the file: the number of octets it yields.  A buffer of length zero is
    enlarged before it is filled. *)
Class ReadBuf : Type := { read_some : Z -> Z -> Z -> Z }.
Class ReadBufSpec {RB : ReadBuf} : Prop := {
  read_some_bounds pos len rest :
    0 <= rest -> 0 <= read_some pos len rest <= rest /\ (0 < len -> read_some pos len rest <= len);
  (** A seek empties the buffer of the reader, which the next read fills with
      up to 8192 octets; what lies in the buffer arrives whole. *)
  read_some_buffered pos len rest :
    0 <= pos -> 0 < len -> pos + len <= 8192 -> 0 <= rest -> read_some pos len rest = Z.min len rest
}.

(** ** [SegmentFile] *)

Record SegmentFile : Type := mkSegmentFile {
  sf_namespace : bytes;
  sf_shard_name : bytes;
  sf_segment_no : Z;
  sf_data_fold : bytes
}.

Definition data_fold_shard (namespace shard_name data_fold : bytes) : bytes :=
  data_fold ++ lit "/" ++ (namespace ++ lit "/" ++ shard_name).
Definition data_file_segment (data_fold : bytes) (segment_no : Z) : bytes :=
  data_fold ++ lit "/" ++ (decimal segment_no ++ lit ".msg").

Definition SegmentFile_new (namespace shard_name : bytes) (segment_no : Z) (data_fold : bytes) : SegmentFile :=
  mkSegmentFile namespace shard_name segment_no (data_fold_shard namespace shard_name data_fold).
Definition segment_path (s : SegmentFile) : bytes := data_file_segment (sf_data_fold s) (sf_segment_no s).

Record ReadData : Type := mkReadData { rd_position : Z; rd_record : JournalRecord }.

(** The octets of a record. *)
Definition frame {PR : Prost JournalRecord} (r : JournalRecord) : bytes :=
  let data := encode_to_vec r in
  be_octets 8 (wrap64 (jr_offset r)) ++ be_octets 4 (blen data mod 2 ^ 32) ++ data.

Section segment_file.
Context {F : Type} {FS : Files F} {RB : ReadBuf} {PR : Prost JournalRecord}.

Definition try_create_fold (fold : bytes) : M F CommonError unit :=
  fun f =>
    if negb (fs_exists fold f) then map_err FromIoError (fs_create_dir_all fold) f else (Ok tt, f).

Definition try_create (s : SegmentFile) : M F JournalServerError unit :=
  map_err JE_CommonError (try_create_fold (sf_data_fold s)) ;;
  let! f := get in
  if fs_exists (segment_path s) f then ret tt
  else map_err JE_StdIoError (fs_create (segment_path s)).

Definition delete_file (s : SegmentFile) : M F JournalServerError unit :=
  let! f := get in
  if negb (fs_exists (segment_path s) f) then fail (JE_SegmentFileNotExists (segment_path s))
  else map_err JE_StdIoError (fs_remove_file (segment_path s)).

Definition write_records (s : SegmentFile) (records : list JournalRecord) : M F JournalServerError unit :=
  map_err JE_StdIoError (fs_append (segment_path s) (concat (map frame records))).

Definition open_read (s : SegmentFile) : M F JournalServerError bytes :=
  fun f => match fs_read (segment_path s) f with
           | inr content => (Ok content, f)
           | inl e => (Err (JE_StdIoError e), f)
           end.

Definition size (s : SegmentFile) : M F JournalServerError Z :=
  let! content := open_read s in ret (blen content).

Definition file_exists (s : SegmentFile) (f : F) : bool := fs_exists (segment_path s) f.

(** [read_u64] and [read_u32] at a position, [None] at the end of the file. *)
Definition read_be (n : nat) (content : bytes) (pos : Z) : option Z :=
  if pos + Z.of_nat n <=? blen content then Some (be_value (take n (drop (Z.to_nat pos) content)))
  else None.

(** [read_buf] at a position, [start] being the place of the last seek. *)
Definition read_buf (content : bytes) (start pos len : Z) : bytes :=
  let rest := Z.max 0 (blen content - pos) in
  take (Z.to_nat (read_some (pos - start) len rest)) (drop (Z.to_nat pos) content).

Definition eof : JournalServerError := JE_StdIoError (lit "early eof").
Definition bad_seek : JournalServerError := JE_StdIoError (lit "Invalid argument (os error 22)").

(** The loop of [read_by_offset]: asking for the position is a seek.  Every
    round moves the reader by twelve octets at least. *)
Fixpoint read_loop (fuel : nat) (content : bytes) (start_offset max_size max_record : Z)
    (position already_size : Z) (results : list ReadData) : outcome JournalServerError (list ReadData) :=
  match fuel with
  | O => OutOfFuel
  | S fuel =>
      if max_size <? already_size then Ok results
      else
        match read_be 8 content position with
        | None => Ok results
        | Some record_offset =>
            match read_be 4 content (position + 8) with
            | None => Err eof
            | Some len =>
                if record_offset <? start_offset then
                  read_loop fuel content start_offset max_size max_record (position + 12 + len) already_size results
                else
                  let buf := read_buf content position (position + 12) len in
                  match prost_decode buf with
                  | inl e => Err (JE_ProstDecodeError e)
                  | inr record =>
                      let results := results ++ [mkReadData position record] in
                      if max_record <=? blen results then Ok results
                      else
                        read_loop fuel content start_offset max_size max_record (position + 12 + blen buf)
                          (wrap64 (already_size + blen buf)) results
                  end
            end
        end
  end.

(** Enough fuel: the reader stops when it is past the end of the file. *)
Definition read_fuel (content : bytes) : nat := S (length content).

Definition read_by_offset (s : SegmentFile) (start_position start_offset max_size max_record : Z)
  : M F JournalServerError (list ReadData) :=
  let! content := open_read s in
  if 2 ^ 63 <=? start_position then fail bad_seek
  else lift (read_loop (read_fuel content) content start_offset max_size max_record start_position 0 []).

Fixpoint read_positions (content : bytes) (positions : list Z) (results : list ReadData)
  : outcome JournalServerError (list ReadData) :=
  match positions with
  | [] => Ok results
  | position :: positions =>
      if 2 ^ 63 <=? position then Err bad_seek
      else
        match read_be 8 content position with
        | None => Ok results
        | Some _ =>
            match read_be 4 content (position + 8) with
            | None => Err eof
            | Some len =>
                if len =? 0 then read_positions content positions results
                else
                  match prost_decode (read_buf content position (position + 12) len) with
                  | inl e => Err (JE_ProstDecodeError e)
                  | inr record => read_positions content positions (results ++ [mkReadData position record])
                  end
            end
        end
  end.

Definition read_by_positions (s : SegmentFile) (positions : list Z) : M F JournalServerError (list ReadData) :=
  let! content := open_read s in lift (read_positions content positions []).
End segment_file.
