(* ===== verification/SegmentFacts.v ===== *)
(** * Reading back what a segment file holds

    The layout of [SegmentFile] seen as a list of records with their positions
    ([placed]); both readers return what the layout says. *)

From Stdlib Require Import String.
From S2P Require Import Prelude Bytes RustStr Storage RocksEngine PlacementRoute RaftLog KvService SegmentFile.

(** Records with the places where they start. *)
Definition stored {PR : Prost JournalRecord} (rs : list JournalRecord) : bytes := concat (map frame rs).
Fixpoint placed {PR : Prost JournalRecord} (position : Z) (rs : list JournalRecord) : list ReadData :=
  match rs with
  | [] => []
  | r :: rs => mkReadData position r :: placed (position + blen (frame r)) rs
  end.

(** A record that one buffer of the reader holds. *)
Definition fits {PR : Prost JournalRecord} (r : JournalRecord) : Prop :=
  0 < blen (encode_to_vec r) <= 8180 /\ 0 <= jr_offset r < 2 ^ 63.

Definition data_size {PR : Prost JournalRecord} (d : ReadData) : Z := blen (encode_to_vec (rd_record d)).

(** What a read returns of the records that are at or after its offset: at
    least one, at most [max_record], and no further one once the size of those
    returned exceeds [max_size]. *)
Fixpoint batch {PR : Prost JournalRecord} (max_size max_record : Z) (l : list ReadData) : list ReadData :=
  match l with
  | [] => []
  | d :: l =>
      if max_size <? 0 then []
      else d :: (if max_record <=? 1 then [] else batch (max_size - data_size d) (max_record - 1) l)
  end.
Definition from_offset (offset : Z) (l : list ReadData) : list ReadData :=
  filter (fun d => offset <= jr_offset (rd_record d)) l.

Section layout.
Context {PR : Prost JournalRecord} {PS : ProstSpec JournalRecord} {RB : ReadBuf} {BS : ReadBufSpec}.
Implicit Types (r : JournalRecord) (rs : list JournalRecord) (pre : bytes).

Lemma batch_prefix max_size max_record l : batch max_size max_record l `prefix_of` l.
Proof.
  revert max_size max_record. induction l as [|d l IH]; intros ms mr; cbn [batch]; [done|].
  case_match; [apply prefix_nil|]. apply prefix_cons. case_match; [apply prefix_nil|apply IH].
Qed.

Lemma batch_exhausted max_size max_record l : max_size < 0 -> batch max_size max_record l = [].
Proof. intros Hm. destruct l; cbn [batch]; [done|]. by rewrite (proj2 (Z.ltb_lt max_size 0)) by lia. Qed.

(** Without limits a read returns everything. *)
Lemma batch_all max_size max_record l :
  Z.of_nat (sum_list_with (fun d => Z.to_nat (data_size d)) l) <= max_size -> blen l <= max_record ->
  batch max_size max_record l = l.
Proof.
  revert max_size max_record. induction l as [|d l IH]; intros ms mr Hs Hr; cbn [batch]; [done|].
  cbn [sum_list_with] in Hs. autorewrite with blen in Hr. unfold data_size in *. blen_pose.
  rewrite (proj2 (Z.ltb_ge _ _)) by lia. f_equal.
  destruct (Z.leb_spec mr 1).
  - destruct l as [|d' l]; [done|]. autorewrite with blen in Hr. pose proof (blen_nonneg l). lia.
  - apply IH; lia.
Qed.

Lemma blen_be n z : blen (be_octets n z) = Z.of_nat n.
Proof. unfold blen. by rewrite length_be. Qed.
Lemma blen_record_frame r : blen (frame r) = 12 + blen (encode_to_vec r).
Proof. unfold frame. rewrite !blen_app, !blen_be. lia. Qed.

Lemma stored_cons r rs : stored (r :: rs) = frame r ++ stored rs.
Proof. done. Qed.
Lemma stored_app rs1 rs2 : stored (rs1 ++ rs2) = stored rs1 ++ stored rs2.
Proof. unfold stored. by rewrite map_app, concat_app. Qed.
Lemma placed_app position rs1 rs2 :
  placed position (rs1 ++ rs2) = placed position rs1 ++ placed (position + blen (stored rs1)) rs2.
Proof.
  revert position. induction rs1 as [|r rs1 IH]; intros p; cbn [app placed].
  { unfold stored. cbn. rewrite blen_nil. f_equal. lia. }
  rewrite IH, stored_cons, blen_app. do 3 f_equal. lia.
Qed.
Lemma placed_records position rs : map rd_record (placed position rs) = rs.
Proof. revert position. induction rs as [|r rs IH]; intros p; cbn; [done|]. by rewrite IH. Qed.

(** The three parts of a record. *)
Lemma read_be_at n z pre post :
  0 <= z < 256 ^ Z.of_nat n -> read_be n (pre ++ be_octets n z ++ post) (blen pre) = Some z.
Proof.
  intros Hz. unfold read_be. rewrite !blen_app, blen_be, (proj2 (Z.leb_le _ _)) by blia.
  rewrite drop_blen_app. pose proof (take_blen_app (be_octets n z) post) as Ht.
  rewrite blen_be, Nat2Z.id in Ht. by rewrite Ht, be_value_octets.
Qed.

Lemma read_offset r pre post :
  fits r -> read_be 8 (pre ++ frame r ++ post) (blen pre) = Some (jr_offset r).
Proof.
  intros [_ Ho]. unfold frame. rewrite <- !app_assoc, wrap64_small by lia.
  apply read_be_at. change (256 ^ Z.of_nat 8) with (2 ^ 64). lia.
Qed.

Lemma read_len r pre post :
  fits r -> read_be 4 (pre ++ frame r ++ post) (blen pre + 8) = Some (blen (encode_to_vec r)).
Proof.
  intros [Hl _]. unfold frame. set (o := be_octets 8 _).
  replace (pre ++ (o ++ _ ++ _) ++ post)
    with ((pre ++ o) ++ be_octets 4 (blen (encode_to_vec r) mod 2 ^ 32) ++ (encode_to_vec r ++ post))
    by by rewrite <- !app_assoc.
  replace (blen pre + 8) with (blen (pre ++ o)) by (rewrite blen_app; unfold o; rewrite blen_be; lia).
  rewrite Z.mod_small by lia. apply read_be_at. change (256 ^ Z.of_nat 4) with (2 ^ 32). lia.
Qed.

Lemma read_body r pre post :
  fits r ->
  read_buf (pre ++ frame r ++ post) (blen pre) (blen pre + 12) (blen (encode_to_vec r)) = encode_to_vec r.
Proof.
  intros [Hl _]. unfold read_buf. rewrite !blen_app, blen_record_frame.
  rewrite read_some_buffered by blia. rewrite Z.max_r, Z.min_l by blia.
  unfold frame. set (h := be_octets 8 _). set (n := be_octets 4 _).
  replace (pre ++ (h ++ n ++ encode_to_vec r) ++ post) with ((pre ++ h ++ n) ++ encode_to_vec r ++ post)
    by by rewrite <- !app_assoc.
  replace (blen pre + 12) with (blen (pre ++ h ++ n))
    by (rewrite !blen_app; unfold h, n; rewrite !blen_be; lia).
  by rewrite drop_blen_app, take_blen_app.
Qed.

Lemma read_be_end n pre : (0 < n)%nat -> read_be n pre (blen pre) = None.
Proof. intros Hn. unfold read_be. by rewrite (proj2 (Z.leb_gt _ _)) by lia. Qed.

(** The reader, started at a record, returns the records it is asked for. *)
Lemma read_loop_stored fuel rs pre so ms mr already results :
  Forall fits rs -> 0 <= already -> already + blen (stored rs) < 2 ^ 64 -> (length (stored rs) < fuel)%nat ->
  read_loop fuel (pre ++ stored rs) so ms mr (blen pre) already results =
  Ok (results ++ batch (ms - already) (mr - blen results) (from_offset so (placed (blen pre) rs))).
Proof.
  revert fuel pre already results. induction rs as [|r rs IH]; intros fuel pre already results Hf Ha Hs Hfuel;
    (destruct fuel as [|fuel]; [lia|]); cbn [read_loop].
  { cbn. rewrite !app_nil_r, read_be_end by lia. by case_match. }
  apply Forall_cons in Hf as [Hr Hf]. rewrite stored_cons in *. rewrite length_app in Hfuel.
  pose proof (blen_record_frame r) as Hb. unfold blen in Hb at 1. pose proof (blen_record_frame r) as Hb'.
  rewrite blen_app, blen_record_frame in Hs. pose proof (blen_nonneg (stored rs)). destruct (Hr) as [Hl _].
  assert (pre ++ frame r ++ stored rs = (pre ++ frame r) ++ stored rs) as Hcut by by rewrite app_assoc.
  assert (blen pre + 12 + blen (encode_to_vec r) = blen (pre ++ frame r)) as Hpos by (rewrite blen_app; lia).
  unfold from_offset in *. cbn [placed]. rewrite filter_cons. cbn [rd_record].
  destruct (Z.ltb_spec ms already).
  { by rewrite batch_exhausted, app_nil_r by lia. }
  rewrite (read_offset r pre), (read_len r pre), (read_body r pre) by done.
  destruct (Z.ltb_spec (jr_offset r) so).
  - rewrite decide_False by lia. rewrite Hcut, Hpos, IH by (done || lia). by rewrite blen_app.
  - rewrite decide_True, prost_roundtrip by lia. cbn [batch].
    rewrite (proj2 (Z.ltb_ge (ms - already) 0)) by lia. autorewrite with blen. cbn [data_size rd_record].
    destruct (Z.leb_spec mr (blen results + (1 + 0))), (Z.leb_spec (mr - blen results) 1); try lia; [done|].
    rewrite wrap64_small, Hcut, Hpos, IH by (done || lia). rewrite <- app_assoc, blen_app. cbn [app].
    autorewrite with blen. unfold data_size. cbn [rd_record]. do 3 f_equal. f_equal; lia.
Qed.

Lemma placed_elem position rs d :
  d ∈ placed position rs ->
  exists rs1 rs2, rs = rs1 ++ rd_record d :: rs2 /\ rd_position d = position + blen (stored rs1).
Proof.
  revert position. induction rs as [|r rs IH]; intros p; cbn [placed]; [by intros ?%elem_of_nil|].
  intros [->|Hd]%elem_of_cons.
  { exists [], rs. cbn. unfold stored. cbn. rewrite blen_nil. by split; [|lia]. }
  destruct (IH _ Hd) as (rs1 & rs2 & -> & Hp). exists (r :: rs1), rs2.
  split; [done|]. rewrite stored_cons, blen_app, Hp. lia.
Qed.

(** The reader, sent to the positions of records, returns those records. *)
Lemma read_positions_stored rs ds results :
  Forall fits rs -> blen (stored rs) < 2 ^ 63 -> Forall (fun d => d ∈ placed 0 rs) ds ->
  read_positions (stored rs) (map rd_position ds) results = Ok (results ++ ds).
Proof.
  intros Hf Hlen. revert results. induction ds as [|d ds IH]; intros results Hd; cbn [map read_positions].
  { by rewrite app_nil_r. }
  apply Forall_cons in Hd as [Hd Hds]. destruct (placed_elem _ _ _ Hd) as (rs1 & rs2 & E & Hp).
  rewrite Z.add_0_l in Hp. assert (fits (rd_record d)) as Hr.
  { rewrite Forall_forall in Hf. apply Hf. rewrite E. set_solver. }
  assert (stored rs = stored rs1 ++ frame (rd_record d) ++ stored rs2) as Hst by (rewrite E; apply stored_app).
  rewrite Hst, blen_app in Hlen. blen_pose. rewrite Hp, Hst.
  rewrite (proj2 (Z.leb_gt _ _)) by lia.
  rewrite read_offset, read_len, read_body, prost_roundtrip by done. destruct (Hr) as [Hl _].
  rewrite (proj2 (Z.eqb_neq _ 0)) by lia. rewrite <- Hst, <- Hp.
  replace (mkReadData (rd_position d) (rd_record d)) with d by by destruct d.
  rewrite IH by done. by rewrite <- app_assoc.
Qed.

(** ** A segment file on a disk *)

Context {F : Type} {FS : Files F} {FP : FilesSpec F} {FR : FilesReliable F}.
Implicit Types (s : SegmentFile) (f : F).

Lemma decimal_no_slash n : slash ∉ decimal n.
Proof.
  intros Hin. pose proof (decimal_loop_digits 20 n) as Hd. rewrite Forall_forall in Hd.
  specialize (Hd _ Hin). unfold slash in Hd. lia.
Qed.

(** A file is made empty, unless there is one. *)
Lemma try_create_ok s f :
  exists f', try_create s f = (Ok tt, f') /\
    files f' = if fs_exists (segment_path s) f then files f else <[segment_path s := []]> (files f).
Proof.
  unfold try_create, try_create_fold. destruct (create_dir_spec (sf_data_fold s) f) as (Hd & _).
  assert (exists f1, map_err JE_CommonError (fun f => if negb (fs_exists (sf_data_fold s) f)
      then map_err FromIoError (fs_create_dir_all (sf_data_fold s)) f else (Ok tt, f)) f = (Ok tt, f1) /\
      files f1 = files f /\ fs_exists (sf_data_fold s) f1 = true /\
      fs_exists (segment_path s) f1 = fs_exists (segment_path s) f) as (f1 & H1 & H2 & H3 & H4).
  { unfold map_err. destruct (fs_exists (sf_data_fold s) f) eqn:E; cbn [negb]; [by eexists|].
    destruct (create_dir_reliable (sf_data_fold s) f E) as [Hr He].
    pose proof (exists_reliable (sf_data_fold s) (decimal (sf_segment_no s) ++ lit ".msg") f E) as Hx.
    change (sf_data_fold s ++ lit "/" ++ decimal (sf_segment_no s) ++ lit ".msg") with (segment_path s) in Hx.
    destruct (fs_create_dir_all (sf_data_fold s) f) as [o f1]. cbn in *. subst. by exists f1. }
  erewrite bind_ok by exact H1. cbn [bind get]. rewrite H4. destruct (fs_exists (segment_path s) f) eqn:E.
  { by exists f1. }
  pose proof (create_spec (segment_path s) f1) as Hc.
  assert ((fs_create (segment_path s) f1).1 = Ok tt) as Hok.
  { apply create_reliable; [done| |exact H4].
    rewrite elem_of_app. intros [Hin|Hin]; [by apply decimal_no_slash in Hin|].
    vm_compute in Hin. set_solver. }
  unfold map_err. destruct (fs_create (segment_path s) f1) as [o f2]. cbn in Hok. subst.
  exists f2. split; [done|]. destruct Hc as [[_ ->]|[[e He'] _]]; [by rewrite H2|done].
Qed.

Lemma write_records_ok s rs b f :
  files f !! segment_path s = Some b ->
  exists f', write_records s rs f = (Ok tt, f') /\ files f' = <[segment_path s := b ++ stored rs]> (files f).
Proof.
  intros Hb. unfold write_records, map_err. fold (stored rs).
  pose proof (append_spec (segment_path s) (stored rs) f) as Ha. rewrite Hb in Ha.
  pose proof (append_reliable (segment_path s) (stored rs) f (ex_intro _ b Hb)) as Hr.
  destruct (fs_append (segment_path s) (stored rs) f) as [o f']. cbn in Hr. subst.
  exists f'. split; [done|]. by destruct Ha as [[_ ?]|[[e ?] _]].
Qed.

(** A write that fails leaves a prefix of what it was to write. *)
Lemma write_records_err s rs e f f' :
  write_records s rs f = (Err e, f') -> is_Some (files f !! segment_path s) ->
  exists b written lost, files f !! segment_path s = Some b /\ stored rs = written ++ lost /\
    files f' = <[segment_path s := b ++ written]> (files f).
Proof.
  intros He [b Hb]. unfold write_records, map_err in He. fold (stored rs) in He.
  pose proof (append_spec (segment_path s) (stored rs) f) as Ha. rewrite Hb in Ha.
  destruct (fs_append (segment_path s) (stored rs) f) as [o f1].
  destruct Ha as [[-> _]|[[e' ->] (w & l & Hw & Hf)]]; [done|]. injection He as <- <-. eauto 10.
Qed.

Lemma open_read_ok s f b : files f !! segment_path s = Some b -> open_read s f = (Ok b, f).
Proof. intros Hb. unfold open_read. by rewrite (read_reliable _ _ _ Hb). Qed.

Lemma read_by_offset_stored s f rs1 rs2 so ms mr :
  files f !! segment_path s = Some (stored rs1 ++ stored rs2) -> Forall fits rs2 ->
  blen (stored rs1 ++ stored rs2) < 2 ^ 63 ->
  read_by_offset s (blen (stored rs1)) so ms mr f =
  (Ok (batch ms mr (from_offset so (placed (blen (stored rs1)) rs2))), f).
Proof.
  intros Hb Hf Hlen. unfold read_by_offset. erewrite bind_ok by by apply open_read_ok.
  rewrite blen_app in Hlen. blen_pose. rewrite (proj2 (Z.leb_gt _ _)) by lia. unfold lift.
  rewrite read_loop_stored by (done || lia || (unfold read_fuel; rewrite length_app; lia)).
  change (blen (A := ReadData) []) with 0. by rewrite (Z.sub_0_r ms), (Z.sub_0_r mr).
Qed.

Lemma read_by_positions_stored s f rs ds :
  files f !! segment_path s = Some (stored rs) -> Forall fits rs -> blen (stored rs) < 2 ^ 63 ->
  Forall (fun d => d ∈ placed 0 rs) ds -> read_by_positions s (map rd_position ds) f = (Ok ds, f).
Proof.
  intros Hb Hf Hlen Hd. unfold read_by_positions. erewrite bind_ok by by apply open_read_ok.
  unfold lift. by rewrite read_positions_stored.
Qed.
End layout.
