(* ===== verification/JournalIndex.v ===== *)
(** * The indexes of a segment: [journal-server/src/index]

    Where the records of a segment lie by offset, time, key and tag, kept in the
    column family ["index"] of RocksDB under keys that name the segment
    ([keys.rs]).  Offsets in keys are decimal texts without padding.  The
    managers of [offset.rs], [time.rs] and [tag.rs] share the database of
    [RocksEngine]. *)

From Stdlib Require Import String.
From S2P Require Import Prelude Bytes RustStr Storage RocksEngine PlacementRoute RaftLog KvService SegmentFile.

Definition DB_COLUMN_FAMILY_INDEX : bytes := lit "index".
Definition BUILD_INDE_PER_RECORD_NUM : Z := 10000.

Record IndexData : Type := mkIndexData { ix_offset : Z; ix_timestamp : Z; ix_position : Z }.

(** ** keys.rs *)

Definition segment_index_prefix (i : SegmentIdentity) : bytes :=
  lit "/index/" ++ si_namespace i ++ lit "/" ++ si_shard_name i ++ lit "/" ++ decimal (si_segment_seq i) ++ lit "/".
Definition offset_segment_start (i : SegmentIdentity) : bytes := segment_index_prefix i ++ lit "offset/start".
Definition offset_segment_end (i : SegmentIdentity) : bytes := segment_index_prefix i ++ lit "offset/end".
Definition offset_segment_position_prefix (i : SegmentIdentity) : bytes :=
  segment_index_prefix i ++ lit "offset/position-".
Definition offset_segment_position (i : SegmentIdentity) (offset : Z) : bytes :=
  offset_segment_position_prefix i ++ decimal offset.
Definition timestamp_segment_start (i : SegmentIdentity) : bytes := segment_index_prefix i ++ lit "timestamp/start".
Definition timestamp_segment_end (i : SegmentIdentity) : bytes := segment_index_prefix i ++ lit "timestamp/end".
Definition timestamp_segment_time_prefix (i : SegmentIdentity) : bytes :=
  segment_index_prefix i ++ lit "timestamp/time-".
Definition timestamp_segment_time (i : SegmentIdentity) (time_sec : Z) : bytes :=
  timestamp_segment_time_prefix i ++ decimal time_sec.
Definition tag_segment_prefix (i : SegmentIdentity) (tag : bytes) : bytes :=
  segment_index_prefix i ++ lit "tag/" ++ tag ++ lit "/".
Definition tag_segment (i : SegmentIdentity) (tag : bytes) (offset : Z) : bytes :=
  tag_segment_prefix i tag ++ decimal offset.
Definition key_segment_prefix (i : SegmentIdentity) (key : bytes) : bytes :=
  segment_index_prefix i ++ lit "key/" ++ key ++ lit "/".
Definition key_segment (i : SegmentIdentity) (key : bytes) (offset : Z) : bytes :=
  key_segment_prefix i key ++ decimal offset.
Definition finish_build_index (i : SegmentIdentity) : bytes := segment_index_prefix i ++ lit "build/finish".
Definition last_offset_build_index (i : SegmentIdentity) : bytes :=
  segment_index_prefix i ++ lit "build/last/offset".

Section index.
Context {D : Type} {RD : RocksDB D} {JW : Json StorageDataWrap} {JZ : Json Z} {JI : Json IndexData}.
Implicit Types (i : SegmentIdentity) (now_second : Z).

(** [rocksdb_engine_save] in the column family of the indexes. *)
Definition index_save {A : Type} {J : Json A} now_second (key : bytes) (a : A) : M D JournalServerError unit :=
  map_err JE_CommonError (rocksdb_engine_save now_second DB_COLUMN_FAMILY_INDEX key a).

(** A stored number read as an [i64], minus one if there is none. *)
Definition get_i64 (key : bytes) : M D JournalServerError Z :=
  let! res := map_err JE_CommonError (rocksdb_engine_get DB_COLUMN_FAMILY_INDEX key) in
  match res with
  | Some w =>
      match from_slice (sd_data w) with
      | inr n => if 2 ^ 63 <=? n then fail (JE_SerdeJsonError (lit "number out of range")) else ret n
      | inl e => fail (JE_SerdeJsonError e)
      end
  | None => ret (-1)
  end.

(** ** offset.rs *)

Definition save_start_offset now_second i (start_offset : Z) : M D JournalServerError unit :=
  index_save now_second (offset_segment_start i) start_offset.
Definition get_start_offset i : M D JournalServerError Z := get_i64 (offset_segment_start i).
Definition save_end_offset now_second i (end_offset : Z) : M D JournalServerError unit :=
  index_save now_second (offset_segment_end i) end_offset.
Definition get_end_offset i : M D JournalServerError Z := get_i64 (offset_segment_end i).
Definition save_position_offset now_second i (offset : Z) (index_data : IndexData) : M D JournalServerError unit :=
  index_save now_second (offset_segment_position i offset) index_data.

(** An entry of an index as the scans read it. *)
Definition index_entry (val : bytes) : outcome JournalServerError IndexData :=
  match from_slice val with
  | inl e => Err (JE_SerdeJsonError e)
  | inr w =>
      match from_slice (sd_data w) with
      | inl e => Err (JE_SerdeJsonError e)
      | inr index_data => Ok index_data
      end
  end.

(** The first entry under the prefix that is not [before] what is asked for. *)
Fixpoint nearest_loop (prefix_key : bytes) (before : IndexData -> bool) (iter : list (bytes * bytes))
  : outcome JournalServerError (option IndexData) :=
  match iter with
  | [] => Ok None
  | (key, val) :: iter =>
      if negb (starts_with prefix_key key) then Ok None
      else
        match index_entry val with
        | Ok index_data =>
            if before index_data then nearest_loop prefix_key before iter else Ok (Some index_data)
        | Err e => Err e
        | Panic => Panic
        | OutOfFuel => OutOfFuel
        end
  end.

Definition nearest (prefix_key : bytes) (before : IndexData -> bool) : M D JournalServerError (option IndexData) :=
  map_err JE_CommonError (with_cf DB_COLUMN_FAMILY_INDEX (ret tt)) ;;
  let! d := get in
  lift (nearest_loop prefix_key before (db_iter_from DB_COLUMN_FAMILY_INDEX prefix_key d)).

Definition get_last_nearest_position_by_offset i (start_offset : Z) : M D JournalServerError (option IndexData) :=
  nearest (offset_segment_position_prefix i) (fun x => ix_offset x <? start_offset).

(** ** time.rs *)

Definition save_start_timestamp now_second i (start_timestamp : Z) : M D JournalServerError unit :=
  index_save now_second (timestamp_segment_start i) start_timestamp.
Definition get_start_timestamp i : M D JournalServerError Z := get_i64 (timestamp_segment_start i).
Definition save_end_timestamp now_second i (end_timestamp : Z) : M D JournalServerError unit :=
  index_save now_second (timestamp_segment_end i) end_timestamp.
Definition get_end_timestamp i : M D JournalServerError Z := get_i64 (timestamp_segment_end i).
Definition save_timestamp_offset now_second i (timestamp : Z) (index_data : IndexData)
  : M D JournalServerError unit :=
  index_save now_second (timestamp_segment_time i timestamp) index_data.
Definition get_last_nearest_position_by_timestamp i (start_timestamp : Z)
  : M D JournalServerError (option IndexData) :=
  nearest (timestamp_segment_time_prefix i) (fun x => ix_timestamp x <? start_timestamp).

(** ** tag.rs *)

Definition save_tag_position now_second i (tag : bytes) (index_data : IndexData) : M D JournalServerError unit :=
  index_save now_second (tag_segment i tag (ix_offset index_data)) index_data.
Definition save_key_position now_second i (key : bytes) (index_data : IndexData) : M D JournalServerError unit :=
  index_save now_second (key_segment i key (ix_offset index_data)) index_data.

(** The entries under the prefix from an offset on, [record_num] at most, but
    one if that is zero. *)
Fixpoint positions_loop (prefix_key : bytes) (start_offset record_num : Z) (iter : list (bytes * bytes))
    (results : list IndexData) : outcome JournalServerError (list IndexData) :=
  match iter with
  | [] => Ok results
  | (key, val) :: iter =>
      if negb (starts_with prefix_key key) then Ok results
      else
        match index_entry val with
        | Ok index_data =>
            if ix_offset index_data <? start_offset then
              positions_loop prefix_key start_offset record_num iter results
            else
              let results := results ++ [index_data] in
              if record_num <=? blen results then Ok results
              else positions_loop prefix_key start_offset record_num iter results
        | Err e => Err e
        | Panic => Panic
        | OutOfFuel => OutOfFuel
        end
  end.

Definition last_positions (prefix_key : bytes) (start_offset record_num : Z)
  : M D JournalServerError (list IndexData) :=
  map_err JE_CommonError (with_cf DB_COLUMN_FAMILY_INDEX (ret tt)) ;;
  let! d := get in
  lift (positions_loop prefix_key start_offset record_num (db_iter_from DB_COLUMN_FAMILY_INDEX prefix_key d) []).

Definition get_last_positions_by_tag i (start_offset : Z) (tag : bytes) (record_num : Z)
  : M D JournalServerError (list IndexData) :=
  last_positions (tag_segment_prefix i tag) start_offset record_num.
Definition get_last_positions_by_key i (start_offset : Z) (key : bytes) (record_num : Z)
  : M D JournalServerError (list IndexData) :=
  last_positions (key_segment_prefix i key) start_offset record_num.

(** ** build.rs: what the building of an index stores *)

Definition save_finish_build_index now_second i : M D JournalServerError unit :=
  index_save now_second (finish_build_index i) now_second.

Definition is_finish_build_index i : M D JournalServerError bool :=
  let! res := map_err JE_CommonError (rocksdb_engine_get DB_COLUMN_FAMILY_INDEX (finish_build_index i)) in
  ret (is_some res).

Definition save_last_offset_build_index now_second i (offset : Z) : M D JournalServerError unit :=
  index_save now_second (last_offset_build_index i) offset.

Definition get_last_offset_build_index i : M D JournalServerError (option Z) :=
  let! res := map_err JE_CommonError (rocksdb_engine_get DB_COLUMN_FAMILY_INDEX (last_offset_build_index i)) in
  match res with
  | Some w =>
      match from_slice (sd_data w) with
      | inr n => ret (Some n)
      | inl e => fail (JE_SerdeJsonError e)
      end
  | None => ret None
  end.

(** One record: the remainder is that of machine integers, which has the sign
    of the dividend. *)
Definition index_record now_second i (start_offset : Z) (read_data : ReadData) : M D JournalServerError unit :=
  let record := rd_record read_data in
  let index_data := mkIndexData (wrap64 (jr_offset record)) (jr_create_time record) (rd_position read_data) in
  (if rd_position read_data =? 0 then save_start_offset now_second i (wrap64 (jr_offset record)) else ret tt) ;;
  (if Z.rem (as_i64 (jr_offset record - as_i64 start_offset)) BUILD_INDE_PER_RECORD_NUM =? 0 then
     save_position_offset now_second i (wrap64 (jr_offset record)) index_data ;;
     save_timestamp_offset now_second i (jr_create_time record) index_data
   else ret tt) ;;
  (if negb (bool_decide (jr_key record = [])) then save_key_position now_second i (jr_key record) index_data
   else ret tt) ;;
  for_each (jr_tags record) (fun tag => save_tag_position now_second i tag index_data).

Definition save_record_index now_second i (start_offset : Z) (data : list ReadData) : M D JournalServerError unit :=
  for_each data (index_record now_second i start_offset).

(** The keys in the order in which the concurrent map yields them. *)
Definition delete_segment_index {MI : MapIter} i : M D JournalServerError unit :=
  let! data := map_err JE_CommonError (rocksdb_engine_prefix_map DB_COLUMN_FAMILY_INDEX (segment_index_prefix i)) in
  for_each (map_iter data) (fun kv => map_err JE_CommonError (rocksdb_engine_delete DB_COLUMN_FAMILY_INDEX kv.1)).
End index.
