(* ===== verification/JournalNode.v ===== *)
(** * A journal node: its caches and its threads

    [core/cache.rs] (what a node knows of the cluster; its operations carry the
    prefix [jc_]), [segment/manager.rs] (the metadata of the local segment
    files), [segment/write.rs] (the write thread of a segment and the requests
    it serves), [index/build.rs] (the thread that builds the indexes of a
    segment), [core/segment_status.rs] and [core/segment_meta.rs] (what is
    reported to the placement center), of [journal-server/src].

    A thread is the state of its loop, kept with the handle that the cache has
    of it; sending it the stop signal removes both.  The placement center that
    the node calls is the parameter [JournalPlacement]. *)

From Stdlib Require Import String.
From S2P Require Import Prelude Bytes RustStr Storage RocksEngine PlacementStore PlacementCache PlacementRoute RaftLog RaftMachine KvService JournalService SegmentFile JournalIndex.

(** ** Data *)

(** The fields of [JournalServerConfig] that are used here. *)
Record JournalServerConfig : Type := mkJournalServerConfig {
  conf_node_id : Z;
  conf_cluster_name : bytes;
  conf_data_path : list bytes;
  conf_enable_auto_create_shard : bool;
  conf_shard_replica_num : Z;
  conf_max_segment_size : Z;
  conf_local_ip : bytes;
  conf_tcp_port : Z;
  conf_tcps_port : Z;
  conf_grpc_port : Z
}.

Record JournalEngineClusterConfig : Type := mkJournalEngineClusterConfig {
  ec_enable_auto_create_shard : bool;
  ec_shard_replica_num : Z;
  ec_max_segment_size : Z;
  ec_last_update_local_cache_time : Z
}.

Record SegmentFileMetadata : Type := mkSegmentFileMetadata {
  fm_namespace : bytes;
  fm_shard_name : bytes;
  fm_segment_no : Z;
  fm_start_offset : Z;
  fm_end_offset : Z;
  fm_start_timestamp : Z;
  fm_end_timestamp : Z
}.

(** A write thread ([create_write_thread0]): the variables of its loop. *)
Record SegmentWrite : Type := mkSegmentWrite {
  sw_segment_iden : SegmentIdentity;
  sw_local_segment_end_offset : Z;
  sw_segment_write : SegmentFile
}.
(** A thread that builds an index ([start_segment_build_index_thread]). *)
Record IndexBuildThread : Type := mkIndexBuildThread {
  it_segment_iden : SegmentIdentity;
  it_start_offset : Z;
  it_start_position : Z;
  it_last_build_offset : Z;
  it_data_empty_times : Z;
  it_segment_write : SegmentFile
}.

(** [cluster] holds the value under the one key ["local"]. *)
Record CacheManager : Type := mkCacheManager {
  cluster : option JournalEngineClusterConfig;
  node_list : gmap Z BrokerNode;
  shards : gmap bytes JournalShard;
  segments : gmap bytes (gmap Z JournalSegment);
  segment_metadatas : gmap bytes (gmap Z JournalSegmentMetadata);
  leader_segments : gmap bytes SegmentIdentity;
  segment_index_build_thread : gmap bytes IndexBuildThread;
  segment_writes : gmap bytes SegmentWrite
}.

(** ** core/cache.rs *)

Definition CacheManager_new : CacheManager := mkCacheManager None ∅ ∅ ∅ ∅ ∅ ∅ ∅.

Definition set_cluster x c := mkCacheManager x (node_list c) (shards c) (segments c) (segment_metadatas c)
  (leader_segments c) (segment_index_build_thread c) (segment_writes c).
Definition set_node_list x c := mkCacheManager (cluster c) x (shards c) (segments c) (segment_metadatas c)
  (leader_segments c) (segment_index_build_thread c) (segment_writes c).
Definition set_shards x c := mkCacheManager (cluster c) (node_list c) x (segments c) (segment_metadatas c)
  (leader_segments c) (segment_index_build_thread c) (segment_writes c).
Definition set_segments x c := mkCacheManager (cluster c) (node_list c) (shards c) x (segment_metadatas c)
  (leader_segments c) (segment_index_build_thread c) (segment_writes c).
Definition set_segment_metadatas x c := mkCacheManager (cluster c) (node_list c) (shards c) (segments c) x
  (leader_segments c) (segment_index_build_thread c) (segment_writes c).
Definition set_leader_segments x c := mkCacheManager (cluster c) (node_list c) (shards c) (segments c)
  (segment_metadatas c) x (segment_index_build_thread c) (segment_writes c).
Definition set_segment_index_build_thread x c := mkCacheManager (cluster c) (node_list c) (shards c) (segments c)
  (segment_metadatas c) (leader_segments c) x (segment_writes c).
Definition set_segment_writes x c := mkCacheManager (cluster c) (node_list c) (shards c) (segments c)
  (segment_metadatas c) (leader_segments c) (segment_index_build_thread c) x.

Section cache.
Context {MI : MapIter} {MZ : MapIterZ} (conf : JournalServerConfig).
Implicit Types (c : CacheManager) (i : SegmentIdentity).

Definition jc_add_node (node : BrokerNode) c : CacheManager :=
  set_node_list (<[bn_node_id node := node]> (node_list c)) c.
Definition jc_delete_node (node_id : Z) c : CacheManager := set_node_list (delete node_id (node_list c)) c.
Definition jc_all_node c : list BrokerNode := (map_iterZ (node_list c)).*2.

Definition JournalEngineClusterConfig_build : JournalEngineClusterConfig :=
  mkJournalEngineClusterConfig (conf_enable_auto_create_shard conf) (conf_shard_replica_num conf)
    (conf_max_segment_size conf) 0.
Definition jc_init_cluster c : CacheManager := set_cluster (Some JournalEngineClusterConfig_build) c.
Definition jc_update_local_cache_time (time : Z) c : CacheManager :=
  match cluster c with
  | Some e => set_cluster (Some (mkJournalEngineClusterConfig (ec_enable_auto_create_shard e)
                                   (ec_shard_replica_num e) (ec_max_segment_size e) time)) c
  | None => c
  end.

Definition jc_set_shard (shard : JournalShard) c : CacheManager :=
  set_shards (<[shard_name_iden (js_namespace shard) (js_shard_name shard) := shard]> (shards c)) c.
Definition jc_get_shard (namespace shard_name : bytes) c : option JournalShard :=
  shards c !! shard_name_iden namespace shard_name.
Definition jc_delete_shard (namespace shard_name : bytes) c : CacheManager :=
  set_shards (delete (shard_name_iden namespace shard_name) (shards c)) c.
Definition jc_get_shards c : list JournalShard := (map_iter (shards c)).*2.

Definition jc_get_segment i c : option JournalSegment :=
  match segments c !! iden_shard i with
  | Some list => list !! si_segment_seq i
  | None => None
  end.

Definition jc_get_active_segment (namespace shard_name : bytes) c : option JournalSegment :=
  match shards c !! shard_name_iden namespace shard_name with
  | Some shard => jc_get_segment (mkSegmentIdentity namespace shard_name (js_active_segment_seq shard)) c
  | None => None
  end.

Definition jc_add_leader_segment i c : CacheManager :=
  set_leader_segments (<[iden_name i := i]> (leader_segments c)) c.
Definition jc_remove_leader_segment i c : CacheManager :=
  set_leader_segments (delete (iden_name i) (leader_segments c)) c.
Definition jc_get_leader_segment c : list SegmentIdentity := (map_iter (leader_segments c)).*2.

Definition jc_set_segment (segment : JournalSegment) c : CacheManager :=
  let key := shard_name_iden (sg_namespace segment) (sg_shard_name segment) in
  let seq := sg_segment_seq segment in
  let c := match segments c !! key with
           | Some segment_list => set_segments (<[key := <[seq := segment]> segment_list]> (segments c)) c
           | None => set_segments (<[key := {[seq := segment]}]> (segments c)) c
           end in
  if sg_leader segment =? conf_node_id conf then
    jc_add_leader_segment (mkSegmentIdentity (sg_namespace segment) (sg_shard_name segment) seq) c
  else c.

(** The threads are looked up under the name of the shard. *)
Definition jc_delete_segment i c : CacheManager :=
  let key := iden_shard i in
  let c := match segments c !! key with
           | Some list => set_segments (<[key := delete (si_segment_seq i) list]> (segments c)) c
           | None => c
           end in
  let c := match segment_metadatas c !! key with
           | Some list => set_segment_metadatas (<[key := delete (si_segment_seq i) list]> (segment_metadatas c)) c
           | None => c
           end in
  let c := jc_remove_leader_segment i c in
  let c := match segment_index_build_thread c !! key with
           | Some t => set_segment_index_build_thread
                         (delete (iden_name (it_segment_iden t)) (segment_index_build_thread c)) c
           | None => c
           end in
  match segment_writes c !! key with
  | Some w => set_segment_writes (delete (iden_name (sw_segment_iden w)) (segment_writes c)) c
  | None => c
  end.

Definition jc_get_segments_list_by_shard (namespace shard_name : bytes) c : list JournalSegment :=
  match segments c !! shard_name_iden namespace shard_name with
  | Some segment_list => (map_iterZ segment_list).*2
  | None => []
  end.

Definition jc_update_segment_status i (status : SegmentStatus) c : CacheManager :=
  match segments c !! iden_shard i with
  | Some segment_list =>
      match segment_list !! si_segment_seq i with
      | Some segment =>
          set_segments (<[iden_shard i := <[si_segment_seq i := with_segment_status status segment]> segment_list]>
                          (segments c)) c
      | None => c
      end
  | None => c
  end.

Definition jc_set_segment_meta (segment : JournalSegmentMetadata) c : CacheManager :=
  let key := shard_name_iden (mt_namespace segment) (mt_shard_name segment) in
  match segment_metadatas c !! key with
  | Some list => set_segment_metadatas (<[key := <[mt_segment_seq segment := segment]> list]> (segment_metadatas c)) c
  | None => set_segment_metadatas (<[key := {[mt_segment_seq segment := segment]}]> (segment_metadatas c)) c
  end.
Definition jc_get_segment_meta i c : option JournalSegmentMetadata :=
  match segment_metadatas c !! iden_shard i with
  | Some list => list !! si_segment_seq i
  | None => None
  end.

Definition jc_add_build_index_thread i (t : IndexBuildThread) c : CacheManager :=
  set_segment_index_build_thread (<[iden_name i := t]> (segment_index_build_thread c)) c.
Definition jc_remove_build_index_thread i c : CacheManager :=
  set_segment_index_build_thread (delete (iden_name i) (segment_index_build_thread c)) c.
Definition jc_contain_build_index_thread i c : bool := is_some (segment_index_build_thread c !! iden_name i).
Definition jc_stop_all_build_index_thread c : CacheManager := set_segment_index_build_thread ∅ c.

Definition jc_add_segment_write_thread i (w : SegmentWrite) c : CacheManager :=
  set_segment_writes (<[iden_name i := w]> (segment_writes c)) c.
Definition jc_remove_segment_write_thread i c : CacheManager :=
  set_segment_writes (delete (iden_name i) (segment_writes c)) c.
Definition jc_get_segment_write_thread i c : option SegmentWrite := segment_writes c !! iden_name i.
End cache.

(** ** The node *)

(** [RegisterNodeRequest] of a journal node. *)
Record RegisterJournalNode : Type := mkRegisterJournalNode {
  rj_cluster_name : bytes;
  rj_node_id : Z;
  rj_node_ip : bytes;
  rj_node_inner_addr : bytes;
  rj_extend_info : bytes
}.

(** The calls of [grpc_clients::placement] that a journal node makes, and the
    notices [update_cache] that reach it while it waits. *)
Class JournalPlacement (P : Type) : Type := {
  jp_update_segment_status : UpdateSegmentStatusRequest -> M P CommonError unit;
  jp_update_segment_meta : UpdateSegmentMetaRequest -> M P CommonError unit;
  jp_create_next_segment : ShardName -> M P CommonError unit;
  jp_create_shard : CreateShardRequest -> M P CommonError unit;
  jp_delete_shard : ShardName -> M P CommonError unit;
  jp_node_list : bytes -> M P CommonError (list bytes);
  jp_list_shard : bytes -> M P CommonError bytes;
  jp_list_segment : bytes -> M P CommonError bytes;
  jp_list_segment_meta : bytes -> M P CommonError bytes;
  jp_register_node : RegisterJournalNode -> M P CommonError unit;
  jp_unregister_node : bytes -> Z -> M P CommonError unit;
  jp_heartbeat : bytes -> Z -> M P CommonError unit;
  jp_notices : P -> list JournalInnerCallMessage * P
}.

Record JournalNode (F D P : Type) : Type := mkJournalNode {
  jn_files : F;
  jn_db : D;
  jn_placement : P;
  jn_cache : CacheManager;
  jn_segment_files : gmap bytes SegmentFileMetadata;
  jn_now_second : Z
}.
Arguments mkJournalNode {F D P} _ _ _ _ _ _.
Arguments jn_files {F D P} _.
Arguments jn_db {F D P} _.
Arguments jn_placement {F D P} _.
Arguments jn_cache {F D P} _.
Arguments jn_segment_files {F D P} _.
Arguments jn_now_second {F D P} _.

Record SegmentWriteResp : Type := mkSegmentWriteResp {
  wr_offsets : gmap Z Z;
  wr_last_offset : Z;
  wr_error : option JournalServerError
}.

Section node.
Context {F : Type} {FS : Files F} {RB : ReadBuf} {D : Type} {RD : RocksDB D} {P : Type} {JP : JournalPlacement P}
        {PR : Prost JournalRecord} {JW : Json StorageDataWrap} {JZ : Json Z} {JI : Json IndexData}
        {MI : MapIter} {MZ : MapIterZ} {ET : ErrorText} (conf : JournalServerConfig).
Definition Node (A : Type) : Type := M (JournalNode F D P) JournalServerError A.
Implicit Types (i : SegmentIdentity) (n : JournalNode F D P).

Definition on_files {A : Type} (m : M F JournalServerError A) : Node A :=
  fun n => let (r, f) := m (jn_files n) in
           (r, mkJournalNode f (jn_db n) (jn_placement n) (jn_cache n) (jn_segment_files n) (jn_now_second n)).
Definition on_index {A : Type} (m : M D JournalServerError A) : Node A :=
  fun n => let (r, d) := m (jn_db n) in
           (r, mkJournalNode (jn_files n) d (jn_placement n) (jn_cache n) (jn_segment_files n) (jn_now_second n)).
Definition on_placement {A : Type} (m : M P CommonError A) : Node A :=
  fun n => let (r, p) := map_err JE_CommonError m (jn_placement n) in
           (r, mkJournalNode (jn_files n) (jn_db n) p (jn_cache n) (jn_segment_files n) (jn_now_second n)).
Definition on_cache (f : CacheManager -> CacheManager) : Node unit :=
  fun n => (Ok tt, mkJournalNode (jn_files n) (jn_db n) (jn_placement n) (f (jn_cache n)) (jn_segment_files n)
                     (jn_now_second n)).
Definition on_segment_files (f : gmap bytes SegmentFileMetadata -> gmap bytes SegmentFileMetadata) : Node unit :=
  fun n => (Ok tt, mkJournalNode (jn_files n) (jn_db n) (jn_placement n) (jn_cache n) (f (jn_segment_files n))
                     (jn_now_second n)).
Definition cached {A : Type} (f : CacheManager -> A) : Node A := fun n => (Ok (f (jn_cache n)), n).
Definition now_second : Node Z := fun n => (Ok (jn_now_second n), n).

(** [if let Err(e) = m { error!(..) }]. *)
Definition logged_node (m : Node unit) : Node unit :=
  fun n => match m n with
           | (Err _, n') => (Ok tt, n')
           | r => r
           end.

(** ** segment/manager.rs *)

Definition add_segment_file (m : SegmentFileMetadata) : Node unit :=
  on_segment_files (insert (segment_name (fm_namespace m) (fm_shard_name m) (fm_segment_no m)) m).
Definition get_segment_file i : Node (option SegmentFileMetadata) :=
  fun n => (Ok (jn_segment_files n !! iden_name i), n).
Definition remove_segment_file i : Node unit := on_segment_files (delete (iden_name i)).

(** The metadata is changed, then the index; the third argument is what the
    index gets. *)
Definition update_file_meta i (change : SegmentFileMetadata -> SegmentFileMetadata)
    (save : SegmentFileMetadata -> M D JournalServerError unit) : Node unit :=
  let! data := get_segment_file i in
  if_some data (fun data =>
    let data := change data in
    on_segment_files (insert (iden_name i) data) ;; on_index (save data)).

Definition set_start_offset (o : Z) (m : SegmentFileMetadata) : SegmentFileMetadata :=
  mkSegmentFileMetadata (fm_namespace m) (fm_shard_name m) (fm_segment_no m) o (fm_end_offset m)
    (fm_start_timestamp m) (fm_end_timestamp m).
Definition set_end_offset (o : Z) (m : SegmentFileMetadata) : SegmentFileMetadata :=
  mkSegmentFileMetadata (fm_namespace m) (fm_shard_name m) (fm_segment_no m) (fm_start_offset m) o
    (fm_start_timestamp m) (fm_end_timestamp m).
Definition set_start_timestamp (t : Z) (m : SegmentFileMetadata) : SegmentFileMetadata :=
  mkSegmentFileMetadata (fm_namespace m) (fm_shard_name m) (fm_segment_no m) (fm_start_offset m) (fm_end_offset m)
    t (fm_end_timestamp m).
Definition set_end_timestamp (t : Z) (m : SegmentFileMetadata) : SegmentFileMetadata :=
  mkSegmentFileMetadata (fm_namespace m) (fm_shard_name m) (fm_segment_no m) (fm_start_offset m) (fm_end_offset m)
    (fm_start_timestamp m) t.

(** The end offset is stored as the start offset. *)
Definition update_start_offset i (start_offset : Z) : Node unit :=
  let! now := now_second in
  update_file_meta i (set_start_offset start_offset) (fun m => save_start_offset now i (wrap64 (fm_end_offset m))).
Definition update_end_offset i (end_offset : Z) : Node unit :=
  let! now := now_second in
  update_file_meta i (set_end_offset end_offset) (fun m => save_end_offset now i (wrap64 (fm_end_offset m))).
Definition update_start_timestamp i (timestamp : Z) : Node unit :=
  let! now := now_second in
  update_file_meta i (set_start_timestamp (as_i64 timestamp)) (fun _ => save_start_timestamp now i timestamp).
Definition update_end_timestamp i (timestamp : Z) : Node unit :=
  let! now := now_second in
  update_file_meta i (set_end_timestamp (as_i64 timestamp)) (fun _ => save_end_timestamp now i timestamp).

(** [JournalSegment::get_fold] and [allow_read]. *)
Definition get_fold (node_id : Z) (s : JournalSegment) : option bytes :=
  rp_fold <$> find (fun rep => rp_node_id rep =? node_id) (sg_replicas s).
Definition allow_read (s : JournalSegment) : bool :=
  bool_decide (sg_status s = Write) || bool_decide (sg_status s = PreWrite).

Definition open_segment_write i : Node (SegmentFile * Z) :=
  let! segment := cached (jc_get_segment i) in
  let! segment := ok_or segment (JE_SegmentNotExist (iden_name i)) in
  let! fold := ok_or (get_fold (conf_node_id conf) segment)
                 (JE_SegmentDataDirectoryNotFound (iden_name i) (conf_node_id conf)) in
  ret (SegmentFile_new (si_namespace i) (si_shard_name i) (si_segment_seq i) fold, sg_max_segment_size segment).

Definition create_local_segment (segment : JournalSegment) : Node unit :=
  let i := mkSegmentIdentity (sg_namespace segment) (sg_shard_name segment) (sg_segment_seq segment) in
  let! known := cached (jc_get_segment i) in
  if is_some known then ret tt
  else
    let! fold := ok_or (get_fold (conf_node_id conf) segment)
                   (JE_SegmentDataDirectoryNotFound (iden_name i) (conf_node_id conf)) in
    on_files (try_create (SegmentFile_new (sg_namespace segment) (sg_shard_name segment) (sg_segment_seq segment) fold)) ;;
    add_segment_file (mkSegmentFileMetadata (sg_namespace segment) (sg_shard_name segment) (sg_segment_seq segment)
                        (-1) (-1) (-1) (-1)) ;;
    on_cache (jc_set_segment conf segment).

(** ** core/segment_status.rs *)

Definition next_segment i : SegmentIdentity :=
  mkSegmentIdentity (si_namespace i) (si_shard_name i) ((si_segment_seq i + 1) mod 2 ^ 32).
Definition status_request i (cur next : SegmentStatus) : UpdateSegmentStatusRequest :=
  mkUpdateSegmentStatusRequest (mkShardName (conf_cluster_name conf) (si_namespace i) (si_shard_name i))
    (si_segment_seq i) (segment_status_text cur) (segment_status_text next).

Definition report_status i (segment : JournalSegment) (status : SegmentStatus) : Node unit :=
  on_cache (jc_update_segment_status i status) ;;
  on_placement (jp_update_segment_status (status_request i (sg_status segment) status)).

Definition update_segment_status_to_pre_write i : Node unit :=
  let! segment := cached (jc_get_segment i) in
  if_some segment (fun segment =>
    if bool_decide (sg_status segment <> Idle) then ret tt else report_status i segment PreWrite).

(** A status other than [PreWrite] is only reported in the log. *)
Definition update_segment_status_to_write i : Node unit :=
  let! segment := cached (jc_get_segment i) in
  if_some segment (fun segment => report_status i segment Write).

Definition update_segment_status_to_pre_seal_up i : Node unit :=
  let! segment := cached (jc_get_segment i) in
  if_some segment (fun segment =>
    if bool_decide (sg_status segment <> Write) then ret tt else report_status i segment PreSealUp).

Definition update_segment_status_to_seal_up i : Node unit :=
  let! segment := cached (jc_get_segment i) in
  if_some segment (fun segment =>
    if bool_decide (sg_status segment <> PreSealUp) then ret tt else report_status i segment SealUp).

Definition pre_sealup_segment i : Node unit :=
  update_segment_status_to_pre_seal_up i ;; update_segment_status_to_pre_write (next_segment i).
Definition sealup_segment i : Node unit :=
  update_segment_status_to_seal_up i ;; update_segment_status_to_write (next_segment i).

(** ** core/segment_meta.rs *)

Definition meta_request i (start_offset end_offset start_timestamp end_timestamp : Z) : Node unit :=
  on_placement (jp_update_segment_meta
    (mkUpdateSegmentMetaRequest (mkShardName (conf_cluster_name conf) (si_namespace i) (si_shard_name i))
       (si_segment_seq i) start_offset end_offset start_timestamp end_timestamp)).
Definition update_meta_start_offset i (start_offset : Z) : Node unit := meta_request i start_offset (-1) (-1) (-1).
Definition update_meta_end_offset i (end_offset : Z) : Node unit := meta_request i (-1) end_offset (-1) (-1).

(** Both updates name the same segment. *)
Definition update_end_and_start_offset i (end_offset : Z) : Node unit :=
  update_meta_end_offset i end_offset ;; update_meta_start_offset i (as_i64 (end_offset + 1)).

Definition update_meta_start_timestamp i (start_timestamp : Z) : Node unit :=
  meta_request i (-1) (-1) (as_i64 start_timestamp) (-1).

Definition update_meta_end_timestamp i : Node unit :=
  let! file := get_segment_file i in
  if_some file (fun file =>
    if 0 <? fm_end_timestamp file then meta_request i (-1) (-1) (-1) (fm_end_timestamp file) else ret tt).

(** ** index/build.rs *)

Definition try_finish_segment_index_build i : Node unit :=
  let! segment := cached (jc_get_segment i) in
  let! now := now_second in
  if_some segment (fun segment =>
    if bool_decide (sg_status segment = SealUp) then logged_node (on_index (save_finish_build_index now i))
    else ret tt).

(** A thread goes on with the variables it has now. *)
Definition continue_build i (t : IndexBuildThread) : Node unit := on_cache (jc_add_build_index_thread i t).
Definition set_empty_times (x : Z) (t : IndexBuildThread) : IndexBuildThread :=
  mkIndexBuildThread (it_segment_iden t) (it_start_offset t) (it_start_position t) (it_last_build_offset t) x
    (it_segment_write t).
Definition set_last_build (x : Z) (t : IndexBuildThread) : IndexBuildThread :=
  mkIndexBuildThread (it_segment_iden t) (it_start_offset t) (it_start_position t) x (it_data_empty_times t)
    (it_segment_write t).

Definition max_data_empty_times : Z := 600.

(** One round of the loop of the thread of a segment, if it has one: a read of
    at most a hundred records from the last offset that was indexed. *)
Definition build_index_round i : Node unit :=
  let! thread := cached (fun c => segment_index_build_thread c !! iden_name i) in
  if_some thread (fun t =>
    let! now := now_second in
    fun n =>
      match on_files (read_by_offset (it_segment_write t) (it_start_position t) (it_last_build_offset t)
                        (10 * 1024 * 1024) 100) n with
      | (Ok [], n) =>
          (if max_data_empty_times <=? it_data_empty_times t then
             try_finish_segment_index_build i ;; on_cache (jc_remove_build_index_thread i)
           else continue_build i (set_empty_times (it_data_empty_times t + 1) t)) n
      | (Ok data, n) =>
          let t := set_empty_times 0 t in
          match on_index (save_record_index now i (it_start_offset t) data) n with
          | (Err _, n) => continue_build i t n
          | (Ok _, n) =>
              (let! last := unwrap (last data) in
               let last_build_offset := wrap64 (jr_offset (rd_record last)) in
               logged_node (on_index (save_last_offset_build_index now i last_build_offset)) ;;
               continue_build i (set_last_build last_build_offset t)) n
          | (Panic, n) => (Panic, n)
          | (OutOfFuel, n) => (OutOfFuel, n)
          end
      | (Err e, n) =>
          (if contains_text (lit "No such file or directory") (journal_error_text e) then
             on_cache (jc_remove_build_index_thread i)
           else ret tt) n
      | (Panic, n) => (Panic, n)
      | (OutOfFuel, n) => (OutOfFuel, n)
      end).

Definition start_segment_build_index_thread i (start_offset start_position last_build_offset : Z)
  : Node IndexBuildThread :=
  let! segment_write := open_segment_write i in
  ret (mkIndexBuildThread i start_offset start_position last_build_offset 0 segment_write.1).

Definition try_trigger_build_index i : Node unit :=
  let! running := cached (jc_contain_build_index_thread i) in
  if running then ret tt
  else
    let! finished := on_index (is_finish_build_index i) in
    if finished then ret tt
    else
      let! meta := get_segment_file i in
      let! meta := ok_or meta (JE_SegmentMetaNotExists (iden_name i)) in
      let! last := on_index (get_last_offset_build_index i) in
      let last_build_offset := default 0 last in
      let! position := on_index (get_last_nearest_position_by_offset i last_build_offset) in
      let start_position := match position with Some p => ix_position p | None => 0 end in
      let! thread := start_segment_build_index_thread i (wrap64 (fm_start_offset meta)) start_position last_build_offset in
      on_cache (jc_add_build_index_thread i thread).

(** ** segment/write.rs *)

Definition is_end_offset (end_offset current_offset packet_len : Z) : bool :=
  (0 <? end_offset) && (end_offset <? wrap64 (current_offset + packet_len)).

Definition write_validator (segment_write : SegmentFile) (local_segment_end_offset packet_len : Z) : Node unit :=
  let i := mkSegmentIdentity (sf_namespace segment_write) (sf_shard_name segment_write) (sf_segment_no segment_write) in
  let! segment := cached (jc_get_segment i) in
  let! segment := ok_or segment (JE_SegmentNotExist (iden_name i)) in
  if bool_decide (sg_status segment = SealUp) then fail (JE_SegmentAlreadySealUp (iden_name i))
  else
    let! meta := cached (jc_get_segment_meta i) in
    let! meta := ok_or meta (JE_SegmentMetaNotExists (iden_name i)) in
    if is_end_offset (mt_end_offset meta) local_segment_end_offset packet_len then
      on_cache (jc_update_segment_status i SealUp) ;; fail JE_SegmentOffsetAtTheEnd
    else ret tt.

(** The records get the offsets after the last one, as an [i64]; the offsets
    are answered by packet identifier. *)
Fixpoint number_records (local_segment_end_offset : Z) (data : list JournalRecord) : list JournalRecord :=
  match data with
  | [] => []
  | r :: data =>
      let offset := wrap64 (local_segment_end_offset + 1) in
      with_offset (as_i64 offset) r :: number_records offset data
  end.
Definition offsets_of (records : list JournalRecord) : gmap Z Z :=
  foldl (fun offsets r => <[jr_pkid r := wrap64 (jr_offset r)]> offsets) ∅ records.

(** A write that fails is an answer without offsets. *)
Definition batch_write0 (data : list JournalRecord) (segment_write : SegmentFile) i (local_segment_end_offset : Z)
  : Node (option SegmentWriteResp) :=
  if bool_decide (data = []) then ret None
  else
    let records := number_records local_segment_end_offset data in
    fun n =>
      match on_files (write_records segment_write records) n with
      | (Ok _, n) =>
          (let! record := unwrap (last records) in
           update_end_offset i (jr_offset record) ;;
           update_end_timestamp i (jr_create_time record) ;;
           ret (Some (mkSegmentWriteResp (offsets_of records) (wrap64 (jr_offset record)) None))) n
      | (Err e, n) => (Ok (Some (mkSegmentWriteResp ∅ 0 (Some e))), n)
      | (Panic, n) => (Panic, n)
      | (OutOfFuel, n) => (OutOfFuel, n)
      end.

Definition batch_write i (local_segment_end_offset : Z) (segment_write : SegmentFile) (data : list JournalRecord)
  : Node (option SegmentWriteResp) :=
  if bool_decide (data = []) then ret None
  else
    write_validator segment_write (wrap64 local_segment_end_offset) (blen data) ;;
    let! resp := batch_write0 data segment_write i (wrap64 local_segment_end_offset) in
    try_trigger_build_index i ;;
    ret resp.

(** A request that the write thread [w] takes from its channel, and the thread
    afterwards; [None] if the request is dropped without an answer. *)
Definition write_thread_round (w : SegmentWrite) (data : list JournalRecord)
  : Node (option SegmentWriteResp * SegmentWrite) :=
  fun n =>
    match batch_write (sw_segment_iden w) (sw_local_segment_end_offset w) (sw_segment_write w) data n with
    | (Ok (Some resp), n) =>
        (Ok (Some resp, mkSegmentWrite (sw_segment_iden w) (as_i64 (wr_last_offset resp)) (sw_segment_write w)), n)
    | (Ok None, n) => (Ok (None, w), n)
    | (Err e, n) => (Ok (Some (mkSegmentWriteResp ∅ 0 (Some e)), w), n)
    | (Panic, n) => (Panic, n)
    | (OutOfFuel, n) => (OutOfFuel, n)
    end.

Definition create_write_thread i : Node SegmentWrite :=
  let! meta := get_segment_file i in
  let! meta := ok_or meta (JE_SegmentFileMetaNotExists (iden_name i)) in
  let! segment_write := open_segment_write i in
  let write := mkSegmentWrite i (fm_end_offset meta) segment_write.1 in
  on_cache (jc_add_segment_write_thread i write) ;;
  ret write.

Definition get_write i : Node SegmentWrite :=
  let! write := cached (jc_get_segment_write_thread i) in
  match write with
  | Some write => ret write
  | None => create_write_thread i
  end.

Definition write_data i (data_list : list JournalRecord) : Node SegmentWriteResp :=
  let! write := get_write i in
  let! answer := write_thread_round write data_list in
  on_cache (jc_add_segment_write_thread (sw_segment_iden write) answer.2) ;;
  match answer.1 with
  | Some resp => ret resp
  | None => fail (JE_OneshotRecvError (lit "channel closed"))
  end.
End node.
