(* ===== verification/JournalServer.v ===== *)
(** * The journal server: requests and notices

    What a node does with a notice of the placement center
    ([core/notification.rs]), with the requests of clients ([handler],
    [segment/write.rs], [segment/read.rs]) and of the placement center
    ([server/grpc/inner.rs], [core/segment.rs], [core/shard.rs]), when it starts
    ([lib.rs], [core/cluster.rs], [segment/manager.rs]) and when it looks after
    its segments ([segment/scroll.rs]).

    A node that waits serves the notices that arrive meanwhile ([pause]). *)

From Stdlib Require Import String.
From S2P Require Import Prelude Bytes RustStr Storage RocksEngine PlacementStore PlacementCache PlacementRoute RaftLog RaftMachine KvService JournalService JournalCodec SegmentFile JournalIndex JournalNode.

Section server.
Context {F : Type} {FS : Files F} {RB : ReadBuf} {D : Type} {RD : RocksDB D} {P : Type} {JP : JournalPlacement P}
        {PR : Prost JournalRecord} {MJ : MetaJson} {JI : Json IndexData} {JX : Json JournalNodeExtend}
        {JC : Json JournalShardConfig} {JLS : Json (list JournalShard)} {JLG : Json (list JournalSegment)}
        {JLM : Json (list JournalSegmentMetadata)} {MI : MapIter} {MZ : MapIterZ} {ET : ErrorText}
        (conf : JournalServerConfig).
Local Abbreviation Node := (@Node F D P).
Implicit Types (i : SegmentIdentity) (namespace shard_name : bytes).

(** ** core/notification.rs *)

(** [serde_json::from_str] of a notice; one that cannot be read is logged. *)
Definition parsed {A : Type} {J : Json A} (data : bytes) (f : A -> Node unit) : Node unit :=
  match from_slice data with
  | inr a => f a
  | inl _ => ret tt
  end.

Definition parse_node (action_type : JournalUpdateCacheActionType) (data : bytes) : Node unit :=
  match action_type with
  | UC_Set => parsed data (fun node => on_cache (jc_add_node node))
  | UC_Delete => parsed data (fun node => on_cache (jc_delete_node (bn_node_id node)))
  end.
Definition parse_shard (action_type : JournalUpdateCacheActionType) (data : bytes) : Node unit :=
  match action_type with
  | UC_Set => parsed data (fun shard => on_cache (jc_set_shard shard))
  | UC_Delete => ret tt
  end.
Definition parse_segment (action_type : JournalUpdateCacheActionType) (data : bytes) : Node unit :=
  match action_type with
  | UC_Set => parsed data (fun segment => logged_node (create_local_segment conf segment))
  | UC_Delete => ret tt
  end.
Definition parse_segment_meta (action_type : JournalUpdateCacheActionType) (data : bytes) : Node unit :=
  match action_type with
  | UC_Set => parsed data (fun meta => on_cache (jc_set_segment_meta meta))
  | UC_Delete => ret tt
  end.
Definition parse_notification (action_type : JournalUpdateCacheActionType)
    (resource_type : JournalUpdateCacheResourceType) (data : bytes) : Node unit :=
  match resource_type with
  | RT_JournalNode => parse_node action_type data
  | RT_Shard => parse_shard action_type data
  | RT_Segment => parse_segment action_type data
  | RT_SegmentMeta => parse_segment_meta action_type data
  end.

(** ** core/segment.rs *)

Definition delete_local_segment i : Node unit :=
  let! known := cached (jc_get_segment i) in
  if is_none known then ret tt
  else
    on_cache (jc_delete_segment i) ;;
    remove_segment_file i ;;
    on_cache (jc_remove_build_index_thread i) ;;
    logged_node (on_index (delete_segment_index i)) ;;
    logged_node
      (let! segment_file := open_segment_write conf i in
       on_files (delete_file segment_file.1)).

Definition segment_already_delete namespace shard_name (segment : Z) : Node bool :=
  let! segment_file := open_segment_write conf (mkSegmentIdentity namespace shard_name segment) in
  fun n => (Ok (negb (file_exists segment_file.1 (jn_files n))), n).

(** ** server/grpc/inner.rs, [update_cache] *)

Definition grpc_update_cache (req : JournalInnerCallMessage) : Node unit :=
  if bool_decide (cm_cluster_name req <> conf_cluster_name conf) then ret tt
  else parse_notification (cm_action_type req) (cm_resource_type req) (cm_data req).

(** What arrives while a task sleeps. *)
Definition pause : Node unit :=
  fun n =>
    let (notices, p) := jp_notices (jn_placement n) in
    for_each notices grpc_update_cache
      (mkJournalNode (jn_files n) (jn_db n) p (jn_cache n) (jn_segment_files n) (jn_now_second n)).

(** ** core/shard.rs *)

(** The part of [delete_local_shard] that is spawned: it ends at the first
    segment that cannot be deleted. *)
Definition remove_shard_fold namespace shard_name (fold : bytes) : Node unit :=
  let name := data_fold_shard namespace shard_name fold in
  fun n =>
    if fs_exists name (jn_files n)
    then logged_node (on_files (map_err JE_StdIoError (fs_remove_dir_all name))) n
    else (Ok tt, n).
Definition delete_local_shard namespace shard_name : Node unit :=
  let! shard := cached (jc_get_shard namespace shard_name) in
  if is_none shard then ret tt
  else
    let! segments := cached (jc_get_segments_list_by_shard namespace shard_name) in
    logged_node
      (for_each segments
         (fun segment => delete_local_segment (mkSegmentIdentity namespace shard_name (sg_segment_seq segment))) ;;
       on_cache (jc_delete_shard namespace shard_name) ;;
       for_each (conf_data_path conf) (remove_shard_fold namespace shard_name)).

Definition is_delete_by_shard namespace shard_name : Node bool :=
  fun n => (Ok (forallb (fun fold => negb (fs_exists (data_fold_shard namespace shard_name fold) (jn_files n)))
                  (conf_data_path conf)), n).

Definition get_cluster : Node JournalEngineClusterConfig :=
  let! c := cached cluster in unwrap c.

(** Up to [n] more looks at the cache, with a pause after each. *)
Fixpoint wait_for_shard (n : nat) namespace shard_name : Node bool :=
  let! shard := cached (jc_get_shard namespace shard_name) in
  if is_some shard then ret true
  else
    match n with
    | O => ret false
    | S n => pause ;; wait_for_shard n namespace shard_name
    end.

(** Thirty pauses of 100 ms fit into the three seconds. *)
Definition create_shard_to_place namespace shard_name : Node unit :=
  let! cluster_config := get_cluster in
  let config := mkJournalShardConfig (ec_shard_replica_num cluster_config) (ec_max_segment_size cluster_config) in
  match to_vec config with
  | inl e => fail (JE_SerdeJsonError e)
  | inr shard_config =>
      on_placement (jp_create_shard
        (mkCreateShardRequest (mkShardName (conf_cluster_name conf) namespace shard_name) shard_config)) ;;
      let! _ := wait_for_shard 30 namespace shard_name in
      ret tt
  end.

Definition delete_shard_to_place namespace shard_name : Node unit :=
  on_placement (jp_delete_shard (mkShardName (conf_cluster_name conf) namespace shard_name)).

Definition try_auto_create_shard namespace shard_name : Node unit :=
  let! shard := cached (jc_get_shard namespace shard_name) in
  if is_some shard then ret tt
  else
    let! cluster_config := get_cluster in
    if negb (ec_enable_auto_create_shard cluster_config)
    then fail (JE_ShardNotExist (shard_name_iden namespace shard_name))
    else
      create_shard_to_place namespace shard_name ;;
      let! found := wait_for_shard 29 namespace shard_name in
      if found then ret tt
      else pause ;; fail (JE_ShardNotExist (shard_name_iden namespace shard_name)).

(** ** segment/read.rs *)

Definition read_records_by_offset (s : SegmentFile) i (filter : ReadReqFilter) (options : ReadReqOptions)
  : Node (list ReadData) :=
  let! position := on_index (get_last_nearest_position_by_offset i (fl_offset filter)) in
  let start_position := match position with Some p => ix_position p | None => 0 end in
  on_files (read_by_offset s start_position (fl_offset filter) (op_max_size options) (op_max_record options)).

Definition read_records_by_key (s : SegmentFile) i (filter : ReadReqFilter) (options : ReadReqOptions)
  : Node (list ReadData) :=
  let! index_data_list := on_index (get_last_positions_by_key i (fl_offset filter) (fl_key filter) (op_max_record options)) in
  on_files (read_by_positions s (map ix_position index_data_list)).

Definition read_records_by_tag (s : SegmentFile) i (filter : ReadReqFilter) (options : ReadReqOptions)
  : Node (list ReadData) :=
  let! index_data_list := on_index (get_last_positions_by_tag i (fl_offset filter) (fl_tag filter) (op_max_record options)) in
  on_files (read_by_positions s (map ix_position index_data_list)).

(** A record as a client gets it. *)
Definition read_message (d : ReadData) : ReadRespMessage :=
  let record := rd_record d in
  mkReadRespMessage (wrap64 (jr_offset record)) (jr_key record) (jr_content record) (jr_tags record)
    (jr_create_time record).

Definition default_filter : ReadReqFilter := mkReadReqFilter 0 0 [] [].
Definition default_options : ReadReqOptions := mkReadReqOptions (1024 * 1024) 100.

Definition read_segment (node_id : Z) (raw : ReadReqMessage) : Node ReadRespSegmentMessage :=
  let i := mkSegmentIdentity (rm_namespace raw) (rm_shard_name raw) (rm_segment raw) in
  let! segment := cached (jc_get_segment i) in
  let! segment := ok_or segment (JE_SegmentNotExist (iden_name i)) in
  let! fold := ok_or (get_fold node_id segment) (JE_SegmentDataDirectoryNotFound (iden_name i) node_id) in
  let segment_file := SegmentFile_new (si_namespace i) (si_shard_name i) (si_segment_seq i) fold in
  let filter := default default_filter (rm_filter raw) in
  let options := default default_options (rm_options raw) in
  let! read_data_list :=
    (match ready_type raw with
     | ByOffset => read_records_by_offset segment_file i filter options
     | ByKey => read_records_by_key segment_file i filter options
     | ByTag => read_records_by_tag segment_file i filter options
     end) in
  ret (mkReadRespSegmentMessage (rm_namespace raw) (rm_shard_name raw) (rm_segment raw)
         (map read_message read_data_list)).

(** [for x in l { results.push(f(x)?); }]. *)
Fixpoint collect {A B : Type} (l : list A) (f : A -> Node B) : Node (list B) :=
  match l with
  | [] => ret []
  | a :: l =>
      let! b := f a in
      let! bs := collect l f in
      ret (b :: bs)
  end.

Definition read_data_req (req_body : ReadReqBody) (node_id : Z) : Node (list ReadRespSegmentMessage) :=
  collect (rb_messages req_body) (read_segment node_id).

(** ** segment/write.rs, [write_data_req] *)

Definition new_record (now : Z) (d : WriteReqSegmentMessages) (m : WriteReqMessages) : JournalRecord :=
  mkJournalRecord [] (wm_pkid m) (wm_key m) (wm_value m) now (wm_tags m) (-1) (ws_namespace d) (ws_shard_name d)
    (ws_segment d).

(** The answer for one message; the first record of a segment also sets where
    and when the segment starts. *)
Definition message_status i (record_list : list JournalRecord) (po : Z * Z) : Node WriteRespMessageStatus :=
  let (pkid, offset) := po in
  let! meta := get_segment_file i in
  let! meta := unwrap meta in
  (if wrap64 (fm_start_offset meta) =? offset then
     if_some (last (filter (fun rc => jr_pkid rc = pkid) record_list)) (fun rc =>
       let start_timestamp := jr_create_time rc in
       update_start_offset i (as_i64 offset) ;;
       update_start_timestamp i start_timestamp ;;
       update_meta_start_timestamp conf i start_timestamp)
   else ret tt) ;;
  ret (mkWriteRespMessageStatus offset pkid None).

(** What follows an error of [write_data]: a full segment is sealed and its
    write thread is stopped. *)
Definition seal_full_segment i (e : JournalServerError) : Node unit :=
  if bool_decide (get_journal_server_code e = lit "SegmentOffsetAtTheEnd") then
    sealup_segment conf i ;;
    update_meta_end_timestamp conf i ;;
    let! _ := get_write conf i in
    on_cache (jc_remove_segment_write_thread i)
  else ret tt.

Definition write_segment (d : WriteReqSegmentMessages) : Node WriteRespMessage :=
  let i := mkSegmentIdentity (ws_namespace d) (ws_shard_name d) (ws_segment d) in
  let! now := now_second in
  let record_list := map (new_record now d) (ws_messages d) in
  let! resp :=
    (fun n => match write_data conf i record_list n with
              | (Err e, n) => (seal_full_segment i e ;; fail e) n
              | r => r
              end) in
  match wr_error resp with
  | Some e => fail e
  | None =>
      let! messages := collect (map_iterZ (wr_offsets resp)) (message_status i record_list) in
      ret (mkWriteRespMessage (ws_namespace d) (ws_shard_name d) (ws_segment d) messages)
  end.

Definition write_data_req (req_body : WriteReqBody) : Node (list WriteRespMessage) :=
  collect (wb_data req_body) write_segment.

(** ** core/cache.rs, [load_metadata_cache] *)

Definition is_allow_update_local_cache : Node bool :=
  let! now := now_second in
  let! c := get_cluster in
  ret (3 <? wrap64 (now - ec_last_update_local_cache_time c)).

(** An answer that is an error or cannot be read is a panic. *)
Definition loaded {A : Type} {J : Json A} (m : M P CommonError bytes) : Node A :=
  fun n =>
    match on_placement m n with
    | (Ok data, n) => match from_slice data with inr a => (Ok a, n) | inl _ => (Panic, n) end
    | (Err _, n) | (Panic, n) => (Panic, n)
    | (OutOfFuel, n) => (OutOfFuel, n)
    end.
Definition loaded_nodes : Node (list bytes) :=
  fun n =>
    match on_placement (jp_node_list (conf_cluster_name conf)) n with
    | (Err _, n) => (Panic, n)
    | r => r
    end.

Definition load_metadata_cache : Node unit :=
  let! allowed := is_allow_update_local_cache in
  if negb allowed then ret tt
  else
    let! nodes := loaded_nodes in
    for_each nodes (fun raw =>
      match from_slice raw with
      | inr node => on_cache (jc_add_node node)
      | inl _ => panic
      end) ;;
    let! shards := loaded (jp_list_shard (conf_cluster_name conf)) in
    for_each shards (fun shard => on_cache (jc_set_shard shard)) ;;
    let! segments := loaded (jp_list_segment (conf_cluster_name conf)) in
    for_each segments (fun segment => on_cache (jc_set_segment conf segment)) ;;
    let! metas := loaded (jp_list_segment_meta (conf_cluster_name conf)) in
    for_each metas (fun meta => on_cache (jc_set_segment_meta meta)) ;;
    let! now := now_second in
    on_cache (jc_update_local_cache_time now).

(** ** handler/data.rs *)

Definition validator i : Node unit :=
  let! shard := cached (jc_get_shard (si_namespace i) (si_shard_name i)) in
  let! _ := ok_or shard (JE_ShardNotExist (si_shard_name i)) in
  let! segment := cached (jc_get_segment i) in
  let! segment := ok_or segment (JE_SegmentNotExist (iden_name i)) in
  if negb (allow_read segment) then
    fail (JE_SegmentStatusError (iden_name i) (segment_status_text (sg_status segment)))
  else if negb (sg_leader segment =? conf_node_id conf) then fail (JE_NotLeader (iden_name i))
  else
    let! meta := cached (jc_get_segment_meta i) in
    let! _ := ok_or meta (JE_SegmentFileMetaNotExists (iden_name i)) in
    ret tt.

Definition handle_write (body : option WriteReqBody) : Node (list WriteRespMessage) :=
  let! req_body := ok_or body (JE_RequestBodyNotEmpty (lit "write")) in
  for_each (wb_data req_body) (fun m =>
    try_auto_create_shard (ws_namespace m) (ws_shard_name m) ;;
    validator (mkSegmentIdentity (ws_namespace m) (ws_shard_name m) (ws_segment m))) ;;
  write_data_req req_body.

Definition handle_read (body : option ReadReqBody) : Node (list ReadRespSegmentMessage) :=
  let! req_body := ok_or body (JE_RequestBodyNotEmpty (lit "write")) in
  for_each (rb_messages req_body) (fun row =>
    try_auto_create_shard (rm_namespace row) (rm_shard_name row) ;;
    validator (mkSegmentIdentity (rm_namespace row) (rm_shard_name row) (rm_segment row))) ;;
  read_data_req req_body (conf_node_id conf).

Definition engine_error (e : JournalServerError) : JournalEngineError :=
  mkJournalEngineError (get_journal_server_code e) (journal_error_text e).
Definition offset_error (e : JournalServerError) : FetchOffsetShardMeta :=
  mkFetchOffsetShardMeta [] [] 0 0 (Some (engine_error e)).

Definition fetch_shard_offset (shard : FetchOffsetShard) : Node FetchOffsetShardMeta :=
  let ns := fo_namespace shard in
  let name := fo_shard_name shard in
  let no := fo_segment_no shard in
  let found offset := ret (mkFetchOffsetShardMeta ns name no offset None) in
  try_auto_create_shard ns name ;;
  let i := mkSegmentIdentity ns name no in
  let shard_iden := shard_name_iden ns name in
  let! meta := cached (jc_get_segment_meta i) in
  match meta with
  | None => ret (offset_error (JE_SegmentMetaNotExists (iden_name i)))
  | Some meta =>
      let! active := cached (jc_get_active_segment ns name) in
      match active with
      | None => ret (offset_error (JE_NotActiveSegment shard_iden))
      | Some active =>
          if fo_timestamp shard <? wrap64 (mt_start_timestamp meta) then
            ret (offset_error (JE_TimestampBelongToPreviousSegment (fo_timestamp shard) (mt_start_offset meta) shard_iden))
          else if wrap64 (mt_end_timestamp meta) <? fo_timestamp shard then
            if sg_segment_seq active =? no then found (mt_end_offset meta)
            else ret (offset_error (JE_TimestampBelongToNextSegment (fo_timestamp shard) (mt_start_offset meta) shard_iden))
          else
            let! index_data := on_index (get_last_nearest_position_by_timestamp i (fo_timestamp shard)) in
            match index_data with
            | Some x => found (as_i64 (ix_offset x))
            | None => ret (offset_error (JE_NotAvailableOffsetByTimestamp (fo_timestamp shard) shard_iden))
            end
      end
  end.
Definition handle_fetch_offset (body : option FetchOffsetReqBody) : Node FetchOffsetRespBody :=
  let! req_body := ok_or body (JE_RequestBodyNotEmpty (lit "fetch_offset")) in
  let! meta_list := collect (fo_shards req_body) fetch_shard_offset in
  ret (mkFetchOffsetRespBody meta_list).

(** ** handler/shard.rs and handler/cluster.rs *)

Definition handle_create_shard (body : option CreateShardReqBody) : Node unit :=
  let! req_body := ok_or body (JE_RequestBodyNotEmpty (lit "create_shard")) in
  let! shard := cached (jc_get_shard (cs_namespace req_body) (cs_shard_name req_body)) in
  if is_none shard then create_shard_to_place (cs_namespace req_body) (cs_shard_name req_body) else ret tt.

Definition handle_delete_shard (body : option DeleteShardReqBody) : Node unit :=
  let! req_body := ok_or body (JE_RequestBodyNotEmpty (lit "create_shard")) in
  let! shard := cached (jc_get_shard (dl_namespace req_body) (dl_shard_name req_body)) in
  if is_none shard then fail (JE_ShardNotExist (dl_shard_name req_body))
  else delete_shard_to_place (dl_namespace req_body) (dl_shard_name req_body).

Definition trigger_create_next_segment namespace shard_name : Node unit :=
  on_placement (jp_create_next_segment (mkShardName (conf_cluster_name conf) namespace shard_name)).

Definition try_tranf_segment_status namespace shard_name (segment : JournalSegment) : Node unit :=
  (if bool_decide (sg_status segment = Idle) then
     on_placement (jp_update_segment_status
       (mkUpdateSegmentStatusRequest (mkShardName (conf_cluster_name conf) namespace shard_name)
          (sg_segment_seq segment) (segment_status_text (sg_status segment)) (segment_status_text PreWrite)))
   else ret tt) ;;
  (if bool_decide (sg_status segment ∈ [SealUp; PreDelete; Deleting])
   then trigger_create_next_segment namespace shard_name else ret tt).

(** A look-up that refreshes the cache when it finds nothing, then errs. *)
Definition or_reload {A : Type} (o : option A) (e : JournalServerError) : Node A :=
  match o with
  | Some a => ret a
  | None => load_metadata_cache ;; fail e
  end.

Definition client_segment_meta (shard_name : bytes) (segment : JournalSegment) : Node ClientSegmentMetadata :=
  let! meta := cached (jc_get_segment_meta
                 (mkSegmentIdentity (sg_namespace segment) (sg_shard_name segment) (sg_segment_seq segment))) in
  let! meta := or_reload meta (JE_SegmentMetaNotExists shard_name) in
  ret (mkClientSegmentMetadata (sg_segment_seq segment) (sg_leader segment) (map rp_node_id (sg_replicas segment))
         (mt_start_offset meta) (mt_end_offset meta) (mt_start_timestamp meta) (mt_end_timestamp meta)).

(** The leader of the active segment among the segments, minus one without. *)
Definition active_leader (active_segment_seq : Z) (segments : list JournalSegment) : Z :=
  foldl (fun leader s => if sg_segment_seq s =? active_segment_seq then as_i64 (sg_leader s) else leader) (-1) segments.

Definition shard_metadata (raw : GetShardMetadataReqShard) : Node GetShardMetadataRespShard :=
  let ns := gs_namespace raw in
  let name := gs_shard_name raw in
  let! shard := cached (jc_get_shard ns name) in
  let! shard := ok_or shard (JE_ShardNotExist name) in
  let! active := cached (jc_get_active_segment ns name) in
  let! active := or_reload active (JE_NotActiveSegment (shard_name_iden (js_namespace shard) (js_shard_name shard))) in
  try_tranf_segment_status ns name active ;;
  let! segments := cached (jc_get_segments_list_by_shard ns name) in
  let! _ := or_reload (head segments) (JE_NotAvailableSegments name) in
  let! metas := collect segments (client_segment_meta name) in
  ret (mkGetShardMetadataRespShard ns name ((js_active_segment_seq shard + 2 ^ 31) mod 2 ^ 32 - 2 ^ 31)
         (active_leader (js_active_segment_seq shard) segments) metas).

Definition handle_get_shard_metadata (body : option GetShardMetadataReqBody) : Node (list GetShardMetadataRespShard) :=
  let! req_body := ok_or body (JE_RequestBodyNotEmpty (lit "active_segment")) in
  collect (gs_shards req_body) shard_metadata.

Definition get_cluster_metadata : Node (list GetClusterMetadataNode) :=
  let! nodes := cached jc_all_node in
  collect nodes (fun node =>
    match from_slice (bn_extend node) with
    | inr extend => ret (mkGetClusterMetadataNode (bn_node_id node) (tcp_addr extend) (tcps_addr extend))
    | inl e => fail (JE_SerdeJsonError e)
    end).

(** ** handler/command.rs *)

(** The header of an answer, and a body that is the default after an error. *)
Definition answer {A B : Type} (key : ApiKey) (body : A -> B) (default_body : B) (m : Node A)
  : Node (message RespHeader B) :=
  fun n =>
    match m n with
    | (Ok a, n) => (Ok (mkMessage (Some (mkRespHeader (api_key_number key) 0 None)) (Some (body a))), n)
    | (Err e, n) =>
        (Ok (mkMessage (Some (mkRespHeader (api_key_number key) 0 (Some (engine_error e)))) (Some default_body)), n)
    | (Panic, n) => (Panic, n)
    | (OutOfFuel, n) => (OutOfFuel, n)
    end.

Definition apply (packet : JournalEnginePacket) : Node (option JournalEnginePacket) :=
  match packet with
  | GetClusterMetadataReq _ =>
      let! resp := answer AK_GetClusterMetadata mkGetClusterMetadataRespBody (mkGetClusterMetadataRespBody [])
                     get_cluster_metadata in
      ret (Some (GetClusterMetadataResp resp))
  | CreateShardReq request =>
      let! resp := answer AK_CreateShard (fun _ => mkCreateShardRespBody) mkCreateShardRespBody
                     (handle_create_shard (msg_body request)) in
      ret (Some (CreateShardResp resp))
  | DeleteShardReq request =>
      let! resp := answer AK_DeleteShard (fun _ => mkDeleteShardRespBody) mkDeleteShardRespBody
                     (handle_delete_shard (msg_body request)) in
      ret (Some (DeleteShardResp resp))
  | GetShardMetadataReq request =>
      let! resp := answer AK_GetShardMetadata mkGetShardMetadataRespBody (mkGetShardMetadataRespBody [])
                     (handle_get_shard_metadata (msg_body request)) in
      ret (Some (GetShardMetadataResp resp))
  | WriteReq request =>
      let! resp := answer AK_Write mkWriteRespBody (mkWriteRespBody []) (handle_write (msg_body request)) in
      ret (Some (WriteResp resp))
  | ReadReq request =>
      let! resp := answer AK_Read mkReadRespBody (mkReadRespBody []) (handle_read (msg_body request)) in
      ret (Some (ReadResp resp))
  | FetchOffsetReq request =>
      let! resp := answer AK_FetchOffset (fun b => b) (mkFetchOffsetRespBody [])
                     (handle_fetch_offset (msg_body request)) in
      ret (Some (FetchOffsetResp resp))
  | _ => ret None
  end.

(** ** server/grpc/inner.rs: the other calls of the placement center *)

Definition grpc_delete_shard_file (r : ShardName) : Node unit :=
  if bool_decide (rq_cluster_name r <> conf_cluster_name conf) then ret tt
  else delete_local_shard (rq_namespace r) (rq_shard_name r).
Definition grpc_get_shard_delete_status (r : ShardName) : Node bool :=
  if bool_decide (rq_cluster_name r <> conf_cluster_name conf) then ret false
  else is_delete_by_shard (rq_namespace r) (rq_shard_name r).
Definition grpc_delete_segment_file (r : ShardName) (segment : Z) : Node unit :=
  if bool_decide (rq_cluster_name r <> conf_cluster_name conf) then ret tt
  else delete_local_segment (mkSegmentIdentity (rq_namespace r) (rq_shard_name r) segment).
Definition grpc_get_segment_delete_status (r : ShardName) (segment : Z) : Node bool :=
  if bool_decide (rq_cluster_name r <> conf_cluster_name conf) then ret false
  else segment_already_delete (rq_namespace r) (rq_shard_name r) segment.

(** ** server/grpc/admin.rs *)

(** The first value that cannot be serialized ends the call. *)
Fixpoint json_strings {A : Type} {J : Json A} (l : list A) : bytes + list bytes :=
  match l with
  | [] => inr []
  | a :: l =>
      match to_vec a with
      | inl e => inl e
      | inr data => match json_strings l with inl e => inl e | inr rest => inr (data :: rest) end
      end
  end.

Definition admin_list_shard namespace shard_name (c : CacheManager) : bytes + list bytes :=
  if bool_decide (shard_name = []) then json_strings (jc_get_shards c)
  else
    match jc_get_shard namespace shard_name c with
    | Some shard => json_strings [shard]
    | None => inr []
    end.

(** The number is an [i32]. *)
Definition admin_list_segment namespace shard_name (segment_no : Z) (c : CacheManager) : bytes + list bytes :=
  if segment_no =? -1 then json_strings (jc_get_segments_list_by_shard namespace shard_name c)
  else
    match jc_get_segment (mkSegmentIdentity namespace shard_name (segment_no mod 2 ^ 32)) c with
    | Some segment => json_strings [segment]
    | None => inr []
    end.

(** ** segment/manager.rs, [load_local_segment_cache] *)

Definition storage_data_fold (data_fold : list bytes) : Node bytes :=
  match data_fold with
  | fold :: _ => ret (fold ++ lit "/_index")
  | [] => panic
  end.

(** [s.parse::<u32>()]. *)
Definition parse_u32 (s : bytes) : option Z :=
  match parse_u64 s with
  | Some n => if n <? 2 ^ 32 then Some n else None
  | None => None
  end.

(** The names in the path of a directory, without the data directory. *)
Definition fold_names (local_data_folds : list bytes) (dir : bytes) : list bytes :=
  let tmp_dir := foldl (fun d data_path => replace_str data_path [] d) dir local_data_folds in
  split_on slash (if starts_with (lit "/") tmp_dir then drop 1 tmp_dir else tmp_dir).

(** One file; a directory of another depth is skipped. *)
Definition load_segment_file (local_data_folds : list bytes) (dir file_path : bytes) : Node unit :=
  match fold_names local_data_folds dir with
  | [namespace; shard_name] =>
      let segment := replace_str (lit ".msg") [] (default [] (last (split_on slash file_path))) in
      let! segment_no := ok_or (parse_u32 segment) (JE_ParseIntError (lit "invalid digit found in string")) in
      let i := mkSegmentIdentity namespace shard_name segment_no in
      let! start_offset := on_index (get_start_offset i) in
      let! end_offset := on_index (get_end_offset i) in
      let! start_timestamp := on_index (get_start_timestamp i) in
      let! end_timestamp := on_index (get_end_timestamp i) in
      add_segment_file (mkSegmentFileMetadata namespace shard_name segment_no start_offset end_offset
                          start_timestamp end_timestamp)
  | _ => ret tt
  end.

(** [fuel]: the depth of the directories. *)
Fixpoint load_local_segment_cache (fuel : nat) (local_data_folds : list bytes) (dir : bytes) : Node unit :=
  match fuel with
  | O => out_of_fuel
  | S fuel =>
      let! rocksdb_dir := storage_data_fold local_data_folds in
      if bool_decide (dir = rocksdb_dir) then ret tt
      else
        let! f := (fun n => (Ok (jn_files n), n)) in
        match fs_read_dir dir f with
        | inl e => fail (JE_StdIoError e)
        | inr entries =>
            for_each entries (fun '(path, is_dir) =>
              if is_dir : bool then load_local_segment_cache fuel local_data_folds path
              else load_segment_file local_data_folds dir path)
        end
  end.

(** ** core/cluster.rs and [init_node] of lib.rs *)

Definition register_journal_node : Node unit :=
  let ip := conf_local_ip conf in
  let extend := mkJournalNodeExtend (conf_data_path conf) (ip ++ lit ":" ++ decimal (conf_tcp_port conf))
                  (ip ++ lit ":" ++ decimal (conf_tcps_port conf)) in
  match to_vec extend with
  | inl e => fail (JE_CommonError (FromSerdeJsonError e))
  | inr extend_info =>
      on_placement (jp_register_node
        (mkRegisterJournalNode (conf_cluster_name conf) (conf_node_id conf) ip
           (ip ++ lit ":" ++ decimal (conf_grpc_port conf)) extend_info))
  end.
Definition unregister_journal_node : Node unit :=
  on_placement (jp_unregister_node (conf_cluster_name conf) (conf_node_id conf)).

(** A node that the placement center does not know registers again. *)
Definition report_report0 : Node unit :=
  fun n =>
    match on_placement (jp_heartbeat (conf_cluster_name conf) (conf_node_id conf)) n with
    | (Err e, n) =>
        let text := journal_error_text e in
        (if contains_text (lit "Node") text && contains_text (lit "does not exist") text
         then logged_node register_journal_node else ret tt) n
    | r => r
    end.

Definition or_panic {A : Type} (m : Node A) : Node A :=
  fun n => match m n with
           | (Err _, n) => (Panic, n)
           | r => r
           end.
Definition init_node (fuel : nat) : Node unit :=
  on_cache (jc_init_cluster conf) ;;
  load_metadata_cache ;;
  for_each (conf_data_path conf) (fun path => or_panic (load_local_segment_cache fuel (conf_data_path conf) path)) ;;
  or_panic register_journal_node.
Definition stop_server : Node unit :=
  on_cache jc_stop_all_build_index_thread ;; logged_node unregister_journal_node.
End server.

(** ** segment/scroll.rs *)

Record SegmentScrollManager : Type := mkSegmentScrollManager {
  percentage50_cache : gmap bytes Z;
  percentage90_cache : gmap bytes Z
}.

Section scroll.
Context {F : Type} {FS : Files F} {RB : ReadBuf} {D : Type} {RD : RocksDB D} {P : Type} {JP : JournalPlacement P}
        {PR : Prost JournalRecord} {MJ : MetaJson} {MI : MapIter} (conf : JournalServerConfig).
Local Abbreviation Node := (@Node F D P).
Implicit Types (i : SegmentIdentity) (sm : SegmentScrollManager).

(** [match m { Ok(x) => k(x), Err(e) => { error!(..); continue } }]. *)
Definition or_continue {A : Type} (m : Node A) sm (k : A -> Node SegmentScrollManager) : Node SegmentScrollManager :=
  fun n => match m n with
           | (Ok a, n) => k a n
           | (Err _, n) => (Ok sm, n)
           | (Panic, n) => (Panic, n)
           | (OutOfFuel, n) => (OutOfFuel, n)
           end.

Definition calc_end_offset : Z := 10000.

(** The file size over the largest size is a quotient of integers; a largest
    size of zero is a panic. *)
Definition scroll_next_segment i (file_size max_size : Z) sm : Node SegmentScrollManager :=
  if is_none (percentage50_cache sm !! iden_name i) && (max_size =? 0) then panic
  else if is_none (percentage50_cache sm !! iden_name i) && (50 <? file_size / max_size) then
    on_placement (jp_create_next_segment (mkShardName (conf_cluster_name conf) (si_namespace i) (si_shard_name i))) ;;
    let! now := now_second in
    ret (mkSegmentScrollManager (<[iden_name i := now]> (percentage50_cache sm)) (percentage90_cache sm))
  else ret sm.

Definition scroll_pre_sealup i (file_size max_size : Z) sm : Node SegmentScrollManager :=
  if is_none (percentage50_cache sm !! iden_name i) && (98 <? file_size / max_size) then
    let! meta := get_segment_file i in
    match fm_end_offset <$> meta with
    | Some current_end_offset =>
        or_continue (pre_sealup_segment conf i) sm (fun _ =>
          let end_offset := wrap64 (current_end_offset + calc_end_offset) in
          or_continue (update_end_and_start_offset conf i (as_i64 end_offset)) sm (fun _ =>
            let! now := now_second in
            ret (mkSegmentScrollManager (percentage50_cache sm) (<[iden_name i := now]> (percentage90_cache sm)))))
    | None => ret sm
    end
  else ret sm.

Definition scroll_segment i sm : Node SegmentScrollManager :=
  or_continue (open_segment_write conf i) sm (fun '(segment_write, max_size) =>
    let key := iden_name i in
    if is_some (percentage50_cache sm !! key) && is_some (percentage90_cache sm !! key) then ret sm
    else
      or_continue (on_files (size segment_write)) sm (fun file_size =>
        or_continue (scroll_next_segment i file_size max_size sm) sm
          (scroll_pre_sealup i file_size max_size))).

(** One round of [trigger_segment_scroll]. *)
Fixpoint scroll_segments (l : list SegmentIdentity) sm : Node SegmentScrollManager :=
  match l with
  | [] => ret sm
  | i :: l => let! sm := scroll_segment i sm in scroll_segments l sm
  end.
Definition scroll_round sm : Node SegmentScrollManager :=
  let! l := cached jc_get_leader_segment in scroll_segments l sm.
End scroll.
