(* ===== verification/JournalIndexFacts.v ===== *)
(** * What the indexes of a segment hold

    The entries under a prefix ([lists]), what indexing a record puts into the
    database ([puts]), that the records that were indexed are those that the
    indexes list ([indexed]), and what the scans of [JournalIndex] return. *)

From Stdlib Require Import String.
From stdpp Require Import sorting.
From S2P Require Import Prelude Bytes RustStr Storage RocksEngine PlacementStore PlacementRoute RaftLog KvService SegmentFile SegmentFacts JournalIndex.

(** The entry of a record. *)
Definition entry_of (d : ReadData) : IndexData :=
  mkIndexData (jr_offset (rd_record d)) (jr_create_time (rd_record d)) (rd_position d).

(** A record every 10000, counted from [start], goes into the index by offset. *)
Definition sampled (start offset : Z) : bool := Z.rem (offset - start) BUILD_INDE_PER_RECORD_NUM =? 0.
(** The start offset is minus one until a node that has indexed the first
    record, of offset zero, restarts. *)
Definition sampled_since (start offset : Z) : Prop :=
  sampled (-1) offset = true \/ start = 0 /\ sampled 0 offset = true.

Lemma concat_map_singleton {A B} (f : A -> B) l : concat (map (fun a => [f a]) l) = map f l.
Proof. induction l as [|a l IH]; cbn; [done|]. by rewrite IH. Qed.

Section facts.
Context {D : Type} {RD : RocksDB D} {RS : RocksSpec D} {RR : RocksReliable D}
        {JW : Json StorageDataWrap} {JWS : JsonSpec StorageDataWrap} {JZ : Json Z} {JZS : JsonSpec Z}
        {JI : Json IndexData} {JIS : JsonSpec IndexData}.
Implicit Types (d : D) (i : SegmentIdentity) (k p : bytes) (m : gmap bytes bytes) (x : IndexData).

Definition idx d : gmap bytes bytes := contents d DB_COLUMN_FAMILY_INDEX.
Definition index_open d : Prop := db_cf_handle DB_COLUMN_FAMILY_INDEX d = true.

(** ** Single values *)

Lemma index_save_ok {A} {J : Json A} {JS : JsonSpec A} now k (a : A) d :
  index_open d ->
  exists d', index_save now k a d = (Ok tt, d') /\ index_open d' /\ idx d' = <[k := wrapped now a]> (idx d).
Proof.
  intros Ho. unfold index_save, rocksdb_engine_save, with_cf. destruct (json_ok a) as (-> & _ & _).
  destruct (engine_write_ok DB_COLUMN_FAMILY_INDEX k (mkStorageDataWrap (json a) now) d Ho) as (d' & E1 & Hh & Hc & _).
  exists d'. split; [|split; [unfold index_open; by rewrite Hh|exact Hc]].
  unfold map_err. unfold index_open in Ho. by rewrite Ho, E1.
Qed.

Lemma index_get_ok k o d :
  index_open d -> idx d !! k = json <$> o ->
  map_err JE_CommonError (rocksdb_engine_get DB_COLUMN_FAMILY_INDEX k) d = (Ok o, d).
Proof.
  intros Ho Hk. unfold map_err, rocksdb_engine_get, with_cf. unfold index_open in Ho. rewrite Ho.
  by rewrite (engine_read_ok _ _ o d Hk).
Qed.

Lemma get_i64_ok k z d :
  index_open d -> holds (idx d) k z -> (forall n, z = Some n -> n < 2 ^ 63) -> get_i64 k d = (Ok (default (-1) z), d).
Proof.
  intros Ho Hk Hz. unfold get_i64. destruct z as [n|]; cbn [holds] in Hk.
  - destruct Hk as [t Ht]. erewrite bind_ok by (apply (index_get_ok k (Some (mkStorageDataWrap (json n) t))); done).
    cbn [sd_data]. destruct (json_ok n) as (_ & _ & ->). specialize (Hz n eq_refl).
    by rewrite (proj2 (Z.leb_gt _ _)) by lia.
  - by erewrite bind_ok by (apply (index_get_ok k None); done).
Qed.

Lemma get_last_build_ok i z d :
  index_open d -> holds (idx d) (last_offset_build_index i) z -> get_last_offset_build_index i d = (Ok z, d).
Proof.
  intros Ho Hk. unfold get_last_offset_build_index. destruct z as [n|]; cbn [holds] in Hk.
  - destruct Hk as [t Ht]. erewrite bind_ok by (apply (index_get_ok _ (Some (mkStorageDataWrap (json n) t))); done).
    cbn [sd_data]. by destruct (json_ok n) as (_ & _ & ->).
  - by erewrite bind_ok by (apply (index_get_ok _ None); done).
Qed.

Lemma is_finish_ok i d :
  index_open d -> idx d !! finish_build_index i = None -> is_finish_build_index i d = (Ok false, d).
Proof. intros Ho Hk. unfold is_finish_build_index. by erewrite bind_ok by (apply (index_get_ok _ None); done). Qed.

(** ** The entries under a prefix *)

Definition entry_ok x : Prop := 0 <= ix_offset x < 2 ^ 64.
Definition lists m p (X : IndexData -> Prop) : Prop :=
  (forall k v, m !! k = Some v -> starts_with p k = true ->
     exists x, X x /\ k = p ++ decimal (ix_offset x) /\ index_entry v = Ok x) /\
  (forall x, X x -> entry_ok x /\ exists v, m !! (p ++ decimal (ix_offset x)) = Some v /\ index_entry v = Ok x).

Lemma index_entry_wrapped now x : index_entry (wrapped now x) = Ok x.
Proof.
  unfold index_entry, wrapped. destruct (json_ok (mkStorageDataWrap (json x) now)) as (_ & _ & ->). cbn [sd_data].
  by destruct (json_ok x) as (_ & _ & ->).
Qed.

Lemma lists_other m p X k v : starts_with p k = false -> lists m p X -> lists (<[k := v]> m) p X.
Proof.
  intros Hk [H1 H2]. split.
  - intros k' v' [[<- <-]|[Hn Hv]]%lookup_insert_Some Hp; [congruence|]. eauto.
  - intros x Hx. destruct (H2 x Hx) as (Ho & v' & Hv & He). split; [done|]. exists v'.
    rewrite lookup_insert_ne; [done|]. intros ->. by rewrite starts_with_app in Hk.
Qed.

Lemma lists_put m p X now x :
  entry_ok x -> (forall y, X y -> ix_offset y = ix_offset x -> y = x) -> lists m p X ->
  lists (<[p ++ decimal (ix_offset x) := wrapped now x]> m) p (fun y => X y \/ y = x).
Proof.
  intros Hx Hu [H1 H2]. split.
  - intros k v [[<- <-]|[Hn Hv]]%lookup_insert_Some Hp; [exists x; auto using index_entry_wrapped|].
    destruct (H1 k v Hv Hp) as (y & ? & ? & ?). eauto 10.
  - intros y Hy. destruct (decide (ix_offset y = ix_offset x)) as [E|E].
    + assert (y = x) as -> by (destruct Hy; auto). split; [done|]. rewrite lookup_insert_eq.
      eauto using index_entry_wrapped.
    + destruct Hy as [Hy| ->]; [|done]. destruct (H2 y Hy) as (Ho & v & Hv & He). split; [done|]. exists v.
      rewrite lookup_insert_ne; [done|]. intros ?%app_inv_head. apply E. symmetry. by apply decimal_inj.
Qed.

Lemma lists_ext m p X Y : (forall x, X x <-> Y x) -> lists m p X -> lists m p Y.
Proof.
  intros HXY [H1 H2]. split; [|intros x Hx; by apply H2, HXY].
  intros k v Hv Hp. destruct (H1 k v Hv Hp) as (x & Hx & ?). exists x. by rewrite <- HXY.
Qed.

(** Several values at once, of which those under the prefix are one entry. *)
Definition put_all (kvs : list (bytes * bytes)) m : gmap bytes bytes := foldl (fun m kv => <[kv.1 := kv.2]> m) m kvs.

Lemma lists_put_all kvs m p X now x :
  entry_ok x -> (forall y, X y -> ix_offset y = ix_offset x -> y = x) ->
  Forall (fun kv => starts_with p kv.1 = false \/ kv = (p ++ decimal (ix_offset x), wrapped now x)) kvs ->
  lists m p X ->
  lists (put_all kvs m) p (fun y => X y \/ y = x /\ Exists (fun kv => starts_with p kv.1 = true) kvs).
Proof.
  intros Hx Hu Hk. revert m X Hu. induction Hk as [|[k v] kvs Hkv Hk IH]; intros m X Hu Hl; cbn [put_all foldl].
  { eapply lists_ext; [|exact Hl]. intros y. rewrite Exists_nil. tauto. }
  destruct (starts_with p k) eqn:E.
  - destruct Hkv as [Hkv|[= -> ->]]; [cbn in Hkv; congruence|].
    eapply lists_ext; [|apply (IH _ (fun y => X y \/ y = x))]; [|intros y [Hy| ->]; auto|by apply lists_put].
    intros y. rewrite Exists_cons. cbn [fst]. rewrite E. tauto.
  - eapply lists_ext; [|apply (IH _ X); [done|by apply lists_other]].
    intros y. rewrite Exists_cons. cbn [fst]. rewrite E. intuition congruence.
Qed.

Lemma put_all_other kvs m k : Forall (fun kv => kv.1 <> k) kvs -> put_all kvs m !! k = m !! k.
Proof.
  intros Hk. revert m. induction Hk as [|kv kvs Hkv Hk IH]; intros m; cbn [put_all foldl]; [done|].
  fold (put_all kvs (<[kv.1 := kv.2]> m)). by rewrite IH, lookup_insert_ne.
Qed.
Lemma put_all_app kvs1 kvs2 m : put_all (kvs1 ++ kvs2) m = put_all kvs2 (put_all kvs1 m).
Proof. apply foldl_app. Qed.

(** ** Scans *)

(** The entries in the order of their keys. *)
Lemma scan_entries d p X :
  lists (idx d) p X ->
  exists l : list IndexData,
    Forall2 (fun kv x => index_entry kv.2 = Ok x /\ kv.1 = p ++ decimal (ix_offset x))
      (prefix_loop p (db_iter_from DB_COLUMN_FAMILY_INDEX p d)) l /\
    (forall x, x ∈ l <-> X x) /\ NoDup l.
Proof.
  intros [H1 H2]. destruct (engine_read_prefix_ok DB_COLUMN_FAMILY_INDEX p d) as (raw & Hr & Hs & He).
  injection Hr as <-. set (raw := prefix_loop p _) in *.
  assert (forall kv, kv ∈ raw -> exists x, X x /\ kv.1 = p ++ decimal (ix_offset x) /\ index_entry kv.2 = Ok x) as Hx.
  { intros kv [Hv Hp]%He. eauto. }
  assert (exists l, Forall2 (fun kv x => index_entry kv.2 = Ok x /\ kv.1 = p ++ decimal (ix_offset x)) raw l /\
            Forall X l) as (l & Hl & HX).
  { clear He Hs. induction raw as [|kv raw IH]; [by exists []|].
    destruct (Hx kv) as (x & HX & Hk & Hv); [by left|]. destruct IH as (l & Hl & HXl); [intros; apply Hx; by right|].
    exists (x :: l). split; constructor; auto. }
  exists l. split_and!; [done| |].
  - intros x. split; [rewrite Forall_forall in HX; auto|]. intros HXx. destruct (H2 x HXx) as (_ & v & Hv & Hex).
    assert ((p ++ decimal (ix_offset x), v) ∈ raw) as Hin by (apply He; cbn; auto using starts_with_app).
    apply list_elem_of_lookup in Hin as [n Hn]. destruct (Forall2_lookup_l _ _ _ _ _ Hl Hn) as (y & Hy & Hey & _).
    cbn in Hey. rewrite Hex in Hey. injection Hey as ->. by eapply list_elem_of_lookup_2.
  - apply NoDup_alt. intros n1 n2 x Hx1 Hx2. apply sorted_NoDup in Hs as Hnd. rewrite NoDup_alt in Hnd.
    destruct (Forall2_lookup_r _ _ _ _ _ Hl Hx1) as ([k1 v1] & Hk1 & E1 & Hp1).
    destruct (Forall2_lookup_r _ _ _ _ _ Hl Hx2) as ([k2 v2] & Hk2 & E2 & Hp2). cbn in *. subst k1 k2.
    eapply Hnd; [exact Hk1|]. rewrite Hk2. f_equal. f_equal.
    apply list_elem_of_lookup_2, He in Hk1 as [Hk1 _]. apply list_elem_of_lookup_2, He in Hk2 as [Hk2 _].
    cbn in *. rewrite Hk1 in Hk2. congruence.
Qed.

Lemma nearest_loop_entries p before iter l :
  Forall2 (fun kv x => index_entry kv.2 = Ok x /\ kv.1 = p ++ decimal (ix_offset x)) (prefix_loop p iter) l ->
  nearest_loop p before iter = Ok (find (fun x => negb (before x)) l).
Proof.
  revert l. induction iter as [|[k v] iter IH]; intros l; cbn [prefix_loop nearest_loop].
  { by intros ->%Forall2_nil_inv_l. }
  cbn [fst]. destruct (starts_with p k); cbn [negb]; [|by intros ->%Forall2_nil_inv_l].
  intros (x & l' & [Hx _] & Hl & ->)%Forall2_cons_inv_l. cbn [snd] in Hx. rewrite Hx. cbn [find].
  destruct (before x); cbn [negb]; [by apply IH|done].
Qed.

Lemma positions_loop_entries p start num iter l results :
  Forall2 (fun kv x => index_entry kv.2 = Ok x /\ kv.1 = p ++ decimal (ix_offset x)) (prefix_loop p iter) l ->
  blen results + blen l < num ->
  positions_loop p start num iter results = Ok (results ++ filter (fun x => start <= ix_offset x) l).
Proof.
  revert l results. induction iter as [|[k v] iter IH]; intros l results; cbn [prefix_loop positions_loop].
  { intros ->%Forall2_nil_inv_l _. by rewrite app_nil_r. }
  cbn [fst]. destruct (starts_with p k); cbn [negb]; [|intros ->%Forall2_nil_inv_l _; by rewrite app_nil_r].
  intros (x & l' & [Hx _] & Hl & ->)%Forall2_cons_inv_l Hb. cbn [snd] in Hx. rewrite Hx, filter_cons.
  autorewrite with blen in Hb. pose proof (blen_nonneg l').
  destruct (Z.ltb_spec (ix_offset x) start).
  - rewrite decide_False by lia. apply IH; [done|lia].
  - rewrite decide_True by lia. rewrite (proj2 (Z.leb_gt _ _)) by (autorewrite with blen; lia).
    rewrite (IH l') by (done || (autorewrite with blen; lia)). by rewrite <- app_assoc.
Qed.

Lemma index_handle_ok d : index_open d -> map_err JE_CommonError (with_cf DB_COLUMN_FAMILY_INDEX (ret tt)) d = (Ok tt, d).
Proof. intros Ho. unfold map_err, with_cf. unfold index_open in Ho. by rewrite Ho. Qed.

(** The entry that a look-up by offset finds, if it finds one. *)
Lemma nearest_ok d p X before :
  index_open d -> lists (idx d) p X ->
  exists o, nearest p before d = (Ok o, d) /\
    match o with Some x => X x /\ before x = false | None => forall x, X x -> before x = true end.
Proof.
  intros Ho Hl. destruct (scan_entries d p X Hl) as (l & Hf & HX & _).
  unfold nearest. erewrite bind_ok by by apply index_handle_ok. erewrite bind_ok by reflexivity. unfold lift.
  rewrite (nearest_loop_entries _ _ _ _ Hf). eexists. split; [done|].
  destruct (find _ l) as [x|] eqn:E.
  - apply find_some in E as [Hin%list_elem_of_In Hb]. rewrite HX in Hin. by destruct (before x).
  - intros x Hx%HX%list_elem_of_In. apply (find_none _ _ E) in Hx. by destruct (before x).
Qed.

(** All entries from an offset on, if the limit is not reached. *)
Lemma last_positions_ok d p X (ys : list IndexData) start num :
  index_open d -> lists (idx d) p X -> (forall x, X x <-> x ∈ ys) -> blen ys < num ->
  exists l, last_positions p start num d = (Ok l, d) /\ NoDup l /\
    forall x, x ∈ l <-> X x /\ start <= ix_offset x.
Proof.
  intros Ho Hl Hys Hn. destruct (scan_entries d p X Hl) as (l & Hf & HX & Hnd).
  assert (blen l <= blen ys).
  { unfold blen. apply inj_le, submseteq_length, NoDup_submseteq; [done|]. intros x. by rewrite HX, Hys. }
  exists (filter (fun x => start <= ix_offset x) l). split_and!.
  - unfold last_positions. erewrite bind_ok by by apply index_handle_ok. erewrite bind_ok by reflexivity. unfold lift.
    by rewrite (positions_loop_entries _ _ _ _ _ [] Hf) by (autorewrite with blen; lia).
  - by apply NoDup_filter.
  - intros x. rewrite list_elem_of_filter, HX. tauto.
Qed.

(** ** Indexing records *)

(** What indexing a record stores. *)
Definition puts (now : Z) i (start : Z) (d : ReadData) : list (bytes * bytes) :=
  let r := rd_record d in
  let v := wrapped now (entry_of d) in
  (if rd_position d =? 0 then [(offset_segment_start i, wrapped now (jr_offset r))] else []) ++
  (if sampled start (jr_offset r) then
     [(offset_segment_position i (jr_offset r), v); (timestamp_segment_time i (jr_create_time r), v)]
   else []) ++
  (if bool_decide (jr_key r = []) then [] else [(key_segment i (jr_key r) (jr_offset r), v)]) ++
  map (fun tag => (tag_segment i tag (jr_offset r), v)) (jr_tags r).

Definition offset_ok (r : JournalRecord) : Prop := 0 <= jr_offset r < 2 ^ 62.

(** Steps one after the other. *)
Lemma put_seq (m1 m2 : M D JournalServerError unit) kvs1 kvs2 d :
  index_open d ->
  (forall d, index_open d -> exists d', m1 d = (Ok tt, d') /\ index_open d' /\ idx d' = put_all kvs1 (idx d)) ->
  (forall d, index_open d -> exists d', m2 d = (Ok tt, d') /\ index_open d' /\ idx d' = put_all kvs2 (idx d)) ->
  exists d', (m1 ;; m2) d = (Ok tt, d') /\ index_open d' /\ idx d' = put_all (kvs1 ++ kvs2) (idx d).
Proof.
  intros Ho H1 H2. destruct (H1 d Ho) as (d1 & E1 & Ho1 & Hm1). destruct (H2 d1 Ho1) as (d2 & E2 & Ho2 & Hm2).
  exists d2. split; [by erewrite bind_ok by exact E1|]. split; [done|]. by rewrite put_all_app, Hm2, Hm1.
Qed.
Lemma put_one {A} {J : Json A} {JS : JsonSpec A} now k (a : A) d :
  index_open d ->
  exists d', index_save now k a d = (Ok tt, d') /\ index_open d' /\ idx d' = put_all [(k, wrapped now a)] (idx d).
Proof. apply index_save_ok. Qed.
Lemma put_none d : index_open d -> exists d', ret (S := D) (E := JournalServerError) tt d = (Ok tt, d') /\ index_open d' /\ idx d' = put_all [] (idx d).
Proof. intros Ho. by exists d. Qed.
Lemma put_each {A} (l : list A) (f : A -> M D JournalServerError unit) (kvs : A -> list (bytes * bytes)) d :
  index_open d ->
  (forall a d, a ∈ l -> index_open d ->
     exists d', f a d = (Ok tt, d') /\ index_open d' /\ idx d' = put_all (kvs a) (idx d)) ->
  exists d', for_each l f d = (Ok tt, d') /\ index_open d' /\ idx d' = put_all (concat (map kvs l)) (idx d).
Proof.
  intros Ho Hf. revert d Ho. induction l as [|a l IH]; intros d Ho; cbn [map concat].
  { by apply put_none. }
  rewrite for_each_cons. apply put_seq; [done| |].
  - intros d1 Ho1. apply Hf; [by left|done].
  - intros d1 Ho1. apply IH; [|done]. intros. apply Hf; [by right|done].
Qed.

Lemma index_record_ok now i start rd d :
  start = -1 \/ start = 0 -> index_open d -> offset_ok (rd_record rd) ->
  exists d', index_record now i (wrap64 start) rd d = (Ok tt, d') /\ index_open d' /\
             idx d' = put_all (puts now i start rd) (idx d).
Proof.
  intros Hst Ho Hr. unfold index_record, puts. unfold offset_ok in Hr.
  replace (as_i64 (wrap64 start)) with start by by destruct Hst as [-> | ->]. rewrite wrap64_small by lia.
  replace (as_i64 (jr_offset (rd_record rd) - start)) with (jr_offset (rd_record rd) - start)
    by (unfold as_i64; rewrite Z.mod_small by lia; lia).
  fold (sampled start (jr_offset (rd_record rd))). fold (entry_of rd).
  apply put_seq; [done| |intros d1 Ho1; apply put_seq; [done| |intros d2 Ho2; apply put_seq; [done| |]]].
  - intros d1 Ho1. destruct (rd_position rd =? 0); [by apply put_one|by apply put_none].
  - intros d2 Ho2. destruct (sampled _ _); [|by apply put_none].
    apply (put_seq _ _ [_] [_]); [done| |]; intros; by apply put_one.
  - intros d3 Ho3. case_bool_decide; cbn [negb]; [by apply put_none|by apply put_one].
  - intros d3 Ho3. rewrite <- (concat_map_singleton (fun tag => (tag_segment i tag _, _))).
    apply put_each; [done|]. intros tag d4 _ Ho4. by apply put_one.
Qed.

Lemma save_record_index_ok now i start data d :
  start = -1 \/ start = 0 -> index_open d -> Forall (fun rd => offset_ok (rd_record rd)) data ->
  exists d', save_record_index now i (wrap64 start) data d = (Ok tt, d') /\ index_open d' /\
             idx d' = put_all (concat (map (puts now i start) data)) (idx d).
Proof.
  intros Hst Ho Hd. apply put_each; [done|]. intros rd d1 Hin Ho1. apply index_record_ok; [done..|].
  rewrite Forall_forall in Hd. auto.
Qed.

(** ** The indexes list the records that were indexed *)

(** A key or a tag with a slash would run into the keys of others. *)
Definition clean (r : JournalRecord) : Prop := slash ∉ jr_key r /\ Forall (fun tag => slash ∉ tag) (jr_tags r).

Definition tagged (tag : bytes) (ds : list ReadData) x : Prop :=
  exists rd, rd ∈ ds /\ tag ∈ jr_tags (rd_record rd) /\ x = entry_of rd.
Definition keyed_by (key : bytes) (ds : list ReadData) x : Prop :=
  exists rd, rd ∈ ds /\ key = jr_key (rd_record rd) /\ x = entry_of rd.
(** What the index by offset may hold, and holds while the start is minus one. *)
Definition samples (start : Z) (ds : list ReadData) (X : IndexData -> Prop) : Prop :=
  (forall x, X x -> exists rd, rd ∈ ds /\ sampled_since start (jr_offset (rd_record rd)) /\ x = entry_of rd) /\
  (start = -1 -> forall rd, rd ∈ ds -> sampled (-1) (jr_offset (rd_record rd)) = true -> X (entry_of rd)).

Definition indexed m i (start : Z) (ds : list ReadData) : Prop :=
  (forall tag, slash ∉ tag -> lists m (tag_segment_prefix i tag) (tagged tag ds)) /\
  (forall key, slash ∉ key -> key <> [] -> lists m (key_segment_prefix i key) (keyed_by key ds)) /\
  exists X, lists m (offset_segment_position_prefix i) X /\ samples start ds X.

Lemma starts_with_common (p a b : bytes) : starts_with (p ++ a) (p ++ b) = starts_with a b.
Proof. induction p as [|c p IH]; cbn; [done|]. by rewrite Z.eqb_refl. Qed.

Lemma starts_with_sep (a b s : bytes) :
  slash ∉ a -> slash ∉ b -> starts_with (a ++ lit "/") (b ++ lit "/" ++ s) = true -> a = b.
Proof.
  intros Ha Hb [t Ht]%starts_with_inv. change (lit "/") with [slash] in Ht. rewrite <- app_assoc in Ht. cbn [app] in Ht.
  symmetry in Ht. by apply sep_inj in Ht as [-> _].
Qed.

Lemma tag_prefix_tag i tag tag' o :
  slash ∉ tag -> slash ∉ tag' -> starts_with (tag_segment_prefix i tag) (tag_segment i tag' o) = bool_decide (tag = tag').
Proof.
  intros Ht Ht'. unfold tag_segment, tag_segment_prefix. rewrite <- !app_assoc, !starts_with_common.
  case_bool_decide as E; [subst; rewrite (app_assoc _ (lit "/")); apply starts_with_app|].
  apply not_true_is_false. intros H%starts_with_sep; done.
Qed.
Lemma key_prefix_key i key key' o :
  slash ∉ key -> slash ∉ key' -> starts_with (key_segment_prefix i key) (key_segment i key' o) = bool_decide (key = key').
Proof.
  intros Ht Ht'. unfold key_segment, key_segment_prefix. rewrite <- !app_assoc, !starts_with_common.
  case_bool_decide as E; [subst; rewrite (app_assoc _ (lit "/")); apply starts_with_app|].
  apply not_true_is_false. intros H%starts_with_sep; done.
Qed.

(** Where the values of a record go. *)
Lemma puts_elem now i start rd kv :
  kv ∈ puts now i start rd ->
  kv.1 = offset_segment_start i \/
  kv = (offset_segment_position i (jr_offset (rd_record rd)), wrapped now (entry_of rd)) /\ sampled start (jr_offset (rd_record rd)) = true \/
  kv.1 = timestamp_segment_time i (jr_create_time (rd_record rd)) \/
  kv = (key_segment i (jr_key (rd_record rd)) (jr_offset (rd_record rd)), wrapped now (entry_of rd)) /\ jr_key (rd_record rd) <> [] \/
  exists tag, tag ∈ jr_tags (rd_record rd) /\ kv = (tag_segment i tag (jr_offset (rd_record rd)), wrapped now (entry_of rd)).
Proof.
  unfold puts. rewrite !elem_of_app. intros [H|[H|[H|H]]].
  - case_match; [|by apply elem_of_nil in H]. apply list_elem_of_singleton in H as ->. by left.
  - destruct (sampled _ _); [|by apply elem_of_nil in H]. apply elem_of_cons in H as [->|H%list_elem_of_singleton].
    + right. left. done.
    + subst. do 2 right. left. reflexivity.
  - case_bool_decide; [by apply elem_of_nil in H|]. apply list_elem_of_singleton in H as ->. do 3 right. left. done.
  - apply list_elem_of_fmap in H as (tag & -> & Htag). do 4 right. by exists tag.
Qed.

Lemma entry_of_ok rd : offset_ok (rd_record rd) -> entry_ok (entry_of rd).
Proof. unfold offset_ok, entry_ok, entry_of. cbn. lia. Qed.

(** The families of keys start with different octets. *)
Ltac other_family :=
  cbn [fst]; unfold offset_segment_start, offset_segment_position, offset_segment_position_prefix,
    timestamp_segment_time, timestamp_segment_time_prefix, key_segment, key_segment_prefix, tag_segment,
    tag_segment_prefix; rewrite <- ?app_assoc, starts_with_common; reflexivity.

(** Indexing a record adds it to the families it belongs to, [Q]. *)
Lemma lists_puts now i start rd m p X (Q : Prop) :
  offset_ok (rd_record rd) -> (forall y, X y -> ix_offset y = ix_offset (entry_of rd) -> y = entry_of rd) ->
  (forall kv, kv ∈ puts now i start rd ->
     starts_with p kv.1 = false \/ kv = (p ++ decimal (ix_offset (entry_of rd)), wrapped now (entry_of rd)) /\ Q) ->
  (Q -> (p ++ decimal (ix_offset (entry_of rd)), wrapped now (entry_of rd)) ∈ puts now i start rd) ->
  lists m p X -> lists (put_all (puts now i start rd) m) p (fun y => X y \/ y = entry_of rd /\ Q).
Proof.
  intros Hr Hu Hkv HQ Hl. eapply lists_ext; [|apply (lists_put_all _ m p X now (entry_of rd)); try done].
  - intros y. cbn beta. rewrite Exists_exists. split; (intros [Hy|[-> H]]; [by left|right; split; [done|]]).
    + destruct H as (kv & Hin & Hp). destruct (Hkv kv Hin) as [|[_ ?]]; [congruence|done].
    + eexists. split; [by apply HQ|]. apply starts_with_app.
  - by apply entry_of_ok.
  - rewrite Forall_forall. intros kv Hin. destruct (Hkv kv Hin) as [|[-> _]]; auto.
Qed.

Ltac split_puts H :=
  apply puts_elem in H as [H|[[-> H]|[H|[[-> H]|(? & H & ->)]]]];
  try (rewrite H; left; other_family); try (left; other_family).

Lemma indexed_put now m i start ds rd :
  start = -1 \/ start = 0 -> offset_ok (rd_record rd) -> clean (rd_record rd) ->
  (forall rd', rd' ∈ ds -> jr_offset (rd_record rd') = jr_offset (rd_record rd) -> rd' = rd) ->
  indexed m i start ds -> indexed (put_all (puts now i start rd) m) i start (rd :: ds).
Proof.
  intros Hst Hr [Hk Ht] Hu (H1 & H2 & X & H3 & H4 & H5). rewrite Forall_forall in Ht. split_and!.
  - intros tag Htag. eapply lists_ext; [|apply (lists_puts _ _ start _ _ _ (tagged tag ds) (tag ∈ jr_tags (rd_record rd))); auto].
    + intros x. unfold tagged. setoid_rewrite elem_of_cons. naive_solver.
    + intros y (rd' & Hin & _ & ->) E. by rewrite (Hu rd').
    + intros kv Hin. split_puts Hin. cbn [fst]. rewrite tag_prefix_tag by auto.
      case_bool_decide; [right; by subst|by left].
    + intros Hin. unfold puts. rewrite !elem_of_app. do 3 right. apply list_elem_of_fmap. by exists tag.
  - intros key Hkey Hne.
    eapply lists_ext; [|apply (lists_puts _ _ start _ _ _ (keyed_by key ds) (key = jr_key (rd_record rd))); auto].
    + intros x. unfold keyed_by. setoid_rewrite elem_of_cons. naive_solver.
    + intros y (rd' & Hin & _ & ->) E. by rewrite (Hu rd').
    + intros kv Hin. split_puts Hin. cbn [fst]. rewrite key_prefix_key by auto.
      case_bool_decide; [right; by subst|by left].
    + intros ->. unfold puts. rewrite bool_decide_eq_false_2 by done. rewrite !elem_of_app. do 2 right. left. by left.
  - eexists. split; [apply (lists_puts _ _ start _ _ _ X (sampled start (jr_offset (rd_record rd)) = true)); auto|split].
    + intros y (rd' & Hin & _ & ->)%H4 E. by rewrite (Hu rd').
    + intros kv Hin. split_puts Hin. right. auto.
    + intros E. unfold puts. rewrite E, !elem_of_app. right. left. by left.
    + intros x [(rd' & Hin & Hs & ->)%H4|[-> Hs]]; [exists rd'; split; [by right|done]|].
      exists rd. split; [by left|]. split; [|done]. destruct Hst as [-> | ->]; [by left|by right].
    + intros -> rd' [->|Hin]%elem_of_cons Hs; [by right|left; by apply H5].
Qed.

Lemma indexed_ext m i start ds ds' :
  (forall rd, rd ∈ ds <-> rd ∈ ds') -> indexed m i start ds -> indexed m i start ds'.
Proof.
  intros Hds (H1 & H2 & X & H3 & H4). split_and!; [intros tag Ht|intros key Hk Hne|].
  1, 2: eapply lists_ext; [|eauto]; intros x; unfold tagged, keyed_by; setoid_rewrite Hds; done.
  exists X. split; [done|]. unfold samples in *. by setoid_rewrite <- Hds.
Qed.
(** A restart. *)
Lemma indexed_restart m i start ds : start = -1 \/ start = 0 -> indexed m i start ds -> indexed m i 0 ds.
Proof.
  intros Hst (H1 & H2 & X & H3 & H4 & H5). do 2 (split; [done|]). exists X. split; [done|]. split; [|done].
  intros x (rd & Hin & Hs & ->)%H4. exists rd. split; [done|]. split; [|done]. destruct Hs as [Hs|[_ Hs]]; [by left|by right].
Qed.

(** Other values of a segment that the indexes do not list. *)
Lemma indexed_other m i start ds k v :
  (forall p, p ∈ [lit "tag/"; lit "key/"; lit "offset/position-"] -> starts_with (segment_index_prefix i ++ p) k = false) ->
  indexed m i start ds -> indexed (<[k := v]> m) i start ds.
Proof.
  intros Hk (H1 & H2 & X & H3 & H4).
  assert (forall p s, p ∈ [lit "tag/"; lit "key/"; lit "offset/position-"] ->
            starts_with (segment_index_prefix i ++ p ++ s) k = false) as Hp.
  { intros p s Hin. specialize (Hk p Hin). apply not_true_is_false. intros [t ->]%starts_with_inv.
    by rewrite <- !app_assoc, (app_assoc _ p), starts_with_app in Hk. }
  split_and!; [intros tag Ht|intros key Hkey Hne|exists X; split; [|done]]; apply lists_other; auto.
  - apply Hp. by left.
  - apply Hp. right. by left.
  - apply Hk. do 2 right. by left.
Qed.

(** Indexing a list of records. *)
Lemma indexed_puts now m i start ds data :
  start = -1 \/ start = 0 -> Forall (fun rd => offset_ok (rd_record rd) /\ clean (rd_record rd)) data ->
  (forall rd rd', rd ∈ ds ++ data -> rd' ∈ ds ++ data -> jr_offset (rd_record rd) = jr_offset (rd_record rd') -> rd = rd') ->
  indexed m i start ds -> indexed (put_all (concat (map (puts now i start) data)) m) i start (ds ++ data).
Proof.
  intros Hst Hd. revert m ds. induction Hd as [|rd data [Hr Hc] Hd IH]; intros m ds Hu Hi; cbn [map concat].
  { by rewrite app_nil_r. }
  rewrite put_all_app. eapply indexed_ext; [|apply (IH _ (rd :: ds))].
  - intros x. set_solver.
  - intros x y Hx Hy. apply Hu; set_solver.
  - apply indexed_put; auto. intros rd' Hin. apply Hu; set_solver.
Qed.

(** Values with a key of their own, that indexing does not touch. *)
Definition bookkeeping i : list bytes :=
  [offset_segment_end i; timestamp_segment_end i; finish_build_index i; last_offset_build_index i].
Lemma puts_bookkeeping now i start rd kv k : kv ∈ puts now i start rd -> k ∈ bookkeeping i -> kv.1 <> k.
Proof.
  intros Hkv Hk. unfold bookkeeping in Hk. rewrite !elem_of_cons, elem_of_nil in Hk.
  apply puts_elem in Hkv as [->|[[-> _]|[->|[[-> _]|(tag & _ & ->)]]]]; cbn [fst];
    destruct Hk as [->|[->|[->|[->|[]]]]];
    unfold offset_segment_start, offset_segment_position, offset_segment_position_prefix, timestamp_segment_time,
      timestamp_segment_time_prefix, key_segment, key_segment_prefix, tag_segment, tag_segment_prefix,
      offset_segment_end, timestamp_segment_end, finish_build_index, last_offset_build_index;
    rewrite <- ?app_assoc; intros E%app_inv_head; by inversion E.
Qed.
Lemma puts_keep now i start data m k :
  k ∈ bookkeeping i -> put_all (concat (map (puts now i start) data)) m !! k = m !! k.
Proof.
  intros Hk. apply put_all_other. rewrite Forall_forall. intros kv Hin.
  apply list_elem_of_In, in_concat in Hin as (kvs & Hin & Hkv%list_elem_of_In).
  apply in_map_iff in Hin as (rd & <- & _). by eapply puts_bookkeeping.
Qed.

(** ** Numbers that are read back as [i64] *)

Definition number_at m k : Prop := exists z : option Z, holds m k z /\ forall n, z = Some n -> n < 2 ^ 63.
Definition number_keys i : list bytes := [offset_segment_start i; timestamp_segment_start i; timestamp_segment_end i].

Lemma number_at_ok k d : index_open d -> number_at (idx d) k -> exists n, get_i64 k d = (Ok n, d).
Proof. intros Ho (z & Hz & Hn). eexists. by apply get_i64_ok. Qed.

Lemma number_put m k k' v :
  (k' = k -> exists t (n : Z), v = wrapped t n /\ n < 2 ^ 63) -> number_at m k -> number_at (<[k' := v]> m) k.
Proof.
  intros Hv (z & Hz & Hn). destruct (decide (k' = k)) as [E|E].
  - destruct (Hv E) as (t & n & -> & Hlt). subst. exists (Some n). split; [exists t; apply lookup_insert_eq|].
    by intros ? [= <-].
  - exists z. split; [|done]. destruct z; cbn [holds] in *; by rewrite lookup_insert_ne.
Qed.
Lemma number_put_all kvs m k :
  Forall (fun kv => kv.1 = k -> exists t (n : Z), kv.2 = wrapped t n /\ n < 2 ^ 63) kvs ->
  number_at m k -> number_at (put_all kvs m) k.
Proof.
  intros Hk. revert m. induction Hk as [|kv kvs Hkv Hk IH]; intros m Hm; cbn [put_all foldl]; [done|].
  apply IH. by apply number_put.
Qed.

Lemma puts_start now i start rd kv :
  kv ∈ puts now i start rd -> kv.1 = offset_segment_start i ->
  kv.2 = wrapped now (jr_offset (rd_record rd)) /\ rd_position rd = 0.
Proof.
  unfold puts. rewrite !elem_of_app. intros [H|[H|[H|H]]].
  - destruct (Z.eqb_spec (rd_position rd) 0); [|by apply elem_of_nil in H]. by apply list_elem_of_singleton in H as ->.
  - destruct (sampled _ _); [|by apply elem_of_nil in H].
    apply elem_of_cons in H as [->|H%list_elem_of_singleton]; [|subst kv]; cbn [fst];
      unfold offset_segment_position, offset_segment_position_prefix, timestamp_segment_time, timestamp_segment_time_prefix,
        offset_segment_start; rewrite <- !app_assoc; intros E%app_inv_head; by inversion E.
  - case_bool_decide; [by apply elem_of_nil in H|]. apply list_elem_of_singleton in H as ->. cbn [fst].
    unfold key_segment, key_segment_prefix, offset_segment_start. rewrite <- !app_assoc. intros E%app_inv_head; by inversion E.
  - apply list_elem_of_fmap in H as (tag & -> & Htag). cbn [fst].
    unfold tag_segment, tag_segment_prefix, offset_segment_start. rewrite <- !app_assoc. intros E%app_inv_head; by inversion E.
Qed.
Lemma puts_numbers now i start rd kv k :
  kv ∈ puts now i start rd -> k ∈ number_keys i -> kv.1 = k -> k = offset_segment_start i.
Proof.
  intros Hkv Hk. unfold number_keys in Hk. rewrite !elem_of_cons, elem_of_nil in Hk.
  destruct Hk as [->|Hk]; [done|]. intros E. exfalso. revert E.
  apply puts_elem in Hkv as [->|[[-> _]|[->|[[-> _]|(tag & _ & ->)]]]]; cbn [fst];
    destruct Hk as [->|[->|[]]];
    unfold offset_segment_start, offset_segment_position, offset_segment_position_prefix, timestamp_segment_time,
      timestamp_segment_time_prefix, key_segment, key_segment_prefix, tag_segment, tag_segment_prefix,
      timestamp_segment_start, timestamp_segment_end;
    rewrite <- ?app_assoc; intros E%app_inv_head; by inversion E.
Qed.
Lemma number_puts now i start data m k :
  Forall (fun rd => offset_ok (rd_record rd)) data -> k ∈ number_keys i ->
  number_at m k -> number_at (put_all (concat (map (puts now i start) data)) m) k.
Proof.
  intros Hd Hk. apply number_put_all, Forall_forall. intros kv Hin E.
  apply list_elem_of_In, in_concat in Hin as (kvs & Hin & Hkv%list_elem_of_In).
  apply in_map_iff in Hin as (rd & <- & Hrd%list_elem_of_In). rewrite Forall_forall in Hd. specialize (Hd rd Hrd).
  pose proof (puts_numbers _ _ _ _ _ _ Hkv Hk E) as ->. exists now, (jr_offset (rd_record rd)).
  split; [by apply (puts_start _ _ _ _ _ Hkv)|]. unfold offset_ok in Hd. lia.
Qed.

(** The value of a key that is only ever given one number. *)
Lemma put_all_value now kvs m k (a : Z) :
  Forall (fun kv => kv.1 = k -> kv.2 = wrapped now a) kvs -> Exists (fun kv => kv.1 = k) kvs \/ holds m k (Some a) ->
  holds (put_all kvs m) k (Some a).
Proof.
  intros Hk. revert m. induction Hk as [|[k' v] kvs Hkv Hk IH]; intros m Hm; cbn [put_all foldl fst snd].
  { destruct Hm as [Hm|Hm]; [by apply Exists_nil in Hm|done]. }
  apply IH. destruct (decide (k' = k)) as [->|E].
  - right. exists now. rewrite lookup_insert_eq. by rewrite <- Hkv.
  - destruct Hm as [Hm|[t Hm]]; [apply Exists_cons in Hm as [Hm|Hm]; [done|by left]|].
    right. exists t. by rewrite lookup_insert_ne.
Qed.
(** The start offset of a segment whose first record has the offset zero. *)
Lemma puts_start_offset now i start data m :
  (forall rd, rd ∈ data -> rd_position rd = 0 -> jr_offset (rd_record rd) = 0) ->
  (exists rd, rd ∈ data /\ rd_position rd = 0) \/ holds m (offset_segment_start i) (Some 0) ->
  holds (put_all (concat (map (puts now i start) data)) m) (offset_segment_start i) (Some 0).
Proof.
  intros Hd Hm. apply (put_all_value now).
  - apply Forall_forall. intros kv Hin E. apply list_elem_of_In, in_concat in Hin as (kvs & Hin & Hkv%list_elem_of_In).
    apply in_map_iff in Hin as (rd & <- & Hrd%list_elem_of_In).
    apply puts_start in Hkv as [-> Hp]; [|done]. by rewrite Hd.
  - destruct Hm as [(rd & Hin & Hp)|Hm]; [left|by right]. apply Exists_exists.
    exists (offset_segment_start i, wrapped now (jr_offset (rd_record rd))). split; [|done].
    apply list_elem_of_In, in_concat. exists (puts now i start rd). split; [by apply in_map, list_elem_of_In|].
    apply list_elem_of_In. unfold puts. rewrite Hp. by left.
Qed.

(** ** Deleting the indexes *)

Lemma delete_segment_index_ok {MI : MapIter} i d : index_open d -> exists d', delete_segment_index i d = (Ok tt, d') /\ index_open d'.
Proof.
  intros Ho. unfold delete_segment_index.
  assert (exists l, map_err JE_CommonError (rocksdb_engine_prefix_map DB_COLUMN_FAMILY_INDEX (segment_index_prefix i)) d = (Ok l, d)) as [l El].
  { unfold map_err, rocksdb_engine_prefix_map, with_cf. unfold index_open in Ho. rewrite Ho.
    erewrite bind_ok by reflexivity. by eexists. }
  erewrite bind_ok by exact El. clear El. generalize (map_iter l). intros kvs. revert d Ho.
  induction kvs as [|kv kvs IH]; intros d Ho; [by exists d|]. rewrite for_each_cons.
  destruct (engine_delete_ok DB_COLUMN_FAMILY_INDEX kv.1 d Ho) as (d1 & E1 & Hh & _).
  erewrite bind_ok.
  2: { unfold map_err, rocksdb_engine_delete, with_cf. unfold index_open in Ho. rewrite Ho, E1. reflexivity. }
  apply IH. unfold index_open. by rewrite Hh.
Qed.
End facts.
