(* ===== verification/JournalNodeFacts.v ===== *)
(** * A segment that is served by its leader

    The invariant of a node that leads a segment ([serving]): its file holds the
    records in the order of their offsets, the write thread and the metadata
    know the last offset, and the indexes list the records that the index
    thread has seen.  Every operation on the segment keeps it. *)

From Stdlib Require Import String.
From stdpp Require Import sorting.
From S2P Require Import Prelude Bytes RustStr Storage RocksEngine PlacementStore PlacementCache PlacementRoute RaftLog RaftMachine KvService JournalService JournalCodec SegmentFile SegmentFacts JournalIndex JournalNode JournalServer JournalIndexFacts.

(** ** Logs of records *)

(** Records that get the offsets from [s] on. *)
Definition numbered (s : Z) (data : list JournalRecord) : list JournalRecord :=
  imap (fun j r => with_offset (s + Z.of_nat j) r) data.
(** A log: the offset of a record is its place. *)
Definition log_ok (rs : list JournalRecord) : Prop :=
  forall j r, rs !! j = Some r -> jr_offset r = Z.of_nat j.

(** The offsets that a batch is answered with, by packet identifier. *)
Definition assigned (s : Z) (pkids : list Z) : gmap Z Z :=
  list_to_map (reverse (zip pkids (seqZ s (blen pkids)))).

(** What a read returns of a list of records. *)
Fixpoint page {PR : Prost JournalRecord} (max_size max_record : Z) (l : list JournalRecord) : list JournalRecord :=
  match l with
  | [] => []
  | r :: l =>
      if max_size <? 0 then []
      else r :: (if max_record <=? 1 then [] else page (max_size - blen (encode_to_vec r)) (max_record - 1) l)
  end.

Section logs.
Context {PR : Prost JournalRecord}.
Implicit Types (rs data : list JournalRecord).

Lemma numbered_cons s r data : numbered s (r :: data) = with_offset s r :: numbered (s + 1) data.
Proof.
  unfold numbered. rewrite imap_cons, Z.add_0_r. f_equal. apply imap_ext. intros j r' _. cbn. f_equal. lia.
Qed.
Lemma length_numbered s data : length (numbered s data) = length data.
Proof. apply length_imap. Qed.
Lemma blen_numbered s data : blen (numbered s data) = blen data.
Proof. unfold blen. by rewrite length_numbered. Qed.

Lemma number_records_ok s data :
  0 <= s -> s + blen data < 2 ^ 62 -> number_records (wrap64 (s - 1)) data = numbered s data.
Proof.
  revert s. induction data as [|r data IH]; intros s Hs Hb; cbn [number_records]; [done|].
  autorewrite with blen in Hb. pose proof (blen_nonneg data). rewrite numbered_cons.
  assert (wrap64 (wrap64 (s - 1) + 1) = s) as ->.
  { unfold wrap64. rewrite Zplus_mod_idemp_l. replace (s - 1 + 1) with s by lia. apply Z.mod_small. lia. }
  replace (as_i64 s) with s by (unfold as_i64; rewrite Z.mod_small by lia; lia). f_equal.
  rewrite <- (IH (s + 1)) by lia. f_equal. replace (s + 1 - 1) with s by lia. rewrite wrap64_small; lia.
Qed.

Lemma log_ok_app rs data : log_ok rs -> log_ok (rs ++ numbered (blen rs) data).
Proof.
  intros Hl j r [Hj|[Hge Hj]]%lookup_app_Some; [by apply Hl|]. unfold numbered in Hj.
  rewrite list_lookup_imap in Hj. apply fmap_Some in Hj as (r0 & _ & ->). cbn. unfold blen. lia.
Qed.

Lemma last_numbered s data r0 :
  last data = Some r0 -> last (numbered s data) = Some (with_offset (s + blen data - 1) r0).
Proof.
  intros Hl. rewrite last_lookup in *. rewrite length_numbered. unfold numbered. rewrite list_lookup_imap, Hl. cbn.
  apply lookup_lt_Some in Hl as Hlt. unfold blen. do 2 f_equal. lia.
Qed.

Lemma foldl_insert_map (l : list (Z * Z)) :
  foldl (fun m kv => <[kv.1 := kv.2]> m) (∅ : gmap Z Z) l = list_to_map (reverse l).
Proof.
  induction l as [|kv l IH] using rev_ind; [done|]. rewrite foldl_app, reverse_app. cbn.
  by rewrite IH.
Qed.
Lemma offsets_of_numbered s data :
  0 <= s -> s + blen data < 2 ^ 62 -> offsets_of (numbered s data) = assigned s (map jr_pkid data).
Proof.
  intros Hs Hb. unfold assigned, offsets_of. rewrite <- foldl_insert_map. generalize (∅ : gmap Z Z) as m.
  revert s Hs Hb. induction data as [|r data IH]; intros s Hs Hb m; [done|].
  autorewrite with blen in Hb. pose proof (blen_nonneg data).
  cbn [map]. rewrite numbered_cons, blen_cons, blen_map, seqZ_cons by lia. cbn [foldl zip zip_with].
  rewrite (IH (s + 1)) by lia. cbn [fst snd jr_offset with_offset jr_pkid]. rewrite wrap64_small by lia.
  do 2 f_equal. rewrite blen_map. do 2 f_equal; lia.
Qed.

(** Reads of positions and reads of records. *)
Lemma batch_page ms mr l : map rd_record (batch ms mr l) = page ms mr (map rd_record l).
Proof.
  revert ms mr. induction l as [|d l IH]; intros ms mr; cbn [batch map page]; [done|].
  destruct (ms <? 0); [done|]. cbn [map]. f_equal. destruct (mr <=? 1); [done|]. apply IH.
Qed.

Lemma placed_lookup pos rs j d : placed pos rs !! j = Some d -> rs !! j = Some (rd_record d).
Proof. intros Hd. rewrite <- (placed_records pos rs), list_lookup_fmap, Hd. done. Qed.
Lemma length_placed pos rs : length (placed pos rs) = length rs.
Proof. rewrite <- (placed_records pos rs) at 2. by rewrite length_map. Qed.
Lemma placed_unique rs d d' :
  log_ok rs -> d ∈ placed 0 rs -> d' ∈ placed 0 rs -> jr_offset (rd_record d) = jr_offset (rd_record d') -> d = d'.
Proof.
  intros Hl [j Hj]%list_elem_of_lookup [j' Hj']%list_elem_of_lookup E.
  rewrite (Hl j _ (placed_lookup _ _ _ _ Hj)), (Hl j' _ (placed_lookup _ _ _ _ Hj')) in E.
  apply Nat2Z.inj in E as ->. congruence.
Qed.

(** In a log the records from an offset on are those from a place on. *)
Lemma from_offset_drop o (l : list ReadData) j0 :
  (forall j d, l !! j = Some d -> jr_offset (rd_record d) = Z.of_nat (j0 + j)) ->
  from_offset o l = drop (Z.to_nat o - j0) l.
Proof.
  unfold from_offset. revert j0. induction l as [|d l IH]; intros j0 Hj; [by rewrite drop_nil|].
  pose proof (Hj 0%nat d eq_refl) as H0. rewrite filter_cons.
  assert (forall j d', l !! j = Some d' -> jr_offset (rd_record d') = Z.of_nat (S j0 + j)) as Hj'.
  { intros j d' Hd. rewrite (Hj (S j) d' Hd). lia. }
  rewrite (IH (S j0)) by done. case_decide.
  - replace (Z.to_nat o - j0)%nat with 0%nat by lia. by replace (Z.to_nat o - S j0)%nat with 0%nat by lia.
  - by replace (Z.to_nat o - j0)%nat with (S (Z.to_nat o - S j0)) by lia.
Qed.
Lemma from_offset_log o rs : log_ok rs -> from_offset o (placed 0 rs) = drop (Z.to_nat o) (placed 0 rs).
Proof.
  intros Hl. rewrite (from_offset_drop o _ 0), Nat.sub_0_r; [done|].
  intros j d Hd. by apply Hl, (placed_lookup 0).
Qed.

(** Records of the largest size do not reach the limit of the index thread. *)
Lemma batch_take ms (mr : nat) l :
  Forall (fun d => fits (rd_record d)) l -> (0 < mr)%nat -> 8180 * Z.of_nat mr <= ms ->
  batch ms (Z.of_nat mr) l = take mr l.
Proof.
  intros Hl. revert ms mr. induction Hl as [|d l [Hd _] Hl IH]; intros ms mr Hmr Hms; [by destruct mr|].
  cbn [batch]. rewrite (proj2 (Z.ltb_ge ms 0)) by lia. destruct mr as [|mr]; [lia|]. cbn [take]. f_equal.
  destruct (Z.leb_spec (Z.of_nat (S mr)) 1).
  - by replace mr with 0%nat by lia.
  - replace (Z.of_nat (S mr) - 1) with (Z.of_nat mr) by lia. apply IH; unfold data_size; lia.
Qed.

Lemma blen_stored_fits rs : Forall fits rs -> blen (stored rs) <= 8192 * blen rs.
Proof.
  induction 1 as [|r rs [Hr _] Hrs IH]; [done|]. rewrite stored_cons, blen_app, blen_record_frame, blen_cons. lia.
Qed.
End logs.

(** ** The invariant *)

Section serving.
Context {F : Type} {FS : Files F} {FP : FilesSpec F} {FR : FilesReliable F} {RB : ReadBuf} {BS : ReadBufSpec}
        {D : Type} {RD : RocksDB D} {RS : RocksSpec D} {RR : RocksReliable D} {P : Type} {JP : JournalPlacement P}
        {PR : Prost JournalRecord} {PS : ProstSpec JournalRecord} {MJ : MetaJson}
        {JWS : JsonSpec StorageDataWrap} {JZS : JsonSpec Z} {JI : Json IndexData} {JIS : JsonSpec IndexData}
        {JC : Json JournalShardConfig} {MI : MapIter} {MZ : MapIterZ} {ET : ErrorText} (conf : JournalServerConfig).
Implicit Types (n : JournalNode F D P) (i : SegmentIdentity) (sf : SegmentFile) (rs data : list JournalRecord).

(** The node leads the segment, which is open for writing and has no end yet. *)
Definition located (c : CacheManager) i sf : Prop :=
  exists seg fold meta,
    jc_get_segment i c = Some seg /\ allow_read seg = true /\ sg_leader seg = conf_node_id conf /\
    get_fold (conf_node_id conf) seg = Some fold /\
    sf = SegmentFile_new (si_namespace i) (si_shard_name i) (si_segment_seq i) fold /\
    jc_get_segment_meta i c = Some meta /\ mt_end_offset meta <= 0 /\
    is_Some (jc_get_shard (si_namespace i) (si_shard_name i) c).

(** Where the segment starts, as far as the node knows. *)
Definition start_of n i : Z := default (-1) (fm_start_offset <$> jn_segment_files n !! iden_name i).

(** [k] records have been indexed. *)
Record segment_state n i sf rs (k : nat) : Prop := mkSegmentState {
  ss_located : located (jn_cache n) i sf;
  ss_file : files (jn_files n) !! segment_path sf = Some (stored rs);
  ss_log : log_ok rs;
  ss_fits : Forall fits rs;
  ss_clean : Forall clean rs;
  ss_len : blen rs < 2 ^ 40;
  ss_meta : exists m, jn_segment_files n !! iden_name i = Some m /\ fm_end_offset m = blen rs - 1;
  ss_base : start_of n i = -1 \/ start_of n i = 0 /\ (0 < k)%nat;
  ss_open : index_open (jn_db n);
  ss_seen : (k <= length rs)%nat;
  ss_indexed : indexed (idx (jn_db n)) i (start_of n i) (take k (placed 0 rs));
  ss_finish : idx (jn_db n) !! finish_build_index i = None;
  ss_end : holds (idx (jn_db n)) (offset_segment_end i) (match rs with [] => None | _ => Some (blen rs - 1) end);
  ss_start : holds (idx (jn_db n)) (offset_segment_start i) (match k with O => None | S _ => Some 0 end);
  ss_last : holds (idx (jn_db n)) (last_offset_build_index i) (match k with O => None | S k => Some (Z.of_nat k) end);
  ss_numbers : Forall (number_at (idx (jn_db n))) (number_keys i);
  ss_thread :
    match segment_index_build_thread (jn_cache n) !! iden_name i with
    | None => True
    | Some t => exists e, t = mkIndexBuildThread i (wrap64 (start_of n i)) 0 (Z.of_nat (pred k)) e sf
    end
}.
Definition serving n i sf rs (k : nat) : Prop :=
  segment_state n i sf rs k /\
  (forall w, segment_writes (jn_cache n) !! iden_name i = Some w -> w = mkSegmentWrite i (blen rs - 1) sf).
(** The thread that builds the indexes is there; the first write after a start
    of the node starts it. *)
Definition building n i : Prop := is_Some (segment_index_build_thread (jn_cache n) !! iden_name i).

(** What a step on the segment leaves alone. *)
Definition same_env n n' : Prop :=
  jn_now_second n' = jn_now_second n /\ jn_placement n' = jn_placement n /\ forall i, start_of n' i = start_of n i.

Lemma located_frame c c' i sf :
  shards c' = shards c -> segments c' = segments c -> segment_metadatas c' = segment_metadatas c ->
  located c i sf -> located c' i sf.
Proof.
  intros H1 H2 H3 (seg & fold & meta & ?). exists seg, fold, meta.
  unfold jc_get_segment, jc_get_segment_meta, jc_get_shard in *. by rewrite H1, H2, H3.
Qed.

Lemma segment_state_size n i sf rs k : segment_state n i sf rs k -> blen (stored rs) < 2 ^ 63.
Proof. intros S. pose proof (blen_stored_fits rs (ss_fits _ _ _ _ _ S)). pose proof (ss_len _ _ _ _ _ S). lia. Qed.

(** ** Look-ups *)

(** What a request on the segment is checked for. *)
Definition admitted (c : CacheManager) i : Prop :=
  is_Some (jc_get_shard (si_namespace i) (si_shard_name i) c) /\ is_Some (jc_get_segment_meta i c) /\
  exists seg, jc_get_segment i c = Some seg /\ allow_read seg = true /\ sg_leader seg = conf_node_id conf.
Lemma located_admitted c i sf : located c i sf -> admitted c i.
Proof.
  intros (seg & fold & meta & H1 & H2 & H3 & H4 & H5 & H6 & H7 & H8). split; [done|]. split; [by rewrite H6|].
  by exists seg.
Qed.
Lemma validator_ok n i : admitted (jn_cache n) i -> validator conf i n = (Ok tt, n).
Proof.
  intros ([shard H1] & [meta H2] & seg & H3 & H4 & H5). unfold validator.
  erewrite bind_ok by reflexivity. rewrite H1. erewrite bind_ok by reflexivity. erewrite bind_ok by reflexivity.
  rewrite H3. erewrite bind_ok by reflexivity. rewrite H4, H5, Z.eqb_refl. cbn [negb].
  erewrite bind_ok by reflexivity. by rewrite H2.
Qed.
Lemma try_auto_create_shard_ok n i :
  is_Some (jc_get_shard (si_namespace i) (si_shard_name i) (jn_cache n)) ->
  try_auto_create_shard conf (si_namespace i) (si_shard_name i) n = (Ok tt, n).
Proof.
  intros [shard H]. unfold try_auto_create_shard. erewrite bind_ok by reflexivity. by rewrite H.
Qed.
Lemma open_segment_write_ok n i sf :
  located (jn_cache n) i sf -> exists max, open_segment_write conf i n = (Ok (sf, max), n).
Proof.
  intros (seg & fold & meta & H1 & H2 & H3 & H4 & -> & _). unfold open_segment_write. exists (sg_max_segment_size seg).
  erewrite bind_ok by reflexivity. rewrite H1. erewrite bind_ok by reflexivity. rewrite H4. by erewrite bind_ok by reflexivity.
Qed.
Lemma write_validator_ok n i sf s len :
  located (jn_cache n) i sf -> write_validator sf s len n = (Ok tt, n).
Proof.
  intros (seg & fold & meta & H1 & H2 & H3 & H4 & -> & H6 & H7 & _). unfold write_validator. cbn [SegmentFile_new sf_namespace sf_shard_name sf_segment_no].
  replace (mkSegmentIdentity (si_namespace i) (si_shard_name i) (si_segment_seq i)) with i by by destruct i.
  erewrite bind_ok by reflexivity. rewrite H1. erewrite bind_ok by reflexivity.
  assert (sg_status seg <> SealUp) as Hs by (unfold allow_read in H2; destruct (sg_status seg); try done).
  rewrite bool_decide_eq_false_2 by done. erewrite bind_ok by reflexivity. rewrite H6. erewrite bind_ok by reflexivity.
  unfold is_end_offset. by rewrite (proj2 (Z.ltb_ge 0 _)) by lia.
Qed.

(** The write thread is there after [get_write]. *)
Lemma get_write_ok n i sf rs k :
  serving n i sf rs k ->
  exists n', get_write conf i n = (Ok (mkSegmentWrite i (blen rs - 1) sf), n') /\ serving n' i sf rs k /\ same_env n n' /\
    jn_files n' = jn_files n /\ segment_index_build_thread (jn_cache n') = segment_index_build_thread (jn_cache n).
Proof.
  intros (S & Hw). unfold get_write. erewrite bind_ok by reflexivity. unfold jc_get_segment_write_thread.
  destruct (segment_writes (jn_cache n) !! iden_name i) as [w|] eqn:E.
  { rewrite (Hw w eq_refl). exists n. split; [done|]. split; [|done]. split; [done|].
    intros w'. rewrite E. intros [= <-]. auto. }
  unfold create_write_thread. destruct (ss_meta _ _ _ _ _ S) as (m & Hm & He).
  erewrite bind_ok by reflexivity. rewrite Hm. erewrite bind_ok by reflexivity.
  destruct (open_segment_write_ok n i sf (ss_located _ _ _ _ _ S)) as [max Ho]. erewrite bind_ok by exact Ho.
  rewrite He. eexists. split; [by erewrite bind_ok by reflexivity|]. split; [|done]. split.
  - destruct S. by constructor.
  - cbn. rewrite lookup_insert_eq. by intros w [= <-].
Qed.

(** ** Writing *)

Lemma update_file_meta_ok n i change save m d' :
  jn_segment_files n !! iden_name i = Some m -> save (change m) (jn_db n) = (Ok tt, d') ->
  update_file_meta i change save n =
  (Ok tt, mkJournalNode (jn_files n) d' (jn_placement n) (jn_cache n)
            (<[iden_name i := change m]> (jn_segment_files n)) (jn_now_second n)).
Proof.
  intros Hm Hs. unfold update_file_meta. erewrite bind_ok by reflexivity. rewrite Hm. cbn [if_some].
  erewrite bind_ok by reflexivity. unfold on_index. cbn [jn_db]. by rewrite Hs.
Qed.

(** The indexes are not touched by the bookkeeping of a segment. *)
Lemma indexed_bookkeeping m i start ds k v :
  k ∈ bookkeeping i -> indexed m i start ds -> indexed (<[k := v]> m) i start ds.
Proof.
  intros Hk. apply indexed_other. intros p Hp. unfold bookkeeping in Hk. rewrite !elem_of_cons, elem_of_nil in Hk.
  rewrite !elem_of_cons, elem_of_nil in Hp.
  destruct Hk as [->|[->|[->|[->|[]]]]]; unfold offset_segment_end, timestamp_segment_end, finish_build_index,
    last_offset_build_index; rewrite starts_with_common; destruct Hp as [->|[->|[->|[]]]]; reflexivity.
Qed.
Lemma bookkeeping_distinct i : NoDup (bookkeeping i).
Proof.
  unfold bookkeeping, offset_segment_end, timestamp_segment_end, finish_build_index, last_offset_build_index.
  change (NoDup (map (app (segment_index_prefix i)) [lit "offset/end"; lit "timestamp/end"; lit "build/finish"; lit "build/last/offset"])).
  apply NoDup_fmap_2; [intros a b; apply app_inv_head|].
  apply (bool_decide_eq_true_1 (NoDup [lit "offset/end"; lit "timestamp/end"; lit "build/finish"; lit "build/last/offset"])).
  by vm_compute.
Qed.

Lemma start_no_bookkeeping i k : k ∈ bookkeeping i -> offset_segment_start i <> k.
Proof.
  intros Hk E. unfold bookkeeping in Hk. rewrite !elem_of_cons, elem_of_nil in Hk. revert E.
  destruct Hk as [->|[->|[->|[->|[]]]]]; unfold offset_segment_start, offset_segment_end, timestamp_segment_end,
    finish_build_index, last_offset_build_index; intros E%app_inv_head; by inversion E.
Qed.

(** The three look-ups among the bookkeeping after the end was stored. *)
Lemma end_stored i (m : gmap bytes bytes) t1 t2 (o ts : Z) :
  let m' := <[timestamp_segment_end i := wrapped t2 ts]> (<[offset_segment_end i := wrapped t1 o]> m) in
  m' !! offset_segment_end i = Some (wrapped t1 o) /\ m' !! finish_build_index i = m !! finish_build_index i /\
  m' !! last_offset_build_index i = m !! last_offset_build_index i.
Proof.
  pose proof (bookkeeping_distinct i) as Hd. unfold bookkeeping in Hd. rewrite !NoDup_cons in Hd.
  rewrite !not_elem_of_cons in Hd. destruct Hd as ((H1 & H2 & H3 & _) & (H4 & H5 & _) & _). cbv zeta. split_and!.
  - by rewrite lookup_insert_ne, lookup_insert_eq by congruence.
  - by rewrite !lookup_insert_ne by congruence.
  - by rewrite !lookup_insert_ne by congruence.
Qed.

Lemma clean_numbered s data : Forall clean data -> Forall clean (numbered s data).
Proof.
  intros Hc. revert s. induction Hc as [|r data Hr Hc IH]; intros s; [constructor|].
  rewrite numbered_cons. constructor; [done|apply IH].
Qed.

Lemma take_placed_app rs data k : (k <= length rs)%nat -> take k (placed 0 (rs ++ data)) = take k (placed 0 rs).
Proof. intros Hk. rewrite placed_app, take_app_le; [done|]. by rewrite length_placed. Qed.

(** A batch can be added to the log. *)
Definition batch_ok rs data : Prop :=
  data <> [] /\ Forall fits (numbered (blen rs) data) /\
  Forall (fun r => clean r /\ 0 <= jr_create_time r < 2 ^ 63) data /\ blen rs + blen data < 2 ^ 40.

(** A batch that the file takes: the records, numbered from [s] on, are appended
    and the end of the segment is stored. *)
Lemma batch_write0_from n i sf s data r0 m f' :
  last data = Some r0 -> 0 <= s -> s + blen data < 2 ^ 62 -> index_open (jn_db n) ->
  write_records sf (numbered s data) (jn_files n) = (Ok tt, f') -> jn_segment_files n !! iden_name i = Some m ->
  exists d', batch_write0 data sf i (wrap64 (s - 1)) n =
      (Ok (Some (mkSegmentWriteResp (assigned s (map jr_pkid data)) (s + blen data - 1) None)),
       mkJournalNode f' d' (jn_placement n) (jn_cache n)
         (<[iden_name i := set_end_timestamp (as_i64 (jr_create_time r0)) (set_end_offset (s + blen data - 1) m)]> (jn_segment_files n))
         (jn_now_second n)) /\
    index_open d' /\ idx d' = <[timestamp_segment_end i := wrapped (jn_now_second n) (jr_create_time r0)]>
                             (<[offset_segment_end i := wrapped (jn_now_second n) (s + blen data - 1)]> (idx (jn_db n))).
Proof.
  intros Hl Hs Hb Ho Hw Hm.
  assert (data <> []) as Hne by by intros ->.
  assert (0 < blen data) by (destruct data; [done|rewrite blen_cons; pose proof (blen_nonneg data); lia]).
  unfold batch_write0. rewrite bool_decide_eq_false_2 by done. rewrite number_records_ok by lia.
  unfold on_files at 1. rewrite Hw. rewrite (last_numbered s data r0 Hl). erewrite bind_ok by reflexivity.
  cbn [jr_offset jr_create_time with_offset]. unfold update_end_offset, update_end_timestamp, now_second.
  destruct (index_save_ok (jn_now_second n) (offset_segment_end i) (wrap64 (s + blen data - 1)) (jn_db n) Ho) as (d1 & E1 & Ho1 & Hd1).
  destruct (index_save_ok (jn_now_second n) (timestamp_segment_end i) (jr_create_time r0) d1 Ho1) as (d2 & E2 & Ho2 & Hd2).
  erewrite bind_ok.
  2: { erewrite bind_ok by reflexivity. eapply update_file_meta_ok; [exact Hm|]. cbn. exact E1. }
  erewrite bind_ok.
  2: { erewrite bind_ok by reflexivity. eapply update_file_meta_ok; [cbn; apply lookup_insert_eq|]. cbn. exact E2. }
  rewrite offsets_of_numbered by lia. rewrite wrap64_small in Hd1 |- * by lia.
  exists d2. split; [|by rewrite Hd2, Hd1].
  cbn [jn_files jn_db jn_placement jn_cache jn_segment_files jn_now_second]. by rewrite insert_insert_eq.
Qed.

Lemma batch_write0_ok n i sf rs k data :
  segment_state n i sf rs k -> batch_ok rs data ->
  exists n', batch_write0 data sf i (wrap64 (blen rs - 1)) n =
      (Ok (Some (mkSegmentWriteResp (assigned (blen rs) (map jr_pkid data)) (blen rs + blen data - 1) None)), n') /\
    segment_state n' i sf (rs ++ numbered (blen rs) data) k /\ same_env n n' /\ jn_cache n' = jn_cache n.
Proof.
  intros S (Hne & Hf & Hc & Hb). pose proof (blen_nonneg rs).
  assert (0 < blen data) by (destruct data; [done|rewrite blen_cons; pose proof (blen_nonneg data); lia]).
  set (new := numbered (blen rs) data) in *.
  destruct (write_records_ok sf new _ _ (ss_file _ _ _ _ _ S)) as (f' & Hw & Hfs).
  destruct (last data) as [r0|] eqn:Hl; [|by apply last_None in Hl]. destruct (ss_meta _ _ _ _ _ S) as (m & Hm & Hme).
  destruct (batch_write0_from n i sf (blen rs) data r0 m f' Hl ltac:(lia) ltac:(lia) (ss_open _ _ _ _ _ S) Hw Hm) as (d2 & E & Ho2 & Hd2).
  eexists. split; [exact E|]. split; [|split; [|done]].
  2: { do 2 (split; [done|]). intros i'. unfold start_of. cbn [jn_segment_files]. rewrite lookup_insert.
       case_decide as Ei; [by rewrite <- Ei, Hm|done]. }
  destruct (end_stored i (idx (jn_db n)) (jn_now_second n) (jn_now_second n) (blen rs + blen data - 1) (jr_create_time r0)) as (K1 & K2 & K3).
  rewrite <- Hd2 in K1, K2, K3.
  assert (blen (rs ++ new) = blen rs + blen data) as Hlen by by unfold new; rewrite blen_app, blen_numbered.
  match goal with |- segment_state ?n' _ _ _ _ => assert (start_of n' i = start_of n i) as Hso end.
  { unfold start_of. cbn [jn_segment_files]. by rewrite lookup_insert_eq, Hm. }
  destruct S as [S1 S2 S3 S4 S5 S6 S7 SB S8 S9 S10 S11 S12 SS S13 SN S14]. constructor; rewrite ?Hso; cbn [jn_cache jn_files jn_db jn_segment_files].
  - done.
  - rewrite Hfs, lookup_insert_eq. by rewrite stored_app.
  - by apply log_ok_app.
  - by apply Forall_app.
  - apply Forall_app. split; [done|]. apply clean_numbered. eapply Forall_impl; [exact Hc|]. by intros r [? _].
  - by rewrite Hlen.
  - eexists. split; [by apply lookup_insert_eq|]. cbn. by rewrite Hlen.
  - done.
  - done.
  - rewrite length_app. lia.
  - rewrite take_placed_app by done. rewrite Hd2.
    apply indexed_bookkeeping; [unfold bookkeeping; set_solver|]. apply indexed_bookkeeping; [unfold bookkeeping; set_solver|done].
  - by rewrite K2.
  - rewrite Hlen. destruct (rs ++ new) eqn:En; [|exists (jn_now_second n); exact K1].
    apply app_eq_nil in En as [_ En]. unfold new in En. by destruct data.
  - assert (forall k', k' ∈ bookkeeping i -> offset_segment_start i <> k') as Hst by (apply (start_no_bookkeeping i)).
    assert (idx d2 !! offset_segment_start i = idx (jn_db n) !! offset_segment_start i) as K4.
    { rewrite Hd2, !lookup_insert_ne; [done|apply not_eq_sym, Hst; unfold bookkeeping; set_solver..]. }
    destruct k; cbn [holds] in *; rewrite K4; exact SS.
  - destruct k; cbn [holds] in *; rewrite K3; exact S13.
  - rewrite Hd2. eapply Forall_impl; [exact SN|]. intros key Hkey. apply number_put.
    { intros _. exists (jn_now_second n), (jr_create_time r0). split; [done|]. rewrite Forall_forall in Hc.
      apply last_Some_elem_of in Hl. by apply Hc in Hl as [_ [_ ?]]. }
    apply number_put; [|done]. intros _. exists (jn_now_second n), (blen rs + blen data - 1). split; [done|lia].
  - done.
Qed.

Lemma on_index_ok {A} n (m : M D JournalServerError A) a :
  m (jn_db n) = (Ok a, jn_db n) -> on_index m n = (Ok a, n).
Proof. intros Hm. unfold on_index. rewrite Hm. by destruct n. Qed.
Lemma on_files_ok {A} n (m : M F JournalServerError A) a :
  m (jn_files n) = (Ok a, jn_files n) -> on_files m n = (Ok a, n).
Proof. intros Hm. unfold on_files. rewrite Hm. by destruct n. Qed.

(** What the index by offset lists of the first records is the first record. *)
Lemma sampled_small start j : 0 <= j < 9999 -> sampled_since start j -> j = 0.
Proof.
  unfold sampled_since, sampled, BUILD_INDE_PER_RECORD_NUM. intros Hj [Hs|[_ Hs]]; apply Z.eqb_eq in Hs;
    rewrite Z.rem_mod_nonneg, Z.mod_small in Hs; lia.
Qed.
Lemma samples_small start rs k X x :
  log_ok rs -> Z.of_nat k < 10000 -> samples start (take k (placed 0 rs)) X -> X x -> ix_position x = 0.
Proof.
  intros Hl Hk [HX _] (rd & Hin & Hs & ->)%HX. apply list_elem_of_lookup in Hin as [j [Hj Hlt]%lookup_take_Some].
  rewrite (Hl j _ (placed_lookup _ _ _ _ Hj)) in Hs. apply sampled_small in Hs; [|lia].
  replace j with 0%nat in Hj by lia. destruct rs as [|r rs]; [done|]. by injection Hj as <-.
Qed.

(** The first write starts the thread that builds the indexes. *)
Lemma try_trigger_build_index_ok n i sf rs k :
  segment_state n i sf rs k -> Z.of_nat k < 10000 ->
  exists n', try_trigger_build_index conf i n = (Ok tt, n') /\ segment_state n' i sf rs k /\ same_env n n' /\
    segment_writes (jn_cache n') = segment_writes (jn_cache n) /\
    building n' i.
Proof.
  intros S Hk. unfold try_trigger_build_index, building. erewrite bind_ok by reflexivity. unfold jc_contain_build_index_thread.
  pose proof (ss_thread _ _ _ _ _ S) as Ht.
  destruct (segment_index_build_thread (jn_cache n) !! iden_name i) as [t|] eqn:E.
  { exists n. split; [done|]. rewrite E. by eauto 10. }
  cbn [is_some]. erewrite bind_ok.
  2: { apply on_index_ok, is_finish_ok; [by eapply ss_open|by eapply ss_finish]. }
  destruct (ss_meta _ _ _ _ _ S) as (m & Hm & _). erewrite bind_ok by reflexivity. rewrite Hm.
  assert (fm_start_offset m = start_of n i) as Hms by (unfold start_of; by rewrite Hm).
  erewrite bind_ok by reflexivity. erewrite bind_ok.
  2: { apply on_index_ok, get_last_build_ok; [by eapply ss_open|by apply (ss_last _ _ _ _ _ S)]. }
  replace (default 0 _) with (Z.of_nat (pred k)) by by destruct k.
  destruct (ss_indexed _ _ _ _ _ S) as (_ & _ & X & H3 & H4).
  destruct (nearest_ok (jn_db n) _ _ (fun x => ix_offset x <? Z.of_nat (pred k)) (ss_open _ _ _ _ _ S) H3) as (o & Ho & Hx).
  erewrite bind_ok by by apply on_index_ok.
  replace (match o with Some p => ix_position p | None => 0 end) with 0.
  2: { destruct o as [x|]; [|done]. symmetry. by eapply samples_small; [by eapply ss_log|..|apply Hx]. }
  destruct (open_segment_write_ok n i sf (ss_located _ _ _ _ _ S)) as [max Hop].
  erewrite bind_ok.
  2: { unfold start_segment_build_index_thread. erewrite bind_ok by exact Hop. reflexivity. }
  eexists. split; [reflexivity|]. split; [|split_and!; [done..|cbn; rewrite lookup_insert_eq; by eexists]]. rewrite Hms.
  destruct S as [S1 S2 S3 S4 S5 S6 S7 SB S8 S9 S10 S11 S12 SS S13 SN S14]. constructor; try done.
  cbn [jn_cache segment_index_build_thread jc_add_build_index_thread set_segment_index_build_thread].
  rewrite lookup_insert_eq. by exists 0.
Qed.

(** One request to the write thread. *)
Lemma write_data_round n n1 n2 n3 i sf e data resp :
  get_write conf i n = (Ok (mkSegmentWrite i e sf), n1) -> located (jn_cache n1) i sf -> data <> [] ->
  batch_write0 data sf i (wrap64 e) n1 = (Ok (Some resp), n2) -> try_trigger_build_index conf i n2 = (Ok tt, n3) ->
  write_data conf i data n =
  (Ok resp, mkJournalNode (jn_files n3) (jn_db n3) (jn_placement n3)
              (jc_add_segment_write_thread i (mkSegmentWrite i (as_i64 (wr_last_offset resp)) sf) (jn_cache n3))
              (jn_segment_files n3) (jn_now_second n3)).
Proof.
  intros E1 Hl Hne E2 E3. unfold write_data. erewrite bind_ok by exact E1. erewrite bind_ok.
  2: { unfold write_thread_round, batch_write. cbn [sw_segment_iden sw_local_segment_end_offset sw_segment_write].
       rewrite bool_decide_eq_false_2 by done. erewrite (bind_ok (write_validator _ _ _)) by by eapply write_validator_ok.
       erewrite bind_ok by exact E2. erewrite bind_ok by exact E3. reflexivity. }
  by erewrite bind_ok by reflexivity.
Qed.

Lemma write_data_ok n i sf rs k data :
  serving n i sf rs k -> Z.of_nat k < 10000 -> batch_ok rs data ->
  exists n', write_data conf i data n =
      (Ok (mkSegmentWriteResp (assigned (blen rs) (map jr_pkid data)) (blen rs + blen data - 1) None), n') /\
    serving n' i sf (rs ++ numbered (blen rs) data) k /\ building n' i /\ same_env n n'.
Proof.
  intros Hs Hk Hb. destruct (get_write_ok n i sf rs k Hs) as (n1 & E1 & (S1 & _) & Hv1 & _).
  destruct (batch_write0_ok n1 i sf rs k data S1 Hb) as (n2 & E2 & S2 & Hv2 & Hc2).
  destruct (try_trigger_build_index_ok n2 i sf _ k S2 Hk) as (n3 & E3 & S3 & Hv3 & _ & Hi3).
  destruct Hb as (Hne & _ & _ & Hb). pose proof (blen_nonneg rs).
  assert (0 < blen data) by (destruct data; [done|rewrite blen_cons; pose proof (blen_nonneg data); lia]).
  rewrite (write_data_round n n1 n2 n3 i sf _ data _ E1 (ss_located _ _ _ _ _ S1) Hne E2 E3). eexists. split; [done|]. split; [|split; [done|]].
  - split.
    + destruct S3 as [T1 T2 T3 T4 T5 T6 T7 TB T8 T9 T10 T11 T12 TS T13 TN T14]. by constructor.
    + cbn [jn_cache segment_writes jc_add_segment_write_thread set_segment_writes wr_last_offset].
      rewrite lookup_insert_eq. intros w [= <-]. f_equal. rewrite blen_app, blen_numbered.
      unfold as_i64. rewrite Z.mod_small by lia. lia.
  - destruct Hv1 as (V1 & V2 & V3), Hv2 as (V4 & V5 & V6), Hv3 as (V7 & V8 & V9). split_and!; [cbn; congruence..|].
    intros i'. rewrite <- V3, <- V6, <- V9. done.
Qed.

Lemma assigned_range s pkids k o : assigned s pkids !! k = Some o -> s <= o < s + blen pkids.
Proof.
  intros H%elem_of_list_to_map_2. rewrite elem_of_reverse in H. apply elem_of_zip_r, elem_of_seqZ in H. lia.
Qed.

Lemma collect_ok {A B} (l : list A) (f : A -> Node B) (g : A -> B) n :
  (forall a, a ∈ l -> f a n = (Ok (g a), n)) -> collect l f n = (Ok (map g l), n).
Proof.
  induction l as [|a l IH]; intros Hf; cbn [collect map]; [done|].
  erewrite bind_ok by (apply Hf; by left). erewrite bind_ok by (apply IH; intros; apply Hf; by right). done.
Qed.

(** The messages of a request as records, and how they are answered. *)
Definition request i (msgs : list WriteReqMessages) : WriteReqSegmentMessages :=
  mkWriteReqSegmentMessages (si_namespace i) (si_shard_name i) (si_segment_seq i) msgs.
Definition new_records n i msgs : list JournalRecord := map (new_record (jn_now_second n) (request i msgs)) msgs.
Definition statuses (offsets : gmap Z Z) : list WriteRespMessageStatus :=
  map (fun '(pkid, offset) => mkWriteRespMessageStatus offset pkid None) (map_iterZ offsets).

Context {MZS : MapIterZSpec MZ}.

(** How a request is answered after the thread has answered. *)
Lemma write_segment_answer n n' i msgs resp m :
  write_data conf i (new_records n i msgs) n = (Ok resp, n') -> wr_error resp = None ->
  jn_segment_files n' !! iden_name i = Some m ->
  (forall pkid o, wr_offsets resp !! pkid = Some o -> wrap64 (fm_start_offset m) <> o) ->
  write_segment conf (request i msgs) n =
  (Ok (mkWriteRespMessage (si_namespace i) (si_shard_name i) (si_segment_seq i) (statuses (wr_offsets resp))), n').
Proof.
  intros E He Hm Ho. unfold write_segment. cbn [request ws_namespace ws_shard_name ws_segment ws_messages].
  replace (mkSegmentIdentity (si_namespace i) (si_shard_name i) (si_segment_seq i)) with i by by destruct i.
  erewrite bind_ok by reflexivity. fold (request i msgs). fold (new_records n i msgs).
  erewrite bind_ok by (rewrite E; reflexivity). rewrite He.
  erewrite bind_ok; [reflexivity|]. apply collect_ok. intros [pkid o] Hin.
  rewrite map_iterZ_perm, elem_of_map_to_list in Hin.
  unfold message_status. erewrite bind_ok by reflexivity. rewrite Hm. erewrite bind_ok by reflexivity.
  by rewrite (proj2 (Z.eqb_neq _ o)) by by eapply Ho.
Qed.
Lemma write_segment_error n n' i msgs resp e :
  write_data conf i (new_records n i msgs) n = (Ok resp, n') -> wr_error resp = Some e ->
  write_segment conf (request i msgs) n = (Err e, n').
Proof.
  intros E He. unfold write_segment. cbn [request ws_namespace ws_shard_name ws_segment ws_messages].
  replace (mkSegmentIdentity (si_namespace i) (si_shard_name i) (si_segment_seq i)) with i by by destruct i.
  erewrite bind_ok by reflexivity. fold (request i msgs). fold (new_records n i msgs).
  erewrite bind_ok by (rewrite E; reflexivity). by rewrite He.
Qed.

Lemma handle_write_one n n' i msgs r :
  admitted (jn_cache n) i -> write_segment conf (request i msgs) n = (r, n') ->
  handle_write conf (Some (mkWriteReqBody [request i msgs])) n =
  (match r with Ok a => Ok [a] | Err e => Err e | Panic => Panic | OutOfFuel => OutOfFuel end, n').
Proof.
  intros Hadm E. unfold handle_write. erewrite bind_ok by reflexivity.
  erewrite bind_ok.
  2: { cbn [wb_data]. rewrite for_each_cons. cbn [request ws_namespace ws_shard_name ws_segment rm_namespace rm_shard_name rm_segment].
       erewrite bind_ok.
       2: { erewrite bind_ok by apply try_auto_create_shard_ok, Hadm.
            replace (mkSegmentIdentity _ _ _) with i by by destruct i. by apply validator_ok. }
       reflexivity. }
  unfold write_data_req. cbn [wb_data collect]. rewrite (bind_eval _ _ _ _ _ E). by destruct r.
Qed.

Lemma handle_write_ok n i sf rs k msgs :
  serving n i sf rs k -> Z.of_nat k < 10000 -> batch_ok rs (new_records n i msgs) ->
  exists n', handle_write conf (Some (mkWriteReqBody [request i msgs])) n =
      (Ok [mkWriteRespMessage (si_namespace i) (si_shard_name i) (si_segment_seq i)
             (statuses (assigned (blen rs) (map wm_pkid msgs)))], n') /\
    serving n' i sf (rs ++ numbered (blen rs) (new_records n i msgs)) k /\ building n' i /\ same_env n n'.
Proof.
  intros Hs Hk Hb. destruct (write_data_ok n i sf rs k _ Hs Hk Hb) as (n1 & E1 & Hs1 & Hv1). exists n1. split; [|done].
  destruct Hs as (S & _), Hs1 as (S1 & _). eapply (handle_write_one n n1 i msgs (Ok _)); [by eapply located_admitted, ss_located|].
  destruct (ss_meta _ _ _ _ _ S1) as (m & Hm & _).
  replace (map jr_pkid (new_records n i msgs)) with (map wm_pkid msgs) in E1 by (unfold new_records; by rewrite map_map).
  rewrite (write_segment_answer n n1 i msgs _ m E1 eq_refl Hm); [done|]. cbn [wr_offsets].
  intros pkid o Hin%assigned_range. destruct Hb as (_ & _ & _ & Hb).
  unfold new_records in Hb. rewrite blen_map in Hb. rewrite blen_map in Hin. pose proof (blen_nonneg rs).
  pose proof (ss_base _ _ _ _ _ S1) as Hb1. unfold start_of in Hb1.
  rewrite Hm in Hb1. cbn in Hb1. destruct Hb1 as [-> |[-> Hk0]].
  - change (wrap64 (-1)) with (2 ^ 64 - 1). lia.
  - change (wrap64 0) with 0. pose proof (ss_seen _ _ _ _ _ S). unfold blen in Hin. lia.
Qed.

(** ** Reading *)

Definition read_request i (kind : Z) filter options : ReadReqBody :=
  mkReadReqBody [mkReadReqMessage (si_namespace i) (si_shard_name i) (si_segment_seq i) kind filter options].
Definition read_answer i (l : list ReadData) : list ReadRespSegmentMessage :=
  [mkReadRespSegmentMessage (si_namespace i) (si_shard_name i) (si_segment_seq i) (map read_message l)].

(** A read request is passed to the reader of its kind. *)
Lemma handle_read_ok n i sf kind filter options l :
  located (jn_cache n) i sf ->
  (match ready_type (mkReadReqMessage (si_namespace i) (si_shard_name i) (si_segment_seq i) kind filter options) with
   | ByOffset => read_records_by_offset sf i (default default_filter filter) (default default_options options)
   | ByKey => read_records_by_key sf i (default default_filter filter) (default default_options options)
   | ByTag => read_records_by_tag sf i (default default_filter filter) (default default_options options)
   end) n = (Ok l, n) ->
  handle_read conf (Some (read_request i kind filter options)) n = (Ok (read_answer i l), n).
Proof.
  intros Hloc Hr. unfold handle_read. erewrite bind_ok by reflexivity. erewrite bind_ok.
  2: { cbn [wb_data rb_messages read_request]. rewrite for_each_cons. cbn [request ws_namespace ws_shard_name ws_segment rm_namespace rm_shard_name rm_segment].
       erewrite bind_ok.
       2: { erewrite bind_ok by by apply try_auto_create_shard_ok; eapply located_admitted.
            replace (mkSegmentIdentity _ _ _) with i by by destruct i. by eapply validator_ok, located_admitted. }
       reflexivity. }
  unfold read_data_req. cbn [rb_messages read_request collect]. erewrite bind_ok; [reflexivity|].
  unfold read_segment. cbn [rm_namespace rm_shard_name rm_segment rm_filter rm_options].
  replace (mkSegmentIdentity (si_namespace i) (si_shard_name i) (si_segment_seq i)) with i by by destruct i.
  destruct Hloc as (seg & fold & meta & H1 & _ & _ & H4 & -> & _).
  erewrite bind_ok by reflexivity. rewrite H1. erewrite bind_ok by reflexivity. rewrite H4.
  erewrite bind_ok by reflexivity. by erewrite bind_ok by exact Hr.
Qed.

Lemma read_file_ok n i sf rs1 rs2 k so ms mr :
  segment_state n i sf (rs1 ++ rs2) k ->
  on_files (read_by_offset sf (blen (stored rs1)) so ms mr) n =
  (Ok (batch ms mr (from_offset so (placed (blen (stored rs1)) rs2))), n).
Proof.
  intros S. apply on_files_ok. pose proof (segment_state_size _ _ _ _ _ S) as Hsz.
  destruct S as [S1 S2 S3 S4 S5 S6 S7 SB S8 S9 S10 S11 S12 SS S13 SN S14]. rewrite stored_app in *.
  apply read_by_offset_stored; [done| |done]. by apply Forall_app in S4 as [_ ?].
Qed.

(** Until a record is sampled a read starts at the beginning of the file. *)
Lemma read_by_offset_ok n i sf rs k filter options :
  segment_state n i sf rs k -> Z.of_nat k < 10000 ->
  read_records_by_offset sf i filter options n =
  (Ok (batch (op_max_size options) (op_max_record options) (from_offset (fl_offset filter) (placed 0 rs))), n).
Proof.
  intros S Hk. unfold read_records_by_offset. destruct (ss_indexed _ _ _ _ _ S) as (_ & _ & X & H3 & H4).
  destruct (nearest_ok (jn_db n) _ _ (fun x => ix_offset x <? fl_offset filter) (ss_open _ _ _ _ _ S) H3) as (o & Ho & Hx).
  erewrite bind_ok by by apply on_index_ok.
  replace (match o with Some x => ix_position x | None => 0 end) with 0.
  2: { destruct o as [x|]; [|done]. symmetry. by eapply samples_small; [by eapply ss_log|..|apply Hx]. }
  apply (read_file_ok n i sf [] rs k _ _ _ S).
Qed.

(** Entries of records and the records. *)
Lemma entries_records (ds : list ReadData) (Q : ReadData -> Prop) l :
  (forall x, x ∈ l -> exists rd, rd ∈ ds /\ Q rd /\ x = entry_of rd) ->
  exists rds, map entry_of rds = l /\ Forall (fun rd => rd ∈ ds /\ Q rd) rds.
Proof.
  induction l as [|x l IH]; intros H; [by exists []|]. destruct (H x) as (rd & Hin & HQ & ->); [by left|].
  destruct IH as (rds & <- & Hr); [intros y Hy; apply H; by right|]. exists (rd :: rds). by split; [|constructor].
Qed.
Lemma take_elem {A} k (l : list A) x : x ∈ take k l -> x ∈ l.
Proof. intros [j [Hj _]%lookup_take_Some]%list_elem_of_lookup. by eapply list_elem_of_lookup_2. Qed.

Lemma positions_read n i sf rs k p (Q : ReadData -> Prop) start num :
  segment_state n i sf rs k ->
  lists (idx (jn_db n)) p (fun x => exists rd, rd ∈ take k (placed 0 rs) /\ Q rd /\ x = entry_of rd) ->
  (forall rd, Decision (Q rd)) -> blen rs < num ->
  exists rds,
    (let! l := on_index (last_positions p start num) in on_files (read_by_positions sf (map ix_position l))) n = (Ok rds, n) /\
    NoDup rds /\ forall rd, rd ∈ rds <-> rd ∈ take k (placed 0 rs) /\ Q rd /\ start <= jr_offset (rd_record rd).
Proof.
  intros S Hl HQ Hn.
  destruct (last_positions_ok (jn_db n) p _ (map entry_of (filter Q (take k (placed 0 rs)))) start num
              (ss_open _ _ _ _ _ S) Hl) as (l & El & Hnd & Hx).
  { intros x. rewrite list_elem_of_fmap. setoid_rewrite list_elem_of_filter. naive_solver. }
  { rewrite blen_map. unfold blen in *.
    pose proof (length_filter Q (take k (placed 0 rs))) as H1. rewrite length_take, length_placed in H1. lia. }
  destruct (entries_records (take k (placed 0 rs)) (fun rd => Q rd /\ start <= jr_offset (rd_record rd)) l)
    as (rds & <- & Hr).
  { intros x ((rd & Hin & Hq & ->) & Ho)%Hx. by exists rd. }
  exists rds. split; [|split].
  - erewrite bind_ok by by apply on_index_ok. apply on_files_ok. rewrite map_map.
    destruct S as [S1 S2 S3 S4 S5 S6 S7 SB S8 S9 S10 S11 S12 SS S13 SN S14] eqn:ES.
    apply (read_by_positions_stored sf (jn_files n) rs rds); [done..|by eapply segment_state_size|].
    eapply Forall_impl; [exact Hr|]. intros rd [Hin _]. by apply take_elem in Hin.
  - by eapply NoDup_fmap_1.
  - intros rd. rewrite Forall_forall in Hr. split; [intros Hin; naive_solver|]. intros (Hin & Hq & Ho).
    assert (entry_of rd ∈ map entry_of rds) as He by (apply Hx; split; [by exists rd|done]).
    apply list_elem_of_fmap in He as (rd' & E & Hin'). destruct (Hr rd' Hin') as [Hin2 _].
    injection E as Eo _ _. replace rd with rd'; [done|]. symmetry.
    eapply placed_unique; [by eapply ss_log|by apply take_elem in Hin|by apply take_elem in Hin2|done].
Qed.

Lemma read_by_tag_ok n i sf rs k filter options :
  segment_state n i sf rs k -> slash ∉ fl_tag filter -> blen rs < op_max_record options ->
  exists rds, read_records_by_tag sf i filter options n = (Ok rds, n) /\ NoDup rds /\
    forall rd, rd ∈ rds <-> rd ∈ take k (placed 0 rs) /\ fl_tag filter ∈ jr_tags (rd_record rd) /\
                            fl_offset filter <= jr_offset (rd_record rd).
Proof.
  intros S Ht Hn. destruct (ss_indexed _ _ _ _ _ S) as (H1 & _ & _).
  by apply (positions_read n i sf rs k _ (fun rd => fl_tag filter ∈ jr_tags (rd_record rd)) _ _ S (H1 _ Ht) _ Hn).
Qed.
Lemma read_by_key_ok n i sf rs k filter options :
  segment_state n i sf rs k -> slash ∉ fl_key filter -> fl_key filter <> [] -> blen rs < op_max_record options ->
  exists rds, read_records_by_key sf i filter options n = (Ok rds, n) /\ NoDup rds /\
    forall rd, rd ∈ rds <-> rd ∈ take k (placed 0 rs) /\ fl_key filter = jr_key (rd_record rd) /\
                            fl_offset filter <= jr_offset (rd_record rd).
Proof.
  intros S Ht Hne Hn. destruct (ss_indexed _ _ _ _ _ S) as (_ & H2 & _).
  by apply (positions_read n i sf rs k _ (fun rd => fl_key filter = jr_key (rd_record rd)) _ _ S (H2 _ Ht Hne) _ Hn).
Qed.

(** ** The index thread *)

(** The records of one round, and how far the index is then. *)
Definition round_end rs (k : nat) : nat := Nat.min (length rs) (pred k + 100).

Lemma round_elements rs k rd :
  (k <= length rs)%nat ->
  rd ∈ take k (placed 0 rs) ++ take 100 (drop (pred k) (placed 0 rs)) <-> rd ∈ take (round_end rs k) (placed 0 rs).
Proof.
  intros Hk. unfold round_end.
  assert (take (Nat.min (length rs) (pred k + 100)) (placed 0 rs) =
          take (pred k) (placed 0 rs) ++ take 100 (drop (pred k) (placed 0 rs))) as ->.
  { rewrite <- (length_placed 0 rs), take_take_drop, Nat.min_comm, <- take_take. f_equal. by rewrite firstn_all. }
  rewrite !elem_of_app. split; [|intros [H|H]; [left|by right]].
  - intros [H|H]; [|by right]. destruct k as [|k]; [by left|]. cbn [pred].
    destruct (decide (k < length rs)%nat).
    + destruct (lookup_lt_is_Some_2 (placed 0 rs) k) as [d Hd]; [by rewrite length_placed|].
      rewrite (take_S_r _ _ _ Hd), elem_of_app in H. destruct H as [H| ->%list_elem_of_singleton]; [by left|].
      right. rewrite (drop_S _ _ _ Hd). by left.
    + lia.
  - apply list_elem_of_lookup in H as [j Hj]. apply lookup_take_Some in Hj as [Hj Hlt].
    apply list_elem_of_lookup. exists j. apply lookup_take_Some. split; [done|lia].
Qed.

Definition round_data rs (k : nat) : list ReadData := take 100 (drop (pred k) (placed 0 rs)).

Lemma round_data_placed rs k rd : rd ∈ round_data rs k -> rd ∈ placed 0 rs.
Proof.
  intros Hin. apply take_elem in Hin. apply list_elem_of_lookup in Hin as [j Hj]. rewrite lookup_drop in Hj.
  by eapply list_elem_of_lookup_2.
Qed.

(** Only the first record is at the beginning of the file. *)
Lemma first_position rs rd : log_ok rs -> rd ∈ placed 0 rs -> rd_position rd = 0 -> jr_offset (rd_record rd) = 0.
Proof.
  intros Hl (rs1 & rs2 & -> & Hp)%placed_elem H0. destruct rs1 as [|r rs1].
  - by apply (Hl 0%nat).
  - rewrite Hp, stored_cons, blen_app, blen_record_frame in H0. pose proof (blen_nonneg (encode_to_vec r)).
    pose proof (blen_nonneg (stored rs1)). lia.
Qed.

(** The last record of a round. *)
Lemma round_data_last rs k :
  rs <> [] -> (k <= length rs)%nat -> log_ok rs ->
  exists dl, last (round_data rs k) = Some dl /\ jr_offset (rd_record dl) = Z.of_nat (pred (round_end rs k)).
Proof.
  intros Hne Hk Hl. assert (0 < length rs)%nat by (destruct rs; cbn; [done|lia]).
  destruct (lookup_lt_is_Some_2 (placed 0 rs) (pred (round_end rs k))) as [dl Hdl].
  { rewrite length_placed. unfold round_end. lia. }
  exists dl. split; [|by apply Hl, (placed_lookup 0 rs), Hdl].
  rewrite last_lookup. unfold round_data. rewrite length_take, length_drop, length_placed, lookup_take_lt, lookup_drop by lia.
  rewrite <- Hdl. f_equal. unfold round_end. lia.
Qed.

Lemma round_data_ok n i sf rs k :
  segment_state n i sf rs k -> Forall (fun rd => offset_ok (rd_record rd) /\ clean (rd_record rd)) (round_data rs k).
Proof.
  intros S. apply Forall_forall. intros rd [j Hj%placed_lookup]%round_data_placed%list_elem_of_lookup. split.
  - unfold offset_ok. rewrite (ss_log _ _ _ _ _ S j _ Hj). apply lookup_lt_Some in Hj.
    pose proof (ss_len _ _ _ _ _ S) as Hlen. unfold blen in Hlen. lia.
  - pose proof (ss_clean _ _ _ _ _ S) as Hc. rewrite Forall_forall in Hc. eapply Hc, list_elem_of_lookup_2, Hj.
Qed.

(** What the thread reads in a round. *)
Lemma round_read n i sf rs k :
  segment_state n i sf rs k ->
  on_files (read_by_offset sf 0 (Z.of_nat (pred k)) (10 * 1024 * 1024) 100) n = (Ok (round_data rs k), n).
Proof.
  intros S. change 0 with (blen (stored (PR := PR) [])). rewrite (read_file_ok n i sf [] rs k _ _ _ S).
  change (blen (stored [])) with 0. rewrite from_offset_log, Nat2Z.id by by eapply ss_log.
  change 100 with (Z.of_nat 100). rewrite batch_take; [done| |lia|lia]. apply Forall_drop, Forall_forall.
  intros d (rs1 & rs2 & E & _)%placed_elem. pose proof (ss_fits _ _ _ _ _ S) as Hf. rewrite Forall_forall in Hf.
  apply Hf. rewrite E. set_solver.
Qed.

(** The node after a round: the database and the thread have changed. *)
Definition after_round n i sf rs k (d : D) : JournalNode F D P :=
  mkJournalNode (jn_files n) d (jn_placement n)
    (jc_add_build_index_thread i
       (mkIndexBuildThread i (wrap64 (start_of n i)) 0 (Z.of_nat (pred (round_end rs k))) 0 sf) (jn_cache n))
    (jn_segment_files n) (jn_now_second n).

Lemma after_round_state n i sf rs k t1 t2 d :
  segment_state n i sf rs k -> rs <> [] -> index_open d ->
  idx d = <[last_offset_build_index i := wrapped t2 (Z.of_nat (pred (round_end rs k)))]>
            (put_all (concat (map (puts t1 i (start_of n i)) (round_data rs k))) (idx (jn_db n))) ->
  segment_state (after_round n i sf rs k d) i sf rs (round_end rs k).
Proof.
  intros S Hne Ho Hd. assert (0 < length rs)%nat by (destruct rs; cbn; [done|lia]).
  pose proof (round_data_ok _ _ _ _ _ S) as Hdata.
  destruct S as [S1 S2 S3 S4 S5 S6 S7 SB S8 S9 S10 S11 S12 SS S13 SN S14].
  pose proof (bookkeeping_distinct i) as Hb. unfold bookkeeping in Hb. rewrite !NoDup_cons, !not_elem_of_cons in Hb.
  destruct Hb as ((_ & _ & B1 & _) & _ & (B2 & _) & _).
  assert (start_of n i = -1 \/ start_of n i = 0) as Hst by (destruct SB as [|[? _]]; auto).
  constructor; change (start_of (after_round n i sf rs k d) i) with (start_of n i);
    cbn [after_round jn_cache jn_files jn_db jn_segment_files]; try done.
  - destruct SB as [|[? ?]]; [by left|right]. split; [done|]. unfold round_end. lia.
  - unfold round_end. lia.
  - rewrite Hd. apply indexed_bookkeeping; [unfold bookkeeping; set_solver|].
    eapply indexed_ext; [intros rd; apply round_elements, S9|]. apply indexed_puts; [done..| |done].
    intros rd rd' Hin Hin'. apply (placed_unique rs); [done|..]; rewrite elem_of_app in *;
      [destruct Hin as [Hin|Hin]|destruct Hin' as [Hin'|Hin']]; eauto using take_elem, round_data_placed.
  - rewrite Hd, lookup_insert_ne, puts_keep; [done|unfold bookkeeping; set_solver|congruence].
  - rewrite Hd. destruct rs as [|r rs]; [done|]. destruct S12 as [t Ht]. exists t.
    rewrite lookup_insert_ne, puts_keep; [done|unfold bookkeeping; set_solver|congruence].
  - rewrite Hd. destruct (round_end rs k) as [|k'] eqn:E; [unfold round_end in E; lia|].
    enough (holds (put_all (concat (map (puts t1 i (start_of n i)) (round_data rs k))) (idx (jn_db n)))
              (offset_segment_start i) (Some 0)) as [t Ht].
    { exists t. rewrite lookup_insert_ne; [done|]. apply not_eq_sym, start_no_bookkeeping. unfold bookkeeping. set_solver. }
    apply puts_start_offset.
    + intros rd Hin%round_data_placed Hp. by apply (first_position rs).
    + destruct k; [left|by right]. destruct rs as [|r rs]; [done|]. eexists. split; [by left|done].
  - rewrite Hd. destruct (round_end rs k) as [|k'] eqn:E; [unfold round_end in E; lia|].
    exists t2. by rewrite lookup_insert_eq.
  - rewrite Hd. apply Forall_forall. intros key Hkey. rewrite Forall_forall in SN.
    apply number_put; [|apply number_puts; auto].
    + intros _. exists t2, (Z.of_nat (pred (round_end rs k))). split; [done|]. unfold blen in S6. unfold round_end. lia.
    + eapply Forall_impl; [exact Hdata|]. by intros rd [? _].
  - cbn [segment_index_build_thread jc_add_build_index_thread set_segment_index_build_thread].
    rewrite lookup_insert_eq. by exists 0.
Qed.

(** A round that finds records. *)
Lemma build_index_round_ok n i sf rs k t :
  serving n i sf rs k -> rs <> [] -> segment_index_build_thread (jn_cache n) !! iden_name i = Some t ->
  exists d, build_index_round i n = (Ok tt, after_round n i sf rs k d) /\
            serving (after_round n i sf rs k d) i sf rs (round_end rs k).
Proof.
  intros (S & Hw) Hne Et. pose proof (ss_thread _ _ _ _ _ S) as Ht. rewrite Et in Ht. destruct Ht as [e ->].
  destruct (round_data_last rs k Hne (ss_seen _ _ _ _ _ S) (ss_log _ _ _ _ _ S)) as (dl & Hl & Hol).
  pose proof (round_data_ok _ _ _ _ _ S) as Hdata.
  assert (start_of n i = -1 \/ start_of n i = 0) as Hst by (destruct (ss_base _ _ _ _ _ S) as [|[? _]]; auto).
  destruct (save_record_index_ok (jn_now_second n) i _ (round_data rs k) (jn_db n) Hst (ss_open _ _ _ _ _ S)) as (d1 & E1 & Ho1 & Hm1).
  { eapply Forall_impl; [exact Hdata|]. by intros rd [? _]. }
  destruct (index_save_ok (jn_now_second n) (last_offset_build_index i) (Z.of_nat (pred (round_end rs k))) d1 Ho1)
    as (d2 & E2 & Ho2 & Hm2).
  exists d2. split.
  - unfold build_index_round. erewrite bind_ok by reflexivity. rewrite Et. cbn [if_some].
    erewrite bind_ok by reflexivity. cbn [it_segment_write it_start_position it_last_build_offset].
    rewrite (round_read n i sf rs k S). destruct (round_data rs k) as [|d0 data0] eqn:Ed; [done|]. rewrite <- Ed in *.
    unfold on_index at 1. cbn [set_empty_times it_start_offset]. rewrite E1, Hl. erewrite bind_ok by reflexivity.
    rewrite Hol, wrap64_small.
    2: { pose proof (ss_len _ _ _ _ _ S) as Hlen. unfold blen in Hlen. unfold round_end. lia. }
    erewrite bind_ok; [|unfold logged_node, on_index, save_last_offset_build_index; cbn [jn_db]; rewrite E2; reflexivity].
    reflexivity.
  - split; [|done]. eapply after_round_state; [done..|]. by rewrite Hm2, Hm1.
Qed.

(** Any round keeps the invariant. *)
Lemma build_round_serving n i sf rs k :
  serving n i sf rs k ->
  exists n' k', build_index_round i n = (Ok tt, n') /\ serving n' i sf rs k' /\ same_env n n' /\ (k <= k')%nat.
Proof.
  intros (S & Hw). destruct (segment_index_build_thread (jn_cache n) !! iden_name i) as [t|] eqn:Et.
  2: { exists n, k. unfold build_index_round. erewrite bind_ok by reflexivity. rewrite Et. done. }
  destruct (decide (rs = [])) as [->|Hne].
  - pose proof (ss_thread _ _ _ _ _ S) as Ht. rewrite Et in Ht. destruct Ht as [e ->].
    pose proof (ss_seen _ _ _ _ _ S) as Hk. destruct k; [|cbn in Hk; lia].
    unfold build_index_round. erewrite bind_ok by reflexivity. rewrite Et. cbn [if_some].
    erewrite bind_ok by reflexivity. cbn [it_segment_write it_start_position it_last_build_offset it_data_empty_times].
    rewrite (round_read n i sf [] 0 S). unfold round_data. cbn [placed pred drop take].
    destruct (_ <=? e).
    + destruct (ss_located _ _ _ _ _ S) as (seg & Hloc). unfold try_finish_segment_index_build.
      destruct Hloc as (fold & meta & H1 & H2 & _).
      eexists _, 0%nat. split.
      { erewrite bind_ok; [reflexivity|]. erewrite bind_ok by reflexivity. erewrite bind_ok by reflexivity.
        rewrite H1. cbn [if_some]. rewrite bool_decide_eq_false_2; [reflexivity|].
        unfold allow_read in H2. by destruct (sg_status seg). }
      split; [|done]. split; [|done].
      destruct S as [S1 S2 S3 S4 S5 S6 S7 SB S8 S9 S10 S11 S12 SS S13 SN S14]. constructor; try done.
      cbn [jn_cache segment_index_build_thread jc_remove_build_index_thread set_segment_index_build_thread].
      by rewrite lookup_delete_eq.
    + eexists _, 0%nat. split; [reflexivity|]. split; [|done]. split; [|done].
      destruct S as [S1 S2 S3 S4 S5 S6 S7 SB S8 S9 S10 S11 S12 SS S13 SN S14]. constructor; try done.
      cbn [jn_cache segment_index_build_thread jc_add_build_index_thread set_segment_index_build_thread].
      rewrite lookup_insert_eq. by exists (e + 1).
  - destruct (build_index_round_ok n i sf rs k t (conj S Hw) Hne Et) as (d & E & Hs).
    exists (after_round n i sf rs k d), (round_end rs k). split; [done|]. split; [done|]. split; [done|].
    pose proof (ss_seen _ _ _ _ _ S). unfold round_end. lia.
Qed.
End serving.
