(* ===== verification/JournalLog.v ===== *)
(** * A segment as a log

    The abstract log that a segment promises its clients to be ([log_step]), the
    requests of clients and the rounds of the index thread as operations on a
    node ([seg_step]), the notices with which the placement center creates a
    segment, and that a segment that was created so behaves as the log. *)

From Stdlib Require Import String.
From stdpp Require Import sorting.
From S2P Require Import Prelude Bytes RustStr Storage RocksEngine PlacementStore PlacementCache PlacementRoute RaftLog RaftMachine KvService JournalService JournalCodec SegmentFile SegmentFacts JournalIndex JournalNode JournalServer JournalIndexFacts JournalNodeFacts.

(** ** The log *)

Inductive seg_op : Type :=
| SWrite (msgs : list WriteReqMessages)
| SRead (offset : Z) (options : ReadReqOptions)
| SBuild
| SClock (now : Z).
Inductive seg_answer : Type :=
| Written (l : list WriteRespMessageStatus)
| Found (l : list ReadRespMessage)
| Silent.

(** A record as a client gets it. *)
Definition record_message (r : JournalRecord) : ReadRespMessage :=
  mkReadRespMessage (jr_offset r) (jr_key r) (jr_content r) (jr_tags r) (jr_create_time r).

Section spec.
Context {PR : Prost JournalRecord} {MZ : MapIterZ} (i : SegmentIdentity).

(** The records that a batch adds: the offsets go on where the log ends. *)
Definition appended (now : Z) (log : list JournalRecord) (msgs : list WriteReqMessages) : list JournalRecord :=
  numbered (blen log) (map (new_record now (request i msgs)) msgs).

Definition log_step (op : seg_op) (s : list JournalRecord * Z) : seg_answer * (list JournalRecord * Z) :=
  let (log, now) := s in
  match op with
  | SWrite msgs => (Written (statuses (assigned (blen log) (map wm_pkid msgs))), (log ++ appended now log msgs, now))
  | SRead offset options =>
      (Found (map record_message (page (op_max_size options) (op_max_record options) (drop (Z.to_nat offset) log))), s)
  | SBuild => (Silent, s)
  | SClock now => (Silent, (log, now))
  end.
Fixpoint log_run (ops : list seg_op) (s : list JournalRecord * Z) : list seg_answer * (list JournalRecord * Z) :=
  match ops with
  | [] => ([], s)
  | op :: ops => let (a, s) := log_step op s in let (l, s) := log_run ops s in (a :: l, s)
  end.

(** The batches are of records that can be stored and indexed, and the log stays
    below [bound] records. *)
Definition op_ok (bound : Z) (op : seg_op) (s : list JournalRecord * Z) : Prop :=
  match op with
  | SWrite msgs =>
      batch_ok s.1 (map (new_record s.2 (request i msgs)) msgs) /\ blen s.1 + blen msgs <= bound
  | _ => True
  end.
Fixpoint ops_ok (bound : Z) (ops : list seg_op) (s : list JournalRecord * Z) : Prop :=
  match ops with
  | [] => True
  | op :: ops => op_ok bound op s /\ ops_ok bound ops (log_step op s).2
  end.
End spec.

(** ** The segment *)

Section segment.
Context {F : Type} {FS : Files F} {FP : FilesSpec F} {FR : FilesReliable F} {RB : ReadBuf} {BS : ReadBufSpec}
        {D : Type} {RD : RocksDB D} {RS : RocksSpec D} {RR : RocksReliable D} {P : Type} {JP : JournalPlacement P}
        {PR : Prost JournalRecord} {PS : ProstSpec JournalRecord} {MJ : MetaJson}
        {JWS : JsonSpec StorageDataWrap} {JZS : JsonSpec Z} {JSH : JsonSpec JournalShard} {JSG : JsonSpec JournalSegment}
        {JSM : JsonSpec JournalSegmentMetadata} {JI : Json IndexData} {JIS : JsonSpec IndexData}
        {JC : Json JournalShardConfig} {MI : MapIter} {MZ : MapIterZ} {MZS : MapIterZSpec MZ} {ET : ErrorText}
        (conf : JournalServerConfig).
Local Abbreviation Node := (@Node F D P).
Implicit Types (n : JournalNode F D P) (i : SegmentIdentity) (sf : SegmentFile) (rs : list JournalRecord).

Definition set_clock (now : Z) : Node unit :=
  fun n => (Ok tt, mkJournalNode (jn_files n) (jn_db n) (jn_placement n) (jn_cache n) (jn_segment_files n) now).

Definition seg_step i (op : seg_op) : Node seg_answer :=
  match op with
  | SWrite msgs =>
      let! r := handle_write conf (Some (mkWriteReqBody [request i msgs])) in ret (Written (concat (map wp_messages r)))
  | SRead offset options =>
      let! r := handle_read conf (Some (read_request i 0 (Some (mkReadReqFilter 0 offset [] [])) (Some options))) in
      ret (Found (concat (map rp_messages r)))
  | SBuild => build_index_round i ;; ret Silent
  | SClock now => set_clock now ;; ret Silent
  end.

Lemma read_messages rds : Forall (fun d => 0 <= jr_offset (rd_record d) < 2 ^ 64) rds -> map read_message rds = map record_message (map rd_record rds).
Proof.
  intros Hr. rewrite map_map. induction Hr as [|d rds Hd Hr IH]; [done|]. cbn [map]. rewrite IH. f_equal.
  unfold read_message, record_message. by rewrite wrap64_small.
Qed.

Lemma log_range rs rds :
  log_ok rs -> blen rs < 2 ^ 40 -> (forall rd, rd ∈ rds -> rd ∈ placed 0 rs) ->
  Forall (fun d => 0 <= jr_offset (rd_record d) < 2 ^ 64) rds.
Proof.
  intros Hl Hb Hin. apply Forall_forall. intros rd [j Hj%placed_lookup]%Hin%list_elem_of_lookup.
  rewrite (Hl j _ Hj). apply lookup_lt_Some in Hj. unfold blen in Hb. lia.
Qed.

Lemma prefix_elem {A} (l1 l2 : list A) x : l1 `prefix_of` l2 -> x ∈ l1 -> x ∈ l2.
Proof. intros [l ->] Hx. set_solver. Qed.
Lemma drop_elem {A} k (l : list A) x : x ∈ drop k l -> x ∈ l.
Proof. intros [j Hj]%list_elem_of_lookup. rewrite lookup_drop in Hj. by eapply list_elem_of_lookup_2. Qed.

(** One step of the segment is a step of the log. *)
Lemma seg_step_ok n i sf rs k op bound :
  serving conf n i sf rs k -> bound < 10000 -> blen rs <= bound -> op_ok i bound op (rs, jn_now_second n) ->
  exists n' k', seg_step i op n = (Ok (log_step i op (rs, jn_now_second n)).1, n') /\
    (log_step i op (rs, jn_now_second n)).2.2 = jn_now_second n' /\ jn_placement n' = jn_placement n /\
    serving conf n' i sf (log_step i op (rs, jn_now_second n)).2.1 k' /\
    blen (log_step i op (rs, jn_now_second n)).2.1 <= bound.
Proof.
  intros Hs Hb Hl Hop. destruct op as [msgs|offset options| |now]; cbn [seg_step log_step fst snd].
  - destruct Hop as [Hbt Hlen]. cbn [fst snd] in *. pose proof (ss_seen _ _ _ _ _ _ (proj1 Hs)) as Hk.
    destruct (handle_write_ok conf n i sf rs k msgs Hs) as (n' & E & Hs' & _ & Hv1 & Hv2 & _);
      [unfold blen in Hl; lia|done|]. exists n', k.
    split; [erewrite bind_ok by exact E; cbn; by rewrite app_nil_r|]. split; [done|]. split; [done|]. split; [done|].
    unfold appended. rewrite blen_app, blen_numbered, blen_map. done.
  - exists n, k. split; [|done]. destruct Hs as (S & _).
    erewrite bind_ok.
    2: { eapply handle_read_ok; [by eapply ss_located|]. eapply read_by_offset_ok; [done|].
         pose proof (ss_seen _ _ _ _ _ _ S). unfold blen in Hl. lia. }
    cbn [default fl_offset read_answer map concat rp_messages]. rewrite app_nil_r.
    rewrite read_messages.
    2: { eapply log_range; [by eapply ss_log|by eapply ss_len|]. intros rd Hin.
         apply (prefix_elem _ _ _ (batch_prefix _ _ _)) in Hin. rewrite from_offset_log in Hin by by eapply ss_log.
         by apply drop_elem in Hin. }
    rewrite batch_page, from_offset_log by by eapply ss_log. by rewrite <- skipn_map, placed_records.
  - destruct (build_round_serving conf n i sf rs k Hs) as (n' & k' & E & Hs' & (Hv1 & Hv2 & _) & _). exists n', k'.
    split; [by erewrite bind_ok by exact E|]. done.
  - eexists _, k. split; [by erewrite bind_ok by reflexivity|]. split; [done|]. split; [done|]. split; [|done].
    destruct Hs as ([S1 S2 S3 S4 S5 S6 S7 SB S8 S9 S10 S11 S12 SS S13 SN S14] & Hw). split; [by constructor|done].
Qed.

Lemma seg_run_ok ops bound n i sf rs k :
  serving conf n i sf rs k -> bound < 10000 -> blen rs <= bound -> ops_ok i bound ops (rs, jn_now_second n) ->
  exists n' k', collect ops (seg_step i) n = (Ok (log_run i ops (rs, jn_now_second n)).1, n') /\
    jn_placement n' = jn_placement n /\ (log_run i ops (rs, jn_now_second n)).2.2 = jn_now_second n' /\
    serving conf n' i sf (log_run i ops (rs, jn_now_second n)).2.1 k' /\
    blen (log_run i ops (rs, jn_now_second n)).2.1 <= bound.
Proof.
  revert n rs k. induction ops as [|op ops IH]; intros n rs k Hs Hb Hl Hok; cbn [collect log_run]; [by exists n, k|].
  destruct Hok as [Hop Hok]. destruct (seg_step_ok n i sf rs k op bound Hs Hb Hl Hop) as (n1 & k1 & E1 & Hn & Hp & Hs1 & Hl1).
  destruct (log_step i op (rs, jn_now_second n)) as [a [rs1 now1]]. cbn [fst snd] in *. subst now1.
  destruct (IH n1 rs1 k1 Hs1 Hb Hl1 Hok) as (n2 & k2 & E2 & Hp2 & Hn2 & Hs2).
  destruct (log_run i ops (rs1, jn_now_second n1)) as [l s2]. cbn [fst snd] in *.
  exists n2, k2. split; [|split; [congruence|done]]. erewrite bind_ok by exact E1. by erewrite bind_ok by exact E2.
Qed.

(** ** The creation of a segment *)

Definition notice_of {A : Type} {J : Json A} (resource : JournalUpdateCacheResourceType) (a : A) : JournalInnerCallMessage :=
  mkJournalInnerCallMessage UC_Set resource (conf_cluster_name conf) (json a).
(** What [create_shard] of the placement center sends. *)
Definition creation (shard : JournalShard) (segment : JournalSegment) (meta : JournalSegmentMetadata) : list JournalInnerCallMessage :=
  [notice_of RT_SegmentMeta meta; notice_of RT_Shard shard; notice_of RT_Segment segment].

Definition segment_of (shard : JournalShard) (seq : Z) : SegmentIdentity :=
  mkSegmentIdentity (js_namespace shard) (js_shard_name shard) seq.

(** A node that has never seen the segment. *)
Definition unseen n i sf : Prop :=
  jc_get_segment i (jn_cache n) = None /\ fs_exists (segment_path sf) (jn_files n) = false /\
  segment_writes (jn_cache n) !! iden_name i = None /\ segment_index_build_thread (jn_cache n) !! iden_name i = None /\
  index_open (jn_db n) /\ forall k v, idx (jn_db n) !! k = Some v -> starts_with (segment_index_prefix i) k = false.
(** The three records describe one segment, which this node leads and which has
    no end. *)
Definition leads i sf (shard : JournalShard) (segment : JournalSegment) (meta : JournalSegmentMetadata) : Prop :=
  i = segment_of shard (sg_segment_seq segment) /\ sg_namespace segment = si_namespace i /\
  sg_shard_name segment = si_shard_name i /\ mt_namespace meta = si_namespace i /\ mt_shard_name meta = si_shard_name i /\
  mt_segment_seq meta = si_segment_seq i /\ mt_end_offset meta <= 0 /\ allow_read segment = true /\
  sg_leader segment = conf_node_id conf /\
  exists fold, get_fold (conf_node_id conf) segment = Some fold /\
    sf = SegmentFile_new (si_namespace i) (si_shard_name i) (si_segment_seq i) fold.

Lemma parsed_json {A} {J : Json A} {JS : JsonSpec A} (a : A) (f : A -> Node unit) : parsed (json a) f = f a.
Proof. unfold parsed. by destruct (json_ok a) as (_ & _ & ->). Qed.

Lemma grpc_notice {A} {J : Json A} resource (a : A) :
  grpc_update_cache conf (notice_of resource a) = parse_notification conf (F := F) (D := D) (P := P) UC_Set resource (json a).
Proof. unfold grpc_update_cache. cbn [notice_of cm_cluster_name]. by rewrite bool_decide_eq_false_2 by congruence. Qed.
Lemma unseen_key (m : gmap bytes bytes) i s :
  (forall k v, m !! k = Some v -> starts_with (segment_index_prefix i) k = false) -> m !! (segment_index_prefix i ++ s) = None.
Proof. intros Hm. destruct (m !! _) eqn:E; [|done]. apply Hm in E. by rewrite starts_with_app in E. Qed.

Lemma lists_none (m : gmap bytes bytes) p X :
  (forall k v, m !! k = Some v -> starts_with p k = false) -> (forall x, ~ X x) -> lists m p X.
Proof. intros Hm HX. split; [intros k v Hk Hp; by rewrite (Hm k v Hk) in Hp|intros x Hx; by destruct (HX x)]. Qed.
Lemma indexed_none (m : gmap bytes bytes) i :
  (forall k v, m !! k = Some v -> starts_with (segment_index_prefix i) k = false) -> indexed m i (-1) [].
Proof.
  intros Hm. assert (forall p k v, m !! k = Some v -> starts_with (segment_index_prefix i ++ p) k = false) as Hp.
  { intros p k v Hk%Hm. apply not_true_is_false. intros [t ->]%starts_with_inv. by rewrite <- app_assoc, starts_with_app in Hk. }
  split_and!; [intros tag _|intros key _ _|exists (fun _ => False); split].
  1, 2: apply lists_none; [apply Hp|]; intros x (rd & Hin & _); by apply elem_of_nil in Hin.
  - apply lists_none; [apply Hp|auto].
  - split; [done|]. intros _ rd Hin. by apply elem_of_nil in Hin.
Qed.

Lemma get_set_meta i meta c :
  mt_namespace meta = si_namespace i -> mt_shard_name meta = si_shard_name i -> mt_segment_seq meta = si_segment_seq i ->
  jc_get_segment_meta i (jc_set_segment_meta meta c) = Some meta.
Proof.
  intros H1 H2 H3. unfold jc_get_segment_meta, jc_set_segment_meta, iden_shard. rewrite H1, H2, H3.
  destruct (segment_metadatas c !! _); cbn; rewrite lookup_insert_eq; [apply lookup_insert_eq|apply lookup_singleton_eq].
Qed.
Lemma get_set_segment i segment c :
  sg_namespace segment = si_namespace i -> sg_shard_name segment = si_shard_name i -> sg_segment_seq segment = si_segment_seq i ->
  jc_get_segment i (jc_set_segment conf segment c) = Some segment.
Proof.
  intros H1 H2 H3. unfold jc_get_segment, jc_set_segment, iden_shard. rewrite H1, H2, H3.
  destruct (segments c !! _); destruct (_ =? _); cbn; rewrite lookup_insert_eq;
    first [apply lookup_insert_eq|apply lookup_singleton_eq].
Qed.
Lemma set_segment_frame segment c :
  shards (jc_set_segment conf segment c) = shards c /\
  segment_metadatas (jc_set_segment conf segment c) = segment_metadatas c /\
  segment_writes (jc_set_segment conf segment c) = segment_writes c /\
  segment_index_build_thread (jc_set_segment conf segment c) = segment_index_build_thread c.
Proof. unfold jc_set_segment. destruct (segments c !! _); by destruct (_ =? _). Qed.
Lemma set_meta_frame meta c :
  shards (jc_set_segment_meta meta c) = shards c /\ segments (jc_set_segment_meta meta c) = segments c /\
  segment_writes (jc_set_segment_meta meta c) = segment_writes c /\
  segment_index_build_thread (jc_set_segment_meta meta c) = segment_index_build_thread c.
Proof. unfold jc_set_segment_meta. by destruct (segment_metadatas c !! _). Qed.

(** The notices make the node serve an empty segment. *)
Lemma creation_serves n i sf shard segment meta :
  unseen n i sf -> leads i sf shard segment meta ->
  exists n', for_each (creation shard segment meta) (grpc_update_cache conf) n = (Ok tt, n') /\
    serving conf n' i sf [] 0 /\ start_of n' i = -1 /\ jn_now_second n' = jn_now_second n /\ jn_placement n' = jn_placement n.
Proof.
  intros (U1 & U2 & U3 & U4 & U5 & U6) (Li & L1 & L2 & L3 & L4 & L5 & L6 & L7 & L8 & fold & L9 & Lsf).
  assert (sg_segment_seq segment = si_segment_seq i) as Lq by by subst i.
  unfold creation. rewrite for_each_cons, grpc_notice. cbn [parse_notification parse_segment_meta]. rewrite parsed_json.
  erewrite bind_ok by reflexivity. rewrite for_each_cons, grpc_notice. cbn [parse_notification parse_shard].
  rewrite parsed_json. erewrite bind_ok by reflexivity. rewrite for_each_cons, grpc_notice.
  cbn [parse_notification parse_segment]. rewrite parsed_json.
  cbn [jn_files jn_db jn_placement jn_cache jn_segment_files jn_now_second].
  set (c1 := jc_set_shard shard (jc_set_segment_meta meta (jn_cache n))).
  destruct (set_meta_frame meta (jn_cache n)) as (F1 & F2 & F3 & F4).
  destruct (try_create_ok sf (jn_files n)) as (f' & Ef & Hf). rewrite U2 in Hf.
  erewrite bind_ok.
  2: { unfold logged_node, create_local_segment. erewrite bind_ok by reflexivity. cbn [jn_cache]. rewrite L1, L2, Lq.
       replace (mkSegmentIdentity (si_namespace i) (si_shard_name i) (si_segment_seq i)) with i by by destruct i.
       replace (jc_get_segment i c1) with (None : option JournalSegment).
       2: { rewrite <- U1. unfold jc_get_segment, c1. cbn [jc_set_shard set_shards segments]. by rewrite F2. }
       cbn [is_some]. rewrite L9. erewrite bind_ok by reflexivity. rewrite <- Lsf.
       erewrite bind_ok by (unfold on_files; cbn [jn_files]; rewrite Ef; reflexivity).
       erewrite bind_ok by reflexivity. reflexivity. }
  eexists. split; [reflexivity|].
  destruct (set_segment_frame segment c1) as (G1 & G2 & G3 & G4). cbn [jn_cache jn_files jn_db jn_segment_files].
  match goal with |- serving _ ?n' _ _ _ _ /\ _ => assert (start_of n' i = -1) as Hso end.
  { unfold start_of. cbn [jn_segment_files]. by rewrite lookup_insert_eq. }
  split; [|done]. split.
  - constructor; rewrite ?Hso; cbn [jn_cache jn_files jn_db jn_segment_files]; try done.
    + exists segment, fold, meta. split; [by apply get_set_segment|]. do 4 (split; [done|]). split.
      { unfold jc_get_segment_meta. rewrite G2. unfold c1. cbn [jc_set_shard set_shards segment_metadatas].
        fold (jc_get_segment_meta i (jc_set_segment_meta meta (jn_cache n))). by apply get_set_meta. }
      split; [done|]. unfold jc_get_shard. rewrite G1. unfold c1. cbn [jc_set_shard set_shards shards].
      subst i. cbn. rewrite lookup_insert_eq. by eexists.
    + by rewrite Hf, lookup_insert_eq.
    + eexists. split; [apply lookup_insert_eq|done].
    + by left.
    + by apply indexed_none.
    + by apply unseen_key.
    + by apply unseen_key.
    + by apply unseen_key.
    + by apply unseen_key.
    + repeat constructor; exists None; (split; [by apply unseen_key|done]).
    + rewrite G4. unfold c1. cbn [jc_set_shard set_shards segment_index_build_thread]. by rewrite F4, U4.
  - intros w. cbn [jn_cache]. rewrite G3. unfold c1. cbn [jc_set_shard set_shards segment_writes]. by rewrite F3, U3.
Qed.

(** ** Rounds of the index thread *)

Definition rounds i (m : nat) : Node unit := for_each (repeat tt m) (fun _ => build_index_round i).

(** Every round but the last takes in at least 99 new records. *)
Lemma rounds_ok m n i sf rs k :
  serving conf n i sf rs k -> building n i -> rs <> [] ->
  exists n' k', rounds i m n = (Ok tt, n') /\ serving conf n' i sf rs k' /\ start_of n' i = start_of n i /\
    (Nat.min (length rs) (k + 99 * m) <= k')%nat.
Proof.
  revert n k. induction m as [|m IH]; intros n k Hs [t Et] Hne.
  { exists n, k. split; [done|]. split; [done|]. split; [done|]. lia. }
  destruct (build_index_round_ok conf n i sf rs k t Hs Hne Et) as (d & E1 & Hs1).
  destruct (IH _ _ Hs1) as (n2 & k2 & E2 & Hs2 & Ht2 & Hk2); [by eexists; apply lookup_insert_eq|done|].
  exists n2, k2. split; [|split; [done|split; [done|]]].
  - unfold rounds. cbn [repeat]. rewrite for_each_cons. by erewrite bind_ok by exact E1.
  - unfold round_end in Hk2. lia.
Qed.

(** A read by tag of a segment that is indexed. *)
Lemma tag_read_ok n i sf rs k tag offset options :
  serving conf n i sf rs k -> (length rs <= k)%nat -> slash ∉ tag -> blen rs < op_max_record options ->
  exists l, handle_read conf (Some (read_request i 2 (Some (mkReadReqFilter 0 offset [] tag)) (Some options))) n =
      (Ok [mkReadRespSegmentMessage (si_namespace i) (si_shard_name i) (si_segment_seq i) (map record_message l)], n) /\
    l ≡ₚ filter (fun r => tag ∈ jr_tags r /\ offset <= jr_offset r) rs.
Proof.
  intros (S & _) Hk Ht Hn. pose proof (ss_log _ _ _ _ _ _ S) as Hl.
  destruct (read_by_tag_ok conf n i sf rs k (mkReadReqFilter 0 offset [] tag) options S Ht Hn) as (rds & E & Hnd & Hin).
  assert (take k (placed 0 rs) = placed 0 rs) as Hall by (apply take_ge; by rewrite length_placed).
  rewrite Hall in Hin. cbn [fl_tag fl_offset] in Hin. exists (map rd_record rds). split.
  - rewrite <- read_messages.
    2: { eapply log_range; [done|by eapply ss_len|]. by intros rd [? _]%Hin. }
    eapply handle_read_ok; [by eapply ss_located|]. exact E.
  - apply NoDup_Permutation.
    + apply NoDup_fmap_2_strong; [|done]. intros rd rd' [Hr _]%Hin [Hr' _]%Hin E'. eapply placed_unique; [done..|by rewrite E'].
    + apply NoDup_filter, NoDup_alt. intros j j' r Hj Hj'. apply Hl in Hj, Hj'. lia.
    + intros r. rewrite list_elem_of_fmap, list_elem_of_filter. split.
      * intros (rd & -> & (Hr & H1 & H2)%Hin). split; [done|]. apply list_elem_of_lookup in Hr as [j Hj%placed_lookup].
        by eapply list_elem_of_lookup_2.
      * intros [[H1 H2] Hr]. rewrite <- (placed_records 0 rs), list_elem_of_fmap in Hr. destruct Hr as (rd & -> & Hr).
        exists rd. split; [done|]. by apply Hin.
Qed.

(** ** A read that uses the index by offset *)

Lemma sampled_iff j : Z.of_nat j < 19999 -> sampled (-1) (Z.of_nat j) = true <-> Z.of_nat j = 9999.
Proof.
  intros Hj. unfold sampled, BUILD_INDE_PER_RECORD_NUM. replace (Z.of_nat j - -1) with (Z.of_nat j + 1) by lia.
  rewrite Z.rem_mod_nonneg, Z.eqb_eq by lia. split; [|by intros ->].
  intros Hm. pose proof (Z_div_mod_eq_full (Z.of_nat j + 1) 10000) as Hd. rewrite Hm in Hd.
  assert ((Z.of_nat j + 1) / 10000 < 2) by (apply Z.div_lt_upper_bound; lia).
  assert (0 < (Z.of_nat j + 1) / 10000) by lia. lia.
Qed.

(** With one sampled record, every read from before it starts at it. *)
Lemma read_from_sample n i sf rs k offset options :
  segment_state conf n i sf rs k -> start_of n i = -1 -> 10000 <= Z.of_nat k -> blen rs < 20000 -> 0 <= offset <= 9999 ->
  exists rds, read_records_by_offset sf i (mkReadReqFilter 0 offset [] []) options n = (Ok rds, n) /\
    map rd_record rds = page (op_max_size options) (op_max_record options) (drop (Z.to_nat 9999) rs).
Proof.
  intros S Hst Hk Hb Ho. unfold read_records_by_offset.
  destruct (ss_indexed _ _ _ _ _ _ S) as (_ & _ & X & H3 & HX & HX'). rewrite Hst in HX.
  pose proof (ss_log _ _ _ _ _ _ S) as Hl. pose proof (ss_seen _ _ _ _ _ _ S) as Hseen. unfold blen in Hb.
  destruct (nearest_ok (jn_db n) _ _ (fun x => ix_offset x <? offset) (ss_open _ _ _ _ _ _ S) H3) as (o & En & Hx).
  erewrite bind_ok by by apply on_index_ok.
  set (j0 := Z.to_nat 9999) in *. assert (Z.of_nat j0 = 9999) as Hj0 by (unfold j0; lia).
  destruct (lookup_lt_is_Some_2 rs j0) as [r0 Hr0]; [lia|].
  pose proof (take_drop_middle rs j0 r0 Hr0) as Hsplit. set (rs1 := take j0 rs) in *.
  assert (length rs1 = j0) as Hlen1 by (unfold rs1; rewrite length_take; lia).
  assert (placed 0 rs !! j0 = Some (mkReadData (blen (stored rs1)) r0)) as Hd0.
  { rewrite <- Hsplit, placed_app, lookup_app_r by (rewrite length_placed; lia).
    by rewrite length_placed, Hlen1, Nat.sub_diag. }
  destruct o as [x|].
  - destruct Hx as [(rd & Hin & [Hs|[? _]] & ->)%HX _]; [|done]. apply list_elem_of_lookup in Hin as [j [Hj Hlt]%lookup_take_Some].
    pose proof (Hl j _ (placed_lookup _ _ _ _ Hj)) as Hoff. rewrite Hoff in Hs.
    apply sampled_iff in Hs; [|apply lookup_lt_Some in Hj; rewrite length_placed in Hj; lia].
    replace j with j0 in Hj by lia. rewrite Hd0 in Hj. injection Hj as <-. cbn [entry_of ix_position rd_position].
    eexists. split; [rewrite <- Hsplit in S; by apply (read_file_ok conf n i sf rs1 (r0 :: drop (Datatypes.S j0) rs) k)|].
    rewrite batch_page. f_equal. rewrite (from_offset_drop offset _ j0).
    + replace (Z.to_nat offset - j0)%nat with 0%nat by lia. rewrite drop_0, placed_records. by rewrite (drop_S _ _ _ Hr0).
    + intros j' d Hd. apply placed_lookup in Hd. apply Hl. rewrite <- Hsplit, lookup_app_r by lia.
      by replace (j0 + j' - length rs1)%nat with j' by lia.
  - exfalso. assert (X (entry_of (mkReadData (blen (stored rs1)) r0))) as Hsx.
    { apply HX'; [done| |cbn; rewrite (Hl j0 r0 Hr0); by apply sampled_iff; lia].
      apply list_elem_of_lookup. exists j0. apply lookup_take_Some. split; [exact Hd0|lia]. }
    apply Hx, Z.ltb_lt in Hsx. cbn in Hsx. rewrite (Hl j0 r0 Hr0) in Hsx. lia.
Qed.
End segment.
