(* ===== verification/JournalRestart.v ===== *)
(** * A node that restarts

    [init_node] on the files and the index that a node left behind: what is
    known of a segment is read from the placement center and from the local
    index, and the segment is served as before. *)

From Stdlib Require Import String.
From stdpp Require Import sorting.
From S2P Require Import Prelude Bytes RustStr Storage RocksEngine PlacementStore PlacementCache PlacementRoute RaftLog RaftMachine KvService JournalService JournalCodec SegmentFile SegmentFacts JournalIndex JournalNode JournalServer JournalIndexFacts JournalNodeFacts JournalLog.

(** ** Paths *)

Lemma split_on_last sep (a b : bytes) : sep ∉ b -> last (split_on sep (a ++ sep :: b)) = Some b.
Proof.
  intros Hb. induction a as [|c a IH]; cbn [app split_on].
  - rewrite Z.eqb_refl, split_on_single by done. done.
  - destruct (c =? sep); [|].
    + rewrite last_cons. by rewrite IH.
    + destruct (split_on sep (a ++ sep :: b)) as [|p ps] eqn:E; [by apply split_on_nonempty in E|].
      destruct ps as [|q ps]; [|exact IH].
      exfalso. pose proof (join_split sep (a ++ sep :: b)) as Hj. rewrite E in Hj. cbn in Hj.
      pose proof (split_on_pieces sep (a ++ sep :: b)) as Hp. rewrite E in Hp. apply Forall_inv in Hp. rewrite Hj in Hp. set_solver.
Qed.

Lemma replace_none fuel p by_ s : contains_text p s = false -> replace_loop fuel p by_ s = s.
Proof.
  revert s. induction fuel as [|fuel IH]; intros s Hs; [by destruct s|]. destruct s as [|c s]; [done|].
  cbn [contains_text] in Hs. apply orb_false_iff in Hs as [H1 H2]. cbn [replace_loop]. by rewrite H1, IH.
Qed.
Lemma replace_hit fuel p s : p <> [] -> replace_loop (S fuel) p [] (p ++ s) = replace_loop fuel p [] s.
Proof.
  intros Hp. destruct (p ++ s) as [|c t] eqn:E; [by apply app_eq_nil in E as [-> _]|]. cbn [replace_loop].
  by rewrite <- E, starts_with_app, drop_app_length.
Qed.
Lemma replace_prefix p s : p <> [] -> contains_text p s = false -> replace_str p [] (p ++ s) = s.
Proof.
  intros Hp Hs. unfold replace_str. destruct (length (p ++ s)) as [|f] eqn:E.
  - apply nil_length_inv, app_eq_nil in E as [-> _]. done.
  - rewrite replace_hit by done. by apply replace_none.
Qed.
Lemma replace_suffix c p a : c ∉ a -> replace_str (c :: p) [] (a ++ c :: p) = a.
Proof.
  intros Ha. unfold replace_str. induction a as [|x a IH].
  - pose proof (replace_prefix (c :: p) []) as Hr. rewrite app_nil_r in Hr. by apply Hr.
  - cbn [app length replace_loop]. destruct (starts_with (c :: p) (x :: a ++ c :: p)) eqn:E.
    + apply starts_with_inv in E as [t Ht]. injection Ht as -> _. set_solver.
    + f_equal. apply IH. set_solver.
Qed.

Lemma decimal_no_dot n : 46 ∉ decimal n.
Proof.
  intros Hin. pose proof (decimal_loop_digits 20 n) as Hd. rewrite Forall_forall in Hd. apply Hd in Hin. lia.
Qed.
Lemma parse_u32_decimal n : 0 <= n < 2 ^ 32 -> parse_u32 (decimal n) = Some n.
Proof. intros Hn. unfold parse_u32. rewrite parse_u64_decimal by lia. by rewrite (proj2 (Z.ltb_lt _ _)) by lia. Qed.

(** The name of a segment file is read back. *)
Lemma segment_number dir seq :
  0 <= seq < 2 ^ 32 ->
  parse_u32 (replace_str (lit ".msg") [] (default [] (last (split_on slash (dir ++ lit "/" ++ (decimal seq ++ lit ".msg")))))) = Some seq.
Proof.
  intros Hs. change (lit "/" ++ (decimal seq ++ lit ".msg")) with (slash :: (decimal seq ++ lit ".msg")).
  rewrite split_on_last.
  - cbv [default from_option id]. change (lit ".msg") with (46 :: lit "msg"). rewrite replace_suffix by apply decimal_no_dot.
    by apply parse_u32_decimal.
  - pose proof (decimal_no_slash seq). intros [H1|H1]%elem_of_app; [done|]. vm_compute in H1. set_solver.
Qed.
Lemma fold_names_shard fold ns sh :
  fold <> [] -> contains_text fold (lit "/" ++ ns ++ lit "/" ++ sh) = false -> slash ∉ ns -> slash ∉ sh ->
  fold_names [fold] (fold ++ lit "/" ++ (ns ++ lit "/" ++ sh)) = [ns; sh].
Proof.
  intros Hf Hc Hn Hs. unfold fold_names. cbn [foldl]. rewrite replace_prefix by done.
  change (split_on slash (ns ++ slash :: sh) = [ns; sh]).
  rewrite split_on_app by done. by rewrite split_on_single.
Qed.

(** ** The start of a node *)

Section restart.
Context {F : Type} {FS : Files F} {FP : FilesSpec F} {FR : FilesReliable F} {RB : ReadBuf} {BS : ReadBufSpec}
        {D : Type} {RD : RocksDB D} {RS : RocksSpec D} {RR : RocksReliable D} {P : Type} {JP : JournalPlacement P}
        {PR : Prost JournalRecord} {PS : ProstSpec JournalRecord} {MJ : MetaJson}
        {JWS : JsonSpec StorageDataWrap} {JZS : JsonSpec Z} {JI : Json IndexData} {JIS : JsonSpec IndexData}
        {JX : Json JournalNodeExtend}
        {JC : Json JournalShardConfig} {JLS : Json (list JournalShard)} {JLG : Json (list JournalSegment)}
        {JLM : Json (list JournalSegmentMetadata)} {MI : MapIter} {MZ : MapIterZ} {ET : ErrorText}
        (conf : JournalServerConfig).
Local Abbreviation Node := (@Node F D P).
Implicit Types (n : JournalNode F D P) (i : SegmentIdentity) (sf : SegmentFile) (rs : list JournalRecord).

(** What is left of a node that has stopped: files, index and the placement
    center. *)
Definition stopped n : JournalNode F D P :=
  mkJournalNode (jn_files n) (jn_db n) (jn_placement n) CacheManager_new ∅ (jn_now_second n).

(** The data directory holds the index and the one segment. *)
Definition tree (f : F) (fold : bytes) i : Prop :=
  let ns := fold ++ lit "/" ++ si_namespace i in
  let dir := data_fold_shard (si_namespace i) (si_shard_name i) fold in
  (fs_read_dir fold f = inr [(fold ++ lit "/_index", true); (ns, true)] \/
   fs_read_dir fold f = inr [(ns, true); (fold ++ lit "/_index", true)]) /\
  fs_read_dir ns f = inr [(dir, true)] /\
  fs_read_dir dir f = inr [(data_file_segment dir (si_segment_seq i), false)].
(** The names in a path can be told apart. *)
Definition names_ok (fold : bytes) i : Prop :=
  fold <> [] /\ contains_text fold (lit "/" ++ si_namespace i ++ lit "/" ++ si_shard_name i) = false /\
  slash ∉ si_namespace i /\ slash ∉ si_shard_name i /\ si_namespace i <> lit "_index" /\ 0 <= si_segment_seq i < 2 ^ 32.

(** What the placement center answers; the segment is the only one of its
    name. *)
Definition recovers (p p' : P) (shard : JournalShard) (segment : JournalSegment) (meta : JournalSegmentMetadata) : Prop :=
  let cn := conf_cluster_name conf in
  exists nodes p1 b2 shards p2 b3 segments p3 b4 metas p4 e,
    jp_node_list cn p = (Ok nodes, p1) /\ Forall (fun raw => exists node : BrokerNode, from_slice raw = inr node) nodes /\
    jp_list_shard cn p1 = (Ok b2, p2) /\ from_slice b2 = inr shards /\ shard ∈ shards /\
    jp_list_segment cn p2 = (Ok b3, p3) /\ from_slice b3 = inr segments /\ segment ∈ segments /\
    (forall s, s ∈ segments -> shard_name_iden (sg_namespace s) (sg_shard_name s) =
        shard_name_iden (sg_namespace segment) (sg_shard_name segment) -> sg_segment_seq s = sg_segment_seq segment -> s = segment) /\
    jp_list_segment_meta cn p3 = (Ok b4, p4) /\ from_slice b4 = inr metas /\ meta ∈ metas /\
    (forall m, m ∈ metas -> shard_name_iden (mt_namespace m) (mt_shard_name m) =
        shard_name_iden (mt_namespace meta) (mt_shard_name meta) -> mt_segment_seq m = mt_segment_seq meta -> m = meta) /\
    to_vec (mkJournalNodeExtend (conf_data_path conf) (conf_local_ip conf ++ lit ":" ++ decimal (conf_tcp_port conf))
              (conf_local_ip conf ++ lit ":" ++ decimal (conf_tcps_port conf))) = inr e /\
    jp_register_node (mkRegisterJournalNode cn (conf_node_id conf) (conf_local_ip conf)
        (conf_local_ip conf ++ lit ":" ++ decimal (conf_grpc_port conf)) e) p4 = (Ok tt, p').

(** A list of changes of the cache. *)
Lemma for_each_cache {A} (l : list A) (f : A -> CacheManager -> CacheManager) n :
  for_each l (fun a => on_cache (f a)) n =
  (Ok tt, mkJournalNode (jn_files n) (jn_db n) (jn_placement n) (foldl (fun c a => f a c) (jn_cache n) l)
            (jn_segment_files n) (jn_now_second n)).
Proof.
  revert n. induction l as [|a l IH]; intros n; [by destruct n|]. rewrite for_each_cons.
  erewrite bind_ok by reflexivity. by rewrite IH.
Qed.

(** The cache after the metadata is loaded: it has what was listed. *)
Lemma foldl_last {A B} (f : B -> A -> B) (Q : B -> Prop) (l : list A) a b :
  a ∈ l -> (forall b, Q (f b a)) -> (forall b x, x ∈ l -> Q b -> Q (f b x)) -> Q (foldl f b l).
Proof.
  intros Hin Ha Hx. assert (forall l' b, (forall x, x ∈ l' -> x ∈ l) -> Q b -> Q (foldl f b l')) as Hk.
  { induction l' as [|x l' IH]; intros b' Hl Hb; [done|]. cbn. apply IH; [set_solver|]. apply Hx; [set_solver|done]. }
  apply list_elem_of_split in Hin as (l1 & l2 & ->). rewrite foldl_app. cbn. apply Hk; [set_solver|apply Ha].
Qed.

Lemma get_set_segment_ne i s c :
  ~ (shard_name_iden (sg_namespace s) (sg_shard_name s) = iden_shard i /\ sg_segment_seq s = si_segment_seq i) ->
  jc_get_segment i (jc_set_segment conf s c) = jc_get_segment i c.
Proof.
  intros Hne. unfold jc_get_segment, jc_set_segment.
  destruct (segments c !! shard_name_iden _ _) as [l|] eqn:E; destruct (_ =? _);
    cbn [segments jc_add_leader_segment set_leader_segments set_segments];
    (destruct (decide (shard_name_iden (sg_namespace s) (sg_shard_name s) = iden_shard i)) as [Ek|Ek];
     [rewrite Ek, lookup_insert_eq|by rewrite lookup_insert_ne]);
    rewrite Ek in E; rewrite E; first [by rewrite lookup_insert_ne by tauto|by rewrite lookup_singleton_ne by tauto].
Qed.
Lemma get_set_meta_ne i s c :
  ~ (shard_name_iden (mt_namespace s) (mt_shard_name s) = iden_shard i /\ mt_segment_seq s = si_segment_seq i) ->
  jc_get_segment_meta i (jc_set_segment_meta s c) = jc_get_segment_meta i c.
Proof.
  intros Hne. unfold jc_get_segment_meta, jc_set_segment_meta.
  destruct (segment_metadatas c !! shard_name_iden _ _) as [l|] eqn:E;
    cbn [segment_metadatas set_segment_metadatas];
    (destruct (decide (shard_name_iden (mt_namespace s) (mt_shard_name s) = iden_shard i)) as [Ek|Ek];
     [rewrite Ek, lookup_insert_eq|by rewrite lookup_insert_ne]);
    rewrite Ek in E; rewrite E; first [by rewrite lookup_insert_ne by tauto|by rewrite lookup_singleton_ne by tauto].
Qed.

(** The parts of the cache that the threads are in. *)
Definition idle (c : CacheManager) : Prop := segment_writes c = ∅ /\ segment_index_build_thread c = ∅.

Lemma foldl_keep {A B} (f : B -> A -> B) (Q : B -> Prop) (l : list A) b :
  (forall b x, x ∈ l -> Q b -> Q (f b x)) -> Q b -> Q (foldl f b l).
Proof.
  revert b. induction l as [|x l IH]; intros b Hf Hb; [done|]. cbn. apply IH; [intros; apply Hf; [by right|done]|].
  apply Hf; [by left|done].
Qed.

Definition restored (c : CacheManager) shards segments metas : CacheManager :=
  foldl (fun c m => jc_set_segment_meta m c)
    (foldl (fun c s => jc_set_segment conf s c) (foldl (fun c s => jc_set_shard s c) c shards) segments) metas.

Lemma restored_ok c i sf shard segment meta shards segments metas :
  idle c -> leads conf i sf shard segment meta -> shard ∈ shards -> segment ∈ segments ->
  (forall s, s ∈ segments -> shard_name_iden (sg_namespace s) (sg_shard_name s) =
        shard_name_iden (sg_namespace segment) (sg_shard_name segment) -> sg_segment_seq s = sg_segment_seq segment -> s = segment) ->
  meta ∈ metas ->
  (forall m, m ∈ metas -> shard_name_iden (mt_namespace m) (mt_shard_name m) =
        shard_name_iden (mt_namespace meta) (mt_shard_name meta) -> mt_segment_seq m = mt_segment_seq meta -> m = meta) ->
  located conf (restored c shards segments metas) i sf /\ idle (restored c shards segments metas).
Proof.
  intros Hc (Li & L1 & L2 & L3 & L4 & L5 & L6 & L7 & L8 & fold & L9 & Lsf) Hsh Hsg Hug Hmt Hum.
  assert (sg_segment_seq segment = si_segment_seq i) as Lq by by subst i.
  set (Q1 c := is_Some (jc_get_shard (si_namespace i) (si_shard_name i) c) /\ idle c).
  set (Q2 c := jc_get_segment i c = Some segment /\ Q1 c). set (Q3 c := jc_get_segment_meta i c = Some meta /\ Q2 c).
  assert (Q1 (foldl (fun c s => jc_set_shard s c) c shards)) as H1.
  { split; [|by apply foldl_keep].
    apply (foldl_last _ (fun c => is_Some (jc_get_shard (si_namespace i) (si_shard_name i) c)) _ shard); [done|..].
    - intros b. subst i. unfold jc_get_shard. cbn. rewrite lookup_insert_eq. by eexists.
    - intros b x _ Hb. unfold jc_get_shard in *. cbn. rewrite lookup_insert. case_decide; [by eexists|done]. }
  assert (forall s c, Q1 c -> Q1 (jc_set_segment conf s c)) as K1.
  { intros s c' [? [? ?]]. destruct (set_segment_frame conf s c') as (G1 & _ & G3 & G4).
    unfold Q1, idle, jc_get_shard in *. by rewrite G1, G3, G4. }
  assert (Q2 (foldl (fun c s => jc_set_segment conf s c) (foldl (fun c s => jc_set_shard s c) c shards) segments)) as H2.
  { split; [|apply foldl_keep; auto]. apply (foldl_last _ (fun c => jc_get_segment i c = Some segment) _ segment); [done|..].
    - intros b. by apply get_set_segment.
    - intros b s Hin Hb. destruct (decide (shard_name_iden (sg_namespace s) (sg_shard_name s) = iden_shard i /\ sg_segment_seq s = si_segment_seq i)) as [[E1 E2]|E].
      + rewrite (Hug s Hin); [by apply get_set_segment| |congruence]. by rewrite E1, L1, L2.
      + by rewrite get_set_segment_ne. }
  assert (forall m c, Q2 c -> Q2 (jc_set_segment_meta m c)) as K2.
  { intros m c' [? [? [? ?]]]. destruct (set_meta_frame m c') as (G1 & G2 & G3 & G4).
    unfold Q2, Q1, idle, jc_get_shard, jc_get_segment in *. by rewrite G1, G2, G3, G4. }
  assert (Q3 (restored c shards segments metas)) as (H3 & H4 & H5 & H6).
  { unfold restored. split; [|apply foldl_keep; auto]. apply (foldl_last _ (fun c => jc_get_segment_meta i c = Some meta) _ meta); [done|..].
    - intros b. by apply get_set_meta.
    - intros b s Hin Hb. destruct (decide (shard_name_iden (mt_namespace s) (mt_shard_name s) = iden_shard i /\ mt_segment_seq s = si_segment_seq i)) as [[E1 E2]|E].
      + rewrite (Hum s Hin); [by apply get_set_meta| |congruence]. by rewrite E1, L3, L4.
      + by rewrite get_set_meta_ne. }
  split; [|done]. by exists segment, fold, meta.
Qed.

(** What [load_metadata_cache] makes of the answers. *)
Lemma loaded_ok {A} {J : Json A} (m : M P CommonError bytes) b (a : A) n p' :
  m (jn_placement n) = (Ok b, p') -> from_slice b = inr a ->
  loaded m n = (Ok a, mkJournalNode (jn_files n) (jn_db n) p' (jn_cache n) (jn_segment_files n) (jn_now_second n)).
Proof. intros Hm Ha. unfold loaded, on_placement, map_err. by rewrite Hm, Ha. Qed.

Lemma load_nodes_ok nodes n :
  Forall (fun raw => exists node : BrokerNode, from_slice raw = inr node) nodes -> idle (jn_cache n) ->
  exists c, for_each nodes (fun raw => match from_slice raw with inr node => on_cache (jc_add_node node) | inl _ => panic end) n =
    (Ok tt, mkJournalNode (jn_files n) (jn_db n) (jn_placement n) c (jn_segment_files n) (jn_now_second n)) /\ idle c.
Proof.
  intros Hn. revert n. induction Hn as [|raw nodes [node Hr] Hn IH]; intros n Hi.
  { exists (jn_cache n). split; [by destruct n|done]. }
  rewrite for_each_cons, Hr. erewrite bind_ok by reflexivity.
  match goal with |- exists c, for_each _ _ ?n1 = _ /\ _ => destruct (IH n1 Hi) as (c & E & Hc) end. by exists c.
Qed.

Lemma load_metadata_cache_ok n i sf p' shard segment meta :
  cluster (jn_cache n) = Some (JournalEngineClusterConfig_build conf) -> idle (jn_cache n) -> 3 < wrap64 (jn_now_second n) ->
  leads conf i sf shard segment meta -> recovers (jn_placement n) p' shard segment meta ->
  exists c p4, load_metadata_cache conf n =
      (Ok tt, mkJournalNode (jn_files n) (jn_db n) p4 c (jn_segment_files n) (jn_now_second n)) /\
    located conf c i sf /\ idle c /\
    forall e, register_journal_node conf (mkJournalNode (jn_files n) (jn_db n) p4 c e (jn_now_second n)) =
      (Ok tt, mkJournalNode (jn_files n) (jn_db n) p' c e (jn_now_second n)).
Proof.
  intros Hc Hi Hnow Hl (nodes & p1 & b2 & shs & p2 & b3 & sgs & p3 & b4 & mts & p4 & ex & A1 & A2 & A3 & A4 & A5 & A6 & A7 & A8 & A9 & A10 & A11 & A12 & A13 & A14 & A15).
  unfold load_metadata_cache, is_allow_update_local_cache.
  erewrite bind_ok.
  2: { erewrite bind_ok by reflexivity. erewrite bind_ok by (unfold get_cluster; erewrite bind_ok by reflexivity; rewrite Hc; reflexivity). reflexivity. }
  cbn [JournalEngineClusterConfig_build ec_last_update_local_cache_time]. rewrite Z.sub_0_r, (proj2 (Z.ltb_lt 3 _)) by done.
  cbn [negb]. erewrite bind_ok by (unfold loaded_nodes, on_placement, map_err; rewrite A1; reflexivity).
  match goal with |- context [bind (for_each nodes _) _ ?n1] => destruct (load_nodes_ok nodes n1 A2 Hi) as (c1 & E1 & I1) end.
  erewrite bind_ok by exact E1. cbn [jn_files jn_db jn_placement jn_segment_files jn_now_second].
  erewrite bind_ok by (apply (loaded_ok _ b2 shs); [exact A3|done]). erewrite bind_ok by apply for_each_cache.
  erewrite bind_ok by (apply (loaded_ok _ b3 sgs); [exact A6|done]). erewrite bind_ok by apply (for_each_cache _ (jc_set_segment conf)).
  erewrite bind_ok by (apply (loaded_ok _ b4 mts); [exact A10|done]). erewrite bind_ok by apply for_each_cache.
  erewrite bind_ok by reflexivity. cbn [jn_files jn_db jn_placement jn_cache jn_segment_files jn_now_second].
  destruct (restored_ok c1 i sf shard segment meta shs sgs mts I1 Hl A5 A8 A9 A12 A13) as [H1 H2].
  eexists _, p4. split; [reflexivity|]. cbn [jn_now_second jn_cache].
  fold (restored c1 shs sgs mts).
  match goal with |- located _ (jc_update_local_cache_time ?t ?c) _ _ /\ _ =>
    assert (shards (jc_update_local_cache_time t c) = shards c /\ segments (jc_update_local_cache_time t c) = segments c /\
      segment_metadatas (jc_update_local_cache_time t c) = segment_metadatas c /\
      segment_writes (jc_update_local_cache_time t c) = segment_writes c /\
      segment_index_build_thread (jc_update_local_cache_time t c) = segment_index_build_thread c) as (G1 & G2 & G3 & G4 & G5)
      by (unfold jc_update_local_cache_time; by destruct (cluster c)) end.
  split; [by eapply located_frame|]. split; [unfold idle; by rewrite G4, G5|].
  intros e. unfold register_journal_node. rewrite A14. unfold on_placement, map_err. cbn [jn_placement]. by rewrite A15.
Qed.

(** The metadata of the segment, as the index has it. *)
Lemma load_segment_file_ok n0 n i sf rs k fold :
  segment_state conf n0 i sf rs k -> names_ok fold i -> jn_db n = jn_db n0 ->
  exists m, load_segment_file [fold] (data_fold_shard (si_namespace i) (si_shard_name i) fold)
      (data_file_segment (data_fold_shard (si_namespace i) (si_shard_name i) fold) (si_segment_seq i)) n =
    (Ok tt, mkJournalNode (jn_files n) (jn_db n) (jn_placement n) (jn_cache n) (<[iden_name i := m]> (jn_segment_files n)) (jn_now_second n)) /\
    fm_end_offset m = blen rs - 1 /\ fm_start_offset m = match k with O => -1 | S _ => 0 end.
Proof.
  intros S (N1 & N2 & N3 & N4 & N5 & N6) Hd. pose proof (ss_open _ _ _ _ _ _ S) as Ho. rewrite <- Hd in Ho.
  pose proof (ss_numbers _ _ _ _ _ _ S) as HN. rewrite <- Hd in HN. unfold number_keys in HN.
  apply Forall_cons in HN as [_ HN]. apply Forall_cons in HN as [Ht1 HN]. apply Forall_cons in HN as [Ht2 _].
  destruct (number_at_ok _ _ Ho Ht1) as [t1 Et1]. destruct (number_at_ok _ _ Ho Ht2) as [t2 Et2].
  pose proof (ss_len _ _ _ _ _ _ S) as Hlen.
  unfold load_segment_file, data_fold_shard, data_file_segment. rewrite fold_names_shard by done.
  rewrite segment_number by done. erewrite bind_ok by reflexivity.
  replace (mkSegmentIdentity (si_namespace i) (si_shard_name i) (si_segment_seq i)) with i by by destruct i.
  erewrite bind_ok by (apply on_index_ok, get_i64_ok; [done|rewrite Hd; by eapply ss_start|by destruct k; intros ? [= <-]]).
  erewrite bind_ok by (apply on_index_ok, get_i64_ok; [done|rewrite Hd; by eapply ss_end|destruct rs; [done|]; intros ? [= <-]; lia]).
  erewrite bind_ok by by apply on_index_ok. erewrite bind_ok by by apply on_index_ok.
  eexists. split; [reflexivity|]. cbn. split; [by destruct rs|by destruct k].
Qed.

(** One directory of the walk. *)
Lemma load_dir_ok fuel fold dir l n :
  dir <> fold ++ lit "/_index" -> fs_read_dir dir (jn_files n) = inr l ->
  load_local_segment_cache (S fuel) [fold] dir n =
  for_each l (fun '(path, is_dir) => if is_dir : bool then load_local_segment_cache fuel [fold] path
                                     else load_segment_file [fold] dir path) n.
Proof.
  intros Hd Hl. cbn [load_local_segment_cache storage_data_fold]. erewrite bind_ok by reflexivity.
  rewrite bool_decide_eq_false_2 by done. erewrite bind_ok by reflexivity. by rewrite Hl.
Qed.
Lemma load_index_dir fuel fold n : load_local_segment_cache (S fuel) [fold] (fold ++ lit "/_index") n = (Ok tt, n).
Proof.
  cbn [load_local_segment_cache storage_data_fold]. erewrite bind_ok by reflexivity. by rewrite bool_decide_eq_true_2.
Qed.

Lemma dirs_differ fold i :
  names_ok fold i ->
  fold <> fold ++ lit "/_index" /\ fold ++ lit "/" ++ si_namespace i <> fold ++ lit "/_index" /\
  data_fold_shard (si_namespace i) (si_shard_name i) fold <> fold ++ lit "/_index".
Proof.
  intros (_ & _ & N3 & _ & N5 & _). split_and!.
  - intros E. apply (f_equal length) in E. rewrite length_app in E. cbn in E. lia.
  - intros E%app_inv_head. change (lit "/_index") with (lit "/" ++ lit "_index") in E. by apply app_inv_head in E.
  - unfold data_fold_shard. intros E%app_inv_head. change (lit "/_index") with (lit "/" ++ lit "_index") in E.
    apply app_inv_head in E. assert (slash ∈ lit "_index") as Hin by (rewrite <- E; set_solver).
    vm_compute in Hin. set_solver.
Qed.

Lemma load_local_ok fuel n0 n i sf rs k fold :
  segment_state conf n0 i sf rs k -> names_ok fold i -> jn_db n = jn_db n0 -> tree (jn_files n) fold i -> (3 <= fuel)%nat ->
  exists m, load_local_segment_cache fuel [fold] fold n =
    (Ok tt, mkJournalNode (jn_files n) (jn_db n) (jn_placement n) (jn_cache n) (<[iden_name i := m]> (jn_segment_files n)) (jn_now_second n)) /\
    fm_end_offset m = blen rs - 1 /\ fm_start_offset m = match k with O => -1 | S _ => 0 end.
Proof.
  intros S Hok Hd (T1 & T2 & T3) Hf. destruct fuel as [|[|[|fuel]]]; [lia..|].
  destruct (load_segment_file_ok n0 n i sf rs k fold S Hok Hd) as (m & Em & Hm). exists m. split; [|done].
  destruct (dirs_differ fold i Hok) as (D1 & D2 & D3).
  assert (load_local_segment_cache (Datatypes.S (Datatypes.S fuel)) [fold] (fold ++ lit "/" ++ si_namespace i) n =
    (Ok tt, mkJournalNode (jn_files n) (jn_db n) (jn_placement n) (jn_cache n) (<[iden_name i := m]> (jn_segment_files n)) (jn_now_second n))) as E2.
  { rewrite (load_dir_ok _ _ _ _ _ D2 T2), for_each_cons. erewrite bind_ok; [reflexivity|].
    rewrite (load_dir_ok _ _ _ _ _ D3 T3), for_each_cons. by erewrite bind_ok by exact Em. }
  destruct T1 as [T1|T1]; rewrite (load_dir_ok _ _ _ _ _ D1 T1), for_each_cons.
  - erewrite bind_ok by apply load_index_dir. rewrite for_each_cons. by erewrite bind_ok by exact E2.
  - erewrite bind_ok by exact E2. rewrite for_each_cons. by erewrite bind_ok by apply load_index_dir.
Qed.

(** A node that starts on what it left behind serves the segment as before. *)
Lemma restart_serves fuel n i sf rs k fold shard segment meta p' :
  serving conf n i sf rs k -> leads conf i sf shard segment meta -> conf_data_path conf = [fold] ->
  names_ok fold i -> tree (jn_files n) fold i -> recovers (jn_placement n) p' shard segment meta ->
  3 < wrap64 (jn_now_second n) -> (3 <= fuel)%nat ->
  exists n', init_node conf fuel (stopped n) = (Ok tt, n') /\ serving conf n' i sf rs k /\
    jn_now_second n' = jn_now_second n /\ jn_placement n' = p'.
Proof.
  intros (S & _) Hl Hp Hok Ht Hr Hnow Hf. unfold init_node. rewrite Hp. erewrite bind_ok by reflexivity.
  set (n1 := mkJournalNode _ _ _ _ _ _).
  destruct (load_metadata_cache_ok n1 i sf p' shard segment meta eq_refl (conj eq_refl eq_refl) Hnow Hl Hr)
    as (c & p4 & E1 & H1 & H2 & E3).
  erewrite bind_ok by exact E1. cbn [jn_files jn_db jn_segment_files jn_now_second n1] in *.
  set (n2 := mkJournalNode _ _ p4 c _ _).
  destruct (load_local_ok fuel n n2 i sf rs k fold S Hok eq_refl Ht Hf) as (m & E2 & Hm1 & Hm2).
  erewrite bind_ok.
  2: { rewrite for_each_cons. erewrite bind_ok by (unfold or_panic; rewrite E2; reflexivity). reflexivity. }
  unfold or_panic. cbn [jn_files jn_db jn_placement jn_cache jn_segment_files jn_now_second n2 stopped] in *. rewrite E3.
  eexists. split; [reflexivity|]. split; [|done]. destruct H2 as [H2 H3].
  match goal with |- serving _ ?n' _ _ _ _ => assert (start_of n' i = match k with O => -1 | S _ => 0 end) as Hso end.
  { unfold start_of. cbn [jn_segment_files]. by rewrite lookup_insert_eq. }
  split; [|intros w; cbn [jn_cache]; by rewrite H2].
  destruct S as [S1 S2 S3 S4 S5 S6 S7 SB S8 S9 S10 S11 S12 SS S13 SN S14].
  constructor; rewrite ?Hso; cbn [jn_cache jn_files jn_db jn_segment_files]; try done.
  - exists m. by rewrite lookup_insert_eq.
  - destruct k; [by left|]. right. split; [done|lia].
  - destruct k; [destruct SB as [Hb|[_ ?]]; [by rewrite Hb in S10|lia]|]. eapply indexed_restart; [|exact S10].
    destruct SB as [|[? _]]; auto.
  - by rewrite H3.
Qed.
End restart.
