(* ===== verification/JournalSamples.v ===== *)
(** * Concrete parameters for the journal server

    File systems that are maps, a reader whose buffer is always full, a
    placement center that accepts every call, and serializers of the journal's
    messages.  The examples of the theorems run on them. *)

From Stdlib Require Import String.
From S2P Require Import Prelude Bytes RustStr Storage RocksEngine Topics Subscriptions Acl BrokerCache SchemaRegister MqttTypes Broker PlacementStore PlacementCache PlacementRoute RaftLog RaftMachine KvService JournalService PlacementSamples JournalCodec SegmentFile JournalIndex JournalNode.

(** ** Files *)

(** The directories that were made, and the files. *)
Definition map_fs_state : Type := gset bytes * gmap bytes bytes.
(** The name of an entry of a directory. *)
Definition entry_in (dir p : bytes) : bool :=
  starts_with (dir ++ lit "/") p && bool_decide (slash ∉ drop (length dir + 1) p).

#[export] Instance map_fs : Files map_fs_state := {|
  fs_exists p f := bool_decide (is_Some (f.2 !! p)) || bool_decide (p ∈ f.1);
  fs_create_dir_all p := fun f => (Ok tt, ({[p]} ∪ f.1, f.2));
  fs_create p := fun f => (Ok tt, (f.1, <[p := []]> f.2));
  fs_append p data := fun f =>
    match f.2 !! p with
    | Some b => (Ok tt, (f.1, <[p := b ++ data]> f.2))
    | None => (Err (lit "No such file or directory"), f)
    end;
  fs_read p f := match f.2 !! p with Some b => inr b | None => inl (lit "No such file or directory") end;
  fs_read_dir p f :=
    inr (omap (fun q => if entry_in p q then Some (q, true) else None) (elements f.1)
         ++ omap (fun qb => if entry_in p qb.1 then Some (qb.1, false) else None) (map_to_list f.2));
  fs_remove_file p := fun f => (Ok tt, (f.1, delete p f.2));
  fs_remove_dir_all p := fun f => (Ok tt, (f.1 ∖ {[p]}, f.2))
|}.
#[export] Instance map_fs_spec : FilesSpec map_fs_state.
Proof.
  refine {| files := snd |}; cbn.
  - intros p f Hp. by rewrite bool_decide_eq_true_2.
  - done.
  - intros p f. by left.
  - intros p data [ds fs]. cbn. destruct (fs !! p); [by left|]. split; [by eexists|done].
  - intros p [ds fs]. cbn. destruct (fs !! p); [by left|by eexists].
  - intros p f. by left.
Defined.

Lemma cons_app_ne (a : bytes) x b : a ++ x :: b <> a.
Proof. intros E. apply (f_equal length) in E. rewrite length_app in E. cbn in E. lia. Qed.
#[export] Instance map_fs_reliable : FilesReliable map_fs_state.
Proof.
  split; cbn.
  - intros p f _. split; [done|]. rewrite (bool_decide_eq_true_2 (p ∈ _)) by set_solver. by rewrite orb_true_r.
  - done.
  - intros dir name f _. f_equal. apply bool_decide_ext. rewrite elem_of_union, elem_of_singleton.
    split; [|by right]. intros [E|E]; [|done]. by apply cons_app_ne in E.
  - intros p data f [b Hb]. by rewrite Hb.
  - intros p f b Hb. by rewrite Hb.
Qed.

(** The same with appends that fail: one flag for each append to come. *)
#[export] Instance faulty_fs : Files (list bool * map_fs_state) := {|
  fs_exists p f := fs_exists p f.2;
  fs_create_dir_all p := fun f => let (r, g) := fs_create_dir_all p f.2 in (r, (f.1, g));
  fs_create p := fun f => let (r, g) := fs_create p f.2 in (r, (f.1, g));
  fs_append p data := fun f =>
    match f.1 with
    | true :: flags => (Err (lit "No space left on device"), (flags, f.2))
    | _ => let (r, g) := fs_append p data f.2 in (r, (tail f.1, g))
    end;
  fs_read p f := fs_read p f.2;
  fs_read_dir p f := fs_read_dir p f.2;
  fs_remove_file p := fun f => let (r, g) := fs_remove_file p f.2 in (r, (f.1, g));
  fs_remove_dir_all p := fun f => let (r, g) := fs_remove_dir_all p f.2 in (r, (f.1, g))
|}.
#[export] Instance faulty_fs_spec : FilesSpec (list bool * map_fs_state).
Proof.
  refine {| files := fun f => files f.2 |}.
  - intros p f. apply (exists_spec p f.2).
  - intros p f. exact (create_dir_spec p f.2).
  - intros p f. exact (create_spec p f.2).
  - intros p data [flags f]. cbn [fst snd]. pose proof (append_spec p data f) as Ha.
    destruct flags as [|[] flags]; cbn [fs_append faulty_fs fst snd].
    + destruct (fs_append p data f). exact Ha.
    + destruct (files f !! p) as [b|] eqn:E; [|split; [by eexists|done]]. right. split; [by eexists|].
      exists [], data. split; [done|]. cbn. rewrite app_nil_r. symmetry. by apply insert_id.
    + destruct (fs_append p data f). exact Ha.
  - intros p f. exact (read_spec p f.2).
  - intros p f. exact (remove_spec p f.2).
Defined.

(** A reader that fills its whole buffer. *)
#[export] Instance full_read : ReadBuf := {| read_some pos len rest := Z.min (if len <=? 0 then 64 else len) rest |}.
#[export] Instance full_read_spec : ReadBufSpec.
Proof.
  split.
  - intros pos len rest Hr. cbn. destruct (Z.leb_spec len 0); lia.
  - intros pos len rest Hp Hl Hs Hr. cbn. by rewrite (proj2 (Z.leb_gt len 0)).
Qed.

(** ** A segment of one replica, and a placement center that knows it *)

Definition journal_conf : JournalServerConfig :=
  mkJournalServerConfig 1 (lit "c") [lit "/data"] true 1 1000 (lit "10.0.0.1") 1778 1779 2228.
Definition stored_shard : JournalShard :=
  mkJournalShard [] (lit "c") (lit "ns") (lit "s") 0 0 0 Run (mkJournalShardConfig 1 1000) 0.
Definition stored_segment : JournalSegment :=
  mkJournalSegment (lit "c") (lit "ns") (lit "s") 0 [mkReplica 0 1 (lit "/data")] 0 1 [] Write 1000.
Definition stored_meta : JournalSegmentMetadata := mkJournalSegmentMetadata (lit "c") (lit "ns") (lit "s") 0 0 (-1) (-1) (-1).

#[export] Instance calm_placement : JournalPlacement unit := {|
  jp_update_segment_status _ := ret tt;
  jp_update_segment_meta _ := ret tt;
  jp_create_next_segment _ := ret tt;
  jp_create_shard _ := ret tt;
  jp_delete_shard _ := ret tt;
  jp_node_list _ := ret [];
  jp_list_shard _ := ret (@json _ coded_json [stored_shard]);
  jp_list_segment _ := ret (@json _ coded_json [stored_segment]);
  jp_list_segment_meta _ := ret (@json _ coded_json [stored_meta]);
  jp_register_node _ := ret tt;
  jp_unregister_node _ _ := ret tt;
  jp_heartbeat _ _ := ret tt;
  jp_notices p := ([], p)
|}.

(** A node that has just been set up. *)
Definition new_node : JournalNode map_fs_state (gmap bytes (gmap bytes bytes)) unit :=
  mkJournalNode ({[lit "/data"; lit "/data/_index"; lit "/data/ns"]}, ∅) {[DB_COLUMN_FAMILY_INDEX := ∅]} tt
    CacheManager_new ∅ 100.

(** ** Serializers *)

#[export] Instance JournalRecord_eq_dec : EqDecision JournalRecord.
Proof. solve_decision. Defined.
#[export] Instance JournalRecord_countable : Countable JournalRecord.
Proof.
  refine (inj_countable' (fun x => (jr_producer_id x, jr_pkid x, jr_key x, jr_content x, jr_create_time x,
                                    (jr_tags x, jr_offset x, jr_namespace x, jr_shard_name x, jr_segment x)))
            (fun '(a, b, c, d, e, (f, g, h, i, j)) => mkJournalRecord a b c d e f g h i j) _). by intros [].
Defined.
#[export] Instance IndexData_eq_dec : EqDecision IndexData.
Proof. solve_decision. Defined.
#[export] Instance IndexData_countable : Countable IndexData.
Proof.
  refine (inj_countable' (fun x => (ix_offset x, ix_timestamp x, ix_position x)) (fun '(a, b, c) => mkIndexData a b c) _).
  by intros [].
Defined.

(** The default message is written as nothing, every other one as its code. *)
Definition default_prost {A : Type} `{Countable A} (d : A) : Prost A := {|
  encode_to_vec a := if decide (a = d) then [] else [Z.pos (countable.encode a)];
  prost_decode b := match b with
                    | [] => inr d
                    | [Z.pos p] => match countable.decode p with Some a => inr a | None => inl [] end
                    | _ => inl []
                    end
|}.
Lemma default_prost_spec {A} `{Countable A} (d : A) : @ProstSpec A (default_prost d).
Proof. split. intros a. cbn. case_decide as E; [by rewrite E|]. by rewrite decode_encode. Qed.

(** *** Codes of the messages of the protocol *)

#[export] Instance JournalEngineError_eq_dec : EqDecision JournalEngineError.
Proof. solve_decision. Defined.
#[export] Instance JournalEngineError_countable : Countable JournalEngineError.
Proof.
  refine (inj_countable' (fun x => (je_code x, je_error x))
            (fun '(a, b) => mkJournalEngineError a b) _). by intros [].
Defined.
#[export] Instance ReqHeader_eq_dec : EqDecision ReqHeader.
Proof. solve_decision. Defined.
#[export] Instance ReqHeader_countable : Countable ReqHeader.
Proof.
  refine (inj_countable' (fun x => (qh_api_key x, qh_api_version x))
            (fun '(a, b) => mkReqHeader a b) _). by intros [].
Defined.
#[export] Instance RespHeader_eq_dec : EqDecision RespHeader.
Proof. solve_decision. Defined.
#[export] Instance RespHeader_countable : Countable RespHeader.
Proof.
  refine (inj_countable' (fun x => (ph_api_key x, ph_api_version x, ph_error x))
            (fun '(a, b, c) => mkRespHeader a b c) _). by intros [].
Defined.
#[export] Instance GetClusterMetadataNode_eq_dec : EqDecision GetClusterMetadataNode.
Proof. solve_decision. Defined.
#[export] Instance GetClusterMetadataNode_countable : Countable GetClusterMetadataNode.
Proof.
  refine (inj_countable' (fun x => (cm_node_id x, cm_tcp_addr x, cm_tcps_addr x))
            (fun '(a, b, c) => mkGetClusterMetadataNode a b c) _). by intros [].
Defined.
#[export] Instance GetClusterMetadataRespBody_eq_dec : EqDecision GetClusterMetadataRespBody.
Proof. solve_decision. Defined.
#[export] Instance GetClusterMetadataRespBody_countable : Countable GetClusterMetadataRespBody.
Proof. refine (inj_countable' cm_nodes mkGetClusterMetadataRespBody _). by intros []. Defined.
#[export] Instance CreateShardReqBody_eq_dec : EqDecision CreateShardReqBody.
Proof. solve_decision. Defined.
#[export] Instance CreateShardReqBody_countable : Countable CreateShardReqBody.
Proof.
  refine (inj_countable' (fun x => (cs_namespace x, cs_shard_name x, cs_replica_num x))
            (fun '(a, b, c) => mkCreateShardReqBody a b c) _). by intros [].
Defined.
#[export] Instance CreateShardRespBody_eq_dec : EqDecision CreateShardRespBody.
Proof. solve_decision. Defined.
#[export] Instance CreateShardRespBody_countable : Countable CreateShardRespBody.
Proof. refine (inj_countable' (fun _ => tt) (fun _ => mkCreateShardRespBody) _). by intros []. Defined.
#[export] Instance DeleteShardReqBody_eq_dec : EqDecision DeleteShardReqBody.
Proof. solve_decision. Defined.
#[export] Instance DeleteShardReqBody_countable : Countable DeleteShardReqBody.
Proof.
  refine (inj_countable' (fun x => (dl_namespace x, dl_shard_name x))
            (fun '(a, b) => mkDeleteShardReqBody a b) _). by intros [].
Defined.
#[export] Instance DeleteShardRespBody_eq_dec : EqDecision DeleteShardRespBody.
Proof. solve_decision. Defined.
#[export] Instance DeleteShardRespBody_countable : Countable DeleteShardRespBody.
Proof. refine (inj_countable' (fun _ => tt) (fun _ => mkDeleteShardRespBody) _). by intros []. Defined.
#[export] Instance GetShardMetadataReqShard_eq_dec : EqDecision GetShardMetadataReqShard.
Proof. solve_decision. Defined.
#[export] Instance GetShardMetadataReqShard_countable : Countable GetShardMetadataReqShard.
Proof.
  refine (inj_countable' (fun x => (gs_namespace x, gs_shard_name x))
            (fun '(a, b) => mkGetShardMetadataReqShard a b) _). by intros [].
Defined.
#[export] Instance GetShardMetadataReqBody_eq_dec : EqDecision GetShardMetadataReqBody.
Proof. solve_decision. Defined.
#[export] Instance GetShardMetadataReqBody_countable : Countable GetShardMetadataReqBody.
Proof. refine (inj_countable' gs_shards mkGetShardMetadataReqBody _). by intros []. Defined.
#[export] Instance ClientSegmentMetadata_eq_dec : EqDecision ClientSegmentMetadata.
Proof. solve_decision. Defined.
#[export] Instance ClientSegmentMetadata_countable : Countable ClientSegmentMetadata.
Proof.
  refine (inj_countable' (fun x => (cl_segment_no x, cl_leader x, cl_replicas x, cl_start_offset x, cl_end_offset x, cl_start_timestamp x, cl_end_timestamp x))
            (fun '(a, b, c, d, e, f, g) => mkClientSegmentMetadata a b c d e f g) _). by intros [].
Defined.
#[export] Instance GetShardMetadataRespShard_eq_dec : EqDecision GetShardMetadataRespShard.
Proof. solve_decision. Defined.
#[export] Instance GetShardMetadataRespShard_countable : Countable GetShardMetadataRespShard.
Proof.
  refine (inj_countable' (fun x => (rs_namespace x, rs_shard x, rs_active_segment x, rs_active_segment_leader x, rs_segments x))
            (fun '(a, b, c, d, e) => mkGetShardMetadataRespShard a b c d e) _). by intros [].
Defined.
#[export] Instance GetShardMetadataRespBody_eq_dec : EqDecision GetShardMetadataRespBody.
Proof. solve_decision. Defined.
#[export] Instance GetShardMetadataRespBody_countable : Countable GetShardMetadataRespBody.
Proof. refine (inj_countable' rs_shards mkGetShardMetadataRespBody _). by intros []. Defined.
#[export] Instance WriteReqMessages_eq_dec : EqDecision WriteReqMessages.
Proof. solve_decision. Defined.
#[export] Instance WriteReqMessages_countable : Countable WriteReqMessages.
Proof.
  refine (inj_countable' (fun x => (wm_pkid x, wm_key x, wm_value x, wm_tags x))
            (fun '(a, b, c, d) => mkWriteReqMessages a b c d) _). by intros [].
Defined.
#[export] Instance WriteReqSegmentMessages_eq_dec : EqDecision WriteReqSegmentMessages.
Proof. solve_decision. Defined.
#[export] Instance WriteReqSegmentMessages_countable : Countable WriteReqSegmentMessages.
Proof.
  refine (inj_countable' (fun x => (ws_namespace x, ws_shard_name x, ws_segment x, ws_messages x))
            (fun '(a, b, c, d) => mkWriteReqSegmentMessages a b c d) _). by intros [].
Defined.
#[export] Instance WriteReqBody_eq_dec : EqDecision WriteReqBody.
Proof. solve_decision. Defined.
#[export] Instance WriteReqBody_countable : Countable WriteReqBody.
Proof. refine (inj_countable' wb_data mkWriteReqBody _). by intros []. Defined.
#[export] Instance WriteRespMessageStatus_eq_dec : EqDecision WriteRespMessageStatus.
Proof. solve_decision. Defined.
#[export] Instance WriteRespMessageStatus_countable : Countable WriteRespMessageStatus.
Proof.
  refine (inj_countable' (fun x => (wt_offset x, wt_pkid x, wt_error x))
            (fun '(a, b, c) => mkWriteRespMessageStatus a b c) _). by intros [].
Defined.
#[export] Instance WriteRespMessage_eq_dec : EqDecision WriteRespMessage.
Proof. solve_decision. Defined.
#[export] Instance WriteRespMessage_countable : Countable WriteRespMessage.
Proof.
  refine (inj_countable' (fun x => (wp_namespace x, wp_shard_name x, wp_segment x, wp_messages x))
            (fun '(a, b, c, d) => mkWriteRespMessage a b c d) _). by intros [].
Defined.
#[export] Instance WriteRespBody_eq_dec : EqDecision WriteRespBody.
Proof. solve_decision. Defined.
#[export] Instance WriteRespBody_countable : Countable WriteRespBody.
Proof. refine (inj_countable' wp_status mkWriteRespBody _). by intros []. Defined.
#[export] Instance ReadReqFilter_eq_dec : EqDecision ReadReqFilter.
Proof. solve_decision. Defined.
#[export] Instance ReadReqFilter_countable : Countable ReadReqFilter.
Proof.
  refine (inj_countable' (fun x => (fl_timestamp x, fl_offset x, fl_key x, fl_tag x))
            (fun '(a, b, c, d) => mkReadReqFilter a b c d) _). by intros [].
Defined.
#[export] Instance ReadReqOptions_eq_dec : EqDecision ReadReqOptions.
Proof. solve_decision. Defined.
#[export] Instance ReadReqOptions_countable : Countable ReadReqOptions.
Proof.
  refine (inj_countable' (fun x => (op_max_size x, op_max_record x))
            (fun '(a, b) => mkReadReqOptions a b) _). by intros [].
Defined.
#[export] Instance ReadReqMessage_eq_dec : EqDecision ReadReqMessage.
Proof. solve_decision. Defined.
#[export] Instance ReadReqMessage_countable : Countable ReadReqMessage.
Proof.
  refine (inj_countable' (fun x => (rm_namespace x, rm_shard_name x, rm_segment x, rm_ready_type x, rm_filter x, rm_options x))
            (fun '(a, b, c, d, e, f) => mkReadReqMessage a b c d e f) _). by intros [].
Defined.
#[export] Instance ReadReqBody_eq_dec : EqDecision ReadReqBody.
Proof. solve_decision. Defined.
#[export] Instance ReadReqBody_countable : Countable ReadReqBody.
Proof. refine (inj_countable' rb_messages mkReadReqBody _). by intros []. Defined.
#[export] Instance ReadRespMessage_eq_dec : EqDecision ReadRespMessage.
Proof. solve_decision. Defined.
#[export] Instance ReadRespMessage_countable : Countable ReadRespMessage.
Proof.
  refine (inj_countable' (fun x => (rr_offset x, rr_key x, rr_value x, rr_tags x, rr_timestamp x))
            (fun '(a, b, c, d, e) => mkReadRespMessage a b c d e) _). by intros [].
Defined.
#[export] Instance ReadRespSegmentMessage_eq_dec : EqDecision ReadRespSegmentMessage.
Proof. solve_decision. Defined.
#[export] Instance ReadRespSegmentMessage_countable : Countable ReadRespSegmentMessage.
Proof.
  refine (inj_countable' (fun x => (rp_namespace x, rp_shard_name x, rp_segment x, rp_messages x))
            (fun '(a, b, c, d) => mkReadRespSegmentMessage a b c d) _). by intros [].
Defined.
#[export] Instance ReadRespBody_eq_dec : EqDecision ReadRespBody.
Proof. solve_decision. Defined.
#[export] Instance ReadRespBody_countable : Countable ReadRespBody.
Proof. refine (inj_countable' rp_segments mkReadRespBody _). by intros []. Defined.
#[export] Instance FetchOffsetShard_eq_dec : EqDecision FetchOffsetShard.
Proof. solve_decision. Defined.
#[export] Instance FetchOffsetShard_countable : Countable FetchOffsetShard.
Proof.
  refine (inj_countable' (fun x => (fo_namespace x, fo_shard_name x, fo_segment_no x, fo_timestamp x))
            (fun '(a, b, c, d) => mkFetchOffsetShard a b c d) _). by intros [].
Defined.
#[export] Instance FetchOffsetReqBody_eq_dec : EqDecision FetchOffsetReqBody.
Proof. solve_decision. Defined.
#[export] Instance FetchOffsetReqBody_countable : Countable FetchOffsetReqBody.
Proof. refine (inj_countable' fo_shards mkFetchOffsetReqBody _). by intros []. Defined.
#[export] Instance FetchOffsetShardMeta_eq_dec : EqDecision FetchOffsetShardMeta.
Proof. solve_decision. Defined.
#[export] Instance FetchOffsetShardMeta_countable : Countable FetchOffsetShardMeta.
Proof.
  refine (inj_countable' (fun x => (fs_namespace x, fs_shard_name x, fs_segment_no x, fs_offset x, fs_error x))
            (fun '(a, b, c, d, e) => mkFetchOffsetShardMeta a b c d e) _). by intros [].
Defined.
#[export] Instance FetchOffsetRespBody_eq_dec : EqDecision FetchOffsetRespBody.
Proof. solve_decision. Defined.
#[export] Instance FetchOffsetRespBody_countable : Countable FetchOffsetRespBody.
Proof. refine (inj_countable' fs_shard_offsets mkFetchOffsetRespBody _). by intros []. Defined.

#[export] Instance sample_engine : EngineProst := {|
  ep_req_header := default_prost (mkReqHeader 0 0);
  ep_resp_header := default_prost (mkRespHeader 0 0 None);
  ep_write_req := default_prost (mkWriteReqBody []);
  ep_write_resp := default_prost (mkWriteRespBody []);
  ep_read_req := default_prost (mkReadReqBody []);
  ep_read_resp := default_prost (mkReadRespBody []);
  ep_cluster_resp := default_prost (mkGetClusterMetadataRespBody []);
  ep_shard_req := default_prost (mkGetShardMetadataReqBody []);
  ep_shard_resp := default_prost (mkGetShardMetadataRespBody []);
  ep_fetch_req := default_prost (mkFetchOffsetReqBody []);
  ep_fetch_resp := default_prost (mkFetchOffsetRespBody []);
  ep_create_req := default_prost (mkCreateShardReqBody [] [] 0);
  ep_create_resp := default_prost mkCreateShardRespBody;
  ep_delete_req := default_prost (mkDeleteShardReqBody [] []);
  ep_delete_resp := default_prost mkDeleteShardRespBody
|}.
#[export] Instance sample_engine_spec : EngineProstSpec.
Proof. split; first [apply default_prost_spec|done]. Qed.
