(* ===== verification/JournalServerTheorems.v ===== *)
(** * What the journal server promises its clients

    A segment is a log of records, the log survives a restart, and its indexes
    catch up with it; packets of the protocol are read back.  Then where the
    server does otherwise: reads that skip, offsets that start again, full
    segments that nobody hears of, deleted files that stay. *)

From Stdlib Require Import String.
From stdpp Require Import sorting.
From S2P Require Import Prelude Bytes RustStr Storage RocksEngine PlacementStore PlacementCache PlacementRoute RaftLog RaftMachine KvService JournalService JournalCodec SegmentFile SegmentFacts JournalIndex JournalNode JournalServer JournalIndexFacts JournalNodeFacts JournalLog JournalRestart PlacementSamples JournalSamples.

(** ** The protocol *)

Section codec.
Context {EP : EngineProst} {ES : EngineProstSpec}.

End codec.


(** ** Segments *)

Section segments.
Context {F : Type} {FS : Files F} {FP : FilesSpec F} {FR : FilesReliable F} {RB : ReadBuf} {BS : ReadBufSpec}
        {D : Type} {RD : RocksDB D} {RS : RocksSpec D} {RR : RocksReliable D} {P : Type} {JP : JournalPlacement P}
        {PR : Prost JournalRecord} {PS : ProstSpec JournalRecord} {MJ : MetaJson}
        {JWS : JsonSpec StorageDataWrap} {JZS : JsonSpec Z} {JSH : JsonSpec JournalShard} {JSG : JsonSpec JournalSegment}
        {JSM : JsonSpec JournalSegmentMetadata} {JI : Json IndexData} {JIS : JsonSpec IndexData}
        {JX : Json JournalNodeExtend} {JC : Json JournalShardConfig} {JLS : Json (list JournalShard)}
        {JLG : Json (list JournalSegment)} {JLM : Json (list JournalSegmentMetadata)}
        {MI : MapIter} {MZ : MapIterZ} {MZS : MapIterZSpec MZ} {ET : ErrorText} (conf : JournalServerConfig).
Local Abbreviation Node := (@Node F D P).
Implicit Types (n : JournalNode F D P) (i : SegmentIdentity) (sf : SegmentFile).

(** A segment is created by the notices of the placement center, then the node
    takes requests. *)
Definition segment_run i shard segment meta (ops : list seg_op) : Node (list seg_answer) :=
  for_each (creation conf shard segment meta) (grpc_update_cache conf) ;; collect ops (seg_step conf i).

Lemma segment_run_ok n i sf shard segment meta ops bound :
  unseen n i sf -> leads conf i sf shard segment meta -> 0 <= bound < 10000 -> ops_ok i bound ops ([], jn_now_second n) ->
  exists n' k, segment_run i shard segment meta ops n = (Ok (log_run i ops ([], jn_now_second n)).1, n') /\
    jn_placement n' = jn_placement n /\ (log_run i ops ([], jn_now_second n)).2.2 = jn_now_second n' /\
    serving conf n' i sf (log_run i ops ([], jn_now_second n)).2.1 k /\ blen (log_run i ops ([], jn_now_second n)).2.1 <= bound.
Proof.
  intros Hu Hl Hb Hok. destruct (creation_serves conf n i sf shard segment meta Hu Hl) as (n1 & E1 & Hs & _ & Hv1 & Hv2).
  rewrite <- Hv1 in *. destruct (seg_run_ok conf ops bound n1 i sf [] 0 Hs) as (n2 & k & E2 & Hp & Hs2); [lia|unfold blen; cbn [length]; lia|done|].
  exists n2, k. split; [unfold segment_run; by erewrite bind_ok by exact E1|]. by rewrite Hp.
Qed.


(** C10: The log survives a restart: the node stops at any point and starts again
    on the files and the index it left behind and on the metadata of the
    placement center; the requests that follow are answered as those of the
    same log, which goes on where it was.  This is for requests as in
    [journal_segment_refines_log] (batches that are not empty, keys and tags
    without a slash, records of at most 8180 octets, and fewer than 10000
    records over both runs), for a node with one data directory that holds the
    index and the file of this one segment ([tree]), for names that can be told
    apart in a path ([names_ok]) and for a placement center that answers the
    calls of the start with the shard, the segment and its metadata
    ([recovers]). *)
Theorem journal_log_survives_restart n n1 i sf fold shard segment meta ops1 ops2 bound fuel answers p' :
  unseen n i sf -> leads conf i sf shard segment meta -> 0 <= bound < 10000 ->
  ops_ok i bound ops1 ([], jn_now_second n) -> segment_run i shard segment meta ops1 n = (Ok answers, n1) ->
  conf_data_path conf = [fold] -> names_ok fold i -> tree (jn_files n1) fold i ->
  recovers conf (jn_placement n1) p' shard segment meta -> 3 < wrap64 (jn_now_second n1) -> (3 <= fuel)%nat ->
  let log := (log_run i ops1 ([], jn_now_second n)).2.1 in
  ops_ok i bound ops2 (log, jn_now_second n1) ->
  exists n2, (init_node conf fuel ;; collect ops2 (seg_step conf i)) (stopped n1) =
    (Ok (log_run i ops2 (log, jn_now_second n1)).1, n2).
Proof.
  intros Hu Hl Hb Hok1 Er Hp Hn Ht Hr Hnow Hf log Hok2.
  destruct (segment_run_ok n i sf shard segment meta ops1 bound Hu Hl Hb Hok1) as (n1' & k & E & _ & _ & Hs & Hlen).
  rewrite Er in E. injection E as _ <-.
  destruct (restart_serves conf fuel n1 i sf _ k fold shard segment meta p' Hs Hl Hp Hn Ht Hr Hnow Hf) as (n2 & E2 & Hs2 & Hn2 & _).
  rewrite <- Hn2 in *. destruct (seg_run_ok conf ops2 bound n2 i sf _ k Hs2) as (n3 & k3 & E3 & _); [lia|done|done|].
  exists n3. by erewrite bind_ok by exact E2.
Qed.

(** A run that ends with a write, and then rounds of the index thread. *)
Lemma segment_rounds_ok n i sf shard segment meta ops msgs bound m :
  unseen n i sf -> leads conf i sf shard segment meta -> 0 <= bound < 10000 -> ops_ok i bound ops ([], jn_now_second n) ->
  let s := (log_run i ops ([], jn_now_second n)).2 in
  batch_ok s.1 (map (new_record s.2 (request i msgs)) msgs) ->
  exists n', (segment_run i shard segment meta ops ;; seg_step conf i (SWrite msgs) ;; rounds i m) n = (Ok tt, n') /\
    exists k, serving conf n' i sf (s.1 ++ appended i s.2 s.1 msgs) k /\ (ops = [] -> start_of n' i = -1) /\
      (Nat.min (length (s.1 ++ appended i s.2 s.1 msgs)) (99 * m) <= k)%nat.
Proof.
  intros Hu Hl Hb Hok s Hbt.
  destruct (segment_run_ok n i sf shard segment meta ops bound Hu Hl Hb Hok) as (n1 & k1 & E1 & _ & Hn1 & Hs1 & Hlen).
  fold s in Hn1, Hs1, Hlen. rewrite Hn1 in Hbt. pose proof (ss_seen _ _ _ _ _ _ (proj1 Hs1)) as Hk1.
  destruct (handle_write_ok conf n1 i sf s.1 k1 msgs Hs1) as (n2 & E2 & Hs2 & Hb2 & _ & _ & Hv2); [unfold blen in Hlen; lia|done|].
  destruct (rounds_ok conf m n2 i sf _ k1 Hs2 Hb2) as (n3 & k3 & E3 & Hs3 & Hb3 & Hk3).
  { intros [_ E]%app_eq_nil. destruct Hbt as [Hne _]. by destruct msgs. }
  exists n3. split.
  - erewrite bind_ok by exact E1. erewrite bind_ok by (cbn [seg_step]; erewrite bind_ok by exact E2; reflexivity). exact E3.
  - exists k3. unfold new_records in *. unfold appended. rewrite Hn1. split; [done|]. split; [|lia].
    intros ->. rewrite Hb3, Hv2. destruct (creation_serves conf n i sf shard segment meta Hu Hl) as (n0 & E0 & _ & Hs0 & _).
    unfold segment_run in E1. erewrite bind_ok in E1 by exact E0. by injection E1 as <-.
Qed.

(** C17: The indexes catch up: after a write, once the index thread has had a
    round for every 99 records of the log, a read by a tag without a slash
    whose limit of records is above the length of the log returns the records
    at or behind the offset of the read that carry the tag, each once.  The
    writes are as in [journal_segment_refines_log]: batches that are not empty,
    keys and tags without a slash, records of at most 8180 octets, and fewer than
    10000 records in all. *)
Theorem journal_index_catches_up n i sf shard segment meta ops msgs bound m tag offset options :
  unseen n i sf -> leads conf i sf shard segment meta -> 0 <= bound < 10000 -> ops_ok i bound ops ([], jn_now_second n) ->
  let s := (log_run i ops ([], jn_now_second n)).2 in
  op_ok i bound (SWrite msgs) s ->
  let log := (log_step i (SWrite msgs) s).2.1 in
  blen log <= 99 * Z.of_nat m -> slash ∉ tag -> blen log < op_max_record options ->
  exists n' l, (segment_run i shard segment meta ops ;; seg_step conf i (SWrite msgs) ;; rounds i m) n = (Ok tt, n') /\
    handle_read conf (Some (read_request i 2 (Some (mkReadReqFilter 0 offset [] tag)) (Some options))) n' =
      (Ok [mkReadRespSegmentMessage (si_namespace i) (si_shard_name i) (si_segment_seq i) (map record_message l)], n') /\
    l ≡ₚ filter (fun r => tag ∈ jr_tags r /\ offset <= jr_offset r) log.
Proof.
  intros Hu Hl Hb Hok s [Hbt _] log Hm Ht Hr.
  destruct (segment_rounds_ok n i sf shard segment meta ops msgs bound m Hu Hl Hb Hok Hbt) as (n' & E & k & Hs & _ & Hk).
  assert (s.1 ++ appended i s.2 s.1 msgs = log) as Hlog by (unfold log; clearbody s; by destruct s).
  fold s in Hs, Hk. rewrite Hlog in Hs, Hk.
  destruct (tag_read_ok conf n' i sf log k tag offset options Hs) as (l & El & Hp); [unfold blen in Hm; lia|done..|].
  by exists n', l.
Qed.

Lemma page_elem ms mr l r : r ∈ page ms mr l -> r ∈ l.
Proof.
  revert ms mr. induction l as [|x l IH]; intros ms mr; cbn [page]; [done|]. destruct (ms <? 0); [by intros ?%elem_of_nil|].
  intros [->|Hr]%elem_of_cons; [by left|]. destruct (mr <=? 1); [by apply elem_of_nil in Hr|]. right. by eapply IH.
Qed.

(** C34: The index by offset makes reads skip records: of a first batch of 10000 to
    19999 records, once they are indexed, a read from any of the first ten
    thousand offsets returns the records from the ten thousandth on. *)
Theorem indexed_reads_skip n i sf shard segment meta msgs m offset options :
  unseen n i sf -> leads conf i sf shard segment meta ->
  let log := appended i (jn_now_second n) [] msgs in
  batch_ok [] (map (new_record (jn_now_second n) (request i msgs)) msgs) ->
  10000 <= blen msgs < 20000 -> blen msgs <= 99 * Z.of_nat m -> 0 <= offset <= 9999 ->
  exists n', (segment_run i shard segment meta [] ;; seg_step conf i (SWrite msgs) ;; rounds i m) n = (Ok tt, n') /\
    seg_step conf i (SRead offset options) n' =
      (Ok (Found (map record_message (page (op_max_size options) (op_max_record options) (drop (Z.to_nat 9999) log)))), n').
Proof.
  intros Hu Hl log Hbt Hlen Hm Ho.
  destruct (segment_rounds_ok n i sf shard segment meta [] msgs 0 m Hu Hl ltac:(lia) I Hbt) as (n' & E & k & Hs & Hst & Hk).
  exists n'. split; [exact E|]. cbn [log_run fst snd app] in Hs, Hk. fold log in Hs, Hk. destruct Hs as (S & _).
  assert (blen log = blen msgs) as Hll by (unfold log, appended; by rewrite blen_numbered, blen_map).
  destruct (read_from_sample conf n' i sf log k offset options S (Hst eq_refl)) as (rds & Er & Hrd);
    [unfold blen in *; lia|lia|done|].
  cbn [seg_step]. erewrite bind_ok by (eapply handle_read_ok; [by eapply ss_located|exact Er]).
  cbn [read_answer map concat rp_messages]. rewrite app_nil_r, read_messages, Hrd; [done|].
  apply (proj1 (Forall_fmap rd_record (fun r => 0 <= jr_offset r < 2 ^ 64) rds)).
  change (rd_record <$> rds) with (map rd_record rds). rewrite Hrd. apply Forall_forall. intros r Hr%page_elem%drop_elem.
  apply list_elem_of_lookup in Hr as [j Hj]. rewrite (ss_log _ _ _ _ _ _ S j r Hj). apply lookup_lt_Some in Hj.
  unfold blen in *. lia.
Qed.

(** A thread that is there is not started again. *)
Lemma trigger_running n i : building n i -> try_trigger_build_index conf i n = (Ok tt, n).
Proof.
  intros [t Ht]. unfold try_trigger_build_index. erewrite bind_ok by reflexivity. unfold jc_contain_build_index_thread.
  by rewrite Ht.
Qed.

Lemma new_records_nonempty n i msgs : msgs <> [] -> new_records n i msgs <> [].
Proof. by destruct msgs. Qed.
Lemma blen_new_records n i msgs : blen (new_records n i msgs) = blen msgs.
Proof. unfold new_records. by rewrite blen_map. Qed.

(** The node after a write that the file system has refused. *)
Lemma refused_write n i sf rs k msgs e f1 :
  serving conf n i sf rs k -> building n i -> msgs <> [] -> blen msgs < 2 ^ 40 ->
  write_records sf (numbered (blen rs) (new_records n i msgs)) (jn_files n) = (Err e, f1) ->
  exists n1, handle_write conf (Some (mkWriteReqBody [request i msgs])) n = (Err e, n1) /\
    get_write conf i n1 = (Ok (mkSegmentWrite i 0 sf), n1) /\ located conf (jn_cache n1) i sf /\ building n1 i /\
    jn_files n1 = f1 /\ jn_now_second n1 = jn_now_second n /\ index_open (jn_db n1) /\
    exists m, jn_segment_files n1 !! iden_name i = Some m /\ (fm_start_offset m = -1 \/ fm_start_offset m = 0).
Proof.
  intros Hs Hb Hne Hl E1. destruct (get_write_ok conf n i sf rs k Hs) as (n0 & E0 & (S0 & _) & (V1 & _ & _) & Hf & Ht).
  set (nf := mkJournalNode f1 (jn_db n0) (jn_placement n0) (jn_cache n0) (jn_segment_files n0) (jn_now_second n0)).
  assert (building nf i) as Hb0 by (unfold building, nf in *; cbn; by rewrite Ht).
  pose proof (ss_located _ _ _ _ _ _ S0) as Hloc. pose proof (ss_len _ _ _ _ _ _ S0). pose proof (blen_nonneg rs).
  assert (batch_write0 (new_records n i msgs) sf i (wrap64 (blen rs - 1)) n0 =
    (Ok (Some (mkSegmentWriteResp ∅ 0 (Some e))), nf)) as B1.
  { unfold batch_write0. rewrite bool_decide_eq_false_2 by by apply new_records_nonempty.
    rewrite number_records_ok by (rewrite ?blen_new_records; lia). unfold on_files. by rewrite Hf, E1. }
  pose proof (write_data_round conf n n0 nf nf i sf _ _ _ E0 Hloc (new_records_nonempty _ _ _ Hne) B1 (trigger_running _ i Hb0)) as W1.
  eexists. split; [eapply (handle_write_one conf n _ i msgs (Err e)); [by eapply located_admitted, ss_located, (proj1 Hs)|by eapply write_segment_error]|].
  split; [unfold get_write; erewrite bind_ok by reflexivity; unfold jc_get_segment_write_thread; cbn; by rewrite lookup_insert_eq|].
  split; [exact Hloc|]. split; [exact Hb0|]. split; [done|]. split; [exact V1|]. split; [exact (ss_open _ _ _ _ _ _ S0)|].
  destruct (ss_meta _ _ _ _ _ _ S0) as (m & Hm & _). exists m. split; [done|].
  pose proof (ss_base _ _ _ _ _ _ S0) as Hbase. unfold start_of in Hbase. rewrite Hm in Hbase. cbn in Hbase. tauto.
Qed.

(** C35: After a write that the file system refuses the offsets start again: the
    client of the failed write gets the error, and the records of the next
    write get the offsets from one on, however long the log is. *)
Theorem failed_write_restarts_offsets n i sf rs k msgs1 msgs2 e f1 f2 :
  serving conf n i sf rs k -> building n i -> msgs1 <> [] -> msgs2 <> [] -> blen msgs1 < 2 ^ 40 -> blen msgs2 < 2 ^ 40 ->
  write_records sf (numbered (blen rs) (new_records n i msgs1)) (jn_files n) = (Err e, f1) ->
  write_records sf (numbered 1 (new_records n i msgs2)) f1 = (Ok tt, f2) ->
  exists n1 n2, handle_write conf (Some (mkWriteReqBody [request i msgs1])) n = (Err e, n1) /\
    handle_write conf (Some (mkWriteReqBody [request i msgs2])) n1 =
      (Ok [mkWriteRespMessage (si_namespace i) (si_shard_name i) (si_segment_seq i)
             (statuses (assigned 1 (map wm_pkid msgs2)))], n2) /\
    jn_files n2 = f2.
Proof.
  intros Hs Hb Hne1 Hne2 Hl1 Hl2 E1 E2.
  destruct (refused_write n i sf rs k msgs1 e f1 Hs Hb Hne1 Hl1 E1) as (n1 & W1 & G1 & Hloc & Hb1 & Hf1 & Hn1 & Ho1 & m & Hm & Hst).
  assert (new_records n1 i msgs2 = new_records n i msgs2) as Hnr by (unfold new_records; by rewrite Hn1).
  rewrite <- Hnr, <- Hf1 in E2. pose proof (new_records_nonempty n1 i msgs2 Hne2) as Hne.
  destruct (last (new_records n1 i msgs2)) as [r0|] eqn:Hlast; [|by apply last_None in Hlast].
  destruct (batch_write0_from n1 i sf 1 (new_records n1 i msgs2) r0 m f2 Hlast) as (d2 & B2 & _);
    [lia|rewrite blen_new_records; lia|done..|].
  match type of B2 with _ = (_, ?nb) => assert (building nb i) as Hb2 by exact Hb1 end.
  pose proof (write_data_round conf n1 n1 _ _ i sf 0 _ _ G1 Hloc Hne B2 (trigger_running _ i Hb2)) as W2.
  do 2 eexists. split; [exact W1|]. split; [|].
  - eapply (handle_write_one conf n1 _ i msgs2 (Ok _)); [by eapply located_admitted|].
    erewrite (write_segment_answer conf n1 _ i msgs2 _ _ W2); [|done|cbn; apply lookup_insert_eq|].
    + cbn [wr_offsets]. do 4 f_equal. unfold new_records. by rewrite map_map.
    + cbn [wr_offsets fm_start_offset set_end_timestamp set_end_offset]. intros pkid o Ho%assigned_range.
      rewrite blen_map, blen_new_records in Ho. destruct Hst as [-> | ->];
        [change (wrap64 (-1)) with (2 ^ 64 - 1)|change (wrap64 0) with 0]; lia.
  - done.
Qed.

(** *** Full segments *)

Lemma get_update_status i status seg c :
  jc_get_segment i c = Some seg -> jc_get_segment i (jc_update_segment_status i status c) = Some (with_segment_status status seg).
Proof.
  unfold jc_get_segment, jc_update_segment_status. destruct (segments c !! iden_shard i) as [l|]; [|done]. intros ->.
  cbn [segments set_segments]. by rewrite lookup_insert_eq, lookup_insert_eq.
Qed.
Lemma update_status_frame i status c :
  shards (jc_update_segment_status i status c) = shards c.
Proof. unfold jc_update_segment_status. destruct (segments c !! _) as [l|]; [|done]. by destruct (l !! _). Qed.

(** A batch that goes past the end of the segment. *)
Lemma full_write_validator n i sf seg meta e len :
  jc_get_segment i (jn_cache n) = Some seg -> sg_status seg <> SealUp -> jc_get_segment_meta i (jn_cache n) = Some meta ->
  sf_namespace sf = si_namespace i -> sf_shard_name sf = si_shard_name i -> sf_segment_no sf = si_segment_seq i ->
  0 < mt_end_offset meta < e + len -> -1 <= e < 2 ^ 40 -> len < 2 ^ 40 ->
  write_validator sf (wrap64 e) len n =
  (Err JE_SegmentOffsetAtTheEnd,
   mkJournalNode (jn_files n) (jn_db n) (jn_placement n) (jc_update_segment_status i SealUp (jn_cache n))
     (jn_segment_files n) (jn_now_second n)).
Proof.
  intros H1 H2 H3 N1 N2 N3 He Hr Hlen. unfold write_validator. rewrite N1, N2, N3.
  replace (mkSegmentIdentity (si_namespace i) (si_shard_name i) (si_segment_seq i)) with i by by destruct i.
  erewrite bind_ok by reflexivity. rewrite H1. erewrite bind_ok by reflexivity. rewrite bool_decide_eq_false_2 by done.
  erewrite bind_ok by reflexivity. rewrite H3. erewrite bind_ok by reflexivity.
  unfold is_end_offset, wrap64. rewrite Zplus_mod_idemp_l, Z.mod_small by lia.
  by rewrite (proj2 (Z.ltb_lt 0 _)), (proj2 (Z.ltb_lt (mt_end_offset meta) _)) by lia.
Qed.

Lemma full_write_data n i sf seg meta e data :
  segment_writes (jn_cache n) !! iden_name i = Some (mkSegmentWrite i e sf) -> data <> [] ->
  jc_get_segment i (jn_cache n) = Some seg -> sg_status seg <> SealUp -> jc_get_segment_meta i (jn_cache n) = Some meta ->
  sf_namespace sf = si_namespace i -> sf_shard_name sf = si_shard_name i -> sf_segment_no sf = si_segment_seq i ->
  0 < mt_end_offset meta < e + blen data -> -1 <= e < 2 ^ 40 -> blen data < 2 ^ 40 ->
  write_data conf i data n =
  (Ok (mkSegmentWriteResp ∅ 0 (Some JE_SegmentOffsetAtTheEnd)),
   mkJournalNode (jn_files n) (jn_db n) (jn_placement n)
     (jc_add_segment_write_thread i (mkSegmentWrite i e sf) (jc_update_segment_status i SealUp (jn_cache n)))
     (jn_segment_files n) (jn_now_second n)).
Proof.
  intros Hw Hne H1 H2 H3 N1 N2 N3 He Hr Hl. unfold write_data. erewrite bind_ok.
  2: { unfold get_write. erewrite bind_ok by reflexivity. unfold jc_get_segment_write_thread. rewrite Hw. reflexivity. }
  erewrite bind_ok.
  2: { unfold write_thread_round, batch_write. cbn [sw_segment_iden sw_local_segment_end_offset sw_segment_write].
       rewrite bool_decide_eq_false_2 by done. erewrite bind_err by by eapply full_write_validator. reflexivity. }
  done.
Qed.

(** A segment that is neither written nor about to be is not read. *)
Lemma read_refused n i seg kind filter options :
  is_Some (jc_get_shard (si_namespace i) (si_shard_name i) (jn_cache n)) -> jc_get_segment i (jn_cache n) = Some seg ->
  allow_read seg = false ->
  handle_read conf (Some (read_request i kind filter options)) n =
  (Err (JE_SegmentStatusError (iden_name i) (segment_status_text (sg_status seg))), n).
Proof.
  intros [shard H1] H2 H3. unfold handle_read. erewrite bind_ok by reflexivity. erewrite bind_err; [reflexivity|].
  cbn [rb_messages read_request]. rewrite for_each_cons. cbn [rm_namespace rm_shard_name rm_segment].
  erewrite bind_err; [reflexivity|]. erewrite bind_ok by (apply try_auto_create_shard_ok; by eexists).
  replace (mkSegmentIdentity _ _ _) with i by by destruct i. unfold validator. erewrite bind_ok by reflexivity.
  rewrite H1. erewrite bind_ok by reflexivity. erewrite bind_ok by reflexivity. rewrite H2.
  erewrite bind_ok by reflexivity. by rewrite H3.
Qed.

(** C36: Nobody hears that a segment is full: once the placement center has given
    the segment an end, the first write past it fails, the node marks the
    segment as sealed in its own cache only, without a call to the placement
    center and with the write thread still there, and from then on it refuses
    every read of the segment as well. *)
Theorem full_segment_not_reported n i sf rs k w meta msgs :
  serving conf n i sf rs k -> jc_get_segment_write_thread i (jn_cache n) = Some w ->
  mt_namespace meta = si_namespace i -> mt_shard_name meta = si_shard_name i -> mt_segment_seq meta = si_segment_seq i ->
  msgs <> [] -> 0 < mt_end_offset meta < blen rs - 1 + blen msgs -> blen msgs < 2 ^ 40 ->
  exists n1 n2, grpc_update_cache conf (notice_of conf RT_SegmentMeta meta) n = (Ok tt, n1) /\
    handle_write conf (Some (mkWriteReqBody [request i msgs])) n1 = (Err JE_SegmentOffsetAtTheEnd, n2) /\
    jn_placement n2 = jn_placement n /\ jc_get_segment_write_thread i (jn_cache n2) = Some w /\
    forall kind filter options, handle_read conf (Some (read_request i kind filter options)) n2 =
      (Err (JE_SegmentStatusError (iden_name i) (segment_status_text SealUp)), n2).
Proof.
  intros (S & Hw) Et N1 N2 N3 Hne He Hlen. unfold jc_get_segment_write_thread in Et. pose proof (Hw w Et) as ->. clear Hw.
  pose proof (ss_len _ _ _ _ _ _ S) as Hrs. pose proof (blen_nonneg rs).
  destruct (ss_located _ _ _ _ _ _ S) as (seg & fold & meta0 & H1 & H2 & H3 & H4 & -> & H6 & H7 & H8).
  destruct (set_meta_frame meta (jn_cache n)) as (F1 & F2 & F3 & _).
  rewrite grpc_notice. cbn [parse_notification parse_segment_meta]. rewrite parsed_json.
  set (c1 := jc_set_segment_meta meta (jn_cache n)) in *.
  assert (jc_get_segment i c1 = Some seg) as G1 by (unfold jc_get_segment; by rewrite F2).
  assert (jc_get_segment_meta i c1 = Some meta) as G2 by by apply get_set_meta.
  assert (is_Some (jc_get_shard (si_namespace i) (si_shard_name i) c1)) as G3 by (unfold jc_get_shard; by rewrite F1).
  set (n1 := mkJournalNode (jn_files n) (jn_db n) (jn_placement n) c1 (jn_segment_files n) (jn_now_second n)).
  exists n1. eexists. split; [reflexivity|].
  assert (sg_status seg <> SealUp) as Hst by (intros E; unfold allow_read in H2; by rewrite E in H2).
  pose proof (full_write_data n1 i _ seg meta (blen rs - 1) (new_records n1 i msgs) (eq_trans (f_equal (lookup (iden_name i)) F3) Et)
                (new_records_nonempty _ _ _ Hne) G1 Hst G2 eq_refl eq_refl eq_refl) as W.
  rewrite blen_new_records in W. specialize (W He ltac:(lia) Hlen).
  split; [eapply (handle_write_one conf n1 _ i msgs (Err _)); [|by eapply write_segment_error]|].
  { split; [done|]. split; [by eexists|]. by exists seg. }
  split; [done|]. split; [cbn; apply lookup_insert_eq|]. intros kind filter options.
  rewrite (read_refused _ i (with_segment_status SealUp seg)); [done| | |done].
  - unfold jc_get_shard. cbn [jn_cache jc_add_segment_write_thread set_segment_writes shards n1]. by rewrite update_status_frame.
  - by apply get_update_status.
Qed.

(** *** Deleted segments *)

Lemma delete_segment_gone i c : jc_get_segment i (jc_delete_segment i c) = None.
Proof.
  unfold jc_delete_segment, jc_get_segment.
  set (c1 := match segments c !! iden_shard i with Some l => _ | None => _ end).
  assert (match segments c1 !! iden_shard i with Some l => l !! si_segment_seq i | None => None end = None) as H1.
  { unfold c1. destruct (segments c !! iden_shard i) as [l|] eqn:E; [cbn; by rewrite lookup_insert_eq, lookup_delete_eq|by rewrite E]. }
  clearbody c1. set (c2 := match segment_metadatas c1 !! _ with Some l => _ | None => _ end).
  assert (segments c2 = segments c1) as E2 by (unfold c2; by destruct (segment_metadatas c1 !! _)). rewrite <- E2 in H1.
  clearbody c2. cbn zeta. destruct (segment_index_build_thread _ !! _); destruct (segment_writes _ !! _); exact H1.
Qed.
Lemma delete_segment_writes i c :
  segment_writes c !! iden_shard i = None -> segment_writes (jc_delete_segment i c) = segment_writes c.
Proof.
  intros Hn. unfold jc_delete_segment. destruct (segments c !! _), (segment_metadatas _ !! _), (segment_index_build_thread _ !! _);
    cbn; by rewrite Hn.
Qed.

(** C37: A segment that the placement center has deleted stays on the disk: the call
    succeeds, but the cache forgets the segment before its file is looked for,
    so that the file and the write thread stay, and the question whether the
    files are gone is answered with an error from then on. *)
Theorem deleted_segment_keeps_file n i sf rs k :
  serving conf n i sf rs k -> segment_writes (jn_cache n) !! iden_shard i = None ->
  let name := mkShardName (conf_cluster_name conf) (si_namespace i) (si_shard_name i) in
  exists n', grpc_delete_segment_file conf name (si_segment_seq i) n = (Ok tt, n') /\
    files (jn_files n') !! segment_path sf = Some (stored rs) /\
    segment_writes (jn_cache n') = segment_writes (jn_cache n) /\
    grpc_get_segment_delete_status conf name (si_segment_seq i) n' = (Err (JE_SegmentNotExist (iden_name i)), n').
Proof.
  intros (S & _) Hn name. unfold grpc_delete_segment_file. cbn [name rq_cluster_name rq_namespace rq_shard_name].
  rewrite bool_decide_eq_false_2 by congruence.
  replace (mkSegmentIdentity (si_namespace i) (si_shard_name i) (si_segment_seq i)) with i by by destruct i.
  destruct (ss_located _ _ _ _ _ _ S) as (seg & fold & meta & H1 & _).
  destruct (delete_segment_index_ok i (jn_db n) (ss_open _ _ _ _ _ _ S)) as (d & Ed & _).
  assert (forall n', jc_get_segment i (jn_cache n') = None -> open_segment_write conf i n' = (Err (JE_SegmentNotExist (iden_name i)), n')) as Ho.
  { intros n' Hn'. unfold open_segment_write. erewrite bind_ok by reflexivity. by rewrite Hn'. }
  set (c' := jc_remove_build_index_thread i (jc_delete_segment i (jn_cache n))).
  assert (jc_get_segment i c' = None) as Hc' by apply delete_segment_gone.
  exists (mkJournalNode (jn_files n) d (jn_placement n) c' (delete (iden_name i) (jn_segment_files n)) (jn_now_second n)). split_and!.
  - unfold delete_local_segment. erewrite bind_ok by reflexivity. rewrite H1. change (is_none (Some seg)) with false. cbv iota.
    do 3 erewrite bind_ok by reflexivity.
    erewrite bind_ok by (unfold logged_node, on_index; cbn [jn_db]; rewrite Ed; reflexivity).
    unfold logged_node. by erewrite bind_err by by apply Ho.
  - apply (ss_file _ _ _ _ _ _ S).
  - by apply delete_segment_writes.
  - unfold grpc_get_segment_delete_status. cbn [name rq_cluster_name rq_namespace rq_shard_name].
    rewrite bool_decide_eq_false_2 by congruence. unfold segment_already_delete.
    replace (mkSegmentIdentity (si_namespace i) (si_shard_name i) (si_segment_seq i)) with i by by destruct i.
    by erewrite bind_err by by apply Ho.
Qed.
End segments.

(** *** A segment with one record *)

Section sample.
#[local] Existing Instances map_db map_db_spec map_db_reliable key_order key_orderZ key_orderZ_spec sample_json
  coded_json coded_json_spec coded_prost coded_prost_spec.
#[local] Instance plain_text : ErrorText := {| common_text _ := []; placement_text _ := [] |}.

Definition first_segment : SegmentIdentity := mkSegmentIdentity (lit "ns") (lit "s") 0.
Definition first_file : SegmentFile := SegmentFile_new (lit "ns") (lit "s") 0 (lit "/data").
Definition one_message : WriteReqMessages := mkWriteReqMessages 7 (lit "k") (lit "v") [lit "t"].
Definition some_options : ReadReqOptions := mkReadReqOptions 1000 10.

Lemma new_node_unseen : unseen new_node first_segment first_file.
Proof.
  split_and!; [done| |done..|]; [by vm_compute|]. intros k v Hk.
  assert (idx (jn_db new_node) = ∅) as Hi by by vm_compute. by rewrite Hi, lookup_empty in Hk.
Qed.
Lemma stored_leads : leads journal_conf first_segment first_file stored_shard stored_segment stored_meta.
Proof. split_and!; try done. by exists (lit "/data"). Qed.

(** Every record is written as one octet. *)
Lemma coded_fits (r : JournalRecord) : 0 <= jr_offset r < 2 ^ 63 -> fits r.
Proof. by split. Qed.
Lemma numbered_fits s data : 0 <= s -> s + blen data < 2 ^ 63 -> Forall fits (numbered s data).
Proof.
  intros Hs Hb. apply Forall_forall. intros r [j Hj]%list_elem_of_lookup. unfold numbered in Hj.
  rewrite list_lookup_imap in Hj. apply fmap_Some in Hj as (r0 & Hr0 & ->). apply coded_fits. cbn.
  apply lookup_lt_Some in Hr0. unfold blen in Hb. lia.
Qed.
Lemma messages_ok log num :
  (0 < num)%nat -> blen log + Z.of_nat num < 2 ^ 40 ->
  batch_ok log (map (new_record 100 (request first_segment (repeat one_message num))) (repeat one_message num)).
Proof.
  intros Hn Hb. pose proof (blen_nonneg log).
  assert (forall num', blen (map (new_record 100 (request first_segment (repeat one_message num))) (repeat one_message num')) = Z.of_nat num') as Hl
    by (intros num'; rewrite blen_map; unfold blen; by rewrite repeat_length).
  split_and!.
  - by destruct num; [lia|].
  - apply numbered_fits; rewrite ?Hl; lia.
  - apply Forall_forall. intros r (m & -> & Hm)%list_elem_of_fmap. apply list_elem_of_In, repeat_spec in Hm as ->.
    split; [|cbn; lia]. split; [|repeat constructor]; apply (bool_decide_unpack _); by vm_compute.
  - by rewrite Hl.
Qed.

Definition sample_ops : list seg_op := [SWrite [one_message]; SBuild; SRead 0 some_options].
Lemma sample_ops_ok log : blen log = 0 \/ blen log = 1 -> ops_ok first_segment 100 sample_ops (log, 100).
Proof.
  intros Hl. split; [|done]. split; [apply (messages_ok log 1); lia|].
  cbn [fst]. change (blen [one_message]) with 1. lia.
Qed.


(** The node after the first requests. *)
Definition busy_node : JournalNode map_fs_state (gmap bytes (gmap bytes bytes)) unit :=
  (segment_run journal_conf first_segment stored_shard stored_segment stored_meta sample_ops new_node).2.
Lemma busy_run :
  segment_run journal_conf first_segment stored_shard stored_segment stored_meta sample_ops new_node =
    (Ok (log_run first_segment sample_ops ([], 100)).1, busy_node) /\
  jn_now_second busy_node = 100 /\ tree (jn_files busy_node) (lit "/data") first_segment.
Proof.
  destruct (segment_run_ok journal_conf new_node first_segment first_file stored_shard stored_segment stored_meta
              sample_ops 100 new_node_unseen stored_leads ltac:(lia) (sample_ops_ok [] (or_introl eq_refl))) as (n' & k & E & _ & Hn & _).
  assert (busy_node = n') as -> by (unfold busy_node; by rewrite E). split; [exact E|]. split; [by rewrite <- Hn|].
  assert (n' = busy_node) as -> by (unfold busy_node; by rewrite E).
  split_and!; [|by vm_compute..]. first [left; by vm_compute|right; by vm_compute].
Qed.

Lemma sample_recovers : recovers journal_conf (jn_placement busy_node) tt stored_shard stored_segment stored_meta.
Proof.
  destruct (jn_placement busy_node).
  exists [], tt, (json [stored_shard]), [stored_shard], tt, (json [stored_segment]), [stored_segment], tt, (json [stored_meta]),
    [stored_meta], tt. eexists. split_and!; try reflexivity; try (by left); try by constructor.
  all: by intros s' ->%list_elem_of_singleton.
Qed.

Lemma sample_names : names_ok (lit "/data") first_segment.
Proof.
  split; [done|]. split; [by vm_compute|]. do 2 (split; [apply (bool_decide_unpack _); by vm_compute|]).
  split; [apply (bool_decide_unpack _); by vm_compute|]. by vm_compute.
Qed.

Lemma journal_log_survives_restart_witness :
  exists n2, (init_node journal_conf 3 ;; collect sample_ops (seg_step journal_conf first_segment)) (stopped busy_node) =
    (Ok (log_run first_segment sample_ops (appended first_segment 100 [] [one_message], 100)).1, n2).
Proof.
  destruct busy_run as (E & Hn & Ht).
  destruct (journal_log_survives_restart journal_conf new_node busy_node first_segment first_file (lit "/data") stored_shard
              stored_segment stored_meta sample_ops sample_ops 100 3 _ tt new_node_unseen stored_leads ltac:(lia)
              (sample_ops_ok [] (or_introl eq_refl)) E eq_refl) as (n2 & E2).
  - exact sample_names.
  - exact Ht.
  - exact sample_recovers.
  - by rewrite Hn.
  - lia.
  - rewrite Hn. apply sample_ops_ok. by right.
  - rewrite Hn in E2. exists n2. exact E2.
Defined.

Lemma journal_index_catches_up_witness :
  exists n' l, (segment_run journal_conf first_segment stored_shard stored_segment stored_meta [] ;;
                seg_step journal_conf first_segment (SWrite [one_message]) ;; rounds first_segment 1) new_node = (Ok tt, n') /\
    handle_read journal_conf (Some (read_request first_segment 2 (Some (mkReadReqFilter 0 0 [] (lit "t"))) (Some some_options))) n' =
      (Ok [mkReadRespSegmentMessage (lit "ns") (lit "s") 0 (map record_message l)], n') /\
    l ≡ₚ filter (fun r => lit "t" ∈ jr_tags r /\ 0 <= jr_offset r) (appended first_segment 100 [] [one_message]).
Proof.
  destruct (journal_index_catches_up journal_conf new_node first_segment first_file stored_shard stored_segment stored_meta
              [] [one_message] 100 1 (lit "t") 0 some_options new_node_unseen stored_leads ltac:(lia) I) as (n' & l & E1 & E2 & Hp).
  - apply (proj1 (sample_ops_ok [] (or_introl eq_refl))).
  - by vm_compute.
  - apply (bool_decide_unpack _); by vm_compute.
  - by vm_compute.
  - exists n', l. split; [exact E1|]. split; [exact E2|exact Hp].
Defined.

Lemma indexed_reads_skip_witness :
  exists n', (segment_run journal_conf first_segment stored_shard stored_segment stored_meta [] ;;
      seg_step journal_conf first_segment (SWrite (repeat one_message (Z.to_nat 10000))) ;;
      rounds first_segment (Z.to_nat 102)) new_node = (Ok tt, n') /\
    seg_step journal_conf first_segment (SRead 0 some_options) n' =
      (Ok (Found (map record_message (page 1000 10
         (drop (Z.to_nat 9999) (appended first_segment 100 [] (repeat one_message (Z.to_nat 10000))))))), n').
Proof.
  assert (blen (repeat one_message (Z.to_nat 10000)) = 10000) as Hl by (unfold blen; rewrite repeat_length; lia).
  destruct (indexed_reads_skip journal_conf new_node first_segment first_file stored_shard stored_segment stored_meta
              (repeat one_message (Z.to_nat 10000)) (Z.to_nat 102) 0 some_options new_node_unseen stored_leads) as (n' & E1 & E2).
  - apply (messages_ok [] (Z.to_nat 10000)); [lia|]. change (blen ([] : list JournalRecord)) with 0. lia.
  - rewrite Hl. lia.
  - rewrite Hl. lia.
  - lia.
  - exists n'. split; [exact E1|exact E2].
Defined.

(** A node that has written one record. *)
Definition written_node : JournalNode map_fs_state (gmap bytes (gmap bytes bytes)) unit :=
  (segment_run journal_conf first_segment stored_shard stored_segment stored_meta [SWrite [one_message]] new_node).2.
Definition one_record : list JournalRecord := appended first_segment 100 [] [one_message].
Definition one_thread : SegmentWrite := mkSegmentWrite first_segment 0 first_file.

Lemma is_some_true {A} (o : option A) : is_some o = true -> is_Some o.
Proof. by destruct o; [eexists|]. Qed.
Lemma written_serves :
  exists k, serving journal_conf written_node first_segment first_file one_record k /\ building written_node first_segment /\
    jc_get_segment_write_thread first_segment (jn_cache written_node) = Some one_thread.
Proof.
  destruct (segment_run_ok journal_conf new_node first_segment first_file stored_shard stored_segment stored_meta
              [SWrite [one_message]] 100 new_node_unseen stored_leads ltac:(lia)
              (conj (proj1 (sample_ops_ok [] (or_introl eq_refl))) I)) as (n' & k & E & _ & _ & Hs & _).
  assert (n' = written_node) as -> by (unfold written_node; by rewrite E). exists k. split; [exact Hs|].
  assert (is_some (segment_index_build_thread (jn_cache written_node) !! iden_name first_segment) = true) as Hb by by vm_compute.
  assert (is_some (segment_writes (jn_cache written_node) !! iden_name first_segment) = true) as Hw by by vm_compute.
  split; [exact (is_some_true _ Hb)|]. destruct (is_some_true _ Hw) as [w Ew]. unfold jc_get_segment_write_thread.
  destruct Hs as [_ Hs]. rewrite Ew. by rewrite (Hs w Ew).
Qed.

Definition full_meta : JournalSegmentMetadata := mkJournalSegmentMetadata (lit "c") (lit "ns") (lit "s") 0 0 1 (-1) (-1).

Lemma full_segment_not_reported_witness :
  exists n1 n2, grpc_update_cache journal_conf (notice_of journal_conf RT_SegmentMeta full_meta) written_node = (Ok tt, n1) /\
    handle_write journal_conf (Some (mkWriteReqBody [request first_segment [one_message; one_message]])) n1 =
      (Err JE_SegmentOffsetAtTheEnd, n2) /\ jn_placement n2 = jn_placement written_node /\
    handle_read journal_conf (Some (read_request first_segment 0 None None)) n2 =
      (Err (JE_SegmentStatusError (iden_name first_segment) (lit "SealUp")), n2).
Proof.
  destruct written_serves as (k & Hs & _ & Hw).
  assert ([one_message; one_message] <> []) as Hne by congruence.
  assert (0 < mt_end_offset full_meta < blen one_record - 1 + blen [one_message; one_message]) as He.
  { change (0 < 1 < 1 - 1 + 2). lia. }
  assert (blen [one_message; one_message] < 2 ^ 40) as Hl by (change (blen [one_message; one_message]) with 2; lia).
  pose proof (full_segment_not_reported journal_conf written_node first_segment first_file one_record k one_thread full_meta
              [one_message; one_message] Hs Hw eq_refl eq_refl eq_refl Hne He Hl) as H.
  destruct H as (n1 & n2 & E1 & E2 & Hp & _ & Hr).
  exists n1, n2. split; [exact E1|]. split; [exact E2|]. split; [exact Hp|]. exact (Hr 0 None None).
Defined.

Lemma deleted_segment_keeps_file_witness :
  exists n', grpc_delete_segment_file journal_conf (mkShardName (lit "c") (lit "ns") (lit "s")) 0 written_node = (Ok tt, n') /\
    files (jn_files n') !! segment_path first_file = Some (stored one_record) /\
    grpc_get_segment_delete_status journal_conf (mkShardName (lit "c") (lit "ns") (lit "s")) 0 n' =
      (Err (JE_SegmentNotExist (iden_name first_segment)), n').
Proof.
  destruct written_serves as (k & Hs & _).
  destruct (deleted_segment_keeps_file journal_conf written_node first_segment first_file one_record k Hs ltac:(by vm_compute))
    as (n' & E1 & Hf & _ & E2).
  exists n'. split; [exact E1|]. split; [exact Hf|exact E2].
Defined.

(** The same node on a disk that fails. *)
Definition on_faulty (flags : list bool) (n : JournalNode map_fs_state (gmap bytes (gmap bytes bytes)) unit)
  : JournalNode (list bool * map_fs_state) (gmap bytes (gmap bytes bytes)) unit :=
  mkJournalNode (flags, jn_files n) (jn_db n) (jn_placement n) (jn_cache n) (jn_segment_files n) (jn_now_second n).
Lemma faulty_serves flags n i sf rs k :
  serving journal_conf n i sf rs k -> serving journal_conf (on_faulty flags n) i sf rs k.
Proof. intros [[S1 S2 S3 S4 S5 S6 S7 SB S8 S9 S10 S11 S12 SS S13 SN S14] Hw]. split; [by constructor|exact Hw]. Qed.

Lemma failed_write_restarts_offsets_witness :
  exists n1 n2,
    handle_write journal_conf (Some (mkWriteReqBody [request first_segment [one_message]])) (on_faulty [true] written_node) =
      (Err (JE_StdIoError (lit "No space left on device")), n1) /\
    handle_write journal_conf (Some (mkWriteReqBody [request first_segment [one_message]])) n1 =
      (Ok [mkWriteRespMessage (lit "ns") (lit "s") 0 (statuses (assigned 1 [7]))], n2).
Proof.
  assert ([one_message] <> []) as Hne by congruence.
  assert (blen [one_message] < 2 ^ 40) as Hl by (change (blen [one_message]) with 1; lia).
  destruct written_serves as (k & Hs & Hb & _). revert Hs Hb. generalize written_node. intros n Hs Hb.
  set (data := numbered 1 (new_records n first_segment [one_message])).
  destruct (write_records_ok first_file data _ _ (ss_file _ _ _ _ _ _ (proj1 Hs))) as (g & Hg & _).
  destruct (failed_write_restarts_offsets journal_conf (on_faulty [true] n) first_segment first_file one_record k
    [one_message] [one_message] (JE_StdIoError (lit "No space left on device")) ([], jn_files n) ([], g)
    (faulty_serves [true] _ _ _ _ _ Hs) Hb Hne Hne Hl Hl) as (n1 & n2 & E1 & E2 & _).
  - reflexivity.
  - revert Hg. unfold write_records, map_err. cbn [fs_append faulty_fs fst snd tail]. fold data.
    destruct (fs_append _ _ (jn_files n)) as [[[]| | |] g']; try discriminate. intros E. injection E as ->. reflexivity.
  - exists n1, n2. split; [exact E1|exact E2].
Defined.
End sample.
